(* ===== verification/_CoqProject ===== *)
-Q . S2P
Prelude.v
Wp.v
Crc32.v
XzsfsCore.v
XzsfsSample.v
XzsfsFormat.v
XzsfsGraph.v
XzsfsLookup.v
XzsfsRead.v
Kernel.v
XzsfsDriver.v
XzsfsVnops.v
XzsfsTransfer.v
XzsfsDir.v
XzsfsMount.v
BootArgs.v
BootArgsProofs.v
DeviceTree.v
DeviceTreeProofs.v
DeviceTreeSearch.v
DeviceTreeSafety.v
Adt.v
AdtProofs.v
Memdev.v
MemdevProofs.v
Memory.v
Gpt.v
GptProofs.v
GptParse.v
GptMinors.v
Emmc.v
EmmcDev.v
EmmcCard.v
EmmcBus.v
EmmcAnyHw.v
EmmcRead.v
EmmcWrite.v
EmmcInit.v
EmmcSim.v
EmmcDisk.v
EmmcSafety.v
EmmcLoad.v
EmmcBoot.v
Shell.v
ShellProofs.v
ShellLine.v
ShellSafety.v
ShellLs.v
ShimLog.v
ShimLogProofs.v
ShimFdt.v
Shim.v
ShimProofs.v
ShimHandoff.v
CodeSign.v
CodeSignProofs.v
CodeSignPage.v
CodeSignAuth.v
CodeSignFrame.v
Amfi.v
AmfiProofs.v
CodeSignBlob.v
CodeSignMulti.v
CodeSignLevels.v
CodeSignLocal.v
CodeSignSettle.v
CodeSignAdd.v
CodeSignFile.v
Sandbox.v
SandboxProofs.v
