(* ===== verification/Prelude.v ===== *)
(** * xnu-xzs: from the boot shim to a shell on a signed disk

    The repository ports Apple's XNU kernel to the Sony Xperia XZs.  This development models the
    path the port is about: a boot shim prepares memory and starts the kernel; the kernel reads
    its arguments and device tree, mounts its root file system from a RAM disk, brings up the eMMC,
    checks the signatures of programs, and ends in a shell.  Source paths below are relative to
    src/src (shim, user space) and src/src/xnu (kernel).

    ** The parts, and the files that model them

    Shared.  Prelude: machine integers with their wrap-around, byte lists, the two kinds of
    computation (below), tactics and hint databases.  Memory: partial byte memory and the layout
    of C structures.  Wp: bounded polling loops and weakest preconditions.  Crc32: the three CRC
    implementations of the boot chain.

    Boot shim (xzs-bootshim).  ShimLog is uart.c, the log the kernel continues.  ShimFdt and Shim
    are main.c: finding the kernel through the vendor's device tree, its entry point, the RAM disk
    copy, boot_args, the jump.  Adt is adt.c, which builds the device tree for the kernel.

    Kernel start (pexpert).  BootArgs is gen/bootargs.c, the argument parser.  DeviceTree is
    gen/device_tree.c, the reader of the tree the shim wrote.

    File system (bsd/xzsfs) and its disk.  XzsfsCore is xzsfs_core.c: tables, checksums, the
    validator of the object graph, lookup, reads.  XzsfsDriver is xzsfs_node.c and xzsfs_vfsops.c
    (mount, unmount, the vnode cache) and the adapters of xzsfs_parser.c; XzsfsVnops is the data
    transfer of xzsfs_vnops.c.  Kernel has the services they call.  Memdev is bsd/dev/memdev.c, the
    RAM disk.

    eMMC (pexpert/arm/xzs_sdhci.c).  Gpt is the partition table parser and the minor number map;
    Emmc the transfers with their polling, retries and the write fence; EmmcDev initialisation
    and the device switch; EmmcBoot the sequence that publishes the disk and speeds up the bus.

    Code signing.  CodeSign is the validation of signatures, the lookup of blobs and hashes and the
    page check of bsd/kern/ubc_subr.c; CodeSignBlob its other half, the signatures of a file: hashes
    of hashes, ubc_cs_blob_add, release, revalidation, and load_code_signature of
    bsd/kern/mach_loader.c.  Amfi and Sandbox are the policies of bsd/kern/xzs_amfi.c with the
    entitlement objects of iokit/Kernel/arm/XZSEntitlements.cpp.

    User space (xzs-userland).  Shell is shell.c and shell_line.c.

    The files not named here hold proofs; each says at its top what it shows.  Definitions have the
    names of the C functions; a loop body or a stretch of a long function is a definition of its
    own, with a descriptive name.

    ** How code is modelled

    Integers are [Z], truncated where the C type truncates ([u32], [s64], ...).  Code that only
    reads and writes arrays returns an option: [None] is an access outside an array, so [Some] is
    memory safety besides a value.  Code with more ways to end returns an [outcome]: [Ret],
    [Panic], [Fault] (an access to memory that is not there, or other undefined behaviour) or
    [NoFuel].  Code with effects is a program over a world, [prog W A], a function from a world to
    an outcome; the world is the state the code keeps (device context, heap, vnodes, objects, buffers)
    passed on explicitly.  Shared structures are shared in the model too: objects, entitlements
    and vnodes are referred to by address and reference counted in a map.  Guards against NULL
    arguments that the callers modelled here never pass, messages, locks and pointer
    authentication have no counterpart, except where a lock or a log is the subject (the mutex of
    a mount, the log of denials).

    Code outside the repository, and the parts of the kernel that are not modelled, are interfaces:
    type classes of operations with their laws.  [BlockDevice] and [BufCache] are what the file
    system asks of its disk (the RAM disk provides it: MemdevProofs), [VnodeLayer]/[VnodeLaws] the
    reference counts of vnodes, [UioLayer] copies to user memory, [Mmio]/[SdhciLaws] the controller
    and the card as a state machine that may report any error at any time, [Syscalls], [Console],
    [CountedReads] and [DirStream] the kernel as the shell sees it, [KernelLaws] the processes the
    sandbox looks at, [Digests] the lengths of hash functions, [SigAlloc]/[SigAllocLaws] memory
    allocation.  Each has an instance (a table of vnodes, a simulated card, a toy hash, ...) on
    which the witnesses run.

    ** Fuel and bounds

    Loops that are bounded in the source recurse on that bound.  Walks over data recurse on fuel
    taken from its size: [dt_fuel] is one more than the length of the device tree, a string scan
    gets the size of its buffer, a walk over blobs their count; every step consumes at least one
    byte or entry.  Polling loops count in binary ([poll]); [READ_FUEL] exceeds the sum of the
    poll counters of one transfer, which EmmcAnyHw proves is never reached on any hardware.  The
    one loop without end, the prompt of the shell, is stated for any number of turns.  A theorem
    about what code returns says that it does return, so none holds for want of fuel.

    ** What is shown

    - Boot: the shim ends in the jump with everything in place (ShimProofs), and the kernel's own
      parsers read from that memory what the shim meant (ShimHandoff, AdtProofs).  The argument
      parser and the tree reader are safe on arbitrary input and exact on proper input
      (BootArgsProofs, DeviceTreeProofs, DeviceTreeSearch, DeviceTreeSafety); the log keeps to its
      buffers (ShimLogProofs).
    - File system: the validator decides a declarative well-formedness and what it accepts is a tree
      (XzsfsGraph); lookup and reads are exact over any device that serves the image (XzsfsLookup,
      XzsfsRead, XzsfsTransfer); a directory is enumerated exactly once over any sequence of calls
      (XzsfsDir); mounting leaves exactly the tables of the image or gives everything back
      (XzsfsMount); the RAM disk serves its image (MemdevProofs).
    - eMMC: table parsing decides validity (GptParse, GptMinors); on any conforming hardware reads
      deliver the sectors of their partition, writes reach only userdata, a write is read back
      (EmmcBus, EmmcRead, EmmcWrite, EmmcDisk, EmmcSafety), from boot on and for every sequence of
      calls (EmmcBoot); on any hardware whatever a read ends (EmmcAnyHw).
    - Code signing: validation of arbitrary bytes is safe and decides well-formedness
      (CodeSignProofs); blobs, entitlements and pages are accepted exactly by their digests
      (CodeSignPage, CodeSignAuth); hashes of hashes accept the same pages, up to a collision
      (CodeSignMulti, CodeSignLevels); the signatures of a file satisfy an invariant
      ([file_ok]: valid, in memory of their own, disjoint, by one signer) that adding, releasing,
      revalidating and loading keep, each with the reason of every refusal and with everything
      given back (CodeSignFrame, CodeSignLocal, CodeSignSettle, CodeSignAdd, CodeSignFile);
      entitlements, and through them privileges, come from authentic blobs only (AmfiProofs,
      SandboxProofs).
    - Shell: whatever is typed and whatever the kernel answers, it stays in its arrays
      (ShellSafety); words, line editing and ls are exact (ShellProofs, ShellLine, ShellLs).

    Lemmas that end in a fault or in a surprising result state flaws of the code on concrete input
    (for instance [superblock_wrap_accepted], [slot_past_end], [conversion_overflows_header]).

    ** Not modelled

    The probe phases of the eMMC driver before the persistent one, whose result is text; the UFS,
    USB, RPM, SPMI, display and GPU code, registers of hardware the repository does not specify;
    assembly; the IOKit classes other than the entitlements; the injected library.  Of upstream XNU
    only the files above: virtual memory, scheduling, IPC, the VFS core and network code are reached
    through the interfaces.  Of the code signing files, what the configuration leaves out
    (supplemental signatures, the code signing monitor, the validation bitmap) and the rest of
    kern_cs.c and mach_loader.c.  Concurrency: an operation runs to its
    end without another one in between; sequences of operations are explicit. *)

From stdpp Require Import base list gmap strings.
From Stdlib Require Import ZArith Lia.

#[global] Open Scope Z_scope.

(** ** Machine integers

    A w-bit unsigned C integer is a [Z] in [0, 2^w); every C operation that can
    wrap is followed by the truncation of its type. *)

Definition u8 (x : Z) : Z := x mod 2 ^ 8.
Definition u16 (x : Z) : Z := x mod 2 ^ 16.
Definition u32 (x : Z) : Z := x mod 2 ^ 32.
Definition u64 (x : Z) : Z := x mod 2 ^ 64.

(** Two's complement reading of the low [w] bits. *)
Definition swrap (w x : Z) : Z := (x + 2 ^ (w - 1)) mod 2 ^ w - 2 ^ (w - 1).
Definition s32 (x : Z) : Z := swrap 32 x.
Definition s64 (x : Z) : Z := swrap 64 x.

Definition is_u8 (x : Z) : Prop := 0 <= x < 2 ^ 8.
Definition is_u16 (x : Z) : Prop := 0 <= x < 2 ^ 16.
Definition is_u32 (x : Z) : Prop := 0 <= x < 2 ^ 32.
Definition is_u64 (x : Z) : Prop := 0 <= x < 2 ^ 64.

#[global] Instance is_u8_dec x : Decision (is_u8 x).
Proof. unfold is_u8. apply _. Defined.
#[global] Instance is_u16_dec x : Decision (is_u16 x).
Proof. unfold is_u16. apply _. Defined.
#[global] Instance is_u32_dec x : Decision (is_u32 x).
Proof. unfold is_u32. apply _. Defined.
#[global] Instance is_u64_dec x : Decision (is_u64 x).
Proof. unfold is_u64. apply _. Defined.

Lemma u8_small x : is_u8 x -> u8 x = x.
Proof. apply Z.mod_small. Qed.
Lemma u16_small x : is_u16 x -> u16 x = x.
Proof. apply Z.mod_small. Qed.
Lemma u32_small x : is_u32 x -> u32 x = x.
Proof. apply Z.mod_small. Qed.
Lemma u64_small x : is_u64 x -> u64 x = x.
Proof. apply Z.mod_small. Qed.
Lemma u8_range x : is_u8 (u8 x).
Proof. apply Z.mod_pos_bound; lia. Qed.
Lemma u16_range x : is_u16 (u16 x).
Proof. apply Z.mod_pos_bound; lia. Qed.
Lemma u32_range x : is_u32 (u32 x).
Proof. apply Z.mod_pos_bound; lia. Qed.
Lemma u64_range x : is_u64 (u64 x).
Proof. apply Z.mod_pos_bound; lia. Qed.

Lemma s32_small x : - 2 ^ 31 <= x < 2 ^ 31 -> s32 x = x.
Proof. intros. unfold s32, swrap. change (32 - 1) with 31. rewrite Z.mod_small; lia. Qed.
Lemma s64_small x : - 2 ^ 63 <= x < 2 ^ 63 -> s64 x = x.
Proof. intros. unfold s64, swrap. change (64 - 1) with 63. rewrite Z.mod_small; lia. Qed.

Lemma s64_u64 x : s64 (u64 x) = s64 x.
Proof. unfold s64, swrap, u64. f_equal. by rewrite Zplus_mod_idemp_l. Qed.

Create HintDb cint discriminated.
#[export] Hint Resolve u8_range u16_range u32_range u64_range : cint.

(** [cint] expands the range predicates (and the powers of two they mention)
    so that [lia] sees plain bounds. *)
Ltac cint_unfold :=
  unfold is_u8, is_u16, is_u32, is_u64 in *;
  change (2 ^ 8) with 256 in *; change (2 ^ 16) with 65536 in *;
  change (2 ^ 32) with 4294967296 in *; change (2 ^ 64) with 18446744073709551616 in *.
Ltac cint := cint_unfold; lia.

(** [lia] over [/] and [mod] by constants. *)
Ltac zdm := Z.div_mod_to_equations; lia.

(** Rounding masks: [x & ~(2^k - 1)]. *)
Lemma land_lnot_ones x k : 0 <= k -> Z.land x (Z.lnot (2 ^ k - 1)) = 2 ^ k * (x / 2 ^ k).
Proof.
  intros. rewrite Z.sub_1_r, <- Z.ones_equiv, <- Z.ldiff_land, Z.ldiff_ones_r by lia.
  by rewrite Z.shiftl_mul_pow2, Z.shiftr_div_pow2, Z.mul_comm by lia.
Qed.

Lemma land_mod_pow2_r x y w : 0 <= w -> 0 <= x < 2 ^ w -> Z.land x (y mod 2 ^ w) = Z.land x y.
Proof.
  intros. rewrite <- Z.land_ones by lia. rewrite (Z.land_comm y), Z.land_assoc, Z.land_ones by lia.
  by rewrite Z.mod_small.
Qed.

Lemma land_ones_mod x k : 0 <= k -> Z.land x (2 ^ k - 1) = x mod 2 ^ k.
Proof. intros. by rewrite Z.sub_1_r, <- Z.ones_equiv, Z.land_ones. Qed.

(** ** Byte buffers

    A C object of known extent is the list of its bytes; a pointer into it is an
    offset.  Reads and writes are bounds-checked and yield [None] outside the
    object: [None] stands for undefined behaviour or a kernel panic everywhere in
    the development, so [f x = Some r] says both that the code is memory safe on
    [x] and that it returns [r]. *)

Abbreviation bytes := (list Z).

Definition zlen {A} (l : list A) : Z := Z.of_nat (length l).

Definition byte_at (l : bytes) (i : Z) : option Z :=
  if 0 <=? i then l !! Z.to_nat i else None.

Definition elem_at {A} (l : list A) (i : Z) : option A :=
  if 0 <=? i then l !! Z.to_nat i else None.

(** [sub_bytes l off n]: the [n] bytes at offset [off]. *)
Definition sub_bytes (l : bytes) (off n : Z) : option bytes :=
  if (0 <=? off) && (0 <=? n) && (off + n <=? zlen l)
  then Some (take (Z.to_nat n) (drop (Z.to_nat off) l)) else None.

(** [memcpy(dst + off, src, n)]. *)
Definition copy_into (dst : bytes) (off : Z) (src : bytes) (n : Z) : option bytes :=
  if (0 <=? off) && (0 <=? n) && (off + n <=? zlen dst) && (n <=? zlen src)
  then Some (take (Z.to_nat off) dst ++ take (Z.to_nat n) src
               ++ drop (Z.to_nat (off + n)) dst)
  else None.

(** [dst[i] = b]. *)
Definition put_byte (l : bytes) (i b : Z) : option bytes :=
  if (0 <=? i) && (i <? zlen l) then Some (<[Z.to_nat i := b]> l) else None.

(** Little-endian fields of width [n] bytes. *)
Fixpoint le_split (n : nat) (v : Z) : bytes :=
  match n with
  | O => []
  | S n => (v mod 256) :: le_split n (v / 256)
  end.

Fixpoint le_combine (l : bytes) : Z :=
  match l with
  | [] => 0
  | b :: t => b + 256 * le_combine t
  end.

(** Bytes of a string literal, without its terminator. *)
Definition lit (s : string) : bytes :=
  (fun a => Z.of_N (Ascii.N_of_ascii a)) <$> String.list_ascii_of_string s.

(** ** Control flow

    C [for] and [while] bodies that may [return] out of the loop. *)

Inductive ctl (S R : Type) : Type :=
  | Next (s : S)
  | Exit (r : R).
Arguments Next {S R} s.
Arguments Exit {S R} r.

(** [for (i = i0; i < i0 + n; i++) body]. *)
Fixpoint for_loop {S R} (n : nat) (i : Z) (body : Z -> S -> option (ctl S R))
    (s : S) : option (ctl S R) :=
  match n with
  | O => Some (Next s)
  | Datatypes.S n =>
      match body i s with
      | Some (Next s') => for_loop n (i + 1) body s'
      | Some (Exit r) => Some (Exit r)
      | None => None
      end
  end.

(** [for (;;) body]: the loop leaves with [Exit] only; [None] also when the
    fuel runs out, so a proof that the result is [Some] is a termination proof. *)
Fixpoint loop {S R} (fuel : nat) (body : S -> option (ctl S R)) (s : S) : option R :=
  match fuel with
  | O => None
  | Datatypes.S fuel =>
      match body s with
      | Some (Next s') => loop fuel body s'
      | Some (Exit r) => Some r
      | None => None
      end
  end.

(** A C function that returns [int] and sets its out parameter only on success. *)
Inductive cres (A : Type) : Type :=
  | COk (a : A)
  | CErr (e : Z).
Arguments COk {A} a.
Arguments CErr {A} e.

#[global] Instance cres_eq_dec {A} `{EqDecision A} : EqDecision (cres A).
Proof. solve_decision. Defined.

(** ** Lemmas on buffers *)

Lemma zlen_nonneg {A} (l : list A) : 0 <= zlen l.
Proof. unfold zlen. lia. Qed.
Lemma zlen_nil {A} : zlen (@nil A) = 0.
Proof. reflexivity. Qed.
Lemma zlen_cons {A} (x : A) l : zlen (x :: l) = 1 + zlen l.
Proof. unfold zlen. simpl. lia. Qed.
Lemma zlen_app {A} (l k : list A) : zlen (l ++ k) = zlen l + zlen k.
Proof. unfold zlen. rewrite length_app. lia. Qed.
Lemma zlen_replicate {A} n (x : A) : zlen (replicate n x) = Z.of_nat n.
Proof. unfold zlen. by rewrite length_replicate. Qed.
Lemma zlen_insert {A} i (x : A) l : zlen (<[i := x]> l) = zlen l.
Proof. unfold zlen. by rewrite length_insert. Qed.
Lemma zlen_take {A} n (l : list A) : 0 <= n <= zlen l -> zlen (take (Z.to_nat n) l) = n.
Proof. unfold zlen. rewrite length_take. lia. Qed.
Lemma zlen_drop {A} n (l : list A) : 0 <= n <= zlen l -> zlen (drop (Z.to_nat n) l) = zlen l - n.
Proof. unfold zlen. rewrite length_drop. lia. Qed.
Lemma zlen_fmap {A B} (f : A -> B) l : zlen (f <$> l) = zlen l.
Proof. unfold zlen. by rewrite length_fmap. Qed.

Create HintDb zlen.
#[export] Hint Rewrite @zlen_nil @zlen_cons @zlen_app @zlen_replicate @zlen_insert
  @zlen_fmap : zlen.

Lemma elem_at_Some {A} (l : list A) i x :
  elem_at l i = Some x <-> 0 <= i /\ l !! Z.to_nat i = Some x.
Proof. unfold elem_at. destruct (Z.leb_spec 0 i); naive_solver lia. Qed.

Lemma elem_at_is_Some {A} (l : list A) i : is_Some (elem_at l i) <-> 0 <= i < zlen l.
Proof.
  unfold elem_at, zlen. destruct (Z.leb_spec 0 i).
  - rewrite lookup_lt_is_Some. lia.
  - split; [by intros [] | lia].
Qed.

Lemma elem_at_lt {A} (l : list A) i x : elem_at l i = Some x -> 0 <= i < zlen l.
Proof. intros H. apply elem_at_is_Some. eauto. Qed.

Lemma elem_at_in_range {A} (l : list A) i : 0 <= i < zlen l -> exists x, elem_at l i = Some x.
Proof. intros H. by apply elem_at_is_Some in H as [x Hx]; eauto. Qed.

Lemma elem_at_nat {A} (l : list A) (n : nat) : elem_at l (Z.of_nat n) = l !! n.
Proof. unfold elem_at. rewrite (proj2 (Z.leb_le 0 _)) by lia. by rewrite Nat2Z.id. Qed.

Lemma elem_at_app_l {A} (l k : list A) i :
  0 <= i < zlen l -> elem_at (l ++ k) i = elem_at l i.
Proof.
  unfold elem_at, zlen. intros ?. rewrite (proj2 (Z.leb_le 0 i)) by lia.
  apply lookup_app_l. lia.
Qed.

Lemma elem_at_app_r {A} (l k : list A) i :
  zlen l <= i -> elem_at (l ++ k) i = elem_at k (i - zlen l).
Proof.
  unfold elem_at, zlen. intros ?. rewrite !(proj2 (Z.leb_le 0 _)) by lia.
  rewrite lookup_app_r by lia. f_equal. lia.
Qed.

Lemma elem_at_0_cons {A} (x : A) l : elem_at (x :: l) 0 = Some x.
Proof. reflexivity. Qed.

Lemma elem_at_cons_succ {A} (x : A) l i : 0 <= i -> elem_at (x :: l) (i + 1) = elem_at l i.
Proof.
  intros. unfold elem_at. rewrite !(proj2 (Z.leb_le 0 _)) by lia.
  by replace (Z.to_nat (i + 1)) with (S (Z.to_nat i)) by lia.
Qed.

Lemma byte_at_elem l i : byte_at l i = elem_at l i.
Proof. reflexivity. Qed.

Lemma byte_at_here (pre rest : bytes) c : byte_at (pre ++ c :: rest) (zlen pre) = Some c.
Proof.
  rewrite byte_at_elem, elem_at_app_r by lia. by rewrite Z.sub_diag.
Qed.

Lemma sub_bytes_Some l off n r :
  sub_bytes l off n = Some r <->
  (0 <= off /\ 0 <= n /\ off + n <= zlen l) /\
  r = take (Z.to_nat n) (drop (Z.to_nat off) l).
Proof.
  unfold sub_bytes.
  destruct (Z.leb_spec 0 off), (Z.leb_spec 0 n), (Z.leb_spec (off + n) (zlen l));
    simpl; naive_solver lia.
Qed.

Lemma sub_bytes_in l off n :
  0 <= off -> 0 <= n -> off + n <= zlen l ->
  sub_bytes l off n = Some (take (Z.to_nat n) (drop (Z.to_nat off) l)).
Proof. intros. by apply sub_bytes_Some. Qed.

Lemma sub_bytes_zlen l off n r : sub_bytes l off n = Some r -> zlen r = n.
Proof.
  intros [? ->]%sub_bytes_Some. unfold zlen in *. rewrite length_take, length_drop. lia.
Qed.

Lemma sub_bytes_lookup l off n r (i : nat) :
  sub_bytes l off n = Some r -> Z.of_nat i < n -> r !! i = l !! (Z.to_nat off + i)%nat.
Proof.
  intros [? ->]%sub_bytes_Some ?.
  rewrite lookup_take. case_decide; [| lia]. by rewrite lookup_drop.
Qed.

Lemma sub_bytes_all l : sub_bytes l 0 (zlen l) = Some l.
Proof.
  rewrite sub_bytes_in; [| lia | apply zlen_nonneg | lia].
  unfold zlen. by rewrite Nat2Z.id, drop_0, take_ge.
Qed.

Lemma sub_bytes_at pre x rest off n : zlen pre = off -> zlen x = n -> sub_bytes (pre ++ x ++ rest) off n = Some x.
Proof.
  intros <- <-. pose proof (zlen_nonneg pre). pose proof (zlen_nonneg x). pose proof (zlen_nonneg rest).
  rewrite sub_bytes_in by (rewrite ?zlen_app; lia). f_equal.
  rewrite drop_app_length' by (unfold zlen; lia). apply take_app_length'. unfold zlen. lia.
Qed.

Lemma sub_bytes_app l a b c :
  0 <= a -> 0 <= b -> 0 <= c -> a + b + c <= zlen l ->
  exists x y, sub_bytes l a b = Some x /\ sub_bytes l (a + b) c = Some y /\
              sub_bytes l a (b + c) = Some (x ++ y).
Proof.
  intros. do 2 eexists. rewrite !sub_bytes_in by lia. split_and!; [done.. |].
  f_equal. rewrite !Z2Nat.inj_add by lia.
  by rewrite <- take_take_drop, drop_drop.
Qed.

Lemma copy_into_Some dst off src n r :
  copy_into dst off src n = Some r <->
  (0 <= off /\ 0 <= n /\ off + n <= zlen dst /\ n <= zlen src) /\
  r = take (Z.to_nat off) dst ++ take (Z.to_nat n) src ++ drop (Z.to_nat (off + n)) dst.
Proof.
  unfold copy_into.
  destruct (Z.leb_spec 0 off), (Z.leb_spec 0 n), (Z.leb_spec (off + n) (zlen dst)),
    (Z.leb_spec n (zlen src)); simpl; naive_solver lia.
Qed.

Lemma copy_into_zlen dst off src n r : copy_into dst off src n = Some r -> zlen r = zlen dst.
Proof.
  intros [? ->]%copy_into_Some. unfold zlen in *.
  rewrite !length_app, !length_take, length_drop. lia.
Qed.

Lemma copy_into_prefix dst off src n r :
  copy_into dst off src n = Some r -> take (Z.to_nat off) r = take (Z.to_nat off) dst.
Proof.
  intros [? ->]%copy_into_Some. unfold zlen in *.
  rewrite take_app_le by (rewrite length_take; lia).
  by rewrite take_take, Nat.min_id.
Qed.

(** Appending a copied chunk right after an already copied prefix. *)
Lemma copy_into_extend dst off src n r :
  copy_into dst off src n = Some r ->
  take (Z.to_nat (off + n)) r = take (Z.to_nat off) dst ++ take (Z.to_nat n) src.
Proof.
  intros [? ->]%copy_into_Some. unfold zlen in *.
  rewrite app_assoc, take_app_length'; [done |].
  rewrite length_app, !length_take. lia.
Qed.

Lemma copy_into_suffix dst off src n r :
  copy_into dst off src n = Some r ->
  drop (Z.to_nat (off + n)) r = drop (Z.to_nat (off + n)) dst.
Proof.
  intros [? ->]%copy_into_Some. unfold zlen in *.
  rewrite app_assoc, drop_app_length'; [done |].
  rewrite length_app, !length_take. lia.
Qed.

(** [region l off n]: the in-range part of [l] between [off] and [off + n]. *)
Definition region (l : bytes) (off n : Z) : bytes := take (Z.to_nat n) (drop (Z.to_nat off) l).

Lemma sub_bytes_region l off n :
  0 <= off -> 0 <= n -> off + n <= zlen l -> sub_bytes l off n = Some (region l off n).
Proof. apply sub_bytes_in. Qed.

Lemma zlen_region l off n :
  0 <= off -> 0 <= n -> off + n <= zlen l -> zlen (region l off n) = n.
Proof. intros. by eapply sub_bytes_zlen, sub_bytes_region. Qed.

Lemma region_split l off a b : 0 <= off -> 0 <= a -> 0 <= b ->
  region l off (a + b) = region l off a ++ region l (off + a) b.
Proof.
  intros. unfold region. rewrite !Z2Nat.inj_add by lia.
  by rewrite <- take_take_drop, drop_drop.
Qed.

Lemma region_region l off n o m : 0 <= off -> 0 <= o -> 0 <= m -> o + m <= n ->
  region (region l off n) o m = region l (off + o) m.
Proof.
  intros. unfold region. rewrite Z2Nat.inj_add by lia.
  rewrite <- drop_drop. set (x := drop (Z.to_nat off) l).
  replace (Z.to_nat n) with (Z.to_nat o + (Z.to_nat n - Z.to_nat o))%nat by lia.
  rewrite <- take_drop_commute, take_take. f_equal. lia.
Qed.

Lemma region_0 l off : region l off 0 = [].
Proof. done. Qed.

Lemma region_all l : region l 0 (zlen l) = l.
Proof. unfold region, zlen. by rewrite Nat2Z.id, drop_0, take_ge. Qed.

Lemma region_Forall P l off n : Forall P l -> Forall P (region l off n).
Proof. intros. by apply Forall_take, Forall_drop. Qed.

(** Copying right behind what is already there. *)
Lemma copy_into_append pre suf off src n :
  zlen pre = off -> 0 <= n <= zlen suf -> n <= zlen src ->
  copy_into (pre ++ suf) off src n =
  Some (pre ++ region src 0 n ++ drop (Z.to_nat n) suf).
Proof.
  intros <- ??. unfold region. rewrite drop_0. apply copy_into_Some. rewrite zlen_app. pose proof (zlen_nonneg pre).
  split; [lia |]. rewrite take_app_length' by (unfold zlen; lia). do 2 f_equal.
  rewrite Z2Nat.inj_add by lia. rewrite drop_app_add' by (unfold zlen; lia). done.
Qed.

Lemma put_byte_Some l i b r :
  put_byte l i b = Some r <-> 0 <= i < zlen l /\ r = <[Z.to_nat i := b]> l.
Proof.
  unfold put_byte. destruct (Z.leb_spec 0 i), (Z.ltb_spec i (zlen l)); simpl; naive_solver lia.
Qed.

(** ** Little-endian fields *)

Lemma length_le_split n v : length (le_split n v) = n.
Proof. revert v. induction n; simpl; auto. Qed.

Lemma zlen_le_split n v : zlen (le_split n v) = Z.of_nat n.
Proof. unfold zlen. by rewrite length_le_split. Qed.
#[export] Hint Rewrite zlen_le_split : zlen.

Lemma le_combine_split n v : le_combine (le_split n v) = v mod 256 ^ Z.of_nat n.
Proof.
  revert v. induction n as [|n IH]; intros v; cbn [le_split le_combine].
  - by rewrite Z.mod_1_r.
  - rewrite IH, Nat2Z.inj_succ, Z.pow_succ_r by lia.
    by rewrite Z.rem_mul_r by lia.
Qed.

Lemma le_combine_bound l : Forall is_u8 l -> 0 <= le_combine l < 256 ^ zlen l.
Proof.
  induction 1 as [|b l Hb _ IH]; cbn [le_combine]; [by vm_compute |].
  rewrite zlen_cons, Z.pow_add_r by (pose proof (zlen_nonneg l); lia). cint_unfold. nia.
Qed.

Lemma le_split_combine l : Forall is_u8 l -> le_split (length l) (le_combine l) = l.
Proof.
  induction 1 as [|b l Hb Hl IH]; cbn [le_combine le_split length]; [done |].
  f_equal.
  - rewrite Z.mul_comm, Z.mod_add by lia. apply Z.mod_small. cint.
  - rewrite Z.mul_comm, Z.div_add by lia. rewrite Z.div_small by cint. by rewrite Z.add_0_l.
Qed.

Lemma le_split_is_u8 n v : Forall is_u8 (le_split n v).
Proof.
  revert v. induction n; intros v; cbn [le_split]; constructor; auto.
  apply Z.mod_pos_bound. lia.
Qed.

Lemma le_combine_split_small n v :
  0 <= v < 256 ^ Z.of_nat n -> le_combine (le_split n v) = v.
Proof. intros. rewrite le_combine_split. by apply Z.mod_small. Qed.

(** ** Loop rules *)

Lemma for_loop_inv {S R} (P : Z -> S -> Prop) (Q : R -> Prop) n i body (s : S) :
  P i s ->
  (forall k t, i <= k < i + Z.of_nat n -> P k t ->
     exists c, body k t = Some c /\
       match c with Next t' => P (k + 1) t' | Exit r => Q r end) ->
  exists c, for_loop n i body s = Some c /\
    match c with Next t' => P (i + Z.of_nat n) t' | Exit r => Q r end.
Proof.
  revert i s. induction n as [|n IH]; intros i s HP Hstep; cbn [for_loop].
  - eexists. split; [done |]. simpl. by rewrite Z.add_0_r.
  - destruct (Hstep i s ltac:(lia) HP) as ([t | r] & -> & Hc); [| by eexists].
    destruct (IH (i + 1) t Hc) as (c & -> & Hfin).
    + intros. apply Hstep; [lia | done].
    + eexists. split; [done |]. destruct c; [| done].
      by replace (i + Z.of_nat (Datatypes.S n)) with (i + 1 + Z.of_nat n) by lia.
Qed.

Lemma for_loop_app {S R} n m i body (s : S) :
  for_loop (R:=R) (n + m) i body s =
  match for_loop n i body s with
  | Some (Next t) => for_loop m (i + Z.of_nat n) body t
  | r => r
  end.
Proof.
  revert i s. induction n as [|n IH]; intros i s; cbn [for_loop Nat.add].
  - by rewrite Z.add_0_r.
  - destruct (body i s) as [[t | r] |]; [| done..].
    rewrite IH. by replace (i + 1 + Z.of_nat n) with (i + Z.of_nat (Datatypes.S n)) by lia.
Qed.

(** Total correctness of [loop] by a measure bounded by the fuel. *)
Lemma loop_inv {S R} (P : S -> Prop) (Q : R -> Prop) (measure : S -> nat) fuel body (s : S) :
  P s -> (measure s < fuel)%nat ->
  (forall t, P t -> exists c, body t = Some c /\
     match c with
     | Next t' => P t' /\ (measure t' < measure t)%nat
     | Exit r => Q r
     end) ->
  exists r, loop fuel body s = Some r /\ Q r.
Proof.
  revert s. induction fuel as [|fuel IH]; intros s HP Hm Hstep; [lia |].
  cbn [loop]. destruct (Hstep s HP) as ([t | r] & -> & Hc); [| by eexists].
  destruct Hc. apply IH; [done | lia | done].
Qed.

(** Filling a fixed array from index 0: the first [n] slots are images of the source, the
    others keep what they held. *)
Definition fill_step {A B R} (g : A -> B) (src : list A) (i : Z) (dst : list B)
    : option (ctl (list B) R) :=
  a ← elem_at src i;
  if i <? zlen dst then Some (Next (<[Z.to_nat i := g a]> dst)) else None.

Lemma fill_loop {A B R} (g : A -> B) (src : list A) (dst : list B) (n : nat) :
  Z.of_nat n <= zlen src -> Z.of_nat n <= zlen dst ->
  for_loop (R := R) n 0 (fill_step g src) dst = Some (Next ((g <$> take n src) ++ drop n dst)).
Proof.
  intros Ho Hn.
  destruct (for_loop_inv (R := R)
    (fun k l => l = (g <$> take (Z.to_nat k) src) ++ drop (Z.to_nat k) dst)
    (fun _ => False) n 0 (fill_step g src) dst) as ([l | r] & Hl & Hp); [done | | | done].
  - intros k l Hk ->. unfold fill_step.
    destruct (elem_at_in_range src k ltac:(lia)) as [o Eo]. rewrite Eo. cbn [mbind option_bind].
    apply elem_at_Some in Eo as [_ Eo].
    rewrite (proj2 (Z.ltb_lt _ _)).
    2:{ rewrite zlen_app, zlen_fmap, zlen_take, zlen_drop by lia. lia. }
    eexists. split; [done |]. cbn. unfold zlen in *.
    replace (Z.to_nat (k + 1)) with (S (Z.to_nat k)) by lia.
    rewrite (take_S_r _ _ o) by done. rewrite fmap_app, <- app_assoc. cbn.
    assert (length (g <$> take (Z.to_nat k) src) = Z.to_nat k) as El
      by (rewrite length_fmap, length_take; lia).
    rewrite insert_app_r_alt, El, Nat.sub_diag by lia. f_equal.
    destruct (lookup_lt_is_Some_2 dst (Z.to_nat k)) as [x Ex]; [lia |].
    by rewrite (drop_S dst x) by done.
  - rewrite Hl, Hp. by replace (Z.to_nat (0 + Z.of_nat n)) with n by lia.
Qed.

(** ** Byte loops *)

(** [for (i = i0; i < i0 + n; i++) m[dst + i] = f(i)]. *)
Definition store_loop (n : nat) (i0 dst : Z) (f : Z -> option Z) (m : bytes) : option bytes :=
  r ← for_loop (R := Empty_set) n i0 (fun i m => c ← f i; m ← put_byte m (dst + i) c; Some (Next m)) m;
  match r with Next m => Some m | Exit e => match (e : Empty_set) with end end.

Lemma put_byte_here pre x rest b : put_byte (pre ++ x :: rest) (zlen pre) b = Some (pre ++ b :: rest).
Proof.
  apply put_byte_Some. rewrite zlen_app, zlen_cons. pose proof (zlen_nonneg pre). pose proof (zlen_nonneg rest).
  split; [lia |]. unfold zlen. by rewrite Nat2Z.id, insert_app_r_alt, Nat.sub_diag by lia.
Qed.

Lemma store_loop_ext n : forall i0 dst f g m, (forall k, i0 <= k < i0 + Z.of_nat n -> f k = g k) ->
  store_loop n i0 dst f m = store_loop n i0 dst g m.
Proof.
  unfold store_loop. induction n as [|n IH]; intros i0 dst f g m H; cbn [for_loop]; [done |].
  rewrite (H i0) by lia. destruct (g i0); cbn [mbind option_bind]; [| done].
  destruct (put_byte m (dst + i0) z); cbn [mbind option_bind]; [| done].
  apply IH. intros k Hk. apply H. lia.
Qed.

Lemma store_loop_appends bs : forall i0 dst f pre rest, dst + i0 = zlen pre ->
  (forall k : nat, (k < length bs)%nat -> f (i0 + Z.of_nat k) = bs !! k) -> (length bs <= length rest)%nat ->
  store_loop (length bs) i0 dst f (pre ++ rest) = Some (pre ++ bs ++ drop (length bs) rest).
Proof.
  unfold store_loop.
  induction bs as [|b bs IH]; intros i0 dst f pre rest Hd Hf Hl; cbn [length for_loop]; [by cbn |].
  destruct rest as [|x rest]; [cbn in Hl; lia |].
  pose proof (Hf 0%nat ltac:(cbn; lia)) as H0. rewrite Z.add_0_r in H0. rewrite H0.
  cbn [mbind option_bind lookup list_lookup]. rewrite Hd, put_byte_here. cbn [mbind option_bind].
  specialize (IH (i0 + 1) dst f (pre ++ [b]) rest).
  rewrite <- !app_assoc in IH. cbn [app] in IH. cbn [drop]. cbn [app]. apply IH.
  - rewrite zlen_app, zlen_cons. change (zlen (@nil Z)) with 0. lia.
  - intros k Hk. specialize (Hf (S k) ltac:(cbn; lia)). change ((b :: bs) !! S k) with (bs !! k) in Hf.
    rewrite <- Hf. f_equal. lia.
  - cbn in Hl. lia.
Qed.

(** ** Outcomes

    Where undefined behaviour, a deliberate panic and a loop that needs more fuel have to be
    told apart. *)

Inductive outcome (A : Type) : Type :=
  | Ret (a : A)
  | Panic
  | Fault
  | NoFuel.
Arguments Ret {A} a.
Arguments Panic {A}.
Arguments Fault {A}.
Arguments NoFuel {A}.

#[global] Instance outcome_ret : MRet outcome := @Ret.
#[global] Instance outcome_bind : MBind outcome := fun A B f m =>
  match m with Ret a => f a | Panic => Panic | Fault => Fault | NoFuel => NoFuel end.

Definition of_option {A} (o : option A) : outcome A :=
  match o with Some a => Ret a | None => Fault end.

(** [for (k = 0; k < n; k++)] with early exits. *)
Fixpoint for_ret {S R} (n : nat) (k : Z) (body : Z -> S -> outcome (ctl S R)) (s : S)
    : outcome (ctl S R) :=
  match n with
  | O => Ret (Next s)
  | Datatypes.S n =>
      c ← body k s;
      match c with
      | Next s' => for_ret n (k + 1) body s'
      | Exit r => Ret (Exit r)
      end
  end.

Fixpoint loop_ret {S R} (fuel : nat) (body : S -> outcome (ctl S R)) (s : S) : outcome R :=
  match fuel with
  | O => NoFuel
  | Datatypes.S fuel =>
      c ← body s;
      match c with
      | Next s' => loop_ret fuel body s'
      | Exit r => Ret r
      end
  end.

(** ** Programs over a world

    A computation that reads and changes a state of type [W] and may fail. *)

Definition prog (W A : Type) : Type := W -> outcome (A * W).
#[global] Instance prog_ret W : MRet (prog W) := fun A a w => Ret (a, w).
#[global] Instance prog_bind W : MBind (prog W) := fun A B f m w =>
  match m w with Ret (a, w) => f a w | Panic => Panic | Fault => Fault | NoFuel => NoFuel end.

Definition plift {W A} (o : option A) : prog W A := fun w => a ← of_option o; Ret (a, w).
Definition act {W} (f : W -> W) : prog W unit := fun w => Ret (tt, f w).
Definition call {W A} (f : W -> A * W) : prog W A := fun w => Ret (f w).
Definition attempt {W A} (o : outcome A) : prog W A := fun w => a ← o; Ret (a, w).

(** Running a program step by step. *)
Lemma run_bind {W A B} (f : A -> prog W B) (c : prog W A) w a w' : c w = Ret (a, w') -> (c ≫= f) w = f a w'.
Proof. intros H. unfold mbind, prog_bind. by rewrite H. Qed.
Lemma run_attempt {W A B} (f : A -> prog W B) (o : outcome A) w a : o = Ret a -> (attempt o ≫= f) w = f a w.
Proof. intros ->. done. Qed.
Lemma run_act {W B} (f : unit -> prog W B) (g : W -> W) w : (act g ≫= f) w = f tt (g w).
Proof. done. Qed.
Lemma run_ret {W A B} (f : A -> prog W B) a w : (mret a ≫= f) w = f a w.
Proof. done. Qed.
Lemma run_assoc {W A B C} (f : A -> prog W B) (g : B -> prog W C) (c : prog W A) w :
  ((c ≫= f) ≫= g) w = (c ≫= fun a => f a ≫= g) w.
Proof. unfold mbind, prog_bind. by destruct (c w) as [[a w'] | | |]. Qed.

(** ** Scans *)

(** Turns enough for any scan that moves through the buffer. *)
Definition scan_fuel (s : bytes) : nat := S (S (length s)).

(** Advance while the predicate holds of the character at the position. *)
Definition scan_while (pred : Z -> bool) (s : bytes) (p : Z) : option Z :=
  loop (scan_fuel s) (fun p => c ← byte_at s p; Some (if pred c then Next (p + 1) else Exit p)) p.

Lemma byte_at_past (pre w rest : bytes) c : byte_at (pre ++ w ++ c :: rest) (zlen pre + zlen w) = Some c.
Proof. rewrite app_assoc, <- zlen_app. apply byte_at_here. Qed.

Lemma scan_while_at pred (pre w rest : bytes) c :
  Forall (fun x => pred x = true) w -> pred c = false ->
  scan_while pred (pre ++ w ++ c :: rest) (zlen pre) = Some (zlen pre + zlen w).
Proof.
  intros Hw Hc. unfold scan_while. set (line := pre ++ w ++ c :: rest).
  assert (length w < scan_fuel line)%nat as Hf
    by (unfold scan_fuel, line; rewrite !length_app; lia).
  assert (line = pre ++ w ++ c :: rest) as El by done. clearbody line.
  revert pre El Hf. generalize (scan_fuel line) as fuel.
  induction Hw as [|x w Hx _ IH]; intros fuel pre El Hf; (destruct fuel as [|fuel]; [cbn in Hf; lia |]);
    cbn [loop]; rewrite El at 1; cbn [app].
  - rewrite byte_at_here. cbn [mbind option_bind]. rewrite Hc. by rewrite zlen_nil, Z.add_0_r.
  - rewrite byte_at_here. cbn [mbind option_bind]. rewrite Hx.
    replace (zlen pre + 1) with (zlen (pre ++ [x])) by (rewrite zlen_app; done).
    rewrite (IH fuel (pre ++ [x])); [| by rewrite <- app_assoc | cbn in Hf; lia].
    rewrite zlen_app, !zlen_cons, zlen_nil. f_equal. lia.
Qed.

(** ** Automation

    [split_if] follows the early returns of a model; [bool_to_prop] reads off what a
    taken branch means. *)

Ltac bool_to_prop :=
  repeat match goal with
  | H : (_ && _)%bool = true |- _ => apply andb_true_iff in H as [??]
  | H : (_ || _)%bool = false |- _ => apply orb_false_iff in H as [??]
  | H : (_ || _)%bool = true |- _ =>
      apply orb_true_iff in H;
      rewrite ?orb_true_iff, ?negb_true_iff, ?Z.eqb_eq, ?Z.eqb_neq, ?Z.ltb_lt,
        ?Z.leb_le in H
  | H : (_ && _)%bool = false |- _ =>
      apply andb_false_iff in H;
      rewrite ?andb_false_iff, ?negb_false_iff, ?Z.eqb_eq, ?Z.eqb_neq, ?Z.ltb_ge,
        ?Z.leb_gt in H
  | H : negb _ = true |- _ => apply negb_true_iff in H
  | H : negb _ = false |- _ => apply negb_false_iff in H
  | H : (_ =? _) = true |- _ => apply Z.eqb_eq in H
  | H : (_ =? _) = false |- _ => apply Z.eqb_neq in H
  | H : (_ <? _) = true |- _ => apply Z.ltb_lt in H
  | H : (_ <? _) = false |- _ => apply Z.ltb_ge in H
  | H : (_ <=? _) = true |- _ => apply Z.leb_le in H
  | H : (_ <=? _) = false |- _ => apply Z.leb_gt in H
  end.

(** Case-split the outermost boolean guard of the goal. *)
Ltac split_if :=
  match goal with
  | |- context [if ?b then _ else _] =>
      let E := fresh "Hg" in destruct b eqn:E; bool_to_prop
  end.
