(* ===== verification/Wp.v ===== *)
(** * Bounded polling and weakest preconditions

    Loops of programs over a world (Prelude) whose bounds are too large to be counted in unary,
    as those of a driver that polls a device, and the weakest precondition of such programs:
    [wp c Q w] says that [c], started in [w], returns (no panic, no fault, no lack of fuel)
    and that [Q] holds of what it returns. *)

From stdpp Require Import base list.
From Stdlib Require Import ZArith Lia.
From S2P Require Import Prelude.

(** ** Loops *)

(** [for (k = 0; k < n; k++) body], [n] in binary; the index is part of the state when the body needs it. *)
Fixpoint poll {W S R} (n : positive) (body : S -> prog W (ctl S R)) (s : S) : prog W (ctl S R) :=
  let twice n s := c ← poll n body s; match c with Next s => poll n body s | Exit r => mret (Exit r) end in
  match n with
  | xH => body s
  | xO n => twice n s
  | xI n => c ← body s; match c with Next s => twice n s | Exit r => mret (Exit r) end
  end.

Definition out_of_fuel {W A} : prog W A := fun _ => NoFuel.

(** [for (;;) body], with a bound on the turns. *)
Definition forever {W S R} (fuel : positive) (body : S -> prog W (ctl S R)) (s : S) : prog W R :=
  c ← poll fuel body s;
  match c with Exit r => mret r | Next _ => out_of_fuel end.

(** [for (k = i; k < i + n; k++) body] with no way out but the end. *)
Fixpoint each {W} (n : nat) (i : Z) (body : Z -> prog W unit) : prog W unit :=
  match n with
  | O => mret tt
  | S n => _ ← body i; each n (i + 1) body
  end.

(** ** Weakest preconditions *)

Definition wp {W A} (c : prog W A) (Q : A -> W -> Prop) (w : W) : Prop :=
  match c w with Ret (a, w') => Q a w' | _ => False end.

Lemma wp_elim {W A} (c : prog W A) Q w : wp c Q w -> exists a w', c w = Ret (a, w') /\ Q a w'.
Proof. unfold wp. destruct (c w) as [[a w'] | | |]; naive_solver. Qed.

Lemma wp_intro {W A} (c : prog W A) Q w a w' : c w = Ret (a, w') -> Q a w' -> wp c Q w.
Proof. unfold wp. by intros ->. Qed.

Lemma wp_mono {W A} (c : prog W A) (P Q : A -> W -> Prop) w :
  wp c P w -> (forall a w', P a w' -> Q a w') -> wp c Q w.
Proof. unfold wp. destruct (c w) as [[a w'] | | |]; auto. Qed.

Lemma wp_ret {W A} (a : A) Q (w : W) : Q a w -> wp (mret a) Q w.
Proof. done. Qed.

Lemma wp_bind {W A B} (c : prog W A) (f : A -> prog W B) Q w :
  wp c (fun a => wp (f a) Q) w -> wp (c ≫= f) Q w.
Proof. unfold wp, mbind, prog_bind. by destruct (c w) as [[a w'] | | |]. Qed.

Lemma wp_act {W} (f : W -> W) Q w : Q tt (f w) -> wp (act f) Q w.
Proof. done. Qed.

Lemma wp_call {W A} (f : W -> A * W) Q w : Q (f w).1 (f w).2 -> wp (call f) Q w.
Proof. unfold wp, call. by destruct (f w). Qed.

Lemma wp_get {W A} (f : W -> A) Q w : Q (f w) w -> wp (fun w => Ret (f w, w)) Q w.
Proof. done. Qed.

Lemma wp_plift {W A} (o : option A) a (Q : A -> W -> Prop) w : o = Some a -> Q a w -> wp (plift o) Q w.
Proof. by intros ->. Qed.

(** A precondition that is carried through. *)
Lemma wp_frame {W A} (P : Prop) (c : prog W A) Q w : P -> wp c Q w -> wp c (fun a w' => P /\ Q a w') w.
Proof. intros HP H. by apply (wp_mono _ _ _ _ H). Qed.

(** Turns are counted down by [I]'s index. *)
Lemma wp_poll_count {W S R} (I : Z -> S -> W -> Prop) (Q : R -> W -> Prop) (body : S -> prog W (ctl S R)) :
  (forall k s w, 0 < k -> I k s w ->
     wp (body s) (fun c w' => match c with Next s' => I (k - 1) s' w' | Exit r => Q r w' end) w) ->
  forall n k s w, Zpos n <= k -> I k s w ->
    wp (poll n body s) (fun c w' => match c with Next s' => I (k - Zpos n) s' w' | Exit r => Q r w' end) w.
Proof.
  intros Hb. induction n as [n IH | n IH |]; intros k s w Hk HI; cbn [poll].
  - apply wp_bind, (wp_mono _ _ _ _ (Hb k s w ltac:(lia) HI)). intros [s1 | r] w1 H1; [| done].
    apply wp_bind, (wp_mono _ _ _ _ (IH (k - 1) s1 w1 ltac:(lia) H1)). intros [s2 | r] w2 H2; [| done].
    apply (wp_mono _ _ _ _ (IH (k - 1 - Z.pos n) s2 w2 ltac:(lia) H2)). intros [s3 | r] w3; [| done].
    by replace (k - 1 - Z.pos n - Z.pos n) with (k - Z.pos n~1) by lia.
  - apply wp_bind, (wp_mono _ _ _ _ (IH k s w ltac:(lia) HI)). intros [s2 | r] w2 H2; [| done].
    apply (wp_mono _ _ _ _ (IH (k - Z.pos n) s2 w2 ltac:(lia) H2)). intros [s3 | r] w3; [| done].
    by replace (k - Z.pos n - Z.pos n) with (k - Z.pos n~0) by lia.
  - apply Hb; [lia | done].
Qed.

Lemma wp_poll {W S R} (I : S -> W -> Prop) (Q : ctl S R -> W -> Prop) n (body : S -> prog W (ctl S R)) s w :
  I s w ->
  (forall s w, I s w ->
     wp (body s) (fun c w' => match c with Next s' => I s' w' | Exit r => Q (Exit r) w' end) w) ->
  (forall s w, I s w -> Q (Next s) w) ->
  wp (poll n body s) Q w.
Proof.
  intros HI Hb HQ. eapply wp_mono.
  - apply (wp_poll_count (fun _ => I) (fun r => Q (Exit r)) body) with (k := Zpos n); [intros _ s1 w1 _; apply Hb | lia | done].
  - intros [s' | r] w'; auto.
Qed.

(** A measure that every turn decreases, and that starts below the fuel. *)
Lemma wp_forever {W S R} (I : S -> W -> Prop) (m : S -> Z) (Q : R -> W -> Prop) fuel
    (body : S -> prog W (ctl S R)) s w :
  I s w -> m s < Zpos fuel ->
  (forall s w, I s w -> 0 <= m s /\
     wp (body s) (fun c w' => match c with Next s' => I s' w' /\ m s' < m s | Exit r => Q r w' end) w) ->
  wp (forever fuel body s) Q w.
Proof.
  intros HI Hm Hb. apply wp_bind. eapply wp_mono.
  - apply (wp_poll_count (fun k s w => I s w /\ m s < k) Q body) with (k := Zpos fuel); [| lia | by split].
    intros k s1 w1 _ [H1 Hk]. apply Hb in H1 as [_ H1]. apply (wp_mono _ _ _ _ H1).
    intros [s2 | r] w2; [| done]. intros [H2 ?]. split; [done | lia].
  - intros [s' | r] w'; [| done]. intros [H' ?]. apply Hb in H' as [? _]. lia.
Qed.

Lemma wp_each {W} (I : Z -> W -> Prop) body : forall n i (Q : unit -> W -> Prop) w,
  I i w ->
  (forall k w, i <= k < i + Z.of_nat n -> I k w -> wp (body k) (fun _ => I (k + 1)) w) ->
  (forall w, I (i + Z.of_nat n) w -> Q tt w) ->
  wp (each n i body) Q w.
Proof.
  induction n as [|n IH]; intros i Q w HI Hb HQ; cbn [each].
  - apply wp_ret, HQ. by rewrite Z.add_0_r.
  - apply wp_bind. eapply wp_mono; [apply Hb; [lia | done] |]. intros [] w1 H1.
    apply IH; [done | intros; apply Hb; [lia | done] |].
    intros w2. replace (i + 1 + Z.of_nat n) with (i + Z.of_nat (S n)) by lia. apply HQ.
Qed.

(** [wp_step] runs one instruction of a model. *)
Ltac wp_step :=
  lazymatch goal with
  | |- wp (_ ≫= _) _ _ => apply wp_bind
  | |- wp (mret _) _ _ => apply wp_ret
  | |- wp (act _) _ _ => apply wp_act
  | |- wp (call _) _ _ => apply wp_call
  end.
