(* ===== verification/Crc32.v ===== *)
(** * CRC-32 in the boot chain

    Three independent implementations of the IEEE 802.3 CRC must agree for the root
    filesystem to be accepted: the boot shim checks the copied image bit by bit
    ([shim_crc32], src/xzs-bootshim/main.c), the kernel's file system checks its
    metadata and payloads nibble by nibble ([xzsfs_crc32], bsd/xzsfs/xzsfs_core.c),
    and the whole-disk check goes through the byte table of bsd/libkern/crc32.c
    ([crc32]).  This file proves the three equal on every buffer and that the
    incremental forms compose. *)

From stdpp Require Import base list strings.
From Stdlib Require Import ZArith Lia.
From S2P Require Import Prelude.

(** ** The implementations *)

Definition xzsfs_crc32_table : list Z := [
    0x00000000; 0x1db71064; 0x3b6e20c8; 0x26d930ac;
    0x76dc4190; 0x6b6b51f4; 0x4db26158; 0x5005713c;
    0xedb88320; 0xf00f9344; 0xd6d6a3e8; 0xcb61b38c;
    0x9b64c2b0; 0x86d3d2d4; 0xa00ae278; 0xbdbdf21c ].

(** [~x] on a [uint32_t]. *)
Definition not32 (x : Z) : Z := Z.lxor x 0xffffffff.

(** The two table steps of the loop body, low nibble first. *)
Definition xzsfs_crc32_byte (crc byte : Z) : Z :=
  let crc := Z.lxor (Z.shiftr crc 4)
    (nth (Z.to_nat (Z.land (Z.lxor crc (Z.land byte 0x0f)) 0x0f)) xzsfs_crc32_table 0) in
  Z.lxor (Z.shiftr crc 4)
    (nth (Z.to_nat (Z.land (Z.lxor crc (Z.shiftr byte 4)) 0x0f)) xzsfs_crc32_table 0).

Definition xzsfs_crc32 (crc : Z) (buf : bytes) : Z :=
  not32 (fold_left xzsfs_crc32_byte buf (not32 crc)).

(** One shift of the boot shim's inner loop. *)
Definition shim_crc32_bit (crc : Z) : Z :=
  Z.lxor (Z.shiftr crc 1) (Z.land 0xedb88320 (u32 (- Z.land crc 1))).

Definition shim_crc32_byte (crc byte : Z) : Z :=
  Nat.iter 8 shim_crc32_bit (Z.lxor crc byte).

Definition shim_crc32 (buf : bytes) : Z :=
  not32 (fold_left shim_crc32_byte buf 0xffffffff).

Definition crc32_tab : list Z := [
    0x00000000; 0x77073096; 0xee0e612c; 0x990951ba; 0x076dc419; 0x706af48f;
    0xe963a535; 0x9e6495a3; 0x0edb8832; 0x79dcb8a4; 0xe0d5e91e; 0x97d2d988;
    0x09b64c2b; 0x7eb17cbd; 0xe7b82d07; 0x90bf1d91; 0x1db71064; 0x6ab020f2;
    0xf3b97148; 0x84be41de; 0x1adad47d; 0x6ddde4eb; 0xf4d4b551; 0x83d385c7;
    0x136c9856; 0x646ba8c0; 0xfd62f97a; 0x8a65c9ec; 0x14015c4f; 0x63066cd9;
    0xfa0f3d63; 0x8d080df5; 0x3b6e20c8; 0x4c69105e; 0xd56041e4; 0xa2677172;
    0x3c03e4d1; 0x4b04d447; 0xd20d85fd; 0xa50ab56b; 0x35b5a8fa; 0x42b2986c;
    0xdbbbc9d6; 0xacbcf940; 0x32d86ce3; 0x45df5c75; 0xdcd60dcf; 0xabd13d59;
    0x26d930ac; 0x51de003a; 0xc8d75180; 0xbfd06116; 0x21b4f4b5; 0x56b3c423;
    0xcfba9599; 0xb8bda50f; 0x2802b89e; 0x5f058808; 0xc60cd9b2; 0xb10be924;
    0x2f6f7c87; 0x58684c11; 0xc1611dab; 0xb6662d3d; 0x76dc4190; 0x01db7106;
    0x98d220bc; 0xefd5102a; 0x71b18589; 0x06b6b51f; 0x9fbfe4a5; 0xe8b8d433;
    0x7807c9a2; 0x0f00f934; 0x9609a88e; 0xe10e9818; 0x7f6a0dbb; 0x086d3d2d;
    0x91646c97; 0xe6635c01; 0x6b6b51f4; 0x1c6c6162; 0x856530d8; 0xf262004e;
    0x6c0695ed; 0x1b01a57b; 0x8208f4c1; 0xf50fc457; 0x65b0d9c6; 0x12b7e950;
    0x8bbeb8ea; 0xfcb9887c; 0x62dd1ddf; 0x15da2d49; 0x8cd37cf3; 0xfbd44c65;
    0x4db26158; 0x3ab551ce; 0xa3bc0074; 0xd4bb30e2; 0x4adfa541; 0x3dd895d7;
    0xa4d1c46d; 0xd3d6f4fb; 0x4369e96a; 0x346ed9fc; 0xad678846; 0xda60b8d0;
    0x44042d73; 0x33031de5; 0xaa0a4c5f; 0xdd0d7cc9; 0x5005713c; 0x270241aa;
    0xbe0b1010; 0xc90c2086; 0x5768b525; 0x206f85b3; 0xb966d409; 0xce61e49f;
    0x5edef90e; 0x29d9c998; 0xb0d09822; 0xc7d7a8b4; 0x59b33d17; 0x2eb40d81;
    0xb7bd5c3b; 0xc0ba6cad; 0xedb88320; 0x9abfb3b6; 0x03b6e20c; 0x74b1d29a;
    0xead54739; 0x9dd277af; 0x04db2615; 0x73dc1683; 0xe3630b12; 0x94643b84;
    0x0d6d6a3e; 0x7a6a5aa8; 0xe40ecf0b; 0x9309ff9d; 0x0a00ae27; 0x7d079eb1;
    0xf00f9344; 0x8708a3d2; 0x1e01f268; 0x6906c2fe; 0xf762575d; 0x806567cb;
    0x196c3671; 0x6e6b06e7; 0xfed41b76; 0x89d32be0; 0x10da7a5a; 0x67dd4acc;
    0xf9b9df6f; 0x8ebeeff9; 0x17b7be43; 0x60b08ed5; 0xd6d6a3e8; 0xa1d1937e;
    0x38d8c2c4; 0x4fdff252; 0xd1bb67f1; 0xa6bc5767; 0x3fb506dd; 0x48b2364b;
    0xd80d2bda; 0xaf0a1b4c; 0x36034af6; 0x41047a60; 0xdf60efc3; 0xa867df55;
    0x316e8eef; 0x4669be79; 0xcb61b38c; 0xbc66831a; 0x256fd2a0; 0x5268e236;
    0xcc0c7795; 0xbb0b4703; 0x220216b9; 0x5505262f; 0xc5ba3bbe; 0xb2bd0b28;
    0x2bb45a92; 0x5cb36a04; 0xc2d7ffa7; 0xb5d0cf31; 0x2cd99e8b; 0x5bdeae1d;
    0x9b64c2b0; 0xec63f226; 0x756aa39c; 0x026d930a; 0x9c0906a9; 0xeb0e363f;
    0x72076785; 0x05005713; 0x95bf4a82; 0xe2b87a14; 0x7bb12bae; 0x0cb61b38;
    0x92d28e9b; 0xe5d5be0d; 0x7cdcefb7; 0x0bdbdf21; 0x86d3d2d4; 0xf1d4e242;
    0x68ddb3f8; 0x1fda836e; 0x81be16cd; 0xf6b9265b; 0x6fb077e1; 0x18b74777;
    0x88085ae6; 0xff0f6a70; 0x66063bca; 0x11010b5c; 0x8f659eff; 0xf862ae69;
    0x616bffd3; 0x166ccf45; 0xa00ae278; 0xd70dd2ee; 0x4e048354; 0x3903b3c2;
    0xa7672661; 0xd06016f7; 0x4969474d; 0x3e6e77db; 0xaed16a4a; 0xd9d65adc;
    0x40df0b66; 0x37d83bf0; 0xa9bcae53; 0xdebb9ec5; 0x47b2cf7f; 0x30b5ffe9;
    0xbdbdf21c; 0xcabac28a; 0x53b39330; 0x24b4a3a6; 0xbad03605; 0xcdd70693;
    0x54de5729; 0x23d967bf; 0xb3667a2e; 0xc4614ab8; 0x5d681b02; 0x2a6f2b94;
    0xb40bbe37; 0xc30c8ea1; 0x5a05df1b; 0x2d02ef8d ].

Definition crc32_byte (crc byte : Z) : Z :=
  Z.lxor (nth (Z.to_nat (Z.land (Z.lxor crc byte) 0xff)) crc32_tab 0) (Z.shiftr crc 8).

Definition crc32 (crc : Z) (buf : bytes) : Z :=
  not32 (fold_left crc32_byte buf (not32 crc)).

(** ** The bit step is linear over GF(2) *)

Lemma not32_involutive x : not32 (not32 x) = x.
Proof. unfold not32. by rewrite Z.lxor_assoc, Z.lxor_nilpotent, Z.lxor_0_r. Qed.

Lemma land_1_cases x : Z.land x 1 = 0 \/ Z.land x 1 = 1.
Proof.
  assert (Z.land x 1 = x mod 2) as -> by (apply (Z.land_ones x 1); lia).
  pose proof (Z.mod_pos_bound x 2 ltac:(lia)). lia.
Qed.

Lemma land_lxor_l a b m : Z.land (Z.lxor a b) m = Z.lxor (Z.land a m) (Z.land b m).
Proof.
  apply Z.bits_inj'. intros n _. rewrite !Z.lxor_spec, !Z.land_spec, Z.lxor_spec.
  by destruct (Z.testbit a n), (Z.testbit b n), (Z.testbit m n).
Qed.

Lemma shim_crc32_bit_lxor a b :
  shim_crc32_bit (Z.lxor a b) = Z.lxor (shim_crc32_bit a) (shim_crc32_bit b).
Proof.
  unfold shim_crc32_bit. rewrite Z.shiftr_lxor, land_lxor_l.
  assert (forall x y p q, Z.lxor (Z.lxor x p) (Z.lxor y q) = Z.lxor (Z.lxor x y) (Z.lxor p q)) as E.
  { intros. rewrite !Z.lxor_assoc. f_equal. rewrite <- !Z.lxor_assoc. f_equal. apply Z.lxor_comm. }
  rewrite E. f_equal.
  destruct (land_1_cases a) as [-> | ->], (land_1_cases b) as [-> | ->]; reflexivity.
Qed.

Lemma iter_bit_lxor n a b :
  Nat.iter n shim_crc32_bit (Z.lxor a b) =
  Z.lxor (Nat.iter n shim_crc32_bit a) (Nat.iter n shim_crc32_bit b).
Proof.
  induction n as [|n IH]; [done |]. cbn [Nat.iter nat_rect].
  unfold Nat.iter in *. cbn [nat_rect]. by rewrite IH, shim_crc32_bit_lxor.
Qed.

(** Shifting out zero bits leaves no feedback. *)
Lemma iter_bit_shiftl n x : Nat.iter n shim_crc32_bit (Z.shiftl x (Z.of_nat n)) = x.
Proof.
  revert x. induction n as [|n IH]; intros x; [apply Z.shiftl_0_r |].
  unfold Nat.iter in *. cbn [nat_rect].
  replace (Z.shiftl x (Z.of_nat (S n))) with (Z.shiftl (Z.shiftl x 1) (Z.of_nat n))
    by (rewrite Z.shiftl_shiftl by lia; f_equal; lia).
  rewrite IH. unfold shim_crc32_bit.
  rewrite Z.shiftr_shiftl_l, Z.sub_diag, Z.shiftl_0_r by lia.
  replace (Z.land (Z.shiftl x 1) 1) with 0; [apply Z.lxor_0_r |].
  change 1 with (Z.ones 1) at 2. rewrite Z.land_ones, Z.shiftl_mul_pow2 by lia.
  by rewrite Z.mod_mul by lia.
Qed.

Lemma split_bits n c : 0 <= n ->
  c = Z.lxor (Z.shiftl (Z.shiftr c n) n) (Z.land c (Z.ones n)).
Proof.
  intros Hn. apply Z.bits_inj'. intros k Hk.
  rewrite Z.lxor_spec, Z.land_spec, Z.shiftl_spec by lia.
  destruct (Z.ltb_spec k n).
  - rewrite (Z.testbit_neg_r _ (k - n)), Z.ones_spec_low by lia.
    by destruct (Z.testbit c k).
  - rewrite Z.shiftr_spec, Z.ones_spec_high by lia. rewrite Z.sub_add, andb_false_r.
    by destruct (Z.testbit c k).
Qed.

(** [n] bit steps are one table step, for any table of the residues. *)
Lemma iter_bit_table (tab : list Z) (n : nat) (c : Z) :
  (forall k : nat, (k < 2 ^ n)%nat -> nth k tab 0 = Nat.iter n shim_crc32_bit (Z.of_nat k)) ->
  Nat.iter n shim_crc32_bit c =
  Z.lxor (Z.shiftr c (Z.of_nat n))
         (nth (Z.to_nat (Z.land c (Z.ones (Z.of_nat n)))) tab 0).
Proof.
  intros Htab. rewrite (split_bits (Z.of_nat n) c) at 1 by lia.
  rewrite iter_bit_lxor, iter_bit_shiftl. f_equal.
  rewrite Z.land_ones by lia.
  pose proof (Z.mod_pos_bound c (2 ^ Z.of_nat n) ltac:(lia)).
  assert (Z.of_nat (2 ^ n) = 2 ^ Z.of_nat n) by apply Nat2Z.inj_pow.
  rewrite Htab by lia. by rewrite Z2Nat.id by lia.
Qed.

(** A table is right when its entries are the residues; decided by evaluation. *)
Lemma table_ok_by_eval (tab : list Z) (n : nat) :
  forallb (fun k => nth k tab 0 =? Nat.iter n shim_crc32_bit (Z.of_nat k)) (seq 0 (2 ^ n)) = true ->
  forall k : nat, (k < 2 ^ n)%nat -> nth k tab 0 = Nat.iter n shim_crc32_bit (Z.of_nat k).
Proof.
  intros H k Hk. rewrite forallb_forall in H.
  apply Z.eqb_eq, H, in_seq. lia.
Qed.

Lemma nibble_table_ok (k : nat) : (k < 2 ^ 4)%nat ->
  nth k xzsfs_crc32_table 0 = Nat.iter 4 shim_crc32_bit (Z.of_nat k).
Proof. apply (table_ok_by_eval xzsfs_crc32_table 4). by vm_compute. Qed.

Lemma byte_table_ok (k : nat) : (k < 2 ^ 8)%nat ->
  nth k crc32_tab 0 = Nat.iter 8 shim_crc32_bit (Z.of_nat k).
Proof. apply (table_ok_by_eval crc32_tab 8). by vm_compute. Qed.

Lemma shiftr_byte_high b : is_u8 b -> Z.shiftr b 8 = 0.
Proof. intros. rewrite Z.shiftr_div_pow2 by lia. apply Z.div_small. done. Qed.

Lemma crc32_byte_shim c b : is_u8 b -> crc32_byte c b = shim_crc32_byte c b.
Proof.
  intros Hb. unfold crc32_byte, shim_crc32_byte.
  rewrite (iter_bit_table crc32_tab 8) by apply byte_table_ok.
  change (Z.of_nat 8) with 8. change (Z.ones 8) with 0xff.
  by rewrite Z.shiftr_lxor, (shiftr_byte_high b), Z.lxor_0_r, Z.lxor_comm by done.
Qed.

Lemma xzsfs_crc32_byte_shim c b : is_u8 b -> xzsfs_crc32_byte c b = shim_crc32_byte c b.
Proof.
  intros Hb. unfold xzsfs_crc32_byte, shim_crc32_byte.
  change 8%nat with (4 + 4)%nat. rewrite Nat.iter_add.
  rewrite (iter_bit_table xzsfs_crc32_table 4 (Z.lxor c b)) by apply nibble_table_ok.
  rewrite (iter_bit_table xzsfs_crc32_table 4) by apply nibble_table_ok.
  change (Z.of_nat 4) with 4. change (Z.ones 4) with 0x0f.
  rewrite !Z.shiftr_lxor, !land_lxor_l, <- (Z.land_assoc b), Z.land_diag.
  set (t := nth _ _ _). rewrite (Z.shiftr_shiftr b) by lia. change (4 + 4) with 8.
  rewrite (shiftr_byte_high b), Z.lxor_0_r by done. f_equal.
  f_equal. f_equal. rewrite !Z.lxor_assoc. f_equal. apply Z.lxor_comm.
Qed.

(** Unfolding [fold_left] by rewriting keeps the kernel from unfolding the steps. *)
Lemma fold_left_cons {A B} (f : A -> B -> A) x l a :
  fold_left f (x :: l) a = fold_left f l (f a x).
Proof. reflexivity. Qed.

Lemma fold_left_ext_u8 (f g : Z -> Z -> Z) l c :
  (forall a b, is_u8 b -> f a b = g a b) -> Forall is_u8 l ->
  fold_left f l c = fold_left g l c.
Proof.
  intros Hfg Hl. revert c. induction Hl as [|b l Hb Hl IH]; intros c; [done |].
  cbn [fold_left]. by rewrite Hfg, IH.
Qed.

(** ** The bit step is invertible on 32-bit registers *)

Lemma shim_crc32_bit_range c : is_u32 c -> is_u32 (shim_crc32_bit c).
Proof.
  intros Hc. unfold shim_crc32_bit.
  assert (is_u32 (Z.shiftr c 1)).
  { rewrite Z.shiftr_div_pow2 by lia. cint_unfold. change (2 ^ 1) with 2.
    split; [apply Z.div_pos; lia | apply Z.div_lt_upper_bound; lia]. }
  destruct (land_1_cases c) as [-> | ->]; cbn -[Z.lxor Z.shiftr].
  - by rewrite Z.lxor_0_r.
  - change (Z.land _ _) with 0xedb88320. split; [apply Z.lxor_nonneg; cint |].
    destruct (decide (Z.lxor (Z.shiftr c 1) 3988292384 = 0)) as [-> |]; [lia |].
    apply Z.log2_lt_cancel. rewrite Z.log2_pow2 by lia.
    apply Z.le_lt_trans with (Z.max (Z.log2 (Z.shiftr c 1)) (Z.log2 3988292384)).
    + apply Z.log2_lxor; cint.
    + apply Z.max_lub_lt; [| by vm_compute].
      destruct (Z.leb_spec (Z.shiftr c 1) 0).
      * rewrite Z.log2_nonpos; lia.
      * apply Z.log2_lt_pow2; cint.
Qed.

Lemma shim_crc32_bit_top c : is_u32 c ->
  Z.testbit (shim_crc32_bit c) 31 = negb (Z.land c 1 =? 0).
Proof.
  intros Hc. unfold shim_crc32_bit. rewrite Z.lxor_spec, Z.shiftr_spec by lia.
  rewrite (Z.bits_above_log2 c) by
    (try (destruct (decide (c = 0)) as [-> |]; [by vm_compute | apply Z.log2_lt_pow2; cint]); cint).
  destruct (land_1_cases c) as [-> | ->]; reflexivity.
Qed.

Lemma shim_crc32_bit_inj a b :
  is_u32 a -> is_u32 b -> shim_crc32_bit a = shim_crc32_bit b -> a = b.
Proof.
  intros Ha Hb E.
  assert (Z.land a 1 = Z.land b 1) as El.
  { pose proof (shim_crc32_bit_top a Ha) as Ta. pose proof (shim_crc32_bit_top b Hb) as Tb.
    rewrite E, Tb in Ta.
    destruct (land_1_cases a) as [Ea | Ea], (land_1_cases b) as [Eb | Eb];
      rewrite Ea, Eb in *; done. }
  unfold shim_crc32_bit in E. rewrite El in E.
  apply (f_equal (fun x => Z.lxor x (Z.land 3988292384 (u32 (- Z.land b 1))))) in E.
  rewrite !Z.lxor_assoc, !Z.lxor_nilpotent, !Z.lxor_0_r in E.
  rewrite (split_bits 1 a), (split_bits 1 b) by lia.
  change (Z.ones 1) with 1. by rewrite E, El.
Qed.

Lemma iter_bit_range n c : is_u32 c -> is_u32 (Nat.iter n shim_crc32_bit c).
Proof.
  intros. unfold Nat.iter. induction n; [done |]. by apply shim_crc32_bit_range.
Qed.

Lemma iter_bit_inj n a b : is_u32 a -> is_u32 b ->
  Nat.iter n shim_crc32_bit a = Nat.iter n shim_crc32_bit b -> a = b.
Proof.
  intros Ha Hb. induction n as [|n IH]; [done |]. cbn. intros E.
  apply IH, shim_crc32_bit_inj; [by apply iter_bit_range.. | done].
Qed.

#[local] Opaque Nat.iter shim_crc32_bit.

Lemma lxor_range_u32 a b : is_u32 a -> is_u32 b -> is_u32 (Z.lxor a b).
Proof.
  intros Ha Hb. split; [apply Z.lxor_nonneg; cint |].
  destruct (Z.leb_spec (Z.lxor a b) 0); [cint |].
  apply Z.log2_lt_cancel. rewrite Z.log2_pow2 by lia.
  eapply Z.le_lt_trans; [apply Z.log2_lxor; cint |].
  assert (forall x, is_u32 x -> Z.log2 x < 32) as Hl.
  { intros x Hx. destruct (Z.leb_spec x 0); [rewrite Z.log2_nonpos; lia |].
    apply Z.log2_lt_pow2; cint. }
  apply Z.max_lub_lt; auto.
Qed.

Lemma lxor_cancel_r a b c : Z.lxor a c = Z.lxor b c -> a = b.
Proof.
  intros E. apply (f_equal (fun x => Z.lxor x c)) in E.
  by rewrite !Z.lxor_assoc, !Z.lxor_nilpotent, !Z.lxor_0_r in E.
Qed.

Lemma is_u8_u32 b : is_u8 b -> is_u32 b.
Proof. cint. Qed.
#[local] Hint Resolve is_u8_u32 lxor_range_u32 : cint.

Lemma shim_crc32_byte_range c b : is_u32 c -> is_u8 b -> is_u32 (shim_crc32_byte c b).
Proof. intros. unfold shim_crc32_byte. apply iter_bit_range. auto with cint. Qed.

Lemma shim_crc32_byte_inj a b x y : is_u32 a -> is_u32 b -> is_u8 x -> is_u8 y ->
  shim_crc32_byte a x = shim_crc32_byte b y -> Z.lxor a x = Z.lxor b y.
Proof.
  intros ???? E. unfold shim_crc32_byte in E.
  apply (iter_bit_inj 8) in E; [done | auto with cint..].
Qed.

Lemma shim_crc32_fold_inj l a b : Forall is_u8 l -> is_u32 a -> is_u32 b ->
  fold_left shim_crc32_byte l a = fold_left shim_crc32_byte l b -> a = b.
Proof.
  intros Hl. revert a b. induction Hl as [|x l Hx Hl IH]; intros a b Ha Hb E; [done |].
  rewrite !fold_left_cons in E. apply IH in E; [| by apply shim_crc32_byte_range..].
  apply shim_crc32_byte_inj in E; [by eapply lxor_cancel_r | done..].
Qed.

Lemma shim_crc32_fold_range l c : Forall is_u8 l -> is_u32 c ->
  is_u32 (fold_left shim_crc32_byte l c).
Proof.
  intros Hl. revert c. induction Hl; intros; [done |].
  rewrite fold_left_cons. auto using shim_crc32_byte_range.
Qed.

Lemma xzsfs_crc32_shim_fold c buf : Forall is_u8 buf ->
  xzsfs_crc32 c buf = not32 (fold_left shim_crc32_byte buf (not32 c)).
Proof.
  intros. unfold xzsfs_crc32. f_equal.
  apply fold_left_ext_u8; [apply xzsfs_crc32_byte_shim | done].
Qed.

Lemma xzsfs_crc32_range c buf : Forall is_u8 buf -> is_u32 c -> is_u32 (xzsfs_crc32 c buf).
Proof.
  intros. rewrite xzsfs_crc32_shim_fold by done. unfold not32.
  apply lxor_range_u32; [| by vm_compute].
  apply shim_crc32_fold_range; [done |]. apply lxor_range_u32; [done | by vm_compute].
Qed.

(** ** Properties *)

(** C36. The nibble-table CRC of the file system, the bitwise CRC of the boot shim
    and the byte-table CRC of the kernel library compute the same function of every
    byte buffer, from any running value. *)
Theorem crc_implementations_agree (c : Z) (buf : bytes) (Hbuf : Forall is_u8 buf) :
  xzsfs_crc32 0 buf = shim_crc32 buf /\ crc32 c buf = xzsfs_crc32 c buf.
Proof.
  split; [by rewrite xzsfs_crc32_shim_fold |].
  rewrite xzsfs_crc32_shim_fold by done. unfold crc32. f_equal.
  apply fold_left_ext_u8; [apply crc32_byte_shim | done].
Qed.

Lemma crc_implementations_agree_witness :
  Forall is_u8 (lit "123456789") /\ shim_crc32 (lit "123456789") = 0xcbf43926 /\
  xzsfs_crc32 0 (lit "123456789") = shim_crc32 (lit "123456789").
Proof.
  assert (Forall is_u8 (lit "123456789")) as H
    by (apply (bool_decide_unpack _); by vm_compute).
  split; [exact H |]. split; [by vm_compute |].
  exact (proj1 (crc_implementations_agree 0 (lit "123456789") H)).
Defined.

(** The file-system CRC composes: checking the superblock, the object table and
    the string table one after the other (each call seeded with the previous result)
    is checking their concatenation. *)
Theorem xzsfs_crc32_compose (c : Z) (a b : bytes) :
  xzsfs_crc32 (xzsfs_crc32 c a) b = xzsfs_crc32 c (a ++ b).
Proof.
  unfold xzsfs_crc32. by rewrite not32_involutive, fold_left_app.
Qed.

(** A single corrupted byte anywhere in a buffer changes its file-system CRC. *)
Theorem xzsfs_crc32_detects_byte (c : Z) (pre suf : bytes) (x y : Z)
    (Hc : is_u32 c) (Hpre : Forall is_u8 pre) (Hsuf : Forall is_u8 suf)
    (Hx : is_u8 x) (Hy : is_u8 y) (Hne : x <> y) :
  xzsfs_crc32 c (pre ++ x :: suf) <> xzsfs_crc32 c (pre ++ y :: suf).
Proof.
  rewrite !xzsfs_crc32_shim_fold by (apply Forall_app; split; [done |]; by constructor).
  rewrite !fold_left_app, !fold_left_cons. intros E%lxor_cancel_r.
  assert (is_u32 (fold_left shim_crc32_byte pre (not32 c))) as Hp.
  { apply shim_crc32_fold_range; [done |]. apply lxor_range_u32; [done | by vm_compute]. }
  apply shim_crc32_fold_inj in E; [| done | by apply shim_crc32_byte_range..].
  apply shim_crc32_byte_inj in E; [| done..].
  apply Hne. rewrite !(Z.lxor_comm (fold_left _ _ _)) in E. by eapply lxor_cancel_r.
Qed.

Lemma xzsfs_crc32_detects_byte_witness :
  xzsfs_crc32 0 ([1; 2] ++ 3 :: [4]) <> xzsfs_crc32 0 ([1; 2] ++ 7 :: [4]).
Proof.
  apply (xzsfs_crc32_detects_byte 0 [1; 2] [4] 3 7);
    first [apply (bool_decide_unpack _); by vm_compute | lia].
Defined.
