(* ===== verification/XzsfsCore.v ===== *)
(** * XZSFS: the on-disk format and its parser

    Models bsd/xzsfs/xzsfs_core.h and xzsfs_core.c: the packed superblock and object
    records, the block-read callback, the loaders of the object and string tables, the
    metadata CRC check, the object-graph validator, the in-memory node table, name
    lookup and file reads.  Every access to a fixed-size C array is bounds-checked, so
    a result [Some _] is memory safety as well as a value. *)

From stdpp Require Import base list.
From Stdlib Require Import ZArith Lia.
From S2P Require Import Prelude Crc32.

Definition XZSFS_MAGIC : Z := 0x5346535A.
Definition XZSFS_VERSION : Z := 1.
Definition XZSFS_SECTOR_SIZE : Z := 512.
Definition XZSFS_HEADER_SIZE : Z := 512.
Definition XZSFS_MAX_OBJECTS : Z := 32.
Definition XZSFS_MAX_STRTAB_SIZE : Z := 2048.
Definition XZSFS_TYPE_DIR : Z := 1.
Definition XZSFS_TYPE_REG : Z := 2.
Definition XZSFS_ERR_OK : Z := 0.
Definition XZSFS_ERR_INVAL : Z := 22.
Definition XZSFS_ERR_NOENT : Z := 2.
Definition XZSFS_ERR_NOTDIR : Z := 20.
Definition XZSFS_ERR_ROFS : Z := 30.
Definition XZSFS_ERR_IO : Z := 5.

(** ** Data model *)

Record xzsfs_disk_superblock := SB {
  sb_magic : Z;
  sb_format_version : Z;
  sb_header_size : Z;
  sb_sector_size : Z;
  sb_image_size_bytes : Z;
  sb_object_count : Z;
  sb_root_object_id : Z;
  sb_object_table_offset : Z;
  sb_object_table_size : Z;
  sb_string_table_offset : Z;
  sb_string_table_size : Z;
  sb_data_offset : Z;
  sb_data_size : Z;
  sb_metadata_crc32 : Z;
  sb_reserved : Z;
  sb_padding : bytes;
}.

Record xzsfs_disk_object := Obj {
  ob_object_id : Z;
  ob_parent_id : Z;
  ob_type : Z;
  ob_mode : Z;
  ob_uid : Z;
  ob_gid : Z;
  ob_name_offset : Z;
  ob_name_length : Z;
  ob_data_offset : Z;
  ob_data_length : Z;
  ob_reserved1 : Z;
  ob_reserved2 : Z;
}.

(** [cn_name] is the pointer [&fs->strtab[name_offset]], as the offset. *)
Record xzsfs_core_node := CNode {
  cn_object_id : Z;
  cn_parent_id : Z;
  cn_type : Z;
  cn_mode : Z;
  cn_uid : Z;
  cn_gid : Z;
  cn_data_offset : Z;
  cn_data_length : Z;
  cn_name : Z;
  cn_name_length : Z;
}.

Record xzsfs_core_fs := CoreFs {
  fs_sb : xzsfs_disk_superblock;
  fs_node_count : Z;
  fs_nodes : list xzsfs_core_node;
  fs_strtab : bytes;
}.

(** [xzsfs_block_read_fn] with its context applied: LBA and sector count to an
    error code and the bytes stored in the caller's buffer. *)
Definition xzsfs_block_read_fn : Type := Z -> Z -> Z * bytes.

(** ** The packed layouts *)

Definition field (n : nat) (b : bytes) (off : nat) : Z := le_combine (take n (drop off b)).
Definition field32 : bytes -> nat -> Z := field 4.
Definition field64 : bytes -> nat -> Z := field 8.

(** [memcpy(sb, sec_buf, sizeof(struct xzsfs_disk_superblock))]. *)
Definition decode_superblock (b : bytes) : xzsfs_disk_superblock :=
  SB (field32 b 0) (field32 b 4) (field32 b 8) (field32 b 12) (field64 b 16)
     (field32 b 24) (field32 b 28) (field64 b 32) (field64 b 40) (field64 b 48)
     (field64 b 56) (field64 b 64) (field64 b 72) (field32 b 80) (field32 b 84)
     (take 424 (drop 88 b)).

(** The bytes of a superblock object, as the CRC reads them. *)
Definition encode_superblock (sb : xzsfs_disk_superblock) : bytes :=
  le_split 4 (sb_magic sb) ++ le_split 4 (sb_format_version sb) ++
  le_split 4 (sb_header_size sb) ++ le_split 4 (sb_sector_size sb) ++
  le_split 8 (sb_image_size_bytes sb) ++ le_split 4 (sb_object_count sb) ++
  le_split 4 (sb_root_object_id sb) ++ le_split 8 (sb_object_table_offset sb) ++
  le_split 8 (sb_object_table_size sb) ++ le_split 8 (sb_string_table_offset sb) ++
  le_split 8 (sb_string_table_size sb) ++ le_split 8 (sb_data_offset sb) ++
  le_split 8 (sb_data_size sb) ++ le_split 4 (sb_metadata_crc32 sb) ++
  le_split 4 (sb_reserved sb) ++ sb_padding sb.

(** [sizeof(struct xzsfs_disk_object)]. *)
Definition OBJECT_SIZE : Z := 64.

Definition decode_object (b : bytes) : xzsfs_disk_object :=
  Obj (field32 b 0) (field32 b 4) (field32 b 8) (field32 b 12) (field32 b 16)
      (field32 b 20) (field32 b 24) (field32 b 28) (field64 b 32) (field64 b 40)
      (field64 b 48) (field64 b 56).

Definition encode_object (o : xzsfs_disk_object) : bytes :=
  le_split 4 (ob_object_id o) ++ le_split 4 (ob_parent_id o) ++
  le_split 4 (ob_type o) ++ le_split 4 (ob_mode o) ++
  le_split 4 (ob_uid o) ++ le_split 4 (ob_gid o) ++
  le_split 4 (ob_name_offset o) ++ le_split 4 (ob_name_length o) ++
  le_split 8 (ob_data_offset o) ++ le_split 8 (ob_data_length o) ++
  le_split 8 (ob_reserved1 o) ++ le_split 8 (ob_reserved2 o).

(** The array [struct xzsfs_disk_object objects[n]] over its bytes. *)
Fixpoint decode_objects (n : nat) (b : bytes) : list xzsfs_disk_object :=
  match n with
  | O => []
  | S n => decode_object (take 64 b) :: decode_objects n (drop 64 b)
  end.

(** ** Loading *)

Definition xzsfs_core_read_superblock (read_fn : xzsfs_block_read_fn)
    (sb : xzsfs_disk_superblock) : Z * xzsfs_disk_superblock :=
  let '(err, sec_buf) := read_fn 0 1 in
  if negb (err =? 0) then (err, sb)
  else (XZSFS_ERR_OK, decode_superblock sec_buf).

Definition xzsfs_core_validate_superblock (sb : xzsfs_disk_superblock) : Z :=
  if negb (sb_magic sb =? XZSFS_MAGIC) then XZSFS_ERR_INVAL
  else if negb (sb_format_version sb =? XZSFS_VERSION) then XZSFS_ERR_INVAL
  else if negb (sb_header_size sb =? XZSFS_HEADER_SIZE) then XZSFS_ERR_INVAL
  else if negb (sb_sector_size sb =? XZSFS_SECTOR_SIZE) then XZSFS_ERR_INVAL
  else if negb (sb_image_size_bytes sb mod XZSFS_SECTOR_SIZE =? 0) then XZSFS_ERR_INVAL
  else if sb_image_size_bytes sb <? 4 * XZSFS_SECTOR_SIZE then XZSFS_ERR_INVAL
  else if (sb_object_count sb =? 0) || (XZSFS_MAX_OBJECTS <? sb_object_count sb)
  then XZSFS_ERR_INVAL
  else if negb (sb_root_object_id sb =? 1) then XZSFS_ERR_INVAL
  else if negb (sb_object_table_offset sb =? XZSFS_SECTOR_SIZE) then XZSFS_ERR_INVAL
  else if negb (sb_object_table_size sb =? u64 (sb_object_count sb * OBJECT_SIZE))
  then XZSFS_ERR_INVAL
  else if sb_string_table_offset sb <?
            u64 (sb_object_table_offset sb + sb_object_table_size sb)
  then XZSFS_ERR_INVAL
  else if negb (sb_string_table_offset sb mod XZSFS_SECTOR_SIZE =? 0) then XZSFS_ERR_INVAL
  else if (sb_string_table_size sb =? 0) ||
          (XZSFS_MAX_STRTAB_SIZE <? sb_string_table_size sb)
  then XZSFS_ERR_INVAL
  else if negb (sb_string_table_size sb mod XZSFS_SECTOR_SIZE =? 0) then XZSFS_ERR_INVAL
  else if sb_data_offset sb <?
            u64 (sb_string_table_offset sb + sb_string_table_size sb)
  then XZSFS_ERR_INVAL
  else if negb (sb_data_offset sb mod XZSFS_SECTOR_SIZE =? 0) then XZSFS_ERR_INVAL
  else if sb_image_size_bytes sb <? u64 (sb_data_offset sb + sb_data_size sb)
  then XZSFS_ERR_INVAL
  else XZSFS_ERR_OK.

(** One sector of the object table: read it, clip the copy to the table's size, copy. *)
Definition load_object_sector (read_fn : xzsfs_block_read_fn) (sb : xzsfs_disk_superblock)
    (obj_lba s : Z) (dst : bytes) : option (ctl bytes (Z * bytes)) :=
  let '(err, sec) := read_fn (u64 (obj_lba + s)) 1 in
  if negb (err =? 0) then Some (Exit (err, dst))
  else
    let copied := u32 (s * XZSFS_SECTOR_SIZE) in
    let to_copy :=
      if sb_object_table_size sb <? u64 (copied + XZSFS_SECTOR_SIZE)
      then u64 (sb_object_table_size sb - copied) else XZSFS_SECTOR_SIZE in
    if 0 <? to_copy then
      dst' ← copy_into dst copied sec to_copy; Some (Next dst')
    else Some (Next dst).

Definition xzsfs_core_load_objects (read_fn : xzsfs_block_read_fn)
    (sb : xzsfs_disk_superblock) (objects : bytes) (max_objects : Z)
    : option (Z * bytes) :=
  if max_objects <? sb_object_count sb then Some (XZSFS_ERR_INVAL, objects)
  else
    let obj_lba := sb_object_table_offset sb / XZSFS_SECTOR_SIZE in
    let obj_sec_count :=
      u32 (u64 (sb_string_table_offset sb - sb_object_table_offset sb)
             / XZSFS_SECTOR_SIZE) in
    r ← for_loop (Z.to_nat obj_sec_count) 0 (load_object_sector read_fn sb obj_lba) objects;
    Some (match r with Next dst => (XZSFS_ERR_OK, dst) | Exit e => e end).

Definition load_strtab_sector (read_fn : xzsfs_block_read_fn) (str_lba s : Z)
    (strtab : bytes) : option (ctl bytes (Z * bytes)) :=
  let '(err, sec) := read_fn (u64 (str_lba + s)) 1 in
  if negb (err =? 0) then Some (Exit (err, strtab))
  else
    dst ← copy_into strtab (u32 (s * XZSFS_SECTOR_SIZE)) sec XZSFS_SECTOR_SIZE;
    Some (Next dst).

Definition xzsfs_core_load_strtab (read_fn : xzsfs_block_read_fn)
    (sb : xzsfs_disk_superblock) (strtab : bytes) (max_strtab : Z)
    : option (Z * bytes) :=
  if max_strtab <? sb_string_table_size sb then Some (XZSFS_ERR_INVAL, strtab)
  else
    let str_lba := sb_string_table_offset sb / XZSFS_SECTOR_SIZE in
    let str_sec_count := u32 (sb_string_table_size sb / XZSFS_SECTOR_SIZE) in
    r ← for_loop (Z.to_nat str_sec_count) 0 (load_strtab_sector read_fn str_lba) strtab;
    Some (match r with Next dst => (XZSFS_ERR_OK, dst) | Exit e => e end).

Definition xzsfs_core_load_metadata (read_fn : xzsfs_block_read_fn)
    (sb : xzsfs_disk_superblock) (objects : bytes) (max_objects : Z)
    (strtab : bytes) (max_strtab : Z) : option (Z * bytes * bytes) :=
  '(err, objects) ← xzsfs_core_load_objects read_fn sb objects max_objects;
  if negb (err =? 0) then Some (err, objects, strtab)
  else
    '(err, strtab) ← xzsfs_core_load_strtab read_fn sb strtab max_strtab;
    Some (err, objects, strtab).

(** ** Validation *)

Definition set_metadata_crc32 (sb : xzsfs_disk_superblock) (c : Z) : xzsfs_disk_superblock :=
  SB (sb_magic sb) (sb_format_version sb) (sb_header_size sb) (sb_sector_size sb)
     (sb_image_size_bytes sb) (sb_object_count sb) (sb_root_object_id sb)
     (sb_object_table_offset sb) (sb_object_table_size sb) (sb_string_table_offset sb)
     (sb_string_table_size sb) (sb_data_offset sb) (sb_data_size sb) c
     (sb_reserved sb) (sb_padding sb).

Definition xzsfs_core_validate_metadata_crc (sb : xzsfs_disk_superblock)
    (objects strtab : bytes) : option Z :=
  let crc := xzsfs_crc32 0 (encode_superblock (set_metadata_crc32 sb 0)) in
  ob ← sub_bytes objects 0 (sb_object_table_size sb);
  let crc := xzsfs_crc32 crc ob in
  st ← sub_bytes strtab 0 (sb_string_table_size sb);
  let crc := xzsfs_crc32 crc st in
  Some (if negb (crc =? sb_metadata_crc32 sb) then XZSFS_ERR_INVAL else XZSFS_ERR_OK).

(** The character loop over a filename: no '/' and no NUL. *)
Definition name_char_ok (strtab : bytes) (name_offset c : Z) (_ : unit)
    : option (ctl unit Z) :=
  ch ← byte_at strtab (name_offset + c);
  Some (if (ch =? 47) || (ch =? 0) then Exit XZSFS_ERR_INVAL else Next tt).

(** [memcmp(&a[i], &b[j], n) == 0]. *)
Definition mem_equal (a : bytes) (i : Z) (b : bytes) (j n : Z) : option bool :=
  x ← sub_bytes a i n; y ← sub_bytes b j n; Some (bool_decide (x = y)).

(** The scan for an earlier object with the same parent and the same name. *)
Definition dup_name_check (objects : list xzsfs_disk_object) (strtab : bytes)
    (obj : xzsfs_disk_object) (j : Z) (_ : unit) : option (ctl unit Z) :=
  oj ← elem_at objects j;
  if ob_parent_id oj =? ob_parent_id obj then
    if ob_name_length oj =? ob_name_length obj then
      eq ← mem_equal strtab (ob_name_offset oj) strtab (ob_name_offset obj)
             (ob_name_length obj);
      Some (if (eq : bool) then Exit XZSFS_ERR_INVAL else Next tt)
    else Some (Next tt)
  else Some (Next tt).

(** The scan for an earlier regular file whose extent overlaps. *)
Definition overlap_check (objects : list xzsfs_disk_object) (obj : xzsfs_disk_object)
    (j : Z) (_ : unit) : option (ctl unit Z) :=
  oj ← elem_at objects j;
  if ob_type oj =? XZSFS_TYPE_REG then
    let start_a := ob_data_offset obj in
    let end_a := u64 (ob_data_offset obj + ob_data_length obj) in
    let start_b := ob_data_offset oj in
    let end_b := u64 (ob_data_offset oj + ob_data_length oj) in
    Some (if (start_a <? end_b) && (start_b <? end_a) then Exit XZSFS_ERR_INVAL else Next tt)
  else Some (Next tt).

(** Run a scan whose only result is "continue" or an error code. *)
Definition scan (n : Z) (body : Z -> unit -> option (ctl unit Z)) : option Z :=
  r ← for_loop (Z.to_nat n) 0 body tt;
  Some (match r with Next _ => XZSFS_ERR_OK | Exit e => e end).

(** The [if (i > 0)] part of the object loop: parent and filename. *)
Definition validate_child (sb : xzsfs_disk_superblock) (objects : list xzsfs_disk_object)
    (strtab : bytes) (i : Z) (obj : xzsfs_disk_object) : option Z :=
  if (ob_parent_id obj =? 0) || (ob_object_id obj <=? ob_parent_id obj)
  then Some XZSFS_ERR_INVAL
  else
    parent ← elem_at objects (ob_parent_id obj - 1);
    if negb (ob_type parent =? XZSFS_TYPE_DIR) then Some XZSFS_ERR_INVAL
    else if (ob_name_length obj =? 0) ||
            (sb_string_table_size sb <=? u64 (ob_name_offset obj + ob_name_length obj))
    then Some XZSFS_ERR_INVAL
    else
      term ← byte_at strtab (u32 (ob_name_offset obj + ob_name_length obj));
      if negb (term =? 0) then Some XZSFS_ERR_INVAL
      else
        e ← scan (ob_name_length obj) (name_char_ok strtab (ob_name_offset obj));
        if negb (e =? 0) then Some e
        else scan i (dup_name_check objects strtab obj).

(** Payload of an object: none for a directory, an aligned, in-image, disjoint extent
    for a regular file. *)
Definition validate_payload (sb : xzsfs_disk_superblock) (objects : list xzsfs_disk_object)
    (i : Z) (obj : xzsfs_disk_object) : option Z :=
  if ob_type obj =? XZSFS_TYPE_DIR then
    Some (if negb (ob_data_offset obj =? 0) || negb (ob_data_length obj =? 0)
          then XZSFS_ERR_INVAL else XZSFS_ERR_OK)
  else if ob_data_offset obj <? sb_data_offset sb then Some XZSFS_ERR_INVAL
  else if negb (ob_data_offset obj mod XZSFS_SECTOR_SIZE =? 0) then Some XZSFS_ERR_INVAL
  else if sb_image_size_bytes sb <? u64 (ob_data_offset obj + ob_data_length obj)
  then Some XZSFS_ERR_INVAL
  else scan i (overlap_check objects obj).

Definition validate_object (sb : xzsfs_disk_superblock) (objects : list xzsfs_disk_object)
    (strtab : bytes) (i : Z) (_ : unit) : option (ctl unit Z) :=
  obj ← elem_at objects i;
  if negb (ob_object_id obj =? u32 (i + 1)) then Some (Exit XZSFS_ERR_INVAL)
  else if negb (ob_type obj =? XZSFS_TYPE_DIR) && negb (ob_type obj =? XZSFS_TYPE_REG)
  then Some (Exit XZSFS_ERR_INVAL)
  else
    e ← (if 0 <? i then validate_child sb objects strtab i obj else Some XZSFS_ERR_OK);
    if negb (e =? 0) then Some (Exit e)
    else
      e ← validate_payload sb objects i obj;
      Some (if negb (e =? 0) then Exit e else Next tt).

Definition xzsfs_core_validate_graph (sb : xzsfs_disk_superblock)
    (objects : list xzsfs_disk_object) (strtab : bytes) : option Z :=
  root ← elem_at objects 0;
  if negb (ob_object_id root =? 1) || negb (ob_parent_id root =? 1) ||
     negb (ob_type root =? XZSFS_TYPE_DIR)
  then Some XZSFS_ERR_INVAL
  else if negb (ob_name_offset root =? 0) || negb (ob_name_length root =? 0)
  then Some XZSFS_ERR_INVAL
  else
    c0 ← byte_at strtab 0;
    if negb (c0 =? 0) then Some XZSFS_ERR_INVAL
    else scan (sb_object_count sb) (validate_object sb objects strtab).

Definition xzsfs_core_validate_metadata (sb : xzsfs_disk_superblock)
    (objects strtab : bytes) : option Z :=
  err ← xzsfs_core_validate_metadata_crc sb objects strtab;
  if negb (err =? 0) then Some err
  else xzsfs_core_validate_graph sb
         (decode_objects (Z.to_nat (zlen objects / OBJECT_SIZE)) objects) strtab.

(** ** The in-memory file system *)

Definition node_of_object (o : xzsfs_disk_object) : xzsfs_core_node :=
  CNode (ob_object_id o) (ob_parent_id o) (ob_type o) (ob_mode o) (ob_uid o) (ob_gid o)
        (ob_data_offset o) (ob_data_length o) (ob_name_offset o) (ob_name_length o).

Definition init_node (objects : list xzsfs_disk_object) (i : Z)
    (nodes : list xzsfs_core_node) : option (ctl (list xzsfs_core_node) unit) :=
  o ← elem_at objects i;
  if i <? zlen nodes then Some (Next (<[Z.to_nat i := node_of_object o]> nodes)) else None.

Definition xzsfs_core_init_fs (fs : xzsfs_core_fs) (sb : xzsfs_disk_superblock)
    (objects : list xzsfs_disk_object) (strtab : bytes) : option (Z * xzsfs_core_fs) :=
  st ← copy_into (fs_strtab fs) 0 strtab (sb_string_table_size sb);
  r ← for_loop (Z.to_nat (sb_object_count sb)) 0 (init_node objects) (fs_nodes fs);
  match r with
  | Next nodes => Some (XZSFS_ERR_OK, CoreFs sb (sb_object_count sb) nodes st)
  | Exit _ => None
  end.

(** [*node_out] is a pointer into [fs->nodes]: its index. *)
Definition lookup_scan (fs : xzsfs_core_fs) (parent_id : Z) (name : bytes) (i : Z) (_ : unit)
    : option (ctl unit Z) :=
  n ← elem_at (fs_nodes fs) i;
  if (cn_parent_id n =? parent_id) && negb (i =? 0) then
    if cn_name_length n =? zlen name then
      eq ← mem_equal (fs_strtab fs) (cn_name n) name 0 (zlen name);
      Some (if (eq : bool) then Exit i else Next tt)
    else Some (Next tt)
  else Some (Next tt).

Definition xzsfs_core_lookup (fs : xzsfs_core_fs) (parent_id : Z) (name : bytes)
    : option (cres Z) :=
  if (parent_id =? 0) || (fs_node_count fs <? parent_id) then Some (CErr XZSFS_ERR_INVAL)
  else
    parent ← elem_at (fs_nodes fs) (parent_id - 1);
    if negb (cn_type parent =? XZSFS_TYPE_DIR) then Some (CErr XZSFS_ERR_NOTDIR)
    else if bool_decide (name = [46]) then Some (COk (parent_id - 1))
    else if bool_decide (name = [46; 46]) then Some (COk (u32 (cn_parent_id parent - 1)))
    else
      r ← for_loop (Z.to_nat (fs_node_count fs)) 0 (lookup_scan fs parent_id name) tt;
      Some (match r with Exit i => COk i | Next _ => CErr XZSFS_ERR_NOENT end).

(** One turn of the read loop: state is ([done], [out]). *)
Definition core_read_step (read_fn : xzsfs_block_read_fn) (data_offset offset to_read : Z)
    (st : Z * bytes) : option (ctl (Z * bytes) (Z * (Z * bytes))) :=
  let '(done, out) := st in
  if done <? to_read then
    let cur_pos := u64 (data_offset + offset + done) in
    let lba := cur_pos / XZSFS_SECTOR_SIZE in
    let sec_offset := u32 (cur_pos mod XZSFS_SECTOR_SIZE) in
    let chunk := XZSFS_SECTOR_SIZE - sec_offset in
    let chunk := if to_read - done <? chunk then u32 (to_read - done) else chunk in
    let '(err, sec_buf) := read_fn lba 1 in
    if negb (err =? 0) then Some (Exit (err, (done, out)))
    else
      src ← sub_bytes sec_buf sec_offset chunk;
      out ← copy_into out done src chunk;
      Some (Next (done + chunk, out))
  else Some (Exit (XZSFS_ERR_OK, (done, out))).

(** Enough turns for a transfer of [to_read] bytes: every turn but the first and the
    last moves a whole sector. *)
Definition read_fuel (to_read : Z) : nat := Z.to_nat (to_read / XZSFS_SECTOR_SIZE + 3).

(** Result: error code, buffer, [*bytes_read]. *)
Definition xzsfs_core_read (read_fn : xzsfs_block_read_fn) (node : xzsfs_core_node)
    (offset len : Z) (buf : bytes) (bytes_read : Z) : option (Z * bytes * Z) :=
  if negb (cn_type node =? XZSFS_TYPE_REG) then Some (XZSFS_ERR_INVAL, buf, bytes_read)
  else if (cn_data_length node <=? offset) || (len =? 0) then Some (XZSFS_ERR_OK, buf, 0)
  else
    let to_read :=
      if cn_data_length node <? u64 (offset + len)
      then u64 (cn_data_length node - offset) else len in
    '(err, (done, out)) ← loop (read_fuel to_read)
       (core_read_step read_fn (cn_data_offset node) offset to_read) (0, buf);
    Some (if negb (err =? 0) then (err, out, bytes_read) else (XZSFS_ERR_OK, out, done)).
