(* ===== verification/XzsfsSample.v ===== *)
(** * A small XZSFS image

    A well-formed image of five sectors with the tree

      /            (id 1)
      /bin         (id 2)
      /bin/sh      (id 3, 600 bytes over two sectors)
      /etc         (id 4)

    on which the properties of the file system are exercised. *)

From stdpp Require Import base list strings.
From Stdlib Require Import ZArith Lia.
From S2P Require Import Prelude Crc32 XzsfsCore.

Definition sample_objects : list xzsfs_disk_object := [
  Obj 1 1 1 0x1ed 0 0 0 0 0 0 0 0;
  Obj 2 1 1 0x1ed 0 0 1 3 0 0 0 0;
  Obj 3 2 2 0x1ed 0 0 5 2 1536 600 0 0;
  Obj 4 1 1 0x1ed 0 0 8 3 0 0 0 0 ].

Definition sample_strtab : bytes :=
  let names := 0 :: lit "bin" ++ 0 :: lit "sh" ++ 0 :: lit "etc" in
  names ++ replicate (512 - length names) 0.

Definition sample_data : bytes := (fun k => Z.of_nat k mod 251) <$> seq 0 600.

Definition sample_table : bytes :=
  concat (encode_object <$> sample_objects).

Definition sample_sb_crc (c : Z) : xzsfs_disk_superblock :=
  SB XZSFS_MAGIC 1 512 512 2560 4 1 512 256 1024 512 1536 1024 c 0 (replicate 424 0).

Definition sample_crc : Z :=
  xzsfs_crc32 (xzsfs_crc32 (xzsfs_crc32 0 (encode_superblock (sample_sb_crc 0)))
                 sample_table) sample_strtab.

Definition sample_sb : xzsfs_disk_superblock := Eval vm_compute in sample_sb_crc sample_crc.

Definition sample_image : bytes := Eval vm_compute in
  encode_superblock sample_sb ++ sample_table ++ replicate 256 0 ++ sample_strtab ++
  sample_data ++ replicate 424 0.

(** The same image with its string table one sector too far behind the object table. *)
Definition gap_sb : xzsfs_disk_superblock :=
  SB XZSFS_MAGIC 1 512 512 3584 4 1 512 256 2048 512 2560 1024 0 0 (replicate 424 0).

Definition gap_image : bytes := Eval vm_compute in
  encode_superblock gap_sb ++ sample_table ++ replicate (256 + 1024) 0 ++ sample_strtab ++
  replicate 1024 0.

Lemma sample_image_bytes : Forall is_u8 sample_image.
Proof. apply (bool_decide_unpack _). by vm_compute. Qed.

Lemma gap_image_bytes : Forall is_u8 gap_image.
Proof. apply (bool_decide_unpack _). by vm_compute. Qed.

(** The arrays of the mount path after loading the sample image. *)
Definition sample_objects32 : list xzsfs_disk_object := Eval vm_compute in
  decode_objects 32 (sample_table ++ replicate (2048 - 256) 0).
Definition sample_strtab2048 : bytes := Eval vm_compute in
  sample_strtab ++ replicate (2048 - 512) 0.
