(* ===== verification/XzsfsFormat.v ===== *)
(** * XZSFS: layout of the on-disk records and of the superblock's regions

    The packed records round-trip through their bytes ([Packed]); a superblock that
    passes [xzsfs_core_validate_superblock] describes ordered, disjoint regions of the
    image as long as its 64-bit sums do not wrap; the block device interface
    ([BlockDevice]) and what the two table loaders return over it. *)

From stdpp Require Import base list.
From Stdlib Require Import ZArith Lia.
From S2P Require Import Prelude Crc32 XzsfsCore XzsfsSample.

(** ** Packed records *)

Class Packed (T : Type) := {
  pk_size : nat;
  pk_encode : T -> bytes;
  pk_decode : bytes -> T;
  pk_wf : T -> Prop;
  pk_decode_encode : forall x, pk_wf x -> pk_decode (pk_encode x) = x;
  pk_encode_decode : forall b, length b = pk_size -> Forall is_u8 b -> pk_encode (pk_decode b) = b;
  pk_decode_wf : forall b, length b = pk_size -> Forall is_u8 b -> pk_wf (pk_decode b);
}.

Lemma pk_encode_inj {T} `{Packed T} x y :
  pk_wf x -> pk_wf y -> pk_encode x = pk_encode y -> x = y.
Proof. intros Hx Hy E. by rewrite <- (pk_decode_encode x), E, pk_decode_encode. Qed.

Lemma field_skip n m v r off :
  (m <= off)%nat -> field n (le_split m v ++ r) off = field n r (off - m).
Proof.
  intros. unfold field. rewrite drop_app_ge by (rewrite length_le_split; lia).
  by rewrite length_le_split.
Qed.

Lemma field_hit n v r : field n (le_split n v ++ r) 0 = v mod 256 ^ Z.of_nat n.
Proof.
  unfold field. rewrite drop_0, take_app_length' by by rewrite length_le_split.
  apply le_combine_split.
Qed.

Lemma field_last n v : field n (le_split n v) 0 = v mod 256 ^ Z.of_nat n.
Proof. rewrite <- (app_nil_r (le_split n v)). apply field_hit. Qed.

Lemma field_range n b off : Forall is_u8 b -> (off + n <= length b)%nat ->
  0 <= field n b off < 256 ^ Z.of_nat n.
Proof.
  intros Hb Hl. unfold field.
  pose proof (le_combine_bound (take n (drop off b))) as B.
  unfold zlen in B. rewrite length_take, length_drop in B.
  replace (n `min` (length b - off))%nat with n in B by lia.
  by apply B, Forall_take, Forall_drop.
Qed.

(** Writing a field back in front of the rest restores the bytes. *)
Lemma field_join n b off next : next = (off + n)%nat ->
  Forall is_u8 b -> (next <= length b)%nat ->
  le_split n (field n b off) ++ drop next b = drop off b.
Proof.
  intros -> Hb Hl. unfold field.
  assert (length (take n (drop off b)) = n) as En
    by (rewrite length_take, length_drop; lia).
  rewrite <- En at 1. rewrite le_split_combine by by apply Forall_take, Forall_drop.
  rewrite <- drop_drop. apply take_drop.
Qed.

Ltac solve_fields :=
  unfold field32, field64;
  repeat (rewrite field_skip by lia); cbn [Nat.sub];
  first [rewrite field_hit | rewrite field_last];
  apply Z.mod_small; assumption.

Definition sb_wf (sb : xzsfs_disk_superblock) : Prop :=
  is_u32 (sb_magic sb) /\ is_u32 (sb_format_version sb) /\ is_u32 (sb_header_size sb) /\
  is_u32 (sb_sector_size sb) /\ is_u64 (sb_image_size_bytes sb) /\
  is_u32 (sb_object_count sb) /\ is_u32 (sb_root_object_id sb) /\
  is_u64 (sb_object_table_offset sb) /\ is_u64 (sb_object_table_size sb) /\
  is_u64 (sb_string_table_offset sb) /\ is_u64 (sb_string_table_size sb) /\
  is_u64 (sb_data_offset sb) /\ is_u64 (sb_data_size sb) /\
  is_u32 (sb_metadata_crc32 sb) /\ is_u32 (sb_reserved sb) /\
  length (sb_padding sb) = 424%nat /\ Forall is_u8 (sb_padding sb).

Definition obj_wf (o : xzsfs_disk_object) : Prop :=
  is_u32 (ob_object_id o) /\ is_u32 (ob_parent_id o) /\ is_u32 (ob_type o) /\
  is_u32 (ob_mode o) /\ is_u32 (ob_uid o) /\ is_u32 (ob_gid o) /\
  is_u32 (ob_name_offset o) /\ is_u32 (ob_name_length o) /\
  is_u64 (ob_data_offset o) /\ is_u64 (ob_data_length o) /\
  is_u64 (ob_reserved1 o) /\ is_u64 (ob_reserved2 o).

Lemma decode_encode_superblock sb : sb_wf sb -> decode_superblock (encode_superblock sb) = sb.
Proof.
  intros H. destruct sb as [f0 f1 f2 f3 f4 f5 f6 f7 f8 f9 f10 f11 f12 f13 f14 pad];
  unfold sb_wf in H; cbn in H; destruct_and! H.
  unfold decode_superblock, encode_superblock; cbn [sb_magic sb_format_version
    sb_header_size sb_sector_size sb_image_size_bytes sb_object_count sb_root_object_id
    sb_object_table_offset sb_object_table_size sb_string_table_offset
    sb_string_table_size sb_data_offset sb_data_size sb_metadata_crc32 sb_reserved sb_padding].
  f_equal; [solve_fields.. |].
  rewrite !app_assoc, drop_app_length' by (rewrite !length_app, !length_le_split; done).
  by apply take_ge; lia.
Qed.

Lemma decode_encode_object o : obj_wf o -> decode_object (encode_object o) = o.
Proof.
  intros H. destruct o as [f0 f1 f2 f3 f4 f5 f6 f7 f8 f9 f10 f11]; unfold obj_wf in H; cbn in H; destruct_and! H.
  unfold decode_object, encode_object; cbn [ob_object_id ob_parent_id ob_type ob_mode
    ob_uid ob_gid ob_name_offset ob_name_length ob_data_offset ob_data_length
    ob_reserved1 ob_reserved2].
  f_equal; solve_fields.
Qed.

Lemma encode_decode_superblock b : length b = 512%nat -> Forall is_u8 b ->
  encode_superblock (decode_superblock b) = b.
Proof.
  intros Hl Hb. unfold encode_superblock, decode_superblock; cbn [sb_magic sb_format_version
    sb_header_size sb_sector_size sb_image_size_bytes sb_object_count sb_root_object_id
    sb_object_table_offset sb_object_table_size sb_string_table_offset
    sb_string_table_size sb_data_offset sb_data_size sb_metadata_crc32 sb_reserved sb_padding].
  rewrite (take_ge (drop 88 b)) by (rewrite length_drop; lia).
  unfold field32, field64.
  rewrite (field_join 4 b 84 88), (field_join 4 b 80 84), (field_join 8 b 72 80), (field_join 8 b 64 72),
    (field_join 8 b 56 64), (field_join 8 b 48 56), (field_join 8 b 40 48), (field_join 8 b 32 40),
    (field_join 4 b 28 32), (field_join 4 b 24 28), (field_join 8 b 16 24), (field_join 4 b 12 16),
    (field_join 4 b 8 12), (field_join 4 b 4 8), (field_join 4 b 0 4) by (done || lia).
  apply drop_0.
Qed.

Lemma encode_decode_object b : length b = 64%nat -> Forall is_u8 b ->
  encode_object (decode_object b) = b.
Proof.
  intros Hl Hb. unfold encode_object, decode_object; cbn [ob_object_id ob_parent_id ob_type
    ob_mode ob_uid ob_gid ob_name_offset ob_name_length ob_data_offset ob_data_length
    ob_reserved1 ob_reserved2].
  unfold field32, field64. rewrite <- (app_nil_r (le_split 8 (field 8 b 56))).
  replace [] with (drop 64 b) by (apply drop_ge; lia).
  rewrite (field_join 8 b 56 64), (field_join 8 b 48 56), (field_join 8 b 40 48), (field_join 8 b 32 40),
    (field_join 4 b 28 32), (field_join 4 b 24 28), (field_join 4 b 20 24), (field_join 4 b 16 20),
    (field_join 4 b 12 16), (field_join 4 b 8 12), (field_join 4 b 4 8), (field_join 4 b 0 4)
    by (done || lia).
  apply drop_0.
Qed.

Lemma decode_superblock_wf b : length b = 512%nat -> Forall is_u8 b ->
  sb_wf (decode_superblock b).
Proof.
  intros Hl Hb. unfold sb_wf, decode_superblock; cbn.
  split_and!; try (apply field_range; [done | lia]).
  - rewrite length_take, length_drop. lia.
  - by apply Forall_take, Forall_drop.
Qed.

Lemma decode_object_wf b : length b = 64%nat -> Forall is_u8 b -> obj_wf (decode_object b).
Proof.
  intros Hl Hb. unfold obj_wf, decode_object; cbn.
  split_and!; apply field_range; done || lia.
Qed.

#[global] Instance packed_superblock : Packed xzsfs_disk_superblock := {|
  pk_size := 512; pk_encode := encode_superblock; pk_decode := decode_superblock;
  pk_wf := sb_wf; pk_decode_encode := decode_encode_superblock;
  pk_encode_decode := encode_decode_superblock; pk_decode_wf := decode_superblock_wf |}.

#[global] Instance packed_object : Packed xzsfs_disk_object := {|
  pk_size := 64; pk_encode := encode_object; pk_decode := decode_object;
  pk_wf := obj_wf; pk_decode_encode := decode_encode_object;
  pk_encode_decode := encode_decode_object; pk_decode_wf := decode_object_wf |}.

(** ** The superblock checks *)

Record sb_checked (sb : xzsfs_disk_superblock) : Prop := {
  ck_magic : sb_magic sb = XZSFS_MAGIC;
  ck_version : sb_format_version sb = XZSFS_VERSION;
  ck_header : sb_header_size sb = XZSFS_HEADER_SIZE;
  ck_sector : sb_sector_size sb = 512;
  ck_image_aligned : sb_image_size_bytes sb mod 512 = 0;
  ck_image_min : 2048 <= sb_image_size_bytes sb;
  ck_count : sb_object_count sb <> 0 /\ sb_object_count sb <= 32;
  ck_root : sb_root_object_id sb = 1;
  ck_objtab : sb_object_table_offset sb = 512;
  ck_objsize : sb_object_table_size sb = u64 (sb_object_count sb * 64);
  ck_str_after :
    u64 (sb_object_table_offset sb + sb_object_table_size sb) <= sb_string_table_offset sb;
  ck_str_aligned : sb_string_table_offset sb mod 512 = 0;
  ck_str_size : sb_string_table_size sb <> 0 /\ sb_string_table_size sb <= 2048;
  ck_str_size_aligned : sb_string_table_size sb mod 512 = 0;
  ck_data_after :
    u64 (sb_string_table_offset sb + sb_string_table_size sb) <= sb_data_offset sb;
  ck_data_aligned : sb_data_offset sb mod 512 = 0;
  ck_data_in : u64 (sb_data_offset sb + sb_data_size sb) <= sb_image_size_bytes sb;
}.

Lemma validate_superblock_checked sb :
  xzsfs_core_validate_superblock sb = XZSFS_ERR_OK <-> sb_checked sb.
Proof.
  unfold xzsfs_core_validate_superblock, XZSFS_SECTOR_SIZE, XZSFS_MAX_OBJECTS,
    XZSFS_MAX_STRTAB_SIZE, OBJECT_SIZE, XZSFS_ERR_OK, XZSFS_ERR_INVAL.
  split.
  - repeat (split_if; [done |]). intros _. constructor; (done || lia).
  - intros [???????????????? ?]. destruct_and?.
    repeat (split_if; [exfalso; lia |]). done.
Qed.

Lemma validate_superblock_codes sb :
  xzsfs_core_validate_superblock sb = XZSFS_ERR_OK \/
  xzsfs_core_validate_superblock sb = XZSFS_ERR_INVAL.
Proof. unfold xzsfs_core_validate_superblock. repeat (split_if; [by right |]). by left. Qed.

(** Sizes of a checked superblock's tables as plain integers. *)
Lemma checked_sizes sb : sb_wf sb -> sb_checked sb ->
  0 < sb_object_count sb <= 32 /\ sb_object_table_size sb = 64 * sb_object_count sb /\
  512 + sb_object_table_size sb <= sb_string_table_offset sb /\
  0 < sb_string_table_size sb <= 2048.
Proof.
  intros Hwf Hck. destruct Hck. unfold sb_wf in Hwf. destruct_and!.
  assert (sb_object_table_size sb = 64 * sb_object_count sb) as Es.
  { rewrite ck_objsize0, u64_small by cint. lia. }
  split_and!; try cint.
  rewrite ck_objtab0, u64_small in ck_str_after0 by cint. lia.
Qed.

(** ** The block device *)

(** What the file system relies on: reading one sector inside the device succeeds and
    yields that sector of the image. *)
Class BlockDevice (read_fn : xzsfs_block_read_fn) (image : bytes) : Prop := {
  bd_bytes : Forall is_u8 image;
  bd_read : forall lba, 0 <= lba -> (lba + 1) * 512 <= zlen image ->
    read_fn lba 1 = (0, region image (lba * 512) 512);
}.

(** A device that serves an image from memory and fails outside it. *)
Definition image_read (image : bytes) : xzsfs_block_read_fn := fun lba count =>
  match sub_bytes image (lba * 512) (count * 512) with
  | Some d => (0, d)
  | None => (XZSFS_ERR_IO, [])
  end.

#[global] Instance image_read_device image :
  Forall is_u8 image -> BlockDevice (image_read image) image.
Proof.
  intros H. constructor; [done |]. intros lba ??. unfold image_read.
  by rewrite sub_bytes_region by lia.
Qed.

Section loaders.
Context (read_fn : xzsfs_block_read_fn) (image : bytes) `{!BlockDevice read_fn image}.
Context (sb : xzsfs_disk_superblock) (Hwf : sb_wf sb) (Hck : sb_checked sb).
Context (Himg : zlen image < 2 ^ 41).

Lemma read_superblock_device sb0 : 512 <= zlen image ->
  xzsfs_core_read_superblock read_fn sb0 = (0, decode_superblock (region image 0 512)).
Proof. intros. unfold xzsfs_core_read_superblock. by rewrite bd_read by lia. Qed.

(** Invariant of the object loader: what is copied so far is a prefix of the table. *)
Lemma load_object_sector_step objects s :
  let ots := sb_object_table_size sb in
  ots <= zlen objects -> 0 <= s -> 512 * s <= ots -> (s + 2) * 512 <= zlen image ->
  let c := 512 * s in let n := Z.min 512 (ots - c) in
  load_object_sector read_fn sb 1 s (region image 512 c ++ drop (Z.to_nat c) objects) =
  Some (Next (region image 512 (c + n) ++ drop (Z.to_nat (c + n)) objects)).
Proof.
  intros ots Hots Hs Hlt Hin c n. unfold load_object_sector, XZSFS_SECTOR_SIZE.
  pose proof (checked_sizes sb Hwf Hck) as (Hcnt & Esz & _ & _). fold ots in Esz |- *.
  rewrite (u64_small (1 + s)) by cint. rewrite bd_read by lia. cbn.
  replace (u32 (s * 512)) with c by (rewrite u32_small; [lia | cint]).
  rewrite (u64_small (c + 512)) by cint.
  replace (if ots <? c + 512 then u64 (ots - c) else 512) with n.
  2:{ subst n. destruct (Z.ltb_spec ots (c + 512)); [rewrite u64_small by cint |]; lia. }
  destruct (Z.ltb_spec 0 n); [| by replace n with 0 by lia; rewrite Z.add_0_r].
  rewrite copy_into_append; cbn [mbind option_bind].
  - rewrite app_assoc, drop_drop. do 3 f_equal; [| f_equal; lia].
    rewrite region_split by lia. f_equal.
    replace ((1 + s) * 512) with (512 + c) by lia.
    by rewrite region_region, Z.add_0_r by lia.
  - apply zlen_region; lia.
  - rewrite zlen_drop; lia.
  - rewrite zlen_region; lia.
Qed.

(** The sectors up to the one after the table's last are copied without a fault. *)
Lemma load_object_prefix objects (m : nat) :
  let ots := sb_object_table_size sb in
  ots <= zlen objects -> 512 * (Z.of_nat m - 1) <= ots -> (Z.of_nat m + 1) * 512 <= zlen image ->
  let c := Z.min (512 * Z.of_nat m) ots in
  for_loop m 0 (load_object_sector read_fn sb 1) objects =
  Some (Next (region image 512 c ++ drop (Z.to_nat c) objects)).
Proof.
  intros ots Hots Hm Hin c.
  pose proof (checked_sizes sb Hwf Hck) as (Hcnt & Esz & _ & _). fold ots in Esz.
  destruct (for_loop_inv (R := Z * bytes)
    (fun k dst => dst = region image 512 (Z.min (512 * k) ots)
                          ++ drop (Z.to_nat (Z.min (512 * k) ots)) objects)
    (fun _ => False) m 0 (load_object_sector read_fn sb 1) objects)
    as ([dst | r] & Hl & Hp); [by rewrite Z.min_l by lia | | | done].
  - intros k dst Hk ->. eexists. rewrite (Z.min_l (512 * k)) by lia.
    rewrite load_object_sector_step; [split; [done |] | lia..].
    cbn. fold ots. by replace (512 * k + Z.min 512 (ots - 512 * k)) with
      (Z.min (512 * (k + 1)) ots) by lia.
  - by rewrite Hl, Hp, Z.add_0_l.
Qed.

(** The string table starts at most one whole sector behind the object table. *)
Definition tables_adjacent : Prop :=
  sb_string_table_offset sb <= 512 + sb_object_table_size sb + 512.

Lemma load_objects_device objects :
  tables_adjacent -> sb_string_table_offset sb <= zlen image -> zlen objects = 2048 ->
  xzsfs_core_load_objects read_fn sb objects XZSFS_MAX_OBJECTS =
  Some (0, region image 512 (sb_object_table_size sb)
             ++ drop (Z.to_nat (sb_object_table_size sb)) objects).
Proof.
  intros Hadj Hin Hobj.
  pose proof (checked_sizes sb Hwf Hck) as (Hcnt & Esz & Hstr & _).
  pose proof (ck_objtab _ Hck) as Eoff. pose proof (ck_str_aligned _ Hck) as Hal.
  unfold tables_adjacent in Hadj. set (ots := sb_object_table_size sb) in *.
  unfold xzsfs_core_load_objects, XZSFS_MAX_OBJECTS, XZSFS_SECTOR_SIZE.
  rewrite (proj2 (Z.ltb_ge 32 _)) by lia. rewrite Eoff. change (512 / 512) with 1.
  set (m := sb_string_table_offset sb / 512 - 1).
  assert (sb_string_table_offset sb = 512 * (m + 1)) as Em
    by (subst m; rewrite Z.sub_add; apply Z.div_exact; lia).
  replace (u32 _) with m.
  2:{ rewrite Em. replace (512 * (m + 1) - 512) with (m * 512) by lia.
      rewrite u64_small, Z.div_mul, u32_small; cint || lia. }
  rewrite load_object_prefix by lia. cbn.
  replace (Z.min _ _) with ots by lia. done.
Qed.

(** Beyond the table's last sector the clipped length wraps and the copy overruns. *)
Lemma load_objects_overrun objects :
  ~ tables_adjacent -> sb_string_table_offset sb <= zlen image -> zlen objects = 2048 ->
  xzsfs_core_load_objects read_fn sb objects XZSFS_MAX_OBJECTS = None.
Proof.
  intros Hadj Hin Hobj.
  pose proof (checked_sizes sb Hwf Hck) as (Hcnt & Esz & Hstr & _).
  pose proof (ck_objtab _ Hck) as Eoff. pose proof (ck_str_aligned _ Hck) as Hal.
  unfold tables_adjacent in Hadj. set (ots := sb_object_table_size sb) in *.
  unfold xzsfs_core_load_objects, XZSFS_MAX_OBJECTS, XZSFS_SECTOR_SIZE.
  rewrite (proj2 (Z.ltb_ge 32 _)) by lia. rewrite Eoff. change (512 / 512) with 1.
  set (m := sb_string_table_offset sb / 512 - 1).
  assert (sb_string_table_offset sb = 512 * (m + 1)) as Em
    by (subst m; rewrite Z.sub_add; apply Z.div_exact; lia).
  replace (u32 _) with m.
  2:{ rewrite Em. replace (512 * (m + 1) - 512) with (m * 512) by lia.
      rewrite u64_small, Z.div_mul, u32_small; cint || lia. }
  set (j := ots / 512 + 1). assert (512 * (j - 1) <= ots < 512 * j) by (subst j; zdm).
  replace (Z.to_nat m) with (Z.to_nat j + S (Z.to_nat (m - j - 1)))%nat by lia.
  rewrite for_loop_app, load_object_prefix by lia. fold ots.
  rewrite Z.min_r by lia. cbn [for_loop]. unfold load_object_sector at 1, XZSFS_SECTOR_SIZE.
  rewrite (u64_small (1 + (0 + _))) by cint. rewrite bd_read by lia. cbn [negb Z.eqb].
  replace (u32 _) with (512 * j) by (rewrite u32_small; [lia | cint]).
  rewrite (u64_small (512 * j + 512)) by cint. fold ots.
  rewrite (proj2 (Z.ltb_lt ots _)) by lia.
  assert (u64 (ots - 512 * j) = 2 ^ 64 + (ots - 512 * j)) as ->.
  { unfold u64. rewrite <- (Z.mod_add _ 1) by lia. rewrite Z.mod_small; lia. }
  rewrite (proj2 (Z.ltb_lt 0 _)) by lia.
  unfold copy_into. rewrite (proj2 (Z.leb_gt (512 * j + _) _)).
  - by rewrite andb_false_r.
  - rewrite zlen_app, zlen_region, zlen_drop by lia. lia.
Qed.

Lemma load_strtab_device strtab :
  sb_string_table_offset sb + sb_string_table_size sb <= zlen image ->
  zlen strtab = 2048 ->
  xzsfs_core_load_strtab read_fn sb strtab XZSFS_MAX_STRTAB_SIZE =
  Some (0, region image (sb_string_table_offset sb) (sb_string_table_size sb)
             ++ drop (Z.to_nat (sb_string_table_size sb)) strtab).
Proof.
  intros Hin Hst.
  pose proof (checked_sizes sb Hwf Hck) as (_ & _ & Hstr & Hsz).
  pose proof (ck_str_aligned _ Hck) as Hal. pose proof (ck_str_size_aligned _ Hck) as Hal2.
  set (o := sb_string_table_offset sb) in *. set (n := sb_string_table_size sb) in *.
  unfold xzsfs_core_load_strtab, XZSFS_MAX_STRTAB_SIZE, XZSFS_SECTOR_SIZE.
  fold n o. rewrite (proj2 (Z.ltb_ge 2048 _)) by lia.
  assert (0 <= sb_object_table_size sb) by (destruct Hwf; destruct_and!; cint).
  assert (exists q, o = q * 512) as [q Eq] by (exists (o / 512); zdm).
  assert (exists m, n = m * 512) as [m Em] by (exists (n / 512); zdm).
  rewrite Eq, Em, !Z.div_mul by lia. rewrite (u32_small m) by cint.
  destruct (for_loop_inv (R := Z * bytes)
    (fun k dst => dst = region image o (512 * k) ++ drop (Z.to_nat (512 * k)) strtab)
    (fun _ => False) (Z.to_nat m) 0 (load_strtab_sector read_fn q) strtab)
    as ([dst | r] & Hl & Hp); [done | | | done].
  - intros k dst Hk ->. eexists. split; [| instantiate (1 := Next _); cbn; reflexivity].
    unfold load_strtab_sector, XZSFS_SECTOR_SIZE.
    rewrite (u64_small (q + k)) by cint. rewrite bd_read by lia. cbn.
    replace (u32 (k * 512)) with (512 * k) by (rewrite u32_small; [lia | cint]).
    rewrite copy_into_append; cbn [mbind option_bind].
    + rewrite app_assoc, drop_drop. do 3 f_equal; [| f_equal; lia].
      replace (512 * (k + 1)) with (512 * k + 512) by lia.
      rewrite region_split by lia. f_equal.
      replace ((q + k) * 512) with (o + 512 * k) by lia.
      by rewrite region_region, Z.add_0_r by lia.
    + apply zlen_region; lia.
    + rewrite zlen_drop; lia.
    + rewrite zlen_region; lia.
  - rewrite Hl. cbn [mbind option_bind]. rewrite Hp, <- Eq.
    by replace (512 * (0 + Z.of_nat (Z.to_nat m))) with (m * 512) by lia.
Qed.
End loaders.

(** ** Properties *)

#[global] Instance sb_wf_dec sb : Decision (sb_wf sb).
Proof. unfold sb_wf. apply _. Defined.
#[global] Instance obj_wf_dec o : Decision (obj_wf o).
Proof. unfold obj_wf. apply _. Defined.

(** The packed superblock and object records round-trip: decoding the bytes of a
    record gives the record back, and the bytes the CRC sees for a superblock read from
    disk are the bytes that were on disk. *)
Theorem disk_records_roundtrip (sb : xzsfs_disk_superblock) (o : xzsfs_disk_object)
    (b c : bytes) (Hsb : sb_wf sb) (Ho : obj_wf o)
    (Hb : length b = 512%nat /\ Forall is_u8 b) (Hc : length c = 64%nat /\ Forall is_u8 c) :
  decode_superblock (encode_superblock sb) = sb /\ decode_object (encode_object o) = o /\
  encode_superblock (decode_superblock b) = b /\ encode_object (decode_object c) = c.
Proof.
  destruct Hb, Hc.
  split_and!; auto using decode_encode_superblock, decode_encode_object,
    encode_decode_superblock, encode_decode_object.
Qed.

Lemma disk_records_roundtrip_witness :
  decode_superblock (encode_superblock sample_sb) = sample_sb /\
  decode_object (encode_object (Obj 3 2 2 493 0 0 5 2 1536 600 0 0)) =
    Obj 3 2 2 493 0 0 5 2 1536 600 0 0 /\
  encode_superblock (decode_superblock (take 512 sample_image)) = take 512 sample_image /\
  encode_object (decode_object (replicate 64 7)) = replicate 64 7.
Proof.
  apply disk_records_roundtrip;
    first [ apply (bool_decide_unpack _); by vm_compute
          | split; [reflexivity | apply (bool_decide_unpack _); by vm_compute] ].
Defined.

(** A superblock that passes [xzsfs_core_validate_superblock], with no wrap in its
    two 64-bit end offsets, lays the image out as four ordered, disjoint, sector-aligned
    regions: header, object table (64 bytes per object), string table, data, the last
    inside the image. *)
Theorem superblock_layout (sb : xzsfs_disk_superblock) (Hwf : sb_wf sb)
    (Hok : xzsfs_core_validate_superblock sb = XZSFS_ERR_OK)
    (Hstr : sb_string_table_offset sb + sb_string_table_size sb < 2 ^ 64)
    (Hdata : sb_data_offset sb + sb_data_size sb < 2 ^ 64) :
  512 <= sb_object_table_offset sb /\
  sb_object_table_size sb = OBJECT_SIZE * sb_object_count sb /\
  sb_object_table_offset sb + sb_object_table_size sb <= sb_string_table_offset sb /\
  sb_string_table_offset sb + sb_string_table_size sb <= sb_data_offset sb /\
  sb_data_offset sb + sb_data_size sb <= sb_image_size_bytes sb /\
  (sb_string_table_offset sb mod 512 = 0 /\ sb_data_offset sb mod 512 = 0 /\
   sb_image_size_bytes sb mod 512 = 0).
Proof.
  apply validate_superblock_checked in Hok.
  pose proof (checked_sizes sb Hwf Hok) as (? & ? & ? & ?).
  unfold sb_wf in Hwf. destruct Hok, Hwf; destruct_and!.
  rewrite u64_small in ck_data_after0 by cint.
  rewrite u64_small in ck_data_in0 by cint. unfold OBJECT_SIZE. split_and!; (done || lia).
Qed.

Lemma superblock_layout_witness :
  sb_data_offset sample_sb + sb_data_size sample_sb <= sb_image_size_bytes sample_sb.
Proof.
  refine (proj1 (proj2 (proj2 (proj2 (proj2 (superblock_layout sample_sb _ _ _ _))))));
    first [apply (bool_decide_unpack _); by vm_compute | by vm_compute].
Defined.

(** The end offsets are computed modulo 2^64 and the wrap is not caught: a
    superblock whose string table lies far beyond the end of its image is accepted. *)
Theorem superblock_wrap_accepted :
  exists sb, sb_wf sb /\ xzsfs_core_validate_superblock sb = XZSFS_ERR_OK /\
    sb_image_size_bytes sb < sb_string_table_offset sb.
Proof.
  exists (SB XZSFS_MAGIC 1 512 512 2048 1 1 512 64 (2 ^ 64 - 512) 512 0 0 0 0 (replicate 424 0)).
  split; [apply (bool_decide_unpack _); by vm_compute |]. by vm_compute.
Qed.

(** On a device that holds the image, loading the metadata of a validated superblock
    whose tables are adjacent succeeds without leaving the two fixed-size arrays and
    stores exactly the image's object table and string table in them. *)
Theorem load_metadata_exact (read_fn : xzsfs_block_read_fn) (image : bytes)
    (sb : xzsfs_disk_superblock) (objects strtab : bytes)
    (Hdev : BlockDevice read_fn image) (Hsmall : zlen image < 2 ^ 41)
    (Hwf : sb_wf sb) (Hok : xzsfs_core_validate_superblock sb = XZSFS_ERR_OK)
    (Hadj : tables_adjacent sb)
    (Hin : sb_string_table_offset sb + sb_string_table_size sb <= zlen image)
    (Hobj : zlen objects = 2048) (Hst : zlen strtab = 2048) :
  xzsfs_core_load_metadata read_fn sb objects XZSFS_MAX_OBJECTS strtab XZSFS_MAX_STRTAB_SIZE =
  Some (XZSFS_ERR_OK,
        region image 512 (sb_object_table_size sb)
          ++ drop (Z.to_nat (sb_object_table_size sb)) objects,
        region image (sb_string_table_offset sb) (sb_string_table_size sb)
          ++ drop (Z.to_nat (sb_string_table_size sb)) strtab).
Proof.
  apply validate_superblock_checked in Hok.
  pose proof (checked_sizes sb Hwf Hok) as (_ & _ & _ & ?).
  unfold xzsfs_core_load_metadata.
  rewrite (load_objects_device read_fn image sb) by (done || lia). cbn [mbind option_bind].
  by rewrite (load_strtab_device read_fn image sb) by (done || lia).
Qed.

Lemma load_metadata_exact_witness :
  xzsfs_core_load_metadata (image_read sample_image) sample_sb (replicate 2048 0) 32
    (replicate 2048 0) 2048 =
  Some (0, region sample_image 512 256 ++ drop 256 (replicate 2048 0),
        region sample_image 1024 512 ++ drop 512 (replicate 2048 0)).
Proof.
  apply (load_metadata_exact (image_read sample_image) sample_image sample_sb);
    first [ exact (image_read_device _ sample_image_bytes) | by vm_compute
          | apply (bool_decide_unpack _); by vm_compute ].
Defined.

(** The object loader is memory safe only under that adjacency: when the validated
    superblock leaves more than a sector between the tables, the length of the clipped
    copy wraps below zero and the copy leaves the array (no CRC has been checked yet). *)
Theorem load_objects_gap_overruns (read_fn : xzsfs_block_read_fn) (image : bytes)
    (sb : xzsfs_disk_superblock) (objects : bytes)
    (Hdev : BlockDevice read_fn image) (Hsmall : zlen image < 2 ^ 41)
    (Hwf : sb_wf sb) (Hok : xzsfs_core_validate_superblock sb = XZSFS_ERR_OK)
    (Hgap : ~ tables_adjacent sb) (Hin : sb_string_table_offset sb <= zlen image)
    (Hobj : zlen objects = 2048) :
  xzsfs_core_load_objects read_fn sb objects XZSFS_MAX_OBJECTS = None.
Proof.
  apply validate_superblock_checked in Hok.
  by apply (load_objects_overrun read_fn image sb).
Qed.

Lemma load_objects_gap_overruns_witness :
  xzsfs_core_load_objects (image_read gap_image) gap_sb (replicate 2048 0) 32 = None.
Proof.
  apply (load_objects_gap_overruns (image_read gap_image) gap_image gap_sb);
    first [ exact (image_read_device _ gap_image_bytes) | by vm_compute
          | apply (bool_decide_unpack _); by vm_compute ].
Defined.
