(* ===== verification/XzsfsGraph.v ===== *)
(** * XZSFS: the object-graph validator

    A declarative specification of a well-formed object table ([graph_wf]), the proof
    that [xzsfs_core_validate_graph] decides it without leaving its arrays, and what a
    well-formed graph gives the rest of the driver: the parent links form a tree rooted
    at object 1 and, when no 64-bit end offset wraps, file extents are disjoint and lie
    inside the image. *)

From stdpp Require Import base list strings.
From Stdlib Require Import ZArith Lia.
From S2P Require Import Prelude Crc32 XzsfsCore XzsfsSample XzsfsFormat.

(** ** Verdicts

    A check returns 0 exactly when its condition holds and EINVAL otherwise; in
    particular it returns. *)

Definition verdict (r : option Z) (P : Prop) : Prop :=
  (r = Some XZSFS_ERR_OK /\ P) \/ (r = Some XZSFS_ERR_INVAL /\ ~ P).

Definition step_verdict (r : option (ctl unit Z)) (P : Prop) : Prop :=
  (r = Some (Next tt) /\ P) \/ (r = Some (Exit XZSFS_ERR_INVAL) /\ ~ P).

Lemma verdict_ok r P : verdict r P -> r = Some XZSFS_ERR_OK <-> P.
Proof. intros [[-> ?] | [-> ?]]; split; done || naive_solver. Qed.

Lemma verdict_iff r P Q : (P <-> Q) -> verdict r P -> verdict r Q.
Proof. unfold verdict. naive_solver. Qed.

Lemma step_verdict_iff r P Q : (P <-> Q) -> step_verdict r P -> step_verdict r Q.
Proof. unfold step_verdict. naive_solver. Qed.

(** An early return of EINVAL on a guard. *)
Lemma verdict_guard (b : bool) r P :
  (b = true -> ~ P) -> (b = false -> verdict r P) ->
  verdict (if b then Some XZSFS_ERR_INVAL else r) P.
Proof. destruct b; intros H1 H2; [right | apply H2]; auto. Qed.

Lemma step_verdict_guard (b : bool) r P :
  (b = true -> ~ P) -> (b = false -> step_verdict r P) ->
  step_verdict (if b then Some (Exit XZSFS_ERR_INVAL) else r) P.
Proof. destruct b; intros H1 H2; [right | apply H2]; auto. Qed.

(** A scan: each step may rely on the earlier ones having passed. *)
Lemma scan_verdict n body (P : Z -> Prop) :
  (forall k, 0 <= k < n -> (forall j, 0 <= j < k -> P j) -> step_verdict (body k tt) (P k)) ->
  verdict (scan n body) (forall k, 0 <= k < n -> P k).
Proof.
  intros Hbody. unfold scan.
  destruct (for_loop_inv (fun k _ => forall j, 0 <= j < k -> P j)
    (fun e => e = XZSFS_ERR_INVAL /\ ~ forall k, 0 <= k < n -> P k)
    (Z.to_nat n) 0 body tt) as ([[] | e] & -> & H).
  - intros j ?. lia.
  - intros k [] Hk Hprev. destruct (Hbody k ltac:(lia) Hprev) as [[-> HP] | [-> HP]].
    + eexists. split; [done |]. cbn. intros j ?.
      destruct (decide (j = k)) as [-> |]; [done | apply Hprev; lia].
    + eexists. split; [done |]. cbn. split; [done |]. intros Hall. apply HP, Hall. lia.
  - left. split; [done |]. intros k ?. apply H. lia.
  - right. destruct H as [-> ?]. done.
Qed.

(** ** The specification *)

Section graph.
Context (sb : xzsfs_disk_superblock) (objects : list xzsfs_disk_object) (strtab : bytes).

Definition name_of (o : xzsfs_disk_object) : bytes :=
  region strtab (ob_name_offset o) (ob_name_length o).

Definition ends (o : xzsfs_disk_object) : Z := u64 (ob_data_offset o + ob_data_length o).

(** Parent and filename of a non-root object. *)
Record child_ok (i : Z) (o : xzsfs_disk_object) : Prop := {
  ch_parent : 0 < ob_parent_id o < ob_object_id o;
  ch_parent_dir : exists po, elem_at objects (ob_parent_id o - 1) = Some po /\
                    ob_type po = XZSFS_TYPE_DIR;
  ch_name_bounds : 0 < ob_name_length o /\
    ob_name_offset o + ob_name_length o < sb_string_table_size sb;
  ch_name_term : byte_at strtab (ob_name_offset o + ob_name_length o) = Some 0;
  ch_name_chars : forall c, 0 <= c < ob_name_length o ->
    byte_at strtab (ob_name_offset o + c) <> Some 47 /\
    byte_at strtab (ob_name_offset o + c) <> Some 0;
  ch_name_unique : forall j oj, 0 <= j < i -> elem_at objects j = Some oj ->
    ob_parent_id oj = ob_parent_id o -> name_of oj <> name_of o;
}.

Record payload_ok (i : Z) (o : xzsfs_disk_object) : Prop := {
  pl_dir : ob_type o = XZSFS_TYPE_DIR -> ob_data_offset o = 0 /\ ob_data_length o = 0;
  pl_file : ob_type o <> XZSFS_TYPE_DIR ->
    sb_data_offset sb <= ob_data_offset o /\ ob_data_offset o mod 512 = 0 /\
    ends o <= sb_image_size_bytes sb;
  pl_disjoint : ob_type o <> XZSFS_TYPE_DIR ->
    forall j oj, 0 <= j < i -> elem_at objects j = Some oj -> ob_type oj = XZSFS_TYPE_REG ->
    ends oj <= ob_data_offset o \/ ends o <= ob_data_offset oj;
}.

Record object_ok (i : Z) (o : xzsfs_disk_object) : Prop := {
  oo_id : ob_object_id o = i + 1;
  oo_type : ob_type o = XZSFS_TYPE_DIR \/ ob_type o = XZSFS_TYPE_REG;
  oo_child : 0 < i -> child_ok i o;
  oo_payload : payload_ok i o;
}.

Record root_ok (o : xzsfs_disk_object) : Prop := {
  rt_id : ob_object_id o = 1;
  rt_parent : ob_parent_id o = 1;
  rt_type : ob_type o = XZSFS_TYPE_DIR;
  rt_name : ob_name_offset o = 0 /\ ob_name_length o = 0;
}.

Definition graph_wf : Prop :=
  (exists root, elem_at objects 0 = Some root /\ root_ok root) /\
  byte_at strtab 0 = Some 0 /\
  forall i o, 0 <= i < sb_object_count sb -> elem_at objects i = Some o -> object_ok i o.

(** ** The validator decides the specification *)

Context (Hsb : sb_wf sb) (Hck : sb_checked sb).
Context (Hobjs : zlen objects = 32) (Hobjwf : Forall obj_wf objects).
Context (Hst : zlen strtab = 2048).

Lemma obj_at_wf i o : elem_at objects i = Some o -> obj_wf o.
Proof.
  intros [_ H]%elem_at_Some. by eapply Forall_lookup_1.
Qed.

Lemma name_chars_verdict o :
  obj_wf o -> ob_name_offset o + ob_name_length o < 2048 ->
  verdict (scan (ob_name_length o) (name_char_ok strtab (ob_name_offset o)))
    (forall c, 0 <= c < ob_name_length o ->
       byte_at strtab (ob_name_offset o + c) <> Some 47 /\
       byte_at strtab (ob_name_offset o + c) <> Some 0).
Proof.
  intros Hwf Hb. apply scan_verdict. intros c Hc _. unfold name_char_ok.
  unfold obj_wf in Hwf. destruct_and!.
  destruct (elem_at_in_range strtab (ob_name_offset o + c)) as [ch Ech]; [cint |].
  rewrite byte_at_elem, Ech. cbn.
  destruct (Z.eqb_spec ch 47), (Z.eqb_spec ch 0); cbn;
    [right | right | right | left]; naive_solver.
Qed.

Lemma mem_equal_names o o' :
  obj_wf o -> obj_wf o' -> ob_name_length o = ob_name_length o' ->
  ob_name_offset o + ob_name_length o <= 2048 ->
  ob_name_offset o' + ob_name_length o' <= 2048 ->
  mem_equal strtab (ob_name_offset o) strtab (ob_name_offset o') (ob_name_length o') =
  Some (bool_decide (name_of o = name_of o')).
Proof.
  intros Hw Hw' El ??. unfold obj_wf in *. destruct_and!. unfold mem_equal, name_of.
  rewrite El, !sub_bytes_region by (cint || lia). done.
Qed.

Lemma zlen_name_of o : obj_wf o -> ob_name_offset o + ob_name_length o <= 2048 ->
  zlen (name_of o) = ob_name_length o.
Proof.
  intros Hw ?. unfold obj_wf in Hw. destruct_and!. apply zlen_region; cint || lia.
Qed.

(** Name bounds of an object, as the later scans rely on them. *)
Lemma checked_name_bounds i o :
  (exists root, elem_at objects 0 = Some root /\ root_ok root) ->
  0 <= i -> elem_at objects i = Some o -> object_ok i o ->
  ob_name_offset o + ob_name_length o <= 2048 /\ (i = 0 -> ob_name_length o = 0).
Proof.
  intros (root & Er & [_ _ _ [Eo El]]) Hi E Hok.
  pose proof (checked_sizes sb Hsb Hck) as (_ & _ & _ & ?).
  destruct (decide (i = 0)) as [-> |].
  - simplify_eq. lia.
  - destruct (ch_name_bounds _ _ (oo_child _ _ Hok ltac:(lia))). lia.
Qed.

Lemma dup_name_verdict i o :
  (exists root, elem_at objects 0 = Some root /\ root_ok root) ->
  0 < i < sb_object_count sb -> obj_wf o ->
  0 < ob_name_length o -> ob_name_offset o + ob_name_length o < 2048 ->
  (forall j oj, 0 <= j < i -> elem_at objects j = Some oj -> object_ok j oj) ->
  verdict (scan i (dup_name_check objects strtab o))
    (forall j oj, 0 <= j < i -> elem_at objects j = Some oj ->
       ob_parent_id oj = ob_parent_id o -> name_of oj <> name_of o).
Proof.
  intros Hroot Hi Hwf Hlen Hb Hprev.
  pose proof (checked_sizes sb Hsb Hck) as (? & _ & _ & _).
  eapply verdict_iff, (scan_verdict i _ (fun j => forall oj, elem_at objects j = Some oj ->
       ob_parent_id oj = ob_parent_id o -> name_of oj <> name_of o)); [naive_solver |].
  intros j Hj _. destruct (elem_at_in_range objects j ltac:(lia)) as [oj Ej].
  pose proof (obj_at_wf _ _ Ej) as Hwj.
  destruct (checked_name_bounds j oj Hroot ltac:(lia) Ej (Hprev _ _ Hj Ej)) as [Hbj _].
  unfold dup_name_check. rewrite Ej. cbn.
  destruct (Z.eqb_spec (ob_parent_id oj) (ob_parent_id o)); [| left; naive_solver].
  destruct (Z.eqb_spec (ob_name_length oj) (ob_name_length o)) as [El | El].
  - rewrite mem_equal_names by (done || lia). cbn.
    case_bool_decide; [right | left]; naive_solver.
  - left. split; [done |]. intros ? [= <-] _ En.
    apply El. rewrite <- !zlen_name_of by (done || lia). by rewrite En.
Qed.

Lemma child_verdict i o :
  (exists root, elem_at objects 0 = Some root /\ root_ok root) ->
  0 < i < sb_object_count sb -> obj_wf o -> ob_object_id o = i + 1 ->
  (forall j oj, 0 <= j < i -> elem_at objects j = Some oj -> object_ok j oj) ->
  verdict (validate_child sb objects strtab i o) (child_ok i o).
Proof.
  intros Hroot Hi Hwf Hid Hprev. unfold validate_child.
  pose proof (checked_sizes sb Hsb Hck) as (? & _ & _ & ?).
  pose proof Hwf as Hwf'. unfold obj_wf in Hwf'. destruct_and!.
  apply verdict_guard; intros Hg; bool_to_prop; [intros []; cint |].
  destruct (elem_at_in_range objects (ob_parent_id o - 1) ltac:(cint)) as [po Ep].
  rewrite Ep. cbn.
  apply verdict_guard; intros Hg2; bool_to_prop;
    [intros [_ (? & ? & ?) _ _ _ _]; naive_solver |].
  apply verdict_guard; intros Hg3; bool_to_prop.
  { intros [_ _ ? _ _ _]. rewrite u64_small in Hg3 by cint. lia. }
  rewrite (u64_small (_ + _)) in * by cint. rewrite u32_small by cint.
  destruct (elem_at_in_range strtab (ob_name_offset o + ob_name_length o) ltac:(cint))
    as [t Et].
  rewrite byte_at_elem, Et. cbn.
  apply verdict_guard; intros Hg4; bool_to_prop.
  { intros [_ _ _ ? _ _]. rewrite byte_at_elem in *. naive_solver. }
  destruct (name_chars_verdict o Hwf ltac:(lia)) as [[-> Hch] | [-> Hch]]; cbn.
  2:{ right. split; [done |]. by intros []. }
  eapply verdict_iff, (dup_name_verdict i o); try (done || cint).
  split; [| by intros []]. intros Hu. subst t. constructor; try done; [cint | eauto | cint].
Qed.

Lemma payload_verdict i o :
  0 <= i < sb_object_count sb -> obj_wf o ->
  ob_type o = XZSFS_TYPE_DIR \/ ob_type o = XZSFS_TYPE_REG ->
  verdict (validate_payload sb objects i o) (payload_ok i o).
Proof.
  intros Hi Hwf Hty. unfold validate_payload, XZSFS_SECTOR_SIZE.
  pose proof (checked_sizes sb Hsb Hck) as (? & _ & _ & _).
  destruct (Z.eqb_spec (ob_type o) XZSFS_TYPE_DIR) as [Ed | Ed].
  - destruct (Z.eqb_spec (ob_data_offset o) 0), (Z.eqb_spec (ob_data_length o) 0); cbn;
      [left; split; [done |]; constructor; naive_solver | right..];
      (split; [done |]; intros [Hd _ _]; naive_solver).
  - apply verdict_guard; intros ?; bool_to_prop; [intros [_ Hf _]; naive_solver lia |].
    apply verdict_guard; intros ?; bool_to_prop; [intros [_ Hf _]; naive_solver lia |].
    apply verdict_guard; intros ?; bool_to_prop;
      [intros [_ Hf _]; unfold ends in *; naive_solver lia |].
    eapply verdict_iff, (scan_verdict i _ (fun j => forall oj, elem_at objects j = Some oj ->
      ob_type oj = XZSFS_TYPE_REG -> ends oj <= ob_data_offset o \/ ends o <= ob_data_offset oj)).
    { split; [intros Hs; constructor; try done; naive_solver | intros []; naive_solver]. }
    intros j Hj _. destruct (elem_at_in_range objects j ltac:(lia)) as [oj Ej].
    unfold overlap_check. rewrite Ej. cbn. fold (ends o) (ends oj).
    destruct (Z.eqb_spec (ob_type oj) XZSFS_TYPE_REG); [| left; naive_solver].
    destruct (Z.ltb_spec (ob_data_offset o) (ends oj)),
      (Z.ltb_spec (ob_data_offset oj) (ends o)); cbn; [right | left..]; naive_solver lia.
Qed.

Lemma object_verdict i :
  (exists root, elem_at objects 0 = Some root /\ root_ok root) ->
  0 <= i < sb_object_count sb ->
  (forall j, 0 <= j < i -> forall oj, elem_at objects j = Some oj -> object_ok j oj) ->
  step_verdict (validate_object sb objects strtab i tt)
    (forall o, elem_at objects i = Some o -> object_ok i o).
Proof.
  intros Hroot Hi Hprev. unfold validate_object.
  pose proof (checked_sizes sb Hsb Hck) as (? & _ & _ & _).
  destruct (elem_at_in_range objects i ltac:(lia)) as [o Eo].
  pose proof (obj_at_wf _ _ Eo) as Hwf. rewrite Eo. cbn.
  eapply (step_verdict_iff _ (object_ok i o)); [naive_solver |].
  rewrite (u32_small (i + 1)) by cint.
  apply step_verdict_guard; intros ?; bool_to_prop; [by intros [] |].
  apply step_verdict_guard; intros Hty; bool_to_prop; [intros []; naive_solver |].
  assert (verdict (if 0 <? i then validate_child sb objects strtab i o else Some XZSFS_ERR_OK)
            (0 < i -> child_ok i o)) as [[-> Hc] | [-> Hc]].
  { destruct (Z.ltb_spec 0 i); [| left; split; [done | lia]].
    eapply verdict_iff, child_verdict; naive_solver lia. }
  2:{ cbn. right. split; [done |]. by intros []. }
  cbn. destruct (payload_verdict i o Hi Hwf) as [[-> Hp] | [-> Hp]]; [tauto | | ]; cbn.
  - left. split; [done |]. constructor; (done || tauto).
  - right. split; [done |]. by intros [].
Qed.

Lemma validate_graph_verdict :
  verdict (xzsfs_core_validate_graph sb objects strtab) graph_wf.
Proof.
  unfold xzsfs_core_validate_graph, graph_wf.
  destruct (elem_at_in_range objects 0 ltac:(lia)) as [root Er]. rewrite Er. cbn [mbind option_bind].
  apply verdict_guard; intros Hg; bool_to_prop.
  { intros ((? & ? & []) & _). naive_solver. }
  apply verdict_guard; intros Hg2; bool_to_prop; [intros ((? & ? & []) & _); naive_solver |].
  destruct (elem_at_in_range strtab 0 ltac:(lia)) as [c0 Ec]. rewrite byte_at_elem, Ec.
  cbn [mbind option_bind].
  apply verdict_guard; intros Hg3; bool_to_prop; [naive_solver |].
  assert (exists root, elem_at objects 0 = Some root /\ root_ok root) as Hroot
    by (exists root; split; [done | by constructor]).
  eapply verdict_iff, scan_verdict; [| intros k Hk Hp; by apply object_verdict].
  rewrite <- Er. naive_solver.
Qed.
End graph.

(** ** Consequences *)

(** [up k id]: [k] steps along the parent links. *)
Fixpoint up (objects : list xzsfs_disk_object) (k : nat) (id : Z) : option Z :=
  match k with
  | O => Some id
  | S k => o ← elem_at objects (id - 1); up objects k (ob_parent_id o)
  end.

Section tree.
Context (sb : xzsfs_disk_superblock) (objects : list xzsfs_disk_object) (strtab : bytes).
Context (Hobjs : sb_object_count sb <= zlen objects) (Hgraph : graph_wf sb objects strtab).

Lemma parent_step id o : 1 <= id <= sb_object_count sb -> elem_at objects (id - 1) = Some o ->
  (id = 1 /\ ob_parent_id o = 1) \/ (1 < id /\ 1 <= ob_parent_id o < id).
Proof.
  intros Hid Eo. destruct Hgraph as ((root & Er & [_ Ep _ _]) & _ & Hall).
  destruct (decide (id = 1)) as [-> |].
  - change (1 - 1) with 0 in Eo. simplify_eq. auto.
  - right. destruct (Hall (id - 1) o ltac:(lia) Eo) as [Ei _ Hc _].
    destruct (Hc ltac:(lia)) as [? _ _ _ _ _]. lia.
Qed.

Lemma up_reaches_root id : 1 <= id <= sb_object_count sb ->
  exists k : nat, Z.of_nat k < id /\ up objects k id = Some 1.
Proof.
  intros Hid. assert (0 <= id) as H0 by lia. revert Hid.
  pattern id. apply Zlt_0_ind; [| done]. clear id H0. intros id IH _ Hid.
  destruct (elem_at_in_range objects (id - 1) ltac:(lia)) as [o Eo].
  destruct (parent_step id o Hid Eo) as [[-> _] | [? Hp]]; [by exists O |].
  destruct (IH (ob_parent_id o)) as (k & Hk & Hup); [lia.. |].
  exists (S k). split; [lia |]. cbn [up]. rewrite Eo. done.
Qed.

(** The links strictly descend until the root. *)
Lemma up_descends k : forall id a, 1 <= id <= sb_object_count sb ->
  up objects k id = Some a -> a <= id /\ ((0 < k)%nat -> 1 < id -> a < id).
Proof.
  induction k as [|k IH]; intros id a Hid E; cbn [up] in E; [naive_solver lia |].
  destruct (elem_at objects (id - 1)) as [o |] eqn:Eo; [| done]. cbn in E.
  destruct (parent_step id o Hid Eo) as [[-> Ep] | [? Hp]].
  - rewrite Ep in E. destruct (IH 1 a ltac:(lia) E). lia.
  - destruct (IH (ob_parent_id o) a ltac:(lia) E). lia.
Qed.

Lemma extents_ok i j oi oj :
  obj_wf oi -> obj_wf oj ->
  0 <= j < i -> i < sb_object_count sb ->
  elem_at objects i = Some oi -> elem_at objects j = Some oj ->
  ob_type oi = XZSFS_TYPE_REG -> ob_type oj = XZSFS_TYPE_REG ->
  ob_data_offset oi + ob_data_length oi < 2 ^ 64 ->
  ob_data_offset oj + ob_data_length oj < 2 ^ 64 ->
  ob_data_offset oj + ob_data_length oj <= ob_data_offset oi \/
  ob_data_offset oi + ob_data_length oi <= ob_data_offset oj.
Proof.
  intros Hwi Hwj ?? Ei Ej Ti Tj ??. destruct Hgraph as (_ & _ & Hall).
  destruct (Hall i oi ltac:(lia) Ei) as [_ _ _ [_ _ Hd]].
  unfold obj_wf in *. destruct_and!.
  destruct (Hd ltac:(rewrite Ti; done) j oj ltac:(lia) Ej Tj) as [Hx | Hx];
    unfold ends in Hx; rewrite !u64_small in Hx by cint; lia.
Qed.
End tree.

(** ** Properties *)

(** C2. For a validated superblock, [xzsfs_core_validate_graph] on the driver's
    fixed-size arrays always returns, never reads outside them, and answers 0 exactly on
    well-formed object graphs ([graph_wf]) and EINVAL on all others. *)
Theorem validate_graph_decides (sb : xzsfs_disk_superblock)
    (objects : list xzsfs_disk_object) (strtab : bytes)
    (Hwf : sb_wf sb) (Hok : xzsfs_core_validate_superblock sb = XZSFS_ERR_OK)
    (Hobj : zlen objects = 32 /\ Forall obj_wf objects) (Hst : zlen strtab = 2048) :
  (xzsfs_core_validate_graph sb objects strtab = Some XZSFS_ERR_OK /\ graph_wf sb objects strtab) \/
  (xzsfs_core_validate_graph sb objects strtab = Some XZSFS_ERR_INVAL /\
   ~ graph_wf sb objects strtab).
Proof.
  apply validate_superblock_checked in Hok. destruct Hobj.
  by apply validate_graph_verdict.
Qed.

Lemma sample_objects32_wf : zlen sample_objects32 = 32 /\ Forall obj_wf sample_objects32.
Proof. split; [by vm_compute | apply (bool_decide_unpack _); by vm_compute]. Qed.

Lemma sample_sb_wf : sb_wf sample_sb.
Proof. apply (bool_decide_unpack _). by vm_compute. Qed.

Lemma validate_graph_decides_witness :
  graph_wf sample_sb sample_objects32 sample_strtab2048.
Proof.
  destruct (validate_graph_decides sample_sb sample_objects32 sample_strtab2048
    sample_sb_wf ltac:(by vm_compute) sample_objects32_wf ltac:(by vm_compute))
    as [[_ H] | [H _]]; [exact H |].
  exfalso. assert (xzsfs_core_validate_graph sample_sb sample_objects32 sample_strtab2048
    = Some XZSFS_ERR_OK) as E by (by vm_compute). rewrite E in H. discriminate H.
Defined.

(** C38. In a validated graph the parent links form a tree: from every object the root is
    reached in fewer steps than the object's id, and no object other than the root is its
    own ancestor. *)
Theorem validated_graph_is_tree (sb : xzsfs_disk_superblock)
    (objects : list xzsfs_disk_object) (strtab : bytes)
    (Hwf : sb_wf sb) (Hok : xzsfs_core_validate_superblock sb = XZSFS_ERR_OK)
    (Hobj : zlen objects = 32 /\ Forall obj_wf objects) (Hst : zlen strtab = 2048)
    (Hval : xzsfs_core_validate_graph sb objects strtab = Some XZSFS_ERR_OK)
    (id : Z) (Hid : 1 <= id <= sb_object_count sb) :
  (exists k : nat, Z.of_nat k < id /\ up objects k id = Some 1) /\
  forall k : nat, (0 < k)%nat -> 1 < id -> up objects k id <> Some id.
Proof.
  apply validate_superblock_checked in Hok. destruct Hobj.
  pose proof (checked_sizes sb Hwf Hok) as (? & _ & _ & _).
  apply (verdict_ok _ _ (validate_graph_verdict sb objects strtab Hwf Hok ltac:(done) ltac:(done) Hst)) in Hval.
  split; [apply (up_reaches_root sb objects strtab); (done || lia) |].
  intros k Hk Hid2 E. destruct (up_descends sb objects strtab Hval k id id Hid E). lia.
Qed.

Lemma validated_graph_is_tree_witness :
  (exists k : nat, Z.of_nat k < 3 /\ up sample_objects32 k 3 = Some 1) /\
  (forall k : nat, (0 < k)%nat -> 1 < 3 -> up sample_objects32 k 3 <> Some 3).
Proof.
  apply (validated_graph_is_tree sample_sb sample_objects32 sample_strtab2048
    sample_sb_wf ltac:(by vm_compute) sample_objects32_wf ltac:(by vm_compute)
    ltac:(by vm_compute) 3). by vm_compute.
Defined.

(** The byte [p] of the device belongs to the file. *)
Definition in_extent (o : xzsfs_disk_object) (p : Z) : Prop :=
  ob_data_offset o <= p < ob_data_offset o + ob_data_length o.

(** When no end offset wraps, the extents of two different regular files of a
    validated graph do not share a byte. *)
Theorem validated_extents_disjoint (sb : xzsfs_disk_superblock)
    (objects : list xzsfs_disk_object) (strtab : bytes)
    (Hwf : sb_wf sb) (Hok : xzsfs_core_validate_superblock sb = XZSFS_ERR_OK)
    (Hobj : zlen objects = 32 /\ Forall obj_wf objects) (Hst : zlen strtab = 2048)
    (Hval : xzsfs_core_validate_graph sb objects strtab = Some XZSFS_ERR_OK)
    (i j : Z) (oi oj : xzsfs_disk_object)
    (Hi : 0 <= i < sb_object_count sb /\ elem_at objects i = Some oi)
    (Hj : 0 <= j < sb_object_count sb /\ elem_at objects j = Some oj) (Hij : i <> j)
    (Hreg : ob_type oi = XZSFS_TYPE_REG /\ ob_type oj = XZSFS_TYPE_REG)
    (Hnowrap : ob_data_offset oi + ob_data_length oi < 2 ^ 64 /\
               ob_data_offset oj + ob_data_length oj < 2 ^ 64) :
  forall p, ~ (in_extent oi p /\ in_extent oj p).
Proof.
  unfold in_extent. apply validate_superblock_checked in Hok. destruct_and!.
  apply (verdict_ok _ _ (validate_graph_verdict sb objects strtab Hwf Hok ltac:(done) ltac:(done) Hst)) in Hval.
  assert (forall k o, elem_at objects k = Some o -> obj_wf o) as Ho
    by (intros; eapply (obj_at_wf objects); eauto).
  intros p Hp. destruct (Z.lt_total i j) as [| [|]]; [| done |].
  - pose proof (extents_ok sb objects strtab Hval j i oj oi). naive_solver lia.
  - pose proof (extents_ok sb objects strtab Hval i j oi oj). naive_solver lia.
Qed.

(** Two files in a four-sector data area, for the witness. *)
Definition two_files_sb : xzsfs_disk_superblock :=
  SB XZSFS_MAGIC 1 512 512 3584 3 1 512 192 1024 512 1536 2048 0 0 (replicate 424 0).
Definition two_files : list xzsfs_disk_object :=
  [ Obj 1 1 1 493 0 0 0 0 0 0 0 0; Obj 2 1 2 420 0 0 1 3 1536 700 0 0;
    Obj 3 1 2 420 0 0 8 3 2560 512 0 0 ] ++ replicate 29 (Obj 0 0 0 0 0 0 0 0 0 0 0 0).

Lemma validated_extents_disjoint_witness :
  ~ (in_extent (Obj 3 1 2 420 0 0 8 3 2560 512 0 0) 2600 /\
     in_extent (Obj 2 1 2 420 0 0 1 3 1536 700 0 0) 2600).
Proof.
  apply (validated_extents_disjoint two_files_sb two_files sample_strtab2048
    ltac:(apply (bool_decide_unpack _); by vm_compute) ltac:(by vm_compute)
    ltac:(split; [by vm_compute | apply (bool_decide_unpack _); by vm_compute])
    ltac:(by vm_compute) ltac:(by vm_compute) 2 1
    (Obj 3 1 2 420 0 0 8 3 2560 512 0 0) (Obj 2 1 2 420 0 0 1 3 1536 700 0 0));
    by vm_compute.
Defined.

(** Without that proviso the in-image check fails: a regular file whose offset and
    length sum to 2^64 passes validation although its extent leaves the image. *)
Theorem graph_extent_wrap_accepted :
  exists sb objects strtab o,
    xzsfs_core_validate_superblock sb = XZSFS_ERR_OK /\
    xzsfs_core_validate_graph sb objects strtab = Some XZSFS_ERR_OK /\
    o ∈ objects /\ ob_type o = XZSFS_TYPE_REG /\
    ends o <= sb_image_size_bytes sb /\ sb_image_size_bytes sb < ob_data_offset o + ob_data_length o.
Proof.
  exists (SB XZSFS_MAGIC 1 512 512 2048 2 1 512 128 1024 512 1536 512 0 0 (replicate 424 0)),
    ([ Obj 1 1 1 493 0 0 0 0 0 0 0 0; Obj 2 1 2 420 0 0 1 3 1536 (2 ^ 64 - 1536) 0 0 ]
       ++ replicate 30 (Obj 0 0 0 0 0 0 0 0 0 0 0 0)),
    sample_strtab2048, (Obj 2 1 2 420 0 0 1 3 1536 (2 ^ 64 - 1536) 0 0).
  split_and!; [by vm_compute | by vm_compute | | done | by vm_compute | by vm_compute].
  right. left.
Qed.
