(* ===== verification/XzsfsLookup.v ===== *)
(** * XZSFS: the in-memory node table and name lookup

    What [xzsfs_core_init_fs] leaves in memory for a validated image ([fs_holds]), the
    specification of one path-component lookup as a relation ([resolves]), the proof that
    [xzsfs_core_lookup] computes it, and reachability of every object by its path. *)

From stdpp Require Import base list strings.
From Stdlib Require Import ZArith Lia.
From S2P Require Import Prelude Crc32 XzsfsCore XzsfsSample XzsfsFormat XzsfsGraph.

(** ** The node table *)

Lemma init_nodes_loop (objects : list xzsfs_disk_object) (nodes : list xzsfs_core_node) (n : nat) :
  Z.of_nat n <= zlen objects -> Z.of_nat n <= zlen nodes ->
  for_loop n 0 (init_node objects) nodes =
  Some (Next ((node_of_object <$> take n objects) ++ drop n nodes)).
Proof. apply (fill_loop node_of_object). Qed.

Lemma init_fs_result fs0 sb objects strtab :
  0 <= sb_object_count sb <= zlen objects -> sb_object_count sb <= zlen (fs_nodes fs0) ->
  0 <= sb_string_table_size sb <= zlen strtab ->
  sb_string_table_size sb <= zlen (fs_strtab fs0) ->
  xzsfs_core_init_fs fs0 sb objects strtab =
  Some (XZSFS_ERR_OK, CoreFs sb (sb_object_count sb)
    ((node_of_object <$> take (Z.to_nat (sb_object_count sb)) objects)
       ++ drop (Z.to_nat (sb_object_count sb)) (fs_nodes fs0))
    (region strtab 0 (sb_string_table_size sb)
       ++ drop (Z.to_nat (sb_string_table_size sb)) (fs_strtab fs0))).
Proof.
  intros. unfold xzsfs_core_init_fs.
  pose proof (copy_into_append [] (fs_strtab fs0) 0 strtab (sb_string_table_size sb)) as Hc.
  cbn [app] in Hc. rewrite Hc by (done || lia). cbn [mbind option_bind].
  by rewrite init_nodes_loop by lia.
Qed.

(** [fs] is the parsed form of the two tables. *)
Record fs_holds (fs : xzsfs_core_fs) (sb : xzsfs_disk_superblock)
    (objects : list xzsfs_disk_object) (strtab : bytes) : Prop := {
  fh_sb : fs_sb fs = sb;
  fh_count : fs_node_count fs = sb_object_count sb;
  fh_nodes : forall i o, 0 <= i < sb_object_count sb -> elem_at objects i = Some o ->
    elem_at (fs_nodes fs) i = Some (node_of_object o);
  fh_strtab_len : zlen (fs_strtab fs) = 2048;
  fh_strtab : region (fs_strtab fs) 0 (sb_string_table_size sb) =
              region strtab 0 (sb_string_table_size sb);
}.

Lemma init_fs_holds fs0 fs sb objects strtab :
  0 <= sb_object_count sb <= zlen objects -> sb_object_count sb <= zlen (fs_nodes fs0) ->
  0 <= sb_string_table_size sb <= zlen strtab ->
  sb_string_table_size sb <= 2048 -> zlen (fs_strtab fs0) = 2048 ->
  xzsfs_core_init_fs fs0 sb objects strtab = Some (XZSFS_ERR_OK, fs) ->
  fs_holds fs sb objects strtab.
Proof.
  intros Ho Hn Hs Hs2 Hf E. rewrite init_fs_result in E by lia. injection E as <-.
  assert (zlen (region strtab 0 (sb_string_table_size sb)) = sb_string_table_size sb) as Er
    by (apply zlen_region; lia).
  constructor; cbn; try done.
  - intros i o Hi Eo. apply elem_at_Some in Eo as [_ Eo].
    rewrite elem_at_app_l by (rewrite zlen_fmap, zlen_take; lia).
    apply elem_at_Some. split; [lia |]. rewrite list_lookup_fmap, lookup_take_lt by lia.
    by rewrite Eo.
  - rewrite zlen_app, Er, zlen_drop by lia. lia.
  - unfold region at 1. rewrite drop_0, take_app_length'; [done |]. unfold zlen in Er. lia.
Qed.

(** ** Lookup as a relation *)

Section lookup.
Context (sb : xzsfs_disk_superblock) (objects : list xzsfs_disk_object) (strtab : bytes).

Definition dot : bytes := lit ".".
Definition dotdot : bytes := lit "..".

(** Object number [i] (id [i + 1]) is an entry of directory [pid] under [name]. *)
Definition is_entry (pid : Z) (name : bytes) (i : Z) : Prop :=
  0 < i < sb_object_count sb /\
  exists o, elem_at objects i = Some o /\ ob_parent_id o = pid /\ name_of strtab o = name.

Definition is_dir (pid : Z) (po : xzsfs_disk_object) : Prop :=
  0 < pid <= sb_object_count sb /\ elem_at objects (pid - 1) = Some po /\
  ob_type po = XZSFS_TYPE_DIR.

Inductive resolves (pid : Z) (name : bytes) : cres Z -> Prop :=
  | res_bad_id :
      ~ 0 < pid <= sb_object_count sb -> resolves pid name (CErr XZSFS_ERR_INVAL)
  | res_not_dir po :
      0 < pid <= sb_object_count sb -> elem_at objects (pid - 1) = Some po ->
      ob_type po <> XZSFS_TYPE_DIR -> resolves pid name (CErr XZSFS_ERR_NOTDIR)
  | res_self po :
      is_dir pid po -> name = dot -> resolves pid name (COk (pid - 1))
  | res_parent po :
      is_dir pid po -> name = dotdot -> resolves pid name (COk (ob_parent_id po - 1))
  | res_entry po i :
      is_dir pid po -> name <> dot -> name <> dotdot ->
      is_entry pid name i -> resolves pid name (COk i)
  | res_absent po :
      is_dir pid po -> name <> dot -> name <> dotdot ->
      (forall i, ~ is_entry pid name i) -> resolves pid name (CErr XZSFS_ERR_NOENT).

Context (Hsb : sb_wf sb) (Hck : sb_checked sb).
Context (Hobjs : zlen objects = 32) (Hobjwf : Forall obj_wf objects).
Context (Hst : zlen strtab = 2048) (Hgraph : graph_wf sb objects strtab).
Context (fs : xzsfs_core_fs) (Hfs : fs_holds fs sb objects strtab).

Lemma graph_object i : 0 <= i < sb_object_count sb ->
  exists o, elem_at objects i = Some o /\ obj_wf o /\ object_ok sb objects strtab i o /\
    elem_at (fs_nodes fs) i = Some (node_of_object o) /\
    0 <= ob_name_offset o /\ 0 <= ob_name_length o /\
    ob_name_offset o + ob_name_length o <= sb_string_table_size sb /\
    (i = 0 -> ob_name_length o = 0).
Proof.
  intros Hi. pose proof (checked_sizes sb Hsb Hck) as (? & _ & _ & ?).
  destruct (elem_at_in_range objects i ltac:(lia)) as [o Eo]. exists o.
  assert (obj_wf o) as Hw by (eapply (obj_at_wf objects); eauto).
  destruct Hgraph as ((root & Er & Hroot) & _ & Hall).
  pose proof (Hall i o Hi Eo) as Hok. pose proof Hw as Hw'. unfold obj_wf in Hw'. destruct_and!.
  split_and!; try done; [by apply (fh_nodes _ _ _ _ Hfs) | cint | cint | |].
  - destruct (decide (i = 0)) as [-> |].
    + simplify_eq. destruct (rt_name _ Hroot) as [-> ->]. lia.
    + destruct (ch_name_bounds _ _ _ _ _ (oo_child _ _ _ _ _ Hok ltac:(lia))). lia.
  - intros ->. simplify_eq. apply (rt_name _ Hroot).
Qed.

(** Names read from the mounted string table are the names of the loaded one. *)
Lemma fs_name o :
  0 <= ob_name_offset o -> 0 <= ob_name_length o ->
  ob_name_offset o + ob_name_length o <= sb_string_table_size sb ->
  sub_bytes (fs_strtab fs) (ob_name_offset o) (ob_name_length o) = Some (name_of strtab o).
Proof.
  intros. pose proof (checked_sizes sb Hsb Hck) as (_ & _ & _ & ?).
  pose proof (fh_strtab_len _ _ _ _ Hfs).
  rewrite sub_bytes_region by lia. unfold name_of. f_equal.
  rewrite <- (Z.add_0_l (ob_name_offset o)).
  rewrite <- !(region_region _ 0 (sb_string_table_size sb)) by lia.
  by rewrite (fh_strtab _ _ _ _ Hfs).
Qed.

Lemma zlen_entry_name i o : 0 <= i < sb_object_count sb -> elem_at objects i = Some o ->
  zlen (name_of strtab o) = ob_name_length o.
Proof.
  intros Hi Eo. pose proof (checked_sizes sb Hsb Hck) as (_ & _ & _ & ?).
  destruct (graph_object i Hi) as (o' & Eo' & _ & _ & _ & ? & ? & ? & _). simplify_eq.
  apply zlen_region; lia.
Qed.

(** One turn of the scan stops exactly at an entry. *)
Lemma lookup_scan_step pid name i : 0 <= i < sb_object_count sb ->
  (lookup_scan fs pid name i tt = Some (Exit i) /\ is_entry pid name i) \/
  (lookup_scan fs pid name i tt = Some (Next tt) /\ ~ is_entry pid name i).
Proof.
  intros Hi. destruct (graph_object i Hi) as (o & Eo & _ & _ & En & H1 & H2 & H3 & _).
  assert (forall P : Prop, is_entry pid name i -> (0 < i -> ob_parent_id o = pid ->
    name_of strtab o = name -> P) -> P) as Hinv.
  { intros P (? & o' & ? & ? & ?) HP. simplify_eq. apply HP; (done || lia). }
  unfold lookup_scan. rewrite En. cbn.
  destruct (Z.eqb_spec (ob_parent_id o) pid) as [Ep | Ep];
    [| right; split; [done |]; intros Hx; apply (Hinv _ Hx); auto].
  destruct (Z.eqb_spec i 0) as [E0 | E0];
    [right; split; [done |]; intros Hx; apply (Hinv _ Hx); lia |]. cbn.
  destruct (Z.eqb_spec (ob_name_length o) (zlen name)) as [El | El].
  - unfold mem_equal. rewrite <- El, fs_name by done. rewrite El, sub_bytes_all. cbn.
    destruct (bool_decide_reflect (name_of strtab o = name)) as [E | E].
    + left. split; [done |]. split; [lia |]. eauto.
    + right. split; [done |]. intros Hx. by apply (Hinv _ Hx).
  - right. split; [done |]. intros Hx. apply (Hinv _ Hx). intros _ _ <-.
    by rewrite (zlen_entry_name i o Hi Eo) in El.
Qed.

Lemma lookup_scan_loop pid name :
  exists c, for_loop (Z.to_nat (fs_node_count fs)) 0 (lookup_scan fs pid name) tt = Some c /\
    match c with Next _ => forall i, ~ is_entry pid name i | Exit i => is_entry pid name i end.
Proof.
  pose proof (checked_sizes sb Hsb Hck) as (? & _ & _ & _).
  rewrite (fh_count _ _ _ _ Hfs).
  destruct (for_loop_inv (fun k _ => forall i, i < k -> ~ is_entry pid name i)
    (fun i => is_entry pid name i) (Z.to_nat (sb_object_count sb)) 0
    (lookup_scan fs pid name) tt) as (c & -> & Hc).
  - intros i ? [? _]. lia.
  - intros k [] Hk Hprev.
    destruct (lookup_scan_step pid name k ltac:(lia)) as [[-> He] | [-> He]];
      (eexists; split; [done |]); [done |]. intros i Hi.
    destruct (decide (i = k)) as [-> |]; [done | apply Hprev; lia].
  - exists c. split; [done |]. destruct c; [| done].
    intros i Hi. apply (Hc i); [destruct Hi; lia | done].
Qed.

Lemma is_dir_inj pid po po' : is_dir pid po -> is_dir pid po' -> po = po'.
Proof. unfold is_dir. naive_solver. Qed.

Lemma is_entry_inj pid name i j : is_entry pid name i -> is_entry pid name j -> i = j.
Proof.
  assert (forall i j, j < i -> is_entry pid name i -> is_entry pid name j -> False) as Hlt.
  { intros i' j' ? (? & oi & Ei & Pi & Ni) (? & oj & Ej & Pj & Nj).
    destruct Hgraph as (_ & _ & Hall).
    pose proof (oo_child _ _ _ _ _ (Hall i' oi ltac:(lia) Ei) ltac:(lia)) as Hc.
    apply (ch_name_unique _ _ _ _ _ Hc j' oj ltac:(lia) Ej); congruence. }
  intros Hi Hj. destruct (Z.lt_total i j) as [| [|]]; [exfalso; eauto | done | exfalso; eauto].
Qed.

Lemma resolves_functional pid name r r' :
  resolves pid name r -> resolves pid name r' -> r = r'.
Proof.
  assert (dot <> dotdot) as Hd by done.
  intros H H'. destruct H, H'; try done;
    repeat match goal with
    | H1 : is_dir ?p _, H2 : is_dir ?p _ |- _ => pose proof (is_dir_inj _ _ _ H1 H2); clear H2
    | H : is_dir _ _ |- _ => destruct H as (? & ? & ?)
    end; subst; try done; try lia; try congruence; try (exfalso; naive_solver congruence).
  f_equal. by eapply is_entry_inj.
Qed.

(** The code computes the relation; in particular it stays inside its arrays. *)
Lemma lookup_resolves pid name : is_u32 pid ->
  exists r, xzsfs_core_lookup fs pid name = Some r /\ resolves pid name r.
Proof.
  intros Hpid. pose proof (checked_sizes sb Hsb Hck) as (? & _ & _ & _).
  unfold xzsfs_core_lookup. rewrite (fh_count _ _ _ _ Hfs).
  destruct ((pid =? 0) || (sb_object_count sb <? pid)) eqn:Hg; bool_to_prop.
  { eexists. split; [done |]. constructor. lia. }
  assert (0 < pid <= sb_object_count sb) as Hin by (cint_unfold; lia).
  destruct (graph_object (pid - 1) ltac:(lia)) as (po & Ep & Hw & Hok & En & _).
  rewrite En. cbn [mbind option_bind node_of_object cn_type cn_parent_id].
  destruct (Z.eqb_spec (ob_type po) XZSFS_TYPE_DIR) as [Ed | Ed]; cbn [negb].
  2:{ eexists. split; [done |]. by eapply res_not_dir. }
  assert (is_dir pid po) as Hdir by done.
  destruct (bool_decide_reflect (name = [46])) as [En1 | En1].
  { eexists. split; [done |]. by eapply res_self. }
  destruct (bool_decide_reflect (name = [46; 46])) as [En2 | En2].
  { rewrite u32_small; [eexists; split; [done |]; by eapply res_parent |].
    destruct (decide (pid = 1)) as [-> |].
    - destruct Hgraph as ((root & Er & Hroot) & _). change (1 - 1) with 0 in Ep. simplify_eq.
      rewrite (rt_parent _ Hroot). cint.
    - destruct (ch_parent _ _ _ _ _ (oo_child _ _ _ _ _ Hok ltac:(lia))).
      rewrite (oo_id _ _ _ _ _ Hok) in *. cint. }
  pose proof (lookup_scan_loop pid name) as (c & Hc & Hr). rewrite (fh_count _ _ _ _ Hfs) in Hc.
  rewrite Hc. cbn. eexists. split; [done |]. destruct c; [by eapply res_absent | by eapply res_entry].
Qed.
End lookup.

(** ** Paths *)

(** Resolve a path one component at a time from object [id]. *)
Fixpoint walk (fs : xzsfs_core_fs) (id : Z) (path : list bytes) : option (cres Z) :=
  match path with
  | [] => Some (COk id)
  | name :: rest =>
      r ← xzsfs_core_lookup fs id name;
      match r with
      | COk i => walk fs (i + 1) rest
      | CErr e => Some (CErr e)
      end
  end.

Lemma walk_app fs id p q i :
  walk fs id p = Some (COk i) -> walk fs id (p ++ q) = walk fs i q.
Proof.
  revert id. induction p as [|n p IH]; intros id; cbn [walk app]; [naive_solver |].
  destruct (xzsfs_core_lookup fs id n) as [[j | e] |]; cbn; [| done..]. apply IH.
Qed.

(** ** What mounting establishes *)

(** The metadata of an image that passed both validators, in the driver's arrays. *)
Record validated (sb : xzsfs_disk_superblock) (objects : list xzsfs_disk_object)
    (strtab : bytes) : Prop := {
  va_wf : sb_wf sb;
  va_sb : xzsfs_core_validate_superblock sb = XZSFS_ERR_OK;
  va_objects : zlen objects = 32;
  va_objects_wf : Forall obj_wf objects;
  va_strtab : zlen strtab = 2048;
  va_graph : xzsfs_core_validate_graph sb objects strtab = Some XZSFS_ERR_OK;
}.

Lemma validated_checked sb objects strtab : validated sb objects strtab -> sb_checked sb.
Proof. intros []. by apply validate_superblock_checked. Qed.

Lemma validated_graph sb objects strtab :
  validated sb objects strtab -> graph_wf sb objects strtab.
Proof.
  intros H. pose proof (validated_checked _ _ _ H). destruct H.
  by apply (verdict_ok _ _ (validate_graph_verdict sb objects strtab
    va_wf0 ltac:(done) ltac:(done) ltac:(done) ltac:(done))).
Qed.

(** The zeroed [struct xzsfs_core_fs] of a fresh mount. *)
Definition zero_node : xzsfs_core_node := CNode 0 0 0 0 0 0 0 0 0 0.
Definition zero_sb : xzsfs_disk_superblock :=
  SB 0 0 0 0 0 0 0 0 0 0 0 0 0 0 0 (replicate 424 0).
Definition zero_fs : xzsfs_core_fs :=
  CoreFs zero_sb 0 (replicate 32 zero_node) (replicate 2048 0).

Lemma validated_init_fs sb objects strtab fs0 :
  validated sb objects strtab -> zlen (fs_nodes fs0) = 32 -> zlen (fs_strtab fs0) = 2048 ->
  exists fs, xzsfs_core_init_fs fs0 sb objects strtab = Some (XZSFS_ERR_OK, fs) /\
    fs_holds fs sb objects strtab.
Proof.
  intros Hv ??. pose proof (checked_sizes sb (va_wf _ _ _ Hv) (validated_checked _ _ _ Hv))
    as (? & _ & _ & ?).
  destruct Hv. eexists. split; [apply init_fs_result; lia |].
  eapply (init_fs_holds fs0); [lia.. |]. apply init_fs_result; lia.
Qed.

Lemma validated_lookup sb objects strtab fs pid name r :
  validated sb objects strtab -> fs_holds fs sb objects strtab -> is_u32 pid ->
  xzsfs_core_lookup fs pid name = Some r <-> resolves sb objects strtab pid name r.
Proof.
  intros Hv Hfs Hpid. pose proof (validated_checked _ _ _ Hv) as Hck.
  pose proof (validated_graph _ _ _ Hv) as Hg. destruct Hv.
  destruct (lookup_resolves sb objects strtab ltac:(done) Hck ltac:(done) ltac:(done) ltac:(done) Hg fs Hfs pid name Hpid)
    as (r' & E & Hr').
  split.
  - intros E'. by simplify_eq.
  - intros Hr. by rewrite E, (resolves_functional sb objects strtab Hg pid name r r').
Qed.

(** No object is called "." or "..". *)
Definition plain_names (sb : xzsfs_disk_superblock) (objects : list xzsfs_disk_object)
    (strtab : bytes) : Prop :=
  forall i o, 0 <= i < sb_object_count sb -> elem_at objects i = Some o ->
    name_of strtab o <> dot /\ name_of strtab o <> dotdot.

Lemma object_has_path sb objects strtab fs :
  validated sb objects strtab -> fs_holds fs sb objects strtab ->
  plain_names sb objects strtab -> forall id, 1 <= id <= sb_object_count sb ->
  exists path, walk fs 1 path = Some (COk id).
Proof.
  intros Hv Hfs Hplain id Hid. assert (0 <= id) as H0 by lia. revert Hid.
  pattern id. apply Zlt_0_ind; [| done]. clear id H0. intros id IH _ Hid.
  destruct (decide (id = 1)) as [-> |]; [by exists [] |].
  pose proof (checked_sizes sb (va_wf _ _ _ Hv) (validated_checked _ _ _ Hv)) as (? & _ & _ & _).
  pose proof (validated_graph _ _ _ Hv) as (_ & _ & Hall). pose proof (va_objects _ _ _ Hv).
  destruct (elem_at_in_range objects (id - 1) ltac:(lia)) as [o Eo].
  pose proof (Hall (id - 1) o ltac:(lia) Eo) as Hok. pose proof (oo_id _ _ _ _ _ Hok) as Eid.
  destruct (oo_child _ _ _ _ _ Hok ltac:(lia)) as [Hp (po & Epo & Hd) _ _ _ _].
  destruct (IH (ob_parent_id o)) as [path Hpath]; [lia.. |].
  destruct (Hplain (id - 1) o ltac:(lia) Eo).
  exists (path ++ [name_of strtab o]). rewrite (walk_app _ _ _ _ _ Hpath). cbn [walk].
  rewrite (proj2 (validated_lookup sb objects strtab fs (ob_parent_id o) (name_of strtab o)
    (COk (id - 1)) Hv Hfs ltac:(cint))).
  - cbn. by replace (id - 1 + 1) with id by lia.
  - eapply (res_entry _ _ _ _ _ po); try done; [split; [lia | done] |].
    split; [lia |]. eauto.
Qed.

(** ** Properties *)

(** Building the in-memory file system from validated metadata always succeeds,
    stays inside the fixed arrays, and keeps exactly the node of every object and the
    string table. *)
Theorem init_fs_total (sb : xzsfs_disk_superblock) (objects : list xzsfs_disk_object)
    (strtab : bytes) (fs0 : xzsfs_core_fs) (Hv : validated sb objects strtab)
    (Hfs0 : zlen (fs_nodes fs0) = 32 /\ zlen (fs_strtab fs0) = 2048) :
  exists fs, xzsfs_core_init_fs fs0 sb objects strtab = Some (XZSFS_ERR_OK, fs) /\
    fs_holds fs sb objects strtab.
Proof. destruct Hfs0. by apply validated_init_fs. Qed.

Lemma sample_validated : validated sample_sb sample_objects32 sample_strtab2048.
Proof.
  constructor; [apply sample_sb_wf | by vm_compute | | | by vm_compute | by vm_compute];
    apply sample_objects32_wf.
Qed.

Lemma init_fs_total_witness :
  exists fs, xzsfs_core_init_fs zero_fs sample_sb sample_objects32 sample_strtab2048 =
    Some (XZSFS_ERR_OK, fs) /\ fs_holds fs sample_sb sample_objects32 sample_strtab2048.
Proof. apply (init_fs_total _ _ _ _ sample_validated). split; by vm_compute. Defined.

(** The mounted sample file system. *)
Definition sample_fs : xzsfs_core_fs := Eval vm_compute in
  match xzsfs_core_init_fs zero_fs sample_sb sample_objects32 sample_strtab2048 with
  | Some (_, fs) => fs
  | None => zero_fs
  end.

Lemma sample_fs_holds : fs_holds sample_fs sample_sb sample_objects32 sample_strtab2048.
Proof.
  destruct (validated_init_fs _ _ _ zero_fs sample_validated) as (fs & E & H);
    [by vm_compute.. |].
  assert (xzsfs_core_init_fs zero_fs sample_sb sample_objects32 sample_strtab2048 =
    Some (XZSFS_ERR_OK, sample_fs)) as E' by (by vm_compute).
  rewrite E' in E. by injection E as <-.
Qed.

(** C17. On a mounted validated image, name lookup is exactly the relation [resolves]:
    EINVAL for an id out of range, ENOTDIR for a file, the directory itself for ".", its
    parent for "..", the one child with that name, ENOENT if there is none; it always
    returns and never reads outside the node and string tables. *)
Theorem lookup_refines (sb : xzsfs_disk_superblock) (objects : list xzsfs_disk_object)
    (strtab : bytes) (fs : xzsfs_core_fs) (Hv : validated sb objects strtab)
    (Hfs : fs_holds fs sb objects strtab) (pid : Z) (Hpid : is_u32 pid) (name : bytes)
    (r : cres Z) :
  xzsfs_core_lookup fs pid name = Some r <-> resolves sb objects strtab pid name r.
Proof. by apply validated_lookup. Qed.

Lemma lookup_refines_witness :
  resolves sample_sb sample_objects32 sample_strtab2048 2 (lit "sh") (COk 2).
Proof.
  apply (lookup_refines _ _ _ sample_fs sample_validated sample_fs_holds 2 ltac:(by vm_compute)
    (lit "sh") (COk 2)).
  by vm_compute.
Defined.

(** C30. If no object is named "." or "..", every object of a mounted validated image is
    found by resolving some path from the root. *)
Theorem every_object_reachable (sb : xzsfs_disk_superblock)
    (objects : list xzsfs_disk_object) (strtab : bytes) (fs : xzsfs_core_fs)
    (Hv : validated sb objects strtab) (Hfs : fs_holds fs sb objects strtab)
    (Hplain : plain_names sb objects strtab) (id : Z) (Hid : 1 <= id <= sb_object_count sb) :
  exists path, walk fs 1 path = Some (COk id).
Proof. by apply (object_has_path sb objects strtab). Qed.

Lemma sample_plain : plain_names sample_sb sample_objects32 sample_strtab2048.
Proof.
  intros i o [Hi Hi2] Eo. change (sb_object_count sample_sb) with 4 in Hi2.
  assert (i = 0 \/ i = 1 \/ i = 2 \/ i = 3) as [-> | [-> | [-> | ->]]] by lia;
    injection Eo as <-; split; by vm_compute.
Qed.

Lemma every_object_reachable_witness : exists path, walk sample_fs 1 path = Some (COk 3).
Proof.
  apply (every_object_reachable _ _ _ _ sample_validated sample_fs_holds sample_plain 3).
  by vm_compute.
Defined.

(** An image whose object 2 is called "..". *)
Definition hidden_sb : xzsfs_disk_superblock :=
  SB XZSFS_MAGIC 1 512 512 2048 2 1 512 128 1024 512 1536 512 0 0 (replicate 424 0).
Definition hidden_objects : list xzsfs_disk_object :=
  [ Obj 1 1 1 493 0 0 0 0 0 0 0 0; Obj 2 1 2 420 0 0 1 2 1536 10 0 0 ]
    ++ replicate 30 (Obj 0 0 0 0 0 0 0 0 0 0 0 0).
Definition hidden_strtab : bytes := 0 :: lit ".." ++ replicate 2045 0.

Lemma hidden_validated : validated hidden_sb hidden_objects hidden_strtab.
Proof.
  constructor; [apply (bool_decide_unpack _) | | | apply (bool_decide_unpack _) | |];
    vm_compute; reflexivity || exact I.
Qed.

(** The validator admits an object named ".."; such an object passes every check but
    no lookup returns it, whatever the directory and the name. *)
Theorem dotdot_object_hidden :
  validated hidden_sb hidden_objects hidden_strtab /\
  forall fs pid name, fs_holds fs hidden_sb hidden_objects hidden_strtab -> is_u32 pid ->
    xzsfs_core_lookup fs pid name <> Some (COk 1).
Proof.
  split; [exact hidden_validated |]. intros fs pid name Hfs Hpid E.
  apply (validated_lookup _ _ _ _ _ _ _ hidden_validated Hfs Hpid) in E.
  assert (forall po, is_dir hidden_sb hidden_objects pid po -> pid = 1 /\ ob_parent_id po = 1) as Hd.
  { intros po (Hin & Ep & Hty). change (sb_object_count hidden_sb) with 2 in Hin.
    assert (pid = 1 \/ pid = 2) as [-> | ->] by lia; injection Ep as <-; [done |].
    by vm_compute in Hty. }
  inversion E as [| | po Hpo | po Hpo | po i Hpo Hn1 Hn2 He | ];
    destruct (Hd _ Hpo) as [Ep1 Ep2]; subst; [lia | lia |].
  destruct He as (_ & o & Eo & _ & En). injection Eo as <-. apply Hn2. rewrite <- En. by vm_compute.
Qed.
