(* ===== verification/XzsfsRead.v ===== *)
(** * XZSFS: reading a file

    [xzsfs_core_read] walks the sectors of a file's extent.  Over a device that serves
    the image it delivers exactly the requested part of the file, clipped at end of file,
    and it stops with the device's error at the first sector that fails. *)

From stdpp Require Import base list strings.
From Stdlib Require Import ZArith Lia.
From S2P Require Import Prelude Crc32 XzsfsCore XzsfsSample XzsfsFormat.

(** Bytes a read of [len] at [offset] delivers from a file of [size] bytes. *)
Definition read_count (size offset len : Z) : Z := Z.max 0 (Z.min len (size - offset)).

(** ** Walking sectors

    Both read loops of the driver move a position from [start] to [start + n], each turn
    up to the end of the current sector.  The rule bounds their turns by [read_fuel n]. *)

(** Bytes the turn at [start + done] moves. *)
Definition sector_chunk (start n done : Z) : Z :=
  Z.min (512 - (start + done) mod 512) (n - done).

Definition sectors_left (start n done : Z) : nat :=
  if done <? n then Z.to_nat ((start + n - 1) / 512 - (start + done) / 512 + 1) else 0%nat.

(** After a turn the walk is at the end or at the start of the next sector. *)
Lemma sector_chunk_next start n done : 0 <= start -> 0 <= done < n ->
  let c := sector_chunk start n done in
  0 < c /\ done + c <= n /\ (start + (done + c) - 1) / 512 = (start + done) / 512 /\
  (done + c < n -> (start + (done + c)) / 512 = (start + done) / 512 + 1).
Proof.
  intros Hs Hd c. set (q := (start + done) / 512). set (r := (start + done) mod 512).
  assert (start + done = 512 * q + r /\ 0 <= r < 512) as [Eqr Hr]
    by (split; [apply Z.div_mod; lia | apply Z.mod_pos_bound; lia]).
  subst c. unfold sector_chunk. fold r. split_and!; [lia | lia | |].
  - symmetry. apply (Z.div_unique _ _ _ (r + Z.min (512 - r) (n - done) - 1)); lia.
  - intros. replace (start + (done + Z.min (512 - r) (n - done))) with ((q + 1) * 512) by lia.
    by rewrite Z.div_mul by lia.
Qed.

Lemma sector_loop {S R} (start n : Z) (pos : S -> Z) (P : S -> Prop) (Q : R -> Prop) body (s : S) :
  0 <= start -> 0 < n -> P s -> pos s = 0 ->
  (forall t, P t -> 0 <= pos t < n ->
     (exists t', body t = Some (Next t') /\ P t' /\ pos t' = pos t + sector_chunk start n (pos t)) \/
     (exists r, body t = Some (Exit r) /\ Q r)) ->
  (forall t, P t -> pos t = n -> exists r, body t = Some (Exit r) /\ Q r) ->
  exists r, loop (read_fuel n) body s = Some r /\ Q r.
Proof.
  intros Hs Hn HP H0 Hstep Hend.
  apply (loop_inv (fun t => P t /\ 0 <= pos t <= n) Q (fun t => sectors_left start n (pos t))).
  - split; [done | lia].
  - unfold sectors_left, read_fuel, XZSFS_SECTOR_SIZE. rewrite H0.
    destruct (Z.ltb_spec 0 n); [| lia]. rewrite Z.add_0_r. apply Z2Nat.inj_lt; zdm.
  - intros t [Ht Hp]. destruct (decide (pos t = n)) as [En | En].
    { destruct (Hend t Ht En) as (r & -> & ?). by eexists. }
    destruct (sector_chunk_next start n (pos t) Hs ltac:(lia)) as (? & ? & _ & Hnext).
    destruct (Hstep t Ht ltac:(lia)) as [(t' & -> & HP' & Ep) | (r & -> & ?)]; [| by eexists].
    eexists. split; [done |]. cbn. split; [split; [done | lia] |].
    unfold sectors_left. rewrite Ep, (proj2 (Z.ltb_lt (pos t) n)) by lia.
    assert ((start + pos t) / 512 <= (start + n - 1) / 512) by (apply Z.div_le_mono; lia).
    destruct (Z.ltb_spec (pos t + sector_chunk start n (pos t)) n); [rewrite Hnext by lia |]; lia.
Qed.

(** The bytes a turn takes out of its sector, as a region of the image. *)
Lemma sector_chunk_region (image : bytes) start n done :
  0 <= start -> 0 <= done < n -> ((start + done) / 512 + 1) * 512 <= zlen image ->
  let c := sector_chunk start n done in
  sub_bytes (region image ((start + done) / 512 * 512) 512) ((start + done) mod 512) c =
    Some (region image (start + done) c) /\
  zlen (region image (start + done) c) = c /\
  region image start (done + c) = region image start done ++ region image (start + done) c.
Proof.
  intros Hs Hd Hin c.
  destruct (sector_chunk_next start n done Hs Hd) as (Hc & Hcn & _). fold c in Hc, Hcn.
  set (q := (start + done) / 512) in *. set (r := (start + done) mod 512) in *.
  assert (start + done = 512 * q + r /\ 0 <= r < 512) as [Eqr Hr]
    by (split; [apply Z.div_mod; lia | apply Z.mod_pos_bound; lia]).
  assert (0 <= q) by (apply Z.div_pos; lia). assert (c <= 512 - r) by (subst c; unfold sector_chunk; lia).
  assert (zlen (region image (q * 512) 512) = 512) as Hz by (apply zlen_region; lia).
  rewrite sub_bytes_region by lia. rewrite region_region by lia.
  replace (q * 512 + r) with (start + done) by lia.
  split_and!; [done | apply zlen_region; lia | apply region_split; lia].
Qed.

(** The chunk length as the code computes it. *)
Lemma sector_chunk_code start n done : 0 <= start -> 0 <= done < n ->
  (if n - done <? 512 - u32 ((start + done) mod 512)
   then u32 (n - done) else 512 - u32 ((start + done) mod 512)) = sector_chunk start n done.
Proof.
  intros. assert (0 <= (start + done) mod 512 < 512) by (apply Z.mod_pos_bound; lia).
  rewrite (u32_small ((start + done) mod 512)) by cint. unfold sector_chunk.
  destruct (Z.ltb_spec (n - done) (512 - (start + done) mod 512)); [rewrite u32_small by cint |]; lia.
Qed.

(** ** The core read loop *)

Section read_loop.
Context (read_fn : xzsfs_block_read_fn) (image : bytes).
(** Sectors below [bad] are served from the image. *)
Context (bad : Z) (Hbad : 0 <= bad /\ bad * 512 <= zlen image).
Context (Hgood : forall lba, 0 <= lba < bad -> read_fn lba 1 = (0, region image (lba * 512) 512)).
Context (data_offset offset n : Z) (buf : bytes).
Context (Hoff : 0 <= data_offset /\ 0 <= offset) (Hn : 0 < n <= zlen buf).
Context (Hend : data_offset + offset + n < 2 ^ 64).

Let start := data_offset + offset.
Let last := (start + n - 1) / 512.

Definition copied (done : Z) : bytes := region image start done ++ drop (Z.to_nat done) buf.

Lemma core_read_turn done : 0 <= done < n -> (start + done) / 512 < bad ->
  core_read_step read_fn data_offset offset n (done, copied done) =
  Some (Next (done + sector_chunk start n done, copied (done + sector_chunk start n done))).
Proof.
  intros Hd Hs. assert (0 <= start) by (unfold start; lia).
  assert (0 <= (start + done) / 512) by (apply Z.div_pos; lia).
  destruct (sector_chunk_next start n done ltac:(lia) Hd) as (Hc & Hcn & _).
  destruct (sector_chunk_region image start n done ltac:(lia) Hd ltac:(lia)) as (Esub & Elen & Eapp).
  unfold core_read_step, XZSFS_SECTOR_SIZE. rewrite (proj2 (Z.ltb_lt done n)) by lia.
  fold start. rewrite (u64_small (start + done)) by (unfold start in *; cint).
  rewrite Hgood by lia. cbn [negb Z.eqb]. rewrite sector_chunk_code by lia.
  assert (0 <= (start + done) mod 512 < 512) by (apply Z.mod_pos_bound; lia).
  rewrite (u32_small ((start + done) mod 512)) by cint. rewrite Esub. cbn [mbind option_bind].
  set (c := sector_chunk start n done) in *. unfold copied.
  rewrite copy_into_append; cbn [mbind option_bind].
  - do 2 f_equal. f_equal. rewrite Eapp, <- app_assoc, drop_drop. f_equal. f_equal; [| f_equal; lia].
    rewrite region_region, Z.add_0_r; lia || done.
  - apply zlen_region; [lia.. |]. zdm.
  - rewrite zlen_drop; lia.
  - lia.
Qed.

Lemma core_read_loop e junk (Hfail : bad <= last -> read_fn bad 1 = (e, junk) /\ e <> 0) :
  start / 512 <= bad ->
  exists r, loop (read_fuel n) (core_read_step read_fn data_offset offset n) (0, buf) = Some r /\
    if last <? bad then r = (0, (n, copied n))
    else exists done, 0 <= done < n /\ r = (e, (done, copied done)).
Proof.
  intros Hstart. assert (0 <= start) by (unfold start; lia).
  apply (sector_loop start n fst (fun st => st = (st.1, copied st.1) /\
    (st.1 < n -> (start + st.1) / 512 <= bad) /\
    (0 < st.1 -> (start + st.1 - 1) / 512 < bad))); [lia | lia | | done | |].
  - cbn. split_and!; [done | by rewrite Z.add_0_r | lia].
  - intros [done out] (Est & Hb & Hb') Hd. cbn [fst] in *. injection Est as ->.
    destruct (sector_chunk_next start n done ltac:(lia) Hd) as (Hc & Hcn & Hlast & Hnext).
    destruct (decide ((start + done) / 512 < bad)) as [Hs | Hs].
    + left. rewrite (core_read_turn done Hd Hs). eexists. split; [done |]. cbn.
      split_and!; [done | intros; rewrite Hnext; lia | lia | done].
    + right. assert ((start + done) / 512 = bad) as Eb by (specialize (Hb ltac:(lia)); lia).
      assert (bad <= last) as Hbl by (rewrite <- Eb; apply Z.div_le_mono; lia).
      destruct (Hfail Hbl) as [Ef He].
      unfold core_read_step, XZSFS_SECTOR_SIZE. rewrite (proj2 (Z.ltb_lt done n)) by lia.
      fold start. rewrite (u64_small (start + done)) by (unfold start in *; cint).
      rewrite Eb, Ef, (proj2 (Z.eqb_neq e 0)) by done. cbn. eexists. split; [done |].
      rewrite (proj2 (Z.ltb_ge last bad)) by lia. eauto.
  - intros [done out] (Est & _ & Hb') Hd. cbn [fst] in *. injection Est as ->. subst done.
    unfold core_read_step. rewrite (proj2 (Z.ltb_ge n n)) by lia. eexists. split; [done |].
    specialize (Hb' ltac:(lia)). fold last in Hb'. by rewrite (proj2 (Z.ltb_lt last bad)) by lia.
Qed.
End read_loop.

(** ** The whole read *)

Lemma core_read_exact (read_fn : xzsfs_block_read_fn) (image : bytes)
    (Hdev : BlockDevice read_fn image) (Hal : zlen image mod 512 = 0)
    (Hsmall : zlen image < 2 ^ 63)
    (node : xzsfs_core_node) (offset len bytes_read : Z) (buf : bytes)
    (Hext : 0 <= cn_data_offset node /\ 0 <= cn_data_length node /\
            cn_data_offset node + cn_data_length node <= zlen image)
    (Hoff : 0 <= offset) (Hlen : 0 <= len) (Hsum : offset + len < 2 ^ 64)
    (Hbuf : read_count (cn_data_length node) offset len <= zlen buf) :
  let n := read_count (cn_data_length node) offset len in
  xzsfs_core_read read_fn node offset len buf bytes_read =
  Some (if cn_type node =? XZSFS_TYPE_REG
        then (XZSFS_ERR_OK,
              region image (cn_data_offset node + offset) n ++ drop (Z.to_nat n) buf, n)
        else (XZSFS_ERR_INVAL, buf, bytes_read)).
Proof.
  intros n. unfold xzsfs_core_read.
  destruct (Z.eqb_spec (cn_type node) XZSFS_TYPE_REG); cbn [negb]; [| done].
  destruct ((cn_data_length node <=? offset) || (len =? 0)) eqn:Hg; bool_to_prop.
  { assert (n = 0) as -> by (subst n; unfold read_count; lia). done. }
  rewrite (u64_small (offset + len)) by cint.
  replace (if cn_data_length node <? offset + len
           then u64 (cn_data_length node - offset) else len) with n.
  2:{ subst n. unfold read_count.
      destruct (Z.ltb_spec (cn_data_length node) (offset + len)); [rewrite u64_small by cint |]; lia. }
  assert (0 < n <= zlen buf /\ offset + n <= cn_data_length node) as [??]
    by (subst n; unfold read_count in *; lia).
  destruct (core_read_loop read_fn image (zlen image / 512) ltac:(zdm)
    ltac:(intros; apply bd_read; zdm) (cn_data_offset node) offset n buf
    ltac:(lia) ltac:(lia) ltac:(lia) 0 [] ltac:(intros; exfalso; zdm) ltac:(zdm)) as (r & -> & Hr).
  rewrite (proj2 (Z.ltb_lt _ _)) in Hr by zdm. by rewrite Hr.
Qed.

(** ** Properties *)

(** C4. Over a device that serves the image, reading a regular file whose extent lies
    in it always returns, delivers exactly the bytes of the file between [offset] and
    [offset + len] clipped at end of file, reports their number, and leaves the rest of
    the buffer alone; any other object is refused with EINVAL. *)
Theorem read_exact (read_fn : xzsfs_block_read_fn) (image : bytes)
    (Hdev : BlockDevice read_fn image) (Hal : zlen image mod 512 = 0)
    (Hsmall : zlen image < 2 ^ 63)
    (node : xzsfs_core_node) (offset len bytes_read : Z) (buf : bytes)
    (Hext : 0 <= cn_data_offset node /\ 0 <= cn_data_length node /\
            cn_data_offset node + cn_data_length node <= zlen image)
    (Hoff : 0 <= offset) (Hlen : 0 <= len) (Hsum : offset + len < 2 ^ 64)
    (Hbuf : read_count (cn_data_length node) offset len <= zlen buf) :
  let n := read_count (cn_data_length node) offset len in
  xzsfs_core_read read_fn node offset len buf bytes_read =
  Some (if cn_type node =? XZSFS_TYPE_REG
        then (XZSFS_ERR_OK,
              region image (cn_data_offset node + offset) n ++ drop (Z.to_nat n) buf, n)
        else (XZSFS_ERR_INVAL, buf, bytes_read)).
Proof. by apply core_read_exact. Qed.

(** Object 3 of the sample image, /bin/sh. *)
Definition sample_sh : xzsfs_core_node := CNode 3 2 2 493 0 0 1536 600 5 2.

Lemma read_exact_witness :
  xzsfs_core_read (image_read sample_image) sample_sh 500 512 (replicate 512 7) 0 =
  Some (0, region sample_image 2036 100 ++ replicate 412 7, 100).
Proof.
  apply (read_exact (image_read sample_image) sample_image
    (image_read_device _ sample_image_bytes) ltac:(by vm_compute) ltac:(by vm_compute)
    sample_sh 500 512 0 (replicate 512 7)); by vm_compute.
Defined.

(** If a sector the read needs fails while all earlier ones are served, the read
    stops with the device's error, leaves [*bytes_read] unset, and has stored only a
    prefix of the requested bytes. *)
Theorem read_error (read_fn : xzsfs_block_read_fn) (image : bytes) (bad e : Z) (junk : bytes)
    (Hgood : forall lba, 0 <= lba < bad -> read_fn lba 1 = (0, region image (lba * 512) 512))
    (Hbad : read_fn bad 1 = (e, junk)) (He : e <> 0)
    (Hin : 0 <= bad /\ bad * 512 <= zlen image)
    (node : xzsfs_core_node) (offset len bytes_read : Z) (buf : bytes)
    (Hreg : cn_type node = XZSFS_TYPE_REG)
    (Hoff : 0 <= offset /\ 0 <= cn_data_offset node)
    (Hrange : 0 < len /\ offset + len <= cn_data_length node)
    (Hnowrap : cn_data_offset node + cn_data_length node < 2 ^ 64)
    (Hbuf : len <= zlen buf)
    (Hneed : (cn_data_offset node + offset) / 512 <= bad <=
             (cn_data_offset node + offset + len - 1) / 512) :
  exists done, 0 <= done < read_count (cn_data_length node) offset len /\
    xzsfs_core_read read_fn node offset len buf bytes_read =
    Some (e, region image (cn_data_offset node + offset) done ++ drop (Z.to_nat done) buf,
          bytes_read).
Proof.
  assert (read_count (cn_data_length node) offset len = len) as -> by (unfold read_count; lia).
  unfold xzsfs_core_read. rewrite Hreg. cbn [negb Z.eqb].
  change (negb (XZSFS_TYPE_REG =? XZSFS_TYPE_REG)) with false. cbn iota.
  rewrite (proj2 (Z.leb_gt _ _)), (proj2 (Z.eqb_neq len 0)) by lia. cbn [orb].
  rewrite (u64_small (offset + len)) by cint. rewrite (proj2 (Z.ltb_ge _ _)) by lia.
  destruct (core_read_loop read_fn image bad Hin Hgood (cn_data_offset node) offset len buf
    ltac:(lia) ltac:(lia) ltac:(lia) e junk ltac:(done) ltac:(lia)) as (r & -> & Hr).
  rewrite (proj2 (Z.ltb_ge _ _)) in Hr by lia. destruct Hr as (done & Hd & ->).
  exists done. split; [done |]. cbn. by rewrite (proj2 (Z.eqb_neq e 0)).
Qed.

(** A device whose fifth sector cannot be read. *)
Definition failing_read (lba count : Z) : Z * bytes :=
  if lba =? 4 then (XZSFS_ERR_IO, []) else image_read sample_image lba count.

Lemma read_error_witness :
  exists done, 0 <= done < 600 /\
    xzsfs_core_read failing_read sample_sh 0 600 (replicate 600 7) 0 =
    Some (5, region sample_image 1536 done ++ drop (Z.to_nat done) (replicate 600 7), 0).
Proof.
  apply (read_error failing_read sample_image 4 5 []) with (node := sample_sh) (offset := 0)
    (len := 600) (buf := replicate 600 7) (bytes_read := 0); try by vm_compute.
  intros lba Hl. unfold failing_read. rewrite (proj2 (Z.eqb_neq lba 4)) by lia.
  apply (bd_read (BlockDevice := image_read_device _ sample_image_bytes)); [lia |].
  change (zlen sample_image) with 2560. lia.
Defined.
