(* ===== verification/Kernel.v ===== *)
(** * Kernel services the file system driver relies on

    The interfaces between XZSFS and the rest of the kernel:
    - the buffer cache, [buf_bread]: a function from block number to an error code and,
      when a buffer is returned, its data;
    - [uiomove] and the [uio] of a read request, with the point at which the user
      buffer faults;
    - the vnode layer ([VnodeLayer]): the reference-counting operations of
      bsd/vfs/vfs_subr.c as the driver sees them, with the laws it relies on
      ([VnodeLaws]), and a table implementation that satisfies them. *)

From stdpp Require Import base list gmap strings.
From Stdlib Require Import ZArith Lia.
From S2P Require Import Prelude.

(** ** errno and vnode types *)

Definition EPERM : Z := 1.
Definition ENOENT : Z := 2.
Definition EIO : Z := 5.
Definition ENXIO : Z := 6.
Definition ENOMEM : Z := 12.
Definition EFAULT : Z := 14.
Definition EBUSY : Z := 16.
Definition ENODEV : Z := 19.
Definition ENOTDIR : Z := 20.
Definition EINVAL : Z := 22.
Definition ENOTTY : Z := 25.
Definition EROFS : Z := 30.

Definition KERN_SUCCESS : Z := 0.

Definition VREG : Z := 1.
Definition VDIR : Z := 2.

(** ** The buffer cache *)

(** [buf_bread(devvp, blkno, 512, NOCRED, &bp)]: the error and, if [bp] is not NULL,
    the data behind [buf_dataptr(bp)]. *)
Definition buf_bread_fn : Type := Z -> Z * option bytes.

(** ** uio *)

(** [uio_data] is what has been copied out so far; [uio_fault] is how far the user
    buffer is writable ([None]: all of it). *)
Record uio := Uio {
  uio_offset : Z;
  uio_resid : Z;
  uio_data : bytes;
  uio_fault : option Z;
}.

(** Copy out [data] to a single-vector read request: as much as fits, all or nothing
    when the destination faults. *)
Definition uiomove (data : bytes) (u : uio) : Z * uio :=
  let n := Z.min (zlen data) (uio_resid u) in
  let chunk := take (Z.to_nat n) data in
  let ok := match uio_fault u with
            | None => true
            | Some lim => zlen (uio_data u) + n <=? lim
            end in
  if ok then (0, Uio (uio_offset u + n) (uio_resid u - n) (uio_data u ++ chunk) (uio_fault u))
  else (EFAULT, u).

Definition uio_setoffset (u : uio) (off : Z) : uio :=
  Uio off (uio_resid u) (uio_data u) (uio_fault u).

Lemma uiomove_fits data off resid out :
  zlen data <= resid ->
  uiomove data (Uio off resid out None) =
  (0, Uio (off + zlen data) (resid - zlen data) (out ++ data) None).
Proof.
  intros. unfold uiomove. cbn. rewrite Z.min_l by lia.
  by rewrite take_ge by (unfold zlen; lia).
Qed.

(** ** The vnode layer *)

Definition vnode : Type := Z.

(** What the driver can observe of a vnode: its type, the index of its private
    [struct xzsfs_node] (if any) and its two reference counts. *)
Record vview := VView {
  vv_type : Z;
  vv_fsnode : option Z;
  vv_usecount : Z;
  vv_iocount : Z;
}.

Record vnode_fsparam := VnFs {
  vnfs_vtype : Z;
  vnfs_str : string;
  vnfs_fsnode : Z;
  vnfs_markroot : bool;
  vnfs_marksystem : Z;
  vnfs_rdev : Z;
  vnfs_filesize : Z;
  vnfs_flags : Z;
}.

(** Operations.  [vnode_create] is split at the point where it calls back: it first
    reclaims some vnodes ([recycle_victims]) to make room, then allocates
    ([vnode_alloc]).  [vflush] is given by its return code and the vnodes of the mount
    it reclaims on the way; [vnode_dead] detaches a reclaimed vnode. *)
Class VnodeLayer (V : Type) := {
  view : V -> vnode -> vview;
  on_mount : V -> list vnode;
  vnode_get : vnode -> V -> Z * V;
  vnode_put : vnode -> V -> V;
  vnode_ref : vnode -> V -> Z * V;
  vnode_rele : vnode -> V -> V;
  vnode_clearfsnode : vnode -> V -> V;
  vnode_dead : vnode -> V -> V;
  recycle_victims : V -> list vnode;
  vnode_alloc : vnode_fsparam -> V -> Z * option vnode * V;
  vflush_plan : Z -> V -> Z * list vnode;
}.

Definition set_io (x : vview) (n : Z) : vview :=
  VView (vv_type x) (vv_fsnode x) (vv_usecount x) n.
Definition set_use (x : vview) (n : Z) : vview :=
  VView (vv_type x) (vv_fsnode x) n (vv_iocount x).
Definition set_fsnode (x : vview) (f : option Z) : vview :=
  VView (vv_type x) f (vv_usecount x) (vv_iocount x).

(** [view] at one vnode replaced. *)
Definition upd (f : vnode -> vview) (v : vnode) (x : vview) : vnode -> vview :=
  fun w => if decide (w = v) then x else f w.

Lemma upd_same f v x : upd f v x v = x.
Proof. unfold upd. by rewrite decide_True. Qed.
Lemma upd_other f v x w : w <> v -> upd f v x w = f w.
Proof. intros. unfold upd. by rewrite decide_False. Qed.

Definition FORCECLOSE : Z := 2.

(** What the driver relies on.  Failing operations change nothing; the others change
    the one count or field they are about.  An unforced flush fails while a vnode of
    the mount is in use; a forced one reclaims every vnode of the mount. *)
Class VnodeLaws (V : Type) `{VnodeLayer V} : Prop := {
  get_ok v s s' : vnode_get v s = (0, s') -> forall w,
    view s' w = upd (view s) v (set_io (view s v) (vv_iocount (view s v) + 1)) w;
  get_err v s e s' : vnode_get v s = (e, s') -> e <> 0 -> forall w, view s' w = view s w;
  put_view v s w :
    view (vnode_put v s) w = upd (view s) v (set_io (view s v) (vv_iocount (view s v) - 1)) w;
  ref_ok v s s' : vnode_ref v s = (0, s') -> forall w,
    view s' w = upd (view s) v (set_use (view s v) (vv_usecount (view s v) + 1)) w;
  ref_err v s e s' : vnode_ref v s = (e, s') -> e <> 0 -> forall w, view s' w = view s w;
  rele_view v s w :
    view (vnode_rele v s) w = upd (view s) v (set_use (view s v) (vv_usecount (view s v) - 1)) w;
  clear_view v s w :
    view (vnode_clearfsnode v s) w = upd (view s) v (set_fsnode (view s v) None) w;
  dead_view v s w : view (vnode_dead v s) w = view s w;
  alloc_ok p s v s' : vnode_alloc p s = (0, Some v, s') -> 
    (vv_fsnode (view s v) = None /\ vv_usecount (view s v) = 0) /\
    (forall w, view s' w = upd (view s) v (VView (vnfs_vtype p) (Some (vnfs_fsnode p)) 0 1) w);
  alloc_some p s s' : vnode_alloc p s <> (0, None, s');
  alloc_err p s e vo s' : vnode_alloc p s = (e, vo, s') -> e <> 0 ->
    forall w, view s' w = view s w;
  mount_get v s : on_mount (vnode_get v s).2 = on_mount s;
  mount_put v s : on_mount (vnode_put v s) = on_mount s;
  mount_ref v s : on_mount (vnode_ref v s).2 = on_mount s;
  mount_rele v s : on_mount (vnode_rele v s) = on_mount s;
  alloc_ref p s v s' : vnode_alloc p s = (0, Some v, s') -> (vnode_ref v s').1 = 0;
  mount_alloc p s v s' : vnode_alloc p s = (0, Some v, s') -> v ∈ on_mount s';
  flush_busy s v flags : Z.land flags FORCECLOSE = 0 -> v ∈ on_mount s ->
    0 < vv_usecount (view s v) -> (vflush_plan flags s).1 = EBUSY;
  flush_forced s flags : Z.land flags FORCECLOSE <> 0 ->
    vflush_plan flags s = (0, on_mount s);
}.

(** ** A table of vnodes

    An implementation: live vnodes in a finite map, fresh numbers for new ones, no
    recycling while the table is below its limit. *)

Record vtable := VT {
  vt_map : gmap Z vview;
  vt_mount : list vnode;
  vt_next : Z;
  vt_full : bool;
  vt_recycle : list vnode;
}.

Definition no_vnode : vview := VView 0 None 0 0.
Definition vt_view (t : vtable) (v : vnode) : vview := default no_vnode (vt_map t !! v).
Definition vt_set (t : vtable) (v : vnode) (x : vview) : vtable :=
  VT (<[v := x]> (vt_map t)) (vt_mount t) (vt_next t) (vt_full t) (vt_recycle t).

(** The next number that is not in use. *)
Definition vt_fresh (t : vtable) : vnode := 1 + foldr Z.max (vt_next t) (map_to_list (vt_map t)).*1.

#[global] Instance vtable_layer : VnodeLayer vtable := {|
  view := vt_view;
  on_mount := vt_mount;
  vnode_get v t := (0, vt_set t v (set_io (vt_view t v) (vv_iocount (vt_view t v) + 1)));
  vnode_put v t := vt_set t v (set_io (vt_view t v) (vv_iocount (vt_view t v) - 1));
  vnode_ref v t := (0, vt_set t v (set_use (vt_view t v) (vv_usecount (vt_view t v) + 1)));
  vnode_rele v t := vt_set t v (set_use (vt_view t v) (vv_usecount (vt_view t v) - 1));
  vnode_clearfsnode v t := vt_set t v (set_fsnode (vt_view t v) None);
  vnode_dead v t := VT (vt_map t) (filter (fun w => w <> v) (vt_mount t)) (vt_next t)
                       (vt_full t) (vt_recycle t);
  recycle_victims t := vt_recycle t;
  vnode_alloc p t :=
    if vt_full t then (23, None, t) else
    let v := vt_fresh t in
    (0, Some v, VT (<[v := VView (vnfs_vtype p) (Some (vnfs_fsnode p)) 0 1]> (vt_map t))
                   (vt_mount t ++ [v]) (vt_next t) (vt_full t) []);
  vflush_plan flags t :=
    if Z.land flags FORCECLOSE =? 0
    then (if existsb (fun v => 0 <? vv_usecount (vt_view t v)) (vt_mount t) then (EBUSY, [])
          else (0, vt_mount t))
    else (0, vt_mount t);
|}.

Lemma vt_view_set t v x w : vt_view (vt_set t v x) w = upd (vt_view t) v x w.
Proof.
  unfold vt_view, vt_set, upd. cbn. destruct (decide (w = v)) as [-> |].
  - by rewrite lookup_insert_eq.
  - by rewrite lookup_insert_ne by done.
Qed.

Lemma vt_fresh_free t : vt_map t !! vt_fresh t = None.
Proof.
  destruct (vt_map t !! vt_fresh t) as [x |] eqn:E; [| done]. exfalso.
  apply elem_of_map_to_list in E.
  assert (forall n l v, v ∈ l -> v <= foldr Z.max n l) as Hmax.
  { intros n l v. induction 1; cbn; lia. }
  assert (vt_fresh t ∈ (map_to_list (vt_map t)).*1) as Hin
    by (apply list_elem_of_fmap; by eexists (_, _)).
  apply (Hmax (vt_next t)) in Hin. unfold vt_fresh at 1 in Hin. set (m := foldr Z.max _ _) in *. lia.
Qed.

#[global] Instance vtable_laws : VnodeLaws vtable.
Proof.
  constructor; cbn; try done.
  - intros ???. injection 1 as <-. intros. apply vt_view_set.
  - naive_solver.
  - intros. apply vt_view_set.
  - intros ???. injection 1 as <-. intros. apply vt_view_set.
  - naive_solver.
  - intros. apply vt_view_set.
  - intros. apply vt_view_set.
  - intros p s v s'. destruct (vt_full s); [done |]. injection 1 as <- <-.
    split; [unfold vt_view; rewrite vt_fresh_free; by split |]. intros w. apply (vt_view_set s).
  - intros p s s'. by destruct (vt_full s).
  - intros p s e vo s'. destruct (vt_full s); naive_solver.
  - intros p s v s'. destruct (vt_full s); [done |]. injection 1 as <- <-. cbn. set_solver.
  - intros s v flags -> Hv Hu. cbn.
    assert (existsb (fun v => 0 <? vv_usecount (vt_view s v)) (vt_mount s) = true) as ->; [| done].
    apply existsb_exists. exists v. split; [by apply list_elem_of_In | by apply Z.ltb_lt].
  - intros s flags Hf. by rewrite (proj2 (Z.eqb_neq _ _)) by done.
Qed.
