(* ===== verification/XzsfsDriver.v ===== *)
(** * XZSFS: mount, vnodes and vnode operations

    Models bsd/xzsfs/xzsfs_node.c (vnode lifecycle), xzsfs_vfsops.c (mount, unmount,
    root, vget, getattr, registration), the adapters and formatters of xzsfs_parser.c,
    and the vnode operations of xzsfs_vnops.c up to readdir.

    The driver runs in a state-and-fault monad over [world]: the vnode layer's state, the
    one mount structure, the fields of [struct mount] the driver writes, its counters and
    its diagnostic trace.  A fault ([None]) is undefined behaviour, a panic, or a
    deadlock on the mount's mutex. *)

From stdpp Require Import base list strings.
From Stdlib Require Import ZArith Lia.
From S2P Require Import Prelude Crc32 XzsfsCore Kernel.

(** ** Block reads *)

(** One turn of the sector loop of [xzsfs_kernel_block_read]; the state is the
    destination and the number of buffers held. *)
Definition kernel_read_sector (bread : buf_bread_fn) (lba i : Z) (st : bytes * Z)
    : option (ctl (bytes * Z) (Z * (bytes * Z))) :=
  let '(dest, held) := st in
  let '(error, bp) := bread (u64 (lba + i)) in
  match bp with
  | None => Some (Exit (if negb (error =? 0) then error else EIO, (dest, held)))
  | Some data =>
      if negb (error =? 0) then Some (Exit (error, (dest, held + 1 - 1)))
      else
        dest ← copy_into dest (u32 (i * XZSFS_SECTOR_SIZE)) data XZSFS_SECTOR_SIZE;
        Some (Next (dest, held + 1 - 1))
  end.

Definition xzsfs_kernel_block_read (bread : buf_bread_fn) (lba count : Z) (buf : bytes)
    : option (Z * (bytes * Z)) :=
  r ← for_loop (Z.to_nat count) 0 (kernel_read_sector bread lba) (buf, 0);
  Some (match r with Next st => (XZSFS_ERR_OK, st) | Exit e => e end).

(** The callback handed to the core: a fault inside it counts as an I/O error here and is
    excluded where it matters. *)
Definition kernel_read_fn (bread : buf_bread_fn) : xzsfs_block_read_fn := fun lba count =>
  match xzsfs_kernel_block_read bread lba count (replicate (Z.to_nat (count * 512)) 0) with
  | Some (e, (data, _)) => (e, data)
  | None => (EIO, [])
  end.

(** CRC of the whole device; 0 if a sector cannot be read. *)
Definition ramdisk_crc_sector (bread : buf_bread_fn) (s : Z) (crc : Z) : option (ctl Z Z) :=
  let '(error, bp) := bread s in
  match bp with
  | None => Some (Exit 0)
  | Some data =>
      if negb (error =? 0) then Some (Exit 0)
      else d ← sub_bytes data 0 XZSFS_SECTOR_SIZE; Some (Next (crc32 crc d))
  end.

Definition xzsfs_compute_ramdisk_crc32 (bread : buf_bread_fn) (total_sectors : Z) : option Z :=
  r ← for_loop (Z.to_nat total_sectors) 0 (ramdisk_crc_sector bread) 0;
  Some (match r with Next crc => crc | Exit c => c end).

(** ** Directory entries and attributes *)

Definition DT_DIR : Z := 4.
Definition DT_REG : Z := 8.

(** [struct dirent] with 32-bit inode numbers: 8 header bytes and [d_name[256]]. *)
Record dirent := Dirent {
  d_ino : Z;
  d_reclen : Z;
  d_type : Z;
  d_namlen : Z;
  d_name : bytes;
}.

Definition encode_dirent (de : dirent) : bytes :=
  le_split 4 (d_ino de) ++ le_split 2 (d_reclen de) ++ le_split 1 (d_type de) ++
  le_split 1 (d_namlen de) ++ d_name de.

(** [strlen]: the bytes up to the first NUL; [None] if there is none in the object. *)
Fixpoint c_string (l : bytes) : option bytes :=
  match l with
  | [] => None
  | b :: t => if b =? 0 then Some [] else r ← c_string t; Some (b :: r)
  end.

(** [strlcpy] into a zeroed buffer of [n] bytes. *)
Definition strlcpy_zero (s : bytes) (n : Z) : bytes :=
  let k := Z.min (zlen s) (n - 1) in
  take (Z.to_nat k) s ++ replicate (Z.to_nat (n - k)) 0.

Definition xzsfs_helper_format_dirent (node : xzsfs_core_node) (name : bytes) (dtype : Z)
    : option dirent :=
  s ← c_string name;
  let namelen := if 255 <? zlen s then 255 else zlen s in
  Some (Dirent (cn_object_id node)
          (u16 (8 + Z.land (namelen + 1 + 3) (Z.lnot 3))) dtype (u8 namelen)
          (strlcpy_zero s 256)).

Record vnode_attr := VAttr {
  va_type : Z;
  va_mode : Z;
  va_uid : Z;
  va_gid : Z;
  va_nlink : Z;
  va_fileid : Z;
  va_parentid : Z;
  va_total_size : Z;
  va_data_size : Z;
  va_iosize : Z;
  va_total_alloc : Z;
  va_data_alloc : Z;
}.

(** [511U] and its complement are 32-bit: the mask clears the upper half of the sum. *)
Definition xzsfs_helper_format_getattr (node : xzsfs_core_node) : vnode_attr :=
  let alloc := Z.land (u64 (cn_data_length node + 511)) (u32 (Z.lnot 511)) in
  VAttr (if cn_type node =? XZSFS_TYPE_DIR then VDIR else VREG) (u16 (cn_mode node))
        (cn_uid node) (cn_gid node) 1 (cn_object_id node) (cn_parent_id node)
        (cn_data_length node) (cn_data_length node) XZSFS_SECTOR_SIZE alloc alloc.

(** ** State *)

Record xzsfs_node := XNode {
  xn_core : xzsfs_core_node;
  xn_vnode : option vnode;
}.

Record xzsfs_mount_t := XMount {
  xm_devvp : vnode;
  xm_fs : xzsfs_core_fs;
  xm_nodes : list xzsfs_node;
  xm_locked : bool;
}.

Record xzsfs_counters := Counters {
  xzsfs_get_vnode_call_count : Z;
  vnode_create_call_count_from_xzsfs : Z;
  xzsfs_root_vnode_create_count : Z;
  xzsfs_root_vnode_reclaim_count : Z;
  xzsfs_registration_count : Z;
}.

(** The fields of [struct mount] the driver sets; [mnt_data] is [vfs_fsprivate]. *)
Record mount_t := Mount {
  mnt_data : bool;
  mnt_flag : Z;
  mnt_fsid_set : bool;
  mnt_fromname : string;
}.

Inductive event : Type :=
  | Crumb (cp code : Z)
  | Puts (s : string).

(** [w_xmp] is the allocated mount structure, if any. *)
Record world (V : Type) := World {
  w_vn : V;
  w_xmp : option xzsfs_mount_t;
  w_mp : mount_t;
  w_cnt : xzsfs_counters;
  w_trace : list event;
}.
Arguments World {V} _ _ _ _ _.
Arguments w_vn {V} _.
Arguments w_xmp {V} _.
Arguments w_mp {V} _.
Arguments w_cnt {V} _.
Arguments w_trace {V} _.

(** ** The monad *)

Definition M (V A : Type) : Type := world V -> option (A * world V).

#[global] Instance M_ret V : MRet (M V) := fun A a w => Some (a, w).
#[global] Instance M_bind V : MBind (M V) := fun A B k m w =>
  match m w with
  | Some (a, w') => k a w'
  | None => None
  end.

Definition fault {V A} : M V A := fun _ => None.
Definition lift {V A} (o : option A) : M V A := fun w => a ← o; Some (a, w).
Definition gets {V A} (f : world V -> A) : M V A := fun w => Some (f w, w).
Definition emit {V} (e : event) : M V unit := fun w =>
  Some (tt, World (w_vn w) (w_xmp w) (w_mp w) (w_cnt w) (w_trace w ++ [e])).
Definition set_xmp {V} (x : option xzsfs_mount_t) : M V unit := fun w =>
  Some (tt, World (w_vn w) x (w_mp w) (w_cnt w) (w_trace w)).
Definition set_mp {V} (m : mount_t) : M V unit := fun w =>
  Some (tt, World (w_vn w) (w_xmp w) m (w_cnt w) (w_trace w)).
Definition set_cnt {V} (c : xzsfs_counters) : M V unit := fun w =>
  Some (tt, World (w_vn w) (w_xmp w) (w_mp w) c (w_trace w)).
Definition set_vn {V} (v : V) : M V unit := fun w =>
  Some (tt, World v (w_xmp w) (w_mp w) (w_cnt w) (w_trace w)).

(** Access to the mount structure faults when it is not allocated. *)
Definition get_xmp {V} : M V xzsfs_mount_t := fun w => x ← w_xmp w; Some (x, w).

Definition modify_cnt {V} (f : xzsfs_counters -> xzsfs_counters) : M V unit :=
  c ← gets w_cnt; set_cnt (f c).

Definition set_locked (x : xzsfs_mount_t) (b : bool) : xzsfs_mount_t :=
  XMount (xm_devvp x) (xm_fs x) (xm_nodes x) b.
Definition set_nodes (x : xzsfs_mount_t) (ns : list xzsfs_node) : xzsfs_mount_t :=
  XMount (xm_devvp x) (xm_fs x) ns (xm_locked x).
Definition set_fs (x : xzsfs_mount_t) (fs : xzsfs_core_fs) : xzsfs_mount_t :=
  XMount (xm_devvp x) fs (xm_nodes x) (xm_locked x).

(** [lck_mtx_lock(&xmp->lock)]: a thread that already holds it never returns. *)
Definition lck_mtx_lock {V} : M V unit :=
  x ← get_xmp; if xm_locked x then fault else set_xmp (Some (set_locked x true)).
Definition lck_mtx_unlock {V} : M V unit :=
  x ← get_xmp; if xm_locked x then set_xmp (Some (set_locked x false)) else fault.

Definition get_node {V} (i : Z) : M V xzsfs_node :=
  x ← get_xmp; lift (elem_at (xm_nodes x) i).
Definition set_node_vnode {V} (i : Z) (v : option vnode) : M V unit :=
  x ← get_xmp; n ← lift (elem_at (xm_nodes x) i);
  set_xmp (Some (set_nodes x (<[Z.to_nat i := XNode (xn_core n) v]> (xm_nodes x)))).

(** A vnode-layer operation with and without a result. *)
Definition vn_op {V A} (f : V -> A * V) : M V A :=
  s ← gets w_vn; let '(a, s') := f s in set_vn s';; mret a.
Definition vn_do {V} (f : V -> V) : M V unit := s ← gets w_vn; set_vn (f s).

Definition bump_get (c : xzsfs_counters) : xzsfs_counters :=
  Counters (u32 (xzsfs_get_vnode_call_count c + 1)) (vnode_create_call_count_from_xzsfs c)
    (xzsfs_root_vnode_create_count c) (xzsfs_root_vnode_reclaim_count c)
    (xzsfs_registration_count c).
Definition bump_create (c : xzsfs_counters) : xzsfs_counters :=
  Counters (xzsfs_get_vnode_call_count c) (u32 (vnode_create_call_count_from_xzsfs c + 1))
    (xzsfs_root_vnode_create_count c) (xzsfs_root_vnode_reclaim_count c)
    (xzsfs_registration_count c).
Definition bump_root_create (c : xzsfs_counters) : xzsfs_counters :=
  Counters (xzsfs_get_vnode_call_count c) (vnode_create_call_count_from_xzsfs c)
    (u32 (xzsfs_root_vnode_create_count c + 1)) (xzsfs_root_vnode_reclaim_count c)
    (xzsfs_registration_count c).
Definition bump_root_reclaim (c : xzsfs_counters) : xzsfs_counters :=
  Counters (xzsfs_get_vnode_call_count c) (vnode_create_call_count_from_xzsfs c)
    (xzsfs_root_vnode_create_count c) (u32 (xzsfs_root_vnode_reclaim_count c + 1))
    (xzsfs_registration_count c).
Definition bump_registration (c : xzsfs_counters) : xzsfs_counters :=
  Counters (xzsfs_get_vnode_call_count c) (vnode_create_call_count_from_xzsfs c)
    (xzsfs_root_vnode_create_count c) (xzsfs_root_vnode_reclaim_count c)
    (u32 (xzsfs_registration_count c + 1)).

Section driver.
Context {V : Type} `{VL : VnodeLayer V}.

(** ** Vnode lifecycle *)

Definition xzsfs_node_reclaim (i : Z) (vp : vnode) : M V Z :=
  lck_mtx_lock;;
  n ← get_node i;
  (if cn_object_id (xn_core n) =? 1 then modify_cnt bump_root_reclaim else mret tt);;
  set_node_vnode i None;;
  vn_do (vnode_clearfsnode vp);;
  lck_mtx_unlock;;
  mret 0.

Definition xzsfs_reclaim (vp : vnode) : M V Z :=
  s ← gets w_vn;
  match vv_fsnode (view s vp) with
  | Some i => xzsfs_node_reclaim i vp
  | None => mret 0
  end.

(** The VFS reclaims vnodes through [xzsfs_reclaim]. *)
Fixpoint reclaim_all (vs : list vnode) : M V unit :=
  match vs with
  | [] => mret tt
  | v :: vs => xzsfs_reclaim v;; vn_do (vnode_dead v);; reclaim_all vs
  end.

Definition VNFS_NOCACHE : Z := 1.
Definition VNFS_CANTCACHE : Z := 2.
Definition XZSFS_NAME : string := "xzsfs".

(** [vnode_create]: make room, then allocate. *)
Definition vnode_create (p : vnode_fsparam) : M V (Z * option vnode) :=
  s ← gets w_vn;
  reclaim_all (recycle_victims s);;
  vn_op (vnode_alloc p).

Definition vnode_params (i : Z) (n : xzsfs_node) : vnode_fsparam :=
  VnFs (if cn_type (xn_core n) =? XZSFS_TYPE_DIR then VDIR else VREG) XZSFS_NAME i
    (cn_object_id (xn_core n) =? 1) 0 0 (s64 (cn_data_length (xn_core n)))
    (Z.lor VNFS_CANTCACHE VNFS_NOCACHE).

(** Result: error and [*vpp] ([None] when it is not set). *)
Definition xzsfs_get_vnode (i : Z) : M V (Z * option vnode) :=
  modify_cnt bump_get;;
  lck_mtx_lock;;
  n ← get_node i;
  cached ← match xn_vnode n with
           | Some v =>
               error ← vn_op (vnode_get v);
               if error =? 0 then mret (Some v) else set_node_vnode i None;; mret None
           | None => mret None
           end;
  match cached with
  | Some v => lck_mtx_unlock;; mret (0, Some v)
  | None =>
      modify_cnt bump_create;;
      '(error, vo) ← vnode_create (vnode_params i n);
      if error =? 0 then
        set_node_vnode i vo;;
        (if cn_object_id (xn_core n) =? 1 then modify_cnt bump_root_create else mret tt);;
        lck_mtx_unlock;;
        mret (error, vo)
      else lck_mtx_unlock;; mret (error, None)
  end.

(** ** Mount *)

Definition MNT_RDONLY : Z := 0x1.
Definition MNT_LOCAL : Z := 0x1000.
Definition MNT_FORCE : Z := 0x80000.

Definition checkpoint (code : Z) (s : string) : M V unit :=
  emit (Crumb 0xD530 code);; emit (Puts s).

Definition vfs_setfsprivate (b : bool) : M V unit :=
  m ← gets w_mp; set_mp (Mount b (mnt_flag m) (mnt_fsid_set m) (mnt_fromname m)).
Definition vfs_fsprivate : M V bool := m ← gets w_mp; mret (mnt_data m).

(** The [fail:] label of [xzsfs_mount], with the locals it looks at. *)
Definition mount_fail (devvp : vnode) (devvp_ref_held : bool) (root_vp : option vnode)
    (root_ref_held : bool) (error : Z) : M V Z :=
  (match root_vp with
   | Some v => if root_ref_held then vn_do (vnode_rele v) else mret tt
   | None => mret tt
   end);;
  n0 ← get_node 0;
  (match xn_vnode n0, root_vp with
   | Some _, Some v => if negb root_ref_held then vn_do (vnode_put v) else mret tt
   | _, _ => mret tt
   end);;
  (if devvp_ref_held then vn_do (vnode_rele devvp) else mret tt);;
  set_xmp None;;
  vfs_setfsprivate false;;
  mret error.

(** [xmp->nodes[i].core = xmp->fs.nodes[i]] for every node. *)
Definition mount_node (fs : xzsfs_core_fs) (i : Z) (ns : list xzsfs_node)
    : option (ctl (list xzsfs_node) unit) :=
  c ← elem_at (fs_nodes fs) i;
  if i <? zlen ns then Some (Next (<[Z.to_nat i := XNode c None]> ns)) else None.

Definition zero_core_node : xzsfs_core_node := CNode 0 0 0 0 0 0 0 0 0 0.
Definition zero_core_fs : xzsfs_core_fs :=
  CoreFs (SB 0 0 0 0 0 0 0 0 0 0 0 0 0 0 0 (replicate 424 0)) 0
    (replicate 32 zero_core_node) (replicate 2048 0).

(** The structure as [kalloc_type(..., Z_ZERO)] and the assignments before [vnode_ref]
    leave it. *)
Definition fresh_mount (devvp : vnode) : xzsfs_mount_t :=
  XMount devvp zero_core_fs (replicate 32 (XNode zero_core_node None)) false.

Definition set_fs_sb (fs : xzsfs_core_fs) (sb : xzsfs_disk_superblock) : xzsfs_core_fs :=
  CoreFs sb (fs_node_count fs) (fs_nodes fs) (fs_strtab fs).

(** From the root vnode to the end of a successful mount. *)
Definition mount_root (devvp : vnode) : M V Z :=
  '(error, root_vp) ← xzsfs_get_vnode 0;
  match root_vp with
  | Some v =>
      if negb (error =? 0) then mount_fail devvp true root_vp false error
      else
        checkpoint 0x51 "[XZSFS] root vnode created";;
        _ ← vn_op (vnode_ref v);
        vn_do (vnode_put v);;
        vfs_setfsprivate true;;
        m ← gets w_mp;
        set_mp (Mount (mnt_data m) (Z.lor (mnt_flag m) (Z.lor MNT_LOCAL MNT_RDONLY)) true "md0");;
        mret 0
  | None => mount_fail devvp true None false error
  end.

(** Loading and validating the metadata; [objects] and [strtab] are the two stack arrays. *)
Definition mount_metadata (read_fn : xzsfs_block_read_fn) (objects strtab : bytes)
    : M V (cres (bytes * bytes)) :=
  x ← get_xmp;
  let '(error, sb) := xzsfs_core_read_superblock read_fn (fs_sb (xm_fs x)) in
  set_xmp (Some (set_fs x (set_fs_sb (xm_fs x) sb)));;
  if negb (error =? 0) then mret (CErr error)
  else
    let error := xzsfs_core_validate_superblock sb in
    if negb (error =? 0) then mret (CErr error)
    else
      checkpoint 0x30 "[XZSFS] superblock validated";;
      '(error, objects, strtab) ←
        lift (xzsfs_core_load_metadata read_fn sb objects XZSFS_MAX_OBJECTS strtab
                XZSFS_MAX_STRTAB_SIZE);
      if negb (error =? 0) then mret (CErr error)
      else
        error ← lift (xzsfs_core_validate_metadata sb objects strtab);
        if negb (error =? 0) then mret (CErr error)
        else
          checkpoint 0x31 "[XZSFS] metadata CRC pass";;
          mret (COk (objects, strtab)).

(** Building the node tables from the validated metadata. *)
Definition mount_tables (objects strtab : bytes) : M V Z :=
  x ← get_xmp;
  '(error, fs) ← lift (xzsfs_core_init_fs (xm_fs x) (fs_sb (xm_fs x))
                         (decode_objects 32 objects) strtab);
  if negb (error =? 0) then mret error
  else
    set_xmp (Some (set_fs x fs));;
    checkpoint 0x32 "[XZSFS] object graph validation pass";;
    r ← lift (for_loop (Z.to_nat (fs_node_count fs)) 0 (mount_node fs) (xm_nodes x));
    match r with
    | Next ns =>
        x ← get_xmp; set_xmp (Some (set_nodes x ns));;
        checkpoint 0x40 "[XZSFS] root xzsfs_node resolved";;
        checkpoint 0x50 "[XZSFS] root vnode create enter";;
        mret 0
    | Exit _ => fault
    end.

Definition xzsfs_mount (read_fn : xzsfs_block_read_fn) (alloc_ok : bool) (devvp : vnode)
    (stack_objects stack_strtab : bytes) : M V Z :=
  checkpoint 0x20 "[XZSFS] xzsfs_mount entered";;
  if negb alloc_ok then mret ENOMEM
  else
    set_xmp (Some (fresh_mount devvp));;
    checkpoint 0x21 "[XZSFS] mount-private allocated";;
    error ← vn_op (vnode_ref devvp);
    if negb (error =? 0) then mount_fail devvp false None false error
    else
      checkpoint 0x22 "[XZSFS] devvp reference acquired";;
      md ← mount_metadata read_fn stack_objects stack_strtab;
      match md with
      | CErr error => mount_fail devvp true None false error
      | COk (objects, strtab) =>
          error ← mount_tables objects strtab;
          if negb (error =? 0) then mount_fail devvp true None false error
          else mount_root devvp
      end.

(** ** The other VFS operations *)

Definition xzsfs_start : M V Z := mret 0.
Definition xzsfs_sync : M V Z := mret 0.
Definition xzsfs_init : M V Z := mret 0.

(** [vflush(mp, NULL, flags)]: reclaim what the plan says, return its code. *)
Definition vflush (flags : Z) : M V Z :=
  s ← gets w_vn;
  let '(error, victims) := vflush_plan flags s in
  reclaim_all victims;;
  mret error.

Definition xzsfs_unmount (mntflags : Z) : M V Z :=
  p ← vfs_fsprivate;
  if negb p then mret EINVAL
  else
    let flags := if Z.land mntflags MNT_FORCE =? 0 then 0 else FORCECLOSE in
    error ← vflush flags;
    if negb (error =? 0) then mret error
    else
      n0 ← get_node 0;
      (match xn_vnode n0 with
       | Some v => vn_do (vnode_rele v)
       | None => mret tt
       end);;
      x ← get_xmp;
      vn_do (vnode_rele (xm_devvp x));;
      set_xmp None;;
      vfs_setfsprivate false;;
      mret 0.

Definition xzsfs_root : M V (Z * option vnode) :=
  p ← vfs_fsprivate;
  if negb p then mret (EINVAL, None)
  else
    x ← get_xmp;
    if fs_node_count (xm_fs x) =? 0 then mret (EINVAL, None) else xzsfs_get_vnode 0.

Definition xzsfs_vget (ino : Z) : M V (Z * option vnode) :=
  p ← vfs_fsprivate;
  if negb p then mret (ENOENT, None)
  else
    x ← get_xmp;
    if (ino =? 0) || (fs_node_count (xm_fs x) <? ino) then mret (ENOENT, None)
    else xzsfs_get_vnode (ino - 1).

Record vfs_attr := VfsAttr {
  f_bsize : Z; f_iosize : Z; f_blocks : Z; f_bfree : Z;
  f_bavail : Z; f_bused : Z; f_files : Z; f_ffree : Z;
}.

Definition xzsfs_vfs_getattr : M V (cres vfs_attr) :=
  p ← vfs_fsprivate;
  if negb p then mret (CErr EINVAL)
  else
    x ← get_xmp;
    let blocks := sb_image_size_bytes (fs_sb (xm_fs x)) / XZSFS_SECTOR_SIZE in
    mret (COk (VfsAttr XZSFS_SECTOR_SIZE XZSFS_SECTOR_SIZE blocks 0 0 blocks
                 (fs_node_count (xm_fs x)) 0)).

(** [vfs_fsadd] is a parameter: its return code. *)
Definition xzsfs_vfs_register (vfs_fsadd : Z) : M V Z :=
  c ← gets w_cnt;
  if 0 <? xzsfs_registration_count c then mret 0
  else if vfs_fsadd =? 0 then modify_cnt bump_registration;; mret 0
  else mret vfs_fsadd.

(** ** Vnode operations *)

Definition FWRITE : Z := 2.

Definition xzsfs_lookup (dvp : vnode) (name : bytes) : M V (Z * option vnode) :=
  s ← gets w_vn;
  if negb (vv_type (view s dvp) =? VDIR) then mret (ENOTDIR, None)
  else
    match vv_fsnode (view s dvp) with
    | None => mret (EINVAL, None)
    | Some d =>
        x ← get_xmp;
        dir_node ← get_node d;
        r ← lift (xzsfs_core_lookup (xm_fs x) (cn_object_id (xn_core dir_node)) name);
        match r with
        | CErr error => mret (error, None)
        | COk k =>
            matched_core ← lift (elem_at (fs_nodes (xm_fs x)) k);
            xzsfs_get_vnode (u32 (cn_object_id matched_core - 1))
        end
    end.

Definition xzsfs_open (a_mode : Z) : Z := if negb (Z.land a_mode FWRITE =? 0) then EROFS else 0.
Definition xzsfs_close : Z := 0.
Definition xzsfs_rofs_err : Z := EROFS.

Definition xzsfs_getattr (vp : vnode) : M V (cres vnode_attr) :=
  s ← gets w_vn;
  match vv_fsnode (view s vp) with
  | None => mret (CErr EINVAL)
  | Some i => n ← get_node i; mret (COk (xzsfs_helper_format_getattr (xn_core n)))
  end.
End driver.
