(* ===== verification/XzsfsVnops.v ===== *)
(** * XZSFS: read, readdir and pagein

    The data-transfer vnode operations of bsd/xzsfs/xzsfs_vnops.c.  [xzsfs_read] and
    [xzsfs_readdir] copy out through a [uio]; [xzsfs_vnop_pagein] fills a mapped page
    list and records what it does to it. *)

From stdpp Require Import base list strings.
From Stdlib Require Import ZArith Lia.
From S2P Require Import Prelude Crc32 XzsfsCore Kernel XzsfsDriver.

(** ** read *)

(** State of the loop: bytes done, the request, buffers held. *)
Definition vnop_read_step (bread : buf_bread_fn) (data_offset foffset to_read : Z)
    (st : Z * uio * Z) : option (ctl (Z * uio * Z) (Z * uio * Z)) :=
  let '(done, u, held) := st in
  if done <? to_read then
    let cur_pos := u64 (data_offset + foffset + done) in
    let lba := cur_pos / XZSFS_SECTOR_SIZE in
    let sec_offset := u32 (cur_pos mod XZSFS_SECTOR_SIZE) in
    let chunk := XZSFS_SECTOR_SIZE - sec_offset in
    let chunk := if to_read - done <? chunk then u32 (to_read - done) else chunk in
    let '(error, bp) := bread lba in
    if negb (error =? 0) then
      Some (Exit (error, u, match bp with Some _ => held + 1 - 1 | None => held end))
    else
      data ← bp;
      src ← sub_bytes data sec_offset chunk;
      let '(error, u) := uiomove src u in
      if negb (error =? 0) then Some (Exit (error, u, held + 1 - 1))
      else Some (Next (done + chunk, u, held + 1 - 1))
  else Some (Exit (0, u, held)).

(** Result: error, the request as left, buffers still held. *)
Definition vnop_read_node (bread : buf_bread_fn) (core : xzsfs_core_node) (u : uio)
    : option (Z * uio * Z) :=
  let foffset := uio_offset u in
  let resid := uio_resid u in
  if (foffset <? 0) || (cn_data_length core <=? foffset) || (resid <=? 0) then Some (0, u, 0)
  else
    let to_read := resid in
    let to_read := if cn_data_length core <? u64 (foffset + to_read)
                   then u64 (cn_data_length core - foffset) else to_read in
    loop (read_fuel to_read) (vnop_read_step bread (cn_data_offset core) foffset to_read)
      (0, u, 0).

(** ** readdir *)

(** The inner scan: the [entry_idx]-th entry counting children from 2. *)
Definition child_scan (fs : xzsfs_core_fs) (dir_id entry_idx : Z) (i : Z) (current_child_num : Z)
    : option (ctl Z dirent) :=
  cnode ← elem_at (fs_nodes fs) i;
  if cn_parent_id cnode =? dir_id then
    if current_child_num =? entry_idx then
      let dt := if cn_type cnode =? XZSFS_TYPE_DIR then DT_DIR else DT_REG in
      name ← sub_bytes (fs_strtab fs) (cn_name cnode) (zlen (fs_strtab fs) - cn_name cnode);
      de ← xzsfs_helper_format_dirent cnode name dt;
      Some (Exit de)
    else Some (Next (u32 (current_child_num + 1)))
  else Some (Next current_child_num).

(** The entry to return at [entry_idx]; [Some None] when there are no more children. *)
Definition dirent_at (fs : xzsfs_core_fs) (dir : xzsfs_core_node) (entry_idx : Z)
    : option (option dirent) :=
  if entry_idx =? 0 then
    de ← xzsfs_helper_format_dirent dir (lit "." ++ [0]) DT_DIR; Some (Some de)
  else if entry_idx =? 1 then
    pnode ← elem_at (fs_nodes fs) (u32 (cn_parent_id dir - 1));
    de ← xzsfs_helper_format_dirent pnode (lit ".." ++ [0]) DT_DIR; Some (Some de)
  else
    r ← for_loop (Z.to_nat (fs_node_count fs - 1)) 1 (child_scan fs (cn_object_id dir) entry_idx) 2;
    Some (match r with Exit de => Some de | Next _ => None end).

Record rd_state := Rd {
  rd_uio : uio;
  rd_pos : Z;
  rd_idx : Z;
  rd_num : Z;
}.

(** One turn of the enumeration; the loop leaves with an error code. *)
Definition readdir_step (fs : xzsfs_core_fs) (dir : xzsfs_core_node) (startpos : Z)
    (st : rd_state) : option (ctl rd_state (Z * rd_state)) :=
  if 0 <? uio_resid (rd_uio st) then
    e ← dirent_at fs dir (rd_idx st);
    match e with
    | None => Some (Exit (0, st))
    | Some de =>
        if startpos <=? rd_pos st then
          if uio_resid (rd_uio st) <? d_reclen de then Some (Exit (0, st))
          else
            rec ← sub_bytes (encode_dirent de) 0 (d_reclen de);
            let '(error, u) := uiomove rec (rd_uio st) in
            if negb (error =? 0) then
              Some (Exit (error, Rd u (rd_pos st) (rd_idx st) (rd_num st)))
            else
              Some (Next (Rd u (rd_pos st + d_reclen de) (u32 (rd_idx st + 1)) (rd_num st + 1)))
        else
          Some (Next (Rd (rd_uio st) (rd_pos st + d_reclen de) (u32 (rd_idx st + 1)) (rd_num st)))
    end
  else Some (Exit (0, st)).

(** Every turn but the last consumes one entry, and there are at most [node_count + 1]. *)
Definition readdir_fuel (fs : xzsfs_core_fs) : nat := Z.to_nat (fs_node_count fs + 3).

Record readdir_result := RdRes {
  rr_error : Z;
  rr_uio : uio;
  rr_eofflag : Z;
  rr_numdirent : Z;
}.

Definition readdir_node (fs : xzsfs_core_fs) (dir : xzsfs_core_node) (u : uio)
    : option readdir_result :=
  let startpos := uio_offset u in
  '(error, st) ← loop (readdir_fuel fs) (readdir_step fs dir startpos) (Rd u 0 0 0);
  Some (RdRes error (uio_setoffset (rd_uio st) (rd_pos st))
          (if (rd_pos st <=? startpos) || (rd_num st =? 0) then 1 else 0) (rd_num st)).

(** ** pagein *)

Definition UPL_NOCOMMIT : Z := 0x2.
Definition UPL_ABORT_ERROR : Z := 0x4.
Definition UPL_ABORT_FREE_ON_EMPTY : Z := 0x8.
Definition UPL_COMMIT_FREE_ON_EMPTY : Z := 0x1.
Definition UPL_COMMIT_CLEAR_DIRTY : Z := 0x2.

Inductive upl_event : Type :=
  | UplMap
  | UplUnmap
  | UplCommit (off size flags : Z)
  | UplAbort (off size flags : Z)
  | PageinLog (what : string).

(** The page list of a request: what mapping and unmapping it return, and the memory
    behind it. *)
Record upl_t := Upl {
  upl_map_kr : Z;
  upl_unmap_kr : Z;
  upl_mem : bytes;
}.

Record pagein_args := PageinArgs {
  a_pl_offset : Z;
  a_f_offset : Z;
  a_size : Z;
  a_flags : Z;
}.

Record pagein_result := PageinRes {
  pr_error : Z;
  pr_mem : bytes;
  pr_events : list upl_event;
}.

Section pagein.
(** The kernel's page size: [PAGE_MASK] is [2 ^ page_shift - 1]. *)
Context (page_shift : Z).
Let PAGE_MASK : Z := 2 ^ page_shift - 1.

Definition round_page_64 (x : Z) : Z :=
  Z.land (u64 (x + PAGE_MASK)) (u64 (Z.lnot PAGE_MASK)).

(** [ubc_upl_abort_range] over the whole request, unless the caller keeps the list. *)
Definition abort_all (a : pagein_args) : list upl_event :=
  if Z.land (a_flags a) UPL_NOCOMMIT =? 0
  then [UplAbort (a_pl_offset a) (u32 (a_size a)) (Z.lor UPL_ABORT_FREE_ON_EMPTY UPL_ABORT_ERROR)]
  else [].

(** Commit of what was filled and abort of the rest. *)
Definition pagein_commit (a : pagein_args) (rounded_size : Z) : list upl_event :=
  if Z.land (a_flags a) UPL_NOCOMMIT =? 0 then
    UplCommit (a_pl_offset a) (u32 rounded_size)
      (Z.lor UPL_COMMIT_FREE_ON_EMPTY UPL_COMMIT_CLEAR_DIRTY) ::
    (if rounded_size <? a_size a
     then [UplAbort (u32 (a_pl_offset a + u32 rounded_size)) (u32 (a_size a - rounded_size))
             (Z.lor UPL_ABORT_FREE_ON_EMPTY UPL_ABORT_ERROR)]
     else [])
  else [].

(** From the range computation on: map, read, zero the tail, unmap, commit. *)
Definition pagein_fill (read_fn : xzsfs_block_read_fn) (core : xzsfs_core_node) (upl : upl_t)
    (a : pagein_args) (pre : list upl_event) : option pagein_result :=
  let filesize := cn_data_length core in
  let max_size := u64 (filesize - a_f_offset a) in
  let io_size := if a_size a <? max_size then a_size a else max_size in
  let rounded_size := round_page_64 io_size in
  let rounded_size := if a_size a <? rounded_size then a_size a else rounded_size in
  let zero_bytes := if io_size <? rounded_size then rounded_size - io_size else 0 in
  let evs := pre ++ [PageinLog "RANGE"; UplMap] in
  if negb (upl_map_kr upl =? KERN_SUCCESS) then
    Some (PageinRes EIO (upl_mem upl) (evs ++ abort_all a ++ [PageinLog "POST"]))
  else if negb (a_pl_offset a <=? zlen (upl_mem upl)) then None
  else
    let head := take (Z.to_nat (a_pl_offset a)) (upl_mem upl) in
    '(error, dst, bytes_read) ←
      xzsfs_core_read read_fn core (a_f_offset a) io_size
        (drop (Z.to_nat (a_pl_offset a)) (upl_mem upl)) 0;
    if negb (error =? 0) || negb (bytes_read =? io_size) then
      Some (PageinRes (if negb (error =? 0) then error else EIO) (head ++ dst)
              (evs ++ [UplUnmap] ++ abort_all a ++ [PageinLog "POST"]))
    else
      dst ← (if 0 <? zero_bytes
             then copy_into dst bytes_read (replicate (Z.to_nat zero_bytes) 0) zero_bytes
             else Some dst);
      let evs := evs ++ [PageinLog "DATA"; UplUnmap] in
      if negb (upl_unmap_kr upl =? KERN_SUCCESS) then
        Some (PageinRes EIO (head ++ dst) (evs ++ abort_all a))
      else
        Some (PageinRes 0 (head ++ dst) (evs ++ pagein_commit a rounded_size ++ [PageinLog "POST"])).

(** [vtype] and [node] are [vnode_vtype(vp)] and [vnode_fsnode(vp)]. *)
Definition xzsfs_vnop_pagein (read_fn : xzsfs_block_read_fn) (vtype : Z)
    (node : option xzsfs_core_node) (upl : upl_t) (a : pagein_args) : option pagein_result :=
  let enter := [PageinLog "ENTER"] in
  if a_size a =? 0 then Some (PageinRes EINVAL (upl_mem upl) enter)
  else if negb (vtype =? VREG) then
    Some (PageinRes EINVAL (upl_mem upl) (enter ++ abort_all a))
  else
    match node with
    | None => Some (PageinRes EINVAL (upl_mem upl) (enter ++ abort_all a))
    | Some core =>
        let pre := enter ++ [PageinLog "PRE"] in
        if (a_f_offset a <? 0) || (cn_data_length core <=? a_f_offset a) ||
           negb (Z.land (a_f_offset a) PAGE_MASK =? 0) ||
           negb (Z.land (a_size a) PAGE_MASK =? 0) ||
           negb (Z.land (a_pl_offset a) PAGE_MASK =? 0)
        then Some (PageinRes EINVAL (upl_mem upl) (pre ++ abort_all a ++ [PageinLog "POST"]))
        else if u64 (a_f_offset a + a_size a) <? a_f_offset a
        then Some (PageinRes EINVAL (upl_mem upl) (pre ++ abort_all a ++ [PageinLog "POST"]))
        else pagein_fill read_fn core upl a pre
    end.
End pagein.

(** ** The vnode entry points *)

Section vnops.
Context {V : Type} `{VL : VnodeLayer V}.

Definition xzsfs_read (bread : buf_bread_fn) (vp : vnode) (u : uio) : M V (Z * uio) :=
  s ← gets w_vn;
  if negb (vv_type (view s vp) =? VREG) then mret (EINVAL, u)
  else
    match vv_fsnode (view s vp) with
    | None => mret (EINVAL, u)
    | Some i =>
        n ← get_node i;
        '(error, u, _) ← lift (vnop_read_node bread (xn_core n) u);
        mret (error, u)
    end.

Definition xzsfs_readdir (vp : vnode) (u : uio) : M V (cres readdir_result) :=
  s ← gets w_vn;
  if negb (vv_type (view s vp) =? VDIR) then mret (CErr ENOTDIR)
  else
    match vv_fsnode (view s vp) with
    | None => mret (CErr EINVAL)
    | Some i =>
        x ← get_xmp;
        n ← get_node i;
        r ← lift (readdir_node (xm_fs x) (xn_core n) u);
        mret (COk r)
    end.

(** The operations vector [xzsfs_vnodeop_entries]. *)
Inductive vnop : Type :=
  | vnop_lookup | vnop_open | vnop_close | vnop_read | vnop_pagein | vnop_getattr
  | vnop_readdir | vnop_inactive | vnop_reclaim
  | vnop_create | vnop_write | vnop_mknod | vnop_setattr | vnop_remove | vnop_link
  | vnop_rename | vnop_mkdir | vnop_rmdir | vnop_symlink
  | vnop_fsync | vnop_ioctl | vnop_select | vnop_mmap | vnop_pathconf | vnop_advlock
  | vnop_bwrite | vnop_pageout | vnop_copyfile | vnop_blktooff | vnop_offtoblk
  | vnop_blockmap | vnop_default.

Inductive vnop_impl : Type :=
  | Impl_xzsfs (op : string)
  | Impl_rofs_err
  | Impl_nop
  | Impl_err
  | Impl_default_error.

Definition xzsfs_vnodeop_entries (op : vnop) : vnop_impl :=
  match op with
  | vnop_default => Impl_default_error
  | vnop_lookup => Impl_xzsfs "lookup"
  | vnop_open => Impl_xzsfs "open"
  | vnop_close => Impl_xzsfs "close"
  | vnop_read => Impl_xzsfs "read"
  | vnop_pagein => Impl_xzsfs "pagein"
  | vnop_getattr => Impl_xzsfs "getattr"
  | vnop_readdir => Impl_xzsfs "readdir"
  | vnop_reclaim => Impl_xzsfs "reclaim"
  | vnop_inactive | vnop_fsync => Impl_nop
  | vnop_create | vnop_write | vnop_mknod | vnop_setattr | vnop_remove | vnop_link
  | vnop_rename | vnop_mkdir | vnop_rmdir | vnop_symlink => Impl_rofs_err
  | vnop_ioctl | vnop_select | vnop_mmap | vnop_pathconf | vnop_advlock | vnop_bwrite
  | vnop_pageout | vnop_copyfile | vnop_blktooff | vnop_offtoblk | vnop_blockmap => Impl_err
  end.
End vnops.
