(* ===== verification/XzsfsTransfer.v ===== *)
(** * XZSFS: data transfer through the kernel interfaces

    The buffer-cache adapter implements the block device the core relies on and never
    keeps a buffer; the vnode read copies out exactly the requested part of the file; a
    page-in leaves file bytes followed by zeroes in the pages it commits. *)

From stdpp Require Import base list strings.
From Stdlib Require Import ZArith Lia.
From S2P Require Import Prelude Crc32 XzsfsCore XzsfsSample XzsfsFormat XzsfsRead Kernel XzsfsDriver XzsfsVnops.

(** ** The buffer cache serves an image *)

Class BufCache (bread : buf_bread_fn) (image : bytes) : Prop := {
  bc_bytes : Forall is_u8 image;
  bc_read : forall lba, 0 <= lba -> (lba + 1) * 512 <= zlen image ->
    bread lba = (0, Some (region image (lba * 512) 512));
}.

Definition image_bread (image : bytes) : buf_bread_fn := fun lba =>
  match sub_bytes image (lba * 512) 512 with
  | Some d => (0, Some d)
  | None => (EIO, None)
  end.

#[global] Instance image_bread_cache image : Forall is_u8 image -> BufCache (image_bread image) image.
Proof.
  intros. constructor; [done |]. intros lba ??. unfold image_bread.
  by rewrite sub_bytes_region by lia.
Qed.

(** No path through the sector loop keeps a buffer. *)
Lemma kernel_read_sector_balanced bread lba i dest c :
  kernel_read_sector bread lba i (dest, 0) = Some c ->
  match c with Next (_, h) => h = 0 | Exit (_, (_, h)) => h = 0 end.
Proof.
  unfold kernel_read_sector. destruct (bread (u64 (lba + i))) as [e [d |]]; [| naive_solver].
  destruct (negb (e =? 0)); [naive_solver |].
  destruct (copy_into _ _ _ _); cbn; naive_solver.
Qed.

Lemma kernel_block_read_balanced bread lba count buf e d h :
  xzsfs_kernel_block_read bread lba count buf = Some (e, (d, h)) -> h = 0.
Proof.
  unfold xzsfs_kernel_block_read. generalize (Z.to_nat count) as n. intros n.
  assert (forall i b r, for_loop n i (kernel_read_sector bread lba) (b, 0) = Some r ->
    match r with Next (_, h) => h = 0 | Exit (_, (_, h)) => h = 0 end) as Hl.
  { induction n as [|n IH]; intros i b r; cbn [for_loop]; [by injection 1 as <- |].
    destruct (kernel_read_sector bread lba i (b, 0)) as [[[b' h'] | x] |] eqn:E; [| | done].
    - apply kernel_read_sector_balanced in E as ->. apply IH.
    - intros H. injection H as <-. by apply kernel_read_sector_balanced in E. }
  destruct (for_loop n 0 _ (buf, 0)) as [r |] eqn:E; cbn; [| done].
  apply Hl in E. destruct r as [[??] | [? [??]]]; naive_solver.
Qed.

Section adapter.
Context (bread : buf_bread_fn) (image : bytes) `{!BufCache bread image}.
Context (Hsmall : zlen image < 2 ^ 41).

Lemma kernel_block_read_one lba buf :
  0 <= lba -> (lba + 1) * 512 <= zlen image -> 512 <= zlen buf ->
  xzsfs_kernel_block_read bread lba 1 buf =
  Some (0, (region image (lba * 512) 512 ++ drop 512 buf, 0)).
Proof.
  intros Hl Hin Hb. unfold xzsfs_kernel_block_read. change (Z.to_nat 1) with 1%nat.
  cbn [for_loop]. unfold kernel_read_sector, XZSFS_SECTOR_SIZE.
  rewrite Z.add_0_r, u64_small by cint. rewrite bc_read by lia.
  change (negb (0 =? 0)) with false. change (u32 (0 * 512)) with 0. cbn iota.
  pose proof (copy_into_append [] buf 0 (region image (lba * 512) 512) 512) as Hc.
  cbn [app] in Hc. rewrite Hc; [| done | lia | rewrite zlen_region; lia].
  cbn [mbind option_bind]. rewrite region_region by lia. by rewrite Z.add_0_r.
Qed.

#[global] Instance kernel_read_device : BlockDevice (kernel_read_fn bread) image.
Proof.
  constructor; [apply bc_bytes |]. intros lba ??. unfold kernel_read_fn.
  rewrite kernel_block_read_one; [| lia.. | by rewrite zlen_replicate].
  by rewrite drop_ge, app_nil_r by (rewrite length_replicate; lia).
Qed.

(** ** The vnode read *)

Section read.
Context (core : xzsfs_core_node) (foffset n resid : Z) (out : bytes).
Context (Hext : 0 <= cn_data_offset core /\ 0 <= foffset /\ 0 < n <= resid).
Context (Hin : cn_data_offset core + foffset + n <= zlen image) (Hal : zlen image mod 512 = 0).

Let start := cn_data_offset core + foffset.

(** The request after [done] bytes. *)
Definition moved (done : Z) : uio :=
  Uio (foffset + done) (resid - done) (out ++ region image start done) None.

Lemma vnop_read_turn done : 0 <= done < n ->
  vnop_read_step bread (cn_data_offset core) foffset n (done, moved done, 0) =
  Some (Next (done + sector_chunk start n done, moved (done + sector_chunk start n done), 0)).
Proof.
  intros Hd. assert (0 <= start) by (unfold start; lia).
  assert (0 <= (start + done) / 512) by (apply Z.div_pos; lia).
  assert (((start + done) / 512 + 1) * 512 <= zlen image) as Hsec.
  { unfold start in *. zdm. }
  destruct (sector_chunk_next start n done ltac:(lia) Hd) as (Hc & Hcn & _).
  destruct (sector_chunk_region image start n done ltac:(lia) Hd Hsec) as (Esub & Elen & Eapp).
  unfold vnop_read_step, XZSFS_SECTOR_SIZE. rewrite (proj2 (Z.ltb_lt done n)) by lia.
  fold start. rewrite (u64_small (start + done)) by (unfold start in *; cint).
  rewrite bc_read by lia. cbn [negb Z.eqb]. rewrite sector_chunk_code by lia.
  assert (0 <= (start + done) mod 512 < 512) by (apply Z.mod_pos_bound; lia).
  rewrite (u32_small ((start + done) mod 512)) by cint. cbn [mbind option_bind].
  rewrite Esub. cbn [mbind option_bind]. unfold moved at 1. rewrite uiomove_fits by lia.
  cbn [negb Z.eqb]. rewrite Elen. unfold moved. rewrite Eapp, app_assoc.
  do 2 f_equal. f_equal. f_equal. f_equal; lia.
Qed.

Lemma vnop_read_loop :
  loop (read_fuel n) (vnop_read_step bread (cn_data_offset core) foffset n)
    (0, Uio foffset resid out None, 0) = Some (0, moved n, 0).
Proof.
  assert (0 <= start) by (unfold start; lia).
  destruct (sector_loop start n (fun st : Z * uio * Z => st.1.1)
    (fun st => st = (st.1.1, moved st.1.1, 0)) (fun r => r = (0, moved n, 0))
    (vnop_read_step bread (cn_data_offset core) foffset n) (0, Uio foffset resid out None, 0))
    as (r & -> & ->); [lia | lia | | done | | | done].
  - cbn [fst]. unfold moved. by rewrite region_0, app_nil_r, Z.add_0_r, Z.sub_0_r.
  - intros [[done u] h] Est Hd. cbn [fst] in *. injection Est as -> ->. left.
    rewrite (vnop_read_turn done Hd). eauto.
  - intros [[done u] h] Est Hd. cbn [fst] in *. injection Est as -> ->. subst done.
    unfold vnop_read_step. rewrite (proj2 (Z.ltb_ge n n)) by lia. eauto.
Qed.
End read.
End adapter.

(** ** Properties *)

(** The buffer-cache adapter [xzsfs_kernel_block_read] is a block device in the sense
    the core relies on whenever the cache serves the image, and on every path - read
    error, missing buffer, success - it has released each buffer it obtained. *)
Theorem kernel_block_read_adapter (bread : buf_bread_fn) (image : bytes)
    (Hcache : BufCache bread image) (Hsmall : zlen image < 2 ^ 41) :
  BlockDevice (kernel_read_fn bread) image /\
  forall lba count buf e d held,
    xzsfs_kernel_block_read bread lba count buf = Some (e, (d, held)) -> held = 0.
Proof.
  split; [by apply kernel_read_device |]. intros *. apply kernel_block_read_balanced.
Qed.

Lemma kernel_block_read_adapter_witness :
  BlockDevice (kernel_read_fn (image_bread sample_image)) sample_image.
Proof.
  refine (proj1 (kernel_block_read_adapter _ _ (image_bread_cache _ sample_image_bytes) _)).
  by vm_compute.
Defined.

(** [xzsfs_read] on a regular file inside the image copies out exactly the file's
    bytes between the request's offset and its end clipped at end of file, advances the
    offset and decreases the residual by their number, releases every buffer, and
    returns 0; at or beyond end of file, and for empty requests, it copies nothing. *)
Theorem vnop_read_exact (bread : buf_bread_fn) (image : bytes)
    (Hcache : BufCache bread image) (Hsmall : zlen image < 2 ^ 41) (Hal : zlen image mod 512 = 0)
    (core : xzsfs_core_node) (off resid : Z) (out : bytes)
    (Hext : 0 <= cn_data_offset core /\ 0 <= cn_data_length core /\
            cn_data_offset core + cn_data_length core <= zlen image)
    (Hoff : 0 <= off < 2 ^ 63) (Hres : 0 <= resid < 2 ^ 63) :
  let n := read_count (cn_data_length core) off resid in
  vnop_read_node bread core (Uio off resid out None) =
  Some (0, Uio (off + n) (resid - n) (out ++ region image (cn_data_offset core + off) n) None, 0).
Proof.
  intros n. unfold vnop_read_node. cbn [uio_offset uio_resid].
  destruct ((off <? 0) || (cn_data_length core <=? off) || (resid <=? 0)) eqn:Hg; bool_to_prop.
  { assert (n = 0) as -> by (subst n; unfold read_count; lia).
    by rewrite region_0, app_nil_r, Z.add_0_r, Z.sub_0_r. }
  rewrite (u64_small (off + resid)) by cint.
  replace (if cn_data_length core <? off + resid
           then u64 (cn_data_length core - off) else resid) with n.
  2:{ subst n. unfold read_count.
      destruct (Z.ltb_spec (cn_data_length core) (off + resid)); [rewrite u64_small by cint |]; lia. }
  rewrite (vnop_read_loop bread image Hsmall); [done | | | done];
    subst n; unfold read_count; lia.
Qed.

Lemma vnop_read_exact_witness :
  vnop_read_node (image_bread sample_image) sample_sh (Uio 500 512 [] None) =
  Some (0, Uio 600 412 (region sample_image 2036 100) None, 0).
Proof.
  apply (vnop_read_exact (image_bread sample_image) sample_image
    (image_bread_cache _ sample_image_bytes) ltac:(by vm_compute) ltac:(by vm_compute)
    sample_sh 500 512 []); by vm_compute.
Defined.

(** ** Page-in *)

Lemma round_page_64_nonneg page_shift x : 0 <= round_page_64 page_shift x.
Proof.
  unfold round_page_64. apply Z.land_nonneg. left. pose proof (u64_range (x + (2 ^ page_shift - 1))) as H.
  unfold is_u64 in H. lia.
Qed.

Lemma round_page_64_spec page_shift x : 0 <= page_shift -> 0 <= x -> x + 2 ^ page_shift < 2 ^ 64 ->
  round_page_64 page_shift x = 2 ^ page_shift * ((x + 2 ^ page_shift - 1) / 2 ^ page_shift).
Proof.
  intros. unfold round_page_64. assert (0 < 2 ^ page_shift) by (apply Z.pow_pos_nonneg; lia).
  rewrite u64_small by cint. unfold u64. rewrite land_mod_pow2_r by lia.
  by rewrite land_lnot_ones, Z.add_sub_assoc by lia.
Qed.

(** What a request does with the page list once the pages are no longer mapped. *)
Definition disposition (e : upl_event) : bool :=
  match e with UplCommit _ _ _ | UplAbort _ _ _ => true | _ => false end.
Definition dispositions (evs : list upl_event) : list upl_event := List.filter disposition evs.

Lemma dispositions_app l k : dispositions (l ++ k) = dispositions l ++ dispositions k.
Proof. apply List.filter_app. Qed.

Lemma dispositions_abort a : dispositions (abort_all a) = abort_all a.
Proof. unfold abort_all. by destruct (_ =? _). Qed.

Lemma dispositions_commit a r : dispositions (pagein_commit a r) = pagein_commit a r.
Proof. unfold pagein_commit. destruct (_ =? _); [| done]. by destruct (_ <? _). Qed.

(** The commit of the filled pages and the abort of the rest, while offsets fit 32 bits. *)
Lemma commit_ranges a rounded : Z.land (a_flags a) UPL_NOCOMMIT = 0 -> 0 <= a_pl_offset a -> 0 <= rounded <= a_size a ->
  a_pl_offset a + a_size a < 2 ^ 32 ->
  pagein_commit a rounded =
    UplCommit (a_pl_offset a) rounded (Z.lor UPL_COMMIT_FREE_ON_EMPTY UPL_COMMIT_CLEAR_DIRTY) ::
    (if rounded <? a_size a
     then [UplAbort (a_pl_offset a + rounded) (a_size a - rounded) (Z.lor UPL_ABORT_FREE_ON_EMPTY UPL_ABORT_ERROR)]
     else []).
Proof.
  intros Hf H0 Hr Hs. unfold pagein_commit. rewrite Hf. cbn [Z.eqb].
  by rewrite (u32_small rounded), (u32_small (a_size a - rounded)), u32_small by (unfold is_u32; lia).
Qed.

(** Filled length and its page-rounded extent. *)
Definition pagein_io (size filesize f_offset : Z) : Z := Z.min size (filesize - f_offset).
Definition pagein_rounded (page_shift size filesize f_offset : Z) : Z :=
  2 ^ page_shift * ((pagein_io size filesize f_offset + 2 ^ page_shift - 1) / 2 ^ page_shift).

Section fill.
Context (page_shift : Z) (Hshift : 0 <= page_shift < 32).
Context (size filesize f_offset : Z) (Hsize : 0 < size < 2 ^ 32).
Context (Hal : size mod 2 ^ page_shift = 0) (Hoff : 0 <= f_offset < filesize).

Lemma page_pos : 0 < 2 ^ page_shift < 2 ^ 33.
Proof. split; [apply Z.pow_pos_nonneg; lia | apply Z.pow_lt_mono_r; lia]. Qed.

Lemma pagein_rounded_bounds :
  let io := pagein_io size filesize f_offset in
  0 < io <= size /\ io <= pagein_rounded page_shift size filesize f_offset <= size.
Proof.
  pose proof page_pos. intros io. assert (0 < io <= size) as Hio by (subst io; unfold pagein_io; lia).
  split; [done |]. unfold pagein_rounded. fold io. set (p := 2 ^ page_shift) in *.
  assert (io + p - 1 = p * ((io + p - 1) / p) + (io + p - 1) mod p) as E by (apply Z.div_mod; lia).
  assert (0 <= (io + p - 1) mod p < p) by (apply Z.mod_pos_bound; lia).
  split; [lia |].
  assert (size = p * (size / p)) as Es by (pose proof (Z.div_mod size p ltac:(lia)); lia).
  rewrite Es. apply Z.mul_le_mono_nonneg_l; [lia |].
  assert ((io + p - 1) / p < size / p + 1) as Hlt; [| lia].
  apply Z.div_lt_upper_bound; [lia |]. rewrite Z.mul_add_distr_l, <- Es. lia.
Qed.

(** The code's clipping to the request is never taken. *)
Lemma pagein_rounded_code :
  let io := pagein_io size filesize f_offset in
  let r := round_page_64 page_shift io in
  (if size <? r then size else r) = pagein_rounded page_shift size filesize f_offset.
Proof.
  pose proof page_pos. destruct pagein_rounded_bounds as [Hio Hr]. intros io r.
  assert (r = pagein_rounded page_shift size filesize f_offset) as ->.
  { subst r io. rewrite round_page_64_spec by (cint || lia). done. }
  destruct (Z.ltb_spec size (pagein_rounded page_shift size filesize f_offset)); lia.
Qed.
End fill.

(** Clearing the bytes between the end of the data and the end of its last page. *)
Lemma zero_tail (data tail : bytes) io rounded :
  zlen data = io -> io <= rounded <= zlen tail -> 0 <= io ->
  (if 0 <? (if io <? rounded then rounded - io else 0)
   then copy_into (data ++ drop (Z.to_nat io) tail) io
          (replicate (Z.to_nat (if io <? rounded then rounded - io else 0)) 0)
          (if io <? rounded then rounded - io else 0)
   else Some (data ++ drop (Z.to_nat io) tail)) =
  Some (data ++ replicate (Z.to_nat (rounded - io)) 0 ++ drop (Z.to_nat rounded) tail).
Proof.
  intros Ed Hr H0. destruct (Z.ltb_spec io rounded) as [Hlt | Hge].
  - rewrite (proj2 (Z.ltb_lt 0 (rounded - io))) by lia.
    rewrite copy_into_append; [| done | rewrite zlen_drop; lia | rewrite zlen_replicate; lia].
    unfold region. rewrite drop_0, take_ge by (rewrite length_replicate; lia).
    rewrite drop_drop.
    by replace (Z.to_nat io + Z.to_nat (rounded - io))%nat with (Z.to_nat rounded) by lia.
  - replace rounded with io by lia. by rewrite Z.sub_diag.
Qed.

(** C27. A page-in of an aligned range that starts inside a regular file, over a device
    that serves the image, with the page list mapped, fills the range with the file's
    bytes, zeroes the rest of the last page, touches nothing else, commits exactly the
    pages that hold file bytes and aborts the rest of the request. *)
Theorem pagein_exact (page_shift : Z) (Hshift : 0 <= page_shift < 32)
    (read_fn : xzsfs_block_read_fn) (image : bytes) (Hdev : BlockDevice read_fn image)
    (Hal : zlen image mod 512 = 0) (Hsmall : zlen image < 2 ^ 63)
    (core : xzsfs_core_node) (Hreg : cn_type core = XZSFS_TYPE_REG)
    (Hext : 0 <= cn_data_offset core /\
            cn_data_offset core + cn_data_length core <= zlen image)
    (upl : upl_t) (Hmap : upl_map_kr upl = KERN_SUCCESS /\ upl_unmap_kr upl = KERN_SUCCESS)
    (pl_offset f_offset size : Z)
    (Hoff : 0 <= f_offset < cn_data_length core) (Hsize : 0 < size < 2 ^ 32)
    (Halign : f_offset mod 2 ^ page_shift = 0 /\ size mod 2 ^ page_shift = 0 /\
              pl_offset mod 2 ^ page_shift = 0)
    (Hmem : 0 <= pl_offset /\ pl_offset + size <= zlen (upl_mem upl) /\ pl_offset + size < 2 ^ 32) :
  let a := PageinArgs pl_offset f_offset size 0 in
  let io := pagein_io size (cn_data_length core) f_offset in
  let rounded := pagein_rounded page_shift size (cn_data_length core) f_offset in
  exists r, xzsfs_vnop_pagein page_shift read_fn VREG (Some core) upl a = Some r /\
    pr_error r = 0 /\
    pr_mem r = take (Z.to_nat pl_offset) (upl_mem upl) ++
               region image (cn_data_offset core + f_offset) io ++
               replicate (Z.to_nat (rounded - io)) 0 ++
               drop (Z.to_nat (pl_offset + rounded)) (upl_mem upl) /\
    dispositions (pr_events r) =
      UplCommit pl_offset rounded (Z.lor UPL_COMMIT_FREE_ON_EMPTY UPL_COMMIT_CLEAR_DIRTY) ::
      (if rounded <? size
       then [UplAbort (pl_offset + rounded) (size - rounded) (Z.lor UPL_ABORT_FREE_ON_EMPTY UPL_ABORT_ERROR)]
       else []).
Proof.
  intros a io rounded. destruct Hmap as [Hm Hu], Halign as (Ha1 & Ha2 & Ha3).
  pose proof (page_pos page_shift Hshift) as Hp.
  destruct (pagein_rounded_bounds page_shift Hshift size (cn_data_length core) f_offset
    Hsize Ha2 Hoff) as [Hio Hr]. fold io rounded in Hio, Hr.
  unfold xzsfs_vnop_pagein. cbn [a_size a_f_offset a_pl_offset a].
  rewrite (proj2 (Z.eqb_neq size 0)) by lia. change (negb (VREG =? VREG)) with false. cbn iota.
  rewrite !land_ones_mod, Ha1, Ha2, Ha3 by lia. cbn [Z.eqb negb]. rewrite !orb_false_r.
  rewrite (proj2 (Z.ltb_ge f_offset 0)), (proj2 (Z.leb_gt _ f_offset)) by lia. cbn [orb].
  rewrite u64_small by cint. rewrite (proj2 (Z.ltb_ge (f_offset + size) f_offset)) by lia.
  unfold pagein_fill. cbn [a_size a_f_offset a_pl_offset a].
  rewrite (u64_small (cn_data_length core - f_offset)) by cint.
  replace (if size <? cn_data_length core - f_offset then size else cn_data_length core - f_offset)
    with io.
  2:{ subst io. unfold pagein_io. destruct (Z.ltb_spec size (cn_data_length core - f_offset)); lia. }
  pose proof (pagein_rounded_code page_shift Hshift size (cn_data_length core) f_offset
    Hsize Ha2 Hoff) as Er. cbn zeta in Er. fold io rounded in Er. rewrite Er.
  rewrite Hm, Hu. cbn [KERN_SUCCESS Z.eqb negb].
  rewrite (proj2 (Z.leb_le pl_offset _)) by lia. cbn [negb].
  set (tail := drop (Z.to_nat pl_offset) (upl_mem upl)).
  assert (zlen tail = zlen (upl_mem upl) - pl_offset) as Ht by (apply zlen_drop; lia).
  assert (read_count (cn_data_length core) f_offset io = io) as Erc
    by (subst io; unfold read_count, pagein_io; lia).
  rewrite (core_read_exact read_fn image Hdev) by (cint || lia || (rewrite ?Erc; lia)).
  rewrite Hreg, Erc. change (XZSFS_TYPE_REG =? XZSFS_TYPE_REG) with true. cbn iota.
  cbn [mbind option_bind]. change (negb (XZSFS_ERR_OK =? 0)) with false.
  rewrite Z.eqb_refl. cbn [negb orb].
  set (data := region image (cn_data_offset core + f_offset) io).
  assert (zlen data = io) as Ed by (apply zlen_region; subst io; unfold pagein_io in *; lia).
  rewrite (zero_tail data tail io rounded) by lia.
  cbn [mbind option_bind]. eexists. split; [done |]. cbn [pr_error pr_mem pr_events].
  split_and!; [done | |].
  - subst tail. rewrite drop_drop. do 3 f_equal. f_equal. lia.
  - rewrite !dispositions_app, dispositions_commit, commit_ranges by (first [done | cbn; lia]). cbn. by rewrite app_nil_r.
Qed.

(** Two 4 KiB pages, the second of which is asked for. *)
Definition sample_upl : upl_t := Upl 0 0 (replicate 8192 7).

Lemma pagein_exact_witness :
  exists r, xzsfs_vnop_pagein 12 (image_read sample_image) VREG (Some sample_sh) sample_upl
      (PageinArgs 4096 0 4096 0) = Some r /\
    pr_error r = 0 /\
    pr_mem r = replicate 4096 7 ++ region sample_image 1536 600 ++ replicate 3496 0 /\
    dispositions (pr_events r) = [UplCommit 4096 4096 3].
Proof.
  refine (pagein_exact 12 ltac:(lia) (image_read sample_image) sample_image
    (image_read_device _ sample_image_bytes) ltac:(by vm_compute) ltac:(by vm_compute)
    sample_sh eq_refl ltac:(by vm_compute) sample_upl ltac:(by vm_compute)
    4096 0 4096 ltac:(by vm_compute) ltac:(by vm_compute) ltac:(by vm_compute)
    ltac:(by vm_compute)).
Defined.

(** Results of the failing and of the successful paths. *)
Definition disposed (a : pagein_args) (r : pagein_result) : Prop :=
  if pr_error r =? 0
  then exists rounded, 0 <= rounded <= a_size a /\
         dispositions (pr_events r) = pagein_commit a rounded
  else dispositions (pr_events r) = abort_all a.

Lemma abort_case a e mem evs r :
  (e =? 0) = false -> dispositions evs = abort_all a ->
  Some (PageinRes e mem evs) = Some r -> disposed a r.
Proof. intros He Hev [= <-]. unfold disposed. cbn [pr_error pr_events]. by rewrite He. Qed.

(** The commits and aborts of a trace built from the blocks above. *)
Ltac disp :=
  rewrite ?dispositions_app, ?dispositions_abort, ?dispositions_commit; cbn [dispositions
    List.filter disposition app]; rewrite ?app_nil_r; reflexivity.

Lemma fill_case page_shift read_fn core upl a pre r :
  0 <= a_size a -> dispositions pre = [] -> pagein_fill page_shift read_fn core upl a pre = Some r ->
  disposed a r.
Proof.
  intros Hsz Hpre. unfold pagein_fill.
  set (rs := if a_size a <? round_page_64 page_shift _ then _ else _).
  assert (0 <= rs <= a_size a) as Hrs.
  { subst rs. destruct (Z.ltb_spec (a_size a) (round_page_64 page_shift
      (if a_size a <? u64 (cn_data_length core - a_f_offset a) then a_size a else u64 (cn_data_length core - a_f_offset a))));
      [lia |]. split; [apply round_page_64_nonneg | lia]. }
  set (io := if a_size a <? u64 _ then _ else _) in *.
  split_if; [apply abort_case; [done | rewrite dispositions_app, !dispositions_app, Hpre; disp] |].
  split_if; [done |].
  destruct (xzsfs_core_read _ _ _ _ _ _) as [[[e dst] n] |]; [| done]. cbn [mbind option_bind].
  split_if.
  { apply abort_case; [destruct (Z.eqb_spec e 0); cbn; [done | by apply Z.eqb_neq] |].
    rewrite dispositions_app, !dispositions_app, Hpre. disp. }
  destruct (if 0 <? _ then copy_into _ _ _ _ else _) as [dst' |]; [| done]. cbn [mbind option_bind].
  split_if; [apply abort_case; [done | rewrite dispositions_app, !dispositions_app, Hpre; disp] |].
  intros [= <-]. unfold disposed. cbn [pr_error pr_events]. cbn [Z.eqb].
  exists rs. split; [done |]. rewrite !dispositions_app, Hpre. disp.
Qed.

Lemma pagein_disposed (page_shift : Z) (read_fn : xzsfs_block_read_fn) (vtype : Z)
    (node : option xzsfs_core_node) (upl : upl_t) (a : pagein_args) (r : pagein_result) :
  0 < a_size a -> xzsfs_vnop_pagein page_shift read_fn vtype node upl a = Some r -> disposed a r.
Proof.
  intros Hsize Hrun. unfold xzsfs_vnop_pagein in Hrun. rewrite (proj2 (Z.eqb_neq _ 0)) in Hrun by lia.
  revert Hrun.
  destruct (negb (vtype =? VREG)); [apply abort_case; [done | disp] |].
  destruct node as [core |]; [| apply abort_case; [done | disp]].
  split_if; [apply abort_case; [done | disp] |].
  split_if; [apply abort_case; [done | disp] |]. apply fill_case; [lia | done].
Qed.

(** The ranges of the commits and aborts lie end to end from [lo] to [hi]. *)
Fixpoint tiles (evs : list upl_event) (lo hi : Z) : Prop :=
  match evs with
  | [] => lo = hi
  | UplCommit off size _ :: evs | UplAbort off size _ :: evs => off = lo /\ 0 <= size /\ tiles evs (lo + size) hi
  | _ :: evs => tiles evs lo hi
  end.

Definition is_abort (e : upl_event) : Prop := match e with UplAbort _ _ _ => True | _ => False end.

(** Whatever happens - bad arguments, a failed mapping, a device error, a short read,
    a failed unmapping, success - a page-in with a non-empty request disposes of every byte
    of the page list exactly once: success commits a first part and aborts the remainder,
    every failure aborts the whole request, and with UPL_NOCOMMIT the list is left alone. *)
Theorem pagein_disposes_once (page_shift : Z) (read_fn : xzsfs_block_read_fn) (vtype : Z)
    (node : option xzsfs_core_node) (upl : upl_t) (a : pagein_args) (r : pagein_result)
    (Hsize : 0 < a_size a) (Hoff : 0 <= a_pl_offset a) (Hend : a_pl_offset a + a_size a < 2 ^ 32)
    (Hrun : xzsfs_vnop_pagein page_shift read_fn vtype node upl a = Some r) :
  let evs := dispositions (pr_events r) in
  if Z.land (a_flags a) UPL_NOCOMMIT =? 0
  then tiles evs (a_pl_offset a) (a_pl_offset a + a_size a) /\
       (if pr_error r =? 0
        then exists n flags rest, evs = UplCommit (a_pl_offset a) n flags :: rest /\ Forall is_abort rest
        else Forall is_abort evs)
  else evs = [].
Proof.
  intros evs. assert (disposed a r) as Hd by (by eapply pagein_disposed).
  unfold disposed in Hd. fold evs in Hd. destruct (Z.eqb_spec (Z.land (a_flags a) UPL_NOCOMMIT) 0) as [E | E].
  - destruct (pr_error r =? 0).
    + destruct Hd as (rounded & Hr & ->). rewrite commit_ranges by lia. split; [| repeat eexists; split_if; repeat constructor].
      destruct (Z.ltb_spec rounded (a_size a)); cbn; lia.
    + rewrite Hd. unfold abort_all. rewrite (proj2 (Z.eqb_eq _ _) E). rewrite u32_small by (unfold is_u32; lia).
      split; [cbn; lia | repeat constructor].
  - apply Z.eqb_neq in E. destruct (pr_error r =? 0).
    + destruct Hd as (rounded & _ & ->). unfold pagein_commit. by rewrite E.
    + rewrite Hd. unfold abort_all. by rewrite E.
Qed.

Lemma pagein_disposes_once_witness :
  exists r, xzsfs_vnop_pagein 12 failing_read VREG (Some sample_sh) sample_upl
      (PageinArgs 4096 0 4096 0) = Some r /\ pr_error r = 5 /\
    tiles (dispositions (pr_events r)) 4096 8192 /\ Forall is_abort (dispositions (pr_events r)).
Proof.
  eexists. split; [vm_compute; reflexivity |]. split; [reflexivity |].
  exact (pagein_disposes_once 12 failing_read VREG (Some sample_sh) sample_upl
    (PageinArgs 4096 0 4096 0) _ ltac:(done) ltac:(done) ltac:(done) ltac:(vm_compute; reflexivity)).
Defined.
