(* ===== verification/XzsfsDir.v ===== *)
(** * XZSFS: directory enumeration

    The listing of a directory as an abstract list of entries ([listing]), the proof that
    [xzsfs_readdir] enumerates it - resuming at any entry boundary, never splitting an
    entry - and the round trip of the records it emits. *)

From stdpp Require Import base list strings.
From Stdlib Require Import ZArith Lia.
From S2P Require Import Prelude Crc32 XzsfsCore XzsfsSample XzsfsFormat XzsfsGraph XzsfsLookup Kernel XzsfsDriver XzsfsVnops.

(** ** One record *)

Lemma c_string_app s t : Forall (fun b => b <> 0) s -> c_string (s ++ 0 :: t) = Some s.
Proof.
  induction 1 as [|b s Hb _ IH]; cbn [app c_string]; [done |].
  rewrite (proj2 (Z.eqb_neq b 0)) by done. by rewrite IH.
Qed.

(** The record of a name: header, name clipped to 255 bytes, NUL padding. *)
Definition mk_dirent (id : Z) (name : bytes) (dtype : Z) : dirent :=
  let namelen := Z.min (zlen name) 255 in
  Dirent id (8 + 4 * ((namelen + 4) / 4)) dtype namelen (strlcpy_zero name 256).

Lemma format_dirent_spec node s t dtype : Forall (fun b => b <> 0) s ->
  xzsfs_helper_format_dirent node (s ++ 0 :: t) dtype =
  Some (mk_dirent (cn_object_id node) s dtype).
Proof.
  intros Hs. unfold xzsfs_helper_format_dirent. rewrite c_string_app by done. cbn [mbind option_bind].
  pose proof (zlen_nonneg s). unfold mk_dirent. f_equal.
  assert ((if 255 <? zlen s then 255 else zlen s) = Z.min (zlen s) 255) as ->
    by (destruct (Z.ltb_spec 255 (zlen s)); lia).
  set (n := Z.min (zlen s) 255). assert (0 <= n <= 255) by lia.
  replace (n + 1 + 3) with (n + 4) by lia. change (Z.lnot 3) with (Z.lnot (2 ^ 2 - 1)).
  rewrite land_lnot_ones by lia. change (2 ^ 2) with 4.
  f_equal; [apply u16_small | apply u8_small]; cint_unfold; zdm.
Qed.

(** The bytes copied out for an entry. *)
Definition record_of (de : dirent) : bytes := take (Z.to_nat (d_reclen de)) (encode_dirent de).

Definition entry_wf (de : dirent) : Prop :=
  12 <= d_reclen de <= 264 /\ zlen (d_name de) = 256.

Lemma mk_dirent_wf id name dtype : entry_wf (mk_dirent id name dtype).
Proof.
  pose proof (zlen_nonneg name). split; cbn.
  - zdm.
  - unfold strlcpy_zero. rewrite zlen_app, zlen_take, zlen_replicate by lia. lia.
Qed.

Lemma zlen_encode_dirent de : entry_wf de -> zlen (encode_dirent de) = 264.
Proof.
  intros [_ Hn]. unfold encode_dirent, zlen in *. rewrite !length_app, !length_le_split. lia.
Qed.

Lemma zlen_record_of de : entry_wf de -> zlen (record_of de) = d_reclen de.
Proof.
  intros Hw. apply zlen_take. rewrite zlen_encode_dirent by done. destruct Hw. lia.
Qed.

Lemma sub_bytes_record de : entry_wf de ->
  sub_bytes (encode_dirent de) 0 (d_reclen de) = Some (record_of de).
Proof.
  intros Hw. pose proof (zlen_encode_dirent de Hw). destruct Hw.
  rewrite sub_bytes_in by lia. by rewrite drop_0.
Qed.

(** ** Enumeration over an abstract listing *)

(** Position of entry [k]: the records before it. *)
Definition offset_of (L : list dirent) (k : nat) : Z := foldr Z.add 0 (d_reclen <$> take k L).

Lemma offset_of_S L k de : L !! k = Some de -> offset_of L (S k) = offset_of L k + d_reclen de.
Proof.
  intros E. unfold offset_of. rewrite (take_S_r _ _ _ E), fmap_app. cbn.
  generalize (d_reclen <$> take k L). induction l as [|x l IH]; cbn; lia.
Qed.

Lemma offset_of_lt L j k : Forall entry_wf L -> (j < k <= length L)%nat ->
  offset_of L j < offset_of L k.
Proof.
  intros HL [Hj Hk]. induction Hj as [| k Hj IH].
  - destruct (lookup_lt_is_Some_2 L j) as [de E]; [lia |].
    rewrite (offset_of_S _ _ _ E). destruct (Forall_lookup_1 _ _ _ _ HL E). lia.
  - destruct (lookup_lt_is_Some_2 L k) as [de E]; [lia |].
    rewrite (offset_of_S _ _ _ E). specialize (IH ltac:(lia)).
    destruct (Forall_lookup_1 _ _ _ _ HL E). lia.
Qed.

Definition records (L : list dirent) : bytes := concat (record_of <$> L).

Lemma records_app L K : records (L ++ K) = records L ++ records K.
Proof. unfold records. by rewrite fmap_app, concat_app. Qed.

Section enumerate.
Context (fs : xzsfs_core_fs) (dir : xzsfs_core_node) (L : list dirent).
Context (HL : Forall entry_wf L) (Hlen : Z.of_nat (length L) < 2 ^ 31).
Context (Hat : forall k : nat, dirent_at fs dir (Z.of_nat k) = Some (L !! k)).

Lemma readdir_step_skip startpos u k num de :
  L !! k = Some de -> 0 < uio_resid u -> offset_of L k < startpos ->
  readdir_step fs dir startpos (Rd u (offset_of L k) (Z.of_nat k) num) =
  Some (Next (Rd u (offset_of L (S k)) (Z.of_nat (S k)) num)).
Proof.
  intros E Hr Hlt. unfold readdir_step. cbn [rd_uio rd_pos rd_idx rd_num].
  rewrite (proj2 (Z.ltb_lt 0 _)) by lia. rewrite Hat, E. cbn [mbind option_bind].
  rewrite (proj2 (Z.leb_gt startpos _)) by lia.
  apply lookup_lt_Some in E as Hk. rewrite u32_small by cint. rewrite (offset_of_S _ _ _ E).
  do 3 f_equal. lia.
Qed.

Lemma readdir_step_copy startpos off resid out k num de :
  L !! k = Some de -> startpos <= offset_of L k -> d_reclen de <= resid ->
  readdir_step fs dir startpos (Rd (Uio off resid out None) (offset_of L k) (Z.of_nat k) num) =
  Some (Next (Rd (Uio (off + d_reclen de) (resid - d_reclen de) (out ++ record_of de) None)
                (offset_of L (S k)) (Z.of_nat (S k)) (num + 1))).
Proof.
  intros E Hge Hr. pose proof (Forall_lookup_1 _ _ _ _ HL E) as Hw. pose proof Hw as [Hw' _].
  unfold readdir_step. cbn [rd_uio rd_pos rd_idx rd_num uio_resid].
  rewrite (proj2 (Z.ltb_lt 0 _)) by lia. rewrite Hat, E. cbn [mbind option_bind].
  rewrite (proj2 (Z.leb_le startpos _)) by lia. rewrite (proj2 (Z.ltb_ge resid _)) by lia.
  rewrite sub_bytes_record by done. cbn [mbind option_bind].
  rewrite uiomove_fits by (rewrite zlen_record_of by done; lia). rewrite zlen_record_of by done.
  cbn [negb Z.eqb]. apply lookup_lt_Some in E as Hk. rewrite u32_small by cint.
  rewrite (offset_of_S _ _ _ E). do 3 f_equal. lia.
Qed.

(** The loop stops without changing anything: no room, no entry, or no request left. *)
Lemma readdir_step_stop startpos off resid out k num :
  startpos <= offset_of L k ->
  (resid <= 0 \/ match L !! k with Some de => resid < d_reclen de | None => True end) ->
  let st := Rd (Uio off resid out None) (offset_of L k) (Z.of_nat k) num in
  readdir_step fs dir startpos st = Some (Exit (0, st)).
Proof.
  intros Hge Hstop st. unfold readdir_step. cbn [st rd_uio rd_pos rd_idx rd_num uio_resid].
  destruct (Z.ltb_spec 0 resid); [| done]. rewrite Hat. cbn [mbind option_bind].
  destruct (L !! k) as [de |]; [| done].
  rewrite (proj2 (Z.leb_le startpos _)) by lia. rewrite (proj2 (Z.ltb_lt resid _)) by lia. done.
Qed.

(** Copying whole records while they fit. *)
Lemma readdir_copy startpos : forall d k off resid out num fuel,
  (length L - k = d)%nat -> (k <= length L)%nat -> (d < fuel)%nat -> startpos <= offset_of L k ->
  exists m, (k <= m <= length L)%nat /\
    (forall de, L !! k = Some de -> d_reclen de <= resid -> (k < m)%nat) /\
    let n := offset_of L m - offset_of L k in
    loop fuel (readdir_step fs dir startpos)
      (Rd (Uio off resid out None) (offset_of L k) (Z.of_nat k) num) =
    Some (0, Rd (Uio (off + n) (resid - n) (out ++ records (drop k (take m L))) None)
                (offset_of L m) (Z.of_nat m) (num + Z.of_nat (m - k))).
Proof.
  induction d as [|d IH]; intros k off resid out num fuel Hd Hk Hf Hge;
    (destruct fuel as [|fuel]; [lia |]); cbn [loop].
  all: assert (forall r, r = Some (Exit (0, Rd (Uio off resid out None) (offset_of L k)
         (Z.of_nat k) num)) ->
       match r with
       | Some (Next s') => loop fuel (readdir_step fs dir startpos) s'
       | Some (Exit r) => Some r | None => None end =
       Some (0, Rd (Uio (off + (offset_of L k - offset_of L k))
         (resid - (offset_of L k - offset_of L k)) (out ++ records (drop k (take k L))) None)
         (offset_of L k) (Z.of_nat k) (num + Z.of_nat (k - k)))) as Hstop.
  1, 3: intros r ->; rewrite drop_ge by (rewrite length_take; lia);
    rewrite Z.sub_diag, Nat.sub_diag, app_nil_r; do 3 f_equal; [f_equal |]; lia.
  - exists k. split; [lia |].
    assert (L !! k = None) as E by (apply lookup_ge_None; lia). rewrite E. split; [done |].
    apply Hstop, readdir_step_stop; [done |]. rewrite E. auto.
  - destruct (lookup_lt_is_Some_2 L k) as [de E]; [lia |].
    destruct (decide (d_reclen de <= resid)) as [Hfit | Hfit].
    + rewrite (readdir_step_copy _ _ _ _ _ _ _ E) by lia.
      pose proof (offset_of_S _ _ _ E) as Eo.
      pose proof (Forall_lookup_1 _ _ _ _ HL E) as [Hw _].
      destruct (IH (S k) (off + d_reclen de) (resid - d_reclen de) (out ++ record_of de)
        (num + 1) fuel) as (m & Hm & _ & El); [lia.. |].
      exists m. split; [lia |]. split; [intros; lia |]. cbn zeta in *. rewrite El, Eo.
      assert (record_of de ++ records (drop (S k) (take m L)) = records (drop k (take m L))) as Er.
      { rewrite (drop_S (take m L) de k) by (rewrite lookup_take_lt by lia; done). done. }
      rewrite <- app_assoc, Er. do 3 f_equal; [f_equal |]; lia.
    + exists k. split; [lia |]. rewrite E. split; [naive_solver |].
      apply Hstop, readdir_step_stop; [done |]. rewrite E. lia.
Qed.

(** Skipping the records before the starting position. *)
Lemma readdir_skip k u num : (k <= length L)%nat -> 0 < uio_resid u -> forall j fuel,
  (j <= k)%nat -> (k - j < fuel)%nat ->
  loop fuel (readdir_step fs dir (offset_of L k)) (Rd u (offset_of L j) (Z.of_nat j) num) =
  loop (fuel - (k - j)) (readdir_step fs dir (offset_of L k))
    (Rd u (offset_of L k) (Z.of_nat k) num).
Proof.
  intros Hk Hu j fuel Hj. remember (k - j)%nat as d eqn:Ed. revert j fuel Hj Ed.
  induction d as [|d IH]; intros j fuel Hj Ed Hf.
  - replace j with k by lia. by rewrite Nat.sub_0_r.
  - destruct (lookup_lt_is_Some_2 L j) as [de E]; [lia |].
    destruct fuel as [|fuel]; [lia |]. cbn [loop].
    rewrite (readdir_step_skip _ _ _ _ _ E); [| done | apply offset_of_lt; [done | lia]].
    rewrite (IH (S j) fuel) by lia. done.
Qed.

Context (Hfuel : (length L + 1 < readdir_fuel fs)%nat).

Lemma readdir_from k resid out : (k <= length L)%nat -> 0 < resid ->
  exists m, (k <= m <= length L)%nat /\
    (forall de, L !! k = Some de -> d_reclen de <= resid -> (k < m)%nat) /\
    readdir_node fs dir (Uio (offset_of L k) resid out None) =
    Some (RdRes 0 (Uio (offset_of L m) (resid - (offset_of L m - offset_of L k))
                     (out ++ records (drop k (take m L))) None)
            (if decide (m = k) then 1 else 0) (Z.of_nat (m - k))).
Proof.
  intros Hk Hr. unfold readdir_node. cbn [uio_offset].
  change (Rd ?u 0 0 0) with (Rd u (offset_of L 0) (Z.of_nat 0) 0).
  rewrite readdir_skip by (cbn; lia).
  destruct (readdir_copy (offset_of L k) (length L - k) k (offset_of L k) resid out 0
    (readdir_fuel fs - (k - 0))) as (m & Hm & Hprog & ->); [lia.. |].
  exists m. split; [done |]. split; [done |]. cbn. do 2 f_equal.
  destruct (decide (m = k)) as [-> | Hne].
  - by rewrite (proj2 (Z.leb_le _ _)) by lia.
  - pose proof (offset_of_lt L k m HL ltac:(lia)).
    rewrite (proj2 (Z.leb_gt _ _)), (proj2 (Z.eqb_neq _ _)) by lia. done.
Qed.
End enumerate.

(** ** The listing of a directory *)

Definition node_name (fs : xzsfs_core_fs) (n : xzsfs_core_node) : bytes :=
  region (fs_strtab fs) (cn_name n) (cn_name_length n).

Definition child_entry (fs : xzsfs_core_fs) (n : xzsfs_core_node) : dirent :=
  mk_dirent (cn_object_id n) (node_name fs n)
    (if cn_type n =? XZSFS_TYPE_DIR then DT_DIR else DT_REG).

(** Objects with parent [id], in table order, the root's self-link excluded. *)
Definition children (fs : xzsfs_core_fs) (id : Z) : list xzsfs_core_node :=
  filter (fun n => cn_parent_id n = id) (drop 1 (take (Z.to_nat (fs_node_count fs)) (fs_nodes fs))).

Definition listing (fs : xzsfs_core_fs) (dir : xzsfs_core_node) : list dirent :=
  mk_dirent (cn_object_id dir) dot DT_DIR ::
  mk_dirent (cn_parent_id dir) dotdot DT_DIR ::
  (child_entry fs <$> children fs (cn_object_id dir)).

Lemma listing_wf fs dir : Forall entry_wf (listing fs dir).
Proof.
  repeat constructor; try (apply mk_dirent_wf).
  apply Forall_fmap, Forall_forall. intros n _. apply mk_dirent_wf.
Qed.

(** The string table holds the node's name, NUL-terminated. *)
Definition named (fs : xzsfs_core_fs) (n : xzsfs_core_node) : Prop :=
  Forall (fun b => b <> 0) (node_name fs n) /\
  exists t, sub_bytes (fs_strtab fs) (cn_name n) (zlen (fs_strtab fs) - cn_name n) =
    Some (node_name fs n ++ 0 :: t).

Lemma child_scan_loop fs id idx ns : forall i c,
  (forall j x, ns !! j = Some x -> elem_at (fs_nodes fs) (i + Z.of_nat j) = Some x /\ named fs x) ->
  0 <= c <= idx -> c + Z.of_nat (length ns) < 2 ^ 32 ->
  exists c', for_loop (length ns) i (child_scan fs id idx) c =
    Some (match filter (fun n => cn_parent_id n = id) ns !! Z.to_nat (idx - c) with
          | Some x => Exit (child_entry fs x)
          | None => Next c'
          end).
Proof.
  induction ns as [|n ns IH]; intros i c Hns Hc Hb; cbn [length for_loop]; [by exists c |].
  destruct (Hns 0%nat n eq_refl) as [En [Hname (t & Ht)]]. rewrite Z.add_0_r in En.
  assert (forall j x, ns !! j = Some x ->
    elem_at (fs_nodes fs) (i + 1 + Z.of_nat j) = Some x /\ named fs x) as Hns'.
  { intros j x Ej. replace (i + 1 + Z.of_nat j) with (i + Z.of_nat (S j)) by lia. by apply Hns. }
  cbn [length] in Hb. unfold child_scan. rewrite En. cbn [mbind option_bind].
  destruct (Z.eqb_spec (cn_parent_id n) id) as [Ep | Ep].
  - rewrite filter_cons_True by done. destruct (Z.eqb_spec c idx) as [Ec | Ec].
    + rewrite Ht. cbn [mbind option_bind]. rewrite format_dirent_spec by done.
      cbn [mbind option_bind]. subst c. rewrite Z.sub_diag. by exists 0.
    + rewrite u32_small by cint. fold (child_scan fs id idx).
      destruct (IH (i + 1) (c + 1) Hns' ltac:(lia) ltac:(lia)) as [c' ->]. exists c'.
      replace (Z.to_nat (idx - c)) with (S (Z.to_nat (idx - (c + 1)))) by lia. done.
  - rewrite filter_cons_False by done. fold (child_scan fs id idx).
    apply (IH (i + 1) c); (done || lia).
Qed.

Section listing.
Context (sb : xzsfs_disk_superblock) (objects : list xzsfs_disk_object) (strtab : bytes).
Context (fs : xzsfs_core_fs) (Hv : validated sb objects strtab).
Context (Hfs : fs_holds fs sb objects strtab).

Lemma fs_node_is i : 0 <= i < sb_object_count sb ->
  exists o, elem_at objects i = Some o /\ elem_at (fs_nodes fs) i = Some (node_of_object o) /\
    object_ok sb objects strtab i o /\ (0 < i -> named fs (node_of_object o)).
Proof.
  intros Hi. pose proof (validated_checked _ _ _ Hv) as Hck.
  pose proof (validated_graph _ _ _ Hv) as Hg.
  pose proof (checked_sizes sb (va_wf _ _ _ Hv) Hck) as (? & _ & _ & Hsz).
  destruct (graph_object sb objects strtab (va_wf _ _ _ Hv) Hck (va_objects _ _ _ Hv)
    (va_objects_wf _ _ _ Hv) Hg fs Hfs i Hi) as (o & Eo & Hw & Hok & En & H1 & H2 & H3 & _).
  exists o. split_and!; try done. intros Hpos.
  destruct (oo_child _ _ _ _ _ Hok Hpos) as [_ _ Hb Hterm Hch _].
  pose proof (fs_name sb objects strtab (va_wf _ _ _ Hv) Hck fs Hfs o H1 H2 H3) as Hname.
  pose proof (fh_strtab_len _ _ _ _ Hfs) as Hlen. pose proof (va_strtab _ _ _ Hv) as Hst.
  rewrite sub_bytes_region in Hname by lia. injection Hname as Hname.
  (* the mounted and the loaded string table agree below the table size *)
  assert (forall p, 0 <= p < sb_string_table_size sb ->
    elem_at (fs_strtab fs) p = elem_at strtab p) as Hagree.
  { intros p Hp. pose proof (f_equal (fun l => l !! Z.to_nat p) (fh_strtab _ _ _ _ Hfs)) as E.
    cbn in E. unfold region in E. rewrite !drop_0, !lookup_take_lt in E by lia.
    unfold elem_at. by rewrite (proj2 (Z.leb_le 0 p)) by lia. }
  split.
  - unfold node_name. cbn [node_of_object cn_name cn_name_length]. apply Forall_lookup.
    intros k b Ek. intros ->.
    unfold region in Ek. apply lookup_take_Some in Ek as [Ek Hk]. rewrite lookup_drop in Ek.
    destruct (Hch (Z.of_nat k) ltac:(lia)) as [_ Hnz]. apply Hnz. rewrite byte_at_elem, <- Hagree by lia.
    apply elem_at_Some. split; [lia |]. rewrite Z2Nat.inj_add, Nat2Z.id by lia. done.
  - unfold node_name. cbn [node_of_object cn_name cn_name_length]. rewrite Hlen.
    rewrite sub_bytes_region by lia.
    set (l := ob_name_length o) in *. set (q := ob_name_offset o) in *.
    exists (region (fs_strtab fs) (q + l + 1) (2048 - q - l - 1)). f_equal.
    replace (2048 - q) with (l + (1 + (2048 - q - l - 1))) at 1 by lia.
    rewrite !region_split by lia. f_equal. change (0 :: ?t) with ([0] ++ t). f_equal.
    rewrite byte_at_elem, <- Hagree in Hterm by lia. apply elem_at_Some in Hterm as [_ Ht].
    unfold region. change (Z.to_nat 1) with 1%nat. by rewrite (drop_S _ _ _ Ht).
Qed.

Context (d : Z) (dir : xzsfs_core_node) (Hd : 0 <= d < sb_object_count sb).
Context (Edir : elem_at (fs_nodes fs) d = Some dir).

Lemma parent_node : exists p, elem_at (fs_nodes fs) (u32 (cn_parent_id dir - 1)) = Some p /\
  cn_object_id p = cn_parent_id dir.
Proof.
  pose proof (checked_sizes sb (va_wf _ _ _ Hv) (validated_checked _ _ _ Hv)) as (? & _ & _ & _).
  destruct (fs_node_is d Hd) as (o & Eo & En & Hok & _). rewrite Edir in En. injection En as ->.
  cbn [node_of_object cn_parent_id].
  assert (1 <= ob_parent_id o <= sb_object_count sb) as Hp.
  { destruct (validated_graph _ _ _ Hv) as ((root & Er & Hroot) & _ & Hall).
    destruct (decide (d = 0)) as [E0 |].
    - rewrite E0, Er in Eo. injection Eo as <-. rewrite (rt_parent _ Hroot). lia.
    - destruct (ch_parent _ _ _ _ _ (oo_child _ _ _ _ _ Hok ltac:(lia))).
      rewrite (oo_id _ _ _ _ _ Hok) in *. lia. }
  rewrite u32_small by cint.
  destruct (fs_node_is (ob_parent_id o - 1) ltac:(lia)) as (po & _ & En & Hpok & _).
  exists (node_of_object po). split; [done |]. cbn. rewrite (oo_id _ _ _ _ _ Hpok). lia.
Qed.

Lemma length_children_bound id : (length (children fs id) <= 31)%nat.
Proof.
  pose proof (checked_sizes sb (va_wf _ _ _ Hv) (validated_checked _ _ _ Hv)) as (? & _ & _ & _).
  unfold children. etransitivity; [apply length_filter |].
  rewrite length_drop, length_take, (fh_count _ _ _ _ Hfs). lia.
Qed.

Lemma listing_at (k : nat) : dirent_at fs dir (Z.of_nat k) = Some (listing fs dir !! k).
Proof.
  pose proof (checked_sizes sb (va_wf _ _ _ Hv) (validated_checked _ _ _ Hv)) as (Hc & _ & _ & _).
  unfold dirent_at. destruct k as [| [| k]].
  - cbn [Z.of_nat Z.eqb]. change (lit "." ++ [0]) with (dot ++ 0 :: []).
    rewrite format_dirent_spec; [done |]. apply (bool_decide_unpack _). by vm_compute.
  - change (Z.of_nat 1) with 1. cbn [Z.eqb]. change (1 =? 0) with false. cbn iota.
    change (1 =? 1) with true. cbn iota.
    destruct parent_node as (p & -> & Ep). cbn [mbind option_bind].
    change (lit ".." ++ [0]) with (dotdot ++ 0 :: []).
    rewrite format_dirent_spec; [| apply (bool_decide_unpack _); by vm_compute].
    cbn [mbind option_bind]. by rewrite Ep.
  - rewrite (proj2 (Z.eqb_neq _ 0)), (proj2 (Z.eqb_neq _ 1)) by lia.
    set (ns := drop 1 (take (Z.to_nat (fs_node_count fs)) (fs_nodes fs))).
    assert (Z.of_nat (length (fs_nodes fs)) >= sb_object_count sb) as Hnl.
    { destruct (fs_node_is (sb_object_count sb - 1) ltac:(lia)) as (o & _ & En & _).
      apply elem_at_lt in En. unfold zlen in En. lia. }
    assert (length ns = Z.to_nat (fs_node_count fs - 1)) as Hns.
    { unfold ns. rewrite length_drop, length_take, (fh_count _ _ _ _ Hfs). lia. }
    rewrite <- Hns.
    destruct (child_scan_loop fs (cn_object_id dir) (Z.of_nat (S (S k))) ns 1 2) as [c' ->].
    + intros j x Ej. unfold ns in Ej. rewrite lookup_drop in Ej.
      apply lookup_take_Some in Ej as [Ej Hj]. rewrite (fh_count _ _ _ _ Hfs) in Hj.
      destruct (fs_node_is (1 + Z.of_nat j) ltac:(lia)) as (o & _ & En & _ & Hnm).
      assert (elem_at (fs_nodes fs) (1 + Z.of_nat j) = Some x) as Ex.
      { apply elem_at_Some. split; [lia |]. by replace (Z.to_nat (1 + Z.of_nat j)) with (1 + j)%nat by lia. }
      split; [done |]. rewrite Ex in En. injection En as ->. apply Hnm. lia.
    + lia.
    + rewrite Hns, (fh_count _ _ _ _ Hfs). cint.
    + cbn [mbind option_bind]. replace (Z.to_nat (Z.of_nat (S (S k)) - 2)) with k by lia.
      change (listing fs dir !! S (S k))
        with ((child_entry fs <$> children fs (cn_object_id dir)) !! k).
      rewrite list_lookup_fmap. unfold children. fold ns.
      by destruct (filter _ ns !! k).
Qed.

Lemma listing_fuel : (length (listing fs dir) + 1 < readdir_fuel fs)%nat.
Proof.
  pose proof (checked_sizes sb (va_wf _ _ _ Hv) (validated_checked _ _ _ Hv)) as (Hc & _ & _ & _).
  unfold listing, readdir_fuel. cbn [length]. rewrite length_fmap.
  unfold children. pose proof (length_filter (fun n => cn_parent_id n = cn_object_id dir)
    (drop 1 (take (Z.to_nat (fs_node_count fs)) (fs_nodes fs)))) as Hl.
  rewrite length_drop, length_take in Hl. rewrite (fh_count _ _ _ _ Hfs) in *. lia.
Qed.
End listing.

(** ** Enumerating with a fixed buffer

    What a caller sees that repeats the call, each time from the offset the last one left,
    until no entry is returned. *)

Fixpoint list_dir (fuel : nat) (fs : xzsfs_core_fs) (dir : xzsfs_core_node) (bufsize off : Z)
    (acc : bytes) : option bytes :=
  match fuel with
  | O => None
  | S fuel =>
      r ← readdir_node fs dir (Uio off bufsize [] None);
      if rr_numdirent r =? 0 then Some acc
      else list_dir fuel fs dir bufsize (uio_offset (rr_uio r)) (acc ++ uio_data (rr_uio r))
  end.

Lemma list_dir_from fs dir L bufsize :
  Forall entry_wf L -> Z.of_nat (length L) < 2 ^ 31 ->
  (forall k : nat, dirent_at fs dir (Z.of_nat k) = Some (L !! k)) ->
  (length L + 1 < readdir_fuel fs)%nat -> 264 <= bufsize ->
  forall d k fuel acc, (length L - k = d)%nat -> (k <= length L)%nat -> (d < fuel)%nat ->
  list_dir fuel fs dir bufsize (offset_of L k) acc = Some (acc ++ records (drop k L)).
Proof.
  intros HL Hlen Hat Hfuel Hbuf d. induction d as [d IH] using lt_wf_ind.
  intros k fuel acc Hd Hk Hf. destruct fuel as [|fuel]; [lia |]. cbn [list_dir].
  destruct (readdir_from fs dir L HL Hlen Hat Hfuel k bufsize [] Hk ltac:(lia))
    as (m & Hm & Hprog & ->).
  cbn [mbind option_bind rr_numdirent rr_uio uio_offset uio_data app].
  destruct (decide (k < length L)%nat) as [Hlt | Hge].
  - destruct (lookup_lt_is_Some_2 L k Hlt) as [de E].
    pose proof (Forall_lookup_1 _ _ _ _ HL E) as [Hw _].
    specialize (Hprog de E ltac:(lia)). rewrite (proj2 (Z.eqb_neq _ 0)) by lia.
    assert (drop k L = drop k (take m L) ++ drop m L) as ->.
    { rewrite <- (take_drop m L) at 1. apply drop_app_le. rewrite length_take. lia. }
    by rewrite (IH (length L - m)%nat), <- app_assoc, <- records_app by lia.
  - replace (m - k)%nat with 0%nat by lia. change (Z.of_nat 0 =? 0) with true. cbn iota.
    by rewrite (drop_ge L k), app_nil_r by lia.
Qed.

(** ** Properties *)

(** One [xzsfs_readdir] call on a directory of a mounted validated image, starting at
    an entry boundary, returns a whole number of consecutive entries of the listing (".",
    "..", the children in table order), at least one if the next fits, leaves the
    offset at the next entry boundary, and sets the end flag only if it returned none. *)
Theorem readdir_enumerates (sb : xzsfs_disk_superblock) (objects : list xzsfs_disk_object)
    (strtab : bytes) (fs : xzsfs_core_fs) (Hv : validated sb objects strtab)
    (Hfs : fs_holds fs sb objects strtab) (d : Z) (dir : xzsfs_core_node)
    (Hd : 0 <= d < sb_object_count sb) (Edir : elem_at (fs_nodes fs) d = Some dir)
    (k : nat) (resid : Z) (out : bytes) (Hk : (k <= length (listing fs dir))%nat)
    (Hr : 0 < resid) :
  let L := listing fs dir in
  exists m, (k <= m <= length L)%nat /\
    (forall de, L !! k = Some de -> d_reclen de <= resid -> (k < m)%nat) /\
    readdir_node fs dir (Uio (offset_of L k) resid out None) =
    Some (RdRes 0 (Uio (offset_of L m) (resid - (offset_of L m - offset_of L k))
                     (out ++ records (drop k (take m L))) None)
            (if decide (m = k) then 1 else 0) (Z.of_nat (m - k))).
Proof.
  intros L. apply readdir_from; try done.
  - apply listing_wf.
  - unfold L, listing. cbn [length]. rewrite length_fmap.
    pose proof (length_children_bound sb objects strtab fs Hv Hfs (cn_object_id dir)). cint.
  - by apply (listing_at sb objects strtab fs Hv Hfs d).
  - by apply (listing_fuel sb objects strtab fs Hv Hfs).
Qed.

Definition sample_root : xzsfs_core_node := CNode 1 1 1 493 0 0 0 0 0 0.

Lemma readdir_enumerates_witness :
  exists m, (1 <= m <= 4)%nat /\
    (forall de, listing sample_fs sample_root !! 1%nat = Some de -> d_reclen de <= 30 -> (1 < m)%nat) /\
    readdir_node sample_fs sample_root (Uio 12 30 [] None) =
    Some (RdRes 0 (Uio (offset_of (listing sample_fs sample_root) m)
                     (30 - (offset_of (listing sample_fs sample_root) m - 12))
                     (records (drop 1 (take m (listing sample_fs sample_root)))) None)
            (if decide (m = 1%nat) then 1 else 0) (Z.of_nat (m - 1))).
Proof.
  apply (readdir_enumerates _ _ _ _ sample_validated sample_fs_holds 0 sample_root
    ltac:(by vm_compute) ltac:(by vm_compute) 1 30 []); [vm_compute; lia | lia].
Defined.

(** C10. Repeating the call with any buffer of at least 264 bytes until no entry comes
    back delivers the directory's listing exactly: every entry once, in order. *)
Theorem readdir_complete (sb : xzsfs_disk_superblock) (objects : list xzsfs_disk_object)
    (strtab : bytes) (fs : xzsfs_core_fs) (Hv : validated sb objects strtab)
    (Hfs : fs_holds fs sb objects strtab) (d : Z) (dir : xzsfs_core_node)
    (Hd : 0 <= d < sb_object_count sb) (Edir : elem_at (fs_nodes fs) d = Some dir)
    (bufsize : Z) (Hbuf : 264 <= bufsize) (fuel : nat) (Hfuel : (34 <= fuel)%nat) :
  list_dir fuel fs dir bufsize 0 [] = Some (records (listing fs dir)).
Proof.
  pose proof (length_children_bound sb objects strtab fs Hv Hfs (cn_object_id dir)) as Hc.
  change 0 with (offset_of (listing fs dir) 0) at 1.
  assert (length (listing fs dir) <= 33)%nat as Hl
    by (cbn [listing length]; rewrite length_fmap; lia).
  apply (list_dir_from fs dir (listing fs dir) bufsize) with (d := length (listing fs dir));
    try (done || lia).
  - apply listing_wf.
  - by apply (listing_at sb objects strtab fs Hv Hfs d).
  - by apply (listing_fuel sb objects strtab fs Hv Hfs).
Qed.

Lemma readdir_complete_witness :
  list_dir 34 sample_fs sample_root 264 0 [] = Some (records (listing sample_fs sample_root)).
Proof.
  apply (readdir_complete _ _ _ _ sample_validated sample_fs_holds 0 sample_root);
    first [by vm_compute | lia].
Defined.

(** A buffer too small for the next entry is reported as end of directory: with
    fewer than 12 bytes a call at offset 0 returns no error, no entry, and the end flag,
    although the listing is never empty. *)
Theorem readdir_small_buffer_eof (fs : xzsfs_core_fs) (dir : xzsfs_core_node) (resid : Z)
    (out : bytes) (Hn : 0 <= fs_node_count fs) (Hr : 0 < resid < 12) :
  readdir_node fs dir (Uio 0 resid out None) = Some (RdRes 0 (Uio 0 resid out None) 1 0) /\
  listing fs dir <> [].
Proof.
  split; [| done]. unfold readdir_node, readdir_fuel.
  destruct (Z.to_nat (fs_node_count fs + 3)) as [|fuel] eqn:Ef; [lia |]. cbn [loop].
  unfold readdir_step. cbn [rd_uio rd_pos rd_idx uio_resid uio_offset].
  rewrite (proj2 (Z.ltb_lt 0 resid)) by lia. unfold dirent_at. cbn [Z.eqb].
  change (lit "." ++ [0]) with (dot ++ 0 :: []).
  rewrite format_dirent_spec; [| apply (bool_decide_unpack _); by vm_compute].
  cbn [mbind option_bind Z.leb Z.compare].
  rewrite (proj2 (Z.ltb_lt resid _)); [done |].
  change (d_reclen _) with 12. lia.
Qed.

Lemma readdir_small_buffer_eof_witness :
  readdir_node sample_fs sample_root (Uio 0 8 [] None) = Some (RdRes 0 (Uio 0 8 [] None) 1 0).
Proof.
  refine (proj1 (readdir_small_buffer_eof sample_fs sample_root 8 [] _ _)); by vm_compute.
Defined.
