(* ===== verification/XzsfsMount.v ===== *)
(** * XZSFS: vnode lifecycle, mount and unmount

    Against the laws of the vnode layer: the cache of vnodes in the node table
    ([linked]), what [xzsfs_get_vnode] returns, mounting a valid image, the unwinding of a
    failed mount, and what unmounting does. *)

From stdpp Require Import base list gmap strings.
From Stdlib Require Import ZArith Lia.
From S2P Require Import Prelude Crc32 XzsfsCore XzsfsSample XzsfsFormat XzsfsGraph XzsfsLookup Kernel XzsfsDriver.

(** Run the monad. *)
Ltac run := cbv [mbind M_bind mret M_ret gets lift vn_op vn_do set_vn set_xmp set_mp set_cnt
  get_xmp modify_cnt emit checkpoint vfs_setfsprivate vfs_fsprivate]; cbn [option_bind mbind
  w_vn w_xmp w_mp w_cnt w_trace].

Section lifecycle.
Context {V : Type} `{VL : VnodeLayer V} `{!VnodeLaws V}.

(** ** The mount structure between operations *)

(** The mount structure is allocated, its mutex free, its node table of full size, and
    private data of vnodes are indices into it. *)
Record idle (w : world V) (x : xzsfs_mount_t) : Prop := {
  id_xmp : w_xmp w = Some x;
  id_free : xm_locked x = false;
  id_nodes : zlen (xm_nodes x) = 32;
  id_range : forall v i, vv_fsnode (view (w_vn w) v) = Some i -> 0 <= i < 32;
}.

(** Cached vnodes point back at their node and have its type. *)
Definition linked (w : world V) (x : xzsfs_mount_t) : Prop :=
  forall i n v, elem_at (xm_nodes x) i = Some n -> xn_vnode n = Some v ->
    vv_fsnode (view (w_vn w) v) = Some i /\
    vv_type (view (w_vn w) v) = if cn_type (xn_core n) =? XZSFS_TYPE_DIR then VDIR else VREG.

Definition core_at (x : xzsfs_mount_t) (i : Z) : option xzsfs_core_node :=
  xn_core <$> elem_at (xm_nodes x) i.

(** The node table with one vnode pointer replaced. *)
Definition with_vnode (x : xzsfs_mount_t) (i : Z) (vo : option vnode) : xzsfs_mount_t :=
  match elem_at (xm_nodes x) i with
  | Some n => set_nodes x (<[Z.to_nat i := XNode (xn_core n) vo]> (xm_nodes x))
  | None => x
  end.

Lemma elem_at_insert {A} (l : list A) i j a : 0 <= i < zlen l -> 0 <= j ->
  elem_at (<[Z.to_nat i := a]> l) j = if decide (i = j) then Some a else elem_at l j.
Proof.
  intros Hi Hj. unfold elem_at. rewrite (proj2 (Z.leb_le 0 j)) by lia. destruct (decide (i = j)) as [-> |].
  - apply list_lookup_insert_eq. unfold zlen in Hi. lia.
  - apply list_lookup_insert_ne. lia.
Qed.

Lemma set_node_vnode_run i vo (w : world V) x n :
  w_xmp w = Some x -> elem_at (xm_nodes x) i = Some n ->
  set_node_vnode i vo w =
  Some (tt, World (w_vn w) (Some (with_vnode x i vo)) (w_mp w) (w_cnt w) (w_trace w)).
Proof. intros Hx En. unfold set_node_vnode, with_vnode. run. rewrite Hx. cbn. by rewrite En. Qed.

Lemma get_node_run i (w : world V) x n :
  w_xmp w = Some x -> elem_at (xm_nodes x) i = Some n -> get_node i w = Some (n, w).
Proof. intros Hx En. unfold get_node. run. rewrite Hx. cbn. by rewrite En. Qed.

Lemma lock_run (w : world V) x : w_xmp w = Some x -> xm_locked x = false ->
  lck_mtx_lock w = Some (tt, World (w_vn w) (Some (set_locked x true)) (w_mp w) (w_cnt w) (w_trace w)).
Proof. intros Hx Hl. unfold lck_mtx_lock. run. rewrite Hx. cbn. by rewrite Hl. Qed.

Lemma unlock_run (w : world V) x : w_xmp w = Some x -> xm_locked x = true ->
  lck_mtx_unlock w = Some (tt, World (w_vn w) (Some (set_locked x false)) (w_mp w) (w_cnt w) (w_trace w)).
Proof. intros Hx Hl. unfold lck_mtx_unlock. run. rewrite Hx. cbn. by rewrite Hl. Qed.

Lemma nodes_with_vnode x i vo : zlen (xm_nodes (with_vnode x i vo)) = zlen (xm_nodes x).
Proof. unfold with_vnode. destruct (elem_at _ _); [cbn; apply zlen_insert | done]. Qed.

Lemma fs_with_vnode x i vo : xm_fs (with_vnode x i vo) = xm_fs x.
Proof. unfold with_vnode. by destruct (elem_at _ _). Qed.

Lemma lookup_with_vnode x i vo j n : elem_at (xm_nodes x) i = Some n -> 0 <= j ->
  elem_at (xm_nodes (with_vnode x i vo)) j =
  if decide (i = j) then Some (XNode (xn_core n) vo) else elem_at (xm_nodes x) j.
Proof.
  intros En Hj. unfold with_vnode. rewrite En. cbn. apply elem_at_insert; [| done].
  by apply elem_at_lt in En.
Qed.

(** ** Reclaim *)

(** The world after reclaiming the vnode of node [i]. *)
Lemma node_reclaim_run i vp w x n :
  w_xmp w = Some x -> xm_locked x = false -> elem_at (xm_nodes x) i = Some n ->
  exists c, xzsfs_node_reclaim i vp w =
    Some (0, World (vnode_clearfsnode vp (w_vn w)) (Some (with_vnode x i None)) (w_mp w) c
               (w_trace w)).
Proof.
  intros Hx Hl En. unfold xzsfs_node_reclaim. cbv [mbind M_bind].
  rewrite (lock_run w x Hx Hl). set (w1 := World _ _ _ _ _).
  rewrite (get_node_run i w1 (set_locked x true) n) by done.
  set (c := if cn_object_id (xn_core n) =? 1 then bump_root_reclaim (w_cnt w) else w_cnt w).
  exists c.
  assert ((if cn_object_id (xn_core n) =? 1 then modify_cnt bump_root_reclaim else mret tt) w1 =
    Some (tt, World (w_vn w) (Some (set_locked x true)) (w_mp w) c (w_trace w))) as ->
    by (subst c; by destruct (_ =? _)).
  rewrite (set_node_vnode_run i None _ (set_locked x true) n) by done. run.
  rewrite (unlock_run _ (with_vnode (set_locked x true) i None)); [| done |].
  - unfold with_vnode. cbn. rewrite En. unfold set_nodes, set_locked. cbn. by rewrite Hl.
  - unfold with_vnode. cbn. by rewrite En.
Qed.

(** Reclaiming never touches reference counts, and leaves the structure idle. *)
Definition same_counts (s s' : V) : Prop := forall v,
  vv_usecount (view s' v) = vv_usecount (view s v) /\
  vv_iocount (view s' v) = vv_iocount (view s v).

Lemma reclaim_run vp w x : idle w x ->
  exists w' x', xzsfs_reclaim vp w = Some (0, w') /\ idle w' x' /\
    same_counts (w_vn w) (w_vn w') /\ w_mp w' = w_mp w /\ xm_devvp x' = xm_devvp x /\
    (forall v, v <> vp -> vv_fsnode (view (w_vn w') v) = vv_fsnode (view (w_vn w) v)) /\
    (forall i, vv_fsnode (view (w_vn w) vp) = Some i ->
       exists n, elem_at (xm_nodes x') i = Some n /\ xn_vnode n = None) /\
    (forall i n n', elem_at (xm_nodes x) i = Some n -> elem_at (xm_nodes x') i = Some n' ->
       xn_vnode n' = xn_vnode n \/ xn_vnode n' = None).
Proof.
  intros [Hx Hl Hn Hr]. unfold xzsfs_reclaim. run.
  destruct (vv_fsnode (view (w_vn w) vp)) as [i |] eqn:Ei.
  - pose proof (Hr _ _ Ei) as Hi.
    destruct (elem_at_in_range (xm_nodes x) i ltac:(lia)) as [n En].
    destruct (node_reclaim_run i vp w x n Hx Hl En) as [c Ec].
    exists (World (vnode_clearfsnode vp (w_vn w)) (Some (with_vnode x i None)) (w_mp w) c (w_trace w)),
      (with_vnode x i None). split; [done |].
    assert (forall v, view (vnode_clearfsnode vp (w_vn w)) v =
      upd (view (w_vn w)) vp (set_fsnode (view (w_vn w) vp) None) v) as Hview
      by (intros; apply clear_view).
    split_and!; cbn [w_vn w_mp].
    + constructor; cbn; [done | by unfold with_vnode; rewrite En; cbn | by rewrite nodes_with_vnode |].
      intros v j. rewrite Hview. unfold upd. case_decide; [done | apply Hr].
    + intros v. rewrite Hview. unfold upd. by case_decide; [subst |].
    + done.
    + unfold with_vnode. by rewrite En.
    + intros v Hv. rewrite Hview. by rewrite upd_other.
    + intros j [= <-]. rewrite (lookup_with_vnode x i None i n En) by lia.
      rewrite decide_True by done. eauto.
    + intros j m m' Em. assert (0 <= j) by (by apply elem_at_Some in Em as [? _]).
      rewrite (lookup_with_vnode x i None j n En) by lia.
      case_decide; [subst j; intros [= <-]; auto | naive_solver].
  - exists w, x. split_and!; try done; naive_solver.
Qed.

Lemma dead_idle vp w x : idle w x ->
  idle (World (vnode_dead vp (w_vn w)) (w_xmp w) (w_mp w) (w_cnt w) (w_trace w)) x.
Proof. intros []. constructor; cbn; try done. intros v i. rewrite dead_view. apply id_range0. Qed.

Lemma reclaim_all_run vs : forall w x, idle w x ->
  exists w' x', reclaim_all vs w = Some (tt, w') /\ idle w' x' /\
    same_counts (w_vn w) (w_vn w') /\ w_mp w' = w_mp w /\ xm_devvp x' = xm_devvp x /\
    (forall i n n', elem_at (xm_nodes x) i = Some n -> elem_at (xm_nodes x') i = Some n' ->
       xn_vnode n = None \/
       (exists v, v ∈ vs /\ vv_fsnode (view (w_vn w) v) = Some i) -> xn_vnode n' = None).
Proof.
  induction vs as [|v vs IH]; intros w x Hw; cbn [reclaim_all].
  - exists w, x. split_and!; try done. intros i n n' E1 E2 [Hn | (v & Hv & _)]; [congruence | set_solver].
  - cbv [mbind M_bind].
    destruct (reclaim_run v w x Hw) as (w1 & x1 & -> & Hw1 & Hc1 & Hm1 & Hd1 & Hf1 & Hp1 & Hk1).
    run. apply (dead_idle v) in Hw1 as Hw2.
    destruct (IH _ x1 Hw2) as (w' & x' & -> & Hw' & Hc' & Hm' & Hd' & Hp').
    cbn [w_vn w_mp] in *. exists w', x'. split_and!; try done; [| congruence | congruence |].
    + intros u. destruct (Hc' u) as [-> ->]. cbn. rewrite !dead_view. apply Hc1.
    + intros i n n' E1 E2 Hor.
      assert (exists n1, elem_at (xm_nodes x1) i = Some n1) as [n1 En1].
      { apply elem_at_in_range. apply elem_at_lt in E1.
        rewrite (id_nodes _ _ Hw1). by rewrite <- (id_nodes _ _ Hw). }
      apply (Hp' i n1 n' En1 E2). destruct Hor as [Hnone | (u & Hu & Ei)].
      * destruct (Hk1 i n n1 E1 En1); left; congruence.
      * destruct (decide (u = v)) as [-> | Hne].
        { destruct (Hp1 i Ei) as (n2 & En2 & ?). left. congruence. }
        right. exists u. split; [set_solver |]. cbn. by rewrite dead_view, Hf1.
Qed.

(** ** Getting a vnode *)

(** Making room for a new vnode does not have to reclaim one of this file system. *)
Definition roomy (s : V) : Prop :=
  Forall (fun v => vv_fsnode (view s v) = None) (recycle_victims s).

Lemma reclaim_foreign vs : forall w : world V,
  Forall (fun v => vv_fsnode (view (w_vn w) v) = None) vs ->
  exists s, reclaim_all vs w = Some (tt, World s (w_xmp w) (w_mp w) (w_cnt w) (w_trace w)) /\
    forall v, view s v = view (w_vn w) v.
Proof.
  induction vs as [|v vs IH]; intros w Hvs; cbn [reclaim_all].
  - exists (w_vn w). by destruct w.
  - apply Forall_cons in Hvs as [Hv Hvs]. unfold xzsfs_reclaim. run. rewrite Hv.
    destruct (IH (World (vnode_dead v (w_vn w)) (w_xmp w) (w_mp w) (w_cnt w) (w_trace w)))
      as (s & Hs & Hview).
    + eapply Forall_impl; [done |]. intros u Hu. cbn. by rewrite dead_view.
    + exists s. split; [exact Hs |]. intros u. rewrite Hview. cbn. apply dead_view.
Qed.

Lemma vnode_create_run p w : roomy (w_vn w) ->
  exists s1, (forall v, view s1 v = view (w_vn w) v) /\
    vnode_create p w = Some (let '(e, vo, s2) := vnode_alloc p s1 in
      ((e, vo), World s2 (w_xmp w) (w_mp w) (w_cnt w) (w_trace w))).
Proof.
  intros Hroom. destruct (reclaim_foreign _ w Hroom) as (s1 & Hr & Hv). exists s1. split; [done |].
  unfold vnode_create. run. rewrite Hr. cbn [w_vn]. by destruct (vnode_alloc p s1) as [[e vo] s2].
Qed.

(** An error code that making a vnode can return. *)
Definition alloc_failed (e : Z) : Prop := exists p s, (vnode_alloc p s).1.1 = e.

(** What [xzsfs_get_vnode] did to the vnodes, by outcome. *)
Inductive got (s : V) (x : xzsfs_mount_t) (i : Z) (n : xzsfs_node) :
    Z -> option vnode -> V -> xzsfs_mount_t -> Prop :=
  | got_cached v s' :
      xn_vnode n = Some v ->
      (forall w, view s' w = upd (view s) v (set_io (view s v) (vv_iocount (view s v) + 1)) w) ->
      got s x i n 0 (Some v) s' x
  | got_new v s' :
      vv_fsnode (view s v) = None -> vv_usecount (view s v) = 0 -> v ∈ on_mount s' -> (vnode_ref v s').1 = 0 ->
      (forall w, view s' w =
         upd (view s) v (VView (vnfs_vtype (vnode_params i n)) (Some i) 0 1) w) ->
      got s x i n 0 (Some v) s' (with_vnode x i (Some v))
  | got_error e s' :
      e <> 0 -> alloc_failed e -> (forall w, view s' w = view s w) ->
      got s x i n e None s' (with_vnode x i None).

Lemma with_vnode_same x i n : elem_at (xm_nodes x) i = Some n ->
  with_vnode x i (xn_vnode n) = x.
Proof.
  intros E. unfold with_vnode. rewrite E. destruct x, n. unfold set_nodes. cbn in *. f_equal.
  apply elem_at_Some in E as [_ E]. by apply list_insert_id.
Qed.

Lemma with_vnode_twice x i n vo vo' : elem_at (xm_nodes x) i = Some n ->
  with_vnode (with_vnode x i vo) i vo' = with_vnode x i vo'.
Proof.
  intros E. pose proof (proj1 (elem_at_Some _ _ _) E) as [Hi _]. unfold with_vnode at 1.
  rewrite (lookup_with_vnode x i vo i n E Hi), decide_True by done. unfold with_vnode. rewrite E.
  unfold set_nodes. cbn. by rewrite list_insert_insert_eq.
Qed.

Lemma with_vnode_locked x i vo b :
  set_locked (with_vnode x i vo) b = with_vnode (set_locked x b) i vo.
Proof. unfold with_vnode. cbn. by destruct (elem_at _ _). Qed.

(** The part after the cached vnode turned out to be missing, with the mutex held. *)
Lemma create_part i w x n :
  w_xmp w = Some (set_locked x true) -> xm_locked x = false ->
  elem_at (xm_nodes x) i = Some n -> xn_vnode n = None -> roomy (w_vn w) ->
  exists e vo w' x', 
    ('(error, vo) ← vnode_create (vnode_params i n);
      if error =? 0 then
        set_node_vnode i vo;;
        (if cn_object_id (xn_core n) =? 1 then modify_cnt bump_root_create else mret tt);;
        lck_mtx_unlock;;
        mret (error, vo)
      else lck_mtx_unlock;; mret (error, None)) w = Some ((e, vo), w') /\
    w_xmp w' = Some x' /\ w_mp w' = w_mp w /\ w_trace w' = w_trace w /\
    got (w_vn w) x i n e vo (w_vn w') x'.
Proof.
  intros Hx Hl En Hnone Hroom. cbv [mbind M_bind].
  destruct (vnode_create_run (vnode_params i n) w Hroom) as (s1 & Hv1 & ->).
  destruct (vnode_alloc (vnode_params i n) s1) as [[e vo] s2] eqn:Ea. cbn iota beta.
  destruct (Z.eqb_spec e 0) as [-> | He].
  - destruct vo as [v |]; [| by destruct (alloc_some (vnode_params i n) s1 s2)].
    rewrite (set_node_vnode_run i (Some v) _ (set_locked x true) n) by done.
    set (c := if cn_object_id (xn_core n) =? 1 then bump_root_create (w_cnt w) else w_cnt w).
    assert (forall k : unit -> M V (Z * option vnode), M_bind V _ _ k
      (if cn_object_id (xn_core n) =? 1 then modify_cnt bump_root_create else mret tt)
      (World s2 (Some (with_vnode (set_locked x true) i (Some v))) (w_mp w) (w_cnt w) (w_trace w)) =
      k tt (World s2 (Some (with_vnode (set_locked x true) i (Some v))) (w_mp w) c (w_trace w))) as Hk.
    { intros k. subst c. by destruct (_ =? _). }
    cbv [M_bind] in Hk. cbn [w_vn w_xmp w_mp w_cnt w_trace]. rewrite Hk.
    rewrite (unlock_run _ (with_vnode (set_locked x true) i (Some v)));
      [| done | unfold with_vnode; cbn; by rewrite En].
    eexists _, _, _, _. split; [reflexivity |]. cbn. split_and!; [reflexivity | done | done |].
    rewrite with_vnode_locked. replace (set_locked (set_locked x true) false) with x
      by (destruct x; cbn in *; by subst).
    destruct (alloc_ok _ _ _ _ Ea) as [[Hfree Hun] Hview]. constructor.
    + by rewrite <- Hv1.
    + by rewrite <- Hv1.
    + by eapply mount_alloc.
    + by eapply alloc_ref.
    + intros u. rewrite Hview. unfold upd. case_decide; [done | apply Hv1].
  - rewrite (unlock_run _ (set_locked x true)) by done.
    eexists _, _, _, _. split; [reflexivity |]. cbn. split_and!; [reflexivity | done | done |].
    replace (set_locked (set_locked x true) false) with (with_vnode x i None).
    2:{ rewrite <- Hnone, with_vnode_same by done. destruct x; cbn in *; by subst. }
    apply got_error; [done | exists (vnode_params i n), s1; by rewrite Ea |]. intros u. rewrite (alloc_err _ _ _ _ _ Ea He). apply Hv1.
Qed.

Lemma get_vnode_run i w x n :
  idle w x -> elem_at (xm_nodes x) i = Some n -> roomy (w_vn w) ->
  (forall v, xn_vnode n = Some v -> roomy (vnode_get v (w_vn w)).2) ->
  exists e vo w' x', xzsfs_get_vnode i w = Some ((e, vo), w') /\
    w_xmp w' = Some x' /\ w_mp w' = w_mp w /\ w_trace w' = w_trace w /\
    got (w_vn w) x i n e vo (w_vn w') x'.
Proof.
  intros [Hx Hl Hn Hr] En Hroom Hroom'. unfold xzsfs_get_vnode.
  assert (forall k : unit -> M V (Z * option vnode), M_bind V _ _ k (modify_cnt bump_get) w =
    k tt (World (w_vn w) (w_xmp w) (w_mp w) (bump_get (w_cnt w)) (w_trace w))) as Hk by done.
  unfold mbind. rewrite Hk. clear Hk. cbv [M_bind]. set (w0 := World _ _ _ _ _).
  rewrite (lock_run w0 x) by done. set (w1 := World _ _ _ _ _).
  rewrite (get_node_run i w1 (set_locked x true) n) by done.
  destruct (xn_vnode n) as [v |] eqn:Ev.
  - unfold vn_op. cbv [mbind M_bind gets set_vn mret M_ret]. cbn [w1 w0 w_vn w_xmp w_mp w_cnt w_trace].
    destruct (vnode_get v (w_vn w)) as [e s1] eqn:Eg. cbn iota beta.
    cbn [w_vn w_xmp w_mp w_cnt w_trace].
    destruct (Z.eqb_spec e 0) as [-> | He].
    + rewrite (unlock_run _ (set_locked x true)) by done.
      eexists _, _, _, _. split; [reflexivity |]. cbn. split_and!; [reflexivity | done | done |].
      replace (set_locked (set_locked x true) false) with x by (destruct x; cbn in *; by subst).
      apply got_cached; [done |]. by apply get_ok.
    + rewrite (set_node_vnode_run i None _ (set_locked x true) n) by done.
      set (x1 := with_vnode x i None). set (n1 := XNode (xn_core n) None).
      assert (elem_at (xm_nodes x1) i = Some n1) as En1.
      { pose proof (proj1 (elem_at_Some _ _ _) En) as [Hi _].
        unfold x1. by rewrite (lookup_with_vnode x i None i n En Hi), decide_True. }
      destruct (create_part i (World s1 (Some (with_vnode (set_locked x true) i None)) (w_mp w)
        (bump_create (bump_get (w_cnt w))) (w_trace w)) x1 n1)
        as (e' & vo & w' & x' & Hrun & Hx' & Hm' & Ht' & Hgot).
      * cbn. unfold x1. by rewrite with_vnode_locked.
      * unfold x1, with_vnode. by rewrite En.
      * done.
      * done.
      * specialize (Hroom' v eq_refl). by rewrite Eg in Hroom'.
      * exists e', vo, w', x'. split; [exact Hrun |]. split_and!; try done. cbn in Hgot.
        assert (forall u, view s1 u = view (w_vn w) u) as Hs1 by (by eapply get_err).
        inversion Hgot as [? ? Hc | ? ? Hf Hun Hon Href Hv | ? ? He' Hal Hv]; subst; [done | |].
        -- unfold x1. rewrite (with_vnode_twice x i n) by done.
           apply got_new; [by rewrite <- Hs1 | by rewrite <- Hs1 | done | done |]. intros u. rewrite Hv. unfold upd.
           case_decide; [done | apply Hs1].
        -- unfold x1. rewrite (with_vnode_twice x i n) by done.
           apply got_error; [done | done |]. intros u. by rewrite Hv, Hs1.
  - destruct (create_part i (World (w_vn w) (Some (set_locked x true)) (w_mp w)
      (bump_create (bump_get (w_cnt w))) (w_trace w)) x n)
      as (e' & vo & w' & x' & Hrun & Hx' & Hm' & Ht' & Hgot); [done.. |].
    exists e', vo, w', x'. split; [exact Hrun |]. by split_and!.
Qed.

(** The invariant survives, and a returned vnode belongs to the node. *)
Lemma got_linked w x i n e vo w' x' :
  idle w x -> linked w x -> elem_at (xm_nodes x) i = Some n ->
  w_xmp w' = Some x' -> got (w_vn w) x i n e vo (w_vn w') x' ->
  idle w' x' /\ linked w' x' /\
  (e = 0 -> exists v, vo = Some v /\ elem_at (xm_nodes x') i = Some (XNode (xn_core n) (Some v)) /\
     vv_fsnode (view (w_vn w') v) = Some i).
Proof.
  intros [Hx Hl Hn Hr] Hlink En Hx' Hgot.
  pose proof (elem_at_lt _ _ _ En) as Hi.
  remember (w_vn w') as sv eqn:Esv.
  destruct Hgot as [v s' Ev Hv | v s' Hfree Hun Hon Href Hv | e s' He _ Hv]; rewrite Esv in Hv |- *.
  - destruct (Hlink i n v En Ev) as [Hf Hty].
    assert (forall u, vv_fsnode (view (w_vn w') u) = vv_fsnode (view (w_vn w) u) /\
      vv_type (view (w_vn w') u) = vv_type (view (w_vn w) u)) as Hsame.
    { intros u. rewrite Hv. unfold upd. by case_decide; [subst |]. }
    split_and!.
    + constructor; try done. intros u j. rewrite (proj1 (Hsame u)). apply Hr.
    + intros j m u Em Eu. destruct (Hsame u) as [-> ->]. by apply Hlink.
    + intros _. exists v. split_and!; [done | rewrite <- Ev; by destruct n | by rewrite (proj1 (Hsame v))].
  - assert (forall j m, elem_at (xm_nodes (with_vnode x i (Some v))) j = Some m -> 0 <= j) as Hj
      by (intros j m [? _]%elem_at_Some; done).
    split_and!.
    + constructor; try done; [by unfold with_vnode; rewrite En | by rewrite nodes_with_vnode |].
      intros u j. rewrite Hv. unfold upd. case_decide; [naive_solver lia | apply Hr].
    + intros j m u Em Eu. rewrite (lookup_with_vnode x i _ j n En (Hj _ _ Em)) in Em.
      case_decide as Hij.
      * subst j. injection Em as <-. cbn in Eu. injection Eu as ->. rewrite Hv, upd_same. done.
      * destruct (Hlink j m u Em Eu) as [Hf Hty].
        rewrite Hv, upd_other; [done |]. intros ->. congruence.
    + intros _. exists v. split_and!; [done | | by rewrite Hv, upd_same].
      rewrite (lookup_with_vnode x i _ i n En) by lia. by rewrite decide_True.
  - split_and!; [| | done].
    + constructor; try done; [by unfold with_vnode; rewrite En | by rewrite nodes_with_vnode |].
      intros u j. rewrite Hv. apply Hr.
    + intros j m u Em Eu. assert (0 <= j) by (by apply elem_at_Some in Em as [? _]).
      rewrite (lookup_with_vnode x i _ j n En) in Em by done. case_decide.
      * injection Em as <-. done.
      * rewrite Hv. by apply Hlink.
Qed.

(** Recycling a vnode of the same mount needs the mutex that is already held. *)
Lemma get_vnode_deadlock i w x n u us j m :
  idle w x -> elem_at (xm_nodes x) i = Some n -> xn_vnode n = None ->
  recycle_victims (w_vn w) = u :: us -> vv_fsnode (view (w_vn w) u) = Some j ->
  elem_at (xm_nodes x) j = Some m -> xzsfs_get_vnode i w = None.
Proof.
  intros [Hx Hl Hn Hr] En Ev Erec Eu Em. unfold xzsfs_get_vnode. cbv [mbind M_bind].
  assert (modify_cnt bump_get w =
    Some (tt, World (w_vn w) (w_xmp w) (w_mp w) (bump_get (w_cnt w)) (w_trace w))) as -> by done.
  set (w0 := World _ _ _ _ _). rewrite (lock_run w0 x) by done. set (w1 := World _ _ _ _ _).
  rewrite (get_node_run i w1 (set_locked x true) n) by done. rewrite Ev.
  unfold vnode_create. run. cbn [w1 w0 w_vn]. rewrite Erec. cbn [reclaim_all].
  unfold xzsfs_reclaim. run. rewrite Eu. unfold xzsfs_node_reclaim, lck_mtx_lock. run. done.
Qed.

(** ** Mounting *)

Lemma decode_objects_length n b : length (decode_objects n b) = n.
Proof. revert b. induction n; intros b; cbn; auto. Qed.

Lemma decode_objects_wf n : forall b, (64 * n <= length b)%nat -> Forall is_u8 b ->
  Forall obj_wf (decode_objects n b).
Proof.
  induction n as [|n IH]; intros b Hl Hb; cbn [decode_objects]; constructor.
  - apply decode_object_wf; [rewrite length_take; lia | by apply Forall_take].
  - apply IH; [rewrite length_drop; lia | by apply Forall_drop].
Qed.

(** An image the driver accepts: a valid superblock with adjacent tables inside it, and
    metadata (as loaded over the two stack arrays) that pass both checks. *)
Record mountable (image : bytes) (sb : xzsfs_disk_superblock) (objects strtab : bytes) : Prop := {
  mo_len : 512 <= zlen image;
  mo_sb : decode_superblock (region image 0 512) = sb;
  mo_check : xzsfs_core_validate_superblock sb = XZSFS_ERR_OK;
  mo_adj : tables_adjacent sb;
  mo_in : sb_string_table_offset sb + sb_string_table_size sb <= zlen image;
  mo_arrays : zlen objects = 2048 /\ zlen strtab = 2048;
  mo_bytes : Forall is_u8 objects /\ Forall is_u8 strtab;
  mo_meta : xzsfs_core_validate_metadata sb
    (region image 512 (sb_object_table_size sb) ++ drop (Z.to_nat (sb_object_table_size sb)) objects)
    (region image (sb_string_table_offset sb) (sb_string_table_size sb)
       ++ drop (Z.to_nat (sb_string_table_size sb)) strtab) = Some XZSFS_ERR_OK;
}.

Lemma init_fs_table_size fs0 sb objects strtab e fs :
  xzsfs_core_init_fs fs0 sb objects strtab = Some (e, fs) ->
  0 <= sb_object_count sb <= zlen (fs_nodes fs0) -> sb_object_count sb <= zlen objects ->
  zlen (fs_nodes fs) = zlen (fs_nodes fs0).
Proof.
  unfold xzsfs_core_init_fs. intros E Hn Ho.
  destruct (copy_into _ _ _ _) as [st' |]; [| done]. cbn [mbind option_bind] in E.
  rewrite init_nodes_loop in E by lia. cbn [mbind option_bind] in E. injection E as _ <-.
  cbn [fs_nodes]. rewrite zlen_app, zlen_fmap, zlen_take, zlen_drop by lia. lia.
Qed.

Lemma fs_node_is_any sb objects strtab fs i : validated sb objects strtab ->
  fs_holds fs sb objects strtab -> 0 <= i < sb_object_count sb ->
  exists c, elem_at (fs_nodes fs) i = Some c.
Proof.
  intros Hv Hfs Hi. pose proof (va_objects _ _ _ Hv).
  pose proof (checked_sizes sb (va_wf _ _ _ Hv) (validated_checked _ _ _ Hv)) as (? & _ & _ & _).
  destruct (elem_at_in_range objects i ltac:(lia)) as [o Eo].
  exists (node_of_object o). by apply (fh_nodes _ _ _ _ Hfs).
Qed.

Section mounting.
Context (read_fn : xzsfs_block_read_fn) (image : bytes) `{!BlockDevice read_fn image}.
Context (Hsmall : zlen image < 2 ^ 41).
Context (sb : xzsfs_disk_superblock) (so ss : bytes) (Hmo : mountable image sb so ss).

Let ob : bytes :=
  region image 512 (sb_object_table_size sb) ++ drop (Z.to_nat (sb_object_table_size sb)) so.
Let st : bytes :=
  region image (sb_string_table_offset sb) (sb_string_table_size sb)
    ++ drop (Z.to_nat (sb_string_table_size sb)) ss.

Lemma mountable_sb_wf : sb_wf sb.
Proof.
  rewrite <- (mo_sb _ _ _ _ Hmo). apply decode_superblock_wf.
  - assert (zlen (region image 0 512) = 512) as H
      by (apply zlen_region; [lia | lia | apply (mo_len _ _ _ _ Hmo)]). unfold zlen in H. lia.
  - apply region_Forall, bd_bytes.
Qed.

Lemma mountable_arrays : zlen ob = 2048 /\ zlen st = 2048 /\ Forall is_u8 ob /\ Forall is_u8 st.
Proof.
  pose proof mountable_sb_wf as Hwf.
  pose proof (proj1 (validate_superblock_checked sb) (mo_check _ _ _ _ Hmo)) as Hck.
  pose proof (checked_sizes sb Hwf Hck) as (? & ? & ? & ?). destruct Hmo.
  destruct mo_arrays0, mo_bytes0.
  subst ob st. rewrite !zlen_app, !zlen_region, !zlen_drop by lia.
  split_and!; try lia; apply Forall_app; split;
    first [apply region_Forall, bd_bytes | by apply Forall_drop].
Qed.

Lemma mountable_validated : validated sb (decode_objects 32 ob) st.
Proof.
  destruct mountable_arrays as (Ho & Hs & Hbo & Hbs). constructor.
  - apply mountable_sb_wf.
  - apply Hmo.
  - unfold zlen. by rewrite decode_objects_length.
  - apply decode_objects_wf; [unfold zlen in Ho; lia | done].
  - done.
  - pose proof (mo_meta _ _ _ _ Hmo) as Hm. fold ob st in Hm.
    unfold xzsfs_core_validate_metadata in Hm.
    destruct (xzsfs_core_validate_metadata_crc sb ob st) as [e |]; [| done]. cbn in Hm.
    destruct (negb (e =? 0)) eqn:He; [bool_to_prop; naive_solver |]. by rewrite Ho in Hm.
Qed.

Lemma loaded_prefix (r l : bytes) n : zlen r = n -> region (r ++ l) 0 n = r.
Proof. intros <-. unfold region. rewrite drop_0. apply take_app_length'. unfold zlen. lia. Qed.

Lemma mount_metadata_run (w : world V) x : w_xmp w = Some x ->
  exists tr, mount_metadata read_fn so ss w =
    Some (COk (ob, st), World (w_vn w) (Some (set_fs x (set_fs_sb (xm_fs x) sb))) (w_mp w)
                          (w_cnt w) tr).
Proof.
  intros Hx. pose proof mountable_sb_wf as Hwf.
  pose proof (proj1 (validate_superblock_checked sb) (mo_check _ _ _ _ Hmo)) as Hck.
  pose proof (checked_sizes sb Hwf Hck) as (_ & _ & _ & ?).
  unfold mount_metadata. run. rewrite Hx. cbn [mbind option_bind].
  rewrite (read_superblock_device read_fn image _ (mo_len _ _ _ _ Hmo)).
  rewrite (mo_sb _ _ _ _ Hmo). cbn [Z.eqb negb]. rewrite (mo_check _ _ _ _ Hmo).
  change (negb (XZSFS_ERR_OK =? 0)) with false. cbn iota.
  destruct (mo_arrays _ _ _ _ Hmo).
  assert (xzsfs_core_load_metadata read_fn sb so XZSFS_MAX_OBJECTS ss XZSFS_MAX_STRTAB_SIZE =
    Some (0, ob, st)) as ->.
  { unfold xzsfs_core_load_metadata. pose proof (mo_in _ _ _ _ Hmo).
    rewrite (load_objects_device read_fn image sb) by (done || lia || apply Hmo).
    cbn [mbind option_bind].
    by rewrite (load_strtab_device read_fn image sb) by (done || lia). }
  cbn [mbind option_bind Z.eqb negb]. pose proof (mo_meta _ _ _ _ Hmo) as Hm. fold ob st in Hm.
  rewrite Hm. cbn. eexists. reflexivity.
Qed.

Lemma mount_tables_run (w : world V) x :
  w_xmp w = Some x -> fs_sb (xm_fs x) = sb -> zlen (fs_nodes (xm_fs x)) = 32 ->
  zlen (fs_strtab (xm_fs x)) = 2048 -> zlen (xm_nodes x) = 32 ->
  exists tr fs ns, mount_tables ob st w =
    Some (0, World (w_vn w) (Some (XMount (xm_devvp x) fs ns (xm_locked x))) (w_mp w) (w_cnt w) tr) /\
    fs_holds fs sb (decode_objects 32 ob) st /\ zlen ns = 32 /\
    (forall i c, 0 <= i < sb_object_count sb -> elem_at (fs_nodes fs) i = Some c ->
       elem_at ns i = Some (XNode c None)) /\
    (forall i, sb_object_count sb <= i -> elem_at ns i = elem_at (xm_nodes x) i).
Proof.
  intros Hx Hsb Hn Hst Hxn. pose proof mountable_validated as Hv.
  pose proof (checked_sizes sb (va_wf _ _ _ Hv) (validated_checked _ _ _ Hv)) as (Hc & _ & _ & _).
  destruct (validated_init_fs sb _ _ (xm_fs x) Hv Hn Hst) as (fs & Ei & Hfs).
  unfold mount_tables. run. rewrite Hx. cbn [mbind option_bind]. rewrite Hsb, Ei.
  cbn [mbind option_bind]. change (negb (XZSFS_ERR_OK =? 0)) with false. cbn iota.
  rewrite (fh_count _ _ _ _ Hfs).
  assert (zlen (fs_nodes fs) = 32) as Hfn.
  { rewrite <- Hn. by apply (init_fs_table_size _ _ _ _ _ _ Ei); [| rewrite (va_objects _ _ _ Hv)];
      lia. }
  assert (for_loop (R := unit) (Z.to_nat (sb_object_count sb)) 0 (mount_node fs) (xm_nodes x) =
    Some (Next (((fun c => XNode c None) <$> take (Z.to_nat (sb_object_count sb)) (fs_nodes fs))
                  ++ drop (Z.to_nat (sb_object_count sb)) (xm_nodes x)))) as ->.
  { apply (fill_loop (fun c => XNode c None)); lia. }
  cbn [mbind option_bind]. eexists _, fs, _. split; [reflexivity |].
  split_and!; [done | | |].
  - rewrite zlen_app, zlen_fmap, zlen_take, zlen_drop by lia. lia.
  - intros i c Hi Ec. rewrite elem_at_app_l by (rewrite zlen_fmap, zlen_take; lia).
    apply elem_at_Some in Ec as [_ Ec]. apply elem_at_Some. split; [lia |].
    rewrite list_lookup_fmap, lookup_take_lt by lia. by rewrite Ec.
  - intros i Hi. rewrite elem_at_app_r by (rewrite zlen_fmap, zlen_take; lia).
    rewrite zlen_fmap, zlen_take by lia. unfold elem_at.
    rewrite !(proj2 (Z.leb_le 0 _)) by lia. rewrite lookup_drop. f_equal. lia.
Qed.
End mounting.

(** *** Unwinding *)

Definition same_views (s s' : V) : Prop := forall v, view s' v = view s v.

Lemma rele_after_ref devvp s s1 s2 : vnode_ref devvp s = (0, s1) -> same_views s1 s2 ->
  same_views s (vnode_rele devvp s2).
Proof.
  intros Href Hs v. rewrite rele_view. unfold upd. rewrite !Hs.
  pose proof (ref_ok _ _ _ Href) as Hv. case_decide as Hd; [subst v |];
    rewrite Hv; [rewrite upd_same | by rewrite upd_other].
  destruct (view s devvp). unfold set_use. cbn. f_equal. lia.
Qed.

Lemma mount_fail_run devvp held e (w : world V) x : w_xmp w = Some x -> zlen (xm_nodes x) = 32 ->
  mount_fail devvp held None false e w =
  Some (e, World (if held then vnode_rele devvp (w_vn w) else w_vn w) None
             (Mount false (mnt_flag (w_mp w)) (mnt_fsid_set (w_mp w)) (mnt_fromname (w_mp w)))
             (w_cnt w) (w_trace w)).
Proof.
  intros Hx Hn. destruct (elem_at_in_range (xm_nodes x) 0 ltac:(lia)) as [n En].
  unfold mount_fail. cbv [mbind M_bind mret M_ret]. rewrite (get_node_run 0 w x n Hx En).
  cbn iota beta. destruct (xn_vnode n), held; by run.
Qed.

(** The stages before the root vnode only touch the mount structure and the trace. *)
Definition stage_ok (w : world V) (x : xzsfs_mount_t) (w' : world V) : Prop :=
  w_vn w' = w_vn w /\ w_mp w' = w_mp w /\
  exists x', w_xmp w' = Some x' /\ xm_locked x' = xm_locked x /\
    zlen (xm_nodes x') = zlen (xm_nodes x) /\
    ((forall i n, elem_at (xm_nodes x) i = Some n -> xn_vnode n = None) ->
     forall i n, elem_at (xm_nodes x') i = Some n -> xn_vnode n = None).

Lemma stage_here w x tr c fs : w_xmp w = Some x ->
  stage_ok w x (World (w_vn w) (Some (set_fs x fs)) (w_mp w) c tr).
Proof. intros Hx. split_and!; [done | done |]. eexists. cbn. by split_and!. Qed.

Lemma mount_metadata_stage read_fn so ss (w : world V) x r w' : w_xmp w = Some x ->
  mount_metadata read_fn so ss w = Some (r, w') ->
  stage_ok w x w' /\ match r with CErr e => e <> 0 | COk _ => True end.
Proof.
  intros Hx. unfold mount_metadata. run. rewrite Hx. cbn [mbind option_bind].
  destruct (xzsfs_core_read_superblock read_fn _) as [e sb'].
  split_if; [intros [= <- <-]; split; [by apply stage_here | done] |].
  split_if; [intros [= <- <-]; split; [by apply stage_here | done] |]. run.
  destruct (xzsfs_core_load_metadata _ _ _ _ _ _) as [[[e2 ob] st] |]; [| done].
  cbn [mbind option_bind].
  split_if; [intros [= <- <-]; split; [by apply stage_here | done] |].
  destruct (xzsfs_core_validate_metadata _ _ _) as [e3 |]; [| done]. cbn [mbind option_bind].
  split_if; intros [= <- <-]; (split; [by apply stage_here | done]).
Qed.

Lemma fill_loop_pred {A B} (g : A -> B) (P : B -> Prop) (src : list A) n :
  (forall a, P (g a)) -> forall i dst c,
  for_loop (R := unit) n i (fill_step g src) dst = Some c -> Forall P dst ->
  match c with Next dst' => Forall P dst' /\ length dst' = length dst | Exit _ => False end.
Proof.
  intros Hg. induction n as [|n IH]; intros i dst c; cbn [for_loop]; [by intros [= <-] |].
  unfold fill_step at 1. destruct (elem_at src i) as [a |]; cbn [mbind option_bind]; [| done].
  destruct (i <? zlen dst); [| done]. intros Hl Hd.
  assert (Forall P (<[Z.to_nat i := g a]> dst)) as Hd' by (by apply Forall_insert).
  specialize (IH _ _ _ Hl Hd'). rewrite length_insert in IH. done.
Qed.

Lemma mount_tables_stage ob st (w : world V) x e w' : w_xmp w = Some x ->
  (forall i n, elem_at (xm_nodes x) i = Some n -> xn_vnode n = None) ->
  mount_tables ob st w = Some (e, w') -> stage_ok w x w'.
Proof.
  intros Hx Hnone. unfold mount_tables. run. rewrite Hx. cbn [mbind option_bind].
  destruct (xzsfs_core_init_fs _ _ _ _) as [[e1 fs] |]; [| done]. cbn [mbind option_bind].
  destruct (negb (e1 =? 0)).
  { intros [= <- <-]. split_and!; [done | done |]. exists x. by split_and!. }
  run. destruct (for_loop (Z.to_nat (fs_node_count fs)) 0 (mount_node fs) (xm_nodes x))
    as [[ns | []] |] eqn:El; [| done | done].
  cbn [mbind option_bind]. intros [= <- <-].
  apply (fill_loop_pred (fun c => XNode c None) (fun n => xn_vnode n = None)) in El as [HP Hlen];
    [| done |].
  - split_and!; [done | done |]. eexists. cbn. split_and!; [done | done | |].
    + cbn. unfold zlen. by rewrite Hlen.
    + intros _ i n [_ En]%elem_at_Some. exact (Forall_lookup_1 _ _ _ _ HP En).
  - apply Forall_lookup. intros k n Ek. apply (Hnone (Z.of_nat k)). by rewrite elem_at_nat.
Qed.

(** A mount that failed: the structure is freed and every reference given back. *)
Definition unwound (s : V) (w' : world V) : Prop :=
  same_views s (w_vn w') /\ w_xmp w' = None /\ mnt_data (w_mp w') = false.

(** A mount that succeeded, apart from the parsed tables. *)
Record root_held (s : V) (m : mount_t) (devvp : vnode) (x : xzsfs_mount_t) (n0 : xzsfs_node)
    (w' : world V) (v : vnode) : Prop := {
  rh_xmp : w_xmp w' = Some (with_vnode x 0 (Some v));
  rh_idle : idle w' (with_vnode x 0 (Some v));
  rh_on_mount : v ∈ on_mount (w_vn w');
  rh_new : vv_fsnode (view s v) = None;
  rh_view : forall u, view (w_vn w') u =
    if decide (u = v) then VView (vnfs_vtype (vnode_params 0 n0)) (Some 0) 1 0
    else if decide (u = devvp) then set_use (view s devvp) (vv_usecount (view s devvp) + 1)
    else view s u;
  rh_mp : w_mp w' = Mount true (Z.lor (mnt_flag m) (Z.lor MNT_LOCAL MNT_RDONLY)) true "md0";
}.

Lemma mount_root_run devvp s s1 w x n0 :
  vnode_ref devvp s = (0, s1) -> 0 <= vv_usecount (view s devvp) -> w_vn w = s1 -> idle w x ->
  elem_at (xm_nodes x) 0 = Some n0 -> xn_vnode n0 = None -> roomy s1 ->
  exists e w', mount_root devvp w = Some (e, w') /\
    ((e <> 0 /\ alloc_failed e /\ unwound s w') \/
     (e = 0 /\ exists v, root_held s (w_mp w) devvp x n0 w' v)).
Proof.
  intros Href Huse Hvn Hidle En Hnone Hroom.
  destruct (get_vnode_run 0 w x n0 Hidle En) as (e & vo & w1 & x1 & Hg & Hx1 & Hm1 & Ht1 & Hgot);
    [by rewrite Hvn | naive_solver |].
  pose proof (ref_ok _ _ _ Href) as Hs1.
  unfold mount_root. cbv [mbind M_bind]. rewrite Hg. cbn iota beta. rewrite Hvn in Hgot.
  inversion Hgot as [v s' Ev | v s' Hfree Hun Hon Hrefv Hview Heq | e' s' He Hal Hview Heq];
    subst; [congruence | |].
  - cbn iota. change (negb (0 =? 0)) with false. cbn iota. run.
    destruct (vnode_ref v (w_vn w1)) as [er s3] eqn:Er. cbn in Hrefv. subst er. run.
    exists 0. eexists. split; [reflexivity |]. right. split; [done |]. exists v.
    assert (v <> devvp) as Hne.
    { intros ->. rewrite Hs1, upd_same in Hun. cbn in Hun. lia. }
    assert (forall u, vv_fsnode (view (vnode_put v s3) u) =
      vv_fsnode (upd (view (w_vn w)) v (VView (vnfs_vtype (vnode_params 0 n0)) (Some 0) 0 1) u)) as Hfs.
    { intros u. rewrite put_view, <- Hview. unfold upd. case_decide; [subst u; cbn |];
        rewrite (ref_ok _ _ _ Er); unfold upd; by case_decide; [subst |]. }
    constructor; cbn [w_xmp w_vn w_mp].
    + done.
    + constructor; cbn; [done | by unfold with_vnode; rewrite En; apply Hidle
        | rewrite nodes_with_vnode; apply Hidle |].
      intros u i. rewrite Hfs. unfold upd. case_decide; [cbn; naive_solver lia | apply Hidle].
    + rewrite mount_put. pose proof (mount_ref v (w_vn w1)) as Hmr. rewrite Er in Hmr.
      cbn in Hmr. by rewrite Hmr.
    + rewrite Hs1, upd_other in Hfree by done. done.
    + intros u. rewrite put_view. destruct (decide (u = v)) as [-> | Hu].
      * by rewrite upd_same, !(ref_ok _ _ _ Er), !upd_same, !Hview, !upd_same.
      * rewrite upd_other, (ref_ok _ _ _ Er), upd_other, Hview, upd_other, Hs1 by done.
        unfold upd. by case_decide; [subst |].
    + by rewrite Hm1.
  - assert (zlen (xm_nodes (with_vnode x 0 None)) = 32) as Hz
      by (rewrite nodes_with_vnode; apply Hidle).
    rewrite (mount_fail_run devvp true e w1 _ Hx1 Hz). eexists _, _. split; [reflexivity |]. left.
    split; [done |]. split; [done |]. split; [| done]. cbn [w_vn].
    by apply (rele_after_ref devvp s (w_vn w)).
Qed.

Lemma fresh_mount_nodes devvp i n : elem_at (xm_nodes (fresh_mount devvp)) i = Some n ->
  n = XNode zero_core_node None.
Proof. intros [_ E]%elem_at_Some. by apply lookup_replicate in E as [-> _]. Qed.

(** Every outcome of a mount attempt that returns. *)
Lemma mount_outcomes read_fn ok devvp so ss w e w' :
  w_xmp w = None -> mnt_data (w_mp w) = false ->
  0 <= vv_usecount (view (w_vn w) devvp) ->
  (forall v, vv_fsnode (view (w_vn w) v) = None) -> roomy (vnode_ref devvp (w_vn w)).2 ->
  xzsfs_mount read_fn ok devvp so ss w = Some (e, w') ->
  (e <> 0 /\ unwound (w_vn w) w') \/
  (e = 0 /\ exists x n0 v, elem_at (xm_nodes x) 0 = Some n0 /\
     root_held (w_vn w) (w_mp w) devvp x n0 w' v).
Proof.
  intros Hnone Hdata Huse Hnofs Hroom. unfold xzsfs_mount. cbv [mbind M_bind].
  change (checkpoint ?a ?b ?w0) with (Some (tt, World (w_vn w0) (w_xmp w0) (w_mp w0) (w_cnt w0)
    ((w_trace w0 ++ [Crumb 0xD530 a]) ++ [Puts b]))).
  destruct ok; cbn [negb].
  2:{ intros [= <- <-]. left. split; [done |]. by split_and!. }
  cbv [set_xmp]. cbn iota beta.
  change (checkpoint ?a ?b ?w0) with (Some (tt, World (w_vn w0) (w_xmp w0) (w_mp w0) (w_cnt w0)
    ((w_trace w0 ++ [Crumb 0xD530 a]) ++ [Puts b]))). cbn iota beta.
  cbv [vn_op gets set_vn mbind M_bind mret M_ret]. cbn [w_vn w_xmp w_mp w_cnt w_trace].
  destruct (vnode_ref devvp (w_vn w)) as [er s1] eqn:Er. cbn iota beta. cbn [w_vn w_xmp w_mp w_cnt w_trace].
  destruct (Z.eqb_spec er 0) as [-> | Her]; cbn [negb].
  2:{ erewrite mount_fail_run by done. intros [= <- <-]. left. split; [done |].
      split_and!; [| done | done]. cbn. intros v. by eapply ref_err. }
  change (checkpoint ?a ?b ?w0) with (Some (tt, World (w_vn w0) (w_xmp w0) (w_mp w0) (w_cnt w0)
    ((w_trace w0 ++ [Crumb 0xD530 a]) ++ [Puts b]))). cbn iota beta.
  cbn [w_vn w_xmp w_mp w_cnt w_trace].
  set (w2 := World s1 _ _ _ _).
  assert (forall i n, elem_at (xm_nodes (fresh_mount devvp)) i = Some n -> xn_vnode n = None) as Hfresh
    by (intros i n ->%fresh_mount_nodes; done).
  destruct (mount_metadata read_fn so ss w2) as [[md w3] |] eqn:Emd; [| done].
  destruct (mount_metadata_stage read_fn so ss w2 (fresh_mount devvp) md w3 eq_refl Emd)
    as [(Hv3 & Hm3 & x3 & Hx3 & Hl3 & Hz3 & Hn3) He3]. specialize (Hn3 Hfresh).
  cbn [w2 w_vn w_mp] in Hv3, Hm3. change (zlen (xm_nodes (fresh_mount devvp))) with 32 in Hz3.
  change (xm_locked (fresh_mount devvp)) with false in Hl3.
  assert (forall w4 x4 e4, w_vn w4 = s1 -> w_xmp w4 = Some x4 -> zlen (xm_nodes x4) = 32 -> e4 <> 0 ->
    mount_fail devvp true None false e4 w4 = Some (e, w') -> e <> 0 /\ unwound (w_vn w) w') as Hfail.
  { intros w4 x4 e4 Hv4 Hx4 Hz4 He4. rewrite (mount_fail_run devvp true e4 w4 x4 Hx4 Hz4).
    intros [= <- <-]. split; [done |]. split_and!; [| done | done]. cbn.
    apply (rele_after_ref devvp _ s1); [done |]. by rewrite Hv4. }
  destruct md as [[ob st] | e3]; [| intros Hf; left; by apply (Hfail w3 x3 e3)].
  destruct (mount_tables ob st w3) as [[e4 w4] |] eqn:Et; [| done].
  destruct (mount_tables_stage ob st w3 x3 e4 w4 Hx3 Hn3 Et)
    as (Hv4 & Hm4 & x4 & Hx4 & Hl4 & Hz4 & Hn4). specialize (Hn4 Hn3).
  rewrite Hz3 in Hz4. destruct (Z.eqb_spec e4 0) as [-> | He4]; cbn [negb];
    [| intros Hf; left; apply (Hfail w4 x4 e4); try done; congruence].
  intros Hr. destruct (elem_at_in_range (xm_nodes x4) 0) as [n0 En0]; [by rewrite Hz4 |].
  destruct (mount_root_run devvp (w_vn w) s1 w4 x4 n0) as (e5 & w5 & Hr5 & Hcase); try done.
  - congruence.
  - constructor; [done | congruence | done |]. intros v i.
    rewrite Hv4, Hv3. cbn. rewrite (ref_ok _ _ _ Er). unfold upd.
    case_decide; [cbn |]; by rewrite Hnofs.
  - by apply (Hn4 0).
  - rewrite Hr in Hr5. injection Hr5 as <- <-. destruct Hcase as [(? & _ & ?) | (? & v & Hv)]; [by left |].
    right. split; [done |]. exists x4, n0, v. split; [done |]. rewrite Hm4, Hm3 in Hv. exact Hv.
Qed.

(** The parsed tables behind a mount structure. *)
Definition holds_image (image : bytes) (sb : xzsfs_disk_superblock) (so ss : bytes)
    (x : xzsfs_mount_t) : Prop :=
  exists ob st, fs_holds (xm_fs x) sb (decode_objects 32 ob) st /\
    validated sb (decode_objects 32 ob) st /\
    region ob 0 (sb_object_table_size sb) = region image 512 (sb_object_table_size sb) /\
    region st 0 (sb_string_table_size sb) =
      region image (sb_string_table_offset sb) (sb_string_table_size sb) /\
    forall i c, 0 <= i < sb_object_count sb -> elem_at (fs_nodes (xm_fs x)) i = Some c ->
      exists n, elem_at (xm_nodes x) i = Some n /\ xn_core n = c.

Lemma mount_valid_run read_fn image sb so ss devvp w :
  BlockDevice read_fn image -> zlen image < 2 ^ 41 -> mountable image sb so ss ->
  0 <= vv_usecount (view (w_vn w) devvp) ->
  (forall v, vv_fsnode (view (w_vn w) v) = None) ->
  (vnode_ref devvp (w_vn w)).1 = 0 -> roomy (vnode_ref devvp (w_vn w)).2 ->
  exists e w', xzsfs_mount read_fn true devvp so ss w = Some (e, w') /\
    (e = 0 -> exists x, w_xmp w' = Some x /\ holds_image image sb so ss x) /\ (e <> 0 -> alloc_failed e).
Proof.
  intros Hdev Hsmall Hmo Huse Hnofs Href Hroom.
  destruct (vnode_ref devvp (w_vn w)) as [er s1] eqn:Er. cbn in Href. subst er.
  unfold xzsfs_mount. cbv [mbind M_bind checkpoint emit set_xmp vn_op gets set_vn mret M_ret].
  cbn [negb w_vn w_xmp w_mp w_cnt w_trace]. rewrite Er. cbn iota beta.
  cbn [negb Z.eqb w_vn w_xmp w_mp w_cnt w_trace]. set (w2 := World s1 _ _ _ _).
  destruct (mount_metadata_run read_fn image Hsmall sb so ss Hmo w2 (fresh_mount devvp) eq_refl)
    as [tr3 ->]. set (w3 := World _ _ _ _ _). cbn iota beta.
  destruct (mount_tables_run read_fn image sb so ss Hmo w3
    (set_fs (fresh_mount devvp) (set_fs_sb (xm_fs (fresh_mount devvp)) sb)))
    as (tr4 & fs & ns & -> & Hfs & Hz & Hns & _); try reflexivity.
  set (w4 := World _ _ _ _ _). cbn iota beta. cbn [negb Z.eqb].
  set (x4 := XMount _ fs ns _) in w4.
  pose proof (mountable_validated read_fn image sb so ss Hmo) as Hv.
  pose proof (checked_sizes sb (va_wf _ _ _ Hv) (validated_checked _ _ _ Hv)) as (Hc & Hots & Hgap & Hsts).
  pose proof (mo_in _ _ _ _ Hmo) as Hin.
  destruct (fs_node_is_any sb _ _ fs 0 Hv Hfs) as [c0 Ec0]; [lia |].
  pose proof (Hns 0 c0 ltac:(lia) Ec0) as En0.
  destruct (mount_root_run devvp (w_vn w) s1 w4 x4 (XNode c0 None)) as (e & w' & Hr & Hcase); try done.
  { constructor; try done. intros v i. cbn. rewrite (ref_ok _ _ _ Er). unfold upd.
    case_decide; [cbn |]; by rewrite Hnofs. }
  exists e, w'. split; [exact Hr |]. split; [| intros ?; by destruct Hcase as [(_ & ? & _) | [? _]]].
  intros ->. destruct Hcase as [[? _] | (_ & v & [Hx _ _ _ _ _])]; [done |].
  exists (with_vnode x4 0 (Some v)). split; [done |].
  eexists _, _. split_and!; [| exact Hv | | |].
  - by rewrite fs_with_vnode.
  - apply loaded_prefix, zlen_region; lia.
  - apply loaded_prefix, zlen_region; lia.
  - intros i c Hi Ec. rewrite fs_with_vnode in Ec. cbn in Ec.
    rewrite (lookup_with_vnode x4 0 _ i (XNode c0 None) En0) by lia. case_decide as Hi0.
    + subst i. rewrite Ec0 in Ec. injection Ec as <-. eauto.
    + exists (XNode c None). split; [| done]. by apply Hns.
Qed.

(** ** Unmounting *)

Lemma unmount_busy mntflags w x v :
  idle w x -> mnt_data (w_mp w) = true -> Z.land mntflags MNT_FORCE = 0 ->
  v ∈ on_mount (w_vn w) -> 0 < vv_usecount (view (w_vn w) v) ->
  exists w' x', xzsfs_unmount mntflags w = Some (EBUSY, w') /\ idle w' x' /\
    mnt_data (w_mp w') = true.
Proof.
  intros Hidle Hdata Hflag Hon Huse. unfold xzsfs_unmount. cbv [mbind M_bind].
  assert (vfs_fsprivate w = Some (true, w)) as -> by (run; by rewrite Hdata).
  cbn iota beta. cbn [negb]. rewrite Hflag. change (0 =? 0) with true. cbn iota.
  unfold vflush. run. pose proof (flush_busy (w_vn w) v 0 eq_refl Hon Huse) as Hb.
  destruct (vflush_plan 0 (w_vn w)) as [e vs]. cbn in Hb. subst e.
  destruct (reclaim_all_run vs w x Hidle) as (w' & x' & -> & Hidle' & _ & Hmp & _).
  exists w', x'. split_and!; [done | done |]. by rewrite Hmp.
Qed.

Lemma unmount_forced mntflags w x n0 v :
  idle w x -> mnt_data (w_mp w) = true -> Z.land mntflags MNT_FORCE <> 0 ->
  elem_at (xm_nodes x) 0 = Some n0 -> xn_vnode n0 = Some v ->
  v ∈ on_mount (w_vn w) -> vv_fsnode (view (w_vn w) v) = Some 0 ->
  exists w', xzsfs_unmount mntflags w = Some (0, w') /\ w_xmp w' = None /\
    mnt_data (w_mp w') = false /\
    forall u, vv_usecount (view (w_vn w') u) =
      vv_usecount (view (w_vn w) u) - (if decide (u = xm_devvp x) then 1 else 0).
Proof.
  intros Hidle Hdata Hflag En0 Ev Hon Hfs. unfold xzsfs_unmount. cbv [mbind M_bind].
  assert (vfs_fsprivate w = Some (true, w)) as -> by (run; by rewrite Hdata).
  cbn iota beta. cbn [negb]. rewrite (proj2 (Z.eqb_neq _ 0)) by done.
  unfold vflush. run. rewrite flush_forced by done.
  destruct (reclaim_all_run (on_mount (w_vn w)) w x Hidle)
    as (w1 & x1 & -> & Hidle1 & Hcnt & Hmp & Hdev & Hgone).
  cbn iota beta. change (negb (0 =? 0)) with false. cbn iota.
  destruct (elem_at_in_range (xm_nodes x1) 0) as [n1 En1]; [by rewrite (id_nodes _ _ Hidle1) |].
  rewrite (get_node_run 0 w1 x1 n1 (id_xmp _ _ Hidle1) En1). cbn iota beta.
  assert (xn_vnode n1 = None) as -> by (apply (Hgone 0 n0 n1 En0 En1); right; eauto).
  run. rewrite (id_xmp _ _ Hidle1). cbn [mbind option_bind]. run.
  eexists. split; [reflexivity |]. split_and!; [done | done |]. cbn. intros u.
  rewrite rele_view, Hdev. unfold upd. case_decide; [subst; cbn |];
    rewrite (proj1 (Hcnt _)); lia.
Qed.
End lifecycle.

(** ** Properties *)

(** [xzsfs_get_vnode] keeps the node table and the vnodes in step: it always returns
    with the mutex free, a returned vnode carries the node as its private data and is the
    one the table now caches, and on error no vnode has changed. *)
Theorem get_vnode_links {V} `{VL : VnodeLayer V} `{HL : !VnodeLaws V} (w : world V)
    (x : xzsfs_mount_t) (i : Z) (n : xzsfs_node) (Hidle : idle w x) (Hlink : linked w x)
    (En : elem_at (xm_nodes x) i = Some n) (Hroom : roomy (w_vn w))
    (Hroom' : forall v, xn_vnode n = Some v -> roomy (vnode_get v (w_vn w)).2) :
  exists e vo w' x', xzsfs_get_vnode i w = Some ((e, vo), w') /\ idle w' x' /\ linked w' x' /\
    (e = 0 -> exists v, vo = Some v /\
       elem_at (xm_nodes x') i = Some (XNode (xn_core n) (Some v)) /\
       vv_fsnode (view (w_vn w') v) = Some i) /\
    (e <> 0 -> vo = None /\ same_views (w_vn w) (w_vn w')).
Proof.
  destruct (get_vnode_run i w x n Hidle En Hroom Hroom')
    as (e & vo & w' & x' & Hrun & Hx' & _ & _ & Hgot).
  destruct (got_linked w x i n e vo w' x' Hidle Hlink En Hx' Hgot) as (Hi' & Hl' & Hok).
  exists e, vo, w', x'. split_and!; try done. intros He.
  remember (w_vn w') as s'. destruct Hgot; [done | done |]. by split.
Qed.

(** A world with only the block device's vnode (number 100), and the sample image in it. *)
Definition sample_vt : vtable := VT {[ 100 := VView 3 None 1 1 ]} [] 100 false [].
Definition sample_world : world vtable :=
  World sample_vt None (Mount false 0 false "") (Counters 0 0 0 0 0) [].
Definition sample_mounted : option (Z * world vtable) :=
  xzsfs_mount (image_read sample_image) true 100 (replicate 2048 0) (replicate 2048 0) sample_world.

(** The same world with the structure of a mounted file system, no vnode cached yet. *)
Definition sample_xmount : xzsfs_mount_t :=
  XMount 100 sample_fs ((fun c => XNode c None) <$> fs_nodes sample_fs) false.
Definition sample_idle_world (t : vtable) : world vtable :=
  World t (Some sample_xmount) (Mount true 0x1001 true "md0") (Counters 0 0 0 0 0) [].

Lemma sample_vt_nofs v : vv_fsnode (view sample_vt v) = None.
Proof.
  cbn. unfold vt_view. cbn. destruct (decide (v = 100)) as [-> |]; [done |].
  by rewrite lookup_singleton_ne by done.
Qed.

Lemma sample_idle : idle (sample_idle_world sample_vt) sample_xmount.
Proof. constructor; try done. intros v i. cbn [sample_idle_world w_vn]. by rewrite sample_vt_nofs. Qed.

Lemma sample_linked w : linked w sample_xmount.
Proof.
  intros i n v [_ En]%elem_at_Some Ev. cbn [sample_xmount xm_nodes] in En.
  rewrite list_lookup_fmap in En. destruct (fs_nodes sample_fs !! Z.to_nat i); [| done].
  cbn in En. injection En as <-. done.
Qed.

Lemma get_vnode_links_witness :
  exists e vo w' x', xzsfs_get_vnode 2 (sample_idle_world sample_vt) = Some ((e, vo), w') /\
    idle w' x' /\ linked w' x' /\
    (e = 0 -> exists v, vo = Some v /\
       elem_at (xm_nodes x') 2 = Some (XNode (CNode 3 2 2 493 0 0 1536 600 5 2) (Some v)) /\
       vv_fsnode (view (w_vn w') v) = Some 2) /\
    (e <> 0 -> vo = None /\ same_views sample_vt (w_vn w')).
Proof.
  apply (get_vnode_links (sample_idle_world sample_vt) sample_xmount 2
    (XNode (CNode 3 2 2 493 0 0 1536 600 5 2) None) sample_idle (sample_linked _)).
  - by vm_compute.
  - constructor.
  - done.
Defined.

(** The mount's mutex is held across [vnode_create]: if that has to recycle a vnode
    of the same mount to make room, the reclaim waits for the mutex its own thread
    holds, and the call never returns. *)
Theorem get_vnode_recycle_deadlock {V} `{VL : VnodeLayer V} (w : world V)
    (x : xzsfs_mount_t) (i j : Z) (n m : xzsfs_node) (u : vnode) (us : list vnode)
    (Hidle : idle w x) (En : elem_at (xm_nodes x) i = Some n) (Ev : xn_vnode n = None)
    (Hrec : recycle_victims (w_vn w) = u :: us) (Hu : vv_fsnode (view (w_vn w) u) = Some j)
    (Em : elem_at (xm_nodes x) j = Some m) :
  xzsfs_get_vnode i w = None.
Proof. by eapply (get_vnode_deadlock i w x n u us j m). Qed.

(** A full table that would recycle vnode 101, which belongs to node 1. *)
Definition crowded_vt : vtable :=
  VT {[ 101 := VView 2 (Some 1) 0 0 ]} [101] 101 false [101].

Lemma crowded_idle : idle (sample_idle_world crowded_vt) sample_xmount.
Proof.
  constructor; try done. intros v i. cbn. unfold vt_view. cbn.
  destruct (decide (v = 101)) as [-> |]; [rewrite lookup_singleton_eq; cbn; naive_solver lia |].
  by rewrite lookup_singleton_ne by done.
Qed.

Lemma get_vnode_recycle_deadlock_witness :
  xzsfs_get_vnode 2 (sample_idle_world crowded_vt) = None.
Proof.
  apply (get_vnode_recycle_deadlock (sample_idle_world crowded_vt) sample_xmount 2 1
    (XNode (CNode 3 2 2 493 0 0 1536 600 5 2) None)
    (XNode (CNode 2 1 1 493 0 0 0 0 1 3) None) 101 [] crowded_idle); vm_compute; reflexivity.
Defined.

(** C31. Mounting a valid image (superblock and metadata that pass the checks, served by
    the device) returns; if it returns 0 the mount structure holds exactly the image's
    tables and a node for every object, and it fails only with an error of vnode
    allocation. *)
Theorem mount_valid_image {V} `{VL : VnodeLayer V} `{HL : !VnodeLaws V}
    (read_fn : xzsfs_block_read_fn) (image : bytes) (sb : xzsfs_disk_superblock)
    (so ss : bytes) (devvp : vnode) (w : world V) (Hdev : BlockDevice read_fn image)
    (Hsmall : zlen image < 2 ^ 41) (Hmo : mountable image sb so ss)
    (Huse : 0 <= vv_usecount (view (w_vn w) devvp))
    (Hnofs : forall v, vv_fsnode (view (w_vn w) v) = None)
    (Href : (vnode_ref devvp (w_vn w)).1 = 0) (Hroom : roomy (vnode_ref devvp (w_vn w)).2) :
  exists e w', xzsfs_mount read_fn true devvp so ss w = Some (e, w') /\
    (e = 0 -> exists x, w_xmp w' = Some x /\ holds_image image sb so ss x) /\ (e <> 0 -> alloc_failed e).
Proof. by apply mount_valid_run. Qed.

Lemma sample_mountable : mountable sample_image sample_sb (replicate 2048 0) (replicate 2048 0).
Proof.
  constructor; try by vm_compute.
  - split; apply (bool_decide_unpack _); by vm_compute.
Qed.

Lemma mount_valid_image_witness :
  exists e w', sample_mounted = Some (e, w') /\
    (e = 0 -> exists x, w_xmp w' = Some x /\
       holds_image sample_image sample_sb (replicate 2048 0) (replicate 2048 0) x) /\ (e <> 0 -> alloc_failed e).
Proof.
  apply (mount_valid_image (image_read sample_image) sample_image sample_sb);
    first [ exact (image_read_device _ sample_image_bytes) | exact sample_mountable
          | exact sample_vt_nofs | constructor | by vm_compute ].
Defined.

(** C5. A mount attempt that returns an error - from allocation, the device, validation
    or vnode creation - has given back every reference it took, freed its structure and
    left no private data on the mount; one that returns 0 holds one use count on the root
    vnode and one on the device and has marked the mount local and read-only. *)
Theorem mount_outcome {V} `{VL : VnodeLayer V} `{HL : !VnodeLaws V}
    (read_fn : xzsfs_block_read_fn) (alloc_ok : bool) (so ss : bytes) (devvp : vnode)
    (w w' : world V) (e : Z) (Hx : w_xmp w = None) (Hdata : mnt_data (w_mp w) = false)
    (Huse : 0 <= vv_usecount (view (w_vn w) devvp))
    (Hnofs : forall v, vv_fsnode (view (w_vn w) v) = None)
    (Hroom : roomy (vnode_ref devvp (w_vn w)).2)
    (Hrun : xzsfs_mount read_fn alloc_ok devvp so ss w = Some (e, w')) :
  (e <> 0 /\ unwound (w_vn w) w') \/
  (e = 0 /\ exists x n0 v, elem_at (xm_nodes x) 0 = Some n0 /\
     root_held (w_vn w) (w_mp w) devvp x n0 w' v).
Proof. by eapply mount_outcomes. Qed.

(** A mount whose superblock read fails. *)
Lemma mount_outcome_witness :
  exists w', xzsfs_mount (fun _ _ => (5, [])) true 100 [] [] sample_world = Some (5, w') /\
    ((5 <> 0 /\ unwound sample_vt w') \/
     (5 = 0 /\ exists x n0 v, elem_at (xm_nodes x) 0 = Some n0 /\
        root_held sample_vt (w_mp sample_world) 100 x n0 w' v)).
Proof.
  eexists. split; [vm_compute; reflexivity |].
  apply (mount_outcome (fun _ _ => (5, [])) true [] [] 100 sample_world);
    first [exact sample_vt_nofs | constructor | by vm_compute].
Defined.

(** A file system just mounted cannot be unmounted without MNT_FORCE: the use count
    that [xzsfs_mount] keeps on the root vnode is still held when [xzsfs_unmount]
    flushes the mount's vnodes, so the flush, and with it the unmount, fails with EBUSY. *)
Theorem unmount_after_mount_busy {V} `{VL : VnodeLayer V} `{HL : !VnodeLaws V}
    (read_fn : xzsfs_block_read_fn) (alloc_ok : bool) (so ss : bytes) (devvp : vnode)
    (w w1 : world V) (mntflags : Z) (Hx : w_xmp w = None) (Hdata : mnt_data (w_mp w) = false)
    (Huse : 0 <= vv_usecount (view (w_vn w) devvp))
    (Hnofs : forall v, vv_fsnode (view (w_vn w) v) = None)
    (Hroom : roomy (vnode_ref devvp (w_vn w)).2)
    (Hrun : xzsfs_mount read_fn alloc_ok devvp so ss w = Some (0, w1))
    (Hflags : Z.land mntflags MNT_FORCE = 0) :
  exists w2 x2, xzsfs_unmount mntflags w1 = Some (EBUSY, w2) /\ idle w2 x2 /\
    mnt_data (w_mp w2) = true.
Proof.
  destruct (mount_outcomes _ _ _ _ _ _ _ _ Hx Hdata Huse Hnofs Hroom Hrun)
    as [[? _] | (_ & x & n0 & v & _ & [_ Hidle Hon _ Hview Hmp])]; [done |].
  apply (unmount_busy mntflags w1 _ v Hidle); [by rewrite Hmp | done | done |].
  by rewrite Hview, decide_True.
Qed.

(** The sample file system after mounting. *)
Definition sample_w1 : world vtable := Eval vm_compute in
  match sample_mounted with Some (_, w) => w | None => sample_world end.

Lemma sample_mount_run :
  xzsfs_mount (image_read sample_image) true 100 (replicate 2048 0) (replicate 2048 0) sample_world
  = Some (0, sample_w1).
Proof. vm_compute. reflexivity. Qed.

Lemma unmount_after_mount_busy_witness :
  exists w2 x2, xzsfs_unmount 0 sample_w1 = Some (EBUSY, w2) /\ idle w2 x2 /\
    mnt_data (w_mp w2) = true.
Proof.
  apply (unmount_after_mount_busy (V := vtable) (image_read sample_image) true (replicate 2048 0)
    (replicate 2048 0) 100 sample_world sample_w1 0);
    [reflexivity | reflexivity | by vm_compute | exact sample_vt_nofs | constructor
    | exact sample_mount_run | reflexivity].
Defined.

(** A forced unmount of a mounted file system returns 0, frees the structure and
    releases the device, but never drops the mount's use count on the root vnode: the
    flush has already cleared the pointer [xzsfs_unmount] would release it through. *)
Theorem unmount_forced_keeps_root {V} `{VL : VnodeLayer V} `{HL : !VnodeLaws V} (w : world V)
    (x : xzsfs_mount_t) (n0 : xzsfs_node) (v : vnode) (mntflags : Z) (Hidle : idle w x)
    (Hdata : mnt_data (w_mp w) = true) (Hflags : Z.land mntflags MNT_FORCE <> 0)
    (En0 : elem_at (xm_nodes x) 0 = Some n0) (Ev : xn_vnode n0 = Some v)
    (Hon : v ∈ on_mount (w_vn w)) (Hfs : vv_fsnode (view (w_vn w) v) = Some 0)
    (Hdev : v <> xm_devvp x) :
  exists w', xzsfs_unmount mntflags w = Some (0, w') /\ w_xmp w' = None /\
    mnt_data (w_mp w') = false /\
    vv_usecount (view (w_vn w') (xm_devvp x)) = vv_usecount (view (w_vn w) (xm_devvp x)) - 1 /\
    vv_usecount (view (w_vn w') v) = vv_usecount (view (w_vn w) v).
Proof.
  destruct (unmount_forced mntflags w x n0 v Hidle Hdata Hflags En0 Ev Hon Hfs)
    as (w' & Hr & Hx & Hd & Hc).
  exists w'. split_and!; try done; rewrite Hc; [by rewrite decide_True | rewrite decide_False by done; lia].
Qed.

Definition sample_root_core : xzsfs_core_node := CNode 1 1 1 493 0 0 0 0 0 0.

(** The sample file system with its root vnode (number 101) cached and in use. *)
Definition rooted_vt : vtable :=
  VT {[ 100 := VView 3 None 2 1; 101 := VView 2 (Some 0) 1 0 ]} [101] 101 false [].
Definition rooted_world : world vtable :=
  World rooted_vt (Some (with_vnode sample_xmount 0 (Some 101))) (Mount true 0x1001 true "md0")
    (Counters 0 0 0 0 0) [].

Lemma rooted_idle : idle rooted_world (with_vnode sample_xmount 0 (Some 101)).
Proof.
  constructor; try done. intros v i. cbn. unfold vt_view. cbn.
  destruct (decide (v = 101)) as [-> |]; [vm_compute; naive_solver lia |].
  destruct (decide (v = 100)) as [-> |]; [by vm_compute |].
  by rewrite lookup_insert_ne, lookup_singleton_ne by done.
Qed.

Lemma unmount_forced_keeps_root_witness :
  exists w', xzsfs_unmount MNT_FORCE rooted_world = Some (0, w') /\ w_xmp w' = None /\
    mnt_data (w_mp w') = false /\
    vv_usecount (view (w_vn w') 100) = 1 /\ vv_usecount (view (w_vn w') 101) = 1.
Proof.
  apply (unmount_forced_keeps_root rooted_world (with_vnode sample_xmount 0 (Some 101))
    (XNode sample_root_core (Some 101)) 101 MNT_FORCE rooted_idle);
    [reflexivity | done | vm_compute; reflexivity | reflexivity | cbn; set_solver
    | vm_compute; reflexivity | done].
Defined.
