(* ===== verification/BootArgs.v ===== *)
(** * Boot arguments: the parser

    Models pexpert/gen/bootargs.c (the build is arm64, so the [__x86_64__] branches are
    absent).  A C string is the buffer it lies in and a position; every read of the
    argument buffer and every write to the caller's result buffer is bounds-checked, so a
    [Some] result is memory safety and termination. *)

From stdpp Require Import base list strings.
From Stdlib Require Import ZArith Lia.
From S2P Require Import Prelude.

(** ** Characters *)

Definition isargsep (c : Z) : bool := (c =? 32) || (c =? 0) || (c =? 9).
Definition israngesep (c : Z) : bool := isargsep c || (c =? 95) || (c =? 44).

(** ** Copying results *)

(** Copy up to [maxlen] characters of the argument at [from + p] and a terminator to the
    start of the result buffer. *)
Definition argstrcpy2_step (from : bytes) (p maxlen : Z) (st : Z * bytes)
    : option (ctl (Z * bytes) (Z * bytes)) :=
  let '(i, to) := st in
  c ← byte_at from (p + i);
  if negb (isargsep c) && (i <? maxlen) then to ← put_byte to i c; Some (Next (i + 1, to))
  else to ← put_byte to i 0; Some (Exit (i, to)).

Definition argstrcpy2 (from : bytes) (p : Z) (to : bytes) (maxlen : Z) : option (Z * bytes) :=
  loop (scan_fuel from) (argstrcpy2_step from p maxlen) (0, to).

(** Store the low [n] bytes of [val] at the start of the buffer. *)
Definition argnum_store (to : bytes) (n : nat) (val : Z) : option bytes :=
  copy_into to 0 (le_split n val) (Z.of_nat n).

(** [struct i24] shares its 32-bit word with the padding byte, which keeps its value. *)
Definition argnumcpy (val : Z) (to : bytes) (maxlen : Z) : option (Z * bytes) :=
  if maxlen =? 0 then Some (maxlen, to)
  else if maxlen =? 1 then to ← argnum_store to 1 val; Some (maxlen, to)
  else if maxlen =? 2 then to ← argnum_store to 2 val; Some (maxlen, to)
  else if maxlen =? 3 then to ← argnum_store to 3 val; Some (maxlen, to)
  else if maxlen =? 4 then to ← argnum_store to 4 val; Some (maxlen, to)
  else if maxlen =? 8 then to ← argnum_store to 8 val; Some (maxlen, to)
  else to ← argnum_store to 4 val; Some (4, to).

(** ** Numbers *)

Inductive argval : Type :=
  | NUM (val : Z)
  | STR.

(** One digit or suffix of the loop: [c] was read at [s - 1]. *)
Inductive digit_class : Type :=
  | IsDigit (d : Z)
  | IsSuffix (mult : Z)
  | IsOther.

Definition classify (radix c : Z) : digit_class :=
  if (radix <=? 10) && ((48 <=? c) && (c <=? 57 - (10 - radix))) then IsDigit (c - 48)
  else if (radix =? 16) && ((48 <=? c) && (c <=? 57)) then IsDigit (c - 48)
  else if (radix =? 16) && ((97 <=? c) && (c <=? 102)) then IsDigit (c - (97 - 10))
  else if (radix =? 16) && ((65 <=? c) && (c <=? 70)) then IsDigit (c - (65 - 10))
  else if (c =? 107) || (c =? 75) then IsSuffix 1024
  else if (c =? 109) || (c =? 77) then IsSuffix (1024 * 1024)
  else if (c =? 103) || (c =? 71) then IsSuffix (1024 * 1024 * 1024)
  else IsOther.

(** One turn of [for (;;)]: state is the position and [intval]; the loop leaves with the
    outcome of the whole function. *)
Definition getval_step (issep : Z -> bool) (str : bytes) (radix sign : Z) (st : Z * Z)
    : option (ctl (Z * Z) argval) :=
  let '(s, intval) := st in
  c ← byte_at str s;
  let s := s + 1 in
  let finish sign := Some (Exit (NUM (s64 (u64 (intval * sign))))) in
  if issep c then finish sign
  else
    match classify radix c with
    | IsDigit d =>
        if radix <=? d then Some (Exit STR)
        else Some (Next (s, u64 (u64 (intval * radix) + d)))
    | IsSuffix m =>
        nx ← byte_at str s;
        if negb (issep c) && negb (issep nx) then Some (Exit STR) else finish (sign * m)
    | IsOther => Some (Exit STR)
    end.

(** The radix prefix: the new position, radix and value, or [None] for a string. *)
Definition getval_radix (issep : Z -> bool) (str : bytes) (s intval : Z)
    : option (option (Z * Z * Z)) :=
  if intval =? 0 then
    c ← byte_at str s;
    if c =? 120 then Some (Some (s + 1, 16, intval))
    else if c =? 98 then Some (Some (s + 1, 2, intval))
    else if (48 <=? c) && (c <=? 55) then Some (Some (s + 1, 8, c - 48))
    else if negb (issep c) then Some None
    else Some (Some (s, 10, intval))
  else if 10 <=? intval then Some None
  else Some (Some (s, 10, intval)).

Definition getval (str : bytes) (s : Z) (issep : Z -> bool) (skip_equal_sign : bool)
    : option argval :=
  c ← byte_at str s;
  let has_value := c =? 61 in
  let s := if has_value then s + 1 else s in
  if has_value || skip_equal_sign then
    c ← byte_at str s;
    let '(sign, s) := if c =? 45 then (-1, s + 1) else (1, s) in
    c ← byte_at str s;
    let intval := u64 (c - 48) in
    r ← getval_radix issep str (s + 1) intval;
    match r with
    | None => Some STR
    | Some (s, radix, intval) =>
        loop (scan_fuel str) (getval_step issep str radix sign) (s, intval)
    end
  else Some (NUM 1).

(** ** The parser *)

(** [strncmp(a, b, n) == 0] on NUL-terminated bytes. *)
Fixpoint strncmp_eq (n : nat) (a b : bytes) : option bool :=
  match n with
  | O => Some true
  | S n =>
      match a, b with
      | x :: a, y :: b =>
          if negb (x =? y) then Some false
          else if x =? 0 then Some true
          else strncmp_eq n a b
      | _, _ => None
      end
  end.

Definition one_str : bytes := lit "1" ++ [0].

(** The [max_len] cases of a result: copy when there is room, only report when it is 0. *)
Definition report (max_len : Z) (copy : option bytes) (arg_ptr : bytes) (found : bool)
    : option (bytes * bool) :=
  if 0 <? max_len then to ← copy; Some (to, true)
  else if max_len =? 0 then Some (arg_ptr, true)
  else Some (arg_ptr, found).

(** What one argument of the line does once its name matched: continue from a position,
    or leave the loop. *)
Inductive arg_step : Type :=
  | Continue (args : Z) (arg_ptr : bytes) (found : bool)
  | Break (arg_ptr : bytes) (found : bool).

(** The matched argument at [args], whose name ends at [cp] with character [c]. *)
Definition parse_match (line : bytes) (arg_string : bytes) (max_len : Z) (force_string : bool)
    (args cp c : Z) (arg_boolean : bool) (arg_ptr : bytes) (found : bool) : option arg_step :=
  if arg_boolean then
    '(to, f) ← report max_len
       (if force_string then '(_, to) ← argstrcpy2 one_str 0 arg_ptr max_len; Some to
        else '(_, to) ← argnumcpy 1 arg_ptr max_len; Some to) arg_ptr found;
    Some (Break to f)
  else
    cp ← scan_while (fun c => negb (c =? 0) && isargsep c) line cp;
    ch ← byte_at line cp;
    if (ch =? 61) && negb (c =? 61) then Some (Continue (cp + 1) arg_ptr found)
    else if match arg_string with n0 :: _ => n0 =? 95 | [] => false end then
      let hacklen := if max_len <? 17 then 17 else max_len in
      '(to, f) ← report max_len
         ('(_, to) ← argstrcpy2 line (cp + 1) arg_ptr (hacklen - 1); Some to) arg_ptr found;
      Some (Break to f)
    else
      v ← (if force_string then Some STR else getval line cp isargsep false);
      '(to, f) ←
        match v with
        | NUM val =>
            report max_len ('(_, to) ← argnumcpy val arg_ptr max_len; Some to) arg_ptr found
        | STR =>
            if ch =? 61
            then report max_len ('(_, to) ← argstrcpy2 line (cp + 1) arg_ptr (max_len - 1); Some to)
                   arg_ptr found
            else report max_len ('(_, to) ← argstrcpy2 one_str 0 arg_ptr max_len; Some to)
                   arg_ptr found
        end;
      Some (Continue args to f).

(** One turn of the outer loop: state is the position, the result buffer and the flag. *)
Definition parse_step (line arg_string : bytes) (max_len : Z) (force_string : bool)
    (st : Z * bytes * bool) : option (ctl (Z * bytes * bool) (bool * bytes)) :=
  let '(args, arg_ptr, found) := st in
  a0 ← byte_at line args;
  if a0 =? 0 then Some (Exit (found, arg_ptr))
  else
    let arg_boolean := a0 =? 45 in
    cp ← scan_while (fun c => negb (isargsep c) && negb (c =? 61)) line args;
    c ← byte_at line cp;
    let i := cp - args in
    eq ← strncmp_eq (Z.to_nat i) (drop (Z.to_nat args) line) (arg_string ++ [0]);
    r ← (if negb eq || negb (i =? zlen arg_string) then Some (Continue args arg_ptr found)
         else parse_match line arg_string max_len force_string args cp c arg_boolean arg_ptr found);
    match r with
    | Break to f => Some (Exit (f, to))
    | Continue args to f =>
        args ← scan_while (fun c => negb (isargsep c)) line args;
        args ← scan_while (fun c => negb (c =? 0) && isargsep c) line args;
        Some (Next (args, to, f))
    end.

(** Result: found, and the caller's buffer. *)
Definition PE_parse_boot_argn_internal (line arg_string arg_ptr : bytes) (max_len : Z)
    (force_string : bool) : option (bool * bytes) :=
  a0 ← byte_at line 0;
  if a0 =? 0 then Some (false, arg_ptr)
  else if max_len =? -1 then Some (false, arg_ptr)
  else
    args ← scan_while (fun c => negb (c =? 0) && isargsep c) line 0;
    loop (scan_fuel line) (parse_step line arg_string max_len force_string) (args, arg_ptr, false).

Definition PE_parse_boot_argn (boot_args arg_string arg_ptr : bytes) (max_len : Z)
    : option (bool * bytes) :=
  PE_parse_boot_argn_internal boot_args arg_string arg_ptr max_len false.

Definition PE_parse_boot_arg_str (boot_args arg_string arg_ptr : bytes) (len : Z)
    : option (bool * bytes) :=
  PE_parse_boot_argn_internal boot_args arg_string arg_ptr len true.

(** [tmp] is uninitialised: its bytes are a parameter. *)
Definition PE_boot_arg_uint64_eq (boot_args arg_string tmp : bytes) (value : Z) : option bool :=
  '(found, tmp) ← PE_parse_boot_argn boot_args arg_string tmp 8;
  Some (if negb found then false else le_combine (take 8 tmp) =? value).

(** ** Ranges *)

(** Result: whether both bounds were found, and the two out parameters. *)
Definition get_range_bounds (str : bytes) (lower upper : Z) : option (bool * Z * Z) :=
  lo ← getval str 0 israngesep true;
  match lo with
  | STR => Some (false, lower, upper)
  | NUM lower =>
      c ← scan_while (fun c => negb (c =? 0) && negb ((c =? 95) || (c =? 44))) str 0;
      ch ← byte_at str c;
      if ch =? 95 then
        hi ← getval str (c + 1) israngesep true;
        match hi with
        | STR => Some (false, lower, upper)
        | NUM upper => Some (true, lower, upper)
        end
      else Some (false, lower, upper)
  end.

(** ** The power-on self test *)

Record string_test_case := StrCase { st_args : string; st_argname : string;
  st_argvalue : string; st_found : bool }.
Record integer_test_case := IntCase { it_args : string; it_argname : string;
  it_argvalue : Z; it_found : bool }.

Definition hello_line : string := "hello=world -foobar abc debug=0xBAADF00D".

Definition string_test_cases : list string_test_case := [
  StrCase "-x -a b=3 y=42" "-a" "1" true;
  StrCase "-x -a b=3 y=42" "b" "3" true;
  StrCase "-x -a b=2 ba=3 y=42" "b" "2" true;
  StrCase "-x -a ba=3 b=2 y=42" "b" "2" true;
  StrCase "-x -a b=2 ba=3 y=42" "ba" "3" true;
  StrCase "-x -a ba=3 b=2 y=42" "ba" "3" true;
  StrCase "-x -ab -aa y=42" "-a" "" false;
  StrCase "-x b=96 y=42" "bx" "" false;
  StrCase "-x ab=96 y=42" "a" "" false;
  StrCase hello_line "notarealthing" "" false;
  StrCase hello_line "hello" "world" true;
  StrCase hello_line "debug" "0xBAADF00D" true;
  StrCase hello_line "-foobar" "1" true;
  StrCase hello_line "abc" "1" true ].

Definition integer_test_cases : list integer_test_case := [
  IntCase "-x -a b=3 y=42" "-a" 1 true;
  IntCase "-x -a b=3 y=42" "b" 3 true;
  IntCase "-x -a b=2 ba=3 y=42" "b" 2 true;
  IntCase "-x -a ba=3 b=2 y=42" "b" 2 true;
  IntCase "-x -a b=2 ba=3 y=42" "ba" 3 true;
  IntCase "-x -a ba=3 b=2 y=42" "ba" 3 true;
  IntCase "-x -ab -aa y=42" "-a" 0 false;
  IntCase "-x b=96 y=42" "bx" 0 false;
  IntCase "-x ab=96 y=42" "a" 0 false;
  IntCase hello_line "notarealthing" 0 false;
  IntCase hello_line "hello" 0x00726F77 true;
  IntCase hello_line "debug" 0xBAADF00D true;
  IntCase hello_line "-foobar" 1 true;
  IntCase hello_line "abc" 1 true ].

(** [char result[256] = "NOT_FOUND"]. *)
Definition result_buffer : bytes := lit "NOT_FOUND" ++ replicate 247 0.

Definition string_case_ok (t : string_test_case) : bool :=
  match PE_parse_boot_argn_internal (lit (st_args t) ++ [0]) (lit (st_argname t)) result_buffer
          256 true with
  | Some (found, result) =>
      bool_decide (found = st_found t) &&
      (negb (st_found t) ||
       bool_decide (take (S (length (lit (st_argvalue t)))) result = lit (st_argvalue t) ++ [0]))
  | None => false
  end.

Definition integer_case_ok (t : integer_test_case) : bool :=
  match PE_parse_boot_argn_internal (lit (it_args t) ++ [0]) (lit (it_argname t))
          (le_split 4 0xCAFEFACE) 4 false with
  | Some (found, result) =>
      bool_decide (found = it_found t) &&
      (negb (it_found t) || (le_combine result =? it_argvalue t))
  | None => false
  end.

(** All expectations of [parse_boot_arg_test]. *)
Definition parse_boot_arg_test : bool :=
  forallb string_case_ok string_test_cases && forallb integer_case_ok integer_test_cases.

Example parse_boot_arg_test_passes : parse_boot_arg_test = true.
Proof. vm_compute. reflexivity. Qed.
