(* ===== verification/BootArgsProofs.v ===== *)
(** * Boot arguments: correctness of the parser

    Memory safety and termination on any buffer that holds a terminator, the behaviour on
    command lines of [key=value] words, and the round trip of numbers. *)

From stdpp Require Import base list strings.
From Stdlib Require Import ZArith Lia.
From S2P Require Import Prelude BootArgs.

(** ** Scans and copies *)

Section scans.
Context (line : bytes) (z : Z) (Hz : byte_at line z = Some 0).

Lemma line_at p : 0 <= p <= z -> exists c, byte_at line p = Some c.
Proof.
  intros Hp. pose proof (elem_at_lt _ _ _ Hz). apply elem_at_in_range. lia.
Qed.

Lemma scan_while_spec pred p : pred 0 = false -> 0 <= p <= z ->
  exists q, scan_while pred line p = Some q /\ p <= q <= z /\
    (exists c, byte_at line q = Some c /\ pred c = false) /\
    forall k, p <= k < q -> exists c, byte_at line k = Some c /\ pred c = true.
Proof.
  intros H0 Hp. pose proof (elem_at_lt _ _ _ Hz) as Hzl. unfold scan_while.
  apply (loop_inv (fun q => p <= q <= z /\
    forall k, p <= k < q -> exists c, byte_at line k = Some c /\ pred c = true)
    _ (fun q => Z.to_nat (z - q))).
  - split; [lia |]. intros k ?. lia.
  - unfold scan_fuel, zlen in *. lia.
  - intros q [Hq Hall]. destruct (line_at q ltac:(lia)) as [c Ec]. rewrite Ec. cbn.
    destruct (pred c) eqn:Epc; eexists; (split; [done |]); cbn.
    + assert (q < z) by (destruct (decide (q = z)) as [-> |]; [congruence | lia]).
      split; [| lia]. split; [lia |]. intros k Hk.
      destruct (decide (k = q)) as [-> |]; [by eauto | apply Hall; lia].
    + split_and!; [lia | lia | by eauto | done].
Qed.

(** [argstrcpy2] stays between the two buffers; [k] characters are copied. *)
Lemma argstrcpy2_spec p to maxlen : 0 <= p <= z -> 0 <= maxlen < zlen to ->
  exists k, argstrcpy2 line p to maxlen =
      Some (k, region line p k ++ 0 :: drop (Z.to_nat (k + 1)) to) /\
    0 <= k <= maxlen /\ p + k <= z /\
    (forall i, p <= i < p + k -> exists c, byte_at line i = Some c /\ isargsep c = false) /\
    (k = maxlen \/ exists c, byte_at line (p + k) = Some c /\ isargsep c = true).
Proof.
  intros Hp Hm. pose proof (elem_at_lt _ _ _ Hz) as Hzl. unfold argstrcpy2.
  destruct (loop_inv
    (fun st : Z * bytes => 0 <= st.1 <= maxlen /\ p + st.1 <= z /\
       st.2 = region line p st.1 ++ drop (Z.to_nat st.1) to /\
       forall i, p <= i < p + st.1 -> exists c, byte_at line i = Some c /\ isargsep c = false)
    (fun r : Z * bytes => exists k, r = (k, region line p k ++ 0 :: drop (Z.to_nat (k + 1)) to) /\
       0 <= k <= maxlen /\ p + k <= z /\
       (forall i, p <= i < p + k -> exists c, byte_at line i = Some c /\ isargsep c = false) /\
       (k = maxlen \/ exists c, byte_at line (p + k) = Some c /\ isargsep c = true))
    (fun st => Z.to_nat (z - p - st.1)) (scan_fuel line) (argstrcpy2_step line p maxlen) (0, to))
    as (r & -> & k & -> & ?).
  - cbn [fst snd]. split_and!; [lia | lia | lia | done |]. intros i ?. lia.
  - cbn [fst]. unfold scan_fuel, zlen in *. lia.
  - intros [i out] (Hi & Hpi & Eout & Hall). cbn [fst snd] in Hi, Hpi, Eout, Hall. subst out.
    destruct (line_at (p + i) ltac:(lia)) as [c Ec]. unfold argstrcpy2_step. rewrite Ec.
    cbn [mbind option_bind].
    assert (zlen (region line p i) = i) as Hri by (apply zlen_region; lia).
    assert (forall b, put_byte (region line p i ++ drop (Z.to_nat i) to) i b =
      Some (region line p i ++ b :: drop (Z.to_nat (i + 1)) to)) as Hput.
    { intros b. apply put_byte_Some. rewrite zlen_app, Hri, zlen_drop by lia. split; [lia |].
      rewrite insert_app_r_alt by (unfold zlen in Hri; lia).
      replace (Z.to_nat i - length (region line p i))%nat with 0%nat by (unfold zlen in Hri; lia).
      f_equal. destruct (lookup_lt_is_Some_2 to (Z.to_nat i)) as [y Ey]; [unfold zlen in *; lia |].
      rewrite (drop_S to y (Z.to_nat i) Ey). cbn. by replace (Z.to_nat (i + 1)) with (S (Z.to_nat i)) by lia. }
    rewrite !Hput. cbn [mbind option_bind].
    destruct (isargsep c) eqn:Esep; cbn [negb andb].
    { eexists. split; [done |]. exists i. split_and!; try done; [lia.. | by eauto]. }
    destruct (Z.ltb_spec i maxlen).
    2:{ eexists. split; [done |]. exists i. split_and!; try done; [lia.. | left; lia]. }
    assert (p + i < z) by (destruct (decide (p + i = z)) as [Epz |]; [|lia];
      rewrite Epz, Hz in Ec; injection Ec as <-; done).
    eexists. split; [done |]. cbn [fst snd]. split; [| lia]. split_and!; [lia | lia | lia | |].
    + rewrite region_split by lia. rewrite <- app_assoc. f_equal. unfold region.
      change (Z.to_nat 1) with 1%nat. apply elem_at_Some in Ec as [_ Ec].
      by rewrite (drop_S line c) by done.
    + intros j Hj. destruct (decide (j = p + i)) as [-> |]; [by eauto | apply Hall; lia].
  - by exists k.
Qed.

Lemma argstrcpy2_tail p to maxlen : 0 <= p <= z -> 0 <= maxlen < zlen to ->
  exists k to', argstrcpy2 line p to maxlen = Some (k, to') /\ zlen to' = zlen to /\
    drop (Z.to_nat (maxlen + 1)) to' = drop (Z.to_nat (maxlen + 1)) to.
Proof.
  intros Hp Hm. destruct (argstrcpy2_spec p to maxlen Hp Hm) as (k & -> & Hk & Hpk & _).
  pose proof (elem_at_lt _ _ _ Hz) as Hzl.
  assert (zlen (region line p k) = k) as Hr by (apply zlen_region; lia).
  exists k. eexists. split; [done |]. split.
  - rewrite zlen_app, zlen_cons, Hr, zlen_drop by lia. lia.
  - change (0 :: ?l) with ([0] ++ l). rewrite app_assoc.
    rewrite drop_app_ge by (unfold zlen in Hr; rewrite length_app; cbn; lia).
    rewrite drop_drop. f_equal. unfold zlen in Hr. rewrite length_app. cbn. lia.
Qed.

(** ** Numbers never leave the buffer *)

Lemma getval_total s issep skip : issep 0 = true -> 0 <= s <= z ->
  exists v, getval line s issep skip = Some v.
Proof.
  intros H0 Hs. pose proof (elem_at_lt _ _ _ Hz) as Hzl.
  assert (forall q c, 0 <= q <= z -> byte_at line q = Some c -> c <> 0 -> q < z) as Hlt.
  { intros q c Hq Ec Hc. destruct (decide (q = z)) as [-> |]; [congruence | lia]. }
  unfold getval. destruct (line_at s Hs) as [c0 E0]. rewrite E0. cbn [mbind option_bind].
  set (s1 := if c0 =? 61 then s + 1 else s).
  assert (0 <= s1 <= z) as Hs1.
  { subst s1. destruct (Z.eqb_spec c0 61) as [-> |]; [specialize (Hlt s 61 Hs E0 ltac:(done)) |]; lia. }
  destruct ((c0 =? 61) || skip); [| by eauto].
  destruct (line_at s1 Hs1) as [c1 E1]. rewrite E1. cbn [mbind option_bind].
  assert (exists sign s2, (if c1 =? 45 then (-1, s1 + 1) else (1, s1)) = (sign, s2) /\ 0 <= s2 <= z)
    as (sign & s2 & -> & Hs2).
  { destruct (Z.eqb_spec c1 45) as [-> |]; do 2 eexists; (split; [done |]);
      [specialize (Hlt s1 45 Hs1 E1 ltac:(done)) |]; lia. }
  destruct (line_at s2 Hs2) as [c2 E2]. rewrite E2. cbn [mbind option_bind].
  assert (forall radix s3 iv, 0 <= s3 <= z ->
    exists v, loop (scan_fuel line) (getval_step issep line radix sign) (s3, iv) = Some v) as Hloop.
  { intros radix s3 iv Hs3.
    destruct (loop_inv (fun st : Z * Z => 0 <= st.1 <= z) (fun _ : argval => True)
      (fun st => Z.to_nat (z - st.1)) (scan_fuel line) (getval_step issep line radix sign) (s3, iv))
      as (v & Hv & _); [done | cbn; unfold scan_fuel, zlen in *; lia | | by eauto].
    intros [q w] Hq. cbn [fst] in *. unfold getval_step.
    destruct (line_at q Hq) as [c Ec]. rewrite Ec. cbn [mbind option_bind].
    destruct (issep c) eqn:Esep; [eexists; split; [reflexivity | exact I] |].
    assert (q < z) by (apply (Hlt q c Hq Ec); intros ->; congruence).
    destruct (classify radix c).
    - destruct (radix <=? d); [eexists; split; [reflexivity | exact I] |]. eexists. split; [done |]. cbn. lia.
    - destruct (line_at (q + 1) ltac:(lia)) as [nx Enx]. rewrite Enx. cbn.
      destruct (negb (issep nx)); (eexists; split; [reflexivity | exact I]).
    - eexists; split; [reflexivity | exact I]. }
  unfold getval_radix. destruct (Z.eqb_spec (u64 (c2 - 48)) 0) as [Eiv |].
  - assert (c2 <> 0) as Hc2 by (intros ->; by vm_compute in Eiv).
    pose proof (Hlt s2 c2 Hs2 E2 Hc2) as Hs2z.
    destruct (line_at (s2 + 1) ltac:(lia)) as [c3 E3]. rewrite E3. cbn [mbind option_bind].
    destruct (Z.eqb_spec c3 120) as [-> |];
      [specialize (Hlt (s2 + 1) 120 ltac:(lia) E3 ltac:(done)); apply Hloop; lia |].
    destruct (Z.eqb_spec c3 98) as [-> |];
      [specialize (Hlt (s2 + 1) 98 ltac:(lia) E3 ltac:(done)); apply Hloop; lia |].
    destruct ((48 <=? c3) && (c3 <=? 55)) eqn:E7; bool_to_prop.
    { specialize (Hlt (s2 + 1) c3 ltac:(lia) E3 ltac:(lia)). apply Hloop. lia. }
    destruct (negb (issep c3)); [by eauto | apply Hloop; lia].
  - destruct (Z.leb_spec 10 (u64 (c2 - 48))); [by eauto |].
    assert (c2 <> 0) as Hc2 by (intros ->; change (u64 (0 - 48)) with (2 ^ 64 - 48) in *; lia).
    pose proof (Hlt s2 c2 Hs2 E2 Hc2). apply Hloop. lia.
Qed.
End scans.

(** ** Numeric results *)

Lemma store_le_spec to n val : Z.of_nat n <= zlen to ->
  argnum_store to n val = Some (le_split n val ++ drop n to).
Proof.
  intros. unfold argnum_store. pose proof (copy_into_append [] to 0 (le_split n val) (Z.of_nat n)) as Hc.
  cbn [app] in Hc. rewrite Hc; [| done | lia | unfold zlen; rewrite length_le_split; lia].
  f_equal. unfold region. rewrite drop_0, Nat2Z.id.
  by rewrite take_ge by (rewrite length_le_split; lia).
Qed.

(** A numeric result writes at most [maxlen] bytes. *)
Lemma argnumcpy_tail val to maxlen : 0 < maxlen <= zlen to ->
  exists k to', argnumcpy val to maxlen = Some (k, to') /\ zlen to' = zlen to /\
    drop (Z.to_nat maxlen) to' = drop (Z.to_nat maxlen) to.
Proof.
  intros Hm. unfold argnumcpy.
  assert (forall (n : nat) (k : Z), Z.of_nat n <= maxlen -> exists (k' : Z) to',
    (to0 ← argnum_store to n val; Some (k, to0)) = Some (k', to') /\ zlen to' = zlen to /\
    drop (Z.to_nat maxlen) to' = drop (Z.to_nat maxlen) to) as Hst.
  { intros n k Hn. rewrite store_le_spec by lia. cbn. do 2 eexists. split; [done |]. split.
    - unfold zlen in *. rewrite length_app, length_le_split, length_drop. lia.
    - rewrite drop_app_ge by (rewrite length_le_split; lia).
      rewrite length_le_split, drop_drop. f_equal. lia. }
  destruct (Z.eqb_spec maxlen 0); [lia |].
  repeat (match goal with |- context [maxlen =? ?k] => destruct (Z.eqb_spec maxlen k) end;
    [apply Hst; lia |]).
  apply Hst. lia.
Qed.

(** ** The parser never leaves its buffers *)

(** A result buffer of the same size whose bytes from [max_len] on are untouched. *)
Definition within (max_len : Z) (to to' : bytes) : Prop :=
  zlen to' = zlen to /\ drop (Z.to_nat max_len) to' = drop (Z.to_nat max_len) to.

Lemma within_refl max_len to : within max_len to to.
Proof. done. Qed.

Lemma within_trans max_len a b c : within max_len a b -> within max_len b c -> within max_len a c.
Proof. intros [??] [??]. split; congruence. Qed.

Lemma report_within max_len (copy : option bytes) to f :
  (0 < max_len -> exists to', copy = Some to' /\ within max_len to to') ->
  exists to' f', report max_len copy to f = Some (to', f') /\ within max_len to to'.
Proof.
  intros Hc. unfold report. destruct (Z.ltb_spec 0 max_len) as [Hm | Hm].
  - destruct (Hc Hm) as (to' & -> & ?). cbn. eauto.
  - destruct (max_len =? 0); eauto using within_refl.
Qed.

Lemma copy_one_within to max_len : 2 <= max_len <= zlen to ->
  exists to', ('(_, to) ← argstrcpy2 one_str 0 to max_len; Some to) = Some to' /\ within max_len to to'.
Proof.
  intros Hm. destruct to as [|b0 [|b1 to]]; [unfold zlen in Hm; cbn in Hm; lia.. |].
  exists (49 :: 0 :: to). split.
  - unfold argstrcpy2. change (scan_fuel one_str) with 4%nat. cbn [loop].
    unfold argstrcpy2_step at 1. change (byte_at one_str (0 + 0)) with (Some 49).
    cbn [mbind option_bind]. change (isargsep 49) with false. cbn [negb andb].
    rewrite (proj2 (Z.ltb_lt 0 max_len)) by lia.
    unfold put_byte at 1. rewrite !zlen_cons. pose proof (zlen_nonneg to).
    rewrite (proj2 (Z.ltb_lt 0 _)) by lia. cbn [andb Z.leb Z.compare]. cbn [mbind option_bind].
    cbn [loop]. unfold argstrcpy2_step at 1. change (byte_at one_str (0 + (0 + 1))) with (Some 0).
    cbn [mbind option_bind]. change (isargsep 0) with true. cbn [negb andb].
    unfold put_byte. rewrite zlen_insert, !zlen_cons.
    rewrite (proj2 (Z.ltb_lt (0 + 1) _)) by lia. done.
  - split; [done |]. by replace (Z.to_nat max_len) with (S (S (Z.to_nat (max_len - 2)))) by lia.
Qed.

Section safety.
Context (line arg_string : bytes) (max_len : Z) (force_string : bool) (z : Z).
Context (Hz : byte_at line z = Some 0).
Context (Hforce : force_string = true -> max_len <> 1).
Context (Hname : match arg_string with c :: _ => c <> 95 | [] => True end).
Context (Hnz : Forall (fun c => c <> 0) arg_string).

Lemma strncmp_total n : forall a b, (n < length b)%nat -> (n <= length a)%nat ->
  exists r, strncmp_eq n a b = Some r.
Proof.
  induction n as [|n IH]; intros a b Hb Ha; cbn [strncmp_eq]; [by eauto |].
  destruct a as [|x a], b as [|y b]; cbn in *; [lia.. |].
  destruct (negb (x =? y)); [by eauto |]. destruct (x =? 0); [by eauto |]. apply IH; lia.
Qed.

(** A comparison longer than the name stops at the name's terminator. *)
Lemma strncmp_name n : forall a, (n <= length a)%nat -> Forall (fun c => c <> 0) (take n a) ->
  exists r, strncmp_eq n a (arg_string ++ [0]) = Some r.
Proof.
  revert Hnz. clear. intros Hnz. revert n. induction arg_string as [|y s IH]; intros n a Ha Hnza;
    (destruct n as [|n]; [by eexists |]); (destruct a as [|x a]; [cbn in Ha; lia |]);
    cbn [app strncmp_eq]; cbn [take] in Hnza; apply Forall_cons in Hnza as [Hx Hnza].
  - rewrite (proj2 (Z.eqb_neq x 0)) by done. cbn. by eauto.
  - destruct (Z.eqb_spec x y); cbn [negb]; [| by eauto].
    rewrite (proj2 (Z.eqb_neq x 0)) by done. apply Forall_cons in Hnz as [_ Hnz].
    apply IH; [done | cbn in Ha; lia | done].
Qed.

Definition arg_step_ok (args : Z) (to : bytes) (r : arg_step) : Prop :=
  match r with
  | Continue args' to' _ => args <= args' <= z /\ within max_len to to'
  | Break to' _ => within max_len to to'
  end.

Lemma parse_match_safe args cp c b to f : 0 <= args <= cp -> cp <= z -> max_len <= zlen to ->
  exists r, parse_match line arg_string max_len force_string args cp c b to f = Some r /\
    arg_step_ok args to r.
Proof.
  intros Ha Hcp Hto. unfold parse_match. destruct b.
  - match goal with |- context [report ?m ?k ?t ?g] =>
      destruct (report_within m k t g) as (to' & f' & -> & Hw) end.
    { intros Hm. destruct force_string; [apply copy_one_within; specialize (Hforce eq_refl); lia |].
      destruct (argnumcpy_tail 1 to max_len ltac:(lia)) as (k & to' & -> & Hw). cbn. eauto. }
    cbn. eauto.
  - destruct (scan_while_spec line z Hz (fun c => negb (c =? 0) && isargsep c) cp eq_refl ltac:(lia))
      as (q & -> & Hq & (ch & Ech & _) & _).
    cbn [mbind option_bind]. rewrite Ech. cbn [mbind option_bind].
    assert (ch = 61 -> q < z) as Hqz.
    { intros ->. destruct (decide (q = z)) as [-> |]; [congruence | lia]. }
    destruct ((ch =? 61) && negb (c =? 61)) eqn:Eeq.
    { bool_to_prop. eexists. split; [done |]. cbn. split; [lia | apply within_refl]. }
    assert ((match arg_string with n0 :: _ => n0 =? 95 | [] => false end) = false) as ->
      by (destruct arg_string; [done | by apply Z.eqb_neq]).
    assert (exists v, (if force_string then Some STR else getval line q isargsep false) = Some v /\
      (v = STR -> force_string = false -> ch = 61)) as (v & -> & Hv).
    { destruct force_string; [by eexists |].
      destruct (getval_total line z Hz q isargsep false eq_refl ltac:(lia)) as [v Ev].
      exists v. split; [done |]. intros -> _. unfold getval in Ev. rewrite Ech in Ev. cbn in Ev.
      destruct (Z.eqb_spec ch 61); [done |]. cbn in Ev. done. }
    cbn [mbind option_bind].
    assert (exists to' f', match v with
        | NUM val => report max_len ('(_, to) ← argnumcpy val to max_len; Some to) to f
        | STR => if ch =? 61
            then report max_len ('(_, to) ← argstrcpy2 line (q + 1) to (max_len - 1); Some to) to f
            else report max_len ('(_, to) ← argstrcpy2 one_str 0 to max_len; Some to) to f
        end = Some (to', f') /\ within max_len to to') as (to' & f' & -> & Hw).
    { destruct v as [val |]; [| destruct (Z.eqb_spec ch 61) as [E61 |]].
      - apply report_within. intros Hm.
        destruct (argnumcpy_tail val to max_len ltac:(lia)) as (k & to' & -> & Hw). cbn. eauto.
      - apply report_within. intros Hm. specialize (Hqz E61).
        destruct (argstrcpy2_tail line z Hz (q + 1) to (max_len - 1) ltac:(lia) ltac:(lia))
          as (k & to' & -> & Hl & Hd). cbn. eexists. split; [done |]. split; [done |].
        by rewrite Z.sub_add in Hd.
      - apply report_within. intros Hm. apply copy_one_within.
        destruct force_string; [specialize (Hforce eq_refl); lia |].
        specialize (Hv eq_refl eq_refl). done. }
    cbn. eexists. split; [done |]. cbn. split; [lia | done].
Qed.

Definition at_word (st : Z * bytes * bool) : Prop :=
  0 <= st.1.1 <= z /\ exists c, byte_at line st.1.1 = Some c /\ (c = 0 \/ isargsep c = false).

Lemma parse_loop_safe args to f : at_word (args, to, f) -> max_len <= zlen to ->
  exists r, loop (scan_fuel line) (parse_step line arg_string max_len force_string) (args, to, f)
    = Some r /\ within max_len to r.2.
Proof.
  intros Hw Hto. pose proof (elem_at_lt _ _ _ Hz) as Hzl.
  apply (loop_inv (fun st => at_word st /\ within max_len to st.1.2) _
    (fun st => Z.to_nat (z - st.1.1))).
  - split; [done | apply within_refl].
  - destruct Hw as [Hb _]. cbn [fst] in *. unfold scan_fuel, zlen in *. lia.
  - intros [[a t] g] [[Ha (c & Ec & Hc)] Ht]. cbn [fst snd] in *. unfold parse_step.
    rewrite Ec. cbn [mbind option_bind].
    destruct (Z.eqb_spec c 0) as [-> | Hc0]; [by eauto |]. destruct Hc as [| Hc]; [done |].
    destruct (scan_while_spec line z Hz (fun c => negb (isargsep c) && negb (c =? 61)) a eq_refl Ha)
      as (cp & -> & Hcp & (cc & Ecc & _) & Hword). cbn [mbind option_bind]. rewrite Ecc.
    cbn [mbind option_bind].
    destruct (strncmp_name (Z.to_nat (cp - a)) (drop (Z.to_nat a) line)) as [eq ->].
    { rewrite length_drop. unfold zlen in *. lia. }
    { apply Forall_lookup. intros k x Ek. apply lookup_take_Some in Ek as [Ek Hk].
      rewrite lookup_drop in Ek. destruct (Hword (a + Z.of_nat k) ltac:(lia)) as (y & Ey & Hy).
      apply elem_at_Some in Ey as [_ Ey].
      replace (Z.to_nat (a + Z.of_nat k)) with (Z.to_nat a + k)%nat in Ey by lia.
      rewrite Ek in Ey. injection Ey as ->. intros ->. done. }
    cbn [mbind option_bind].
    assert (exists r, (if negb eq || negb (cp - a =? zlen arg_string) then Some (Continue a t g)
      else parse_match line arg_string max_len force_string a cp cc (c =? 45) t g) = Some r /\
      arg_step_ok a t r) as (r & -> & Hr).
    { destruct (negb eq || _); [eexists; split; [done |]; cbn; split; [lia | apply within_refl] |].
      apply parse_match_safe; [lia | lia |]. destruct Ht as [-> _]. done. }
    cbn [mbind option_bind]. destruct r as [a' t' g' | t' g'].
    2:{ eexists. split; [done |]. cbn. by eapply within_trans. }
    destruct Hr as [Ha' Hw'].
    destruct (scan_while_spec line z Hz (fun c => negb (isargsep c)) a' eq_refl ltac:(lia))
      as (q & -> & Hq & (cq & Ecq & Hcq) & _). cbn [mbind option_bind].
    destruct (scan_while_spec line z Hz (fun c => negb (c =? 0) && isargsep c) q eq_refl ltac:(lia))
      as (q' & -> & Hq' & (cq' & Ecq' & Hcq') & _). cbn [mbind option_bind].
    eexists. split; [done |]. cbn [fst snd]. split; [split; [split; [cbn [fst]; lia |] |] |].
    + exists cq'. split; [done |]. apply andb_false_iff in Hcq' as [Hx | Hx]; bool_to_prop; auto.
    + by eapply within_trans.
    + assert (a < q); [| lia]. destruct (decide (a = q)) as [-> |]; [| lia].
      exfalso. rewrite Ec in Ecq. injection Ecq as ->. by rewrite Hc in Hcq.
Qed.
End safety.



(** ** Command lines of [key=value] words *)

Lemma argstrcpy2_word (pre v rest : bytes) e to maxlen :
  Forall (fun x => isargsep x = false) v -> isargsep e = true -> In 0 (e :: rest) ->
  0 <= maxlen < zlen to ->
  let k := Z.min (zlen v) maxlen in
  argstrcpy2 (pre ++ v ++ e :: rest) (zlen pre) to maxlen =
  Some (k, take (Z.to_nat k) v ++ 0 :: drop (Z.to_nat (k + 1)) to).
Proof.
  intros Hv He H0 Hm k. set (line := pre ++ v ++ e :: rest).
  assert (exists z, byte_at line z = Some 0 /\ zlen pre + zlen v <= z) as (z & Hz & Hzp).
  { apply list_elem_of_In, list_elem_of_lookup in H0 as [j Ej].
    exists (zlen pre + zlen v + Z.of_nat j). split; [| lia]. unfold line.
    pose proof (zlen_nonneg pre). pose proof (zlen_nonneg v).
    rewrite byte_at_elem, !elem_at_app_r by lia.
    replace (_ - zlen pre - zlen v) with (Z.of_nat j) by lia. by rewrite elem_at_nat. }
  pose proof (zlen_nonneg pre). pose proof (zlen_nonneg v).
  destruct (argstrcpy2_spec line z Hz (zlen pre) to maxlen) as (k' & -> & Hk & Hpk & Hin & Hstop);
    [lia | lia |].
  assert (byte_at line (zlen pre + zlen v) = Some e) as Ee by apply byte_at_past.
  assert (k' <= zlen v) as Hle.
  { destruct (Z.le_gt_cases k' (zlen v)); [done |].
    destruct (Hin (zlen pre + zlen v) ltac:(lia)) as (c & Ec & Hc). congruence. }
  assert (k' = k) as ->.
  { destruct Hstop as [-> | (c & Ec & Hc)]; [lia |].
    destruct (decide (k' = zlen v)); [lia |]. exfalso.
    unfold line in Ec. rewrite byte_at_elem, elem_at_app_r in Ec by lia.
    rewrite elem_at_app_l in Ec by lia. apply elem_at_Some in Ec as [_ Ec].
    eapply Forall_lookup_1 in Hv; [| exact Ec]. congruence. }
  f_equal. f_equal. f_equal. unfold line, region.
  rewrite drop_app_length' by (unfold zlen; lia).
  rewrite take_app_le; [done |]. unfold zlen in *. lia.
Qed.

(** A word and its separator characters. *)
Definition key_char (c : Z) : Prop := isargsep c = false /\ c <> 61.
Definition word_ok (kv : bytes * bytes) : Prop :=
  Forall key_char kv.1 /\ Forall (fun c => isargsep c = false) kv.2 /\
  exists c k, kv.1 = c :: k /\ c <> 45.

Fixpoint print_args (words : list (bytes * bytes)) : bytes :=
  match words with
  | [] => [0]
  | (k, v) :: rest =>
      k ++ 61 :: v ++ match rest with [] => [0] | _ => 32 :: print_args rest end
  end.

(** The last value given to [name]. *)
Fixpoint last_value (name : bytes) (words : list (bytes * bytes)) (acc : option bytes) : option bytes :=
  match words with
  | [] => acc
  | (k, v) :: rest => last_value name rest (if decide (k = name) then Some v else acc)
  end.

Lemma strncmp_word k : forall rest name, Forall (fun c => c <> 0) k ->
  exists eq, strncmp_eq (length k) (k ++ rest) (name ++ [0]) = Some eq /\
    (negb eq || negb (zlen k =? zlen name) = false <-> k = name).
Proof.
  induction k as [|x k IH]; intros rest name Hk; cbn [length app strncmp_eq].
  - exists true. split; [done |]. cbn [negb orb].
    destruct name as [|y name]; [done |]. rewrite zlen_cons, zlen_nil. pose proof (zlen_nonneg name).
    rewrite (proj2 (Z.eqb_neq _ _)) by lia. done.
  - apply Forall_cons in Hk as [Hx Hk]. destruct name as [|y name]; cbn [app].
    + rewrite (proj2 (Z.eqb_neq x 0)) by done. cbn. exists false. done.
    + destruct (Z.eqb_spec x y) as [-> | Hne]; cbn [negb].
      * rewrite (proj2 (Z.eqb_neq y 0)) by done. destruct (IH rest name Hk) as (eq & -> & Heq).
        exists eq. split; [done |]. rewrite !zlen_cons.
        replace (1 + zlen k =? 1 + zlen name) with (zlen k =? zlen name)
          by (destruct (Z.eqb_spec (zlen k) (zlen name)), (Z.eqb_spec (1 + zlen k) (1 + zlen name)); lia).
        rewrite Heq. naive_solver.
      * exists false. split; [done |]. cbn. naive_solver.
Qed.
(** What storing a string value leaves in the result buffer. *)
Definition stored (max_len : Z) (v to : bytes) : bytes :=
  let k := Z.min (zlen v) (max_len - 1) in
  take (Z.to_nat k) v ++ 0 :: drop (Z.to_nat (k + 1)) to.

Lemma zlen_stored max_len v to : 1 <= max_len <= zlen to -> zlen (stored max_len v to) = zlen to.
Proof.
  intros. pose proof (zlen_nonneg v). unfold stored. cbn zeta.
  rewrite zlen_app, zlen_cons, zlen_take, zlen_drop by lia. lia.
Qed.

Definition nonsep (c : Z) : Prop := isargsep c = false.

(** What can follow a word: the terminator, or one blank and the next word. *)
Definition tail_ok (tail : bytes) : Prop :=
  tail = [0] \/ exists c rest, tail = 32 :: c :: rest /\ nonsep c /\ In 0 rest.
Definition tail_skip (tail : bytes) : Z := if decide (tail = [0]) then 0 else 1.

Section words.
Context (name : bytes) (max_len : Z) (Hm : 2 <= max_len).
Context (Hname : match name with c :: _ => c <> 95 | [] => True end).

Lemma nonsep_nonzero c : nonsep c -> c <> 0.
Proof. intros H ->. done. Qed.

Lemma skip_to_next (line pre w tail : bytes) : line = pre ++ w ++ tail -> tail_ok tail ->
  Forall nonsep w ->
  (args ← scan_while (fun c => negb (isargsep c)) line (zlen pre);
   scan_while (fun c => negb (c =? 0) && isargsep c) line args) =
  Some (zlen pre + zlen w + tail_skip tail).
Proof.
  intros El Ht Hw.
  assert (exists e rest, tail = e :: rest /\ isargsep e = true) as (e & rest & Et & He)
    by (destruct Ht as [-> | (c & r & -> & _)]; eauto).
  assert (scan_while (fun c => negb (isargsep c)) line (zlen pre) = Some (zlen pre + zlen w)) as ->.
  { subst line tail. apply scan_while_at; [| by rewrite He].
    eapply Forall_impl; [done |]. intros x Hx. by rewrite Hx. }
  cbn [mbind option_bind]. rewrite <- zlen_app. unfold tail_skip.
  destruct Ht as [-> | (c & r & -> & Hc & _)].
  - rewrite decide_True by done. rewrite El, app_assoc.
    by apply (scan_while_at _ (pre ++ w) [] []).
  - rewrite decide_False by done. rewrite El, app_assoc.
    apply (scan_while_at _ (pre ++ w) [32] r c); [by repeat constructor |]. by rewrite Hc, andb_comm.
Qed.

Lemma parse_match_word pre v tail to f (args : Z) : tail_ok tail -> Forall nonsep v ->
  max_len <= zlen to ->
  parse_match (pre ++ 61 :: v ++ tail) name max_len true args (zlen pre) 61 false to f =
  Some (Continue args (stored max_len v to) true).
Proof.
  intros Ht Hv Hto. unfold parse_match.
  pose proof (scan_while_at (fun c => negb (c =? 0) && isargsep c) pre [] (v ++ tail) 61
    ltac:(done) eq_refl) as Hs. cbn [app] in Hs. change (zlen []) with 0 in Hs. rewrite Z.add_0_r in Hs.
  rewrite Hs. clear Hs. cbn [mbind option_bind]. rewrite byte_at_here. cbn [mbind option_bind].
  cbn [Z.eqb Pos.eqb negb andb].
  assert ((match name with n0 :: _ => n0 =? 95 | [] => false end) = false) as ->
    by (destruct name; [done | by apply Z.eqb_neq]).
  unfold report. rewrite (proj2 (Z.ltb_lt 0 max_len)) by lia.
  assert (exists e rest, tail = e :: rest /\ isargsep e = true /\ In 0 (e :: rest))
    as (e & rest & -> & He & H0)
    by (destruct Ht as [-> | (c & r & -> & _ & ?)]; do 2 eexists; split_and!; naive_solver).
  replace (pre ++ 61 :: v ++ e :: rest) with ((pre ++ [61]) ++ v ++ e :: rest) by by rewrite <- app_assoc.
  replace (zlen pre + 1) with (zlen (pre ++ [61])) by by rewrite zlen_app.
  rewrite argstrcpy2_word by (done || lia). done.
Qed.

Lemma parse_step_word pre k v tail to f : word_ok (k, v) -> tail_ok tail -> max_len <= zlen to ->
  parse_step (pre ++ k ++ 61 :: v ++ tail) name max_len true (zlen pre, to, f) =
  Some (Next (zlen pre + zlen k + 1 + zlen v + tail_skip tail,
    if decide (k = name) then stored max_len v to else to, if decide (k = name) then true else f)).
Proof.
  intros (Hk & Hv & c0 & k0 & Ek0 & Hc0) Ht Hto. cbn [fst snd] in *.
  assert (nonsep c0) as Hn0 by (subst k; by apply Forall_cons in Hk as [[]]).
  set (line := pre ++ k ++ 61 :: v ++ tail).
  assert (byte_at line (zlen pre) = Some c0) as E0.
  { unfold line. rewrite Ek0. apply byte_at_here. }
  unfold parse_step. rewrite E0. cbn [mbind option_bind].
  rewrite (proj2 (Z.eqb_neq c0 0)) by by apply nonsep_nonzero.
  assert (scan_while (fun c => negb (isargsep c) && negb (c =? 61)) line (zlen pre) =
    Some (zlen pre + zlen k)) as ->.
  { apply scan_while_at; [| done]. eapply Forall_impl; [done |]. intros x [Hx Hx']. rewrite Hx.
    by rewrite (proj2 (Z.eqb_neq x 61)). }
  cbn [mbind option_bind]. unfold line. rewrite byte_at_past. cbn [mbind option_bind].
  rewrite drop_app_length' by (unfold zlen; lia).
  replace (zlen pre + zlen k - zlen pre) with (zlen k) by lia.
  replace (Z.to_nat (zlen k)) with (length k) by (unfold zlen; lia).
  destruct (strncmp_word k (61 :: v ++ tail) name) as (eq & -> & Heq).
  { eapply Forall_impl; [exact Hk |]. intros x [Hx _]. by apply nonsep_nonzero. }
  cbn [mbind option_bind]. rewrite (proj2 (Z.eqb_neq c0 45)) by done.
  assert (Forall nonsep (k ++ 61 :: v)) as Hw.
  { apply Forall_app. split; [| by constructor]. eapply Forall_impl; [exact Hk |]. by intros x []. }
  pose proof (skip_to_next line pre (k ++ 61 :: v) tail) as Hskip.
  unfold line in Hskip at 1. rewrite <- app_assoc in Hskip. cbn [app] in Hskip.
  specialize (Hskip eq_refl Ht Hw). rewrite zlen_app, zlen_cons in Hskip.
  assert (exists r, (if negb eq || negb (zlen k =? zlen name) then Some (Continue (zlen pre) to f)
    else parse_match line name max_len true (zlen pre) (zlen pre + zlen k) 61 false to f) = Some r /\
    r = Continue (zlen pre) (if decide (k = name) then stored max_len v to else to)
          (if decide (k = name) then true else f)) as (r & Er & ->).
  { eexists. split; [| done]. destruct (negb eq || _).
    - rewrite !decide_False by (intros <-; by discriminate (proj2 Heq eq_refl)). done.
    - rewrite !decide_True by by apply Heq. unfold line. rewrite app_assoc, <- zlen_app.
      by apply parse_match_word. }
  fold line. rewrite Er. cbn [mbind option_bind].
  destruct (scan_while (fun c => negb (isargsep c)) line (zlen pre)) as [a |]; [| done].
  cbn [mbind option_bind] in Hskip |- *. rewrite Hskip. cbn [mbind option_bind]. do 4 f_equal. lia.
Qed.

(** The effect of the whole line on the caller's buffer and on the result. *)
Definition store_all (words : list (bytes * bytes)) (to : bytes) : bytes :=
  foldl (fun to kv => if decide (kv.1 = name) then stored max_len kv.2 to else to) to words.
Definition mentions (words : list (bytes * bytes)) (f : bool) : bool :=
  foldl (fun f kv => if decide (kv.1 = name) then true else f) f words.

Lemma print_args_zero words : In 0 (print_args words).
Proof.
  induction words as [|[k v] [|w ws] IH]; cbn [print_args]; [by left | |]; apply in_app_iff; right;
    right; apply in_app_iff; right; [by left | by right].
Qed.

Lemma parse_loop_words words : forall pre to f fuel, Forall word_ok words ->
  max_len <= zlen to -> (length words < fuel)%nat ->
  loop fuel (parse_step (pre ++ print_args words) name max_len true) (zlen pre, to, f) =
  Some (mentions words f, store_all words to).
Proof.
  induction words as [|[k v] rest IH]; intros pre to f [|fuel] Hok Hto Hf; [cbn in Hf; lia.. | |
    cbn in Hf; lia |]; cbn [loop].
  - unfold parse_step. cbn [print_args]. by rewrite byte_at_here.
  - apply Forall_cons in Hok as [Hkv Hok]. cbn [print_args].
    set (tail := match rest with [] => [0] | _ => 32 :: print_args rest end).
    assert (tail_ok tail) as Ht.
    { unfold tail. destruct rest as [|[k' v'] rest]; [by left | right].
      apply Forall_cons in Hok as [(Hk & _ & c & k0 & Ek & Hc) _]. cbn in Ek. subst k'.
      cbn [print_args app]. do 2 eexists. split; [done |].
      split; [by apply Forall_cons in Hk as [[]] |].
      apply in_app_iff; right; right. apply in_app_iff; right.
      destruct rest; [by left | right]. apply print_args_zero. }
    rewrite parse_step_word by done.
    set (to' := if decide (k = name) then _ else _).
    set (f' := if decide (k = name) then _ else _).
    assert (max_len <= zlen to') by (unfold to'; destruct (decide _); [rewrite zlen_stored by lia |]; lia).
    change (mentions ((k, v) :: rest) f) with (mentions rest f').
    change (store_all ((k, v) :: rest) to) with (store_all rest to').
    destruct rest as [|w rest].
    + unfold tail, tail_skip in *. rewrite decide_True by done.
      rewrite <- (IH (pre ++ k ++ 61 :: v) to' f' fuel) by (done || cbn in *; lia).
      cbn [print_args]. rewrite <- !app_assoc. cbn [app]. do 3 f_equal.
      rewrite !zlen_app, zlen_cons. lia.
    + unfold tail_skip. rewrite decide_False by done.
      rewrite <- (IH (pre ++ k ++ 61 :: v ++ [32]) to' f' fuel) by (done || cbn in *; lia).
      unfold tail. rewrite <- !app_assoc. cbn [app]. rewrite <- !app_assoc. do 3 f_equal.
      rewrite !zlen_app, zlen_cons, zlen_app, zlen_cons, zlen_nil. lia.
Qed.

Lemma store_all_last words : forall to acc,
  1 <= max_len <= zlen to ->
  (forall v, acc = Some v -> exists t, to = stored max_len v t) ->
  forall v, last_value name words acc = Some v -> exists t, store_all words to = stored max_len v t.
Proof.
  induction words as [|[k w] rest IH]; intros to acc Hto Hacc v Hv; cbn in *; [by apply Hacc |].
  eapply IH; [| | exact Hv]; destruct (decide (k = name)); try done.
  - by rewrite zlen_stored.
  - intros ? [= <-]. eauto.
Qed.

Lemma store_all_none words : forall to, last_value name words None = None -> store_all words to = to.
Proof.
  assert (forall words v, exists v', last_value name words (Some v) = Some v') as Hs.
  { intros ws. induction ws as [|[k w] rest IH]; intros v; cbn; [by eauto |]. destruct (decide _); apply IH. }
  induction words as [|[k w] rest IH]; intros to Hv; cbn in *; [done |].
  destruct (decide (k = name)); [| by apply IH]. destruct (Hs rest w). congruence.
Qed.

Lemma mentions_last words : forall acc, 
  mentions words (bool_decide (is_Some acc)) = bool_decide (is_Some (last_value name words acc)).
Proof.
  induction words as [|[k w] rest IH]; intros acc; cbn; [done |].
  rewrite <- IH. unfold mentions. f_equal. destruct (decide (k = name)); [| done].
  symmetry. apply bool_decide_eq_true_2. eauto.
Qed.
End words.


(** ** Numbers *)

Definition digit_char (d : Z) : Z := if d <? 10 then 48 + d else 87 + d.

(** The digits of [n] in the given base, most significant first. *)
Fixpoint digits (fuel : nat) (base n : Z) (acc : list Z) : list Z :=
  match fuel with
  | O => acc
  | S fuel => if n <? base then n :: acc else digits fuel base (n / base) (n mod base :: acc)
  end.
Definition digits_of (base n : Z) : list Z := digits (S (Z.to_nat (Z.log2 n))) base n [].

Definition print_dec (n : Z) : bytes := digit_char <$> digits_of 10 n.
Definition print_hex (n : Z) : bytes := lit "0x" ++ (digit_char <$> digits_of 16 n).

Definition horner (base : Z) (v : Z) (ds : list Z) : Z := foldl (fun v d => v * base + d) v ds.

Lemma digits_spec base fuel : forall n acc, 2 <= base -> 0 <= n < 2 ^ Z.of_nat fuel -> (0 < fuel)%nat ->
  Forall (fun d => 0 <= d < base) acc ->
  exists ds, digits fuel base n acc = ds ++ acc /\ Forall (fun d => 0 <= d < base) ds /\
    horner base 0 ds = n /\ exists d0 ds', ds = d0 :: ds' /\ (d0 = 0 -> ds' = []).
Proof.
  induction fuel as [|fuel IH]; intros n acc Hb Hn Hf Hacc; [lia |]. cbn [digits].
  destruct (Z.ltb_spec n base).
  - exists [n]. split_and!; [done | constructor; [lia | done] | cbn; lia | by exists n, []].
  - destruct (IH (n / base) (n mod base :: acc) Hb) as (ds & -> & Hds & Hv & d0 & ds' & Ed & H0).
    + rewrite Nat2Z.inj_succ, Z.pow_succ_r in Hn by lia.
      split; [apply Z.div_pos; lia |]. apply Z.div_lt_upper_bound; [lia |]. nia.
    + destruct fuel; [| lia]. cbn in Hn. lia.
    + constructor; [apply Z.mod_pos_bound; lia | done].
    + exists (ds ++ [n mod base]). rewrite <- app_assoc. split_and!; [done | | |].
      * apply Forall_app. split; [done |]. constructor; [apply Z.mod_pos_bound; lia | done].
      * unfold horner in *. rewrite foldl_app, Hv. cbn. pose proof (Z.div_mod n base). lia.
      * exists d0, (ds' ++ [n mod base]). subst ds. split; [done |]. intros ->.
        rewrite (H0 eq_refl) in Hv. cbn in Hv. exfalso.
        assert (1 <= n / base) by (apply Z.div_le_lower_bound; lia). lia.
Qed.

Lemma digits_of_spec base n : 2 <= base -> 0 <= n ->
  Forall (fun d => 0 <= d < base) (digits_of base n) /\ horner base 0 (digits_of base n) = n /\
  exists d0 ds, digits_of base n = d0 :: ds /\ (d0 = 0 -> ds = []).
Proof.
  intros Hb Hn. destruct (digits_spec base (S (Z.to_nat (Z.log2 n))) n [] Hb) as (ds & E & H1 & H2 & H3);
    [| lia | done |].
  - pose proof (Z.log2_nonneg n). rewrite Nat2Z.inj_succ, Z2Nat.id by done.
    destruct (decide (n = 0)) as [-> |]; [done |]. pose proof (Z.log2_spec n ltac:(lia)). lia.
  - unfold digits_of. rewrite E, app_nil_r. eauto.
Qed.

Lemma classify_digit radix d : radix = 10 \/ radix = 16 -> 0 <= d < radix ->
  classify radix (digit_char d) = IsDigit d /\ isargsep (digit_char d) = false.
Proof.
  intros Hr Hd. assert (exists k : nat, d = Z.of_nat k /\ (k < 16)%nat) as (k & -> & Hk)
    by (exists (Z.to_nat d); lia).
  destruct Hr as [-> | ->]; do 16 (destruct k as [|k]; [first [done | lia] |]); lia.
Qed.

Lemma s64_mul_u64_l x y : s64 (u64 x * y) = s64 (x * y).
Proof. rewrite <- s64_u64, <- (s64_u64 (x * y)). unfold u64. by rewrite Zmult_mod_idemp_l. Qed.

Lemma getval_loop radix sign ds : forall pre e rest v fuel,
  radix = 10 \/ radix = 16 -> Forall (fun d => 0 <= d < radix) ds -> isargsep e = true ->
  (length ds < fuel)%nat ->
  loop fuel (getval_step isargsep (pre ++ (digit_char <$> ds) ++ e :: rest) radix sign) (zlen pre, u64 v)
  = Some (NUM (s64 (horner radix v ds * sign))).
Proof.
  induction ds as [|d ds IH]; intros pre e rest v fuel Hr Hds He Hf;
    (destruct fuel as [|fuel]; [cbn in Hf; lia |]); cbn [loop].
  - unfold getval_step. cbn [fmap list_fmap app]. rewrite byte_at_here. cbn [mbind option_bind].
    rewrite He. cbn [horner foldl]. by rewrite s64_u64, s64_mul_u64_l.
  - apply Forall_cons in Hds as [Hd Hds]. destruct (classify_digit radix d Hr Hd) as [Hc Hs].
    unfold getval_step at 1. cbn [fmap list_fmap app]. rewrite byte_at_here. cbn [mbind option_bind].
    rewrite Hs, Hc, (proj2 (Z.leb_gt radix d)) by lia.
    replace (zlen pre + 1) with (zlen (pre ++ [digit_char d])) by by rewrite zlen_app.
    replace (u64 (u64 (u64 v * radix) + d)) with (u64 (v * radix + d)).
    2:{ unfold u64. by rewrite Zmult_mod_idemp_l, Zplus_mod_idemp_l. }
    replace (pre ++ digit_char d :: (digit_char <$> ds) ++ e :: rest) with
      ((pre ++ [digit_char d]) ++ (digit_char <$> ds) ++ e :: rest) by by rewrite <- app_assoc.
    apply IH; try done. cbn in Hf. lia.
Qed.

Section getval_digits.
Context (pre rest : bytes) (e : Z) (He : isargsep e = true).

Lemma byte_at_off (w : bytes) (i : Z) rest' c : elem_at w i = Some c ->
  byte_at (pre ++ w ++ rest') (zlen pre + i) = Some c.
Proof.
  intros H. pose proof (elem_at_lt _ _ _ H). rewrite byte_at_elem, elem_at_app_r by lia.
  rewrite elem_at_app_l by lia. rewrite <- H. f_equal. lia.
Qed.

Lemma getval_hex n : 0 <= n ->
  getval (pre ++ (61 :: print_hex n) ++ e :: rest) (zlen pre) isargsep false = Some (NUM (s64 n)).
Proof.
  intros Hn. destruct (digits_of_spec 16 n ltac:(lia) Hn) as (Hds & Hv & _).
  set (line := pre ++ _). unfold getval.
  assert (forall i c, elem_at (61 :: print_hex n) i = Some c -> byte_at line (zlen pre + i) = Some c) as Hb
    by (intros; by apply byte_at_off).
  rewrite <- (Z.add_0_r (zlen pre)). rewrite (Hb 0 61) by done. cbn [mbind option_bind].
  cbn [Z.eqb Pos.eqb orb]. rewrite <- !Z.add_assoc. rewrite (Hb (0 + 1) 48) by done.
  cbn [mbind option_bind Z.eqb Pos.eqb]. rewrite (Hb (0 + 1) 48) by done. cbn [mbind option_bind].
  rewrite <- !Z.add_assoc. unfold getval_radix. change (u64 (48 - 48)) with 0. cbn [Z.eqb].
  rewrite (Hb (0 + (1 + 1)) 120) by done. cbn [mbind option_bind Z.eqb Pos.eqb].
  unfold line. change (61 :: print_hex n) with ([61; 48; 120] ++ (digit_char <$> digits_of 16 n)).
  rewrite <- app_assoc, app_assoc. rewrite <- Z.add_assoc.
  replace (zlen pre + _) with (zlen (pre ++ [61; 48; 120])) by (rewrite zlen_app; done).
  change 0 with (u64 0) at 1. rewrite getval_loop; [| by right | done | done |].
  - by rewrite Hv, Z.mul_1_r.
  - unfold scan_fuel. rewrite !length_app, length_fmap. lia.
Qed.

(** The unsigned decimal digits, after an optional sign. *)
Lemma getval_dec (neg : bool) n : 0 <= n ->
  getval (pre ++ (61 :: (if neg then [45] else []) ++ print_dec n) ++ e :: rest) (zlen pre) isargsep false
  = Some (NUM (s64 (if neg then - n else n))).
Proof.
  intros Hn. destruct (digits_of_spec 10 n ltac:(lia) Hn) as (Hds & Hv & d0 & ds & Ed & H0).
  unfold print_dec. rewrite Ed in *. apply Forall_cons in Hds as [Hd0 Hds].
  set (sg := if neg then [45] else []). set (sgn := if neg then -1 else 1).
  set (line := pre ++ _). set (k := 1 + zlen sg).
  assert (byte_at line (zlen pre) = Some 61) as E0 by apply byte_at_here.
  assert (byte_at line (zlen pre + k) = Some (digit_char d0)) as Ek.
  { apply byte_at_off. unfold k, sg. by destruct neg. }
  assert (isargsep (digit_char d0) = false /\ digit_char d0 = 48 + d0) as [Hs0 Ec0].
  { split; [by apply (classify_digit 10); [left |] |]. unfold digit_char.
    by rewrite (proj2 (Z.ltb_lt _ _)) by lia. }
  unfold getval. rewrite E0. cbn [mbind option_bind Z.eqb Pos.eqb orb].
  assert (exists c1, byte_at line (zlen pre + 1) = Some c1 /\
    (if c1 =? 45 then (-1, zlen pre + 1 + 1) else (1, zlen pre + 1)) = (sgn, zlen pre + k)) as (c1 & -> & Ec1).
  { unfold k, sg, sgn in *. destruct neg; [exists 45 | exists (digit_char d0)].
    - split; [by apply byte_at_off |]. cbn [Z.eqb Pos.eqb]. f_equal. rewrite zlen_cons, zlen_nil. lia.
    - split; [done |]. rewrite (proj2 (Z.eqb_neq _ _)) by lia. done. }
  cbn [mbind option_bind]. rewrite Ec1, Ek. cbn [mbind option_bind]. rewrite Ec0.
  replace (48 + d0 - 48) with d0 by lia. rewrite (u64_small d0) by cint.
  set (pre' := pre ++ 61 :: sg ++ [digit_char d0]).
  assert (line = pre' ++ (digit_char <$> ds) ++ e :: rest) as El.
  { unfold line, pre'. cbn [fmap list_fmap]. rewrite <- !app_assoc. cbn [app]. by rewrite <- !app_assoc. }
  assert (zlen pre + k + 1 = zlen pre') as Ep.
  { unfold pre', k. rewrite zlen_app, zlen_cons, zlen_app, zlen_cons, zlen_nil. lia. }
  rewrite Ep.
  assert (getval_radix isargsep line (zlen pre') d0 = Some (Some (zlen pre', 10, d0))) as ->.
  { unfold getval_radix. destruct (Z.eqb_spec d0 0) as [-> |].
    - rewrite (H0 eq_refl) in El. rewrite El. cbn [fmap list_fmap app]. rewrite byte_at_here.
      cbn [mbind option_bind]. unfold isargsep in *.
      destruct (Z.eqb_spec e 32), (Z.eqb_spec e 0), (Z.eqb_spec e 9); subst; try done.
    - by rewrite (proj2 (Z.leb_gt 10 d0)) by lia. }
  cbn [mbind option_bind]. rewrite El.
  replace d0 with (u64 d0) by (apply u64_small; cint).
  rewrite getval_loop; [| by left | done | done |].
  - do 3 f_equal. change (horner 10 d0 ds) with (horner 10 (0 * 10 + d0) ds).
    cbn [horner foldl] in Hv. unfold horner. rewrite Hv. unfold sgn. destruct neg; lia.
  - unfold scan_fuel. rewrite !length_app, length_fmap. lia.
Qed.
End getval_digits.

(** Numbers survive printing: the value of an argument written in decimal, in negative
    decimal or in hexadecimal, and followed by a separator, is read back as that integer
    reduced to 64-bit two's complement. *)
Theorem getval_round_trip (pre rest : bytes) (e n : Z) (He : isargsep e = true) (Hn : 0 <= n) :
  getval (pre ++ (61 :: print_dec n) ++ e :: rest) (zlen pre) isargsep false = Some (NUM (s64 n)) /\
  getval (pre ++ (61 :: 45 :: print_dec n) ++ e :: rest) (zlen pre) isargsep false = Some (NUM (s64 (- n))) /\
  getval (pre ++ (61 :: print_hex n) ++ e :: rest) (zlen pre) isargsep false = Some (NUM (s64 n)).
Proof.
  split_and!; [by apply (getval_dec _ _ _ He false) | by apply (getval_dec _ _ _ He true) | by apply getval_hex].
Qed.

Lemma getval_round_trip_witness :
  getval (lit "mem" ++ (61 :: print_hex 0xBAADF00D) ++ 32 :: [0]) 3 isargsep false
    = Some (NUM (s64 0xBAADF00D)).
Proof. exact (proj2 (proj2 (getval_round_trip (lit "mem") [0] 32 0xBAADF00D eq_refl ltac:(lia)))). Defined.

(** ** What the safety hypotheses exclude *)

(** A name that starts with an underscore is copied with at least 16 characters whatever the
    caller's [max_len]; without a value the copy starts one character behind the word that
    follows, or behind the terminator of the line. *)
Theorem underscore_argument_unsafe :
  PE_parse_boot_argn (lit "_panicd=10.0.1.128" ++ [0]) (lit "_panicd") (replicate 4 0) 4 = None /\
  PE_parse_boot_argn (lit "_panicd rd=md0" ++ [0]) (lit "_panicd") (replicate 17 0) 17 =
    Some (true, lit "d=md0" ++ replicate 12 0) /\
  PE_parse_boot_argn (lit "_panicd" ++ [0]) (lit "_panicd") (replicate 17 0) 17 = None.
Proof. by vm_compute. Qed.

(** In string mode a flag writes two bytes even when the caller has room for one. *)
Theorem one_byte_string_overrun :
  PE_parse_boot_arg_str (lit "-v" ++ [0]) (lit "-v") (replicate 1 0) 1 = None.
Proof. by vm_compute. Qed.
