(* ===== verification/DeviceTree.v ===== *)
(** * The flattened device tree: the kernel's reader

    Models pexpert/gen/device_tree.c over the structures of pexpert/device_tree.h, and
    [PE_get_default] of pexpert/gen/bootargs.c.  A pointer is its 64-bit address (0 is
    NULL) and the only mapped memory is the blob at its base, so a computation has four
    outcomes: a value, the panic of a failed region check, a fault (an access outside the
    blob that no check caught), or fuel that ran out. *)

From stdpp Require Import base list strings.
From Stdlib Require Import ZArith Lia.
From S2P Require Import Prelude.

(** ** Constants and sizes *)

Definition kSuccess : Z := 0.
Definition kError : Z := -1.
Definition kIterationDone : Z := 1.
Definition kDTPathNameSeparator : Z := 47.
Definition kDTMaxEntryNameLength : Z := 63.
Definition kPropNameLength : Z := 32.
Definition sizeof_DeviceTreeNode : Z := 8.
Definition sizeof_DeviceTreeNodeProperty : Z := kPropNameLength + 4.

(** ** State *)

(** The file's globals. *)
Record dt_globals := DTGlobals {
  DTInitialized : bool;
  DTRootNode : Z;
  DTSize : Z;
  DTEnd : Z }.

Definition SecureDTInit (base size : Z) : outcome dt_globals :=
  if u64 (base + size) <? base then Panic
  else Ret {| DTInitialized := negb (base =? 0); DTRootNode := base; DTSize := size;
              DTEnd := u64 (base + size) |}.

Record DTSavedScope := SavedScope { ss_scope : Z; ss_entry : Z; ss_index : Z }.

(** [savedScope] is a linked list of scopes, newest first. *)
Record DTEntryIterator := EntryIterator {
  outerScope : Z;
  currentScope : Z;
  currentEntry : Z;
  savedScope : list DTSavedScope;
  currentIndex : Z }.

Record DTPropertyIterator := PropertyIterator {
  pi_entry : Z;
  currentProperty : Z;
  pi_currentIndex : Z }.

Definition SecureDTEntryIsEqual (ref1 ref2 : Z) : bool := ref1 =? ref2.

Section reader.
(** The blob and the address it is mapped at. *)
Context (mem_base : Z) (blob : bytes).

(** ** Memory *)

Definition rd8 (a : Z) : outcome Z := of_option (byte_at blob (a - mem_base)).
Definition rd32 (a : Z) : outcome Z :=
  bs ← of_option (sub_bytes blob (a - mem_base) 4); Ret (le_combine bs).

(** [strcmp(a, s) == 0] against a terminated string of the caller. *)
Fixpoint strcmp_eq (a : Z) (s : bytes) : outcome bool :=
  match s with
  | [] => Fault
  | y :: s => c ← rd8 a;
      if negb (c =? y) then Ret false else if c =? 0 then Ret true else strcmp_eq (a + 1) s
  end.

(** [strncmp(s, a, n) == 0]. *)
Fixpoint strncmp_mem_eq (n : nat) (s : bytes) (a : Z) : outcome bool :=
  match n with
  | O => Ret true
  | S n =>
      match s with
      | [] => Fault
      | y :: s => c ← rd8 a;
          if negb (c =? y) then Ret false
          else if c =? 0 then Ret true
          else strncmp_mem_eq n s (a + 1)
      end
  end.

Definition memcmp_eq (value : bytes) (a n : Z) : outcome bool :=
  x ← of_option (sub_bytes value 0 n);
  y ← of_option (sub_bytes blob (a - mem_base) n);
  Ret (bool_decide (x = y)).

Definition nProperties (node : Z) : outcome Z := rd32 node.
Definition nChildren (node : Z) : outcome Z := rd32 (node + 4).
Definition prop_length (prop : Z) : outcome Z := rd32 (prop + kPropNameLength).

(** ** Region checks *)

Definition assert_in_dt_region (start end_ p : Z) : outcome unit :=
  if (p <? start) || (end_ <? p) then Panic else Ret tt.

(** [os_add3_overflow] on addresses. *)
Definition add3 (a b c : Z) : outcome Z := if 2 ^ 64 <=? a + b + c then Panic else Ret (a + b + c).

Definition assert_prop_in_dt_region (start end_ prop : Z) : outcome unit :=
  _ ← assert_in_dt_region start end_ prop;
  _ ← assert_in_dt_region start end_ (u64 (prop + sizeof_DeviceTreeNodeProperty));
  len ← prop_length prop;
  prop_end ← add3 prop sizeof_DeviceTreeNodeProperty len;
  assert_in_dt_region start end_ prop_end.

Definition assert_header_in_dt_region (start end_ p size : Z) : outcome unit :=
  assert_in_dt_region start end_ (u64 (p + size)).

Definition next_prop_region (start end_ prop : Z) : outcome Z :=
  _ ← assert_header_in_dt_region start end_ prop sizeof_DeviceTreeNodeProperty;
  len ← prop_length prop;
  next_addr ← add3 prop len (sizeof_DeviceTreeNodeProperty + 3);
  Ret (Z.land next_addr (Z.lnot 3)).

Context (g : dt_globals).

Definition ASSERT_IN_DT (p : Z) : outcome unit := assert_in_dt_region (DTRootNode g) (DTEnd g) p.
Definition ASSERT_PROP_IN_DT (prop : Z) : outcome unit :=
  assert_prop_in_dt_region (DTRootNode g) (DTEnd g) prop.
Definition ASSERT_HEADER_IN_DT (p size : Z) : outcome unit := ASSERT_IN_DT (u64 (p + size)).
Definition next_prop (prop : Z) : outcome Z := next_prop_region (DTRootNode g) (DTEnd g) prop.

(** ** Walking *)

Definition skipProperties (entry : Z) : outcome Z :=
  if entry =? 0 then Ret 0
  else
    _ ← ASSERT_HEADER_IN_DT entry sizeof_DeviceTreeNode;
    n ← nProperties entry;
    if n =? 0 then Ret 0
    else
      r ← for_ret (R := Empty_set) (Z.to_nat n) 0 (fun _ prop => p ← next_prop prop; Ret (Next p))
            (entry + sizeof_DeviceTreeNode);
      match r with
      | Next prop => _ ← ASSERT_IN_DT prop; Ret prop
      | Exit e => match (e : Empty_set) with end
      end.

Fixpoint skipTree (fuel : nat) (root : Z) : outcome Z :=
  match fuel with
  | O => NoFuel
  | S fuel =>
      _ ← ASSERT_HEADER_IN_DT root sizeof_DeviceTreeNode;
      entry ← skipProperties root;
      if entry =? 0 then Ret 0
      else
        n ← nChildren root;
        r ← for_ret (R := Empty_set) (Z.to_nat n) 0 (fun _ entry => e ← skipTree fuel entry; Ret (Next e))
              entry;
        match r with
        | Next entry => Ret entry
        | Exit e => match (e : Empty_set) with end
        end
  end.

(** Every call of [skipTree] that recurses is past a node header and a property header of
    the region. *)
Definition dt_fuel : nat := S (length blob).

Definition GetFirstChild (parent : Z) : outcome Z := skipProperties parent.
Definition GetNextChild (sibling : Z) : outcome Z := skipTree dt_fuel sibling.

(** ** Properties *)

(** Result: the value's address and length. *)
Definition SecureDTGetPropertyInternal (entry : Z) (propertyName : bytes)
    (region_start region_size : Z) : outcome (option (Z * Z)) :=
  if entry =? 0 then Ret None
  else
    let end_ := u64 (region_start + region_size) in
    _ ← assert_header_in_dt_region region_start end_ entry sizeof_DeviceTreeNode;
    n ← nProperties entry;
    if n =? 0 then Ret None
    else
      r ← for_ret (Z.to_nat n) 0
            (fun _ prop =>
               _ ← assert_prop_in_dt_region region_start end_ prop;
               eq ← strcmp_eq prop propertyName;
               if eq : bool then
                 len ← prop_length prop;
                 Ret (Exit (prop + sizeof_DeviceTreeNodeProperty, len))
               else p ← next_prop_region region_start end_ prop; Ret (Next p))
            (entry + sizeof_DeviceTreeNode);
      match r with
      | Exit v => Ret (Some v)
      | Next _ => Ret None
      end.

Definition SecureDTGetProperty (entry : Z) (propertyName : bytes) : outcome (option (Z * Z)) :=
  SecureDTGetPropertyInternal entry propertyName (DTRootNode g) (u64 (DTEnd g - DTRootNode g)).

Definition SecureDTGetPropertyRegion (entry : Z) (propertyName : bytes)
    (region_start region_size : Z) : outcome (option (Z * Z)) :=
  SecureDTGetPropertyInternal entry propertyName region_start region_size.

(** ** Paths *)

(** Copy the next component of the path at [cp] to the buffer; result: the new position and
    the buffer. *)
Definition GetNextComponent_step (path : bytes) (st : Z * Z * bytes)
    : outcome (ctl (Z * Z * bytes) (Z * bytes)) :=
  let '(cp, length, bp) := st in
  c ← of_option (byte_at path cp);
  if c =? 0 then bp ← of_option (put_byte bp length 0); Ret (Exit (cp, bp))
  else if c =? kDTPathNameSeparator then
    bp ← of_option (put_byte bp length 0); Ret (Exit (cp + 1, bp))
  else if kDTMaxEntryNameLength <? length + 1 then
    bp ← of_option (put_byte bp 0 0); Ret (Exit (cp, bp))
  else bp ← of_option (put_byte bp length c); Ret (Next (cp + 1, length + 1, bp)).

Definition GetNextComponent (path : bytes) (cp : Z) (bp : bytes) : outcome (Z * bytes) :=
  loop_ret (S (length path)) (GetNextComponent_step path) (cp, 0, bp).

Definition name_str : bytes := lit "name" ++ [0].

Definition FindChild (cur : Z) (buf : bytes) : outcome Z :=
  _ ← ASSERT_HEADER_IN_DT cur sizeof_DeviceTreeNode;
  n ← nChildren cur;
  if n =? 0 then Ret 0
  else
    child ← GetFirstChild cur;
    r ← for_ret (Z.to_nat n) 1
          (fun index child =>
             p ← SecureDTGetProperty child name_str;
             match p with
             | None => Ret (Exit 0)
             | Some (str, _) =>
                 eq ← strcmp_eq str buf;
                 if eq : bool then Ret (Exit child)
                 else if n <=? index then Ret (Exit 0)
                 else child ← GetNextChild child; Ret (Next child)
             end)
          child;
    match r with
    | Exit e => Ret e
    | Next _ => Ret 0
    end.

(** Result: the entry found, or [kError]. *)
Definition SecureDTLookupEntry_step (path : bytes) (st : Z * Z * bytes)
    : outcome (ctl (Z * Z * bytes) (option Z)) :=
  let '(cur, cp, buf) := st in
  '(cp, buf) ← GetNextComponent path cp buf;
  b0 ← of_option (byte_at buf 0);
  if b0 =? 0 then
    c ← of_option (byte_at path cp);
    if c =? 0 then Ret (Exit (Some cur)) else Ret (Exit None)
  else
    cur ← FindChild cur buf;
    if cur =? 0 then Ret (Exit None) else Ret (Next (cur, cp, buf)).

(** [buf] is uninitialised: its bytes are a parameter. *)
Definition SecureDTLookupEntry (buf : bytes) (searchPoint : Z) (pathName : bytes)
    : outcome (option Z) :=
  if negb (DTInitialized g) then Ret None
  else
    let cur := if searchPoint =? 0 then DTRootNode g else searchPoint in
    _ ← ASSERT_IN_DT cur;
    c0 ← of_option (byte_at pathName 0);
    if c0 =? kDTPathNameSeparator then
      c1 ← of_option (byte_at pathName 1);
      if c1 =? 0 then Ret (Some cur)
      else loop_ret (S (length pathName)) (SecureDTLookupEntry_step pathName) (cur, 1, buf)
    else loop_ret (S (length pathName)) (SecureDTLookupEntry_step pathName) (cur, 0, buf).

(** ** Searches *)

(** [startingP] is a global: result is the entry found, or none, and the new [startingP]. *)
Fixpoint find_entry (fuel : nat) (propName : bytes) (propValue : option bytes) (startingP : Z)
    : outcome (option Z * Z) :=
  match fuel with
  | O => NoFuel
  | S fuel =>
      let nodeP := startingP in
      _ ← ASSERT_HEADER_IN_DT nodeP sizeof_DeviceTreeNode;
      np ← nProperties nodeP;
      if np =? 0 then Ret (None, startingP)
      else
        r ← for_ret (Z.to_nat np) 0
              (fun _ startingP =>
                 let propP := startingP in
                 _ ← ASSERT_PROP_IN_DT propP;
                 len ← prop_length propP;
                 let startingP :=
                   startingP + (sizeof_DeviceTreeNodeProperty + Z.land (u32 (len + 3)) (u32 (-4))) in
                 eq ← strcmp_eq propP propName;
                 if eq : bool then
                   eqv ← match propValue with
                         | None => Ret true
                         | Some v => strcmp_eq (propP + sizeof_DeviceTreeNodeProperty) v
                         end;
                   if eqv : bool then
                     _ ← ASSERT_HEADER_IN_DT nodeP sizeof_DeviceTreeNode; Ret (Exit startingP)
                   else Ret (Next startingP)
                 else Ret (Next startingP))
              (startingP + sizeof_DeviceTreeNode);
        match r with
        | Exit startingP => Ret (Some nodeP, startingP)
        | Next startingP =>
            nc ← nChildren nodeP;
            r ← for_ret (Z.to_nat nc) 0
                  (fun _ startingP =>
                     '(e, startingP) ← find_entry fuel propName propValue startingP;
                     match e with
                     | Some e => Ret (Exit (e, startingP))
                     | None => Ret (Next startingP)
                     end)
                  startingP;
            match r with
            | Exit (e, startingP) => Ret (Some e, startingP)
            | Next startingP => Ret (None, startingP)
            end
        end
  end.

Definition SecureDTFindEntry (propName : bytes) (propValue : option bytes) : outcome (option Z) :=
  if negb (DTInitialized g) then Ret None
  else '(e, _) ← find_entry dt_fuel propName propValue (DTRootNode g); Ret e.

(** Result: the node found, or the size of the searched subtree. *)
Fixpoint SecureDTFindNodeWithPropertyEqualToValueHelper (fuel : nat)
    (propertyName propertyValue : bytes) (propertyValueSize currentNode : Z)
    : outcome (Z + Z) :=
  match fuel with
  | O => NoFuel
  | S fuel =>
      np ← nProperties currentNode;
      r ← for_ret (Z.to_nat np) 0
            (fun _ property =>
               len ← prop_length property;
               let next :=
                 property + (sizeof_DeviceTreeNodeProperty + Z.land (u32 (len + 3)) (u32 (-4))) in
               eqn ← strncmp_mem_eq (Z.to_nat kPropNameLength) propertyName property;
               if negb eqn then Ret (Next next)
               else if negb (propertyValueSize =? len) then Ret (Next next)
               else
                 eqv ← memcmp_eq propertyValue (property + sizeof_DeviceTreeNodeProperty)
                         propertyValueSize;
                 if negb eqv then Ret (Next next) else Ret (Exit currentNode))
            (currentNode + sizeof_DeviceTreeNode);
      match r with
      | Exit n => Ret (inl n)
      | Next current_position =>
          nc ← nChildren currentNode;
          r ← for_ret (Z.to_nat nc) 0
                (fun _ current_position =>
                   r ← SecureDTFindNodeWithPropertyEqualToValueHelper fuel propertyName
                         propertyValue propertyValueSize current_position;
                   match r with
                   | inl n => Ret (Exit n)
                   | inr child_size => Ret (Next (current_position + child_size))
                   end)
                current_position;
          match r with
          | Exit n => Ret (inl n)
          | Next current_position => Ret (inr (current_position - currentNode))
          end
      end
  end.

Definition SecureDTFindNodeWithPropertyEqualToValue (propertyName propertyValue : bytes)
    (propertyValueSize : Z) : outcome (option Z) :=
  if negb (DTInitialized g) then Ret None
  else
    r ← SecureDTFindNodeWithPropertyEqualToValueHelper dt_fuel propertyName propertyValue
          propertyValueSize (DTRootNode g);
    Ret (match r with inl n => Some n | inr _ => None end).

Definition SecureDTFindNodeWithPhandle (phandle : Z) : outcome (option Z) :=
  SecureDTFindNodeWithPropertyEqualToValue (lit "AAPL,phandle" ++ [0]) (le_split 4 phandle) 4.

(** [propertyValue] with its terminator: [strlen + 1] is its length. *)
Definition SecureDTFindNodeWithStringProperty (propertyName propertyValue : bytes)
    : outcome (option Z) :=
  SecureDTFindNodeWithPropertyEqualToValue propertyName propertyValue (zlen propertyValue).

(** ** Iterators *)

Definition SecureDTInitEntryIterator (startEntry : Z) : option DTEntryIterator :=
  if negb (DTInitialized g) then None
  else
    let s := if negb (startEntry =? 0) then startEntry else DTRootNode g in
    Some {| outerScope := s; currentScope := s; currentEntry := 0; savedScope := [];
            currentIndex := 0 |}.

Definition SecureDTEnterEntry (iter : DTEntryIterator) (childEntry : Z) : option DTEntryIterator :=
  if childEntry =? 0 then None
  else
    Some {| outerScope := outerScope iter; currentScope := childEntry; currentEntry := 0;
            savedScope := {| ss_scope := currentScope iter; ss_entry := currentEntry iter;
                             ss_index := currentIndex iter |} :: savedScope iter;
            currentIndex := 0 |}.

(** Result: the iterator and [*currentPosition]. *)
Definition SecureDTExitEntry (iter : DTEntryIterator) : option (DTEntryIterator * Z) :=
  match savedScope iter with
  | [] => None
  | s :: rest =>
      Some ({| outerScope := outerScope iter; currentScope := ss_scope s;
               currentEntry := ss_entry s; savedScope := rest; currentIndex := ss_index s |},
            ss_entry s)
  end.

(** Result: [kIterationDone] or the next entry, and the iterator. *)
Definition SecureDTIterateEntries (iter : DTEntryIterator) : outcome (option Z * DTEntryIterator) :=
  n ← nChildren (currentScope iter);
  if n <=? currentIndex iter then Ret (None, iter)
  else
    let idx := u64 (currentIndex iter + 1) in
    e ← (if idx =? 1 then GetFirstChild (currentScope iter) else GetNextChild (currentEntry iter));
    _ ← ASSERT_IN_DT e;
    Ret (Some e, {| outerScope := outerScope iter; currentScope := currentScope iter;
                    currentEntry := e; savedScope := savedScope iter; currentIndex := idx |}).

Definition SecureDTRestartEntryIteration (iter : DTEntryIterator) : DTEntryIterator :=
  {| outerScope := outerScope iter; currentScope := currentScope iter; currentEntry := 0;
     savedScope := savedScope iter; currentIndex := 0 |}.

Definition SecureDTInitPropertyIterator (entry : Z) : DTPropertyIterator :=
  {| pi_entry := entry; currentProperty := 0; pi_currentIndex := 0 |}.

(** Result: [kIterationDone] or the address of the name, and the iterator. *)
Definition SecureDTIterateProperties (iter : DTPropertyIterator)
    : outcome (option Z * DTPropertyIterator) :=
  n ← nProperties (pi_entry iter);
  if n <=? pi_currentIndex iter then Ret (None, iter)
  else
    let idx := u64 (pi_currentIndex iter + 1) in
    p ← (if idx =? 1 then Ret (pi_entry iter + sizeof_DeviceTreeNode)
         else next_prop (currentProperty iter));
    _ ← ASSERT_PROP_IN_DT p;
    Ret (Some p, {| pi_entry := pi_entry iter; currentProperty := p; pi_currentIndex := idx |}).

Definition SecureDTRestartPropertyIteration (iter : DTPropertyIterator) : DTPropertyIterator :=
  {| pi_entry := pi_entry iter; currentProperty := 0; pi_currentIndex := 0 |}.

(** ** Platform defaults *)

(** I/O Kit's own lookup is outside the modelled code: its result code and the buffer it
    leaves. *)
Context (IODTGetDefault : bytes -> bytes -> Z -> Z * bytes).

Definition PE_get_default (buf property_name property_ptr : bytes) (max_property : Z)
    : outcome (bool * bytes) :=
  dte ← SecureDTLookupEntry buf 0 (lit "/defaults" ++ [0]);
  match dte with
  | Some dte =>
      p ← SecureDTGetProperty dte property_name;
      match p with
      | None => Ret (false, property_ptr)
      | Some (property_data, property_size) =>
          if max_property <? property_size then Ret (false, property_ptr)
          else
            bs ← of_option (sub_bytes blob (property_data - mem_base) property_size);
            to ← of_option (copy_into property_ptr 0 bs property_size);
            Ret (true, to)
      end
  | None =>
      let '(r, to) := IODTGetDefault property_name property_ptr max_property in
      Ret (if r =? 0 then true else false, to)
  end.

End reader.
