(* ===== verification/DeviceTreeProofs.v ===== *)
(** * The flattened device tree: correctness of the reader

    An abstract tree, its flattening, and the proof that the kernel's reader computes on
    the flattening what the tree says: property lookup, child walks, paths and searches. *)

From stdpp Require Import base list strings.
From Stdlib Require Import ZArith Lia.
From S2P Require Import Prelude DeviceTree.

(** ** Trees and their flattening *)

Inductive dtnode : Type :=
  | DTNode (props : list (bytes * bytes)) (children : list dtnode).

Definition dn_props (t : dtnode) := let 'DTNode ps _ := t in ps.
Definition dn_children (t : dtnode) := let 'DTNode _ cs := t in cs.

Definition dtnode_ind' (P : dtnode -> Prop)
    (H : forall ps cs, Forall P cs -> P (DTNode ps cs)) : forall t, P t :=
  fix go t := match t with
    | DTNode ps cs => H ps cs
        ((fix go_list cs : Forall P cs :=
          match cs with
          | [] => List.Forall_nil P
          | c :: cs => List.Forall_cons P c cs (go c) (go_list cs)
          end) cs)
    end.

Definition pad4 (n : Z) : Z := (- n) mod 4.

Definition flat_prop (p : bytes * bytes) : bytes :=
  p.1 ++ replicate (Z.to_nat (kPropNameLength - zlen p.1)) 0 ++ le_split 4 (zlen p.2) ++
  p.2 ++ replicate (Z.to_nat (pad4 (zlen p.2))) 0.

Fixpoint flat (t : dtnode) : bytes :=
  match t with
  | DTNode ps cs =>
      le_split 4 (zlen ps) ++ le_split 4 (zlen cs) ++ concat (flat_prop <$> ps) ++
      concat (map flat cs)
  end.

(** C strings: no terminator inside. *)
Definition cstr (s : bytes) : Prop := Forall (fun c => c <> 0) s.

Definition prop_ok (p : bytes * bytes) : Prop := cstr p.1 /\ zlen p.1 < kPropNameLength.

(** The first property of that name. *)
Fixpoint prop_find (ps : list (bytes * bytes)) (name : bytes) : option bytes :=
  match ps with
  | [] => None
  | (n, v) :: ps => if decide (n = name) then Some v else prop_find ps name
  end.

(** Every node has a property (the reader stops at a node without one) and a terminated
    name. *)
Inductive tree_ok : dtnode -> Prop :=
  | tree_ok_node ps cs nm : Forall prop_ok ps -> prop_find ps (lit "name") = Some (nm ++ [0]) ->
      cstr nm -> Forall tree_ok cs -> tree_ok (DTNode ps cs).

Definition node_name (t : dtnode) : option bytes := prop_find (dn_props t) (lit "name").

Fixpoint height (t : dtnode) : nat :=
  match t with DTNode _ cs => S (list_max (map height cs)) end.

(** ** Layout lemmas *)

Lemma zlen_flat_prop p : prop_ok p -> zlen (flat_prop p) = 36 + zlen p.2 + pad4 (zlen p.2).
Proof.
  intros [_ Hn]. unfold flat_prop, kPropNameLength in *.
  rewrite !zlen_app, !zlen_replicate, zlen_le_split.
  assert (0 <= pad4 (zlen p.2) < 4) by (apply Z.mod_pos_bound; lia). lia.
Qed.

Lemma pad4_spec n : (n + pad4 n) mod 4 = 0 /\ 0 <= pad4 n < 4.
Proof. unfold pad4. split; [| apply Z.mod_pos_bound; lia]. zdm. Qed.

(** The padding computed with a mask on 32-bit lengths. *)
Lemma pad_mask len : 0 <= len -> len + 3 < 2 ^ 32 ->
  Z.land (u32 (len + 3)) (u32 (-4)) = len + pad4 len.
Proof.
  intros. rewrite (u32_small (len + 3)) by cint. unfold u32. rewrite land_mod_pow2_r by lia.
  change (-4) with (Z.lnot (2 ^ 2 - 1)). rewrite land_lnot_ones by lia. change (2 ^ 2) with 4.
  unfold pad4. zdm.
Qed.

Lemma zlen_concat_props ps : Forall prop_ok ps ->
  zlen (concat (flat_prop <$> ps)) mod 4 = 0 /\ 36 * zlen ps <= zlen (concat (flat_prop <$> ps)).
Proof.
  induction 1 as [|p ps Hp _ [IHm IHl]]; [done |]. cbn [fmap list_fmap concat].
  rewrite zlen_app, zlen_cons, zlen_flat_prop by done.
  destruct (pad4_spec (zlen p.2)). pose proof (zlen_nonneg p.2). split; [| lia].
  set (r := zlen (concat _)) in *. set (q := pad4 _) in *. clearbody r q. zdm.
Qed.

Lemma tree_ok_props t : tree_ok t -> Forall prop_ok (dn_props t) /\ dn_props t <> [].
Proof. intros [ps cs nm Hp Hn _ _]. cbn. split; [done |]. by intros ->. Qed.

Lemma zlen_flat_aligned t : tree_ok t -> zlen (flat t) mod 4 = 0.
Proof.
  induction t as [ps cs IH] using dtnode_ind'. intros Ht. inversion Ht as [? ? nm Hp _ _ Hcs]; subst.
  cbn [flat]. rewrite !zlen_app, !zlen_le_split. destruct (zlen_concat_props ps Hp) as [Hm _].
  assert (zlen (concat (map flat cs)) mod 4 = 0) as Hc.
  { clear -IH Hcs. induction Hcs as [|c cs Hc _ IHcs]; [done |]. apply Forall_cons in IH as [IHc IH].
    cbn [map concat]. rewrite zlen_app. specialize (IHc Hc). specialize (IHcs IH).
    set (x := zlen (flat c)) in *. set (y := zlen _) in *. clearbody x y. zdm. }
  set (x := zlen (concat (map flat cs))) in *. set (y := zlen _) in *. clearbody x y. zdm.
Qed.

Lemma zlen_flat_pos t : 8 <= zlen (flat t).
Proof.
  destruct t as [ps cs]. cbn [flat]. rewrite !zlen_app, !zlen_le_split.
  pose proof (zlen_nonneg (concat (flat_prop <$> ps))). pose proof (zlen_nonneg (concat (map flat cs))). lia.
Qed.

Lemma height_flat t : (height t <= length (flat t))%nat.
Proof.
  induction t as [ps cs IH] using dtnode_ind'. cbn [height flat]. rewrite !length_app, !length_le_split.
  assert (list_max (map height cs) <= length (concat (map flat cs)))%nat; [| lia].
  induction IH as [|c cs Hc _ IHcs]; cbn [map concat list_max foldr]; [lia |].
  change (foldr Nat.max 0%nat (map height cs)) with (list_max (map height cs)).
  rewrite length_app. lia.
Qed.

(** ** Checking a tree *)

Fixpoint cstr_of (w : bytes) : bytes :=
  match w with [] => [] | c :: w => if c =? 0 then [] else c :: cstr_of w end.

Lemma cstr_of_split w : In 0 w -> exists junk, w = cstr_of w ++ 0 :: junk /\ cstr (cstr_of w).
Proof.
  induction w as [|c w IH]; intros Hin; [done |]. cbn [cstr_of].
  destruct (Z.eqb_spec c 0) as [-> | Hc]; [exists w; split; [done | constructor] |].
  destruct Hin as [Hin | Hin]; [done |]. destruct (IH Hin) as (junk & E & Hcs).
  exists junk. split; [cbn; by rewrite <- E |]. by constructor.
Qed.

Definition name_okb (ps : list (bytes * bytes)) : bool :=
  match prop_find ps (lit "name") with
  | Some v => bool_decide (v = cstr_of v ++ [0])
  | None => false
  end.

Fixpoint tree_okb (t : dtnode) : bool :=
  match t with
  | DTNode ps cs =>
      forallb (fun p => bool_decide (Forall (fun c => c <> 0) p.1) && (zlen p.1 <? kPropNameLength)) ps &&
      name_okb ps && forallb tree_okb cs
  end.

Lemma cstr_of_cstr w : cstr (cstr_of w).
Proof.
  induction w as [|c w IH]; cbn [cstr_of]; [constructor |].
  destruct (Z.eqb_spec c 0); [constructor | by constructor].
Qed.

Lemma tree_okb_sound t : tree_okb t = true -> tree_ok t.
Proof.
  induction t as [ps cs IH] using dtnode_ind'. cbn [tree_okb]. intros [[Hp Hn]%andb_true_iff Hc]%andb_true_iff.
  unfold name_okb in Hn. destruct (prop_find ps (lit "name")) as [v |] eqn:Ev; [| done].
  apply bool_decide_eq_true_1 in Hn. rewrite Hn in Ev.
  apply (tree_ok_node ps cs (cstr_of v)); [| done | apply cstr_of_cstr |].
  - apply Forall_forall. intros p Hin%list_elem_of_In. rewrite forallb_forall in Hp.
    specialize (Hp p Hin). apply andb_true_iff in Hp as [H1 H2]. apply bool_decide_eq_true_1 in H1.
    split; [done |]. by apply Z.ltb_lt.
  - rewrite forallb_forall in Hc. apply Forall_forall. intros c Hin.
    rewrite Forall_forall in IH. apply IH; [done |]. apply Hc. by apply list_elem_of_In.
Qed.

Section reader_on_blob.
Context (base : Z) (blob : bytes).
Context (Hbase : 8 < base) (Halign : base mod 4 = 0) (Hend : base + zlen blob + 3 < 2 ^ 64).
Context (Hsize : zlen blob < 2 ^ 32).

Definition globals : dt_globals :=
  {| DTInitialized := true; DTRootNode := base; DTSize := zlen blob; DTEnd := base + zlen blob |}.

(** The bytes at an address. *)
Definition sits (a : Z) (bs : bytes) : Prop := sub_bytes blob (a - base) (zlen bs) = Some bs.

Lemma sits_bounds a bs : sits a bs -> base <= a /\ a + zlen bs <= base + zlen blob.
Proof. intros [H _]%sub_bytes_Some. lia. Qed.

Lemma sits_app a x y : sits a (x ++ y) <-> sits a x /\ sits (a + zlen x) y.
Proof.
  unfold sits. rewrite !sub_bytes_Some, zlen_app.
  pose proof (zlen_nonneg x). pose proof (zlen_nonneg y).
  replace (a + zlen x - base) with (a - base + zlen x) by lia.
  split.
  - intros [Hb E]. rewrite Z2Nat.inj_add in E by lia.
    rewrite (Z2Nat.inj_add (a - base)), <- drop_drop by lia.
    set (l := drop (Z.to_nat (a - base)) blob) in *. rewrite <- take_take_drop in E.
    apply app_inj_1 in E as [E1 E2].
    + split; (split; [lia | done]).
    + rewrite length_take. unfold l. rewrite length_drop. unfold zlen in *. lia.
  - intros [[Hb E1] [Hb2 E2]]. split; [lia |]. rewrite Z2Nat.inj_add by lia.
    rewrite (Z2Nat.inj_add (a - base)), <- drop_drop in E2 by lia.
    rewrite <- take_take_drop. by rewrite <- E1, <- E2.
Qed.

Lemma rd8_sits a c bs : sits a (c :: bs) -> rd8 base blob a = Ret c.
Proof.
  change (c :: bs) with ([c] ++ bs). rewrite sits_app. intros [H _]. unfold sits in H.
  unfold rd8. pose proof H as [Hb E]%sub_bytes_Some. change (zlen [c]) with 1 in *.
  rewrite byte_at_elem.
  assert (elem_at blob (a - base) = Some c) as ->; [| done].
  apply elem_at_Some. split; [lia |].
  pose proof (sub_bytes_lookup _ _ _ _ 0 H ltac:(lia)) as Hl. rewrite Nat.add_0_r in Hl. by rewrite <- Hl.
Qed.

Lemma rd32_sits a v rest : sits a (le_split 4 v ++ rest) -> 0 <= v < 2 ^ 32 ->
  rd32 base blob a = Ret v.
Proof.
  rewrite sits_app. intros [H _] Hv. unfold sits, rd32 in *.
  rewrite zlen_le_split in H. change (Z.of_nat 4) with 4 in H.
  rewrite H. cbn [of_option mbind outcome_bind]. f_equal. by apply le_combine_split_small.
Qed.

Lemma in_region p : base <= p <= base + zlen blob ->
  assert_in_dt_region base (base + zlen blob) p = Ret tt.
Proof.
  intros. unfold assert_in_dt_region. rewrite (proj2 (Z.ltb_ge _ _)) by lia.
  by rewrite (proj2 (Z.ltb_ge _ _)) by lia.
Qed.

Lemma header_in_region p n : base <= p + n <= base + zlen blob ->
  assert_header_in_dt_region base (base + zlen blob) p n = Ret tt.
Proof.
  intros. unfold assert_header_in_dt_region. rewrite u64_small by cint. by apply in_region.
Qed.

(** Comparing a terminated string in memory with one of the caller's. *)
Lemma strcmp_sits n : forall a m junk rest, sits a (n ++ 0 :: rest) -> cstr n -> cstr m ->
  strcmp_eq base blob a (m ++ 0 :: junk) = Ret (bool_decide (n = m)).
Proof.
  induction n as [|x n IH]; intros a m junk rest Hs Hn Hm; destruct m as [|y m]; cbn [app strcmp_eq];
    cbn [app] in Hs; rewrite (rd8_sits _ _ _ Hs); cbn [mbind outcome_bind].
  - done.
  - apply Forall_cons in Hm as [Hy _]. rewrite (proj2 (Z.eqb_neq 0 y)) by done. done.
  - apply Forall_cons in Hn as [Hx _]. rewrite (proj2 (Z.eqb_neq x 0)) by done. done.
  - apply Forall_cons in Hn as [Hx Hn], Hm as [Hy Hm].
    destruct (Z.eqb_spec x y) as [-> |]; cbn [negb].
    + rewrite (proj2 (Z.eqb_neq y 0)) by done. rewrite (IH _ _ _ rest); [| | done | done].
      * f_equal. apply bool_decide_ext. naive_solver.
      * change (y :: n ++ 0 :: rest) with ([y] ++ n ++ 0 :: rest) in Hs.
        by apply sits_app in Hs as [_ Hs].
    + f_equal. symmetry. apply bool_decide_eq_false_2. naive_solver.
Qed.

(** ** Properties *)

Section one_prop.
Context (p : Z) (n v rest : bytes) (Hs : sits p (flat_prop (n, v) ++ rest)).
Context (Hok : prop_ok (n, v)) (Hp : p mod 4 = 0).

Lemma prop_bounds : base <= p /\ p + 36 + zlen v + pad4 (zlen v) <= base + zlen blob.
Proof.
  apply sits_bounds in Hs. rewrite zlen_app, zlen_flat_prop in Hs by done. cbn [snd] in Hs.
  pose proof (zlen_nonneg rest). lia.
Qed.

Lemma prop_name_sits : exists junk, sits p (n ++ 0 :: junk).
Proof.
  unfold flat_prop in Hs. cbn [fst snd] in Hs. destruct Hok as [_ Hn]. cbn in Hn.
  unfold kPropNameLength in *.
  replace (Z.to_nat (32 - zlen n)) with (S (Z.to_nat (31 - zlen n))) in Hs by lia.
  rewrite <- !app_assoc in Hs. cbn [replicate app] in Hs. by eexists.
Qed.

Lemma prop_length_sits : prop_length base blob p = Ret (zlen v).
Proof.
  pose proof prop_bounds. pose proof (zlen_nonneg v). destruct (pad4_spec (zlen v)).
  unfold flat_prop in Hs. cbn [fst snd] in Hs. rewrite app_assoc, <- !app_assoc in Hs.
  rewrite app_assoc in Hs. apply sits_app in Hs as [_ Hl].
  rewrite zlen_app, zlen_replicate in Hl. destruct Hok as [_ Hn]. cbn in Hn.
  unfold prop_length. unfold kPropNameLength in *.
  replace (p + (zlen n + _)) with (p + 32) in Hl by lia.
  eapply rd32_sits; [exact Hl | lia].
Qed.

Lemma prop_value_sits : sits (p + 36) v.
Proof.
  unfold flat_prop in Hs. cbn [fst snd] in Hs. destruct Hok as [_ Hn]. cbn in Hn.
  rewrite <- !app_assoc in Hs. do 3 apply sits_app in Hs as [_ Hs].
  apply sits_app in Hs as [Hv _]. rewrite zlen_replicate, zlen_le_split in Hv. unfold kPropNameLength in *.
  by replace (p + 36) with (p + zlen n + Z.of_nat (Z.to_nat (32 - zlen n)) + Z.of_nat 4) by lia.
Qed.

Lemma add3_small a b c : a + b + c < 2 ^ 64 -> add3 a b c = Ret (a + b + c).
Proof. intros. unfold add3. by rewrite (proj2 (Z.leb_gt _ _)) by lia. Qed.

Lemma assert_prop_sits : assert_prop_in_dt_region base blob base (base + zlen blob) p = Ret tt.
Proof.
  pose proof prop_bounds. pose proof (zlen_nonneg v). destruct (pad4_spec (zlen v)).
  unfold assert_prop_in_dt_region, sizeof_DeviceTreeNodeProperty, kPropNameLength.
  rewrite (in_region p) by lia. cbn [mbind outcome_bind].
  rewrite u64_small by cint. rewrite (in_region (p + _)) by lia. cbn [mbind outcome_bind].
  rewrite prop_length_sits. cbn [mbind outcome_bind].
  rewrite add3_small by lia. cbn [mbind outcome_bind]. apply in_region. lia.
Qed.

Lemma next_prop_sits :
  next_prop_region base blob base (base + zlen blob) p = Ret (p + zlen (flat_prop (n, v))).
Proof.
  pose proof prop_bounds. pose proof (zlen_nonneg v). destruct (pad4_spec (zlen v)).
  unfold next_prop_region, sizeof_DeviceTreeNodeProperty, kPropNameLength.
  rewrite header_in_region by lia. cbn [mbind outcome_bind].
  rewrite prop_length_sits. cbn [mbind outcome_bind].
  rewrite add3_small by (change (2 ^ 64) with 18446744073709551616 in *; lia).
  cbn [mbind outcome_bind]. f_equal. change 3 with (2 ^ 2 - 1) at 2. rewrite land_lnot_ones by lia.
  rewrite zlen_flat_prop by done. cbn [snd]. change (2 ^ 2) with 4. unfold pad4 in *. zdm.
Qed.

Lemma next_aligned : (p + zlen (flat_prop (n, v))) mod 4 = 0.
Proof.
  rewrite zlen_flat_prop by done. cbn [snd]. destruct (pad4_spec (zlen v)).
  set (q := pad4 _) in *. clearbody q. zdm.
Qed.
End one_prop.

(** The value's address and length for the first property of that name. *)
Fixpoint prop_addr (p : Z) (ps : list (bytes * bytes)) (name : bytes) : option (Z * Z) :=
  match ps with
  | [] => None
  | (n, v) :: ps =>
      if decide (n = name) then Some (p + 36, zlen v)
      else prop_addr (p + zlen (flat_prop (n, v))) ps name
  end.

Lemma prop_addr_find ps name : forall p rest, sits p (concat (flat_prop <$> ps) ++ rest) ->
  Forall prop_ok ps ->
  match prop_addr p ps name with
  | Some (a, len) => exists v, prop_find ps name = Some v /\ len = zlen v /\ sits a v
  | None => prop_find ps name = None
  end.
Proof.
  induction ps as [|[n v] ps IH]; intros p rest Hs Hok; cbn [prop_addr prop_find]; [done |].
  apply Forall_cons in Hok as [Hp Hok]. cbn [fmap list_fmap concat] in Hs. rewrite <- app_assoc in Hs.
  destruct (decide (n = name)).
  - exists v. split; [done |]. split; [done |]. by eapply prop_value_sits.
  - apply sits_app in Hs as [_ Hs]. by eapply IH.
Qed.

Lemma u64_region : u64 (base + u64 (base + zlen blob - base)) = base + zlen blob.
Proof.
  pose proof (zlen_nonneg blob). rewrite (u64_small (_ - _)) by cint.
  rewrite u64_small by cint. lia.
Qed.

Section one_node.
Context (a : Z) (ps : list (bytes * bytes)) (cs : list dtnode).
Context (Hs : sits a (flat (DTNode ps cs))) (Hok : Forall prop_ok ps) (Ha : a mod 4 = 0).

Lemma node_bounds : base <= a /\ a + 8 + 36 * zlen ps <= base + zlen blob /\
  a + zlen (flat (DTNode ps cs)) <= base + zlen blob.
Proof.
  apply sits_bounds in Hs. cbn [flat] in *. rewrite !zlen_app in *.
  destruct (zlen_concat_props ps Hok) as [_ Hl]. pose proof (zlen_nonneg (concat (map flat cs))).
  rewrite !zlen_le_split in *. change (Z.of_nat 4) with 4 in *. lia.
Qed.

Lemma nProperties_sits : nProperties base blob a = Ret (zlen ps).
Proof.
  pose proof node_bounds. unfold nProperties. cbn [flat] in Hs.
  eapply rd32_sits; [exact Hs |]. pose proof (zlen_nonneg ps). lia.
Qed.

Lemma props_sits : sits (a + 8) (concat (flat_prop <$> ps) ++ concat (map flat cs)).
Proof.
  cbn [flat] in Hs. rewrite app_assoc in Hs. apply sits_app in Hs as [_ H].
  rewrite zlen_app, !zlen_le_split in H. done.
Qed.

Lemma header_ok : assert_header_in_dt_region base (base + zlen blob) a sizeof_DeviceTreeNode = Ret tt.
Proof.
  pose proof node_bounds. pose proof (zlen_nonneg ps). unfold sizeof_DeviceTreeNode.
  apply header_in_region. lia.
Qed.

Lemma get_property_loop name qs : forall p k rest, cstr name -> p mod 4 = 0 ->
  sits p (concat (flat_prop <$> qs) ++ rest) -> Forall prop_ok qs ->
  exists q, for_ret (length qs) k (fun _ prop =>
      _ ← assert_prop_in_dt_region base blob base (base + zlen blob) prop;
      eq ← strcmp_eq base blob prop (name ++ [0]);
      if eq : bool then
        len ← prop_length base blob prop; Ret (Exit (prop + sizeof_DeviceTreeNodeProperty, len))
      else p ← next_prop_region base blob base (base + zlen blob) prop; Ret (Next p)) p =
    Ret (match prop_addr p qs name with Some r => Exit r | None => Next q end).
Proof.
  induction qs as [|[n v] qs IH]; intros p k rest Hname Hp Hq Hqok; cbn [length for_ret prop_addr];
    [by eexists |].
  apply Forall_cons in Hqok as [Hpr Hqok]. cbn [fmap list_fmap concat] in Hq. rewrite <- app_assoc in Hq.
  rewrite (assert_prop_sits p n v _ Hq Hpr). cbn [mbind outcome_bind].
  destruct (prop_name_sits p n v _ Hq Hpr) as [junk Hj].
  rewrite (strcmp_sits n p name [] junk Hj (proj1 Hpr) Hname). cbn [mbind outcome_bind].
  destruct (decide (n = name)) as [-> | Hne].
  - rewrite bool_decide_eq_true_2 by done. rewrite (prop_length_sits p name v _ Hq Hpr).
    exists 0. done.
  - rewrite bool_decide_eq_false_2 by done. rewrite (next_prop_sits p n v _ Hq Hpr Hp).
    cbn [mbind outcome_bind]. eapply IH; [done | by eapply next_aligned | | done].
    apply sits_app in Hq as [_ Hq]. exact Hq.
Qed.

Lemma get_property_sits name : cstr name -> ps <> [] ->
  SecureDTGetProperty base blob globals a (name ++ [0]) = Ret (prop_addr (a + 8) ps name).
Proof.
  intros Hname Hne. pose proof node_bounds. unfold SecureDTGetProperty, SecureDTGetPropertyInternal.
  rewrite (proj2 (Z.eqb_neq a 0)) by lia. cbn [DTRootNode DTEnd globals]. rewrite u64_region.
  rewrite header_ok. cbn [mbind outcome_bind]. rewrite nProperties_sits. cbn [mbind outcome_bind].
  assert (zlen ps <> 0) by (destruct ps; [done | rewrite zlen_cons; pose proof (zlen_nonneg l); lia]).
  rewrite (proj2 (Z.eqb_neq _ 0)) by done.
  replace (Z.to_nat (zlen ps)) with (length ps) by (unfold zlen; lia).
  destruct (get_property_loop name ps (a + 8) 0 _ Hname ltac:(zdm) props_sits Hok) as [q Hq].
  unfold sizeof_DeviceTreeNode. rewrite Hq. cbn [mbind outcome_bind].
  by destruct (prop_addr (a + 8) ps name).
Qed.

Lemma skip_props_loop qs : forall p k rest, p mod 4 = 0 ->
  sits p (concat (flat_prop <$> qs) ++ rest) -> Forall prop_ok qs ->
  for_ret (R := Empty_set) (length qs) k
    (fun _ prop => p ← next_prop base blob globals prop; Ret (Next p)) p =
  Ret (Next (p + zlen (concat (flat_prop <$> qs)))).
Proof.
  induction qs as [|[n v] qs IH]; intros p k rest Hp Hq Hqok; cbn [length for_ret].
  - cbn. by rewrite Z.add_0_r.
  - apply Forall_cons in Hqok as [Hpr Hqok]. cbn [fmap list_fmap concat] in Hq |- *.
    rewrite <- app_assoc in Hq.
    change (next_prop base blob globals p) with (next_prop_region base blob base (base + zlen blob) p).
    rewrite (next_prop_sits p n v _ Hq Hpr Hp). cbn [mbind outcome_bind].
    rewrite (IH _ _ rest); [| by eapply next_aligned | by apply sits_app in Hq as [_ ?] | done].
    rewrite zlen_app. do 2 f_equal. lia.
Qed.

Lemma skipProperties_sits : ps <> [] ->
  skipProperties base blob globals a = Ret (a + 8 + zlen (concat (flat_prop <$> ps))).
Proof.
  intros Hne. pose proof node_bounds as Hb. unfold skipProperties.
  rewrite (proj2 (Z.eqb_neq a 0)) by lia. unfold ASSERT_HEADER_IN_DT, ASSERT_IN_DT.
  cbn [DTRootNode DTEnd globals]. pose proof header_ok as Hh. unfold assert_header_in_dt_region in Hh.
  rewrite Hh. cbn [mbind outcome_bind]. rewrite nProperties_sits. cbn [mbind outcome_bind].
  assert (zlen ps <> 0) by (destruct ps; [done | rewrite zlen_cons; pose proof (zlen_nonneg l); lia]).
  rewrite (proj2 (Z.eqb_neq _ 0)) by done.
  replace (Z.to_nat (zlen ps)) with (length ps) by (unfold zlen; lia).
  unfold sizeof_DeviceTreeNode. rewrite (skip_props_loop ps (a + 8) 0 _ ltac:(zdm) props_sits Hok).
  cbn [mbind outcome_bind]. rewrite in_region; [done |].
  pose proof props_sits as Hp. apply sits_app in Hp as [Hp _]. apply sits_bounds in Hp.
  pose proof (zlen_nonneg (concat (flat_prop <$> ps))). lia.
Qed.

Lemma nChildren_sits : nChildren base blob a = Ret (zlen cs).
Proof.
  pose proof node_bounds. unfold nChildren. cbn [flat] in Hs.
  apply sits_app in Hs as [_ Hc]. rewrite zlen_le_split in Hc.
  eapply rd32_sits; [exact Hc |]. pose proof (zlen_nonneg cs). split; [done |].
  assert (zlen cs <= zlen (concat (map flat cs))); [| cbn [flat] in *; rewrite !zlen_app in *;
    pose proof (zlen_nonneg (concat (flat_prop <$> ps))); rewrite !zlen_le_split in *; lia].
  clear. induction cs as [|[qs ds] l IH]; [done |]. cbn [map concat flat].
  rewrite zlen_cons, !zlen_app, !zlen_le_split.
  pose proof (zlen_nonneg (concat (flat_prop <$> qs))). pose proof (zlen_nonneg (concat (map flat ds))). lia.
Qed.

Lemma children_sits :
  sits (a + 8 + zlen (concat (flat_prop <$> ps))) (concat (map flat cs)) /\
  (a + 8 + zlen (concat (flat_prop <$> ps))) mod 4 = 0.
Proof.
  pose proof props_sits as Hp. apply sits_app in Hp as [_ Hp]. split; [done |].
  destruct (zlen_concat_props ps Hok) as [Hm _]. set (z := zlen _) in *. clearbody z. zdm.
Qed.
End one_node.

(** ** Subtrees *)

Lemma skipTree_sits t : forall fuel a, tree_ok t -> sits a (flat t) -> a mod 4 = 0 ->
  (height t <= fuel)%nat -> skipTree base blob globals fuel a = Ret (a + zlen (flat t)).
Proof.
  induction t as [ps cs IH] using dtnode_ind'. intros fuel a Ht Hs Ha Hf.
  pose proof (tree_ok_props _ Ht) as [Hp Hne]. cbn [dn_props] in *.
  inversion Ht as [? ? nm _ _ _ Hcs]; subst.
  destruct fuel as [|fuel]; [cbn in Hf; lia |]. cbn [skipTree].
  unfold ASSERT_HEADER_IN_DT at 1, ASSERT_IN_DT at 1. cbn [DTRootNode DTEnd globals].
  pose proof (header_ok a ps cs Hs Hp) as Hh. unfold assert_header_in_dt_region in Hh.
  rewrite Hh. cbn [mbind outcome_bind].
  rewrite (skipProperties_sits a ps cs) by done. cbn [mbind outcome_bind].
  destruct (node_bounds a ps cs Hs Hp) as (Hb & _ & _).
  pose proof (zlen_nonneg (concat (flat_prop <$> ps))).
  rewrite (proj2 (Z.eqb_neq _ 0)) by lia.
  rewrite (nChildren_sits a ps cs) by done. cbn [mbind outcome_bind].
  destruct (children_sits a ps cs Hs Hp Ha) as [Hc Hca].
  cbn [height] in Hf. apply le_S_n in Hf.
  assert (forall ds e k, Forall (fun t => forall fuel a, tree_ok t -> sits a (flat t) -> a mod 4 = 0 ->
      (height t <= fuel)%nat -> skipTree base blob globals fuel a = Ret (a + zlen (flat t))) ds ->
    Forall tree_ok ds -> sits e (concat (map flat ds)) -> e mod 4 = 0 ->
    (list_max (map height ds) <= fuel)%nat ->
    for_ret (R := Empty_set) (length ds) k
      (fun _ entry => e ← skipTree base blob globals fuel entry; Ret (Next e)) e =
    Ret (Next (e + zlen (concat (map flat ds))))) as Hloop.
  { clear. induction ds as [|d ds IHd]; intros e k HIH Hok He Hal Hf; cbn [length for_ret map concat].
    - by rewrite zlen_nil, Z.add_0_r.
    - apply Forall_cons in HIH as [H1 HIH], Hok as [Hd Hok]. cbn [map concat] in He.
      apply sits_app in He as [He1 He2]. cbn [map list_max foldr] in Hf.
      change (foldr Nat.max 0%nat (map height ds)) with (list_max (map height ds)) in Hf.
      rewrite H1 by (done || lia). cbn [mbind outcome_bind].
      pose proof (zlen_flat_aligned d Hd) as Hda.
      rewrite IHd; [| done | done | done | | lia].
      + rewrite zlen_app. do 2 f_equal. lia.
      + set (x := zlen _) in *. clearbody x. zdm. }
  replace (Z.to_nat (zlen cs)) with (length cs) by (unfold zlen; lia).
  rewrite Hloop by done. cbn [mbind outcome_bind flat]. f_equal.
  rewrite !zlen_app, !zlen_le_split. lia.
Qed.

Lemma GetNextChild_sits t a : tree_ok t -> sits a (flat t) -> a mod 4 = 0 ->
  GetNextChild base blob globals a = Ret (a + zlen (flat t)).
Proof.
  intros Ht Hs Ha. apply skipTree_sits; try done. unfold dt_fuel. pose proof (height_flat t).
  apply sits_bounds in Hs. unfold zlen in *. lia.
Qed.

(** The first child of that name among siblings laid out from [e]. *)
Fixpoint child_addr (e : Z) (cs : list dtnode) (nm : bytes) : option (dtnode * Z) :=
  match cs with
  | [] => None
  | c :: cs => if decide (node_name c = Some (nm ++ [0])) then Some (c, e)
               else child_addr (e + zlen (flat c)) cs nm
  end.

Lemma find_child_loop nm junk cs : forall n e k, cstr nm -> Forall tree_ok cs -> cs <> [] ->
  sits e (concat (map flat cs)) -> e mod 4 = 0 -> n = k + zlen cs - 1 -> 1 <= k ->
  exists q, for_ret (length cs) k
    (fun index child =>
       p ← SecureDTGetProperty base blob globals child name_str;
       match p with
       | None => Ret (Exit 0)
       | Some (str, _) =>
           eq ← strcmp_eq base blob str (nm ++ 0 :: junk);
           if eq : bool then Ret (Exit child)
           else if n <=? index then Ret (Exit 0)
           else child ← GetNextChild base blob globals child; Ret (Next child)
       end) e = Ret q /\
    match q with Exit r => r | Next _ => 0 end =
    match child_addr e cs nm with Some (_, a) => a | None => 0 end.
Proof.
  induction cs as [|c cs IH]; intros n e k Hnm Hok Hne Hs Ha Hn Hk; [done |].
  apply Forall_cons in Hok as [Hc Hok]. cbn [map concat] in Hs. apply sits_app in Hs as [Hs Hs'].
  cbn [length for_ret child_addr]. destruct c as [ps ds].
  inversion Hc as [? ? cn Hp Hname Hcn Hds]; subst ps0 cs0.
  assert (ps <> []) as Hpne by by intros ->.
  change name_str with (lit "name" ++ [0]).
  rewrite (get_property_sits e ps ds) by (done || by apply (bool_decide_unpack _)).
  cbn [mbind outcome_bind].
  pose proof (props_sits e ps ds Hs) as Hps.
  pose proof (prop_addr_find ps (lit "name") (e + 8) _ Hps Hp) as Hf. rewrite Hname in Hf.
  destruct (prop_addr (e + 8) ps (lit "name")) as [[str len] |]; [| done].
  destruct Hf as (v & [= <-] & _ & Hv).
  rewrite (strcmp_sits cn str nm junk [] Hv Hcn Hnm). cbn [mbind outcome_bind].
  unfold node_name. cbn [dn_props]. rewrite Hname.
  destruct (decide (cn = nm)) as [-> | Hd].
  - rewrite bool_decide_eq_true_2 by done. rewrite decide_True by done. eexists. split; done.
  - rewrite bool_decide_eq_false_2 by done. rewrite decide_False by (intros [= H]; by apply app_inj_2 in H as []).
    rewrite zlen_cons in Hn. destruct cs as [|c' cs].
    + rewrite zlen_nil in Hn. rewrite (proj2 (Z.leb_le n k)) by lia. eexists. split; done.
    + rewrite (proj2 (Z.leb_gt n k)) by (rewrite zlen_cons in Hn; pose proof (zlen_nonneg cs); lia).
      rewrite (GetNextChild_sits (DTNode ps ds) e) by done. cbn [mbind outcome_bind].
      pose proof (zlen_flat_aligned _ Hc) as Hda.
      apply IH; [done | done | done | done | | lia | lia].
      set (x := zlen (flat _)) in *. clearbody x. zdm.
Qed.

Lemma FindChild_sits t a nm junk : tree_ok t -> sits a (flat t) -> a mod 4 = 0 -> cstr nm ->
  FindChild base blob globals a (nm ++ 0 :: junk) =
  Ret (match child_addr (a + 8 + zlen (concat (flat_prop <$> dn_props t))) (dn_children t) nm with
       | Some (_, e) => e | None => 0 end).
Proof.
  intros Ht Hs Ha Hnm. pose proof (tree_ok_props _ Ht) as [Hp Hne]. destruct t as [ps cs].
  cbn [dn_props dn_children] in *. inversion Ht as [? ? cn _ _ _ Hcs]; subst.
  unfold FindChild, ASSERT_HEADER_IN_DT, ASSERT_IN_DT. cbn [DTRootNode DTEnd globals].
  pose proof (header_ok a ps cs Hs Hp) as Hh. unfold assert_header_in_dt_region in Hh.
  rewrite Hh. cbn [mbind outcome_bind]. rewrite (nChildren_sits a ps cs) by done.
  cbn [mbind outcome_bind]. destruct cs as [|c cs]; [done |].
  rewrite (proj2 (Z.eqb_neq _ 0)) by (rewrite zlen_cons; pose proof (zlen_nonneg cs); lia).
  unfold GetFirstChild. rewrite (skipProperties_sits a ps (c :: cs)) by done. cbn [mbind outcome_bind].
  destruct (children_sits a ps (c :: cs) Hs Hp Ha) as [Hc Hca].
  replace (Z.to_nat (zlen (c :: cs))) with (length (c :: cs)) by (unfold zlen; lia).
  destruct (find_child_loop nm junk (c :: cs) (zlen (c :: cs)) _ 1 Hnm Hcs ltac:(done) Hc Hca
    ltac:(lia) ltac:(lia)) as (q & -> & Hq).
  cbn [mbind outcome_bind]. rewrite <- Hq. by destruct q.
Qed.

(** ** Paths *)

Definition path_char (c : Z) : Prop := c <> 0 /\ c <> kDTPathNameSeparator.
Definition comp_ok (s : bytes) : Prop :=
  Forall path_char s /\ s <> [] /\ zlen s <= kDTMaxEntryNameLength.

Lemma path_cstr s : Forall path_char s -> cstr s.
Proof. intros H. eapply Forall_impl; [exact H |]. by intros c []. Qed.

(** The byte behind a component, and how far the scan moves over it. *)
Definition comp_end (e : Z) : Prop := e = 0 \/ e = kDTPathNameSeparator.
Definition end_skip (e : Z) : Z := if e =? 0 then 0 else 1.

Lemma next_component_loop s : forall pre done rest e tl fuel, Forall path_char s -> comp_end e ->
  zlen done + zlen s <= kDTMaxEntryNameLength -> (length s < fuel)%nat -> (length s < length tl)%nat ->
  exists junk, length junk = (length tl - length s - 1)%nat /\
  loop_ret fuel (GetNextComponent_step (pre ++ s ++ e :: rest)) (zlen pre, zlen done, done ++ tl) =
  Ret (zlen pre + zlen s + end_skip e, (done ++ s) ++ 0 :: junk).
Proof.
  induction s as [|c s IH]; intros pre dn rest e tl fuel Hs He Hlen Hf Htl;
    (destruct fuel as [|fuel]; [cbn in Hf; lia |]); cbn [loop_ret]; unfold GetNextComponent_step at 2.
  - cbn [app]. rewrite byte_at_here. cbn [of_option mbind outcome_bind].
    destruct tl as [|t tl]; [cbn in Htl; lia |].
    assert (put_byte (dn ++ t :: tl) (zlen dn) 0 = Some (dn ++ 0 :: tl)) as Hput.
    { apply put_byte_Some. rewrite zlen_app, zlen_cons. pose proof (zlen_nonneg dn). pose proof (zlen_nonneg tl).
      split; [lia |]. unfold zlen. rewrite Nat2Z.id. by rewrite insert_app_r_alt, Nat.sub_diag by lia. }
    rewrite Hput. exists tl. rewrite app_nil_r. change (zlen (@nil Z)) with 0. rewrite Z.add_0_r. split; [cbn; lia |].
    destruct He as [-> | ->]; cbn [Z.eqb]; unfold kDTPathNameSeparator, end_skip; cbn [Z.eqb Pos.eqb];
      cbn [of_option mbind outcome_bind]; by rewrite ?Z.add_0_r.
  - apply Forall_cons in Hs as [[Hc0 Hcs] Hs]. rewrite zlen_cons in Hlen. pose proof (zlen_nonneg s).
    cbn [app]. rewrite byte_at_here. cbn [of_option mbind outcome_bind].
        rewrite (proj2 (Z.eqb_neq c 0)), (proj2 (Z.eqb_neq c _)) by done.
    rewrite (proj2 (Z.ltb_ge _ _)) by lia.
    destruct tl as [|t tl]; [cbn in Htl; lia |].
    assert (put_byte (dn ++ t :: tl) (zlen dn) c = Some ((dn ++ [c]) ++ tl)) as ->.
    { apply put_byte_Some. rewrite zlen_app, zlen_cons. pose proof (zlen_nonneg dn). pose proof (zlen_nonneg tl).
      split; [lia |]. unfold zlen. rewrite Nat2Z.id, insert_app_r_alt, Nat.sub_diag by lia.
      by rewrite <- app_assoc. }
    cbn [of_option mbind outcome_bind].
    destruct (IH (pre ++ [c]) (dn ++ [c]) rest e tl fuel) as (junk & Hj & Hr);
      [done | done | rewrite zlen_app, zlen_cons, zlen_nil; lia | cbn in Hf; lia | cbn in Htl; lia |].
    exists junk. split; [cbn; lia |].
    rewrite !zlen_app, !zlen_cons, !zlen_nil, <- !app_assoc in Hr. cbn [app] in Hr.
    rewrite <- !app_assoc. cbn [app]. rewrite zlen_cons.
    replace (zlen pre + (1 + zlen s)) with (zlen pre + (1 + 0) + zlen s) by lia.
    rewrite <- Hr. do 3 f_equal.
Qed.

Lemma next_component pre s rest e buf : Forall path_char s -> comp_end e ->
  zlen s <= kDTMaxEntryNameLength -> zlen buf = kDTMaxEntryNameLength + 1 ->
  exists junk, zlen (s ++ 0 :: junk) = kDTMaxEntryNameLength + 1 /\
  GetNextComponent (pre ++ s ++ e :: rest) (zlen pre) buf =
  Ret (zlen pre + zlen s + end_skip e, s ++ 0 :: junk).
Proof.
  intros Hs He Hl Hb. unfold GetNextComponent.
  destruct (next_component_loop s pre [] rest e buf (S (length (pre ++ s ++ e :: rest))))
    as (junk & Hj & Hr); [done | done | change (zlen (@nil Z)) with 0; lia | rewrite !length_app; lia | unfold zlen in *; lia |].
  exists junk. split; [| exact Hr]. rewrite zlen_app, zlen_cons. unfold zlen in *. lia.
Qed.

(** Following components from a node at an address. *)
Fixpoint walk (t : dtnode) (a : Z) (comps : list bytes) : option (dtnode * Z) :=
  match comps with
  | [] => Some (t, a)
  | nm :: comps =>
      match child_addr (a + 8 + zlen (concat (flat_prop <$> dn_props t))) (dn_children t) nm with
      | Some (c, e) => walk c e comps
      | None => None
      end
  end.

(** The components separated by slashes, and a terminator. *)
Fixpoint join_path (comps : list bytes) : bytes :=
  match comps with
  | [] => [0]
  | [c] => c ++ [0]
  | c :: comps => c ++ kDTPathNameSeparator :: join_path comps
  end.

Lemma child_addr_ok nm cs : forall e c a, Forall tree_ok cs -> sits e (concat (map flat cs)) -> e mod 4 = 0 ->
  child_addr e cs nm = Some (c, a) -> tree_ok c /\ sits a (flat c) /\ a mod 4 = 0 /\ In c cs.
Proof.
  induction cs as [|d cs IH]; intros e c a Hok Hs He Hf; [done |]. cbn [child_addr] in Hf.
  apply Forall_cons in Hok as [Hd Hok]. cbn [map concat] in Hs. apply sits_app in Hs as [Hs Hs'].
  destruct (decide _).
  - injection Hf as <- <-. split_and!; [done.. | by left].
  - pose proof (zlen_flat_aligned d Hd).
    destruct (IH (e + zlen (flat d)) c a) as (? & ? & ? & ?); [done | done | | done |].
    + set (x := zlen (flat _)) in *. clearbody x. zdm.
    + split_and!; [done.. | by right].
Qed.

Lemma lookup_loop comps : forall t a pre buf fuel, tree_ok t -> sits a (flat t) -> a mod 4 = 0 ->
  Forall comp_ok comps -> zlen buf = kDTMaxEntryNameLength + 1 -> (length comps < fuel)%nat ->
  loop_ret fuel (SecureDTLookupEntry_step base blob globals (pre ++ join_path comps)) (a, zlen pre, buf) =
  Ret (snd <$> walk t a comps).
Proof.
  induction comps as [|s comps IH]; intros t a pre buf fuel Ht Hs Ha Hok Hb Hf;
    (destruct fuel as [|fuel]; [cbn in Hf; lia |]); cbn [loop_ret].
  - unfold SecureDTLookupEntry_step at 2. cbn [join_path walk].
    destruct (next_component pre [] [] 0 buf) as (junk & Hj & Hr);
      [done | by left | by vm_compute | done |]. cbn [app] in Hr, Hj. rewrite Hr.
    change (zlen (@nil Z)) with 0. rewrite Z.add_0_r. cbn [end_skip Z.eqb]. rewrite Z.add_0_r.
    cbn [mbind outcome_bind]. cbn [byte_at Z.leb Z.compare Z.to_nat lookup list_lookup of_option mbind outcome_bind Z.eqb].
    by rewrite byte_at_here.
  - apply Forall_cons in Hok as [(Hsc & Hsne & Hsl) Hok]. cbn in Hf.
    assert (exists e rest, join_path (s :: comps) = s ++ e :: rest /\ comp_end e /\
      exists pre', pre ++ s ++ e :: rest = pre' ++ join_path comps /\
        zlen pre' = zlen pre + zlen s + end_skip e) as (e & rest & Ej & He & pre' & Epre & Hpre).
    { destruct comps as [|s' comps].
      - exists 0, []. split_and!; [done | by left |]. exists (pre ++ s). rewrite <- app_assoc.
        split; [done |]. rewrite zlen_app. cbn. lia.
      - exists kDTPathNameSeparator, (join_path (s' :: comps)). split_and!; [done | by right |].
        exists (pre ++ s ++ [kDTPathNameSeparator]). rewrite <- !app_assoc. split; [done |].
        rewrite !zlen_app, zlen_cons. change (zlen (@nil Z)) with 0. change (end_skip _) with 1. lia. }
    rewrite Ej. unfold SecureDTLookupEntry_step at 2.
    destruct (next_component pre s rest e buf) as (junk & Hj & Hr); [done | done | done | done |].
    rewrite Hr. cbn [mbind outcome_bind]. destruct s as [|c s]; [done |].
    change (byte_at ((c :: s) ++ 0 :: junk) 0) with (Some c). cbn [of_option mbind outcome_bind].
    pose proof (path_cstr _ Hsc) as Hcs. apply Forall_cons in Hsc as [[Hc0 _] _].
    rewrite (proj2 (Z.eqb_neq c 0)) by done.
    change (c :: s ++ 0 :: junk) with ((c :: s) ++ 0 :: junk).
    rewrite (FindChild_sits t a (c :: s) junk) by done. cbn [mbind outcome_bind walk].
    set (e0 := a + 8 + _).
    destruct (child_addr e0 (dn_children t) (c :: s)) as [[d ad] |] eqn:Ech; [| done].
    destruct t as [ps cs]. cbn [dn_props dn_children] in *.
    pose proof (tree_ok_props _ Ht) as [Hp Hne]. inversion Ht as [? ? cn _ _ _ Hchs]; subst ps0 cs0.
    destruct (children_sits a ps cs Hs Hp Ha) as [Hc Hca].
    destruct (child_addr_ok (c :: s) cs e0 d ad Hchs Hc Hca Ech) as (Hd & Hds & Hda & _).
    pose proof (sits_bounds _ _ Hds). rewrite (proj2 (Z.eqb_neq ad 0)) by lia.
    change (c :: s ++ e :: rest) with ((c :: s) ++ e :: rest). rewrite Epre, <- Hpre.
    apply IH; [done | done | done | done | done | lia].
Qed.

(** ** The reader against the tree *)

(** Following names in the tree. *)
Fixpoint resolve (t : dtnode) (comps : list bytes) : option dtnode :=
  match comps with
  | [] => Some t
  | nm :: comps =>
      match List.find (fun c => bool_decide (node_name c = Some (nm ++ [0]))) (dn_children t) with
      | Some c => resolve c comps
      | None => None
      end
  end.

Lemma child_addr_resolve nm cs : forall e,
  fst <$> child_addr e cs nm = List.find (fun c => bool_decide (node_name c = Some (nm ++ [0]))) cs.
Proof.
  induction cs as [|c cs IH]; intros e; cbn [child_addr List.find]; [done |].
  destruct (decide _) as [H | H]; [by rewrite bool_decide_eq_true_2 | rewrite bool_decide_eq_false_2 by done].
  apply IH.
Qed.

Lemma walk_resolve comps : forall t a, fst <$> walk t a comps = resolve t comps.
Proof.
  induction comps as [|nm comps IH]; intros t a; cbn [walk resolve]; [done |].
  rewrite <- (child_addr_resolve nm (dn_children t) (a + 8 + zlen (concat (flat_prop <$> dn_props t)))).
  destruct (child_addr _ _ _) as [[c e] |]; [apply IH | done].
Qed.

Lemma walk_ok comps : forall t a c e, tree_ok t -> sits a (flat t) -> a mod 4 = 0 ->
  walk t a comps = Some (c, e) -> tree_ok c /\ sits e (flat c) /\ e mod 4 = 0.
Proof.
  induction comps as [|nm comps IH]; intros t a c e Ht Hs Ha Hw; cbn [walk] in Hw.
  - by injection Hw as <- <-.
  - destruct (child_addr _ _ _) as [[d ad] |] eqn:Ech; [| done].
    destruct t as [ps cs]. cbn [dn_props dn_children] in *.
    pose proof (tree_ok_props _ Ht) as [Hp Hne]. inversion Ht as [? ? cn _ _ _ Hchs]; subst ps0 cs0.
    destruct (children_sits a ps cs Hs Hp Ha) as [Hc Hca].
    destruct (child_addr_ok nm cs _ d ad Hchs Hc Hca Ech) as (Hd & Hds & Hda & _).
    by eapply IH.
Qed.

(** What the reader says about the properties of the entry at [a]. *)
Definition reads_as (a : Z) (t : dtnode) : Prop := forall name, cstr name ->
  match prop_find (dn_props t) name with
  | Some v => exists p, SecureDTGetProperty base blob globals a (name ++ [0]) = Ret (Some (p, zlen v)) /\
      sub_bytes blob (p - base) (zlen v) = Some v
  | None => SecureDTGetProperty base blob globals a (name ++ [0]) = Ret None
  end.

Lemma sits_reads_as t a : tree_ok t -> sits a (flat t) -> a mod 4 = 0 -> reads_as a t.
Proof.
  intros Ht Hs Ha name Hname. pose proof (tree_ok_props _ Ht) as [Hp Hne]. destruct t as [ps cs].
  cbn [dn_props] in *. rewrite (get_property_sits a ps cs) by done.
  pose proof (prop_addr_find ps name (a + 8) _ (props_sits a ps cs Hs) Hp) as Hf.
  destruct (prop_addr (a + 8) ps name) as [[p len] |].
  - destruct Hf as (v & -> & -> & Hv). by exists p.
  - by rewrite Hf.
Qed.

Lemma lookup_entry_walk t comps buf : tree_ok t -> sits base (flat t) -> Forall comp_ok comps ->
  zlen buf = kDTMaxEntryNameLength + 1 ->
  SecureDTLookupEntry base blob globals buf 0 (kDTPathNameSeparator :: join_path comps) =
  Ret (snd <$> walk t base comps).
Proof.
  intros Ht Hs Hc Hb. unfold SecureDTLookupEntry. cbn [DTInitialized globals negb Z.eqb DTRootNode].
  unfold ASSERT_IN_DT. cbn [DTRootNode DTEnd globals]. pose proof (sits_bounds _ _ Hs).
  pose proof (zlen_nonneg blob). rewrite in_region by lia. cbn [mbind outcome_bind].
  set (path := kDTPathNameSeparator :: join_path comps).
  change (byte_at path 0) with (Some kDTPathNameSeparator). cbn [of_option mbind outcome_bind].
  rewrite Z.eqb_refl.
  assert (exists c1, byte_at path 1 = Some c1 /\ (c1 = 0 -> comps = [])) as (c1 & -> & H1).
  { destruct comps as [|s comps]; [by exists 0 |]. apply Forall_cons in Hc as [(Hs1 & Hne & _) _].
    destruct s as [|c s]; [done |]. apply Forall_cons in Hs1 as [[Hc0 _] _].
    exists c. split; [by destruct comps | done]. }
  cbn [of_option mbind outcome_bind]. destruct (Z.eqb_spec c1 0) as [-> | Hc1].
  - by rewrite (H1 eq_refl).
  - rewrite <- (lookup_loop comps t base [kDTPathNameSeparator] buf (S (length path))); try done.
    unfold path. cbn [length]. clear.
    induction comps as [|s [|s' comps] IH]; cbn [join_path length] in *; [lia | |]; rewrite length_app; cbn; lia.
Qed.
End reader_on_blob.

(** What a boot loader promises about the device tree it hands over: the flattening of a
    well-formed tree at an aligned address, with anything behind it. *)
Record placed (base : Z) (blob : bytes) (t : dtnode) : Prop := {
  pl_base : 8 < base;
  pl_align : base mod 4 = 0;
  pl_end : base + zlen blob + 3 < 2 ^ 64;
  pl_size : zlen blob < 2 ^ 32;
  pl_tree : tree_ok t;
  pl_flat : exists rest, blob = flat t ++ rest }.

Lemma placed_sits base blob t : placed base blob t -> sits base blob base (flat t).
Proof.
  intros [_ _ _ _ _ [rest ->]]. unfold sits. rewrite Z.sub_diag. pose proof (zlen_nonneg (flat t)).
  rewrite sub_bytes_in; [| lia | lia | rewrite zlen_app; pose proof (zlen_nonneg rest); lia].
  rewrite drop_0, take_app_length'; [done | unfold zlen; lia].
Qed.

Lemma placed_init base blob t : placed base blob t ->
  SecureDTInit base (zlen blob) = Ret (globals base blob).
Proof.
  intros [Hb _ He _ _ _]. pose proof (zlen_nonneg blob). unfold SecureDTInit.
  rewrite u64_small by cint. rewrite (proj2 (Z.ltb_ge _ _)) by lia.
  by rewrite (proj2 (Z.eqb_neq _ _)) by lia.
Qed.

Lemma path_lookup_refines base blob buf t comps : placed base blob t -> Forall comp_ok comps ->
  zlen buf = kDTMaxEntryNameLength + 1 ->
  exists r, SecureDTLookupEntry base blob (globals base blob) buf 0
      (kDTPathNameSeparator :: join_path comps) = Ret r /\
    match resolve t comps with
    | Some c => exists a, r = Some a /\ reads_as base blob a c
    | None => r = None
    end.
Proof.
  intros Hp Hc Hb. pose proof (placed_sits _ _ _ Hp) as Hs. exists (snd <$> walk t base comps).
  destruct Hp as [H1 H2 H3 H4 Ht _]. split; [by apply lookup_entry_walk |].
  rewrite <- (walk_resolve comps t base).
  destruct (walk t base comps) as [[c a] |] eqn:Ew; [| done]. cbn.
  destruct (walk_ok base blob comps t base c a Ht Hs H2 Ew) as (Hc' & Hs' & Ha').
  exists a. split; [done |]. by apply (sits_reads_as base blob).
Qed.

(** C35. Initialising the device tree with the flattening of a well-formed tree and looking up
    an absolute path finds an entry exactly when the names lead to a node of the tree, and
    reading any property of that entry yields the bytes of the node's first property of
    that name. *)
Theorem lookup_entry_refines (base : Z) (blob buf : bytes) (t : dtnode) (comps : list bytes)
    (Hp : placed base blob t) (Hc : Forall comp_ok comps) (Hb : zlen buf = kDTMaxEntryNameLength + 1) :
  exists g r, SecureDTInit base (zlen blob) = Ret g /\
    SecureDTLookupEntry base blob g buf 0 (kDTPathNameSeparator :: join_path comps) = Ret r /\
    match resolve t comps with
    | Some c => exists a, r = Some a /\ forall name, cstr name ->
        match prop_find (dn_props c) name with
        | Some v => exists p, SecureDTGetProperty base blob g a (name ++ [0]) = Ret (Some (p, zlen v)) /\
            sub_bytes blob (p - base) (zlen v) = Some v
        | None => SecureDTGetProperty base blob g a (name ++ [0]) = Ret None
        end
    | None => r = None
    end.
Proof.
  destruct (path_lookup_refines base blob buf t comps Hp Hc Hb) as (r & Hr & Hm).
  exists (globals base blob), r. split; [by eapply placed_init |]. split; [done |].
  destruct (resolve t comps); [| done]. destruct Hm as (a & -> & Ha). by exists a.
Qed.

(** A small tree, flattened at a page boundary with some bytes behind it. *)
Definition sample_tree : dtnode :=
  DTNode [(lit "name", lit "device-tree" ++ [0])]
    [DTNode [(lit "name", lit "chosen" ++ [0]); (lit "debug", le_split 4 0x144)] [];
     DTNode [(lit "name", lit "cpus" ++ [0])]
       [DTNode [(lit "reg", le_split 4 0); (lit "name", lit "cpu0" ++ [0])] []]].
Definition sample_blob : bytes := flat sample_tree ++ [1; 2; 3].

Lemma sample_placed : placed 4096 sample_blob sample_tree.
Proof.
  split; [done | done | by vm_compute | by vm_compute | | by eexists].
  apply tree_okb_sound. by vm_compute.
Qed.

Lemma lookup_entry_refines_witness :
  exists g a p, SecureDTInit 4096 (zlen sample_blob) = Ret g /\
    SecureDTLookupEntry 4096 sample_blob g (replicate 64 9) 0
      (kDTPathNameSeparator :: join_path [lit "cpus"; lit "cpu0"]) = Ret (Some a) /\
    SecureDTGetProperty 4096 sample_blob g a (lit "reg" ++ [0]) = Ret (Some (p, 4)).
Proof.
  destruct (lookup_entry_refines 4096 sample_blob (replicate 64 9) sample_tree [lit "cpus"; lit "cpu0"])
    as (g & r & Hg & Hr & a & -> & Ha).
  - exact sample_placed.
  - repeat (apply Forall_cons; split); [..| done];
      (split; [repeat constructor; discriminate | split; [discriminate | by vm_compute]]).
  - by vm_compute.
  - destruct (Ha (lit "reg") ltac:(repeat constructor; discriminate)) as (p & Hp & _).
    exists g, a, p. split; [exact Hg | split; [exact Hr | exact Hp]].
Defined.
