(* ===== verification/DeviceTreeSearch.v ===== *)
(** * The flattened device tree: searches and iteration

    The whole-tree searches of pexpert/gen/device_tree.c visit the nodes in preorder, the
    entry iterator enumerates the children of a node, and the platform defaults are the
    properties of [/defaults]. *)

From stdpp Require Import base list strings.
From Stdlib Require Import ZArith Lia.
From S2P Require Import Prelude DeviceTree DeviceTreeProofs.

(** ** Preorder search *)

Section preorder.
Context (P : list (bytes * bytes) -> bool).

(** The first node in preorder whose properties satisfy the predicate. *)
Fixpoint find_node (t : dtnode) : option dtnode :=
  match t with
  | DTNode ps cs =>
      if P ps then Some t
      else (fix go cs := match cs with
            | [] => None
            | c :: cs => match find_node c with Some r => Some r | None => go cs end
            end) cs
  end.

(** The same search with the addresses of the flattening. *)
Fixpoint find_addr (t : dtnode) (a : Z) : option (dtnode * Z) :=
  match t with
  | DTNode ps cs =>
      if P ps then Some (t, a)
      else (fix go cs e := match cs with
            | [] => None
            | c :: cs => match find_addr c e with Some r => Some r | None => go cs (e + zlen (flat c)) end
            end) cs (a + 8 + zlen (concat (flat_prop <$> ps)))
  end.

Fixpoint find_addr_list (cs : list dtnode) (e : Z) : option (dtnode * Z) :=
  match cs with
  | [] => None
  | c :: cs => match find_addr c e with Some r => Some r | None => find_addr_list cs (e + zlen (flat c)) end
  end.

Lemma find_addr_unfold ps cs a : find_addr (DTNode ps cs) a =
  if P ps then Some (DTNode ps cs, a)
  else find_addr_list cs (a + 8 + zlen (concat (flat_prop <$> ps))).
Proof.
  cbn [find_addr]. destruct (P ps); [done |]. generalize (a + 8 + zlen (concat (flat_prop <$> ps))).
  induction cs as [|c cs IH]; intros z; [done |]. cbn [find_addr_list]. destruct (find_addr c z); [done | apply IH].
Qed.

Lemma find_addr_node t : forall a, fst <$> find_addr t a = find_node t.
Proof.
  induction t as [ps cs IH] using dtnode_ind'. intros a. rewrite find_addr_unfold. cbn [find_node].
  destruct (P ps); [done |]. generalize (a + 8 + zlen (concat (flat_prop <$> ps))).
  induction IH as [|c cs Hc _ IHcs]; intros z; [done |]. cbn [find_addr_list]. rewrite <- (Hc z).
  destruct (find_addr c z); [done |]. apply IHcs.
Qed.
End preorder.

Section search_on_blob.
Context (base : Z) (blob : bytes).
Context (Hbase : 8 < base) (Halign : base mod 4 = 0) (Hend : base + zlen blob + 3 < 2 ^ 64).
Context (Hsize : zlen blob < 2 ^ 32).
Abbreviation sits := (sits base blob).
Abbreviation globals := (globals base blob).

Lemma children_step c cs e : sits e (concat (map flat (c :: cs))) -> e mod 4 = 0 -> tree_ok c ->
  sits e (flat c) /\ sits (e + zlen (flat c)) (concat (map flat cs)) /\ (e + zlen (flat c)) mod 4 = 0.
Proof.
  intros Hs He Hc. cbn [map concat] in Hs. apply sits_app in Hs as [H1 H2]. split_and!; [done | done |].
  pose proof (zlen_flat_aligned c Hc). set (x := zlen (flat c)) in *. clearbody x. zdm.
Qed.

Lemma find_addr_ok P t : forall a c e, tree_ok t -> sits a (flat t) -> a mod 4 = 0 ->
  find_addr P t a = Some (c, e) -> tree_ok c /\ sits e (flat c) /\ e mod 4 = 0.
Proof.
  induction t as [ps cs IH] using dtnode_ind'. intros a c e Ht Hs Ha. rewrite find_addr_unfold.
  destruct (P ps); [by intros [= <- <-] |].
  pose proof (tree_ok_props _ Ht) as [Hp Hne]. inversion Ht as [? ? cn _ _ _ Hchs]; subst ps0 cs0.
  destruct (children_sits base blob a ps cs Hs Hp Ha) as [Hc Hca]. revert Hc Hca. clear Ht Hs.
  generalize (a + 8 + zlen (concat (flat_prop <$> ps))). intros z Hc Hca. revert z Hc Hca.
  induction IH as [|d cs Hd _ IHcs]; intros z Hc Hca; [done |]. cbn [find_addr_list].
  apply Forall_cons in Hchs as [Hdok Hchs].
  destruct (children_step d cs z Hc Hca Hdok) as (H1 & H2 & H3).
  destruct (find_addr P d z) as [[d' e'] |] eqn:E; [intros [= <- <-]; by eapply Hd |].
  by apply IHcs.
Qed.

(** ** Search by name and string value *)

Definition prop_matches (n : bytes) (v : option bytes) (p : bytes * bytes) : bool :=
  bool_decide (p.1 = n) && match v with None => true | Some v => bool_decide (cstr_of p.2 = v) end.

(** Values of the searched name are terminated. *)
Inductive terminated (n : bytes) : dtnode -> Prop :=
  | terminated_node ps cs : Forall (fun p => p.1 = n -> In 0 p.2) ps -> Forall (terminated n) cs ->
      terminated n (DTNode ps cs).

Section find_entry.
Context (n : bytes) (v : option bytes) (Hn : cstr n) (Hv : match v with Some v => cstr v | None => True end).
Abbreviation vz := ((fun v => v ++ [0]) <$> v).

Lemma find_entry_props nodeP qs : forall p k rest, p mod 4 = 0 ->
  sits p (concat (flat_prop <$> qs) ++ rest) -> Forall prop_ok qs ->
  Forall (fun p => p.1 = n -> In 0 p.2) qs ->
  base <= nodeP + 8 <= base + zlen blob ->
  exists q, for_ret (length qs) k
    (fun _ startingP =>
       let propP := startingP in
       _ ← ASSERT_PROP_IN_DT base blob globals propP;
       len ← prop_length base blob propP;
       let startingP :=
         startingP + (sizeof_DeviceTreeNodeProperty + Z.land (u32 (len + 3)) (u32 (-4))) in
       eq ← strcmp_eq base blob propP (n ++ [0]);
       if eq : bool then
         eqv ← match vz with
               | None => Ret true
               | Some v => strcmp_eq base blob (propP + sizeof_DeviceTreeNodeProperty) v
               end;
         if eqv : bool then
           _ ← ASSERT_HEADER_IN_DT globals nodeP sizeof_DeviceTreeNode; Ret (Exit startingP)
         else Ret (Next startingP)
       else Ret (Next startingP)) p =
    Ret (if existsb (prop_matches n v) qs then Exit q else Next (p + zlen (concat (flat_prop <$> qs)))).
Proof.
  induction qs as [|[m w] qs IH]; intros p k rest Hp Hq Hok Hterm Hnode; cbn [length for_ret existsb].
  { exists 0. cbn. by rewrite Z.add_0_r. }
  apply Forall_cons in Hok as [Hpr Hok], Hterm as [Hw Hterm]. cbn [fmap list_fmap concat] in Hq |- *.
  rewrite <- app_assoc in Hq. unfold ASSERT_PROP_IN_DT at 2. cbn [DTRootNode DTEnd globals].
  pose proof (prop_bounds base blob p m w _ Hq Hpr) as Hbd.
  pose proof (zlen_nonneg w). destruct (pad4_spec (zlen w)).
  erewrite assert_prop_sits by eassumption. cbn [mbind outcome_bind].
  erewrite prop_length_sits by eassumption. cbn [mbind outcome_bind].
  destruct (prop_name_sits base blob p m w _ Hq Hpr) as [junk Hj].
  rewrite (strcmp_sits base blob m p n [] junk Hj (proj1 Hpr) Hn). cbn [mbind outcome_bind].
  rewrite pad_mask by lia.
  assert (p + (sizeof_DeviceTreeNodeProperty + (zlen w + pad4 (zlen w))) = p + zlen (flat_prop (m, w))) as Enext.
  { rewrite zlen_flat_prop by done. cbn [snd]. unfold sizeof_DeviceTreeNodeProperty, kPropNameLength. lia. }
  rewrite Enext.
  destruct (IH (p + zlen (flat_prop (m, w))) (k + 1) rest) as [q Hrest];
    [by eapply next_aligned | by apply sits_app in Hq as [_ ?] | done | done | done |].
  unfold prop_matches at 1. cbn [fst snd].
  rewrite zlen_app, Z.add_assoc.
  destruct (bool_decide (m = n)) eqn:Em; cbn [andb orb]; [| by exists q].
  apply bool_decide_eq_true_1 in Em.
  assert (match vz with
    | None => Ret true
    | Some v => strcmp_eq base blob (p + sizeof_DeviceTreeNodeProperty) v end =
    Ret (match v with None => true | Some v => bool_decide (cstr_of w = v) end)) as ->.
  { destruct v as [u |]; [| done]. cbn [fmap option_fmap option_map].
    destruct (cstr_of_split w (Hw Em)) as (jk & Ew & Hcw).
    pose proof (prop_value_sits base blob p m w _ Hq Hpr) as Hval. rewrite Ew in Hval.
    change sizeof_DeviceTreeNodeProperty with 36. by rewrite (strcmp_sits base blob _ _ u [] jk Hval Hcw Hv). }
  cbn [mbind outcome_bind]. destruct (match v with None => true | _ => _ end); cbn [orb]; [| by exists q].
  exists (p + zlen (flat_prop (m, w))). unfold ASSERT_HEADER_IN_DT, ASSERT_IN_DT, sizeof_DeviceTreeNode.
  cbn [DTRootNode DTEnd globals]. rewrite u64_small by cint. by rewrite in_region by lia.
Qed.

Lemma find_entry_sits t : forall fuel a, tree_ok t -> terminated n t -> sits a (flat t) -> a mod 4 = 0 ->
  (height t <= fuel)%nat ->
  exists q, find_entry base blob globals fuel (n ++ [0]) vz a =
    Ret (snd <$> find_addr (existsb (prop_matches n v)) t a, q) /\
    (find_addr (existsb (prop_matches n v)) t a = None -> q = a + zlen (flat t)).
Proof.
  induction t as [ps cs IH] using dtnode_ind'. intros fuel a Ht Hterm Hs Ha Hf.
  pose proof (tree_ok_props _ Ht) as [Hp Hne]. cbn [dn_props] in *.
  inversion Ht as [? ? nm _ _ _ Hcs]; subst. inversion Hterm as [? ? Htp Htc]; subst.
  destruct fuel as [|fuel]; [cbn in Hf; lia |]. cbn [find_entry].
  assert (ASSERT_HEADER_IN_DT globals a sizeof_DeviceTreeNode = Ret tt) as Hh
    by (by apply (header_ok base blob) with (ps := ps) (cs := cs)).
  rewrite Hh. cbn [mbind outcome_bind].
  erewrite nProperties_sits by eassumption. cbn [mbind outcome_bind].
  assert (zlen ps <> 0) by (destruct ps as [|p0 ps0]; [done | rewrite zlen_cons; pose proof (zlen_nonneg ps0); lia]).
  rewrite (proj2 (Z.eqb_neq _ 0)) by done.
  replace (Z.to_nat (zlen ps)) with (length ps) by (unfold zlen; lia).
  destruct (node_bounds base blob a ps cs Hs Hp) as (Hb1 & Hb2 & Hb3). pose proof (zlen_nonneg ps).
  destruct (find_entry_props a ps (a + 8) 0 _ ltac:(zdm) (props_sits base blob a ps cs Hs) Hp Htp ltac:(lia))
    as [q Hq].
  change (a + sizeof_DeviceTreeNode) with (a + 8). cbn zeta in Hq. rewrite Hh in Hq. cbn [mbind outcome_bind] in Hq.
  rewrite Hq. cbn [mbind outcome_bind].
  rewrite find_addr_unfold. destruct (existsb (prop_matches n v) ps); [by exists q |].
  erewrite nChildren_sits by eassumption. cbn [mbind outcome_bind].
  destruct (children_sits base blob a ps cs Hs Hp Ha) as [Hc Hca].
  replace (Z.to_nat (zlen cs)) with (length cs) by (unfold zlen; lia).
  replace (a + zlen (flat (DTNode ps cs))) with
    (a + 8 + zlen (concat (flat_prop <$> ps)) + zlen (concat (map flat cs)))
    by (cbn [flat]; rewrite !zlen_app, !zlen_le_split; lia).
  cbn [height] in Hf. apply le_S_n in Hf. revert Hc Hca.
  generalize (a + 8 + zlen (concat (flat_prop <$> ps))).
  match goal with |- context [for_ret (length cs) ?z0] => generalize z0 at 2 end.
  clear -IH Hcs Htc Hf Hn Hv Hbase Hend Hsize. revert Hcs Htc Hf.
  induction IH as [|c cs Hcc _ IHcs]; intros Hcs Htc Hf k e Hc Hca; cbn [length for_ret find_addr_list].
  { exists e. split; [done |]. intros _. cbn [map concat]. change (zlen (@nil Z)) with 0. lia. }
  apply Forall_cons in Hcs as [Hcok Hcs], Htc as [Hct Htc].
  destruct (children_step c cs e Hc Hca Hcok) as (H1 & H2 & H3).
  cbn [map list_max foldr] in Hf. change (foldr Nat.max 0%nat (map height cs)) with (list_max (map height cs)) in Hf.
    destruct (Hcc fuel e Hcok Hct H1 Hca ltac:(lia)) as (q & -> & Hq). cbn [mbind outcome_bind].
  destruct (find_addr (existsb (prop_matches n v)) c e) as [[d ed] |]; cbn; [by exists q |].
  rewrite (Hq eq_refl). destruct (IHcs Hcs Htc ltac:(lia) (k + 1) _ H2 H3) as (q' & E & Hq').
  exists q'. cbn [fmap option_fmap option_map] in E. rewrite E. split; [done |]. intros Hnone. rewrite (Hq' Hnone).
  rewrite zlen_app. lia.
Qed.
End find_entry.

(** ** Search by name and exact value *)

Lemma strncmp_sits m : forall a k n rest, sits a (m ++ 0 :: rest) -> cstr m -> cstr n ->
  (length m < k)%nat -> strncmp_mem_eq base blob k (n ++ [0]) a = Ret (bool_decide (m = n)).
Proof.
  induction m as [|x m IH]; intros a k n rest Hs Hm Hn Hk; (destruct k as [|k]; [cbn in Hk; lia |]);
    destruct n as [|y n]; cbn [app strncmp_mem_eq]; cbn [app] in Hs; rewrite (rd8_sits base blob _ _ _ Hs);
    cbn [mbind outcome_bind].
  - done.
  - apply Forall_cons in Hn as [Hy _]. rewrite (proj2 (Z.eqb_neq 0 y)) by done. done.
  - apply Forall_cons in Hm as [Hx _]. rewrite (proj2 (Z.eqb_neq x 0)) by done. done.
  - apply Forall_cons in Hm as [Hx Hm], Hn as [Hy Hn].
    destruct (Z.eqb_spec x y) as [-> |]; cbn [negb].
    + rewrite (proj2 (Z.eqb_neq y 0)) by done. rewrite (IH _ _ _ rest); [| | done | done | cbn in Hk; lia].
      * f_equal. apply bool_decide_ext. naive_solver.
      * change (y :: m ++ 0 :: rest) with ([y] ++ m ++ 0 :: rest) in Hs.
        by apply sits_app in Hs as [_ Hs].
    + f_equal. symmetry. apply bool_decide_eq_false_2. naive_solver.
Qed.

Definition prop_equals (n val : bytes) (p : bytes * bytes) : bool :=
  bool_decide (p.1 = n) && bool_decide (p.2 = val).

Section find_equal.
Context (n val : bytes) (Hn : cstr n).

Lemma find_equal_props (node : Z) qs : forall p k rest, p mod 4 = 0 ->
  sits p (concat (flat_prop <$> qs) ++ rest) -> Forall prop_ok qs ->
  for_ret (length qs) k
    (fun _ property =>
       len ← prop_length base blob property;
       let next :=
         property + (sizeof_DeviceTreeNodeProperty + Z.land (u32 (len + 3)) (u32 (-4))) in
       eqn ← strncmp_mem_eq base blob (Z.to_nat kPropNameLength) (n ++ [0]) property;
       if negb eqn then Ret (Next next)
       else if negb (zlen val =? len) then Ret (Next next)
       else
         eqv ← memcmp_eq base blob val (property + sizeof_DeviceTreeNodeProperty) (zlen val);
         if negb eqv then Ret (Next next) else Ret (Exit node)) p =
  Ret (if existsb (prop_equals n val) qs then Exit node else Next (p + zlen (concat (flat_prop <$> qs)))).
Proof.
  induction qs as [|[m w] qs IH]; intros p k rest Hp Hq Hok; cbn [length for_ret existsb].
  { cbn [fmap list_fmap concat]. change (zlen (@nil Z)) with 0. by rewrite Z.add_0_r. }
  apply Forall_cons in Hok as [Hpr Hok]. cbn [fmap list_fmap concat] in Hq |- *.
  rewrite <- app_assoc in Hq.
  pose proof (prop_bounds base blob p m w _ Hq Hpr) as Hbd.
  pose proof (zlen_nonneg w). destruct (pad4_spec (zlen w)).
  erewrite prop_length_sits by eassumption. cbn [mbind outcome_bind].
  destruct (prop_name_sits base blob p m w _ Hq Hpr) as [junk Hj].
  destruct Hpr as [Hcm Hlm]. cbn [fst] in *.
  rewrite (strncmp_sits m p _ n junk Hj Hcm Hn) by (unfold kPropNameLength, zlen in *; lia).
  cbn [mbind outcome_bind]. rewrite pad_mask by lia.
  assert (p + (sizeof_DeviceTreeNodeProperty + (zlen w + pad4 (zlen w))) = p + zlen (flat_prop (m, w))) as ->.
  { rewrite zlen_flat_prop by done. cbn [snd]. unfold sizeof_DeviceTreeNodeProperty, kPropNameLength. lia. }
  rewrite zlen_app, Z.add_assoc.
  pose proof (IH (p + zlen (flat_prop (m, w))) (k + 1) rest ltac:(by eapply next_aligned)
    (proj2 (proj1 (sits_app base blob _ _ _) Hq)) Hok) as Hrest.
  unfold prop_equals at 1. cbn [fst snd].
  destruct (bool_decide (m = n)) eqn:Em; cbn [andb orb negb]; [| exact Hrest].
  destruct (Z.eqb_spec (zlen val) (zlen w)) as [El | Hne]; cbn [negb].
  - pose proof (prop_value_sits base blob p m w _ Hq (conj Hcm Hlm)) as Hval.
    assert (memcmp_eq base blob val (p + sizeof_DeviceTreeNodeProperty) (zlen val) =
      Ret (bool_decide (w = val))) as ->.
    { unfold DeviceTreeProofs.sits in Hval. unfold memcmp_eq.
      change sizeof_DeviceTreeNodeProperty with 36. rewrite sub_bytes_all, El, Hval.
      cbn [of_option mbind outcome_bind]. f_equal. apply bool_decide_ext; split; congruence. }
    cbn [mbind outcome_bind]. destruct (bool_decide (w = val)); [done | exact Hrest].
  - rewrite (bool_decide_eq_false_2 (w = val)) by (intros ->; done). exact Hrest.
Qed.

Lemma find_equal_sits t : forall fuel a, tree_ok t -> sits a (flat t) -> a mod 4 = 0 ->
  (height t <= fuel)%nat ->
  SecureDTFindNodeWithPropertyEqualToValueHelper base blob fuel (n ++ [0]) val (zlen val) a =
  Ret (match find_addr (existsb (prop_equals n val)) t a with
       | Some (_, e) => inl e | None => inr (zlen (flat t)) end).
Proof.
  induction t as [ps cs IH] using dtnode_ind'. intros fuel a Ht Hs Ha Hf.
  pose proof (tree_ok_props _ Ht) as [Hp Hne]. cbn [dn_props] in *.
  inversion Ht as [? ? nm _ _ _ Hcs]; subst.
  destruct fuel as [|fuel]; [cbn in Hf; lia |]. cbn [SecureDTFindNodeWithPropertyEqualToValueHelper].
  erewrite nProperties_sits by eassumption. cbn [mbind outcome_bind].
  replace (Z.to_nat (zlen ps)) with (length ps) by (unfold zlen; lia).
  pose proof (find_equal_props a ps (a + 8) 0 _ ltac:(zdm) (props_sits base blob a ps cs Hs) Hp) as Hq.
  change (a + sizeof_DeviceTreeNode) with (a + 8). cbn zeta in Hq. rewrite Hq. cbn [mbind outcome_bind].
  rewrite find_addr_unfold. destruct (existsb (prop_equals n val) ps); [done |].
  erewrite nChildren_sits by eassumption. cbn [mbind outcome_bind].
  destruct (children_sits base blob a ps cs Hs Hp Ha) as [Hc Hca].
  replace (Z.to_nat (zlen cs)) with (length cs) by (unfold zlen; lia).
  set (z := a + 8 + zlen (concat (flat_prop <$> ps))) in *.
  cbn [height] in Hf. apply le_S_n in Hf.
  assert (forall ds k e, Forall (fun t => forall fuel a, tree_ok t -> sits a (flat t) -> a mod 4 = 0 ->
      (height t <= fuel)%nat ->
      SecureDTFindNodeWithPropertyEqualToValueHelper base blob fuel (n ++ [0]) val (zlen val) a =
      Ret (match find_addr (existsb (prop_equals n val)) t a with
        | Some (_, e) => inl e | None => inr (zlen (flat t)) end)) ds ->
    Forall tree_ok ds -> sits e (concat (map flat ds)) -> e mod 4 = 0 ->
    (list_max (map height ds) <= fuel)%nat ->
    for_ret (length ds) k (fun _ current_position =>
      r ← SecureDTFindNodeWithPropertyEqualToValueHelper base blob fuel (n ++ [0]) val (zlen val) current_position;
      match r with
      | inl n => Ret (Exit n)
      | inr child_size => Ret (Next (current_position + child_size))
      end) e =
    Ret (match find_addr_list (existsb (prop_equals n val)) ds e with
      | Some (_, x) => Exit x | None => Next (e + zlen (concat (map flat ds))) end)) as Hloop.
  { clear. induction ds as [|d ds IHd]; intros k e HIH Hok He Hal Hf; cbn [length for_ret find_addr_list].
    { cbn [map concat]. change (zlen (@nil Z)) with 0. by rewrite Z.add_0_r. }
    apply Forall_cons in HIH as [H1 HIH], Hok as [Hd Hok].
    destruct (children_step d ds e He Hal Hd) as (E1 & E2 & E3).
    cbn [map list_max foldr] in Hf.
    change (foldr Nat.max 0%nat (map height ds)) with (list_max (map height ds)) in Hf.
    rewrite H1 by (done || lia). cbn [mbind outcome_bind].
    destruct (find_addr (existsb (prop_equals n val)) d e) as [[d' x] |]; [done |].
    cbn [mbind outcome_bind].     rewrite IHd by (done || lia). cbn [map concat]. by rewrite zlen_app, Z.add_assoc. }
  rewrite (Hloop cs 0 z IH Hcs Hc Hca Hf). cbn [mbind outcome_bind].
  destruct (find_addr_list _ cs z) as [[c e] |]; [done |]. do 2 f_equal.
  unfold z. cbn [flat]. rewrite !zlen_app, !zlen_le_split. lia.
Qed.
End find_equal.

Lemma height_fuel t a : sits a (flat t) -> (height t <= dt_fuel blob)%nat.
Proof. intros Hs%sits_bounds. pose proof (height_flat t). unfold dt_fuel, zlen in *. lia. Qed.
End search_on_blob.

(** What a search returned is the node the tree search returns. *)
Definition finds (base : Z) (blob : bytes) (r : option Z) (c : option dtnode) : Prop :=
  match c with
  | Some c => exists a, r = Some a /\ reads_as base blob a c
  | None => r = None
  end.

Lemma find_addr_finds base blob t P : placed base blob t ->
  finds base blob (snd <$> find_addr P t base) (find_node P t).
Proof.
  intros Hp. pose proof (placed_sits _ _ _ Hp) as Hs. destruct Hp as [H1 H2 H3 H4 Ht _].
  rewrite <- (find_addr_node P t base). destruct (find_addr P t base) as [[c a] |] eqn:E; [| done].
  destruct (find_addr_ok base blob P t base c a Ht Hs H2 E) as (Hc & Hsc & Ha).
  exists a. split; [done |]. by apply sits_reads_as.
Qed.

Lemma find_entry_refines base blob t n v : placed base blob t -> terminated n t -> cstr n -> cstr v ->
  exists r, SecureDTFindEntry base blob (globals base blob) (n ++ [0]) (Some (v ++ [0])) = Ret r /\
    finds base blob r (find_node (existsb (prop_matches n (Some v))) t).
Proof.
  intros Hp Hterm Hn Hv. pose proof (placed_sits _ _ _ Hp) as Hs. pose proof Hp as [H1 H2 H3 H4 Ht _].
  pose proof (height_fuel base blob t base Hs) as Hf.
  destruct (find_entry_sits base blob H1 H3 H4 n (Some v) Hn Hv t (dt_fuel blob) base Ht Hterm Hs H2 Hf)
    as (q & E & _).
  exists (snd <$> find_addr (existsb (prop_matches n (Some v))) t base).
  split; [| by apply find_addr_finds]. unfold SecureDTFindEntry. cbn [DTInitialized globals negb].
  cbn [fmap option_fmap option_map] in E. cbn [DTRootNode globals]. rewrite E. done.
Qed.

(** On the flattening of a well-formed tree, the search for a property by name and string
    value, and the search for a property with an exact value, return the first node in
    preorder that has such a property, and fail exactly when there is none. *)
Theorem searches_preorder (base : Z) (blob : bytes) (t : dtnode) (n v val : bytes)
    (Hp : placed base blob t) (Hterm : terminated n t) (Hn : cstr n) (Hv : cstr v) :
  let g := globals base blob in
  (exists r, SecureDTFindEntry base blob g (n ++ [0]) (Some (v ++ [0])) = Ret r /\
     finds base blob r (find_node (existsb (prop_matches n (Some v))) t)) /\
  (exists r, SecureDTFindNodeWithPropertyEqualToValue base blob g (n ++ [0]) val (zlen val) = Ret r /\
     finds base blob r (find_node (existsb (prop_equals n val)) t)).
Proof.
  intros g. pose proof (placed_sits _ _ _ Hp) as Hs. pose proof Hp as [H1 H2 H3 H4 Ht _].
  pose proof (height_fuel base blob t base Hs) as Hf. split.
  - by apply find_entry_refines.
  - exists (snd <$> find_addr (existsb (prop_equals n val)) t base).
    split; [| by apply find_addr_finds]. unfold SecureDTFindNodeWithPropertyEqualToValue.
    cbn [DTInitialized g globals negb DTRootNode].
    rewrite (find_equal_sits base blob H4 n val Hn t (dt_fuel blob) base Ht Hs H2 Hf).
    cbn [mbind outcome_bind]. by destruct (find_addr _ t base) as [[c a] |].
Qed.

(** ** Iteration *)

(** Iterate until done, collecting the entries and the final iterator. *)
Fixpoint iterate_all (base : Z) (blob : bytes) (g : dt_globals) (fuel : nat) (iter : DTEntryIterator)
    : outcome (list Z * DTEntryIterator) :=
  match fuel with
  | O => NoFuel
  | S fuel =>
      '(e, iter) ← SecureDTIterateEntries base blob g iter;
      match e with
      | None => Ret ([], iter)
      | Some e => '(es, iter) ← iterate_all base blob g fuel iter; Ret (e :: es, iter)
      end
  end.

Fixpoint child_addrs (e : Z) (cs : list dtnode) : list Z :=
  match cs with [] => [] | c :: cs => e :: child_addrs (e + zlen (flat c)) cs end.

(** The part of an iterator that iterating leaves alone. *)
Definition same_scope (i j : DTEntryIterator) : Prop :=
  outerScope i = outerScope j /\ currentScope i = currentScope j /\ savedScope i = savedScope j.

Lemma iterate_same_scope base blob g iter e iter' :
  SecureDTIterateEntries base blob g iter = Ret (e, iter') -> same_scope iter iter'.
Proof.
  unfold SecureDTIterateEntries. destruct (nChildren _ _ _) as [n | | |]; try done. cbn [mbind outcome_bind].
  destruct (n <=? _); [by intros [= <- <-] |].
  destruct (if _ =? 1 then _ else _) as [x | | |]; try done. cbn [mbind outcome_bind].
  destruct (ASSERT_IN_DT g x); try done. by intros [= <- <-].
Qed.

Lemma iterate_all_same_scope base blob g fuel : forall iter es iter',
  iterate_all base blob g fuel iter = Ret (es, iter') -> same_scope iter iter'.
Proof.
  induction fuel as [|fuel IH]; intros iter es iter'; cbn [iterate_all]; [done |].
  destruct (SecureDTIterateEntries _ _ _ iter) as [[e it] | | |] eqn:E; try done. cbn [mbind outcome_bind].
  apply iterate_same_scope in E. destruct e as [e |]; [| by intros [= <- <-]].
  destruct (iterate_all _ _ _ fuel it) as [[es' it'] | | |] eqn:E'; try done. intros [= <- <-].
  apply IH in E'. destruct E as (? & ? & ?), E' as (? & ? & ?). split_and!; congruence.
Qed.

Section iterate.
Context (base : Z) (blob : bytes).
Context (Hbase : 8 < base) (Halign : base mod 4 = 0) (Hend : base + zlen blob + 3 < 2 ^ 64).
Context (Hsize : zlen blob < 2 ^ 32).
Context (a : Z) (ps : list (bytes * bytes)) (cs0 : list dtnode).
Context (Ht : tree_ok (DTNode ps cs0)) (Hs : sits base blob a (flat (DTNode ps cs0))) (Ha : a mod 4 = 0).

(** Where the next entry is: behind the properties, or behind the current entry. *)
Definition next_at (iter : DTEntryIterator) (e : Z) (cs : list dtnode) : Prop :=
  currentScope iter = a /\ 0 <= currentIndex iter /\ currentIndex iter + zlen cs = zlen cs0 /\
  if currentIndex iter =? 0 then e = a + 8 + zlen (concat (flat_prop <$> ps))
  else exists c, tree_ok c /\ sits base blob (currentEntry iter) (flat c) /\
         currentEntry iter mod 4 = 0 /\ e = currentEntry iter + zlen (flat c).

Lemma iterate_all_sits cs : forall fuel iter e, (length cs < fuel)%nat -> next_at iter e cs ->
  Forall tree_ok cs -> sits base blob e (concat (map flat cs)) -> e mod 4 = 0 ->
  exists iter', iterate_all base blob (globals base blob) fuel iter = Ret (child_addrs e cs, iter').
Proof.
  pose proof (tree_ok_props _ Ht) as [Hp Hne]. cbn [dn_props] in *.
  induction cs as [|c cs IH]; intros fuel iter e Hf (Hscope & Hidx & Hlen & Hnext) Hok Hcs He;
    (destruct fuel as [|fuel]; [cbn in Hf; lia |]); cbn [iterate_all]; unfold SecureDTIterateEntries;
    rewrite Hscope; erewrite nChildren_sits by eassumption; cbn [mbind outcome_bind].
  - change (zlen (@nil dtnode)) with 0 in Hlen. rewrite (proj2 (Z.leb_le _ _)) by lia. cbn. by eexists.
  - apply Forall_cons in Hok as [Hc Hok]. rewrite zlen_cons in Hlen. pose proof (zlen_nonneg cs).
    destruct (children_step base blob c cs e Hcs He Hc) as (H1 & H2 & H3).
    rewrite (proj2 (Z.leb_gt _ _)) by lia.
    destruct (node_bounds base blob a ps cs0 Hs Hp) as (Hb1 & Hb2 & Hb3).
    assert (zlen cs0 < 2 ^ 32).
    { assert (zlen cs0 <= zlen (flat (DTNode ps cs0))); [| lia]. cbn [flat]. rewrite !zlen_app.
      pose proof (zlen_nonneg (le_split 4 (zlen ps))). pose proof (zlen_nonneg (le_split 4 (zlen cs0))).
      pose proof (zlen_nonneg (concat (flat_prop <$> ps))).
      assert (forall l : list dtnode, zlen l <= zlen (concat (map flat l))) as Hg; [| specialize (Hg cs0); lia].
      induction l as [|d l IHl]; [done |]. cbn [map concat]. rewrite zlen_cons, zlen_app.
      pose proof (zlen_flat_pos d). lia. }
    rewrite (u64_small (currentIndex iter + 1)) by (cint_unfold; lia).
    assert ((if currentIndex iter + 1 =? 1 then GetFirstChild base blob (globals base blob) a
      else GetNextChild base blob (globals base blob) (currentEntry iter)) = Ret e) as ->.
    { destruct (Z.eqb_spec (currentIndex iter) 0) as [E0 | E0].
      - rewrite E0. cbn [Z.add Z.eqb Pos.eqb]. unfold GetFirstChild. rewrite Hnext.
        erewrite skipProperties_sits by eassumption. done.
      - rewrite (proj2 (Z.eqb_neq _ 1)) by lia. destruct Hnext as (d & Hd & Hds & Hda & ->).
        by eapply GetNextChild_sits. }
    cbn [mbind outcome_bind]. unfold ASSERT_IN_DT. cbn [DTRootNode DTEnd globals].
    pose proof (sits_bounds _ _ _ _ H1). pose proof (zlen_flat_pos c).
    rewrite in_region by lia. cbn [mbind outcome_bind].
    destruct (IH fuel {| outerScope := outerScope iter; currentScope := a; currentEntry := e;
      savedScope := savedScope iter; currentIndex := currentIndex iter + 1 |} (e + zlen (flat c)))
      as [iter' ->]; [cbn in Hf; lia | | done | done | done | by eexists].
    split_and!; cbn [currentScope currentIndex currentEntry]; [done | lia | lia |].
    rewrite (proj2 (Z.eqb_neq _ 0)) by lia. by exists c.
Qed.

Lemma child_addrs_read cs : forall e, Forall tree_ok cs -> sits base blob e (concat (map flat cs)) ->
  e mod 4 = 0 -> Forall2 (reads_as base blob) (child_addrs e cs) cs.
Proof.
  induction cs as [|c cs IH]; intros e Hok Hcs He; cbn [child_addrs]; [constructor |].
  apply Forall_cons in Hok as [Hc Hok]. destruct (children_step base blob c cs e Hcs He Hc) as (H1 & H2 & H3).
  constructor; [by apply sits_reads_as | by apply IH].
Qed.
End iterate.

(** From the entry a path leads to, the entry iterator returns the children of the node in
    order, each exactly once, and then reports the end; entering a child, iterating there
    and leaving it again gives back the iterator as it was. *)
Theorem iterate_children (base : Z) (blob : bytes) (t c : dtnode) (comps : list bytes)
    (Hp : placed base blob t) (Hc : resolve t comps = Some c) :
  exists a es, (exists d, walk t base comps = Some (d, a)) /\
    Forall2 (reads_as base blob) es (dn_children c) /\
    forall outer, SecureDTEnterEntry outer a <> None /\
      forall iter, SecureDTEnterEntry outer a = Some iter ->
      exists iter', iterate_all base blob (globals base blob) (S (length (dn_children c))) iter =
        Ret (es, iter') /\ SecureDTExitEntry iter' = Some (outer, currentEntry outer).
Proof.
  pose proof (placed_sits _ _ _ Hp) as Hs. destruct Hp as [H1 H2 H3 H4 Ht _].
  pose proof (walk_resolve comps t base) as Hw. rewrite Hc in Hw.
  destruct (walk t base comps) as [[d a] |] eqn:Ew; [| done]. injection Hw as ->.
  destruct (walk_ok base blob comps t base c a Ht Hs H2 Ew) as (Hcok & Hcs & Ha).
  destruct c as [ps cs]. pose proof (tree_ok_props _ Hcok) as [Hpok Hne]. cbn [dn_props dn_children] in *.
  inversion Hcok as [? ? nm _ _ _ Hchs]; subst.
  destruct (children_sits base blob a ps cs Hcs Hpok Ha) as [Hch Hcha].
  exists a, (child_addrs (a + 8 + zlen (concat (flat_prop <$> ps))) cs).
  split; [by eexists |]. split; [by apply child_addrs_read |]. intros outer.
  pose proof (sits_bounds _ _ _ _ Hcs). unfold SecureDTEnterEntry.
  rewrite (proj2 (Z.eqb_neq a 0)) by lia. split; [done |]. intros iter [= <-].
  match goal with |- context [iterate_all _ _ _ _ ?i] => set (it := i) end.
  destruct (iterate_all_sits base blob H1 H3 H4 a ps cs Hcok Hcs Ha cs (S (length cs)) it
    (a + 8 + zlen (concat (flat_prop <$> ps)))) as [iter' E]; try done.
  { lia. }
  exists iter'. split; [done |]. apply iterate_all_same_scope in E as (E1 & E2 & E3).
  cbn in E1, E2, E3. unfold SecureDTExitEntry. rewrite <- E3, <- E1. cbn. by destruct outer.
Qed.

Fixpoint terminatedb (n : bytes) (t : dtnode) : bool :=
  match t with
  | DTNode ps cs =>
      forallb (fun p => negb (bool_decide (p.1 = n)) || existsb (Z.eqb 0) p.2) ps &&
      forallb (terminatedb n) cs
  end.

Lemma terminatedb_sound n t : terminatedb n t = true -> terminated n t.
Proof.
  induction t as [ps cs IH] using dtnode_ind'. cbn [terminatedb]. intros [Hp Hc]%andb_true_iff.
  rewrite forallb_forall in Hp, Hc. rewrite Forall_forall in IH. constructor; apply Forall_forall.
  - intros p Hin%list_elem_of_In Hn. specialize (Hp p Hin). rewrite bool_decide_eq_true_2 in Hp by done.
    cbn [negb orb] in Hp. apply existsb_exists in Hp as (x & Hx & E). apply Z.eqb_eq in E. by subst x.
  - intros c Hin. apply IH; [done |]. apply Hc. by apply list_elem_of_In.
Qed.

(** ** Platform defaults *)

(** The default of a name as the tree defines it; without [/defaults] it is I/O Kit's. *)
Definition default_of (t : dtnode) (iodt : bytes -> bytes -> Z -> Z * bytes) (name to : bytes) (max : Z)
    : bool * bytes :=
  match resolve t [lit "defaults"] with
  | None => let '(r, to') := iodt (name ++ [0]) to max in (if r =? 0 then true else false, to')
  | Some c =>
      match prop_find (dn_props c) name with
      | None => (false, to)
      | Some v => if max <? zlen v then (false, to) else (true, v ++ drop (length v) to)
      end
  end.

(** The platform default of a name is the property of that name of [/defaults]: copied
    exactly when the caller has room for all of it, refused with the caller's buffer
    untouched when it is missing or too long; without that node the answer is I/O Kit's. *)
Theorem get_default_refines (base : Z) (blob buf name to : bytes) (max : Z) (t : dtnode)
    (iodt : bytes -> bytes -> Z -> Z * bytes) (Hp : placed base blob t) (Hn : cstr name)
    (Hbuf : zlen buf = kDTMaxEntryNameLength + 1) (Hto : max <= zlen to) :
  PE_get_default base blob (globals base blob) iodt buf (name ++ [0]) to max =
  Ret (default_of t iodt name to max).
Proof.
  unfold PE_get_default, default_of.
  change (lit "/defaults" ++ [0]) with (kDTPathNameSeparator :: join_path [lit "defaults"]).
  destruct (path_lookup_refines base blob buf t [lit "defaults"] Hp) as (r & -> & Hm); [| done |].
  { repeat constructor; discriminate. }
  cbn [mbind outcome_bind]. destruct (resolve t [lit "defaults"]) as [c |].
  - destruct Hm as (a & -> & Ha). specialize (Ha name Hn).
    destruct (prop_find (dn_props c) name) as [v |]; [| by rewrite Ha].
    destruct Ha as (p & -> & Hv). cbn [mbind outcome_bind].
    destruct (Z.ltb_spec max (zlen v)); [done |]. rewrite Hv. cbn [of_option mbind outcome_bind].
    pose proof (copy_into_append [] to 0 v (zlen v) eq_refl ltac:(pose proof (zlen_nonneg v); lia) ltac:(lia)) as Hc.
    cbn [app] in Hc. rewrite Hc, region_all. cbn. unfold zlen. by rewrite Nat2Z.id.
  - subst r. by destruct (iodt (name ++ [0]) to max).
Qed.

(** ** Instances *)

Lemma searches_preorder_witness :
  exists a, SecureDTFindEntry 4096 sample_blob (globals 4096 sample_blob) (lit "name" ++ [0])
    (Some (lit "cpu0" ++ [0])) = Ret (Some a).
Proof.
  destruct (searches_preorder 4096 sample_blob sample_tree (lit "name") (lit "cpu0") [] sample_placed)
    as [(r & Hr & a & -> & _) _].
  - apply terminatedb_sound. by vm_compute.
  - repeat constructor; discriminate.
  - repeat constructor; discriminate.
  - exists a. exact Hr.
Defined.

Lemma iterate_children_witness :
  exists a (es : list Z), (exists d, walk sample_tree 4096 [] = Some (d, a)) /\ length es = 2%nat.
Proof.
  destruct (iterate_children 4096 sample_blob sample_tree sample_tree [] sample_placed eq_refl)
    as (a & es & Hw & H2 & _).
  exists a, es. split; [exact Hw |]. apply Forall2_length in H2. exact H2.
Defined.

Lemma get_default_refines_witness :
  PE_get_default 4096 sample_blob (globals 4096 sample_blob) (fun _ to _ => (-1, to)) (replicate 64 0)
    (lit "serial-device" ++ [0]) (replicate 4 0) 4 = Ret (false, replicate 4 0).
Proof.
  rewrite (get_default_refines 4096 sample_blob (replicate 64 0) (lit "serial-device") (replicate 4 0) 4
    sample_tree (fun _ to _ => (-1, to)) sample_placed); [by vm_compute | | by vm_compute | by vm_compute].
  repeat constructor; discriminate.
Defined.
