(* ===== verification/DeviceTreeSafety.v ===== *)
(** * The flattened device tree: arbitrary blobs

    What the region checks of pexpert/gen/device_tree.c guarantee when the blob is not the
    flattening of anything, and where they stop short. *)

From stdpp Require Import base list strings.
From Stdlib Require Import ZArith Lia.
From S2P Require Import Prelude DeviceTree DeviceTreeProofs.

(** The computation returns a value that satisfies [Q], or panics; it neither faults nor runs
    out of fuel. *)
Definition safe {A} (o : outcome A) (Q : A -> Prop) : Prop :=
  match o with Ret a => Q a | Panic => True | Fault | NoFuel => False end.

Lemma safe_bind {A B} (m : outcome A) (f : A -> outcome B) (P : A -> Prop) (Q : B -> Prop) :
  safe m P -> (forall a, P a -> safe (f a) Q) -> safe (m ≫= f) Q.
Proof. destruct m; cbn; auto. Qed.

Lemma safe_mono {A} (m : outcome A) (P Q : A -> Prop) :
  safe m P -> (forall a, P a -> Q a) -> safe m Q.
Proof. destruct m; cbn; auto. Qed.

Lemma safe_for {S R} (I : S -> Prop) (Q : R -> Prop) n : forall k body (s : S), I s ->
  (forall k s, I s -> safe (body k s) (fun c => match c with Next s => I s | Exit r => Q r end)) ->
  safe (for_ret n k body s) (fun c => match c with Next s => I s | Exit r => Q r end).
Proof.
  induction n as [|n IH]; intros k body s Hs Hb; cbn [for_ret]; [done |].
  eapply safe_bind; [by apply Hb |]. intros [s' | r] H; [by apply IH | done].
Qed.

Section any_blob.
Context (base : Z) (blob : bytes).
Context (Hbase : 36 < base) (Hend : base + zlen blob < 2 ^ 64) (Hbytes : Forall is_u8 blob).
Abbreviation globals := (globals base blob).
Abbreviation end_ := (base + zlen blob).

Lemma rd32_safe a : base <= a -> a + 4 <= end_ -> safe (rd32 base blob a) (fun v => 0 <= v < 2 ^ 32).
Proof.
  intros. unfold rd32. rewrite sub_bytes_region by lia. cbn.
  pose proof (le_combine_bound (region blob (a - base) 4) (region_Forall _ _ _ _ Hbytes)) as Hb.
  rewrite zlen_region in Hb by lia. exact Hb.
Qed.

Lemma assert_safe p : safe (assert_in_dt_region base end_ p) (fun _ => base <= p <= end_).
Proof.
  unfold assert_in_dt_region. destruct (Z.ltb_spec p base), (Z.ltb_spec end_ p); cbn; try done; lia.
Qed.

(** A checked header lies in the region when its start is not below it. *)
Lemma header_safe p n : base <= p < 2 ^ 64 -> 0 <= n <= 36 ->
  safe (assert_in_dt_region base end_ (u64 (p + n))) (fun _ => p + n <= end_).
Proof.
  intros Hp Hn. eapply safe_mono; [apply assert_safe |]. cbn. intros _ Hr.
  unfold u64 in Hr. destruct (Z.lt_ge_cases (p + n) (2 ^ 64)) as [Hlt | Hge].
  - rewrite Z.mod_small in Hr by lia. lia.
  - exfalso. replace (p + n) with ((p + n - 2 ^ 64) + 1 * 2 ^ 64) in Hr by lia.
    rewrite Z.mod_add, Z.mod_small in Hr by lia. lia.
Qed.

Lemma next_prop_safe p : base <= p < 2 ^ 64 ->
  safe (next_prop_region base blob base end_ p) (fun q => p + 36 <= q < 2 ^ 64).
Proof.
  intros Hp. unfold next_prop_region, assert_header_in_dt_region.
  change sizeof_DeviceTreeNodeProperty with 36.
  eapply safe_bind; [apply header_safe; lia |]. cbn. intros _ Hh.
  eapply safe_bind; [apply rd32_safe; unfold kPropNameLength; lia |]. cbn. intros len Hl.
  unfold add3. destruct (Z.leb_spec (2 ^ 64) (p + len + (36 + 3))); cbn; [done |].
  change (Z.lnot 3) with (Z.lnot (2 ^ 2 - 1)). rewrite land_lnot_ones by lia. change (2 ^ 2) with 4.
  change (2 ^ 64) with 18446744073709551616 in *. zdm.
Qed.

Lemma assert_prop_safe p : p < 2 ^ 64 ->
  safe (assert_prop_in_dt_region base blob base end_ p)
    (fun _ => base <= p /\ p + 36 <= end_ /\ exists len, prop_length base blob p = Ret len /\
       0 <= len /\ p + 36 + len <= end_).
Proof.
  intros Hp64. unfold assert_prop_in_dt_region. change sizeof_DeviceTreeNodeProperty with 36.
  eapply safe_bind; [apply assert_safe |]. cbn. intros _ Hp.
  eapply safe_bind; [apply header_safe; lia |]. cbn. intros _ Hh.
  assert (safe (prop_length base blob p) (fun v => 0 <= v < 2 ^ 32)) as Hl
    by (apply rd32_safe; unfold kPropNameLength; lia).
  destruct (prop_length base blob p) as [len | | |]; try done. cbn in *.
  unfold add3. destruct (Z.leb_spec (2 ^ 64) (p + 36 + len)); cbn; [done |].
  eapply safe_mono; [apply assert_safe |]. cbn. intros _ Hr.
  split_and!; [lia | lia |]. exists len. split; [done | lia].
Qed.

Lemma strcmp_safe s : forall a, base <= a -> a + zlen s + 1 <= end_ ->
  safe (strcmp_eq base blob a (s ++ [0])) (fun _ => True).
Proof.
  induction s as [|y s IH]; intros a Ha Hl; cbn [app strcmp_eq]; unfold rd8; rewrite byte_at_elem.
  - change (zlen (@nil Z)) with 0 in Hl. destruct (elem_at_in_range blob (a - base) ltac:(lia)) as [c ->].
    cbn. by destruct (Z.eqb_spec c 0).
  - rewrite zlen_cons in Hl. pose proof (zlen_nonneg s).
    destruct (elem_at_in_range blob (a - base) ltac:(lia)) as [c ->]. cbn [of_option mbind outcome_bind].
    destruct (negb (c =? y)); [done |]. destruct (c =? 0); [done |]. apply IH; lia.
Qed.

(** An entry a caller may hold: NULL or an address of the region. *)
Definition entry_ok (e : Z) : Prop := e = 0 \/ base <= e <= end_.

Lemma get_property_safe e name : entry_ok e -> zlen name <= 35 ->
  safe (SecureDTGetProperty base blob globals e (name ++ [0]))
    (fun r => match r with Some (p, len) => base <= p /\ 0 <= len /\ p + len <= end_ | None => True end).
Proof.
  intros He Hname. unfold SecureDTGetProperty, SecureDTGetPropertyInternal.
  destruct (Z.eqb_spec e 0) as [| He0]; [done |]. destruct He as [| He]; [done |].
  cbn [DTRootNode DTEnd globals]. pose proof (zlen_nonneg blob).
  assert (u64 (base + u64 (end_ - base)) = end_) as ->
    by (rewrite (u64_small (_ - _)) by cint; rewrite u64_small by cint; lia).
  unfold assert_header_in_dt_region. change sizeof_DeviceTreeNode with 8.
  eapply safe_bind; [apply header_safe; lia |]. cbn. intros _ Hh.
  eapply safe_bind; [apply rd32_safe; lia |]. cbn. intros n Hn. destruct (n =? 0); [done |].
  eapply safe_bind.
  - apply (safe_for (fun p => base <= p < 2 ^ 64)
      (fun r : Z * Z => base <= r.1 /\ 0 <= r.2 /\ r.1 + r.2 <= end_)); [lia |].
    intros k p Hp. eapply safe_bind; [apply assert_prop_safe; lia |].
    cbn. intros _ (_ & Hp2 & len & El & Hl1 & Hl2).
    eapply safe_bind; [apply strcmp_safe; lia |]. cbn. intros [|] _.
    + rewrite El. cbn. unfold sizeof_DeviceTreeNodeProperty, kPropNameLength. lia.
    + eapply safe_bind; [by apply next_prop_safe |]. cbn. lia.
  - intros [p | [p len]]; cbn; [done | lia].
Qed.

Lemma skipProperties_safe e : entry_ok e ->
  safe (skipProperties base blob globals e) (fun r => r = 0 \/ e <> 0 /\ e + 44 <= r <= end_).
Proof.
  intros He. unfold skipProperties. destruct (Z.eqb_spec e 0) as [| He0]; [by left |].
  destruct He as [| He]; [done |].
  unfold ASSERT_HEADER_IN_DT, ASSERT_IN_DT. cbn [DTRootNode DTEnd globals].
  change sizeof_DeviceTreeNode with 8.
  eapply safe_bind; [apply header_safe; lia |]. cbn. intros _ Hh.
  eapply safe_bind; [apply rd32_safe; lia |]. cbn. intros n Hn.
  destruct (Z.eqb_spec n 0); [by left |].
  replace (Z.to_nat n) with (S (Z.to_nat (n - 1))) by lia. cbn [for_ret].
  unfold next_prop. cbn [DTRootNode DTEnd globals].
  eapply (safe_bind _ _ (fun c : ctl Z Empty_set => match c with Next p => e + 44 <= p < 2 ^ 64 | Exit _ => False end)).
  - eapply (safe_bind _ _ (fun c : ctl Z Empty_set =>
      match c with Next p => e + 44 <= p < 2 ^ 64 | Exit _ => False end)).
    { eapply safe_bind; [apply next_prop_safe; lia |]. cbn. lia. }
    intros [p | []] Hp. apply (safe_for (fun p => e + 44 <= p < 2 ^ 64) (fun _ => False)); [lia |].
    intros k q Hq. eapply safe_bind; [apply next_prop_safe; lia |]. cbn. lia.
  - intros [p | []] Hp. eapply safe_bind; [apply assert_safe |]. cbn. lia.
Qed.

(** Each level of the walk is at least 44 bytes further, so the fuel never runs out. *)
Lemma skipTree_safe fuel : forall e, entry_ok e -> end_ - e < Z.of_nat fuel \/ e = 0 /\ (0 < fuel)%nat ->
  safe (skipTree base blob globals fuel e) (fun r => r = 0 \/ e <> 0 /\ e + 44 <= r <= end_).
Proof.
  induction fuel as [|fuel IH]; intros e He Hf.
  { destruct He as [-> | ?], Hf as [? | [? ?]]; pose proof (zlen_nonneg blob); lia. }
  cbn [skipTree]. unfold ASSERT_HEADER_IN_DT, ASSERT_IN_DT. cbn [DTRootNode DTEnd globals].
  change sizeof_DeviceTreeNode with 8.
  destruct (decide (e = 0)) as [-> | He0].
  { change (u64 (0 + 8)) with 8. unfold assert_in_dt_region.
    rewrite (proj2 (Z.ltb_lt 8 base)) by lia. done. }
  assert (base <= e <= end_) as Hr by (destruct He; [done | lia]).
  eapply safe_bind; [apply header_safe; lia |]. cbn. intros _ Hh.
  eapply safe_bind; [by apply skipProperties_safe |]. cbn. intros s Hsk.
  destruct (Z.eqb_spec s 0) as [| Hs0]; [by left |]. destruct Hsk as [| [_ Hsk]]; [done |].
  eapply safe_bind; [apply rd32_safe; lia |]. cbn. intros n Hn.
  eapply safe_bind.
  - apply (safe_for (fun s => s = 0 \/ e + 44 <= s <= end_) (fun _ : Empty_set => False)); [by right |].
    intros k q Hq. eapply safe_bind.
    + apply IH; [unfold entry_ok; lia |]. destruct Hq as [-> | Hq]; [| lia].
      destruct fuel; [| lia]. lia.
    + cbn. intros r [-> | [Hq0 Hr']]; [by left |]. right. destruct Hq; [done | lia].
  - intros [p | []]; cbn. lia.
Qed.
End any_blob.


(** A node whose only property is a name without bytes, at the end of the blob. *)
Definition short_name_blob : bytes :=
  flat (DTNode [(lit "name", lit "root" ++ [0])] [DTNode [(lit "name", [])] []]).


(** The path lookup compares the value of the name property as a C string without regard to
    its length: it reads behind the end of the region. *)
Theorem find_child_reads_past_end :
  SecureDTLookupEntry 4096 short_name_blob (globals 4096 short_name_blob) (replicate 64 0) 0
    (lit "/chosen" ++ [0]) = Fault.
Proof. by vm_compute. Qed.

(** The iterator reads the child count of its scope before any check. *)
Theorem iterate_entries_unchecked :
  SecureDTIterateEntries 4096 short_name_blob (globals 4096 short_name_blob)
    {| outerScope := 4096 + zlen short_name_blob; currentScope := 4096 + zlen short_name_blob;
       currentEntry := 0; savedScope := []; currentIndex := 0 |} = Fault.
Proof. by vm_compute. Qed.
