(* ===== verification/Adt.v ===== *)
(** * The boot shim's device tree

    Models xzs-bootshim/adt.c and the product node of xzs-bootshim/d22ap_product_node.h:
    the writer functions over the memory at [adt_ptr], and the sequence of calls that
    builds the tree.  [None] is a write outside the buffer. *)

From stdpp Require Import base list strings.
From Stdlib Require Import ZArith Lia.
From S2P Require Import Prelude.

(** ** Writer *)

(** The memory from the build address on, and the offset of [adt_ptr] in it. *)
Record adt_state := AdtState { adt_mem : bytes; adt_ptr : Z }.

Definition adt : Type := adt_state -> option adt_state.

Definition adt_then (a b : adt) : adt := fun s => s ← a s; b s.
Declare Scope adt_scope.
Delimit Scope adt_scope with adt.
Notation "a ;;; b" := (adt_then a b) (at level 100, b at level 200, right associativity,
  format "'[v' a  ;;;  '/' b ']'") : adt_scope.
#[local] Open Scope adt_scope.

(** A C string literal. *)
Definition cs (s : string) : bytes := lit s ++ [0].

Definition str_len (s : bytes) : option Z :=
  loop (S (length s)) (fun l => c ← byte_at s l; Some (if c =? 0 then Exit l else Next (l + 1))) 0.

(** Copy to [dst], stopping one short of [maxlen], and pad with zeros. *)
Definition str_copy_step (dst : Z) (src : bytes) (maxlen : Z) (st : Z * bytes)
    : option (ctl (Z * bytes) (Z * bytes)) :=
  let '(i, m) := st in
  if i <? maxlen - 1 then
    c ← byte_at src i;
    if negb (c =? 0) then m ← put_byte m (dst + i) c; Some (Next (i + 1, m)) else Some (Exit (i, m))
  else Some (Exit (i, m)).

Definition str_copy_pad (dst : Z) (src : bytes) (maxlen : Z) (m : bytes) : option bytes :=
  '(i, m) ← loop (S (Z.to_nat maxlen)) (str_copy_step dst src maxlen) (0, m);
  store_loop (Z.to_nat (maxlen - i)) i dst (fun _ => Some 0) m.

Definition sizeof_dt_node_hdr : Z := 8.
Definition sizeof_dt_prop_hdr : Z := 36.

Definition adt_put_node (nprops nchildren : Z) : adt := fun s =>
  m ← copy_into (adt_mem s) (adt_ptr s) (le_split 4 nprops) 4;
  m ← copy_into m (adt_ptr s + 4) (le_split 4 nchildren) 4;
  Some {| adt_mem := m; adt_ptr := adt_ptr s + sizeof_dt_node_hdr |}.

Definition adt_put_prop (name val : bytes) (len : Z) : adt := fun s =>
  m ← str_copy_pad (adt_ptr s) name 32 (adt_mem s);
  m ← copy_into m (adt_ptr s + 32) (le_split 4 len) 4;
  let d := adt_ptr s + sizeof_dt_prop_hdr in
  m ← store_loop (Z.to_nat len) 0 d (byte_at val) m;
  let padded_len := Z.land (u32 (len + 3)) (u32 (Z.lnot 3)) in
  m ← store_loop (Z.to_nat (padded_len - len)) len d (fun _ => Some 0) m;
  Some {| adt_mem := m; adt_ptr := d + padded_len |}.

Definition adt_put_str (name str : bytes) : adt := fun s =>
  l ← str_len str; adt_put_prop name str (u32 (l + 1)) s.

Definition adt_put_u32 (name : bytes) (val : Z) : adt := adt_put_prop name (le_split 4 val) 4.
Definition adt_put_u64 (name : bytes) (val : Z) : adt := adt_put_prop name (le_split 8 val) 8.
Definition adt_put_u64_array (name : bytes) (vals : list Z) (count : Z) : adt :=
  adt_put_prop name (concat (le_split 8 <$> vals)) (u32 (count * 8)).

(** The [for] loop that copies the prebuilt node. *)
Definition adt_put_blob (blob : bytes) : adt := fun s =>
  m ← store_loop (length blob) 0 (adt_ptr s) (byte_at blob) (adt_mem s);
  Some {| adt_mem := m; adt_ptr := adt_ptr s + zlen blob |}.

(** ** Data *)

Definition root_compat : bytes :=
  cs "D22AP" ++ cs "iPhone10,3" ++ cs "sony,tone-keyaki" ++ cs "qcom,msm8996" ++ cs "AppleARM".

Definition random_seed : bytes := [
  0x58; 0x5a; 0x53; 0x2d; 0x58; 0x4e; 0x55; 0x2d;
  0x52; 0x41; 0x4e; 0x44; 0x4f; 0x4d; 0x2d; 0x53;
  0x45; 0x45; 0x44; 0x2d; 0x32; 0x30; 0x32; 0x36;
  0x30; 0x39; 0x31; 0x36; 0x2d; 0x4b; 0x45; 0x59;
  0x41; 0x4b; 0x49; 0x2d; 0x4d; 0x53; 0x4d; 0x38;
  0x39; 0x39; 0x36; 0x2d; 0x47; 0x38; 0x32; 0x33;
  0x31; 0x2d; 0x51; 0x55; 0x41; 0x4c; 0x43; 0x4f;
  0x4d; 0x4d; 0x2d; 0x4b; 0x52; 0x59; 0x4f; 0x21 ].

Definition boot_manifest_hash : bytes := [
  0xd4; 0x62; 0xb7; 0xd8; 0x3b; 0x5c; 0x89; 0x32;
  0x5a; 0x05; 0x16; 0x62; 0xe1; 0x22; 0x7b; 0x51;
  0x8b; 0x22; 0x6d; 0x3b; 0xc3; 0x2a; 0xc9; 0x74;
  0x48; 0x9b; 0x12; 0x01; 0x50; 0x4e; 0x26; 0x46;
  0xc3; 0xf2; 0x95; 0x41; 0x81; 0x4d; 0xc2; 0x04;
  0x3e; 0x22; 0xf7; 0x6c; 0xd0; 0x38; 0x84; 0x29 ].

Definition wifi_mac : bytes := [
  0x02; 0x00; 0x58; 0x5a; 0x53; 0x01 ].

Definition bt_mac : bytes := [
  0x02; 0x00; 0x58; 0x5a; 0x53; 0x02 ].

(** Structures of two [uint64_t]: address and length. *)
Definition ramdisk_range : bytes := le_split 8 0x81700000 ++ le_split 8 0x12000.
Definition fb_range : bytes := le_split 8 0x98000000 ++ le_split 8 0x800000.

Definition ranges : list Z := [0; 0x01000000; 0x10000000].
Definition uart_reg : list Z := [0x065b0000; 0x1000].
Definition gic_reg : list Z := [0x08bc0000; 0x10000; 0x08c00000; 0x100000].
Definition timer_reg : list Z := [0x01c00000; 0x1000].
Definition button_names : bytes := cs "volup" ++ cs "voldown" ++ cs "hold".

(** A run of zero bytes of the array. *)
Definition zeros (n : nat) : bytes := replicate n 0.

Definition d22ap_product_node_blob : bytes :=
  [0x3e] ++ zeros 7 ++ [0x6e; 0x61; 0x6d; 0x65] ++ zeros 28 ++
  [0x08; 0x00; 0x00; 0x00; 0x70; 0x72; 0x6f; 0x64; 0x75; 0x63; 0x74; 0x00; 0x73; 0x61; 0x6e;
  0x64; 0x6d; 0x61; 0x6e; 0x2d; 0x73; 0x75; 0x70; 0x70; 0x6f; 0x72; 0x74] ++ zeros 17 ++
  [0x04; 0x00; 0x00; 0x00; 0x01; 0x00; 0x00; 0x00; 0x64; 0x69; 0x73; 0x70; 0x6c; 0x61; 0x79;
  0x2d; 0x6d; 0x69; 0x72; 0x72; 0x6f; 0x72; 0x69; 0x6e; 0x67] ++ zeros 15 ++
  [0x04; 0x00; 0x00; 0x00; 0x01; 0x00; 0x00; 0x00; 0x63; 0x61; 0x72; 0x2d; 0x69; 0x6e; 0x74;
  0x65; 0x67; 0x72; 0x61; 0x74; 0x69; 0x6f; 0x6e] ++ zeros 17 ++
  [0x04; 0x00; 0x00; 0x00; 0x01; 0x00; 0x00; 0x00; 0x61; 0x73; 0x73; 0x69; 0x73; 0x74; 0x61;
  0x6e; 0x74] ++ zeros 23 ++
  [0x04; 0x00; 0x00; 0x00; 0x01; 0x00; 0x00; 0x00; 0x6c; 0x6f; 0x63; 0x6b; 0x64; 0x6f; 0x77;
  0x6e; 0x2d; 0x63; 0x65; 0x72; 0x74; 0x74; 0x79; 0x70; 0x65] ++ zeros 15 ++
  [0x04; 0x00; 0x00; 0x00; 0x01; 0x00; 0x00; 0x00; 0x75; 0x69; 0x2d; 0x70; 0x69; 0x70] ++
  zeros 26 ++
  [0x04; 0x00; 0x00; 0x00; 0x01; 0x00; 0x00; 0x00; 0x77; 0x69; 0x66; 0x69; 0x2d; 0x63; 0x68;
  0x69; 0x70; 0x73; 0x65; 0x74] ++ zeros 20 ++ [0x05; 0x00; 0x00; 0x00; 0x34; 0x33; 0x35; 0x37] ++
  zeros 4 ++ [0x70; 0x72; 0x6f; 0x64; 0x75; 0x63; 0x74; 0x2d; 0x6e; 0x61; 0x6d; 0x65] ++
  zeros 20 ++ [0x09; 0x00; 0x00; 0x00; 0x69; 0x50; 0x68; 0x6f; 0x6e; 0x65; 0x20; 0x58] ++
  zeros 4 ++
  [0x68; 0x65; 0x61; 0x72; 0x69; 0x6e; 0x67; 0x61; 0x69; 0x64; 0x2d; 0x61; 0x75; 0x64; 0x69;
  0x6f; 0x2d; 0x65; 0x71; 0x75; 0x61; 0x6c; 0x69; 0x7a; 0x61; 0x74; 0x69; 0x6f; 0x6e; 0x00; 0x00;
  0x00; 0x04; 0x00; 0x00; 0x00; 0x01; 0x00; 0x00; 0x00; 0x52; 0x46; 0x2d; 0x65; 0x78; 0x70; 0x6f;
  0x73; 0x75; 0x72; 0x65; 0x2d; 0x73; 0x65; 0x70; 0x61; 0x72; 0x61; 0x74; 0x69; 0x6f; 0x6e; 0x2d;
  0x64; 0x69; 0x73; 0x74; 0x61; 0x6e; 0x63; 0x65; 0x00; 0x04; 0x00; 0x00; 0x00; 0x05; 0x00; 0x00;
  0x00; 0x6d; 0x6f; 0x62; 0x69; 0x6c; 0x65; 0x64; 0x65; 0x76; 0x69; 0x63; 0x65; 0x2d; 0x6d; 0x69;
  0x6e; 0x2d; 0x76; 0x65; 0x72] ++ zeros 12 ++ [0x05; 0x00; 0x00; 0x00; 0x31; 0x34; 0x30; 0x30] ++
  zeros 4 ++ [0x70; 0x72; 0x6f; 0x64; 0x75; 0x63; 0x74; 0x2d; 0x69; 0x64] ++ zeros 22 ++
  [0x14; 0x00; 0x00; 0x00; 0xfd; 0x07; 0x9b; 0x29; 0x81; 0x44; 0xa7; 0xde; 0xb4; 0xd7; 0xc8;
  0x7f; 0xef; 0x3e; 0xb4; 0x74; 0xd8; 0xf0; 0xe7; 0xeb; 0x67; 0x70; 0x73; 0x2d; 0x63; 0x61; 0x70;
  0x61; 0x62; 0x6c; 0x65] ++ zeros 21 ++
  [0x04; 0x00; 0x00; 0x00; 0x01; 0x00; 0x00; 0x00; 0x70; 0x72; 0x6f; 0x64; 0x75; 0x63; 0x74;
  0x2d; 0x64; 0x65; 0x73; 0x63; 0x72; 0x69; 0x70; 0x74; 0x69; 0x6f; 0x6e] ++ zeros 13 ++
  [0x09; 0x00; 0x00; 0x00; 0x69; 0x50; 0x68; 0x6f; 0x6e; 0x65; 0x20; 0x58] ++ zeros 4 ++
  [0x61; 0x6c; 0x6c; 0x6f; 0x77; 0x2d; 0x33; 0x32; 0x62; 0x69; 0x74; 0x2d; 0x61; 0x70; 0x70;
  0x73] ++ zeros 16 ++
  [0x04; 0x00; 0x00; 0x00; 0x01; 0x00; 0x00; 0x00; 0x6c; 0x6f; 0x77; 0x2d; 0x70; 0x6f; 0x77;
  0x65; 0x72; 0x2d; 0x77; 0x61; 0x6c; 0x6c; 0x65; 0x74; 0x2d; 0x6d; 0x6f; 0x64; 0x65] ++
  zeros 11 ++
  [0x04; 0x00; 0x00; 0x00; 0x01; 0x00; 0x00; 0x00; 0x62; 0x75; 0x69; 0x6c; 0x74; 0x69; 0x6e;
  0x2d; 0x6d; 0x69; 0x63; 0x73] ++ zeros 20 ++
  [0x04; 0x00; 0x00; 0x00; 0x04; 0x00; 0x00; 0x00; 0x68; 0x61; 0x73; 0x2d; 0x62; 0x6f; 0x6f;
  0x74; 0x2d; 0x63; 0x68; 0x69; 0x6d; 0x65] ++ zeros 18 ++ [0x04] ++ zeros 7 ++
  [0x73; 0x75; 0x70; 0x70; 0x6f; 0x72; 0x74; 0x73; 0x2d; 0x62; 0x75; 0x72; 0x6e; 0x69; 0x6e;
  0x2d; 0x6d; 0x69; 0x74; 0x69; 0x67; 0x61; 0x74; 0x69; 0x6f; 0x6e] ++ zeros 6 ++
  [0x04; 0x00; 0x00; 0x00; 0x01; 0x00; 0x00; 0x00; 0x63; 0x6f; 0x6d; 0x70; 0x61; 0x74; 0x69;
  0x62; 0x6c; 0x65; 0x2d; 0x64; 0x65; 0x76; 0x69; 0x63; 0x65; 0x2d; 0x66; 0x61; 0x6c; 0x6c; 0x62;
  0x61; 0x63; 0x6b] ++ zeros 6 ++
  [0x0a; 0x00; 0x00; 0x00; 0x69; 0x50; 0x68; 0x6f; 0x6e; 0x65; 0x39; 0x2c; 0x32; 0x00; 0x00;
  0x00; 0x64; 0x65; 0x76; 0x69; 0x63; 0x65; 0x2d; 0x70; 0x65; 0x72; 0x66; 0x2d; 0x6d; 0x65; 0x6d;
  0x6f; 0x72; 0x79; 0x2d; 0x63; 0x6c; 0x61; 0x73; 0x73] ++ zeros 8 ++
  [0x04; 0x00; 0x00; 0x00; 0x04; 0x00; 0x00; 0x00; 0x61; 0x72; 0x74; 0x77; 0x6f; 0x72; 0x6b;
  0x2d; 0x73; 0x63; 0x61; 0x6c; 0x65; 0x2d; 0x66; 0x61; 0x63; 0x74; 0x6f; 0x72] ++ zeros 12 ++
  [0x04; 0x00; 0x00; 0x00; 0x03; 0x00; 0x00; 0x00; 0x62; 0x61; 0x73; 0x65; 0x62; 0x61; 0x6e;
  0x64; 0x2d; 0x63; 0x68; 0x69; 0x70; 0x73; 0x65; 0x74] ++ zeros 16 ++
  [0x06; 0x00; 0x00; 0x00; 0x6d; 0x61; 0x76; 0x31; 0x37; 0x00; 0x00; 0x00; 0x68; 0x65; 0x61;
  0x72; 0x69; 0x6e; 0x67; 0x61; 0x69; 0x64; 0x2d; 0x6c; 0x6f; 0x77; 0x2d; 0x65; 0x6e; 0x65; 0x72;
  0x67; 0x79; 0x2d; 0x61; 0x75; 0x64; 0x69; 0x6f] ++ zeros 5 ++
  [0x04; 0x00; 0x00; 0x00; 0x01; 0x00; 0x00; 0x00; 0x75; 0x69; 0x2d; 0x62; 0x61; 0x63; 0x6b;
  0x67; 0x72; 0x6f; 0x75; 0x6e; 0x64; 0x2d; 0x71; 0x75; 0x61; 0x6c; 0x69; 0x74; 0x79] ++
  zeros 11 ++
  [0x04; 0x00; 0x00; 0x00; 0x64; 0x00; 0x00; 0x00; 0x73; 0x75; 0x70; 0x70; 0x6f; 0x72; 0x74;
  0x73; 0x2d; 0x61; 0x76; 0x61; 0x74; 0x61; 0x72; 0x73] ++ zeros 20 ++
  [0x70; 0x75; 0x62; 0x6c; 0x69; 0x63; 0x2d; 0x6b; 0x65; 0x79; 0x2d; 0x61; 0x63; 0x63; 0x65;
  0x6c; 0x65; 0x72; 0x61; 0x74; 0x6f; 0x72] ++ zeros 10 ++
  [0x04; 0x00; 0x00; 0x00; 0x01; 0x00; 0x00; 0x00; 0x64; 0x69; 0x73; 0x61; 0x62; 0x6c; 0x65;
  0x2d; 0x67; 0x6c; 0x6f; 0x62; 0x65; 0x2d; 0x6d; 0x61; 0x70] ++ zeros 19 ++
  [0x61; 0x72; 0x74; 0x77; 0x6f; 0x72; 0x6b; 0x2d; 0x64; 0x65; 0x76; 0x69; 0x63; 0x65; 0x2d;
  0x69; 0x64; 0x69; 0x6f; 0x6d] ++ zeros 12 ++
  [0x06; 0x00; 0x00; 0x00; 0x70; 0x68; 0x6f; 0x6e; 0x65; 0x00; 0x00; 0x00; 0x64; 0x65; 0x76;
  0x69; 0x63; 0x65; 0x2d; 0x63; 0x6f; 0x6c; 0x6f; 0x72; 0x2d; 0x70; 0x6f; 0x6c; 0x69; 0x63;
  0x79] ++ zeros 13 ++ [0x04] ++ zeros 7 ++
  [0x67; 0x72; 0x61; 0x70; 0x68; 0x69; 0x63; 0x73; 0x2d; 0x66; 0x65; 0x61; 0x74; 0x75; 0x72;
  0x65; 0x73; 0x65; 0x74; 0x2d; 0x63; 0x6c; 0x61; 0x73; 0x73] ++ zeros 7 ++
  [0x07; 0x00; 0x00; 0x00; 0x41; 0x50; 0x50; 0x4c; 0x45; 0x34; 0x00; 0x00; 0x73; 0x69; 0x72;
  0x69; 0x2d; 0x67; 0x65; 0x73; 0x74; 0x75; 0x72; 0x65] ++ zeros 20 ++
  [0x04; 0x00; 0x00; 0x00; 0x01; 0x00; 0x00; 0x00; 0x73; 0x75; 0x70; 0x70; 0x6f; 0x72; 0x74;
  0x73; 0x2d; 0x6d; 0x61; 0x70; 0x73; 0x2d; 0x6f; 0x70; 0x74; 0x69; 0x63; 0x61; 0x6c; 0x2d; 0x68;
  0x65; 0x61; 0x64; 0x69; 0x6e; 0x67] ++ zeros 7 ++
  [0x63; 0x6f; 0x6d; 0x70; 0x61; 0x74; 0x69; 0x62; 0x6c; 0x65; 0x2d; 0x61; 0x70; 0x70; 0x2d;
  0x76; 0x61; 0x72; 0x69; 0x61; 0x6e; 0x74] ++ zeros 10 ++
  [0x02; 0x00; 0x00; 0x00; 0x30; 0x00; 0x00; 0x00; 0x61; 0x72; 0x74; 0x77; 0x6f; 0x72; 0x6b;
  0x2d; 0x64; 0x79; 0x6e; 0x61; 0x6d; 0x69; 0x63; 0x2d; 0x64; 0x69; 0x73; 0x70; 0x6c; 0x61; 0x79;
  0x6d; 0x6f; 0x64; 0x65] ++ zeros 5 ++
  [0x02; 0x00; 0x00; 0x00; 0x30; 0x00; 0x00; 0x00; 0x62; 0x6c; 0x75; 0x65; 0x74; 0x6f; 0x6f;
  0x74; 0x68; 0x2d; 0x6c; 0x65] ++ zeros 20 ++
  [0x04; 0x00; 0x00; 0x00; 0x01; 0x00; 0x00; 0x00; 0x77; 0x61; 0x74; 0x63; 0x68; 0x2d; 0x63;
  0x6f; 0x6d; 0x70; 0x61; 0x6e; 0x69; 0x6f; 0x6e] ++ zeros 17 ++
  [0x04; 0x00; 0x00; 0x00; 0x01; 0x00; 0x00; 0x00; 0x68; 0x61; 0x73; 0x2d; 0x61; 0x70; 0x70;
  0x6c; 0x65; 0x6c; 0x70; 0x6d] ++ zeros 20 ++ [0x04] ++ zeros 7 ++
  [0x69; 0x61; 0x70; 0x32; 0x2d; 0x70; 0x72; 0x6f; 0x74; 0x6f; 0x63; 0x6f; 0x6c; 0x2d; 0x73;
  0x75; 0x70; 0x70; 0x6f; 0x72; 0x74; 0x65; 0x64] ++ zeros 9 ++
  [0x04; 0x00; 0x00; 0x00; 0x01; 0x00; 0x00; 0x00; 0x65; 0x70; 0x68; 0x65; 0x6d; 0x65; 0x72;
  0x61; 0x6c; 0x2d; 0x64; 0x61; 0x74; 0x61; 0x2d; 0x6d; 0x6f; 0x64; 0x65] ++ zeros 13 ++ [0x04] ++
  zeros 7 ++
  [0x61; 0x63; 0x74; 0x69; 0x76; 0x61; 0x74; 0x69; 0x6f; 0x6e; 0x2d; 0x70; 0x72; 0x6f; 0x74;
  0x6f; 0x63; 0x6f; 0x6c; 0x2d; 0x76; 0x65; 0x72; 0x73; 0x69; 0x6f; 0x6e] ++ zeros 5 ++
  [0x04; 0x00; 0x00; 0x00; 0x02; 0x00; 0x00; 0x00; 0x76; 0x6f; 0x6c; 0x75; 0x6d; 0x65; 0x2d;
  0x75; 0x70; 0x2d; 0x62; 0x75; 0x74; 0x74; 0x6f; 0x6e; 0x2d; 0x6c; 0x6f; 0x63; 0x61; 0x74; 0x69;
  0x6f; 0x6e] ++ zeros 7 ++
  [0x14; 0x00; 0x00; 0x00; 0x78; 0xb0; 0x09; 0x00; 0xff; 0x96; 0x14; 0x00; 0x30; 0xe0; 0x03;
  0x00; 0xca; 0x9d; 0x01; 0x00; 0x10; 0x27; 0x00; 0x00; 0x70; 0x74; 0x70; 0x2d; 0x6c; 0x61; 0x72;
  0x67; 0x65; 0x2d; 0x66; 0x69; 0x6c; 0x65; 0x73] ++ zeros 17 ++
  [0x04; 0x00; 0x00; 0x00; 0x01; 0x00; 0x00; 0x00; 0x75; 0x64; 0x69; 0x64; 0x2d; 0x76; 0x65;
  0x72; 0x73; 0x69; 0x6f; 0x6e] ++ zeros 20 ++
  [0x04; 0x00; 0x00; 0x00; 0x02; 0x00; 0x00; 0x00; 0x6f; 0x66; 0x66; 0x6c; 0x69; 0x6e; 0x65;
  0x2d; 0x64; 0x69; 0x63; 0x74; 0x61; 0x74; 0x69; 0x6f; 0x6e] ++ zeros 15 ++
  [0x04; 0x00; 0x00; 0x00; 0x01; 0x00; 0x00; 0x00; 0x6c; 0x6f; 0x63; 0x61; 0x74; 0x69; 0x6f;
  0x6e; 0x2d; 0x72; 0x65; 0x6d; 0x69; 0x6e; 0x64; 0x65; 0x72; 0x73] ++ zeros 14 ++
  [0x04; 0x00; 0x00; 0x00; 0x01; 0x00; 0x00; 0x00; 0x75; 0x69; 0x2d; 0x77; 0x65; 0x61; 0x74;
  0x68; 0x65; 0x72; 0x2d; 0x71; 0x75; 0x61; 0x6c; 0x69; 0x74; 0x79] ++ zeros 14 ++
  [0x04; 0x00; 0x00; 0x00; 0x64; 0x00; 0x00; 0x00; 0x67; 0x72; 0x61; 0x70; 0x68; 0x69; 0x63;
  0x73; 0x2d; 0x66; 0x65; 0x61; 0x74; 0x75; 0x72; 0x65; 0x73; 0x65; 0x74; 0x2d; 0x66; 0x61; 0x6c;
  0x6c; 0x62; 0x61; 0x63; 0x6b; 0x73; 0x00; 0x00; 0x00; 0x26; 0x00; 0x00; 0x00; 0x41; 0x50; 0x50;
  0x4c; 0x45; 0x33; 0x3a; 0x41; 0x50; 0x50; 0x4c; 0x45; 0x33; 0x76; 0x31; 0x3a; 0x41; 0x50; 0x50;
  0x4c; 0x45; 0x32; 0x3a; 0x41; 0x50; 0x50; 0x4c; 0x45; 0x31; 0x3a; 0x47; 0x4c; 0x45; 0x53; 0x32;
  0x2c; 0x30; 0x00; 0x00; 0x00; 0x64; 0x69; 0x63; 0x74; 0x61; 0x74; 0x69; 0x6f; 0x6e] ++
  zeros 23 ++
  [0x04; 0x00; 0x00; 0x00; 0x01; 0x00; 0x00; 0x00; 0x69; 0x74; 0x75; 0x6e; 0x65; 0x73; 0x2d;
  0x6d; 0x69; 0x6e; 0x2d; 0x76; 0x65; 0x72] ++ zeros 18 ++
  [0x04; 0x00; 0x00; 0x00; 0x03; 0x07; 0x0c; 0x00; 0x61; 0x72; 0x74; 0x77; 0x6f; 0x72; 0x6b;
  0x2d; 0x64; 0x69; 0x73; 0x70; 0x6c; 0x61; 0x79; 0x2d; 0x67; 0x61; 0x6d; 0x75; 0x74] ++
  zeros 11 ++
  [0x03; 0x00; 0x00; 0x00; 0x50; 0x33; 0x00; 0x00; 0x66; 0x72; 0x6f; 0x6e; 0x74; 0x2d; 0x63;
  0x61; 0x6d; 0x2d; 0x6f; 0x66; 0x66; 0x73; 0x65; 0x74; 0x2d; 0x66; 0x72; 0x6f; 0x6d; 0x2d; 0x63;
  0x65; 0x6e; 0x74; 0x65; 0x72] ++ zeros 4 ++
  [0x10; 0x00; 0x00; 0x00; 0xd0; 0x01; 0x01; 0x00; 0x9e; 0x1d; 0x00; 0x00; 0xe8; 0x03] ++
  zeros 6 ++
  [0x75; 0x69; 0x2d; 0x72; 0x65; 0x61; 0x63; 0x68; 0x61; 0x62; 0x69; 0x6c; 0x69; 0x74; 0x79] ++
  zeros 17 ++
  [0x04; 0x00; 0x00; 0x00; 0x01; 0x00; 0x00; 0x00; 0x76; 0x6f; 0x6c; 0x75; 0x6d; 0x65; 0x2d;
  0x64; 0x6f; 0x77; 0x6e; 0x2d; 0x62; 0x75; 0x74; 0x74; 0x6f; 0x6e; 0x2d; 0x6c; 0x6f; 0x63; 0x61;
  0x74; 0x69; 0x6f; 0x6e] ++ zeros 5 ++
  [0x14; 0x00; 0x00; 0x00; 0x78; 0xb0; 0x09; 0x00; 0xff; 0x96; 0x14; 0x00; 0x48; 0xd0; 0x05;
  0x00; 0xca; 0x9d; 0x01; 0x00; 0x10; 0x27; 0x00; 0x00; 0x70; 0x65; 0x72; 0x73; 0x6f; 0x6e; 0x61;
  0x6c; 0x2d; 0x68; 0x6f; 0x74; 0x73; 0x70; 0x6f; 0x74] ++ zeros 16 ++
  [0x04; 0x00; 0x00; 0x00; 0x01; 0x00; 0x00; 0x00; 0x73; 0x69; 0x6e; 0x67; 0x6c; 0x65; 0x2d;
  0x73; 0x74; 0x61; 0x67; 0x65; 0x2d; 0x62; 0x6f; 0x6f; 0x74] ++ zeros 15 ++
  [0x04; 0x00; 0x00; 0x00; 0x01; 0x00; 0x00; 0x00; 0x6d; 0x6f; 0x62; 0x69; 0x6c; 0x65; 0x64;
  0x65; 0x76; 0x69; 0x63; 0x65; 0x2d; 0x62; 0x65; 0x74; 0x61; 0x2d; 0x6d; 0x69; 0x6e; 0x2d; 0x76;
  0x65; 0x72] ++ zeros 7 ++
  [0x0b; 0x00; 0x00; 0x00; 0x31; 0x31; 0x39; 0x30; 0x2e; 0x31; 0x30; 0x30; 0x2e; 0x32; 0x00;
  0x00; 0x6f; 0x6c; 0x65; 0x64; 0x2d; 0x64; 0x69; 0x73; 0x70; 0x6c; 0x61; 0x79] ++ zeros 20 ++
  [0x04; 0x00; 0x00; 0x00; 0x01; 0x00; 0x00; 0x00; 0x74; 0x68; 0x69; 0x6e; 0x2d; 0x62; 0x65;
  0x7a; 0x65; 0x6c] ++ zeros 22 ++
  [0x04; 0x00; 0x00; 0x00; 0x01; 0x00; 0x00; 0x00; 0x61; 0x72; 0x74; 0x77; 0x6f; 0x72; 0x6b;
  0x2d; 0x64; 0x65; 0x76; 0x69; 0x63; 0x65; 0x2d; 0x73; 0x75; 0x62; 0x74; 0x79; 0x70; 0x65] ++
  zeros 10 ++
  [0x04; 0x00; 0x00; 0x00; 0x84; 0x09; 0x00; 0x00; 0x73; 0x69; 0x64; 0x65; 0x2d; 0x62; 0x75;
  0x74; 0x74; 0x6f; 0x6e; 0x2d; 0x6c; 0x6f; 0x63; 0x61; 0x74; 0x69; 0x6f; 0x6e] ++ zeros 12 ++
  [0x14; 0x00; 0x00; 0x00; 0x75; 0xf3; 0x00; 0x00; 0x2a; 0x0f; 0x02; 0x00; 0x00; 0x71; 0x00;
  0x00; 0xea; 0x3f; 0x00; 0x00; 0xe8; 0x03; 0x00; 0x00].

(** ** Nodes *)

Definition put_root : adt :=
  adt_put_node 9 6 ;;;
  adt_put_str (cs "name") (cs "device-tree") ;;;
  adt_put_prop (cs "compatible") root_compat (zlen root_compat) ;;;
  adt_put_str (cs "model") (cs "iPhone10,3") ;;;
  adt_put_str (cs "target-type") (cs "D22") ;;;
  adt_put_str (cs "target-sub-type") (cs "D22AP") ;;;
  adt_put_str (cs "manufacturer") (cs "Apple Inc.") ;;;
  adt_put_str (cs "serial-number") (cs "F2LV8000JCL8") ;;;
  adt_put_u32 (cs "#address-cells") 2 ;;;
  adt_put_u32 (cs "#size-cells") 2.

Definition put_chosen : adt :=
  adt_put_node 19 2 ;;;
  adt_put_str (cs "name") (cs "chosen") ;;;
  adt_put_u32 (cs "debug-enabled") 1 ;;;
  adt_put_u64 (cs "dram-base") 0x80000000 ;;;
  adt_put_u64 (cs "dram-size") 0x78000000 ;;;
  adt_put_str (cs "firmware-version") (cs "xzs-bootshim-1.0") ;;;
  adt_put_str (cs "system-firmware-version") (cs "xzs-bootshim-1.0") ;;;
  adt_put_prop (cs "random-seed") random_seed (zlen random_seed) ;;;
  adt_put_prop (cs "boot-manifest-hash") boot_manifest_hash (zlen boot_manifest_hash) ;;;
  adt_put_str (cs "crypto-hash-method") (cs "sha2-384") ;;;
  adt_put_u32 (cs "display-scale") 3 ;;;
  adt_put_u64 (cs "unique-chip-id") 0x585a534b45594101 ;;;
  adt_put_u32 (cs "chip-id") 0x8015 ;;;
  adt_put_prop (cs "mac-address-wifi0") wifi_mac (zlen wifi_mac) ;;;
  adt_put_prop (cs "mac-address-bluetooth0") bt_mac (zlen bt_mac) ;;;
  adt_put_str (cs "mlb-serial-number") (cs "C0274010000JCL800") ;;;
  adt_put_u32 (cs "certificate-production-status") 0 ;;;
  adt_put_u32 (cs "effective-production-status-ap") 0 ;;;
  adt_put_u32 (cs "certificate-security-mode") 1 ;;;
  adt_put_u32 (cs "effective-security-mode-sep") 1.

Definition put_memory_map : adt :=
  adt_put_node 3 0 ;;;
  adt_put_str (cs "name") (cs "memory-map") ;;;
  adt_put_prop (cs "RAMDisk") ramdisk_range (zlen ramdisk_range) ;;;
  adt_put_prop (cs "Display-FrameBuffer") fb_range (zlen fb_range).

Definition put_asmb : adt :=
  adt_put_node 3 0 ;;;
  adt_put_str (cs "name") (cs "asmb") ;;;
  adt_put_u64 (cs "lp-sip0") 0x6f ;;;
  adt_put_u32 (cs "lp-sip1") 1.

Definition put_defaults : adt :=
  adt_put_node 3 0 ;;;
  adt_put_str (cs "name") (cs "defaults") ;;;
  adt_put_u32 (cs "serial-device") 0x10 ;;;
  adt_put_u32 (cs "no-effaceable-storage") 1.

Definition put_cpus : adt :=
  adt_put_node 1 4 ;;;
  adt_put_str (cs "name") (cs "cpus").

Definition put_cpu0 : adt :=
  adt_put_node 7 0 ;;;
  adt_put_str (cs "name") (cs "cpu0") ;;;
  adt_put_str (cs "state") (cs "running") ;;;
  adt_put_u32 (cs "reg") 0 ;;;
  adt_put_u32 (cs "timebase-frequency") 19200000 ;;;
  adt_put_u32 (cs "bus-frequency") 100000000 ;;;
  adt_put_u32 (cs "clock-frequency") 2150000000 ;;;
  adt_put_u32 (cs "memory-frequency") 1866000000.

Definition put_cpu1 : adt :=
  adt_put_node 7 0 ;;;
  adt_put_str (cs "name") (cs "cpu1") ;;;
  adt_put_str (cs "state") (cs "stopped") ;;;
  adt_put_u32 (cs "reg") 1 ;;;
  adt_put_u32 (cs "timebase-frequency") 19200000 ;;;
  adt_put_u32 (cs "bus-frequency") 100000000 ;;;
  adt_put_u32 (cs "clock-frequency") 2150000000 ;;;
  adt_put_u32 (cs "memory-frequency") 1866000000.

Definition put_cpu2 : adt :=
  adt_put_node 7 0 ;;;
  adt_put_str (cs "name") (cs "cpu2") ;;;
  adt_put_str (cs "state") (cs "stopped") ;;;
  adt_put_u32 (cs "reg") 0x100 ;;;
  adt_put_u32 (cs "timebase-frequency") 19200000 ;;;
  adt_put_u32 (cs "bus-frequency") 100000000 ;;;
  adt_put_u32 (cs "clock-frequency") 2150000000 ;;;
  adt_put_u32 (cs "memory-frequency") 1866000000.

Definition put_cpu3 : adt :=
  adt_put_node 7 0 ;;;
  adt_put_str (cs "name") (cs "cpu3") ;;;
  adt_put_str (cs "state") (cs "stopped") ;;;
  adt_put_u32 (cs "reg") 0x101 ;;;
  adt_put_u32 (cs "timebase-frequency") 19200000 ;;;
  adt_put_u32 (cs "bus-frequency") 100000000 ;;;
  adt_put_u32 (cs "clock-frequency") 2150000000 ;;;
  adt_put_u32 (cs "memory-frequency") 1866000000.

Definition put_arm_io : adt :=
  adt_put_node 3 7 ;;;
  adt_put_str (cs "name") (cs "arm-io") ;;;
  adt_put_str (cs "device_type") (cs "arm-io") ;;;
  adt_put_u64_array (cs "ranges") ranges 3.

Definition put_uart : adt :=
  adt_put_node 5 0 ;;;
  adt_put_str (cs "name") (cs "uart") ;;;
  adt_put_str (cs "device_type") (cs "serial") ;;;
  adt_put_str (cs "compatible") (cs "qcom,msm-uartdm") ;;;
  adt_put_u32 (cs "AAPL,phandle") 0x10 ;;;
  adt_put_u64_array (cs "reg") uart_reg 2.

Definition put_gic : adt :=
  adt_put_node 4 0 ;;;
  adt_put_str (cs "name") (cs "gic") ;;;
  adt_put_str (cs "device_type") (cs "interrupt-controller") ;;;
  adt_put_str (cs "interrupt-controller") (cs "master") ;;;
  adt_put_u64_array (cs "reg") gic_reg 4.

Definition put_timer : adt :=
  adt_put_node 3 0 ;;;
  adt_put_str (cs "name") (cs "timer") ;;;
  adt_put_str (cs "device_type") (cs "timer") ;;;
  adt_put_u64_array (cs "reg") timer_reg 2.

Definition put_wdt : adt :=
  adt_put_node 2 0 ;;;
  adt_put_str (cs "name") (cs "wdt") ;;;
  adt_put_u32 (cs "no-pmu") 1.

Definition put_disp0 : adt :=
  adt_put_node 5 0 ;;;
  adt_put_str (cs "name") (cs "disp0") ;;;
  adt_put_str (cs "device_type") (cs "display-subsystem") ;;;
  adt_put_str (cs "compatible") (cs "xzs,display") ;;;
  adt_put_u32 (cs "canvas-width") 1125 ;;;
  adt_put_u32 (cs "canvas-height") 2436.

Definition put_sgx : adt :=
  adt_put_node 5 0 ;;;
  adt_put_str (cs "name") (cs "sgx") ;;;
  adt_put_str (cs "device_type") (cs "sgx") ;;;
  adt_put_str (cs "compatible") (cs "xzs,gpu") ;;;
  adt_put_u32 (cs "gpu-chip-id") 0x05030002 ;;;
  adt_put_u32 (cs "gmem-size") 0x00100000.

Definition put_m2scaler : adt :=
  adt_put_node 3 0 ;;;
  adt_put_str (cs "name") (cs "m2scaler") ;;;
  adt_put_str (cs "device_type") (cs "m2scaler") ;;;
  adt_put_str (cs "compatible") (cs "xzs,m2scaler").

Definition put_buttons : adt :=
  adt_put_node 4 0 ;;;
  adt_put_str (cs "name") (cs "buttons") ;;;
  adt_put_prop (cs "button-names") button_names (zlen button_names) ;;;
  adt_put_u32 (cs "home-button-type") 2 ;;;
  adt_put_u32 (cs "opposed-power-vol-buttons") 1.

(** ** The tree *)

Definition put_tree : adt :=
  put_root ;;;
  put_chosen ;;; put_memory_map ;;; put_asmb ;;;
  put_defaults ;;;
  put_cpus ;;; put_cpu0 ;;; put_cpu1 ;;; put_cpu2 ;;; put_cpu3 ;;;
  put_arm_io ;;; put_uart ;;; put_gic ;;; put_timer ;;; put_wdt ;;; put_disp0 ;;; put_sgx ;;;
  put_m2scaler ;;;
  put_buttons ;;;
  adt_put_blob d22ap_product_node_blob.

(** Result: the length and the memory at the build address. *)
Definition adt_build_tree_at (mem : bytes) : option (Z * bytes) :=
  s ← put_tree {| adt_mem := mem; adt_ptr := 0 |};
  Some (u32 (adt_ptr s), adt_mem s).

Definition ADT_BASE_ADDR : Z := 0x81810000.
