(* ===== verification/AdtProofs.v ===== *)
(** * The boot shim's device tree: what the kernel reads back

    The writer of xzs-bootshim/adt.c appends flattened properties and nodes; the calls of
    [adt_build_tree_at] add up to the flattening of one well-formed tree; and the kernel's
    reader finds in it what the platform code asks for. *)

From stdpp Require Import base list strings.
From Stdlib Require Import ZArith Lia.
From S2P Require Import Prelude DeviceTree DeviceTreeProofs DeviceTreeSearch Adt.

(** ** Appending *)

(** The operation writes exactly these bytes at [adt_ptr] and moves behind them. *)
Definition appends (m : adt) (bs : bytes) : Prop := forall out rest, zlen bs <= zlen rest ->
  m {| adt_mem := out ++ rest; adt_ptr := zlen out |} =
  Some {| adt_mem := (out ++ bs) ++ drop (length bs) rest; adt_ptr := zlen (out ++ bs) |}.

Lemma appends_then a b x y : appends a x -> appends b y -> appends (adt_then a b) (x ++ y).
Proof.
  intros Ha Hb out rest Hl. rewrite zlen_app in Hl. pose proof (zlen_nonneg x). pose proof (zlen_nonneg y).
  unfold adt_then. rewrite Ha by lia. cbn [mbind option_bind].
  rewrite Hb by (unfold zlen in *; rewrite length_drop; lia).
  rewrite drop_drop, length_app, <- !app_assoc. done.
Qed.

Lemma str_len_cstr s : cstr s -> str_len (s ++ [0]) = Some (zlen s).
Proof.
  intros Hs. unfold str_len.
  assert (forall pre fuel, (length s < fuel)%nat ->
    loop fuel (fun l => c ← byte_at (pre ++ s ++ [0]) l; Some (if c =? 0 then Exit l else Next (l + 1)))
      (zlen pre) = Some (zlen pre + zlen s)) as Hg.
  { induction Hs as [|c s Hc Hs IH]; intros pre [|fuel] Hf; try (cbn in Hf; lia); cbn [loop app];
      rewrite byte_at_here; cbn [mbind option_bind Z.eqb].
    - change (zlen (@nil Z)) with 0. by rewrite Z.add_0_r.
    - rewrite (proj2 (Z.eqb_neq c 0)) by done.
      specialize (IH (pre ++ [c]) fuel ltac:(cbn in Hf; lia)).
      rewrite zlen_app, <- app_assoc in IH. cbn [app] in IH. change (zlen [c]) with 1 in IH. rewrite IH.
      rewrite zlen_cons. f_equal. lia. }
  specialize (Hg [] (S (length (s ++ [0])))). cbn [app] in Hg. change (zlen []) with 0 in Hg.
  rewrite Hg; [done |]. rewrite length_app. cbn. lia.
Qed.

Lemma str_copy_loop s : forall donec pre rest fuel, cstr s -> zlen donec + zlen s < 32 ->
  (length s < fuel)%nat -> (length s <= length rest)%nat ->
  loop fuel (str_copy_step (zlen pre) (donec ++ s ++ [0]) 32) (zlen donec, (pre ++ donec) ++ rest) =
  Some (zlen donec + zlen s, ((pre ++ donec) ++ s) ++ drop (length s) rest).
Proof.
  induction s as [|c s IH]; intros dn pre rest [|fuel] Hs Hl Hf Hr; try (cbn in Hf; lia); cbn [loop app];
    unfold str_copy_step at 1.
  - change (zlen (@nil Z)) with 0 in *. rewrite !Z.add_0_r, app_nil_r.
    destruct (Z.ltb_spec (zlen dn) (32 - 1)); [| done].
    rewrite byte_at_here. done.
  - apply Forall_cons in Hs as [Hc Hs]. rewrite zlen_cons in *. pose proof (zlen_nonneg s).
    rewrite (proj2 (Z.ltb_lt _ _)) by lia. rewrite byte_at_here. cbn [mbind option_bind].
    rewrite (proj2 (Z.eqb_neq c 0)) by done. cbn [negb]. destruct rest as [|x rest]; [cbn in Hr; lia |].
    rewrite <- zlen_app, put_byte_here. cbn [mbind option_bind].
    specialize (IH (dn ++ [c]) pre rest fuel Hs). rewrite zlen_app, zlen_cons in IH.
    change (zlen (@nil Z)) with 0 in IH. rewrite <- !app_assoc in IH |- *. cbn [app] in IH |- *.
    rewrite Z.add_0_r in IH. rewrite IH by (lia || cbn in *; lia). cbn [length drop]. f_equal. f_equal; [lia | by rewrite <- !app_assoc].
Qed.

Lemma str_copy_pad_appends s pre rest : cstr s -> zlen s < 32 -> 32 <= zlen rest ->
  str_copy_pad (zlen pre) (s ++ [0]) 32 (pre ++ rest) =
  Some (pre ++ (s ++ replicate (Z.to_nat (32 - zlen s)) 0) ++ drop 32 rest).
Proof.
  intros Hs Hl Hr. unfold str_copy_pad. pose proof (zlen_nonneg s).
  pose proof (str_copy_loop s [] pre rest (S (Z.to_nat 32)) Hs Hl) as Hloop.
  rewrite app_nil_r in Hloop. cbn [app] in Hloop. change (zlen (@nil Z)) with 0 in Hloop.
  rewrite Hloop by (unfold zlen in *; lia). cbn [mbind option_bind]. rewrite Z.add_0_l.
  set (z := replicate (Z.to_nat (32 - zlen s)) 0).
  assert (length z = Z.to_nat (32 - zlen s)) as Ez by apply length_replicate.
  rewrite <- Ez. rewrite store_loop_appends.
  - rewrite drop_drop. replace (length s + length z)%nat with 32%nat by (unfold zlen in *; lia).
    by rewrite <- !app_assoc.
  - by rewrite zlen_app.
  - intros k Hk. unfold z. symmetry. apply lookup_replicate_2. lia.
  - rewrite length_drop. unfold zlen in *. lia.
Qed.

Lemma copy_into_here pre src rest n : zlen src = n -> n <= zlen rest ->
  copy_into (pre ++ rest) (zlen pre) src n = Some (pre ++ src ++ drop (Z.to_nat n) rest).
Proof.
  intros <- Hn. rewrite copy_into_append by (pose proof (zlen_nonneg src); lia). by rewrite region_all.
Qed.

Lemma adt_put_node_appends np nc : appends (adt_put_node np nc) (le_split 4 np ++ le_split 4 nc).
Proof.
  intros out rest Hl. rewrite zlen_app, !zlen_le_split in Hl. unfold adt_put_node. cbn [adt_mem adt_ptr].
  rewrite copy_into_here by (rewrite ?zlen_le_split; lia). cbn [mbind option_bind].
  replace (zlen out + 4) with (zlen (out ++ le_split 4 np)) by (rewrite zlen_app, zlen_le_split; lia).
  rewrite app_assoc, copy_into_here; [| by rewrite zlen_le_split | unfold zlen in *; rewrite length_drop; lia].
  cbn [mbind option_bind]. rewrite drop_drop, length_app, !length_le_split, <- !app_assoc. do 3 f_equal.
  rewrite !zlen_app, !zlen_le_split. unfold sizeof_dt_node_hdr. lia.
Qed.

Lemma adt_put_prop_appends s val : prop_ok (s, val) -> zlen val + 3 < 2 ^ 32 ->
  appends (adt_put_prop (s ++ [0]) val (zlen val)) (flat_prop (s, val)).
Proof.
  intros [Hs Hl] Hv out rest Hr. cbn [fst snd] in *. unfold kPropNameLength in *.
  rewrite zlen_flat_prop in Hr by done. cbn [snd] in Hr.
  pose proof (zlen_nonneg val). destruct (pad4_spec (zlen val)).
  unfold adt_put_prop. cbn [adt_mem adt_ptr]. rewrite str_copy_pad_appends by (done || lia).
  cbn [mbind option_bind]. set (nm := s ++ replicate _ 0).
  assert (zlen nm = 32) as Enm by (unfold nm; rewrite zlen_app, zlen_replicate; pose proof (zlen_nonneg s); lia).
  rewrite app_assoc. replace (zlen out + 32) with (zlen (out ++ nm)) by (rewrite zlen_app; lia).
  rewrite copy_into_here; [| by rewrite zlen_le_split | unfold zlen in *; rewrite length_drop; lia].
  cbn [mbind option_bind]. rewrite drop_drop, app_assoc.
  replace (Z.to_nat (zlen val)) with (length val) by (unfold zlen; lia).
  rewrite store_loop_appends.
  2:{ rewrite !zlen_app, zlen_le_split. unfold sizeof_dt_prop_hdr. lia. }
  2:{ intros k Hk. rewrite Z.add_0_l. by rewrite byte_at_elem, elem_at_nat. }
  2:{ rewrite length_drop. unfold zlen in *. lia. }
  cbn [mbind option_bind]. change (u32 (Z.lnot 3)) with (u32 (-4)). rewrite pad_mask by lia.
  replace (zlen val + pad4 (zlen val) - zlen val) with (pad4 (zlen val)) by lia.
  set (pad := replicate (Z.to_nat (pad4 (zlen val))) 0).
  assert (length pad = Z.to_nat (pad4 (zlen val))) as Ep by apply length_replicate.
  rewrite <- Ep. rewrite app_assoc, drop_drop, store_loop_appends.
  2:{ rewrite !zlen_app, zlen_le_split. unfold sizeof_dt_prop_hdr. lia. }
  2:{ intros k Hk. unfold pad. symmetry. apply lookup_replicate_2. lia. }
  2:{ rewrite length_drop. unfold zlen in *. lia. }
  cbn [mbind option_bind]. rewrite drop_drop.
  change (flat_prop (s, val)) with (s ++ replicate (Z.to_nat (32 - zlen s)) 0 ++ le_split 4 (zlen val) ++ val ++ pad).
  replace (s ++ replicate (Z.to_nat (32 - zlen s)) 0 ++ le_split 4 (zlen val) ++ val ++ pad)
    with (nm ++ le_split 4 (zlen val) ++ val ++ pad) by (unfold nm; by rewrite <- app_assoc).
  assert (zlen pad = pad4 (zlen val)) as Ezp by (unfold zlen at 1; lia).
  assert (length nm = 32%nat) as Eln by (unfold zlen in Enm; lia).
  f_equal. f_equal.
  - replace (32 + Z.to_nat 4 + length val + length pad)%nat
      with (length (nm ++ le_split 4 (zlen val) ++ val ++ pad))
      by (rewrite !length_app, length_le_split; lia).
    by rewrite <- !app_assoc.
  - rewrite !zlen_app, zlen_le_split. unfold sizeof_dt_prop_hdr. lia.
Qed.

(** ** The tree the shim builds *)

(** Read a flattening back; only used to name the prebuilt product node as a tree. *)
Fixpoint parse_props (n : nat) (bs : bytes) : list (bytes * bytes) * bytes :=
  match n with
  | O => ([], bs)
  | S n =>
      let len := le_combine (region bs 32 4) in
      let '(ps, rest) := parse_props n (drop (Z.to_nat (36 + len + pad4 len)) bs) in
      ((cstr_of (take 32 bs), region bs 36 len) :: ps, rest)
  end.

Definition product_node : dtnode :=
  DTNode (parse_props (Z.to_nat (le_combine (take 4 d22ap_product_node_blob)))
            (drop 8 d22ap_product_node_blob)).1 [].

Definition xzs_tree : dtnode :=
  DTNode [
    (lit "name", cs "device-tree");
    (lit "compatible", root_compat);
    (lit "model", cs "iPhone10,3");
    (lit "target-type", cs "D22");
    (lit "target-sub-type", cs "D22AP");
    (lit "manufacturer", cs "Apple Inc.");
    (lit "serial-number", cs "F2LV8000JCL8");
    (lit "#address-cells", le_split 4 2);
    (lit "#size-cells", le_split 4 2)]
  [
    DTNode [
      (lit "name", cs "chosen");
      (lit "debug-enabled", le_split 4 1);
      (lit "dram-base", le_split 8 0x80000000);
      (lit "dram-size", le_split 8 0x78000000);
      (lit "firmware-version", cs "xzs-bootshim-1.0");
      (lit "system-firmware-version", cs "xzs-bootshim-1.0");
      (lit "random-seed", random_seed);
      (lit "boot-manifest-hash", boot_manifest_hash);
      (lit "crypto-hash-method", cs "sha2-384");
      (lit "display-scale", le_split 4 3);
      (lit "unique-chip-id", le_split 8 0x585a534b45594101);
      (lit "chip-id", le_split 4 0x8015);
      (lit "mac-address-wifi0", wifi_mac);
      (lit "mac-address-bluetooth0", bt_mac);
      (lit "mlb-serial-number", cs "C0274010000JCL800");
      (lit "certificate-production-status", le_split 4 0);
      (lit "effective-production-status-ap", le_split 4 0);
      (lit "certificate-security-mode", le_split 4 1);
      (lit "effective-security-mode-sep", le_split 4 1)]
    [
      DTNode [
        (lit "name", cs "memory-map");
        (lit "RAMDisk", ramdisk_range);
        (lit "Display-FrameBuffer", fb_range)]
      [];
      DTNode [
        (lit "name", cs "asmb");
        (lit "lp-sip0", le_split 8 0x6f);
        (lit "lp-sip1", le_split 4 1)]
      []
    ];
    DTNode [
      (lit "name", cs "defaults");
      (lit "serial-device", le_split 4 0x10);
      (lit "no-effaceable-storage", le_split 4 1)]
    [];
    DTNode [
      (lit "name", cs "cpus")]
    [
      DTNode [
        (lit "name", cs "cpu0");
        (lit "state", cs "running");
        (lit "reg", le_split 4 0);
        (lit "timebase-frequency", le_split 4 19200000);
        (lit "bus-frequency", le_split 4 100000000);
        (lit "clock-frequency", le_split 4 2150000000);
        (lit "memory-frequency", le_split 4 1866000000)]
      [];
      DTNode [
        (lit "name", cs "cpu1");
        (lit "state", cs "stopped");
        (lit "reg", le_split 4 1);
        (lit "timebase-frequency", le_split 4 19200000);
        (lit "bus-frequency", le_split 4 100000000);
        (lit "clock-frequency", le_split 4 2150000000);
        (lit "memory-frequency", le_split 4 1866000000)]
      [];
      DTNode [
        (lit "name", cs "cpu2");
        (lit "state", cs "stopped");
        (lit "reg", le_split 4 0x100);
        (lit "timebase-frequency", le_split 4 19200000);
        (lit "bus-frequency", le_split 4 100000000);
        (lit "clock-frequency", le_split 4 2150000000);
        (lit "memory-frequency", le_split 4 1866000000)]
      [];
      DTNode [
        (lit "name", cs "cpu3");
        (lit "state", cs "stopped");
        (lit "reg", le_split 4 0x101);
        (lit "timebase-frequency", le_split 4 19200000);
        (lit "bus-frequency", le_split 4 100000000);
        (lit "clock-frequency", le_split 4 2150000000);
        (lit "memory-frequency", le_split 4 1866000000)]
      []
    ];
    DTNode [
      (lit "name", cs "arm-io");
      (lit "device_type", cs "arm-io");
      (lit "ranges", concat (le_split 8 <$> ranges))]
    [
      DTNode [
        (lit "name", cs "uart");
        (lit "device_type", cs "serial");
        (lit "compatible", cs "qcom,msm-uartdm");
        (lit "AAPL,phandle", le_split 4 0x10);
        (lit "reg", concat (le_split 8 <$> uart_reg))]
      [];
      DTNode [
        (lit "name", cs "gic");
        (lit "device_type", cs "interrupt-controller");
        (lit "interrupt-controller", cs "master");
        (lit "reg", concat (le_split 8 <$> gic_reg))]
      [];
      DTNode [
        (lit "name", cs "timer");
        (lit "device_type", cs "timer");
        (lit "reg", concat (le_split 8 <$> timer_reg))]
      [];
      DTNode [
        (lit "name", cs "wdt");
        (lit "no-pmu", le_split 4 1)]
      [];
      DTNode [
        (lit "name", cs "disp0");
        (lit "device_type", cs "display-subsystem");
        (lit "compatible", cs "xzs,display");
        (lit "canvas-width", le_split 4 1125);
        (lit "canvas-height", le_split 4 2436)]
      [];
      DTNode [
        (lit "name", cs "sgx");
        (lit "device_type", cs "sgx");
        (lit "compatible", cs "xzs,gpu");
        (lit "gpu-chip-id", le_split 4 0x05030002);
        (lit "gmem-size", le_split 4 0x00100000)]
      [];
      DTNode [
        (lit "name", cs "m2scaler");
        (lit "device_type", cs "m2scaler");
        (lit "compatible", cs "xzs,m2scaler")]
      []
    ];
    DTNode [
      (lit "name", cs "buttons");
      (lit "button-names", button_names);
      (lit "home-button-type", le_split 4 2);
      (lit "opposed-power-vol-buttons", le_split 4 1)]
    [];
    product_node
  ].

#[global] Instance prop_ok_dec p : Decision (prop_ok p).
Proof. unfold prop_ok, cstr. apply _. Defined.

Lemma appends_eq m x y : appends m x -> x = y -> appends m y.
Proof. by intros ? <-. Qed.

Lemma put_str_appends (n v : string) : prop_ok (lit n, cs v) -> cstr (lit v) -> zlen (cs v) + 3 < 2 ^ 32 ->
  appends (adt_put_str (cs n) (cs v)) (flat_prop (lit n, cs v)).
Proof.
  intros Hn Hv Hl out rest Hr. unfold adt_put_str. unfold cs at 3. rewrite str_len_cstr by done.
  cbn [mbind option_bind]. replace (u32 (zlen (lit v) + 1)) with (zlen (cs v)).
  - by apply adt_put_prop_appends.
  - unfold cs in *. rewrite zlen_app in *. change (zlen [0]) with 1 in *. pose proof (zlen_nonneg (lit v)).
    rewrite u32_small by cint. lia.
Qed.

Lemma put_val_appends (n : string) val len : prop_ok (lit n, val) -> len = zlen val -> zlen val + 3 < 2 ^ 32 ->
  appends (adt_put_prop (cs n) val len) (flat_prop (lit n, val)).
Proof. intros ? -> ?. by apply adt_put_prop_appends. Qed.

Lemma put_blob_appends blob : appends (adt_put_blob blob) blob.
Proof.
  intros out rest Hl. unfold adt_put_blob. cbn [adt_mem adt_ptr]. rewrite store_loop_appends.
  - cbn [mbind option_bind]. by rewrite zlen_app, app_assoc.
  - lia.
  - intros k Hk. rewrite Z.add_0_l. by rewrite byte_at_elem, elem_at_nat.
  - unfold zlen in Hl. lia.
Qed.

(** One call of the builder, with its arguments evaluated. *)
Ltac put_one :=
  first
    [ apply adt_put_node_appends
    | apply put_str_appends; [apply (bool_decide_unpack _); by vm_compute
                             | apply (bool_decide_unpack _); by vm_compute | by vm_compute]
    | apply put_blob_appends
    | unfold adt_put_u32, adt_put_u64, adt_put_u64_array;
      apply put_val_appends; [apply (bool_decide_unpack _); by vm_compute | by vm_compute | by vm_compute] ].

Lemma put_tree_appends : appends put_tree (flat xzs_tree).
Proof.
  unfold put_tree, put_root, put_chosen, put_memory_map, put_asmb, put_defaults, put_cpus, put_cpu0,
    put_cpu1, put_cpu2, put_cpu3, put_arm_io, put_uart, put_gic, put_timer, put_wdt, put_disp0, put_sgx,
    put_m2scaler, put_buttons.
  eapply appends_eq.
  - repeat apply appends_then; put_one.
  - vm_compute. reflexivity.
Qed.

Lemma xzs_tree_ok : tree_ok xzs_tree.
Proof. apply tree_okb_sound. vm_compute. reflexivity. Qed.

Lemma zlen_xzs_tree : zlen (flat xzs_tree) = 7368.
Proof. vm_compute. reflexivity. Qed.

Lemma build_tree_exact mem : 7368 <= zlen mem ->
  adt_build_tree_at mem = Some (7368, flat xzs_tree ++ drop (Z.to_nat 7368) mem).
Proof.
  intros Hm. unfold adt_build_tree_at.
  pose proof (put_tree_appends [] mem) as Hp. cbn [app] in Hp. change (zlen []) with 0 in Hp.
  assert (length (flat xzs_tree) = Z.to_nat 7368) as El by (vm_compute; reflexivity).
  rewrite zlen_xzs_tree in Hp. rewrite Hp by done. cbn [mbind option_bind adt_mem adt_ptr].
  rewrite El. done.
Qed.

(** Building the device tree in any memory of at least 7368 bytes writes exactly the
    flattening of one well-formed tree, reports its length, and leaves what lies behind it
    alone. *)
Theorem adt_build_tree_flat (mem : bytes) (Hmem : 7368 <= zlen mem) :
  tree_ok xzs_tree /\ adt_build_tree_at mem = Some (zlen (flat xzs_tree), flat xzs_tree ++ drop (Z.to_nat 7368) mem).
Proof.
  split; [exact xzs_tree_ok |]. rewrite zlen_xzs_tree. by apply build_tree_exact.
Qed.

Lemma adt_build_tree_flat_witness :
  adt_build_tree_at (replicate 7400 255) =
    Some (zlen (flat xzs_tree), flat xzs_tree ++ drop (Z.to_nat 7368) (replicate 7400 255)).
Proof. apply (adt_build_tree_flat (replicate 7400 255)). by vm_compute. Defined.

(** ** What the kernel asks for *)

(** Path, property and value. *)
Definition expected_props : list (list bytes * bytes * bytes) := [
  ([lit "chosen"], lit "dram-base", le_split 8 0x80000000);
  ([lit "chosen"], lit "dram-size", le_split 8 0x78000000);
  ([lit "chosen"; lit "memory-map"], lit "RAMDisk", le_split 8 0x81700000 ++ le_split 8 0x12000);
  ([lit "chosen"; lit "memory-map"], lit "Display-FrameBuffer", le_split 8 0x98000000 ++ le_split 8 0x800000);
  ([lit "chosen"; lit "asmb"], lit "lp-sip0", le_split 8 0x6f);
  ([lit "defaults"], lit "serial-device", le_split 4 0x10);
  ([lit "cpus"; lit "cpu0"], lit "timebase-frequency", le_split 4 19200000);
  ([lit "cpus"; lit "cpu3"], lit "reg", le_split 4 0x101);
  ([lit "arm-io"], lit "ranges", le_split 8 0 ++ le_split 8 0x01000000 ++ le_split 8 0x10000000);
  ([lit "arm-io"; lit "uart"], lit "AAPL,phandle", le_split 4 0x10);
  ([lit "arm-io"; lit "gic"], lit "interrupt-controller", cs "master");
  ([lit "product"], lit "name", cs "product") ].

(** Name and value of a search, and the path of the node it must return. *)
Definition expected_nodes : list (bytes * bytes * list bytes) := [
  (lit "interrupt-controller", lit "master", [lit "arm-io"; lit "gic"]);
  (lit "device_type", lit "timer", [lit "arm-io"; lit "timer"]);
  (lit "device_type", lit "serial", [lit "arm-io"; lit "uart"]);
  (lit "name", lit "arm-io", [lit "arm-io"]) ].

Definition prop_expected (e : list bytes * bytes * bytes) : Prop :=
  let '(path, name, v) := e in
  Forall comp_ok path /\ cstr name /\
  match resolve xzs_tree path with Some c => prop_find (dn_props c) name = Some v | None => False end.

#[global] Instance comp_ok_dec s : Decision (comp_ok s).
Proof. unfold comp_ok, path_char. apply _. Defined.
#[global] Instance prop_expected_dec e : Decision (prop_expected e).
Proof.
  destruct e as [[path name] v]. unfold prop_expected, cstr.
  destruct (resolve xzs_tree path); apply _.
Defined.

Lemma expected_props_hold : Forall prop_expected expected_props.
Proof. apply (bool_decide_unpack _). vm_compute. reflexivity. Qed.

Lemma shim_tree_placed base mem : 8 < base -> base mod 4 = 0 -> 7368 <= zlen mem < 2 ^ 32 ->
  base + zlen mem + 3 < 2 ^ 64 -> placed base (flat xzs_tree ++ drop (Z.to_nat 7368) mem) xzs_tree.
Proof.
  intros Hb Ha Hm He.
  assert (zlen (flat xzs_tree ++ drop (Z.to_nat 7368) mem) = zlen mem) as El.
  { rewrite zlen_app, zlen_xzs_tree. unfold zlen in *. rewrite length_drop. lia. }
  split; [done | done | by rewrite El | rewrite El; lia | apply xzs_tree_ok | by eexists].
Qed.

(** An expected property read through the kernel's lookup. *)
Lemma expected_prop_read base blob buf comps name v : placed base blob xzs_tree ->
  zlen buf = kDTMaxEntryNameLength + 1 -> (comps, name, v) ∈ expected_props ->
  exists a p, SecureDTLookupEntry base blob (globals base blob) buf 0 (kDTPathNameSeparator :: join_path comps) = Ret (Some a) /\
    SecureDTGetProperty base blob (globals base blob) a (name ++ [0]) = Ret (Some (p, zlen v)) /\
    sub_bytes blob (p - base) (zlen v) = Some v.
Proof.
  intros Hpl Hbuf He. pose proof expected_props_hold as Hall. rewrite Forall_forall in Hall.
  destruct (Hall _ He) as (Hc & Hn & Hr).
  destruct (path_lookup_refines base blob buf xzs_tree comps Hpl Hc Hbuf) as (r & Hl & Hm).
  destruct (resolve xzs_tree comps) as [c |]; [| done]. destruct Hm as (a & -> & Ha).
  specialize (Ha name Hn). rewrite Hr in Ha. destruct Ha as (p & Hp & Hv). by exists a, p.
Qed.

Lemma expected_nodes_hold : forallb (fun '(n, v, comps) =>
    terminatedb n xzs_tree && bool_decide (cstr n) && bool_decide (cstr v) &&
    match find_node (existsb (prop_matches n (Some v))) xzs_tree, resolve xzs_tree comps with
    | Some c, Some d => bool_decide (flat c = flat d /\ dn_props c = dn_props d)
    | _, _ => false
    end) expected_nodes = true.
Proof. vm_compute. reflexivity. Qed.

(** C34. Wherever the loader maps the memory the shim built the tree in, the kernel's path
    lookup and property read return the values its platform code depends on (memory size,
    RAM disk, frame buffer, console, timer frequency, bus ranges, interrupt controller),
    and its searches return the nodes at the paths the builder's comments promise. *)
Theorem kernel_reads_shim_tree (base : Z) (mem buf : bytes)
    (Hbase : 8 < base) (Halign : base mod 4 = 0) (Hmem : 7368 <= zlen mem < 2 ^ 32)
    (Hend : base + zlen mem + 3 < 2 ^ 64) (Hbuf : zlen buf = kDTMaxEntryNameLength + 1) :
  exists len blob g, adt_build_tree_at mem = Some (len, blob) /\
    SecureDTInit base (zlen blob) = Ret g /\
    (forall comps name v, (comps, name, v) ∈ expected_props ->
      exists a p, SecureDTLookupEntry base blob g buf 0 (kDTPathNameSeparator :: join_path comps) = Ret (Some a) /\
        SecureDTGetProperty base blob g a (name ++ [0]) = Ret (Some (p, zlen v)) /\
        sub_bytes blob (p - base) (zlen v) = Some v) /\
    (forall n v comps, (n, v, comps) ∈ expected_nodes ->
      exists a c, SecureDTFindEntry base blob g (n ++ [0]) (Some (v ++ [0])) = Ret (Some a) /\
        resolve xzs_tree comps = Some c /\ reads_as base blob a c).
Proof.
  pose proof (shim_tree_placed base mem Hbase Halign Hmem Hend) as Hpl.
  set (blob := flat xzs_tree ++ drop (Z.to_nat 7368) mem) in *. exists 7368, blob, (globals base blob).
  split; [apply build_tree_exact; lia |]. split; [by eapply placed_init |]. split.
  - intros comps name v He. by apply expected_prop_read.
  - intros n v comps He. pose proof expected_nodes_hold as Hall. rewrite forallb_forall in Hall.
    apply list_elem_of_In in He. specialize (Hall _ He). cbn beta iota in Hall.
    apply andb_true_iff in Hall as [[[Ht Hn]%andb_true_iff Hv]%andb_true_iff Hf].
    apply bool_decide_eq_true_1 in Hn, Hv. apply terminatedb_sound in Ht.
    destruct (find_entry_refines base blob xzs_tree n v Hpl Ht Hn Hv) as (r & Hr & Hfi).
    destruct (find_node _ xzs_tree) as [c |]; [| done]. destruct (resolve xzs_tree comps) as [d |]; [| done].
    apply bool_decide_eq_true_1 in Hf as [_ Hf]. destruct Hfi as (a & -> & Ha).
    exists a, d. split; [done |]. split; [done |]. intros name Hname. specialize (Ha name Hname).
    by rewrite <- Hf.
Qed.

Lemma kernel_reads_shim_tree_witness :
  exists len blob g, adt_build_tree_at (replicate 7400 0) = Some (len, blob) /\
    SecureDTInit ADT_BASE_ADDR (zlen blob) = Ret g /\
    exists a p, SecureDTLookupEntry ADT_BASE_ADDR blob g (replicate 64 0) 0
        (kDTPathNameSeparator :: join_path [lit "chosen"; lit "memory-map"]) = Ret (Some a) /\
      SecureDTGetProperty ADT_BASE_ADDR blob g a (lit "RAMDisk" ++ [0]) = Ret (Some (p, 16)).
Proof.
  destruct (kernel_reads_shim_tree ADT_BASE_ADDR (replicate 7400 0) (replicate 64 0))
    as (len & blob & g & H1 & H2 & H3 & _); [by vm_compute .. |].
  exists len, blob, g. split; [exact H1 |]. split; [exact H2 |].
  destruct (H3 [lit "chosen"; lit "memory-map"] (lit "RAMDisk") (le_split 8 0x81700000 ++ le_split 8 0x12000))
    as (a & p & H4 & H5 & _).
  - apply list_elem_of_In. right. right. left. reflexivity.
  - exists a, p. split; [exact H4 | exact H5].
Defined.
