(* ===== verification/Memdev.v ===== *)
(** * The RAM disk driver

    Models bsd/dev/memdev.c: the device table, its switch entry points, the strategy
    routine with its page-wise physical copies, and device creation and lookup.  The
    device switches, devfs, buffer mapping and page-table lookups are parameters of the
    operations that use them.  [None] is a panic, an access to an unmapped page or an index
    outside the table.  [CONFIG_MEMDEV_INSECURE] is not configured, so [mdevinit] does
    nothing; kernel assertions are compiled out. *)

From stdpp Require Import base list strings.
From Stdlib Require Import ZArith Lia.
From S2P Require Import Prelude Kernel.

(** ** Constants *)

Definition NB_MAX_MDEVICES : Z := 16.
Definition mdInited : Z := 1.
Definition mdRO : Z := 2.
Definition mdPhys : Z := 4.
Definition DEV_BSIZE : Z := 512.
Definition FWRITE : Z := 2.
Definition B_READ : Z := 1.
Definition EACCES : Z := 13.

Definition minor (dev : Z) : Z := Z.land dev 0xffffff.
Definition makedev (x y : Z) : Z := s32 (Z.lor (Z.shiftl x 24) y).

(** ** State *)

Record mdev_t := Mdev {
  mdBase : Z;
  mdSize : Z;
  mdFlags : Z;
  mdSecsize : Z;
  mdBDev : Z;
  mdCDev : Z;
  mdbdevb : Z;
  mdcdevb : Z }.

Definition mdev_zero : mdev_t := Mdev 0 0 0 0 0 0 0 0.

Record md_state := MdState {
  mdev : list mdev_t;
  mdevBMajor : Z;
  mdevCMajor : Z;
  g_xzs_mdevadd_call_count : Z }.

(** The table at boot. *)
Definition md_boot : md_state :=
  {| mdev := replicate (Z.to_nat NB_MAX_MDEVICES) mdev_zero; mdevBMajor := -1; mdevCMajor := -1;
     g_xzs_mdevadd_call_count := 0 |}.

Definition set_mdev (st : md_state) (l : list mdev_t) : md_state :=
  {| mdev := l; mdevBMajor := mdevBMajor st; mdevCMajor := mdevCMajor st;
     g_xzs_mdevadd_call_count := g_xzs_mdevadd_call_count st |}.

Definition has_flag (d : mdev_t) (f : Z) : bool := negb (Z.land (mdFlags d) f =? 0).

(** [mdSize << 12] is a 32-bit expression. *)
Definition size_bytes (d : mdev_t) : Z := u32 (Z.shiftl (mdSize d) 12).

Definition bad_devid (devid : Z) : bool := (NB_MAX_MDEVICES <=? devid) || (devid <? 0).

(** ** Open, close, size *)

Definition mdevclose : Z := 0.

Definition mdevopen (st : md_state) (dev flags : Z) : option Z :=
  let devid := minor dev in
  if bad_devid devid then Some ENXIO
  else d ← elem_at (mdev st) devid;
    if negb (Z.land flags FWRITE =? 0) && has_flag d mdRO then Some EACCES else Some 0.

Definition mdevsize (st : md_state) (dev : Z) : option Z :=
  let devid := minor dev in
  if bad_devid devid then Some ENXIO
  else d ← elem_at (mdev st) devid;
    if negb (has_flag d mdInited) then Some (-1) else Some (mdSecsize d).

(** ** Character reads and writes *)

Definition UIO_USERSPACE64 : Z := 8.
Definition UIO_USERSPACE32 : Z := 5.
Definition UIO_PHYS_USERSPACE : Z := 3.
Definition UIO_PHYS_USERSPACE32 : Z := 7.
Definition UIO_PHYS_USERSPACE64 : Z := 10.

(** The request and the mover, bsd/kern/kern_subr.c, as the driver sees them. *)
Class UioLayer (U : Type) := {
  req_offset : U -> Z;
  req_resid : U -> Z;
  req_segflg : U -> Z;
  set_segflg : U -> Z -> U;
  uiomove64 : Z -> Z -> U -> Z * U;
}.

Definition imin (a b : Z) : Z := let a := s32 a in let b := s32 b in if a <? b then a else b.

Definition phys_segflg (flg : Z) : Z :=
  if flg =? UIO_USERSPACE64 then UIO_PHYS_USERSPACE64
  else if flg =? UIO_USERSPACE32 then UIO_PHYS_USERSPACE32
  else UIO_PHYS_USERSPACE.

Definition mdevrw `{UioLayer U} (st : md_state) (dev : Z) (u : U) : option (Z * U) :=
  let devid := minor dev in
  if bad_devid devid then Some (ENXIO, u)
  else d ← elem_at (mdev st) devid;
    if negb (has_flag d mdInited) then Some (ENXIO, u)
    else if req_offset u <? 0 then Some (EINVAL, u)
    else if req_resid u <? 0 then Some (EINVAL, u)
    else
      let mdata := u64 (u64 (Z.shiftl (mdBase d) 12) + req_offset u) in
      let saveflag := req_segflg u in
      let u := if has_flag d mdPhys then set_segflg u (phys_segflg (req_segflg u)) else u in
      let count := if size_bytes d <? req_offset u then 0
                   else imin (req_resid u) (size_bytes d - req_offset u) in
      let '(status, u) := uiomove64 mdata count u in
      Some (status, set_segflg u saveflag).

(** ** Memory *)

(** Physical memory, byte by byte. *)
Definition mem : Type := Z -> Z.

Definition pread (m : mem) (a : Z) (n : nat) : bytes := (fun i => m (a + Z.of_nat i)) <$> seq 0 n.
Definition pwrite (m : mem) (a : Z) (bs : bytes) : mem :=
  fun x => match elem_at bs (x - a) with Some b => b | None => m x end.

(** [bcopy_phys(from, to, n)]. *)
Definition bcopy_phys (m : mem) (from to n : Z) : mem := pwrite m to (pread m from (Z.to_nat n)).

Section strategy.
(** [pmap_find_phys(kernel_pmap, va)]: the page number, 0 when the page is not mapped. *)
Context (pmap_find_phys : Z -> Z).

Definition phys_of (va : Z) : Z := Z.lor (Z.shiftl (pmap_find_phys va) 12) (Z.land va 4095).

(** [bcopy] between kernel virtual addresses, one byte at a time from a snapshot. *)
Fixpoint vread (m : mem) (va : Z) (n : nat) : option bytes :=
  match n with
  | O => Some []
  | S n => if pmap_find_phys va =? 0 then None
           else rest ← vread m (va + 1) n; Some (m (phys_of va) :: rest)
  end.

Fixpoint vwrite (m : mem) (va : Z) (bs : bytes) : option mem :=
  match bs with
  | [] => Some m
  | b :: bs => if pmap_find_phys va =? 0 then None
               else vwrite (pwrite m (phys_of va) [b]) (va + 1) bs
  end.

Definition bcopy (m : mem) (from to n : Z) : option mem :=
  bs ← vread m from (Z.to_nat n); vwrite m to bs.

(** ** Strategy *)

(** [b_map] is the address [buf_map] returns; [b_done] counts completions. *)
Record buf := Buf {
  b_dev : Z;
  b_blkno : Z;
  b_count : Z;
  b_flags : Z;
  b_resid : Z;
  b_error : Z;
  b_map : option Z;
  b_done : Z }.

Definition buf_seterror (bp : buf) (e : Z) : buf :=
  Buf (b_dev bp) (b_blkno bp) (b_count bp) (b_flags bp) (b_resid bp) e (b_map bp) (b_done bp).
Definition buf_setresid (bp : buf) (r : Z) : buf :=
  Buf (b_dev bp) (b_blkno bp) (b_count bp) (b_flags bp) r (b_error bp) (b_map bp) (b_done bp).
Definition buf_setcount (bp : buf) (n : Z) : buf :=
  Buf (b_dev bp) (b_blkno bp) n (b_flags bp) (b_resid bp) (b_error bp) (b_map bp) (b_done bp).
Definition buf_biodone (bp : buf) : buf :=
  Buf (b_dev bp) (b_blkno bp) (b_count bp) (b_flags bp) (b_resid bp) (b_error bp) (b_map bp)
    (b_done bp + 1).

Definition umin (a b : Z) : Z := let a := u32 a in let b := u32 b in if a <? b then a else b.

(** One turn of [while (left)]: a copy that stays inside one page on both sides. *)
Definition phys_copy_step (is_read : bool) (st : Z * Z * Z * mem)
    : option (ctl (Z * Z * Z * mem) mem) :=
  let '(left_, vaddr, fvaddr, m) := st in
  if left_ =? 0 then Some (Exit m)
  else
    let lop := umin (4096 - Z.land vaddr 4095) (4096 - Z.land fvaddr 4095) in
    let csize := umin lop left_ in
    let pp := pmap_find_phys vaddr in
    if pp =? 0 then None
    else
      let paddr := Z.lor (Z.shiftl pp 12) (Z.land vaddr 4095) in
      let m := if is_read then bcopy_phys m fvaddr paddr csize else bcopy_phys m paddr fvaddr csize in
      Some (Next (u32 (left_ - csize), u64 (vaddr + csize), u64 (fvaddr + csize), m)).

Definition phys_copy (is_read : bool) (m : mem) (vaddr fvaddr count : Z) : option mem :=
  loop (S (Z.to_nat count)) (phys_copy_step is_read) (count, vaddr, fvaddr, m).

Definition mdevstrategy (st : md_state) (m : mem) (bp : buf) : option (buf * mem) :=
  let devid := minor (b_dev bp) in
  d ← elem_at (mdev st) devid;
  if negb (has_flag d mdInited) then Some (buf_biodone (buf_seterror bp ENXIO), m)
  else
    let bp := buf_setresid bp (b_count bp) in
    let blkoff := u64 (b_blkno bp * mdSecsize d) in
    if size_bytes d <=? blkoff then
      let bp := if negb (blkoff =? size_bytes d) then buf_seterror bp EINVAL else bp in
      Some (buf_biodone bp, m)
    else
      let bp := if size_bytes d <? u64 (blkoff + b_count bp)
                then buf_setcount bp (u32 (size_bytes d - blkoff)) else bp in
      vaddr ← b_map bp;
      let fvaddr := u64 (u64 (Z.shiftl (mdBase d) 12) + blkoff) in
      let is_read := negb (Z.land (b_flags bp) B_READ =? 0) in
      m ← (if negb (has_flag d mdPhys) then
             if is_read then bcopy m fvaddr vaddr (b_count bp) else bcopy m vaddr fvaddr (b_count bp)
           else phys_copy is_read m vaddr fvaddr (b_count bp));
      Some (buf_biodone (buf_setresid bp 0), m).
End strategy.

(** ** Control *)

Inductive dk_cmd : Type :=
  | DKIOCGETMAXBLOCKCOUNTREAD
  | DKIOCGETMAXBLOCKCOUNTWRITE
  | DKIOCGETMAXSEGMENTCOUNTREAD
  | DKIOCGETMAXSEGMENTCOUNTWRITE
  | DKIOCGETBLOCKSIZE
  | DKIOCSETBLOCKSIZE (f : Z)
  | DKIOCISWRITABLE
  | DKIOCGETBLOCKCOUNT
  | DKIOCGETMEMDEVINFO
  | OtherCmd.

(** What the call leaves in the caller's data. *)
Inductive dk_data : Type :=
  | NoData
  | Data32 (f : Z)
  | Data64 (o : Z)
  | MemdevInfo (mi_mdev mi_phys : bool) (mi_base mi_size : Z).

Definition set_secsize (d : mdev_t) (n : Z) : mdev_t :=
  Mdev (mdBase d) (mdSize d) (mdFlags d) n (mdBDev d) (mdCDev d) (mdbdevb d) (mdcdevb d).

(** [suser] is the result of [proc_suser]; the block count divides 32-bit unsigned values,
    by zero if no block size was ever set. *)
Definition mdevioctl (st : md_state) (dev : Z) (cmd : dk_cmd) (suser : Z) (is_char : bool)
    : option (Z * dk_data * md_state) :=
  let devid := minor dev in
  if bad_devid devid then Some (ENXIO, NoData, st)
  else if negb (suser =? 0) then Some (suser, NoData, st)
  else d ← elem_at (mdev st) devid;
    match cmd with
    | DKIOCGETMAXBLOCKCOUNTREAD | DKIOCGETMAXBLOCKCOUNTWRITE
    | DKIOCGETMAXSEGMENTCOUNTREAD | DKIOCGETMAXSEGMENTCOUNTWRITE => Some (0, Data64 32, st)
    | DKIOCGETBLOCKSIZE => Some (0, Data32 (u32 (mdSecsize d)), st)
    | DKIOCSETBLOCKSIZE f =>
        if is_char then Some (ENODEV, NoData, st)
        else if f <? DEV_BSIZE then Some (EINVAL, NoData, st)
        else Some (0, Data32 f, set_mdev st (<[Z.to_nat devid := set_secsize d (s32 f)]> (mdev st)))
    | DKIOCISWRITABLE => Some (0, Data32 1, st)
    | DKIOCGETBLOCKCOUNT =>
        if negb (has_flag d mdInited) then Some (ENXIO, NoData, st)
        else if mdSecsize d =? 0 then None
        else Some (0, Data64 (u32 (size_bytes d + u32 (mdSecsize d) - 1) / u32 (mdSecsize d)), st)
    | DKIOCGETMEMDEVINFO =>
        if negb (has_flag d mdInited) then Some (ENXIO, NoData, st)
        else Some (0, MemdevInfo true (has_flag d mdPhys) (u32 (mdBase d)) (mdSize d), st)
    | OtherCmd => Some (ENOTTY, NoData, st)
    end.

Definition mdevbioctl (st : md_state) (dev : Z) (cmd : dk_cmd) (suser : Z) := mdevioctl st dev cmd suser false.
Definition mdevcioctl (st : md_state) (dev : Z) (cmd : dk_cmd) (suser : Z) := mdevioctl st dev cmd suser true.

(** ** Devices *)

Definition mdevinit (st : md_state) : md_state := st.

Definition xzs_get_mdevadd_count (st : md_state) : Z := g_xzs_mdevadd_call_count st.

(** The device switches and devfs: major numbers handed out (negative: none left) and the
    node made for a device number (0: none). *)
Record md_env := MdEnv {
  bdevsw_add : Z;
  cdevsw_add_with_bdev : Z -> Z;
  devfs_make_node : bool -> Z -> Z }.

(** One turn of the search: state is the first free slot so far. *)
Definition mdevadd_scan (st : md_state) (base size : Z) (i devid : Z) : option (ctl Z Empty_set) :=
  d ← elem_at (mdev st) i;
  if negb (has_flag d mdInited) then Some (Next (if devid <? 0 then i else devid))
  else if negb ((u64 (base + size - 1) <? mdBase d) || (u64 (mdBase d + mdSize d - 1) <? base)) then None
  else Some (Next devid).

Definition mdevadd_slot (st : md_state) (devid base size : Z) : option Z :=
  if devid <? 0 then
    r ← for_loop (Z.to_nat NB_MAX_MDEVICES) 0 (mdevadd_scan st base size) (-1);
    match r with
    | Next devid => if devid <? 0 then None else Some devid
    | Exit e => match (e : Empty_set) with end
    end
  else if NB_MAX_MDEVICES <=? devid then None
  else d ← elem_at (mdev st) devid; if has_flag d mdInited then None else Some devid.

Definition put_mdev (st : md_state) (devid : Z) (d : mdev_t) : md_state :=
  set_mdev st (<[Z.to_nat devid := d]> (mdev st)).

(** The rest of the function once the majors are known: result -1 or the device number. *)
Definition mdevadd_nodes (env : md_env) (st : md_state) (devid base size : Z) (phys : bool)
    : option (Z * md_state) :=
  d ← elem_at (mdev st) devid;
  let bdev := makedev (mdevBMajor st) devid in
  let bnode := devfs_make_node env true bdev in
  let d := Mdev (mdBase d) (mdSize d) (mdFlags d) (mdSecsize d) bdev (mdCDev d) bnode (mdcdevb d) in
  if bnode =? 0 then Some (-1, put_mdev st devid d)
  else
    let cdev := makedev (mdevCMajor st) devid in
    let cnode := devfs_make_node env false cdev in
    let d := Mdev (mdBase d) (mdSize d) (mdFlags d) (mdSecsize d) bdev cdev bnode cnode in
    if cnode =? 0 then Some (-1, put_mdev st devid d)
    else
      let flags := if phys then Z.lor (mdFlags d) mdPhys else mdFlags d in
      let d := Mdev base size (Z.lor flags mdInited) DEV_BSIZE bdev cdev bnode cnode in
      Some (bdev, put_mdev st devid d).

Definition mdevadd (env : md_env) (st : md_state) (devid base size : Z) (phys : bool)
    : option (Z * md_state) :=
  let st := MdState (mdev st) (mdevBMajor st) (mdevCMajor st) (u32 (g_xzs_mdevadd_call_count st + 1)) in
  devid ← mdevadd_slot st devid base size;
  let bmajor := if mdevBMajor st <? 0 then bdevsw_add env else mdevBMajor st in
  let st := MdState (mdev st) bmajor (mdevCMajor st) (g_xzs_mdevadd_call_count st) in
  if bmajor <? 0 then Some (-1, st)
  else
    let cmajor := if mdevCMajor st <? 0 then cdevsw_add_with_bdev env bmajor else mdevCMajor st in
    let st := MdState (mdev st) bmajor cmajor (g_xzs_mdevadd_call_count st) in
    if cmajor <? 0 then Some (-1, st) else mdevadd_nodes env st devid base size phys.

Definition mdevlookup (st : md_state) (devid : Z) : option Z :=
  if (devid <? 0) || (NB_MAX_MDEVICES <=? devid) then Some (-1)
  else d ← elem_at (mdev st) devid; Some (if negb (has_flag d mdInited) then -1 else mdBDev d).

(** Result: the devfs nodes removed, in order, and the table. *)
Definition mdevremoveall (st : md_state) : list Z * md_state :=
  (concat ((fun d => if has_flag d mdInited then [mdbdevb d; mdcdevb d] else []) <$> mdev st),
   set_mdev st ((fun d => if has_flag d mdInited then mdev_zero else d) <$> mdev st)).

(** Result: the two out parameters, or -1. *)
Definition mdevgetrange (st : md_state) (devid : Z) : option (option (Z * Z)) :=
  if (devid <? 0) || (NB_MAX_MDEVICES <=? devid) then Some None
  else d ← elem_at (mdev st) devid;
    Some (if negb (has_flag d mdInited) then None
          else Some (u64 (Z.shiftl (mdBase d) 12), size_bytes d)).
