(* ===== verification/MemdevProofs.v ===== *)
(** * The RAM disk driver: correctness

    Device creation keeps the devices disjoint, the strategy routine copies exactly the
    requested part of the device, and a RAM disk whose memory holds an image is a buffer
    cache that serves that image to the file system. *)

From stdpp Require Import base list strings.
From Stdlib Require Import ZArith Lia.
From S2P Require Import Prelude XzsfsCore XzsfsFormat Kernel XzsfsDriver Memdev XzsfsTransfer.

(** ** Flags and addresses *)

Lemma lor_low a b k : 0 <= k -> 0 <= b < 2 ^ k -> Z.lor (Z.shiftl a k) b = a * 2 ^ k + b.
Proof.
  intros Hk Hb. rewrite Z.shiftl_mul_pow2 by done.
  assert (Z.land (a * 2 ^ k) b = 0) as H0.
  { apply Z.bits_inj'. intros n Hn. rewrite Z.land_spec, Z.bits_0.
    destruct (Z.lt_ge_cases n k).
    - by rewrite Z.mul_pow2_bits_low.
    - rewrite <- (Z.mod_small b (2 ^ k)) by done. rewrite Z.mod_pow2_bits_high by lia.
      apply andb_false_r. }
  pose proof (Z.add_lor_land (a * 2 ^ k) b). lia.
Qed.

Lemma land_4095 x : Z.land x 4095 = x mod 4096.
Proof. apply (land_ones_mod x 12). lia. Qed.

Lemma phys_of_eq pf va : phys_of pf va = pf va * 4096 + va mod 4096.
Proof. unfold phys_of. rewrite land_4095. apply (lor_low _ _ 12); [lia |]. apply Z.mod_pos_bound. lia. Qed.

(** ** Adding devices *)

Definition inited (d : mdev_t) : Prop := has_flag d mdInited = true.

#[global] Instance inited_dec d : Decision (inited d).
Proof. unfold inited. apply _. Defined.

Definition dev_ok (d : mdev_t) : Prop :=
  inited d -> 0 <= mdBase d /\ 0 < mdSize d < 2 ^ 32 /\ mdBase d + mdSize d <= 2 ^ 64.

(** Page ranges of two devices do not meet. *)
Definition apart (b1 s1 b2 s2 : Z) : Prop := b1 + s1 <= b2 \/ b2 + s2 <= b1.

#[global] Instance apart_dec b1 s1 b2 s2 : Decision (apart b1 s1 b2 s2).
Proof. unfold apart. apply _. Defined.

Record md_wf (st : md_state) : Prop := {
  mw_len : length (mdev st) = Z.to_nat NB_MAX_MDEVICES;
  mw_dev : Forall dev_ok (mdev st);
  mw_apart : forall i j d e, i <> j -> mdev st !! i = Some d -> mdev st !! j = Some e ->
    inited d -> inited e -> apart (mdBase d) (mdSize d) (mdBase e) (mdSize e) }.

(** The first slot that is not in use. *)
Fixpoint first_free (l : list mdev_t) : option nat :=
  match l with
  | [] => None
  | d :: l => if decide (inited d) then S <$> first_free l else Some O
  end.

Definition clear_of (base size : Z) (d : mdev_t) : Prop :=
  inited d -> apart base size (mdBase d) (mdSize d).

#[global] Instance clear_of_dec base size d : Decision (clear_of base size d).
Proof. unfold clear_of. apply _. Defined.

(** The search loop on the rest of the table. *)
Fixpoint scan_list (base size : Z) (l : list mdev_t) (i devid : Z) : option Z :=
  match l with
  | [] => Some devid
  | d :: l =>
      if decide (inited d) then
        if decide (apart base size (mdBase d) (mdSize d)) then scan_list base size l (i + 1) devid else None
      else scan_list base size l (i + 1) (if devid <? 0 then i else devid)
  end.

Section add.
Context (st : md_state) (base size : Z).
Context (Hb : 0 <= base) (Hs : 0 < size < 2 ^ 32) (Hbs : base + size <= 2 ^ 64).

Lemma overlap_test d : dev_ok d -> inited d ->
  negb ((u64 (base + size - 1) <? mdBase d) || (u64 (mdBase d + mdSize d - 1) <? base)) =
  negb (bool_decide (apart base size (mdBase d) (mdSize d))).
Proof.
  intros Hd Hi. destruct (Hd Hi) as (H1 & H2 & H3).
  rewrite (u64_small (base + size - 1)) by (cint_unfold; lia).
  rewrite (u64_small (mdBase d + mdSize d - 1)) by (cint_unfold; lia). f_equal.
  unfold apart. destruct (Z.ltb_spec (base + size - 1) (mdBase d)), (Z.ltb_spec (mdBase d + mdSize d - 1) base);
    symmetry; first [apply bool_decide_eq_true_2; lia | apply bool_decide_eq_false_2; lia].
Qed.

Lemma scan_loop l : forall pre devid, mdev st = pre ++ l -> Forall dev_ok l ->
  for_loop (length l) (zlen pre) (mdevadd_scan st base size) devid =
  Next <$> scan_list base size l (zlen pre) devid.
Proof.
  induction l as [|d l IH]; intros pre devid El Hok; cbn [length for_loop scan_list]; [done |].
  apply Forall_cons in Hok as [Hd Hok]. unfold mdevadd_scan at 1. rewrite El.
  rewrite elem_at_app_r, Z.sub_diag, elem_at_0_cons by lia. cbn [mbind option_bind].
  assert (zlen pre + 1 = zlen (pre ++ [d])) as Ez by (rewrite zlen_app, zlen_cons; by change (zlen (@nil mdev_t)) with 0).
  destruct (decide (inited d)) as [Hi | Hi].
  - unfold inited in Hi. rewrite Hi. cbn [negb]. rewrite overlap_test by done.
    destruct (decide (apart _ _ _ _)) as [Ha | Ha].
    + rewrite (bool_decide_eq_true_2 _ Ha). cbn [negb]. rewrite Ez. apply IH; [| done].
      by rewrite <- app_assoc.
    + by rewrite (bool_decide_eq_false_2 _ Ha).
  - unfold inited in Hi. destruct (has_flag d mdInited); [done |]. cbn [negb]. rewrite Ez.
    apply IH; [| done]. by rewrite <- app_assoc.
Qed.

Lemma scan_list_found l : forall i devid, 0 <= devid ->
  scan_list base size l i devid = if decide (Forall (clear_of base size) l) then Some devid else None.
Proof.
  induction l as [|d l IH]; intros i devid Hd; cbn [scan_list].
  - by rewrite decide_True.
  - rewrite (proj2 (Z.ltb_ge devid 0)) by lia. rewrite IH by done.
    destruct (decide (inited d)) as [Hi | Hi].
    + destruct (decide (apart _ _ _ _)) as [Ha | Ha].
      * destruct (decide (Forall (clear_of base size) l)) as [Hf | Hf].
        -- rewrite decide_True; [done |]. constructor; [by intros ? | done].
        -- rewrite decide_False; [done |]. intros H. by apply Forall_cons in H as [_ ?].
      * rewrite decide_False; [done |]. intros H. apply Forall_cons in H as [H _]. by apply Ha, H.
    + destruct (decide (Forall (clear_of base size) l)) as [Hf | Hf].
      * rewrite decide_True; [done |]. constructor; [by intros ? | done].
      * rewrite decide_False; [done |]. intros H. by apply Forall_cons in H as [_ ?].
Qed.

Lemma scan_list_first l : forall i, 0 <= i ->
  scan_list base size l i (-1) =
  if decide (Forall (clear_of base size) l)
  then Some (match first_free l with Some k => i + Z.of_nat k | None => -1 end) else None.
Proof.
  induction l as [|d l IH]; intros i Hi0; cbn [scan_list first_free].
  - by rewrite decide_True.
  - destruct (decide (inited d)) as [Hi | Hi].
    + destruct (decide (apart _ _ _ _)) as [Ha | Ha].
      * rewrite IH by lia. destruct (decide (Forall (clear_of base size) l)) as [Hf | Hf].
        -- rewrite decide_True by (constructor; [by intros ? | done]). f_equal. destruct (first_free l); cbn; lia.
        -- rewrite decide_False; [done |]. intros H. by apply Forall_cons in H as [_ ?].
      * rewrite decide_False; [done |]. intros H. apply Forall_cons in H as [H _]. by apply Ha, H.
    + cbn [Z.ltb Z.compare]. rewrite scan_list_found by lia.
      destruct (decide (Forall (clear_of base size) l)) as [Hf | Hf].
      * rewrite decide_True by (constructor; [by intros ? | done]). f_equal. cbn. lia.
      * rewrite decide_False; [done |]. intros H. by apply Forall_cons in H as [_ ?].
Qed.

Lemma slot_auto : md_wf st ->
  mdevadd_slot st (-1) base size =
  if decide (Forall (clear_of base size) (mdev st)) then Z.of_nat <$> first_free (mdev st) else None.
Proof.
  intros [Hlen Hok _]. unfold mdevadd_slot. cbn [Z.ltb Z.compare]. rewrite <- Hlen.
  pose proof (scan_loop (mdev st) [] (-1) eq_refl Hok) as Hl. change (zlen []) with 0 in Hl. rewrite Hl.
  rewrite scan_list_first by lia.
  destruct (decide _); [| done]. cbn. destruct (first_free (mdev st)) as [k |]; [| done].
  by rewrite (proj2 (Z.ltb_ge _ 0)) by lia.
Qed.
End add.

Lemma first_free_spec l k : first_free l = Some k ->
  exists d, l !! k = Some d /\ ~ inited d /\ forall j e, (j < k)%nat -> l !! j = Some e -> inited e.
Proof.
  revert k. induction l as [|d l IH]; intros k; cbn [first_free]; [done |].
  destruct (decide (inited d)) as [Hi | Hi].
  - destruct (first_free l) as [k' |]; [| done]. intros [= <-].
    destruct (IH k' eq_refl) as (e & He & Hn & Hall). exists e. split; [done |]. split; [done |].
    intros [|j] x Hj; [by intros [= <-] |]. apply Hall. lia.
  - intros [= <-]. exists d. split; [done |]. split; [done |]. intros. lia.
Qed.

Lemma has_flag_lor_inited f d : mdFlags d = Z.lor f mdInited -> inited d.
Proof.
  intros E. unfold inited, has_flag. rewrite E. apply negb_true_iff, Z.eqb_neq. intros H.
  apply (f_equal (fun x => Z.testbit x 0)) in H. rewrite Z.land_spec, Z.lor_spec, Z.bits_0 in H.
  unfold mdInited in H. change (Z.testbit 1 0) with true in H. by rewrite orb_true_r in H.
Qed.

(** Replacing an unused slot keeps the table well formed. *)
Lemma put_mdev_wf st k d d' : md_wf st -> mdev st !! k = Some d -> ~ inited d ->
  dev_ok d' -> (inited d' -> Forall (clear_of (mdBase d') (mdSize d')) (mdev st)) ->
  md_wf (put_mdev st (Z.of_nat k) d').
Proof.
  intros [Hl Ho Ha] Hk Hn Hd Hc. unfold put_mdev, set_mdev. rewrite Nat2Z.id.
  pose proof (lookup_lt_Some _ _ _ Hk) as Hlt. split; cbn [mdev].
  - by rewrite length_insert.
  - by apply Forall_insert.
  - intros i j x y Hij Hx Hy Hix Hiy.
    destruct (decide (i = k)) as [-> | Hik], (decide (j = k)) as [-> | Hjk]; [done | | |].
    + rewrite list_lookup_insert_eq in Hx by done. injection Hx as <-.
      rewrite list_lookup_insert_ne in Hy by done.
      pose proof (Forall_lookup_1 _ _ _ _ (Hc Hix) Hy) as H. by apply (H Hiy).
    + rewrite list_lookup_insert_eq in Hy by done. injection Hy as <-.
      rewrite list_lookup_insert_ne in Hx by done.
      pose proof (Forall_lookup_1 _ _ _ _ (Hc Hiy) Hx) as H. specialize (H Hix). unfold apart in *. lia.
    + rewrite list_lookup_insert_ne in Hx, Hy by done. by apply (Ha i j).
Qed.

Lemma md_wf_majors st b c n : md_wf st -> md_wf (MdState (mdev st) b c n).
Proof. intros [H1 H2 H3]. by split. Qed.

(** What the rest of the call does to a free slot: it always returns, and only that slot
    changes; unless it reports -1 the slot then holds the new device. *)
Definition slot_filled (st : md_state) (k : nat) (base size r : Z) (st' : md_state) : Prop :=
  exists d' : mdev_t, mdev st' = <[k := d']> (mdev st) /\
    (~ inited d' /\ r = -1 \/ inited d' /\ mdBase d' = base /\ mdSize d' = size /\ mdBDev d' = r).

Lemma mdevadd_nodes_spec env st k d base size phys : mdev st !! k = Some d -> ~ inited d ->
  exists r st', mdevadd_nodes env st (Z.of_nat k) base size phys = Some (r, st') /\
    slot_filled st k base size r st'.
Proof.
  intros Hd Hn. unfold mdevadd_nodes. rewrite elem_at_nat, Hd. cbn [mbind option_bind].
  unfold put_mdev, set_mdev. rewrite Nat2Z.id.
  destruct (_ =? 0); [by do 2 eexists; split; [done |]; eexists; split; [done | by left] |].
  destruct (_ =? 0); [by do 2 eexists; split; [done |]; eexists; split; [done | by left] |].
  do 2 eexists. split; [done |]. eexists. split; [done |]. right. split; [by eapply has_flag_lor_inited | done].
Qed.

Lemma mdevadd_spec env st base size phys : md_wf st -> 0 <= base -> 0 < size < 2 ^ 32 ->
  base + size <= 2 ^ 64 ->
  match first_free (mdev st) with
  | Some k =>
      if decide (Forall (clear_of base size) (mdev st)) then
        exists r st', mdevadd env st (-1) base size phys = Some (r, st') /\
          (mdev st' = mdev st /\ r = -1 \/ slot_filled st k base size r st')
      else mdevadd env st (-1) base size phys = None
  | None => mdevadd env st (-1) base size phys = None
  end.
Proof.
  intros Hwf Hb Hs Hbs. unfold mdevadd. set (st1 := MdState (mdev st) _ _ (u32 _)).
  assert (md_wf st1) as Hwf1 by by apply md_wf_majors.
  rewrite (slot_auto st1 base size Hb Hs Hbs Hwf1). change (mdev st1) with (mdev st).
  destruct (first_free (mdev st)) as [k |] eqn:Ek; destruct (decide _); try done.
  destruct (first_free_spec _ _ Ek) as (d & Hd & Hn & _).
  cbn [fmap option_fmap option_map mbind option_bind].
  destruct (_ <? 0); [do 2 eexists; split; [done |]; by left |].
  destruct (_ <? 0); [do 2 eexists; split; [done |]; by left |].
  edestruct (mdevadd_nodes_spec env) as (r & st' & E & Hf); [| exact Hn |]; [| rewrite E]; [done |].
  exists r, st'. split; [done |]. by right.
Qed.

(** Adding a memory device with an automatic number panics exactly when the range meets an
    existing device or the table is full; otherwise the devices in use stay pairwise
    disjoint, and a successful call puts the new device in the first free slot, where
    lookup returns its number and its range. *)
Theorem mdevadd_auto (env : md_env) (st : md_state) (base size : Z) (phys : bool)
    (Hwf : md_wf st) (Hb : 0 <= base) (Hs : 0 < size < 2 ^ 32) (Hbs : base + size <= 2 ^ 64) :
  (mdevadd env st (-1) base size phys = None <->
     ~ Forall (clear_of base size) (mdev st) \/ first_free (mdev st) = None) /\
  forall r st', mdevadd env st (-1) base size phys = Some (r, st') ->
    md_wf st' /\ exists k, first_free (mdev st) = Some k /\
      (forall j d, j <> k -> mdev st' !! j = Some d -> mdev st !! j = Some d) /\
      (r <> -1 -> mdevlookup st' (Z.of_nat k) = Some r /\
         mdevgetrange st' (Z.of_nat k) = Some (Some (u64 (Z.shiftl base 12), u32 (Z.shiftl size 12)))).
Proof.
  pose proof (mdevadd_spec env st base size phys Hwf Hb Hs Hbs) as Hspec.
  destruct (first_free (mdev st)) as [k |] eqn:Ek.
  2:{ rewrite Hspec. split; [split; [by right | done] | done]. }
  destruct (decide (Forall (clear_of base size) (mdev st))) as [Hc | Hc].
  2:{ rewrite Hspec. split; [split; [by left | done] | done]. }
  destruct Hspec as (r & st' & -> & Hr). split; [split; [done | by intros [] ] |]. intros ? ? [= <- <-].
  destruct (first_free_spec _ _ Ek) as (d & Hd & Hn & _). pose proof (lookup_lt_Some _ _ _ Hd) as Hlt.
  pose proof (mw_len _ Hwf) as Hlen. unfold NB_MAX_MDEVICES in *.
  destruct Hr as [[Em ->] | (d' & Em & Hd')].
  - split; [destruct Hwf; by split; rewrite Em |]. exists k. rewrite Em. done.
  - assert (md_wf st') as Hwf'.
    { assert (md_wf (put_mdev st (Z.of_nat k) d')) as [H1 H2 H3].
      { apply (put_mdev_wf st k d d' Hwf Hd Hn).
        - intros Hi. destruct Hd' as [[? _] | (_ & -> & -> & _)]; [done | lia].
        - intros Hi. destruct Hd' as [[? _] | (_ & -> & -> & _)]; done. }
      unfold put_mdev, set_mdev in H1, H2, H3. cbn [mdev] in *. rewrite Nat2Z.id in *.
      split; by rewrite Em. }
    split; [done |]. exists k. split; [done |]. split.
    + intros j e Hj He. rewrite Em in He. by rewrite list_lookup_insert_ne in He by done.
    + intros Hr. destruct Hd' as [[_ ?] | (Hi & Hbase & Hsize & Hdev)]; [done |].
      unfold mdevlookup, mdevgetrange, NB_MAX_MDEVICES, size_bytes.
      rewrite (proj2 (Z.ltb_ge _ 0)), (proj2 (Z.leb_gt 16 _)) by lia. cbn [orb].
      rewrite elem_at_nat, Em, list_lookup_insert_eq by done. cbn [mbind option_bind].
      unfold inited in Hi. rewrite Hi. cbn [negb]. by rewrite Hdev, Hbase, Hsize.
Qed.

Definition sample_env : md_env := MdEnv 12 (fun b => b + 2) (fun _ dev => dev + 1).

Lemma md_boot_wf : md_wf md_boot.
Proof.
  split; [done | |].
  - apply Forall_replicate. by intros H.
  - intros i j d e _ Hi. apply lookup_replicate in Hi as [-> _]. done.
Qed.

Lemma mdevadd_auto_witness :
  exists r st', mdevadd sample_env md_boot (-1) 0x81700 0x12 false = Some (r, st') /\ md_wf st' /\
    mdevgetrange st' 0 = Some (Some (0x81700000, 0x12000)).
Proof.
  destruct (mdevadd sample_env md_boot (-1) 0x81700 0x12 false) as [[r st'] |] eqn:E;
    [| exfalso; vm_compute in E; discriminate E].
  exists r, st'. split; [reflexivity |].
  destruct (proj2 (mdevadd_auto sample_env md_boot 0x81700 0x12 false md_boot_wf
    ltac:(lia) ltac:(lia) ltac:(lia)) r st' E) as (Hwf & k & Hk & _ & Hr).
  split; [exact Hwf |]. vm_compute in Hk. injection Hk as <-.
  apply Hr. vm_compute in E. injection E as <- _. discriminate.
Defined.

(** ** Copies *)

(** [n] bytes moved from the addresses [src] to the addresses [dst], nothing else changed. *)
Definition copied (src dst : Z -> Z) (n : Z) (m m' : mem) : Prop :=
  (forall i, 0 <= i < n -> m' (dst i) = m (src i)) /\
  (forall x, (forall i, 0 <= i < n -> x <> dst i) -> m' x = m x).

(** The two sides of a copy: destinations are distinct and no source. *)
Definition separate (src dst : Z -> Z) (n : Z) : Prop :=
  (forall i j, 0 <= i < n -> 0 <= j < n -> dst i = dst j -> i = j) /\
  (forall i j, 0 <= i < n -> 0 <= j < n -> dst i <> src j).

Lemma elem_at_pread m a n i : elem_at (pread m a n) i =
  if (0 <=? i) && (i <? Z.of_nat n) then Some (m (a + i)) else None.
Proof.
  unfold elem_at, pread. destruct (Z.leb_spec 0 i); [| done]. cbn [andb].
  rewrite list_lookup_fmap. destruct (Z.ltb_spec i (Z.of_nat n)).
  - rewrite lookup_seq_lt by lia. cbn. do 2 f_equal. lia.
  - by rewrite lookup_seq_ge by lia.
Qed.

Lemma bcopy_phys_spec m f t n x : 0 <= n ->
  bcopy_phys m f t n x = if (t <=? x) && (x <? t + n) then m (f + (x - t)) else m x.
Proof.
  intros Hn. unfold bcopy_phys, pwrite. rewrite elem_at_pread, Z2Nat.id by done.
  destruct (Z.leb_spec 0 (x - t)), (Z.leb_spec t x); try lia; [| done]. cbn [andb].
  destruct (Z.ltb_spec (x - t) n), (Z.ltb_spec x (t + n)); try lia; done.
Qed.

(** One more contiguous piece. *)
Lemma copied_extend src dst n k m m1 s d c : separate src dst n -> 0 <= k -> 0 <= c -> k + c <= n ->
  copied src dst k m m1 ->
  (forall j, 0 <= j < c -> src (k + j) = s + j /\ dst (k + j) = d + j) ->
  copied src dst (k + c) m (bcopy_phys m1 s d c).
Proof.
  intros [Hinj Hsep] Hk Hc Hn [H1 H2] Hpiece. split.
  - intros i Hi. rewrite bcopy_phys_spec by done.
    destruct (Z.lt_ge_cases i k) as [Hik | Hik].
    + destruct ((d <=? dst i) && (dst i <? d + c)) eqn:E; [| apply H1; lia].
      exfalso. bool_to_prop. destruct (Hpiece (dst i - d) ltac:(lia)) as [_ Hd].
      assert (i = k + (dst i - d)); [| lia]. apply Hinj; lia.
    + destruct (Hpiece (i - k) ltac:(lia)) as [Es Ed].
      replace (k + (i - k)) with i in Es, Ed by lia.
      rewrite (proj2 (Z.leb_le _ _)), (proj2 (Z.ltb_lt _ _)) by lia. cbn [andb].
      replace (s + (dst i - d)) with (src i) by lia. apply H2. intros j Hj Hx.
      apply (Hsep j i); [lia | lia | done].
  - intros x Hx. rewrite bcopy_phys_spec by done.
    destruct ((d <=? x) && (x <? d + c)) eqn:E; [| apply H2; intros i Hi; apply Hx; lia].
    exfalso. bool_to_prop. destruct (Hpiece (x - d) ltac:(lia)) as [_ Hd].
    apply (Hx (k + (x - d))); lia.
Qed.

Section copies.
Context (pf : Z -> Z) (va n : Z).
(** The translation is by page and maps the buffer. *)
Context (Hpage : forall a b, a / 4096 = b / 4096 -> pf a = pf b).
Context (Hmap : forall i, 0 <= i < n -> pf (va + i) <> 0).
Context (Hva : 0 <= va) (Hvan : va + n < 2 ^ 64) (Hn : 0 <= n < 2 ^ 32).

Definition at_va (i : Z) : Z := phys_of pf (va + i).

Lemma umin_small a b : 0 <= a < 2 ^ 32 -> 0 <= b < 2 ^ 32 -> umin a b = Z.min a b.
Proof. intros. unfold umin. rewrite !u32_small by done. destruct (Z.ltb_spec a b); lia. Qed.

(** Inside a page the translation is contiguous. *)
Lemma at_va_piece k c : 0 <= c -> (va + k) mod 4096 + c <= 4096 ->
  forall j, 0 <= j < c -> at_va (k + j) = phys_of pf (va + k) + j.
Proof.
  intros Hc Hp j Hj. unfold at_va. rewrite !phys_of_eq.
  rewrite (Hpage (va + (k + j)) (va + k)) by zdm. zdm.
Qed.

Lemma phys_copy_exact (is_read : bool) (m : mem) f : 0 <= f -> f + n < 2 ^ 64 ->
  let disk i := f + i in
  separate (if is_read then disk else at_va) (if is_read then at_va else disk) n ->
  exists m', phys_copy pf is_read m va f n = Some m' /\
    copied (if is_read then disk else at_va) (if is_read then at_va else disk) n m m'.
Proof.
  intros Hf Hfn disk Hsep. unfold phys_copy. set (src := if is_read then disk else at_va) in *.
  set (dst := if is_read then at_va else disk) in *.
  apply (loop_inv (S := Z * Z * Z * mem) (fun '(left_, v, g, m1) => 0 <= left_ <= n /\ v = va + (n - left_) /\
    g = f + (n - left_) /\ copied src dst (n - left_) m m1) _ (fun '(left_, _, _, _) => Z.to_nat left_)).
  - replace (n - n) with 0 by lia. split_and!; [lia | lia | lia | lia |]. split; [lia | done].
  - lia.
  - intros [[[left_ v] g] m1] (Hl & -> & -> & Hcp). unfold phys_copy_step.
    destruct (Z.eqb_spec left_ 0) as [-> | Hl0].
    { eexists. split; [done |]. cbn. by rewrite Z.sub_0_r in Hcp. }
    set (k := n - left_) in *. rewrite (proj2 (Z.eqb_neq _ 0)) by (apply Hmap; lia).
    assert (0 <= (va + k) mod 4096 < 4096) as Hm1 by (apply Z.mod_pos_bound; lia).
    assert (0 <= (f + k) mod 4096 < 4096) as Hm2 by (apply Z.mod_pos_bound; lia).
    rewrite !land_4095. rewrite (umin_small (4096 - _)) by lia. rewrite umin_small by lia.
    set (c := Z.min (Z.min _ _) left_). assert (0 < c <= left_) by lia.
    rewrite u32_small, !u64_small by (cint_unfold; lia).
    eexists. split; [done |]. cbn beta iota.
    replace (n - (left_ - c)) with (k + c) by lia. split_and!; [lia | lia | lia | lia | | lia].
    assert (Z.lor (Z.shiftl (pf (va + k)) 12) ((va + k) mod 4096) = phys_of pf (va + k)) as ->
      by (unfold phys_of; by rewrite land_4095).
    pose proof (at_va_piece k c ltac:(lia) ltac:(lia)) as Hpc.
    unfold src, dst in *.
    destruct is_read; (eapply copied_extend; [exact Hsep | lia | lia | lia | exact Hcp |]);
      intros j Hj; unfold disk; rewrite (Hpc j Hj); lia.
Qed.

Lemma vread_spec (m : mem) : forall k : nat, Z.of_nat k <= n -> forall o, 0 <= o -> o + Z.of_nat k <= n ->
  vread pf m (va + o) k = Some ((fun i => m (at_va (o + Z.of_nat i))) <$> seq 0 k).
Proof.
  induction k as [|k IH]; intros Hk o Ho Hok; cbn [vread seq]; [done |].
  rewrite (proj2 (Z.eqb_neq _ 0)) by (apply Hmap; lia).
  replace (va + o + 1) with (va + (o + 1)) by lia. rewrite IH by lia. cbn [mbind option_bind fmap list_fmap].
  do 2 f_equal; [unfold at_va; do 2 f_equal; lia |].
  rewrite <- fmap_S_seq, <- list_fmap_compose. apply list_fmap_ext. intros i x Hx. cbn. do 2 f_equal. lia.
Qed.

Lemma vwrite_exact (src : Z -> Z) (m0 : mem) bs : separate src at_va n ->
  forall k m1, 0 <= k -> k + zlen bs = n -> (forall i, 0 <= i < zlen bs -> elem_at bs i = Some (m0 (src (k + i)))) ->
  copied src at_va k m0 m1 ->
  exists m', vwrite pf m1 (va + k) bs = Some m' /\ copied src at_va n m0 m'.
Proof.
  intros Hsep. induction bs as [|b bs IH]; intros k m1 Hk Hkn Hbs Hcp; cbn [vwrite].
  - change (zlen (@nil Z)) with 0 in Hkn. replace n with k by lia. by eexists.
  - rewrite zlen_cons in *. pose proof (zlen_nonneg bs).
    rewrite (proj2 (Z.eqb_neq _ 0)) by (apply Hmap; lia).
    pose proof (Hbs 0 ltac:(lia)) as H0. rewrite elem_at_0_cons, Z.add_0_r in H0. injection H0 as Hb0.
    replace (va + k + 1) with (va + (k + 1)) by lia. apply IH; [lia | lia | |].
    + intros i Hi. rewrite <- (elem_at_cons_succ b) by lia. rewrite Hbs by lia. do 3 f_equal. lia.
    + destruct Hsep as [Hinj Hsp], Hcp as [H1 H2]. unfold pwrite. split.
      * intros i Hi. destruct (decide (i = k)) as [-> |].
        -- unfold at_va. rewrite Z.sub_diag, elem_at_0_cons. done.
        -- rewrite <- (H1 i) by lia. destruct (elem_at [b] _) eqn:E; [| done]. exfalso.
           apply elem_at_lt in E. change (zlen [b]) with 1 in E.
           assert (i = k); [| lia]. apply Hinj; [lia | lia |]. unfold at_va in *. lia.
      * intros x Hx. destruct (elem_at [b] _) eqn:E; [| apply H2; intros i Hi; apply Hx; lia]. exfalso.
        apply elem_at_lt in E. change (zlen [b]) with 1 in E. apply (Hx k); [lia |]. unfold at_va. lia.
Qed.
End copies.

(** ** Strategy *)

Definition dev_bytes (d : mdev_t) : Z := mdSize d * 4096.

(** Where byte [o] of the device is in physical memory. *)
Definition disk_at (pf : Z -> Z) (d : mdev_t) (o : Z) : Z :=
  let a := mdBase d * 4096 + o in if has_flag d mdPhys then a else phys_of pf a.

Definition is_read (bp : buf) : bool := negb (Z.land (b_flags bp) B_READ =? 0).

(** How many bytes the request moves. *)
Definition clipped (d : mdev_t) (off count : Z) : Z := Z.min count (dev_bytes d - off).

(** A request against a device that fits 32-bit sizes, with its buffer mapped; a device in
    kernel virtual memory is mapped too. *)
Record request_ok (pf : Z -> Z) (d : mdev_t) (bp : buf) (va : Z) : Prop := {
  rq_inited : has_flag d mdInited = true;
  rq_size : 0 <= mdSize d < 2 ^ 20;
  rq_base : 0 <= mdBase d /\ mdBase d * 4096 + dev_bytes d < 2 ^ 64;
  rq_sec : 0 < mdSecsize d;
  rq_blk : 0 <= b_blkno bp /\ b_blkno bp * mdSecsize d < 2 ^ 63;
  rq_count : 0 <= b_count bp < 2 ^ 32;
  rq_map : b_map bp = Some va;
  rq_va : 0 <= va /\ va + b_count bp < 2 ^ 64;
  rq_page : forall a b, a / 4096 = b / 4096 -> pf a = pf b;
  rq_mapped : forall i, 0 <= i < b_count bp -> pf (va + i) <> 0;
  rq_dev_mapped : has_flag d mdPhys = false ->
    forall o, 0 <= o < dev_bytes d -> pf (mdBase d * 4096 + o) <> 0 }.

Definition request_src (pf : Z -> Z) (d : mdev_t) (bp : buf) (va off : Z) : Z -> Z :=
  if is_read bp then fun i => disk_at pf d (off + i) else at_va pf va.
Definition request_dst (pf : Z -> Z) (d : mdev_t) (bp : buf) (va off : Z) : Z -> Z :=
  if is_read bp then at_va pf va else fun i => disk_at pf d (off + i).

Section strategy_proofs.
Context (pf : Z -> Z) (st : md_state) (d : mdev_t) (bp : buf) (va : Z).
Context (Hd : elem_at (mdev st) (minor (b_dev bp)) = Some d) (Hrq : request_ok pf d bp va).

Lemma size_bytes_eq : size_bytes d = dev_bytes d.
Proof.
  destruct Hrq. unfold size_bytes, dev_bytes. rewrite Z.shiftl_mul_pow2 by lia. change (2 ^ 12) with 4096.
  apply u32_small. change (2 ^ 20) with 1048576 in *. cint_unfold. lia.
Qed.

Lemma blkoff_eq : u64 (b_blkno bp * mdSecsize d) = b_blkno bp * mdSecsize d.
Proof. destruct Hrq. apply u64_small. change (2 ^ 63) with 9223372036854775808 in *. cint_unfold. nia. Qed.

Lemma strategy_copy (m : mem) off n : 0 <= off -> 0 <= n <= b_count bp -> off + n <= dev_bytes d ->
  separate (request_src pf d bp va off) (request_dst pf d bp va off) n ->
  exists m', (if negb (has_flag d mdPhys) then
      if is_read bp then bcopy pf m (mdBase d * 4096 + off) va n
      else bcopy pf m va (mdBase d * 4096 + off) n
    else phys_copy pf (is_read bp) m va (mdBase d * 4096 + off) n) = Some m' /\
    copied (request_src pf d bp va off) (request_dst pf d bp va off) n m m'.
Proof.
  intros Ho Hn Hon Hsep. destruct Hrq. set (f := mdBase d * 4096 + off).
  unfold request_src, request_dst, disk_at in *.
  assert (forall i, mdBase d * 4096 + (off + i) = f + i) as Ef by (intros; unfold f; lia).
  destruct (has_flag d mdPhys) eqn:Ep; cbn [negb].
  - destruct (phys_copy_exact pf va n rq_page0 ltac:(intros; apply rq_mapped0; lia) ltac:(lia) ltac:(lia)
      ltac:(lia) (is_read bp) m f) as (m' & E & Hc); [unfold f; lia | unfold f; lia | |].
    + destruct (is_read bp); [destruct Hsep as [H1 H2] | destruct Hsep as [H1 H2]]; split; intros i j Hi Hj;
        specialize (H1 i j Hi Hj); specialize (H2 i j Hi Hj); rewrite ?Ef in *; done.
    + exists m'. split; [done |]. destruct (is_read bp), Hc as [H1 H2]; (split; [intros i Hi | intros x Hx]).
      * rewrite Ef. by apply H1.
      * by apply H2.
      * rewrite Ef. by apply H1.
      * apply H2. intros i Hi. rewrite <- Ef. by apply Hx.
  - specialize (rq_dev_mapped0 eq_refl).
    assert (forall i, 0 <= i < n -> pf (f + i) <> 0) as Hfm
      by (intros i Hi; unfold f; rewrite <- Z.add_assoc; apply rq_dev_mapped0; lia).
    assert (forall i, 0 <= i < n -> pf (va + i) <> 0) as Hvm by (intros i Hi; apply rq_mapped0; lia).
    assert (forall a b (g : Z -> Z) (Hg : forall i, 0 <= i < n -> pf (a + i) <> 0)
      (Hh : forall i, 0 <= i < n -> pf (b + i) <> 0), separate (at_va pf a) (at_va pf b) n ->
      exists m', bcopy pf m a b n = Some m' /\ copied (at_va pf a) (at_va pf b) n m m') as Hcopy.
    { intros a b _ Hg Hh Hs. unfold bcopy.
      pose proof (vread_spec pf a n Hg m (Z.to_nat n) ltac:(lia) 0 ltac:(lia) ltac:(lia)) as Hr.
      rewrite Z.add_0_r in Hr. rewrite Hr. cbn [mbind option_bind].
      pose proof (vwrite_exact pf b n Hh (at_va pf a) m
        ((fun i => m (at_va pf a (0 + Z.of_nat i))) <$> seq 0 (Z.to_nat n)) Hs 0 m ltac:(lia)) as Hw.
      rewrite Z.add_0_r in Hw. apply Hw.
      - unfold zlen. rewrite length_fmap, length_seq. lia.
      - intros i Hi. unfold zlen in Hi. rewrite length_fmap, length_seq in Hi.
        apply elem_at_Some. split; [lia |]. rewrite list_lookup_fmap, lookup_seq_lt by lia. cbn. do 3 f_equal. lia.
      - split; [lia | done]. }
    assert (forall i, phys_of pf (mdBase d * 4096 + (off + i)) = at_va pf f i) as Ed
      by (intros; unfold at_va; by rewrite Ef).
    destruct (is_read bp).
    + destruct (Hcopy f va (fun _ => 0) Hfm Hvm) as (m' & -> & H1 & H2).
      { destruct Hsep as [H1 H2]. split; [done |]. intros i j Hi Hj. rewrite <- Ed. by apply H2. }
      exists m'. split; [done |]. split; [intros i Hi; rewrite Ed; by apply H1 | done].
    + destruct (Hcopy va f (fun _ => 0) Hvm Hfm) as (m' & -> & H1 & H2).
      { destruct Hsep as [H1 H2]. split; intros i j Hi Hj; rewrite <- !Ed; [by apply H1 | by apply H2]. }
      exists m'. split; [done |]. split; [intros i Hi; rewrite Ed; by apply H1 |].
      intros x Hx. apply H2. intros i Hi. rewrite <- Ed. by apply Hx.
Qed.
End strategy_proofs.

Definition done_with (bp : buf) (count resid error : Z) : buf :=
  Buf (b_dev bp) (b_blkno bp) count (b_flags bp) resid error (b_map bp) (b_done bp + 1).

(** C20. A block request on a RAM disk, in physical or in kernel virtual memory, completes the
    buffer exactly once.  Inside the device it moves exactly the requested bytes, trimmed
    at the end of the device, between the device and the buffer - whatever the page
    alignment of the two - and changes no other byte of memory; at the end of the device it
    moves nothing and leaves the residual at the count; behind it the error is EINVAL. *)
Theorem mdevstrategy_exact (pf : Z -> Z) (st : md_state) (m : mem) (d : mdev_t) (bp : buf) (va off : Z)
    (Hd : elem_at (mdev st) (minor (b_dev bp)) = Some d) (Hrq : request_ok pf d bp va)
    (Hoff : off = b_blkno bp * mdSecsize d)
    (Hsep : separate (request_src pf d bp va off) (request_dst pf d bp va off) (clipped d off (b_count bp))) :
  exists bp' m', mdevstrategy pf st m bp = Some (bp', m') /\
    if off <? dev_bytes d then
      bp' = done_with bp (clipped d off (b_count bp)) 0 (b_error bp) /\
      copied (request_src pf d bp va off) (request_dst pf d bp va off) (clipped d off (b_count bp)) m m'
    else
      bp' = done_with bp (b_count bp) (b_count bp) (if off =? dev_bytes d then b_error bp else EINVAL) /\
      m' = m.
Proof.
  subst off. unfold mdevstrategy. rewrite Hd. cbn [mbind option_bind]. rewrite (rq_inited _ _ _ _ Hrq).
  cbn [negb]. cbn zeta. change (b_blkno (buf_setresid bp _)) with (b_blkno bp).
  rewrite (blkoff_eq pf d bp va Hrq), (size_bytes_eq pf d bp va Hrq).
  set (off := b_blkno bp * mdSecsize d) in *.
  assert (0 <= off) as Ho by (destruct Hrq; unfold off; nia).
  destruct (Z.leb_spec (dev_bytes d) off) as [Hge | Hlt].
  - rewrite (proj2 (Z.ltb_ge _ _)) by lia. do 2 eexists. split; [done |]. split; [| done].
    by destruct (Z.eqb_spec off (dev_bytes d)).
  - rewrite (proj2 (Z.ltb_lt off (dev_bytes d))) by lia. change (b_count (buf_setresid bp _)) with (b_count bp).
    pose proof Hrq as [Q1 Q2 [Q3 Q4] Q5 [Q6 Q7] Q8 Q9 Q10 Q11 Q12 Q13].
    assert (dev_bytes d < 2 ^ 32) by (unfold dev_bytes; change (2 ^ 20) with 1048576 in *; lia).
    rewrite (u64_small (off + b_count bp)) by (cint_unfold; lia).
    set (bp1 := if dev_bytes d <? off + b_count bp then _ else _).
    assert (bp1 = Buf (b_dev bp) (b_blkno bp) (clipped d off (b_count bp)) (b_flags bp) (b_count bp)
      (b_error bp) (b_map bp) (b_done bp)) as ->.
    { unfold bp1, clipped. destruct (Z.ltb_spec (dev_bytes d) (off + b_count bp)).
      - unfold buf_setcount. cbn. rewrite u32_small by cint. f_equal. lia.
      - unfold buf_setresid. f_equal. lia. }
    cbn [b_map b_count b_flags]. rewrite Q9. cbn [mbind option_bind].
    replace (u64 (u64 (Z.shiftl (mdBase d) 12) + off)) with (mdBase d * 4096 + off).
    2:{ rewrite Z.shiftl_mul_pow2 by lia. change (2 ^ 12) with 4096.
        rewrite (u64_small (mdBase d * 4096)) by (cint_unfold; lia). rewrite u64_small by (cint_unfold; lia). done. }
    destruct (strategy_copy pf d bp va Hrq m off (clipped d off (b_count bp)) Ho) as (m' & E & Hc);
      [unfold clipped; lia | unfold clipped; lia | done |].
    unfold is_read in E. rewrite E. cbn [mbind option_bind]. do 2 eexists. split; [done |].
    split; [unfold done_with; by rewrite Q9 | exact Hc].
Qed.

(** ** The RAM disk under the file system *)

(** A block read: a 512-byte buffer mapped at [va] goes through the strategy routine, and its
    data is what the buffer then holds. *)
Definition block_buf (dev lba va : Z) : buf := Buf dev lba 512 B_READ 0 0 (Some va) 0.

Definition md_bread (pf : Z -> Z) (st : md_state) (m : mem) (dev va : Z) : buf_bread_fn := fun lba =>
  match mdevstrategy pf st m (block_buf dev lba va) with
  | Some (bp, m') => (b_error bp, if b_error bp =? 0 then vread pf m' va 512 else None)
  | None => (EIO, None)
  end.

(** The device holds the image, and the buffer is memory of its own. *)
Record ramdisk (pf : Z -> Z) (st : md_state) (m : mem) (dev va : Z) (d : mdev_t) (image : bytes) : Prop := {
  rd_dev : elem_at (mdev st) (minor dev) = Some d;
  rd_req : forall lba, 0 <= lba -> lba * 512 < 2 ^ 63 -> request_ok pf d (block_buf dev lba va) va;
  rd_sec : mdSecsize d = 512;
  rd_len : zlen image <= dev_bytes d;
  rd_bytes : Forall is_u8 image;
  rd_holds : forall o, 0 <= o < zlen image -> elem_at image o = Some (m (disk_at pf d o));
  rd_inj : forall i j, 0 <= i < 512 -> 0 <= j < 512 -> at_va pf va i = at_va pf va j -> i = j;
  rd_sep : forall i o, 0 <= i < 512 -> 0 <= o < dev_bytes d -> at_va pf va i <> disk_at pf d o }.

Lemma elem_at_region l off n i : 0 <= off -> 0 <= i < n -> off + n <= zlen l ->
  elem_at (region l off n) i = elem_at l (off + i).
Proof.
  intros. unfold elem_at, region. rewrite !(proj2 (Z.leb_le 0 _)) by lia.
  rewrite lookup_take. case_decide; [| lia]. rewrite lookup_drop. f_equal. lia.
Qed.

Lemma md_bread_sector pf st m dev va d image lba : ramdisk pf st m dev va d image ->
  dev_bytes d < 2 ^ 32 -> 0 <= lba -> (lba + 1) * 512 <= zlen image ->
  md_bread pf st m dev va lba = (0, Some (region image (lba * 512) 512)).
Proof.
  intros [Hd Hreq Hsec Hlen Hb Hh Hinj Hsep] Hsm Hl Hin. set (bp := block_buf dev lba va).
  assert (request_ok pf d bp va) as Hrq by (apply Hreq; lia).
  assert (clipped d (lba * 512) 512 = 512) as Ecl by (unfold clipped; lia).
  assert (separate (request_src pf d bp va (lba * 512)) (request_dst pf d bp va (lba * 512)) 512) as Hs.
  { unfold request_src, request_dst. change (is_read bp) with true. cbn iota. split; [done |].
    intros i j Hi Hj. apply Hsep; lia. }
  unfold md_bread, mdevstrategy. fold bp. change (b_dev bp) with dev. rewrite Hd. cbn [mbind option_bind].
  rewrite (rq_inited _ _ _ _ Hrq). cbn [negb]. cbn zeta. change (b_blkno (buf_setresid bp _)) with lba.
  pose proof (blkoff_eq pf d bp va Hrq) as Eb. change (b_blkno bp) with lba in Eb. rewrite Hsec in *.
  rewrite Eb, (size_bytes_eq pf d bp va Hrq). rewrite (proj2 (Z.leb_gt _ _)) by lia.
  change (b_count (buf_setresid bp _)) with 512. rewrite (u64_small (lba * 512 + 512)) by (cint_unfold; lia).
  rewrite (proj2 (Z.ltb_ge _ _)) by lia. change (b_map _) with (Some va). cbn [mbind option_bind].
  destruct (strategy_copy pf d bp va Hrq m (lba * 512) 512 ltac:(lia)) as (m' & E & Hc1 & _);
    [change (b_count bp) with 512; lia | lia | done |].
  change (b_count _) with 512. change (b_flags _) with B_READ.
  replace (u64 (u64 (Z.shiftl (mdBase d) 12) + lba * 512)) with (mdBase d * 4096 + lba * 512).
  2:{ destruct (rq_base _ _ _ _ Hrq). rewrite Z.shiftl_mul_pow2 by lia. change (2 ^ 12) with 4096.
      rewrite (u64_small (mdBase d * 4096)) by (cint_unfold; lia). rewrite u64_small; [lia | cint_unfold; lia]. }
  change (is_read bp) with true in E. change (negb (Z.land B_READ B_READ =? 0)) with true.
  cbn iota in E |- *. rewrite E. cbn [mbind option_bind]. change (b_error _) with 0. cbn [Z.eqb]. f_equal.
  pose proof (vread_spec pf va 512 (rq_mapped _ _ _ _ Hrq) m' 512 ltac:(lia) 0 ltac:(lia) ltac:(lia)) as Hv.
  rewrite Z.add_0_r in Hv. rewrite Hv. f_equal. apply list_eq. intros k.
  destruct (decide (k < 512)%nat) as [Hk | Hk].
  - rewrite list_lookup_fmap, lookup_seq_lt by done. cbn [fmap option_fmap option_map].
    rewrite <- (elem_at_nat (region image (lba * 512) 512)), elem_at_region by lia. rewrite Hh by lia.
    replace (0 + Z.of_nat (0 + k)) with (Z.of_nat k) by lia.
    unfold request_dst, request_src in Hc1. change (is_read bp) with true in Hc1. cbn iota in Hc1.
    by rewrite Hc1 by lia.
  - rewrite !lookup_ge_None_2; [done | |].
    + pose proof (zlen_region image (lba * 512) 512 ltac:(lia) ltac:(lia) ltac:(lia)). unfold zlen in *. lia.
    + rewrite length_fmap, length_seq. lia.
Qed.

(** C32. A RAM disk whose memory holds an image serves it: reading blocks through the strategy
    routine into a buffer of its own satisfies the buffer-cache interface the file system's
    block adapter is proved against, so the adapter over the RAM disk is a block device
    holding the image. *)
Theorem ramdisk_serves_image (pf : Z -> Z) (st : md_state) (m : mem) (dev va : Z) (d : mdev_t)
    (image : bytes) (Hrd : ramdisk pf st m dev va d image) (Hsmall : dev_bytes d < 2 ^ 32) :
  BufCache (md_bread pf st m dev va) image /\
  BlockDevice (kernel_read_fn (md_bread pf st m dev va)) image.
Proof.
  assert (BufCache (md_bread pf st m dev va) image) as Hc.
  { split; [apply (rd_bytes _ _ _ _ _ _ _ Hrd) |]. intros lba Hl Hin. by apply (md_bread_sector _ _ _ _ _ d). }
  split; [done |]. pose proof (rd_len _ _ _ _ _ _ _ Hrd) as Hl.
  apply (kernel_read_device _ image). change (2 ^ 41) with 2199023255552. change (2 ^ 32) with 4294967296 in Hsmall. lia.
Qed.

(** ** Instances *)

(** Memory mapped one to one, a one-page device at page 16 and a buffer at page 32. *)
Definition flat_map (va : Z) : Z := va / 4096.
Definition one_page : mdev_t := Mdev 16 1 (Z.lor mdPhys mdInited) 512 0 0 1 1.
Definition one_device : md_state := MdState (one_page :: replicate 15 mdev_zero) 12 14 1.
Definition counting_memory : mem := fun a => a mod 251.
Definition page_image : bytes := (fun k => (65536 + Z.of_nat k) mod 251) <$> seq 0 4096.

Lemma flat_map_id va : phys_of flat_map va = va.
Proof. rewrite phys_of_eq. unfold flat_map. zdm. Qed.

Lemma sample_request lba : 0 <= lba -> lba * 512 < 2 ^ 63 ->
  request_ok flat_map one_page (block_buf 0 lba 131072) 131072.
Proof.
  intros. split; try done; try (cbn; lia).
  all: unfold flat_map; cbn in *; intros; first [done | zdm].
Qed.

Lemma sample_ramdisk : ramdisk flat_map one_device counting_memory 0 131072 one_page page_image.
Proof.
  split.
  - done.
  - intros. by apply sample_request.
  - done.
  - by vm_compute.
  - unfold page_image. apply Forall_fmap, Forall_forall. intros k _. cbn. unfold is_u8.
    pose proof (Z.mod_pos_bound (65536 + Z.of_nat k) 251). lia.
  - intros o Ho. unfold page_image, zlen in *. rewrite length_fmap, length_seq in Ho.
    apply elem_at_Some. split; [lia |]. rewrite list_lookup_fmap, lookup_seq_lt by lia.
    cbn [fmap option_fmap option_map]. unfold disk_at, counting_memory.
    change (has_flag one_page mdPhys) with true. change (mdBase one_page) with 16. do 2 f_equal. lia.
  - intros i j _ _. unfold at_va. rewrite !flat_map_id. lia.
  - intros i o Hi Ho. unfold at_va, disk_at. rewrite flat_map_id.
    change (has_flag one_page mdPhys) with true. change (mdBase one_page) with 16.
    cbn beta iota zeta. change (dev_bytes one_page) with 4096 in Ho. lia.
Qed.

Lemma ramdisk_serves_image_witness :
  BlockDevice (kernel_read_fn (md_bread flat_map one_device counting_memory 0 131072)) page_image.
Proof.
  refine (proj2 (ramdisk_serves_image _ _ _ _ _ _ _ sample_ramdisk _)). by vm_compute.
Defined.

Lemma mdevstrategy_exact_witness :
  exists bp' m', mdevstrategy flat_map one_device counting_memory (block_buf 0 3 131072) = Some (bp', m') /\
    m' 131072 = counting_memory 67072.
Proof.
  destruct (mdevstrategy_exact flat_map one_device counting_memory one_page (block_buf 0 3 131072) 131072 1536)
    as (bp' & m' & E & Hm).
  - reflexivity.
  - apply sample_request; lia.
  - reflexivity.
  - split.
    + intros i j _ _. change (at_va flat_map 131072 i = at_va flat_map 131072 j -> i = j).
      unfold at_va. rewrite !flat_map_id. lia.
    + change (clipped one_page 1536 _) with 512. intros i j Hi Hj.
      change (at_va flat_map 131072 i <> 16 * 4096 + (1536 + j)). unfold at_va. rewrite flat_map_id. lia.
  - exists bp', m'. split; [exact E |]. change (1536 <? dev_bytes one_page) with true in Hm.
    destruct Hm as [_ [Hm _]]. specialize (Hm 0 ltac:(by vm_compute)).
    change (m' (at_va flat_map 131072 0) = counting_memory 67072) in Hm.
    unfold at_va in Hm. rewrite flat_map_id in Hm. exact Hm.
Defined.

(** A device of 4 GiB has size 0 as far as the driver's range and transfer arithmetic goes. *)
Theorem mdev_size_truncates (st : md_state) (d : mdev_t) :
  mdev st !! 0%nat = Some d -> has_flag d mdInited = true -> mdSize d = 2 ^ 20 ->
  mdevgetrange st 0 = Some (Some (u64 (Z.shiftl (mdBase d) 12), 0)).
Proof.
  intros Hd Hi Hs. unfold mdevgetrange, NB_MAX_MDEVICES. cbn [Z.ltb Z.leb Z.compare orb].
  change 0 with (Z.of_nat 0). rewrite elem_at_nat, Hd. cbn [mbind option_bind]. rewrite Hi. cbn [negb].
  unfold size_bytes. by rewrite Hs.
Qed.
