(* ===== verification/Memory.v ===== *)
(** * Memory

    A partial memory of bytes with big- and little-endian words, and the layout of C
    structures.  Reading or writing where there is no memory is [Fault]: a program that runs
    without it in every memory that maps a region touches nothing outside the region. *)

From stdpp Require Import base list strings.
From Stdlib Require Import ZArith Lia.
From S2P Require Import Prelude XzsfsCore.

(** ** Loads *)

Definition mem : Type := Z -> option Z.

Definition load8 (m : mem) (a : Z) : outcome Z := of_option (m a).

(** [(p[0] << 24) | (p[1] << 16) | (p[2] << 8) | p[3]]. *)
Definition load_be32 (m : mem) (p : Z) : outcome Z :=
  b0 ← load8 m p; b1 ← load8 m (p + 1); b2 ← load8 m (p + 2); b3 ← load8 m (p + 3);
  Ret (Z.lor (Z.lor (Z.lor (Z.shiftl b0 24) (Z.shiftl b1 16)) (Z.shiftl b2 8)) b3).

Fixpoint load_bytes (m : mem) (a : Z) (n : nat) : outcome bytes :=
  match n with
  | O => Ret []
  | S n => b ← load8 m a; bs ← load_bytes m (a + 1) n; Ret (b :: bs)
  end.

(** The string at [a]. *)
Fixpoint load_cstr (fuel : nat) (m : mem) (a : Z) : outcome bytes :=
  match fuel with
  | O => NoFuel
  | S fuel => c ← load8 m a; if c =? 0 then Ret [] else s ← load_cstr fuel m (a + 1); Ret (c :: s)
  end.

(** Little-endian words. *)
Definition load_le (n : nat) (m : mem) (a : Z) : outcome Z := bs ← load_bytes m a n; Ret (le_combine bs).

(** ** Stores *)

Definition store8 (m : mem) (a v : Z) : outcome mem :=
  match m a with
  | Some _ => Ret (fun x => if x =? a then Some (u8 v) else m x)
  | None => Fault
  end.

(** Successive bytes from [a] on. *)
Fixpoint store_bytes (m : mem) (a : Z) (bs : bytes) : outcome mem :=
  match bs with
  | [] => Ret m
  | b :: bs => m ← store8 m a b; store_bytes m (a + 1) bs
  end.

(** ** Structures *)

(** A C struct: fields with their sizes and alignments, in declaration order. *)
Definition c_struct : Type := list (string * Z * Z).

Definition align_up (off align : Z) : Z := (off + align - 1) / align * align.

(** The offset of a field, or where the fields end. *)
Fixpoint field_offset (st : c_struct) (name : string) (off : Z) : Z :=
  match st with
  | [] => off
  | (f, size, align) :: st =>
      let off := align_up off align in
      if String.eqb f name then off else field_offset st name (off + size)
  end.

(** Rounded up to the alignment of the widest field. *)
Definition sizeof (st : c_struct) : Z :=
  align_up (field_offset st "" 0) (foldr (fun f a => Z.max f.2 a) 1 st).

(** ** Contents *)

Definition be_split (v : Z) : bytes := [v / 2 ^ 24 mod 256; v / 2 ^ 16 mod 256; v / 2 ^ 8 mod 256; v mod 256].

(** The value of four bytes, most significant first. *)
Definition be_value (b : bytes) : Z := foldl (fun v d => v * 256 + d) 0 b.

(** The bytes are in memory at the address. *)
Definition stored (m : mem) (a : Z) (l : bytes) : Prop :=
  forall (i : nat) b, l !! i = Some b -> m (a + Z.of_nat i) = Some b.

Lemma stored_app m a l k : stored m a (l ++ k) <-> stored m a l /\ stored m (a + zlen l) k.
Proof.
  unfold stored, zlen. split.
  - intros H. split; intros i b Hi.
    + apply H. by apply lookup_app_l_Some.
    + replace (a + Z.of_nat (length l) + Z.of_nat i) with (a + Z.of_nat (length l + i)) by lia.
      apply H. by rewrite lookup_app_r, Nat.add_comm, Nat.add_sub by lia.
  - intros [Hl Hk] i b Hi. apply lookup_app_Some in Hi as [Hi | [Hle Hi]]; [by apply Hl |].
    replace (a + Z.of_nat i) with (a + Z.of_nat (length l) + Z.of_nat (i - length l)) by lia. by apply Hk.
Qed.

Lemma stored_cons m a b l : stored m a (b :: l) <-> m a = Some b /\ stored m (a + 1) l.
Proof.
  change (b :: l) with ([b] ++ l). rewrite stored_app. change (zlen [b]) with 1. split; intros [H1 H2]; (split; [| done]).
  - specialize (H1 0%nat b eq_refl). by rewrite Z.add_0_r in H1.
  - intros [|i] x Hx; [| done]. injection Hx as <-. by rewrite Z.add_0_r.
Qed.

Lemma stored_load m a b l : stored m a (b :: l) -> load8 m a = Ret b.
Proof. intros [H _]%stored_cons. unfold load8. by rewrite H. Qed.

Lemma lor_shift_add a b k : 0 <= k -> 0 <= b < 2 ^ k -> Z.lor (Z.shiftl a k) b = a * 2 ^ k + b.
Proof.
  intros Hk Hb. assert (Z.land (Z.shiftl a k) b = 0) as Hl.
  { apply Z.bits_inj'. intros n Hn. rewrite Z.land_spec, Z.bits_0. destruct (Z.lt_ge_cases n k).
    - by rewrite Z.shiftl_spec_low by lia.
    - rewrite (proj2 (Z.testbit_false b n Hn)); [apply andb_false_r |].
      pose proof (Z.pow_le_mono_r 2 k n). by rewrite Z.div_small by lia. }
  rewrite <- Z.lxor_lor, <- Z.add_nocarry_lxor by done. by rewrite Z.shiftl_mul_pow2 by lia.
Qed.

Lemma load_be_bytes m a b0 b1 b2 b3 l : stored m a (b0 :: b1 :: b2 :: b3 :: l) ->
  is_u8 b0 -> is_u8 b1 -> is_u8 b2 -> is_u8 b3 -> load_be32 m a = Ret (be_value [b0; b1; b2; b3]).
Proof.
  intros Hs H0 H1 H2 H3. unfold load_be32. rewrite !stored_cons in Hs. destruct Hs as (E0 & E1 & E2 & E3 & _).
  replace (a + 1 + 1) with (a + 2) in * by lia. replace (a + 2 + 1) with (a + 3) in * by lia.
  unfold load8. rewrite E0, E1, E2, E3. cbn [of_option mbind outcome_bind]. f_equal. cint_unfold.
  assert (Z.lor (Z.shiftl b0 24) (Z.shiftl b1 16) = Z.shiftl (b0 * 256 + b1) 16) as ->.
  { change 24 with (8 + 16). rewrite <- Z.shiftl_shiftl, <- Z.shiftl_lor by lia.
    rewrite lor_shift_add by (change (2 ^ 8) with 256; lia). done. }
  assert (Z.lor (Z.shiftl (b0 * 256 + b1) 16) (Z.shiftl b2 8) = Z.shiftl ((b0 * 256 + b1) * 256 + b2) 8) as ->.
  { change 16 with (8 + 8). rewrite <- Z.shiftl_shiftl, <- Z.shiftl_lor by lia.
    rewrite lor_shift_add by (change (2 ^ 8) with 256; lia). done. }
  rewrite lor_shift_add by (change (2 ^ 8) with 256; lia). cbn [be_value foldl]. change (2 ^ 8) with 256. lia.
Qed.

Lemma load_be_split m a v l : stored m a (be_split v ++ l) -> 0 <= v < 2 ^ 32 -> load_be32 m a = Ret v.
Proof.
  intros Hs Hv. rewrite (load_be_bytes _ _ _ _ _ _ _ Hs) by (apply Z.mod_pos_bound; lia).
  f_equal. cbn [be_value foldl]. change (2 ^ 24) with (256 * (256 * 256)). change (2 ^ 16) with (256 * 256).
  change (2 ^ 8) with 256. change (2 ^ 32) with 4294967296 in Hv. zdm.
Qed.

(** Memory that holds one blob and nothing else. *)
Definition mem_of (A : Z) (l : bytes) : mem :=
  fun a => if (A <=? a) && (a <? A + zlen l) then l !! Z.to_nat (a - A) else None.

Lemma mem_of_stored A pre l rest : stored (mem_of A (pre ++ l ++ rest)) (A + zlen pre) l.
Proof.
  intros i b Hi. unfold mem_of. pose proof (lookup_lt_Some _ _ _ Hi).
  rewrite (proj2 (Z.leb_le _ _)), (proj2 (Z.ltb_lt _ _)) by (rewrite ?zlen_app; unfold zlen; lia). cbn [andb].
  replace (Z.to_nat (A + zlen pre + Z.of_nat i - A)) with (length pre + i)%nat by (unfold zlen; lia).
  rewrite lookup_app_r, Nat.add_comm, Nat.add_sub by lia. by apply lookup_app_l_Some.
Qed.

Definition no_nul (s : bytes) : Prop := Forall (fun c => c <> 0) s.

(** ** Mapped ranges *)

(** There is memory at every address of the range. *)
Definition mapped (m : mem) (a n : Z) : Prop := forall x, a <= x < a + n -> is_Some (m x).

Lemma mapped_sub m a n b k : mapped m a n -> a <= b -> b + k <= a + n -> mapped m b k.
Proof. intros Hm H1 H2 x Hx. apply Hm. lia. Qed.

Lemma stored_mapped m a l : stored m a l -> mapped m a (zlen l).
Proof.
  intros Hs x Hx. destruct (lookup_lt_is_Some_2 l (Z.to_nat (x - a))) as [b Hb]; [unfold zlen in *; lia |].
  exists b. specialize (Hs _ _ Hb). by replace (a + Z.of_nat (Z.to_nat (x - a))) with x in Hs by lia.
Qed.

Lemma load_bytes_spec l : forall m a, stored m a l -> load_bytes m a (length l) = Ret l.
Proof.
  induction l as [|b l IH]; intros m a Hs; cbn [length load_bytes]; [done |].
  rewrite (stored_load _ _ _ _ Hs). cbn [mbind outcome_bind]. apply stored_cons in Hs as [_ Hs]. by rewrite IH.
Qed.

Lemma load_bytes_mapped n : forall m a, mapped m a (Z.of_nat n) -> exists l, load_bytes m a n = Ret l /\ length l = n.
Proof.
  induction n as [|n IH]; intros m a Hm; cbn [load_bytes]; [by exists [] |].
  unfold load8. destruct (Hm a ltac:(lia)) as [b Hb]. rewrite Hb. cbn [of_option mbind outcome_bind].
  destruct (IH m (a + 1)) as (l & -> & Hl); [intros x Hx; apply Hm; lia |]. exists (b :: l). by rewrite <- Hl.
Qed.

Lemma load_cstr_spec s : forall fuel m a, no_nul s -> stored m a (s ++ [0]) -> (length s < fuel)%nat ->
  load_cstr fuel m a = Ret s.
Proof.
  induction s as [|c s IH]; intros fuel m a Hn Hs Hf; (destruct fuel as [|fuel]; [cbn in Hf; lia |]); cbn [load_cstr app] in *;
    rewrite (stored_load _ _ _ _ Hs); cbn [mbind outcome_bind]; [done |].
  apply Forall_cons in Hn as [Hc Hn]. rewrite (proj2 (Z.eqb_neq c 0)) by done. apply stored_cons in Hs as [_ Hs].
  cbn in Hf. by rewrite IH by (done || lia).
Qed.

(** ** Writes *)

(** The bytes were written and nothing else changed. *)
Definition wrote (m m' : mem) (a : Z) (bs : bytes) : Prop :=
  stored m' a bs /\ forall x, ~ (a <= x < a + zlen bs) -> m' x = m x.

Lemma wrote_mapped m m' a bs b n : wrote m m' a bs -> mapped m b n -> mapped m' b n.
Proof.
  intros [Hs Ho] Hm x Hx. destruct (decide (a <= x < a + zlen bs)) as [Hin | Hout].
  - destruct (lookup_lt_is_Some_2 bs (Z.to_nat (x - a))) as [b0 Hb]; [unfold zlen in *; lia |].
    specialize (Hs _ _ Hb). replace (a + Z.of_nat (Z.to_nat (x - a))) with x in Hs by lia. by exists b0.
  - rewrite Ho by done. by apply Hm.
Qed.

Lemma wrote_stored m m' a bs b l : wrote m m' a bs -> stored m b l -> b + zlen l <= a \/ a + zlen bs <= b ->
  stored m' b l.
Proof.
  intros [_ Ho] Hs Hd i x Hx. pose proof (lookup_lt_Some _ _ _ Hx). rewrite Ho; [by apply Hs |]. unfold zlen in *. lia.
Qed.

Lemma store_bytes_spec bs : forall m a, mapped m a (zlen bs) -> Forall is_u8 bs ->
  exists m', store_bytes m a bs = Ret m' /\ wrote m m' a bs.
Proof.
  induction bs as [|b bs IH]; intros m a Hm Hu; cbn [store_bytes].
  { exists m. split; [done |]. split; [intros i x; by rewrite lookup_nil | done]. }
  apply Forall_cons in Hu as [Hb Hu]. rewrite zlen_cons in Hm. pose proof (zlen_nonneg bs).
  unfold store8 at 1. destruct (Hm a ltac:(lia)) as [x0 Hx0]. rewrite Hx0. cbn [mbind outcome_bind].
  set (m1 := fun x => if x =? a then Some (u8 b) else m x).
  destruct (IH m1 (a + 1)) as (m' & -> & Hs & Ho); [| done |].
  { intros x Hx. unfold m1. destruct (x =? a); [by eexists |]. apply Hm. lia. }
  exists m'. split; [done |]. split.
  - apply stored_cons. split; [| done]. rewrite Ho by lia. unfold m1. by rewrite Z.eqb_refl, u8_small.
  - intros x Hx. rewrite zlen_cons in Hx. rewrite Ho by lia. unfold m1. by rewrite (proj2 (Z.eqb_neq x a)) by lia.
Qed.

(** ** Memory as a function

    Inside mapped memory of bytes, loads are total and return these values. *)

Definition byte_mem (m : mem) : Prop := forall x b, m x = Some b -> is_u8 b.
Definition byte (m : mem) (a : Z) : Z := default 0 (m a).
Definition be (m : mem) (a : Z) : Z := be_value [byte m a; byte m (a + 1); byte m (a + 2); byte m (a + 3)].
Definition span (m : mem) (a n : Z) : bytes := (fun i => byte m (a + Z.of_nat i)) <$> seq 0 (Z.to_nat n).

Lemma byte_u8 m a : byte_mem m -> is_u8 (byte m a).
Proof. intros Hb. unfold byte. destruct (m a) eqn:E; cbn; [by eapply Hb | by cint_unfold]. Qed.

Lemma be_u32 m a : byte_mem m -> is_u32 (be m a).
Proof.
  intros Hb. pose proof (byte_u8 m a Hb). pose proof (byte_u8 m (a + 1) Hb). pose proof (byte_u8 m (a + 2) Hb).
  pose proof (byte_u8 m (a + 3) Hb). unfold be, be_value. cbn [foldl]. cint_unfold. lia.
Qed.

Lemma load8_mapped m a n x : mapped m a n -> a <= x < a + n -> load8 m x = Ret (byte m x).
Proof. intros Hm Hx. destruct (Hm x Hx) as [b Hb]. unfold load8, byte. by rewrite Hb. Qed.

Lemma load_be32_mapped m a n x : byte_mem m -> mapped m a n -> a <= x -> x + 4 <= a + n -> load_be32 m x = Ret (be m x).
Proof.
  intros Hb Hm H1 H2. unfold be. apply (load_be_bytes m x _ _ _ _ []); try by apply byte_u8.
  assert (forall y, x <= y < x + 4 -> m y = Some (byte m y)) as Hy.
  { intros y Hy. destruct (Hm y ltac:(lia)) as [b E]. unfold byte. by rewrite E. }
  rewrite !stored_cons. replace (x + 1 + 1) with (x + 2) by lia. replace (x + 2 + 1) with (x + 3) by lia.
  split_and!; try (apply Hy; lia). intros i b. by rewrite lookup_nil.
Qed.

Lemma zlen_span m a n : 0 <= n -> zlen (span m a n) = n.
Proof. intros Hn. unfold span, zlen. rewrite length_fmap, length_seq. lia. Qed.

Lemma span_u8 m a n : byte_mem m -> Forall is_u8 (span m a n).
Proof. intros Hb. apply Forall_fmap, Forall_true. intros i. exact (byte_u8 _ _ Hb). Qed.

Lemma span_stored m a n : mapped m a n -> stored m a (span m a n).
Proof.
  intros Hm i b Hi. unfold span in Hi. rewrite list_lookup_fmap in Hi. apply fmap_Some in Hi as (j & Hj & ->).
  apply lookup_seq in Hj as [-> Hj]. destruct (Hm (a + Z.of_nat i)) as [b Hb]; [lia |]. cbn. unfold byte. by rewrite Hb.
Qed.

Lemma load_bytes_span m a n x k : mapped m a n -> a <= x -> 0 <= k -> x + k <= a + n ->
  load_bytes m x (Z.to_nat k) = Ret (span m x k).
Proof.
  intros Hm H1 Hk H2. replace (Z.to_nat k) with (length (span m x k)) by (pose proof (zlen_span m x k Hk); unfold zlen in *; lia).
  apply load_bytes_spec, span_stored. by apply (mapped_sub m a n).
Qed.

Lemma be_stored m a v l : stored m a (be_split v ++ l) -> 0 <= v < 2 ^ 32 -> be m a = v.
Proof.
  intros [Hs _]%stored_app Hv. unfold be, byte. unfold be_split in Hs. rewrite !stored_cons in Hs. destruct Hs as (E0 & E1 & E2 & E3 & _).
  replace (a + 1 + 1) with (a + 2) in * by lia. replace (a + 2 + 1) with (a + 3) in * by lia. rewrite E0, E1, E2, E3.
  cbn [be_value foldl default from_option id]. change (2 ^ 24) with (256 * (256 * 256)). change (2 ^ 16) with (256 * 256).
  change (2 ^ 8) with 256. change (2 ^ 32) with 4294967296 in Hv. zdm.
Qed.

Lemma be_split_u8 v : Forall is_u8 (be_split v).
Proof. repeat constructor; apply Z.mod_pos_bound; lia. Qed.

Lemma span_eq m m' a b n : (forall i, 0 <= i < n -> m' (b + i) = m (a + i)) -> span m' b n = span m a n.
Proof.
  intros H. unfold span. apply list_fmap_ext. intros i x Hx. apply lookup_seq in Hx as [-> Hi]. unfold byte. by rewrite H by lia.
Qed.
Lemma byte_eq m m' a b : m' b = m a -> byte m' b = byte m a.
Proof. unfold byte. by intros ->. Qed.
Lemma be_eq m m' a b : (forall i, 0 <= i < 4 -> m' (b + i) = m (a + i)) -> be m' b = be m a.
Proof.
  intros H. unfold be. rewrite (byte_eq m m' a b) by (pose proof (H 0); rewrite !Z.add_0_r in *; auto with lia).
  by rewrite !(byte_eq m m' (a + _) (b + _)) by (apply H; lia).
Qed.

(** Everything that changed lies in the range; there is memory where there was, and it holds bytes. *)
Record within (m m' : mem) (a n : Z) : Prop := {
  wi_out : forall x, ~ (a <= x < a + n) -> m' x = m x;
  wi_mapped : forall b k, mapped m b k -> mapped m' b k;
  wi_bytes : byte_mem m -> byte_mem m';
}.

Lemma unchanged_within m a n : within m m a n.
Proof. by split. Qed.
Lemma within_steps m m1 m2 a n : within m m1 a n -> within m1 m2 a n -> within m m2 a n.
Proof. intros [A1 A2 A3] [B1 B2 B3]. split; [intros x Hx; rewrite B1, A1; done | auto | auto]. Qed.
Lemma within_weaken m m' a n b k : within m m' a n -> b <= a -> a + n <= b + k -> within m m' b k.
Proof. intros [A1 A2 A3] H1 H2. split; [| done | done]. intros x Hx. apply A1. lia. Qed.

Lemma wrote_within m m' a bs : wrote m m' a bs -> Forall is_u8 bs -> within m m' a (zlen bs).
Proof.
  intros Hw Hu. pose proof Hw as [Hs Ho]. split; [done | intros b k; by apply (wrote_mapped m m' a bs) |].
  intros Hb x v Hx. destruct (decide (a <= x < a + zlen bs)) as [Hin | Hout]; [| by apply (Hb x); rewrite <- Ho].
  destruct (lookup_lt_is_Some_2 bs (Z.to_nat (x - a))) as [c Hc]; [unfold zlen in *; lia |]. specialize (Hs _ _ Hc).
  replace (a + Z.of_nat (Z.to_nat (x - a))) with x in Hs by lia. rewrite Hs in Hx. injection Hx as <-.
  rewrite Forall_forall in Hu. by apply Hu, list_elem_of_lookup_2 with (Z.to_nat (x - a)).
Qed.

Lemma store_spec bs m a : mapped m a (zlen bs) -> Forall is_u8 bs ->
  exists m', store_bytes m a bs = Ret m' /\ stored m' a bs /\ within m m' a (zlen bs).
Proof.
  intros Hm Hu. destruct (store_bytes_spec bs m a Hm Hu) as (m' & -> & Hw). exists m'. split; [done |]. split; [apply Hw |].
  by apply wrote_within.
Qed.

Lemma within_stored m m' a n b l : within m m' a n -> stored m b l -> b + zlen l <= a \/ a + n <= b -> stored m' b l.
Proof. intros [Ho _ _] Hs Hd i x Hx. pose proof (lookup_lt_Some _ _ _ Hx). rewrite Ho; [by apply Hs |]. unfold zlen in *. lia. Qed.

Lemma span_of_stored m a l : stored m a l -> span m a (zlen l) = l.
Proof.
  intros Hs. pose proof (stored_mapped m a l Hs) as Hm. pose proof (span_stored m a (zlen l) Hm) as Hsp.
  apply list_eq_same_length with (length l); [done | pose proof (zlen_span m a (zlen l) (zlen_nonneg l)); unfold zlen in *; lia |].
  intros i x y Hi Hx Hy. specialize (Hs _ _ Hy). specialize (Hsp _ _ Hx). congruence.
Qed.
