(* ===== verification/Gpt.v ===== *)
(** * The partition table of the eMMC

    Models the GUID partition table code of pexpert/arm/xzs_sdhci.c: the little-endian readers,
    the printable form of a partition name, the parser of an entry array with its audits, and
    the map between minor device numbers and table slots that phase D4 derives from it.
    [None] is an access outside an array. *)

From stdpp Require Import base list.
From Stdlib Require Import ZArith Lia.
From S2P Require Import Prelude.

Definition GPT_MAX_ENTRY_SLOTS : Z := 128.
Definition UINT64_MAX : Z := 2 ^ 64 - 1.

(** ** Readers *)

Definition xzs_read_le16 (l : bytes) (p : Z) : option Z :=
  b0 ← byte_at l p; b1 ← byte_at l (p + 1);
  Some (u16 (Z.lor b0 (u32 (Z.shiftl b1 8)))).

Definition xzs_read_le32 (l : bytes) (p : Z) : option Z :=
  b0 ← byte_at l p; b1 ← byte_at l (p + 1); b2 ← byte_at l (p + 2); b3 ← byte_at l (p + 3);
  Some (Z.lor (Z.lor (Z.lor b0 (u32 (Z.shiftl b1 8))) (u32 (Z.shiftl b2 16))) (u32 (Z.shiftl b3 24))).

Definition xzs_read_le64 (l : bytes) (p : Z) : option Z :=
  b0 ← byte_at l p; b1 ← byte_at l (p + 1); b2 ← byte_at l (p + 2); b3 ← byte_at l (p + 3);
  b4 ← byte_at l (p + 4); b5 ← byte_at l (p + 5); b6 ← byte_at l (p + 6); b7 ← byte_at l (p + 7);
  Some (Z.lor (Z.lor (Z.lor (Z.lor (Z.lor (Z.lor (Z.lor b0 (u64 (Z.shiftl b1 8))) (u64 (Z.shiftl b2 16)))
          (u64 (Z.shiftl b3 24))) (u64 (Z.shiftl b4 32))) (u64 (Z.shiftl b5 40))) (u64 (Z.shiftl b6 48)))
          (u64 (Z.shiftl b7 56))).

(** ** Names *)

(** [h[v & 0xF]]. *)
Definition hex_digit (v : Z) : Z :=
  let d := Z.land v 15 in if d <? 10 then 48 + d else 87 + d.

(** One code unit: what has been written so far and the capacity to what is written next. *)
Definition decode_unit (out_max cu : Z) (out : bytes) : bytes :=
  if (0x20 <=? cu) && (cu <=? 0x7E) then
    if zlen out + 1 <? out_max then out ++ [cu] else out
  else if zlen out + 6 <? out_max then
    out ++ [92; 117; hex_digit (Z.shiftr cu 12); hex_digit (Z.shiftr cu 8); hex_digit (Z.shiftr cu 4); hex_digit cu]
  else out.

(** The characters go to the front of [out], with their terminator. *)
Definition xzs_decode_canonical_name (name_raw out : bytes) (out_max : Z) : option bytes :=
  r ← for_loop (S := bytes) (R := bytes) 36 0
        (fun k acc => cu ← xzs_read_le16 name_raw (2 * k);
                      Some (if cu =? 0 then Exit acc else Next (decode_unit out_max cu acc))) [];
  let acc := match r with Next acc => acc | Exit acc => acc end in
  copy_into out 0 (acc ++ [0]) (zlen acc + 1).

(** ** Entries *)

Record xzs_gpt_partition_entry_t := GptEntry {
  slot_index : Z;
  used : bool;
  type_guid : bytes;
  unique_guid : bytes;
  start_lba : Z;
  end_lba : Z;
  pe_sector_count : Z;
  pe_size_bytes : Z;
  attributes : Z;
  name_raw : bytes;
  name_canonical : bytes;
}.

Definition gpt_entry_zero : xzs_gpt_partition_entry_t :=
  GptEntry 0 false (replicate 16 0) (replicate 16 0) 0 0 0 0 0 (replicate 72 0) (replicate 145 0).

(** A slot that is not in use keeps what the record held. *)
Definition mark_unused (e : xzs_gpt_partition_entry_t) (slot : Z) : xzs_gpt_partition_entry_t :=
  GptEntry slot false (type_guid e) (unique_guid e) (start_lba e) (end_lba e) (pe_sector_count e) (pe_size_bytes e)
    (attributes e) (name_raw e) (name_canonical e).

Definition all_zero (l : bytes) : bool := forallb (fun b => b =? 0) l.

Definition extent_sectors (s e : Z) : Z := if s <=? e then u64 (e - s + 1) else 0.

(** The parser's counters. *)
Record gpt_scan := GptScan {
  gs_entries : list xzs_gpt_partition_entry_t;
  gs_slots : list Z;
  used_count : Z;
  unused_count : Z;
  used_unique_guid_zero_count : Z;
  invalid_used_extent_count : Z;
  arith_overflow_count : Z;
  reserved_tail_nonzero : Z;
}.

Definition count_if (b : bool) (n : Z) : Z := if b then u32 (n + 1) else n.

Section parse.
Context (array_buf : bytes) (entry_size array_bytes first_usable_lba last_usable_lba live_sec_count : Z).

(** A slot in use: the record and whether each check failed. *)
Definition parse_used (old : xzs_gpt_partition_entry_t) (slot_idx off : Z) (type : bytes) (st : gpt_scan)
    : option gpt_scan :=
  unique ← sub_bytes array_buf (off + 16) 16;
  s ← xzs_read_le64 array_buf (off + 32);
  e ← xzs_read_le64 array_buf (off + 40);
  attr ← xzs_read_le64 array_buf (off + 48);
  let bad_extent := (e <? s) || (s <? first_usable_lba) || (last_usable_lba <? e) || (live_sec_count <=? e) in
  let n := extent_sectors s e in
  let overflow := UINT64_MAX / 512 <? n in
  raw ← sub_bytes array_buf (off + 56) 72;
  name ← xzs_decode_canonical_name raw (name_canonical old) 145;
  tail ← (if 128 <? entry_size then sub_bytes array_buf (off + 128) (entry_size - 128) else Some []);
  let entry := GptEntry slot_idx true type unique s e n (if overflow then 0 else u64 (n * 512)) attr raw name in
  if (used_count st <? zlen (gs_slots st)) then
    Some (GptScan (<[Z.to_nat slot_idx := entry]> (gs_entries st)) (<[Z.to_nat (used_count st) := slot_idx]> (gs_slots st))
            (u32 (used_count st + 1)) (unused_count st)
            (count_if (all_zero unique) (used_unique_guid_zero_count st))
            (count_if bad_extent (invalid_used_extent_count st))
            (count_if overflow (arith_overflow_count st))
            (u32 (reserved_tail_nonzero st + zlen (filter (fun b => b <> 0) tail))))
  else None.

(** One slot; [Exit] leaves the loop with the bounds check failed. *)
Definition parse_slot (slot_idx : Z) (st : gpt_scan) : option (ctl gpt_scan gpt_scan) :=
  let off := u64 (slot_idx * entry_size) in
  if (array_bytes <? off) || (array_bytes - off <? entry_size) then Some (Exit st)
  else
    type ← sub_bytes array_buf off 16;
    old ← elem_at (gs_entries st) slot_idx;
    if all_zero type then
      Some (Next (GptScan (<[Z.to_nat slot_idx := mark_unused old slot_idx]> (gs_entries st)) (gs_slots st)
              (used_count st) (u32 (unused_count st + 1)) (used_unique_guid_zero_count st)
              (invalid_used_extent_count st) (arith_overflow_count st) (reserved_tail_nonzero st)))
    else st ← parse_used old slot_idx off type st; Some (Next st).

(** [for (i = 0; i < n; i++) for (j = i + 1; j < n; j++) if (bad(i, j)) return FALSE]. *)
Definition any_pair (n : Z) (bad : Z -> Z -> option bool) : option bool :=
  r ← for_loop (S := unit) (R := unit) (Z.to_nat n) 0 (fun i _ =>
        for_loop (S := unit) (R := unit) (Z.to_nat (n - (i + 1))) (i + 1) (fun j _ =>
          b ← bad i j; Some (if (b : bool) then Exit tt else Next tt)) tt) tt;
  Some (match r with Next _ => false | Exit _ => true end).

(** The records of the [i]-th and [j]-th slots in use. *)
Definition at_used (st : gpt_scan) (i : Z) : option xzs_gpt_partition_entry_t :=
  slot ← elem_at (gs_slots st) i; elem_at (gs_entries st) slot.

Definition same_guid (st : gpt_scan) (i j : Z) : option bool :=
  a ← at_used st i; b ← at_used st j; Some (bool_decide (unique_guid a = unique_guid b)).

Definition overlapping (a b : xzs_gpt_partition_entry_t) : bool :=
  (start_lba a <=? end_lba b) && (start_lba b <=? end_lba a).

Definition same_extent (st : gpt_scan) (i j : Z) : option bool :=
  a ← at_used st i; b ← at_used st j; Some (overlapping a b).

(** Result: the verdict, the arrays, and the counts stored when the audits are passed. *)
Definition xzs_parse_gpt_entry_array (num_entries : Z) (parsed_entries : list xzs_gpt_partition_entry_t)
    (used_slots : list Z) : option (bool * list xzs_gpt_partition_entry_t * list Z * option (Z * Z)) :=
  r ← for_loop (Z.to_nat num_entries) 0 parse_slot (GptScan parsed_entries used_slots 0 0 0 0 0 0);
  let '(bounds_checks_passed, st) := match r with Next st => (true, st) | Exit st => (false, st) end in
  let fail := Some (false, gs_entries st, gs_slots st, None) in
  if negb bounds_checks_passed || negb (used_unique_guid_zero_count st =? 0) ||
     negb (invalid_used_extent_count st =? 0) || negb (arith_overflow_count st =? 0) ||
     negb (reserved_tail_nonzero st =? 0) then fail
  else
    dup ← any_pair (used_count st) (same_guid st);
    if (dup : bool) then fail
    else
      overlap ← any_pair (used_count st) (same_extent st);
      if (overlap : bool) then fail
      else Some ((0 <? used_count st) && (u32 (used_count st + unused_count st) =? num_entries),
                 gs_entries st, gs_slots st, Some (used_count st, unused_count st)).
End parse.

(** ** The map of minor numbers *)

Record gpt_map := GptMap {
  g_xzs_d4_parsed_entries : list xzs_gpt_partition_entry_t;
  g_xzs_d4_used_slots : list Z;
  g_xzs_d4_used_count : Z;
  g_xzs_d4_unused_count : Z;
  g_xzs_minor_to_gpt_slot : list Z;
  g_xzs_gpt_slot_to_minor : list Z;
}.

Definition gpt_map_zero : gpt_map :=
  GptMap (replicate 128 gpt_entry_zero) (replicate 128 0) 0 0 (replicate 56 0) (replicate 128 0).

(** [l[i] = x]. *)
Definition store_at (l : list Z) (i x : Z) : option (list Z) :=
  if (0 <=? i) && (i <? zlen l) then Some (<[Z.to_nat i := x]> l) else None.

Definition minor_step (slots : list Z) (u : Z) (maps : list Z * list Z) : option (ctl (list Z * list Z) Empty_set) :=
  slot ← elem_at slots u;
  m2s ← store_at maps.1 (u32 (u + 1)) slot;
  s2m ← store_at maps.2 slot (s32 (u32 (u + 1)));
  Some (Next (m2s, s2m)).

Definition derive_minors (g : gpt_map) : option gpt_map :=
  m2s ← store_at (g_xzs_minor_to_gpt_slot g) 0 0;
  r ← for_loop (Z.to_nat (g_xzs_d4_used_count g)) 0 (minor_step (g_xzs_d4_used_slots g)) (m2s, replicate 128 (-1));
  match r with
  | Next (m2s, s2m) => Some (GptMap (g_xzs_d4_parsed_entries g) (g_xzs_d4_used_slots g) (g_xzs_d4_used_count g)
                               (g_xzs_d4_unused_count g) m2s s2m)
  | Exit e => match (e : Empty_set) with end
  end.
