(* ===== verification/GptProofs.v ===== *)
(** * Correctness of the partition table code

    The readers return little-endian fields.  The parser is the subject of GptParse, the map of
    minor numbers of GptMinors. *)

From stdpp Require Import base list.
From Stdlib Require Import ZArith Lia.
From S2P Require Import Prelude Memory Gpt.

(** ** Readers *)

Lemma sub_bytes_byte l p n b q x : sub_bytes l p n = Some b -> elem_at b q = Some x -> byte_at l (p + q) = Some x.
Proof.
  intros [(? & ? & ?) ->]%sub_bytes_Some [Hq [Hx _]%lookup_take_Some]%elem_at_Some. rewrite lookup_drop in Hx.
  unfold byte_at. rewrite (proj2 (Z.leb_le _ _)) by lia. rewrite <- Hx. f_equal. lia.
Qed.

(** One more byte above the [k] bits read so far. *)
Lemma lor_byte x b k w : 0 <= k -> 0 <= x < 2 ^ k -> is_u8 b -> k + 8 <= w ->
  Z.lor x (Z.shiftl b k mod 2 ^ w) = x + 2 ^ k * b /\ 0 <= x + 2 ^ k * b < 2 ^ (k + 8).
Proof.
  intros Hk Hx Hb Hw. assert (0 <= b * 2 ^ k < 2 ^ (k + 8)) as Hr.
  { rewrite Z.pow_add_r by lia. cint_unfold. change (2 ^ 8) with 256. nia. }
  rewrite Z.mod_small.
  - rewrite Z.lor_comm, lor_shift_add by lia. split; [lia |]. rewrite Z.pow_add_r by lia. cint_unfold. change (2 ^ 8) with 256. nia.
  - rewrite Z.shiftl_mul_pow2 by lia. pose proof (Z.pow_le_mono_r 2 (k + 8) w). lia.
Qed.

Lemma sub_bytes_u8 l off n r : Forall is_u8 l -> sub_bytes l off n = Some r -> Forall is_u8 r.
Proof. intros Hl [_ ->]%sub_bytes_Some. by apply Forall_take, Forall_drop. Qed.

Lemma read_le16_combine l p b : sub_bytes l p 2 = Some b -> Forall is_u8 b -> xzs_read_le16 l p = Some (le_combine b).
Proof.
  intros Hs Hb. assert (length b = 2%nat) as Hz by (apply sub_bytes_zlen in Hs; unfold zlen in Hs; lia).
  destruct b as [|b0 [|b1 [|]]]; try done.
  pose proof (fun i x => sub_bytes_byte _ _ _ _ i x Hs) as E.
  pose proof (E 0 b0 eq_refl) as E0. rewrite Z.add_0_r in E0.
  unfold xzs_read_le16. rewrite E0, (E 1 b1 eq_refl). cbn [mbind option_bind]. f_equal. rewrite !Forall_cons in Hb. destruct Hb as (? & ? & _).
  unfold u32. destruct (lor_byte b0 b1 8 32) as [-> ?]; [lia | done | done | lia |]. rewrite u16_small by cint. cbn [le_combine]. lia.
Qed.

Lemma read_le32_combine l p b : sub_bytes l p 4 = Some b -> Forall is_u8 b -> xzs_read_le32 l p = Some (le_combine b).
Proof.
  intros Hs Hb. assert (length b = 4%nat) as Hz by (apply sub_bytes_zlen in Hs; unfold zlen in Hs; lia).
  destruct b as [|b0 [|b1 [|b2 [|b3 [|]]]]]; try done.
  pose proof (fun i x => sub_bytes_byte _ _ _ _ i x Hs) as E.
  pose proof (E 0 b0 eq_refl) as E0. rewrite Z.add_0_r in E0.
  unfold xzs_read_le32. rewrite E0, (E 1 b1 eq_refl), (E 2 b2 eq_refl), (E 3 b3 eq_refl). cbn [mbind option_bind]. f_equal.
  rewrite !Forall_cons in Hb. destruct Hb as (? & ? & ? & ? & _).
  unfold u32. destruct (lor_byte b0 b1 8 32) as [-> R1]; [lia | done | done | lia |].
  destruct (lor_byte _ b2 16 32 ltac:(lia) R1) as [-> R2]; [done | lia |].
  destruct (lor_byte _ b3 24 32 ltac:(lia) R2) as [-> R3]; [done | lia |]. cbn [le_combine]. lia.
Qed.

Lemma read_le64_combine l p b : sub_bytes l p 8 = Some b -> Forall is_u8 b -> xzs_read_le64 l p = Some (le_combine b).
Proof.
  intros Hs Hb. assert (length b = 8%nat) as Hz by (apply sub_bytes_zlen in Hs; unfold zlen in Hs; lia).
  destruct b as [|b0 [|b1 [|b2 [|b3 [|b4 [|b5 [|b6 [|b7 [|]]]]]]]]]; try done.
  pose proof (fun i x => sub_bytes_byte _ _ _ _ i x Hs) as E.
  pose proof (E 0 b0 eq_refl) as E0. rewrite Z.add_0_r in E0.
  unfold xzs_read_le64. rewrite E0, (E 1 b1 eq_refl), (E 2 b2 eq_refl), (E 3 b3 eq_refl),
    (E 4 b4 eq_refl), (E 5 b5 eq_refl), (E 6 b6 eq_refl), (E 7 b7 eq_refl). cbn [mbind option_bind]. f_equal.
  rewrite !Forall_cons in Hb. destruct Hb as (? & ? & ? & ? & ? & ? & ? & ? & _).
  unfold u64. destruct (lor_byte b0 b1 8 64) as [-> R1]; [lia | done | done | lia |].
  destruct (lor_byte _ b2 16 64 ltac:(lia) R1) as [-> R2]; [done | lia |].
  destruct (lor_byte _ b3 24 64 ltac:(lia) R2) as [-> R3]; [done | lia |].
  destruct (lor_byte _ b4 32 64 ltac:(lia) R3) as [-> R4]; [done | lia |].
  destruct (lor_byte _ b5 40 64 ltac:(lia) R4) as [-> R5]; [done | lia |].
  destruct (lor_byte _ b6 48 64 ltac:(lia) R5) as [-> R6]; [done | lia |].
  destruct (lor_byte _ b7 56 64 ltac:(lia) R6) as [-> R7]; [done | lia |]. cbn [le_combine]. lia.
Qed.
