(* ===== verification/GptParse.v ===== *)
(** * The entry array parser

    What [xzs_parse_gpt_entry_array] computes: it visits every slot of the array, and accepts
    exactly the arrays whose used slots have a GUID of their own, an extent inside the usable
    range, a zero tail, and extents that do not meet; the slots and records it stores are those
    of the array. *)

From stdpp Require Import base list.
From Stdlib Require Import ZArith Lia.
From S2P Require Import Prelude Gpt GptProofs.

(** ** Pairs *)

Lemma any_pair_spec n bad (f : Z -> Z -> bool) :
  (forall i j, 0 <= i -> i < j -> j < n -> bad i j = Some (f i j)) ->
  exists b, any_pair n bad = Some b /\
    (b = true <-> exists i j, 0 <= i /\ i < j /\ j < n /\ f i j = true).
Proof.
  intros Hf. unfold any_pair.
  destruct (for_loop_inv (R := unit)
    (fun i (_ : unit) => 0 <= i /\ forall i' j, 0 <= i' -> i' < i -> i' < j -> j < n -> f i' j = false)
    (fun _ => exists i j, 0 <= i /\ i < j /\ j < n /\ f i j = true)
    (Z.to_nat n) 0
    (fun i _ => for_loop (S := unit) (R := unit) (Z.to_nat (n - (i + 1))) (i + 1) (fun j _ =>
          b ← bad i j; Some (if (b : bool) then Exit tt else Next tt)) tt) tt) as (c & -> & Hc).
  - split; [lia |]. intros. lia.
  - intros i [] Hi [_ Hp].
    destruct (for_loop_inv (R := unit) (fun j (_ : unit) => i < j /\ forall j', i < j' -> j' < j -> f i j' = false)
      (fun _ => exists i j, 0 <= i /\ i < j /\ j < n /\ f i j = true)
      (Z.to_nat (n - (i + 1))) (i + 1) (fun j _ => b ← bad i j; Some (if (b : bool) then Exit tt else Next tt)) tt)
      as (c & -> & Hc).
    + split; [lia |]. intros. lia.
    + intros j [] Hj [_ Hpj]. rewrite (Hf i j) by lia. cbn [mbind option_bind]. eexists. split; [done |].
      destruct (f i j) eqn:E; [exists i, j; split_and!; [lia.. | done] |].
      split; [lia |]. intros j' ? ?. destruct (decide (j' = j)) as [-> |]; [done | apply Hpj; lia].
    + exists c. split; [done |]. destruct c as [[] | []]; [| done]. destruct Hc as [_ Hc].
      split; [lia |]. intros i' j ? ? ? ?. destruct (decide (i' = i)) as [-> |]; [apply Hc; lia | apply Hp; lia].
  - destruct c as [[] | []]; cbn [mbind option_bind]; eexists; (split; [done |]); [| done].
    split; [done |]. intros (i & j & ? & ? & ? & E). destruct Hc as [_ Hc]. rewrite (Hc i j) in E by lia. done.
Qed.

(** ** The array *)

Section array.
Context (buf : bytes) (es first last live : Z).

Definition field (k off n : Z) : bytes := take (Z.to_nat n) (drop (Z.to_nat (k * es + off)) buf).
Definition type_of (k : Z) : bytes := field k 0 16.
Definition unique_of (k : Z) : bytes := field k 16 16.
Definition start_of (k : Z) : Z := le_combine (field k 32 8).
Definition end_of (k : Z) : Z := le_combine (field k 40 8).
Definition attr_of (k : Z) : Z := le_combine (field k 48 8).
Definition raw_of (k : Z) : bytes := field k 56 72.
Definition tail_of (k : Z) : bytes := field k 128 (es - 128).
Definition is_used (k : Z) : bool := negb (all_zero (type_of k)).
Definition used_list (n : Z) : list Z := filter (fun k => is_used k = true) (seqZ 0 n).

Definition no_guid (k : Z) : bool := all_zero (unique_of k).
Definition bad_extent (k : Z) : bool :=
  (end_of k <? start_of k) || (start_of k <? first) || (last <? end_of k) || (live <=? end_of k).
Definition sectors_of (k : Z) : Z := extent_sectors (start_of k) (end_of k).
Definition too_big (k : Z) : bool := UINT64_MAX / 512 <? sectors_of k.

(** The record of a slot, from the one that was there. *)
Definition decoded (k : Z) (e0 e : xzs_gpt_partition_entry_t) : Prop :=
  if is_used k then exists name, xzs_decode_canonical_name (raw_of k) (name_canonical e0) 145 = Some name /\
    e = GptEntry k true (type_of k) (unique_of k) (start_of k) (end_of k) (sectors_of k)
          (if too_big k then 0 else u64 (sectors_of k * 512)) (attr_of k) (raw_of k) name
  else e = mark_unused e0 k.

(** A table without faults. *)
Definition gpt_valid (n : Z) : Prop :=
  used_list n <> [] /\
  (forall k, k ∈ used_list n -> no_guid k = false /\ bad_extent k = false /\ too_big k = false /\ all_zero (tail_of k) = true) /\
  (forall j k, j ∈ used_list n -> k ∈ used_list n -> j <> k ->
     unique_of j <> unique_of k /\ (end_of j < start_of k \/ end_of k < start_of j)).

Lemma elem_of_used_list n k : k ∈ used_list n <-> is_used k = true /\ 0 <= k < n.
Proof. unfold used_list. by rewrite list_elem_of_filter, elem_of_seqZ. Qed.

Lemma used_list_S k : 0 <= k -> used_list (k + 1) = used_list k ++ (if is_used k then [k] else []).
Proof.
  intros Hk. unfold used_list. rewrite seqZ_app, filter_app by lia. f_equal.
  change (seqZ (0 + k) 1) with [k]. rewrite filter_cons, filter_nil. by destruct (is_used k).
Qed.

Lemma used_list_le k : 0 <= k -> zlen (used_list k) <= k.
Proof.
  intros. unfold used_list, zlen. pose proof (length_filter (fun k => is_used k = true) (seqZ 0 k)) as Hl.
  rewrite length_seqZ in Hl. lia.
Qed.

Lemma NoDup_used_list n : NoDup (used_list n).
Proof. apply NoDup_filter, NoDup_seqZ. Qed.

(** ** The scan *)

Context (old : list xzs_gpt_partition_entry_t) (Hes : 128 <= es) (Hu8 : Forall is_u8 buf).
Context (Hold : length old = 128%nat) (Hname : Forall (fun e => length (name_canonical e) = 145%nat) old).

Lemma field_ok k off n : 0 <= k -> (k + 1) * es <= zlen buf -> 0 <= off -> 0 <= n -> off + n <= es ->
  sub_bytes buf (k * es + off) n = Some (field k off n) /\ Forall is_u8 (field k off n).
Proof.
  intros. assert (sub_bytes buf (k * es + off) n = Some (field k off n)) as E by (apply sub_bytes_in; nia).
  split; [done | by eapply sub_bytes_u8].
Qed.

Lemma field_le64 k off : 0 <= k -> (k + 1) * es <= zlen buf -> 0 <= off -> off + 8 <= es ->
  xzs_read_le64 buf (k * es + off) = Some (le_combine (field k off 8)).
Proof. intros. destruct (field_ok k off 8) as [E ?]; [lia.. |]. by apply read_le64_combine. Qed.

(** A name is always decoded, into a string of its own. *)
Lemma decode_ok raw out : length raw = 72%nat -> Forall is_u8 raw -> length out = 145%nat ->
  exists name, xzs_decode_canonical_name raw out 145 = Some name /\ length name = 145%nat.
Proof.
  intros Hr Hu Ho. unfold xzs_decode_canonical_name.
  destruct (for_loop_inv (R := bytes) (fun k (acc : bytes) => 0 <= k /\ zlen acc <= 144) (fun acc => zlen acc <= 144) 36 0
    (fun k acc => cu ← xzs_read_le16 raw (2 * k);
       Some (if cu =? 0 then Exit acc else Next (decode_unit 145 cu acc))) []) as (c & -> & Hc); [done | |].
  - intros k acc Hk [_ Ha]. destruct (sub_bytes raw (2 * k) 2) as [b|] eqn:E; cycle 1.
    { rewrite sub_bytes_in in E by (unfold zlen; lia). done. }
    rewrite (read_le16_combine _ _ b E) by (by eapply sub_bytes_u8). cbn [mbind option_bind]. eexists. split; [done |].
    destruct (_ =? 0); [done |]. split; [lia |]. unfold decode_unit. repeat case_match; rewrite ?zlen_app; cbn; try lia.
    + rewrite Z.ltb_lt in *. change (zlen [le_combine b]) with 1. lia.
    + rewrite Z.ltb_lt in *. unfold zlen at 2. cbn [length]. lia.
  - cbn [mbind option_bind]. assert (zlen (match c with Next acc => acc | Exit acc => acc end) <= 144) as Hz by (destruct c; lia).
    set (acc := match c with Next acc => acc | Exit acc => acc end) in *. clearbody acc.
    destruct (copy_into out 0 (acc ++ [0]) (zlen acc + 1)) as [name|] eqn:E.
    + exists name. split; [done |]. apply copy_into_zlen in E. unfold zlen in E. lia.
    + exfalso. unfold copy_into in E. revert E. rewrite !zlen_app. change (zlen [0]) with 1. pose proof (zlen_nonneg acc).
      rewrite !(proj2 (Z.leb_le _ _)); [done | unfold zlen in *; lia..].
Qed.

Definition counted (bad : Z -> bool) (k : Z) : Z := zlen (filter (fun j => bad j = true) (used_list k)).
Definition tails (k : Z) : Z := zlen (filter (fun b => b <> 0) (concat (tail_of <$> used_list k))).

(** After [k] slots. *)
Record scanned (k : Z) (st : gpt_scan) : Prop := {
  sc_entries : length (gs_entries st) = 128%nat;
  sc_slots : length (gs_slots st) = 128%nat;
  sc_used : used_count st = zlen (used_list k);
  sc_unused : unused_count st = k - zlen (used_list k);
  sc_list : take (length (used_list k)) (gs_slots st) = used_list k;
  sc_decoded : forall j e0, old !! j = Some e0 -> exists e, gs_entries st !! j = Some e /\
    if Z.of_nat j <? k then decoded (Z.of_nat j) e0 e else e = e0;
  sc_no_guid : used_unique_guid_zero_count st = counted no_guid k;
  sc_bad : invalid_used_extent_count st = counted bad_extent k;
  sc_big : arith_overflow_count st = counted too_big k;
  sc_tails : reserved_tail_nonzero st = tails k;
}.

Lemma counted_S bad k : 0 <= k < 128 ->
  counted bad (k + 1) = if is_used k then count_if (bad k) (counted bad k) else counted bad k.
Proof.
  intros Hk. unfold counted. rewrite used_list_S, filter_app, zlen_app by lia.
  destruct (is_used k); [| rewrite filter_nil, zlen_nil; lia]. rewrite filter_cons, filter_nil.
  assert (0 <= zlen (filter (fun j => bad j = true) (used_list k)) <= k) as Hr.
  { pose proof (used_list_le k ltac:(lia)). unfold zlen in *. pose proof (length_filter (fun j => bad j = true) (used_list k)). lia. }
  destruct (bad k); cbn [count_if].
  - rewrite decide_True by done. change (zlen [k]) with 1. symmetry. apply u32_small. cint.
  - rewrite decide_False by done. change (zlen (@nil Z)) with 0. lia.
Qed.

Lemma tails_S k : 0 <= k < 128 -> zlen buf < 2 ^ 32 -> (k + 1) * es <= zlen buf ->
  tails (k + 1) = if is_used k then u32 (tails k + zlen (filter (fun b => b <> 0) (tail_of k))) else tails k.
Proof.
  intros Hk Hz He. assert (tails (k + 1) < 2 ^ 32) as Hb.
  { eapply Z.le_lt_trans; [| exact Hz]. eapply Z.le_trans; [| exact He]. unfold tails.
    assert (forall l, zlen (filter (fun b => b <> 0) (concat (tail_of <$> l))) <= zlen l * es) as Hl.
    { induction l as [|j l IH]; [done |]. rewrite fmap_cons. cbn [concat]. rewrite filter_app, zlen_app, zlen_cons.
      assert (zlen (filter (fun b => b <> 0) (tail_of j)) <= es); [| lia].
      unfold zlen. pose proof (length_filter (fun b => b <> 0) (tail_of j)) as Hf. unfold tail_of, field in *.
      rewrite length_take in Hf. lia. }
    pose proof (Hl (used_list (k + 1))). pose proof (used_list_le (k + 1) ltac:(lia)). nia. }
  revert Hb. unfold tails. rewrite used_list_S by lia. rewrite fmap_app, concat_app, filter_app, zlen_app.
  destruct (is_used k); cbn [fmap list_fmap concat].
  - rewrite app_nil_r. intros Hb. symmetry. apply u32_small. split; [unfold zlen; lia | done].
  - intros _. apply Z.add_0_r.
Qed.

Lemma lookup_old (k : Z) : 0 <= k < 128 -> exists e0, old !! Z.to_nat k = Some e0 /\ length (name_canonical e0) = 145%nat.
Proof.
  intros. destruct (lookup_lt_is_Some_2 old (Z.to_nat k)) as [e0 E]; [lia |]. exists e0. split; [done |].
  by eapply Forall_lookup in Hname.
Qed.

Lemma parse_used_spec k st e0 : 0 <= k < 128 -> (k + 1) * es <= zlen buf -> zlen buf < 2 ^ 32 -> scanned k st ->
  old !! Z.to_nat k = Some e0 -> gs_entries st !! Z.to_nat k = Some e0 -> is_used k = true ->
  exists st', parse_used buf es first last live e0 k (k * es) (type_of k) st = Some st' /\ scanned (k + 1) st'.
Proof.
  intros Hk He Hz Hs Ho Hg Hu. pose proof Hs as [S1 S2 S3 S4 S5 S6 S7 S8 S9 S10]. unfold parse_used.
  destruct (lookup_old k Hk) as (e0' & Ho' & Hn). replace e0' with e0 in * by congruence.
  destruct (field_ok k 16 16) as [-> _]; [lia.. |]. cbn [mbind option_bind].
  rewrite (field_le64 k 32), (field_le64 k 40), (field_le64 k 48) by lia. cbn [mbind option_bind].
  destruct (field_ok k 56 72) as [-> Hr8]; [lia.. |]. cbn [mbind option_bind].
  destruct (decode_ok (raw_of k) (name_canonical e0)) as (name & Hdec & _); [| done | done |].
  { unfold raw_of, field. rewrite length_take, length_drop. unfold zlen in He. nia. }
  unfold raw_of in Hdec. rewrite Hdec. cbn [mbind option_bind].
  assert ((if 128 <? es then sub_bytes buf (k * es + 128) (es - 128) else Some []) = Some (tail_of k)) as ->.
  { destruct (Z.ltb_spec 128 es); [by apply field_ok; lia |]. unfold tail_of, field. by replace (es - 128) with 0 by lia. }
  cbn [mbind option_bind]. pose proof (used_list_le k ltac:(lia)). rewrite (proj2 (Z.ltb_lt _ _)) by (unfold zlen in *; lia).
  eexists. split; [reflexivity |].
  assert (used_list (k + 1) = used_list k ++ [k]) as Hul by (rewrite used_list_S, Hu by lia; done).
  split; cbn [gs_entries gs_slots used_count unused_count used_unique_guid_zero_count invalid_used_extent_count arith_overflow_count reserved_tail_nonzero];
    rewrite ?length_insert, ?counted_S, ?tails_S, ?Hu by lia; try done.
  - rewrite Hul, zlen_app, S3. apply u32_small. unfold zlen in *. cbn [length]. cint.
  - rewrite Hul, zlen_app. change (zlen [k]) with 1. lia.
  - rewrite Hul, length_app, S3. unfold zlen. rewrite Nat2Z.id. cbn [length].
    replace (length (used_list k) + 1)%nat with (S (length (used_list k))) by lia.
    rewrite (take_S_r _ _ k); [| apply list_lookup_insert_eq; unfold zlen in *; lia].
    rewrite take_insert_ge by lia. by rewrite S5.
  - intros j ej Hj. destruct (decide (j = Z.to_nat k)) as [-> | Hjk].
    + rewrite list_lookup_insert_eq by lia. eexists. split; [done |]. rewrite Z2Nat.id, (proj2 (Z.ltb_lt _ _)) by lia.
      unfold decoded. rewrite Hu. exists name. by replace ej with e0 by congruence.
    + rewrite list_lookup_insert_ne by done. destruct (S6 j ej Hj) as (e & ? & Hd). exists e. split; [done |].
      destruct (Z.ltb_spec (Z.of_nat j) k), (Z.ltb_spec (Z.of_nat j) (k + 1)); try done; lia.
  - by rewrite S7.
  - by rewrite S8.
  - by rewrite S9.
  - by rewrite S10.
Qed.

Lemma parse_slot_spec k st : 0 <= k < 128 -> (k + 1) * es <= zlen buf -> zlen buf < 2 ^ 32 -> scanned k st ->
  exists st', parse_slot buf es (zlen buf) first last live k st = Some (Next st') /\ scanned (k + 1) st'.
Proof.
  intros Hk He Hz Hs. pose proof Hs as [S1 S2 S3 S4 S5 S6 S7 S8 S9 S10]. unfold parse_slot.
  rewrite (u64_small (k * es)) by (cint_unfold; nia).
  rewrite (proj2 (Z.ltb_ge (zlen buf) (k * es))), (proj2 (Z.ltb_ge (zlen buf - k * es) es)) by nia. cbn [orb].
  destruct (field_ok k 0 16) as [E _]; [lia.. |]. rewrite Z.add_0_r in E. rewrite E. cbn [mbind option_bind].
  destruct (lookup_old k Hk) as (e0 & Ho & Hn). destruct (S6 _ _ Ho) as (e & Hg & He0).
  rewrite Z2Nat.id, Z.ltb_irrefl in He0 by lia. subst e.
  unfold elem_at. rewrite (proj2 (Z.leb_le 0 k)), Hg by lia. cbn [mbind option_bind].
  change (all_zero (field k 0 16)) with (all_zero (type_of k)).
  destruct (all_zero (type_of k)) eqn:Ez.
  - assert (is_used k = false) as Hu by (unfold is_used; by rewrite Ez). pose proof (used_list_le k ltac:(lia)).
    assert (used_list (k + 1) = used_list k) as Hul by (rewrite used_list_S, Hu, app_nil_r by lia; done).
    eexists. split; [done |].
    split; cbn [gs_entries gs_slots used_count unused_count used_unique_guid_zero_count invalid_used_extent_count arith_overflow_count reserved_tail_nonzero];
      rewrite ?length_insert, ?counted_S, ?tails_S, ?Hul, ?Hu by lia; try done.
    + rewrite S4. rewrite u32_small by (unfold zlen in *; cint). lia.
    + intros j ej Hj. destruct (decide (j = Z.to_nat k)) as [-> | Hjk].
      * rewrite list_lookup_insert_eq by lia. eexists. split; [done |]. rewrite Z2Nat.id, (proj2 (Z.ltb_lt _ _)) by lia.
        unfold decoded. rewrite Hu. by replace ej with e0 by congruence.
      * rewrite list_lookup_insert_ne by done. destruct (S6 j ej Hj) as (e & ? & Hd). exists e. split; [done |].
        destruct (Z.ltb_spec (Z.of_nat j) k), (Z.ltb_spec (Z.of_nat j) (k + 1)); try done; lia.
  - destruct (parse_used_spec k st e0) as (st' & E' & Hs'); [done.. | unfold is_used; by rewrite Ez |].
    unfold type_of in E'. rewrite E'. cbn [mbind option_bind]. eauto.
Qed.

(** ** The audits *)

Lemma counted_zero bad n : (counted bad n =? 0) = true <-> forall k, k ∈ used_list n -> bad k = false.
Proof.
  rewrite Z.eqb_eq. unfold counted, zlen. split.
  - intros E k Hk. apply not_true_iff_false. intros Hb. assert (k ∈ filter (fun j => bad j = true) (used_list n)) as Hin.
    { by apply list_elem_of_filter. }
    destruct (filter (fun j => bad j = true) (used_list n)); [by apply elem_of_nil in Hin | cbn in E; lia].
  - intros Hb. destruct (filter (fun j => bad j = true) (used_list n)) as [|k l] eqn:E; [done |].
    assert (k ∈ filter (fun j => bad j = true) (used_list n)) as [Hk Hin]%list_elem_of_filter by (rewrite E; apply list_elem_of_here).
    rewrite Hb in Hk; done.
Qed.

Lemma all_zero_bytes l : all_zero l = true <-> forall b, b ∈ l -> b = 0.
Proof.
  unfold all_zero. rewrite forallb_forall. split; intros Hl b Hb.
  - apply Z.eqb_eq, Hl. by apply list_elem_of_In.
  - apply Z.eqb_eq, Hl. by apply list_elem_of_In.
Qed.

Lemma tails_zero n : (tails n =? 0) = true <-> forall k, k ∈ used_list n -> all_zero (tail_of k) = true.
Proof.
  rewrite Z.eqb_eq. unfold tails, zlen. setoid_rewrite all_zero_bytes. set (l := concat (tail_of <$> used_list n)).
  assert (forall b, b ∈ l <-> exists k, k ∈ used_list n /\ b ∈ tail_of k) as Hl.
  { intros b. subst l. rewrite list_elem_of_In, in_concat. setoid_rewrite <- list_elem_of_In.
    setoid_rewrite list_elem_of_fmap. naive_solver. }
  split.
  - intros E k Hk b Hb. destruct (decide (b = 0)) as [| Hn]; [done |]. exfalso.
    assert (b ∈ filter (fun b => b <> 0) l) as Hin by (apply list_elem_of_filter; split; [done | apply Hl; eauto]).
    destruct (filter (fun b => b <> 0) l); [by apply elem_of_nil in Hin | cbn in E; lia].
  - intros Hz. destruct (filter (fun b => b <> 0) l) as [|b l'] eqn:E; [done |].
    assert (b ∈ filter (fun b => b <> 0) l) as [Hb Hin]%list_elem_of_filter by (rewrite E; apply list_elem_of_here).
    apply Hl in Hin as (k & ? & ?). destruct Hb. by apply (Hz k).
Qed.

Definition nth_used (n i : Z) : Z := default 0 (used_list n !! Z.to_nat i).

Lemma at_used_spec n st i : n <= 128 -> scanned n st -> 0 <= i < zlen (used_list n) ->
  nth_used n i ∈ used_list n /\ exists e, at_used st i = Some e /\ unique_guid e = unique_of (nth_used n i) /\
    start_lba e = start_of (nth_used n i) /\ end_lba e = end_of (nth_used n i).
Proof.
  intros Hn Hs Hi. destruct (lookup_lt_is_Some_2 (used_list n) (Z.to_nat i)) as [k Hk]; [unfold zlen in Hi; lia |].
  unfold nth_used. rewrite Hk. cbn [default]. assert (k ∈ used_list n) as Hin by (by eapply list_elem_of_lookup_2). split; [done |].
  apply elem_of_used_list in Hin as [Hu Hr]. destruct Hs as [S1 S2 S3 S4 S5 S6 _ _ _ _].
  unfold at_used, elem_at. rewrite (proj2 (Z.leb_le 0 i)) by lia.
  assert (gs_slots st !! Z.to_nat i = Some k) as ->.
  { rewrite <- S5 in Hk. by apply lookup_take_Some in Hk as [? _]. }
  cbn [mbind option_bind]. rewrite (proj2 (Z.leb_le 0 k)) by lia. destruct (lookup_old k) as (e0 & Ho & _); [lia |].
  destruct (S6 _ _ Ho) as (e & -> & Hd). exists e. split; [done |]. rewrite Z2Nat.id, (proj2 (Z.ltb_lt k n)) in Hd by lia.
  unfold decoded in Hd. rewrite Hu in Hd. by destruct Hd as (name & _ & ->).
Qed.

(** A relation between distinct used slots, as the loops test it. *)
Lemma pairs_spec n (f : Z -> Z -> bool) : (forall a b, f a b = f b a) ->
  (exists i j, 0 <= i /\ i < j /\ j < zlen (used_list n) /\ f (nth_used n i) (nth_used n j) = true) <->
  exists a b, a ∈ used_list n /\ b ∈ used_list n /\ a <> b /\ f a b = true.
Proof.
  intros Hsym. unfold zlen, nth_used. split.
  - intros (i & j & ? & ? & ? & E). destruct (lookup_lt_is_Some_2 (used_list n) (Z.to_nat i)) as [a Ha]; [lia |].
    destruct (lookup_lt_is_Some_2 (used_list n) (Z.to_nat j)) as [b Hb]; [lia |]. rewrite Ha, Hb in E. exists a, b.
    split_and!; [by eapply list_elem_of_lookup_2.. | | done]. intros ->.
    pose proof (NoDup_lookup _ _ _ _ (NoDup_used_list n) Ha Hb). lia.
  - intros (a & b & [i Ha]%list_elem_of_lookup & [j Hb]%list_elem_of_lookup & Hne & E).
    assert (i <> j) as Hij by (intros ->; congruence). apply lookup_lt_Some in Ha as La. apply lookup_lt_Some in Hb as Lb.
    destruct (decide (i < j)%nat).
    + exists (Z.of_nat i), (Z.of_nat j). rewrite !Nat2Z.id, Ha, Hb. split_and!; [lia.. | done].
    + exists (Z.of_nat j), (Z.of_nat i). rewrite !Nat2Z.id, Ha, Hb. split_and!; [lia.. |]. by rewrite Hsym.
Qed.

Definition meet (a b : Z) : bool := (start_of a <=? end_of b) && (start_of b <=? end_of a).

Lemma same_guid_audit n st : n <= 128 -> scanned n st -> exists b, any_pair (used_count st) (same_guid st) = Some b /\
  (b = true <-> exists i j, i ∈ used_list n /\ j ∈ used_list n /\ i <> j /\ bool_decide (unique_of i = unique_of j) = true).
Proof.
  intros Hn Hs. rewrite (sc_used _ _ Hs).
  setoid_rewrite <- (pairs_spec n (fun a b => bool_decide (unique_of a = unique_of b)));
    [| intros; by apply bool_decide_ext].
  apply (any_pair_spec _ _ (fun i j => bool_decide (unique_of (nth_used n i) = unique_of (nth_used n j)))).
  intros i j ? ? ?. destruct (at_used_spec n st i) as (_ & a & Ea & Ga & _); [done | done | lia |].
  destruct (at_used_spec n st j) as (_ & b & Eb & Gb & _); [done | done | lia |].
  unfold same_guid. by rewrite Ea, Eb, <- Ga, <- Gb.
Qed.

Lemma same_extent_audit n st : n <= 128 -> scanned n st -> exists b, any_pair (used_count st) (same_extent st) = Some b /\
  (b = true <-> exists i j, i ∈ used_list n /\ j ∈ used_list n /\ i <> j /\ meet i j = true).
Proof.
  intros Hn Hs. rewrite (sc_used _ _ Hs). setoid_rewrite <- (pairs_spec n meet); [| intros; unfold meet; apply andb_comm].
  apply (any_pair_spec _ _ (fun i j => meet (nth_used n i) (nth_used n j))).
  intros i j ? ? ?. destruct (at_used_spec n st i) as (_ & a & Ea & _ & Sa & La); [done | done | lia |].
  destruct (at_used_spec n st j) as (_ & b & Eb & _ & Sb & Lb); [done | done | lia |].
  unfold same_extent, overlapping, meet. by rewrite Ea, Eb, <- Sa, <- Sb, <- La, <- Lb.
Qed.

Lemma audits n (b1 b2 b3 b4 : bool) :
  (b1 = true <-> forall k, k ∈ used_list n -> no_guid k = false) ->
  (b2 = true <-> forall k, k ∈ used_list n -> bad_extent k = false) ->
  (b3 = true <-> forall k, k ∈ used_list n -> too_big k = false) ->
  (b4 = true <-> forall k, k ∈ used_list n -> all_zero (tail_of k) = true) ->
  negb true || negb b1 || negb b2 || negb b3 || negb b4 = false <->
  forall k, k ∈ used_list n -> no_guid k = false /\ bad_extent k = false /\ too_big k = false /\ all_zero (tail_of k) = true.
Proof. intros H1 H2 H3 H4. 
  rewrite !orb_false_iff, !negb_false_iff, H1, H2, H3, H4. split.
  - intros [[[[_ ?] ?] ?] ?] k Hk. auto.
  - intros Hv. split_and!; [done | intros k Hk; apply Hv, Hk..].
Qed.

(** The parser returns; its verdict is that the table is valid, and what it stores is the table. *)
Lemma parse_spec n slots0 : 0 <= n <= 128 -> n * es <= zlen buf -> zlen buf < 2 ^ 32 -> length slots0 = 128%nat ->
  exists ok st counts,
    xzs_parse_gpt_entry_array buf es (zlen buf) first last live n old slots0 = Some (ok, gs_entries st, gs_slots st, counts) /\
    scanned n st /\ (ok = true <-> gpt_valid n) /\
    (ok = true -> counts = Some (zlen (used_list n), n - zlen (used_list n))).
Proof.
  intros Hn He Hz Hl. unfold xzs_parse_gpt_entry_array.
  destruct (for_loop_inv (fun k st => 0 <= k /\ scanned k st) (fun _ : gpt_scan => False) (Z.to_nat n) 0
    (parse_slot buf es (zlen buf) first last live) (GptScan old slots0 0 0 0 0 0 0)) as (c & -> & Hc).
  { split; [lia |]. split; try done. intros j e0 Ho. exists e0. split; [done |]. by rewrite (proj2 (Z.ltb_ge _ _)) by lia. }
  { intros k st Hk [_ Hs]. destruct (parse_slot_spec k st) as (st' & E & Hs'); [lia | nia | done | done |].
    exists (Next st'). split; [done |]. split; [lia | done]. }
  destruct c as [st | []]; [| done]. cbn [mbind option_bind]. rewrite Z.add_0_l, Z2Nat.id in Hc by lia. destruct Hc as [_ Hs].
  pose proof Hs as [_ _ S3 S4 _ _ S7 S8 S9 S10].
  pose proof (audits n _ _ _ _ (counted_zero no_guid n) (counted_zero bad_extent n) (counted_zero too_big n) (tails_zero n)) as Ha.
  rewrite S7, S8, S9, S10. destruct (_ || _).
  { exists false, st, None. split_and!; [done | done | | done]. split; [done |]. intros (_ & Hv & _). by apply Ha in Hv. }
  pose proof (proj1 Ha eq_refl) as Hv. clear Ha.
  destruct (same_guid_audit n st) as (d & Ed & Hd); [lia | done |]. destruct (same_extent_audit n st) as (o & Eo & Ho); [lia | done |].
  rewrite Ed. cbn [mbind option_bind]. destruct d.
  { exists false, st, None. split_and!; [done | done | | done]. split; [done |]. intros (_ & _ & Hp).
    destruct (proj1 Hd eq_refl) as (i & j & Hi & Hj & Hij & E%bool_decide_eq_true). by destruct (Hp i j). }
  rewrite Eo. cbn [mbind option_bind]. destruct o.
  { exists false, st, None. split_and!; [done | done | | done]. split; [done |]. intros (_ & _ & Hp).
    destruct (proj1 Ho eq_refl) as (i & j & Hi & Hj & Hij & E). destruct (Hp i j) as [_ ?]; [done.. |]. unfold meet in E. lia. }
  eexists _, st, _. split; [done |]. split; [done |]. pose proof (used_list_le n ltac:(lia)). pose proof (zlen_nonneg (used_list n)).
  rewrite S3, S4. replace (zlen (used_list n) + (n - zlen (used_list n))) with n by lia.
  rewrite (u32_small n), Z.eqb_refl, andb_true_r by cint. split; [| done]. rewrite Z.ltb_lt. split.
  - intros Hpos. split_and!; [by intros E; rewrite E in Hpos | done |]. intros i j Hi Hj Hij. split.
    + intros E. destruct Hd as [_ Hd]. discriminate Hd. exists i, j. split_and!; [done.. | by apply bool_decide_eq_true].
    + destruct (meet i j) eqn:E; [destruct Ho as [_ Ho]; discriminate Ho; exists i, j; done |]. unfold meet in E. lia.
  - intros (Hne & _). unfold zlen. destruct (used_list n); [done | cbn; lia].
Qed.

(** C7. The entry array parser decides validity: on every array that holds the slots it is asked
    for, it returns, and its verdict is TRUE exactly when the used slots have non-zero and pairwise
    different GUIDs, extents inside the usable range that do not meet, sizes that do not overflow and
    zero tails, and there is at least one.  The slot list it stores is that of the used slots, in
    order, and every record is the decoded entry (or keeps its old contents when the slot is unused). *)
Theorem parse_decides_validity n slots0 : 0 <= n <= 128 -> n * es <= zlen buf -> zlen buf < 2 ^ 32 -> length slots0 = 128%nat ->
  exists ok entries slots counts,
    xzs_parse_gpt_entry_array buf es (zlen buf) first last live n old slots0 = Some (ok, entries, slots, counts) /\
    (ok = true <-> gpt_valid n) /\
    take (length (used_list n)) slots = used_list n /\
    (forall j e0, 0 <= j < n -> elem_at old j = Some e0 -> exists e, elem_at entries j = Some e /\ decoded j e0 e) /\
    (ok = true -> counts = Some (zlen (used_list n), n - zlen (used_list n))).
Proof.
  intros Hn He Hz Hl. destruct (parse_spec n slots0 Hn He Hz Hl) as (ok & st & counts & E & Hs & Hok & Hc).
  exists ok, (gs_entries st), (gs_slots st), counts. split_and!; [done | apply Hok | apply Hs | | done].
  intros j e0 Hj [_ Ho]%elem_at_Some. destruct (sc_decoded _ _ Hs _ _ Ho) as (e & Ee & Hd). exists e.
  rewrite Z2Nat.id, (proj2 (Z.ltb_lt _ _)) in Hd by lia. split; [| done]. apply elem_at_Some. split; [lia | done].
Qed.
End array.

(** An array of two slots, the first in use. *)
Definition sample_array : bytes :=
  replicate 16 7 ++ replicate 16 5 ++ le_split 8 40 ++ le_split 8 99 ++ le_split 8 0 ++ replicate 72 0 ++ replicate 128 0.

Lemma parse_decides_validity_witness : exists ok entries slots counts,
  xzs_parse_gpt_entry_array sample_array 128 (zlen sample_array) 34 1000 1034 2 (replicate 128 gpt_entry_zero) (replicate 128 0)
    = Some (ok, entries, slots, counts) /\
  (ok = true <-> gpt_valid sample_array 128 34 1000 1034 2) /\
  take (length (used_list sample_array 128 2)) slots = used_list sample_array 128 2 /\
  (forall j e0, 0 <= j < 2 -> elem_at (replicate 128 gpt_entry_zero) j = Some e0 ->
     exists e, elem_at entries j = Some e /\ decoded sample_array 128 j e0 e) /\
  (ok = true -> counts = Some (zlen (used_list sample_array 128 2), 2 - zlen (used_list sample_array 128 2))).
Proof.
  apply parse_decides_validity; [done | | reflexivity | by apply Forall_replicate | lia | vm_compute; done | reflexivity | reflexivity].
  apply (bool_decide_eq_true_1 (Forall is_u8 sample_array)). vm_compute. reflexivity.
Defined.
