(* ===== verification/GptMinors.v ===== *)
(** * Minor numbers

    The map between minor device numbers and table slots: every used slot gets one minor
    number, in the order of the table, and the two arrays are inverse to each other.  With the
    parser's verdict this gives the invariant the block device relies on ([map_ok]): every minor
    number stands for a used extent inside the disk, and no two of them meet. *)

From stdpp Require Import base list.
From Stdlib Require Import ZArith Lia.
From S2P Require Import Prelude Gpt GptProofs GptParse.

Lemma store_at_Some l i x : 0 <= i < zlen l -> store_at l i x = Some (<[Z.to_nat i := x]> l).
Proof. intros. unfold store_at. by rewrite (proj2 (Z.leb_le _ _)), (proj2 (Z.ltb_lt _ _)) by lia. Qed.

Section minors.
Context (ul slots : list Z) (Hpre : take (length ul) slots = ul) (Hnd : NoDup ul).
Context (Hrange : Forall (fun a => 0 <= a < 128) ul) (Hlen : zlen ul <= 55).

(** The maps after [u] slots. *)
Definition mapped_to (u : Z) (maps : list Z * list Z) : Prop :=
  0 <= u /\ length maps.1 = 56%nat /\ length maps.2 = 128%nat /\ elem_at maps.1 0 = Some 0 /\
  (forall i a, ul !! i = Some a -> Z.of_nat i < u ->
     elem_at maps.1 (Z.of_nat i + 1) = Some a /\ elem_at maps.2 a = Some (Z.of_nat i + 1)) /\
  (forall a, 0 <= a < 128 -> (forall i, Z.of_nat i < u -> ul !! i <> Some a) -> elem_at maps.2 a = Some (-1)).

Lemma minor_step_spec u maps : u < zlen ul -> mapped_to u maps ->
  exists maps', minor_step slots u maps = Some (Next maps') /\ mapped_to (u + 1) maps'.
Proof.
  intros Hu (H0 & L1 & L2 & Hz & Hi & Ho). destruct (lookup_lt_is_Some_2 ul (Z.to_nat u)) as [a Ha]; [unfold zlen in Hu; lia |].
  assert (0 <= a < 128) as Har by (by eapply Forall_lookup in Hrange).
  assert (elem_at slots u = Some a) as Hs.
  { apply elem_at_Some. split; [lia |]. rewrite <- Hpre in Ha. by apply lookup_take_Some in Ha as [? _]. }
  unfold minor_step. rewrite Hs. cbn [mbind option_bind].
  rewrite !(u32_small (u + 1)) by cint. rewrite (s32_small (u + 1)) by lia.
  rewrite !store_at_Some by (unfold zlen; lia). cbn [mbind option_bind]. eexists. split; [done |].
  assert (forall A (l : list A) p (x : A), 0 <= p < zlen l -> forall q, elem_at (<[Z.to_nat p := x]> l) q = if p =? q then Some x else elem_at l q) as Hins.
  { intros A l p x Hp q. unfold elem_at. destruct (Z.leb_spec 0 q); cycle 1.
    - by rewrite (proj2 (Z.eqb_neq _ _)) by lia.
    - destruct (Z.eqb_spec p q) as [-> |]; [apply list_lookup_insert_eq; unfold zlen in *; lia | apply list_lookup_insert_ne; lia]. }
  unfold mapped_to. cbn [fst snd]. rewrite !length_insert. split_and!; [lia | done | done | | |].
  - rewrite Hins by (unfold zlen; lia). by rewrite (proj2 (Z.eqb_neq _ _)) by lia.
  - intros i b Hb Hlt. rewrite !Hins by (unfold zlen; lia). destruct (decide (Z.of_nat i = u)) as [E | Hne].
    + replace (Z.to_nat u) with i in Ha by lia. replace b with a by congruence. rewrite E, !Z.eqb_refl. done.
    + destruct (Hi i b Hb) as [E1 E2]; [lia |].
      rewrite (proj2 (Z.eqb_neq (u + 1) _)) by lia. rewrite (proj2 (Z.eqb_neq a b)); [done |].
      intros ->. pose proof (NoDup_lookup _ _ _ _ Hnd Ha Hb). lia.
  - intros b Hb Hnone. rewrite Hins by (unfold zlen; lia). rewrite (proj2 (Z.eqb_neq a b)).
    + apply Ho; [done |]. intros i Hlt. apply Hnone. lia.
    + intros ->. apply (Hnone (Z.to_nat u)); [lia | done].
Qed.

Lemma derive_minors_spec g : g_xzs_d4_used_slots g = slots -> g_xzs_d4_used_count g = zlen ul ->
  length (g_xzs_minor_to_gpt_slot g) = 56%nat ->
  exists m2s s2m, derive_minors g = Some (GptMap (g_xzs_d4_parsed_entries g) slots (zlen ul) (g_xzs_d4_unused_count g) m2s s2m) /\
    mapped_to (zlen ul) (m2s, s2m).
Proof.
  intros Es Ec Hl. unfold derive_minors. rewrite store_at_Some by (unfold zlen; lia). cbn [mbind option_bind].
  rewrite Es, Ec. pose proof (zlen_nonneg ul).
  destruct (for_loop_inv mapped_to (fun e : Empty_set => False) (Z.to_nat (zlen ul)) 0 (minor_step slots)
    (<[Z.to_nat 0 := 0]> (g_xzs_minor_to_gpt_slot g), replicate 128 (-1))) as (c & -> & Hc).
  - split_and!; [lia | cbn [fst]; by rewrite length_insert | done | | intros; lia |].
    + cbn. destruct (g_xzs_minor_to_gpt_slot g); [done | reflexivity].
    + intros a Ha _. apply elem_at_Some. split; [lia |]. apply lookup_replicate. split; [done | lia].
  - intros u maps Hu Hm. destruct (minor_step_spec u maps) as (maps' & ? & ?); [lia | done |]. by exists (Next maps').
  - destruct c as [[m2s s2m] | []]. cbn [mbind option_bind]. exists m2s, s2m. split; [done |].
    by replace (zlen ul) with (0 + Z.of_nat (Z.to_nat (zlen ul))) at 1 by lia.
Qed.
End minors.

(** ** The invariant *)

Definition extent_ok (e : xzs_gpt_partition_entry_t) : Prop :=
  34 <= start_lba e /\ start_lba e <= end_lba e /\ end_lba e <= 61071326 /\ pe_sector_count e = end_lba e - start_lba e + 1.

Record map_ok (g : gpt_map) : Prop := {
  mo_entries : length (g_xzs_d4_parsed_entries g) = 128%nat;
  mo_m2s : length (g_xzs_minor_to_gpt_slot g) = 56%nat;
  mo_used : 0 <= g_xzs_d4_used_count g <= 55;
  mo_minor : forall m, 1 <= m <= g_xzs_d4_used_count g -> exists slot e,
    elem_at (g_xzs_minor_to_gpt_slot g) m = Some slot /\ elem_at (g_xzs_d4_parsed_entries g) slot = Some e /\
    elem_at (g_xzs_gpt_slot_to_minor g) slot = Some m /\ used e = true /\ extent_ok e;
  mo_slot : forall slot e, elem_at (g_xzs_d4_parsed_entries g) slot = Some e -> used e = true ->
    exists m, 1 <= m <= g_xzs_d4_used_count g /\ elem_at (g_xzs_minor_to_gpt_slot g) m = Some slot;
  mo_order : forall u, 0 <= u < g_xzs_d4_used_count g ->
    elem_at (g_xzs_d4_used_slots g) u = elem_at (g_xzs_minor_to_gpt_slot g) (u + 1);
  mo_unused : forall slot e, elem_at (g_xzs_d4_parsed_entries g) slot = Some e -> used e = false -> start_lba e = 0;
  mo_apart : forall j k a b, j <> k -> elem_at (g_xzs_d4_parsed_entries g) j = Some a ->
    elem_at (g_xzs_d4_parsed_entries g) k = Some b -> used a = true -> used b = true ->
    end_lba a < start_lba b \/ end_lba b < start_lba a;
}.

(** The arrays before a table is loaded. *)
Record unloaded (g : gpt_map) : Prop := {
  un_entries : length (g_xzs_d4_parsed_entries g) = 128%nat;
  un_names : Forall (fun e => length (name_canonical e) = 145%nat) (g_xzs_d4_parsed_entries g);
  un_starts : Forall (fun e => start_lba e = 0) (g_xzs_d4_parsed_entries g);
  un_slots : length (g_xzs_d4_used_slots g) = 128%nat;
  un_m2s : length (g_xzs_minor_to_gpt_slot g) = 56%nat;
}.

Section loaded.
Context (buf : bytes) (old : list xzs_gpt_partition_entry_t) (st : gpt_scan).
Abbreviation scan := (scanned buf 128 34 61071326 61071360 old 128 st).
Context (Hold : length old = 128%nat) (Hst : Forall (fun e => start_lba e = 0) old) (Hs : scan).
Context (Hv : gpt_valid buf 128 34 61071326 61071360 128).
Abbreviation ul := (used_list buf 128 128).

(** The record of a slot of the array. *)
Lemma slot_entry slot e : elem_at (gs_entries st) slot = Some e ->
  0 <= slot < 128 /\ used e = is_used buf 128 slot /\
  if used e then start_lba e = start_of buf 128 slot /\ end_lba e = end_of buf 128 slot /\ slot ∈ ul /\ extent_ok e
  else start_lba e = 0.
Proof.
  intros He. assert (0 <= slot < 128) as Hr by (apply elem_at_lt in He; unfold zlen in He; rewrite (sc_entries _ _ _ _ _ _ _ _ Hs) in He; lia).
  split; [done |]. apply elem_at_Some in He as [_ He].
  destruct (lookup_lt_is_Some_2 old (Z.to_nat slot)) as [e0 Ho]; [lia |].
  destruct (sc_decoded _ _ _ _ _ _ _ _ Hs _ _ Ho) as (e' & He' & Hd). replace e' with e in * by congruence.
  rewrite Z2Nat.id, (proj2 (Z.ltb_lt _ _)) in Hd by lia. unfold decoded in Hd. destruct (is_used buf 128 slot) eqn:Eu.
  - destruct Hd as (name & _ & ->). cbn [used start_lba end_lba]. split; [done |].
    assert (slot ∈ ul) as Hin by (by apply elem_of_used_list). split_and!; [done | done | done |].
    destruct Hv as (_ & Hall & _). destruct (Hall _ Hin) as (_ & Hb & _ & _). unfold bad_extent in Hb.
    unfold extent_ok. cbn [start_lba end_lba pe_sector_count]. unfold sectors_of, extent_sectors.
    destruct (Z.leb_spec (start_of buf 128 slot) (end_of buf 128 slot)); [| lia]. rewrite u64_small by (cint_unfold; lia). lia.
  - subst e. cbn. split; [done |]. by eapply Forall_lookup in Hst.
Qed.

Lemma loaded_ok m2s s2m unused : zlen ul <= 55 -> mapped_to ul (zlen ul) (m2s, s2m) ->
  map_ok (GptMap (gs_entries st) (gs_slots st) (zlen ul) unused m2s s2m).
Proof.
  intros Hlen (H0 & L1 & L2 & Hz & Hi & Ho). pose proof (zlen_nonneg ul).
  assert (forall m slot, 1 <= m <= zlen ul -> ul !! Z.to_nat (m - 1) = Some slot ->
    elem_at m2s m = Some slot /\ elem_at s2m slot = Some m) as Hm.
  { intros m slot Hr Hl. destruct (Hi _ _ Hl) as [E1 E2]; [lia |]. cbn in E1, E2.
    by replace (Z.of_nat (Z.to_nat (m - 1)) + 1) with m in E1, E2 by lia. }
  assert (forall slot, slot ∈ ul -> exists e, elem_at (gs_entries st) slot = Some e) as He.
  { intros slot [_ Hr]%elem_of_used_list. apply elem_at_in_range. unfold zlen. rewrite (sc_entries _ _ _ _ _ _ _ _ Hs). lia. }
  split; cbn [g_xzs_d4_parsed_entries g_xzs_minor_to_gpt_slot g_xzs_d4_used_count g_xzs_gpt_slot_to_minor g_xzs_d4_used_slots].
  - apply Hs.
  - exact L1.
  - lia.
  - intros m Hr. destruct (lookup_lt_is_Some_2 ul (Z.to_nat (m - 1))) as [slot Hl]; [unfold zlen in *; lia |].
    destruct (Hm _ _ Hr Hl) as [E1 E2]. assert (slot ∈ ul) as Hin by (by eapply list_elem_of_lookup_2).
    destruct (He _ Hin) as [e Ee]. exists slot, e. apply elem_of_used_list in Hin as [Hu _].
    destruct (slot_entry _ _ Ee) as (_ & Hue & Hd). rewrite Hue, Hu in Hd. split_and!; [done.. | congruence | apply Hd].
  - intros slot e Ee Hu. destruct (slot_entry _ _ Ee) as (_ & _ & Hd). rewrite Hu in Hd.
    destruct Hd as (_ & _ & [i Hl]%list_elem_of_lookup & _). apply lookup_lt_Some in Hl as Hlt. exists (Z.of_nat i + 1).
    unfold zlen. split; [lia |]. apply Hm; [unfold zlen; lia |]. by replace (Z.to_nat (Z.of_nat i + 1 - 1)) with i by lia.
  - intros u Hr. destruct (lookup_lt_is_Some_2 ul (Z.to_nat u)) as [slot Hl]; [unfold zlen in *; lia |].
    destruct (Hm (u + 1) slot) as [-> _]; [lia | by replace (Z.to_nat (u + 1 - 1)) with (Z.to_nat u) by lia |].
    apply elem_at_Some. split; [lia |]. rewrite <- (sc_list _ _ _ _ _ _ _ _ Hs) in Hl. by apply lookup_take_Some in Hl as [? _].
  - intros slot e Ee Hu. destruct (slot_entry _ _ Ee) as (_ & _ & Hd). by rewrite Hu in Hd.
  - intros j k a b Hne Ea Eb Ua Ub. destruct (slot_entry _ _ Ea) as (_ & _ & Da), (slot_entry _ _ Eb) as (_ & _ & Db).
    rewrite Ua in Da. rewrite Ub in Db. destruct Da as (-> & -> & Ja & _), Db as (-> & -> & Jb & _).
    destruct Hv as (_ & _ & Hp). by apply Hp.
Qed.
End loaded.
