(* ===== verification/Emmc.v ===== *)
(** * The eMMC controller driver

    Models the runtime part of pexpert/arm/xzs_sdhci.c (and pexpert/pexpert/arm/xzs_sdhci.h):
    the bounded register accessors, the programmed transfers of one and of several sectors, the
    persistent initialisation, and the synchronous reads and writes of ranges of sectors.  The
    controller is a parameter: any type of hardware states with reads and writes of registers.
    Diagnostic counters are kept in a map by the name of their C variable; messages are not
    modelled.  The caller's buffer is part of the world, pointers into it are offsets. *)

From stdpp Require Import base list gmap strings.
From Stdlib Require Import ZArith Lia.
From S2P Require Import Prelude Wp Gpt.

(** ** Registers *)

Definition XZS_SDCC1_HC_MMIO_SIZE : Z := 0x500.
Definition XZS_SDCC1_CORE_MMIO_SIZE : Z := 0x800.
Definition XZS_GCC_MMIO_SIZE : Z := 0x90000.

Definition SDCC1_APPS_CMD_RCGR_OFFSET : Z := 0x13010.
Definition SDCC1_APPS_CFG_RCGR_OFFSET : Z := 0x13014.
Definition SDCC1_APPS_M_OFFSET : Z := 0x13018.
Definition SDCC1_APPS_N_OFFSET : Z := 0x1301C.
Definition SDCC1_APPS_D_OFFSET : Z := 0x13020.

Definition SDHCI_BLOCK_SIZE : Z := 0x04.
Definition SDHCI_BLOCK_COUNT : Z := 0x06.
Definition SDHCI_ARGUMENT : Z := 0x08.
Definition SDHCI_TRANSFER_MODE : Z := 0x0C.
Definition SDHCI_COMMAND : Z := 0x0E.
Definition SDHCI_RESPONSE_0 : Z := 0x10.
Definition SDHCI_BUFFER : Z := 0x20.
Definition SDHCI_PRESENT_STATE : Z := 0x24.
Definition SDHCI_HOST_CONTROL : Z := 0x28.
Definition SDHCI_POWER_CONTROL : Z := 0x29.
Definition SDHCI_CLOCK_CONTROL : Z := 0x2C.
Definition SDHCI_TIMEOUT_CONTROL : Z := 0x2E.
Definition SDHCI_SOFTWARE_RESET : Z := 0x2F.
Definition SDHCI_INT_STATUS : Z := 0x30.
Definition SDHCI_INT_ENABLE : Z := 0x34.
Definition SDHCI_SIGNAL_ENABLE : Z := 0x38.
Definition MSM_SDCC_HC_MODE : Z := 0x078.
Definition MSM_SDCC_HC_MODE_PREREQ : Z := Z.lor (Z.shiftl 1 0) (Z.shiftl 1 13).
Definition SDCC1_HC_VENDOR_SPEC : Z := 0x10C.
Definition SDCC1_HC_VENDOR_SPEC_POR : Z := 0xa1C.

Definition SDHCI_RESET_ALL : Z := 0x01.
Definition SDHCI_RESET_CMD : Z := 0x02.
Definition SDHCI_RESET_DATA : Z := 0x04.
Definition SDHCI_POWER_ON : Z := 0x01.
Definition SDHCI_POWER_180 : Z := 0x0A.
Definition ABOOT_POWER_FIRST_WRITE : Z := SDHCI_POWER_180.
Definition ABOOT_POWER_SECOND_WRITE : Z := Z.lor SDHCI_POWER_180 SDHCI_POWER_ON.
Definition SDHCI_CLOCK_INT_EN : Z := 0x0001.
Definition SDHCI_CLOCK_INT_STABLE : Z := 0x0002.
Definition SDHCI_CLOCK_CARD_EN : Z := 0x0004.
Definition ABOOT_CLOCK_FIRST_WRITE : Z := SDHCI_CLOCK_INT_EN.
Definition ABOOT_CLOCK_FINAL_VAL : Z := Z.lor (Z.lor SDHCI_CLOCK_INT_EN SDHCI_CLOCK_INT_STABLE) SDHCI_CLOCK_CARD_EN.
Definition SDHCI_CMD_INHIBIT : Z := Z.shiftl 1 0.
Definition SDHCI_DATA_INHIBIT : Z := Z.shiftl 1 1.
Definition SDHCI_CMD_RESP_48 : Z := 0x02.
Definition SDHCI_CMD_CRC : Z := Z.shiftl 1 3.
Definition SDHCI_CMD_INDEX : Z := Z.shiftl 1 4.
Definition SDHCI_CMD_DATA : Z := Z.shiftl 1 5.
Definition SDHCI_MAKE_CMD (c f : Z) : Z := u16 (Z.lor (Z.shiftl c 8) f).
Definition SDHCI_TRNS_BLK_CNT_EN : Z := 0x02.
Definition SDHCI_TRNS_AUTO_CMD12 : Z := 0x04.
Definition SDHCI_TRNS_READ : Z := 0x10.
Definition SDHCI_TRNS_MULTI : Z := 0x20.
Definition SDHCI_INT_RESPONSE : Z := Z.shiftl 1 0.
Definition SDHCI_INT_DATA_END : Z := Z.shiftl 1 1.
Definition SDHCI_INT_BUF_WRITE_READY : Z := Z.shiftl 1 4.
Definition SDHCI_INT_BUF_READ_READY : Z := Z.shiftl 1 5.
Definition SDHCI_INT_ERROR : Z := Z.shiftl 1 15.

(** [SDHCI_CMD_RESP_48 | SDHCI_CMD_CRC | SDHCI_CMD_INDEX | SDHCI_CMD_DATA]. *)
Definition DATA_FLAGS : Z := Z.lor (Z.lor (Z.lor SDHCI_CMD_RESP_48 SDHCI_CMD_CRC) SDHCI_CMD_INDEX) SDHCI_CMD_DATA.
Definition CMD_READ_SINGLE : Z := SDHCI_MAKE_CMD 17 DATA_FLAGS.
Definition CMD_READ_MULTIPLE : Z := SDHCI_MAKE_CMD 18 DATA_FLAGS.
Definition CMD_WRITE_SINGLE : Z := SDHCI_MAKE_CMD 24 DATA_FLAGS.
Definition CMD_SEND_EXT_CSD : Z := SDHCI_MAKE_CMD 8 DATA_FLAGS.
Definition MAX_POLLS : positive := 2000000.

(** [x & mask != 0]. *)
Definition has (x mask : Z) : bool := negb (Z.land x mask =? 0).
Definition error_bits (st : Z) : bool := has st (Z.lor SDHCI_INT_ERROR 0xFFFF0000).
Definition inhibited (pstate : Z) : bool := has pstate (Z.lor SDHCI_CMD_INHIBIT SDHCI_DATA_INHIBIT).

(** ** Hardware *)

Inductive mmio_space := HC | CORE | GCC.

(** Widths are in bytes; [ml_io_map] gives the address a register block is mapped at, 0 for none. *)
Class Mmio (H : Type) := {
  ml_io_map : mmio_space -> Z;
  mmio_read : mmio_space -> Z -> Z -> H -> Z * H;
  mmio_write : mmio_space -> Z -> Z -> Z -> H -> H;
  usleep : Z -> H -> H;
}.

(** ** State *)

Record xzs_emmc_context := EmmcCtx {
  initialized : bool;
  rca : Z;
  sector_count : Z;
  last_physical_lba : Z;
  sector_size : Z;
  ext_csd_rev : Z;
}.

Record emmc := Emmc {
  g_xzs_sdcc1_hc_base : Z;
  g_xzs_sdcc1_core_base : Z;
  g_xzs_gcc_base : Z;
  g_xzs_emmc_ctx : xzs_emmc_context;
  g_xzs_ext_csd : bytes;
  g_xzs_d10_fast_multiblock : Z;
  g_xzs_emmc_userdata_rw : Z;
  g_xzs_d4_gpt_map_initialized : bool;
  g_map : gpt_map;
  g_counters : gmap string Z;
}.

Record world (H : Type) := World { hw : H; dr : emmc; io_buf : bytes }.
Arguments World {H} hw dr io_buf.
Arguments hw {H} w.
Arguments dr {H} w.
Arguments io_buf {H} w.

Definition emmc_boot : emmc :=
  Emmc 0 0 0 (EmmcCtx false 0 0 0 0 0) (replicate 512 0) 0 0 false gpt_map_zero ∅.

Definition set_bases (hc core gcc : Z) (d : emmc) : emmc :=
  Emmc hc core gcc (g_xzs_emmc_ctx d) (g_xzs_ext_csd d) (g_xzs_d10_fast_multiblock d) (g_xzs_emmc_userdata_rw d)
    (g_xzs_d4_gpt_map_initialized d) (g_map d) (g_counters d).
Definition set_ctx (c : xzs_emmc_context) (d : emmc) : emmc :=
  Emmc (g_xzs_sdcc1_hc_base d) (g_xzs_sdcc1_core_base d) (g_xzs_gcc_base d) c (g_xzs_ext_csd d)
    (g_xzs_d10_fast_multiblock d) (g_xzs_emmc_userdata_rw d) (g_xzs_d4_gpt_map_initialized d) (g_map d) (g_counters d).
Definition set_ext_csd (b : bytes) (d : emmc) : emmc :=
  Emmc (g_xzs_sdcc1_hc_base d) (g_xzs_sdcc1_core_base d) (g_xzs_gcc_base d) (g_xzs_emmc_ctx d) b
    (g_xzs_d10_fast_multiblock d) (g_xzs_emmc_userdata_rw d) (g_xzs_d4_gpt_map_initialized d) (g_map d) (g_counters d).
Definition set_counters (m : gmap string Z) (d : emmc) : emmc :=
  Emmc (g_xzs_sdcc1_hc_base d) (g_xzs_sdcc1_core_base d) (g_xzs_gcc_base d) (g_xzs_emmc_ctx d) (g_xzs_ext_csd d)
    (g_xzs_d10_fast_multiblock d) (g_xzs_emmc_userdata_rw d) (g_xzs_d4_gpt_map_initialized d) (g_map d) m.
Definition set_initialized (b : bool) (c : xzs_emmc_context) : xzs_emmc_context :=
  EmmcCtx b (rca c) (sector_count c) (last_physical_lba c) (sector_size c) (ext_csd_rev c).

Definition counter (name : string) (d : emmc) : Z := default 0 (g_counters d !! name).

Section driver.
Context `{Mmio H}.
Abbreviation driver := (prog (world H)).

Definition on_dr (f : emmc -> emmc) : driver unit := act (fun w => World (hw w) (f (dr w)) (io_buf w)).
Definition get_dr : driver emmc := fun w => Ret (dr w, w).
Definition diag (name : string) (v : Z) : driver unit := on_dr (fun d => set_counters (<[name := v]> (g_counters d)) d).
(** 32-bit and 64-bit counters. *)
Definition add32 (name : string) (n : Z) : driver unit :=
  on_dr (fun d => set_counters (<[name := u32 (counter name d + n)]> (g_counters d)) d).
Definition add64 (name : string) (n : Z) : driver unit :=
  on_dr (fun d => set_counters (<[name := u64 (counter name d + n)]> (g_counters d)) d).
Definition delay (usec : Z) : driver unit := act (fun w => World (usleep usec (hw w)) (dr w) (io_buf w)).

(** ** Accessors *)

Definition base_of (sp : mmio_space) (d : emmc) : Z :=
  match sp with HC => g_xzs_sdcc1_hc_base d | CORE => g_xzs_sdcc1_core_base d | GCC => g_xzs_gcc_base d end.
Definition size_of (sp : mmio_space) : Z :=
  match sp with HC => XZS_SDCC1_HC_MMIO_SIZE | CORE => XZS_SDCC1_CORE_MMIO_SIZE | GCC => XZS_GCC_MMIO_SIZE end.
Definition unreachable (sp : mmio_space) (width offset : Z) (d : emmc) : bool :=
  (base_of sp d =? 0) || (size_of sp <? offset + width).

Definition io_read (sp : mmio_space) (width offset : Z) : driver Z := fun w =>
  if unreachable sp width offset (dr w) then Ret (2 ^ (8 * width) - 1, w)
  else let '(v, h) := mmio_read sp width offset (hw w) in Ret (v mod 2 ^ (8 * width), World h (dr w) (io_buf w)).
Definition io_write (sp : mmio_space) (width offset val : Z) : driver unit := fun w =>
  if unreachable sp width offset (dr w) then Ret (tt, w)
  else Ret (tt, World (mmio_write sp width offset (val mod 2 ^ (8 * width)) (hw w)) (dr w) (io_buf w)).

Definition xzs_sdhci_hc_read32 : Z -> driver Z := io_read HC 4.
Definition xzs_sdhci_hc_read16 : Z -> driver Z := io_read HC 2.
Definition xzs_sdhci_hc_read8 : Z -> driver Z := io_read HC 1.
Definition xzs_sdhci_core_read32 : Z -> driver Z := io_read CORE 4.
Definition xzs_gcc_read32_local : Z -> driver Z := io_read GCC 4.
Definition xzs_sdhci_hc_write32 : Z -> Z -> driver unit := io_write HC 4.
Definition xzs_sdhci_hc_write16 : Z -> Z -> driver unit := io_write HC 2.
Definition xzs_sdhci_hc_write8 : Z -> Z -> driver unit := io_write HC 1.
Definition xzs_sdhci_core_write32 : Z -> Z -> driver unit := io_write CORE 4.
Definition xzs_gcc_write32_local : Z -> Z -> driver unit := io_write GCC 4.

(** [fifo_reg]: the data port, dereferenced without the accessors' checks. *)
Definition fifo_read : driver Z := fun w =>
  if base_of HC (dr w) =? 0 then Fault
  else let '(v, h) := mmio_read HC 4 SDHCI_BUFFER (hw w) in Ret (v mod 2 ^ 32, World h (dr w) (io_buf w)).
Definition fifo_write (v : Z) : driver unit := fun w =>
  if base_of HC (dr w) =? 0 then Fault
  else Ret (tt, World (mmio_write HC 4 SDHCI_BUFFER v (hw w)) (dr w) (io_buf w)).

(** ** Buffer *)

Definition put_word (l : bytes) (p v : Z) : option bytes :=
  l ← put_byte l p (u8 v);
  l ← put_byte l (p + 1) (u8 (Z.shiftr v 8));
  l ← put_byte l (p + 2) (u8 (Z.shiftr v 16));
  put_byte l (p + 3) (u8 (Z.shiftr v 24)).
Definition store_word (p v : Z) : driver unit := fun w =>
  match put_word (io_buf w) p v with Some l => Ret (tt, World (hw w) (dr w) l) | None => Fault end.
Definition load_word (p : Z) : driver Z := fun w =>
  v ← of_option (xzs_read_le32 (io_buf w) p); Ret (v, w).

(** ** Waiting *)

Definition wait_for (n : positive) (ready : driver bool) : driver unit :=
  _ ← poll (S := unit) (R := unit) n
    (fun _ => b ← ready; if (b : bool) then mret (Exit tt) else _ ← delay 1; mret (Next tt)) tt;
  mret tt.

(** The present state the wait ended with. *)
Definition wait_idle : driver Z :=
  r ← poll (S := Z) (R := Z) 500000
    (fun _ => pstate ← xzs_sdhci_hc_read32 SDHCI_PRESENT_STATE;
              if inhibited pstate then _ ← delay 1; mret (Next pstate) else mret (Exit pstate)) 0;
  mret (match r with Next pstate => pstate | Exit pstate => pstate end).

Definition reset_lines : driver unit :=
  xzs_sdhci_hc_write8 SDHCI_SOFTWARE_RESET (Z.lor SDHCI_RESET_CMD SDHCI_RESET_DATA).

Definition clear_status (bits : Z) : driver unit := xzs_sdhci_hc_write32 SDHCI_INT_STATUS bits.

(** The registers of a transfer, then its command. *)
Definition start_transfer (blocks arg mode enable cmd : Z) : driver unit :=
  _ ← xzs_sdhci_hc_write16 SDHCI_BLOCK_SIZE 0x0200;
  _ ← xzs_sdhci_hc_write16 SDHCI_BLOCK_COUNT blocks;
  _ ← xzs_sdhci_hc_write32 SDHCI_ARGUMENT arg;
  _ ← xzs_sdhci_hc_write16 SDHCI_TRANSFER_MODE mode;
  _ ← xzs_sdhci_hc_write32 SDHCI_INT_ENABLE enable;
  _ ← xzs_sdhci_hc_write32 SDHCI_SIGNAL_ENABLE 0;
  _ ← clear_status 0xFFFFFFFF;
  xzs_sdhci_hc_write16 SDHCI_COMMAND cmd.

(** ** One sector in *)

Record pio := Pio {
  cmd_complete_seen : bool;
  brr_seen : bool;
  transfer_complete_seen : bool;
  cmd_polls : Z;
  brr_polls : Z;
  transfer_polls : Z;
  r1_raw : Z;
  bytes_read : Z;
}.
Definition pio_start : pio := Pio false false false 0 0 0 0 0.

(** The loop is left with the error bits, whether a poll counter ran out, and the state. *)
Abbreviation turn := (driver (ctl pio (Z * bool * pio))).

Definition and_then (c : turn) (f : pio -> turn) : turn :=
  r ← c; match r with Next s => f s | Exit x => mret (Exit x) end.

Definition command_part (st : Z) (s : pio) : turn :=
  if cmd_complete_seen s then mret (Next s)
  else if has st SDHCI_INT_RESPONSE then
    r1 ← xzs_sdhci_hc_read32 SDHCI_RESPONSE_0;
    _ ← clear_status SDHCI_INT_RESPONSE;
    mret (Next (Pio true (brr_seen s) (transfer_complete_seen s) (cmd_polls s) (brr_polls s) (transfer_polls s) r1 (bytes_read s)))
  else
    let s := Pio false (brr_seen s) (transfer_complete_seen s) (u32 (cmd_polls s + 1)) (brr_polls s) (transfer_polls s) (r1_raw s) (bytes_read s) in
    mret (if Zpos MAX_POLLS <=? cmd_polls s then Exit (0, true, s) else Next s).

(** 128 words from the data port to the buffer at [out]. *)
Definition read_block (out : Z) : driver unit := each 128 0 (fun k => v ← fifo_read; store_word (out + 4 * k) v).

Definition data_part (st out : Z) (s : pio) : turn :=
  if brr_seen s then mret (Next s)
  else if has st SDHCI_INT_BUF_READ_READY then
    _ ← read_block out;
    _ ← clear_status SDHCI_INT_BUF_READ_READY;
    mret (Next (Pio (cmd_complete_seen s) true (transfer_complete_seen s) (cmd_polls s) (brr_polls s) (transfer_polls s) (r1_raw s) (128 * 4)))
  else if cmd_complete_seen s then
    let s := Pio true false (transfer_complete_seen s) (cmd_polls s) (u32 (brr_polls s + 1)) (transfer_polls s) (r1_raw s) (bytes_read s) in
    mret (if Zpos MAX_POLLS <=? brr_polls s then Exit (0, true, s) else Next s)
  else mret (Next s).

Definition end_part (st : Z) (s : pio) : turn :=
  if transfer_complete_seen s then mret (Next s)
  else if has st SDHCI_INT_DATA_END then
    _ ← clear_status SDHCI_INT_DATA_END;
    mret (Next (Pio (cmd_complete_seen s) (brr_seen s) true (cmd_polls s) (brr_polls s) (transfer_polls s) (r1_raw s) (bytes_read s)))
  else if brr_seen s then
    let s := Pio (cmd_complete_seen s) true false (cmd_polls s) (brr_polls s) (u32 (transfer_polls s + 1)) (r1_raw s) (bytes_read s) in
    mret (if Zpos MAX_POLLS <=? transfer_polls s then Exit (0, true, s) else Next s)
  else mret (Next s).

Definition read_turn (out : Z) (s : pio) : turn :=
  st ← xzs_sdhci_hc_read32 SDHCI_INT_STATUS;
  if error_bits st then mret (Exit (Z.land st 0xFFFF8000, false, s))
  else
    and_then (command_part st s) (fun s =>
    and_then (data_part st out s) (fun s =>
    and_then (end_part st s) (fun s =>
      mret (if cmd_complete_seen s && brr_seen s && transfer_complete_seen s then Exit (0, false, s) else Next s)))).

(** Every turn sets a flag or advances a poll counter. *)
Definition READ_FUEL : positive := 6000010.

Definition xzs_emmc_read_sector_pio (lba validated_sector_count : Z) (out : option Z) : driver Z :=
  match out with
  | None => mret (-1)
  | Some out =>
      if (validated_sector_count =? 0) || (validated_sector_count <=? lba) then mret (-2)
      else
        pstate ← wait_idle;
        if inhibited pstate then _ ← reset_lines; _ ← delay 10; mret (-3)
        else
          _ ← start_transfer 1 lba SDHCI_TRNS_READ 0xFFFF8023 CMD_READ_SINGLE;
          '(all_err_bits, timeout, s) ← forever READ_FUEL (read_turn out) pio_start;
          _ ← diag "g_xzs_last_cmd17_err_bits" all_err_bits;
          _ ← diag "g_xzs_last_cmd17_r1_raw" (r1_raw s);
          _ ← diag "g_xzs_last_bytes_read" (bytes_read s);
          _ ← diag "g_d3m1_cmd17_err_bits" all_err_bits;
          _ ← diag "g_d3m1_cmd17_r1_raw" (r1_raw s);
          _ ← diag "g_d3m1_bytes_read" (bytes_read s);
          mret (if (timeout : bool) || negb (all_err_bits =? 0) || negb (bytes_read s =? 512) then -4 else 0)
  end.

Definition xzs_emmc_read_sector_sync (lba : Z) (out512 : option Z) : driver Z :=
  d ← get_dr;
  let ctx := g_xzs_emmc_ctx d in
  if negb (initialized ctx) then mret (-1)
  else match out512 with
  | None => mret (-2)
  | Some _ =>
      if sector_count ctx <=? lba then mret (-3)
      else if 0xFFFFFFFF <? lba then mret (-4)
      else
        _ ← add32 "g_d4m1_cmd17_count" 1;
        rc ← xzs_emmc_read_sector_pio (u32 lba) (sector_count ctx) out512;
        if rc =? 0 then
          _ ← add64 "successful_sector_reads" 1;
          d ← get_dr;
          let r1 := counter "g_xzs_last_cmd17_r1_raw" d in
          _ ← (if lba =? 1 then diag "g_d4m1_lba1_r1" r1
               else if lba =? 2 then diag "g_d4m1_lba2_r1" r1
               else if lba =? 33 then diag "g_d4m1_lba33_r1" r1
               else if lba =? last_physical_lba ctx then diag "g_d4m1_bak_hdr_r1" r1
               else mret tt);
          mret 0
        else _ ← add64 "failed_sector_reads" 1; mret rc
  end.

(** ** Several sectors in *)

(** Poll for [bit]: 0 when it is seen (after [seen]), [err] on an error, [late] when it never comes. *)
Definition await (bit : Z) (seen : driver unit) (err late : Z) : driver Z :=
  r ← poll (S := unit) (R := Z) MAX_POLLS (fun _ =>
        st ← xzs_sdhci_hc_read32 SDHCI_INT_STATUS;
        if error_bits st then mret (Exit err)
        else if has st bit then _ ← seen; mret (Exit 0)
        else mret (Next tt)) tt;
  let rc := match r with Next _ => late | Exit rc => rc end in
  if rc =? 0 then mret 0 else _ ← reset_lines; _ ← delay 10; mret rc.

Definition multiblock_step (out b : Z) : driver (ctl Z Z) :=
  rc ← await SDHCI_INT_BUF_READ_READY (clear_status SDHCI_INT_BUF_READ_READY) (-5) (-6);
  if rc =? 0 then _ ← read_block (out + b * 512); mret (Next (b + 1)) else mret (Exit rc).

Definition xzs_emmc_read_multiblock_pio (start_lba count : Z) (out : option Z) : driver Z :=
  match out with
  | None => mret (-1)
  | Some out =>
      if (count =? 0) || (128 <? count) then mret (-1)
      else
        pstate ← wait_idle;
        if inhibited pstate then _ ← reset_lines; _ ← delay 10; mret (-2)
        else
          _ ← start_transfer (u16 count) start_lba
                (Z.lor (Z.lor (Z.lor SDHCI_TRNS_MULTI SDHCI_TRNS_BLK_CNT_EN) SDHCI_TRNS_AUTO_CMD12) SDHCI_TRNS_READ)
                0xFFFF8023 CMD_READ_MULTIPLE;
          rc ← await SDHCI_INT_RESPONSE
                 (_ ← xzs_sdhci_hc_read32 SDHCI_RESPONSE_0; clear_status SDHCI_INT_RESPONSE) (-3) (-4);
          if negb (rc =? 0) then mret rc
          else
            r ← poll (Z.to_pos count) (multiblock_step out) 0;
            match r with
            | Exit rc => mret rc
            | Next _ =>
                rc ← await SDHCI_INT_DATA_END (clear_status SDHCI_INT_DATA_END) (-7) (-8);
                if negb (rc =? 0) then mret rc
                else _ ← add64 "successful_sector_reads" count; mret 0
            end
  end.

(** Up to three attempts; [again] runs after a failed one. *)
Definition three_tries (attempt : driver Z) (again : driver unit) : driver Z :=
  r ← poll (S := Z) (R := Z) 3
        (fun _ => rc ← attempt; if rc =? 0 then mret (Exit 0) else _ ← again; mret (Next rc)) (-1);
  mret (match r with Next rc => rc | Exit rc => rc end).

(** [xzs_watchdog_pet] has no effect on what is modelled here. *)
Definition read_chunk (start_lba count dst i : Z) : driver (ctl Z Z) :=
  if count <=? i then mret (Exit 0)
  else
    d ← get_dr;
    let rem := count - i in
    let chunk := if 128 <? rem then 128 else rem in
    fast ← (if negb (g_xzs_d10_fast_multiblock d =? 0) && (1 <? rem)
            then xzs_emmc_read_multiblock_pio (u32 (start_lba + i)) chunk (Some (dst + i * 512))
            else mret (-1));
    if fast =? 0 then mret (Next (i + chunk))
    else
      rc ← three_tries (xzs_emmc_read_sector_sync (u64 (start_lba + i)) (Some (dst + i * 512))) (delay 10);
      if negb (rc =? 0) then mret (Exit rc) else mret (Next (i + 1)).

Definition SIZE_MAX : Z := 2 ^ 64 - 1.

Definition xzs_emmc_read_blocks_sync (start_lba count : Z) (buffer : option Z) : driver Z :=
  d ← get_dr;
  let ctx := g_xzs_emmc_ctx d in
  if negb (initialized ctx) then mret (-1)
  else match buffer with
  | None => mret (-2)
  | Some dst =>
      if count =? 0 then mret (-3)
      else if sector_count ctx <=? start_lba then mret (-4)
      else if UINT64_MAX - start_lba <? count - 1 then mret (-5)
      else if sector_count ctx <=? u64 (start_lba + count - 1) then mret (-6)
      else if SIZE_MAX / 512 <? count then mret (-7)
      else forever (Z.to_pos (count + 1)) (read_chunk start_lba count dst) 0
  end.

(** ** Sectors out *)

Definition userdata_slot : Z := 53.

(** The extent writes are confined to. *)
Definition write_allowed (d : emmc) (lba : Z) : option bool :=
  e ← elem_at (g_xzs_d4_parsed_entries (g_map d)) userdata_slot;
  Some (negb ((start_lba e =? 0) || (lba <? start_lba e) || (end_lba e <? lba))).

(** What has been seen: the command, room for the block, the end. *)
Definition write_turn (src : Z) (s : bool * bool * bool) : driver (ctl (bool * bool * bool) Z) :=
  let '(cmd_done, bwr_done, tc_done) := s in
  st ← xzs_sdhci_hc_read32 SDHCI_INT_STATUS;
  if error_bits st then _ ← clear_status 0xFFFFFFFF; mret (Exit (-4))
  else
    cmd_done ← (if negb cmd_done && has st SDHCI_INT_RESPONSE then
                  _ ← xzs_sdhci_hc_read32 SDHCI_RESPONSE_0; _ ← clear_status SDHCI_INT_RESPONSE; mret true
                else mret cmd_done);
    bwr_done ← (if negb bwr_done && has st SDHCI_INT_BUF_WRITE_READY then
                  _ ← each 128 0 (fun k => v ← load_word (src + 4 * k); fifo_write v);
                  _ ← clear_status SDHCI_INT_BUF_WRITE_READY; mret true
                else mret bwr_done);
    tc_done ← (if bwr_done && negb tc_done && has st SDHCI_INT_DATA_END then
                 _ ← clear_status SDHCI_INT_DATA_END; mret true
               else mret tc_done);
    mret (if cmd_done && bwr_done && tc_done then Exit 0 else Next (cmd_done, bwr_done, tc_done)).

Definition xzs_emmc_write_sector_pio (lba : Z) (src : option Z) : driver Z :=
  d ← get_dr;
  match src with
  | None => mret (-1)
  | Some src =>
      if (g_xzs_emmc_userdata_rw d =? 0) || negb (g_xzs_d4_gpt_map_initialized d) then mret (-1)
      else
        ok ← plift (write_allowed d lba);
        if negb ok then mret (-2)
        else
          _ ← wait_idle;
          _ ← start_transfer 1 lba 0 0xFFFF8013 CMD_WRITE_SINGLE;
          r ← poll MAX_POLLS (write_turn src) (false, false, false);
          match r with
          | Next _ => mret (-5)
          | Exit rc => if negb (rc =? 0) then mret rc else _ ← wait_idle; mret 0
          end
  end.

Definition write_one (start_lba src count i : Z) : driver (ctl Z Z) :=
  if count <=? i then mret (Exit 0)
  else
    rc ← three_tries (xzs_emmc_write_sector_pio (u32 (start_lba + i)) (Some (src + i * 512)))
           (_ ← reset_lines; delay 10);
    if negb (rc =? 0) then mret (Exit rc) else mret (Next (i + 1)).

Definition xzs_emmc_write_blocks_sync (start_lba count : Z) (buffer : option Z) : driver Z :=
  d ← get_dr;
  match buffer with
  | None => mret (-1)
  | Some src =>
      if negb (initialized (g_xzs_emmc_ctx d)) || (count =? 0) then mret (-1)
      else forever (Z.to_pos (count + 1)) (write_one start_lba src count) 0
  end.
End driver.
