(* ===== verification/EmmcDev.v ===== *)
(** * The eMMC block device

    Models the persistent initialisation of the controller and the card, and the block device
    on top of it (pexpert/arm/xzs_sdhci.c): open, close, size, control and strategy, the reads
    that go through strategy, and the loading of the partition table that gives the minor
    numbers their extents. *)

From stdpp Require Import base list gmap strings.
From Stdlib Require Import ZArith Lia.
From S2P Require Import Prelude Wp Crc32 Kernel Memdev Gpt Emmc.

Definition FREAD : Z := 1.

Definition set_fast (v : Z) (d : emmc) : emmc :=
  Emmc (g_xzs_sdcc1_hc_base d) (g_xzs_sdcc1_core_base d) (g_xzs_gcc_base d) (g_xzs_emmc_ctx d) (g_xzs_ext_csd d)
    v (g_xzs_emmc_userdata_rw d) (g_xzs_d4_gpt_map_initialized d) (g_map d) (g_counters d).
Definition set_rw (v : Z) (d : emmc) : emmc :=
  Emmc (g_xzs_sdcc1_hc_base d) (g_xzs_sdcc1_core_base d) (g_xzs_gcc_base d) (g_xzs_emmc_ctx d) (g_xzs_ext_csd d)
    (g_xzs_d10_fast_multiblock d) v (g_xzs_d4_gpt_map_initialized d) (g_map d) (g_counters d).
Definition set_map (b : bool) (g : gpt_map) (d : emmc) : emmc :=
  Emmc (g_xzs_sdcc1_hc_base d) (g_xzs_sdcc1_core_base d) (g_xzs_gcc_base d) (g_xzs_emmc_ctx d) (g_xzs_ext_csd d)
    (g_xzs_d10_fast_multiblock d) (g_xzs_emmc_userdata_rw d) b g (g_counters d).

Section device.
Context `{Mmio H}.
Abbreviation driver := (prog (world H)).

(** ** Initialisation *)

Definition map_regions : driver unit := on_dr (fun d =>
  let map sp := if base_of sp d =? 0 then ml_io_map sp else base_of sp d in
  set_bases (map HC) (map CORE) (map GCC) d).

Definition status_has (bit : Z) : driver bool :=
  st ← xzs_sdhci_hc_read32 SDHCI_INT_STATUS; mret (has st bit).

Definition clock_setup : driver unit :=
  _ ← xzs_gcc_write32_local SDCC1_APPS_CFG_RCGR_OFFSET 0x2017;
  _ ← xzs_gcc_write32_local SDCC1_APPS_M_OFFSET 0x1;
  _ ← xzs_gcc_write32_local SDCC1_APPS_N_OFFSET 0xFFFFFFFC;
  _ ← xzs_gcc_write32_local SDCC1_APPS_D_OFFSET 0xFFFFFFFB;
  _ ← xzs_gcc_write32_local SDCC1_APPS_CMD_RCGR_OFFSET 0x1;
  wait_for 1000 (v ← xzs_gcc_read32_local SDCC1_APPS_CMD_RCGR_OFFSET; mret (negb (has v 1))).

Definition host_setup : driver unit :=
  _ ← xzs_sdhci_hc_write8 SDHCI_SOFTWARE_RESET SDHCI_RESET_ALL;
  _ ← wait_for 1000 (v ← xzs_sdhci_hc_read8 SDHCI_SOFTWARE_RESET; mret (negb (has v SDHCI_RESET_ALL)));
  _ ← xzs_sdhci_hc_write32 SDCC1_HC_VENDOR_SPEC SDCC1_HC_VENDOR_SPEC_POR;
  _ ← xzs_sdhci_core_write32 MSM_SDCC_HC_MODE MSM_SDCC_HC_MODE_PREREQ;
  _ ← xzs_sdhci_hc_write8 SDHCI_POWER_CONTROL ABOOT_POWER_FIRST_WRITE;
  _ ← delay 100;
  _ ← xzs_sdhci_hc_write8 SDHCI_POWER_CONTROL ABOOT_POWER_SECOND_WRITE;
  _ ← delay 100;
  _ ← xzs_sdhci_hc_write16 SDHCI_CLOCK_CONTROL ABOOT_CLOCK_FIRST_WRITE;
  _ ← wait_for 1000 (v ← xzs_sdhci_hc_read16 SDHCI_CLOCK_CONTROL; mret (has v SDHCI_CLOCK_INT_STABLE));
  _ ← xzs_sdhci_hc_write16 SDHCI_CLOCK_CONTROL ABOOT_CLOCK_FINAL_VAL;
  _ ← delay 100;
  _ ← xzs_sdhci_hc_write8 SDHCI_TIMEOUT_CONTROL 0x0F;
  _ ← xzs_sdhci_hc_write8 SDHCI_HOST_CONTROL 0x00;
  delay 1000.

(** A command without data: its counter, argument and command word. *)
Definition simple_command (name : string) (arg cmd : Z) : driver unit :=
  _ ← add32 name 1;
  _ ← clear_status 0xFFFFFFFF;
  _ ← xzs_sdhci_hc_write32 SDHCI_ARGUMENT arg;
  _ ← xzs_sdhci_hc_write16 SDHCI_COMMAND cmd;
  _ ← wait_for 10000 (status_has SDHCI_INT_RESPONSE);
  clear_status SDHCI_INT_RESPONSE.

Definition go_idle : driver unit :=
  _ ← add32 "g_d4m1_cmd0_count" 1;
  _ ← xzs_sdhci_hc_write32 SDHCI_INT_ENABLE 0xFFFF800B;
  _ ← xzs_sdhci_hc_write32 SDHCI_SIGNAL_ENABLE 0;
  _ ← clear_status 0xFFFFFFFF;
  _ ← xzs_sdhci_hc_write32 SDHCI_ARGUMENT 0;
  _ ← xzs_sdhci_hc_write16 SDHCI_COMMAND 0;
  _ ← wait_for 10000 (status_has SDHCI_INT_RESPONSE);
  _ ← clear_status SDHCI_INT_RESPONSE;
  delay 1000.

(** Whether the card reported ready. *)
Definition op_cond : driver bool :=
  r ← poll (S := unit) (R := unit) 1000 (fun _ =>
        _ ← simple_command "g_d4m1_cmd1_count" 0x40FF8000 0x0102;
        ocr ← xzs_sdhci_hc_read32 SDHCI_RESPONSE_0;
        if has ocr (Z.shiftl 1 31) then mret (Exit tt) else _ ← delay 1000; mret (Next tt)) tt;
  mret (match r with Exit _ => true | Next _ => false end).

Definition put_ext_csd (p v : Z) : driver unit := fun w =>
  match put_word (g_xzs_ext_csd (dr w)) p v with
  | Some l => Ret (tt, World (hw w) (set_ext_csd l (dr w)) (io_buf w))
  | None => Fault
  end.

(** The data port through the accessor. *)
Definition ext_csd_turn (s : bool * bool * bool) : driver (ctl (bool * bool * bool) (bool * bool * bool)) :=
  let '(cc, brr, tc) := s in
  st ← xzs_sdhci_hc_read32 SDHCI_INT_STATUS;
  if error_bits st then mret (Exit s)
  else
    cc ← (if negb cc && has st SDHCI_INT_RESPONSE then _ ← clear_status SDHCI_INT_RESPONSE; mret true else mret cc);
    brr ← (if negb brr && has st SDHCI_INT_BUF_READ_READY then
             _ ← each 128 0 (fun k => v ← xzs_sdhci_hc_read32 SDHCI_BUFFER; put_ext_csd (4 * k) v);
             _ ← clear_status SDHCI_INT_BUF_READ_READY; mret true
           else mret brr);
    tc ← (if negb tc && has st SDHCI_INT_DATA_END then _ ← clear_status SDHCI_INT_DATA_END; mret true else mret tc);
    mret (if cc && brr && tc then Exit (cc, brr, tc) else Next (cc, brr, tc)).

Definition send_ext_csd : driver bool :=
  _ ← add32 "g_d4m1_cmd8_count" 1;
  _ ← start_transfer 1 0 SDHCI_TRNS_READ 0xFFFF8023 CMD_SEND_EXT_CSD;
  r ← poll 2000000 ext_csd_turn (false, false, false);
  let '(cc, brr, tc) := match r with Next s => s | Exit s => s end in
  mret (cc && brr && tc).

Definition init_failed (rc : Z) : driver Z :=
  _ ← on_dr (fun d => set_ctx (set_initialized false (g_xzs_emmc_ctx d)) d); mret rc.

(** Revision and sector count of the card, as it reports them. *)
Definition live_geometry (ext_csd : bytes) : option (Z * Z) :=
  rev ← byte_at ext_csd 192; n ← xzs_read_le32 ext_csd 212; Some (rev, n).

Definition xzs_emmc_init_persistent : driver Z :=
  _ ← add32 "g_d4m1_init_call_count" 1;
  d ← get_dr;
  if initialized (g_xzs_emmc_ctx d) then _ ← add32 "initialization_reuse_count" 1; mret 0
  else
    _ ← add32 "initialization_count" 1;
    _ ← add32 "controller_reset_count" 1;
    _ ← map_regions;
    d ← get_dr;
    if (base_of HC d =? 0) || (base_of CORE d =? 0) || (base_of GCC d =? 0) then init_failed (-1)
    else
      _ ← clock_setup;
      _ ← host_setup;
      _ ← go_idle;
      card_ready ← op_cond;
      if negb card_ready then init_failed (-2)
      else
        _ ← simple_command "g_d4m1_cmd2_count" 0 0x0209;
        _ ← simple_command "g_d4m1_cmd3_count" 0x00020000 0x031A;
        _ ← simple_command "g_d4m1_cmd9_count" 0x00020000 0x0909;
        _ ← simple_command "g_d4m1_cmd7_count" 0x00020000 0x071A;
        read ← send_ext_csd;
        if negb read then init_failed (-3)
        else
          d ← get_dr;
          '(rev, n) ← plift (live_geometry (g_xzs_ext_csd d));
          if (n =? 0) || (rev =? 0) then init_failed (-4)
          else _ ← on_dr (set_ctx (EmmcCtx true 2 n (n - 1) 512 rev)); mret 0.

(** ** The device switch *)

(** Bytes of a C string up to its terminator. *)
Fixpoint c_str (l : bytes) : bytes :=
  match l with [] => [] | b :: l => if b =? 0 then [] else b :: c_str l end.

Definition xzs_is_userdata_minor (d : emmc) (m : Z) : option bool :=
  if negb (g_xzs_d4_gpt_map_initialized d) || (m <=? 0) || (s32 (g_xzs_d4_used_count (g_map d)) <? m) then Some false
  else
    slot ← elem_at (g_xzs_minor_to_gpt_slot (g_map d)) m;
    if slot =? userdata_slot then
      e ← elem_at (g_xzs_d4_parsed_entries (g_map d)) slot;
      Some (bool_decide (c_str (name_canonical e) = lit "userdata"))
    else Some false.

Definition no_slice (d : emmc) (m : Z) : bool :=
  negb (g_xzs_d4_gpt_map_initialized d) || (s32 (g_xzs_d4_used_count (g_map d)) <? m).

Definition bad_minor (m : Z) : bool := (m <? 0) || (55 <? m).

(** [!g_xzs_emmc_userdata_rw || !xzs_is_userdata_minor(m)]. *)
Definition write_refused (d : emmc) (m : Z) : option bool :=
  if g_xzs_emmc_userdata_rw d =? 0 then Some true
  else b ← xzs_is_userdata_minor d m; Some (negb b).

Definition xzs_bdev_open (dev flags : Z) : driver Z :=
  _ ← add32 "g_xzs_bdev_open_count" 1;
  let m := minor dev in
  d ← get_dr;
  if bad_minor m then mret ENXIO
  else if (0 <? m) && no_slice d m then mret ENXIO
  else
    refused ← (if has flags FWRITE then plift (write_refused d m) else mret false);
    if (refused : bool) then mret EROFS
    else if negb (has flags FREAD) then mret EINVAL
    else if initialized (g_xzs_emmc_ctx d) then mret 0
    else
      rc ← xzs_emmc_init_persistent;
      d ← get_dr;
      mret (if negb (rc =? 0) || negb (initialized (g_xzs_emmc_ctx d)) then EIO else 0).

Definition xzs_bdev_close (dev : Z) : driver Z :=
  _ ← add32 "g_xzs_bdev_close_count" 1;
  mret (if bad_minor (minor dev) then ENXIO else 0).

(** The extent of a slice. *)
Definition slice (d : emmc) (m : Z) : option xzs_gpt_partition_entry_t :=
  slot ← elem_at (g_xzs_minor_to_gpt_slot (g_map d)) m;
  elem_at (g_xzs_d4_parsed_entries (g_map d)) slot.

Definition xzs_bdev_psize (dev : Z) : driver Z :=
  _ ← add32 "g_xzs_bdev_psize_count" 1;
  let m := minor dev in
  d ← get_dr;
  if bad_minor m then mret ENXIO
  else if negb (initialized (g_xzs_emmc_ctx d)) then mret (-1)
  else if m =? 0 then mret (s32 (sector_count (g_xzs_emmc_ctx d)))
  else if no_slice d m then mret ENXIO
  else e ← plift (slice d m); mret (s32 (pe_sector_count e)).

Inductive blk_cmd :=
  | BlkSynchronize
  | BlkSynchronizeCache
  | BlkGetBlockSize
  | BlkSetBlockSize (size : Z)
  | BlkGetBlockCount
  | BlkIsWritable
  | BlkIsSolidState
  | BlkOther.

(** [data] says that the caller gave a buffer; the result is what is left in it. *)
Definition xzs_bdev_ioctl (dev : Z) (cmd : blk_cmd) (data : bool) : driver (Z * dk_data) :=
  _ ← add32 "g_xzs_bdev_ioctl_count" 1;
  let m := minor dev in
  d ← get_dr;
  if bad_minor m then mret (ENXIO, NoData)
  else if negb (initialized (g_xzs_emmc_ctx d)) then mret (ENXIO, NoData)
  else match cmd with
  | BlkSynchronize | BlkSynchronizeCache => mret (0, NoData)
  | _ =>
      if negb data then mret (EINVAL, NoData)
      else match cmd with
      | BlkGetBlockSize => mret (0, Data32 (sector_size (g_xzs_emmc_ctx d)))
      | BlkSetBlockSize size =>
          _ ← add32 "g_xzs_dkiocsetblocksize_call_count" 1;
          mret (if negb (size =? 512) then EINVAL else 0, NoData)
      | BlkGetBlockCount =>
          if m =? 0 then mret (0, Data64 (sector_count (g_xzs_emmc_ctx d)))
          else if no_slice d m then mret (ENXIO, NoData)
          else e ← plift (slice d m); mret (0, Data64 (pe_sector_count e))
      | BlkIsWritable => b ← plift (write_refused d m); mret (0, Data32 (if (b : bool) then 0 else 1))
      | BlkIsSolidState => mret (0, Data32 1)
      | _ => mret (ENOTTY, NoData)
      end
  end.

(** ** Strategy *)

(** [r_map]: what [buf_map] returns and the address it gives; [r_done] counts completions. *)
Record request := Req {
  r_dev : Z;
  r_blkno : Z;
  r_count : Z;
  r_flags : Z;
  r_map : Z * option Z;
  r_error : Z;
  r_resid : Z;
  r_done : Z;
}.

Definition finish (r : request) (error resid : Z) : request :=
  Req (r_dev r) (r_blkno r) (r_count r) (r_flags r) (r_map r) error resid (r_done r + 1).

(** The request as it ends: its error and what is left of it. *)
Definition fails (r : request) (error : Z) : driver request := mret (finish r error (r_count r)).

(** First sector and number of sectors of the device a minor number stands for. *)
Definition device_extent (d : emmc) (m : Z) : option (Z * Z) :=
  if m =? 0 then Some (0, sector_count (g_xzs_emmc_ctx d))
  else e ← slice d m; Some (start_lba e, pe_sector_count e).

Definition transfer (r : request) (m target n : Z) (is_read : bool) (io_addr : Z) : driver request :=
  _ ← (if 0 <? m then
         _ ← add32 "g_xzs_slice_read_count" 1; add32 "g_xzs_partition_content_reads" n
       else mret tt);
  _ ← add64 "g_xzs_controller_lock_acquire_count" 1;
  rc ← (if is_read then xzs_emmc_read_blocks_sync target n (Some io_addr)
        else xzs_emmc_write_blocks_sync target n (Some io_addr));
  if rc =? 0 then
    _ ← (if is_read then
           _ ← add32 "g_xzs_bdev_strategy_read_count" 1; add64 "g_xzs_strategy_total_sectors_read" n
         else add64 "g_xzs_strategy_total_sectors_written" n);
    mret (finish r 0 0)
  else fails r EIO.

Definition xzs_bdev_strategy (r : request) : driver request :=
  _ ← add32 "g_xzs_bdev_strategy_call_count" 1;
  let m := minor (r_dev r) in
  d ← get_dr;
  if bad_minor m then fails r ENXIO
  else if (0 <? m) && no_slice d m then fails r ENXIO
  else
    let is_read := has (r_flags r) B_READ in
    refused ← (if is_read then mret false else plift (write_refused d m));
    if (refused : bool) then _ ← add32 "g_xzs_bdev_strategy_write_reject_count" 1; fails r EROFS
    else if negb (initialized (g_xzs_emmc_ctx d)) then fails r EIO
    else if (r_count r =? 0) || negb (r_count r mod 512 =? 0) then fails r EINVAL
    else
      let n := r_count r / 512 in
      let blkno := r_blkno r in
      if blkno <? 0 then fails r EINVAL
      else
        '(start, max_sectors) ← plift (device_extent d m);
        let target := u64 (start + blkno) in
        if max_sectors <=? blkno then fails r EINVAL
        else if UINT64_MAX - blkno <? n - 1 then fails r EINVAL
        else if max_sectors <? u64 (blkno + n) then fails r EINVAL
        else if sector_count (g_xzs_emmc_ctx d) <? u64 (target + n) then fails r EINVAL
        else match r_map r with
        | (0, Some io_addr) => transfer r m target n is_read io_addr
        | (err, _) => fails r (if err =? 0 then EFAULT else err)
        end.

(** ** Loading the partition table *)

(** A read of [byte_count] bytes into the world's buffer; [buf_alloc] may fail. *)
Definition xzs_d4_read_via_strategy (have_buf : bool) (dev blkno byte_count : Z) (out : Z) : driver Z :=
  if negb have_buf then mret ENOMEM
  else
    r ← xzs_bdev_strategy (Req dev (s64 blkno) byte_count B_READ (0, Some out) 0 0 0);
    mret (if negb (r_error r =? 0) || negb (r_resid r =? 0)
          then (if r_error r =? 0 then EIO else r_error r) else 0).

(** Run with another buffer: what it holds in the end, and the old buffer back. *)
Definition with_buffer {A} (l : bytes) (c : driver A) : driver (A * bytes) := fun w =>
  match c (World (hw w) (dr w) l) with
  | Ret (a, w') => Ret ((a, io_buf w'), World (hw w') (dr w') (io_buf w))
  | Panic => Panic
  | Fault => Fault
  | NoFuel => NoFuel
  end.

(** The header's checksum, taken with its own field zeroed. *)
Definition gpt_header_crc (lba1 : bytes) : Z := crc32 0 (take 16 lba1 ++ replicate 4 0 ++ take 72 (drop 20 lba1)).

Definition parse_runtime_map (entries : bytes) (d : emmc) : option (bool * gpt_map) :=
  let g := g_map d in
  '(ok, es, slots, counts) ← xzs_parse_gpt_entry_array entries 128 16384 34 61071326 61071360 128
                               (g_xzs_d4_parsed_entries g) (g_xzs_d4_used_slots g);
  let '(u, n) := default (g_xzs_d4_used_count g, g_xzs_d4_unused_count g) counts in
  Some (ok && (u =? 55), GptMap es slots u n (g_xzs_minor_to_gpt_slot g) (g_xzs_gpt_slot_to_minor g)).

(** Read, check and parse the table of the disk, then freeze the map; the result is the
    breadcrumb of the step that failed (after which the kernel halts), or 0. *)
Definition load_runtime_gpt (have_buf : bool) (dev0 : Z) : driver Z :=
  '(rc_hdr, lba1) ← with_buffer (replicate 512 0) (xzs_d4_read_via_strategy have_buf dev0 1 512 0);
  if negb (rc_hdr =? 0) then mret 0xE4
  else
    stored ← plift (xzs_read_le32 lba1 16);
    if negb (gpt_header_crc lba1 =? stored) || negb (gpt_header_crc lba1 =? 0xBFDF741D) then mret 0xE5
    else
      '(rc_arr, entries) ← with_buffer (replicate (Z.to_nat 16384) 0) (xzs_d4_read_via_strategy have_buf dev0 2 16384 0);
      if negb (rc_arr =? 0) then mret 0xE6
      else
        stored ← plift (xzs_read_le32 lba1 88);
        if negb (crc32 0 entries =? stored) || negb (crc32 0 entries =? 0x64EDE0F4) then mret 0xE7
        else
          d ← get_dr;
          '(ok, g) ← plift (parse_runtime_map entries d);
          if negb ok then _ ← on_dr (set_map (g_xzs_d4_gpt_map_initialized d) g); mret 0xE8
          else
            _ ← on_dr (set_map true g);
            g ← plift (derive_minors g);
            _ ← on_dr (set_map true g);
            mret 0.

(** CMD18 is used from now on if it reads back the table that was checked. *)
Definition try_multiblock (have_buf : bool) (dev0 : Z) : driver unit :=
  _ ← on_dr (set_fast 1);
  '(rc, entries) ← with_buffer (replicate (Z.to_nat 16384) 0) (xzs_d4_read_via_strategy have_buf dev0 2 16384 0);
  let crc := if rc =? 0 then crc32 0 entries else 0 in
  if (rc =? 0) && (crc =? 0x64EDE0F4) then mret tt else on_dr (set_fast 0).
End device.
