(* ===== verification/EmmcCard.v ===== *)
(** * What the driver relies on: the host controller and the card

    The controller with its card as a state machine, seen through its registers: the argument
    and block count of the next command, the interrupt status, the transfer under way and the
    sectors of the card.  Progress shows when the interrupt status is read; it may take any
    number of reads, and any error may be reported at any time.  [SdhciLaws] says that a type of
    hardware states behaves like this; nothing is assumed of registers that are not listed, and
    only accesses of a register's own width are covered.  The driver's proofs use the rules of
    EmmcBus, one per kind of access. *)

From stdpp Require Import base list relations.
From Stdlib Require Import ZArith Lia.
From S2P Require Import Prelude Wp Gpt Emmc.

(** ** Bits *)

Lemma has_lor a b m : has (Z.lor a b) m = has a m || has b m.
Proof.
  unfold has. rewrite Z.land_lor_distr_l.
  destruct (Z.eqb_spec (Z.land a m) 0) as [E | E], (Z.eqb_spec (Z.land b m) 0) as [E' | E']; simpl.
  - by rewrite E, E'.
  - rewrite E, Z.lor_0_l. by apply negb_true_iff, Z.eqb_neq.
  - apply negb_true_iff, Z.eqb_neq. intros [? _]%Z.lor_eq_0_iff. done.
  - apply negb_true_iff, Z.eqb_neq. intros [? _]%Z.lor_eq_0_iff. done.
Qed.

Lemma has_ldiff_other a b m : Z.land m b = 0 -> has (Z.ldiff a b) m = has a m.
Proof.
  intros E. unfold has. do 2 f_equal. apply Z.bits_inj'. intros n _.
  rewrite !Z.land_spec, Z.ldiff_spec. apply (f_equal (fun x => Z.testbit x n)) in E.
  rewrite Z.land_spec, Z.bits_0 in E. destruct (Z.testbit a n), (Z.testbit b n), (Z.testbit m n); done.
Qed.

Lemma has_ldiff_same a b m : Z.ldiff m b = 0 -> has (Z.ldiff a b) m = false.
Proof.
  intros E. unfold has. apply negb_false_iff, Z.eqb_eq. apply Z.bits_inj'. intros n _.
  rewrite Z.land_spec, Z.ldiff_spec, Z.bits_0. apply (f_equal (fun x => Z.testbit x n)) in E.
  rewrite Z.ldiff_spec, Z.bits_0 in E. destruct (Z.testbit a n), (Z.testbit b n), (Z.testbit m n); done.
Qed.

Lemma has_0 m : has 0 m = false.
Proof. unfold has. by rewrite Z.land_0_l. Qed.

(** ** Words *)

(** A block as the words of the data port, and back. *)
Fixpoint words_of (n : nat) (l : bytes) : list Z :=
  match n with O => [] | S n => le_combine (take 4 l) :: words_of n (drop 4 l) end.
Definition bytes_of (ws : list Z) : bytes := concat (le_split 4 <$> ws).
Definition block_words (b : bytes) : list Z := words_of 128 b.
#[global] Arguments block_words : simpl never.

(** ** The state machine *)

Inductive xfer :=
  | Idle
  | Reading (rest : list bytes) (fifo : list Z)
  | Writing (lba : Z) (got : list Z).

Record sdhc := Sdhc {
  v_arg : Z;
  v_blocks : Z;
  v_ints : Z;
  v_xfer : xfer;
  v_sector : Z -> bytes;
}.

Definition set_ints (i : Z) (v : sdhc) : sdhc := Sdhc (v_arg v) (v_blocks v) i (v_xfer v) (v_sector v).
Definition set_xfer (x : xfer) (v : sdhc) : sdhc := Sdhc (v_arg v) (v_blocks v) (v_ints v) x (v_sector v).
Definition raise (bit : Z) (v : sdhc) : sdhc := set_ints (Z.lor (v_ints v) bit) v.
Definition put_sector (lba : Z) (b : bytes) (v : sdhc) : sdhc :=
  Sdhc (v_arg v) (v_blocks v) (v_ints v) (v_xfer v) (fun l => if l =? lba then b else v_sector v l).

(** Sectors keep their contents, but for one that is being written. *)
Definition kept (v v' : sdhc) : Prop :=
  forall l, (forall got, v_xfer v <> Writing l got) -> v_sector v' l = v_sector v l.

Inductive advance : sdhc -> sdhc -> Prop :=
  | AdvResponse v : advance v (raise SDHCI_INT_RESPONSE v)
  | AdvBlock v b rest : v_xfer v = Reading (b :: rest) [] ->
      advance v (raise SDHCI_INT_BUF_READ_READY (set_xfer (Reading rest (block_words b)) v))
  | AdvReadEnd v : v_xfer v = Reading [] [] -> advance v (raise SDHCI_INT_DATA_END (set_xfer Idle v))
  | AdvRoom v lba : v_xfer v = Writing lba [] -> advance v (raise SDHCI_INT_BUF_WRITE_READY v)
  | AdvWriteEnd v lba got : v_xfer v = Writing lba got -> length got = 128%nat ->
      advance v (raise SDHCI_INT_DATA_END (set_xfer Idle (put_sector lba (bytes_of got) v)))
  | AdvError v v' e : error_bits e = true -> v_ints v' = Z.lor (v_ints v) e -> v_xfer v' = Idle -> kept v v' ->
      advance v v'.

(** What a command starts; commands that write without the data port are left open. *)
Definition command_index (cmd : Z) : Z := Z.shiftr cmd 8.
Definition commanded (v : sdhc) (cmd : Z) (x : xfer) : Prop :=
  match command_index cmd with
  | 17 => x = Reading [v_sector v (v_arg v)] []
  | 18 => x = Reading ((fun k => v_sector v (v_arg v + Z.of_nat k)) <$> seq 0 (Z.to_nat (v_blocks v))) []
  | 8 => exists ext_csd, x = Reading [ext_csd] []
  | 24 => x = Writing (v_arg v) []
  | _ => x = Idle
  end.
(** Reads, and the commands of the card's identification and configuration. *)
Definition known_command (cmd : Z) : bool :=
  bool_decide (command_index cmd ∈ [0; 1; 2; 3; 6; 7; 8; 9; 17; 18; 24]).

(** A register that does not matter to the model: it may stop a transfer and change the status. *)
Definition other_write (v v' : sdhc) : Prop :=
  v_arg v' = v_arg v /\ v_blocks v' = v_blocks v /\ (v_xfer v' = v_xfer v \/ v_xfer v' = Idle) /\ kept v v'.

Definition hc_write_step (v : sdhc) (off val : Z) (v' : sdhc) : Prop :=
  if off =? SDHCI_INT_STATUS then v' = set_ints (Z.ldiff (v_ints v) val) v
  else if off =? SDHCI_ARGUMENT then v' = Sdhc val (v_blocks v) (v_ints v) (v_xfer v) (v_sector v)
  else if off =? SDHCI_BLOCK_COUNT then v' = Sdhc (v_arg v) val (v_ints v) (v_xfer v) (v_sector v)
  else if off =? SDHCI_BUFFER then
    match v_xfer v with Writing lba got => v' = set_xfer (Writing lba (got ++ [val])) v | _ => v' = v end
  else if off =? SDHCI_COMMAND then
    known_command val = true ->
    (exists x, commanded v val x /\
       (v_xfer v' = x \/ v_xfer v <> Idle /\ (v_xfer v' = v_xfer v \/ v_xfer v' = Idle))) /\
    v_ints v' = v_ints v /\ kept v v'
  else other_write v v' /\ (off = SDHCI_SOFTWARE_RESET -> v_xfer v' = Idle).

Definition hc_read_step (v : sdhc) (off val : Z) (v' : sdhc) : Prop :=
  if off =? SDHCI_INT_STATUS then rtc advance v v' /\ val = v_ints v'
  else if off =? SDHCI_BUFFER then
    match v_xfer v with Reading rest (w :: fifo) => val = w /\ v' = set_xfer (Reading rest fifo) v | _ => v' = v end
  else v' = v /\ (off = SDHCI_PRESENT_STATE -> inhibited val = false -> v_xfer v = Idle).

(** Registers and the widths they are accessed with. *)
Definition reg_ok (sp : mmio_space) (width off : Z) : bool :=
  match sp with
  | HC => bool_decide ((off, width) ∈
      [(SDHCI_BLOCK_SIZE, 2); (SDHCI_BLOCK_COUNT, 2); (SDHCI_ARGUMENT, 4); (SDHCI_TRANSFER_MODE, 2); (SDHCI_COMMAND, 2);
       (SDHCI_RESPONSE_0, 4); (SDHCI_BUFFER, 4); (SDHCI_PRESENT_STATE, 4); (SDHCI_HOST_CONTROL, 1);
       (SDHCI_POWER_CONTROL, 1); (SDHCI_CLOCK_CONTROL, 2); (SDHCI_TIMEOUT_CONTROL, 1); (SDHCI_SOFTWARE_RESET, 1);
       (SDHCI_INT_STATUS, 4); (SDHCI_INT_ENABLE, 4); (SDHCI_SIGNAL_ENABLE, 4); (SDCC1_HC_VENDOR_SPEC, 4)])
  | _ => width =? 4
  end.

Class SdhciLaws (H : Type) `{Mmio H} := {
  view : H -> sdhc;
  sector_size_law h l : length (v_sector (view h) l) = 512%nat;
  sector_bytes_law h l : Forall is_u8 (v_sector (view h) l);
  read_range_law sp width off h : reg_ok sp width off = true ->
    0 <= (mmio_read sp width off h).1 < 2 ^ (8 * width);
  hc_read_law width off h : reg_ok HC width off = true ->
    hc_read_step (view h) off (mmio_read HC width off h).1 (view (mmio_read HC width off h).2);
  hc_write_law width off val h : reg_ok HC width off = true -> 0 <= val < 2 ^ (8 * width) ->
    hc_write_step (view h) off val (view (mmio_write HC width off val h));
  other_read_law sp width off h : sp <> HC -> reg_ok sp width off = true ->
    view (mmio_read sp width off h).2 = view h;
  other_write_law sp width off val h : sp <> HC -> reg_ok sp width off = true ->
    other_write (view h) (view (mmio_write sp width off val h));
  sleep_law usec h : view (usleep usec h) = view h;
}.
