(* ===== verification/EmmcBus.v ===== *)
(** * Transfers against the card

    The programmed transfers of the driver, run on hardware that satisfies [SdhciLaws]:
    reads return, leave the card as it was, stay inside the buffer they were given, and when
    they report success the buffer holds the sectors of the card. *)

From stdpp Require Import base list relations gmap strings.
From Stdlib Require Import ZArith Lia.
From S2P Require Import Prelude Wp Gpt Emmc EmmcCard.

(** ** Words and bytes *)

Lemma length_words_of n : forall l, length (words_of n l) = n.
Proof. induction n; intros; cbn; auto. Qed.

Lemma bytes_of_words n : forall l, length l = (4 * n)%nat -> Forall is_u8 l -> bytes_of (words_of n l) = l.
Proof.
  induction n as [|n IH]; intros l Hl Hb.
  - by destruct l.
  - destruct l as [|a [|b [|c [|d l]]]]; cbn in Hl; try lia.
    change (words_of (S n) (a :: b :: c :: d :: l)) with (le_combine [a; b; c; d] :: words_of n l).
    unfold bytes_of in *. rewrite fmap_cons. cbn [concat].
    assert (Forall is_u8 [a; b; c; d] /\ Forall is_u8 l) as [H4 Hr].
    { by apply (Forall_app _ [a; b; c; d]). }
    pose proof (le_split_combine _ H4) as E. cbn [length] in E. rewrite E.
    rewrite IH; [done | lia | done].
Qed.

Lemma bytes_of_snoc ws v : bytes_of (ws ++ [v]) = bytes_of ws ++ le_split 4 v.
Proof. unfold bytes_of. rewrite fmap_app, concat_app. cbn [fmap list_fmap concat]. by rewrite app_nil_r. Qed.

Lemma zlen_bytes_of ws : zlen (bytes_of ws) = 4 * zlen ws.
Proof.
  induction ws as [|w ws IH]; [done |]. unfold bytes_of in *. rewrite fmap_cons. cbn [concat].
  rewrite zlen_app, IH, zlen_cons, zlen_le_split. lia.
Qed.

(** Four bytes stored at [p] are the little-endian form of the word. *)
Lemma le_split_shift v : le_split 4 v = [u8 v; u8 (Z.shiftr v 8); u8 (Z.shiftr v 16); u8 (Z.shiftr v 24)].
Proof.
  unfold u8. rewrite !Z.shiftr_div_pow2 by lia. cbn [le_split].
  rewrite !Z.div_div by lia. done.
Qed.

Lemma put_byte_past pre q y r c n : zlen q = n -> put_byte (pre ++ q ++ y :: r) (zlen pre + n) c = Some (pre ++ q ++ c :: r).
Proof. intros <-. rewrite <- zlen_app, !(app_assoc pre). apply put_byte_here. Qed.

Lemma put_word_here pre x rest p v : zlen pre = p -> length x = 4%nat ->
  put_word (pre ++ x ++ rest) p v = Some (pre ++ le_split 4 v ++ rest).
Proof.
  intros <- Hx. destruct x as [|a [|b [|c [|d [|]]]]]; try done. clear Hx.
  rewrite le_split_shift. unfold put_word. cbn [app].
  rewrite put_byte_here. cbn [mbind option_bind].
  pose proof (put_byte_past pre [u8 v] b (c :: d :: rest) (u8 (Z.shiftr v 8)) 1 eq_refl) as P1.
  pose proof (put_byte_past pre [u8 v; u8 (Z.shiftr v 8)] c (d :: rest) (u8 (Z.shiftr v 16)) 2 eq_refl) as P2.
  pose proof (put_byte_past pre [u8 v; u8 (Z.shiftr v 8); u8 (Z.shiftr v 16)] d rest (u8 (Z.shiftr v 24)) 3 eq_refl) as P3.
  cbn [app] in P1, P2, P3. rewrite P1. cbn [mbind option_bind]. rewrite P2. cbn [mbind option_bind]. exact P3.
Qed.

(** ** Rules for the accesses *)

Definition same_dr (d d' : emmc) : Prop := set_counters ∅ d = set_counters ∅ d'.
#[global] Instance same_dr_equiv : Equivalence same_dr.
Proof. split; repeat intro; unfold same_dr in *; congruence. Qed.

Definition mapped (d : emmc) : Prop := base_of HC d <> 0.

Section bus.
Context {H : Type} {mmio : Mmio H} {laws : SdhciLaws H}.
Implicit Types w : world H.
Abbreviation at_hw w h := (World h (dr w) (io_buf w)).

Lemma unreachable_HC width off d : 0 < width -> off + width <= 0x500 ->
  unreachable HC width off d = (base_of HC d =? 0).
Proof.
  intros. unfold unreachable. rewrite (proj2 (Z.ltb_ge _ _)); [by rewrite orb_false_r |].
  change (size_of HC) with 0x500. lia.
Qed.

Lemma wp_io_read sp width off (Q : Z -> world H -> Prop) w : reg_ok sp width off = true ->
  (unreachable sp width off (dr w) = true -> Q (2 ^ (8 * width) - 1) w) ->
  (forall v h, unreachable sp width off (dr w) = false -> 0 <= v < 2 ^ (8 * width) ->
     match sp with HC => hc_read_step (view (hw w)) off v (view h) | _ => view h = view (hw w) end ->
     Q v (at_hw w h)) ->
  wp (io_read sp width off) Q w.
Proof.
  intros Hr H0 H1. unfold wp, io_read. destruct (unreachable sp width off (dr w)) eqn:E; [by apply H0 |].
  pose proof (read_range_law sp width off (hw w) Hr) as Hv.
  assert (match sp with
          | HC => hc_read_step (view (hw w)) off (mmio_read sp width off (hw w)).1 (view (mmio_read sp width off (hw w)).2)
          | _ => view (mmio_read sp width off (hw w)).2 = view (hw w) end) as Hs.
  { destruct sp; [by apply hc_read_law | by apply other_read_law..]. }
  destruct (mmio_read sp width off (hw w)) as [v h]. cbn [fst snd] in Hv, Hs.
  rewrite Z.mod_small by done. by apply H1.
Qed.

Lemma wp_io_write sp width off val (Q : unit -> world H -> Prop) w : reg_ok sp width off = true ->
  0 <= val < 2 ^ (8 * width) ->
  (unreachable sp width off (dr w) = true -> Q tt w) ->
  (forall h, unreachable sp width off (dr w) = false ->
     match sp with HC => hc_write_step (view (hw w)) off val (view h) | _ => other_write (view (hw w)) (view h) end ->
     Q tt (at_hw w h)) ->
  wp (io_write sp width off val) Q w.
Proof.
  intros Hr Hv H0 H1. unfold wp, io_write. rewrite Z.mod_small by done.
  destruct (unreachable sp width off (dr w)) eqn:E; [by apply H0 |]. apply H1; [done |].
  destruct sp; [by apply hc_write_law | by apply other_write_law..].
Qed.

Lemma wp_delay n (Q : unit -> world H -> Prop) w :
  (forall h, view h = view (hw w) -> Q tt (at_hw w h)) -> wp (delay n) Q w.
Proof. intros HQ. apply wp_act, HQ, sleep_law. Qed.

Lemma wp_status (Q : Z -> world H -> Prop) w :
  (base_of HC (dr w) = 0 -> Q 0xFFFFFFFF w) ->
  (forall h, mapped (dr w) -> rtc advance (view (hw w)) (view h) -> Q (v_ints (view h)) (at_hw w h)) ->
  wp (xzs_sdhci_hc_read32 SDHCI_INT_STATUS) Q w.
Proof.
  intros H0 H1. apply wp_io_read; [done | |]; rewrite unreachable_HC by (vm_compute; done).
  - intros ?%Z.eqb_eq. by apply H0.
  - intros v h ?%Z.eqb_neq _ [Ha ->]. by apply H1.
Qed.

Lemma wp_clear bits (Q : unit -> world H -> Prop) w : mapped (dr w) -> 0 <= bits < 2 ^ 32 ->
  (forall h, view h = set_ints (Z.ldiff (v_ints (view (hw w))) bits) (view (hw w)) -> Q tt (at_hw w h)) ->
  wp (clear_status bits) Q w.
Proof.
  intros Hm Hb HQ. apply wp_io_write; [done | done | |]; rewrite unreachable_HC by (vm_compute; done).
  - by intros ?%Z.eqb_eq.
  - intros h _ Hs. by apply HQ.
Qed.

Definition special (off : Z) : bool :=
  bool_decide (off ∈ [SDHCI_INT_STATUS; SDHCI_ARGUMENT; SDHCI_BLOCK_COUNT; SDHCI_BUFFER; SDHCI_COMMAND]).

(** A register of the host controller that plays no part in the model. *)
Definition plain (width off : Z) : bool :=
  reg_ok HC width off && (0 <? width) && (off + width <=? 0x500) && negb (special off).

Lemma plain_facts width off : plain width off = true ->
  reg_ok HC width off = true /\ 0 < width /\ off + width <= 0x500 /\ special off = false.
Proof. unfold plain. intros. by bool_to_prop. Qed.

Lemma not_special off : special off = false -> off <> SDHCI_INT_STATUS /\ off <> SDHCI_ARGUMENT /\
  off <> SDHCI_BLOCK_COUNT /\ off <> SDHCI_BUFFER /\ off <> SDHCI_COMMAND.
Proof. unfold special. intros Hn%bool_decide_eq_false. rewrite !not_elem_of_cons in Hn. naive_solver. Qed.

Lemma wp_ignored_read off width (Q : Z -> world H -> Prop) w : mapped (dr w) -> plain width off = true ->
  (forall v h, view h = view (hw w) -> Q v (at_hw w h)) -> wp (io_read HC width off) Q w.
Proof.
  intros Hm (Hr & ? & ? & (? & _ & _ & ? & _)%not_special)%plain_facts HQ.
  apply wp_io_read; [done | |]; rewrite unreachable_HC by done; [by intros ?%Z.eqb_eq |].
  intros v h _ _ Hs. unfold hc_read_step in Hs. rewrite !(proj2 (Z.eqb_neq _ _)) in Hs by done. by apply HQ, Hs.
Qed.

Lemma hc_write_other v off val v' : special off = false -> hc_write_step v off val v' ->
  other_write v v' /\ (off = SDHCI_SOFTWARE_RESET -> v_xfer v' = Idle).
Proof. unfold hc_write_step. intros (?&?&?&?&?)%not_special. by rewrite !(proj2 (Z.eqb_neq _ _)). Qed.

Lemma wp_other_write off width val (Q : unit -> world H -> Prop) w : mapped (dr w) -> plain width off = true ->
  0 <= val < 2 ^ (8 * width) ->
  (forall h, other_write (view (hw w)) (view h) -> (off = SDHCI_SOFTWARE_RESET -> v_xfer (view h) = Idle) -> Q tt (at_hw w h)) ->
  wp (io_write HC width off val) Q w.
Proof.
  intros Hm (Hr & ? & ? & Hs)%plain_facts ? HQ.
  apply wp_io_write; [done | done | |]; rewrite unreachable_HC by done; [by intros ?%Z.eqb_eq |].
  intros h _ [? ?]%hc_write_other; [| done]. by apply HQ.
Qed.

(** ** Waiting for the lines *)

Lemma wait_idle_spec w : wp wait_idle (fun pstate w' => exists h, w' = at_hw w h /\ view h = view (hw w) /\
  (inhibited pstate = false -> mapped (dr w) /\ v_xfer (view h) = Idle)) w.
Proof.
  apply wp_bind. eapply wp_mono.
  - apply (wp_poll_count
      (fun k s w' => (k = 500000 \/ inhibited s = true) /\ exists h, w' = at_hw w h /\ view h = view (hw w))
      (fun s w' => exists h, w' = at_hw w h /\ view h = view (hw w) /\ inhibited s = false /\ mapped (dr w) /\ v_xfer (view h) = Idle))
      with (k := 500000).
    + intros k s w1 _ (_ & h & -> & Hv). apply wp_bind. apply wp_io_read; [done | |];
        rewrite unreachable_HC by (vm_compute; done); cbn [dr hw io_buf].
      * intros ?%Z.eqb_eq. change (inhibited (2 ^ (8 * 4) - 1)) with true. cbv iota.
        apply wp_bind, wp_delay. intros h' Hv'. apply wp_ret. cbn [dr hw io_buf] in *. split; [by right |].
        exists h'. split; [done | congruence].
      * intros v h' Hm%Z.eqb_neq _ [Hv' Hi]. cbn [dr hw io_buf] in *.
        destruct (inhibited v) eqn:Ei.
        -- apply wp_bind, wp_delay. intros h2 Hv2. apply wp_ret. cbn [dr hw io_buf] in *. split; [by right |].
           exists h2. split; [done | congruence].
        -- apply wp_ret. exists h'. split_and!; [done | congruence | done | done |]. rewrite Hv'. by apply Hi.
    + done.
    + split; [by left |]. exists (hw w). by destruct w.
  - intros [s | s] w'.
    + intros ([? | E] & h & -> & Hv); [lia |]. apply wp_ret. exists h. rewrite E. done.
    + intros (h & -> & Hv & E & Hm & Hi). apply wp_ret. by exists h.
Qed.

(** No transfer to the card is under way. *)
Definition resting (v : sdhc) : Prop := forall l got, v_xfer v <> Writing l got.

Lemma idle_resting v : v_xfer v = Idle -> resting v.
Proof. intros E l got. by rewrite E. Qed.

Lemma kept_resting v v' : resting v -> kept v v' -> forall l, v_sector v' l = v_sector v l.
Proof. intros Hr Hk l. apply Hk, Hr. Qed.

Lemma other_write_resting v v' : resting v -> other_write v v' ->
  resting v' /\ v_arg v' = v_arg v /\ v_blocks v' = v_blocks v /\ (forall l, v_sector v' l = v_sector v l) /\
  (v_xfer v = Idle -> v_xfer v' = Idle).
Proof.
  intros Hr (? & ? & Hx & Hk). split_and!; [| done | done | by apply kept_resting |].
  - destruct Hx as [E | E]; intros l got; rewrite E; [apply Hr | done].
  - intros Hi. destruct Hx as [-> | ->]; done.
Qed.

(** No interrupt pending. *)
Definition no_ints (i : Z) : Prop := forall m, Z.ldiff m 0xFFFFFFFF = 0 -> has i m = false.

(** A command given while nothing is being written.  Given to a busy controller it may have no effect. *)
Lemma start_any_spec w blocks arg mode enable cmd : mapped (dr w) -> resting (view (hw w)) ->
  is_u16 blocks -> is_u32 arg -> is_u16 mode -> is_u32 enable -> is_u16 cmd -> known_command cmd = true ->
  wp (start_transfer blocks arg mode enable cmd) (fun _ w' => exists h, w' = at_hw w h /\ no_ints (v_ints (view h)) /\
    (forall l, v_sector (view h) l = v_sector (view (hw w)) l) /\
    exists v0, v_arg v0 = arg /\ v_blocks v0 = blocks /\ (forall l, v_sector v0 l = v_sector (view (hw w)) l) /\
      (commanded v0 cmd (v_xfer (view h)) \/ resting (view h) /\ v_xfer (view (hw w)) <> Idle)) w.
Proof.
  intros Hm Hi Hb Ha Hmo He Hc Hk.
  apply wp_bind. apply wp_other_write; [done | done | done |]. intros h1 O1 _. cbn [dr hw io_buf].
  apply other_write_resting in O1 as (R1 & _ & _ & S1 & I1); [| done].
  apply wp_bind. apply wp_io_write; [done | exact Hb | |]; rewrite unreachable_HC by (vm_compute; done); [by intros ?%Z.eqb_eq |].
  intros h2 _ E2. cbn [dr hw io_buf] in *. cbn in E2.
  apply wp_bind. apply wp_io_write; [done | exact Ha | |]; rewrite unreachable_HC by (vm_compute; done); [by intros ?%Z.eqb_eq |].
  intros h3 _ E3. cbn [dr hw io_buf] in *. cbn in E3. rewrite E2 in E3.
  assert (resting (view h3)) as R3 by (rewrite E3; exact R1).
  apply wp_bind. apply wp_other_write; [done | done | done |]. intros h4 O4 _. cbn [dr hw io_buf] in *.
  apply other_write_resting in O4 as (R4 & A4 & B4 & S4 & I4); [| done].
  apply wp_bind. apply wp_other_write; [done | done | done |]. intros h5 O5 _. cbn [dr hw io_buf] in *.
  apply other_write_resting in O5 as (R5 & A5 & B5 & S5 & I5); [| done].
  apply wp_bind. apply wp_other_write; [done | done | done |]. intros h6 O6 _. cbn [dr hw io_buf] in *.
  apply other_write_resting in O6 as (R6 & A6 & B6 & S6 & I6); [| done].
  apply wp_bind, wp_clear; [done | vm_compute; done |]. intros h7 E7. cbn [dr hw io_buf] in *.
  apply wp_io_write; [done | exact Hc | |]; rewrite unreachable_HC by (vm_compute; done); [by intros ?%Z.eqb_eq |].
  intros h8 _ E8. cbn [dr hw io_buf] in *. apply E8 in Hk as ((x & Hx & Hor) & Ei & K8). clear E8.
  assert (forall l, v_sector (view h7) l = v_sector (view (hw w)) l) as S7.
  { intros l. rewrite E7. cbn. rewrite S6, S5, S4, E3. cbn. apply S1. }
  assert (resting (view h7)) as R7 by by rewrite E7.
  exists h8. split_and!; [done | | |].
  - rewrite Ei, E7. cbn. intros m Hm'. by apply has_ldiff_same.
  - intros l. by rewrite (kept_resting (view h7)), S7.
  - exists (view h7). split_and!; [rewrite E7; cbn; by rewrite A6, A5, A4, E3 | rewrite E7; cbn; by rewrite B6, B5, B4, E3 | done |].
    destruct Hor as [-> | [Hbusy Hor]]; [by left | right]. split.
    + destruct Hor as [E | E]; intros l got; rewrite E; [apply R7 | done].
    + intros Hid. apply Hbusy. rewrite E7. cbn. apply I6, I5, I4. rewrite E3. cbn. by apply I1.
Qed.

Lemma start_spec w blocks arg mode enable cmd : mapped (dr w) -> v_xfer (view (hw w)) = Idle ->
  is_u16 blocks -> is_u32 arg -> is_u16 mode -> is_u32 enable -> is_u16 cmd -> known_command cmd = true ->
  wp (start_transfer blocks arg mode enable cmd) (fun _ w' => exists h, w' = at_hw w h /\ no_ints (v_ints (view h)) /\
    (forall l, v_sector (view h) l = v_sector (view (hw w)) l) /\
    exists v0, v_arg v0 = arg /\ v_blocks v0 = blocks /\ (forall l, v_sector v0 l = v_sector (view (hw w)) l) /\
      commanded v0 cmd (v_xfer (view h))) w.
Proof.
  intros. eapply wp_mono; [apply start_any_spec; try done; by apply idle_resting |].
  intros [] w' (h & E & Hn & Hs & v0 & A0 & B0 & S0 & [Hc | [_ ?]]); [| done]. exists h. split_and!; [done.. |]. by exists v0.
Qed.

(** ** Progress *)

(** Nothing is being written, and the sectors are those of [sec]. *)
Definition still (sec : Z -> bytes) (v : sdhc) : Prop :=
  (forall l, v_sector v l = sec l) /\ resting v.

(** Blocks [bs] are still to be read: nothing of them is in the data port yet, or the first one
    is; or an error is pending. *)
Definition waiting (bs : list bytes) (v : sdhc) : Prop :=
  let brr := has (v_ints v) SDHCI_INT_BUF_READ_READY in
  error_bits (v_ints v) = true \/
  (v_xfer v = Reading bs [] /\ brr = false) \/
  (exists b rest, bs = b :: rest /\ v_xfer v = Reading rest (block_words b) /\ brr = true) \/
  (bs = [] /\ v_xfer v = Idle /\ brr = false).

Lemma error_bits_lor a b : error_bits (Z.lor a b) = error_bits a || error_bits b.
Proof. apply has_lor. Qed.

Lemma raise_error bit v : error_bits (v_ints v) = true -> error_bits (v_ints (raise bit v)) = true.
Proof. intros E. cbn. by rewrite error_bits_lor, E. Qed.

Lemma advance_waiting bs v v' : advance v v' -> waiting bs v -> waiting bs v'.
Proof.
  intros Ha [He | Hw].
  { left. destruct Ha as [| | | | | v v' e He' Ei]; try (by apply raise_error). by rewrite Ei, error_bits_lor, He. }
  destruct Ha as [v | v b rest Hx | v Hx | v lba Hx | v lba got Hx | v v' e He Ei].
  - right. unfold waiting. cbn [v_ints raise set_ints v_xfer]. by rewrite has_lor, orb_false_r.
  - right. right. left. destruct Hw as [[Hx' _] | [(b' & rest' & _ & Hx' & _) | (_ & Hx' & _)]]; rewrite Hx in Hx'; try done.
    injection Hx' as <-. exists b, rest. cbn [v_ints raise set_ints v_xfer]. by rewrite has_lor, orb_true_r.
  - destruct Hw as [[Hx' Hb] | [(b' & rest' & _ & Hx' & _) | (_ & Hx' & _)]]; rewrite Hx in Hx'; try done.
    injection Hx' as <-. do 3 right. cbn [v_ints raise set_ints v_xfer set_xfer]. by rewrite has_lor, Hb.
  - destruct Hw as [[Hx' _] | [(b' & rest' & _ & Hx' & _) | (_ & Hx' & _)]]; rewrite Hx in Hx'; done.
  - destruct Hw as [[Hx' _] | [(b' & rest' & _ & Hx' & _) | (_ & Hx' & _)]]; rewrite Hx in Hx'; done.
  - left. by rewrite Ei, error_bits_lor, He, orb_true_r.
Qed.

Lemma advance_still sec v v' : advance v v' -> still sec v -> still sec v'.
Proof.
  intros Ha [Hs Hr]. destruct Ha as [v | v b rest Hx | v Hx | v lba Hx | v lba got Hx | v v' e He Ei Hx Hk];
    try (by destruct (Hr _ _ Hx)); try (split; cbn; by auto).
  split; [| by apply idle_resting]. intros l. rewrite <- Hs. apply Hk, Hr.
Qed.

Lemma advances_waiting bs v v' : rtc advance v v' -> waiting bs v -> waiting bs v'.
Proof. induction 1; eauto using advance_waiting. Qed.
Lemma advances_still sec v v' : rtc advance v v' -> still sec v -> still sec v'.
Proof. induction 1; eauto using advance_still. Qed.

(** Clearing a bit other than the data-ready one. *)
Lemma waiting_clear bs v bits : Z.land SDHCI_INT_BUF_READ_READY bits = 0 -> error_bits (v_ints v) = false ->
  waiting bs v -> waiting bs (set_ints (Z.ldiff (v_ints v) bits) v).
Proof. intros Hb He [? | Hw]; [congruence |]. right. cbn. by rewrite has_ldiff_other. Qed.

Lemma waiting_ready bs v : waiting bs v -> error_bits (v_ints v) = false ->
  has (v_ints v) SDHCI_INT_BUF_READ_READY = true ->
  exists b rest, bs = b :: rest /\ v_xfer v = Reading rest (block_words b).
Proof. intros [? | [[? ?] | [(b & rest & ? & ? & ?) | (? & ? & ?)]]] ??; try congruence. eauto. Qed.

Lemma still_ints sec v i : still sec v -> still sec (set_ints i v).
Proof. done. Qed.
Lemma still_xfer sec v rest fifo : still sec v -> still sec (set_xfer (Reading rest fifo) v).
Proof. by intros [? _]. Qed.

(** ** A block from the data port *)

Lemma wp_fifo_read (Q : Z -> world H -> Prop) w v fifo rest : mapped (dr w) -> v_xfer (view (hw w)) = Reading rest (v :: fifo) ->
  (forall h, 0 <= v < 2 ^ 32 -> view h = set_xfer (Reading rest fifo) (view (hw w)) -> Q v (at_hw w h)) ->
  wp fifo_read Q w.
Proof.
  intros Hm%Z.eqb_neq Hx HQ. unfold wp, fifo_read. rewrite Hm.
  pose proof (read_range_law HC 4 SDHCI_BUFFER (hw w) eq_refl) as Hv.
  pose proof (hc_read_law 4 SDHCI_BUFFER (hw w) eq_refl) as Hs.
  destruct (mmio_read HC 4 SDHCI_BUFFER (hw w)) as [x h]. cbn [fst snd] in Hv, Hs.
  unfold hc_read_step in Hs. cbn in Hs. rewrite Hx in Hs. destruct Hs as [-> Hs].
  rewrite Z.mod_small by done. by apply HQ.
Qed.

Lemma read_block_spec w out pre old post rest fifo : mapped (dr w) -> v_xfer (view (hw w)) = Reading rest fifo ->
  length fifo = 128%nat -> io_buf w = pre ++ old ++ post -> zlen pre = out -> length old = 512%nat ->
  wp (read_block out) (fun _ w' => exists h, w' = World h (dr w) (pre ++ bytes_of fifo ++ post) /\
    view h = set_xfer (Reading rest []) (view (hw w))) w.
Proof.
  intros Hm Hx Hf Hb Ho Hl. unfold read_block.
  apply (wp_each (fun k w' => exists h, view h = set_xfer (Reading rest (drop (Z.to_nat k) fifo)) (view (hw w)) /\
    w' = World h (dr w) (pre ++ bytes_of (take (Z.to_nat k) fifo) ++ drop (4 * Z.to_nat k) old ++ post))).
  - exists (hw w). split; [by destruct (view (hw w)); cbn in *; subst |]. destruct w as [h d b]. cbn in Hb |- *. by subst b.
  - intros k w1 Hk (h & Hv & ->). change (0 + Z.of_nat 128) with 128 in Hk.
    destruct (lookup_lt_is_Some_2 fifo (Z.to_nat k)) as [v Ev]; [lia |].
    apply wp_bind. eapply (wp_fifo_read _ _ v (drop (S (Z.to_nat k)) fifo) rest); [done | |].
    { cbn [hw]. rewrite Hv. cbn. by rewrite (drop_S _ v). }
    intros h' _ Hv'. cbn [dr hw io_buf] in *. unfold wp, store_word. cbn [io_buf].
    rewrite app_assoc, <- (take_drop 4 (drop (4 * Z.to_nat k) old)), <- (app_assoc (take 4 _)), drop_drop.
    rewrite put_word_here; cycle 1.
    { rewrite zlen_app, zlen_bytes_of, zlen_take by (unfold zlen; lia). lia. }
    { rewrite length_take, length_drop. lia. }
    exists h'. split; [rewrite Hv', Hv; cbn; by replace (Z.to_nat (k + 1)) with (S (Z.to_nat k)) by lia |]. cbn [hw dr]. f_equal.
    replace (Z.to_nat (k + 1)) with (S (Z.to_nat k)) by lia.
    rewrite (take_S_r _ _ v) by done. rewrite bytes_of_snoc, <- !app_assoc.
    by replace (4 * S (Z.to_nat k))%nat with (4 * Z.to_nat k + 4)%nat by lia.
  - intros w1 (h & Hv & ->). exists h. change (Z.to_nat (0 + Z.of_nat 128)) with 128%nat in *.
    rewrite (drop_ge fifo) in Hv by lia. split; [| done]. rewrite (drop_ge old) by lia. rewrite take_ge by lia. done.
Qed.

(** ** One sector *)

Lemma wp_and_then (c : prog (world H) _) f (Q : _ -> world H -> Prop) w :
  wp c (fun r => match r with Next s => wp (f s) Q | Exit x => Q (Exit x) end) w -> wp (and_then c f) Q w.
Proof. intros Hc. apply wp_bind, (wp_mono _ _ _ _ Hc). intros [s | x] w' Hq; [done |]. by apply wp_ret. Qed.

(** Turns the loop can still take. *)
Definition pio_measure (s : pio) : Z :=
  (if cmd_complete_seen s then 0 else 2000001 - cmd_polls s) +
  (if brr_seen s then 0 else 2000001 - brr_polls s) +
  (if transfer_complete_seen s then 0 else 2000001 - transfer_polls s).
Definition pio_bounds (s : pio) : Prop :=
  0 <= cmd_polls s < 2000000 /\ 0 <= brr_polls s < 2000000 /\ 0 <= transfer_polls s < 2000000.

Section sector.
Context (d : emmc) (sec : Z -> bytes) (lba : Z) (pre post : bytes).
Hypothesis Hd : mapped d.
Hypothesis Hsec : forall l, length (sec l) = 512%nat /\ Forall is_u8 (sec l).

(** The driver untouched, the card as it was, the buffer changed in its window only. *)
Definition framed (w : world H) (new : bytes) : Prop :=
  dr w = d /\ io_buf w = pre ++ new ++ post /\ length new = 512%nat /\ still sec (view (hw w)).

Definition reading (st : Z) (s : pio) (w : world H) : Prop :=
  pio_bounds s /\ exists new, framed w new /\
    if brr_seen s then new = sec lba /\ bytes_read s = 512
    else bytes_read s = 0 /\ waiting [sec lba] (view (hw w)) /\ error_bits (v_ints (view (hw w))) = false /\
         has (v_ints (view (hw w))) SDHCI_INT_BUF_READ_READY = has st SDHCI_INT_BUF_READ_READY.

(** How the loop may be left. *)
Definition left_with (x : Z * bool * pio) (w : world H) : Prop :=
  let '(err, timeout, s) := x in
  exists new, framed w new /\ (timeout = true \/ err <> 0 \/ new = sec lba /\ bytes_read s = 512).

(** A part of a turn: afterwards the loop goes on in [good], or it is left. *)
Definition part_post (good : pio -> world H -> Prop) (r : ctl pio (Z * bool * pio)) (w : world H) : Prop :=
  match r with Next s => good s w | Exit x => left_with x w end.

Lemma reading_frame st s w : reading st s w -> exists new, framed w new.
Proof. intros (_ & new & Hf & _). eauto. Qed.

(** Clearing a bit that is neither an error nor the data-ready bit. *)
Lemma reading_clear st s w h bits : reading st s w ->
  Z.land SDHCI_INT_BUF_READ_READY bits = 0 -> Z.land (Z.lor SDHCI_INT_ERROR 0xFFFF0000) bits = 0 ->
  view h = set_ints (Z.ldiff (v_ints (view (hw w))) bits) (view (hw w)) -> reading st s (at_hw w h).
Proof.
  intros (Hb & new & (E1 & E2 & E3 & E4) & Hs) Hr He Hv. split; [done |]. exists new. split.
  { split_and!; cbn; [done.. |]. by rewrite Hv. }
  destruct (brr_seen s); [done |]. destruct Hs as (? & Hw & Hn & Hg). split; [done |]. cbn. rewrite Hv. split_and!.
  - by apply waiting_clear.
  - cbn. unfold error_bits. by rewrite has_ldiff_other.
  - cbn. by rewrite has_ldiff_other.
Qed.

Lemma reading_pio st s s' w : reading st s w -> brr_seen s' = brr_seen s -> bytes_read s' = bytes_read s -> pio_bounds s' ->
  reading st s' w.
Proof. intros (_ & new & Hf & Hs) E1 E2 Hb. split; [done |]. exists new. by rewrite E1, E2. Qed.

Ltac pio_solve :=
  cbn [part_post]; repeat match goal with |- _ /\ _ => split end;
  first
    [ done
    | by eapply reading_pio; [eassumption | done | done | unfold pio_bounds; cbn; lia]
    | unfold pio_measure; cbn; repeat match goal with E : ?x = _ |- context [if ?x then _ else _] => rewrite E end;
      first [lia | by intros] ].

Lemma command_part_spec st s w : reading st s w ->
  wp (command_part st s) (part_post (fun s' w' => reading st s' w' /\ pio_measure s' <= pio_measure s /\
    (cmd_complete_seen s = false -> pio_measure s' < pio_measure s) /\
    (cmd_complete_seen s = true -> s' = s) /\
    brr_seen s' = brr_seen s /\ transfer_complete_seen s' = transfer_complete_seen s)) w.
Proof.
  intros Hr. pose proof Hr as (Hb & new & Hf & Hs). pose proof Hf as (E1 & _ & _ & _). unfold command_part.
  destruct (cmd_complete_seen s) eqn:Ec; [apply wp_ret; pio_solve |].
  destruct (has st SDHCI_INT_RESPONSE).
  - apply wp_bind, wp_ignored_read; [by rewrite E1 | done |]. intros r1 h1 V1.
    apply wp_bind, wp_clear; [by cbn; rewrite E1 | done |]. intros h2 V2. apply wp_ret. cbn [hw dr io_buf] in *. rewrite V1 in V2.
    assert (reading st s (at_hw w h2)) as R2 by (eapply reading_clear; [exact Hr | | | exact V2]; done).
    destruct Hb as (? & ? & ?).
    pio_solve.
  - destruct Hb as (? & ? & ?). cbn [cmd_polls]. rewrite (u32_small (cmd_polls s + 1)) by cint.
    destruct (Z.leb_spec (Z.pos MAX_POLLS) (cmd_polls s + 1)) as [Hle | Hlt]; apply wp_ret.
    + exists new. split; [done |]. by left.
    + change (Z.pos MAX_POLLS) with 2000000 in Hlt. pio_solve.
Qed.

Lemma data_part_spec st s w : reading st s w ->
  wp (data_part st (zlen pre) s) (part_post (fun s' w' => reading st s' w' /\ pio_measure s' <= pio_measure s /\
    (cmd_complete_seen s = true -> brr_seen s = false -> pio_measure s' < pio_measure s) /\
    (brr_seen s = true -> s' = s) /\
    cmd_complete_seen s' = cmd_complete_seen s /\ transfer_complete_seen s' = transfer_complete_seen s)) w.
Proof.
  intros Hr. pose proof Hr as (Hb & new & Hf & Hs). pose proof Hf as (E1 & E2 & E3 & E4). unfold data_part.
  destruct (brr_seen s) eqn:Eb; [apply wp_ret; pio_solve |].
  destruct Hs as (Hz & Hw & Hn & Hg). destruct (has st SDHCI_INT_BUF_READ_READY) eqn:Eg.
  - destruct (waiting_ready _ _ Hw Hn Hg) as (b & rest & [= <- <-] & Hx).
    apply wp_bind. eapply wp_mono.
    { eapply (read_block_spec w _ pre new post); [by rewrite E1 | exact Hx | apply length_words_of | done | done | done]. }
    intros [] w1 (h & -> & Hv). apply wp_bind, wp_clear; [by cbn; rewrite E1 | done |].
    intros h2 V2. apply wp_ret. cbn [hw dr io_buf] in *. rewrite Hv in V2.
    destruct (Hsec lba) as [Hl Hu8]. destruct Hb as (? & ? & ?).
    split_and!; try done; [| unfold pio_measure; cbn; rewrite Eb; lia | unfold pio_measure; cbn; rewrite Eb; lia].
    split; [unfold pio_bounds; cbn; lia |]. exists (sec lba). split; [| done]. split_and!; [done | | done |].
    + cbn [io_buf]. unfold block_words. by rewrite (bytes_of_words 128).
    + cbn. rewrite V2. apply still_ints, still_xfer, E4.
  - destruct (cmd_complete_seen s) eqn:Ec; cycle 1.
    { apply wp_ret. pio_solve. }
    destruct Hb as (? & ? & ?). cbn [brr_polls]. rewrite (u32_small (brr_polls s + 1)) by cint.
    destruct (Z.leb_spec (Z.pos MAX_POLLS) (brr_polls s + 1)) as [Hle | Hlt]; apply wp_ret.
    + exists new. split; [done |]. by left.
    + change (Z.pos MAX_POLLS) with 2000000 in Hlt. pio_solve.
Qed.

Lemma end_part_spec st s w : reading st s w ->
  wp (end_part st s) (part_post (fun s' w' => reading st s' w' /\ pio_measure s' <= pio_measure s /\
    (brr_seen s = true -> transfer_complete_seen s = false -> pio_measure s' < pio_measure s) /\
    cmd_complete_seen s' = cmd_complete_seen s /\ brr_seen s' = brr_seen s)) w.
Proof.
  intros Hr. pose proof Hr as (Hb & new & Hf & Hs). pose proof Hf as (E1 & _ & _ & _). unfold end_part.
  destruct (transfer_complete_seen s) eqn:Et; [apply wp_ret; pio_solve |].
  destruct Hb as (? & ? & ?). destruct (has st SDHCI_INT_DATA_END).
  - apply wp_bind, wp_clear; [by rewrite E1 | done |]. intros h2 V2. apply wp_ret.
    assert (reading st s (at_hw w h2)) as R2 by (eapply reading_clear; [exact Hr | | | exact V2]; done).
    pio_solve.
  - destruct (brr_seen s) eqn:Eb; [| apply wp_ret; pio_solve].
    cbn [transfer_polls]. rewrite (u32_small (transfer_polls s + 1)) by cint.
    destruct (Z.leb_spec (Z.pos MAX_POLLS) (transfer_polls s + 1)) as [Hle | Hlt]; apply wp_ret.
    + exists new. split; [done |]. by left.
    + change (Z.pos MAX_POLLS) with 2000000 in Hlt. pio_solve.
Qed.

(** Between turns. *)
Definition turning (s : pio) (w : world H) : Prop :=
  reading (v_ints (view (hw w))) s w /\
  cmd_complete_seen s && brr_seen s && transfer_complete_seen s = false.

Lemma reading_status s w h : reading (v_ints (view (hw w))) s w -> rtc advance (view (hw w)) (view h) ->
  error_bits (v_ints (view h)) = false -> reading (v_ints (view h)) s (at_hw w h).
Proof.
  intros (Hb & new & (E1 & E2 & E3 & E4) & Hs) Ha He. split; [done |]. exists new.
  split; [split_and!; [done.. | by eapply advances_still] |].
  destruct (brr_seen s); [done |]. destruct Hs as (? & Hw & _). split_and!; [done | by eapply advances_waiting | done | done].
Qed.

Lemma read_turn_spec s w : turning s w ->
  wp (read_turn (zlen pre) s) (fun r w' => match r with
    | Next s' => turning s' w' /\ pio_measure s' < pio_measure s
    | Exit x => left_with x w' end) w.
Proof.
  intros [Hr Hn]. pose proof Hr as (_ & new & (E1 & E2 & E3 & E4) & _).
  apply wp_bind, wp_status; [intros E; rewrite E1 in E; done |].
  intros h _ Ha. destruct (error_bits (v_ints (view h))) eqn:He.
  { apply wp_ret. exists new. split; [split_and!; [done.. | by eapply advances_still] |]. right. left.
    intros E. unfold error_bits, has in He. change (Z.lor SDHCI_INT_ERROR 0xFFFF0000) with 0xFFFF8000 in He. by rewrite E in He. }
  apply wp_and_then. eapply wp_mono; [by eapply command_part_spec, reading_status |].
  intros [s1 | x] w1; [| done]. intros (R1 & M1 & S1 & K1 & B1 & T1).
  apply wp_and_then. eapply wp_mono; [by apply data_part_spec |].
  intros [s2 | x] w2; [| done]. intros (R2 & M2 & S2 & K2 & C2 & T2).
  apply wp_and_then. eapply wp_mono; [by apply end_part_spec |].
  intros [s3 | x] w3; [| done]. intros (R3 & M3 & S3 & C3 & B3).
  destruct (cmd_complete_seen s3 && brr_seen s3 && transfer_complete_seen s3) eqn:Ed; apply wp_ret.
  - destruct R3 as (_ & new3 & Hf3 & Hs3). exists new3. split; [done |]. bool_to_prop.
    destruct (brr_seen s3); [| done]. by do 2 right.
  - split.
    + split; [| done]. destruct R3 as (Hb3 & new3 & Hf3 & Hs3). split; [done |]. exists new3. split; [done |].
      destruct (brr_seen s3); naive_solver.
    + destruct (cmd_complete_seen s) eqn:Ec; [| specialize (S1 eq_refl); lia]. rewrite (K1 eq_refl) in *.
      destruct (brr_seen s) eqn:Eb; [| specialize (S2 Ec eq_refl); lia]. rewrite (K2 eq_refl) in *.
      cbn in Hn. specialize (S3 Eb Hn). lia.
Qed.

Lemma read_loop_spec w : turning pio_start w ->
  wp (forever READ_FUEL (read_turn (zlen pre)) pio_start) left_with w.
Proof.
  intros Ht. apply (wp_forever turning pio_measure); [done | done |].
  intros s w1 H1. split; [| by apply read_turn_spec].
  destruct H1 as [((? & ? & ?) & _) _]. unfold pio_measure.
  destruct (cmd_complete_seen s), (brr_seen s), (transfer_complete_seen s); lia.
Qed.
End sector.

Lemma still_refl w : (forall l got, v_xfer (view (hw w)) <> Writing l got) -> still (v_sector (view (hw w))) (view (hw w)).
Proof. done. Qed.

Lemma wp_diag name v (Q : unit -> world H -> Prop) w :
  Q tt (World (hw w) (set_counters (<[name := v]> (g_counters (dr w))) (dr w)) (io_buf w)) -> wp (diag name v) Q w.
Proof. intros HQ. by apply wp_act. Qed.

Lemma same_dr_counters m d : same_dr d (set_counters m d).
Proof. done. Qed.

Lemma wp_reset_lines (Q : unit -> world H -> Prop) w :
  (forall h, base_of HC (dr w) = 0 /\ view h = view (hw w) \/
             mapped (dr w) /\ kept (view (hw w)) (view h) /\ v_xfer (view h) = Idle -> Q tt (at_hw w h)) -> wp reset_lines Q w.
Proof.
  intros HQ. unfold reset_lines. apply wp_io_write; [done | done | |]; rewrite unreachable_HC by done.
  - intros E%Z.eqb_eq. specialize (HQ (hw w)). destruct w. apply HQ. by left.
  - intros h Hm%Z.eqb_neq Hs. apply HQ. right. apply hc_write_other in Hs as [(_ & _ & _ & Hk) Hx]; [| done]. auto.
Qed.

Lemma wp_give_up sec rc (Q : Z -> world H -> Prop) w : still sec (view (hw w)) ->
  (forall h, still sec (view h) -> Q rc (at_hw w h)) -> wp (_ ← reset_lines; _ ← delay 10; mret rc) Q w.
Proof.
  intros [Hs Hr] HQ. apply wp_bind, wp_reset_lines. intros h2 Hor. apply wp_bind, wp_delay. intros h3 V3. apply wp_ret.
  cbn [hw dr io_buf] in *. apply HQ. rewrite V3. destruct Hor as [[_ ->] | (_ & Hk & Hx)]; [by split |].
  split; [| by apply idle_resting]. intros l. rewrite <- Hs. by apply Hk.
Qed.

(** The sector read: it always returns, changes only diagnostics in the driver and the window in
    the buffer, leaves the card as it was, and on success the window holds the sector. *)
Lemma read_sector_pio_spec sec w lba count pre old post :
  still sec (view (hw w)) -> is_u32 lba -> io_buf w = pre ++ old ++ post -> length old = 512%nat ->
  wp (xzs_emmc_read_sector_pio lba count (Some (zlen pre))) (fun rc w' => exists new,
    same_dr (dr w) (dr w') /\ io_buf w' = pre ++ new ++ post /\ length new = 512%nat /\ still sec (view (hw w')) /\
    (rc = 0 -> new = sec lba)) w.
Proof.
  intros Hs Hlba Hb Hl. cbn [xzs_emmc_read_sector_pio]. destruct ((count =? 0) || (count <=? lba)).
  { apply wp_ret. by exists old. }
  apply wp_bind. eapply wp_mono; [apply wait_idle_spec |]. intros ps w1 (h1 & -> & V1 & Hi).
  destruct (inhibited ps) eqn:Ei.
  { apply (wp_give_up sec); [by cbn; rewrite V1 |]. intros h2 S2. exists old. by split_and!. }
  destruct (Hi eq_refl) as [Hm Hx]. apply wp_bind. eapply wp_mono.
  { apply start_spec; [done | done | done | done | done | done | done | done]. }
  intros [] w2 (h2 & -> & Hn & Hse & v0 & A0 & B0 & S0 & Hc). cbn [hw dr io_buf] in *.
  change (v_xfer (view h2) = Reading [v_sector v0 (v_arg v0)] []) in Hc. rewrite S0, A0 in Hc.
  destruct Hs as [Hs Hr]. rewrite V1 in *.
  assert (forall l, length (sec l) = 512%nat /\ Forall is_u8 (sec l)) as Hsec.
  { intros l. rewrite <- Hs. split; [apply sector_size_law | apply sector_bytes_law]. }
  apply wp_bind. eapply wp_mono.
  { apply (read_loop_spec (dr w) sec lba pre post Hm Hsec). split; [| done]. split; [done |]. exists old.
    split; [split_and!; [done | done | done | split; [intros l; cbn; by rewrite Hse, Hs | intros ??; cbn; by rewrite Hc]] |].
    cbn. split_and!; [done | | by apply Hn | done]. right. left. cbn. rewrite Hc, Hs. by split; [| apply Hn]. }
  intros [[err timeout] s] w3 (new & (E1 & E2 & E3 & E4) & Hor).
  do 6 (apply wp_bind, wp_diag). apply wp_ret. exists new. cbn [hw dr io_buf]. split_and!; [| done | done | done |].
  { rewrite E1. done. }
  destruct Hor as [-> | [Herr | [-> _]]]; cbn; [done | | done].
  apply Z.eqb_neq in Herr. rewrite Herr. by rewrite orb_true_r.
Qed.
End bus.
