(* ===== verification/EmmcAnyHw.v ===== *)
(** * Faulty hardware

    What holds of the sector read on any hardware whatsoever, also one that obeys none of the
    laws (a controller that is stuck, or that returns arbitrary register values): the read
    returns, after a number of turns that the poll counters bound, and it writes to nothing but
    the window of the buffer it was given and its diagnostics. *)

From stdpp Require Import base list gmap strings.
From Stdlib Require Import ZArith Lia.
From S2P Require Import Prelude Wp Gpt Emmc EmmcCard EmmcBus.

Section any.
Context {H : Type} {mmio : Mmio H}.
Implicit Types w : world H.
Abbreviation at_hw w h := (World h (dr w) (io_buf w)).

Lemma any_read sp width off (Q : Z -> world H -> Prop) w : (forall v h, Q v (at_hw w h)) -> wp (io_read sp width off) Q w.
Proof.
  intros HQ. unfold wp, io_read. destruct (unreachable _ _ _ _); [destruct w; apply (HQ _ hw) |]. destruct (mmio_read _ _ _ _). apply HQ.
Qed.
Lemma any_write sp width off val (Q : unit -> world H -> Prop) w : (forall h, Q tt (at_hw w h)) -> wp (io_write sp width off val) Q w.
Proof. intros HQ. unfold wp, io_write. destruct (unreachable _ _ _ _); [destruct w; apply (HQ hw) | apply HQ]. Qed.
Lemma any_delay n (Q : unit -> world H -> Prop) w : (forall h, Q tt (at_hw w h)) -> wp (delay n) Q w.
Proof. intros HQ. apply wp_act, HQ. Qed.

(** [any_io] runs accesses whose results do not matter. *)
Ltac any_io := repeat first [apply wp_bind; first [apply any_read; intros ? ? | apply any_write; intros ? | apply any_delay; intros ?]
  | apply any_write; intros ? | apply wp_ret].

Lemma any_wait_idle (Q : Z -> world H -> Prop) w :
  (forall ps h, (inhibited ps = false -> mapped (dr w)) -> Q ps (at_hw w h)) -> wp wait_idle Q w.
Proof.
  intros HQ. apply wp_bind. eapply wp_mono.
  - apply (wp_poll_count (fun k s w' => (k = 500000 \/ inhibited s = true \/ mapped (dr w)) /\ exists h, w' = at_hw w h)
      (fun s w' => (inhibited s = false -> mapped (dr w)) /\ exists h, w' = at_hw w h)) with (k := 500000).
    + intros k s w1 _ (_ & h & ->). apply wp_bind. unfold wp at 1, xzs_sdhci_hc_read32, io_read. cbn [dr hw io_buf].
      rewrite unreachable_HC by (vm_compute; done). destruct (Z.eqb_spec (base_of HC (dr w)) 0) as [E | E].
      * change (inhibited (2 ^ (8 * 4) - 1)) with true. any_io. cbn [dr hw io_buf]. split; [auto |]. eauto.
      * destruct (mmio_read _ _ _ _) as [v h']. destruct (inhibited _); any_io; cbn [dr hw io_buf]; (split; [auto |]); eauto.
    + done.
    + split; [by left |]. exists (hw w). by destruct w.
  - intros [s | s] w'.
    + intros ([? | Hor] & h & ->); [lia |]. apply wp_ret, HQ. intros E. rewrite E in Hor. by destruct Hor.
    + intros (Hm & h & ->). by apply wp_ret, HQ.
Qed.

Section window.
Context (d : emmc) (pre post : bytes) (Hd : mapped d).

(** Between accesses: the driver's state, and the buffer outside the window. *)
Definition inside w : Prop := dr w = d /\ exists new, io_buf w = pre ++ new ++ post /\ length new = 512%nat.

Lemma any_read_block w : inside w -> wp (read_block (zlen pre)) (fun _ => inside) w.
Proof.
  intros Hi. apply (wp_each (fun _ => inside)); [done | | done]. intros k w1 Hk (E & new & Hb & Hl).
  apply wp_bind. unfold wp at 1, fifo_read. rewrite E, (proj2 (Z.eqb_neq _ _)) by done.
  destruct (mmio_read _ _ _ _) as [v h]. unfold wp, store_word. cbn [io_buf dr hw].
  rewrite Hb, <- (take_drop (4 * Z.to_nat k) new), <- (take_drop 4 (drop (4 * Z.to_nat k) new)), <- !app_assoc, (app_assoc pre).
  rewrite put_word_here; [| unfold zlen; rewrite length_app, length_take; lia | rewrite length_take, length_drop; lia].
  split; [done |]. exists (take (4 * Z.to_nat k) new ++ le_split 4 (v mod 2 ^ 32) ++ drop 4 (drop (4 * Z.to_nat k) new)).
  cbn [io_buf]. split; [by rewrite <- !app_assoc |]. rewrite !length_app, length_take, !length_drop, length_le_split. lia.
Qed.

(** A part of a turn keeps the frame, and goes on with a measure that has not grown. *)
Definition part (s : pio) (strict : Prop) (r : ctl pio (Z * bool * pio)) w : Prop :=
  inside w /\ match r with
  | Next s' => pio_bounds s' /\ pio_measure s' <= pio_measure s /\ (strict -> pio_measure s' < pio_measure s)
  | Exit _ => True
  end.

Ltac count_poll := match goal with |- context [Zpos MAX_POLLS <=? ?n] => destruct (Z.leb_spec (Zpos MAX_POLLS) n) as [? | Hlt];
  [apply wp_ret; by split | apply wp_ret; change (Z.pos MAX_POLLS) with 2000000 in Hlt] end.
Ltac measured := split; [done |]; unfold pio_bounds, pio_measure in *; cbn in *;
  repeat match goal with E : _ = true |- _ => rewrite E in * | E : _ = false |- _ => rewrite E in * end; naive_solver lia.

Lemma any_command_part st s w : inside w -> pio_bounds s ->
  wp (command_part st s) (fun r w' => part s (cmd_complete_seen s = false) r w' /\
    match r with Next s' => (cmd_complete_seen s = true -> s' = s) /\ brr_seen s' = brr_seen s /\ transfer_complete_seen s' = transfer_complete_seen s | _ => True end) w.
Proof.
  intros Hi Hb. pose proof Hb as (? & ? & ?). unfold command_part. destruct (cmd_complete_seen s) eqn:Ec.
  { apply wp_ret. split; [| done]. measured. }
  destruct (has st SDHCI_INT_RESPONSE).
  - unfold xzs_sdhci_hc_read32, clear_status, xzs_sdhci_hc_write32. any_io. split; [| done]. measured.
  - cbn [cmd_polls]. rewrite (u32_small (cmd_polls s + 1)) by cint. count_poll. split; [| done]. measured.
Qed.

Lemma any_data_part st s w : inside w -> pio_bounds s ->
  wp (data_part st (zlen pre) s) (fun r w' => part s (cmd_complete_seen s = true /\ brr_seen s = false) r w' /\
    match r with Next s' => (brr_seen s = true -> s' = s) /\ cmd_complete_seen s' = cmd_complete_seen s /\ transfer_complete_seen s' = transfer_complete_seen s | _ => True end) w.
Proof.
  intros Hi Hb. pose proof Hb as (? & ? & ?). unfold data_part. destruct (brr_seen s) eqn:Eb.
  { apply wp_ret. split; [| done]. measured. }
  destruct (has st SDHCI_INT_BUF_READ_READY).
  - apply wp_bind. eapply wp_mono; [by apply any_read_block |]. intros ? w1 Hi1.
    unfold clear_status, xzs_sdhci_hc_write32. any_io. split; [| done]. measured.
  - destruct (cmd_complete_seen s) eqn:Ec; [| apply wp_ret; split; [measured | done]].
    cbn [brr_polls]. rewrite (u32_small (brr_polls s + 1)) by cint. count_poll. split; [| done]. measured.
Qed.

Lemma any_end_part st s w : inside w -> pio_bounds s ->
  wp (end_part st s) (fun r w' => part s (brr_seen s = true /\ transfer_complete_seen s = false) r w') w.
Proof.
  intros Hi Hb. pose proof Hb as (? & ? & ?). unfold end_part. destruct (transfer_complete_seen s) eqn:Et.
  { apply wp_ret. measured. }
  destruct (has st SDHCI_INT_DATA_END).
  - unfold clear_status, xzs_sdhci_hc_write32. any_io. measured.
  - destruct (brr_seen s) eqn:Eb; [| apply wp_ret; measured].
    cbn [transfer_polls]. rewrite (u32_small (transfer_polls s + 1)) by cint. count_poll. measured.
Qed.

(** The flags are not all set when the loop goes on, so every turn makes progress. *)
Definition going (s : pio) w : Prop :=
  inside w /\ pio_bounds s /\ cmd_complete_seen s && brr_seen s && transfer_complete_seen s = false.

Lemma any_read_turn s w : going s w ->
  wp (read_turn (zlen pre) s) (fun r w' => match r with
    | Next s' => going s' w' /\ pio_measure s' < pio_measure s
    | Exit _ => inside w' end) w.
Proof.
  intros (Hi & Hb & Hn). unfold read_turn, xzs_sdhci_hc_read32. apply wp_bind, any_read. intros st h.
  destruct (error_bits st); [by apply wp_ret |].
  apply wp_and_then. eapply wp_mono; [by apply any_command_part |].
  intros [s1 | x] w1 [[I1 P1] K1]; [| done]. destruct P1 as (B1 & M1 & S1), K1 as (K1 & F1 & G1).
  apply wp_and_then. eapply wp_mono; [by apply any_data_part |].
  intros [s2 | x] w2 [[I2 P2] K2]; [| done]. destruct P2 as (B2 & M2 & S2), K2 as (K2 & F2 & G2).
  apply wp_and_then. eapply wp_mono; [by apply any_end_part |].
  intros [s3 | x] w3 [I3 P3]; [| done]. destruct P3 as (B3 & M3 & S3).
  destruct (cmd_complete_seen s3 && brr_seen s3 && transfer_complete_seen s3) eqn:Ed; apply wp_ret; [done |].
  split; [by split_and! |]. destruct (cmd_complete_seen s) eqn:Ec; [| specialize (S1 eq_refl); lia]. rewrite (K1 eq_refl) in *.
  destruct (brr_seen s) eqn:Eb; [| specialize (S2 (conj Ec eq_refl)); lia]. rewrite (K2 eq_refl) in *.
  cbn in Hn. specialize (S3 (conj Eb Hn)). lia.
Qed.

Lemma any_read_loop w : inside w -> wp (forever READ_FUEL (read_turn (zlen pre)) pio_start) (fun _ => inside) w.
Proof.
  intros Hi. apply (wp_forever going pio_measure); [by split_and! | done |]. intros s w1 Hg. split; [| by apply any_read_turn].
  destruct Hg as (_ & (? & ? & ?) & _). unfold pio_measure. destruct (cmd_complete_seen s), (brr_seen s), (transfer_complete_seen s); lia.
Qed.
End window.

(** What changed from [w] to [w'], the hardware apart: the diagnostics, and the window between [pre] and [post]. *)
Definition only_window (pre post : bytes) w w' : Prop :=
  same_dr (dr w) (dr w') /\ exists new, io_buf w' = pre ++ new ++ post /\ length new = 512%nat.

(** C22. On any hardware, whatever its registers return, the sector read returns (its polling loop
    ends within [READ_FUEL] turns), leaves the driver's state alone but for its diagnostics, and
    writes only to the 512 bytes it was given. *)
Theorem read_sector_returns w lba count pre old post : io_buf w = pre ++ old ++ post -> length old = 512%nat ->
  exists rc w', xzs_emmc_read_sector_pio lba count (Some (zlen pre)) w = Ret (rc, w') /\ only_window pre post w w'.
Proof.
  intros Hb Hl.
  assert (wp (xzs_emmc_read_sector_pio lba count (Some (zlen pre))) (fun _ w' => same_dr (dr w) (dr w') /\
    exists new, io_buf w' = pre ++ new ++ post /\ length new = 512%nat) w) as (rc & w' & E & Hs)%wp_elim;
    [| by exists rc, w'].
  cbn [xzs_emmc_read_sector_pio]. destruct ((count =? 0) || (count <=? lba)); [apply wp_ret; split; [done | by exists old] |].
  apply wp_bind, any_wait_idle. intros ps h Hm. destruct (inhibited ps).
  { unfold reset_lines, xzs_sdhci_hc_write8. any_io. split; [done | by exists old]. }
  unfold start_transfer, clear_status, xzs_sdhci_hc_write8, xzs_sdhci_hc_write16, xzs_sdhci_hc_write32. apply wp_bind. any_io.
  cbn [hw dr io_buf]. apply wp_bind. eapply wp_mono; [apply (any_read_loop (dr w) pre post); [by apply Hm |]; split; [done | by exists old] |].
  intros [[err timeout] s] w1 (E1 & new & Hb1 & Hl1). do 6 (apply wp_bind, wp_act). apply wp_ret. cbn [hw dr io_buf]. rewrite E1.
  split; [done | by exists new].
Qed.

End any.

(** A controller that is mapped and whose registers always read as zero. *)
#[local] Instance silent_hw : Mmio unit := {
  ml_io_map _ := 1;
  mmio_read _ _ _ h := (0, h);
  mmio_write _ _ _ _ h := h;
  usleep _ h := h;
}.
Definition silent_world : world unit := World tt (set_bases 1 1 1 emmc_boot) (replicate 520 7).

Lemma read_sector_returns_witness : exists rc w',
  xzs_emmc_read_sector_pio 5 100 (Some 8) silent_world = Ret (rc, w') /\ only_window (replicate 8 7) [] silent_world w'.
Proof. apply (read_sector_returns silent_world 5 100 (replicate 8 7) (replicate 512 7) []); reflexivity. Defined.
