(* ===== verification/EmmcRead.v ===== *)
(** * Reads of ranges of sectors

    The multi-sector transfer and the synchronous reads, against the card: whatever mixture of
    transfers, retries and fallbacks they take, they return, write only to the buffer they were
    given, and on success it holds the requested sectors in order. *)

From stdpp Require Import base list relations gmap strings.
From Stdlib Require Import ZArith Lia.
From S2P Require Import Prelude Wp Gpt Emmc EmmcCard EmmcBus.

(** The contents of [n] sectors from [s]. *)
Definition sectors (sec : Z -> bytes) (s : Z) (n : nat) : bytes := concat ((fun k => sec (s + Z.of_nat k)) <$> seq 0 n).

Lemma sectors_S sec s n : sectors sec s (S n) = sec s ++ sectors sec (s + 1) n.
Proof.
  unfold sectors. cbn [seq fmap list_fmap concat]. rewrite Z.add_0_r. f_equal. f_equal.
  rewrite <- (fmap_S_seq 0 n), <- list_fmap_compose. apply list_fmap_ext. intros i x _. cbn. f_equal. lia.
Qed.

Lemma sectors_app sec n m : forall s, sectors sec s (n + m) = sectors sec s n ++ sectors sec (s + Z.of_nat n) m.
Proof.
  induction n as [|n IH]; intros s; [by rewrite Z.add_0_r |].
  cbn [Nat.add]. rewrite !sectors_S, IH, <- app_assoc. by replace (s + 1 + Z.of_nat n) with (s + Z.of_nat (S n)) by lia.
Qed.

Lemma sectors_1 sec s : sectors sec s 1 = sec s.
Proof. rewrite sectors_S. cbn. apply app_nil_r. Qed.

Lemma length_sectors sec n : (forall l, length (sec l) = 512%nat) -> forall s, length (sectors sec s n) = (512 * n)%nat.
Proof. intros Hl. induction n as [|n IH]; intros s; [done |]. rewrite sectors_S, length_app, IH, Hl. lia. Qed.

Lemma sectors_ext sec sec' s n : (forall l, s <= l < s + Z.of_nat n -> sec l = sec' l) -> sectors sec s n = sectors sec' s n.
Proof.
  intros He. unfold sectors. f_equal. apply list_fmap_ext. intros i x [-> ?]%lookup_seq. apply He. lia.
Qed.

Section reads.
Context {H : Type} {mmio : Mmio H} {laws : SdhciLaws H}.
Implicit Types w : world H.
Abbreviation at_hw w h := (World h (dr w) (io_buf w)).
Context (d : emmc) (sec : Z -> bytes).

(** The driver unchanged but for its diagnostics, the card unchanged, the buffer changed in its window. *)
Definition window (pre post : bytes) (n : nat) (w : world H) (new : bytes) : Prop :=
  same_dr d (dr w) /\ io_buf w = pre ++ new ++ post /\ length new = n /\ still sec (view (hw w)).

(** The operation fills the [n] bytes at the address it is given, with [data] when it returns 0. *)
Definition fills (c : Z -> prog (world H) Z) (n : nat) (data : bytes) : Prop :=
  forall w pre post old, window pre post n w old ->
    wp (c (zlen pre)) (fun rc w' => exists new, window pre post n w' new /\ (rc = 0 -> new = data)) w.

Lemma same_ctx d' : same_dr d d' -> g_xzs_emmc_ctx d = g_xzs_emmc_ctx d'.
Proof. intros E. by apply (f_equal g_xzs_emmc_ctx) in E. Qed.

Lemma same_base sp d' : same_dr d d' -> base_of sp d = base_of sp d'.
Proof. intros E. by apply (f_equal (base_of sp)) in E. Qed.

Lemma window_hw pre post n w new h : window pre post n w new -> still sec (view h) -> window pre post n (at_hw w h) new.
Proof. intros (? & ? & ? & _) ?. by split_and!. Qed.

Lemma window_counters pre post n w new m : window pre post n w new ->
  window pre post n (World (hw w) (set_counters m (dr w)) (io_buf w)) new.
Proof. intros (Hd & ? & ? & ?). split_and!; [| done..]. etrans; [exact Hd | apply same_dr_counters]. Qed.

Lemma wp_add64 name n (Q : unit -> world H -> Prop) w :
  (forall m, Q tt (World (hw w) (set_counters m (dr w)) (io_buf w))) -> wp (add64 name n) Q w.
Proof. intros HQ. apply wp_act, HQ. Qed.
Lemma wp_add32 name n (Q : unit -> world H -> Prop) w :
  (forall m, Q tt (World (hw w) (set_counters m (dr w)) (io_buf w))) -> wp (add32 name n) Q w.
Proof. intros HQ. apply wp_act, HQ. Qed.
Lemma wp_set_diag name n (Q : unit -> world H -> Prop) w :
  (forall m, Q tt (World (hw w) (set_counters m (dr w)) (io_buf w))) -> wp (diag name n) Q w.
Proof. intros HQ. apply wp_act, HQ. Qed.
Lemma wp_get_dr (Q : emmc -> world H -> Prop) w : Q (dr w) w -> wp get_dr Q w.
Proof. done. Qed.

Lemma sector_pio_fills lba count : is_u32 lba -> fills (fun p => xzs_emmc_read_sector_pio lba count (Some p)) 512 (sec lba).
Proof.
  intros Hl w pre post old (Hd & Hb & Ho & Hs). eapply wp_mono; [by eapply read_sector_pio_spec |].
  intros rc w' (new & Hd' & Hb' & Hl' & Hs' & Hrc). exists new. split; [| done]. split_and!; [by etrans | done..].
Qed.

Lemma sector_sync_fills lba : 0 <= lba -> fills (fun p => xzs_emmc_read_sector_sync lba (Some p)) 512 (sec lba).
Proof.
  intros Hl w pre post old Hw. apply wp_bind, wp_get_dr.
  cbv beta zeta. do 3 (case_match; [apply wp_ret; by exists old |]). bool_to_prop.
  apply wp_bind, wp_add32. intros m. apply wp_bind.
  assert (is_u32 lba) as Hu by cint. rewrite (u32_small lba) by done.
  eapply wp_mono; [eapply sector_pio_fills; [done | by apply window_counters] |].
  intros rc w1 (new & Hw1 & Hrc). destruct (Z.eqb_spec rc 0) as [-> |]; cycle 1.
  { apply wp_bind, wp_add64. intros m1. apply wp_ret. exists new. split; [by apply window_counters | done]. }
  apply wp_bind, wp_add64. intros m1. apply wp_bind, wp_get_dr, wp_bind.
  assert (forall m2, exists x, window pre post 512 (World (hw w1) (set_counters m2 (dr w1)) (io_buf w1)) x /\ (0 = 0 -> x = sec lba)) as Hfin.
  { intros m2. exists new. split; [by apply window_counters | exact Hrc]. }
  repeat (case_match; [apply wp_set_diag; intros m2; apply wp_ret, (Hfin m2) |]).
  apply wp_ret, wp_ret, (Hfin m1).
Qed.

(** ** Several sectors *)

Lemma await_spec bit seen err late (Q : Z -> world H -> Prop) w : err <> 0 -> late <> 0 -> mapped (dr w) ->
  still sec (view (hw w)) ->
  (forall h, rtc advance (view (hw w)) (view h) -> error_bits (v_ints (view h)) = false ->
     has (v_ints (view h)) bit = true -> wp seen (fun _ => Q 0) (at_hw w h)) ->
  (forall rc h, rc <> 0 -> still sec (view h) -> Q rc (at_hw w h)) ->
  wp (await bit seen err late) Q w.
Proof.
  intros Herr Hlate Hm Hs Hseen HQ. apply wp_bind.
  apply (wp_poll (fun _ w1 => exists h, w1 = at_hw w h /\ rtc advance (view (hw w)) (view h))
    (fun r w1 => wp (let rc := match r with Next _ => late | Exit rc => rc end in
                     if rc =? 0 then mret 0 else _ ← reset_lines; _ ← delay 10; mret rc) Q w1)).
  - exists (hw w). destruct w. by split.
  - intros _ w1 (h & -> & Ha). apply wp_bind, wp_status; [done |].
    intros h' _ Ha'. cbn [hw dr io_buf] in *. assert (rtc advance (view (hw w)) (view h')) as Ha2 by by etrans.
    destruct (error_bits (v_ints (view h'))) eqn:Ee.
    { apply wp_ret. cbv zeta. rewrite (proj2 (Z.eqb_neq err 0) Herr).
      apply (wp_give_up sec); [by eapply advances_still |]. intros h2. by apply HQ. }
    destruct (has (v_ints (view h')) bit) eqn:Eb; [| apply wp_ret; by exists h'].
    apply wp_bind. eapply wp_mono; [by apply Hseen |]. intros [] w2 H2. by apply wp_ret, wp_ret.
  - intros _ w1 (h & -> & Ha). cbv zeta. rewrite (proj2 (Z.eqb_neq late 0) Hlate).
    apply (wp_give_up sec); [by eapply advances_still |]. intros h2. by apply HQ.
Qed.

Definition left_from (start : Z) (b n : nat) : list bytes := (fun k => sec (start + Z.of_nat k)) <$> seq b (n - b).

Lemma left_from_S start b n : (b < n)%nat -> left_from start b n = sec (start + Z.of_nat b) :: left_from start (S b) n.
Proof. intros. unfold left_from. by replace (n - b)%nat with (S (n - S b)) by lia. Qed.

(** [b] blocks are in the buffer, the others are on their way. *)
Definition received (start : Z) (n : nat) (pre post : bytes) (b : nat) (w : world H) : Prop :=
  (b <= n)%nat /\ mapped (dr w) /\ exists new, window pre post (512 * n) w new /\
    take (512 * b) new = sectors sec start b /\ waiting (left_from start b n) (view (hw w)) /\
    error_bits (v_ints (view (hw w))) = false.

Lemma split_window (new : bytes) (a n m : nat) : length new = (a + (n + m))%nat ->
  exists x y z, new = x ++ y ++ z /\ length x = a /\ length y = n /\ length z = m /\ take a new = x.
Proof.
  intros E. exists (take a new), (take n (drop a new)), (drop n (drop a new)).
  rewrite !length_take, !length_drop, !take_drop. split_and!; [done | lia.. | done].
Qed.

Lemma multiblock_step_spec start n pre post b w : (b < n)%nat -> (forall l, length (sec l) = 512%nat /\ Forall is_u8 (sec l)) ->
  received start n pre post b w ->
  wp (multiblock_step (zlen pre) (Z.of_nat b)) (fun r w' => match r with
    | Next b' => b' = Z.of_nat (S b) /\ received start n pre post (S b) w'
    | Exit rc => rc <> 0 /\ exists new, window pre post (512 * n) w' new end) w.
Proof.
  intros Hb Hsec (_ & Hm & new & Hw & Ht & Hwait & He). pose proof Hw as (W1 & W2 & W3 & W4).
  rewrite (left_from_S start b n Hb) in Hwait. apply wp_bind, await_spec; [done | done | done | done | |]; cycle 1.
  { intros rc h Hrc Hs. rewrite (proj2 (Z.eqb_neq _ _) Hrc). apply wp_ret. split; [done |]. exists new. by apply window_hw. }
  intros h Ha He' Hr. apply wp_clear; [done | done |]. intros h1 V1. cbn [hw dr io_buf] in *. cbv zeta.
  rewrite Z.eqb_refl.
  destruct (waiting_ready _ _ (advances_waiting _ _ _ Ha Hwait) He' Hr) as (x & rest & [= <- <-] & Hx).
  destruct (split_window new (512 * b) 512 (512 * (n - S b))) as (p & q & r & -> & Lp & Lq & Lr & Et); [lia |].
  rewrite Et in Ht. subst p. apply wp_bind. destruct (Hsec (start + Z.of_nat b)) as [Hl Hu8]. eapply wp_mono.
  { eapply (read_block_spec _ _ (pre ++ sectors sec start b) q (r ++ post)); cbn [hw dr io_buf].
    - exact Hm.
    - rewrite V1. exact Hx.
    - apply length_words_of.
    - by rewrite W2, <- !app_assoc.
    - rewrite zlen_app. unfold zlen at 2. rewrite Lp. lia.
    - done. }
  intros [] w2 (h2 & -> & V2). apply wp_ret. cbn [hw dr io_buf] in *. split; [lia |].
  assert (still sec (view h2)) as S2.
  { rewrite V2, V1. apply still_xfer, still_ints. by eapply advances_still. }
  split; [lia |]. split; [done |].
  exists (sectors sec start b ++ sec (start + Z.of_nat b) ++ r). split_and!.
  - split_and!; [done | | | done]; cbn [io_buf].
    + unfold block_words. rewrite (bytes_of_words 128) by done. by rewrite <- !app_assoc.
    + rewrite !length_app, Lp, Lr, Hl. lia.
  - rewrite app_assoc, take_app_length' by (rewrite length_app, Lp, Hl; lia).
    replace (S b) with (b + 1)%nat by lia. by rewrite sectors_app, sectors_1.
  - right. left. cbn [hw]. rewrite V2, V1. split; [done |]. cbn. by apply has_ldiff_same.
  - cbn [hw]. rewrite V2, V1. cbn. unfold error_bits. by rewrite has_ldiff_other.
Qed.

(** From the accepted command on. *)
Lemma multiblock_rest_spec start count pre post w : 0 < count -> (forall l, length (sec l) = 512%nat /\ Forall is_u8 (sec l)) ->
  received start (Z.to_nat count) pre post 0 w ->
  wp (r ← poll (Z.to_pos count) (multiblock_step (zlen pre)) 0;
      match r with
      | Exit rc => mret rc
      | Next _ =>
          rc ← await SDHCI_INT_DATA_END (clear_status SDHCI_INT_DATA_END) (-7) (-8);
          if negb (rc =? 0) then mret rc
          else _ ← add64 "successful_sector_reads" count; mret 0
      end)
    (fun rc w' => exists new, window pre post (512 * Z.to_nat count) w' new /\
       (rc = 0 -> new = sectors sec start (Z.to_nat count))) w.
Proof.
  intros Hcount Hsec Hrec0.
  apply wp_bind. eapply wp_mono.
  { apply (wp_poll_count (fun k b w' => exists n : nat, b = Z.of_nat n /\ k = count - b /\
        received start (Z.to_nat count) pre post n w')
      (fun rc w' => rc <> 0 /\ exists new, window pre post (512 * Z.to_nat count) w' new)) with (k := count); [| rewrite Z2Pos.id; lia |].
    - intros k b w6 Hk (n & -> & -> & Hrec). eapply wp_mono; [apply (multiblock_step_spec start (Z.to_nat count) pre post n); [lia | done | exact Hrec] |].
      intros [b' | rc] w7; [| done]. intros [-> Hrec']. exists (S n). split_and!; [done | lia | done].
    - exists 0%nat. by split_and!; [| lia |]. }
  intros [b | rc] w6; cycle 1.
  { intros [Hrc [new Hnew]]. apply wp_ret. by exists new. }
  rewrite Z2Pos.id by lia. intros (n & -> & Hk & _ & Hm6 & new & Hw6 & Ht & _). assert (n = Z.to_nat count) as -> by lia.
  pose proof Hw6 as (_ & _ & L6 & S6).
  apply wp_bind, await_spec; [done | done | done | done | |]; cycle 1.
  { intros rc h Hrc Sh. rewrite (proj2 (Z.eqb_neq _ _) Hrc). apply wp_ret. exists new.
    split; [by apply (window_hw _ _ _ w6) | done]. }
  intros h7 Ha7 He7 _. apply wp_clear; [done | done |]. intros h8 V8. cbn [hw dr io_buf] in *. rewrite Z.eqb_refl. cbn [negb].
  apply wp_bind, wp_add64. intros m. apply wp_ret. exists new. split.
  - apply window_counters. apply (window_hw _ _ _ w6); [done |]. rewrite V8. apply still_ints. by eapply advances_still.
  - intros _. by rewrite <- Ht, take_ge by lia.
Qed.

Lemma multiblock_fills start count : is_u32 start -> 0 <= count ->
  fills (fun p => xzs_emmc_read_multiblock_pio start count (Some p)) (512 * Z.to_nat count) (sectors sec start (Z.to_nat count)).
Proof.
  intros Hstart Hcount w pre post old Hw. pose proof Hw as (W1 & W2 & W3 & W4). cbn [xzs_emmc_read_multiblock_pio].
  destruct ((count =? 0) || (128 <? count)) eqn:Eg; [apply wp_ret; by exists old |]. bool_to_prop.
  apply wp_bind. eapply wp_mono; [apply wait_idle_spec |]. intros ps w1 (h1 & -> & V1 & Hi).
  destruct (inhibited ps) eqn:Ei.
  { apply (wp_give_up sec); [by cbn; rewrite V1 |]. intros h2 S2. exists old. split; [by apply (window_hw _ _ _ w) | done]. }
  destruct (Hi eq_refl) as [Hm Hx]. apply wp_bind. eapply wp_mono.
  { apply start_spec; [done | done | apply u16_range | done | done | done | done | done]. }
  intros [] w2 (h2 & -> & Hn & Hse & v0 & A0 & B0 & S0 & Hc). cbn [hw dr io_buf] in *. rewrite V1 in Hse, S0.
  change (v_xfer (view h2) = Reading ((fun k => v_sector v0 (v_arg v0 + Z.of_nat k)) <$> seq 0 (Z.to_nat (v_blocks v0))) []) in Hc.
  rewrite A0, B0, u16_small in Hc by cint. destruct W4 as [Hs Hr].
  assert (forall l, length (sec l) = 512%nat /\ Forall is_u8 (sec l)) as Hsec.
  { intros l. rewrite <- Hs. split; [apply sector_size_law | apply sector_bytes_law]. }
  assert (v_xfer (view h2) = Reading (left_from start 0 (Z.to_nat count)) []) as Hx2.
  { rewrite Hc. f_equal. unfold left_from. rewrite Nat.sub_0_r. apply list_fmap_ext. intros i k _. by rewrite S0, Hs. }
  assert (still sec (view h2)) as S2 by (split; [intros l; by rewrite Hse, Hs | intros ??; by rewrite Hx2]).
  apply wp_bind, await_spec; [done | done | done | done | |]; cbn [hw dr io_buf]; cycle 1.
  { intros rc h Hrc Sh. rewrite (proj2 (Z.eqb_neq _ _) Hrc). apply wp_ret. exists old.
    split; [by apply (window_hw _ _ _ w) | done]. }
  intros h3 Ha He _. apply wp_bind, wp_ignored_read; [done | done |]. intros r1 h4 V4. apply wp_clear; [done | done |].
  intros h5 V5. cbn [hw dr io_buf] in *. rewrite Z.eqb_refl. cbn [negb]. rewrite V4 in V5.
  apply multiblock_rest_spec; [lia | done |]. split; [lia |]. split; [done |]. exists old.
  assert (waiting (left_from start 0 (Z.to_nat count)) (view h3)) as Hwait.
  { eapply advances_waiting; [exact Ha |]. right. left. split; [done |]. by apply Hn. }
  split_and!; [| done | |].
  + apply (window_hw _ _ _ w); [done |]. rewrite V5. apply still_ints. by eapply advances_still.
  + cbn [hw]. rewrite V5. by apply waiting_clear.
  + cbn [hw]. rewrite V5. cbn. unfold error_bits. by rewrite has_ldiff_other.
Qed.

(** ** Ranges *)

Lemma three_tries_fills c n data : fills c n data -> fills (fun p => three_tries (c p) (delay 10)) n data.
Proof.
  intros Hc w pre post old Hw. apply wp_bind. eapply wp_mono.
  - apply (wp_poll (fun rc w' => rc <> 0 /\ exists new, window pre post n w' new)
      (fun r w' => exists new, window pre post n w' new /\
         (match r with Next rc => rc | Exit rc => rc end = 0 -> new = data))).
    + split; [done |]. by exists old.
    + intros rc w1 [_ [new1 H1]]. apply wp_bind. eapply wp_mono; [exact (Hc w1 pre post new1 H1) |]. intros rc1 w2 (new2 & H2 & E2).
      destruct (Z.eqb_spec rc1 0) as [-> | Hn]; [apply wp_ret; by exists new2 |].
      apply wp_bind, wp_delay. intros h V. apply wp_ret. split; [done |]. exists new2. apply window_hw; [done |].
      rewrite V. apply H2.
    + intros rc w1 [Hn [new1 H1]]. exists new1. by split.
  - intros r w1 (new & H1 & E1). apply wp_ret. by exists new.
Qed.

Section range.
Context (start count : Z) (pre post : bytes).
Hypothesis Hstart : 0 <= start.
Hypothesis Hcount : 0 <= count < 2 ^ 32.
Hypothesis Hend : start + count <= 2 ^ 32.

(** The first [i] sectors are in place. *)
Definition copied_to (i : Z) (w : world H) : Prop :=
  0 <= i <= count /\ exists new, window pre post (512 * Z.to_nat count) w new /\
    take (512 * Z.to_nat i) new = sectors sec start (Z.to_nat i).

(** A transfer of [k] sectors behind the first [i]. *)
Lemma copied_step c (k i : Z) w : copied_to i w -> 0 < k -> i + k <= count ->
  fills c (512 * Z.to_nat k) (sectors sec (start + i) (Z.to_nat k)) ->
  wp (c (zlen pre + i * 512)) (fun rc w' => copied_to i w' /\ (rc = 0 -> copied_to (i + k) w')) w.
Proof.
  intros (Hi & new & Hw & Ht) Hk Hik Hc. pose proof Hw as (W1 & W2 & W3 & W4).
  destruct (split_window new (512 * Z.to_nat i) (512 * Z.to_nat k) (512 * (Z.to_nat count - Z.to_nat i - Z.to_nat k)))
    as (x & y & z & -> & Lx & Ly & Lz & Et); [lia |]. rewrite Et in Ht. subst x.
  replace (zlen pre + i * 512) with (zlen (pre ++ sectors sec start (Z.to_nat i))).
  2:{ rewrite zlen_app. unfold zlen at 2. rewrite Lx. lia. }
  eapply wp_mono.
  { apply (Hc w (pre ++ sectors sec start (Z.to_nat i)) (z ++ post) y). split_and!; [done | | done | done].
    by rewrite W2, <- !app_assoc. }
  intros rc w' (new & (N1 & N2 & N3 & N4) & Hrc). rewrite <- app_assoc in N2.
  assert (window pre post (512 * Z.to_nat count) w' (sectors sec start (Z.to_nat i) ++ new ++ z)) as Hw'.
  { split_and!; [done | by rewrite N2, <- !app_assoc | rewrite !length_app, Lx, N3, Lz; lia | done]. }
  split.
  - split; [lia |]. eexists. split; [exact Hw' |]. apply take_app_length'. lia.
  - intros ->%Hrc. split; [lia |]. eexists. split; [exact Hw' |].
    rewrite app_assoc, take_app_length' by (rewrite length_app, Lx, N3; lia).
    rewrite Z2Nat.inj_add, sectors_app, Z2Nat.id by lia. done.
Qed.

Lemma read_chunk_spec i w : copied_to i w ->
  wp (read_chunk start count (zlen pre) i) (fun r w' => match r with
    | Next i' => copied_to i' w' /\ i < i'
    | Exit rc => exists j, copied_to j w' /\ (rc = 0 -> j = count) end) w.
Proof.
  intros Hc. pose proof Hc as ((Hi0 & Hi1) & _). unfold read_chunk.
  destruct (Z.leb_spec count i) as [Hle | Hlt].
  { apply wp_ret. exists i. split; [done | lia]. }
  apply wp_bind, wp_get_dr. cbv zeta.
  set (chunk := if 128 <? count - i then 128 else count - i).
  assert (0 < chunk /\ i + chunk <= count) as [Hk Hk'].
  { unfold chunk. destruct (Z.ltb_spec 128 (count - i)); lia. }
  apply wp_bind. apply (wp_mono _ (fun rc w' => copied_to i w' /\ (rc = 0 -> copied_to (i + chunk) w'))).
  { destruct (negb (g_xzs_d10_fast_multiblock (dr w) =? 0) && (1 <? count - i)); [| by apply wp_ret].
    rewrite u32_small by cint. apply (copied_step (fun p => xzs_emmc_read_multiblock_pio (start + i) chunk (Some p))); [done.. |].
    apply multiblock_fills; [cint | lia]. }
  intros fast w1 [C1 Hf]. destruct (Z.eqb_spec fast 0) as [-> | Hnf].
  { apply wp_ret. split; [by apply Hf | lia]. }
  apply wp_bind. eapply wp_mono.
  { rewrite u64_small by cint.
    apply (copied_step (fun p => three_tries (xzs_emmc_read_sector_sync (start + i) (Some p)) (delay 10)) 1 i); [done | lia | lia |].
    change (Z.to_nat 1) with 1%nat. rewrite sectors_1. apply (three_tries_fills (fun p => xzs_emmc_read_sector_sync (start + i) (Some p))).
    apply sector_sync_fills. lia. }
  intros rc w2 [C2 Hr]. destruct (Z.eqb_spec rc 0) as [-> | Hnr]; cbn [negb]; apply wp_ret.
  - split; [by apply Hr | lia].
  - by exists i.
Qed.
End range.

Lemma read_blocks_fills start count : 0 <= start -> is_u32 count -> sector_count (g_xzs_emmc_ctx d) <= 2 ^ 32 ->
  fills (fun p => xzs_emmc_read_blocks_sync start count (Some p)) (512 * Z.to_nat count) (sectors sec start (Z.to_nat count)).
Proof.
  intros Hstart Hcount Hn w pre post old Hw. pose proof Hw as (W1 & W2 & W3 & W4). apply wp_bind, wp_get_dr. cbv zeta.
  rewrite <- (same_ctx _ W1).
  do 6 (case_match; [apply wp_ret; by exists old |]). bool_to_prop.
  assert (u64 (start + count - 1) = start + count - 1) as Eu.
  { apply u64_small. change UINT64_MAX with (2 ^ 64 - 1) in *. cint. }
  rewrite Eu in *. eapply wp_mono.
  { apply (wp_forever (copied_to start count pre post) (fun i => count - i)
      (fun rc w' => exists j, copied_to start count pre post j w' /\ (rc = 0 -> j = count))).
    - split; [cint |]. by exists old.
    - rewrite Z2Pos.id by cint. lia.
    - intros i w1 C1. split; [destruct C1; lia |]. eapply wp_mono; [apply read_chunk_spec; first [done | cint] |].
      intros [i' | rc] w2; [| done]. intros [C2 ?]. split; [done | lia]. }
  intros rc w1 (j & (Hj & new & Hw1 & Ht) & Hr). exists new. split; [done |]. intros ->%Hr.
  destruct Hw1 as (_ & _ & L1 & _). by rewrite <- Ht, take_ge by lia.
Qed.
End reads.
