(* ===== verification/EmmcWrite.v ===== *)
(** * Writes, and the fence around them

    The single-sector write and the writes of ranges, against the card.  A write that is not
    inside the extent of the table's userdata slot never reaches the card; one that is changes
    at most its own sector, whatever errors occur; when it reports success the sector holds the
    caller's data.  A failed attempt is followed by a reset of the lines, so that no write is
    left half open. *)

From stdpp Require Import base list relations gmap strings.
From Stdlib Require Import ZArith Lia.
From S2P Require Import Prelude Wp Gpt GptProofs Emmc EmmcCard EmmcBus EmmcRead.

(** ** Progress of a write *)

(** Only sector [lba] may differ from [sec], or be under way. *)
Definition touched (lba : Z) (sec : Z -> bytes) (v : sdhc) : Prop :=
  (forall l, l <> lba -> v_sector v l = sec l) /\ forall l got, v_xfer v = Writing l got -> l = lba.

(** The command has been given, and the data not yet. *)
Definition offered (lba : Z) (v : sdhc) : Prop :=
  error_bits (v_ints v) = true \/
  (v_xfer v = Writing lba [] /\ has (v_ints v) SDHCI_INT_DATA_END = false) \/
  (resting v /\ has (v_ints v) SDHCI_INT_BUF_WRITE_READY = false).

(** All the data has been given. *)
Definition sent (lba : Z) (ws : list Z) (v : sdhc) : Prop :=
  error_bits (v_ints v) = true \/
  (v_xfer v = Writing lba ws /\ has (v_ints v) SDHCI_INT_DATA_END = false) \/
  (v_xfer v = Idle /\ v_sector v lba = bytes_of ws).

Definition stored_in (lba : Z) (ws : list Z) (v : sdhc) : Prop :=
  error_bits (v_ints v) = true \/ (v_xfer v = Idle /\ v_sector v lba = bytes_of ws).

Lemma advance_error v v' : advance v v' -> error_bits (v_ints v) = true -> error_bits (v_ints v') = true.
Proof. intros Ha He. destruct Ha as [| | | | | v v' e ? Ei]; try (by apply raise_error). by rewrite Ei, error_bits_lor, He. Qed.

Lemma still_touched lba sec v : still sec v -> touched lba sec v.
Proof. intros [Hs Hr]. split; [auto |]. intros l got E. by destruct (Hr l got). Qed.

Lemma advance_touched lba sec v v' : advance v v' -> touched lba sec v -> touched lba sec v'.
Proof.
  intros Ha [Hs Hx]. destruct Ha as [v | v b rest E | v E | v k E | v k got E | v v' e He Ei E Hk];
    try (split; cbn; by auto); try (split; cbn; [by auto | by intros; apply (Hx _ [])]).
  - split; cbn; [| done]. intros l Hl. destruct (Z.eqb_spec l k) as [-> |]; [| by auto]. by rewrite (Hx _ _ E) in Hl.
  - split; [| by rewrite E]. intros l Hl. rewrite <- Hs by done. apply Hk. intros got E'. by apply Hx in E'.
Qed.

Lemma advance_offered lba v v' : advance v v' -> offered lba v -> offered lba v'.
Proof.
  intros Ha [He | Ho]; [left; by eapply advance_error |].
  destruct Ha as [v | v b rest E | v E | v k E | v k got E Eg | v v' e He Ei E Hk].
  - right. unfold resting in *. cbn. rewrite !has_lor, !orb_false_r. done.
  - right. right. destruct Ho as [[E' _] | [_ Hb]]; [by rewrite E in E' |]. split; [by intros ?? |]. cbn. by rewrite has_lor, Hb.
  - right. right. destruct Ho as [[E' _] | [_ Hb]]; [by rewrite E in E' |]. split; [by intros ?? |]. cbn. by rewrite has_lor, Hb.
  - right. left. destruct Ho as [[E' Hd] | [Hr _]]; [| by destruct (Hr _ _ E)]. split; [done |]. cbn. by rewrite has_lor, Hd.
  - destruct Ho as [[E' _] | [Hr _]]; [| by destruct (Hr _ _ E)]. rewrite E in E'. by injection E' as -> ->.
  - left. by rewrite Ei, error_bits_lor, He, orb_true_r.
Qed.

Lemma advance_stored lba ws v v' : advance v v' -> stored_in lba ws v -> stored_in lba ws v'.
Proof.
  intros Ha [He | [Hi Hs]]; [left; by eapply advance_error |].
  destruct Ha as [v | v b rest E | v E | v k E | v k got E Eg | v v' e He Ei E Hk]; try (by rewrite Hi in E).
  - by right.
  - left. by rewrite Ei, error_bits_lor, He, orb_true_r.
Qed.

Lemma advance_sent lba ws v v' : length ws = 128%nat -> advance v v' -> sent lba ws v -> sent lba ws v'.
Proof.
  intros Hl Ha [He | [[Hx Hd] | Hs]]; [left; by eapply advance_error | |].
  - destruct Ha as [v | v b rest E | v E | v k E | v k got E Eg | v v' e He Ei E Hk]; try (by rewrite Hx in E).
    + right. left. split; [done |]. cbn. by rewrite has_lor, Hd.
    + rewrite Hx in E. injection E as -> ->. done.
    + rewrite Hx in E. injection E as -> ->. right. right. cbn. by rewrite Z.eqb_refl.
    + left. by rewrite Ei, error_bits_lor, He, orb_true_r.
  - destruct (advance_stored lba ws v v' Ha (or_intror Hs)) as [? | ?]; [by left | by right; right].
Qed.

(** Steps that keep a property, any number of times. *)
Lemma advances (P : sdhc -> Prop) v v' : (forall a b, advance a b -> P a -> P b) -> rtc advance v v' -> P v -> P v'.
Proof. intros Hp. induction 1; eauto. Qed.

(** ** The data *)

Lemma words_of_lookup n : forall l k, (k < n)%nat -> words_of n l !! k = Some (le_combine (take 4 (drop (4 * k) l))).
Proof.
  induction n as [|n IH]; intros l k Hk; [lia |]. destruct k as [|k]; cbn [words_of]; [done |].
  change ((le_combine (take 4 l) :: words_of n (drop 4 l)) !! S k) with (words_of n (drop 4 l) !! k).
  rewrite IH by lia. rewrite drop_drop. do 4 f_equal. lia.
Qed.

Section writes.
Context {H : Type} {mmio : Mmio H} {laws : SdhciLaws H}.
Implicit Types w : world H.
Abbreviation at_hw w h := (World h (dr w) (io_buf w)).

Lemma wp_fifo_write v (Q : unit -> world H -> Prop) w lba got : mapped (dr w) -> v_xfer (view (hw w)) = Writing lba got ->
  0 <= v < 2 ^ 32 ->
  (forall h, view h = set_xfer (Writing lba (got ++ [v])) (view (hw w)) -> Q tt (at_hw w h)) -> wp (fifo_write v) Q w.
Proof.
  intros Hm%Z.eqb_neq Hx Hv HQ. unfold wp, fifo_write. rewrite Hm. apply HQ.
  pose proof (hc_write_law 4 SDHCI_BUFFER v (hw w) eq_refl Hv) as Hs. unfold hc_write_step in Hs. cbn in Hs. by rewrite Hx in Hs.
Qed.

Lemma load_word_spec pre data post (k : nat) (Q : Z -> world H -> Prop) w : io_buf w = pre ++ data ++ post ->
  length data = 512%nat -> Forall is_u8 data -> (k < 128)%nat ->
  (forall v, block_words data !! k = Some v -> 0 <= v < 2 ^ 32 -> Q v w) -> wp (load_word (zlen pre + 4 * Z.of_nat k)) Q w.
Proof.
  intros Hb Hl Hu Hk HQ. set (x := take 4 (drop (4 * k) data)).
  assert (length x = 4%nat) as Lx by (unfold x; rewrite length_take, length_drop; lia).
  assert (Forall is_u8 x) as Ux by (by apply Forall_take, Forall_drop).
  unfold wp, load_word. rewrite Hb. rewrite (read_le32_combine _ _ x); [| | done].
  - cbn. apply HQ; [by apply (words_of_lookup 128) |]. pose proof (le_combine_bound x Ux) as Hx. unfold zlen in Hx. rewrite Lx in Hx. exact Hx.
  - rewrite <- (take_drop (4 * k) data), <- (take_drop 4 (drop (4 * k) data)), <- !app_assoc, app_assoc.
    apply sub_bytes_at; [| unfold zlen; fold x; lia]. rewrite zlen_app. unfold zlen at 2. rewrite length_take. lia.
Qed.

Lemma send_block_spec pre data post lba w : mapped (dr w) -> io_buf w = pre ++ data ++ post -> length data = 512%nat ->
  Forall is_u8 data -> v_xfer (view (hw w)) = Writing lba [] ->
  wp (each 128 0 (fun k => v ← load_word (zlen pre + 4 * k); fifo_write v)) (fun _ w' => exists h, w' = at_hw w h /\
    view h = set_xfer (Writing lba (block_words data)) (view (hw w))) w.
Proof.
  intros Hm Hb Hl Hu Hx.
  apply (wp_each (fun k w' => exists h, w' = at_hw w h /\ view h = set_xfer (Writing lba (take (Z.to_nat k) (block_words data))) (view (hw w)))).
  - exists (hw w). split; [by destruct w |]. change (take (Z.to_nat 0) (block_words data)) with (@nil Z). rewrite <- Hx. by destruct (view (hw w)).
  - intros k w1 Hk (h & -> & V). change (0 + Z.of_nat 128) with 128 in Hk.
    rewrite <- (Z2Nat.id k) at 1 by lia. apply wp_bind, (load_word_spec pre data post); [done.. | lia |].
    intros v Ev Hv. eapply wp_fifo_write; [done | cbn; by rewrite V | done |]. intros h' V'. exists h'. split; [done |].
    rewrite V'. cbn [hw]. rewrite V. replace (Z.to_nat (k + 1)) with (S (Z.to_nat k)) by lia. by rewrite (take_S_r _ _ v Ev).
  - intros w1 (h & -> & V). exists h. split; [done |]. rewrite V. by rewrite take_ge by (unfold block_words; by rewrite length_words_of).
Qed.

(** ** One sector *)

Section sector_write.
Context (d : emmc) (sec : Z -> bytes) (lba : Z) (pre data post : bytes).
Hypothesis Hm : mapped d.
Hypothesis Hl : length data = 512%nat.
Hypothesis Hu : Forall is_u8 data.

Definition phase (bwr_done tc_done : bool) (v : sdhc) : Prop :=
  if tc_done then stored_in lba (block_words data) v
  else if bwr_done then sent lba (block_words data) v else offered lba v.

Definition own (w : world H) : Prop := dr w = d /\ io_buf w = pre ++ data ++ post /\ touched lba sec (view (hw w)).

Definition writing (s : bool * bool * bool) (w : world H) : Prop :=
  let '(_, b, t) := s in own w /\ phase b t (view (hw w)) /\ (t = true -> b = true).

(** Within a turn that read status [st]. *)
Definition in_turn (st : Z) (b t : bool) (w : world H) : Prop :=
  own w /\ phase b t (view (hw w)) /\ (t = true -> b = true) /\ error_bits (v_ints (view (hw w))) = false /\
  has (v_ints (view (hw w))) SDHCI_INT_DATA_END = has st SDHCI_INT_DATA_END /\
  (b = false -> has (v_ints (view (hw w))) SDHCI_INT_BUF_WRITE_READY = has st SDHCI_INT_BUF_WRITE_READY).

Lemma own_hw w h : own w -> touched lba sec (view h) -> own (at_hw w h).
Proof. intros (? & ? & _) ?. by split_and!. Qed.

Lemma phase_clear b t v bits : Z.land SDHCI_INT_DATA_END bits = 0 -> Z.land SDHCI_INT_BUF_WRITE_READY bits = 0 ->
  error_bits (v_ints v) = false -> phase b t v -> phase b t (set_ints (Z.ldiff (v_ints v) bits) v).
Proof.
  intros H1 H2 He Hp. unfold phase, stored_in, sent, offered, resting in *. cbn.
  destruct t; [| destruct b]; (destruct Hp as [? | Hp]; [congruence |]); right; by rewrite ?has_ldiff_other.
Qed.

Lemma phase_advances b t v v' : rtc advance v v' -> phase b t v -> phase b t v'.
Proof.
  intros Ha. unfold phase. destruct t; [| destruct b]; apply advances; try done; intros; eauto using advance_stored, advance_offered.
  eapply advance_sent; [apply length_words_of | done | done].
Qed.

(** Acknowledge [bits] and note that they were seen. *)
Lemma command_seen st b t w : in_turn st b t w ->
  wp (_ ← xzs_sdhci_hc_read32 SDHCI_RESPONSE_0; _ ← clear_status SDHCI_INT_RESPONSE; mret true)
    (fun c w' => in_turn st b t w') w.
Proof.
  intros (Ho & Hp & Hbt & He & Hd & Hb). pose proof Ho as (E1 & _ & Ht).
  apply wp_bind, wp_ignored_read; [by rewrite E1 | done |]. intros r h1 V1.
  apply wp_bind, wp_clear; [by cbn; rewrite E1 | done |]. intros h2 V2. apply wp_ret. cbn [hw dr io_buf] in *. rewrite V1 in V2.
  unfold in_turn. cbn [hw]. rewrite V2. split_and!; [by apply own_hw; [| rewrite V2] | by apply phase_clear | done | | |]; cbn.
  - unfold error_bits. by rewrite has_ldiff_other.
  - by rewrite has_ldiff_other.
  - intros ?. rewrite has_ldiff_other by done. auto.
Qed.

Lemma room_seen st t w : in_turn st false t w -> has st SDHCI_INT_BUF_WRITE_READY = true ->
  wp (_ ← each 128 0 (fun k => v ← load_word (zlen pre + 4 * k); fifo_write v);
      _ ← clear_status SDHCI_INT_BUF_WRITE_READY; mret true) (fun c w' => c = true /\ in_turn st true t w') w.
Proof.
  intros (Ho & Hp & Hbt & He & Hd & Hb) Hr. pose proof Ho as (E1 & E2 & Ht).
  destruct t; [by specialize (Hbt eq_refl) |]. specialize (Hb eq_refl). rewrite Hr in Hb.
  destruct Hp as [? | [[Hx Hde] | [_ ?]]]; [congruence | | congruence].
  apply wp_bind. eapply wp_mono; [eapply send_block_spec; [by rewrite E1 | done | done | done | exact Hx] |].
  intros [] w1 (h1 & -> & V1). apply wp_bind, wp_clear; [by cbn; rewrite E1 | done |]. intros h2 V2. apply wp_ret.
  cbn [hw dr io_buf] in *. rewrite V1 in V2. split; [done |]. unfold in_turn. cbn [hw]. rewrite V2. split_and!; try done; cbn.
  - apply own_hw; [done |]. rewrite V2. destruct Ht as [Hs Hw]. split; cbn; [done |]. intros l got E. injection E. congruence.
  - right. left. cbn. split; [done |]. by rewrite has_ldiff_other.
  - unfold error_bits. by rewrite has_ldiff_other.
  - by rewrite has_ldiff_other.
Qed.

Lemma end_seen st w : in_turn st true false w -> has st SDHCI_INT_DATA_END = true ->
  wp (_ ← clear_status SDHCI_INT_DATA_END; mret true) (fun c w' => c = true /\ own w' /\
    error_bits (v_ints (view (hw w'))) = false /\ phase true true (view (hw w'))) w.
Proof.
  intros (Ho & Hp & Hbt & He & Hd & _) Hr. pose proof Ho as (E1 & E2 & Ht).
  destruct Hp as [? | [[_ ?] | [Hi Hs]]]; [congruence | congruence |].
  apply wp_bind, wp_clear; [by rewrite E1 | done |]. intros h2 V2. apply wp_ret. cbn [hw]. rewrite V2.
  split_and!; [done | by apply own_hw; [| rewrite V2] | cbn; unfold error_bits; by rewrite has_ldiff_other | by right].
Qed.

Lemma write_turn_spec s w : writing s w ->
  wp (write_turn (zlen pre) s) (fun r w' => match r with
    | Next s' => writing s' w'
    | Exit rc => own w' /\ (rc = 0 -> v_xfer (view (hw w')) = Idle /\ v_sector (view (hw w')) lba = data) end) w.
Proof.
  destruct s as [[c b] t]. intros (Ho & Hp & Hbt). pose proof Ho as (E1 & E2 & Ht). cbn [write_turn].
  apply wp_bind, wp_status; [intros E; by rewrite E1 in E |]. intros h _ Ha.
  assert (own (at_hw w h)) as Ho'.
  { apply own_hw; [done |]. eapply (advances (touched lba sec)); [| exact Ha | done]. intros ??. by apply advance_touched. }
  destruct (error_bits (v_ints (view h))) eqn:He.
  { apply wp_bind, wp_clear; [by cbn; rewrite E1 | done |]. intros h2 V2. apply wp_ret. split; [| done].
    apply (own_hw (at_hw w h)); [done |]. rewrite V2. apply Ho'. }
  set (st := v_ints (view h)). assert (in_turn st b t (at_hw w h)) as T0.
  { split_and!; [done | by eapply phase_advances | done | done | done | done]. }
  apply wp_bind. apply (wp_mono _ (fun _ => in_turn st b t)).
  { destruct (negb c && has st SDHCI_INT_RESPONSE); [by apply (command_seen st) | by apply wp_ret]. }
  intros c1 w1 T1. apply wp_bind. apply (wp_mono _ (fun b1 w' => in_turn st b1 t w')).
  { destruct (negb b && has st SDHCI_INT_BUF_WRITE_READY) eqn:Eb; [| by apply wp_ret]. bool_to_prop. subst b.
    eapply wp_mono; [by apply (room_seen st) |]. by intros b1 w2 [-> ?]. }
  intros b1 w2 T2. apply wp_bind. apply (wp_mono _ (fun t1 w' => own w' /\ phase b1 t1 (view (hw w')) /\
    (t1 = true -> b1 = true) /\ error_bits (v_ints (view (hw w'))) = false)).
  { destruct (b1 && negb t && has st SDHCI_INT_DATA_END) eqn:Eb.
    - bool_to_prop. subst b1 t. eapply wp_mono; [by apply (end_seen st) |]. by intros t1 w3 (-> & ? & ? & ?).
    - destruct T2 as (? & ? & ? & ? & _). by apply wp_ret. }
  intros t1 w3 (Ho3 & Hp3 & Hbt3 & He3). destruct (c1 && b1 && t1) eqn:Ed; apply wp_ret; [| done].
  bool_to_prop. subst. split; [done |]. intros _. destruct Hp3 as [? | [Hi Hs]]; [congruence |]. split; [done |].
  rewrite Hs. by apply (bytes_of_words 128).
Qed.
End sector_write.

Definition put_at (lba : Z) (data : bytes) (sec : Z -> bytes) : Z -> bytes := fun l => if l =? lba then data else sec l.

(** The fence: writing is enabled, the table is loaded, and the sector is in the userdata extent. *)
Definition allowed (d : emmc) (lba : Z) : Prop :=
  g_xzs_emmc_userdata_rw d <> 0 /\ g_xzs_d4_gpt_map_initialized d = true /\ write_allowed d lba = Some true.

(** The table has a record for the userdata slot. *)
Definition has_slots (d : emmc) : Prop := is_Some (elem_at (g_xzs_d4_parsed_entries (g_map d)) userdata_slot).

Lemma write_sector_pio_spec sec w lba pre data post : mapped (dr w) -> has_slots (dr w) -> still sec (view (hw w)) ->
  is_u32 lba -> io_buf w = pre ++ data ++ post -> length data = 512%nat -> Forall is_u8 data ->
  wp (xzs_emmc_write_sector_pio lba (Some (zlen pre))) (fun rc w' => dr w' = dr w /\ io_buf w' = io_buf w /\
    (rc <> 0 /\ still sec (view (hw w')) \/
     allowed (dr w) lba /\ touched lba sec (view (hw w')) /\ (rc = 0 -> still (put_at lba data sec) (view (hw w'))))) w.
Proof.
  intros Hm [e Hslot] Hs Hlba Hb Hl Hu. apply wp_bind, wp_get_dr. cbv iota beta.
  destruct ((g_xzs_emmc_userdata_rw (dr w) =? 0) || negb (g_xzs_d4_gpt_map_initialized (dr w))) eqn:Eg.
  { apply wp_ret. split_and!; [done | done |]. by left. }
  bool_to_prop. assert (exists ok, write_allowed (dr w) lba = Some ok) as [ok Eok].
  { unfold write_allowed. rewrite Hslot. cbn. eauto. }
  apply wp_bind, (wp_intro _ _ _ ok w); [by rewrite Eok |]. destruct ok; cbn [negb]; cycle 1.
  { apply wp_ret. split_and!; [done | done |]. by left. }
  assert (allowed (dr w) lba) as Hok by (unfold allowed; by split_and!).
  apply wp_bind. eapply wp_mono; [apply wait_idle_spec |]. intros ps w1 (h1 & -> & V1 & _).
  pose proof Hs as [Hse Hr]. apply wp_bind. eapply wp_mono.
  { apply start_any_spec; [done | cbn; by rewrite V1 | done..]. }
  intros [] w2 (h2 & -> & Hn & Hse2 & v0 & A0 & _ & _ & Hor). cbn [hw dr io_buf] in *. rewrite V1 in Hse2, Hor.
  assert (offered lba (view h2) /\ forall l got, v_xfer (view h2) = Writing l got -> l = lba) as [Hof Hx2].
  { destruct Hor as [Hc | [Hr2 _]].
    - change (v_xfer (view h2) = Writing (v_arg v0) []) in Hc. rewrite A0 in Hc. rewrite Hc. split; [| by intros ?? [= ->]].
      right. left. split; [done | by apply Hn].
    - split; [| intros l got E; by destruct (Hr2 l got)]. right. right. split; [done | by apply Hn]. }
  apply wp_bind. eapply wp_mono.
  { apply (wp_poll (writing (dr w) sec lba pre data post) (fun r w' => own (dr w) sec lba pre data post w' /\
      match r with Next _ => True | Exit rc => rc = 0 -> v_xfer (view (hw w')) = Idle /\ v_sector (view (hw w')) lba = data end)).
    - split; [| by split]. split; [done |]. split; [done |]. split; [| done]. intros l _. cbn. by rewrite Hse2, Hse.
    - intros s w3 H3. by apply write_turn_spec.
    - by intros [[c b] t] w3 (Ho & _). }
  intros [s | rc] w3 ((E1 & E2 & Ht) & Hrc).
  { apply wp_ret. split_and!; [done | by rewrite E2, Hb |]. by right. }
  destruct (Z.eqb_spec rc 0) as [-> | Hn0]; cbn [negb]; cycle 1.
  { apply wp_ret. split_and!; [done | by rewrite E2, Hb |]. by right. }
  apply wp_bind. eapply wp_mono; [apply wait_idle_spec |]. intros ps' w4 (h4 & -> & V4 & _). apply wp_ret.
  cbn [hw dr io_buf]. rewrite V4. split_and!; [done | by rewrite E2, Hb |]. right. split_and!; [done | done |].
  intros _. destruct (Hrc eq_refl) as [Hi Hd]. split; [| by apply idle_resting].
  intros l. unfold put_at. destruct (Z.eqb_spec l lba) as [-> |]; [done |]. by apply Ht.
Qed.

(** ** Ranges *)

Definition changed (P : Z -> Prop) (sec sec' : Z -> bytes) : Prop := forall l, sec' l = sec l \/ P l.

Lemma changed_refl P sec : changed P sec sec.
Proof. by left. Qed.
Lemma changed_trans P a b c : changed P a b -> changed P b c -> changed P a c.
Proof. intros H1 H2 l. destruct (H1 l), (H2 l); [left; congruence | by right..]. Qed.

Lemma reset_touched lba sec w (Q : unit -> world H -> Prop) : mapped (dr w) -> touched lba sec (view (hw w)) ->
  (forall h sec', still sec' (view h) -> (forall l, l <> lba -> sec' l = sec l) -> Q tt (at_hw w h)) ->
  wp (_ ← reset_lines; delay 10) Q w.
Proof.
  intros Hm [Hs Hx] HQ. apply wp_bind, wp_reset_lines. intros h1 [[? _] | (_ & Hk & Hi)]; [done |].
  apply wp_delay. intros h2 V2. cbn [hw dr io_buf] in *. apply (HQ h2 (v_sector (view h2))).
  - split; [done |]. rewrite V2. by apply idle_resting.
  - intros l Hl. rewrite V2, <- Hs by done. apply Hk. intros got E. by apply Hx in E.
Qed.

Lemma write_tries_spec sec w lba pre data post : mapped (dr w) -> has_slots (dr w) -> still sec (view (hw w)) ->
  is_u32 lba -> io_buf w = pre ++ data ++ post -> length data = 512%nat -> Forall is_u8 data ->
  wp (three_tries (xzs_emmc_write_sector_pio lba (Some (zlen pre))) (_ ← reset_lines; delay 10))
    (fun rc w' => dr w' = dr w /\ io_buf w' = io_buf w /\ exists sec', still sec' (view (hw w')) /\
       changed (fun l => l = lba /\ allowed (dr w) l) sec sec' /\ (rc = 0 -> forall l, sec' l = put_at lba data sec l)) w.
Proof.
  intros Hm Hslot Hs Hlba Hb Hl Hu. set (P := fun l => l = lba /\ allowed (dr w) l). apply wp_bind.
  apply (wp_mono _ (fun r w' => dr w' = dr w /\ io_buf w' = io_buf w /\ exists sec', still sec' (view (hw w')) /\
    changed P sec sec' /\ (match r with Next rc => rc | Exit rc => rc end = 0 -> forall l, sec' l = put_at lba data sec l))).
  2:{ intros r w' (? & ? & sec' & ?). apply wp_ret. split_and!; [done | done |]. by exists sec'. }
  apply (wp_poll (fun rc w' => rc <> 0 /\ dr w' = dr w /\ io_buf w' = io_buf w /\ exists sec', still sec' (view (hw w')) /\ changed P sec sec')).
  - split_and!; [done.. |]. exists sec. split; [done | apply changed_refl].
  - intros rc w1 (_ & E1 & E2 & sec1 & Hs1 & Hc1). apply wp_bind. eapply wp_mono.
    { apply (write_sector_pio_spec sec1 w1 lba pre data post); try done; by rewrite ?E1, ?E2. }
    intros rc2 w2 (E3 & E4 & Hor). rewrite E1 in *. rewrite E2 in *. destruct (Z.eqb_spec rc2 0) as [-> | Hn].
    + apply wp_ret. split_and!; [done | done |]. destruct Hor as [[? _] | (Hok & _ & Hd)]; [done |]. specialize (Hd eq_refl).
      exists (put_at lba data sec1). split_and!; [done | |].
      * intros l. unfold put_at. destruct (Z.eqb_spec l lba) as [-> |]; [by right | apply Hc1].
      * intros _ l. unfold put_at. destruct (Z.eqb_spec l lba) as [-> |]; [done |]. by destruct (Hc1 l) as [| [? _]].
    + assert (touched lba sec1 (view (hw w2)) /\ (still sec1 (view (hw w2)) \/ allowed (dr w) lba)) as [Ht Hal].
      { destruct Hor as [[_ ?] | (? & ? & _)]; [split; [by apply still_touched | by left] | by split; [| right]]. }
      apply wp_bind. destruct Hal as [Hst | Hal].
      * apply wp_bind, wp_reset_lines. intros h1 Hr. apply wp_delay. intros h2 V2. apply wp_ret. cbn [hw dr io_buf] in *.
        split_and!; [done.. |]. exists sec1. split; [| done]. rewrite V2. destruct Hst as [Hs2 Hr2].
        destruct Hr as [[_ ->] | (_ & Hk & Hx)]; [by split |]. split; [| by apply idle_resting]. intros l. rewrite <- Hs2. by apply Hk.
      * eapply reset_touched; [by rewrite E3 | exact Ht |]. intros h sec2 Hs2 Hd2. apply wp_ret. split_and!; [done.. |].
        exists sec2. split; [done |]. eapply changed_trans; [exact Hc1 |]. intros l.
        destruct (Z.eq_dec l lba) as [-> |]; [by right | left; auto].
  - intros rc w1 (Hn & E1 & E2 & sec1 & Hs1 & Hc1). split_and!; [done | done |]. by exists sec1.
Qed.

(** [n] sectors of [data] from [start] on. *)
Definition put_range (start n : Z) (data : bytes) (sec : Z -> bytes) : Z -> bytes := fun l =>
  if (start <=? l) && (l <? start + n) then region data (512 * (l - start)) 512 else sec l.

Lemma put_range_S start n data sec l : 0 <= n ->
  put_range start (n + 1) data sec l = put_at (start + n) (region data (512 * n) 512) (put_range start n data sec) l.
Proof.
  intros Hn. unfold put_range, put_at. destruct (Z.eqb_spec l (start + n)) as [-> | Hl].
  - rewrite (proj2 (Z.leb_le _ _)), (proj2 (Z.ltb_lt _ _)) by lia. cbn. f_equal. lia.
  - destruct (Z.leb_spec start l), (Z.ltb_spec l (start + n)), (Z.ltb_spec l (start + (n + 1))); cbn; first [done | exfalso; lia].
Qed.

Lemma write_blocks_spec sec w start count pre data post : mapped (dr w) -> has_slots (dr w) -> still sec (view (hw w)) ->
  0 <= start -> is_u32 count -> start + count <= 2 ^ 32 ->
  io_buf w = pre ++ data ++ post -> length data = (512 * Z.to_nat count)%nat -> Forall is_u8 data ->
  wp (xzs_emmc_write_blocks_sync start count (Some (zlen pre))) (fun rc w' => dr w' = dr w /\ io_buf w' = io_buf w /\
    exists sec', still sec' (view (hw w')) /\ changed (fun l => start <= l < start + count /\ allowed (dr w) l) sec sec' /\
      (rc = 0 -> forall l, sec' l = put_range start count data sec l)) w.
Proof.
  intros Hm Hslot Hs Hstart Hcount Hend Hb Hl Hu. set (P := fun l => start <= l < start + count /\ allowed (dr w) l).
  apply wp_bind, wp_get_dr. cbv iota beta.
  destruct (negb (initialized (g_xzs_emmc_ctx (dr w))) || (count =? 0)) eqn:Eg.
  { apply wp_ret. split_and!; [done | done |]. exists sec. split_and!; [done | apply changed_refl | done]. }
  bool_to_prop. apply (wp_forever (fun i w' => 0 <= i <= count /\ dr w' = dr w /\ io_buf w' = io_buf w /\
      exists sec', still sec' (view (hw w')) /\ changed P sec sec' /\ forall l, sec' l = put_range start i data sec l)
    (fun i => count - i)).
  - split_and!; [lia | cint | done | done |]. exists sec. split_and!; [done | apply changed_refl |].
    intros l. unfold put_range. destruct (Z.leb_spec start l), (Z.ltb_spec l (start + 0)); first [done | exfalso; lia].
  - rewrite Z2Pos.id by cint. lia.
  - intros i w1 (Hi & E1 & E2 & sec1 & Hs1 & Hc1 & Hp1). split; [lia |]. unfold write_one.
    destruct (Z.leb_spec count i) as [Hle | Hlt].
    { apply wp_ret. split_and!; [done | done |]. exists sec1. split_and!; [done | done |].
      intros _ l. rewrite Hp1. by replace i with count by lia. }
    destruct (split_window data (512 * Z.to_nat i) 512 (512 * (Z.to_nat count - Z.to_nat i - 1))) as (x & y & z & Ed & Lx & Ly & Lz & _); [lia |].
    rewrite u32_small by cint. apply wp_bind.
    replace (zlen pre + i * 512) with (zlen (pre ++ x)) by (rewrite zlen_app; unfold zlen; lia).
    eapply wp_mono.
    { apply (write_tries_spec sec1 w1 (start + i) (pre ++ x) y (z ++ post)); try (by rewrite ?E1).
      - cint.
      - by rewrite E2, Hb, Ed, <- !app_assoc.
      - rewrite Ed in Hu. rewrite !Forall_app in Hu. tauto. }
    intros rc w2 (E3 & E4 & sec2 & Hs2 & Hc2 & Hp2). rewrite E1 in *. rewrite E2 in *.
    assert (changed P sec sec2) as Hc.
    { eapply changed_trans; [exact Hc1 |]. intros l. destruct (Hc2 l) as [? | [-> ?]]; [by left | right]. split; [lia | done]. }
    assert (y = region data (512 * i) 512) as ->.
    { rewrite Ed. unfold region. rewrite drop_app_length' by lia. by rewrite take_app_length' by lia. }
    destruct (Z.eqb_spec rc 0) as [-> | Hn]; cbn [negb]; apply wp_ret.
    + split; [| lia]. split_and!; [lia | lia | done | done |]. exists sec2. split_and!; [done | done |].
      intros l. rewrite Hp2, put_range_S by (done || lia). unfold put_at. by rewrite Hp1.
    + split_and!; [done | done |]. by exists sec2.
Qed.
End writes.
