(* ===== verification/EmmcInit.v ===== *)
(** * Initialisation

    The persistent initialisation of the controller and the card: it returns on any hardware,
    never writes to the card, leaves the partition map and the write switch alone, and afterwards
    the context is marked valid exactly when it reports success, with the geometry the card gave. *)

From stdpp Require Import base list relations gmap strings.
From Stdlib Require Import ZArith Lia.
From S2P Require Import Prelude Wp Memdev Gpt GptProofs Emmc EmmcDev EmmcCard EmmcBus EmmcRead.

(** What initialisation does not change. *)
Definition fixed (d d' : emmc) : Prop :=
  g_map d' = g_map d /\ g_xzs_d4_gpt_map_initialized d' = g_xzs_d4_gpt_map_initialized d /\
  g_xzs_emmc_userdata_rw d' = g_xzs_emmc_userdata_rw d /\ g_xzs_d10_fast_multiblock d' = g_xzs_d10_fast_multiblock d.

Definition csd_ok (d : emmc) : Prop := length (g_xzs_ext_csd d) = 512%nat /\ Forall is_u8 (g_xzs_ext_csd d).

Section init.
Context {H : Type} {mmio : Mmio H} {laws : SdhciLaws H}.
Implicit Types w : world H.
Abbreviation at_hw w h := (World h (dr w) (io_buf w)).
Context (sec : Z -> bytes) (d0 : emmc) (buf : bytes).

(** Invariant of every step. *)
Definition keeping w : Prop := still sec (view (hw w)) /\ fixed d0 (dr w) /\ csd_ok (dr w) /\ io_buf w = buf.

(** A program that keeps it, in a world whose bases and context are given by [R]. *)
Definition keeps {A} (R : emmc -> Prop) (c : prog (world H) A) : Prop :=
  forall w, keeping w -> R (dr w) -> wp c (fun _ w' => keeping w' /\ R (dr w')) w.

(** [R] depends neither on counters nor on the configuration of the card. *)
Definition loose (R : emmc -> Prop) : Prop :=
  (forall d m, R d -> R (set_counters m d)) /\ (forall d l, R d -> R (set_ext_csd l d)).

Section rules.
Context (R : emmc -> Prop) (HR : loose R).

Lemma keeps_ret {A} (a : A) : keeps R (mret a).
Proof. intros w ??. by apply wp_ret. Qed.
Lemma keeps_bind {A B} (c : prog (world H) A) (f : A -> prog (world H) B) :
  keeps R c -> (forall a, keeps R (f a)) -> keeps R (c ≫= f).
Proof. intros Hc Hf w Hw Hr. apply wp_bind. eapply wp_mono; [by apply Hc |]. intros a w' [? ?]. by apply Hf. Qed.
Lemma keeps_poll {S T} n (body : S -> prog (world H) (ctl S T)) s : (forall s, keeps R (body s)) -> keeps R (poll n body s).
Proof.
  intros Hb w Hw Hr. apply (wp_poll (fun _ w => keeping w /\ R (dr w))); [done | | done].
  intros s1 w1 [? ?]. eapply wp_mono; [by apply Hb |]. by intros [].
Qed.
Lemma keeps_each n i body : (forall k, i <= k < i + Z.of_nat n -> keeps R (body k)) -> keeps R (each n i body).
Proof.
  intros Hb w Hw Hr. apply (wp_each (fun _ w => keeping w /\ R (dr w))); [done | | done].
  intros k w1 Hk [? ?]. by apply Hb.
Qed.
Lemma keeps_delay n : keeps R (delay n).
Proof. intros w (?&?&?&?) Hr. apply wp_delay. intros h V. split; [| done]. split_and!; try done. cbn. by rewrite V. Qed.
Lemma keeps_add32 name n : keeps R (add32 name n).
Proof. intros w (?&?&?&?) Hr. apply wp_add32. intros m. split; [by split_and! | by apply (proj1 HR)]. Qed.
Lemma keeps_get : keeps R get_dr.
Proof. by intros w ??. Qed.

Lemma keeping_hw w h : keeping w -> still sec (view h) -> keeping (at_hw w h).
Proof. intros (?&?&?&?) ?. by split_and!. Qed.

Lemma read_still v off val v' : hc_read_step v off val v' -> still sec v -> still sec v'.
Proof.
  unfold hc_read_step. intros Hs Hst. destruct (off =? SDHCI_INT_STATUS); [by eapply advances_still; [apply Hs |] |].
  destruct (off =? SDHCI_BUFFER); [| by destruct Hs as [-> _]].
  destruct (v_xfer v) as [| rest [|x fifo] | ]; try by subst. destruct Hs as [_ ->]. by apply still_xfer.
Qed.

Lemma other_still v v' : other_write v v' -> still sec v -> still sec v'.
Proof.
  intros Ho [Hs Hr]. apply other_write_resting in Ho as (R' & _ & _ & S' & _); [| done]. split; [| done].
  intros l. by rewrite S'.
Qed.

(** Commands that do not write. *)
Definition reads_only (cmd : Z) : bool := known_command cmd && negb (command_index cmd =? 24).

Lemma commanded_resting v cmd x : reads_only cmd = true -> commanded v cmd x -> forall l got, x <> Writing l got.
Proof.
  unfold reads_only, known_command, commanded. intros [Hk Hn]%andb_true_iff. apply bool_decide_eq_true in Hk.
  repeat (apply elem_of_cons in Hk as [E | Hk]; [rewrite E in Hn |- *; first [by intros -> | by intros [? ->] | done] |]).
  by apply elem_of_nil in Hk.
Qed.

Lemma write_still v off val v' : (off =? SDHCI_COMMAND) = false \/ reads_only val = true ->
  hc_write_step v off val v' -> still sec v -> still sec v'.
Proof.
  intros Hok Hs Hst. pose proof Hst as [Hse Hr]. destruct (special off) eqn:Esp; [| by eapply other_still; [eapply hc_write_other |]].
  unfold hc_write_step in Hs.
  destruct (off =? SDHCI_INT_STATUS) eqn:E1; [by subst |]. destruct (off =? SDHCI_ARGUMENT) eqn:E2; [by subst |].
  destruct (off =? SDHCI_BLOCK_COUNT) eqn:E3; [by subst |]. destruct (off =? SDHCI_BUFFER) eqn:E4.
  { destruct (v_xfer v) as [| | l got] eqn:Ex; try (by subst). by destruct (Hr l got). }
  destruct (off =? SDHCI_COMMAND) eqn:E5.
  - destruct Hok as [? | Hro]; [congruence |].
    assert (known_command val = true) as Hk by (unfold reads_only in Hro; by bool_to_prop).
    destruct (Hs Hk) as ((x & Hx & Hor) & _ & Hkept). split; [intros l; rewrite <- Hse; by apply kept_resting |].
    intros l got. destruct Hor as [-> | [_ [-> | ->]]]; [by eapply commanded_resting | apply Hr | done].
  - unfold special in Esp. apply bool_decide_eq_true in Esp. rewrite !elem_of_cons in Esp.
    apply Z.eqb_neq in E1, E2, E3, E4, E5. destruct Esp as [|[|[|[|[|[]%elem_of_nil]]]]]; done.
Qed.

Lemma keeps_read sp width off : reg_ok sp width off = true -> keeps R (io_read sp width off).
Proof.
  intros Hok w Hw Hr. apply wp_io_read; [done | done |]. intros v h _ _ Hs. split; [| done]. apply keeping_hw; [done |].
  destruct sp; [eapply read_still; [done | apply Hw] | rewrite Hs; apply Hw..].
Qed.

Lemma keeps_write sp width off val : reg_ok sp width off = true -> 0 <= val < 2 ^ (8 * width) ->
  (off =? SDHCI_COMMAND) = false \/ reads_only val = true -> keeps R (io_write sp width off val).
Proof.
  intros Hok Hv Hc w Hw Hr. apply wp_io_write; [done | done | done |]. intros h _ Hs. split; [| done]. apply keeping_hw; [done |].
  destruct sp; [eapply write_still; [done | done | apply Hw] | eapply other_still; [done | apply Hw]..].
Qed.

Lemma keeps_clear bits : 0 <= bits < 2 ^ 32 -> keeps R (clear_status bits).
Proof. intros. apply keeps_write; [done | done | by left]. Qed.

Lemma keeps_wait_for n ready : keeps R ready -> keeps R (wait_for n ready).
Proof.
  intros Hr. apply keeps_bind; [apply keeps_poll; intros [] | intros; apply keeps_ret].
  apply keeps_bind; [done | intros []; [apply keeps_ret |]]. apply keeps_bind; [apply keeps_delay | intros; apply keeps_ret].
Qed.

Lemma put_word_csd l p v : length l = 512%nat -> Forall is_u8 l -> 0 <= p -> p + 4 <= 512 ->
  exists l', put_word l p v = Some l' /\ length l' = 512%nat /\ Forall is_u8 l'.
Proof.
  intros Hl Hu Hp Hq. rewrite <- (take_drop (Z.to_nat p) l) in Hu |- *. rewrite <- (take_drop 4 (drop (Z.to_nat p) l)) in Hu |- *.
  rewrite drop_drop in Hu |- *.
  eexists. split; [apply put_word_here; [unfold zlen; rewrite length_take; lia | rewrite length_take, length_drop; lia] |].
  split; [rewrite !length_app, length_le_split, length_take, length_drop; lia |].
  rewrite !Forall_app in Hu |- *. destruct Hu as (? & _ & ?). split_and!; [done | apply le_split_is_u8 | done].
Qed.

Lemma keeps_put_ext_csd p v : 0 <= p -> p + 4 <= 512 -> keeps R (put_ext_csd p v).
Proof.
  intros Hp Hq w (Hs & Hf & [Hl Hu] & Hb) Hr. unfold wp, put_ext_csd.
  destruct (put_word_csd _ p v Hl Hu Hp Hq) as (l & -> & ? & ?). split; [by split_and! | by apply (proj2 HR)].
Qed.
End rules.
End init.

(** One step of a proof that a program keeps the invariant. *)
Ltac keeps_step HR :=
  lazymatch goal with
  | |- keeps _ _ _ _ (if ?b then _ else _) => destruct b
  | |- keeps _ _ _ _ (_ ≫= _) => apply keeps_bind; [| intros ?]
  | |- keeps _ _ _ _ (mret _) => apply keeps_ret
  | |- keeps _ _ _ _ (delay _) => apply keeps_delay
  | |- keeps _ _ _ _ (add32 _ _) => apply keeps_add32, HR
  | |- keeps _ _ _ _ (clear_status _) => apply keeps_clear; [vm_compute; done]
  | |- keeps _ _ _ _ (wait_for _ _) => apply keeps_wait_for
  | |- keeps _ _ _ _ (poll _ _ _) => apply keeps_poll; intros ?
  | |- keeps _ _ _ _ (each _ _ _) => apply keeps_each; intros ? ?
  | |- keeps _ _ _ _ (put_ext_csd _ _) => apply keeps_put_ext_csd; [exact HR | lia | lia]
  | |- keeps _ _ _ _ (io_read _ _ _) => apply keeps_read; reflexivity
  | |- keeps _ _ _ _ (io_write _ _ _ _) => apply keeps_write; [reflexivity | vm_compute; done | first [left; reflexivity | right; reflexivity]]
  | |- keeps _ _ _ _ (let '(_, _) := ?p in _) => destruct p
  | |- keeps _ _ _ _ (xzs_sdhci_hc_read32 _) => unfold xzs_sdhci_hc_read32
  | |- keeps _ _ _ _ (xzs_sdhci_hc_read16 _) => unfold xzs_sdhci_hc_read16
  | |- keeps _ _ _ _ (xzs_sdhci_hc_read8 _) => unfold xzs_sdhci_hc_read8
  | |- keeps _ _ _ _ (xzs_gcc_read32_local _) => unfold xzs_gcc_read32_local
  | |- keeps _ _ _ _ (xzs_sdhci_hc_write32 _ _) => unfold xzs_sdhci_hc_write32
  | |- keeps _ _ _ _ (xzs_sdhci_hc_write16 _ _) => unfold xzs_sdhci_hc_write16
  | |- keeps _ _ _ _ (xzs_sdhci_hc_write8 _ _) => unfold xzs_sdhci_hc_write8
  | |- keeps _ _ _ _ (xzs_sdhci_core_write32 _ _) => unfold xzs_sdhci_core_write32
  | |- keeps _ _ _ _ (xzs_gcc_write32_local _ _) => unfold xzs_gcc_write32_local
  end.
Ltac keeps_all HR := repeat keeps_step HR.

Section parts.
Context {H : Type} {mmio : Mmio H} {laws : SdhciLaws H} (sec : Z -> bytes) (d0 : emmc) (buf : bytes).
Context (R : emmc -> Prop) (HR : loose R).
Abbreviation keeps := (keeps (H := H) sec d0 buf).

Lemma keeps_clock_setup : keeps R clock_setup.
Proof. unfold clock_setup. keeps_all HR. Qed.
Lemma keeps_host_setup : keeps R host_setup.
Proof. unfold host_setup. keeps_all HR. Qed.
Lemma keeps_go_idle : keeps R go_idle.
Proof. unfold go_idle, status_has. keeps_all HR. Qed.

Lemma keeps_simple_command name arg cmd : is_u32 arg -> is_u16 cmd -> reads_only cmd = true -> keeps R (simple_command name arg cmd).
Proof.
  intros. unfold simple_command, status_has. keeps_step HR; [keeps_all HR |]. keeps_step HR; [keeps_all HR |].
  keeps_step HR; [apply keeps_write; [done | done | by left] |]. keeps_step HR; [apply keeps_write; [done | done | by right] |].
  keeps_all HR.
Qed.

Lemma keeps_op_cond : keeps R op_cond.
Proof.
  unfold op_cond. keeps_step HR; [| keeps_all HR]. keeps_step HR. keeps_step HR; [by apply keeps_simple_command |]. keeps_all HR.
Qed.

Lemma keeps_send_ext_csd : keeps R send_ext_csd.
Proof. unfold send_ext_csd, start_transfer, ext_csd_turn. keeps_all HR; destruct a0 as [[]|[]]; keeps_all HR. Qed.
End parts.

(** What a context marked valid stands for. *)
Definition ready (d : emmc) : Prop := initialized (g_xzs_emmc_ctx d) = true ->
  mapped d /\ 0 < sector_count (g_xzs_emmc_ctx d) < 2 ^ 32 /\ sector_size (g_xzs_emmc_ctx d) = 512.

Lemma live_geometry_ok d : csd_ok d -> exists rev n, live_geometry (g_xzs_ext_csd d) = Some (rev, n) /\ is_u32 n.
Proof.
  intros [Hl Hu]. unfold live_geometry. rewrite byte_at_elem. destruct (elem_at_in_range (g_xzs_ext_csd d) 192) as [rev ->].
  { unfold zlen. lia. }
  assert (exists b, sub_bytes (g_xzs_ext_csd d) 212 4 = Some b) as [b Hb].
  { rewrite sub_bytes_in by (unfold zlen; lia). eauto. }
  assert (Forall is_u8 b) as Hub by (by eapply sub_bytes_u8). rewrite (read_le32_combine _ _ b Hb Hub).
  exists rev, (le_combine b). split; [done |]. pose proof (le_combine_bound b Hub) as Hr. rewrite (sub_bytes_zlen _ _ _ _ Hb) in Hr.
  exact Hr.
Qed.

Section run.
Context {H : Type} {mmio : Mmio H} {laws : SdhciLaws H}.
Implicit Types w : world H.

Definition init_post (sec : Z -> bytes) (d : emmc) (buf : bytes) (rc : Z) w : Prop :=
  keeping sec d buf w /\ ready (dr w) /\ initialized (g_xzs_emmc_ctx (dr w)) = (rc =? 0).

Lemma init_failed_spec sec d buf rc w : keeping sec d buf w -> rc <> 0 -> wp (init_failed rc) (init_post sec d buf) w.
Proof.
  intros (? & ? & ? & ?) ?. apply wp_bind, wp_act, wp_ret. split; [by split_and! |]. split; [done |].
  cbn. symmetry. by apply Z.eqb_neq.
Qed.

Lemma wp_keeps {A B} sec d buf R (c : prog (world H) A) (f : A -> prog (world H) B) Q w :
  keeps sec d buf R c -> keeping sec d buf w -> R (dr w) ->
  (forall a w', keeping sec d buf w' -> R (dr w') -> wp (f a) Q w') -> wp (c ≫= f) Q w.
Proof. intros Hc Hw Hr Hf. apply wp_bind. eapply wp_mono; [by apply Hc |]. intros a w' [? ?]. by apply Hf. Qed.

(** The card is set up, or it is not; either way the context says which. *)
Lemma init_spec sec w : still sec (view (hw w)) -> csd_ok (dr w) -> ready (dr w) ->
  wp xzs_emmc_init_persistent (init_post sec (dr w) (io_buf w)) w.
Proof.
  intros Hs Hc Hr. assert (loose mapped) as HR by done.
  unfold xzs_emmc_init_persistent. apply wp_bind, wp_add32. intros m. apply wp_bind, wp_get_dr. cbn [dr].
  destruct (initialized _) eqn:Ei.
  { apply wp_bind, wp_add32. intros m2. apply wp_ret. by split_and!. }
  do 2 (apply wp_bind, wp_add32; intros ?). apply wp_bind, wp_act, wp_bind, wp_get_dr.
  match goal with |- wp _ _ ?w1 => assert (keeping sec (dr w) (io_buf w) w1) as K1 by by split_and! end.
  destruct (_ || _) eqn:Eb; [by apply init_failed_spec |].
  match goal with |- wp _ _ ?w1 => assert (mapped (dr w1)) as M1 end.
  { rewrite !orb_false_iff in Eb. destruct Eb as [[?%Z.eqb_neq _] _]. done. }
  eapply wp_keeps; [by apply keeps_clock_setup | done | done |]. intros _ w2 K2 M2.
  eapply wp_keeps; [by apply keeps_host_setup | done | done |]. intros _ w3 K3 M3.
  eapply wp_keeps; [by apply keeps_go_idle | done | done |]. intros _ w4 K4 M4.
  eapply wp_keeps; [by apply keeps_op_cond | done | done |]. intros card_ready w5 K5 M5.
  destruct card_ready; [| by apply init_failed_spec].
  do 4 (eapply wp_keeps; [by apply keeps_simple_command | eassumption | eassumption |]; intros _ ? ? ?).
  eapply wp_keeps; [by apply keeps_send_ext_csd | eassumption | eassumption |]. intros read w6 K6 M6.
  destruct read; [| by apply init_failed_spec]. apply wp_bind, wp_get_dr.
  pose proof K6 as (? & ? & Hc6 & ?). destruct (live_geometry_ok _ Hc6) as (rev & n & E & Hn).
  apply wp_bind, (wp_plift _ _ _ _ E). destruct ((n =? 0) || (rev =? 0)) eqn:En; [by apply init_failed_spec |].
  apply wp_bind, wp_act, wp_ret. split; [by split_and! |]. split; [| done]. intros _. split; [exact M6 |].
  bool_to_prop. cbn. split; [cint | done].
Qed.
End run.
