(* ===== verification/EmmcSim.v ===== *)
(** * A simulated card

    A controller with its card that satisfies [SdhciLaws]: every command is answered at once and
    without errors.  It shows that the laws can hold, and the driver's model runs on it. *)

From stdpp Require Import base list relations gmap strings.
From Stdlib Require Import ZArith Lia.
From S2P Require Import Prelude Wp Memory Gpt GptProofs GptMinors Emmc EmmcCard EmmcBus EmmcInit.

Definition block_ok (b : bytes) : Prop := length b = 512%nat /\ Forall is_u8 b.

(** States whose blocks and words are of the sizes they should have. *)
Definition sim_ok (v : sdhc) : Prop :=
  (forall l, block_ok (v_sector v l)) /\ is_u32 (v_ints v) /\
  match v_xfer v with Reading rest fifo => Forall block_ok rest /\ Forall is_u32 fifo | _ => True end.

Record card := Card { c_view : sdhc; c_ok : sim_ok c_view }.

(** Status reads make all the progress there is. *)
Definition sim_advance (v : sdhc) : sdhc :=
  let v := raise SDHCI_INT_RESPONSE v in
  match v_xfer v with
  | Reading (b :: rest) [] => raise SDHCI_INT_BUF_READ_READY (set_xfer (Reading rest (block_words b)) v)
  | Reading [] [] => raise SDHCI_INT_DATA_END (set_xfer Idle v)
  | Writing lba [] => raise SDHCI_INT_BUF_WRITE_READY v
  | Writing lba got =>
      if decide (length got = 128%nat) then raise SDHCI_INT_DATA_END (set_xfer Idle (put_sector lba (bytes_of got) v)) else v
  | _ => v
  end.

(** Configuration of the card: revision 8, 61071360 sectors. *)
Definition sim_ext_csd : bytes :=
  replicate 192 0 ++ [8] ++ replicate 19 0 ++ le_split 4 61071360 ++ replicate 296 0.

Definition sim_command (v : sdhc) (cmd : Z) : xfer :=
  match command_index cmd with
  | 17 => Reading [v_sector v (v_arg v)] []
  | 18 => Reading ((fun k => v_sector v (v_arg v + Z.of_nat k)) <$> seq 0 (Z.to_nat (v_blocks v))) []
  | 8 => Reading [sim_ext_csd] []
  | 24 => Writing (v_arg v) []
  | _ => Idle
  end.

Definition sim_read (off : Z) (v : sdhc) : Z * sdhc :=
  if off =? SDHCI_INT_STATUS then let v := sim_advance v in (v_ints v, v)
  else if off =? SDHCI_BUFFER then
    match v_xfer v with Reading rest (w :: fifo) => (w, set_xfer (Reading rest fifo) v) | _ => (0, v) end
  else if off =? SDHCI_PRESENT_STATE then (match v_xfer v with Idle => 0 | _ => 3 end, v)
  else if off =? SDHCI_CLOCK_CONTROL then (SDHCI_CLOCK_INT_STABLE, v)
  else if off =? SDHCI_RESPONSE_0 then (0x80000900, v)
  else (0, v).

Definition sim_write (off val : Z) (v : sdhc) : sdhc :=
  if off =? SDHCI_INT_STATUS then set_ints (Z.ldiff (v_ints v) val) v
  else if off =? SDHCI_ARGUMENT then Sdhc val (v_blocks v) (v_ints v) (v_xfer v) (v_sector v)
  else if off =? SDHCI_BLOCK_COUNT then Sdhc (v_arg v) val (v_ints v) (v_xfer v) (v_sector v)
  else if off =? SDHCI_BUFFER then
    match v_xfer v with Writing lba got => set_xfer (Writing lba (got ++ [val])) v | _ => v end
  else if off =? SDHCI_COMMAND then set_xfer (sim_command v val) v
  else if off =? SDHCI_SOFTWARE_RESET then set_xfer Idle v
  else v.

(** ** Sizes *)

Lemma block_words_ok b : block_ok b -> Forall is_u32 (block_words b).
Proof.
  intros [_ Hu]. unfold block_words. generalize 128%nat as n. intros n. revert b Hu.
  induction n as [|n IH]; intros b Hu; cbn [words_of]; constructor.
  - pose proof (le_combine_bound (take 4 b) (Forall_take _ _ _ Hu)) as Hb. assert (zlen (take 4 b) <= 4) as Hz.
    { unfold zlen. rewrite length_take. lia. }
    split; [lia |]. eapply Z.lt_le_trans; [apply Hb |]. change (2 ^ 32) with (256 ^ 4). apply Z.pow_le_mono_r; lia.
  - apply IH, Forall_drop, Hu.
Qed.

Lemma bytes_of_ok ws : length ws = 128%nat -> block_ok (bytes_of ws).
Proof.
  intros Hl. split; [pose proof (zlen_bytes_of ws); unfold zlen in *; lia |]. clear Hl. unfold bytes_of.
  induction ws as [|w ws IH]; [constructor |]. rewrite fmap_cons. cbn [concat]. apply Forall_app. split; [apply le_split_is_u8 | done].
Qed.

Lemma lor_u32 a b : is_u32 a -> is_u32 b -> is_u32 (Z.lor a b).
Proof.
  intros [Ha Ha'] [Hb Hb']. split; [by apply Z.lor_nonneg |].
  destruct (Z.eq_dec a 0) as [-> |]; [by rewrite Z.lor_0_l |]. destruct (Z.eq_dec b 0) as [-> |]; [by rewrite Z.lor_0_r |].
  assert (0 <= Z.lor a b) by (by apply Z.lor_nonneg). destruct (Z.eq_dec (Z.lor a b) 0) as [-> |]; [done |].
  apply Z.log2_lt_pow2; [lia |]. rewrite Z.log2_lor by done.
  apply Z.max_lub_lt; apply Z.log2_lt_pow2; lia.
Qed.

Lemma ldiff_u32 a b : is_u32 a -> is_u32 (Z.ldiff a b).
Proof.
  intros Ha. assert (Z.ldiff a b = Z.ldiff a b mod 2 ^ 32) as ->; [| apply Z.mod_pos_bound; lia].
  rewrite <- (Z.mod_small a (2 ^ 32) Ha) at 1. rewrite <- !Z.land_ones by lia. apply Z.bits_inj'. intros n _.
  rewrite Z.ldiff_spec, !Z.land_spec, Z.ldiff_spec. by destruct (Z.testbit a n), (Z.testbit b n), (Z.testbit (Z.ones 32) n).
Qed.

Lemma raise_ok bit v : is_u32 bit -> sim_ok v -> sim_ok (raise bit v).
Proof. intros Hb (Hs & Hi & Hx). split_and!; [done | by apply lor_u32 | done]. Qed.

Lemma sim_advance_ok v : sim_ok v -> sim_ok (sim_advance v).
Proof.
  intros Hv. unfold sim_advance. apply (raise_ok SDHCI_INT_RESPONSE) in Hv; [| done].
  set (v1 := raise SDHCI_INT_RESPONSE v) in *. clearbody v1. pose proof Hv as (Hs & Hi & Hx).
  destruct (v_xfer v1) as [| [| b rest] [| x fifo] | lba [| x got]] eqn:E; try done.
  - apply raise_ok; [done |]. by split_and!.
  - apply raise_ok; [done |]. destruct Hx as [[Hb Hr]%Forall_cons _]. split_and!; [done | done |].
    cbn. split; [done | by apply block_words_ok].
  - by apply raise_ok.
  - case_decide; [| done]. apply raise_ok; [done |]. split_and!; [| done | done]. intros l. cbn [set_xfer put_sector v_sector].
    destruct (l =? lba); [by apply bytes_of_ok | apply Hs].
Qed.

Lemma sim_ext_csd_ok : block_ok sim_ext_csd.
Proof. split; [reflexivity |]. apply (bool_decide_eq_true_1 (Forall is_u8 sim_ext_csd)). vm_compute. reflexivity. Qed.

Lemma sim_command_ok v cmd : sim_ok v -> sim_ok (set_xfer (sim_command v cmd) v).
Proof.
  intros (Hs & Hi & _). split_and!; [done | done |]. cbn. unfold sim_command. repeat case_match; try done; simplify_eq.
  all: split; [| constructor]; first [apply Forall_fmap, Forall_forall; intros k _; apply Hs
    | constructor; [first [apply sim_ext_csd_ok | apply Hs] | constructor]].
Qed.

Lemma sim_read_ok off v : sim_ok v -> sim_ok (sim_read off v).2 /\ is_u32 (sim_read off v).1.
Proof.
  intros Hv. unfold sim_read. pose proof (sim_advance_ok v Hv) as Ha. destruct (off =? SDHCI_INT_STATUS); [split; [done | apply Ha] |].
  pose proof Hv as (Hs & Hi & Hx). destruct (off =? SDHCI_BUFFER).
  { destruct (v_xfer v) as [| rest [| x fifo] |]; try done. destruct Hx as [Hr [Hw Hf]%Forall_cons]. split; [| done]. by split_and!. }
  repeat case_match; done.
Qed.

Lemma sim_write_ok off val v : sim_ok v -> sim_ok (sim_write off val v).
Proof.
  intros Hv. unfold sim_write. pose proof Hv as (Hs & Hi & Hx).
  destruct (off =? SDHCI_INT_STATUS); [split_and!; [done | by apply ldiff_u32 | done] |].
  destruct (off =? SDHCI_ARGUMENT); [by split_and! |]. destruct (off =? SDHCI_BLOCK_COUNT); [by split_and! |].
  destruct (off =? SDHCI_BUFFER); [destruct (v_xfer v) eqn:E; [done | done | by split_and!] |].
  destruct (off =? SDHCI_COMMAND); [by apply sim_command_ok |]. destruct (off =? SDHCI_SOFTWARE_RESET); [by split_and! | done].
Qed.

(** ** The laws *)

#[global] Instance sim_mmio : Mmio card := {
  ml_io_map sp := 0x7464900;
  mmio_read sp width off c :=
    match sp with
    | HC => let r := sim_read off (c_view c) in (r.1, Card r.2 (proj1 (sim_read_ok off _ (c_ok c))))
    | _ => (0, c)
    end;
  mmio_write sp width off val c :=
    match sp with
    | HC => Card (sim_write off val (c_view c)) (sim_write_ok off val _ (c_ok c))
    | _ => c
    end;
  usleep usec c := c;
}.

Lemma other_write_refl v : other_write v v.
Proof. split_and!; [done | done | by left | done]. Qed.

Lemma sim_advance_step v : rtc advance v (sim_advance v).
Proof.
  eapply rtc_l; [apply AdvResponse |]. unfold sim_advance. set (v1 := raise SDHCI_INT_RESPONSE v). clearbody v1.
  destruct (v_xfer v1) as [| [| b rest] [| x fifo] | lba [| x got]] eqn:E; try done.
  - by apply rtc_once, AdvReadEnd.
  - by apply rtc_once, AdvBlock.
  - by eapply rtc_once, AdvRoom.
  - case_decide; [| done]. by eapply rtc_once, AdvWriteEnd.
Qed.

Lemma sim_read_step off v : hc_read_step v off (sim_read off v).1 (sim_read off v).2.
Proof.
  unfold hc_read_step, sim_read. destruct (off =? SDHCI_INT_STATUS); [by split; [apply sim_advance_step |] |].
  destruct (off =? SDHCI_BUFFER); [destruct (v_xfer v) as [| rest [| x fifo] |]; done |].
  destruct (Z.eqb_spec off SDHCI_PRESENT_STATE) as [-> | Hn]; [split; [done |]; intros _; by destruct (v_xfer v) |].
  split; [repeat case_match; done | done].
Qed.

Lemma sim_write_step off val v : hc_write_step v off val (sim_write off val v).
Proof.
  unfold hc_write_step, sim_write. do 3 (case_match; [done |]).
  destruct (off =? SDHCI_BUFFER); [by destruct (v_xfer v) |]. destruct (off =? SDHCI_COMMAND).
  { intros _. split_and!; [| done | done]. exists (sim_command v val). split; [| by left].
    unfold commanded, sim_command. repeat case_match; try done. by eexists. }
  destruct (Z.eqb_spec off SDHCI_SOFTWARE_RESET) as [-> |]; [| by split; [apply other_write_refl |]].
  split; [| done]. split_and!; [done | done | by right | done].
Qed.

#[global] Instance sim_laws : SdhciLaws card.
Proof.
  refine {| view := c_view |}.
  - intros h l. apply (proj1 (c_ok h)).
  - intros h l. apply (proj1 (c_ok h)).
  - intros sp width off h Hr. destruct sp; cbn; [| split; [done | apply Z.pow_pos_nonneg; [done | cbn in Hr; lia]]..].
    pose proof (proj2 (sim_read_ok off _ (c_ok h))) as Hv. cbn in Hr. apply bool_decide_eq_true in Hr.
    repeat (apply elem_of_cons in Hr as [[= -> ->] | Hr]; [first [exact Hv | vm_compute; done] |]). by apply elem_of_nil in Hr.
  - intros width off h _. apply sim_read_step.
  - intros width off val h _ _. apply sim_write_step.
  - by intros [] width off h Hn.
  - intros [] width off val h Hn _; [done | apply other_write_refl..].
  - done.
Defined.

(** ** A disk

    55 partitions of 1000 sectors, the one in slot 53 named userdata; the attributes of the last
    one and a reserved word of the header are such that the checksums are those the kernel
    expects. *)

Definition sim_entry (i attr : Z) : bytes :=
  replicate 16 1 ++ [i + 1] ++ replicate 15 0 ++ le_split 8 (34 + 1000 * i) ++ le_split 8 (1033 + 1000 * i) ++ le_split 8 attr ++
  (if i =? 53 then concat ((fun c => [c; 0]) <$> lit "userdata") ++ replicate 56 0 else replicate 72 0).
Definition sim_table : bytes :=
  concat ((fun i => sim_entry i (if i =? 54 then 1180692687 else 0)) <$> seqZ 0 55) ++ replicate (Z.to_nat 9344) 0.
Definition sim_header : bytes :=
  lit "EFI PART" ++ replicate 8 0 ++ le_split 4 0xBFDF741D ++ replicate 4 0 ++ le_split 4 346460384 ++ replicate 60 0 ++
  le_split 4 0x64EDE0F4 ++ replicate 420 0.

Definition sim_sector (l : Z) : bytes :=
  if l =? 1 then sim_header
  else if (2 <=? l) && (l <? 34) then take 512 (drop (Z.to_nat (512 * (l - 2))) sim_table)
  else replicate 512 (l mod 256).

Definition sim_disk : sdhc := Sdhc 0 0 0 Idle sim_sector.

Lemma sim_disk_ok : sim_ok sim_disk.
Proof.
  split_and!; [| done | done]. intros l. cbn [sim_disk v_sector]. unfold sim_sector. destruct (l =? 1).
  { split; [reflexivity |]. apply (bool_decide_eq_true_1 (Forall is_u8 sim_header)). vm_compute. reflexivity. }
  assert (Forall is_u8 sim_table /\ length sim_table = Z.to_nat 16384) as [Hu Hl].
  { split; [apply (bool_decide_eq_true_1 (Forall is_u8 sim_table)); vm_compute |]; reflexivity. }
  destruct ((2 <=? l) && (l <? 34)) eqn:E; split.
  - rewrite length_take, length_drop, Hl. bool_to_prop. lia.
  - by apply Forall_take, Forall_drop.
  - apply length_replicate.
  - apply Forall_replicate. apply Z.mod_pos_bound. lia.
Qed.

Definition sim_card : card := Card sim_disk sim_disk_ok.

Lemma sim_still : still sim_sector (view sim_card).
Proof. by split. Qed.

(** A driver with two partitions of it: minor 1 for slot 0 and minor 2 for userdata. *)
Definition sim_part (slot : Z) (name : string) : xzs_gpt_partition_entry_t :=
  GptEntry slot true (replicate 16 1) (slot + 1 :: replicate 15 0) (34 + 1000 * slot) (1033 + 1000 * slot) 1000 512000 0
    (replicate 72 0) (lit name ++ replicate 100 0).
Definition sim_map : gpt_map :=
  GptMap (<[0%nat := sim_part 0 "modem"]> (<[53%nat := sim_part 53 "userdata"]> (replicate 128 gpt_entry_zero)))
    (0 :: 53 :: replicate 126 0) 2 126 (0 :: 0 :: 53 :: replicate 53 0) (<[0%nat := 1]> (<[53%nat := 2]> (replicate 128 (-1)))).

Lemma sim_map_entry slot e : elem_at (g_xzs_d4_parsed_entries sim_map) slot = Some e ->
  slot = 0 /\ e = sim_part 0 "modem" \/ slot = 53 /\ e = sim_part 53 "userdata" \/ used e = false /\ start_lba e = 0.
Proof.
  intros [H0 He]%elem_at_Some. cbn [sim_map g_xzs_d4_parsed_entries] in He. apply list_lookup_insert_Some in He as [(E & <- & _) | [_ He]].
  { left. split; [lia | done]. }
  apply list_lookup_insert_Some in He as [(E & <- & _) | [_ [-> _]%lookup_replicate]]; [right; left; split; [lia | done] | by do 2 right].
Qed.

Lemma sim_map_ok : map_ok sim_map.
Proof.
  split; [reflexivity | reflexivity | done | | | | |].
  - intros m Hm. change (1 <= m <= 2) in Hm. assert (m = 1 \/ m = 2) as [-> | ->] by lia.
    + exists 0, (sim_part 0 "modem"). split_and!; first [reflexivity | vm_compute; done].
    + exists 53, (sim_part 53 "userdata"). split_and!; first [reflexivity | vm_compute; done].
  - intros slot e He Hu. apply sim_map_entry in He as [[-> ->] | [[-> ->] | [? _]]]; [by exists 1 | by exists 2 | congruence].
  - intros u Hu. change (0 <= u < 2) in Hu. assert (u = 0 \/ u = 1) as [-> | ->] by lia; reflexivity.
  - intros slot e He Hu. apply sim_map_entry in He as [[-> ->] | [[-> ->] | [_ ?]]]; done.
  - intros j k a b Hne Ha Hb Ua Ub.
    apply sim_map_entry in Ha as [[-> ->] | [[-> ->] | [? _]]]; [| | congruence];
      (apply sim_map_entry in Hb as [[-> ->] | [[-> ->] | [? _]]]; [| | congruence]); try done; vm_compute; auto.
Qed.

(** The driver with writing enabled, and the world it runs in. *)
Definition sim_driver : emmc :=
  Emmc 1 1 1 (EmmcCtx true 2 61071360 61071359 512 8) (replicate 512 0) 0 1 true sim_map ∅.
Definition sim_world (buf : bytes) : world card := World sim_card sim_driver buf.
