(* ===== verification/EmmcDisk.v ===== *)
(** * The disk the block device presents

    What the device switch of the eMMC promises, on any hardware that satisfies [SdhciLaws]:
    which requests are refused, and with which error; that an accepted read delivers the sectors
    of the partition its minor number stands for, or an error; and that an accepted write
    stores them.  Sequences of calls are the subject of EmmcSafety. *)

From stdpp Require Import base list relations gmap strings.
From Stdlib Require Import ZArith Lia.
From S2P Require Import Prelude Wp Kernel Memdev MemdevProofs Gpt GptProofs GptMinors Emmc EmmcDev EmmcCard EmmcBus EmmcRead EmmcWrite EmmcInit EmmcSim.

(** ** State *)

Definition table_ok (d : emmc) : Prop :=
  if g_xzs_d4_gpt_map_initialized d then map_ok (g_map d) else length (g_xzs_d4_parsed_entries (g_map d)) = 128%nat.

Record good (d : emmc) : Prop := {
  good_csd : csd_ok d;
  good_ready : ready d;
  good_table : table_ok d;
}.

Lemma same_good d d' : same_dr d d' -> good d -> good d'.
Proof.
  intros E [H1 H2 H3]. unfold same_dr in E. destruct d, d'. cbn in E. injection E as <- <- <- <- <- <- <- <- <-. by split.
Qed.

Lemma good_slots d : good d -> has_slots d.
Proof.
  intros [_ _ Ht]. apply elem_at_is_Some. unfold zlen. unfold table_ok in Ht.
  destruct (g_xzs_d4_gpt_map_initialized d); [rewrite (mo_entries _ Ht) | rewrite Ht]; done.
Qed.

(** The extent of a minor number of a loaded table. *)
Lemma slice_ok d m : good d -> no_slice d m = false -> 1 <= m -> exists slot e,
  elem_at (g_xzs_minor_to_gpt_slot (g_map d)) m = Some slot /\ elem_at (g_xzs_d4_parsed_entries (g_map d)) slot = Some e /\
  slice d m = Some e /\ used e = true /\ extent_ok e.
Proof.
  intros [_ _ Ht] Hs Hm. unfold no_slice in Hs. apply orb_false_iff in Hs as [Hi Hu]. apply negb_false_iff in Hi.
  unfold table_ok in Ht. rewrite Hi in Ht. pose proof (mo_used _ Ht). rewrite s32_small in Hu by lia.
  destruct (mo_minor _ Ht m) as (slot & e & E1 & E2 & _ & ? & ?); [lia |]. exists slot, e. split_and!; [done | done | | done | done].
  unfold slice. by rewrite E1.
Qed.

Lemma userdata_minor_ok d m : good d -> exists b, xzs_is_userdata_minor d m = Some b /\
  (b = true -> no_slice d m = false /\ 1 <= m /\ elem_at (g_xzs_minor_to_gpt_slot (g_map d)) m = Some userdata_slot).
Proof.
  intros Hg. unfold xzs_is_userdata_minor. destruct (negb _ || _ || _) eqn:E; [by exists false |].
  rewrite !orb_false_iff in E. destruct E as [[E1 E2] E3].
  assert (no_slice d m = false) as Hn by (unfold no_slice; by rewrite E1, E3).
  destruct (slice_ok d m Hg Hn) as (slot & e & -> & Ee & _); [lia |]. cbn [mbind option_bind].
  destruct (Z.eqb_spec slot userdata_slot) as [-> |]; [| by exists false]. rewrite Ee. cbn [mbind option_bind].
  eexists. split; [done |]. intros _. split_and!; [done | lia | done].
Qed.

Lemma write_refused_ok d m : good d -> exists b, write_refused d m = Some b /\
  (b = false -> g_xzs_emmc_userdata_rw d <> 0 /\ no_slice d m = false /\ 1 <= m /\
     elem_at (g_xzs_minor_to_gpt_slot (g_map d)) m = Some userdata_slot).
Proof.
  intros Hg. unfold write_refused. destruct (Z.eqb_spec (g_xzs_emmc_userdata_rw d) 0); [by exists true |].
  destruct (userdata_minor_ok d m Hg) as (b & -> & Hb). cbn [mbind option_bind]. exists (negb b). split; [done |].
  intros ->%negb_false_iff. by split; [| apply Hb].
Qed.

(** ** Requests *)

(** Why a request is refused. *)
Definition refusal (d : emmc) (r : request) : option Z :=
  let m := minor (r_dev r) in
  if (55 <? m) || (0 <? m) && no_slice d m then Some ENXIO
  else if negb (has (r_flags r) B_READ) && default true (write_refused d m) then Some EROFS
  else if negb (initialized (g_xzs_emmc_ctx d)) then Some EIO
  else if (r_count r =? 0) || negb (r_count r mod 512 =? 0) || (r_blkno r <? 0) then Some EINVAL
  else
    let '(start, len) := default (0, 0) (device_extent d m) in
    let last := r_blkno r + r_count r / 512 in
    if (len <? last) || (sector_count (g_xzs_emmc_ctx d) <? start + last) then Some EINVAL
    else match r_map r with
         | (0, Some _) => None
         | (err, _) => Some (if err =? 0 then EFAULT else err)
         end.

Lemma refusal_nonzero d r err : refusal d r = Some err -> err <> 0.
Proof.
  unfold refusal. cbv zeta. destruct (default (0, 0) _) as [start len].
  repeat (case_match; [by intros [= <-] |]). destruct (r_map r) as [e [p |]]; destruct e; cbn; by intros [= <-].
Qed.

(** The first sector of an accepted request. *)
Definition target (d : emmc) (r : request) : Z := (default (0, 0) (device_extent d (minor (r_dev r)))).1 + r_blkno r.

Definition request_ok (r : request) : Prop := is_u32 (r_count r) /\ - 2 ^ 63 <= r_blkno r < 2 ^ 63.

Lemma minor_nonneg dev : 0 <= minor dev.
Proof. unfold minor. apply Z.land_nonneg. right. lia. Qed.

Lemma device_extent_ok d m : good d -> initialized (g_xzs_emmc_ctx d) = true -> 0 <= m ->
  (0 <? m) && no_slice d m = false -> exists start len, device_extent d m = Some (start, len) /\ 0 <= start < 2 ^ 32 /\ 0 <= len < 2 ^ 32.
Proof.
  intros Hg Hi Hm Hs. unfold device_extent. destruct (good_ready _ Hg Hi) as (_ & Hc & _). destruct (Z.eqb_spec m 0) as [-> |].
  { eexists _, _. split; [done |]. lia. }
  rewrite (proj2 (Z.ltb_lt 0 m)) in Hs by lia. cbn [andb] in Hs.
  destruct (slice_ok d m Hg Hs) as (slot & e & _ & _ & -> & _ & (? & ? & ? & ?)); [lia |]. eexists _, _. split; [done |]. lia.
Qed.

(** What an accepted request is. *)
Record accepted (d : emmc) (r : request) : Prop := {
  ac_init : initialized (g_xzs_emmc_ctx d) = true;
  ac_minor : minor (r_dev r) = 0 \/ 1 <= minor (r_dev r) <= 55 /\ no_slice d (minor (r_dev r)) = false;
  ac_count : 0 < r_count r /\ r_count r mod 512 = 0;
  ac_blkno : 0 <= r_blkno r;
  ac_inside : exists start len, device_extent d (minor (r_dev r)) = Some (start, len) /\ 0 <= start /\
    target d r = start + r_blkno r /\ r_blkno r + r_count r / 512 <= len;
  ac_disk : target d r + r_count r / 512 <= sector_count (g_xzs_emmc_ctx d);
  ac_write : has (r_flags r) B_READ = false -> write_refused d (minor (r_dev r)) = Some false;
}.

Lemma refusal_accepted d r : good d -> request_ok r -> refusal d r = None -> accepted d r.
Proof.
  intros Hg [Hc _] Hr. unfold refusal in Hr. cbv zeta in Hr. pose proof (minor_nonneg (r_dev r)) as Hm.
  destruct (write_refused_ok d (minor (r_dev r)) Hg) as (b & Ew & _).
  destruct (_ || _) eqn:E1 in Hr; [done |]. apply orb_false_iff in E1 as [E1 E2]. destruct (_ && _) eqn:E3 in Hr; [done |].
  destruct (negb _) eqn:E4 in Hr; [done |]. apply negb_false_iff in E4.
  destruct (_ || (r_blkno r <? 0)) eqn:E5 in Hr; [done |]. rewrite !orb_false_iff in E5. destruct E5 as [[E5 E6%negb_false_iff] E7].
  destruct (device_extent_ok d (minor (r_dev r))) as (start & len & Ee & ? & ?); [done.. |].
  unfold target. rewrite Ee in *. change (default (0, 0) (Some (start, len))) with (start, len) in *. cbv iota beta in Hr.
  destruct (_ || _) eqn:E8 in Hr; [done |]. apply orb_false_iff in E8 as [E8 E9]. cint_unfold. cbn [fst].
  split; [done | | lia | lia | exists start, len; split_and!; [done | lia | unfold target; by rewrite Ee | lia] | | ].
  - destruct (Z.eqb_spec (minor (r_dev r)) 0); [by left | right]. split; [lia |].
    by rewrite (proj2 (Z.ltb_lt _ _)) in E2 by lia.
  - unfold target. rewrite Ee. change (default (0, 0) (Some (start, len))) with (start, len). cbn [fst]. lia.
  - intros Hf. rewrite Hf, Ew in E3. cbn in E3. by subst b.
Qed.

Section disk.
Context {H : Type} {mmio : Mmio H} {laws : SdhciLaws H}.
Implicit Types w : world H.
Abbreviation counting w m := (World (hw w) (set_counters m (dr w)) (io_buf w)).

(** The counter of read commands has not moved. *)
Definition no_commands (m m' : gmap string Z) : Prop := m' !! "g_d4m1_cmd17_count" = m !! "g_d4m1_cmd17_count".

(** A request is refused without a look at the hardware, or passed on. *)
Lemma strategy_dispatch r (Q : request -> world H -> Prop) w : good (dr w) -> request_ok r ->
  (forall err m, refusal (dr w) r = Some err -> no_commands (g_counters (dr w)) m -> Q (finish r err (r_count r)) (counting w m)) ->
  (forall p m, refusal (dr w) r = None -> r_map r = (0, Some p) ->
     wp (transfer r (minor (r_dev r)) (target (dr w) r) (r_count r / 512) (has (r_flags r) B_READ) p) Q (counting w m)) ->
  wp (xzs_bdev_strategy r) Q w.
Proof.
  intros Hg [Hc Hb] Hno Hyes. unfold xzs_bdev_strategy. apply wp_bind, wp_act. cbn [dr hw io_buf].
  set (m1 := <["g_xzs_bdev_strategy_call_count" := _]> _). assert (no_commands (g_counters (dr w)) m1) as N1.
  { unfold no_commands, m1. by rewrite lookup_insert_ne. }
  clearbody m1. cbv zeta. apply wp_bind, wp_get_dr. cbn [dr hw io_buf]. set (d := set_counters m1 (dr w)). assert (good d) as Hgd by (by eapply same_good; [apply same_dr_counters |]).
  set (m := minor (r_dev r)) in *. pose proof (minor_nonneg (r_dev r)) as Hm. fold m in Hm.
  assert (refusal (dr w) r = refusal d r) as Er by done. rewrite Er in *. unfold refusal in *. cbv zeta in *. fold m in Hno, Hyes.
  unfold bad_minor. rewrite (proj2 (Z.ltb_ge m 0)) by lia. cbn [orb].
  destruct (Z.ltb_spec 55 m) as [H55 | H55]; cbn [orb] in *; [by apply wp_ret, Hno |].
  destruct ((0 <? m) && no_slice d m) eqn:Es; [by apply wp_ret, Hno |].
  destruct (write_refused_ok d m Hgd) as (b & Ew & _). rewrite Ew in *. change (default true (Some b)) with b in *.
  assert (forall (f : bool -> prog (world H) request) w1,
    wp (f (negb (has (r_flags r) B_READ) && b)) Q w1 -> wp ((if has (r_flags r) B_READ then mret false else plift (Some b)) ≫= f) Q w1) as Hif.
  { intros f w1 Hf. apply wp_bind. destruct (has (r_flags r) B_READ); apply wp_ret, Hf. }
  apply Hif. destruct (negb (has (r_flags r) B_READ) && b).
  { apply wp_bind, wp_act, wp_ret, Hno; [done |]. unfold no_commands. cbn [g_counters set_counters]. by rewrite lookup_insert_ne. }
  destruct (initialized (g_xzs_emmc_ctx d)) eqn:Ei; cbn [negb] in *; [| by apply wp_ret, Hno].
  destruct ((r_count r =? 0) || negb (r_count r mod 512 =? 0)) eqn:Ec; cbn [orb] in *; [by apply wp_ret, Hno |].
  destruct (r_blkno r <? 0) eqn:Eb; [by apply wp_ret, Hno |].
  destruct (device_extent_ok d m) as (start & len & Ee & ? & ?); [done.. |]. unfold target in Hyes. fold m in Hyes.
  change (device_extent (dr w) m) with (device_extent d m) in Hyes. rewrite Ee in Hno, Hyes.
  change (default (0, 0) (Some (start, len))) with (start, len) in *. cbn [fst] in *.
  apply wp_bind, (wp_plift _ _ _ _ Ee). cbn zeta. bool_to_prop.
  assert (0 < r_count r / 512 < 2 ^ 32) as Hn by (cint_unfold; zdm).
  destruct (Z.leb_spec len (r_blkno r)); [rewrite (proj2 (Z.ltb_lt len _)) in Hno by lia; by apply wp_ret, Hno |].
  rewrite (proj2 (Z.ltb_ge (UINT64_MAX - r_blkno r) _)) by (change UINT64_MAX with (2 ^ 64 - 1); lia).
  rewrite (u64_small (start + r_blkno r)), !u64_small by cint.
  destruct (Z.ltb_spec len (r_blkno r + r_count r / 512)); cbn [orb] in *; [by apply wp_ret, Hno |].
  rewrite Z.add_assoc in Hno, Hyes.
  destruct (sector_count (g_xzs_emmc_ctx d) <? start + r_blkno r + r_count r / 512); [by apply wp_ret, Hno |].
  destruct (r_map r) as [[| err | err] [p |]]; first [by apply wp_ret, Hno | by apply Hyes].
Qed.

(** The counters of a transfer. *)
Lemma wp_slice_counters (m n : Z) (Q : unit -> world H -> Prop) w : (forall c, Q tt (counting w c)) ->
  wp (if 0 <? m then _ ← add32 "g_xzs_slice_read_count" 1; add32 "g_xzs_partition_content_reads" n else mret tt) Q w.
Proof.
  intros HQ. destruct (0 <? m).
  - apply wp_bind, wp_add32. intros c1. apply wp_add32. intros c2. exact (HQ c2).
  - apply wp_ret. specialize (HQ (g_counters (dr w))). by destruct w as [h [] b].
Qed.

Lemma transfer_read sec r m p w pre old post : good (dr w) -> accepted (dr w) r -> request_ok r -> still sec (view (hw w)) ->
  io_buf w = pre ++ old ++ post -> zlen pre = p -> zlen old = r_count r ->
  wp (transfer r m (target (dr w) r) (r_count r / 512) true p) (fun r' w' => exists new,
    window (dr w) sec pre post (Z.to_nat (r_count r)) w' new /\
    (r' = finish r 0 0 /\ new = sectors sec (target (dr w) r) (Z.to_nat (r_count r / 512)) \/ r' = finish r EIO (r_count r))) w.
Proof.
  intros Hg Ha [Hc _] Hs Hb Hp Hl. destruct Ha as [Ai _ [A0 A1] A2 (start & len & _ & ? & ? & ?) A3 _].
  destruct (good_ready _ Hg Ai) as (_ & Hn & _). unfold transfer. apply wp_bind, wp_slice_counters. intros c1.
  apply wp_bind, wp_add64. intros c2. subst p.
  assert (Z.to_nat (r_count r) = (512 * Z.to_nat (r_count r / 512))%nat) as El by zdm.
  apply wp_bind. eapply wp_mono.
  { apply (read_blocks_fills (dr w) sec) with (pre := pre) (post := post) (old := old); [lia | cint_unfold; zdm | lia |].
    split_and!; [done | done | unfold zlen in Hl; lia | done]. }
  intros rc w1 (new & Hw1 & Hrc). rewrite El. destruct (Z.eqb_spec rc 0) as [-> | Hn0].
  - apply wp_bind, wp_bind, wp_add32. intros c3. apply wp_add64. intros c4. apply wp_ret. exists new.
    split; [by apply (window_counters _ _ _ _ _ (counting w1 c3)), window_counters | left; auto].
  - apply wp_ret. exists new. split; [done | by right].
Qed.

Lemma transfer_write sec r m p w pre data post : good (dr w) -> accepted (dr w) r -> request_ok r -> still sec (view (hw w)) ->
  io_buf w = pre ++ data ++ post -> zlen pre = p -> zlen data = r_count r -> Forall is_u8 data ->
  wp (transfer r m (target (dr w) r) (r_count r / 512) false p) (fun r' w' => same_dr (dr w) (dr w') /\ io_buf w' = io_buf w /\
    exists sec', still sec' (view (hw w')) /\
      changed (fun l => target (dr w) r <= l < target (dr w) r + r_count r / 512 /\ allowed (dr w) l) sec sec' /\
      (r' = finish r 0 0 /\ (forall l, sec' l = put_range (target (dr w) r) (r_count r / 512) data sec l) \/
       r' = finish r EIO (r_count r))) w.
Proof.
  intros Hg Ha [Hc _] Hs Hb Hp Hl Hu. destruct Ha as [Ai _ [A0 A1] A2 (start & len & _ & ? & ? & ?) A3 _].
  destruct (good_ready _ Hg Ai) as (Hm & Hn & _). unfold transfer. apply wp_bind, wp_slice_counters. intros c1.
  apply wp_bind, wp_add64. intros c2. subst p. apply wp_bind. eapply wp_mono.
  { apply (write_blocks_spec sec) with (pre := pre) (post := post) (data := data); [done | exact (good_slots _ Hg) | done | lia |
      cint_unfold; zdm | lia | done | | done]. unfold zlen in Hl. zdm. }
  intros rc w1 (E1 & E2 & sec' & Hs' & Hch & Hrc). destruct (Z.eqb_spec rc 0) as [-> | Hn0].
  - apply wp_bind, wp_add64. intros c3. apply wp_ret. cbn [hw dr io_buf]. split_and!; [by rewrite E1 | by rewrite E2 |].
    exists sec'. split_and!; [done | done |]. left. auto.
  - apply wp_ret. rewrite E1, E2. split_and!; [done | done |]. exists sec'. split_and!; [done | done |]. by right.
Qed.

(** ** Strategy *)

(** The mapped part of a buffer. *)
Definition maps (r : request) (buf pre mid post : bytes) : Prop :=
  forall p, r_map r = (0, Some p) -> buf = pre ++ mid ++ post /\ zlen mid = r_count r /\ Forall is_u8 mid /\ p = zlen pre.

Lemma strategy_read sec r w pre mid post : good (dr w) -> request_ok r -> still sec (view (hw w)) ->
  maps r (io_buf w) pre mid post -> has (r_flags r) B_READ = true ->
  wp (xzs_bdev_strategy r) (fun r' w' => same_dr (dr w) (dr w') /\ still sec (view (hw w')) /\
    match refusal (dr w) r with
    | Some err => r' = finish r err (r_count r) /\ hw w' = hw w /\ io_buf w' = io_buf w
    | None => exists new, io_buf w' = pre ++ new ++ post /\ zlen new = r_count r /\
        (r' = finish r 0 0 /\ new = sectors sec (target (dr w) r) (Z.to_nat (r_count r / 512)) \/ r' = finish r EIO (r_count r))
    end) w.
Proof.
  intros Hg Hr Hs Hp Hf. apply strategy_dispatch; [done | done | |].
  - intros err m -> _. done.
  - intros p m E Em. rewrite E, Hf. destruct (Hp p Em) as (Hb & Hl & Hu & ->). assert (good (set_counters m (dr w))) as Hgm by (by eapply same_good; [apply same_dr_counters |]).
    eapply wp_mono.
    { apply (transfer_read sec r (minor (r_dev r)) (zlen pre) (counting w m) pre mid post);
        [done | by apply refusal_accepted | done | done | done | done | done]. }
    intros r' w' (new & (W1 & W2 & W3 & W4) & Hor). split_and!; [done | done |]. exists new.
    split_and!; [done | unfold zlen in *; lia | done].
Qed.

(** Writes reach the mapped part of the userdata extent only. *)
Lemma strategy_write sec r w pre mid post : good (dr w) -> request_ok r -> still sec (view (hw w)) ->
  maps r (io_buf w) pre mid post -> has (r_flags r) B_READ = false ->
  wp (xzs_bdev_strategy r) (fun r' w' => same_dr (dr w) (dr w') /\ io_buf w' = io_buf w /\ exists sec', still sec' (view (hw w')) /\
    match refusal (dr w) r with
    | Some err => r' = finish r err (r_count r) /\ hw w' = hw w /\ sec' = sec
    | None =>
        changed (fun l => target (dr w) r <= l < target (dr w) r + r_count r / 512 /\ allowed (dr w) l) sec sec' /\
        (r' = finish r 0 0 /\ (forall l, sec' l = put_range (target (dr w) r) (r_count r / 512) mid sec l) \/
         r' = finish r EIO (r_count r))
    end) w.
Proof.
  intros Hg Hr Hs Hp Hf. apply strategy_dispatch; [done | done | |].
  - intros err m -> _. split_and!; [done | done |]. by exists sec.
  - intros p m E Em. rewrite E, Hf. destruct (Hp p Em) as (Hb & Hl & Hu & ->). assert (good (set_counters m (dr w))) as Hgm by (by eapply same_good; [apply same_dr_counters |]).
    eapply wp_mono.
    { apply (transfer_write sec r (minor (r_dev r)) (zlen pre) (counting w m) pre mid post);
        [done | by apply refusal_accepted | done | done | done | done | done | done]. }
    intros r' w' (W1 & W2 & sec' & W3 & W4 & Hor). split_and!; [done | done |]. by exists sec'.
Qed.

(** C3. A read request, on any controller and card that behave like an SD host controller: it is
    completed once; a request that [refusal] rejects gets its errno and all of it as residual, with
    the hardware untouched; any other request either delivers exactly the sectors of the partition
    (or of the disk) it names, or fails with EIO; the card is never changed, and of the buffer only
    the mapped part. *)
Theorem strategy_reads_partition sec r w pre mid post : good (dr w) -> request_ok r -> still sec (view (hw w)) ->
  maps r (io_buf w) pre mid post -> has (r_flags r) B_READ = true ->
  exists r' w', xzs_bdev_strategy r w = Ret (r', w') /\ r_done r' = r_done r + 1 /\ still sec (view (hw w')) /\
    match refusal (dr w) r with
    | Some err => r_error r' = err /\ r_resid r' = r_count r /\ hw w' = hw w /\ io_buf w' = io_buf w
    | None => accepted (dr w) r /\ exists new, io_buf w' = pre ++ new ++ post /\
        (r_error r' = 0 /\ r_resid r' = 0 /\ new = sectors sec (target (dr w) r) (Z.to_nat (r_count r / 512)) \/
         r_error r' = EIO /\ r_resid r' = r_count r)
    end.
Proof.
  intros Hg Hr Hs Hm Hf. destruct (wp_elim _ _ _ (strategy_read sec r w pre mid post Hg Hr Hs Hm Hf)) as (r' & w' & E & _ & Hs' & Hres).
  exists r', w'. split; [done |]. destruct (refusal (dr w) r) eqn:Er.
  - by destruct Hres as (-> & ? & ?).
  - pose proof (refusal_accepted _ _ Hg Hr Er). destruct Hres as (new & ? & _ & [[-> ?] | ->]); (split; [done |]); (split; [done |]);
      (split; [done |]); exists new; auto.
Qed.
End disk.

Lemma sim_good : good sim_driver.
Proof. split; [by split; [| apply Forall_replicate] | by intros _; split_and! | apply sim_map_ok]. Qed.

(** Two sectors of the userdata partition. *)
Definition sim_request (flags : Z) : request := Req (makedev 3 2) 7 1024 flags (0, Some 8) 0 0 0.

Lemma sim_request_ok flags : request_ok (sim_request flags).
Proof. split; cbn; [done | lia]. Qed.

Lemma strategy_reads_partition_witness : exists r' w', xzs_bdev_strategy (sim_request B_READ) (sim_world (replicate 1040 0)) = Ret (r', w') /\
  r_done r' = 1 /\ still sim_sector (view (hw w')) /\
  accepted sim_driver (sim_request B_READ) /\ exists new, io_buf w' = replicate 8 0 ++ new ++ replicate 8 0 /\
    (r_error r' = 0 /\ r_resid r' = 0 /\ new = sectors sim_sector 53041 2 \/ r_error r' = EIO /\ r_resid r' = 1024).
Proof.
  apply (strategy_reads_partition sim_sector (sim_request B_READ) (sim_world (replicate 1040 0)) (replicate 8 0) (replicate (Z.to_nat 1024) 0) (replicate 8 0));
    [apply sim_good | apply sim_request_ok | apply sim_still | | reflexivity].
  intros p [= <-]. split; [reflexivity |]. split; [reflexivity |]. split; [by apply Forall_replicate | reflexivity].
Defined.
