(* ===== verification/EmmcSafety.v ===== *)
(** * Calls of the device switch

    Every entry of the device switch returns, on any hardware that satisfies [SdhciLaws], and a
    sequence of calls changes no sector of the card outside the extent of the userdata slot: the
    partition table and every other partition stay as they are. *)

From stdpp Require Import base list relations gmap strings.
From Stdlib Require Import ZArith Lia.
From S2P Require Import Prelude Wp Kernel Memdev Gpt GptProofs GptMinors Emmc EmmcDev EmmcCard EmmcBus EmmcRead EmmcWrite EmmcInit EmmcSim EmmcDisk.

(** A sector of the userdata extent of a loaded table. *)
Definition in_userdata (d : emmc) (l : Z) : Prop :=
  g_xzs_d4_gpt_map_initialized d = true /\ exists e,
    elem_at (g_xzs_d4_parsed_entries (g_map d)) userdata_slot = Some e /\ used e = true /\ start_lba e <= l <= end_lba e.

Lemma allowed_userdata d l : good d -> allowed d l -> in_userdata d l.
Proof.
  intros [_ _ Ht] (_ & Hi & Hw). split; [done |]. unfold table_ok in Ht. rewrite Hi in Ht. unfold write_allowed in Hw.
  destruct (elem_at (g_xzs_d4_parsed_entries (g_map d)) userdata_slot) as [e|] eqn:E; [| done]. cbn [mbind option_bind] in Hw.
  injection Hw as Hw. rewrite negb_true_iff, !orb_false_iff in Hw. destruct Hw as [[Hs Hlo] Hhi]. exists e. split; [done |].
  split; [| lia]. destruct (used e) eqn:Eu; [done |]. apply (mo_unused _ Ht _ _ E) in Eu. lia.
Qed.

(** Nothing else meets it. *)
Lemma userdata_apart d l : good d -> in_userdata d l -> 34 <= l <= 61071326 /\
  forall slot e, slot <> userdata_slot -> elem_at (g_xzs_d4_parsed_entries (g_map d)) slot = Some e -> used e = true ->
    ~ (start_lba e <= l <= end_lba e).
Proof.
  intros [_ _ Ht] (Hi & u & Eu & Uu & Hl). unfold table_ok in Ht. rewrite Hi in Ht. split.
  - destruct (mo_slot _ Ht _ _ Eu Uu) as (m & Hm & Em). destruct (mo_minor _ Ht m Hm) as (slot & e & E1 & E2 & _ & _ & (? & ? & ? & _)).
    replace slot with userdata_slot in * by congruence. replace e with u in * by congruence. lia.
  - intros slot e Hne Ee Ue Hr. destruct (mo_apart _ Ht slot userdata_slot e u); [done.. | lia | lia].
Qed.

(** ** Calls *)

Inductive bdev_call :=
  | COpen (dev flags : Z)
  | CClose (dev : Z)
  | CSize (dev : Z)
  | CIoctl (dev : Z) (cmd : blk_cmd) (data : bool)
  | CStrategy (buf : bytes) (r : request).

(** The caller's part: a mapped buffer is as large as the request says. *)
Definition call_ok (c : bdev_call) : Prop :=
  match c with
  | CStrategy buf r => request_ok r /\ Forall is_u8 buf /\
      forall p, r_map r = (0, Some p) -> 0 <= p /\ p + r_count r <= zlen buf
  | _ => True
  end.

Section calls.
Context {H : Type} {mmio : Mmio H} {laws : SdhciLaws H}.
Implicit Types w : world H.
Abbreviation counting w m := (World (hw w) (set_counters m (dr w)) (io_buf w)).

Definition run_call (c : bdev_call) : prog (world H) unit :=
  match c with
  | COpen dev flags => _ ← xzs_bdev_open dev flags; mret tt
  | CClose dev => _ ← xzs_bdev_close dev; mret tt
  | CSize dev => _ ← xzs_bdev_psize dev; mret tt
  | CIoctl dev cmd data => _ ← xzs_bdev_ioctl dev cmd data; mret tt
  | CStrategy buf r => _ ← with_buffer buf (xzs_bdev_strategy r); mret tt
  end.

Fixpoint run_calls (cs : list bdev_call) : prog (world H) unit :=
  match cs with
  | [] => mret tt
  | c :: cs => _ ← run_call c; run_calls cs
  end.

Lemma wp_with_buffer {A} l (c : prog (world H) A) (Q : A * bytes -> world H -> Prop) w :
  wp c (fun a w' => Q (a, io_buf w') (World (hw w') (dr w') (io_buf w))) (World (hw w) (dr w) l) -> wp (with_buffer l c) Q w.
Proof. unfold wp, with_buffer. by destruct (c _) as [[a w'] | | |]. Qed.

Lemma maps_exists buf r : call_ok (CStrategy buf r) -> exists pre mid post, maps r buf pre mid post.
Proof.
  intros ([Hc _] & Hu & Hp). destruct (r_map r) as [[| e | e] [p |]] eqn:Em; cycle 1.
  1-5: exists [], [], []; unfold maps; rewrite Em; congruence.
  destruct (Hp p eq_refl) as [H0 Hle]. unfold zlen in Hle.
  exists (take (Z.to_nat p) buf), (take (Z.to_nat (r_count r)) (drop (Z.to_nat p) buf)), (drop (Z.to_nat (r_count r)) (drop (Z.to_nat p) buf)).
  unfold maps. rewrite Em. intros p' [= <-]. rewrite !take_drop. split_and!; [done | unfold zlen; rewrite length_take, length_drop; cint | |].
  - by apply Forall_take, Forall_drop.
  - unfold zlen. rewrite length_take. cint.
Qed.

(** What a call keeps. *)
Definition confined (sec : Z -> bytes) (d : emmc) w : Prop :=
  good (dr w) /\ fixed d (dr w) /\ exists sec', still sec' (view (hw w)) /\ changed (in_userdata d) sec sec'.

Lemma confined_counting sec d w c : confined sec d w -> confined sec d (counting w c).
Proof.
  intros (Hg & Hf & sec' & Hs & Hc). split_and!; [by eapply same_good; [apply same_dr_counters |] | done |]. by exists sec'.
Qed.

Lemma same_fixed d a b : same_dr a b -> fixed d a -> fixed d b.
Proof. intros E. unfold same_dr in E. destruct a, b. cbn in E. by injection E as <- <- <- <- <- <- <- <- <-. Qed.

Lemma fixed_userdata d d' l : fixed d d' -> in_userdata d' l -> in_userdata d l.
Proof. unfold in_userdata. intros (-> & -> & _ & _). done. Qed.

Lemma strategy_confined sec d buf r w : call_ok (CStrategy buf r) -> confined sec d w ->
  wp (with_buffer buf (xzs_bdev_strategy r)) (fun _ => confined sec d) w.
Proof.
  intros Hok (Hg & Hf & sec1 & Hs & Hch). destruct (maps_exists buf r Hok) as (pre & mid & post & Hm). destruct Hok as (Hr & _ & _).
  apply wp_with_buffer. destruct (has (r_flags r) B_READ) eqn:Er.
  - eapply wp_mono; [by apply (strategy_read sec1 r _ pre mid post) |]. intros r' w' (E & Hs' & _).
    split_and!; [by eapply same_good | by eapply same_fixed |]. by exists sec1.
  - eapply wp_mono; [by apply (strategy_write sec1 r _ pre mid post) |]. intros r' w' (E & _ & sec2 & Hs' & Hc).
    split_and!; [by eapply same_good | by eapply same_fixed |]. exists sec2. split; [done |]. eapply changed_trans; [exact Hch |].
    cbn [dr] in Hc. destruct (refusal (dr w) r); [destruct Hc as (_ & _ & ->); apply changed_refl |].
    destruct Hc as [Hc _]. intros l. destruct (Hc l) as [? | [_ Hal]]; [by left | right].
    eapply fixed_userdata; [exact Hf |]. by apply allowed_userdata.
Qed.

(** ** Open, close, size and control *)

(** The checks of open that come before the hardware. *)
Definition open_refusal (d : emmc) (m flags : Z) : option Z :=
  if (55 <? m) || (0 <? m) && no_slice d m then Some ENXIO
  else if has flags FWRITE && default true (write_refused d m) then Some EROFS
  else if negb (has flags FREAD) then Some EINVAL
  else None.

(** Open fails on those checks without a look at the hardware; otherwise it succeeds exactly when
    the card is ready afterwards. *)
Lemma open_spec sec dev flags w : good (dr w) -> still sec (view (hw w)) ->
  wp (xzs_bdev_open dev flags) (fun rc w' => good (dr w') /\ fixed (dr w) (dr w') /\ still sec (view (hw w')) /\ io_buf w' = io_buf w /\
    match open_refusal (dr w) (minor dev) flags with
    | Some err => rc = err /\ hw w' = hw w /\ same_dr (dr w) (dr w')
    | None => initialized (g_xzs_emmc_ctx (dr w')) = (rc =? 0) /\ (rc = 0 \/ rc = EIO) /\
        (initialized (g_xzs_emmc_ctx (dr w)) = true -> rc = 0 /\ hw w' = hw w /\ same_dr (dr w) (dr w'))
    end) w.
Proof.
  intros Hg Hs. unfold xzs_bdev_open. apply wp_bind, wp_add32. intros c1. cbv zeta. apply wp_bind, wp_get_dr. cbn [dr hw io_buf].
  set (m := minor dev). pose proof (minor_nonneg dev) as Hm. fold m in Hm. set (d := set_counters c1 (dr w)).
  assert (good d) as Hgd by (by eapply same_good; [apply same_dr_counters |]).
  change (open_refusal (dr w) m flags) with (open_refusal d m flags). unfold open_refusal, bad_minor.
  rewrite (proj2 (Z.ltb_ge m 0)) by lia. cbn [orb].
  destruct (55 <? m); cbn [orb]; [by apply wp_ret |]. destruct ((0 <? m) && no_slice d m); [by apply wp_ret |].
  destruct (write_refused_ok d m Hgd) as (b & -> & _). change (default true (Some b)) with b.
  apply wp_bind. assert (forall Q, Q (has flags FWRITE && b) (World (hw w) d (io_buf w)) ->
    wp (if has flags FWRITE then plift (Some b) else mret false) Q (World (hw w) d (io_buf w))) as Hif.
  { intros Q HQ. by destruct (has flags FWRITE). }
  apply Hif. destruct (has flags FWRITE && b); [by apply wp_ret |]. destruct (negb (has flags FREAD)); [by apply wp_ret |].
  change (g_xzs_emmc_ctx d) with (g_xzs_emmc_ctx (dr w)).
  destruct (initialized (g_xzs_emmc_ctx (dr w))) eqn:Ei.
  { apply wp_ret. split_and!; try done; [by left]. }
  apply wp_bind. eapply wp_mono; [apply (init_spec sec); [done | apply Hgd | apply Hgd] |].
  intros rc w1 ((K1 & K2 & K3 & K4) & R1 & I1). apply wp_bind, wp_get_dr, wp_ret. rewrite I1. cbn [dr io_buf] in K2, K4.
  assert (table_ok (dr w1)) as Ht.
  { destruct K2 as (E1 & E2 & _). unfold table_ok. rewrite E1, E2. apply Hgd. }
  do 4 (split; [by first [done | split] |]). destruct (Z.eqb_spec rc 0) as [-> | Hn]; cbn [negb orb]; split_and!; auto; congruence.
Qed.

(** The other entries leave everything but the counters alone. *)
Definition counts_only {A} (c : prog (world H) A) w (Q : A -> Prop) : Prop :=
  wp c (fun a w' => (exists m, w' = counting w m) /\ Q a) w.

Lemma close_spec dev w : counts_only (xzs_bdev_close dev) w (fun rc => rc = if 55 <? minor dev then ENXIO else 0).
Proof.
  unfold counts_only, xzs_bdev_close, bad_minor. apply wp_bind, wp_add32. intros m. apply wp_ret.
  rewrite (proj2 (Z.ltb_ge _ 0)) by apply minor_nonneg. split; [by eexists | done].
Qed.

(** The size of a device: the number of sectors strategy lets a request reach. *)
Definition device_sectors (d : emmc) (m : Z) : option Z :=
  if (55 <? m) || (0 <? m) && no_slice d m then None else snd <$> device_extent d m.

Lemma psize_spec dev w : good (dr w) -> counts_only (xzs_bdev_psize dev) w (fun size =>
  size = if 55 <? minor dev then ENXIO else if negb (initialized (g_xzs_emmc_ctx (dr w))) then -1
         else default ENXIO (s32 <$> device_sectors (dr w) (minor dev))).
Proof.
  intros Hg. unfold counts_only, xzs_bdev_psize, bad_minor, device_sectors. apply wp_bind, wp_add32. intros c. cbv zeta. apply wp_bind, wp_get_dr.
  cbn [dr hw io_buf]. pose proof (minor_nonneg dev) as Hm. rewrite (proj2 (Z.ltb_ge _ 0)) by done. cbn [orb].
  destruct (55 <? minor dev); cbn [orb]; [apply wp_ret; split; [by eexists | done] |].
  change (g_xzs_emmc_ctx (set_counters c (dr w))) with (g_xzs_emmc_ctx (dr w)).
  destruct (initialized _); cbn [negb]; [| apply wp_ret; split; [by eexists | done]].
  change (no_slice (set_counters c (dr w))) with (no_slice (dr w)). unfold device_extent.
  destruct (Z.eqb_spec (minor dev) 0) as [-> |]; [apply wp_ret; split; [by eexists | done] |].
  rewrite (proj2 (Z.ltb_lt 0 _)) by lia. cbn [andb].
  destruct (no_slice (dr w) (minor dev)) eqn:En; [apply wp_ret; split; [by eexists | done] |].
  destruct (slice_ok (dr w) (minor dev) Hg En) as (slot & e & _ & _ & E & _); [lia |]. rewrite E. apply wp_bind, (wp_plift _ e); [done |].
  apply wp_ret. split; [by eexists | done].
Qed.

(** What control answers, for every command. *)
Definition ioctl_answer (d : emmc) (m : Z) (cmd : blk_cmd) (data : bool) : Z * dk_data :=
  if (55 <? m) || negb (initialized (g_xzs_emmc_ctx d)) then (ENXIO, NoData)
  else match cmd, data with
  | (BlkSynchronize | BlkSynchronizeCache), _ => (0, NoData)
  | _, false => (EINVAL, NoData)
  | BlkGetBlockSize, _ => (0, Data32 512)
  | BlkSetBlockSize size, _ => (if size =? 512 then 0 else EINVAL, NoData)
  | BlkGetBlockCount, _ => match device_sectors d m with Some n => (0, Data64 n) | None => (ENXIO, NoData) end
  | BlkIsWritable, _ => (0, Data32 (if default true (write_refused d m) then 0 else 1))
  | BlkIsSolidState, _ => (0, Data32 1)
  | BlkOther, _ => (ENOTTY, NoData)
  end.

Lemma ioctl_spec dev cmd data w : good (dr w) ->
  counts_only (xzs_bdev_ioctl dev cmd data) w (fun ans => ans = ioctl_answer (dr w) (minor dev) cmd data).
Proof.
  intros Hg. unfold counts_only, xzs_bdev_ioctl, bad_minor, ioctl_answer, device_sectors. apply wp_bind, wp_add32. intros c.
  cbv zeta. apply wp_bind, wp_get_dr. cbn [dr hw io_buf]. pose proof (minor_nonneg dev) as Hm.
  rewrite (proj2 (Z.ltb_ge _ 0)) by done. cbn [orb]. destruct (55 <? minor dev); cbn [orb]; [apply wp_ret; split; [by eexists | done] |].
  change (g_xzs_emmc_ctx (set_counters c (dr w))) with (g_xzs_emmc_ctx (dr w)).
  destruct (initialized _) eqn:Ei; cbn [negb]; [| apply wp_ret; split; [by eexists | done]].
  destruct (good_ready _ Hg Ei) as (_ & _ & Hsz).
  destruct cmd; [| | destruct data..]; try (apply wp_ret; split; [by eexists | by rewrite ?Hsz]).
  - apply wp_bind, wp_add32. intros c2. apply wp_ret. split; [by eexists |]. by destruct (size =? 512).
  - change (no_slice (set_counters c (dr w))) with (no_slice (dr w)). unfold device_extent.
    destruct (Z.eqb_spec (minor dev) 0) as [-> |]; [apply wp_ret; split; [by eexists | done] |].
    rewrite (proj2 (Z.ltb_lt 0 _)) by lia. cbn [andb negb].
    destruct (no_slice (dr w) (minor dev)) eqn:En; [apply wp_ret; split; [by eexists | done] |].
    destruct (slice_ok (dr w) (minor dev) Hg En) as (slot & e & _ & _ & E & _); [lia |]. rewrite E. apply wp_bind, (wp_plift _ e); [done |].
    apply wp_ret. split; [by eexists | done].
  - destruct (write_refused_ok (dr w) (minor dev) Hg) as (b & E & _). rewrite E. apply wp_bind, (wp_plift _ b); [done |].
    apply wp_ret. split; [by eexists | done].
Qed.

Lemma call_confined sec d c w : call_ok c -> confined sec d w -> wp (run_call c) (fun _ => confined sec d) w.
Proof.
  intros Hok Hc. pose proof Hc as (Hg & Hf & sec' & Hs & Hch).
  assert (forall A (p : prog (world H) A) Q, counts_only p w Q -> wp (_ ← p; mret tt) (fun _ => confined sec d) w) as Hcount.
  { intros A p Q Hp. apply wp_bind. eapply wp_mono; [exact Hp |]. intros a w' [(m & ->) _]. by apply wp_ret, confined_counting. }
  destruct c as [dev flags | dev | dev | dev cmd data | buf r]; cbn [run_call].
  - apply wp_bind. eapply wp_mono; [by apply (open_spec sec') |]. intros rc w' (Hg' & Hf' & Hs' & _). apply wp_ret.
    split_and!; [done | | by exists sec']. unfold fixed in *. destruct Hf' as (-> & -> & -> & ->). done.
  - eapply Hcount, close_spec.
  - by eapply Hcount, psize_spec.
  - by eapply Hcount, ioctl_spec.
  - apply wp_bind. eapply wp_mono; [by apply strategy_confined |]. intros ? w' Hw'. by apply wp_ret.
Qed.

Lemma calls_confined sec d cs : forall w, Forall call_ok cs -> confined sec d w -> wp (run_calls cs) (fun _ => confined sec d) w.
Proof.
  induction cs as [|c cs IH]; intros w Hok Hc; cbn [run_calls]; [by apply wp_ret |]. apply Forall_cons in Hok as [Hc1 Hcs].
  apply wp_bind. eapply wp_mono; [by apply call_confined |]. intros [] w' Hw'. by apply IH.
Qed.

(** C21. The driver's state stays well formed (its arrays keep their lengths, the card's geometry its
    range, the partition map its invariant) under every sequence of calls, none of which faults or
    runs out of fuel, whatever the minor numbers, flags, block numbers and counts in them. *)
Theorem calls_well_formed sec cs w : good (dr w) -> still sec (view (hw w)) -> Forall call_ok cs ->
  exists w', run_calls cs w = Ret (tt, w') /\ good (dr w') /\ fixed (dr w) (dr w').
Proof.
  intros Hg Hs Hcs. assert (confined sec (dr w) w) as Hc.
  { split; [done |]. split; [done |]. exists sec. split; [done | apply changed_refl]. }
  destruct (wp_elim _ _ _ (calls_confined sec (dr w) cs w Hcs Hc)) as ([] & w' & E & Hg' & Hf & _). by exists w'.
Qed.

(** ** Round trip *)

Lemma region_sectors data : forall (n : nat) start sec, length data = (512 * n)%nat ->
  sectors (put_range start (Z.of_nat n) data sec) start n = data.
Proof.
  intros n start sec Hl. apply list_eq. intros i. unfold sectors.
  assert (forall (k m : nat), (k + m = n)%nat ->
    concat ((fun j => put_range start (Z.of_nat n) data sec (start + Z.of_nat j)) <$> seq k m) = drop (512 * k) data) as Hc.
  { intros k m. revert k. induction m as [|m IH]; intros k Hk.
    - cbn. by rewrite drop_ge by lia.
    - cbn [seq]. rewrite fmap_cons. cbn [concat]. rewrite IH by lia. unfold put_range at 1.
      rewrite (proj2 (Z.leb_le _ _)), (proj2 (Z.ltb_lt _ _)) by lia. cbn [andb]. unfold region.
      replace (Z.to_nat (512 * (start + Z.of_nat k - start))) with (512 * k)%nat by lia.
      replace (512 * S k)%nat with (512 * k + 512)%nat by lia. rewrite <- drop_drop. change (Z.to_nat 512) with 512%nat.
      by rewrite take_drop. }
  rewrite (Hc 0%nat n) by lia. by rewrite drop_0.
Qed.

(** The same sectors. *)
Definition same_place (a b : request) : Prop := r_dev a = r_dev b /\ r_blkno a = r_blkno b /\ r_count a = r_count b.

(** C6. Write, then read: when a write request and a later read of the same sectors both report
    success, the read returns what was written, on any controller and card that behave like an SD
    host controller. *)
Theorem write_read_roundtrip sec rw rr w pre data post buf pre' old post' :
  good (dr w) -> still sec (view (hw w)) -> request_ok rw -> same_place rw rr ->
  has (r_flags rw) B_READ = false -> has (r_flags rr) B_READ = true ->
  maps rw (io_buf w) pre data post -> maps rr buf pre' old post' ->
  exists rw' rr' out w', (a ← xzs_bdev_strategy rw; b ← with_buffer buf (xzs_bdev_strategy rr); mret (a, b)) w = Ret ((rw', (rr', out)), w') /\
    (r_error rw' = 0 -> r_error rr' = 0 -> out = pre' ++ data ++ post').
Proof.
  intros Hg Hs Hok (Ed & Eb & Ec) Hfw Hfr Hmw Hmr.
  assert (wp (a ← xzs_bdev_strategy rw; b ← with_buffer buf (xzs_bdev_strategy rr); mret (a, b))
    (fun res _ => r_error res.1 = 0 -> r_error res.2.1 = 0 -> res.2.2 = pre' ++ data ++ post') w) as ([rw' [rr' out]] & w' & E & HQ)%wp_elim;
    [| by exists rw', rr', out, w'].
  apply wp_bind. eapply wp_mono; [by apply (strategy_write sec rw w pre data post) |].
  intros rw' w1 (D1 & _ & sec1 & S1 & Hw). apply wp_bind, wp_with_buffer. cbn [hw dr io_buf].
  assert (good (dr w1)) as G1 by by eapply same_good.
  assert (request_ok rr) as Hokr by (unfold request_ok in *; by rewrite <- Eb, <- Ec).
  eapply wp_mono; [by apply (strategy_read sec1 rr _ pre' old post') |]. intros rr' w2 (_ & _ & Hr). apply wp_ret. cbn [fst snd dr io_buf] in *.
  intros E1 E2. destruct (refusal (dr w) rw) as [err|] eqn:Er.
  { destruct Hw as (-> & _). cbn in E1. by apply refusal_nonzero in Er. }
  pose proof (refusal_accepted _ _ Hg Hok Er) as [_ _ [A0 A1] _ _ _ _].
  destruct Hw as [_ [[-> Hput] | ->]]; [| done].
  destruct (refusal (dr w1) rr) as [err|] eqn:Er2.
  { destruct Hr as (-> & _). cbn in E2. by apply refusal_nonzero in Er2. }
  destruct Hr as (new & -> & _ & [[-> ->] | ->]); [| done]. do 2 f_equal.
  assert (target (dr w1) rr = target (dr w) rw) as ->.
  { unfold target, device_extent, slice. rewrite <- Ed, <- Eb, <- (f_equal g_map D1 : _ = g_map (dr w1)),
      <- (f_equal g_xzs_emmc_ctx D1 : _ = g_xzs_emmc_ctx (dr w1)). done. }
  rewrite <- Ec. destruct (r_map rw) as [[| e | e] [p |]] eqn:Em; try by (unfold refusal in Er; rewrite Em in Er; cbv zeta in Er; repeat case_match; simplify_eq).
  destruct (Hmw p Em) as (_ & Hld & _). rewrite (sectors_ext sec1 (put_range (target (dr w) rw) (r_count rw / 512) data sec)) by (intros; apply Hput).
  replace (r_count rw / 512) with (Z.of_nat (Z.to_nat (r_count rw / 512))) at 1 by (cint_unfold; zdm).
  apply region_sectors. unfold zlen in Hld. cint_unfold. zdm.
Qed.
End calls.

(** Write two sectors of the userdata partition, read them back. *)
Lemma sim_maps flags buf pre mid post : buf = pre ++ mid ++ post -> zlen mid = 1024 -> Forall is_u8 mid -> zlen pre = 8 ->
  maps (sim_request flags) buf pre mid post.
Proof. intros -> Hm Hu Hp p [= <-]. by rewrite Hp. Qed.

Lemma calls_well_formed_witness : exists w',
  run_calls [COpen (makedev 3 2) 3; CIoctl (makedev 3 2) BlkGetBlockCount true; CStrategy (replicate (Z.to_nat 1040) 9) (sim_request 0);
             CSize (makedev 3 77); CClose (makedev 3 2)] (sim_world []) = Ret (tt, w') /\
  good (dr w') /\ fixed sim_driver (dr w').
Proof.
  apply (calls_well_formed sim_sector); [apply sim_good | apply sim_still |]. do 2 (constructor; [done |]).
  constructor; [| do 2 (constructor; [done |]); constructor].
  split; [apply sim_request_ok |]. split; [by apply Forall_replicate |]. intros p [= <-]. vm_compute. done.
Defined.

Lemma write_read_roundtrip_witness : exists rw' rr' out w',
  (a ← xzs_bdev_strategy (sim_request 0); b ← with_buffer (replicate (Z.to_nat 1032) 0) (xzs_bdev_strategy (sim_request B_READ)); mret (a, b))
    (sim_world (replicate 8 1 ++ replicate (Z.to_nat 1024) 9 ++ [])) = Ret ((rw', (rr', out)), w') /\
  (r_error rw' = 0 -> r_error rr' = 0 -> out = replicate 8 0 ++ replicate (Z.to_nat 1024) 9 ++ []).
Proof.
  apply (write_read_roundtrip sim_sector (sim_request 0) (sim_request B_READ) (sim_world (replicate 8 1 ++ replicate (Z.to_nat 1024) 9 ++ []))
    (replicate 8 1) (replicate (Z.to_nat 1024) 9) [] (replicate (Z.to_nat 1032) 0) (replicate 8 0) (replicate (Z.to_nat 1024) 0) []);
    [apply sim_good | apply sim_still | apply sim_request_ok | done | done | done | |];
    (apply sim_maps; [reflexivity | reflexivity | by apply Forall_replicate | reflexivity]).
Defined.
