(* ===== verification/EmmcLoad.v ===== *)
(** * Loading the partition table

    What [load_runtime_gpt] and the switch to multiple-block reads do on any hardware that
    satisfies [SdhciLaws]: the table that is frozen is the one on the card, its checksums are
    the expected ones, it is valid, and the minor numbers stand for its used slots. *)

From stdpp Require Import base list relations gmap strings.
From Stdlib Require Import ZArith Lia.
From S2P Require Import Prelude Wp Crc32 Kernel Memdev Gpt GptProofs GptParse GptMinors Emmc EmmcDev EmmcCard EmmcBus EmmcRead EmmcInit EmmcSim EmmcDisk EmmcSafety.

Abbreviation runtime_valid buf := (gpt_valid buf 128 34 61071326 61071360 128).
Abbreviation runtime_used buf := (used_list buf 128 128).

(** ** Parsing *)

(** The records in use are the used entries of the array. *)
Definition table_of (entries : bytes) (g : gpt_map) : Prop :=
  forall slot e, elem_at (g_xzs_d4_parsed_entries g) slot = Some e -> used e = true ->
    slot ∈ runtime_used entries /\ start_lba e = start_of entries 128 slot /\ end_lba e = end_of entries 128 slot.

Lemma parse_runtime_spec entries d : zlen entries = 16384 -> Forall is_u8 entries -> unloaded (g_map d) ->
  exists ok g, parse_runtime_map entries d = Some (ok, g) /\ length (g_xzs_d4_parsed_entries g) = 128%nat /\
    (ok = true <-> runtime_valid entries /\ zlen (runtime_used entries) = 55) /\
    (ok = true -> exists g', derive_minors g = Some g' /\ map_ok g' /\ g_xzs_d4_used_count g' = 55 /\
       take 55 (g_xzs_d4_used_slots g') = runtime_used entries /\ take 55 (drop 1 (g_xzs_minor_to_gpt_slot g')) = runtime_used entries /\
       table_of entries g').
Proof.
  intros Hl Hu [U1 U2 U3 U4 U5]. unfold parse_runtime_map.
  destruct (parse_spec entries 128 34 61071326 61071360 (g_xzs_d4_parsed_entries (g_map d)) ltac:(done) Hu U1 U2 128 (g_xzs_d4_used_slots (g_map d)))
    as (ok & st & counts & E & Hs & Hok & Hcounts); [done | lia | lia | done |].
  rewrite Hl in E. cbv zeta. rewrite E. cbn [mbind option_bind].
  destruct ok; cycle 1.
  { destruct counts as [[u n] |]; cbn; eexists _, _; (split; [done |]); (split; [apply Hs |]); (split; [| done]); (split; [done |]);
      intros [Hv _]; by apply Hok in Hv. }
  rewrite (Hcounts eq_refl). cbn [default from_option id andb]. change (from_option id ?x (Some ?y)) with y. cbn [fst snd].
  eexists _, _. split; [done |]. split; [apply Hs |]. rewrite Z.eqb_eq. split; [tauto |]. intros E55.
  pose proof (proj1 Hok eq_refl) as Hv. pose proof (sc_list _ _ _ _ _ _ _ _ Hs) as Hlist.
  destruct (derive_minors_spec (runtime_used entries) (gs_slots st) Hlist (NoDup_used_list _ _ _)) with
    (g := GptMap (gs_entries st) (gs_slots st) (zlen (runtime_used entries)) (128 - zlen (runtime_used entries))
            (g_xzs_minor_to_gpt_slot (g_map d)) (g_xzs_gpt_slot_to_minor (g_map d))) as (m2s & s2m & Ed & Hm); [| lia | done | done | done |].
  { apply Forall_forall. intros a [_ ?]%elem_of_used_list. done. }
  eexists. split; [exact Ed |]. split; [by apply (loaded_ok entries (g_xzs_d4_parsed_entries (g_map d)) st U1 U3 Hs Hv); [lia |] |].
  cbn [g_xzs_d4_used_count g_xzs_d4_used_slots g_xzs_minor_to_gpt_slot].
  assert (length (runtime_used entries) = 55%nat) as L55 by (unfold zlen in E55; lia). split; [done |]. split; [by rewrite L55 in Hlist |]. split; cycle 1.
  { intros slot e Ee Ue. destruct (slot_entry entries (g_xzs_d4_parsed_entries (g_map d)) st U1 U3 Hs Hv slot e Ee) as (_ & _ & Hd).
    rewrite Ue in Hd. tauto. }
  apply list_eq. intros i. destruct (decide (i < 55)%nat) as [Hi | Hi]; cycle 1.
  { rewrite !lookup_ge_None_2; [done | lia | rewrite length_take; lia]. }
  rewrite lookup_take, lookup_drop.
  destruct (lookup_lt_is_Some_2 (runtime_used entries) i) as [a Ha]; [lia |]. rewrite Ha.
  destruct Hm as (_ & _ & _ & _ & Hm & _). destruct (Hm i a Ha) as [E1 _]; [lia |]. apply elem_at_Some in E1 as [_ E1].
  rewrite decide_True by done. by replace (Z.to_nat (Z.of_nat i + 1)) with (1 + i)%nat in E1 by lia.
Qed.

(** ** Loading *)

Section load.
Context {H : Type} {mmio : Mmio H} {laws : SdhciLaws H}.
Implicit Types w : world H.
Abbreviation zeros n := (replicate (Z.to_nat n) 0).

Lemma sectors_u8 sec w s n : still sec (view (hw w)) -> Forall is_u8 (sectors sec s n) /\ length (sectors sec s n) = (512 * n)%nat.
Proof.
  intros [Hs _]. split.
  - unfold sectors. apply Forall_concat, Forall_fmap, Forall_forall. intros k _. cbn. rewrite <- Hs. apply sector_bytes_law.
  - apply length_sectors. intros l. rewrite <- Hs. apply sector_size_law.
Qed.

(** A read through strategy, from sector [blk] of the device on. *)
Definition via_request (dev blk n : Z) : request := Req dev blk n B_READ (0, Some 0) 0 0 0.

Lemma via_read_spec sec have_buf dev blk n w : good (dr w) -> still sec (view (hw w)) -> is_u32 n -> 0 <= blk < 2 ^ 63 ->
  wp (with_buffer (zeros n) (xzs_d4_read_via_strategy have_buf dev blk n 0)) (fun out w' =>
    same_dr (dr w) (dr w') /\ still sec (view (hw w')) /\ io_buf w' = io_buf w /\ zlen out.2 = n /\
    (out.1 = 0 -> refusal (dr w) (via_request dev blk n) = None /\
                  out.2 = sectors sec (target (dr w) (via_request dev blk n)) (Z.to_nat (n / 512)))) w.
Proof.
  intros Hg Hs Hn Hblk. apply wp_with_buffer. unfold xzs_d4_read_via_strategy.
  assert (zlen (zeros n) = n) as Hz by (rewrite zlen_replicate; cint).
  destruct have_buf; cbn [negb]; [| apply wp_ret; by split_and!]. rewrite s64_small by lia.
  fold (via_request dev blk n). set (r := via_request dev blk n). apply wp_bind. eapply wp_mono.
  { apply (strategy_read sec r _ [] (zeros n) []); [done | by split; cbn; [| lia] | done | | done].
    intros p [= <-]. cbn [io_buf app]. rewrite app_nil_r. split_and!; [done | done | | done].
    apply Forall_replicate. vm_compute. done. }
  intros r' w' (E & Hs' & Hr). cbn [dr] in Hr. destruct (refusal (dr w) r) as [err|] eqn:Er.
  - destruct Hr as (-> & _ & Hb). cbn [r_error r_resid finish]. apply refusal_nonzero in Er.
    rewrite (proj2 (Z.eqb_neq err 0)) by done. cbn [negb orb]. apply wp_ret. cbn [fst snd io_buf hw dr] in *. rewrite Hb. by split_and!.
  - destruct Hr as (new & Hb & Hln & [[-> ->] | ->]).
    + cbn [r_error r_resid finish negb orb Z.eqb]. apply wp_ret. cbn [fst snd io_buf hw dr app] in *.
      rewrite Hb, app_nil_r. by split_and!.
    + apply wp_ret. cbn [fst snd io_buf hw dr app] in *. rewrite Hb, app_nil_r. by split_and!.
Qed.

(** Of the whole disk. *)
Lemma disk_read_spec sec have_buf dev0 blk n w : good (dr w) -> still sec (view (hw w)) ->
  is_u32 n -> 0 <= blk < 2 ^ 63 -> minor dev0 = 0 ->
  wp (with_buffer (zeros n) (xzs_d4_read_via_strategy have_buf dev0 blk n 0)) (fun out w' =>
    same_dr (dr w) (dr w') /\ still sec (view (hw w')) /\ io_buf w' = io_buf w /\ zlen out.2 = n /\
    (out.1 = 0 -> out.2 = sectors sec blk (Z.to_nat (n / 512)))) w.
Proof.
  intros Hg Hs Hn Hblk Hm. eapply wp_mono; [by apply (via_read_spec sec) |]. intros out w' (? & ? & ? & ? & Ho). do 4 (split; [done |]).
  intros E. destruct (Ho E) as [_ ->]. unfold target, device_extent. cbn. by rewrite Hm.
Qed.

(** The breadcrumbs, with what they say of the card, and the table that is frozen. *)
Definition load_post (sec : Z -> bytes) (d : emmc) (rc : Z) (d' : emmc) : Prop :=
  let entries := sectors sec 2 32 in
  let header_ok := Some (gpt_header_crc (sec 1)) = xzs_read_le32 (sec 1) 16 /\ gpt_header_crc (sec 1) = 0xBFDF741D in
  let array_ok := Some (crc32 0 entries) = xzs_read_le32 (sec 1) 88 /\ crc32 0 entries = 0x64EDE0F4 in
  let table_valid := runtime_valid entries /\ zlen (runtime_used entries) = 55 in
  (rc = 0 /\ header_ok /\ array_ok /\ table_valid /\ g_xzs_d4_gpt_map_initialized d' = true /\
     take 55 (drop 1 (g_xzs_minor_to_gpt_slot (g_map d'))) = runtime_used entries /\ table_of entries (g_map d')) \/
  (g_xzs_d4_gpt_map_initialized d' = false /\
     ((rc = 0xE4 \/ rc = 0xE6 /\ header_ok \/ rc = 0xE5 /\ ~ header_ok \/ rc = 0xE7 /\ header_ok /\ ~ array_ok) /\ g_map d' = g_map d \/
      rc = 0xE8 /\ header_ok /\ array_ok /\ ~ table_valid)).

Lemma set_map_good (b : bool) g d : good d -> (if b then map_ok g else length (g_xzs_d4_parsed_entries g) = 128%nat) -> good (set_map b g d).
Proof. intros [H1 H2 _] Ht. by split. Qed.

Lemma same_map d d' : same_dr d d' -> g_map d' = g_map d /\ g_xzs_d4_gpt_map_initialized d' = g_xzs_d4_gpt_map_initialized d.
Proof. intros E. split; [by apply (f_equal g_map) in E | by apply (f_equal g_xzs_d4_gpt_map_initialized) in E]. Qed.

Lemma sector_word sec w l p : still sec (view (hw w)) -> 0 <= p <= 508 -> exists v, xzs_read_le32 (sec l) p = Some v.
Proof.
  intros [Hs _] Hp. rewrite <- Hs. pose proof (sector_size_law (hw w) l) as Hl. pose proof (sector_bytes_law (hw w) l) as Hu.
  destruct (sub_bytes (v_sector (view (hw w)) l) p 4) as [b|] eqn:E; [| rewrite sub_bytes_in in E by (unfold zlen; lia); done].
  eexists. apply (read_le32_combine _ _ b E). by eapply sub_bytes_u8.
Qed.

(** The parse and the freeze. *)
Lemma freeze_spec sec entries w : good (dr w) -> still sec (view (hw w)) -> unloaded (g_map (dr w)) ->
  g_xzs_d4_gpt_map_initialized (dr w) = false -> zlen entries = 16384 -> Forall is_u8 entries ->
  wp (d ← get_dr; '(ok, g) ← plift (parse_runtime_map entries d);
      if negb ok then _ ← on_dr (set_map (g_xzs_d4_gpt_map_initialized d) g); mret 0xE8
      else _ ← on_dr (set_map true g); g ← plift (derive_minors g); _ ← on_dr (set_map true g); mret 0)
    (fun rc w' => good (dr w') /\ still sec (view (hw w')) /\ io_buf w' = io_buf w /\
       g_xzs_emmc_ctx (dr w') = g_xzs_emmc_ctx (dr w) /\
       (rc = 0 /\ (runtime_valid entries /\ zlen (runtime_used entries) = 55) /\ g_xzs_d4_gpt_map_initialized (dr w') = true /\
          take 55 (drop 1 (g_xzs_minor_to_gpt_slot (g_map (dr w')))) = runtime_used entries /\ table_of entries (g_map (dr w')) \/
        rc = 0xE8 /\ ~ (runtime_valid entries /\ zlen (runtime_used entries) = 55) /\ g_xzs_d4_gpt_map_initialized (dr w') = false)) w.
Proof.
  intros Hg Hs Hun Hi Hz Hu. apply wp_bind, wp_get_dr.
  destruct (parse_runtime_spec entries (dr w) Hz Hu Hun) as (ok & g & E & Hlen & Hok & Hmap). apply wp_bind, (wp_plift _ _ _ _ E).
  destruct ok; cbn [negb]; cycle 1.
  { apply wp_bind, wp_act, wp_ret. rewrite Hi. do 4 (split; [by first [apply set_map_good | done] |]). right.
    split_and!; [done | by intros Hv%Hok | done]. }
  destruct (Hmap eq_refl) as (g' & Eg & Hmo & Hc & _ & Htake & Htab). apply wp_bind, wp_act, wp_bind, (wp_plift _ _ _ _ Eg), wp_bind, wp_act, wp_ret.
  split; [by apply (set_map_good true g' (dr w)) |]. do 3 (split; [done |]).
  left. split; [done |]. split; [by apply Hok |]. done.
Qed.

Lemma load_spec sec have_buf dev0 w : good (dr w) -> still sec (view (hw w)) -> unloaded (g_map (dr w)) ->
  g_xzs_d4_gpt_map_initialized (dr w) = false -> minor dev0 = 0 ->
  wp (load_runtime_gpt have_buf dev0) (fun rc w' =>
    good (dr w') /\ still sec (view (hw w')) /\ io_buf w' = io_buf w /\ g_xzs_emmc_ctx (dr w') = g_xzs_emmc_ctx (dr w) /\
    load_post sec (dr w) rc (dr w')) w.
Proof.
  intros Hg Hs Hun Hi Hm. unfold load_runtime_gpt, load_post. apply wp_bind.
  eapply wp_mono; [by apply (disk_read_spec sec have_buf dev0 1 512) |]. intros [rc1 lba1] w1 (E1 & S1 & B1 & L1 & R1). cbn [fst snd] in *.
  assert (good (dr w1)) as G1 by by eapply same_good. destruct (same_map _ _ E1) as [M1 I1].
  pose proof (f_equal g_xzs_emmc_ctx E1 : _ = g_xzs_emmc_ctx (dr w1)) as X1. cbn in X1.
  destruct (Z.eqb_spec rc1 0) as [-> | Hn1]; cbn [negb]; [| apply wp_ret; split_and!; [done.. |]; right; rewrite I1; split; [done |]; left; auto].
  assert (lba1 = sec 1) as -> by (rewrite (R1 eq_refl); apply sectors_1).
  destruct (sector_word sec w 1 16 Hs) as [crc1 Ec1]; [lia |]. apply wp_bind, (wp_plift _ _ _ _ Ec1).
  destruct (negb (gpt_header_crc (sec 1) =? crc1) || negb (gpt_header_crc (sec 1) =? 0xBFDF741D)) eqn:Eh.
  { apply wp_ret. split_and!; [done.. |]. right. rewrite I1. split; [done |]. left. split; [| done]. do 2 right. left. split; [done |].
    rewrite Ec1. intros [[= <-] E]. rewrite E, !Z.eqb_refl in Eh. done. }
  apply orb_false_iff in Eh as [Eh1%negb_false_iff%Z.eqb_eq Eh2%negb_false_iff%Z.eqb_eq].
  assert (Some (gpt_header_crc (sec 1)) = xzs_read_le32 (sec 1) 16 /\ gpt_header_crc (sec 1) = 0xBFDF741D) as Hh by (rewrite Ec1; split; congruence).
  apply wp_bind. eapply wp_mono; [by apply (disk_read_spec sec have_buf dev0 2 16384) |].
  intros [rc2 entries] w2 (E2 & S2 & B2 & L2 & R2). cbn [fst snd] in *. rewrite B1 in B2.
  assert (good (dr w2)) as G2 by by eapply same_good. destruct (same_map _ _ E2) as [M2 I2]. rewrite M1 in M2. rewrite I1, Hi in I2.
  pose proof (f_equal g_xzs_emmc_ctx E2 : _ = g_xzs_emmc_ctx (dr w2)) as X2. cbn in X2. rewrite <- X1 in X2.
  destruct (Z.eqb_spec rc2 0) as [-> | Hn2]; cbn [negb]; cycle 1.
  { apply wp_ret. split_and!; [done.. |]. right. split; [done |]. left. auto. }
  assert (entries = sectors sec 2 32) as -> by exact (R2 eq_refl).
  destruct (sector_word sec w 1 88 Hs) as [crc2 Ec2]; [lia |]. apply wp_bind, (wp_plift _ _ _ _ Ec2).
  destruct (negb (crc32 0 (sectors sec 2 32) =? crc2) || negb (crc32 0 (sectors sec 2 32) =? 0x64EDE0F4)) eqn:Ea.
  { apply wp_ret. split_and!; [done.. |]. right. split; [done |]. left. split; [| done]. do 3 right. split; [done |]. split; [exact Hh |].
    rewrite Ec2. intros [[= <-] E]. rewrite E, !Z.eqb_refl in Ea. done. }
  apply orb_false_iff in Ea as [Ea1%negb_false_iff%Z.eqb_eq Ea2%negb_false_iff%Z.eqb_eq].
  assert (Some (crc32 0 (sectors sec 2 32)) = xzs_read_le32 (sec 1) 88 /\ crc32 0 (sectors sec 2 32) = 0x64EDE0F4) as Hae
    by (rewrite Ec2; split; congruence).
  eapply wp_mono; [apply (freeze_spec sec); [done | done | by rewrite M2 | done | done | by eapply sectors_u8] |].
  intros rc w3 (G3 & S3 & B3 & X3 & Hor). rewrite B2 in B3. rewrite <- X2 in X3. do 4 (split; [done |]).
  destruct Hor as [(-> & Hv & Hi3 & Ht & Ht') | (-> & Hv & Hi3)]; [left | right; split; [done | right]];
    (split; [done |]); (split; [exact Hh |]); (split; [exact Hae |]); auto.
Qed.

End load.

