(* ===== verification/EmmcBoot.v ===== *)
(** * Bringing the disk up

    Models the acceptance sequence that publishes the disk at boot and the switch to a faster
    bus after it (pexpert/arm/xzs_sdhci.c, [xzs_sdhci_phase_d4_probe]): the checks of the device
    switch, the loading of the partition table, the test of one partition, then the clock and
    bus-width changes, each of which is kept only if the disk still reads as before.  Results are
    breadcrumbs: 0, or the code with which the kernel halts.  The registrations with the rest of
    the kernel enter as their results; the IOKit and vnode checks between the partition test and
    the upgrade, and the report, are not modelled. *)

From stdpp Require Import base list relations gmap strings.
From Stdlib Require Import ZArith Lia.
From S2P Require Import Prelude Wp Crc32 Kernel Memory Memdev Gpt GptProofs GptParse GptMinors Emmc EmmcDev EmmcCard EmmcBus EmmcRead EmmcWrite EmmcInit EmmcSim EmmcDisk EmmcSafety EmmcLoad.

Definition SDHCI_CMD_RESP_48_BUSY : Z := 0x03.
Definition SDHCI_CTRL_8BITBUS : Z := 0x20.
Definition CMD_SWITCH : Z := SDHCI_MAKE_CMD 6 (Z.lor (Z.lor SDHCI_CMD_RESP_48_BUSY SDHCI_CMD_CRC) SDHCI_CMD_INDEX).

(** What a control call left in the caller's variable. *)
Definition left_in (init : Z) (ans : Z * dk_data) : Z :=
  match ans.2 with Data32 v => v | Data64 v => v | _ => init end.

(** The first used slot with that name, or none. *)
Definition find_partition (g : gpt_map) (name : bytes) : option (option Z) :=
  r ← for_loop (S := unit) (R := Z) (Z.to_nat (g_xzs_d4_used_count g)) 0 (fun u _ =>
        s ← elem_at (g_xzs_d4_used_slots g) u;
        e ← elem_at (g_xzs_d4_parsed_entries g) s;
        Some (if bool_decide (c_str (name_canonical e) = name) then Exit s else Next tt)) tt;
  Some (match r with Next _ => None | Exit s => Some s end).

Section boot.
Context `{Mmio H}.
Abbreviation driver := (prog (world H)).
Abbreviation sector_buf := (replicate 512 0).
Context (have_buf : bool) (major : Z).

Definition dev_of (m : Z) : Z := makedev major m.

(** Open semantics and geometry of the whole disk. *)
Definition check_disk : driver Z :=
  ro ← xzs_bdev_open (dev_of 0) FREAD;
  wo ← xzs_bdev_open (dev_of 0) FWRITE;
  rw ← xzs_bdev_open (dev_of 0) (Z.lor FREAD FWRITE);
  if negb (ro =? 0) || negb (wo =? EROFS) || negb (rw =? EROFS) then mret 0xE2
  else
    bs ← xzs_bdev_ioctl (dev_of 0) BlkGetBlockSize true;
    bc ← xzs_bdev_ioctl (dev_of 0) BlkGetBlockCount true;
    wr ← xzs_bdev_ioctl (dev_of 0) BlkIsWritable true;
    psize ← xzs_bdev_psize (dev_of 0);
    mret (if negb (bs.1 =? 0) || negb (left_in 0 bs =? 512) || negb (bc.1 =? 0) || negb (left_in 0 bc =? 61071360) ||
             negb (wr.1 =? 0) || negb (left_in 1 wr =? 0) || negb (psize =? 61071360) then 0xE3 else 0).

(** Read one sector of a partition and compare its checksum. *)
Definition read_checked (dev blkno crc failed differs : Z) : driver Z :=
  '(rc, b) ← with_buffer sector_buf (xzs_d4_read_via_strategy have_buf dev blkno 512 0);
  mret (if negb (rc =? 0) then failed else if negb (crc32 0 b =? crc) then differs else 0).

(** One past the end: refused, and no command sent. *)
Definition check_past_end (dev n : Z) : driver Z :=
  before ← get_dr;
  '(r, _) ← with_buffer sector_buf (xzs_bdev_strategy (Req dev (s64 n) 512 B_READ (0, Some 0) 0 0 0));
  after ← get_dr;
  mret (if negb (r_error r =? EINVAL) || negb (r_resid r =? 512) ||
           negb (counter "g_d4m1_cmd17_count" after =? counter "g_d4m1_cmd17_count" before) then 0xEF else 0).

(** [c], and then [f] if it gave no breadcrumb. *)
Definition unless_halted (c f : driver Z) : driver Z := rc ← c; if rc =? 0 then f else mret rc.

Definition check_slice : driver Z :=
  d ← get_dr;
  found ← plift (find_partition (g_map d) (lit "boot"));
  match found with
  | None => mret 0xEA
  | Some slot =>
      m ← plift (elem_at (g_xzs_gpt_slot_to_minor (g_map d)) slot);
      pe ← plift (elem_at (g_xzs_d4_parsed_entries (g_map d)) slot);
      unless_halted (read_checked (dev_of (u32 m)) 0 0x7756D106 0xEB 0xEC)
        (unless_halted (read_checked (dev_of (u32 m)) (u64 (pe_sector_count pe - 1)) 0xB2AA7578 0xED 0xEE)
          (check_past_end (dev_of (u32 m)) (pe_sector_count pe)))
  end.

(** [node m] says whether the device node of a minor number could be made. *)
Definition publish_slices (node : Z -> bool) : driver Z :=
  d ← get_dr;
  mret (if forallb node (seqZ 1 (g_xzs_d4_used_count (g_map d))) then 0 else 0xE9).

Definition publish_disk (node : Z -> bool) : driver Z :=
  if major <? 0 then mret 0xEE
  else if negb (node 0) then mret 0xE1
  else unless_halted check_disk
    (unless_halted (load_runtime_gpt have_buf (dev_of 0))
      (unless_halted (publish_slices node) check_slice)).

(** ** A faster bus *)

Definition gcc_switch (cfg : Z) : driver unit :=
  _ ← xzs_gcc_write32_local SDCC1_APPS_CFG_RCGR_OFFSET cfg;
  _ ← xzs_gcc_write32_local SDCC1_APPS_CMD_RCGR_OFFSET 0x1;
  wait_for 1000 (v ← xzs_gcc_read32_local SDCC1_APPS_CMD_RCGR_OFFSET; mret (negb (has v 1))).

Definition restart_clock (usec : Z) : driver unit :=
  _ ← xzs_sdhci_hc_write16 SDHCI_CLOCK_CONTROL ABOOT_CLOCK_FIRST_WRITE;
  _ ← wait_for 1000 (v ← xzs_sdhci_hc_read16 SDHCI_CLOCK_CONTROL; mret (has v SDHCI_CLOCK_INT_STABLE));
  _ ← xzs_sdhci_hc_write16 SDHCI_CLOCK_CONTROL ABOOT_CLOCK_FINAL_VAL;
  delay usec.

(** CMD6: write a byte of the card's configuration. *)
Definition switch_card (arg : Z) : driver unit :=
  _ ← clear_status 0xFFFFFFFF;
  _ ← xzs_sdhci_hc_write32 SDHCI_ARGUMENT arg;
  _ ← xzs_sdhci_hc_write16 SDHCI_TRANSFER_MODE 0;
  _ ← xzs_sdhci_hc_write16 SDHCI_COMMAND CMD_SWITCH;
  _ ← wait_for 100000 (status_has SDHCI_INT_RESPONSE);
  _ ← clear_status 0xFFFFFFFF;
  wait_for 500000 (ps ← xzs_sdhci_hc_read32 SDHCI_PRESENT_STATE; mret (negb (inhibited ps) && has ps (Z.shiftl 1 20))).

(** Whether sector 1 still reads as it did. *)
Definition lba1_verified : driver bool :=
  '(rc, b) ← with_buffer sector_buf (xzs_d4_read_via_strategy have_buf (dev_of 0) 1 512 0);
  mret ((rc =? 0) && (crc32 0 b =? 0xD3A34BC1)).

Definition upgrade_clock : driver unit :=
  _ ← xzs_sdhci_hc_write16 SDHCI_CLOCK_CONTROL ABOOT_CLOCK_FIRST_WRITE;
  _ ← delay 50;
  _ ← gcc_switch 0;
  power ← xzs_sdhci_hc_read8 SDHCI_POWER_CONTROL;
  _ ← (if negb (power =? ABOOT_POWER_SECOND_WRITE) then
         _ ← xzs_sdhci_hc_write8 SDHCI_POWER_CONTROL ABOOT_POWER_FIRST_WRITE;
         _ ← delay 50;
         _ ← xzs_sdhci_hc_write8 SDHCI_POWER_CONTROL ABOOT_POWER_SECOND_WRITE;
         delay 50
       else mret tt);
  restart_clock 100.

Definition upgrade_speed : driver unit :=
  _ ← switch_card 0x03B90101;
  _ ← xzs_sdhci_hc_write8 SDHCI_HOST_CONTROL (Z.lor SDHCI_CTRL_8BITBUS 0x04);
  _ ← xzs_sdhci_hc_write16 SDHCI_CLOCK_CONTROL ABOOT_CLOCK_FIRST_WRITE;
  _ ← delay 50;
  _ ← gcc_switch 0x50E;
  restart_clock 50.

Definition revert_speed : driver unit :=
  _ ← xzs_sdhci_hc_write16 SDHCI_CLOCK_CONTROL ABOOT_CLOCK_FIRST_WRITE;
  _ ← delay 50;
  _ ← gcc_switch 0;
  _ ← xzs_sdhci_hc_write8 SDHCI_HOST_CONTROL SDHCI_CTRL_8BITBUS;
  _ ← xzs_sdhci_hc_write16 SDHCI_CLOCK_CONTROL ABOOT_CLOCK_FINAL_VAL;
  delay 50.

Definition upgrade_width : driver unit :=
  _ ← switch_card 0x03B70201;
  _ ← xzs_sdhci_hc_write8 SDHCI_HOST_CONTROL SDHCI_CTRL_8BITBUS;
  delay 50.

Definition upgrade_bus : driver unit :=
  _ ← upgrade_clock;
  ok_hs ← lba1_verified;
  if (ok_hs : bool) then
    _ ← upgrade_width;
    ok_8b ← lba1_verified;
    _ ← (if (ok_8b : bool) then
           _ ← upgrade_speed;
           ok_52m ← lba1_verified;
           if (ok_52m : bool) then mret tt else revert_speed
         else xzs_sdhci_hc_write8 SDHCI_HOST_CONTROL 0);
    try_multiblock have_buf (dev_of 0)
  else
    _ ← on_dr (fun d => set_ctx (set_initialized false (g_xzs_emmc_ctx d)) d);
    _ ← xzs_emmc_init_persistent; mret tt.

(** The rest of the probe: [emmcrw] is the boot argument when it is given, [root_on_disk] says
    that [rd] names something else than a RAM disk. *)
Definition finish_probe (emmcrw : option Z) (root_on_disk : bool) : driver unit :=
  _ ← (match emmcrw with Some v => on_dr (set_rw v) | None => mret tt end);
  if root_on_disk then upgrade_bus else mret tt.
End boot.

(** ** Calm programs *)

(** The partition map and the write switch of another state. *)
Definition same_table (d d' : emmc) : Prop :=
  g_map d' = g_map d /\ g_xzs_d4_gpt_map_initialized d' = g_xzs_d4_gpt_map_initialized d /\
  g_xzs_emmc_userdata_rw d' = g_xzs_emmc_userdata_rw d.

#[global] Instance same_table_preorder : PreOrder same_table.
Proof.
  split; [done |]. intros a b c (E1 & E2 & E3) (F1 & F2 & F3). unfold same_table. by rewrite F1, F2, F3.
Qed.

Lemma same_dr_table d d' : same_dr d d' -> same_table d d'.
Proof.
  intros E. unfold same_table. split_and!; [by apply (f_equal g_map) in E | by apply (f_equal g_xzs_d4_gpt_map_initialized) in E |
    by apply (f_equal g_xzs_emmc_userdata_rw) in E].
Qed.

Lemma fixed_table d d' : fixed d d' -> same_table d d'.
Proof. by intros (? & ? & ? & _). Qed.

Lemma table_good d d' : same_table d d' -> csd_ok d' -> ready d' -> table_ok d -> good d'.
Proof. intros (E1 & E2 & _) Hc Hr Ht. split; [done | done |]. unfold table_ok. by rewrite E1, E2. Qed.

Lemma minor_makedev major m : 0 <= m < 2 ^ 24 -> minor (makedev major m) = m.
Proof.
  intros Hm. unfold minor, makedev, s32, swrap. change 0xffffff with (Z.ones 24). rewrite Z.land_ones by lia.
  rewrite lor_shift_add, (Z.mod_eq _ (2 ^ 32)) by lia. set (q := _ / 2 ^ 32). clearbody q.
  replace (_ - 2 ^ (32 - 1)) with (m + (major - 256 * q) * 2 ^ 24) by (change (32 - 1) with 31; lia).
  rewrite Z.mod_add by lia. by apply Z.mod_small.
Qed.

(** A partition of a loaded map, with its minor number. *)
Definition partition (g : gpt_map) (m : Z) (e : xzs_gpt_partition_entry_t) : Prop :=
  exists slot, 1 <= m <= g_xzs_d4_used_count g /\ elem_at (g_xzs_minor_to_gpt_slot g) m = Some slot /\
    elem_at (g_xzs_d4_parsed_entries g) slot = Some e /\ elem_at (g_xzs_gpt_slot_to_minor g) slot = Some m /\ extent_ok e.

Lemma find_partition_spec g name : map_ok g -> exists o, find_partition g name = Some o /\
  forall slot, o = Some slot -> exists m e, partition g m e /\ elem_at (g_xzs_minor_to_gpt_slot g) m = Some slot /\
    c_str (name_canonical e) = name.
Proof.
  intros Hg. unfold find_partition. pose proof (mo_used _ Hg) as Hu.
  destruct (for_loop_inv (R := Z) (fun k (_ : unit) => True) (fun slot => exists m e, partition g m e /\
      elem_at (g_xzs_minor_to_gpt_slot g) m = Some slot /\ c_str (name_canonical e) = name)
    (Z.to_nat (g_xzs_d4_used_count g)) 0 (fun u _ => s ← elem_at (g_xzs_d4_used_slots g) u; e ← elem_at (g_xzs_d4_parsed_entries g) s;
      Some (if bool_decide (c_str (name_canonical e) = name) then Exit s else Next tt)) tt) as (c & -> & Hc); [done | |].
  - intros k [] Hk _. rewrite (mo_order _ Hg k) by lia. destruct (mo_minor _ Hg (k + 1)) as (slot & e & E1 & E2 & E3 & _ & Hx); [lia |].
    rewrite E1. cbn [mbind option_bind]. rewrite E2. cbn [mbind option_bind]. eexists. split; [done |].
    case_bool_decide; [| done]. exists (k + 1), e. split_and!; [| done | done]. exists slot. split_and!; [lia | lia | done | done | done | apply Hx..].
  - cbn [mbind option_bind]. eexists. split; [done |]. destruct c as [[] | s]; [done |]. by intros slot [= <-].
Qed.

Section calm.
Context {H : Type} {mmio : Mmio H} {laws : SdhciLaws H}.
Implicit Types w : world H.
Abbreviation counting w m := (World (hw w) (set_counters m (dr w)) (io_buf w)).

Definition calm (sec : Z -> bytes) (d : emmc) (buf : bytes) w : Prop :=
  good (dr w) /\ same_table d (dr w) /\ still sec (view (hw w)) /\ io_buf w = buf.

Section fixed_card.
Context (sec : Z -> bytes) (d : emmc) (buf : bytes).

Lemma calm_counting w m : calm sec d buf w -> calm sec d buf (counting w m).
Proof.
  intros (Hg & Ht & Hs & Hb). split; [by eapply same_good; [apply same_dr_counters |] |]. split; [apply Ht |]. by split.
Qed.

Lemma calm_open dev flags w : calm sec d buf w ->
  wp (xzs_bdev_open dev flags) (fun rc w' => calm sec d buf w' /\
    match open_refusal (dr w) (minor dev) flags with
    | Some err => rc = err /\ g_xzs_emmc_ctx (dr w') = g_xzs_emmc_ctx (dr w)
    | None => initialized (g_xzs_emmc_ctx (dr w')) = (rc =? 0)
    end) w.
Proof.
  intros (Hg & Ht & Hs & Hb). eapply wp_mono; [by apply (open_spec sec) |]. intros rc w' (Hg' & Hf & Hs' & Hb' & Hr). split.
  - split; [done |]. split; [etrans; [exact Ht | by apply fixed_table] |]. split; [done | congruence].
  - destruct (open_refusal _ _ _); [| apply Hr]. destruct Hr as (-> & _ & E). split; [done |]. by apply (f_equal g_xzs_emmc_ctx) in E.
Qed.

(** Programs that only count. *)
Lemma calm_counts {A} (c : prog (world H) A) (P : A -> Prop) w : calm sec d buf w -> counts_only c w P ->
  wp c (fun a w' => calm sec d buf w' /\ g_xzs_emmc_ctx (dr w') = g_xzs_emmc_ctx (dr w) /\ P a) w.
Proof. intros Hc Hp. eapply wp_mono; [exact Hp |]. intros a w' [(m & ->) Hpa]. split; [by apply calm_counting |]. done. Qed.

Lemma write_refused_disk e : write_refused e 0 = Some true.
Proof. unfold write_refused, xzs_is_userdata_minor. destruct (_ =? 0); [done |]. by rewrite orb_true_r. Qed.

(** The checks of the whole disk fail only for want of a card, or for one of another size. *)
Lemma check_disk_spec major w : calm sec d buf w ->
  wp (check_disk major) (fun rc w' => calm sec d buf w' /\
    rc = if negb (initialized (g_xzs_emmc_ctx (dr w'))) then 0xE2
         else if sector_count (g_xzs_emmc_ctx (dr w')) =? 61071360 then 0 else 0xE3) w.
Proof.
  intros Hc. assert (minor (dev_of major 0) = 0) as Hm by (by apply minor_makedev). unfold check_disk.
  apply wp_bind. eapply wp_mono; [by apply calm_open |]. intros ro w1 [C1 R1]. rewrite Hm in R1. cbn in R1.
  apply wp_bind. eapply wp_mono; [by apply calm_open |]. intros wo w2 [C2 R2]. rewrite Hm in R2. unfold open_refusal in R2.
  rewrite write_refused_disk in R2. destruct R2 as [-> X2].
  apply wp_bind. eapply wp_mono; [by apply calm_open |]. intros rw w3 [C3 R3]. rewrite Hm in R3. unfold open_refusal in R3.
  rewrite write_refused_disk in R3. destruct R3 as [-> X3]. rewrite X2 in X3. rewrite <- X3 in R1. clear X2 X3.
  rewrite !Z.eqb_refl. cbn [negb orb]. rewrite !orb_false_r. destruct (ro =? 0) eqn:Er; cbn [negb]; cycle 1.
  { apply wp_ret. rewrite R1. done. }
  pose proof C3 as (G3 & _). destruct (good_ready _ G3 R1) as (_ & Hn & Hz).
  apply wp_bind. eapply wp_mono; [by apply calm_counts, ioctl_spec |]. intros bs w4 (C4 & X4 & ->).
  pose proof C4 as (G4 & _). apply wp_bind. eapply wp_mono; [by apply calm_counts, ioctl_spec |]. intros bc w5 (C5 & X5 & ->).
  pose proof C5 as (G5 & _). apply wp_bind. eapply wp_mono; [by apply calm_counts, ioctl_spec |]. intros wr w6 (C6 & X6 & ->).
  pose proof C6 as (G6 & _). apply wp_bind. eapply wp_mono; [by apply calm_counts, psize_spec |]. intros ps w7 (C7 & X7 & ->).
  apply wp_ret. split; [done |]. rewrite Hm. unfold ioctl_answer, device_sectors, device_extent. cbn [orb andb Z.ltb Z.compare Z.eqb].
  rewrite write_refused_disk. rewrite X7, X6, X5, X4, R1. cbn [negb fst snd left_in fmap option_fmap option_map default from_option id].
  change (default ENXIO (Some ?x)) with x. change (default true (Some true)) with true. cbn [negb orb Z.eqb Pos.eqb].
  destruct (Z.eqb_spec (sector_count (g_xzs_emmc_ctx (dr w3))) 61071360) as [-> | Hne]; cbn [negb orb]; [done |]. done.
Qed.

Lemma calm_same w w' : same_dr (dr w) (dr w') -> still sec (view (hw w')) -> io_buf w' = io_buf w -> calm sec d buf w -> calm sec d buf w'.
Proof.
  intros E Hs' Hb' (Hg & Ht & Hs & Hb). split; [by eapply same_good |]. split; [etrans; [exact Ht | by apply same_dr_table] |].
  split; [done | congruence].
Qed.

Lemma read_checked_spec have_buf dev blkno crc failed differs w : calm sec d buf w -> 0 <= blkno < 2 ^ 63 -> failed <> 0 -> differs <> 0 ->
  wp (read_checked have_buf dev blkno crc failed differs) (fun rc w' => calm sec d buf w' /\ same_dr (dr w) (dr w') /\
    (rc = 0 \/ rc = failed \/ rc = differs) /\ (rc = 0 -> crc32 0 (sec (target (dr w) (via_request dev blkno 512))) = crc)) w.
Proof.
  intros Hc Hb Hf Hd. pose proof Hc as (Hg & _ & Hs & _). unfold read_checked. apply wp_bind.
  eapply wp_mono; [by apply (via_read_spec sec have_buf dev blkno 512) |]. intros [rc b] w' (E & Hs' & Hb' & _ & Hr). cbn [fst snd] in Hr.
  apply wp_ret. split; [by eapply calm_same |]. split; [done |]. destruct (Z.eqb_spec rc 0) as [-> |]; cbn [negb]; [| split; [tauto | done]].
  destruct (Hr eq_refl) as [_ ->]. change (Z.to_nat (512 / 512)) with 1%nat. rewrite sectors_1.
  destruct (Z.eqb_spec (crc32 0 (sec (target (dr w) (via_request dev blkno 512)))) crc); cbn [negb]; split; auto; done.
Qed.

(** A request one past the end of a partition is refused, and no command is sent. *)
Lemma past_end_spec dev e w : calm sec d buf w -> initialized (g_xzs_emmc_ctx (dr w)) = true -> 1 <= minor dev <= 55 ->
  no_slice (dr w) (minor dev) = false -> slice (dr w) (minor dev) = Some e -> extent_ok e ->
  wp (check_past_end dev (pe_sector_count e)) (fun rc w' => calm sec d buf w' /\ same_dr (dr w) (dr w') /\ rc = 0) w.
Proof.
  intros Hc Hi Hm Hn He (? & ? & ? & Hp). pose proof Hc as (Hg & _). unfold check_past_end. apply wp_bind, wp_get_dr, wp_bind, wp_with_buffer.
  rewrite s64_small by lia. fold (via_request dev (pe_sector_count e) 512). set (r := via_request dev (pe_sector_count e) 512).
  assert (refusal (dr w) r = Some EINVAL) as Er.
  { unfold refusal. change (r_dev r) with dev. rewrite Hn, andb_false_r, (proj2 (Z.ltb_ge 55 _)) by lia. cbn [orb].
    rewrite Hi. cbn [negb andb]. change (negb (has (r_flags r) B_READ)) with false. cbn [andb].
    change (r_blkno r) with (pe_sector_count e). rewrite (proj2 (Z.ltb_ge (pe_sector_count e) 0)) by lia.
    change ((r_count r =? 0) || negb (r_count r mod 512 =? 0)) with false. cbn [orb]. unfold device_extent.
    rewrite (proj2 (Z.eqb_neq (minor dev) 0)), He by lia. cbn [mbind option_bind].
    change (default (0, 0) (Some ?x)) with x. cbv iota beta. change (r_count r / 512) with 1.
    by rewrite (proj2 (Z.ltb_lt (pe_sector_count e) _)) by lia. }
  apply strategy_dispatch; [done | split; [done | change (r_blkno r) with (pe_sector_count e); lia] | |]; cbn [dr hw io_buf]; rewrite Er; [| done].
  intros err m [= <-] Hno. apply wp_bind, wp_get_dr, wp_ret. split; [by apply calm_counting |]. split; [done |]. cbn [dr hw io_buf r_error r_resid finish].
  change (r_count r) with 512. rewrite !Z.eqb_refl. unfold counter. cbn [g_counters set_counters]. rewrite Hno, Z.eqb_refl. done.
Qed.

Lemma loaded_map w : calm sec d buf w -> g_xzs_d4_gpt_map_initialized (dr w) = true -> map_ok (g_map (dr w)).
Proof. intros ([_ _ Ht] & _) Hi. unfold table_ok in Ht. by rewrite Hi in Ht. Qed.

Lemma partition_slice w m e : calm sec d buf w -> g_xzs_d4_gpt_map_initialized (dr w) = true -> partition (g_map (dr w)) m e ->
  1 <= m <= 55 /\ no_slice (dr w) m = false /\ slice (dr w) m = Some e.
Proof.
  intros Hc Hi (slot & Hm & E1 & E2 & _). pose proof (mo_used _ (loaded_map w Hc Hi)). split; [lia |].
  unfold no_slice, slice. rewrite Hi, E1, s32_small by lia. cbn [negb orb mbind option_bind]. split; [| done]. apply Z.ltb_ge. lia.
Qed.

(** The test of the boot partition: it never gets as far as an unexpected answer to the request
    past the end, and when it passes the partition's first and last sectors are the expected ones. *)
Lemma check_slice_spec have_buf major w : calm sec d buf w -> g_xzs_d4_gpt_map_initialized (dr w) = true ->
  initialized (g_xzs_emmc_ctx (dr w)) = true ->
  wp (check_slice have_buf major) (fun rc w' => calm sec d buf w' /\ same_dr (dr w) (dr w') /\ rc <> 0xEF /\
    (rc = 0 -> exists m e, partition (g_map (dr w)) m e /\ c_str (name_canonical e) = lit "boot" /\
       crc32 0 (sec (start_lba e)) = 0x7756D106 /\ crc32 0 (sec (end_lba e)) = 0xB2AA7578)) w.
Proof.
  intros Hc Hi Hx. unfold check_slice. apply wp_bind, wp_get_dr.
  destruct (find_partition_spec (g_map (dr w)) (lit "boot") (loaded_map w Hc Hi)) as (o & Ef & Hf). apply wp_bind, (wp_plift _ _ _ _ Ef).
  destruct o as [slot|]; [| by apply wp_ret]. destruct (Hf slot eq_refl) as (m & e & Hp & Es & Hname).
  pose proof Hp as (slot' & _ & E1 & E2 & E3 & Hext). replace slot' with slot in * by congruence.
  destruct (partition_slice w m e Hc Hi Hp) as (Hm & Hn & Hsl). apply wp_bind, (wp_plift _ _ _ _ E3), wp_bind, (wp_plift _ _ _ _ E2).
  rewrite (u32_small m) by cint. set (dev := dev_of major m). assert (minor dev = m) as Hd by (apply minor_makedev; lia).
  pose proof Hext as (? & ? & ? & Hcnt). rewrite (u64_small (pe_sector_count e - 1)) by cint.
  assert (forall d', same_dr (dr w) d' -> slice d' m = Some e /\ no_slice d' m = false /\ initialized (g_xzs_emmc_ctx d') = true) as Hkeep.
  { intros d' E. unfold slice, no_slice. unfold slice, no_slice in Hsl, Hn.
    rewrite <- (f_equal g_xzs_d4_gpt_map_initialized E : _ = g_xzs_d4_gpt_map_initialized d'), <- (f_equal g_map E : _ = g_map d'),
      <- (f_equal g_xzs_emmc_ctx E : _ = g_xzs_emmc_ctx d'). done. }
  assert (forall d' blk, same_dr (dr w) d' -> target d' (via_request dev blk 512) = start_lba e + blk) as Ht.
  { intros d' blk E. unfold target, device_extent. change (r_dev (via_request dev blk 512)) with dev.
    rewrite Hd, (proj2 (Z.eqb_neq m 0)) by lia. destruct (Hkeep d' E) as (-> & _). done. }
  unfold unless_halted. apply wp_bind. eapply wp_mono; [by apply read_checked_spec |]. intros rc1 w1 (C1 & D1 & O1 & R1).
  destruct (Z.eqb_spec rc1 0) as [-> | N1]; [| apply wp_ret; split; [done |]; split; [done |]; split; [by destruct O1 as [| [-> | ->]] | done]].
  apply wp_bind. eapply wp_mono; [apply read_checked_spec; [done | lia | done | done] |]. intros rc2 w2 (C2 & D2 & O2 & R2).
  destruct (Z.eqb_spec rc2 0) as [-> | N2]; [| apply wp_ret; split; [done |]; split; [by etrans |]; split; [by destruct O2 as [| [-> | ->]] | done]].
  assert (same_dr (dr w) (dr w2)) as D12 by (by etrans). destruct (Hkeep _ D12) as (S2 & N2 & I2). rewrite <- Hd in S2, N2.
  eapply wp_mono; [apply (past_end_spec dev e); [done | done | lia | done | done | done] |]. intros rc3 w3 (C3 & D3 & ->). split; [done |]. split; [by etrans |]. split; [done |].
  intros _. exists m, e. rewrite (Ht _ _ (reflexivity _)), Z.add_0_r in R1. rewrite (Ht _ _ D1) in R2.
  replace (start_lba e + (pe_sector_count e - 1)) with (end_lba e) in R2 by lia. auto.
Qed.
End fixed_card.

(** ** Publishing *)

(** A table that has been loaded is the one on the card. *)
Definition from_card (sec : Z -> bytes) (e : emmc) : Prop :=
  g_xzs_d4_gpt_map_initialized e = true -> runtime_valid (sectors sec 2 32) /\ table_of (sectors sec 2 32) (g_map e).

(** What publication establishes. *)
Definition published (sec : Z -> bytes) (e : emmc) : Prop :=
  g_xzs_d4_gpt_map_initialized e = true /\ initialized (g_xzs_emmc_ctx e) = true /\
  sector_count (g_xzs_emmc_ctx e) = 61071360 /\ gpt_header_crc (sec 1) = 0xBFDF741D /\ crc32 0 (sectors sec 2 32) = 0x64EDE0F4 /\
  exists m p, partition (g_map e) m p /\ c_str (name_canonical p) = lit "boot" /\
    crc32 0 (sec (start_lba p)) = 0x7756D106 /\ crc32 0 (sec (end_lba p)) = 0xB2AA7578.

Definition publish_post (sec : Z -> bytes) (buf : bytes) (rc : Z) w : Prop :=
  good (dr w) /\ still sec (view (hw w)) /\ io_buf w = buf /\ from_card sec (dr w) /\ rc <> 0xEF /\ (rc = 0 -> published sec (dr w)).

Lemma wp_unless_halted (c f : prog (world H) Z) Q w :
  wp c (fun rc w' => if rc =? 0 then wp f Q w' else Q rc w') w -> wp (unless_halted c f) Q w.
Proof. intros Hc. apply wp_bind. eapply wp_mono; [exact Hc |]. intros rc w' Hr. cbv beta in *. destruct (rc =? 0); [done | by apply wp_ret]. Qed.

Lemma publish_disk_spec sec have_buf major node w : good (dr w) -> still sec (view (hw w)) -> unloaded (g_map (dr w)) ->
  g_xzs_d4_gpt_map_initialized (dr w) = false ->
  wp (publish_disk have_buf major node) (publish_post sec (io_buf w)) w.
Proof.
  intros Hg Hs Hu Hi. assert (calm sec (dr w) (io_buf w) w) as C0 by (split; [done |]; split; [reflexivity |]; done).
  assert (forall w' rc, calm sec (dr w) (io_buf w) w' -> rc <> 0 -> rc <> 0xEF -> publish_post sec (io_buf w) rc w') as Hstop.
  { intros w' rc (Hg' & (E1 & E2 & E3) & Hs' & Hb') ? ?. split; [done |]. split; [done |]. split; [done |].
    split; [intros Hc; congruence |]. done. }
  unfold publish_disk. destruct (major <? 0); [by apply wp_ret, Hstop |]. destruct (negb (node 0)); [by apply wp_ret, Hstop |].
  apply wp_unless_halted. eapply wp_mono; [by apply (check_disk_spec sec (dr w) (io_buf w)) |]. intros rc1 w1 [C1 ->].
  destruct (initialized (g_xzs_emmc_ctx (dr w1))) eqn:X1; cbn [negb]; [| by apply Hstop].
  destruct (Z.eqb_spec (sector_count (g_xzs_emmc_ctx (dr w1))) 61071360) as [N1 |]; [| by apply Hstop]. cbn [Z.eqb].
  pose proof C1 as (G1 & (M1 & I1 & _) & S1 & B1).
  apply wp_unless_halted. eapply wp_mono; [apply (load_spec sec); [done | done | by rewrite M1 | by rewrite I1 | by apply minor_makedev] |].
  intros rc2 w2 (G2 & S2 & B2 & X2 & L2). rewrite B1 in B2.
  destruct L2 as [(-> & [_ Hh] & [_ Ha] & [Hv _] & I2 & _ & T2) | (I2 & Hrc)]; cycle 1.
  { assert (rc2 <> 0 /\ rc2 <> 0xEF) as [N0 NF] by (split; intros ->; destruct Hrc as [[[| [[]|[[]|[]]]] _] | [? _]]; done).
    rewrite (proj2 (Z.eqb_neq rc2 0)) by done. split; [done |]. split; [done |]. split; [done |]. split; [intros ?; congruence |]. done. }
  cbn [Z.eqb]. assert (from_card sec (dr w2)) as F2 by by intros _.
  assert (calm sec (dr w2) (io_buf w) w2) as C2 by (split; [done |]; split; [reflexivity |]; done).
  apply wp_unless_halted. unfold publish_slices. apply wp_bind, wp_get_dr, wp_ret.
  destruct (forallb _ _); cbn [Z.eqb]; [| split; [done |]; split; [done |]; split; [done |]; done].
  eapply wp_mono; [apply (check_slice_spec sec (dr w2) (io_buf w)); [done | done | congruence] |].
  intros rc3 w3 (C3 & D3 & N3 & R3). pose proof C3 as (G3 & (M3 & I3 & _) & S3 & B3). split; [done |]. split; [done |]. split; [done |]. split.
  - intros _. rewrite M3. by apply F2.
  - split; [done |]. intros ->. pose proof (f_equal g_xzs_emmc_ctx D3 : _ = g_xzs_emmc_ctx (dr w3)) as X3. cbn in X3.
    unfold published. rewrite I3, <- X3, X2, M3. do 5 (split; [done |]). by apply R3.
Qed.

(** ** The faster bus *)

Section upgrade.
Context (sec : Z -> bytes) (d : emmc) (buf : bytes).

Lemma calm_keeps {A} (c : prog (world H) A) w : (forall d0, keeps sec d0 buf ready c) -> calm sec d buf w -> wp c (fun _ => calm sec d buf) w.
Proof.
  intros Hk ([G1 G2 G3] & Ht & Hs & Hb). eapply wp_mono; [apply (Hk (dr w)); [by split_and! | done] |].
  intros _ w' ((Hs' & Hf & Hc & Hb') & Hr). apply fixed_table in Hf. split; [by eapply table_good |]. split; [by etrans |]. done.
Qed.

Lemma keeps_gcc_switch d0 cfg : is_u32 cfg -> keeps sec d0 buf ready (gcc_switch cfg).
Proof.
  intros Hc. assert (loose ready) as HR by done. unfold gcc_switch.
  keeps_step HR; [apply keeps_write; [done | done | by left] | keeps_all HR].
Qed.
Lemma keeps_restart_clock d0 usec : keeps sec d0 buf ready (restart_clock usec).
Proof. assert (loose ready) as HR by done. unfold restart_clock. keeps_all HR. Qed.
Lemma keeps_switch_card d0 arg : is_u32 arg -> keeps sec d0 buf ready (switch_card arg).
Proof.
  intros Ha. assert (loose ready) as HR by done. unfold switch_card, status_has. keeps_step HR; [keeps_all HR |].
  keeps_step HR; [apply keeps_write; [done | done | by left] | keeps_all HR].
Qed.
Lemma keeps_upgrade_clock d0 : keeps sec d0 buf ready upgrade_clock.
Proof.
  assert (loose ready) as HR by done. unfold upgrade_clock.
  repeat first [by apply keeps_gcc_switch | apply keeps_restart_clock | keeps_step HR].
Qed.
Lemma keeps_upgrade_width d0 : keeps sec d0 buf ready upgrade_width.
Proof. assert (loose ready) as HR by done. unfold upgrade_width. repeat first [by apply keeps_switch_card | keeps_step HR]. Qed.
Lemma keeps_upgrade_speed d0 : keeps sec d0 buf ready upgrade_speed.
Proof.
  assert (loose ready) as HR by done. unfold upgrade_speed.
  repeat first [by apply keeps_switch_card | by apply keeps_gcc_switch | apply keeps_restart_clock | keeps_step HR].
Qed.
Lemma keeps_revert_speed d0 : keeps sec d0 buf ready revert_speed.
Proof. assert (loose ready) as HR by done. unfold revert_speed. repeat first [by apply keeps_gcc_switch | keeps_step HR]. Qed.

Lemma calm_bind {A B} (c : prog (world H) A) (f : A -> prog (world H) B) w : wp c (fun _ => calm sec d buf) w ->
  (forall a w', calm sec d buf w' -> wp (f a) (fun _ => calm sec d buf) w') -> wp (c ≫= f) (fun _ => calm sec d buf) w.
Proof. intros Hc Hf. apply wp_bind. eapply wp_mono; [exact Hc |]. auto. Qed.

Lemma calm_lba1 have_buf major w : calm sec d buf w -> wp (lba1_verified have_buf major) (fun _ => calm sec d buf) w.
Proof.
  intros Hc. pose proof Hc as (Hg & _ & Hs & _). unfold lba1_verified. apply wp_bind.
  eapply wp_mono; [by apply (via_read_spec sec have_buf _ 1 512) |]. intros [rc b] w' (E & Hs' & Hb' & _). apply wp_ret. by eapply calm_same.
Qed.

Lemma calm_set_fast v w : calm sec d buf w -> calm sec d buf (World (hw w) (set_fast v (dr w)) (io_buf w)).
Proof. intros ([G1 G2 G3] & Ht & Hs & Hb). split; [by split |]. split; [exact Ht |]. done. Qed.

Lemma calm_try_multiblock have_buf major w : calm sec d buf w -> wp (try_multiblock have_buf (dev_of major 0)) (fun _ => calm sec d buf) w.
Proof.
  intros Hc. unfold try_multiblock. apply calm_bind; [by apply wp_act, calm_set_fast |]. intros _ w1 C1.
  pose proof C1 as (G1 & _ & S1 & _). apply wp_bind. eapply wp_mono; [by apply (via_read_spec sec have_buf _ 2 16384) |].
  intros [rc b] w' (E & Hs' & Hb' & _). assert (calm sec d buf w') as C2 by by eapply calm_same.
  destruct (_ && _); [by apply wp_ret | by apply wp_act, calm_set_fast].
Qed.

Lemma calm_reinit w : calm sec d buf w ->
  wp (_ ← on_dr (fun d => set_ctx (set_initialized false (g_xzs_emmc_ctx d)) d); _ ← xzs_emmc_init_persistent; mret tt)
    (fun _ => calm sec d buf) w.
Proof.
  intros ([G1 G2 G3] & Ht & Hs & Hb). apply wp_bind, wp_act, wp_bind. eapply wp_mono; [by apply (init_spec sec) |].
  intros rc w' ((Hs' & Hf & Hc & Hb') & Hr & _). apply wp_ret. apply fixed_table in Hf. cbn [dr io_buf] in *.
  split; [by eapply table_good |]. split; [etrans; [exact Ht | exact Hf] |]. split; [done | congruence].
Qed.

(** Whatever the hardware makes of the switch, nothing is written and the disk stays usable. *)
Lemma calm_upgrade have_buf major w : calm sec d buf w -> wp (upgrade_bus have_buf major) (fun _ => calm sec d buf) w.
Proof.
  intros Hc. unfold upgrade_bus. apply calm_bind; [by apply calm_keeps; [apply keeps_upgrade_clock |] |]. intros _ w1 C1.
  apply calm_bind; [by apply calm_lba1 |]. intros [] w2 C2; [| by apply calm_reinit].
  apply calm_bind; [by apply calm_keeps; [apply keeps_upgrade_width |] |]. intros _ w3 C3.
  apply calm_bind; [by apply calm_lba1 |]. intros ok8 w4 C4.
  apply calm_bind; [| intros _ w5 C5; by apply calm_try_multiblock]. destruct ok8.
  - apply calm_bind; [by apply calm_keeps; [apply keeps_upgrade_speed |] |]. intros _ w5 C5.
    apply calm_bind; [by apply calm_lba1 |]. intros [] w6 C6; [by apply wp_ret |]. by apply calm_keeps; [apply keeps_revert_speed |].
  - apply calm_keeps; [| done]. intros d0. by apply keeps_write; [| | left].
Qed.
End upgrade.

(** ** The whole of it *)

(** Publication, the rest of the probe, and then any calls of the device switch. *)
Definition boot_and_run (have_buf : bool) (major : Z) (node : Z -> bool) (emmcrw : option Z) (root_on_disk : bool)
    (cs : list bdev_call) : prog (world H) Z :=
  unless_halted (publish_disk have_buf major node)
    (_ ← finish_probe have_buf major emmcrw root_on_disk; _ ← run_calls cs; mret 0).

(** Only the sectors of the table's userdata entry are ever written, and only after publication. *)
Definition userdata_only (sec : Z -> bytes) (rc : Z) (sec' : Z -> bytes) : Prop :=
  forall l, sec' l <> sec l -> rc = 0 /\ let table := sectors sec 2 32 in
    is_used table 128 userdata_slot = true /\ start_of table 128 userdata_slot <= l <= end_of table 128 userdata_slot /\
    34 <= l <= 61071326 /\
    forall slot, slot ∈ runtime_used table -> slot <> userdata_slot -> ~ (start_of table 128 slot <= l <= end_of table 128 slot).

Lemma userdata_on_card sec e l : good e -> from_card sec e -> in_userdata e l ->
  let table := sectors sec 2 32 in
    is_used table 128 userdata_slot = true /\ start_of table 128 userdata_slot <= l <= end_of table 128 userdata_slot /\
    34 <= l <= 61071326 /\
    forall slot, slot ∈ runtime_used table -> slot <> userdata_slot -> ~ (start_of table 128 slot <= l <= end_of table 128 slot).
Proof.
  intros Hg Hf Hl. destruct (userdata_apart e l Hg Hl) as [Hr _]. destruct Hl as (Hi & u & Eu & Uu & Hin).
  destruct (Hf Hi) as [(_ & Hall & Hpair) Ht]. destruct (Ht _ _ Eu Uu) as (Hmem & E1 & E2). rewrite E1, E2 in Hin.
  pose proof Hmem as [Hused _]%elem_of_used_list. cbv zeta. split; [done |]. split; [done |]. split; [done |].
  intros slot Hs Hne. destruct (Hpair slot userdata_slot Hs Hmem Hne) as [_ [? | ?]]; lia.
Qed.

Lemma finish_probe_spec sec have_buf major emmcrw root_on_disk w : good (dr w) -> still sec (view (hw w)) -> from_card sec (dr w) ->
  wp (finish_probe have_buf major emmcrw root_on_disk) (fun _ w' => good (dr w') /\ still sec (view (hw w')) /\ from_card sec (dr w')) w.
Proof.
  intros [G1 G2 G3] Hs Hf. unfold finish_probe. apply wp_bind.
  assert (forall w1, hw w1 = hw w -> (exists v, dr w1 = set_rw v (dr w)) ->
    wp (if root_on_disk then upgrade_bus have_buf major else mret tt)
      (fun _ w' => good (dr w') /\ still sec (view (hw w')) /\ from_card sec (dr w')) w1) as Hgo.
  { intros w1 E1 [v E2]. assert (calm sec (dr w1) (io_buf w1) w1) as C1.
    { split; [rewrite E2; by split |]. split; [reflexivity |]. rewrite E1. done. }
    assert (from_card sec (dr w1)) as F1 by (rewrite E2; exact Hf).
    destruct root_on_disk; [| by apply wp_ret; rewrite E1; split; [apply C1 |]].
    eapply wp_mono; [by apply calm_upgrade |]. intros _ w' (G' & (M' & I' & _) & S' & _). split; [done |]. split; [done |].
    unfold from_card. by rewrite I', M'. }
  destruct emmcrw as [v|]; [apply wp_act | apply wp_ret]; apply Hgo; try done; [by exists v |].
  exists (g_xzs_emmc_userdata_rw (dr w)). by destruct (dr w).
Qed.

Lemma boot_spec sec have_buf major node emmcrw root_on_disk cs w : good (dr w) -> still sec (view (hw w)) ->
  unloaded (g_map (dr w)) -> g_xzs_d4_gpt_map_initialized (dr w) = false -> Forall call_ok cs ->
  wp (boot_and_run have_buf major node emmcrw root_on_disk cs) (fun rc w' => good (dr w') /\ rc <> 0xEF /\
    exists sec', still sec' (view (hw w')) /\ userdata_only sec rc sec') w.
Proof.
  intros Hg Hs Hu Hi Hcs. apply wp_unless_halted. eapply wp_mono; [by apply (publish_disk_spec sec) |].
  intros rc w1 (G1 & S1 & B1 & F1 & N1 & P1). destruct (Z.eqb_spec rc 0) as [-> | Hrc]; cycle 1.
  { split; [done |]. split; [done |]. exists sec. split; [done | by intros l]. }
  apply wp_bind. eapply wp_mono; [by apply (finish_probe_spec sec) |]. intros _ w2 (G2 & S2 & F2).
  apply wp_bind. eapply wp_mono; [apply (calls_confined sec (dr w2)); [done |] |].
  { split; [done |]. split; [done |]. exists sec. split; [done | apply changed_refl]. }
  intros _ w3 (G3 & _ & sec' & S3 & Hch). apply wp_ret. split; [done |]. split; [done |]. exists sec'. split; [done |].
  intros l Hl. split; [done |]. destruct (Hch l) as [? | Hin]; [done |]. by apply (userdata_on_card sec (dr w2)).
Qed.

Lemma boot_good : good emmc_boot.
Proof. split; [by split; [| apply Forall_replicate] | done | done]. Qed.

Lemma boot_unloaded : unloaded (g_map emmc_boot).
Proof. split; try reflexivity; by apply Forall_replicate. Qed.

(** C1. Whole-system write safety.  From the state at boot, on any controller and card that behave
    like an SD host controller (with any delays and any errors): publish the disk, apply the boot
    arguments and the bus upgrade, then make any sequence of open, close, size, control and strategy
    calls.  The run returns, the self-check of a request past the end of a partition never halts the
    kernel, and a sector of the card that differs afterwards lies in the userdata extent of the table
    that was on the card, outside the table and every other partition. *)
Theorem boot_writes_userdata_only sec h buf have_buf major node emmcrw root_on_disk cs :
  still sec (view h) -> Forall call_ok cs ->
  exists rc w' sec', boot_and_run have_buf major node emmcrw root_on_disk cs (World h emmc_boot buf) = Ret (rc, w') /\
    rc <> 0xEF /\ good (dr w') /\ still sec' (view (hw w')) /\ userdata_only sec rc sec'.
Proof.
  intros Hs Hcs. destruct (wp_elim _ _ _ (boot_spec sec have_buf major node emmcrw root_on_disk cs (World h emmc_boot buf)
    boot_good Hs boot_unloaded eq_refl Hcs)) as (rc & w' & E & Hg & Hn & sec' & Hs' & Hu).
  by exists rc, w', sec'.
Qed.
End calm.

Lemma boot_writes_userdata_only_witness : exists rc w' sec',
  boot_and_run true 3 (fun _ => true) (Some 1) true
    [COpen (makedev 3 54) 3; CStrategy (replicate 512 9) (Req (makedev 3 54) 7 512 0 (0, Some 0) 0 0 0)]
    (World sim_card emmc_boot []) = Ret (rc, w') /\
  rc <> 0xEF /\ good (dr w') /\ still sec' (view (hw w')) /\ userdata_only sim_sector rc sec'.
Proof.
  apply boot_writes_userdata_only; [apply sim_still |]. constructor; [done |]. constructor; [| constructor].
  split; [split; cbn; [done | lia] |]. split; [by apply Forall_replicate |]. intros p [= <-]. vm_compute. done.
Defined.
