(* ===== verification/Shell.v ===== *)
(** * The shell

    Models xzs-userland/shell.c and xzs-userland/shell_line.c.  The kernel is an interface
    ([Syscalls]) over a world; a program is a function of the world that may fail
    ([Fault]: an access outside a local array; [NoFuel]: a loop that depends on
    the kernel went on for longer than asked).  Local arrays are byte
    lists of their declared size; strings handed to the kernel are their characters
    without the terminator. *)

From stdpp Require Import base list strings.
From Stdlib Require Import ZArith Lia.
From S2P Require Import Prelude XzsfsCore Kernel XzsfsDriver.

(** ** The kernel *)

(** [sys_read] and [sys_getdirentries] return the count and the bytes stored in the
    caller's buffer. *)
Class Syscalls (W : Type) := {
  sys_read : Z -> Z -> W -> Z * bytes * W;
  sys_write : Z -> bytes -> W -> W;
  sys_open : bytes -> W -> Z * W;
  sys_close : Z -> W -> W;
  sys_chdir : bytes -> W -> Z * W;
  sys_getdirentries : Z -> Z -> W -> Z * bytes * W;
  sys_diag : Z -> bytes -> Z -> Z -> W -> W;
  sys_fork : W -> Z * W;
  sys_execve : bytes -> list bytes -> list bytes -> W -> W;
  sys_wait4 : Z -> W -> W;
  sys_exit : Z -> W -> W;
  sys_reboot : W -> W;
}.

Definition LINE_MAX : Z := 128.
Definition ARG_MAX : Z := 8.
Definition CWD_MAX : Z := 96.

(** ** Splitting a line *)

Definition is_blank (c : Z) : bool := (c =? 32) || (c =? 9).

(** [argv[i] = v]; pointers are offsets into the line, NULL is -1. *)
Definition put_arg (argv : list Z) (i v : Z) : option (list Z) :=
  if (0 <=? i) && (i <? zlen argv) then Some (<[Z.to_nat i := v]> argv) else None.

(** One turn of the word loop; it leaves with the result of the function. *)
Definition split_step (max_argc : Z) (st : Z * Z * bytes * list Z)
    : option (ctl (Z * Z * bytes * list Z) (Z * bytes * list Z)) :=
  let '(p, argc, line, argv) := st in
  let finish argc line argv := argv ← put_arg argv argc (-1); Some (Exit (argc, line, argv)) in
  c ← byte_at line p;
  if c =? 0 then finish argc line argv
  else if max_argc <=? argc + 1 then Some (Exit (-1, line, argv))
  else
    argv ← put_arg argv argc p;
    let argc := argc + 1 in
    p ← scan_while (fun c => negb (c =? 0) && negb (is_blank c)) line p;
    c ← byte_at line p;
    if c =? 0 then finish argc line argv
    else
      line ← put_byte line p 0;
      p ← scan_while is_blank line (p + 1);
      Some (Next (p, argc, line, argv)).

(** Result: the count or -1, the line and the argument vector. *)
Definition xzs_split_args (line : bytes) (argv : list Z) (max_argc : Z)
    : option (Z * bytes * list Z) :=
  if max_argc <? 1 then Some (-1, line, argv)
  else
    p ← scan_while is_blank line 0;
    c ← byte_at line p;
    if c =? 0 then argv ← put_arg argv 0 (-1); Some (0, line, argv)
    else loop (S (length line)) (split_step max_argc) (p, 0, line, argv).

(** ** Strings *)

Definition slen (s : bytes) : Z := zlen s.

Fixpoint seq (a b : bytes) : bool :=
  match a, b with
  | [], [] => true
  | x :: a, y :: b => (x =? y) && seq a b
  | _, _ => false
  end.

Definition seqs (a : bytes) (s : string) : bool := seq a (lit s).

(** Copy with a terminator, unless it does not fit. *)
Definition copy_str (dst : bytes) (cap : Z) (src : bytes) : option (Z * bytes) :=
  let n := slen src in
  if cap <? n + 1 then Some (-1, dst)
  else
    dst ← store_loop (Z.to_nat n) 0 0 (byte_at src) dst;
    dst ← put_byte dst n 0;
    Some (0, dst).

(** The bytes of [a], a slash if asked for, the bytes of [b] and a terminator. *)
Definition join_into (dst a b : bytes) (slash : bool) : option bytes :=
  let na := slen a in
  let nb := slen b in
  let ns := if slash then 1 else 0 in
  dst ← store_loop (Z.to_nat na) 0 0 (byte_at a) dst;
  dst ← (if slash then put_byte dst na 47 else Some dst);
  dst ← store_loop (Z.to_nat nb) 0 (na + ns) (byte_at b) dst;
  put_byte dst (na + ns + nb) 0.

Definition join2 (dst : bytes) (cap : Z) (a b : bytes) : option (Z * bytes) :=
  let na := slen a in
  let nb := slen b in
  let slash := (0 <? na) && negb (match last a with Some c => c =? 47 | None => true end) in
  let ns := if slash then 1 else 0 in
  if cap <? na + ns + nb + 1 then Some (-1, dst)
  else dst ← join_into dst a b slash; Some (0, dst).

(** [val = val * 10 + digit] in a 64-bit [long]. *)
Fixpoint parse_long_from (s : bytes) (val : Z) : Z :=
  match s with
  | c :: s => if (48 <=? c) && (c <=? 57) then parse_long_from s (s64 (val * 10 + (c - 48))) else val
  | [] => val
  end.
Definition parse_long (s : bytes) : Z := parse_long_from s 0.

Definition nl : bytes := [10].

Section shell.
Context {W : Type} `{!Syscalls W}.

Definition wr (s : bytes) : prog W unit := act (sys_write 1 s).
Definition werr (s : bytes) : prog W unit := act (sys_write 2 s).

(** ** Reading a line *)

(** One character of [drain_to_eol]. *)
Definition drain_chars (tmp : bytes) (r i : Z) : option (ctl unit bool) :=
  for_loop (Z.to_nat (r - i)) i
    (fun i _ => c ← byte_at tmp i;
       Some (if c =? 13 then Exit true else if c =? 10 then Exit false else Next tt)) tt.

(** Result: the code and [*swallow_lf]. *)
Fixpoint drain_to_eol (fuel : nat) (tmp : bytes) (r i : Z) (swallow_lf : bool) : prog W (Z * bool) :=
  match fuel with
  | O => fun _ => NoFuel
  | S fuel =>
      x ← plift (drain_chars tmp r i);
      match x with
      | Exit sw => mret (0, sw)
      | Next _ =>
          '(r, tmp) ← call (sys_read 0 64);
          if r <=? 0 then mret (-1, swallow_lf) else drain_to_eol fuel tmp r 0 swallow_lf
      end
  end.

(** How a chunk of characters leaves the line being edited: more to read, the end of the
    line, or no room for the character at [i]. *)
Inductive chunk_end : Type :=
  | EndOfLine (n : Z) (buf : bytes) (swallow_lf : bool)
  | TooLong (i : Z) (buf : bytes) (swallow_lf : bool).

(** One character.  State: count, line buffer, flag, world. *)
Definition read_char (tmp : bytes) (cap : Z) (i : Z) (st : Z * bytes * bool * W)
    : option (ctl (Z * bytes * bool * W) (chunk_end * W)) :=
  let '(n, buf, sw, w) := st in
  c ← byte_at tmp i;
  if (c =? 10) && sw then Some (Next (n, buf, false, w))
  else if (c =? 13) || (c =? 10) then
    buf ← put_byte buf n 0; Some (Exit (EndOfLine n buf (c =? 13), w))
  else if (c =? 8) || (c =? 127) then
    if 0 <? n then Some (Next (n - 1, buf, false, sys_write 1 [8; 32; 8] w))
    else Some (Next (n, buf, false, w))
  else if cap <=? n + 1 then Some (Exit (TooLong i buf false, w))
  else buf ← put_byte buf n c; Some (Next (n + 1, buf, false, w)).

(** Result: the code, the line buffer and [*swallow_lf]. *)
Fixpoint read_line_from (fuel : nat) (n : Z) (buf : bytes) (cap : Z) (swallow_lf : bool)
    : prog W (Z * bytes * bool) :=
  match fuel with
  | O => fun _ => NoFuel
  | S fuel =>
      '(r, tmp) ← call (sys_read 0 64);
      if r <? 0 then buf ← plift (put_byte buf 0 0); mret (-1, buf, swallow_lf)
      else if r =? 0 then buf ← plift (put_byte buf n 0); mret (n, buf, swallow_lf)
      else fun w =>
        x ← of_option (for_loop (Z.to_nat r) 0 (read_char tmp cap) (n, buf, swallow_lf, w));
        match x with
        | Next (n, buf, sw, w) => read_line_from fuel n buf cap sw w
        | Exit (EndOfLine n buf sw, w) => Ret ((n, buf, sw), w)
        | Exit (TooLong i buf sw, w) =>
            ('(_, sw) ← drain_to_eol fuel tmp r i sw;
             buf ← plift (put_byte buf 0 0);
             _ ← wr (lit "line too long" ++ [10]);
             mret (-2, buf, sw)) w
        end
  end.

Definition read_line (fuel : nat) (buf : bytes) (cap : Z) (swallow_lf : bool) : prog W (Z * bytes * bool) :=
  read_line_from fuel 0 buf cap swallow_lf.

(** ** Commands *)

Definition cmd_help : prog W unit :=
  wr (lit "help echo pwd cd ls cat display dsi clocks irq fb mem exit" ++ nl).

Definition cmd_diag (which : Z) : prog W unit := act (sys_diag which [] 0 0).

Fixpoint echo_words (first : bool) (args : list bytes) : prog W unit :=
  match args with
  | [] => mret tt
  | a :: args => _ ← (if first then mret tt else wr (lit " ")); _ ← wr a; echo_words false args
  end.

Definition cmd_echo (argv : list bytes) : prog W unit :=
  _ ← echo_words true (tail argv); wr nl.

Definition cmd_pwd (cwd : bytes) : prog W unit := _ ← wr cwd; wr nl.

(** The length of the parent of [cwd]: back to the last slash, and over it. *)
Definition parent_len (cwd : bytes) : option Z :=
  n ← loop (S (length cwd))
        (fun n => if 1 <? n then c ← byte_at cwd (n - 1);
                    Some (if negb (c =? 47) then Next (n - 1) else Exit n)
                  else Some (Exit n)) (slen cwd);
  Some (if 1 <? n then n - 1 else n).

(** The path a [cd] asks the kernel for: nothing to do, a path, or an error. *)
Inductive cd_target : Type :=
  | Stay
  | Goto (path : bytes)
  | PathTooLong.

(** [next] is the uninitialised local array. *)
Definition cd_resolve (next cwd path : bytes) : option cd_target :=
  if seqs path "." then Some Stay
  else if match path with c :: _ => c =? 47 | [] => false end then
    '(r, next) ← copy_str next CWD_MAX path;
    Some (if negb (r =? 0) then PathTooLong else Goto path)
  else if seqs path ".." then
    if seqs cwd "/" then Some Stay
    else
      n ← parent_len cwd;
      next ← store_loop (Z.to_nat n) 0 0 (byte_at cwd) next;
      next ← put_byte next n 0;
      c0 ← byte_at next 0;
      next ← (if c0 =? 0 then next ← put_byte next 0 47; put_byte next 1 0 else Some next);
      p ← c_string next;
      Some (Goto p)
  else
    let n := slen cwd in
    let m := slen path in
    let slash := 1 <? n in
    let ns := if slash then 1 else 0 in
    if CWD_MAX <? n + ns + m + 1 then Some PathTooLong
    else
      next ← join_into next cwd path slash;
      p ← c_string next;
      Some (Goto p).

(** [cwd] is the array of the shell; result is the array after the command. *)
Definition cmd_cd (next : bytes) (argv : list bytes) (cwd : bytes) : prog W bytes :=
  match argv with
  | [_; path] =>
      cur ← plift (c_string cwd);
      t ← plift (cd_resolve next cur path);
      match t with
      | Stay => mret cwd
      | PathTooLong => _ ← werr (lit "cd: path too long" ++ nl); mret cwd
      | Goto p =>
          rc ← call (sys_chdir p);
          if rc <? 0 then _ ← werr (lit "cd: failed" ++ nl); mret cwd
          else '(_, cwd) ← plift (copy_str cwd CWD_MAX p); mret cwd
      end
  | _ => _ ← werr (lit "cd: usage: cd path" ++ nl); mret cwd
  end.

(** One record of a directory buffer of [n] bytes: state is the offset and the world. *)
Definition ls_record (buf : bytes) (n : Z) (st : Z * W) : option (ctl (Z * W) W) :=
  let '(off, w) := st in
  if off + 8 <=? n then
    rl ← sub_bytes buf (off + 4) 2;
    let reclen := le_combine rl in
    namlen ← byte_at buf (off + 7);
    if (reclen <? 9) || (n <? off + reclen) || (reclen <? namlen + 8) || (63 <? namlen) then Some (Exit w)
    else
      name ← store_loop (Z.to_nat namlen) 0 0 (fun i => byte_at buf (off + 8 + i)) (replicate 64 0);
      name ← put_byte name namlen 0;
      s ← c_string name;
      Some (Next (off + reclen, sys_write 1 nl (sys_write 1 s w)))
  else Some (Exit w).

Definition ls_records (buf : bytes) (n : Z) : prog W unit := fun w =>
  w ← of_option (loop (S (Z.to_nat n)) (ls_record buf n) (0, w)); Ret (tt, w).

Fixpoint ls_loop (fuel : nat) (fd : Z) : prog W unit :=
  match fuel with
  | O => fun _ => NoFuel
  | S fuel =>
      '(n, buf) ← call (sys_getdirentries fd 256);
      if n <? 0 then werr (lit "ls: read failed" ++ nl)
      else if n =? 0 then mret tt
      else _ ← ls_records buf n; ls_loop fuel fd
  end.

Definition cmd_ls (fuel : nat) (argv : list bytes) (cwd : bytes) : prog W unit :=
  cur ← plift (c_string cwd);
  let path := match argv with _ :: a :: _ => a | _ => cur end in
  fd ← call (sys_open path);
  if fd <? 0 then _ ← werr (lit "ls: "); _ ← werr path; werr (lit ": open failed" ++ nl)
  else _ ← ls_loop fuel fd; act (sys_close fd).

Fixpoint cat_loop (fuel : nat) (fd : Z) : prog W unit :=
  match fuel with
  | O => fun _ => NoFuel
  | S fuel =>
      '(n, buf) ← call (sys_read fd 128);
      if n <? 0 then werr (lit "cat: read failed" ++ nl)
      else if n =? 0 then mret tt
      else bs ← plift (sub_bytes buf 0 n); _ ← act (sys_write 1 bs); cat_loop fuel fd
  end.

Definition cmd_cat (fuel : nat) (argv : list bytes) : prog W unit :=
  match argv with
  | [_; file] =>
      fd ← call (sys_open file);
      if fd <? 0 then _ ← werr (lit "cat: "); _ ← werr file; werr (lit ": open failed" ++ nl)
      else _ ← cat_loop fuel fd; act (sys_close fd)
  | _ => werr (lit "cat: usage: cat file" ++ nl)
  end.

Definition shell_envp : list bytes := [lit "PATH=/bin:/sbin"; lit "HOME=/"; lit "TERM=xzs"].

(** [for (;;) {}]. *)
Definition spin : prog W unit := fun _ => NoFuel.

Definition command_not_found (file : bytes) : prog W unit :=
  _ ← werr file; werr (lit ": command not found" ++ nl).

(** The child returns from [execve] only when it failed; it then reports, exits, and spins
    should the exit return. *)
Definition spawn (path file : bytes) (argv : list bytes) : prog W unit :=
  pid ← call sys_fork;
  if pid <? 0 then werr (lit "fork: failed" ++ nl)
  else if pid =? 0 then
    _ ← act (sys_execve path argv shell_envp);
    _ ← command_not_found file;
    _ ← act (sys_exit 127);
    spin
  else act (sys_wait4 pid).

Definition run_external (argv : list bytes) : prog W unit :=
  file ← plift (head argv);
  if match file with c :: _ => negb (c =? 47) | [] => true end then
    '(r, path) ← plift (join2 (replicate (Z.to_nat CWD_MAX) 0) CWD_MAX (lit "/bin") file);
    if negb (r =? 0) then command_not_found file
    else p ← plift (c_string path); spawn p file argv
  else spawn file file argv.
End shell.

(** ** Diagnostics menus *)

(** [argv[k]] for [k < argc]. *)
Definition arg (argv : list bytes) (k : nat) : bytes := nth k argv [].
Definition argc_of (argv : list bytes) : Z := zlen argv.

(** The first condition that holds. *)
Fixpoint first_case (cases : list (bool * Z)) (otherwise : Z) : Z :=
  match cases with
  | [] => otherwise
  | (b, r) :: cases => if b then r else first_case cases otherwise
  end.

Definition m8_which (argv : list bytes) : list (bool * Z) :=
  let a1 := arg argv 1 in
  let sub := if nth 2 a1 0 =? 45 then drop 3 a1
             else if 3 <=? argc_of argv then arg argv 2 else [] in
  [ (seqs sub "status", 50); (seqs sub "dryrun", 51); (seqs sub "fb-init", 52);
    (seqs sub "rgb0-config", 53); (seqs sub "lm0-config", 54); (seqs sub "stream-config", 55);
    (seqs sub "ctl-config", 56); (seqs sub "flush-config", 57); (seqs sub "prekick-status", 58);
    (seqs sub "kickoff" || seqs sub "7", 59) ].

(** [stage "m5" "run" 44]: one word [m5-run] or two words. *)
Definition staged (argv : list bytes) (m sub : string) : bool :=
  let argc := argc_of argv in
  (2 <=? argc) && (seq (arg argv 1) (lit m ++ lit "-" ++ lit sub)
    || (3 <=? argc) && seqs (arg argv 1) m && seqs (arg argv 2) sub).

Definition display_which (argv : list bytes) : Z :=
  let argc := argc_of argv in
  let one s := (argc =? 2) && seqs (arg argv 1) s in
  let two s t := (argc =? 3) && seqs (arg argv 1) s && seqs (arg argv 2) t in
  let three s t u := (argc =? 4) && seqs (arg argv 1) s && seqs (arg argv 2) t && seqs (arg argv 3) u in
  let any s := (2 <=? argc) && seqs (arg argv 1) s in
  first_case
    ([ (argc =? 1, 1); (one "status", 1); (one "regs", 25); (one "m3-dryrun", 22);
       (two "m3-run" "dryrun", 22); (two "m3-run" "pll", 23); (two "m3-run" "full", 24);
       (one "m4-status", 28); (one "m4-dryrun", 29);
       (two "m4-run" "dryrun", 29); (two "m4-run" "basic", 30); (two "m4-run" "full", 31);
       (one "p1-status" || one "gpio-status", 32); (two "gpio" "status", 32);
       (one "p1-dryrun", 33); (any "p1-run", 34);
       (two "spmi" "status", 35); (one "spmi-status", 35);
       (three "pmic" "lab" "status" || two "lab" "status" || one "lab-status", 36);
       (three "pmic" "ibb" "status" || two "ibb" "status" || one "ibb-status", 37);
       (one "p2-dryrun", 38); (any "p2-config" || any "p2-config-only", 39); (any "p2-run", 40);
       (staged argv "m5" "status", 41); (staged argv "m5" "dryrun", 42);
       (staged argv "m5" "stage1", 43); (staged argv "m5" "run", 44);
       (staged argv "m6" "dryrun", 45); (staged argv "m6" "stage1", 46);
       (staged argv "m6" "stage2", 47); (staged argv "m6" "run", 48) ]
     ++ (if (2 <=? argc) && (nth 0 (arg argv 1) 0 =? 109) && (nth 1 (arg argv 1) 0 =? 56)
         then m8_which argv else [])
     ++ [ (two "power" "status", 7); (two "power" "mmagic-on", 8); (two "power" "mdss-on", 9) ])
    (-1).

Definition dsi_which (argv : list bytes) : Z :=
  let argc := argc_of argv in
  let one s := (argc =? 2) && seqs (arg argv 1) s in
  first_case [ (argc =? 1, 2); (one "pll", 26); (one "phy", 27) ] (-1).

Definition clocks_which (argv : list bytes) : Z :=
  let argc := argc_of argv in
  let one s := (argc =? 2) && seqs (arg argv 1) s in
  first_case
    [ (argc =? 1, 3);
      ((argc =? 3) && seqs (arg argv 1) "display" && seqs (arg argv 2) "status", 3);
      (one "mdss-ahb-status", 13); (one "mdss-ahb-debug", 14); (one "mdss-critical-status", 15);
      (one "mmagic-ahb-on", 16); (one "mmagic-cfg-ahb-on", 17); (one "mmagic-mdss-noc-on", 18);
      (one "mmagic-mdss-axi-on", 19); (one "mdss-ahb-on", 10); (one "mdss-axi-on", 11);
      (one "mdp-on", 12) ] (-1).

(** ** The command loop *)

Section commands.
Context {W : Type} `{!Syscalls W}.

(** A menu command: the usage text, or the diagnostic. *)
Definition menu (which : Z) (usage : string) : prog W unit :=
  if which <? 0 then werr (lit usage ++ nl) else cmd_diag which.

(** The path of an [xzsfs] subcommand, made absolute when the result fits. *)
Definition diag_path (cwd p : bytes) : option bytes :=
  if match p with c :: _ => negb (c =? 47) | [] => true end then
    '(r, full) ← join2 (replicate (Z.to_nat CWD_MAX) 0) CWD_MAX cwd p;
    if r =? 0 then c_string full else Some p
  else Some p.

Definition cmd_xzsfs (argv : list bytes) (cwd : bytes) : prog W unit :=
  let argc := argc_of argv in
  cur ← plift (c_string cwd);
  if (3 <=? argc) && seqs (arg argv 1) "ubc" then
    p ← plift (diag_path cur (arg argv 2)); act (sys_diag 20 p 0 0)
  else if (5 <=? argc) && seqs (arg argv 1) "pagecheck" then
    p ← plift (diag_path cur (arg argv 2));
    act (sys_diag 21 p (parse_long (arg argv 3)) (parse_long (arg argv 4)))
  else werr (lit "usage: xzsfs ubc <path> | xzsfs pagecheck <path> <offset> <size>" ++ nl).

(** Run the command of a split line; result: the [cwd] array. *)
Definition dispatch (fuel : nat) (argv : list bytes) (cwd : bytes) : prog W bytes :=
  let same (m : prog W unit) : prog W bytes := _ ← m; mret cwd in
  let a0 := arg argv 0 in
  if seqs a0 "help" then same cmd_help
  else if seqs a0 "echo" then same (cmd_echo argv)
  else if seqs a0 "pwd" then same (cur ← plift (c_string cwd); cmd_pwd cur)
  else if seqs a0 "cd" then cmd_cd (replicate (Z.to_nat CWD_MAX) 0) argv cwd
  else if seqs a0 "ls" then same (cmd_ls fuel argv cwd)
  else if seqs a0 "cat" then same (cmd_cat fuel argv)
  else if seqs a0 "display" then same (menu (display_which argv) "display: usage")
  else if seqs a0 "dsi" then same (menu (dsi_which argv) "dsi: usage: dsi [pll|phy]")
  else if seqs a0 "clocks" then same (menu (clocks_which argv) "clocks: usage")
  else if seqs a0 "irq" then same (cmd_diag 4)
  else if seqs a0 "fb" then same (cmd_diag 5)
  else if seqs a0 "mem" then same (cmd_diag 6)
  else if seqs a0 "xzsfs" then same (cmd_xzsfs argv cwd)
  else if seqs a0 "exit" then same (act (sys_exit 0))
  else if seqs a0 "reboot" then same (act sys_reboot)
  else same (run_external argv).

(** The shell's locals. *)
Record shell_state := ShellState {
  sh_line : bytes;
  sh_argv : list Z;
  sh_cwd : bytes;
  sh_swallow_lf : bool }.

(** The strings the argument vector points to. *)
Definition arg_strings (line : bytes) (argv : list Z) (argc : Z) : option (list bytes) :=
  mapM (fun p => if p <? 0 then None else c_string (drop (Z.to_nat p) line)) (take (Z.to_nat argc) argv).

(** One turn of the prompt loop. *)
Definition shell_step (fuel : nat) (s : shell_state) : prog W shell_state :=
  _ ← wr (lit "xzs# ");
  '(got, line, sw) ← read_line fuel (sh_line s) LINE_MAX (sh_swallow_lf s);
  if got <? 0 then mret (ShellState line (sh_argv s) (sh_cwd s) sw)
  else
    '(argc, line, argv) ← plift (xzs_split_args line (sh_argv s) ARG_MAX);
    if argc <? 0 then
      _ ← werr (lit "too many arguments" ++ nl); mret (ShellState line argv (sh_cwd s) sw)
    else if argc =? 0 then mret (ShellState line argv (sh_cwd s) sw)
    else
      args ← plift (arg_strings line argv argc);
      cwd ← dispatch fuel args (sh_cwd s);
      mret (ShellState line argv cwd sw).

(** The locals on entry: the arrays are uninitialised but for [cwd = "/"]. *)
Definition shell_start (line : bytes) (argv : list Z) (cwd : bytes) : option shell_state :=
  cwd ← put_byte cwd 0 47;
  cwd ← put_byte cwd 1 0;
  Some (ShellState line argv cwd false).

(** [for (;;)]: [n] turns. *)
Fixpoint xzs_d7t2_shell (n fuel : nat) (s : shell_state) : prog W shell_state :=
  match n with
  | O => mret s
  | S n => s ← shell_step fuel s; xzs_d7t2_shell n fuel s
  end.
End commands.
