(* ===== verification/ShellProofs.v ===== *)
(** * The shell: correctness

    Splitting a line into arguments yields exactly its words, closed by NULL, or fails when they
    do not fit. *)

From stdpp Require Import base list strings.
From Stdlib Require Import ZArith Lia.
From S2P Require Import Prelude XzsfsCore XzsfsSample XzsfsFormat XzsfsGraph XzsfsLookup Kernel XzsfsDriver XzsfsVnops XzsfsDir Shell.

(** ** Words *)

Definition text (s : bytes) : Prop := Forall (fun c => c <> 0) s.

(** The longest prefix that satisfies the predicate, and the rest. *)
Fixpoint span (pred : Z -> bool) (l : bytes) : bytes * bytes :=
  match l with
  | [] => ([], [])
  | c :: l => if pred c then let '(a, b) := span pred l in (c :: a, b) else ([], c :: l)
  end.

Definition word_char (c : Z) : bool := negb (is_blank c).

(** The words of a text that does not start with a blank. *)
Fixpoint words_from (fuel : nat) (t : bytes) : list bytes :=
  match fuel, t with
  | S fuel, _ :: _ =>
      let '(w, t) := span word_char t in
      w :: words_from fuel (span is_blank t).2
  | _, _ => []
  end.
Definition words (t : bytes) : list bytes := words_from (length t) (span is_blank t).2.

Lemma span_spec pred l : let '(a, b) := span pred l in
  l = a ++ b /\ Forall (fun c => pred c = true) a /\
  match b with c :: _ => pred c = false | [] => True end.
Proof.
  induction l as [|c l IH]; cbn [span]; [done |]. destruct (pred c) eqn:E; [| done].
  destruct (span pred l) as [a b]. destruct IH as (-> & Ha & Hb). split; [done |]. split; [by constructor | done].
Qed.

Lemma put_arg_in argv i v : 0 <= i < zlen argv -> put_arg argv i v = Some (<[Z.to_nat i := v]> argv).
Proof.
  intros. unfold put_arg. rewrite (proj2 (Z.leb_le _ _)), (proj2 (Z.ltb_lt _ _)) by lia. done.
Qed.

(** A scan over a text ends at its terminator at the latest. *)
Lemma scan_text pred pre t junk : pred 0 = false ->
  scan_while pred (pre ++ t ++ 0 :: junk) (zlen pre) = Some (zlen pre + zlen (span pred t).1).
Proof.
  intros H0. pose proof (span_spec pred t) as Hs. destruct (span pred t) as [a b]. cbn [fst].
  destruct Hs as (-> & Ha & Hb). rewrite <- app_assoc. destruct b as [|c b]; cbn [app].
  - by apply scan_while_at.
  - by apply scan_while_at.
Qed.

(** What the vector points to from slot [k] on. *)
Definition points_to (line : bytes) (argv : list Z) (k : nat) (ws : list bytes) : Prop :=
  forall i w, ws !! i = Some w -> exists p, argv !! (k + i)%nat = Some p /\ 0 <= p /\
    c_string (drop (Z.to_nat p) line) = Some w.

Section split.
Context (max : Z) (junk : bytes).

(** A word and the blanks behind it, if any. *)
Definition is_word (w : bytes) : Prop := w <> [] /\ text w /\ Forall (fun c => word_char c = true) w.

Lemma scan_word pre w e rest : is_word w -> word_char e = false \/ e = 0 ->
  scan_while (fun c => negb (c =? 0) && negb (is_blank c)) (pre ++ w ++ e :: rest) (zlen pre) =
  Some (zlen pre + zlen w).
Proof.
  intros (_ & Ht & Hw) He. apply scan_while_at.
  - apply Forall_forall. intros c Hc. unfold text in Ht. rewrite Forall_forall in Ht. rewrite Forall_forall in Hw.
    rewrite (proj2 (Z.eqb_neq c 0)) by by apply Ht. exact (Hw c Hc).
  - destruct He as [He | ->]; [| done]. unfold word_char in He. by rewrite He, andb_false_r.
Qed.

Lemma word_head w : is_word w -> exists c w', w = c :: w' /\ c <> 0.
Proof.
  intros (Hne & Ht & _). destruct w as [|c w]; [done |]. apply Forall_cons in Ht as [Hc _]. by exists c, w.
Qed.

(** The step on a word: entered in the vector when there is room for it and for the end. *)
Lemma split_step_full pre w rest argv k : is_word w -> max <= Z.of_nat k + 1 ->
  split_step max (zlen pre, Z.of_nat k, pre ++ w ++ rest, argv) = Some (Exit (-1, pre ++ w ++ rest, argv)).
Proof.
  intros Hw Hk. destruct (word_head w Hw) as (c & w' & -> & Hc). unfold split_step. cbn [app].
  rewrite byte_at_here. cbn [mbind option_bind]. rewrite (proj2 (Z.eqb_neq c 0)) by done.
  by rewrite (proj2 (Z.leb_le _ _)) by lia.
Qed.

Lemma split_step_last pre w argv k : is_word w -> Z.of_nat k + 1 < max -> max <= zlen argv ->
  split_step max (zlen pre, Z.of_nat k, pre ++ w ++ 0 :: junk, argv) =
  Some (Exit (Z.of_nat k + 1, pre ++ w ++ 0 :: junk, <[S k := -1]> (<[k := zlen pre]> argv))).
Proof.
  intros Hw Hk Hm. destruct (word_head w Hw) as (c & w' & Ew & Hc). unfold split_step.
  rewrite Ew at 1. cbn [app]. rewrite byte_at_here. cbn [mbind option_bind].
  rewrite (proj2 (Z.eqb_neq c 0)), (proj2 (Z.leb_gt max _)) by (done || lia).
  rewrite put_arg_in by lia. cbn [mbind option_bind]. rewrite Nat2Z.id.
  rewrite scan_word by (done || by right). cbn [mbind option_bind]. rewrite byte_at_past.
  cbn [mbind option_bind Z.eqb]. rewrite put_arg_in by (rewrite zlen_insert; lia). cbn [mbind option_bind].
  by replace (Z.to_nat (Z.of_nat k + 1)) with (S k) by lia.
Qed.

Lemma split_step_next pre w b bs t argv k : is_word w -> is_blank b = true -> b <> 0 ->
  Forall (fun c => is_blank c = true) bs ->
  match t with c :: _ => is_blank c = false | [] => True end ->
  Z.of_nat k + 1 < max -> max <= zlen argv ->
  let pre2 := (pre ++ w) ++ 0 :: bs in
  split_step max (zlen pre, Z.of_nat k, pre ++ w ++ b :: (bs ++ t) ++ 0 :: junk, argv) =
  Some (Next (zlen pre2, Z.of_nat (S k), pre2 ++ t ++ 0 :: junk, <[k := zlen pre]> argv)).
Proof.
  intros Hw Hb Hb0 Hbs Ht Hk Hm pre2. destruct (word_head w Hw) as (c & w' & Ew & Hc). unfold split_step.
  rewrite Ew at 1. cbn [app]. rewrite byte_at_here. cbn [mbind option_bind].
  rewrite (proj2 (Z.eqb_neq c 0)), (proj2 (Z.leb_gt max _)) by (done || lia).
  rewrite put_arg_in by lia. cbn [mbind option_bind]. rewrite Nat2Z.id.
  rewrite scan_word; [| done | left; unfold word_char; by rewrite Hb]. cbn [mbind option_bind].
  rewrite byte_at_past. cbn [mbind option_bind]. rewrite (proj2 (Z.eqb_neq b 0)) by done.
  rewrite app_assoc, <- zlen_app, put_byte_here. cbn [mbind option_bind].
  assert ((pre ++ w) ++ 0 :: (bs ++ t) ++ 0 :: junk = ((pre ++ w) ++ [0]) ++ bs ++ t ++ 0 :: junk) as El
    by (rewrite <- !app_assoc; cbn [app]; by rewrite <- ?app_assoc).
  assert (scan_while is_blank ((pre ++ w) ++ 0 :: (bs ++ t) ++ 0 :: junk) (zlen (pre ++ w) + 1) =
    Some (zlen pre2)) as ->.
  { rewrite El. replace (zlen (pre ++ w) + 1) with (zlen ((pre ++ w) ++ [0])) by by rewrite (zlen_app _ [0]).
    assert (zlen pre2 = zlen ((pre ++ w) ++ [0]) + zlen bs) as ->
      by (unfold pre2; rewrite !(zlen_app (pre ++ w)), zlen_cons; change (zlen [0]) with 1; lia).
    destruct t as [|x t]; cbn [app]; by apply scan_while_at. }
  cbn [mbind option_bind]. do 3 f_equal. rewrite Nat2Z.inj_succ. f_equal.
  unfold pre2. rewrite <- !app_assoc. cbn [app]. by rewrite <- ?app_assoc.
Qed.

(** What the loop leaves behind: the words from slot [k] on, the end mark, and the slots and
    bytes before them as they were. *)
Definition split_result (pre t : bytes) (argv : list Z) (k : nat) (ws : list bytes)
    (r : Z * bytes * list Z) : Prop :=
  let '(n, line', argv') := r in length argv' = length argv /\ length line' = length (pre ++ t ++ 0 :: junk) /\
  if decide (Z.of_nat k + zlen ws < max) then
    n = Z.of_nat k + zlen ws /\ (exists t', line' = pre ++ t' ++ 0 :: junk) /\
    points_to line' argv' k ws /\ argv' !! (k + length ws)%nat = Some (-1) /\
    forall j, (j < k)%nat -> argv' !! j = argv !! j
  else n = -1.

Lemma words_case n t : (length t <= n)%nat -> text t ->
  match t with c :: _ => is_blank c = false | [] => True end ->
  t = [] /\ words_from n t = [] \/
  exists w, is_word w /\
    (t = w /\ words_from n t = [w] \/
     exists b bs t2 n', t = w ++ b :: bs ++ t2 /\ is_blank b = true /\ b <> 0 /\
       Forall (fun c => is_blank c = true) bs /\ text t2 /\ (length t2 <= n')%nat /\
       match t2 with c :: _ => is_blank c = false | [] => True end /\
       words_from n t = w :: words_from n' t2).
Proof.
  intros Hn Ht Hhd. destruct t as [|c t]; [left; by destruct n | right].
  destruct n as [|n]; [cbn in Hn; lia |]. cbn [words_from]. pose proof (span_spec word_char (c :: t)) as Hs.
  destruct (span word_char (c :: t)) as [w r]. destruct Hs as (E & Hw & Hr). exists w.
  rewrite E in Ht. apply Forall_app in Ht as [Htw Htr].
  split; [split; [| done] |].
  { intros ->. cbn [app] in E. subst r. unfold word_char in Hr. by rewrite Hhd in Hr. }
  destruct r as [|b r]; [left; rewrite app_nil_r in E; split; [done | by destruct n] | right].
  apply Forall_cons in Htr as [Hb0 Htr]. unfold word_char in Hr. apply negb_false_iff in Hr.
  cbn [span]. rewrite Hr. pose proof (span_spec is_blank r) as Hb. destruct (span is_blank r) as [bs t2].
  destruct Hb as (-> & Hbs & Ht2). cbn [snd]. apply Forall_app in Htr as [_ Ht2t]. exists b, bs, t2, n.
  split_and!; try done. apply (f_equal length) in E. rewrite length_app in E. cbn in E, Hn.
  rewrite length_app in E. lia.
Qed.

Lemma split_loop fuel : forall n t pre argv k, (length t <= n)%nat -> text t ->
  match t with c :: _ => is_blank c = false | [] => True end ->
  (length (words_from n t) < fuel)%nat -> Z.of_nat k < max -> max <= zlen argv ->
  exists r, loop fuel (split_step max) (zlen pre, Z.of_nat k, pre ++ t ++ 0 :: junk, argv) = Some r /\
    split_result pre t argv k (words_from n t) r.
Proof.
  induction fuel as [|fuel IH]; intros n t pre argv k Hn Ht Hhd Hf Hk Hm; [lia |]. cbn [loop].
  destruct (words_case n t Hn Ht Hhd) as [(-> & Ews) | (w & Hw & Hcase)].
  - rewrite Ews. unfold split_step. cbn [app]. rewrite byte_at_here. cbn [mbind option_bind Z.eqb].
    rewrite put_arg_in by lia. cbn [mbind option_bind]. eexists. split; [done |]. unfold split_result.
    change (zlen (@nil bytes)) with 0. rewrite length_insert, decide_True, Nat2Z.id by lia.
    split_and!; [done | done | lia | by exists [] | by intros i x | |].
    + rewrite Nat.add_0_r. apply list_lookup_insert_eq. unfold zlen in *. lia.
    + intros j Hj. apply list_lookup_insert_ne. lia.
  - destruct (Z.le_gt_cases max (Z.of_nat k + 1)) as [Hfull | Hroom].
    { assert (exists rest, t ++ 0 :: junk = w ++ rest) as [rest Er].
      { destruct Hcase as [(-> & _) | (b & bs & t2 & n' & -> & _)]; [by eexists |]. rewrite <- app_assoc. by eexists. }
      rewrite Er, split_step_full by done. eexists. split; [done |]. unfold split_result. rewrite Er.
      rewrite decide_False; [done |].
      destruct Hcase as [(_ & ->) | (b & bs & t2 & n' & _ & _ & _ & _ & _ & _ & _ & ->)]; rewrite zlen_cons;
        [change (zlen (@nil bytes)) with 0 | pose proof (zlen_nonneg (words_from n' t2))]; lia. }
    destruct Hcase as [(-> & Ews) | (b & bs & t2 & n' & -> & Hb & Hb0 & Hbs & Ht2 & Hn2 & Hhd2 & Ews)].
    + rewrite Ews, split_step_last by (done || lia). eexists. split; [done |]. unfold split_result.
      rewrite zlen_cons. change (zlen (@nil bytes)) with 0. rewrite !length_insert, decide_True by lia.
      split_and!; [done | done | lia | by exists w | | |].
      * intros [|i] x; [intros [= <-] | done]. exists (zlen pre). rewrite Nat.add_0_r.
        rewrite list_lookup_insert_ne, list_lookup_insert_eq by (unfold zlen in *; lia).
        split; [done |]. split; [apply zlen_nonneg |].
        rewrite drop_app_length' by (unfold zlen; lia). apply c_string_app, Hw.
      * cbn [length]. rewrite Nat.add_1_r. apply list_lookup_insert_eq. rewrite length_insert. unfold zlen in *. lia.
      * intros j Hj. by rewrite !list_lookup_insert_ne by lia.
    + rewrite <- app_assoc. cbn [app]. rewrite split_step_next by (done || lia).
      set (pre2 := (pre ++ w) ++ 0 :: bs).
      destruct (IH n' t2 pre2 (<[k := zlen pre]> argv) (S k) Hn2 Ht2 Hhd2) as ([[m line'] argv'] & -> & Hla & Hll & Hr);
        [rewrite Ews in Hf; cbn in Hf; lia | lia | by rewrite zlen_insert |].
      eexists. split; [done |]. unfold split_result. rewrite Ews, zlen_cons. rewrite length_insert in Hla.
      replace (Z.of_nat (S k) + zlen (words_from n' t2)) with
        (Z.of_nat k + (1 + zlen (words_from n' t2))) in Hr by lia.
      split; [done |]. split.
      { rewrite Hll. unfold pre2. repeat (rewrite !length_app; cbn [length]). lia. }
      destruct (decide _); [| done]. destruct Hr as (-> & (t' & ->) & Hpt & Hnull & Hold).
      assert (argv' !! k = Some (zlen pre)) as Hk0
        by (rewrite Hold by lia; apply list_lookup_insert_eq; unfold zlen in *; lia).
      assert (pre2 ++ t' ++ 0 :: junk = pre ++ (w ++ 0 :: bs ++ t') ++ 0 :: junk) as El
        by (unfold pre2; rewrite <- !app_assoc; cbn [app]; by rewrite <- ?app_assoc).
      split_and!; [done | by eexists | | |].
      * intros [|i] x Hx.
        -- injection Hx as <-. exists (zlen pre). rewrite Nat.add_0_r. split; [done |].
           split; [apply zlen_nonneg |]. rewrite El, drop_app_length' by (unfold zlen; lia).
           rewrite <- app_assoc. apply c_string_app, Hw.
        -- destruct (Hpt i x Hx) as (p & Hp & H0p & Hc). exists p.
           by replace (k + S i)%nat with (S k + i)%nat by lia.
      * cbn [length]. by replace (k + S (length (words_from n' t2)))%nat
          with (S k + length (words_from n' t2))%nat by lia.
      * intros j Hj. rewrite Hold by lia. apply list_lookup_insert_ne. lia.
Qed.
End split.

(** ** The argument vector *)

Lemma words_from_length n : forall t, (length (words_from n t) <= length t)%nat.
Proof.
  induction n as [|n IH]; intros [|c t]; cbn [words_from length]; try lia.
  pose proof (span_spec word_char (c :: t)) as Hs. destruct (span word_char (c :: t)) as [w r] eqn:Esp.
  destruct Hs as (E & _ & _). cbn [length]. pose proof (span_spec is_blank r) as Hb.
  destruct (span is_blank r) as [bs t2] eqn:Eb. destruct Hb as (-> & _ & _). cbn [snd].
  apply (f_equal length) in E. rewrite !length_app in E. cbn [length] in E. specialize (IH t2).
  (destruct w as [|x w]; [| cbn [length] in *; lia]). cbn [span] in Esp.
  destruct (word_char c) eqn:Ec; [by destruct (span word_char t) |].
  injection Esp as Er. cbn [app] in *. unfold word_char in Ec. apply negb_false_iff in Ec.
  rewrite <- Er in Eb. cbn [span] in Eb. rewrite Ec in Eb. destruct (span is_blank t). injection Eb as <- <-.
  cbn [length] in *. lia.
Qed.

Lemma mapM_lookup {A B} (f : A -> option B) l k : length l = length k ->
  (forall i x y, l !! i = Some x -> k !! i = Some y -> f x = Some y) -> mapM f l = Some k.
Proof.
  intros Hl H. apply mapM_Some_2, Forall2_same_length_lookup_2; [done |]. intros i x y. apply H.
Qed.

Lemma points_to_strings line argv ws : points_to line argv 0 ws -> (length ws <= length argv)%nat ->
  arg_strings line argv (zlen ws) = Some ws.
Proof.
  intros Hp Hl. unfold arg_strings, zlen. rewrite Nat2Z.id. apply mapM_lookup; [rewrite length_take; lia |].
  intros i x w Hx Hw. destruct (Hp i w Hw) as (p & Ep & H0 & Hc). cbn [Nat.add] in Ep.
  apply lookup_take_Some in Hx as [Hx _]. rewrite Ep in Hx. injection Hx as <-.
  by rewrite (proj2 (Z.ltb_ge p 0)) by lia.
Qed.

(** The split of a terminated line always returns: with room for the words and the NULL
    behind them it returns their number and the vector points at exactly them. *)
Lemma split_args_spec t junk argv max : text t -> 1 <= max <= zlen argv ->
  exists n line' argv', xzs_split_args (t ++ 0 :: junk) argv max = Some (n, line', argv') /\
    length line' = length (t ++ 0 :: junk) /\ length argv' = length argv /\
    if decide (zlen (words t) < max)
    then n = zlen (words t) /\ arg_strings line' argv' n = Some (words t) /\
         argv' !! length (words t) = Some (-1)
    else n = -1.
Proof.
  intros Ht Hm. unfold xzs_split_args, words. rewrite (proj2 (Z.ltb_ge max 1)) by lia.
  pose proof (scan_text is_blank [] t junk eq_refl) as Hs. cbn [app] in Hs.
  change (zlen (@nil Z)) with 0 in Hs. rewrite Hs. cbn [mbind option_bind].
  pose proof (span_spec is_blank t) as Hsp. destruct (span is_blank t) as [b u]. destruct Hsp as (-> & Hb & Hu).
  cbn [fst snd]. rewrite Z.add_0_l, <- app_assoc.
  apply Forall_app in Ht as [_ Htu]. destruct u as [|c u]; cbn [app].
  - rewrite byte_at_here. cbn [mbind option_bind Z.eqb]. rewrite put_arg_in by lia. cbn [mbind option_bind].
    do 3 eexists. split; [done |]. rewrite length_insert. split; [done |]. split; [done |].
    assert (words_from (length (b ++ [])) [] = []) as -> by by destruct (length (b ++ [])).
    rewrite decide_True by (change (zlen (@nil bytes)) with 0; lia). split; [done |]. split; [done |].
    apply list_lookup_insert_eq. unfold zlen in *. lia.
  - rewrite byte_at_here. cbn [mbind option_bind]. pose proof Htu as [Hc _]%Forall_cons.
    rewrite (proj2 (Z.eqb_neq c 0)) by done.
    destruct (split_loop max junk (S (length (b ++ c :: u ++ 0 :: junk))) (length (b ++ c :: u)) (c :: u) b argv 0)
      as ([[n line'] argv'] & Hr & Hla & Hll & Hres); try done; try (rewrite ?length_app; lia).
    { pose proof (words_from_length (length (b ++ c :: u)) (c :: u)).
      rewrite !length_app in *. cbn [length] in *. rewrite length_app. lia. }
    cbn [app] in Hr. do 3 eexists. split; [exact Hr |]. split; [done |]. split; [done |].
    rewrite Z.add_0_l in Hres. destruct (decide _); [| done]. destruct Hres as (-> & _ & Hp & Hnull & _).
    split; [done |]. split; [| done]. apply points_to_strings; [done |]. unfold zlen in *. lia.
Qed.

(** ** Lines as their author sees them

    A line is a sequence of words with blanks between them and around them. *)

Inductive layout : list bytes -> bytes -> Prop :=
  | layout_end b : Forall (fun c => is_blank c = true) b -> layout [] b
  | layout_word b w ws t : Forall (fun c => is_blank c = true) b -> is_word w -> layout ws t ->
      match t with c :: _ => is_blank c = true | [] => True end -> layout (w :: ws) (b ++ w ++ t).

Lemma span_app pred a r : Forall (fun c => pred c = true) a ->
  match r with c :: _ => pred c = false | [] => True end -> span pred (a ++ r) = (a, r).
Proof.
  intros Ha Hr. induction Ha as [|c a Hc _ IH]; cbn [app span]; [| by rewrite Hc, IH].
  destruct r as [|c r]; cbn [span]; [done |]. by rewrite Hr.
Qed.

Lemma blank_not_nul b : Forall (fun c => is_blank c = true) b -> text b.
Proof. intros H. eapply Forall_impl; [exact H |]. intros c Hc ->. discriminate Hc. Qed.

Lemma layout_text ws t : layout ws t -> text t.
Proof.
  induction 1 as [b Hb | b w ws t Hb (_ & Hw & _) _ IH]; [by apply blank_not_nul |].
  apply Forall_app. split; [by apply blank_not_nul |]. by apply Forall_app.
Qed.

Lemma layout_words ws t : layout ws t -> forall n, (length t <= n)%nat ->
  words_from n (span is_blank t).2 = ws.
Proof.
  induction 1 as [b Hb | b w ws t Hb (Hne & Htx & Hw) Hl IH Ht]; intros n Hn.
  - rewrite <- (app_nil_r b), span_app by done. by destruct n.
  - destruct w as [|c w]; [done |]. rewrite !length_app in Hn. cbn [length] in Hn.
    rewrite span_app; [| done |].
    2:{ cbn [app]. apply Forall_cons in Hw as [Hc _]. unfold word_char in Hc. by apply negb_true_iff in Hc. }
    cbn [snd]. destruct n as [|n]; [lia |]. cbn [words_from app]. change (c :: w ++ t) with ((c :: w) ++ t).
    rewrite span_app; [| done | destruct t; [done | unfold word_char; by rewrite Ht]].
    f_equal. apply IH. lia.
Qed.

(** Splitting a command line is exact: for every layout of words on a line, with any
    blanks around and between them and anything behind the terminator, [xzs_split_args]
    returns without touching memory outside the line and the vector; when the words and the
    closing NULL fit it returns their number, [argv] points at exactly the words in order and
    is closed by NULL, and otherwise it returns -1. *)
Theorem split_args_exact ws t junk argv max : layout ws t -> 1 <= max <= zlen argv ->
  exists n line' argv', xzs_split_args (t ++ 0 :: junk) argv max = Some (n, line', argv') /\
    length line' = length (t ++ 0 :: junk) /\ length argv' = length argv /\
    if decide (zlen ws < max)
    then n = zlen ws /\ arg_strings line' argv' n = Some ws /\ argv' !! length ws = Some (-1)
    else n = -1.
Proof.
  intros Hl Hm. destruct (split_args_spec t junk argv max) as (n & line' & argv' & Hr); [by eapply layout_text | done |].
  exists n, line', argv'. unfold words in Hr. by rewrite (layout_words ws t Hl) in Hr.
Qed.

Lemma split_args_exact_witness :
  exists n line' argv', xzs_split_args (lit "  cat /hello " ++ 0 :: lit "old text") (replicate 8 7) 8 =
      Some (n, line', argv') /\ n = 2 /\ arg_strings line' argv' n = Some [lit "cat"; lit "/hello"].
Proof.
  destruct (split_args_exact [lit "cat"; lit "/hello"] (lit "  cat /hello ") (lit "old text") (replicate 8 7) 8)
    as (n & l & a & H & _ & _ & Hn).
  - change (lit "  cat /hello ") with (lit "  " ++ lit "cat" ++ (lit " " ++ lit "/hello" ++ lit " ")).
    repeat (constructor; [repeat constructor | split_and!; [done | repeat constructor; done | repeat constructor] | | done]).
    constructor. repeat constructor.
  - by vm_compute.
  - exists n, l, a. destruct (decide _) as [_ | Hx]; [| by destruct Hx; vm_compute]. by destruct Hn as (-> & ? & _).
Defined.
