(* ===== verification/ShellLine.v ===== *)
(** * The shell: line editing

    [read_line] against an abstract line editor that works on the stream of characters: the
    line, the echo and the flag for the next line do not depend on how reads cut the stream
    into chunks. *)

From stdpp Require Import base list strings.
From Stdlib Require Import ZArith Lia.
From S2P Require Import Prelude XzsfsCore Kernel XzsfsDriver Shell.

(** ** The console *)

(** What the terminal promises: a read of the standard input yields the next chunk of what was
    typed, 0 at the end of the input; a write to the standard output appends to the screen. *)
Class Console (W : Type) `{!Syscalls W} := {
  pending : W -> list bytes;
  screen : W -> bytes;
  console_read : forall w c q, pending w = c :: q -> 0 < zlen c <= 64 ->
    exists w', sys_read 0 64 w = (zlen c, c, w') /\ pending w' = q /\ screen w' = screen w;
  console_eof : forall w, pending w = [] ->
    exists w', sys_read 0 64 w = (0, [], w') /\ pending w' = [] /\ screen w' = screen w;
  console_write : forall s w, pending (sys_write 1 s w) = pending w /\
    screen (sys_write 1 s w) = screen w ++ s;
}.

(** ** The line editor *)

Inductive edited : Type :=
  | Line (s echo : bytes) (swallow_lf : bool)
  | Overlong (echo : bytes) (swallow_lf : bool)
  | InputEnd (s echo : bytes) (swallow_lf : bool).

(** The flag after an overlong line: the rest of it is skipped. *)
Fixpoint skip_line (input : bytes) : bool :=
  match input with
  | [] => false
  | c :: t => if c =? 13 then true else if c =? 10 then false else skip_line t
  end.

Definition rubout : bytes := [8; 32; 8].

(** [acc] is the line so far, [echo] what was written. *)
Fixpoint edit (cap : Z) (acc echo : bytes) (sw : bool) (input : bytes) : edited :=
  match input with
  | [] => InputEnd acc echo sw
  | c :: t =>
      if (c =? 10) && sw then edit cap acc echo false t
      else if (c =? 13) || (c =? 10) then Line acc echo (c =? 13)
      else if (c =? 8) || (c =? 127) then
        edit cap (take (length acc - 1) acc) (if bool_decide (acc = []) then echo else echo ++ rubout) false t
      else if zlen acc + 1 <? cap then edit cap (acc ++ [c]) echo false t
      else Overlong echo (skip_line t)
  end.

Section line.
Context {W : Type} `{!Syscalls W, !Console W}.

(** The line buffer holds the line so far. *)
Definition holds (cap : Z) (acc buf : bytes) : Prop :=
  take (length acc) buf = acc /\ zlen acc < cap <= zlen buf.

Lemma holds_put cap acc buf b : holds cap acc buf ->
  exists buf', put_byte buf (zlen acc) b = Some buf' /\ take (S (length acc)) buf' = acc ++ [b] /\ zlen buf' = zlen buf.
Proof.
  intros [Ht Hc]. unfold put_byte. pose proof (zlen_nonneg acc).
  rewrite (proj2 (Z.leb_le _ _)), (proj2 (Z.ltb_lt _ _)) by lia. cbn [andb]. eexists. split; [done |].
  unfold zlen in *. rewrite Nat2Z.id, length_insert. split; [| done].
  rewrite (take_S_r _ _ b) by (apply list_lookup_insert_eq; lia). by rewrite take_insert_ge, Ht by lia.
Qed.

Lemma holds_back cap acc buf : holds cap acc buf -> holds cap (take (length acc - 1) acc) buf.
Proof.
  intros [Ht Hc]. unfold holds, zlen in *. rewrite length_take. split; [| lia].
  assert (take (length acc - 1) (take (length acc) buf) = take (length acc - 1) acc) as <- by by rewrite Ht.
  by rewrite take_take.
Qed.

(** What one character does to the editor. *)
Definition char_result (cap : Z) (acc echo : bytes) (sw : bool) (base : bytes) (w : W) (c : Z) (n : Z)
    (r : ctl (Z * bytes * bool * W) (chunk_end * W)) : Prop :=
  match r with
  | Next (m, buf', sw', w') => exists acc' echo', m = zlen acc' /\ holds cap acc' buf' /\ zlen buf' = n /\
      pending w' = pending w /\ screen w' = base ++ echo' /\
      forall t, edit cap acc echo sw (c :: t) = edit cap acc' echo' sw' t
  | Exit (EndOfLine m buf' sw', w') => m = zlen acc /\ take (S (length acc)) buf' = acc ++ [0] /\ zlen buf' = n /\
      pending w' = pending w /\ screen w' = base ++ echo /\
      forall t, edit cap acc echo sw (c :: t) = Line acc echo sw'
  | Exit (TooLong _ buf' sw', w') => sw' = false /\ zlen buf' = n /\
      pending w' = pending w /\ screen w' = base ++ echo /\
      forall t, edit cap acc echo sw (c :: t) = Overlong echo (skip_line (c :: t))
  end.

Lemma read_char_edits tmp cap i acc buf echo sw base w c : byte_at tmp i = Some c ->
  holds cap acc buf -> screen w = base ++ echo ->
  exists r, read_char tmp cap i (zlen acc, buf, sw, w) = Some r /\
    char_result cap acc echo sw base w c (zlen buf) r /\
    match r with Exit (TooLong j _ _, _) => j = i | _ => True end.
Proof.
  intros Hc Hh Hs. unfold read_char. rewrite Hc. cbn [mbind option_bind].
  destruct ((c =? 10) && sw) eqn:E1; [eexists; split; [done |]; split; [| done]; exists acc, echo |].
  { split_and!; try done. intros t. cbn [edit]. by rewrite E1. }
  destruct ((c =? 13) || (c =? 10)) eqn:E2.
  { destruct (holds_put cap acc buf 0 Hh) as (buf' & -> & Hb & Hl). cbn [mbind option_bind].
    eexists. split; [done |]. split; [| done]. split_and!; try done. intros t. cbn [edit]. by rewrite E1, E2. }
  destruct ((c =? 8) || (c =? 127)) eqn:E3.
  { destruct (Z.ltb_spec 0 (zlen acc)).
    - eexists. split; [done |]. split; [| done]. destruct (console_write rubout w) as [Hp Hw].
      exists (take (length acc - 1) acc), (echo ++ rubout). split_and!; try done.
      + unfold zlen in *. rewrite length_take. lia.
      + by apply holds_back.
      + etrans; [exact Hw |]. by rewrite Hs, app_assoc.
      + intros t. cbn [edit]. rewrite E1, E2, E3. by rewrite bool_decide_false by (intros ->; done).
    - eexists. split; [done |]. split; [| done].
      assert (acc = []) as -> by (destruct acc; [done |]; rewrite zlen_cons in *; pose proof (zlen_nonneg acc); lia).
      exists [], echo. split_and!; try done. intros t. cbn [edit]. by rewrite E1, E2, E3. }
  destruct (Z.leb_spec cap (zlen acc + 1)).
  - eexists. split; [done |]. split; [| done]. split_and!; try done. intros t. cbn [edit skip_line].
    rewrite E1, E2, E3. rewrite (proj2 (Z.ltb_ge _ _)) by lia. apply orb_false_iff in E2 as [-> ->]. done.
  - destruct (holds_put cap acc buf c Hh) as (buf' & -> & Hb & Hl). cbn [mbind option_bind].
    assert (zlen (acc ++ [c]) = zlen acc + 1) as Ha by by rewrite zlen_app.
    assert (holds cap (acc ++ [c]) buf') as Hh'.
    { destruct Hh. split; [by rewrite length_app, Nat.add_1_r | lia]. }
    eexists. split; [done |]. split; [| done]. exists (acc ++ [c]), echo. rewrite Ha.
    do 5 (split; [done |]).
    intros t. cbn [edit]. rewrite E1, E2, E3. by rewrite (proj2 (Z.ltb_lt _ _)) by lia.
Qed.

(** What a chunk of characters does to the editor; [rest] is what a [TooLong] leaves unread. *)
Definition chunk_result (cap : Z) (acc echo : bytes) (sw : bool) (base : bytes) (w : W) (tmp cs : bytes)
    (n : Z) (r : ctl (Z * bytes * bool * W) (chunk_end * W)) : Prop :=
  match r with
  | Next (m, buf', sw', w') => exists acc' echo', m = zlen acc' /\ holds cap acc' buf' /\ zlen buf' = n /\
      pending w' = pending w /\ screen w' = base ++ echo' /\
      forall t, edit cap acc echo sw (cs ++ t) = edit cap acc' echo' sw' t
  | Exit (EndOfLine m buf' sw', w') => exists acc' echo', m = zlen acc' /\
      take (S (length acc')) buf' = acc' ++ [0] /\ zlen buf' = n /\
      pending w' = pending w /\ screen w' = base ++ echo' /\
      forall t, edit cap acc echo sw (cs ++ t) = Line acc' echo' sw'
  | Exit (TooLong i buf' sw', w') => exists pre rest echo', tmp = pre ++ rest /\ i = zlen pre /\
      sw' = false /\ zlen buf' = n /\ pending w' = pending w /\ screen w' = base ++ echo' /\
      forall t, edit cap acc echo sw (cs ++ t) = Overlong echo' (skip_line (rest ++ t))
  end.

Lemma read_chunk_edits cap base tmp cs : forall pre acc buf echo sw w, tmp = pre ++ cs ->
  holds cap acc buf -> screen w = base ++ echo ->
  exists r, for_loop (length cs) (zlen pre) (read_char tmp cap) (zlen acc, buf, sw, w) = Some r /\
    chunk_result cap acc echo sw base w tmp cs (zlen buf) r.
Proof.
  induction cs as [|c cs IH]; intros pre acc buf echo sw w Et Hh Hs; cbn [length for_loop].
  { eexists. split; [done |]. by exists acc, echo. }
  destruct (read_char_edits tmp cap (zlen pre) acc buf echo sw base w c) as (r & -> & Hr & Hi);
    [rewrite Et; apply byte_at_here | done.. |].
  destruct r as [[[[m buf'] sw'] w'] | [[m buf' sw' | i buf' sw'] w']].
  - destruct Hr as (acc' & echo' & -> & Hh' & Hl & Hp & Hs' & He).
    destruct (IH (pre ++ [c]) acc' buf' echo' sw' w') as (r & Hr & Hres); [by rewrite <- app_assoc | done.. |].
    rewrite zlen_app in Hr. exists r. split; [exact Hr |]. rewrite Hl in Hres.
    destruct r as [[[[m2 buf2] sw2] w2] | [[m2 buf2 sw2 | i buf2 sw2] w2]]; cbn [chunk_result] in *.
    + destruct Hres as (a & e & ? & ? & ? & Hp2 & ? & Hd). exists a, e. rewrite Hp2.
      split_and!; try done. intros t. cbn [app]. by rewrite He, Hd.
    + destruct Hres as (a & e & ? & ? & ? & Hp2 & ? & Hd). exists a, e. rewrite Hp2.
      split_and!; try done. intros t. cbn [app]. by rewrite He, Hd.
    + destruct Hres as (p & q & e & ? & ? & ? & ? & Hp2 & ? & Hd). exists p, q, e. rewrite Hp2.
      split_and!; try done. intros t. cbn [app]. by rewrite He, Hd.
  - destruct Hr as (-> & ? & ? & ? & ? & He). eexists. split; [done |]. exists acc, echo.
    split_and!; try done. intros t. apply He.
  - destruct Hr as (-> & ? & ? & ? & He). eexists. split; [done |]. exists pre, (c :: cs), echo.
    split_and!; try done. intros t. apply He.
Qed.

Lemma drain_chars_skip tmp rest : forall pre, tmp = pre ++ rest ->
  exists r, drain_chars tmp (zlen tmp) (zlen pre) = Some r /\
    forall t, skip_line (rest ++ t) = match r with Exit sw => sw | Next _ => skip_line t end.
Proof.
  intros pre Et. unfold drain_chars.
  replace (Z.to_nat (zlen tmp - zlen pre)) with (length rest) by (rewrite Et, zlen_app; unfold zlen; lia).
  revert pre Et. induction rest as [|c rest IH]; intros pre Et; cbn [length for_loop]; [by eexists |].
  replace (byte_at tmp (zlen pre)) with (Some c) by (rewrite Et; symmetry; apply byte_at_here).
  cbn [mbind option_bind app skip_line].
  destruct (c =? 13); [by eexists |]. destruct (c =? 10); [by eexists |].
  destruct (IH (pre ++ [c])) as (r & Hr & Hs); [by rewrite <- app_assoc |].
  rewrite zlen_app in Hr. by exists r.
Qed.

(** Chunks a console may deliver. *)
Definition chunks_ok (q : list bytes) : Prop := Forall (fun c => 0 < zlen c <= 64) q.

Lemma drain_skips q : forall fuel tmp pre rest w, chunks_ok q -> pending w = q -> tmp = pre ++ rest ->
  (length q < fuel)%nat ->
  exists code sw w', drain_to_eol fuel tmp (zlen tmp) (zlen pre) false w = Ret ((code, sw), w') /\
    sw = skip_line (rest ++ concat q) /\ screen w' = screen w /\ pending w' `suffix_of` q.
Proof.
  induction q as [|c q IH]; intros fuel tmp pre rest w Hq Hp Et Hf; (destruct fuel as [|fuel]; [cbn in Hf; lia |]);
    cbn [drain_to_eol]; destruct (drain_chars_skip tmp rest pre Et) as (r & Hr & Hs); unfold plift, call;
    unfold mbind, prog_bind; rewrite Hr; cbn [of_option mbind outcome_bind]; rewrite Hs.
  - destruct r as [u | sw].
    + destruct (console_eof w Hp) as (w' & -> & Hp' & Hs'). do 3 eexists. split; [done |].
      rewrite Hp'. by split_and!.
    + do 3 eexists. split; [done |]. rewrite Hp. by split_and!.
  - destruct r as [u | sw].
    + apply Forall_cons in Hq as [Hc Hq]. destruct (console_read w c q Hp Hc) as (w' & -> & Hp' & Hs').
      rewrite (proj2 (Z.leb_gt _ _)) by lia.
      destruct (IH fuel c [] c w' Hq Hp' eq_refl) as (code & sw & w2 & Hd & -> & Hs2 & Hsuf); [cbn in Hf; lia |].
      change (zlen (@nil Z)) with 0 in Hd. do 3 eexists. split; [exact Hd |].
      split_and!; [done | congruence | by apply suffix_cons_r].
    + do 3 eexists. split; [done |]. rewrite Hp. by split_and!.
Qed.

(** How [read_line] reports what the editor made of the input. *)
Definition reports (base : bytes) (e : edited) (code : Z) (buf : bytes) (sw : bool) (w : W) : Prop :=
  match e with
  | Line s echo sw' | InputEnd s echo sw' => code = zlen s /\ take (S (length s)) buf = s ++ [0] /\
      sw = sw' /\ screen w = base ++ echo
  | Overlong echo sw' => code = -2 /\ head buf = Some 0 /\ sw = sw' /\
      screen w = base ++ echo ++ lit "line too long" ++ [10]
  end.

Lemma put_head buf b : 0 < zlen buf -> exists buf', put_byte buf 0 b = Some buf' /\ head buf' = Some b /\
  zlen buf' = zlen buf.
Proof.
  destruct buf as [|x buf]; [done |]. intros _. exists (b :: buf).
  split; [exact (put_byte_here [] x buf b) | done].
Qed.

Lemma read_line_from_edits base cap q : forall fuel acc echo buf sw w, chunks_ok q -> pending w = q ->
  (length q < fuel)%nat -> holds cap acc buf -> screen w = base ++ echo ->
  exists code buf' sw' w', read_line_from fuel (zlen acc) buf cap sw w = Ret ((code, buf', sw'), w') /\
    zlen buf' = zlen buf /\ reports base (edit cap acc echo sw (concat q)) code buf' sw' w' /\
    pending w' `suffix_of` q.
Proof.
  induction q as [|c q IH]; intros fuel acc echo buf sw w Hq Hp Hf Hh Hs; (destruct fuel as [|fuel]; [cbn in Hf; lia |]);
    cbn [read_line_from]; unfold call at 1; unfold mbind at 1; unfold prog_bind at 1.
  - destruct (console_eof w Hp) as (w' & -> & Hp' & Hs'). cbn [Z.ltb Z.eqb].
    destruct (holds_put cap acc buf 0 Hh) as (buf' & E & Hb & Hl).
    unfold mbind, prog_bind, plift. rewrite E. cbn [of_option mbind outcome_bind].
    do 4 eexists. split; [done |]. rewrite Hp'. split_and!; try done. cbn. by rewrite Hs'.
  - apply Forall_cons in Hq as [Hc Hq]. destruct (console_read w c q Hp Hc) as (w' & -> & Hp' & Hs').
    rewrite (proj2 (Z.ltb_ge (zlen c) 0)), (proj2 (Z.eqb_neq (zlen c) 0)) by lia.
    replace (Z.to_nat (zlen c)) with (length c) by (unfold zlen; lia).
    destruct (read_chunk_edits cap base c c [] acc buf echo sw w' eq_refl Hh) as (r & Hr & Hres); [congruence |].
    change (zlen (@nil Z)) with 0 in Hr. rewrite Hr. cbn [of_option mbind outcome_bind]. cbn [concat].
    destruct r as [[[[m buf'] sw'] w2] | [[m buf' sw' | i buf' sw'] w2]]; cbn [chunk_result] in Hres.
    + destruct Hres as (acc' & echo' & -> & Hh' & Hl & Hp2 & Hs2 & He).
      destruct (IH fuel acc' echo' buf' sw' w2) as (code & buf2 & sw2 & w3 & -> & Hl2 & Hrep & Hsuf);
        [done | congruence | cbn in Hf; lia | done.. |].
      do 4 eexists. split; [done |]. rewrite He. split_and!; [congruence | done | by apply suffix_cons_r].
    + destruct Hres as (acc' & echo' & -> & Hb & Hl & Hp2 & Hs2 & He).
      do 4 eexists. split; [done |]. rewrite He. split_and!; try done. rewrite Hp2, Hp'. by apply suffix_cons_r.
    + destruct Hres as (pre & rest & echo' & Ec & -> & -> & Hl & Hp2 & Hs2 & He).
      destruct (drain_skips q fuel c pre rest w2 Hq) as (code & sw2 & w3 & Hd & -> & Hs3 & Hsuf);
        [congruence | done | cbn in Hf; lia |].
      destruct (put_head buf' 0) as (buf2 & E & Hhd & Hl2); [destruct Hh; pose proof (zlen_nonneg acc); lia |].
      unfold mbind, prog_bind. rewrite Hd. unfold plift. rewrite E. cbn [of_option mbind outcome_bind wr act mret prog_ret].
      destruct (console_write (lit "line too long" ++ [10]) w3) as [Hp4 Hs4].
      do 4 eexists. split; [done |]. rewrite He, Hp4. split; [congruence |]. split; [| by apply suffix_cons_r].
      cbn [reports]. split_and!; try done.
      by rewrite Hs4, Hs3, Hs2, <- app_assoc.
Qed.

(** C37. Reading a command line: whatever way the console cuts the typed characters into
    chunks, [read_line] terminates with the line the abstract editor computes from the
    characters alone: backspace and delete rub out, CR, LF and CRLF end the line once, the end
    of the input ends it too, and an overlong line is refused and skipped.  The line is stored
    with its terminator, the echo is on the screen, and nothing but a prefix of the chunks is
    consumed. *)
Theorem read_line_edits fuel buf cap sw w :
  chunks_ok (pending w) -> 0 < cap <= zlen buf -> (length (pending w) < fuel)%nat ->
  exists code buf' sw' w', read_line fuel buf cap sw w = Ret ((code, buf', sw'), w') /\
    zlen buf' = zlen buf /\
    reports (screen w) (edit cap [] [] sw (concat (pending w))) code buf' sw' w' /\
    pending w' `suffix_of` pending w.
Proof.
  intros Hq Hc Hf.
  destruct (read_line_from_edits (screen w) cap (pending w) fuel [] [] buf sw w)
    as (code & buf' & sw' & w' & Hr); try done; [by rewrite app_nil_r |].
  by exists code, buf', sw', w'.
Qed.
End line.

(** ** A terminal *)

(** A kernel with a console and nothing else: open fails and there are no processes. *)
Record terminal := Terminal { t_pending : list bytes; t_screen : bytes }.

#[export] Instance terminal_syscalls : Syscalls terminal := {|
  sys_read _ _ w := match t_pending w with
                    | c :: q => (zlen c, c, Terminal q (t_screen w))
                    | [] => (0, [], w)
                    end;
  sys_write _ s w := Terminal (t_pending w) (t_screen w ++ s);
  sys_open _ w := (-1, w);
  sys_close _ w := w;
  sys_chdir _ w := (-1, w);
  sys_getdirentries _ _ w := (0, [], w);
  sys_diag _ _ _ _ w := w;
  sys_fork w := (-1, w);
  sys_execve _ _ _ w := w;
  sys_wait4 _ w := w;
  sys_exit _ w := w;
  sys_reboot w := w |}.

#[export] Instance terminal_console : Console terminal.
Proof.
  refine {| pending := t_pending; screen := t_screen |}.
  - intros [p o] c q Hp _. cbn in *. subst p. by eexists.
  - intros [p o] Hp. cbn in *. subst p. by eexists.
  - done.
Defined.

(** "lz", a backspace, "s" and a newline in three chunks. *)
Lemma read_line_edits_witness : exists code buf' sw' w',
  read_line 4 (replicate 128 7) 128 false (Terminal [[108]; [122; 127]; [115; 10]] []) = Ret ((code, buf', sw'), w') /\
  code = 2 /\ take 3 buf' = [108; 115; 0] /\ t_screen w' = [8; 32; 8].
Proof.
  destruct (read_line_edits 4 (replicate 128 7) 128 false (Terminal [[108]; [122; 127]; [115; 10]] []))
    as (code & buf' & sw' & w' & Hr & _ & (-> & Hb & _ & Hs) & _).
  - by apply Forall_fold_right; vm_compute.
  - done.
  - cbn. lia.
  - exists 2, buf', sw', w'. by split_and!.
Defined.
