(* ===== verification/ShellSafety.v ===== *)
(** * The shell: memory safety and the working directory

    For every kernel whose reads store as many bytes as they report, and whatever is typed, a
    turn of the prompt loop stays inside the shell's arrays and leaves [cwd] holding a
    terminated absolute path. *)

From stdpp Require Import base list strings.
From Stdlib Require Import ZArith Lia.
From S2P Require Import Prelude XzsfsCore XzsfsSample XzsfsFormat XzsfsGraph XzsfsLookup Kernel XzsfsDriver XzsfsVnops XzsfsDir Shell ShellProofs ShellLine.

(** ** Building strings *)

Lemma c_string_split l s : c_string l = Some s -> exists junk, l = s ++ 0 :: junk /\ text s.
Proof.
  revert s. induction l as [|b l IH]; intros s; cbn [c_string]; [done |].
  destruct (Z.eqb_spec b 0) as [-> | Hb].
  - intros [= <-]. exists l. split; [done | constructor].
  - destruct (c_string l) as [r |] eqn:E; cbn [mbind option_bind]; [| done]. intros [= <-].
    destruct (IH r eq_refl) as (junk & -> & Hr). exists junk. split; [done | by constructor].
Qed.

Lemma c_string_text s t : text s -> c_string (s ++ 0 :: t) = Some s.
Proof. apply c_string_app. Qed.

(** A NUL anywhere makes the array a string. *)
Lemma c_string_ends l i : l !! i = Some 0 -> exists s, c_string l = Some s.
Proof.
  revert i. induction l as [|b l IH]; intros i; [done |]. cbn [c_string].
  destruct (Z.eqb_spec b 0); [by eexists |]. destruct i as [|i]; [by intros [= ->] |]. intros Hi.
  destruct (IH i Hi) as [s ->]. by eexists.
Qed.

Lemma store_string pre s rest : (length s <= length rest)%nat ->
  store_loop (Z.to_nat (zlen s)) 0 (zlen pre) (byte_at s) (pre ++ rest) = Some (pre ++ s ++ drop (length s) rest).
Proof.
  intros Hl. replace (Z.to_nat (zlen s)) with (length s) by (unfold zlen; lia).
  apply store_loop_appends; [lia | | done]. intros k _. unfold byte_at.
  rewrite (proj2 (Z.leb_le _ _)) by lia. f_equal. lia.
Qed.

(** The copy of a string that fits, behind what is already there, with its terminator. *)
Lemma store_terminated pre s rest : (length s < length rest)%nat ->
  (dst ← store_loop (Z.to_nat (zlen s)) 0 (zlen pre) (byte_at s) (pre ++ rest);
   put_byte dst (zlen pre + zlen s) 0) = Some (pre ++ s ++ 0 :: drop (S (length s)) rest).
Proof.
  intros Hl. rewrite store_string by lia. cbn [mbind option_bind].
  destruct (lookup_lt_is_Some_2 rest (length s)) as [x Hx]; [done |].
  rewrite (drop_S rest x) by done. rewrite app_assoc, <- zlen_app, put_byte_here. by rewrite <- app_assoc.
Qed.

Lemma copy_str_exact dst cap src : zlen dst = cap ->
  copy_str dst cap src =
  Some (if cap <? zlen src + 1 then (-1, dst) else (0, src ++ 0 :: drop (S (length src)) dst)).
Proof.
  intros Hd. unfold copy_str, slen. destruct (Z.ltb_spec cap (zlen src + 1)); [done |].
  pose proof (store_terminated [] src dst ltac:(unfold zlen in *; lia)) as Hs. cbn [app] in Hs.
  change (zlen (@nil Z)) with 0 in Hs. rewrite Z.add_0_l in Hs.
  destruct (store_loop _ _ _ _ dst); cbn [mbind option_bind] in *; [| done]. by rewrite Hs.
Qed.

(** What [join_into] puts between its strings. *)
Definition separator (slash : bool) : bytes := if slash then [47] else [].

Lemma zlen_separator slash : zlen (separator slash) = if slash then 1 else 0.
Proof. by destruct slash. Qed.

Lemma join_into_exact dst a b (slash : bool) : zlen a + (if slash then 1 else 0) + zlen b + 1 <= zlen dst ->
  exists junk, join_into dst a b slash = Some (a ++ separator slash ++ b ++ 0 :: junk) /\
    zlen (a ++ separator slash ++ b ++ 0 :: junk) = zlen dst.
Proof.
  intros Hd. unfold join_into, slen. set (sep := separator slash).
  rewrite <- zlen_separator in *. fold sep in Hd |- *.
  unfold zlen in *. pose proof (store_string [] a dst ltac:(lia)) as Ha. cbn [app] in Ha.
  change (zlen (@nil Z)) with 0 in Ha. unfold zlen in Ha. rewrite Ha. cbn [mbind option_bind].
  assert (exists rest, (length b < length rest)%nat /\ length (a ++ sep ++ rest) = length dst /\
    (if slash then put_byte (a ++ drop (length a) dst) (Z.of_nat (length a)) 47
     else Some (a ++ drop (length a) dst)) = Some ((a ++ sep) ++ rest)) as (rest & Hrest & Hlen & ->).
  { unfold sep in *. destruct slash; cbn [separator length app] in *.
    - destruct (lookup_lt_is_Some_2 dst (length a)) as [x Hx]; [lia |]. rewrite (drop_S dst x) by done.
      exists (drop (S (length a)) dst). rewrite length_app. cbn [length]. rewrite length_drop. split; [lia |]. split; [lia |].
      rewrite <- app_assoc. apply (put_byte_here a x).
    - exists (drop (length a) dst). rewrite length_app, length_drop, app_nil_r. split; [lia |]. split; [lia | done]. }
  cbn [mbind option_bind]. pose proof (store_terminated (a ++ sep) b rest Hrest) as Hs.
  rewrite zlen_app in Hs. unfold zlen in Hs.
  destruct (store_loop _ _ _ _ ((a ++ sep) ++ rest)); cbn [mbind option_bind] in *; [| done].
  rewrite Hs. eexists. split; [by rewrite <- !app_assoc |]. repeat (rewrite length_app in *; cbn [length] in * ).
  rewrite length_drop. lia.
Qed.

Lemma join2_exact dst cap a b : zlen dst = cap ->
  exists r, join2 dst cap a b = Some r /\
    (r = (-1, dst) \/ exists slash junk, r = (0, a ++ separator slash ++ b ++ 0 :: junk)).
Proof.
  intros Hd. unfold join2. set (slash := (0 <? slen a) && _).
  destruct (Z.ltb_spec cap (slen a + (if slash then 1 else 0) + slen b + 1)); [by eexists; split; [| left] |].
  destruct (join_into_exact dst a b slash ltac:(unfold slen in *; lia)) as (junk & -> & _). cbn [mbind option_bind].
  eexists. split; [done |]. right. by exists slash, junk.
Qed.

(** ** Commands as programs over any kernel *)

(** A read reports the bytes it stored, at most as many as asked for. *)
Class CountedReads (W : Type) `{!Syscalls W} : Prop := {
  read_counts : forall fd cap w r bs w', sys_read fd cap w = (r, bs, w') -> 0 < r ->
    zlen bs = r /\ r <= cap /\ Forall is_u8 bs;
  dirents_count : forall fd cap w r bs w', sys_getdirentries fd cap w = (r, bs, w') -> 0 < r ->
    zlen bs = r /\ r <= cap /\ Forall is_u8 bs;
}.

Section safety.
Context {W : Type} `{!Syscalls W, !CountedReads W}.

(** From every world the program returns a value in [Q] or runs on; it never faults. *)
Definition safely {A} (m : prog W A) (Q : A -> Prop) : Prop :=
  forall w, match m w with Ret (a, _) => Q a | NoFuel => True | Panic | Fault => False end.

Lemma safely_ret {A} (a : A) (Q : A -> Prop) : Q a -> safely (mret a) Q.
Proof. intros H w. exact H. Qed.

Lemma safely_bind {A B} (m : prog W A) (f : A -> prog W B) (P : A -> Prop) (Q : B -> Prop) :
  safely m P -> (forall a, P a -> safely (f a) Q) -> safely (m ≫= f) Q.
Proof.
  intros Hm Hf w. specialize (Hm w). unfold mbind, prog_bind. destruct (m w) as [[a w'] | | |]; try done.
  exact (Hf a Hm w').
Qed.

Lemma safely_mono {A} (m : prog W A) (P Q : A -> Prop) : safely m P -> (forall a, P a -> Q a) -> safely m Q.
Proof. intros Hm H w. specialize (Hm w). destruct (m w) as [[a w'] | | |]; auto. Qed.

Lemma safely_lift {A} (o : option A) (Q : A -> Prop) : (exists a, o = Some a /\ Q a) -> safely (plift o) Q.
Proof. intros (a & -> & H) w. exact H. Qed.

Lemma safely_act (f : W -> W) (Q : unit -> Prop) : Q tt -> safely (act f) Q.
Proof. intros H w. exact H. Qed.

Lemma safely_call {A} (f : W -> A * W) (Q : A -> Prop) : (forall w, Q (f w).1) -> safely (call f) Q.
Proof. intros H w. unfold call. specialize (H w). by destruct (f w). Qed.

Lemma safely_lift_bind {A B} (o : option A) (a : A) (f : A -> prog W B) Q : o = Some a -> safely (f a) Q -> safely (plift o ≫= f) Q.
Proof. intros -> H. exact H. Qed.

Lemma safely_call_bind {A B} (g : W -> A * W) (f : A -> prog W B) Q : (forall a, safely (f a) Q) -> safely (call g ≫= f) Q.
Proof. intros H w. unfold mbind, prog_bind, call. destruct (g w) as [a w']. apply H. Qed.

Lemma safely_nofuel {A} (Q : A -> Prop) : safely (fun _ => NoFuel) Q.
Proof. done. Qed.

(** A buffer filled by a read. *)
Definition filled (cap : Z) (x : Z * bytes) : Prop :=
  0 < x.1 -> zlen x.2 = x.1 /\ x.1 <= cap /\ Forall is_u8 x.2.

Lemma safely_read fd cap : safely (call (sys_read fd cap)) (filled cap).
Proof.
  apply safely_call. intros w. destruct (sys_read fd cap w) as [[r bs] w'] eqn:E. intros Hr.
  exact (read_counts _ _ _ _ _ _ E Hr).
Qed.

Lemma safely_dirents fd cap : safely (call (sys_getdirentries fd cap)) (filled cap).
Proof.
  apply safely_call. intros w. destruct (sys_getdirentries fd cap w) as [[r bs] w'] eqn:E. intros Hr.
  exact (dirents_count _ _ _ _ _ _ E Hr).
Qed.

(** A program whose value does not matter. *)
Abbreviation runs m := (safely m (fun _ => True)).

Lemma runs_then {A B} (m : prog W A) (k : prog W B) Q : runs m -> safely k Q -> safely (_ ← m; k) Q.
Proof. intros Hm Hk. eapply safely_bind; [exact Hm |]. by intros. Qed.

Lemma runs_act (f : W -> W) : runs (act f).
Proof. by apply safely_act. Qed.
End safety.

Create HintDb shell.
#[export] Hint Resolve runs_act safely_ret safely_nofuel I : shell.
#[export] Hint Resolve runs_then : shell.
#[export] Hint Unfold wr werr cmd_help cmd_diag cmd_pwd cmd_echo : shell.

(** Run through actions whose results do not matter. *)
Ltac runs :=
  repeat match goal with
  | |- safely (wr _) _ => apply safely_act
  | |- safely (werr _) _ => apply safely_act
  | |- safely (act _) _ => apply safely_act
  | |- safely (mret _) _ => apply safely_ret
  | |- safely (mbind (M := prog _) _ (wr _)) _ => apply runs_then; [by apply safely_act |]
  | |- safely (mbind (M := prog _) _ (werr _)) _ => apply runs_then; [by apply safely_act |]
  | |- safely (mbind (M := prog _) _ (act _)) _ => apply runs_then; [by apply safely_act |]
  end; try done.

Section commands.
Context {W : Type} `{!Syscalls W, !CountedReads W}.
Abbreviation runs m := (safely (W := W) m (fun _ => True)).

Lemma echo_safe argv : runs (cmd_echo argv).
Proof.
  unfold cmd_echo. apply runs_then; [| runs]. generalize true.
  induction (tail argv) as [|a l IH]; intros first; cbn [echo_words]; [runs |].
  apply runs_then; [destruct first; runs |]. apply runs_then; [runs | apply IH].
Qed.

(** One directory record: whatever its bytes are, it is inside the buffer or ends the loop. *)
Lemma ls_record_safe buf n off w : Forall is_u8 buf -> zlen buf = n -> 0 <= off ->
  exists c, ls_record buf n (off, w) = Some c /\
    match c with Next (off', _) => off < off' /\ off' <= n | Exit _ => True end.
Proof.
  intros Hu Hn Ho. unfold ls_record. destruct (Z.leb_spec (off + 8) n); [| by eexists].
  rewrite sub_bytes_region by lia. cbn [mbind option_bind]. set (reclen := le_combine _).
  destruct (elem_at_in_range buf (off + 7) ltac:(lia)) as [namlen En]. rewrite byte_at_elem, En. cbn [mbind option_bind].
  assert (is_u8 namlen) as [Hn0 Hn1].
  { apply elem_at_Some in En as [_ En]. rewrite Forall_lookup in Hu. exact (Hu _ _ En). }
  destruct (_ || _) eqn:Hg; [by eexists |]. bool_to_prop.
  assert (exists name, store_loop (Z.to_nat namlen) 0 0 (fun i => byte_at buf (off + 8 + i)) (replicate 64 0) =
    Some (name ++ drop (Z.to_nat namlen) (replicate 64 0)) /\ zlen name = namlen) as (name & -> & Hl).
  { exists (region buf (off + 8) namlen). rewrite zlen_region by lia. split; [| done].
    pose proof (store_loop_appends (region buf (off + 8) namlen) 0 0 (fun i => byte_at buf (off + 8 + i)) [] (replicate 64 0)) as Hs.
    pose proof (zlen_region buf (off + 8) namlen ltac:(lia) ltac:(lia) ltac:(lia)) as Hz. unfold zlen in Hz.
    replace (length (region buf (off + 8) namlen)) with (Z.to_nat namlen) in Hs by lia. cbn [app] in Hs. apply Hs; [done | |].
    - intros k Hk. unfold byte_at, region. rewrite (proj2 (Z.leb_le _ _)) by lia.
      rewrite lookup_take, lookup_drop. case_decide; [f_equal; lia | lia].
    - rewrite length_replicate. lia. }
  cbn [mbind option_bind]. rewrite drop_replicate. destruct (64 - Z.to_nat namlen)%nat eqn:E; [lia |].
  cbn [replicate]. rewrite <- Hl, put_byte_here. cbn [mbind option_bind].
  destruct (c_string_ends (name ++ 0 :: replicate n0 0) (length name)) as [s ->]; [by rewrite lookup_app_r, Nat.sub_diag by lia |].
  cbn [mbind option_bind]. eexists. split; [done |]. cbv beta iota. lia.
Qed.

Lemma ls_records_safe buf n : Forall is_u8 buf -> zlen buf = n -> runs (ls_records buf n).
Proof.
  intros Hu Hn w. unfold ls_records.
  destruct (loop_inv (fun st : Z * W => 0 <= st.1 <= n) (fun _ => True) (fun st => Z.to_nat (n - st.1))
    (S (Z.to_nat n)) (ls_record buf n) (0, w)) as (w' & -> & _); [| | | done].
  - cbn. pose proof (zlen_nonneg buf). lia.
  - cbn. lia.
  - intros [off w1] Ho. cbn [fst] in *. destruct (ls_record_safe buf n off w1 Hu Hn ltac:(lia)) as (c & -> & Hc).
    eexists. split; [done |]. destruct c as [[off' w2] | w2]; cbn [fst] in *; [lia | done].
Qed.

Lemma ls_loop_safe fuel fd : runs (ls_loop fuel fd).
Proof.
  induction fuel as [|fuel IH]; cbn [ls_loop]; [apply safely_nofuel |].
  eapply safely_bind; [apply safely_dirents |]. intros [n buf] Hb. destruct (Z.ltb_spec n 0); [runs |].
  destruct (Z.eqb_spec n 0); [runs |]. destruct (Hb ltac:(cbn; lia)) as (Hl & _ & Hu).
  apply runs_then; [by apply ls_records_safe | done].
Qed.

Lemma cat_loop_safe fuel fd : runs (cat_loop fuel fd).
Proof.
  induction fuel as [|fuel IH]; cbn [cat_loop]; [apply safely_nofuel |].
  eapply safely_bind; [apply safely_read |]. intros [n buf] Hb. destruct (Z.ltb_spec n 0); [runs |].
  destruct (Z.eqb_spec n 0); [runs |]. destruct (Hb ltac:(cbn; lia)) as (Hl & _ & _). cbn in Hl.
  eapply safely_bind; [apply safely_lift |].
  { exists buf. split; [rewrite <- Hl; apply sub_bytes_all | exact I]. }
  intros bs _. runs.
Qed.

(** ** The working directory *)

(** [cwd] is an array of [CWD_MAX] bytes with an absolute path in it. *)
Definition absolute (p : bytes) : Prop := text p /\ head p = Some 47 /\ zlen p + 1 <= CWD_MAX.
Definition cwd_ok (cwd : bytes) : Prop := zlen cwd = CWD_MAX /\ exists p, c_string cwd = Some p /\ absolute p.

Lemma parent_len_spec p : absolute p -> exists n, parent_len p = Some n /\ 1 <= n <= zlen p.
Proof.
  intros (_ & Hh & _). destruct p as [|c p]; [done |]. unfold parent_len, slen.
  destruct (loop_inv (fun n => 1 <= n <= zlen (c :: p)) (fun n => 1 <= n <= zlen (c :: p)) Z.to_nat
    (S (length (c :: p))) (fun n => if 1 <? n then d ← byte_at (c :: p) (n - 1);
        Some (if negb (d =? 47) then Next (n - 1) else Exit n) else Some (Exit n)) (zlen (c :: p))) as (n & -> & Hn).
  - rewrite zlen_cons. pose proof (zlen_nonneg p). lia.
  - unfold zlen. lia.
  - intros n Hn. destruct (Z.ltb_spec 1 n); [| by eexists].
    destruct (elem_at_in_range (c :: p) (n - 1) ltac:(lia)) as [d Ed]. rewrite byte_at_elem, Ed. cbn [mbind option_bind].
    eexists. split; [done |]. destruct (negb _); [| done]. lia.
  - cbn [mbind option_bind]. eexists. split; [done |]. destruct (Z.ltb_spec 1 n); lia.
Qed.

Lemma absolute_app p q : absolute p -> text q -> zlen p + zlen q + 1 <= CWD_MAX -> absolute (p ++ q).
Proof.
  intros (Ht & Hh & Hl) Hq Hm. split_and!; [by apply Forall_app | by destruct p | rewrite zlen_app; lia].
Qed.

(** A [cd] asks for an absolute path that fits, or does nothing. *)
Lemma cd_resolve_spec next cur path : zlen next = CWD_MAX -> absolute cur -> text path ->
  exists t, cd_resolve next cur path = Some t /\ match t with Goto p => absolute p | _ => True end.
Proof.
  intros Hn Hc Hp. unfold cd_resolve. destruct (seqs path "."); [by eexists |].
  destruct (match path with c :: _ => c =? 47 | [] => false end) eqn:Eabs.
  { rewrite copy_str_exact by done. cbn [mbind option_bind].
    destruct (Z.ltb_spec CWD_MAX (zlen path + 1)); cbn; eexists; (split; [done |]); [done |].
    split_and!; [done | | done]. destruct path as [|c path]; [done |]. apply Z.eqb_eq in Eabs. by subst. }
  destruct (seqs path "..").
  - destruct (seqs cur "/"); [by eexists |]. destruct (parent_len_spec cur Hc) as (n & -> & Hn1).
    cbn [mbind option_bind]. pose proof Hc as (Ht & Hh & Hl).
    set (p := take (Z.to_nat n) cur). assert (zlen p = n) as Ep by (apply zlen_take; lia).
    assert (absolute p) as Hpa.
    { split_and!; [by apply Forall_take | | lia]. unfold p. destruct cur as [|c cur]; [done |].
      destruct (Z.to_nat n) eqn:E; [lia | done]. }
    assert (store_loop (Z.to_nat n) 0 0 (byte_at cur) next = store_loop (Z.to_nat (zlen p)) 0 0 (byte_at p) next) as ->.
    { rewrite Ep. apply store_loop_ext. intros k Hk. unfold byte_at, p. destruct (Z.leb_spec 0 k); [| done].
      rewrite lookup_take. case_decide; [done | lia]. }
    pose proof (store_terminated [] p next ltac:(unfold zlen in *; lia)) as Hs. cbn [app] in Hs.
    change (zlen (@nil Z)) with 0 in Hs. rewrite Z.add_0_l, Ep in Hs. rewrite Ep.
    destruct (store_loop (Z.to_nat n) _ _ _ next); cbn [mbind option_bind] in *; [| done]. rewrite Hs. cbn [mbind option_bind].
    destruct Hpa as (Hpt & Hph & Hpl). destruct p as [|c p]; [done |]. injection Hph as ->.
    change (byte_at ((47 :: p) ++ ?l) 0) with (Some 47). cbn [mbind option_bind Z.eqb].
    rewrite c_string_text by done. by eexists.
  - set (slash := 1 <? slen cur). unfold slen.
    destruct (Z.ltb_spec CWD_MAX (zlen cur + (if slash then 1 else 0) + zlen path + 1)); [by eexists |].
    destruct (join_into_exact next cur path slash ltac:(lia)) as (junk & -> & _). cbn [mbind option_bind].
    assert (absolute (cur ++ separator slash ++ path)) as Ha.
    { apply absolute_app; [done | | rewrite zlen_app, zlen_separator; lia].
      apply Forall_app. split; [| done]. destruct slash; repeat constructor. done. }
    rewrite !app_assoc, <- (app_assoc cur), c_string_text by apply Ha. by eexists.
Qed.

Lemma text_argv (argv : list bytes) k : Forall text argv -> text (arg argv k).
Proof.
  intros H. unfold arg. destruct (nth_in_or_default k argv []) as [Hin | ->]; [| constructor].
  rewrite Forall_forall in H. apply H. by apply list_elem_of_In.
Qed.

Lemma zlen_cwd_array : zlen (replicate (Z.to_nat CWD_MAX) 0) = CWD_MAX.
Proof. done. Qed.

Lemma cmd_cd_safe argv cwd : Forall text argv -> cwd_ok cwd ->
  safely (W := W) (cmd_cd (replicate (Z.to_nat CWD_MAX) 0) argv cwd) cwd_ok.
Proof.
  intros Ha Hc. unfold cmd_cd. destruct argv as [|a0 [|path [|]]]; [by runs | by runs | | by runs].
  apply Forall_cons in Ha as [_ Ha]. apply Forall_cons in Ha as [Hp _]. pose proof Hc as (Hl & cur & Hcur & Habs).
  apply (safely_lift_bind _ cur); [done |].
  destruct (cd_resolve_spec (replicate (Z.to_nat CWD_MAX) 0) cur path zlen_cwd_array Habs Hp) as (t & Et & Ht).
  apply (safely_lift_bind _ t); [done |]. destruct t as [| p |]; [by runs | | by runs].
  apply safely_call_bind. intros rc. destruct (rc <? 0); [by runs |].
  destruct Ht as (Htp & Hhp & Hlp).
  eapply safely_bind; [apply (safely_lift _ (fun x => cwd_ok x.2)) | intros [r cwd'] ?; by runs].
  rewrite copy_str_exact by done. rewrite (proj2 (Z.ltb_ge _ _)) by lia. eexists. split; [done |]. cbn [snd].
  split; [| exists p; by rewrite c_string_text].
  rewrite <- Hl. unfold zlen in *. rewrite length_app. cbn [length]. rewrite length_drop. lia.
Qed.

Lemma cmd_ls_safe fuel argv cwd : cwd_ok cwd -> runs (cmd_ls fuel argv cwd).
Proof.
  intros (_ & cur & Hcur & _). unfold cmd_ls. apply (safely_lift_bind _ cur); [done |]. apply safely_call_bind. intros fd.
  destruct (fd <? 0); [runs |]. apply runs_then; [apply ls_loop_safe | runs].
Qed.

Lemma cmd_cat_safe fuel argv : runs (cmd_cat fuel argv).
Proof.
  unfold cmd_cat. destruct argv as [|a0 [|file [|]]]; [runs | runs | | runs].
  apply safely_call_bind. intros fd.
  destruct (fd <? 0); [runs |]. apply runs_then; [apply cat_loop_safe | runs].
Qed.

(** Joining two strings in a path array leaves a string. *)
Lemma join2_string a b : exists r dst, join2 (replicate (Z.to_nat CWD_MAX) 0) CWD_MAX a b = Some (r, dst) /\
  exists s, c_string dst = Some s.
Proof.
  destruct (join2_exact (replicate (Z.to_nat CWD_MAX) 0) CWD_MAX a b zlen_cwd_array) as (r & -> & Hr).
  destruct Hr as [-> | (slash & junk & ->)].
  - do 2 eexists. split; [done |]. by exists [].
  - do 2 eexists. split; [done |].
    apply (c_string_ends _ (length (a ++ separator slash ++ b))). by rewrite !app_assoc, lookup_app_r, Nat.sub_diag by lia.
Qed.

Lemma diag_path_safe cur p : exists q, diag_path cur p = Some q.
Proof.
  unfold diag_path. destruct (match p with c :: _ => negb (c =? 47) | [] => true end); [| by eexists].
  destruct (join2_string cur p) as (r & dst & -> & s & Hs). cbn [mbind option_bind].
  destruct (r =? 0); [by exists s | by eexists].
Qed.

Lemma cmd_xzsfs_safe argv cwd : cwd_ok cwd -> runs (cmd_xzsfs argv cwd).
Proof.
  intros (_ & cur & Hcur & _). unfold cmd_xzsfs. apply (safely_lift_bind _ cur); [done |]. destruct (diag_path_safe cur (arg argv 2)) as [q Hq].
  destruct (_ && _); [| destruct (_ && _); [| runs]]; (apply (safely_lift_bind _ q); [done | runs]).
Qed.

Lemma command_not_found_safe file : runs (command_not_found file).
Proof. unfold command_not_found. runs. Qed.

Lemma spawn_safe path file argv : runs (spawn path file argv).
Proof.
  unfold spawn. apply safely_call_bind. intros pid. destruct (pid <? 0); [runs |]. destruct (pid =? 0); [| runs].
  runs.
Qed.

Lemma run_external_safe argv : argv <> [] -> runs (run_external argv).
Proof.
  intros Hne. unfold run_external. destruct argv as [|file rest]; [done |].
  apply (safely_lift_bind _ file); [done |].
  destruct (match file with c :: _ => negb (c =? 47) | [] => true end); [| apply spawn_safe].
  destruct (join2_string (lit "/bin") file) as (r & dst & Hj & s & Hs).
  apply (safely_lift_bind _ (r, dst)); [done |]. destruct (negb (r =? 0)); [apply command_not_found_safe |].
  apply (safely_lift_bind _ s); [done | apply spawn_safe].
Qed.

(** ** Reading a line from any kernel *)

Lemma read_char_safe tmp cap i n buf sw w : 0 <= i < zlen tmp -> 0 <= n < cap -> cap <= zlen buf ->
  exists r, read_char tmp cap i (n, buf, sw, w) = Some r /\
    match r with
    | Next (n', buf', _, _) => 0 <= n' < cap /\ zlen buf' = zlen buf
    | Exit (EndOfLine n' buf' _, _) => zlen buf' = zlen buf /\ exists k, buf' !! k = Some 0
    | Exit (TooLong j buf' _, _) => zlen buf' = zlen buf /\ 0 <= j < zlen tmp
    end.
Proof.
  intros Hi Hn Hc. unfold read_char. destruct (elem_at_in_range tmp i Hi) as [c Ec]. rewrite byte_at_elem, Ec.
  cbn [mbind option_bind]. assert (forall b, put_byte buf n b = Some (<[Z.to_nat n := b]> buf)) as Hput
    by (intros b; apply put_byte_Some; split; [lia | done]). rewrite !Hput. cbn [mbind option_bind].
  destruct (_ && _); [by eexists |]. destruct (_ || _).
  { eexists. split; [done |]. split; [apply zlen_insert |]. exists (Z.to_nat n).
    apply list_lookup_insert_eq. unfold zlen in *. lia. }
  destruct (_ || _).
  { destruct (Z.ltb_spec 0 n); eexists; (split; [done |]); [split; [lia | done] | done]. }
  destruct (Z.leb_spec cap (n + 1)); eexists; (split; [done |]); [done |]. split; [lia | apply zlen_insert].
Qed.

Lemma drain_chars_safe tmp i : 0 <= i <= zlen tmp -> exists r, drain_chars tmp (zlen tmp) i = Some r.
Proof.
  intros Hi. unfold drain_chars.
  destruct (for_loop_inv (S := unit) (R := bool) (fun _ _ => True) (fun _ => True) (Z.to_nat (zlen tmp - i)) i
    (fun i _ => c ← byte_at tmp i; Some (if c =? 13 then Exit true else if c =? 10 then Exit false else Next tt)) tt)
    as (r & -> & _); [done | | by eexists].
  intros k [] Hk _. destruct (elem_at_in_range tmp k ltac:(lia)) as [c Ec]. rewrite byte_at_elem, Ec.
  cbn [mbind option_bind]. eexists. split; [done |]. destruct (c =? 13); [done |]. by destruct (c =? 10).
Qed.

Lemma drain_safe fuel : forall tmp i sw, 0 <= i <= zlen tmp -> runs (drain_to_eol fuel tmp (zlen tmp) i sw).
Proof.
  induction fuel as [|fuel IH]; intros tmp i sw Hi; cbn [drain_to_eol]; [apply safely_nofuel |].
  destruct (drain_chars_safe tmp i Hi) as [r Hr]. apply (safely_lift_bind _ r); [done |]. destruct r as [u | sw']; [| runs].
  eapply safely_bind; [apply safely_read |]. intros [n buf] Hb. destruct (Z.leb_spec n 0); [runs |].
  destruct (Hb ltac:(cbn; lia)) as (Hl & _). cbn in Hl. rewrite <- Hl. apply IH. pose proof (zlen_nonneg buf). lia.
Qed.

(** What a line buffer is worth after a read: a line when the code says so. *)
Definition line_read (len : Z) (x : Z * bytes * bool) : Prop :=
  zlen x.1.2 = len /\ (0 <= x.1.1 -> exists k, x.1.2 !! k = Some 0).

Lemma put_nul_line buf n : 0 <= n < zlen buf ->
  exists buf', put_byte buf n 0 = Some buf' /\ zlen buf' = zlen buf /\ exists k, buf' !! k = Some 0.
Proof.
  intros Hn. exists (<[Z.to_nat n := 0]> buf). split; [by apply put_byte_Some |]. split; [apply zlen_insert |].
  exists (Z.to_nat n). apply list_lookup_insert_eq. unfold zlen in *. lia.
Qed.

Lemma read_line_from_safe cap fuel : forall n buf sw, 0 <= n < cap -> cap <= zlen buf ->
  safely (W := W) (read_line_from fuel n buf cap sw) (line_read (zlen buf)).
Proof.
  induction fuel as [|fuel IH]; intros n buf sw Hn Hc; cbn [read_line_from]; [apply safely_nofuel |].
  eapply safely_bind; [apply safely_read |]. intros [r tmp] Hb.
  destruct (put_nul_line buf 0 ltac:(lia)) as (b0 & E0 & Hl0 & Hz0). destruct (put_nul_line buf n ltac:(lia)) as (bn & En & Hln & Hzn).
  destruct (Z.ltb_spec r 0); [apply (safely_lift_bind _ b0); [done |]; runs |].
  destruct (Z.eqb_spec r 0); [apply (safely_lift_bind _ bn); [done |]; runs |].
  destruct (Hb ltac:(cbn; lia)) as (Hl & _). cbn in Hl. intros w.
  destruct (for_loop_inv (fun _ st => let '(n', buf', _, _) := st in 0 <= n' < cap /\ zlen buf' = zlen buf)
    (fun e : chunk_end * W => match e with
     | (EndOfLine n' buf' _, _) => zlen buf' = zlen buf /\ exists k, buf' !! k = Some 0
     | (TooLong j buf' _, _) => zlen buf' = zlen buf /\ 0 <= j < zlen tmp end)
    (Z.to_nat r) 0 (read_char tmp cap) (n, buf, sw, w)) as (x & -> & Hx); [done | |].
  { intros k [[[n' buf'] sw'] w'] Hk [Hn' Hb']. destruct (read_char_safe tmp cap k n' buf' sw' w') as (x & -> & Hx); [lia.. |].
    eexists. split; [done |]. rewrite Hb' in Hx. by destruct x as [[[[? ?] ?] ?] | [[|] ?]]. }
  cbn [of_option mbind outcome_bind]. destruct x as [[[[n' buf'] sw'] w'] | [[n' buf' sw' | j buf' sw'] w']].
  - destruct Hx as [Hn' Hb']. rewrite <- Hb'. apply IH; [done | lia].
  - destruct Hx as [Hb' Hz]. done.
  - destruct Hx as [Hb' Hj]. subst r. destruct (put_nul_line buf' 0 ltac:(lia)) as (b1 & E1 & Hl1 & Hz1).
    match goal with |- match ?m w' with _ => _ end => assert (safely m (line_read (zlen buf))) as Hm; [| exact (Hm w')] end.
    eapply safely_bind; [apply (drain_safe fuel tmp j sw'); lia |]. intros [code sw2] _.
    apply (safely_lift_bind _ b1); [done |]. runs. split; cbn; [lia | done].
Qed.

(** ** The prompt loop *)

Lemma dispatch_safe fuel argv cwd : argv <> [] -> Forall text argv -> cwd_ok cwd ->
  safely (W := W) (dispatch fuel argv cwd) cwd_ok.
Proof.
  intros Hne Ht Hc. pose proof Hc as (_ & cur & Hcur & _).
  assert (forall m : prog W unit, runs m -> safely (_ ← m; mret cwd) cwd_ok) as Hsame by (intros m Hm; apply runs_then; [done | runs]).
  assert (forall which usage, runs (menu which usage)) as Hmenu by (intros; unfold menu; destruct (_ <? 0); apply runs_act).
  unfold dispatch. cbv zeta.
  repeat (match goal with |- safely (if ?b then _ else _) _ => destruct b end;
    [first [ by apply cmd_cd_safe
           | apply Hsame; first [ apply Hmenu | apply runs_act | apply echo_safe | by apply cmd_ls_safe
                                | apply cmd_cat_safe | by apply cmd_xzsfs_safe
                                | apply (safely_lift_bind _ cur); [done | unfold cmd_pwd; runs] ] ] |]).
  by apply Hsame, run_external_safe.
Qed.

Lemma arg_strings_text line argv argc args : arg_strings line argv argc = Some args -> Forall text args.
Proof.
  intros H%mapM_Some_1. apply Forall_lookup. intros i w Hw.
  destruct (Forall2_lookup_r _ _ _ _ _ H Hw) as (p & _ & Hp). destruct (p <? 0); [done |].
  by destruct (c_string_split _ _ Hp) as (_ & _ & ?).
Qed.

(** The shell's locals between turns. *)
Definition shell_ok (s : shell_state) : Prop :=
  zlen (sh_line s) = LINE_MAX /\ zlen (sh_argv s) = ARG_MAX /\ cwd_ok (sh_cwd s).

Lemma shell_step_safely fuel s : shell_ok s -> safely (W := W) (shell_step fuel s) shell_ok.
Proof.
  intros (Hline & Hargv & Hcwd). unfold shell_step. runs.
  eapply safely_bind; [apply (read_line_from_safe LINE_MAX fuel 0); unfold LINE_MAX in *; lia |].
  intros [[got line] sw] [Hl Hz]. cbn in Hl, Hz. rewrite Hline in Hl. destruct (Z.ltb_spec got 0); [by runs |].
  destruct (Hz ltac:(lia)) as [k Hk]. destruct (c_string_ends line k Hk) as [t Ht].
  destruct (c_string_split line t Ht) as (junk & -> & Htx).
  destruct (split_args_spec t junk (sh_argv s) ARG_MAX Htx ltac:(unfold ARG_MAX in *; lia))
    as (argc & line' & argv' & Hsp & Hll & Hla & Hres).
  assert (zlen line' = LINE_MAX /\ zlen argv' = ARG_MAX) as [Hl' Ha'] by (unfold zlen in *; lia).
  apply (safely_lift_bind _ (argc, line', argv')); [done |].
  destruct (Z.ltb_spec argc 0); [by runs |]. destruct (Z.eqb_spec argc 0); [by runs |].
  destruct (decide _); [destruct Hres as (-> & Hargs & _) | lia].
  apply (safely_lift_bind _ (words t)); [done |].
  eapply safely_bind; [apply (dispatch_safe fuel (words t) (sh_cwd s)); [by intros E; rewrite E in * | | done] | intros cwd' Hc'; by runs].
  by eapply arg_strings_text.
Qed.

(** C19. The shell is memory safe and keeps its working directory well formed: over any kernel
    whose reads report the bytes they store, for everything that can be typed and every answer
    of the kernel, any number of turns of the prompt loop from the start of
    [xzs_d7t2_shell] makes no access outside [line], [argv], [cwd] or a command's local
    arrays, and [cwd] always holds a terminated absolute path. *)
Theorem shell_safe n fuel line argv cwd w :
  zlen line = LINE_MAX -> zlen argv = ARG_MAX -> zlen cwd = CWD_MAX ->
  exists s, shell_start line argv cwd = Some s /\
    match xzs_d7t2_shell n fuel s w with
    | Ret (s', _) => shell_ok s'
    | NoFuel => True
    | Panic | Fault => False
    end.
Proof.
  intros Hl Ha Hc. destruct cwd as [|c0 [|c1 cwd]]; [done.. |].
  exists (ShellState line argv (47 :: 0 :: cwd) false).
  assert (put_byte (c0 :: c1 :: cwd) 0 47 = Some (47 :: c1 :: cwd)) as E0 by exact (put_byte_here [] c0 (c1 :: cwd) 47).
  assert (put_byte (47 :: c1 :: cwd) 1 0 = Some (47 :: 0 :: cwd)) as E1 by exact (put_byte_here [47] c1 cwd 0).
  unfold shell_start. rewrite E0. cbn [mbind option_bind]. rewrite E1. split; [done |].
  assert (shell_ok (ShellState line argv (47 :: 0 :: cwd) false)) as Hok.
  { split; [done |]. split; [done |]. split; [done |]. exists [47]. split; [done |].
    split; [by repeat constructor | done]. }
  revert w Hok. generalize (ShellState line argv (47 :: 0 :: cwd) false). clear - CountedReads0.
  enough (forall s, shell_ok s -> safely (xzs_d7t2_shell n fuel s) shell_ok) as H by (intros s w Hs; exact (H s Hs w)).
  induction n as [|n IH]; intros s Hs; cbn [xzs_d7t2_shell]; [by runs |].
  eapply safely_bind; [by apply shell_step_safely |]. intros s' Hs'. by apply IH.
Qed.
End commands.

(** ** A kernel to run the shell on *)

(** It types the same line for ever and knows no files. *)
#[export] Instance typist : Syscalls bytes := {|
  sys_read fd cap w := if (fd =? 0) && (4 <=? cap) then (4, lit "pwd" ++ nl, w) else (0, [], w);
  sys_write _ s w := w ++ s;
  sys_open _ w := (-1, w);
  sys_close _ w := w;
  sys_chdir _ w := (-1, w);
  sys_getdirentries _ _ w := (0, [], w);
  sys_diag _ _ _ _ w := w;
  sys_fork w := (-1, w);
  sys_execve _ _ _ w := w;
  sys_wait4 _ w := w;
  sys_exit _ w := w;
  sys_reboot w := w |}.

#[export] Instance typist_counts : CountedReads bytes.
Proof.
  split; intros fd cap w r bs w'; cbn [sys_read sys_getdirentries typist].
  - destruct ((fd =? 0) && (4 <=? cap)) eqn:E; intros [= <- <- <-] ?; [| lia]. bool_to_prop.
    split_and!; [done | lia |]. by apply Forall_fold_right; vm_compute.
  - intros [= <- <- <-] ?. lia.
Defined.

Lemma shell_safe_witness :
  exists s, shell_start (replicate 128 7) (replicate 8 7) (replicate 96 7) = Some s /\
    match xzs_d7t2_shell 2 2 s [] with Ret (s', w') => shell_ok s' | NoFuel => True | Panic | Fault => False end.
Proof. apply (shell_safe (W := bytes) 2 2 (replicate 128 7) (replicate 8 7) (replicate 96 7) []); done. Defined.

(** Two turns on that kernel. *)
Lemma typist_session :
  (s ← of_option (shell_start (replicate 128 7) (replicate 8 7) (replicate 96 7));
   '(_, screen) ← xzs_d7t2_shell 2 2 s ([] : bytes); Ret screen) =
  Ret (lit "xzs# " ++ lit "/" ++ nl ++ lit "xzs# " ++ lit "/" ++ nl).
Proof. vm_compute. reflexivity. Qed.

(** The parent of a directory entered with a trailing slash is computed as the directory
    itself. *)
Lemma cd_trailing_slash_parent :
  cd_resolve (replicate 96 0) (lit "/bin/") (lit "..") = Some (Goto (lit "/bin")).
Proof. vm_compute. reflexivity. Qed.
