(* ===== verification/ShellLs.v ===== *)
(** * The shell and the file system: [ls]

    The directory listing the shell prints is the listing the file system keeps: [cmd_ls]'s
    record loop composed with [xzsfs_readdir]. *)

From stdpp Require Import base list strings.
From Stdlib Require Import ZArith Lia.
From S2P Require Import Prelude Crc32 XzsfsCore XzsfsSample XzsfsFormat XzsfsGraph XzsfsLookup Kernel XzsfsDriver XzsfsVnops XzsfsDir Shell ShellProofs ShellLine ShellSafety.

(** ** One record *)

(** A name [ls] has room for. *)
Definition short_name (name : bytes) : Prop := text name /\ 1 <= zlen name <= 63.

(** The record of a short name, field by field. *)
Lemma record_of_short id name dtype : short_name name -> exists pad,
  record_of (mk_dirent id name dtype) =
    (le_split 4 id ++ le_split 2 (d_reclen (mk_dirent id name dtype)) ++ le_split 1 dtype) ++
    zlen name :: name ++ 0 :: pad.
Proof.
  intros [_ Hn]. unfold record_of, encode_dirent, mk_dirent. cbn [d_reclen d_ino d_type d_namlen d_name].
  rewrite (Z.min_l (zlen name) 255) by lia. unfold strlcpy_zero. rewrite (Z.min_l (zlen name) (256 - 1)) by lia.
  set (reclen := 8 + 4 * ((zlen name + 4) / 4)).
  assert (9 + zlen name <= reclen <= 12 + zlen name) as Hr by (unfold reclen; zdm).
  assert (le_split 1 (zlen name) = [zlen name]) as -> by (cbn [le_split]; by rewrite Z.mod_small by lia).
  rewrite (take_ge name) by (unfold zlen in *; lia).
  set (hd := le_split 4 id ++ le_split 2 reclen ++ le_split 1 dtype). assert (length hd = 7%nat) as Hh
    by (unfold hd; by rewrite !length_app, !length_le_split).
  exists (replicate (Z.to_nat (reclen - 9 - zlen name)) 0).
  assert (le_split 4 id ++ le_split 2 reclen ++ le_split 1 dtype ++ [zlen name] ++ name ++ replicate (Z.to_nat (256 - zlen name)) 0
    = (hd ++ zlen name :: name) ++ replicate (Z.to_nat (256 - zlen name)) 0) as -> by (unfold hd; by rewrite <- !app_assoc).
  assert (length (hd ++ zlen name :: name) = Z.to_nat (8 + zlen name)) as Hl
    by (rewrite length_app, Hh; cbn [length]; unfold zlen; lia).
  rewrite take_app, take_ge by lia. rewrite Hl, take_replicate, <- app_assoc. cbn [app]. do 3 f_equal.
  change (0 :: replicate ?k 0) with (replicate (S k) 0). f_equal. lia.
Qed.

Section ls.
Context {W : Type} `{!Syscalls W}.

(** The record at [off] prints its name and moves on to the next. *)
Lemma ls_record_prints pre rest id name dtype w : short_name name ->
  let de := mk_dirent id name dtype in
  let buf := pre ++ record_of de ++ rest in
  ls_record buf (zlen buf) (zlen pre, w) =
  Some (Next (zlen (pre ++ record_of de), sys_write 1 nl (sys_write 1 name w))).
Proof.
  intros Hs de buf. pose proof Hs as [Htx Hn]. pose proof (mk_dirent_wf id name dtype) as Hwf.
  pose proof (zlen_record_of de Hwf) as Hz. destruct (record_of_short id name dtype Hs) as (pad & Er). fold de in Er.
  pose proof (zlen_nonneg pre). pose proof (zlen_nonneg rest). pose proof (zlen_nonneg pad). destruct Hwf as [Hrl _]. fold de in Hrl.
  assert (zlen buf = zlen pre + d_reclen de + zlen rest) as Hb by (unfold buf; rewrite !zlen_app, Hz; lia).
  assert (9 + zlen name <= d_reclen de) as Hrn.
  { rewrite <- Hz, Er. rewrite !zlen_app, zlen_cons, zlen_app, zlen_cons, !zlen_le_split. lia. }
  unfold ls_record. rewrite (proj2 (Z.leb_le _ _)) by lia.
  assert (sub_bytes buf (zlen pre + 4) 2 = Some (le_split 2 (d_reclen de))) as ->.
  { unfold buf. rewrite Er, <- !app_assoc, app_assoc. apply sub_bytes_at; [| by rewrite zlen_le_split]. by rewrite zlen_app, zlen_le_split. }
  cbn [mbind option_bind]. rewrite le_combine_split_small by (change (256 ^ Z.of_nat 2) with 65536; lia).
  assert (forall i, 0 <= i -> byte_at buf (zlen pre + 7 + i) = byte_at (zlen name :: name ++ 0 :: pad ++ rest) i) as Hat.
  { intros i Hi. set (hd := le_split 4 id ++ le_split 2 (d_reclen de) ++ le_split 1 dtype) in *.
    assert (zlen hd = 7) as Hh by (unfold hd; by rewrite !zlen_app, !zlen_le_split).
    assert (buf = (pre ++ hd) ++ zlen name :: name ++ 0 :: pad ++ rest) as ->
      by (unfold buf; rewrite Er; repeat (rewrite <- app_assoc; cbn [app]); done).
    rewrite !byte_at_elem, elem_at_app_r by (rewrite zlen_app; lia). f_equal. rewrite zlen_app. lia. }
  assert (byte_at buf (zlen pre + 7) = Some (zlen name)) as -> by exact (eq_trans (f_equal _ (eq_sym (Z.add_0_r _))) (Hat 0 ltac:(lia))).
  cbn [mbind option_bind].
  rewrite !(proj2 (Z.ltb_ge _ _)) by lia. cbn [orb].
  rewrite (store_loop_ext _ _ _ _ (byte_at name)).
  2:{ intros k Hk. replace (zlen pre + 8 + k) with (zlen pre + 7 + (1 + k)) by lia. rewrite Hat by lia.
      rewrite !byte_at_elem. change (?a :: ?l) with ([a] ++ l). rewrite elem_at_app_r by (change (zlen [zlen name]) with 1; lia).
      change (zlen [zlen name]) with 1. replace (1 + k - 1) with k by lia.
      rewrite elem_at_app_l by lia. done. }
  pose proof (store_terminated [] name (replicate 64 0) ltac:(rewrite length_replicate; unfold zlen in *; lia)) as Hst.
  cbn [app] in Hst. change (zlen (@nil Z)) with 0 in Hst. rewrite Z.add_0_l in Hst.
  destruct (store_loop _ _ _ _ (replicate 64 0)); cbn [mbind option_bind] in *; [| done].
  rewrite Hst. cbn [mbind option_bind]. rewrite c_string_text by done. cbn [mbind option_bind].
  by rewrite zlen_app, Hz.
Qed.

(** An entry whose name is known. *)
Definition short_entry (de : dirent) (name : bytes) : Prop :=
  short_name name /\ exists id dtype, de = mk_dirent id name dtype.

Definition print_names (names : list bytes) (w : W) : W :=
  fold_left (fun w name => sys_write 1 nl (sys_write 1 name w)) names w.

Lemma ls_records_loop K names : Forall2 short_entry K names -> forall pre fuel w, (length K < fuel)%nat ->
  let buf := pre ++ records K in
  loop fuel (ls_record buf (zlen buf)) (zlen pre, w) = Some (print_names names w).
Proof.
  induction 1 as [|de name K names (Hs & id & dtype & ->) _ IH]; intros pre fuel w Hf buf;
    (destruct fuel as [|fuel]; [cbn in Hf; lia |]); cbn [loop].
  - unfold ls_record, buf. change (records []) with (@nil Z). rewrite app_nil_r.
    by rewrite (proj2 (Z.leb_gt _ _)) by lia.
  - assert (buf = pre ++ record_of (mk_dirent id name dtype) ++ records K) as -> by done.
    rewrite ls_record_prints by done. rewrite app_assoc. apply IH. cbn in Hf. lia.
Qed.

Lemma zlen_records K : Forall entry_wf K -> 12 * Z.of_nat (length K) <= zlen (records K).
Proof.
  induction 1 as [|de K Hw _ IH]; [done |]. change (records (de :: K)) with (record_of de ++ records K).
  rewrite zlen_app, zlen_record_of by done. destruct Hw. cbn [length]. lia.
Qed.

Lemma short_entries_wf K names : Forall2 short_entry K names -> Forall entry_wf K.
Proof. induction 1 as [|de name K names (_ & id & dtype & ->)]; constructor; [apply mk_dirent_wf | done]. Qed.

Lemma ls_records_prints K names w : Forall2 short_entry K names ->
  ls_records (records K) (zlen (records K)) w = Ret (tt, print_names names w).
Proof.
  intros HK. unfold ls_records. pose proof (zlen_records K (short_entries_wf K names HK)).
  pose proof (ls_records_loop K names HK [] (S (Z.to_nat (zlen (records K)))) w ltac:(lia)) as Hl.
  cbn [app] in Hl. change (zlen (@nil Z)) with 0 in Hl. by rewrite Hl.
Qed.
End ls.

(** ** A directory behind a descriptor *)

(** What the system calls promise for a directory [dir] of a mounted file system at [path]:
    opening it yields a descriptor at offset 0, and getdirentries is [xzsfs_readdir] from the
    descriptor's offset, which it moves to where the call stopped. *)
Class DirStream (W : Type) `{!Syscalls W, !Console W} (fs : xzsfs_core_fs) (dir : xzsfs_core_node)
    (path : bytes) := {
  dir_pos : Z -> W -> Z;
  dir_open : forall w, exists fd w', sys_open path w = (fd, w') /\ 0 <= fd /\ dir_pos fd w' = 0 /\
    screen w' = screen w;
  dir_read : forall fd w r, readdir_node fs dir (Uio (dir_pos fd w) 256 [] None) = Some r -> rr_error r = 0 ->
    exists w', sys_getdirentries fd 256 w = (zlen (uio_data (rr_uio r)), uio_data (rr_uio r), w') /\
      dir_pos fd w' = uio_offset (rr_uio r) /\ screen w' = screen w;
  dir_write : forall fd s w, dir_pos fd (sys_write 1 s w) = dir_pos fd w;
  dir_close : forall fd w, screen (sys_close fd w) = screen w;
}.

(** The names of a directory: itself, its parent, its children in table order. *)
Definition dir_names (fs : xzsfs_core_fs) (dir : xzsfs_core_node) : list bytes :=
  dot :: dotdot :: (node_name fs <$> children fs (cn_object_id dir)).

Definition lines (names : list bytes) : bytes := concat ((fun n => n ++ nl) <$> names).

Section listing.
Context {W : Type} `{!Syscalls W, !Console W}.
Context (fs : xzsfs_core_fs) (dir : xzsfs_core_node) (path : bytes) `{!DirStream W fs dir path}.

Lemma print_names_screen names fd : forall w, screen (print_names names w) = screen w ++ lines names /\
  dir_pos fd (print_names names w) = dir_pos fd w.
Proof.
  unfold print_names. induction names as [|n names IH]; intros w; cbn [fold_left]; [by rewrite app_nil_r |].
  destruct (IH (sys_write 1 nl (sys_write 1 n w))) as [-> ->]. rewrite !dir_write. split; [| done].
  unfold lines. cbn [fmap list_fmap concat].
  destruct (console_write n w) as [_ H1], (console_write nl (sys_write 1 n w)) as [_ H2].
  by rewrite H2, H1, <- !app_assoc.
Qed.

Context (L : list dirent) (names : list bytes) (HL : Forall2 short_entry L names).
Context (Hread : forall k, (k <= length L)%nat -> exists m, (k <= m <= length L)%nat /\
  (forall de, L !! k = Some de -> d_reclen de <= 256 -> (k < m)%nat) /\
  readdir_node fs dir (Uio (offset_of L k) 256 [] None) =
  Some (RdRes 0 (Uio (offset_of L m) (256 - (offset_of L m - offset_of L k))
                   (records (drop k (take m L))) None)
          (if decide (m = k) then 1 else 0) (Z.of_nat (m - k)))).

Lemma short_entry_fits k de : L !! k = Some de -> d_reclen de <= 256.
Proof.
  intros E. destruct (Forall2_lookup_l _ _ _ _ _ HL E) as (name & _ & (_ & Hn) & id & dtype & ->).
  cbn [mk_dirent d_reclen]. zdm.
Qed.

Lemma ls_loop_prints fd d : forall k fuel w, (length L - k = d)%nat -> (k <= length L)%nat -> (d < fuel)%nat ->
  dir_pos fd w = offset_of L k ->
  exists w', ls_loop fuel fd w = Ret (tt, w') /\ screen w' = screen w ++ lines (drop k names).
Proof.
  induction d as [d IH] using lt_wf_ind. intros k fuel w Hd Hk Hf Hpos. destruct fuel as [|fuel]; [lia |].
  cbn [ls_loop]. destruct (Hread k Hk) as (m & Hm & Hprog & Hr). rewrite <- Hpos in Hr.
  destruct (dir_read fd w _ Hr eq_refl) as (w1 & Hcall & Hpos1 & Hs1). cbn [rr_uio uio_data uio_offset] in *.
  unfold mbind at 1, prog_bind at 1, call. rewrite Hcall. set (K := drop k (take m L)) in *.
  assert (length names = length L) as Hnl by (symmetry; by eapply Forall2_length).
  pose proof (zlen_nonneg (records K)). rewrite (proj2 (Z.ltb_ge _ 0)) by lia.
  assert (Forall2 short_entry K (drop k (take m names))) as HK by (by apply Forall2_drop, Forall2_take).
  pose proof (zlen_records K (short_entries_wf _ _ HK)) as HzK.
  assert (length K = m - k)%nat as HlK by (unfold K; rewrite length_drop, length_take; lia).
  destruct (decide (k < length L)%nat) as [Hlt | Hge].
  - destruct (lookup_lt_is_Some_2 L k Hlt) as [de E]. pose proof (Hprog de E (short_entry_fits k de E)).
    rewrite (proj2 (Z.eqb_neq _ 0)) by lia. unfold mbind, prog_bind.
    rewrite (ls_records_prints K _ w1 HK). destruct (print_names_screen (drop k (take m names)) fd w1) as [Hps Hpp].
    destruct (IH (length L - m)%nat ltac:(lia) m fuel (print_names (drop k (take m names)) w1)) as (w' & -> & Hw');
      [lia.. | congruence |].
    exists w'. split; [done |]. rewrite Hw', Hps, Hs1, <- app_assoc. f_equal. unfold lines.
    rewrite <- concat_app, <- fmap_app. f_equal. f_equal.
    rewrite skipn_firstn_comm. rewrite <- (take_drop (m - k) (drop k names)) at 2. rewrite drop_drop.
    f_equal. f_equal. lia.
  - assert (m = k) as -> by lia. assert (K = []) as -> by (apply length_zero_iff_nil; lia).
    change (zlen (records []) =? 0) with true. cbv iota. exists w1. split; [done |].
    rewrite drop_ge by lia. change (lines []) with (@nil Z). by rewrite app_nil_r.
Qed.
End listing.

(** ** Properties *)

(** The names of a validated image are never empty. *)
Lemma child_name_short sb objects strtab fs n id : validated sb objects strtab -> fs_holds fs sb objects strtab ->
  n ∈ children fs id -> zlen (node_name fs n) <= 63 -> short_name (node_name fs n).
Proof.
  intros Hv Hfs Hin Hlen. unfold children in Hin. apply list_elem_of_filter in Hin as [_ Hin].
  apply list_elem_of_lookup in Hin as [j Hj]. rewrite lookup_drop in Hj. apply lookup_take_Some in Hj as [Hj Hlt].
  rewrite (fh_count _ _ _ _ Hfs) in Hlt.
  destruct (fs_node_is sb objects strtab fs Hv Hfs (Z.of_nat (1 + j)) ltac:(lia)) as (o & Eo & En & Hok & Hname).
  rewrite elem_at_nat, Hj in En. injection En as ->. destruct (Hname ltac:(lia)) as (Htext & _).
  split; [exact Htext |]. split; [| done].
  destruct (graph_object sb objects strtab (va_wf _ _ _ Hv) (validated_checked _ _ _ Hv) (va_objects _ _ _ Hv)
    (va_objects_wf _ _ _ Hv) (validated_graph _ _ _ Hv) fs Hfs (Z.of_nat (1 + j)) ltac:(lia)) as (o' & Eo' & _ & _ & _ & H1 & H2 & H3 & _).
  rewrite Eo in Eo'. injection Eo' as <-.
  pose proof (checked_sizes sb (va_wf _ _ _ Hv) (validated_checked _ _ _ Hv)) as (_ & _ & _ & Hsz).
  pose proof (fh_strtab_len _ _ _ _ Hfs). destruct (ch_name_bounds _ _ _ _ _ (oo_child _ _ _ _ _ Hok ltac:(lia))).
  unfold node_name. cbn [node_of_object cn_name cn_name_length]. rewrite zlen_region; lia.
Qed.

Lemma listing_short sb objects strtab fs dir : validated sb objects strtab -> fs_holds fs sb objects strtab ->
  Forall (fun n => zlen (node_name fs n) <= 63) (children fs (cn_object_id dir)) ->
  Forall2 short_entry (listing fs dir) (dir_names fs dir).
Proof.
  intros Hv Hfs Hlen. constructor; [| constructor]; [split; [by apply (bool_decide_unpack _); vm_compute | by do 2 eexists].. |].
  apply Forall2_fmap, Forall_Forall2_diag. rewrite Forall_forall in *. intros n Hn.
  split; [by eapply child_name_short, Hlen | by do 2 eexists].
Qed.


(** ** A directory to list *)

(** The sample image's root behind every descriptor. *)
Record dir_world := DirWorld { dw_pos : Z; dw_screen : bytes }.

#[export] Instance dir_syscalls : Syscalls dir_world := {|
  sys_read _ _ w := (0, [], w);
  sys_write _ s w := DirWorld (dw_pos w) (dw_screen w ++ s);
  sys_open _ w := (3, DirWorld 0 (dw_screen w));
  sys_close _ w := w;
  sys_chdir _ w := (0, w);
  sys_getdirentries _ cap w :=
    match readdir_node sample_fs sample_root (Uio (dw_pos w) cap [] None) with
    | Some r => (zlen (uio_data (rr_uio r)), uio_data (rr_uio r), DirWorld (uio_offset (rr_uio r)) (dw_screen w))
    | None => (-1, [], w)
    end;
  sys_diag _ _ _ _ w := w;
  sys_fork w := (-1, w);
  sys_execve _ _ _ w := w;
  sys_wait4 _ w := w;
  sys_exit _ w := w;
  sys_reboot w := w |}.

#[export] Instance dir_console : Console dir_world.
Proof.
  refine {| pending := fun _ => []; screen := dw_screen |}; [done | | done].
  intros [p o] _. by eexists.
Defined.

#[export] Instance dir_stream : DirStream dir_world sample_fs sample_root (lit "/").
Proof.
  refine {| dir_pos := fun _ => dw_pos |}; try done.
  - intros w. by do 2 eexists.
  - intros fd [p o] r Hr _. unfold sys_getdirentries, dir_syscalls. cbn [dw_pos dw_screen] in *. rewrite Hr. by eexists.
Defined.


(** A name of more than 63 characters ends the listing of its buffer: entries behind it are
    not printed. *)
Lemma ls_stops_at_long_name :
  let K := [mk_dirent 2 (replicate 64 97) DT_REG; mk_dirent 3 (lit "b") DT_REG] in
  ls_records (records K) (zlen (records K)) (DirWorld 0 []) = Ret (tt, DirWorld 0 []).
Proof. vm_compute. reflexivity. Qed.
