(* ===== verification/ShimLog.v ===== *)
(** * The boot shim's log

    Models xzs-bootshim/uart.c: characters go to three memory buffers, the debug log the
    kernel continues and the two pstore zones.  Buffers are byte lists of their declared size;
    [None] is an access outside them. *)

From stdpp Require Import base list strings.
From Stdlib Require Import ZArith Lia.
From S2P Require Import Prelude XzsfsCore.

(** ** State *)

Definition XZS_DEBUG_LOG_MAGIC : Z := 0x585a5344.
Definition XZS_DEBUG_LOG_SIZE : Z := 65472.
Definition PSTORE_SIG : Z := 0x43474244.

Record xzs_debug_log := DebugLog {
  magic : Z;
  version : Z;
  write_offset : Z;
  boot_count : Z;
  exception_count : Z;
  last_stage : Z;
  last_elr : Z;
  last_esr : Z;
  last_far : Z;
  last_spsr : Z;
  log_data : bytes;
}.

(** Both pstore zones; they differ in the size of the text. *)
Record pstore_buffer := Pstore {
  ps_sig : Z;
  ps_start : Z;
  ps_size : Z;
  ps_data : bytes;
}.

Record logs := Logs {
  g_dlog : xzs_debug_log;
  pstore_console : pstore_buffer;
  pstore_dmesg : pstore_buffer;
}.

Definition CONSOLE_TEXT : Z := 256 * 1024 - 12.
Definition DMESG_TEXT : Z := 4096 - 12.

Inductive xzs_stage : Type :=
  | XZS_STAGE_NONE
  | XZS_STAGE_SHIM_A | XZS_STAGE_SHIM_B | XZS_STAGE_SHIM_C | XZS_STAGE_SHIM_D
  | XZS_STAGE_SHIM_E | XZS_STAGE_SHIM_F | XZS_STAGE_SHIM_G
  | XZS_STAGE_XNU_K0 | XZS_STAGE_XNU_K1 | XZS_STAGE_XNU_K2 | XZS_STAGE_XNU_K3
  | XZS_STAGE_XNU_K4 | XZS_STAGE_XNU_K5 | XZS_STAGE_XNU_K6 | XZS_STAGE_XNU_K7.

Definition stage_code (s : xzs_stage) : Z :=
  match s with
  | XZS_STAGE_NONE => 0
  | XZS_STAGE_SHIM_A => 0x100 | XZS_STAGE_SHIM_B => 0x101 | XZS_STAGE_SHIM_C => 0x102
  | XZS_STAGE_SHIM_D => 0x103 | XZS_STAGE_SHIM_E => 0x104 | XZS_STAGE_SHIM_F => 0x105
  | XZS_STAGE_SHIM_G => 0x106
  | XZS_STAGE_XNU_K0 => 0x200 | XZS_STAGE_XNU_K1 => 0x201 | XZS_STAGE_XNU_K2 => 0x202
  | XZS_STAGE_XNU_K3 => 0x203 | XZS_STAGE_XNU_K4 => 0x204 | XZS_STAGE_XNU_K5 => 0x205
  | XZS_STAGE_XNU_K6 => 0x206 | XZS_STAGE_XNU_K7 => 0x207
  end.

(** [g_dlog->last_stage = stage]. *)
Definition set_stage (s : xzs_stage) (l : logs) : logs :=
  let d := g_dlog l in
  Logs (DebugLog (magic d) (version d) (write_offset d) (boot_count d) (exception_count d)
          (stage_code s) (last_elr d) (last_esr d) (last_far d) (last_spsr d) (log_data d))
    (pstore_console l) (pstore_dmesg l).

Definition xzs_stage_to_string (stage : Z) : string :=
  if stage =? stage_code XZS_STAGE_SHIM_A then "SHIM_A (Entry)"
  else if stage =? stage_code XZS_STAGE_SHIM_B then "SHIM_B (DTB Located)"
  else if stage =? stage_code XZS_STAGE_SHIM_C then "SHIM_C (Mach-O Parsed)"
  else if stage =? stage_code XZS_STAGE_SHIM_D then "SHIM_D (Mach-O Flattened)"
  else if stage =? stage_code XZS_STAGE_SHIM_E then "SHIM_E (ADT Constructed)"
  else if stage =? stage_code XZS_STAGE_SHIM_F then "SHIM_F (Boot Args Ready)"
  else if stage =? stage_code XZS_STAGE_SHIM_G then "SHIM_G (Jumping to XNU)"
  else if stage =? stage_code XZS_STAGE_XNU_K0 then "XNU_K0 (Kernel Entry)"
  else if stage =? stage_code XZS_STAGE_XNU_K1 then "XNU_K1 (Vectors Installed)"
  else if stage =? stage_code XZS_STAGE_XNU_K2 then "XNU_K2 (Page Tables Prepared)"
  else if stage =? stage_code XZS_STAGE_XNU_K3 then "XNU_K3 (TCR Configured)"
  else if stage =? stage_code XZS_STAGE_XNU_K4 then "XNU_K4 (Before MMU Enable)"
  else if stage =? stage_code XZS_STAGE_XNU_K5 then "XNU_K5 (After MMU Enable)"
  else if stage =? stage_code XZS_STAGE_XNU_K6 then "XNU_K6 (arm_init Entered)"
  else if stage =? stage_code XZS_STAGE_XNU_K7 then "XNU_K7 (pmap Initialized)"
  else "UNKNOWN".

(** ** Writing *)

Definition dlog_putc (c : Z) (d : xzs_debug_log) : option xzs_debug_log :=
  if magic d =? XZS_DEBUG_LOG_MAGIC then
    if write_offset d <? XZS_DEBUG_LOG_SIZE - 1 then
      let idx := write_offset d in
      data ← put_byte (log_data d) idx c;
      data ← put_byte data (idx + 1) 0;
      Some (DebugLog (magic d) (version d) (u32 (idx + 1)) (boot_count d) (exception_count d)
              (last_stage d) (last_elr d) (last_esr d) (last_far d) (last_spsr d) data)
    else Some d
  else Some d.

(** One pstore zone with [cap] characters of text. *)
Definition pstore_putc (cap c : Z) (p : pstore_buffer) : option pstore_buffer :=
  let p := if negb (ps_sig p =? PSTORE_SIG) then Pstore PSTORE_SIG 0 0 (ps_data p) else p in
  let sz := ps_size p in
  if sz <? cap - 1 then
    data ← put_byte (ps_data p) sz c;
    Some (Pstore (ps_sig p) (ps_start p) (u32 (sz + 1)) data)
  else Some p.

Definition mem_log_putc (c : Z) (l : logs) : option logs :=
  d ← dlog_putc c (g_dlog l);
  con ← pstore_putc CONSOLE_TEXT c (pstore_console l);
  dm ← pstore_putc DMESG_TEXT c (pstore_dmesg l);
  Some (Logs d con dm).

Definition uart_init (l : logs) : option logs :=
  let d := g_dlog l in
  data ← put_byte (log_data d) 0 0;
  let d := if negb (magic d =? XZS_DEBUG_LOG_MAGIC)
           then DebugLog XZS_DEBUG_LOG_MAGIC 2 0 1 0 (stage_code XZS_STAGE_NONE) 0 0 0 0 data
           else DebugLog (magic d) (version d) 0 (u32 (boot_count d + 1)) (exception_count d)
                  (last_stage d) (last_elr d) (last_esr d) (last_far d) (last_spsr d) data in
  Some (Logs d (Pstore PSTORE_SIG 0 0 (ps_data (pstore_console l)))
          (Pstore PSTORE_SIG 0 0 (ps_data (pstore_dmesg l)))).

Definition uart_putc (c : Z) (l : logs) : option logs :=
  l ← (if c =? 10 then mem_log_putc 13 l else Some l);
  mem_log_putc c l.

Fixpoint uart_puts (s : bytes) (l : logs) : option logs :=
  match s with
  | [] => Some l
  | c :: s => l ← uart_putc c l; uart_puts s l
  end.

Definition hex_chars : bytes := lit "0123456789abcdef".

(** [for (i = 60; i >= 0; i -= 4)]: [n] digits from bit [4 * (n - 1)] down. *)
Fixpoint puthex_from (n : nat) (value : Z) (l : logs) : option logs :=
  match n with
  | O => Some l
  | S n =>
      c ← byte_at hex_chars (Z.land (Z.shiftr value (4 * Z.of_nat n)) 15);
      l ← uart_putc c l;
      puthex_from n value l
  end.
Definition uart_puthex64 (value : Z) (l : logs) : option logs :=
  l ← uart_puts (lit "0x") l; puthex_from 16 value l.
Definition uart_puthex (val : Z) (l : logs) : option logs := uart_puthex64 val l.

(** The digits of a number, least significant first, in [buf]. *)
Definition dec_step (st : Z * Z * bytes) : option (ctl (Z * Z * bytes) (Z * bytes)) :=
  let '(val, idx, buf) := st in
  if 0 <? val then
    buf ← put_byte buf idx (48 + val mod 10);
    Some (Next (val / 10, idx + 1, buf))
  else Some (Exit (idx, buf)).

(** [for (i = idx - 1; i >= 0; i--)]. *)
Fixpoint putdec_from (idx : nat) (buf : bytes) (l : logs) : option logs :=
  match idx with
  | O => Some l
  | S idx => c ← byte_at buf (Z.of_nat idx); l ← uart_putc c l; putdec_from idx buf l
  end.

(** [buf] is the uninitialised local array of 24 characters; a 64-bit number has at most 20
    digits. *)
Definition uart_putdec (buf : bytes) (val : Z) (l : logs) : option logs :=
  if val =? 0 then uart_putc 48 l
  else
    '(idx, buf) ← loop 25 dec_step (val, 0, buf);
    putdec_from (Z.to_nat idx) buf l.

(** ** A sequence of writes *)

Inductive log_op : Type :=
  | Puts (s : bytes)
  | PutHex (v : Z)
  | PutDec (buf : bytes) (v : Z).

Definition log_step (op : log_op) (l : logs) : option logs :=
  match op with
  | Puts s => uart_puts s l
  | PutHex v => uart_puthex64 v l
  | PutDec buf v => uart_putdec buf v l
  end.

Fixpoint log_run (ops : list log_op) (l : logs) : option logs :=
  match ops with
  | [] => Some l
  | op :: ops => l ← log_step op l; log_run ops l
  end.
