(* ===== verification/ShimLogProofs.v ===== *)
(** * The boot shim's log: correctness

    Whatever the buffers held at power-up, after [uart_init] they hold the text written since,
    cut at their size: no write leaves a buffer and the text is always terminated in the
    debug log. *)

From stdpp Require Import base list strings.
From Stdlib Require Import ZArith Lia.
From S2P Require Import Prelude XzsfsCore BootArgs BootArgsProofs ShimLog.

(** ** Buffers as bounded text *)

(** The buffer holds as much of the text as fits in [cap] characters. *)
Definition holds_text (cap : Z) (text data : bytes) (used : Z) : Prop :=
  used = Z.min (zlen text) cap /\ take (Z.to_nat used) data = take (Z.to_nat used) text.

Lemma holds_text_full cap text data used c : holds_text cap text data used -> cap <= used ->
  holds_text cap (text ++ [c]) data used.
Proof.
  intros [Hu Ht] Hc. unfold holds_text. rewrite zlen_app. change (zlen [c]) with 1. split; [lia |].
  rewrite Ht, take_app_le; [done |]. unfold zlen in *. lia.
Qed.

Lemma holds_text_put cap text data used c : holds_text cap text data used -> used < cap -> cap <= zlen data ->
  exists data', put_byte data used c = Some data' /\ holds_text cap (text ++ [c]) data' (used + 1) /\
    zlen data' = zlen data.
Proof.
  intros [Hu Ht] Hc Hd. pose proof (zlen_nonneg text). exists (<[Z.to_nat used := c]> data).
  split; [apply put_byte_Some; split; [lia | done] |]. split; [| apply zlen_insert].
  unfold holds_text. rewrite zlen_app. change (zlen [c]) with 1. split; [lia |].
  assert (used = zlen text) as -> by lia. unfold zlen in *.
  replace (Z.to_nat (Z.of_nat (length text) + 1)) with (S (length text)) by lia. rewrite Nat2Z.id in *.
  rewrite (take_S_r _ _ c) by (apply list_lookup_insert_eq; lia). rewrite take_insert_ge, Ht by lia.
  rewrite take_ge by done. rewrite take_ge; [done |]. rewrite length_app. cbn. lia.
Qed.

(** Writing behind the used part changes nothing. *)
Lemma holds_text_behind cap text data used i c : holds_text cap text data used -> 0 <= used <= i ->
  holds_text cap text (<[Z.to_nat i := c]> data) used.
Proof. intros [Hu Ht] Hi. split; [done |]. by rewrite take_insert_ge by lia. Qed.

Definition dlog_ok (text : bytes) (d : xzs_debug_log) : Prop :=
  magic d = XZS_DEBUG_LOG_MAGIC /\ zlen (log_data d) = XZS_DEBUG_LOG_SIZE /\
  holds_text (XZS_DEBUG_LOG_SIZE - 1) text (log_data d) (write_offset d) /\
  log_data d !! Z.to_nat (write_offset d) = Some 0.

Definition zone_ok (cap : Z) (text : bytes) (p : pstore_buffer) : Prop :=
  ps_sig p = PSTORE_SIG /\ zlen (ps_data p) = cap /\ holds_text (cap - 1) text (ps_data p) (ps_size p).

Definition logs_ok (text : bytes) (l : logs) : Prop :=
  dlog_ok text (g_dlog l) /\ zone_ok CONSOLE_TEXT text (pstore_console l) /\ zone_ok DMESG_TEXT text (pstore_dmesg l).

Lemma dlog_putc_ok text c d : dlog_ok text d -> exists d', dlog_putc c d = Some d' /\ dlog_ok (text ++ [c]) d'.
Proof.
  intros (Hm & Hl & Ht & H0). unfold dlog_putc. rewrite Hm, Z.eqb_refl.
  pose proof Ht as [Hw _]. pose proof (zlen_nonneg text).
  destruct (Z.ltb_spec (write_offset d) (XZS_DEBUG_LOG_SIZE - 1)).
  - destruct (holds_text_put _ _ _ _ c Ht) as (data & -> & Ht' & Hl'); [lia.. |]. cbn [mbind option_bind].
    assert (put_byte data (write_offset d + 1) 0 = Some (<[Z.to_nat (write_offset d + 1) := 0]> data)) as ->
      by (apply put_byte_Some; split; [lia | done]). cbn [mbind option_bind].
    rewrite u32_small by (unfold XZS_DEBUG_LOG_SIZE in *; cint). eexists. split; [done |].
    split; [done |]. cbn [log_data write_offset magic]. rewrite zlen_insert. split; [lia |].
    split; [apply holds_text_behind; [done | lia] |]. apply list_lookup_insert_eq. unfold zlen in *. lia.
  - exists d. split; [done |]. split_and!; try done. by apply holds_text_full.
Qed.

Lemma pstore_putc_ok cap text c p : 1 < cap < 2 ^ 31 -> zone_ok cap text p ->
  exists p', pstore_putc cap c p = Some p' /\ zone_ok cap (text ++ [c]) p'.
Proof.
  intros Hc (Hs & Hl & Ht). unfold pstore_putc. rewrite Hs, Z.eqb_refl. cbn [negb].
  pose proof Ht as [Hw _]. pose proof (zlen_nonneg text). destruct (Z.ltb_spec (ps_size p) (cap - 1)).
  - destruct (holds_text_put _ _ _ _ c Ht) as (data & -> & Ht' & Hl'); [lia.. |]. cbn [mbind option_bind].
    rewrite u32_small by cint. eexists. split; [done |]. split; [done |]. cbn [ps_data ps_size]. split; [lia | done].
  - exists p. split; [done |]. split_and!; try done. by apply holds_text_full.
Qed.

Lemma mem_log_putc_ok text c l : logs_ok text l -> exists l', mem_log_putc c l = Some l' /\ logs_ok (text ++ [c]) l'.
Proof.
  intros (Hd & Hc & Hm). unfold mem_log_putc. destruct (dlog_putc_ok text c _ Hd) as (d & -> & Hd'). cbn [mbind option_bind].
  destruct (pstore_putc_ok CONSOLE_TEXT text c _ ltac:(done) Hc) as (p & -> & Hp). cbn [mbind option_bind].
  destruct (pstore_putc_ok DMESG_TEXT text c _ ltac:(done) Hm) as (q & -> & Hq). cbn [mbind option_bind].
  eexists. by split.
Qed.

(** ** Text *)

(** A newline is preceded by a carriage return. *)
Definition expand_char (c : Z) : bytes := if c =? 10 then [13; 10] else [c].
Definition expand (s : bytes) : bytes := concat (expand_char <$> s).

(** A program writes [out]. *)
Definition writes (m : logs -> option logs) (out : bytes) : Prop :=
  forall text l, logs_ok text l -> exists l', m l = Some l' /\ logs_ok (text ++ out) l'.

Lemma writes_nil : writes Some [].
Proof. intros text l H. exists l. by rewrite app_nil_r. Qed.

Lemma writes_seq m k a b : writes m a -> writes k b -> writes (fun l => l ← m l; k l) (a ++ b).
Proof.
  intros Hm Hk text l H. destruct (Hm text l H) as (l1 & -> & H1). cbn [mbind option_bind].
  destruct (Hk _ l1 H1) as (l2 & -> & H2). exists l2. by rewrite app_assoc.
Qed.

Lemma putc_writes c : writes (uart_putc c) (expand_char c).
Proof.
  unfold uart_putc, expand_char. destruct (c =? 10) eqn:E.
  - apply Z.eqb_eq in E as ->. apply (writes_seq _ _ [13] [10]); intros text l; apply mem_log_putc_ok.
  - intros text l H. cbn [mbind option_bind]. by apply mem_log_putc_ok.
Qed.

Lemma puts_writes s : writes (uart_puts s) (expand s).
Proof.
  induction s as [|c s IH]; [apply writes_nil |]. apply (writes_seq _ _ (expand_char c)); [apply putc_writes | done].
Qed.

(** ** Numbers *)

(** All sixteen digits of a 64-bit number. *)
Fixpoint hex_digits (n : nat) (v : Z) : list Z :=
  match n with
  | O => []
  | S n => (v / 16 ^ Z.of_nat n) mod 16 :: hex_digits n v
  end.

Lemma hex_char_at d : 0 <= d < 16 -> byte_at hex_chars d = Some (digit_char d) /\ digit_char d <> 10.
Proof.
  intros Hd. assert (exists k : nat, d = Z.of_nat k /\ (k < 16)%nat) as (k & -> & Hk)
    by (exists (Z.to_nat d); lia).
  do 16 (destruct k as [|k]; [by split |]). lia.
Qed.

Lemma puthex_from_writes n v : writes (puthex_from n v) (digit_char <$> hex_digits n v).
Proof.
  induction n as [|n IH]; [apply writes_nil |]. cbn [puthex_from hex_digits fmap list_fmap].
  assert (Z.land (Z.shiftr v (4 * Z.of_nat n)) 15 = (v / 16 ^ Z.of_nat n) mod 16) as ->.
  { rewrite Z.shiftr_div_pow2 by lia. change 15 with (Z.ones 4). rewrite Z.land_ones by lia.
    rewrite Z.pow_mul_r by lia. done. }
  destruct (hex_char_at ((v / 16 ^ Z.of_nat n) mod 16)) as [-> Hc]; [apply Z.mod_pos_bound; lia |].
  cbn [mbind option_bind]. change (?c :: ?l) with ([c] ++ l). apply writes_seq; [| done].
  pose proof (putc_writes (digit_char ((v / 16 ^ Z.of_nat n) mod 16))) as Hp. unfold expand_char in Hp.
  by rewrite (proj2 (Z.eqb_neq _ 10)) in Hp.
Qed.

Lemma puthex_writes v : writes (uart_puthex64 v) (lit "0x" ++ (digit_char <$> hex_digits 16 v)).
Proof. apply (writes_seq _ _ (expand (lit "0x"))); [apply puts_writes | apply puthex_from_writes]. Qed.

(** The digits in the buffer, read backwards. *)
Lemma dec_loop f : forall v acc idx buf fuel, 0 < v < 2 ^ Z.of_nat f -> Z.of_nat (length acc) = idx ->
  reverse (take (length acc) buf) = digit_char <$> acc -> v < 10 ^ (zlen buf - idx) ->
  (Z.to_nat (zlen buf - idx) < fuel)%nat ->
  exists idx' buf', loop fuel dec_step (v, idx, buf) = Some (idx', buf') /\
    idx' = zlen (digits f 10 v acc) /\ idx' <= zlen buf' /\
    reverse (take (Z.to_nat idx') buf') = digit_char <$> digits f 10 v acc.
Proof.
  induction f as [|f IH]; intros v acc idx buf fuel Hv Hi Hr Hb Hf; [cbn in Hv; lia |].
  destruct fuel as [|fuel]; [lia |]. cbn [loop]. unfold dec_step at 1. rewrite (proj2 (Z.ltb_lt 0 v)) by lia.
  assert (idx < zlen buf) as Hlt.
  { destruct (Z.lt_ge_cases idx (zlen buf)); [done |]. assert (zlen buf - idx <= 0) as Hz by lia.
    assert (10 ^ (zlen buf - idx) <= 1) by (destruct (Z.eq_dec (zlen buf - idx) 0) as [-> |]; [done |]; rewrite Z.pow_neg_r by lia; lia). lia. }
  set (buf1 := <[Z.to_nat idx := 48 + v mod 10]> buf).
  assert (put_byte buf idx (48 + v mod 10) = Some buf1) as -> by (apply put_byte_Some; split; [lia | done]).
  cbn [mbind option_bind]. assert (zlen buf1 = zlen buf) as Hl1 by apply zlen_insert.
  pose proof (Z.mod_pos_bound v 10 ltac:(lia)) as Hmod.
  assert (reverse (take (S (length acc)) buf1) = digit_char <$> (v mod 10 :: acc)) as Hr1.
  { unfold buf1. rewrite (take_S_r _ _ (48 + v mod 10)) by (replace (Z.to_nat idx) with (length acc) by lia;
      apply list_lookup_insert_eq; unfold zlen in *; lia).
    rewrite take_insert_ge by lia. rewrite reverse_snoc, Hr. cbn [fmap list_fmap]. f_equal. unfold digit_char.
    by rewrite (proj2 (Z.ltb_lt _ 10)) by lia. }
  cbn [digits]. destruct (Z.ltb_spec v 10).
  - rewrite Z.div_small by lia. destruct fuel as [|fuel]; [lia |]. cbn [loop]. unfold dec_step. cbn [Z.ltb Z.compare].
    exists (idx + 1), buf1. rewrite Z.mod_small in Hr1 by lia. split; [done |]. split; [rewrite zlen_cons; unfold zlen; lia |].
    split; [lia |]. by replace (Z.to_nat (idx + 1)) with (S (length acc)) by lia.
  - assert (10 ^ (zlen buf - idx) = 10 * 10 ^ (zlen buf1 - (idx + 1))) as Hp.
    { rewrite <- Z.pow_succ_r by lia. f_equal. lia. }
    apply (IH (v / 10) (v mod 10 :: acc) (idx + 1) buf1 fuel); [| cbn [length]; lia | done | | lia].
    + split; [apply Z.div_str_pos; lia |]. apply Z.div_lt_upper_bound; [lia |].
      rewrite Nat2Z.inj_succ, Z.pow_succ_r in Hv by lia. lia.
    + apply Z.div_lt_upper_bound; lia.
Qed.

Lemma putdec_from_writes idx buf : (idx <= length buf)%nat -> Forall (fun c => c <> 10) (take idx buf) ->
  writes (putdec_from idx buf) (reverse (take idx buf)).
Proof.
  intros Hi Hb. induction idx as [|idx IH]; [apply writes_nil |]. cbn [putdec_from].
  destruct (lookup_lt_is_Some_2 buf idx) as [c Ec]; [lia |]. unfold byte_at.
  rewrite (proj2 (Z.leb_le _ _)), Nat2Z.id, Ec by lia. cbn [mbind option_bind].
  rewrite (take_S_r _ _ c Ec) in *. apply Forall_app in Hb as [Hb Hc]. apply Forall_cons in Hc as [Hc _].
  rewrite reverse_snoc. change (?c :: ?l) with ([c] ++ l). apply writes_seq; [| apply IH; [lia | done]].
  pose proof (putc_writes c) as Hp. unfold expand_char in Hp.
  by rewrite (proj2 (Z.eqb_neq _ 10)) in Hp.
Qed.

Lemma putdec_writes buf v : zlen buf = 24 -> 0 <= v < 2 ^ 64 -> writes (uart_putdec buf v) (print_dec v).
Proof.
  intros Hb Hv. unfold uart_putdec. destruct (Z.eqb_spec v 0) as [-> | Hne]; [apply (putc_writes 48) |].
  destruct (digits_of_spec 10 v ltac:(lia) ltac:(lia)) as (Hds & _).
  assert (v < 2 ^ Z.of_nat (S (Z.to_nat (Z.log2 v)))) as Hlog.
  { pose proof (Z.log2_spec v ltac:(lia)) as [_ Hlog]. pose proof (Z.log2_nonneg v).
    by replace (Z.of_nat (S (Z.to_nat (Z.log2 v)))) with (Z.succ (Z.log2 v)) by lia. }
  destruct (dec_loop (S (Z.to_nat (Z.log2 v))) v [] 0 buf 25) as (idx & buf' & -> & Hidx & Hle & Hr);
    [lia | done | done | rewrite Hb; change (10 ^ (24 - 0)) with 1000000000000000000000000; cint | rewrite Hb; cbn; lia |].
  cbn [mbind option_bind]. fold (digits_of 10 v) in *. unfold print_dec. rewrite <- Hr. apply putdec_from_writes.
  - unfold zlen in *. lia.
  - rewrite <- Forall_reverse, Hr. apply Forall_fmap. eapply Forall_impl; [exact Hds |].
    intros d Hd. change (digit_char d <> 10). unfold digit_char. cbv beta in Hd. destruct (Z.ltb_spec d 10); lia.
Qed.

(** ** Programs of the log interface *)

Definition log_op_ok (op : log_op) : Prop :=
  match op with
  | PutDec buf v => zlen buf = 24 /\ 0 <= v < 2 ^ 64
  | _ => True
  end.

Definition rendered (op : log_op) : bytes :=
  match op with
  | Puts s => expand s
  | PutHex v => lit "0x" ++ (digit_char <$> hex_digits 16 v)
  | PutDec _ v => print_dec v
  end.

Lemma log_run_writes ops : Forall log_op_ok ops -> writes (log_run ops) (concat (rendered <$> ops)).
Proof.
  induction 1 as [|op ops Hop _ IH]; [apply writes_nil |]. cbn [log_run fmap list_fmap concat].
  apply writes_seq; [| done]. destruct op as [s | v | buf v]; cbn [log_op_ok log_step rendered] in *.
  - apply puts_writes.
  - apply puthex_writes.
  - destruct Hop. by apply putdec_writes.
Qed.

(** The sizes of the buffers; their contents at power-up are anything. *)
Definition logs_sized (l : logs) : Prop :=
  zlen (log_data (g_dlog l)) = XZS_DEBUG_LOG_SIZE /\ zlen (ps_data (pstore_console l)) = CONSOLE_TEXT /\
  zlen (ps_data (pstore_dmesg l)) = DMESG_TEXT.

Lemma uart_init_ok l0 : logs_sized l0 -> exists l, uart_init l0 = Some l /\ logs_ok [] l.
Proof.
  intros (Hd & Hc & Hm). unfold uart_init. destruct (log_data (g_dlog l0)) as [|x data] eqn:E; [done |].
  pose proof (put_byte_here [] x data 0) as Hp. cbn [app] in Hp. change (zlen (@nil Z)) with 0 in Hp. rewrite Hp.
  cbn [mbind option_bind]. eexists. split; [done |]. split; [| by split_and!].
  unfold dlog_ok. destruct (negb _) eqn:Em; cbn [g_dlog magic log_data write_offset].
  - split_and!; try done.
  - apply negb_false_iff, Z.eqb_eq in Em. by split_and!.
Qed.

(** C40. The boot shim's log is exact and confined: whatever the three log buffers hold at
    power-up, after [uart_init] any sequence of writes, of text, hexadecimal and decimal
    numbers, stays inside the buffers and leaves each holding the rendered text (newlines as
    CRLF, sixteen hexadecimal digits, decimal digits) cut to its capacity; the debug log is
    always terminated. *)
Theorem shim_log_exact ops l0 : logs_sized l0 -> Forall log_op_ok ops ->
  exists l, (l ← uart_init l0; log_run ops l) = Some l /\ logs_ok (concat (rendered <$> ops)) l.
Proof.
  intros Hl Hops. destruct (uart_init_ok l0 Hl) as (l1 & -> & H1). cbn [mbind option_bind].
  exact (log_run_writes ops Hops [] l1 H1).
Qed.

Definition blank_log : logs :=
  Logs (DebugLog 0 0 0 0 0 0 0 0 0 0 (replicate (Z.to_nat XZS_DEBUG_LOG_SIZE) 255))
    (Pstore 0 0 0 (replicate (Z.to_nat CONSOLE_TEXT) 255)) (Pstore 0 0 0 (replicate (Z.to_nat DMESG_TEXT) 255)).

Lemma blank_log_sized : logs_sized blank_log.
Proof.
  unfold logs_sized, blank_log. cbn [g_dlog log_data ps_data pstore_console pstore_dmesg].
  rewrite !zlen_replicate. by vm_compute.
Qed.

Lemma shim_log_exact_witness :
  exists l, (l ← uart_init blank_log; log_run [Puts (lit "ADT size: "); PutDec (replicate 24 7) 7368; Puts [10]] l) = Some l /\
    logs_ok (lit "ADT size: 7368" ++ [13; 10]) l.
Proof.
  destruct (shim_log_exact [Puts (lit "ADT size: "); PutDec (replicate 24 7) 7368; Puts [10]] blank_log) as (l & Hl & Hok).
  - exact blank_log_sized.
  - repeat constructor; cbn; lia.
  - exists l. split; [exact Hl |]. exact Hok.
Defined.
