(* ===== verification/ShimFdt.v ===== *)
(** * The boot shim: the Linux device tree

    Models [fdt_get_initrd_start] of xzs-bootshim/main.c, which walks the flattened device tree
    the vendor boot loader leaves in memory, and proves it finds the property it looks for.
    Memory is a partial function from addresses to bytes: reading where there is none is
    [Fault]. *)

From stdpp Require Import base list strings.
From Stdlib Require Import ZArith Lia.
From S2P Require Import Prelude XzsfsCore Memory.

(** [(p + 3) & ~3]. *)
Definition align4 (p : Z) : Z := Z.land (p + 3) (Z.lnot 3).

(** ** The walk *)

Definition FDT_BEGIN_NODE : Z := 1.
Definition FDT_END_NODE : Z := 2.
Definition FDT_PROP : Z := 3.
Definition FDT_END : Z := 9.

Definition needle : bytes := lit "initrd-start".

(** The string at [sub] is exactly the rest of the needle. *)
Fixpoint match_needle (m : mem) (sub : Z) (nd : bytes) : outcome bool :=
  c ← load8 m sub;
  match nd with
  | [] => Ret (c =? 0)
  | n :: nd => if (c =? 0) || negb (c =? n) then Ret false else match_needle m (sub + 1) nd
  end.

(** Does some suffix of the name match? *)
Definition name_matches (fuel : nat) (m : mem) (name : Z) : outcome bool :=
  loop_ret fuel
    (fun p1 => c ← load8 m p1;
       if c =? 0 then Ret (Exit false)
       else b ← match_needle m p1 needle; Ret (if b : bool then Exit true else Next (p1 + 1))) name.

(** [while (p < end && *p != 0) p++]. *)
Definition skip_name (fuel : nat) (m : mem) (end_ p : Z) : outcome Z :=
  loop_ret fuel
    (fun p => if p <? end_ then c ← load8 m p; Ret (if c =? 0 then Exit p else Next (p + 1))
              else Ret (Exit p)) p.

(** One tag at [p]; the walk leaves with the result. *)
Definition fdt_step (fuel : nat) (m : mem) (blob totalsize off_strings : Z) (p : Z) : outcome (ctl Z Z) :=
  let end_ := blob + totalsize in
  if p + 4 <=? end_ then
    tag ← load_be32 m p;
    let p := p + 4 in
    if tag =? FDT_BEGIN_NODE then
      p ← skip_name fuel m end_ p; Ret (Next (align4 (p + 1)))
    else if tag =? FDT_END_NODE then Ret (Next p)
    else if tag =? FDT_PROP then
      if end_ <? p + 8 then Ret (Exit 0)
      else
        len ← load_be32 m p;
        nameoff ← load_be32 m (p + 4);
        let p := p + 8 in
        found ← (if u32 (off_strings + nameoff) <? totalsize
                 then name_matches fuel m (blob + off_strings + nameoff) else Ret false);
        if (found : bool) && (len =? 4) then v ← load_be32 m p; Ret (Exit v)
        else if found && (len =? 8) then v ← load_be32 m (p + 4); Ret (Exit v)
        else Ret (Next (align4 (p + len)))
    else if tag =? FDT_END then Ret (Exit 0)
    else Ret (Next p)
  else Ret (Exit 0).

(** The four magic bytes are read up to the first that differs. *)
Fixpoint magic_differs (m : mem) (p : Z) (want : bytes) : outcome bool :=
  match want with
  | [] => Ret false
  | b :: want => c ← load8 m p; if negb (c =? b) then Ret true else magic_differs m (p + 1) want
  end.

Definition fdt_get_initrd_start (fuel : nat) (m : mem) (fdt_addr : Z) : outcome Z :=
  if fdt_addr =? 0 then Ret 0
  else
    bad ← magic_differs m fdt_addr [0xd0; 0x0d; 0xfe; 0xed];
    if (bad : bool) then Ret 0
    else
      totalsize ← load_be32 m (fdt_addr + 4);
      off_struct ← load_be32 m (fdt_addr + 8);
      off_strings ← load_be32 m (fdt_addr + 12);
      if (totalsize <=? off_struct) || (totalsize <=? off_strings) then Ret 0
      else loop_ret fuel (fdt_step fuel m fdt_addr totalsize off_strings) (fdt_addr + off_struct).

(** ** Flattened trees *)

Inductive fdt_token : Type :=
  | TBegin (name : bytes)
  | TEnd
  | TProp (nameoff : Z) (value : bytes)
  | TNop (tag : Z).

(** Zero bytes up to a multiple of four. *)
Definition pad4 (n : Z) : bytes := replicate (Z.to_nat ((- n) mod 4)) 0.

Definition token_bytes (t : fdt_token) : bytes :=
  match t with
  | TBegin name => be_split FDT_BEGIN_NODE ++ name ++ 0 :: pad4 (zlen name + 1)
  | TEnd => be_split FDT_END_NODE
  | TProp nameoff value => be_split FDT_PROP ++ be_split (zlen value) ++ be_split nameoff ++ value ++ pad4 (zlen value)
  | TNop tag => be_split tag
  end.

Definition tokens_bytes (ts : list fdt_token) : bytes := concat (token_bytes <$> ts).

Lemma align4_spec p : align4 p = 4 * ((p + 3) / 4).
Proof. unfold align4. change (Z.lnot 3) with (Z.lnot (2 ^ 2 - 1)). by rewrite land_lnot_ones by lia. Qed.

Lemma align4_pad p n : p mod 4 = 0 -> 0 <= n -> align4 (p + n) = p + n + zlen (pad4 n).
Proof.
  intros Hp Hn. rewrite align4_spec. unfold pad4. rewrite zlen_replicate, Z2Nat.id by (apply Z.mod_pos_bound; lia). zdm.
Qed.

Lemma zlen_pad4 n : (n + zlen (pad4 n)) mod 4 = 0.
Proof. unfold pad4. rewrite zlen_replicate, Z2Nat.id by (apply Z.mod_pos_bound; lia). zdm. Qed.

(** ** Names *)

Lemma match_needle_spec m nd : forall s a, no_nul nd -> no_nul s -> stored m a (s ++ [0]) ->
  match_needle m a nd = Ret (bool_decide (s = nd)).
Proof.
  induction nd as [|n nd IH]; intros s a Hnd Hs Hst; (destruct s as [|c s]; cbn [app] in Hst; cbn [match_needle];
    rewrite (stored_load _ _ _ _ Hst); cbn [mbind outcome_bind]).
  - done.
  - apply Forall_cons in Hs as [Hc _]. by rewrite (proj2 (Z.eqb_neq c 0)) by done.
  - done.
  - apply Forall_cons in Hs as [Hc Hs]. apply Forall_cons in Hnd as [Hn Hnd]. rewrite (proj2 (Z.eqb_neq c 0)) by done.
    cbn [orb]. destruct (Z.eqb_spec c n) as [-> | Hne]; cbn [negb].
    + apply stored_cons in Hst as [_ Hst]. rewrite (IH s (a + 1)) by done. f_equal. apply bool_decide_ext. split; congruence.
    + rewrite bool_decide_eq_false_2 by congruence. done.
Qed.

Lemma needle_no_nul : no_nul needle.
Proof. by apply (bool_decide_unpack _); vm_compute. Qed.

Lemma suffix_cons_iff {A} (k l : list A) x : k `suffix_of` (x :: l) <-> k = x :: l \/ k `suffix_of` l.
Proof.
  split; [| intros [-> | H]; [done | by apply suffix_cons_r]].
  intros [[|y p] E]; [by left |]. injection E as _ E. right. by exists p.
Qed.

Lemma name_matches_spec m s : forall fuel a, no_nul s -> stored m a (s ++ [0]) -> (length s < fuel)%nat ->
  name_matches fuel m a = Ret (bool_decide (needle `suffix_of` s)).
Proof.
  unfold name_matches. induction s as [|c s IH]; intros fuel a Hs Hst Hf; (destruct fuel as [|fuel]; [cbn in Hf; lia |]);
    cbn [loop_ret]; rewrite (stored_load _ _ _ _ Hst); cbn [mbind outcome_bind].
  - done.
  - pose proof Hs as [Hc Hs']%Forall_cons. rewrite (proj2 (Z.eqb_neq c 0)) by done.
    rewrite (match_needle_spec m needle (c :: s) a needle_no_nul Hs Hst). cbn [mbind outcome_bind].
    destruct (decide (c :: s = needle)) as [E | E].
    + rewrite bool_decide_eq_true_2 by done. f_equal. symmetry. apply bool_decide_eq_true_2. by rewrite E.
    + rewrite bool_decide_eq_false_2 by done. cbn [app] in Hst. apply stored_cons in Hst as [_ Hst].
      cbn in Hf. rewrite IH by (done || lia). f_equal. apply bool_decide_ext. rewrite suffix_cons_iff. split; [by right |].
      intros [Hx | Hx]; [by symmetry in Hx | done].
Qed.

Lemma skip_name_spec m s : forall fuel a end_, no_nul s -> stored m a (s ++ [0]) -> a + zlen s < end_ -> (length s < fuel)%nat ->
  skip_name fuel m end_ a = Ret (a + zlen s).
Proof.
  unfold skip_name. induction s as [|c s IH]; intros fuel a end_ Hs Hst He Hf; (destruct fuel as [|fuel]; [cbn in Hf; lia |]);
    cbn [loop_ret].
  - change (zlen (@nil Z)) with 0 in *. rewrite (proj2 (Z.ltb_lt _ _)) by lia. rewrite (stored_load _ _ _ _ Hst).
    cbn [mbind outcome_bind Z.eqb]. by rewrite Z.add_0_r.
  - rewrite zlen_cons in *. pose proof (zlen_nonneg s). rewrite (proj2 (Z.ltb_lt _ _)) by lia.
    rewrite (stored_load _ _ _ _ Hst). cbn [mbind outcome_bind]. apply Forall_cons in Hs as [Hc Hs].
    rewrite (proj2 (Z.eqb_neq c 0)) by done. apply stored_cons in Hst as [_ Hst]. cbn in Hf.
    rewrite IH by (done || lia). f_equal. lia.
Qed.

Lemma four_bytes (l : bytes) : zlen l = 4 -> exists b0 b1 b2 b3, l = [b0; b1; b2; b3].
Proof.
  unfold zlen. intros H. do 4 (destruct l as [|? l]; [cbn in H; lia |]). destruct l; [| cbn in H; lia]. by do 4 eexists.
Qed.

Lemma Forall_four (P : Z -> Prop) b0 b1 b2 b3 : Forall P [b0; b1; b2; b3] <-> P b0 /\ P b1 /\ P b2 /\ P b3.
Proof. rewrite !Forall_cons, Forall_nil. tauto. Qed.

(** ** The walk over a well-formed tree *)

Section walk.
Context (m : mem) (A T S : Z) (names : Z -> bytes) (fuel : nat).
Context (HT : 0 <= T < 2 ^ 32) (HS : 0 <= S).

(** The string block gives each property its name. *)
Definition token_ok (t : fdt_token) : Prop :=
  match t with
  | TBegin name => no_nul name /\ (length name < fuel)%nat
  | TEnd => True
  | TProp off value => zlen value < 2 ^ 32 /\ Forall is_u8 value /\ 0 <= off /\ S + off < T /\
      no_nul (names off) /\ (length (names off) < fuel)%nat /\ stored m (A + S + off) (names off ++ [0])
  | TNop tag => 0 <= tag < 2 ^ 32 /\ tag ∉ [FDT_BEGIN_NODE; FDT_END_NODE; FDT_PROP; FDT_END]
  end.

(** The value of an initrd-start property: its last four bytes. *)
Definition initrd_prop (t : fdt_token) : option Z :=
  match t with
  | TProp off value =>
      if bool_decide (needle `suffix_of` names off) && ((zlen value =? 4) || (zlen value =? 8))
      then Some (be_value (drop (length value - 4) value)) else None
  | _ => None
  end.

Fixpoint initrd_of (ts : list fdt_token) : Z :=
  match ts with
  | [] => 0
  | t :: ts => match initrd_prop t with Some v => v | None => initrd_of ts end
  end.

Lemma tag_step p tag rest : stored m p (be_split tag ++ rest) -> 0 <= tag < 2 ^ 32 -> p + 4 <= A + T ->
  (p + 4 <=? A + T) = true /\ load_be32 m p = Ret tag.
Proof. intros. split; [apply Z.leb_le; lia | by eapply load_be_split]. Qed.

Lemma fdt_step_token p t rest : token_ok t -> p mod 4 = 0 -> stored m p (token_bytes t ++ rest) ->
  p + zlen (token_bytes t) + 4 <= A + T ->
  fdt_step fuel m A T S p =
  Ret (match initrd_prop t with Some v => Exit v | None => Next (p + zlen (token_bytes t)) end).
Proof.
  intros Hok Hp Hst Hend. pose proof (zlen_nonneg (token_bytes t)). unfold fdt_step.
  destruct t as [name | | off value | tag]; cbn [token_bytes initrd_prop token_ok] in *.
  - rewrite <- app_assoc in Hst. destruct (tag_step p FDT_BEGIN_NODE _ Hst ltac:(done) ltac:(lia)) as [-> ->].
    cbn [mbind outcome_bind]. change (FDT_BEGIN_NODE =? FDT_BEGIN_NODE) with true. cbv iota.
    apply stored_app in Hst as [_ Hst]. change (zlen (be_split _)) with 4 in *. destruct Hok as [Hn Hf].
    rewrite <- app_assoc in Hst. cbn [app] in Hst. change (0 :: ?l) with ([0] ++ l) in Hst. rewrite app_assoc in Hst.
    apply stored_app in Hst as [Hst _]. rewrite !zlen_app, zlen_cons in *. change (zlen (be_split _)) with 4 in *.
    pose proof (zlen_nonneg name). pose proof (zlen_nonneg (pad4 (zlen name + 1))).
    rewrite (skip_name_spec m name) by (done || lia). cbn [mbind outcome_bind].
    replace (p + 4 + zlen name + 1) with (p + 4 + (zlen name + 1)) by lia.
    rewrite align4_pad by zdm. do 2 f_equal. lia.
  - destruct (tag_step p FDT_END_NODE _ Hst ltac:(done) ltac:(lia)) as [-> ->]. done.
  - destruct Hok as (Hv & Hu & Ho & HSo & Hn & Hf & Hname). rewrite <- !app_assoc in Hst.
    destruct (tag_step p FDT_PROP _ Hst ltac:(done) ltac:(lia)) as [-> ->].
    cbn [mbind outcome_bind]. change (FDT_PROP =? FDT_BEGIN_NODE) with false. change (FDT_PROP =? FDT_END_NODE) with false.
    change (FDT_PROP =? FDT_PROP) with true. cbv iota. pose proof (zlen_nonneg value). pose proof (zlen_nonneg (pad4 (zlen value))).
    rewrite !zlen_app in *. change (zlen (be_split FDT_PROP)) with 4 in *.
    change (zlen (be_split (zlen value))) with 4 in *. change (zlen (be_split off)) with 4 in *.
    rewrite (proj2 (Z.ltb_ge (A + T) _)) by lia. apply stored_app in Hst as [_ Hst]. change (zlen (be_split _)) with 4 in Hst.
    rewrite (load_be_split _ _ _ _ Hst) by lia. cbn [mbind outcome_bind].
    apply stored_app in Hst as [_ Hst]. change (zlen (be_split _)) with 4 in Hst.
    rewrite (load_be_split _ _ _ _ Hst) by lia. cbn [mbind outcome_bind].
    apply stored_app in Hst as [_ Hst]. change (zlen (be_split _)) with 4 in Hst.
    rewrite u32_small by cint. rewrite (proj2 (Z.ltb_lt _ T)) by lia.
    rewrite (name_matches_spec m (names off)) by done. cbn [mbind outcome_bind].
    replace (p + 4 + 4 + 4) with (p + 4 + 8) in Hst by lia.
    destruct (bool_decide (needle `suffix_of` names off)); cbn [andb].
    2:{ rewrite align4_pad by zdm. do 2 f_equal. lia. }
    destruct (Z.eqb_spec (zlen value) 4) as [E4 | E4]; cbn [orb].
    { destruct (four_bytes value E4) as (b0 & b1 & b2 & b3 & ->). cbn [app] in Hst. apply Forall_four in Hu as (? & ? & ? & ?).
      by rewrite (load_be_bytes _ _ _ _ _ _ _ Hst). }
    destruct (Z.eqb_spec (zlen value) 8) as [E8 | E8].
    { rewrite <- (take_drop 4 value) in Hst, Hu. apply Forall_app in Hu as [_ Hu].
      rewrite <- app_assoc in Hst. apply stored_app in Hst as [_ Hst].
      change (take 4) with (take (A := Z) (Z.to_nat 4)) in Hst. rewrite zlen_take in Hst by lia.
      destruct (four_bytes (drop 4 value)) as (b0 & b1 & b2 & b3 & E); [unfold zlen in *; rewrite length_drop; lia |].
      replace (length value - 4)%nat with 4%nat by (unfold zlen in *; lia). rewrite E in *.
      cbn [app] in Hst. apply Forall_four in Hu as (? & ? & ? & ?). by rewrite (load_be_bytes _ _ _ _ _ _ _ Hst). }
    rewrite align4_pad by zdm. do 2 f_equal. lia.
  - destruct Hok as [Ht Hin]. destruct (tag_step p tag _ Hst Ht ltac:(lia)) as [-> ->]. cbn [mbind outcome_bind].
    rewrite !not_elem_of_cons in Hin. destruct Hin as (H1 & H2 & H3 & H9 & _).
    by rewrite !(proj2 (Z.eqb_neq tag _)) by done.
Qed.

Lemma token_aligned t : zlen (token_bytes t) mod 4 = 0.
Proof.
  destruct t as [name | | off value | tag]; cbn [token_bytes]; [| done | | done].
  - rewrite !zlen_app, zlen_cons. change (zlen (be_split _)) with 4. pose proof (zlen_pad4 (zlen name + 1)). zdm.
  - rewrite !zlen_app. change (zlen (be_split ?x)) with 4. pose proof (zlen_pad4 (zlen value)). zdm.
Qed.

Lemma fdt_walk ts : forall p n, Forall token_ok ts -> p mod 4 = 0 -> stored m p (tokens_bytes ts ++ be_split FDT_END) ->
  p + zlen (tokens_bytes ts) + 4 <= A + T -> (length ts < n)%nat ->
  loop_ret n (fdt_step fuel m A T S) p = Ret (initrd_of ts).
Proof.
  induction ts as [|t ts IH]; intros p n Hok Hp Hst Hend Hn; (destruct n as [|n]; [cbn in Hn; lia |]); cbn [loop_ret].
  - change (zlen (tokens_bytes [])) with 0 in Hend. unfold fdt_step.
    destruct (tag_step p FDT_END [] Hst ltac:(done) ltac:(lia)) as [-> ->]. done.
  - apply Forall_cons in Hok as [Ht Hok]. change (tokens_bytes (t :: ts)) with (token_bytes t ++ tokens_bytes ts) in *.
    rewrite zlen_app in Hend. rewrite <- app_assoc in Hst. pose proof (zlen_nonneg (tokens_bytes ts)).
    rewrite (fdt_step_token p t _ Ht Hp Hst) by lia. cbn [mbind outcome_bind initrd_of].
    destruct (initrd_prop t); [done |]. apply stored_app in Hst as [_ Hst]. cbn in Hn.
    pose proof (token_aligned t). apply IH; (done || lia || zdm).
Qed.
End walk.

(** ** Properties *)

(** A device tree blob of [T] bytes at [A]: its header, structure block and string block. *)
Record fdt_at (m : mem) (A T off_struct off_strings : Z) (names : Z -> bytes) (ts : list fdt_token) (fuel : nat) : Prop := {
  fa_addr : A <> 0 /\ A mod 4 = 0;
  fa_header : stored m A ([0xd0; 0x0d; 0xfe; 0xed] ++ be_split T ++ be_split off_struct ++ be_split off_strings);
  fa_struct : 0 <= off_struct /\ off_struct mod 4 = 0 /\ off_struct + zlen (tokens_bytes ts) + 4 <= T < 2 ^ 32;
  fa_strings : 0 <= off_strings < T;
  fa_tokens : stored m (A + off_struct) (tokens_bytes ts ++ be_split FDT_END);
  fa_ok : Forall (token_ok m A T off_strings names fuel) ts;
  fa_fuel : (length ts < fuel)%nat;
}.

(** The boot shim reads the vendor's device tree correctly: on a well-formed flattened
    tree in memory [fdt_get_initrd_start] terminates without reading outside it, and returns the
    low word of the first property whose name ends in "initrd-start" and whose value is a
    32-bit or a 64-bit number, or 0 when there is none. *)
Theorem fdt_initrd_refines m A T off_struct off_strings names ts fuel :
  fdt_at m A T off_struct off_strings names ts fuel ->
  fdt_get_initrd_start fuel m A = Ret (initrd_of names ts).
Proof.
  intros [[HA Hal] Hh (Ho & Hoal & HoT) HS Htok Hok Hf]. unfold fdt_get_initrd_start. rewrite (proj2 (Z.eqb_neq A 0)) by done.
  pose proof (zlen_nonneg (tokens_bytes ts)). assert (magic_differs m A [0xd0; 0x0d; 0xfe; 0xed] = Ret false) as ->.
  { cbn [app] in Hh. rewrite !stored_cons in Hh. destruct Hh as (H0 & H1 & H2 & H3 & _). unfold magic_differs, load8.
    rewrite H0, H1, H2, H3. done. }
  cbn [mbind outcome_bind]. apply stored_app in Hh as [_ Hh]. change (zlen [_; _; _; _]) with 4 in Hh.
  rewrite (load_be_split _ _ _ _ Hh) by lia. cbn [mbind outcome_bind].
  apply stored_app in Hh as [_ Hh]. change (zlen (be_split _)) with 4 in Hh. replace (A + 4 + 4) with (A + 8) in Hh by lia.
  rewrite (load_be_split _ _ _ _ Hh) by lia. cbn [mbind outcome_bind].
  apply stored_app in Hh as [_ Hh]. change (zlen (be_split _)) with 4 in Hh. replace (A + 8 + 4) with (A + 12) in Hh by lia.
  rewrite <- (app_nil_r (be_split off_strings)) in Hh. rewrite (load_be_split _ _ _ _ Hh) by lia. cbn [mbind outcome_bind].
  rewrite !(proj2 (Z.leb_gt T _)) by lia. cbn [orb].
  apply fdt_walk; try done; [lia.. | zdm | lia].
Qed.

Definition sample_names (off : Z) : bytes := if off =? 0 then lit "bootargs" else lit "linux,initrd-start".
Definition sample_tokens : list fdt_token :=
  [TBegin []; TBegin (lit "chosen"); TProp 0 (lit "quiet" ++ [0]); TNop 4; TProp 9 (be_split 0x82200000); TEnd; TEnd].
Definition sample_strings : bytes := lit "bootargs" ++ [0] ++ lit "linux,initrd-start" ++ [0].
Definition sample_header : bytes := [0xd0; 0x0d; 0xfe; 0xed] ++ be_split 116 ++ be_split 16 ++ be_split 88.
Definition sample_body : bytes := tokens_bytes sample_tokens ++ be_split FDT_END.
Definition sample_fdt : bytes := sample_header ++ sample_body ++ sample_strings.

Lemma sample_fdt_at : fdt_at (mem_of 0x83000000 sample_fdt) 0x83000000 116 16 88 sample_names sample_tokens 20.
Proof.
  split.
  - by vm_compute.
  - apply (mem_of_stored 0x83000000 [] sample_header (sample_body ++ sample_strings)).
  - by vm_compute.
  - by vm_compute.
  - apply (mem_of_stored 0x83000000 sample_header sample_body sample_strings).
  - assert (forall off s pre rest, sample_fdt = pre ++ s ++ [0] ++ rest -> zlen pre = 88 + off ->
      stored (mem_of 0x83000000 sample_fdt) (0x83000000 + 88 + off) (s ++ [0])) as Hstr.
    { intros off s pre rest E Hp. rewrite E. replace (0x83000000 + 88 + off) with (0x83000000 + zlen pre) by lia.
      rewrite (app_assoc s). apply mem_of_stored. }
    assert (stored (mem_of 0x83000000 sample_fdt) (0x83000000 + 88 + 0) (sample_names 0 ++ [0])) as H0
      by (apply (Hstr 0 (lit "bootargs") (sample_header ++ sample_body) (lit "linux,initrd-start" ++ [0])); by vm_compute).
    assert (stored (mem_of 0x83000000 sample_fdt) (0x83000000 + 88 + 9) (sample_names 9 ++ [0])) as H9
      by (apply (Hstr 9 (lit "linux,initrd-start") (sample_header ++ sample_body ++ lit "bootargs" ++ [0]) []); by vm_compute).
    unfold sample_tokens. repeat (apply Forall_cons; split); [.. | apply Forall_nil]; cbn [token_ok]; split_and?; try done;
      by apply (bool_decide_unpack _); vm_compute.
  - by apply Nat.ltb_lt.
Qed.

Lemma fdt_initrd_refines_witness :
  fdt_get_initrd_start 20 (mem_of 0x83000000 sample_fdt) 0x83000000 = Ret 0x82200000.
Proof. exact (fdt_initrd_refines _ _ _ _ _ _ _ _ sample_fdt_at). Defined.

(** A property whose value lies beyond the blob is read all the same: the length of a property
    is not checked against the blob's size. *)
Definition truncated_fdt : bytes :=
  [0xd0; 0x0d; 0xfe; 0xed] ++ be_split 41 ++ be_split 29 ++ be_split 16 ++
  lit "initrd-start" ++ [0] ++ be_split FDT_PROP ++ be_split 4 ++ be_split 0.

Lemma fdt_value_read_past_end :
  fdt_get_initrd_start 20 (mem_of 0x83000000 truncated_fdt) 0x83000000 = Fault.
Proof. vm_compute. reflexivity. Qed.

(** A name offset near 2^32 passes the bounds check because the sum is computed in 32 bits,
    and the name is then read about 4 GiB behind the blob. *)
Definition wrapping_fdt : bytes :=
  [0xd0; 0x0d; 0xfe; 0xed] ++ be_split 36 ++ be_split 16 ++ be_split 32 ++
  be_split FDT_PROP ++ be_split 4 ++ be_split (2 ^ 32 - 16) ++ be_split 0 ++ [97; 0; 0; 0].

Lemma fdt_name_offset_wraps :
  fdt_get_initrd_start 20 (mem_of 0x83000000 wrapping_fdt) 0x83000000 = Fault.
Proof. vm_compute. reflexivity. Qed.
