(* ===== verification/Shim.v ===== *)
(** * The boot shim

    Models [bootshim_main] of xzs-bootshim/main.c and what it calls there: finding the kernel,
    extracting its entry point, copying the root file system into the RAM disk, building the
    device tree, filling in [boot_args] and handing over.  Physical memory is a partial
    function from addresses to bytes; the log buffers are kept apart from it.  The embedded
    image, the timer registers and the vendor's device tree are inputs. *)

From stdpp Require Import base list strings.
From Stdlib Require Import ZArith Lia.
From S2P Require Import Prelude Crc32 XzsfsCore Memory Adt ShimLog ShimFdt.

(** ** Memory *)

Definition store_le (n : nat) (m : mem) (a v : Z) : outcome mem := store_bytes m a (le_split n v).

(** ** The kernel image *)

Definition MH_MAGIC_64 : Z := 0xfeedfacf.
Definition VM_KERNEL_LINK_ADDRESS : Z := 0xfffffe0006200000.
Definition LC_UNIXTHREAD : Z := 5.

(** One load command: state is [cmd_ptr]. *)
Definition macho_step (m : mem) (base : Z) (_ : Z) (cmd_ptr : Z) : outcome (ctl Z Z) :=
  cmd ← load_le 4 m cmd_ptr;
  cmdsize ← load_le 4 m (cmd_ptr + 4);
  if cmd =? LC_UNIXTHREAD then
    pc ← load_le 8 m (cmd_ptr + 272);
    Ret (if VM_KERNEL_LINK_ADDRESS <=? pc then Exit (u64 (base + (pc - VM_KERNEL_LINK_ADDRESS)))
         else Next (cmd_ptr + cmdsize))
  else Ret (Next (cmd_ptr + cmdsize)).

Definition find_macho_entry_point (m : mem) (base : Z) : outcome Z :=
  magic ← load_le 4 m base;
  if negb (magic =? MH_MAGIC_64) then Ret 0
  else
    ncmds ← load_le 4 m (base + 16);
    r ← for_ret (Z.to_nat ncmds) 0 (macho_step m base) (base + 32);
    Ret (match r with Exit entry => entry | Next _ => u64 (base + 0x00534488) end).

(** ** Strings *)

(** [src] is the string without its terminator. *)
Fixpoint copy_string_from (m : mem) (dst : Z) (src : bytes) (i maxlen : Z) : outcome mem :=
  match src with
  | c :: src => if i <? maxlen - 1 then m ← store8 m (dst + i) c; copy_string_from m dst src (i + 1) maxlen
                else store8 m (dst + i) 0
  | [] => store8 m (dst + i) 0
  end.
Definition copy_string (m : mem) (dst : Z) (src : bytes) (maxlen : Z) : outcome mem :=
  copy_string_from m dst src 0 maxlen.

(** ** Boot arguments *)

Definition BOOT_ARGS_ADDR : Z := 0x81800000.

Definition boot_video : c_struct :=
  [("v_baseAddr"%string, 8, 8); ("v_display"%string, 8, 8); ("v_rowBytes"%string, 8, 8);
   ("v_width"%string, 8, 8); ("v_height"%string, 8, 8); ("v_depth"%string, 8, 8)].

Definition shim_boot_args : c_struct :=
  [("Revision"%string, 2, 2); ("Version"%string, 2, 2); ("pad0"%string, 4, 4); ("virtBase"%string, 8, 8);
   ("physBase"%string, 8, 8); ("memSize"%string, 8, 8); ("topOfKernelData"%string, 8, 8)] ++ boot_video ++
  [("machineType"%string, 4, 4); ("deviceTreeP"%string, 8, 8); ("deviceTreeLength"%string, 4, 4);
   ("CommandLine"%string, 1024, 1); ("bootFlags"%string, 8, 8); ("memSizeActual"%string, 8, 8)].

(** The structure the kernel declares, pexpert/arm64/boot.h, with its [BOOT_LINE_LENGTH] of 1024. *)
Definition kernel_boot_args : c_struct :=
  [("Revision"%string, 2, 2); ("Version"%string, 2, 2); ("virtBase"%string, 8, 8);
   ("physBase"%string, 8, 8); ("memSize"%string, 8, 8); ("topOfKernelData"%string, 8, 8)] ++ boot_video ++
  [("machineType"%string, 4, 4); ("deviceTreeP"%string, 8, 8); ("deviceTreeLength"%string, 4, 4);
   ("CommandLine"%string, 1024, 1); ("bootFlags"%string, 8, 8); ("memSizeActual"%string, 8, 8)].

Definition ba (name : string) : Z := field_offset shim_boot_args name 0.
Definition sizeof_boot_args : Z := sizeof shim_boot_args.
Definition sizeof_CommandLine : Z := 1024.

Definition shim_command_line : bytes := lit "console=ttyMSM0,115200 debug=0x4e serial=3 -v keepsyms=1 -noprogress rd=disk0s54 rootrw=1 emmcrw=1 unentitled_ios_sim_launch=1 ignition_level=1 wdt_test=no_user_checkin launchd_unsecure_cache=1 wdt=-1 cs_enforcement_disable=1 amfi_get_out_of_my_way=1 PE_i_can_has_debugger=1".

(** The stores into [ba], in the order of the code. *)
Definition boot_args_stores (macho_base adt_len : Z) : list (nat * Z * Z) :=
  [ (2%nat, ba "Revision", 2); (2%nat, ba "Version", 2);
    (8%nat, ba "virtBase", u64 (VM_KERNEL_LINK_ADDRESS - u64 (macho_base - 0x80000000)));
    (8%nat, ba "physBase", 0x80000000);
    (8%nat, ba "memSize", 0x78000000);
    (8%nat, ba "memSizeActual", 0x78000000);
    (8%nat, ba "topOfKernelData", u64 (macho_base + 0x01800000));
    (8%nat, ba "deviceTreeP", ADT_BASE_ADDR);
    (4%nat, ba "deviceTreeLength", adt_len);
    (8%nat, ba "v_baseAddr", 0x98000001); (8%nat, ba "v_display", 1); (8%nat, ba "v_rowBytes", 4352);
    (8%nat, ba "v_width", 1080); (8%nat, ba "v_height", 1920); (8%nat, ba "v_depth", 32) ].

Fixpoint store_fields (m : mem) (a : Z) (fs : list (nat * Z * Z)) : outcome mem :=
  match fs with
  | [] => Ret m
  | (w, off, v) :: fs => m ← store_le w m (a + off) v; store_fields m a fs
  end.

Definition populate_boot_args (m : mem) (macho_base adt_len : Z) : outcome mem :=
  m ← store_bytes m BOOT_ARGS_ADDR (replicate (Z.to_nat sizeof_boot_args) 0);
  m ← store_fields m BOOT_ARGS_ADDR (boot_args_stores macho_base adt_len);
  m ← copy_string m (BOOT_ARGS_ADDR + ba "CommandLine") shim_command_line sizeof_CommandLine;
  store_fields m BOOT_ARGS_ADDR [(4%nat, ba "machineType", 0); (8%nat, ba "bootFlags", 0)].

(** ** The main program *)

Record shim_state := ShimState { sm_mem : mem; sm_logs : logs }.

Abbreviation shim A := (prog shim_state A).

(** [bootshim_main] does not return: it hands over to the kernel or resets the system. *)
Inductive shim_end : Type :=
  | Handoff (boot_args entry : Z)
  | SystemReset.

Definition say (ops : list log_op) : shim unit := fun s =>
  l ← of_option (log_run ops (sm_logs s)); Ret (tt, ShimState (sm_mem s) l).
Definition stage (st : xzs_stage) : shim unit := act (fun s => ShimState (sm_mem s) (set_stage st (sm_logs s))).
Definition reads {A} (f : mem -> outcome A) : shim A := fun s => a ← f (sm_mem s); Ret (a, s).
Definition modifies (f : mem -> outcome mem) : shim unit := fun s => m ← f (sm_mem s); Ret (tt, ShimState m (sm_logs s)).

(** Text of the log; numbers use an uninitialised array of 24 characters. *)
Definition Txt (s : string) : log_op := Puts (lit s).
Definition NL : log_op := Puts [10].
Definition Dec (v : Z) : log_op := PutDec (replicate 24 0) v.

(** The report of an exception in the shim, before the reset. *)
Definition bootshim_on_exception (esr elr far spsr : Z) : shim shim_end :=
  _ ← say [NL; NL; Txt "*** BOOTSHIM EARLY EXCEPTION ***"; NL;
           Txt "ESR_EL1:  "; PutHex esr; NL; Txt "ELR_EL1:  "; PutHex elr; NL;
           Txt "FAR_EL1:  "; PutHex far; NL; Txt "SPSR_EL1: "; PutHex spsr; NL;
           Txt "Triggering warm reset..."; NL];
  mret SystemReset.

Definition candidates : list Z :=
  [0x82200000; 0x80200000; 0x82000000; 0x82400000; 0x81000000; 0x81800000].

(** The first candidate that holds a Mach-O header, or 0. *)
Fixpoint try_candidates (cands : list Z) : shim Z :=
  match cands with
  | [] => mret 0
  | cand :: cands =>
      m0 ← reads (fun m => load_le 4 m cand);
      _ ← say [Txt "  Candidate 0x"; PutHex cand; Txt ": magic=0x"; PutHex m0; NL];
      if m0 =? MH_MAGIC_64 then mret cand else try_candidates cands
  end.

Definition locate_kernel (fuel : nat) (dtb_phys : Z) : shim Z :=
  dtb_initrd ← reads (fun m => fdt_get_initrd_start fuel m dtb_phys);
  macho_base ← (if negb (dtb_initrd =? 0) then
      _ ← say [Txt "  DTB initrd-start: 0x"; PutHex dtb_initrd];
      m0 ← reads (fun m => load_le 4 m dtb_initrd);
      _ ← say [Txt ", magic=0x"; PutHex m0; NL];
      mret (if m0 =? MH_MAGIC_64 then dtb_initrd else 0)
    else mret 0);
  if macho_base =? 0 then try_candidates candidates else mret macho_base.

Definition RAMDISK_BASE : Z := 0x81700000.
Definition RAMDISK_SIZE : Z := 73728.
Definition ROOTFS_LEN : Z := 70144.

(** Are all bytes from [a] on zero, read up to the first that is not? *)
Fixpoint zero_range (m : mem) (a : Z) (n : nat) : outcome bool :=
  match n with
  | O => Ret true
  | S n => b ← load8 m a; if negb (b =? 0) then Ret false else zero_range m (a + 1) n
  end.

(** The memory the device tree is built in. *)
Definition ADT_WINDOW : nat := Z.to_nat 0x10000.

Definition build_adt : shim Z := fun s =>
  w ← load_bytes (sm_mem s) ADT_BASE_ADDR ADT_WINDOW;
  '(len, w) ← of_option (adt_build_tree_at w);
  m ← store_bytes (sm_mem s) ADT_BASE_ADDR w;
  Ret (len, ShimState m (sm_logs s)).

Section main.
Context (xzs_rootfs_img : bytes).

(** Copy the embedded image and clear the rest of the RAM disk; the result says whether the
    image has the expected length. *)
Definition copy_rootfs : shim bool :=
  let rootfs_len := zlen xzs_rootfs_img in
  _ ← say [Txt "[XZS-SHIM] R2: RAMDisk Payload Copy to Reserved DRAM (0x81700000)..."; NL;
           Txt "  RAMDISK_PHYS_BASE:            0x81700000"; NL;
           Txt "  RAMDISK_IMAGE_SIZE_BYTES:     "; Dec rootfs_len; NL;
           Txt "  RAMDISK_BACKING_SIZE_BYTES:   73728"; NL;
           Txt "  RAMDISK_ZERO_PADDING_BYTES:   1024"; NL];
  if negb (rootfs_len =? ROOTFS_LEN) then
    _ ← say [Txt "[XZS-SHIM] FATAL: Embedded rootfs length != 70144!"; NL]; mret false
  else
    _ ← modifies (fun m => store_bytes m RAMDISK_BASE xzs_rootfs_img);
    _ ← modifies (fun m => store_bytes m (RAMDISK_BASE + rootfs_len)
                             (replicate (Z.to_nat (RAMDISK_SIZE - rootfs_len)) 0));
    pad_ok ← reads (fun m => zero_range m (RAMDISK_BASE + rootfs_len) (Z.to_nat (RAMDISK_SIZE - rootfs_len)));
    img ← reads (fun m => load_bytes m RAMDISK_BASE (Z.to_nat rootfs_len));
    let dram_crc := shim_crc32 img in
    _ ← say [Txt "  R2_DRAM_COPY_COMPLETE:        yes"; NL;
             Txt "  R2_LOGICAL_IMAGE_CRC:         0x"; PutHex dram_crc; NL;
             Txt "  R2_LOGICAL_IMAGE_CRC_MATCH:   "; Txt (if dram_crc =? 0x785f9be2 then "yes" else "no"); NL;
             Txt "  R2_PADDING_ZERO:              "; Txt (if pad_ok : bool then "yes" else "no"); NL];
    mret true.

(** From the kernel on: everything it needs, then the jump. *)
Definition boot_kernel (macho_base : Z) : shim shim_end :=
  entry_addr ← reads (fun m => find_macho_entry_point m macho_base);
  _ ← stage XZS_STAGE_SHIM_D;
  _ ← say [Txt "[XZS-SHIM] D: Mach-O base=0x"; PutHex macho_base; Txt ", entry=0x"; PutHex entry_addr; NL];
  copied ← copy_rootfs;
  if negb (copied : bool) then mret SystemReset
  else
    _ ← stage XZS_STAGE_SHIM_E;
    _ ← say [Txt "[XZS-SHIM] E: Constructing Apple Device Tree at 0x81810000..."; NL];
    adt_len ← build_adt;
    _ ← say [Txt "  ADT size: "; Dec adt_len; Txt " bytes"; NL;
             Txt "  R3_RAMDISK_ADT_PRESENT:       yes"; NL;
             Txt "  R3_BASE:                      0x81700000"; NL;
             Txt "  R3_LENGTH:                    73728"; NL];
    _ ← stage XZS_STAGE_SHIM_F;
    _ ← say [Txt "[XZS-SHIM] F: Populating struct boot_args at 0x81800000..."; NL];
    _ ← modifies (fun m => populate_boot_args m macho_base adt_len);
    virtBase ← reads (fun m => load_le 8 m (BOOT_ARGS_ADDR + ba "virtBase"));
    physBase ← reads (fun m => load_le 8 m (BOOT_ARGS_ADDR + ba "physBase"));
    memSize ← reads (fun m => load_le 8 m (BOOT_ARGS_ADDR + ba "memSize"));
    top ← reads (fun m => load_le 8 m (BOOT_ARGS_ADDR + ba "topOfKernelData"));
    cmdline ← reads (fun m => load_cstr (Z.to_nat sizeof_CommandLine) m (BOOT_ARGS_ADDR + ba "CommandLine"));
    _ ← say [Txt "  virtBase: "; PutHex virtBase; NL; Txt "  physBase: "; PutHex physBase; NL;
             Txt "  memSize:  "; PutHex memSize; NL; Txt "  topOfKernelData: "; PutHex top; NL;
             Txt "  cmdline:  "; Puts cmdline; NL];
    _ ← stage XZS_STAGE_SHIM_G;
    _ ← say [NL; Txt "[XZS-SHIM] G: Handing off CPU execution to XNU kernel __start..."; NL; NL];
    mret (Handoff BOOT_ARGS_ADDR entry_addr).

(** The log of the entry: exception level, device tree and timer. *)
Definition announce (dtb_phys current_el mpidr frq t0 : Z) : shim unit :=
  _ ← stage XZS_STAGE_SHIM_A;
  _ ← say [NL; Txt "[XZS-SHIM] A: entry"; NL;
           Txt "Hardware: Sony Xperia XZs (G8231 / Tone Keyaki)"; NL;
           Txt "SoC: Qualcomm Snapdragon 820 (MSM8996)"; NL;
           Txt "Current EL: EL"; Dec current_el; Txt ", MPIDR: "; PutHex mpidr; NL];
  _ ← stage XZS_STAGE_SHIM_B;
  _ ← say (if negb (dtb_phys =? 0)
           then [Txt "[XZS-SHIM] B: DTB located at "; PutHex dtb_phys; NL]
           else [Txt "[XZS-SHIM] B: DTB located (none/embedded)"; NL]);
  say [Txt "Timer Frequency: "; Dec frq; Txt " Hz, Counter: "; PutHex t0; NL].

Definition bootshim_main (fuel : nat) (dtb_phys current_el mpidr frq t0 : Z) : shim shim_end :=
  _ ← (fun s => l ← of_option (uart_init (sm_logs s)); Ret (tt, ShimState (sm_mem s) l));
  _ ← announce dtb_phys current_el mpidr frq t0;
  _ ← stage XZS_STAGE_SHIM_C;
  _ ← say [Txt "[XZS-SHIM] C: Locating Mach-O kernel (0xfeedfacf)..."; NL];
  macho_base ← locate_kernel fuel dtb_phys;
  if negb (macho_base =? 0) then boot_kernel macho_base
  else
    _ ← say [Txt "[XZS-SHIM] ERROR: No Mach-O kernel detected in any safe DRAM candidate!"; NL];
    mret SystemReset.
End main.
