(* ===== verification/ShimProofs.v ===== *)
(** * The boot shim: correctness

    What memory holds when [bootshim_main] jumps to the kernel: the kernel image untouched,
    the RAM disk, the device tree and the boot arguments in the layout the kernel declares. *)

From stdpp Require Import base list strings.
From Stdlib Require Import ZArith Lia.
From S2P Require Import Prelude Crc32 XzsfsCore BootArgs BootArgsProofs DeviceTree DeviceTreeProofs Adt AdtProofs Memory ShimLog ShimLogProofs ShimFdt Shim.

(** ** Memory *)

Lemma load_le_stored n m a v : stored m a (le_split n v) -> 0 <= v < 256 ^ Z.of_nat n -> load_le n m a = Ret v.
Proof.
  intros Hs Hv. unfold load_le. rewrite <- (length_le_split n v) at 1. rewrite load_bytes_spec by done.
  cbn [mbind outcome_bind]. by rewrite le_combine_split_small.
Qed.

Lemma shim_store_le_spec n m a v : mapped m a (Z.of_nat n) -> exists m', store_le n m a v = Ret m' /\ wrote m m' a (le_split n v).
Proof. intros Hm. apply store_bytes_spec; [by rewrite zlen_le_split | apply le_split_is_u8]. Qed.

(** ** Writing structures *)

(** A field without its value: width and offset. *)
Definition field_in (n : Z) (f : nat * Z) : Prop := 0 <= f.2 /\ f.2 + Z.of_nat f.1 <= n.
Definition apart (f g : nat * Z) : Prop := f.2 + Z.of_nat f.1 <= g.2 \/ g.2 + Z.of_nat g.1 <= f.2.
(** An address inside the field of a structure at [a]. *)
Definition in_field (a x : Z) (f : nat * Z) : Prop := a + f.2 <= x < a + f.2 + Z.of_nat f.1.

#[export] Instance field_in_dec n f : Decision (field_in n f).
Proof. unfold field_in. apply _. Defined.
#[export] Instance apart_dec f g : Decision (apart f g).
Proof. unfold apart. apply _. Defined.

(** Each field is apart from those after it. *)
Fixpoint all_apart (fs : list (nat * Z)) : Prop :=
  match fs with
  | [] => True
  | f :: fs => Forall (apart f) fs /\ all_apart fs
  end.

#[export] Instance all_apart_dec fs : Decision (all_apart fs).
Proof. induction fs; cbn [all_apart]; apply _. Defined.

Lemma apart_in_field a x f g : apart f g -> in_field a x f -> ~ in_field a x g.
Proof. unfold apart, in_field. lia. Qed.

(** The structure at [a] holds the fields' values. *)
Definition fields_hold (m : mem) (a : Z) (fs : list (nat * Z * Z)) : Prop :=
  Forall (fun f => stored m (a + f.1.2) (le_split f.1.1 f.2)) fs.

(** Fields survive changes apart from them. *)
Lemma fields_hold_frame m m' a fs : fields_hold m a fs ->
  (forall x, Exists (in_field a x) (fst <$> fs) -> m' x = m x) -> fields_hold m' a fs.
Proof.
  intros Hf Hx. unfold fields_hold in *. rewrite Forall_forall in *. intros f Hin i b Hb.
  rewrite Hx; [by apply (Hf f Hin) |]. apply Exists_exists. exists f.1. split; [apply list_elem_of_fmap; by exists f |].
  apply lookup_lt_Some in Hb. rewrite length_le_split in Hb. unfold in_field. lia.
Qed.

(** Disjoint fields hold their values afterwards, and what is outside all of them is
    unchanged. *)
Lemma store_fields_spec n fs : forall m a, mapped m a n -> Forall (field_in n) (fst <$> fs) -> all_apart (fst <$> fs) ->
  exists m', store_fields m a fs = Ret m' /\ mapped m' a n /\ fields_hold m' a fs /\
    (forall x, ~ Exists (in_field a x) (fst <$> fs) -> m' x = m x).
Proof.
  induction fs as [|[[w off] v] fs IH]; intros m a Hm Hin Hap; cbn [store_fields fmap list_fmap fst] in *.
  { exists m. split_and!; try done. constructor. }
  apply Forall_cons in Hin as [[H0 Hn] Hin]. destruct Hap as [Hf Hap]. cbn [fst snd] in *.
  destruct (shim_store_le_spec w m (a + off) v) as (m1 & -> & Hw); [eapply mapped_sub; [exact Hm | lia..] |].
  cbn [mbind outcome_bind].
  destruct (IH m1 a) as (m' & -> & Hm' & Hall & Hout); [by eapply wrote_mapped | done.. |].
  exists m'. split; [done |]. split; [done |]. split.
  - constructor; [| done]. cbn [fst snd]. intros i b Hb. rewrite Hout; [by apply Hw |].
    apply lookup_lt_Some in Hb. rewrite length_le_split in Hb. rewrite Exists_exists. intros (g & Hg & Hx).
    rewrite Forall_forall in Hf. eapply apart_in_field; [exact (Hf g Hg) | | exact Hx]. unfold in_field. cbn. lia.
  - intros x Hx. rewrite Exists_cons in Hx. rewrite Hout by tauto. apply Hw. rewrite zlen_le_split.
    unfold in_field in Hx. cbn [fst snd] in Hx. lia.
Qed.

(** Copying a string that fits. *)
Lemma copy_string_spec maxlen s : forall m dst i, mapped m dst maxlen -> Forall is_u8 s -> 0 <= i -> i + zlen s < maxlen ->
  exists m', copy_string_from m dst s i maxlen = Ret m' /\ wrote m m' (dst + i) (s ++ [0]).
Proof.
  induction s as [|c s IH]; intros m dst i Hm Hu Hi Hl; cbn [copy_string_from].
  - change (zlen (@nil Z)) with 0 in Hl. unfold store8. destruct (Hm (dst + i) ltac:(lia)) as [x0 ->]. eexists. split; [done |]. split.
    + apply stored_cons. rewrite Z.eqb_refl. split; [done |]. intros j x. by rewrite lookup_nil.
    + cbn [app]. intros x Hx. change (zlen [0]) with 1 in Hx. by rewrite (proj2 (Z.eqb_neq x _)) by lia.
  - rewrite zlen_cons in Hl. pose proof (zlen_nonneg s). rewrite (proj2 (Z.ltb_lt i _)) by lia.
    apply Forall_cons in Hu as [Hc Hu]. unfold store8 at 1. destruct (Hm (dst + i) ltac:(lia)) as [x0 Hx0]. rewrite Hx0. cbn [mbind outcome_bind].
    set (m1 := fun x => if x =? dst + i then Some (u8 c) else m x).
    destruct (IH m1 dst (i + 1)) as (m' & -> & Hs & Ho); [| done | lia | lia |].
    { intros x Hx. unfold m1. destruct (x =? dst + i); [by eexists |]. by apply Hm. }
    exists m'. split; [done |]. cbn [app]. rewrite Z.add_assoc in *. split.
    + apply stored_cons. split; [| done]. rewrite Ho by lia. unfold m1. by rewrite Z.eqb_refl, u8_small.
    + intros x Hx. rewrite zlen_cons in Hx. rewrite Ho by lia. unfold m1.
      pose proof (zlen_nonneg (s ++ [0])). by rewrite (proj2 (Z.eqb_neq x _)) by lia.
Qed.

(** ** Boot arguments *)

Definition late_stores : list (nat * Z * Z) := [(4%nat, ba "machineType", 0); (8%nat, ba "bootFlags", 0)].
Definition boot_args_fields (macho_base adt_len : Z) : list (nat * Z * Z) :=
  boot_args_stores macho_base adt_len ++ late_stores.

(** Widths and offsets do not depend on the values. *)
Definition boot_args_shape : list (nat * Z) := Eval vm_compute in fst <$> boot_args_stores 0 0.
Lemma boot_args_shape_ok b l : fst <$> boot_args_stores b l = boot_args_shape.
Proof. reflexivity. Qed.

Lemma command_line_u8 : Forall is_u8 shim_command_line.
Proof. by apply (bool_decide_unpack _); vm_compute. Qed.
Lemma command_line_no_nul : no_nul shim_command_line.
Proof. by apply (bool_decide_unpack _); vm_compute. Qed.

(** The command line with its terminator, as a field. *)
Definition line_field : nat * Z := Eval vm_compute in (S (length shim_command_line), ba "CommandLine").

Lemma shape_checks : Forall (field_in sizeof_boot_args) boot_args_shape /\ all_apart boot_args_shape /\
  Forall (apart line_field) boot_args_shape /\ Forall (fun f => Forall (apart f) (line_field :: boot_args_shape)) (fst <$> late_stores) /\
  Forall (field_in sizeof_boot_args) (line_field :: (fst <$> late_stores)) /\ all_apart (fst <$> late_stores).
Proof. by apply (bool_decide_unpack _); vm_compute. Qed.

Lemma populate_boot_args_spec m base len : mapped m BOOT_ARGS_ADDR sizeof_boot_args ->
  exists m', populate_boot_args m base len = Ret m' /\ fields_hold m' BOOT_ARGS_ADDR (boot_args_fields base len) /\
    stored m' (BOOT_ARGS_ADDR + ba "CommandLine") (shim_command_line ++ [0]) /\
    forall x, ~ (BOOT_ARGS_ADDR <= x < BOOT_ARGS_ADDR + sizeof_boot_args) -> m' x = m x.
Proof.
  intros Hm. destruct shape_checks as (Hin & Hap & Hline & Hlate & Hin2 & Hap2). apply Forall_cons in Hin2 as [HinL Hin2].
  unfold populate_boot_args, copy_string. set (A := BOOT_ARGS_ADDR) in *.
  destruct (store_bytes_spec (replicate (Z.to_nat sizeof_boot_args) 0) m A) as (m1 & -> & Hw1);
    [by rewrite zlen_replicate, Z2Nat.id by done | by apply Forall_replicate |].
  cbn [mbind outcome_bind]. destruct (store_fields_spec sizeof_boot_args (boot_args_stores base len) m1 A) as (m2 & -> & Hm2 & Hf2 & Ho2);
    [by eapply wrote_mapped | by rewrite boot_args_shape_ok.. |].
  rewrite boot_args_shape_ok in Ho2. cbn [mbind outcome_bind].
  destruct (copy_string_spec sizeof_CommandLine shim_command_line m2 (A + ba "CommandLine") 0) as (m3 & -> & Hs3 & Ho3);
    [eapply mapped_sub; [exact Hm2 | by vm_compute..] | exact command_line_u8 | done | by vm_compute |].
  rewrite Z.add_0_r in Hs3, Ho3. cbn [mbind outcome_bind]. fold late_stores.
  destruct (store_fields_spec sizeof_boot_args late_stores m3 A) as (m4 & -> & Hm4 & Hf4 & Ho4); [| done.. |].
  { eapply wrote_mapped; [by split | done]. }
  exists m4. split; [done |].
  assert (forall x, in_field A x line_field <-> A + ba "CommandLine" <= x < A + ba "CommandLine" + zlen (shim_command_line ++ [0])) as Hlf by done.
  assert (forall x f, f ∈ line_field :: boot_args_shape -> in_field A x f -> ~ Exists (in_field A x) (fst <$> late_stores)) as Hnl.
  { intros x f Hf Hx. rewrite Exists_exists. intros (g & Hg & Hgx). rewrite Forall_forall in Hlate. specialize (Hlate g Hg).
    rewrite Forall_forall in Hlate. exact (apart_in_field A x g f (Hlate f Hf) Hgx Hx). }
  split; [| split].
  - apply Forall_app. split; [| exact Hf4]. eapply fields_hold_frame; [exact Hf2 |]. rewrite boot_args_shape_ok.
    intros x Hx. apply Exists_exists in Hx as (f & Hf & Hx). rewrite Ho4 by (eapply Hnl; [by apply list_elem_of_further | done]).
    apply Ho3. rewrite <- Hlf. rewrite Forall_forall in Hline. intros Hl. exact (apart_in_field A x line_field f (Hline f Hf) Hl Hx).
  - intros i b Hb. rewrite Ho4; [by apply Hs3 |]. eapply Hnl; [apply list_elem_of_here |].
    apply lookup_lt_Some in Hb. apply Hlf. unfold zlen. lia.
  - intros x Hx. rewrite Ho4, Ho3, Ho2; [apply Hw1; by rewrite zlen_replicate, Z2Nat.id by done | ..];
      rewrite <- ?Hlf, ?Exists_exists; [intros (f & Hf & Hxf) | intros Hxf | intros (f & Hf & Hxf)]; apply Hx.
    + rewrite Forall_forall in Hin. destruct (Hin f Hf). unfold in_field in Hxf. lia.
    + destruct HinL. unfold in_field in Hxf. lia.
    + rewrite Forall_forall in Hin2. destruct (Hin2 f Hf). unfold in_field in Hxf. lia.
Qed.

(** ** The kernel's entry point *)

Record load_command := LoadCommand { lc_cmd : Z; lc_size : Z; lc_pc : Z }.

(** The load commands lie one behind the other from [p]. *)
Fixpoint commands_at (m : mem) (p : Z) (cmds : list load_command) : Prop :=
  match cmds with
  | [] => True
  | c :: cmds =>
      (0 <= lc_cmd c < 2 ^ 32 /\ 0 <= lc_size c < 2 ^ 32 /\ 0 <= lc_pc c < 2 ^ 64) /\
      stored m p (le_split 4 (lc_cmd c) ++ le_split 4 (lc_size c)) /\
      (lc_cmd c = LC_UNIXTHREAD -> stored m (p + 272) (le_split 8 (lc_pc c))) /\
      commands_at m (p + lc_size c) cmds
  end.

Definition macho_at (m : mem) (base : Z) (cmds : list load_command) : Prop :=
  stored m base (le_split 4 MH_MAGIC_64) /\ stored m (base + 16) (le_split 4 (zlen cmds)) /\
  zlen cmds < 2 ^ 32 /\ commands_at m (base + 32) cmds.

(** The entry point: where the first thread command that starts inside the kernel's link range
    points, relocated to where the image is. *)
Fixpoint entry_of (base : Z) (cmds : list load_command) : Z :=
  match cmds with
  | [] => u64 (base + 0x00534488)
  | c :: cmds =>
      if (lc_cmd c =? LC_UNIXTHREAD) && (VM_KERNEL_LINK_ADDRESS <=? lc_pc c)
      then u64 (base + (lc_pc c - VM_KERNEL_LINK_ADDRESS)) else entry_of base cmds
  end.

Lemma macho_steps m base cmds : forall k p, commands_at m p cmds ->
  exists r, for_ret (length cmds) k (macho_step m base) p = Ret r /\
    match r with Exit e => e | Next _ => u64 (base + 0x00534488) end = entry_of base cmds.
Proof.
  induction cmds as [|c cmds IH]; intros k p Hc; cbn [length for_ret]; [by eexists |].
  destruct Hc as ((H1 & H2 & H3) & Hs & Hpc & Hc). apply stored_app in Hs as [Hs1 Hs2]. rewrite zlen_le_split in Hs2.
  unfold macho_step at 2. rewrite (load_le_stored 4 m p (lc_cmd c)) by done. cbn [mbind outcome_bind].
  rewrite (load_le_stored 4 m (p + 4) (lc_size c)) by done. cbn [mbind outcome_bind entry_of].
  destruct (Z.eqb_spec (lc_cmd c) LC_UNIXTHREAD) as [E | E]; cbn [andb]; [| by apply IH].
  rewrite (load_le_stored 8 m (p + 272) (lc_pc c)) by (by try apply Hpc). cbn [mbind outcome_bind].
  destruct (Z.leb_spec VM_KERNEL_LINK_ADDRESS (lc_pc c)); [by eexists | by apply IH].
Qed.

Lemma find_macho_entry_spec m base cmds : macho_at m base cmds ->
  find_macho_entry_point m base = Ret (entry_of base cmds).
Proof.
  intros (Hmag & Hn & Hlt & Hc). unfold find_macho_entry_point. rewrite (load_le_stored 4 m base MH_MAGIC_64) by done.
  cbn [mbind outcome_bind]. rewrite Z.eqb_refl. cbn [negb]. pose proof (zlen_nonneg cmds).
  rewrite (load_le_stored 4 m (base + 16) (zlen cmds)) by (done || (change (256 ^ Z.of_nat 4) with (2 ^ 32); lia)).
  cbn [mbind outcome_bind]. replace (Z.to_nat (zlen cmds)) with (length cmds) by (unfold zlen; lia).
  destruct (macho_steps m base cmds 0 (base + 32) Hc) as (r & -> & Hr). cbn [mbind outcome_bind]. by rewrite Hr.
Qed.

(** ** Total correctness of shim programs *)

Definition live (l : logs) : Prop := exists text, logs_ok text l.

(** From a state whose logs are in order and whose memory satisfies [P], the program returns a
    value and a memory in [Q], the logs in order. *)
Definition triple {A} (P : mem -> Prop) (c : shim A) (Q : A -> mem -> Prop) : Prop :=
  forall s, live (sm_logs s) -> P (sm_mem s) ->
    exists a s', c s = Ret (a, s') /\ live (sm_logs s') /\ Q a (sm_mem s').

Lemma triple_ret {A} (P : mem -> Prop) (a : A) (Q : A -> mem -> Prop) : (forall m, P m -> Q a m) -> triple P (mret a) Q.
Proof. intros H s Hl HP. exists a, s. by split_and!; [| | apply H]. Qed.

Lemma triple_bind {A B} P (c : shim A) (k : A -> shim B) R Q :
  triple P c R -> (forall a, triple (R a) (k a) Q) -> triple P (c ≫= k) Q.
Proof.
  intros Hc Hk s Hl HP. destruct (Hc s Hl HP) as (a & s1 & E & Hl1 & HR). destruct (Hk a s1 Hl1 HR) as (b & s2 & E2 & H2).
  exists b, s2. split; [| done]. unfold mbind, prog_bind. by rewrite E.
Qed.

(** The value is known. *)
Lemma triple_value {A B} P (c : shim A) (v : A) (k : A -> shim B) R Q :
  triple P c (fun a m => a = v /\ R m) -> triple R (k v) Q -> triple P (c ≫= k) Q.
Proof. intros Hc Hk. eapply triple_bind; [exact Hc |]. intros a s Hl [-> HR]. by apply Hk. Qed.

Lemma triple_say P ops Q : Forall log_op_ok ops -> (forall m, P m -> Q tt m) -> triple P (say ops) Q.
Proof.
  intros Hok HQ s (text & Hl) HP. destruct (log_run_writes ops Hok text _ Hl) as (l' & E & Hl').
  exists tt, (ShimState (sm_mem s) l'). split; [unfold say; by rewrite E |]. split; [by eexists | by apply HQ].
Qed.

Lemma triple_stage P st Q : (forall m, P m -> Q tt m) -> triple P (stage st) Q.
Proof.
  intros HQ s (text & Hd & Hc & Hm) HP. exists tt. eexists. split; [done |]. split; [| by apply HQ].
  exists text. by split.
Qed.

Lemma triple_reads {A} P (f : mem -> outcome A) (Q : A -> mem -> Prop) :
  (forall m, P m -> exists a, f m = Ret a /\ Q a m) -> triple P (reads f) Q.
Proof.
  intros H s Hl HP. destruct (H _ HP) as (a & E & HQ). exists a, s. split; [unfold reads; by rewrite E | done].
Qed.

Lemma triple_modifies P (f : mem -> outcome mem) (Q : unit -> mem -> Prop) :
  (forall m, P m -> exists m', f m = Ret m' /\ Q tt m') -> triple P (modifies f) Q.
Proof.
  intros H s Hl HP. destruct (H _ HP) as (m' & E & HQ). exists tt, (ShimState m' (sm_logs s)).
  split; [unfold modifies; by rewrite E | done].
Qed.

(** Log output and stage marks leave memory alone. *)
Lemma say_then {B} P ops (k : shim B) Q : Forall log_op_ok ops -> triple P k Q -> triple P (_ ← say ops; k) Q.
Proof. intros Ho Hk. eapply triple_bind; [apply (triple_say P ops (fun _ => P)); done | done]. Qed.

Lemma stage_then {B} P st (k : shim B) Q : triple P k Q -> triple P (_ ← stage st; k) Q.
Proof. intros Hk. eapply triple_bind; [apply (triple_stage P st (fun _ => P)); done | done]. Qed.

Lemma reads_then {A B} (P : mem -> Prop) (f : mem -> outcome A) (a : A) (k : A -> shim B) Q :
  (forall m, P m -> f m = Ret a) -> triple P (k a) Q -> triple P (reads f ≫= k) Q.
Proof.
  intros Hf Hk. eapply triple_bind; [apply (triple_reads P f (fun x m => x = a /\ P m)) |].
  - intros m HP. exists a. by split; [apply Hf |].
  - intros x s Hl [-> HP]. by apply Hk.
Qed.

Lemma Dec_ok v : 0 <= v < 2 ^ 64 -> log_op_ok (Dec v).
Proof. intros Hv. by split. Qed.
Lemma Txt_ok t : log_op_ok (Txt t).
Proof. exact I. Qed.
Lemma Puts_ok t : log_op_ok (Puts t).
Proof. exact I. Qed.
Lemma NL_ok : log_op_ok NL.
Proof. exact I. Qed.
Lemma PutHex_ok v : log_op_ok (PutHex v).
Proof. exact I. Qed.

Create HintDb shim.
#[export] Hint Resolve Dec_ok Txt_ok Puts_ok NL_ok PutHex_ok : shim.

(** Every operation of a log line is in order. *)
Ltac log_ok := repeat (apply Forall_cons; split; [first [exact I | apply Dec_ok; done] |]); constructor.
Ltac quiet :=
  repeat match goal with
  | |- triple _ (mbind (M := prog _) _ (stage _)) _ => apply stage_then
  | |- triple _ (mbind (M := prog _) _ (say _)) _ => apply say_then; [log_ok |]
  end.

(** ** Finding the kernel *)

Definition is_macho (m : mem) (a : Z) : bool :=
  match load_le 4 m a with Ret v => v =? MH_MAGIC_64 | _ => false end.

(** The first address with a Mach-O header, or 0. *)
Fixpoint first_macho (m : mem) (cands : list Z) : Z :=
  match cands with
  | [] => 0
  | a :: cands => if is_macho m a then a else first_macho m cands
  end.

(** Where the kernel is: the address the vendor's tree gives, if it is one, before the fixed
    candidates. *)
Definition kernel_base (m : mem) (initrd : Z) : Z :=
  first_macho m ((if initrd =? 0 then [] else [initrd]) ++ candidates).

Definition readable (m : mem) (a : Z) : Prop := exists v, load_le 4 m a = Ret v.

Lemma mapped_readable m a : mapped m a 4 -> readable m a.
Proof.
  intros Hm. unfold readable, load_le. destruct (load_bytes_mapped 4 m a Hm) as (l & -> & _). by eexists.
Qed.

Lemma try_candidates_spec m0 cands : Forall (readable m0) cands ->
  triple (eq m0) (try_candidates cands) (fun a m => a = first_macho m0 cands /\ m0 = m).
Proof.
  induction 1 as [|a cands [v Hv] _ IH]; cbn [try_candidates first_macho]; [apply triple_ret; by intros ? <- |].
  assert (is_macho m0 a = (v =? MH_MAGIC_64)) as -> by (unfold is_macho; by rewrite Hv).
  apply (reads_then _ _ v); [by intros ? <- |]. quiet.
  destruct (v =? MH_MAGIC_64); [apply triple_ret; by intros ? <- | exact IH].
Qed.

Lemma locate_kernel_spec m0 fuel dtb initrd : fdt_get_initrd_start fuel m0 dtb = Ret initrd ->
  Forall (readable m0) ((if initrd =? 0 then [] else [initrd]) ++ candidates) ->
  triple (eq m0) (locate_kernel fuel dtb) (fun a m => a = kernel_base m0 initrd /\ m0 = m).
Proof.
  intros Hf Hr. unfold locate_kernel, kernel_base. apply (reads_then _ _ initrd); [by intros ? <- |].
  destruct (Z.eqb_spec initrd 0) as [-> | Hne]; cbn [negb app] in *.
  - eapply triple_bind; [by apply (triple_ret (eq m0) 0 (fun a m => a = 0 /\ m0 = m)) |].
    intros a s Hl [-> Hm]. by apply try_candidates_spec.
  - apply Forall_cons in Hr as [[v Hv] Hr]. cbn [first_macho].
    assert (is_macho m0 initrd = (v =? MH_MAGIC_64)) as -> by (unfold is_macho; by rewrite Hv).
    eapply triple_bind with (R := fun a m => a = (if v =? MH_MAGIC_64 then initrd else 0) /\ m0 = m).
    + quiet. apply (reads_then _ _ v); [by intros ? <- |]. quiet. by apply triple_ret.
    + intros a s Hl [-> Hm]. destruct (v =? MH_MAGIC_64); [| by apply try_candidates_spec].
      rewrite (proj2 (Z.eqb_neq initrd 0)) by done. by exists initrd, s.
Qed.

(** ** Preparing memory *)

Lemma zero_range_spec n : forall m a, stored m a (replicate n 0) -> zero_range m a n = Ret true.
Proof.
  induction n as [|n IH]; intros m a Hs; cbn [zero_range replicate] in *; [done |].
  rewrite (stored_load _ _ _ _ Hs). cbn [mbind outcome_bind]. apply stored_cons in Hs as [_ Hs]. by apply IH.
Qed.

Definition padding : bytes := replicate (Z.to_nat (RAMDISK_SIZE - ROOTFS_LEN)) 0.

Lemma zlen_padding : zlen padding = RAMDISK_SIZE - ROOTFS_LEN.
Proof. unfold padding. rewrite zlen_replicate. by vm_compute. Qed.

Lemma load_bytes_u8 n : forall m a l, (forall x b, m x = Some b -> is_u8 b) -> load_bytes m a n = Ret l -> Forall is_u8 l.
Proof.
  induction n as [|n IH]; intros m a l Hu; cbn [load_bytes]; [intros [= <-]; constructor |].
  unfold load8. destruct (m a) as [b |] eqn:Eb; [| done]. cbn [of_option mbind outcome_bind].
  destruct (load_bytes m (a + 1) n) as [l' | | |] eqn:El; try done. intros [= <-]. constructor; [by eapply Hu | by eapply IH].
Qed.

Lemma xzs_tree_u8 : Forall is_u8 (flat xzs_tree).
Proof. by apply (bool_decide_unpack _); vm_compute. Qed.

Section boot.
Context (img : bytes) (Himg : zlen img = ROOTFS_LEN) (Hbytes : Forall is_u8 img).

Lemma wrote_app m m1 m2 a l k : wrote m m1 a l -> wrote m1 m2 (a + zlen l) k -> wrote m m2 a (l ++ k).
Proof.
  intros H1 H2. pose proof (zlen_nonneg l). pose proof (zlen_nonneg k). split.
  - apply stored_app. split; [| apply H2]. eapply wrote_stored; [exact H2 | apply H1 | lia].
  - intros x Hx. rewrite zlen_app in Hx. rewrite (proj2 H2), (proj2 H1) by lia. done.
Qed.

Lemma copy_rootfs_spec m0 : mapped m0 RAMDISK_BASE RAMDISK_SIZE ->
  triple (eq m0) (copy_rootfs img) (fun ok m => ok = true /\ wrote m0 m RAMDISK_BASE (img ++ padding)).
Proof.
  intros Hm. unfold copy_rootfs. cbv zeta. rewrite Himg. quiet. change (negb (ROOTFS_LEN =? ROOTFS_LEN)) with false. cbv iota.
  fold padding. eapply triple_bind; [apply (triple_modifies _ _ (fun _ m => wrote m0 m RAMDISK_BASE img)) |].
  { intros m <-. apply store_bytes_spec; [| done]. rewrite Himg. by eapply mapped_sub; [exact Hm | | by vm_compute]. }
  intros []. eapply triple_bind; [apply (triple_modifies _ _ (fun _ m => wrote m0 m RAMDISK_BASE (img ++ padding))) |].
  { intros m Hw. destruct (store_bytes_spec padding m (RAMDISK_BASE + ROOTFS_LEN)) as (m' & E & Hw2).
    - rewrite zlen_padding. eapply wrote_mapped; [exact Hw |]. by eapply mapped_sub; [exact Hm | by vm_compute..].
    - by apply Forall_replicate.
    - exists m'. split; [exact E |]. eapply wrote_app; [exact Hw |]. by rewrite Himg. }
  intros []. apply (reads_then _ _ true).
  { intros m [Hs _]. apply stored_app in Hs as [_ Hs]. rewrite Himg in Hs. by apply zero_range_spec. }
  apply (reads_then _ _ img).
  { intros m [Hs _]. apply stored_app in Hs as [Hs _]. replace (Z.to_nat ROOTFS_LEN) with (length img) by (unfold zlen in Himg; lia).
    by apply load_bytes_spec. }
  apply say_then; [log_ok |]. apply triple_ret. done.
Qed.

(** The device tree at its address, only its window touched. *)
Lemma build_adt_spec (P : mem -> Prop) (Q : Z -> mem -> Prop) :
  (forall m, P m -> mapped m ADT_BASE_ADDR 0x10000 /\ (forall x b, m x = Some b -> is_u8 b)) ->
  (forall m m', P m -> stored m' ADT_BASE_ADDR (flat xzs_tree) ->
     (forall x, ~ (ADT_BASE_ADDR <= x < ADT_BASE_ADDR + 0x10000) -> m' x = m x) -> Q 7368 m') ->
  triple P build_adt Q.
Proof.
  intros HP HQ s Hl Hs. unfold build_adt. destruct (HP _ Hs) as [Hm Hu].
  destruct (load_bytes_mapped ADT_WINDOW (sm_mem s) ADT_BASE_ADDR) as (w & Hw & Hlen).
  { unfold ADT_WINDOW. by rewrite Z2Nat.id by done. }
  assert (zlen w = 0x10000) as Hz by (unfold zlen; rewrite Hlen; unfold ADT_WINDOW; by rewrite Z2Nat.id by done).
  rewrite Hw. cbn [mbind outcome_bind]. rewrite build_tree_exact by lia. cbn [of_option mbind outcome_bind].
  assert (zlen (flat xzs_tree ++ drop (Z.to_nat 7368) w) = 0x10000) as Hz2.
  { rewrite zlen_app, zlen_xzs_tree, zlen_drop by lia. lia. }
  destruct (store_bytes_spec (flat xzs_tree ++ drop (Z.to_nat 7368) w) (sm_mem s) ADT_BASE_ADDR) as (m' & -> & Hs' & Ho).
  - by rewrite Hz2.
  - apply Forall_app. split; [apply xzs_tree_u8 |]. apply Forall_drop. by eapply load_bytes_u8.
  - cbn [mbind outcome_bind]. exists 7368. eexists. split; [done |]. split; [done |]. apply (HQ (sm_mem s)); [done | |].
    + by apply stored_app in Hs' as [? _].
    + by rewrite Hz2 in Ho.
Qed.

(** ** The handoff *)

(** The memory the shim writes. *)
Definition shim_area (x : Z) : Prop :=
  RAMDISK_BASE <= x < RAMDISK_BASE + RAMDISK_SIZE \/ BOOT_ARGS_ADDR <= x < BOOT_ARGS_ADDR + sizeof_boot_args \/
  ADT_BASE_ADDR <= x < ADT_BASE_ADDR + 0x10000.

(** Memory at the jump, from the memory at entry. *)
Record handoff_memory (base : Z) (m0 m : mem) : Prop := {
  hm_rest : forall x, ~ shim_area x -> m x = m0 x;
  hm_ramdisk : stored m RAMDISK_BASE (img ++ padding);
  hm_adt : stored m ADT_BASE_ADDR (flat xzs_tree);
  hm_args : fields_hold m BOOT_ARGS_ADDR (boot_args_fields base 7368);
  hm_line : stored m (BOOT_ARGS_ADDR + ba "CommandLine") (shim_command_line ++ [0]);
}.

(** RAM where the board has it, holding bytes. *)
Definition DRAM_BASE : Z := 0x80000000.
Definition DRAM_SIZE : Z := 0x78000000.
Definition dram (m : mem) : Prop := mapped m DRAM_BASE DRAM_SIZE /\ forall x b, m x = Some b -> is_u8 b.

Lemma stored_u8 m a l : (forall x b, m x = Some b -> is_u8 b) -> stored m a l -> Forall is_u8 l.
Proof. intros Hu Hs. apply Forall_lookup. intros i b Hi. by eapply Hu, Hs. Qed.

Lemma wrote_dram m m' a bs : wrote m m' a bs -> Forall is_u8 bs -> dram m -> dram m'.
Proof.
  intros Hw Hb [Hm Hu]. split; [by eapply wrote_mapped |]. intros x b Hx.
  destruct (decide (a <= x < a + zlen bs)) as [Hin | Hout].
  - destruct (lookup_lt_is_Some_2 bs (Z.to_nat (x - a))) as [c Hc]; [unfold zlen in *; lia |].
    destruct Hw as [Hs _]. pose proof (Hs _ _ Hc) as Hsc. replace (a + Z.of_nat (Z.to_nat (x - a))) with x in Hsc by lia.
    rewrite Hx in Hsc. injection Hsc as ->. rewrite Forall_lookup in Hb. by eapply Hb.
  - destruct Hw as [_ Ho]. rewrite Ho in Hx by done. by eapply Hu.
Qed.

(** Memory once the device tree is built. *)
Definition tree_built (m0 m : mem) : Prop :=
  stored m RAMDISK_BASE (img ++ padding) /\ stored m ADT_BASE_ADDR (flat xzs_tree) /\
  mapped m BOOT_ARGS_ADDR sizeof_boot_args /\
  forall x, ~ (RAMDISK_BASE <= x < RAMDISK_BASE + RAMDISK_SIZE) -> ~ (ADT_BASE_ADDR <= x < ADT_BASE_ADDR + 0x10000) -> m x = m0 x.

Lemma zlen_ramdisk : zlen (img ++ padding) = RAMDISK_SIZE.
Proof. rewrite zlen_app, zlen_padding, Himg. lia. Qed.

Lemma ramdisk_u8 : Forall is_u8 (img ++ padding).
Proof. apply Forall_app. split; [done |]. by apply Forall_replicate. Qed.

Lemma build_tree_spec m0 : dram m0 ->
  triple (fun m => wrote m0 m RAMDISK_BASE (img ++ padding)) build_adt (fun len m => len = 7368 /\ tree_built m0 m).
Proof.
  intros Hd. apply build_adt_spec.
  - intros m Hw. destruct (wrote_dram _ _ _ _ Hw ramdisk_u8 Hd) as [Hm Hu]. split; [| done].
    eapply mapped_sub; [exact Hm | by vm_compute..].
  - intros m m' Hw Hadt Ho. split; [done |]. split; [| split; [done | split]].
    + intros i b Hi. rewrite Ho; [by apply Hw |]. apply lookup_lt_Some in Hi. pose proof zlen_ramdisk as Hz. unfold zlen in Hz.
      unfold RAMDISK_BASE, RAMDISK_SIZE, ADT_BASE_ADDR in *. lia.
    + destruct (wrote_dram _ _ _ _ Hw ramdisk_u8 Hd) as [Hm _]. intros x Hx. rewrite Ho.
      * apply Hm. change sizeof_boot_args with 1152 in Hx. unfold BOOT_ARGS_ADDR, DRAM_BASE, DRAM_SIZE in *. lia.
      * change sizeof_boot_args with 1152 in Hx. unfold BOOT_ARGS_ADDR, ADT_BASE_ADDR in *. lia.
    + intros x H1 H2. rewrite Ho by done. apply Hw. by rewrite zlen_ramdisk.
Qed.

Lemma populate_spec m0 base : triple (tree_built m0)
  (modifies (fun m => populate_boot_args m base 7368)) (fun _ m => handoff_memory base m0 m).
Proof.
  apply triple_modifies. intros m (Hrd & Hadt & Hba & Ho).
  destruct (populate_boot_args_spec m base 7368 Hba) as (m' & E & Hf & Hl & Ho').
  exists m'. split; [exact E |]. change sizeof_boot_args with 1152 in Ho'. split; try done.
  - intros x Hx. unfold shim_area in Hx. change sizeof_boot_args with 1152 in Hx. rewrite Ho' by tauto. apply Ho; tauto.
  - intros i b Hi. rewrite Ho'; [by apply Hrd |]. apply lookup_lt_Some in Hi. pose proof zlen_ramdisk as Hz. unfold zlen in Hz.
    unfold RAMDISK_BASE, RAMDISK_SIZE, BOOT_ARGS_ADDR in *. lia.
  - intros i b Hi. rewrite Ho'; [by apply Hadt |]. unfold ADT_BASE_ADDR, BOOT_ARGS_ADDR. lia.
Qed.

(** A boot argument read back. *)
Lemma field_reads m base w off v : fields_hold m BOOT_ARGS_ADDR (boot_args_fields base 7368) ->
  (w, off, v) ∈ boot_args_fields base 7368 -> 0 <= v < 256 ^ Z.of_nat w -> load_le w m (BOOT_ARGS_ADDR + off) = Ret v.
Proof.
  intros Hf Hin Hv. unfold fields_hold in Hf. rewrite Forall_forall in Hf. apply load_le_stored; [| done]. exact (Hf _ Hin).
Qed.

Lemma boot_kernel_spec m0 base cmds : dram m0 -> macho_at m0 base cmds -> 0 <= base ->
  triple (eq m0) (boot_kernel img base)
    (fun r m => r = Handoff BOOT_ARGS_ADDR (entry_of base cmds) /\ handoff_memory base m0 m).
Proof.
  intros Hd Hmo Hb. unfold boot_kernel. apply (reads_then _ _ (entry_of base cmds)).
  { intros ? <-. by apply find_macho_entry_spec. }
  quiet. eapply triple_value; [apply copy_rootfs_spec; by eapply mapped_sub; [apply Hd | by vm_compute..] |].
  cbn [negb]. quiet. eapply triple_value; [by apply build_tree_spec |].
  quiet. eapply triple_bind; [apply (populate_spec m0 base) |]. intros [].
  assert (forall name w v, (w, ba name, v) ∈ boot_args_fields base 7368 -> 0 <= v < 256 ^ Z.of_nat w ->
    forall m, handoff_memory base m0 m -> load_le w m (BOOT_ARGS_ADDR + ba name) = Ret v) as Hrd.
  { intros name w v Hin Hv m Hm. eapply field_reads; [by destruct Hm | done | done]. }
  eapply reads_then; [apply (Hrd "virtBase"%string 8%nat); [do 2 apply list_elem_of_further; apply list_elem_of_here | apply u64_range] |].
  eapply reads_then; [apply (Hrd "physBase"%string 8%nat 0x80000000); [do 3 apply list_elem_of_further; apply list_elem_of_here | done] |].
  eapply reads_then; [apply (Hrd "memSize"%string 8%nat 0x78000000); [do 4 apply list_elem_of_further; apply list_elem_of_here | done] |].
  eapply reads_then; [apply (Hrd "topOfKernelData"%string 8%nat); [do 6 apply list_elem_of_further; apply list_elem_of_here | apply u64_range] |].
  eapply (reads_then _ _ shim_command_line).
  { intros m Hm. apply load_cstr_spec; [exact command_line_no_nul | by destruct Hm | by apply Nat.ltb_lt; vm_compute]. }
  quiet. by apply triple_ret.
Qed.
End boot.

(** ** Properties *)

Lemma announce_spec P dtb el mpidr frq t0 : 0 <= el < 2 ^ 64 -> 0 <= frq < 2 ^ 64 ->
  triple P (announce dtb el mpidr frq t0) (fun _ => P).
Proof.
  intros He Hf. unfold announce. apply stage_then. apply say_then.
  { repeat (apply Forall_cons; split; [first [exact I | by apply Dec_ok] |]). constructor. }
  apply stage_then. apply say_then; [destruct (negb _); log_ok |]. apply triple_say; [| done].
  repeat (apply Forall_cons; split; [first [exact I | by apply Dec_ok] |]). constructor.
Qed.

(** The addresses the shim probes for a kernel are in RAM. *)
Lemma probes_readable m initrd : dram m -> initrd = 0 \/ DRAM_BASE <= initrd <= DRAM_BASE + DRAM_SIZE - 4 ->
  Forall (readable m) ((if initrd =? 0 then [] else [initrd]) ++ candidates).
Proof.
  intros [Hm _] Hi. apply Forall_app. split.
  - destruct (Z.eqb_spec initrd 0); constructor; [| constructor]. apply mapped_readable. eapply mapped_sub; [exact Hm | lia..].
  - unfold candidates. repeat (apply Forall_cons; split; [apply mapped_readable; eapply mapped_sub; [exact Hm | by vm_compute..] |]).
    constructor.
Qed.

(** From power-up to the search for the kernel. *)
Lemma main_until_located img fuel dtb el mpidr frq t0 m0 l0 initrd Q :
  logs_sized l0 -> 0 <= el < 2 ^ 64 -> 0 <= frq < 2 ^ 64 ->
  fdt_get_initrd_start fuel m0 dtb = Ret initrd -> Forall (readable m0) ((if initrd =? 0 then [] else [initrd]) ++ candidates) ->
  triple (eq m0) (if negb (kernel_base m0 initrd =? 0) then boot_kernel img (kernel_base m0 initrd)
    else _ ← say [Txt "[XZS-SHIM] ERROR: No Mach-O kernel detected in any safe DRAM candidate!"; NL]; mret SystemReset) Q ->
  exists r s', bootshim_main img fuel dtb el mpidr frq t0 (ShimState m0 l0) = Ret (r, s') /\ Q r (sm_mem s').
Proof.
  intros Hl He Hf Hfdt Hr Hk. destruct (uart_init_ok l0 Hl) as (l1 & E1 & H1).
  unfold bootshim_main. unfold mbind at 1, prog_bind at 1. cbn [sm_logs]. rewrite E1. cbn [of_option mbind outcome_bind sm_mem].
  match goal with |- exists r s', ?prog ?s = _ /\ _ => enough (triple (eq m0) prog Q) as Ht end.
  { destruct (Ht (ShimState m0 l1)) as (r & s' & Er & _ & HQ); [by eexists | done |]. by exists r, s'. }
  eapply triple_bind; [by apply announce_spec |]. intros []. quiet.
  eapply triple_value; [by apply locate_kernel_spec | exact Hk].
Qed.


(** Without a kernel, or with an embedded root file system of the wrong length, the shim
    does not hand over: it reports and resets the system, and it has written to no memory but
    the logs. *)
Theorem bootshim_resets img fuel dtb el mpidr frq t0 m0 l0 initrd cmds :
  logs_sized l0 -> 0 <= el < 2 ^ 64 -> 0 <= frq < 2 ^ 64 -> zlen img < 2 ^ 64 -> dram m0 ->
  fdt_get_initrd_start fuel m0 dtb = Ret initrd -> initrd = 0 \/ DRAM_BASE <= initrd <= DRAM_BASE + DRAM_SIZE - 4 ->
  kernel_base m0 initrd = 0 \/ macho_at m0 (kernel_base m0 initrd) cmds /\ zlen img <> ROOTFS_LEN ->
  exists s', bootshim_main img fuel dtb el mpidr frq t0 (ShimState m0 l0) = Ret (SystemReset, s') /\ sm_mem s' = m0.
Proof.
  intros Hl He Hf Hlen Hd Hfdt Hi Hbad.
  destruct (main_until_located img fuel dtb el mpidr frq t0 m0 l0 initrd (fun r m => r = SystemReset /\ m = m0))
    as (r & s' & E & -> & Hm); try done; [by apply probes_readable | | by exists s'].
  destruct (Z.eqb_spec (kernel_base m0 initrd) 0) as [E0 | E0]; cbn [negb].
  { quiet. apply triple_ret. by intros m <-. }
  destruct Hbad as [? | [Hmo Hne]]; [done |]. unfold boot_kernel.
  apply (reads_then _ _ (entry_of (kernel_base m0 initrd) cmds)); [intros ? <-; by apply find_macho_entry_spec |]. quiet.
  apply (triple_value _ _ false _ (eq m0)); [| apply triple_ret; by intros m <-]. unfold copy_rootfs. cbv zeta.
  apply say_then; [repeat (apply Forall_cons; split; [first [exact I | apply Dec_ok; pose proof (zlen_nonneg img); lia] |]); constructor |].
  rewrite (proj2 (Z.eqb_neq (zlen img) ROOTFS_LEN)) by done. cbn [negb]. quiet. by apply triple_ret.
Qed.

(** An exception is logged, memory is left alone and the system resets. *)
Lemma on_exception_resets m0 esr elr far spsr :
  triple (eq m0) (bootshim_on_exception esr elr far spsr) (fun r m => r = SystemReset /\ m = m0).
Proof. unfold bootshim_on_exception. quiet. apply triple_ret. by intros m <-. Qed.

(** ** A board to boot *)

(** A kernel image of one load command, at the given address of an otherwise zero RAM. *)
Definition sample_kernel : bytes :=
  le_split 4 MH_MAGIC_64 ++ replicate 12 0 ++ le_split 4 1 ++ replicate 12 0 ++
  (le_split 4 LC_UNIXTHREAD ++ le_split 4 288) ++ replicate 264 0 ++ le_split 8 (VM_KERNEL_LINK_ADDRESS + 0x1000).
Definition sample_commands : list load_command := [LoadCommand LC_UNIXTHREAD 288 (VM_KERNEL_LINK_ADDRESS + 0x1000)].

Definition sample_ram (at_ : Z) : mem := fun x =>
  if (DRAM_BASE <=? x) && (x <? DRAM_BASE + DRAM_SIZE) then Some (default 0 (mem_of at_ sample_kernel x)) else None.

Lemma sample_kernel_u8 : Forall is_u8 sample_kernel.
Proof. by apply (bool_decide_unpack _); vm_compute. Qed.

Lemma sample_ram_dram at_ : dram (sample_ram at_).
Proof.
  split.
  - intros x Hx. unfold sample_ram. rewrite (proj2 (Z.leb_le _ _)), (proj2 (Z.ltb_lt _ _)) by lia. by eexists.
  - intros x b. unfold sample_ram. destruct (_ && _); [| done]. intros [= <-]. unfold mem_of. destruct (_ && _); [| by cbn].
    destruct (sample_kernel !! Z.to_nat (x - at_)) as [c |] eqn:Ec; [| by cbn]. cbn. eapply Forall_lookup_1; [apply sample_kernel_u8 | exact Ec].
Qed.

Lemma sample_stored at_ pre l rest : DRAM_BASE <= at_ -> at_ + 312 <= DRAM_BASE + DRAM_SIZE ->
  sample_kernel = pre ++ l ++ rest -> stored (sample_ram at_) (at_ + zlen pre) l.
Proof.
  intros H1 H2 E i b Hi. pose proof (mem_of_stored at_ pre l rest i b Hi) as Hm. rewrite <- E in Hm.
  assert (zlen sample_kernel = 312) as Hz by by vm_compute. rewrite E, !zlen_app in Hz.
  pose proof (lookup_lt_Some _ _ _ Hi). pose proof (zlen_nonneg rest). pose proof (zlen_nonneg pre). unfold sample_ram.
  rewrite Hm. rewrite (proj2 (Z.leb_le _ _)), (proj2 (Z.ltb_lt _ _)) by (unfold zlen in *; lia). done.
Qed.

Lemma sample_macho at_ : DRAM_BASE <= at_ -> at_ + 312 <= DRAM_BASE + DRAM_SIZE -> macho_at (sample_ram at_) at_ sample_commands.
Proof.
  intros H1 H2. assert (forall off pre l rest, sample_kernel = pre ++ l ++ rest -> zlen pre = off ->
    stored (sample_ram at_) (at_ + off) l) as Hs by (intros off pre l rest E <-; by eapply sample_stored).
  split; [| split; [| split; [done |]]].
  - rewrite <- (Z.add_0_r at_) at 2. by apply (Hs 0 [] _ (drop 4 sample_kernel)).
  - by apply (Hs 16 (take 16 sample_kernel) _ (drop 20 sample_kernel)).
  - cbn [commands_at sample_commands lc_cmd lc_size lc_pc]. split; [done |]. split; [| split; [intros _ | done]].
    + by apply (Hs 32 (take 32 sample_kernel) _ (drop 40 sample_kernel)).
    + rewrite <- Z.add_assoc. by apply (Hs 304 (take 304 sample_kernel) _ []).
Qed.

Definition sample_image : bytes := replicate (Z.to_nat ROOTFS_LEN) 0.

Lemma zlen_sample_image : zlen sample_image = ROOTFS_LEN.
Proof. unfold sample_image. rewrite zlen_replicate. by vm_compute. Qed.


Lemma bootshim_resets_witness :
  exists s', bootshim_main [] 1 0 1 0x80000000 19200000 5 (ShimState (sample_ram 0x90000000) blank_log) = Ret (SystemReset, s') /\
    sm_mem s' = sample_ram 0x90000000.
Proof.
  apply (bootshim_resets [] 1 0 1 0x80000000 19200000 5 (sample_ram 0x90000000) blank_log 0 []
    blank_log_sized ltac:(done) ltac:(done) ltac:(done) (sample_ram_dram _) eq_refl (or_introl eq_refl)). by left; vm_compute.
Defined.
