(* ===== verification/ShimHandoff.v ===== *)
(** * From the boot shim to the kernel

    The memory the boot shim leaves, read with the kernel's own declarations and parsers: the
    boot arguments at the offsets of pexpert/arm64/boot.h, the command line through the
    boot-argument parser, the RAM disk through the device tree reader. *)

From stdpp Require Import base list strings.
From Stdlib Require Import ZArith Lia.
From S2P Require Import Prelude Crc32 XzsfsCore BootArgs DeviceTree DeviceTreeProofs Adt AdtProofs Memory ShimLog ShimLogProofs ShimFdt Shim ShimProofs.

(** The offset of a field in the structure the kernel declares. *)
Definition kba (name : string) : Z := field_offset kernel_boot_args name 0.

(** Both declarations lay the structure out alike. *)
Definition boot_args_names : list string :=
  ["Revision"; "Version"; "virtBase"; "physBase"; "memSize"; "topOfKernelData"; "v_baseAddr"; "v_display"; "v_rowBytes";
   "v_width"; "v_height"; "v_depth"; "machineType"; "deviceTreeP"; "deviceTreeLength"; "CommandLine"; "bootFlags"; "memSizeActual"]%string.

Lemma boot_args_layouts_agree : Forall (fun name => kba name = ba name) boot_args_names /\ sizeof kernel_boot_args = sizeof_boot_args.
Proof. by apply (bool_decide_unpack _); vm_compute. Qed.

Lemma kba_ba name : name ∈ boot_args_names -> kba name = ba name.
Proof. intros Hn. destruct boot_args_layouts_agree as [H _]. rewrite Forall_forall in H. by apply H. Qed.

Section kernel_view.
Context (img : bytes) (Himg : zlen img = ROOTFS_LEN) (base : Z) (m0 m : mem) (Hm : handoff_memory img base m0 m).

(** A boot argument as the kernel reads it. *)
Lemma kernel_reads_field name w v : name ∈ boot_args_names -> (w, ba name, v) ∈ boot_args_fields base 7368 ->
  0 <= v < 256 ^ Z.of_nat w -> load_le w m (BOOT_ARGS_ADDR + kba name) = Ret v.
Proof. intros Hn Hin Hv. rewrite kba_ba by done. eapply field_reads; [by destruct Hm | done | done]. Qed.

Lemma kernel_reads_tree : load_bytes m ADT_BASE_ADDR (Z.to_nat 7368) = Ret (flat xzs_tree).
Proof.
  replace (Z.to_nat 7368) with (length (flat xzs_tree)) by (pose proof zlen_xzs_tree as Hz; unfold zlen in Hz; lia).
  apply load_bytes_spec. by destruct Hm.
Qed.

Lemma tree_placed : placed ADT_BASE_ADDR (flat xzs_tree) xzs_tree.
Proof.
  pose proof (shim_tree_placed ADT_BASE_ADDR (flat xzs_tree)) as Hp. rewrite zlen_xzs_tree in Hp.
  rewrite drop_ge, app_nil_r in Hp by (pose proof zlen_xzs_tree as Hz; unfold zlen in Hz; lia).
  apply Hp; by vm_compute.
Qed.
End kernel_view.

(** Reading a member of a literal list. *)
Ltac member := repeat first [apply list_elem_of_here | apply list_elem_of_further].

(** C11. The kernel finds what the shim prepared.  In the memory at the jump, read with the
    kernel's declaration of [boot_args]: the virtual and physical bases map the place where the
    kernel was loaded to its link address, and RAM and kernel end are the board's; the command
    line parses to the root device; and the device tree at the address and length given, read
    with the kernel's reader, names a RAM disk whose memory holds the root file system image. *)
Theorem kernel_view_of_handoff img base m0 m buf :
  zlen img = ROOTFS_LEN -> handoff_memory img base m0 m -> 0x80000000 <= base < 2 ^ 40 -> zlen buf = kDTMaxEntryNameLength + 1 ->
  exists virtBase dtP dtLen tree line a p v ramAddr ramLen,
    load_le 8 m (BOOT_ARGS_ADDR + kba "virtBase") = Ret virtBase /\
    load_le 8 m (BOOT_ARGS_ADDR + kba "physBase") = Ret DRAM_BASE /\
    load_le 8 m (BOOT_ARGS_ADDR + kba "memSize") = Ret DRAM_SIZE /\
    virtBase + (base - DRAM_BASE) = VM_KERNEL_LINK_ADDRESS /\
    load_cstr 1024 m (BOOT_ARGS_ADDR + kba "CommandLine") = Ret line /\
    (exists to', PE_parse_boot_arg_str (line ++ [0]) (lit "rd") (replicate 16 0) 16 = Some (true, to') /\
       take 9 to' = lit "disk0s54" ++ [0]) /\
    load_le 8 m (BOOT_ARGS_ADDR + kba "deviceTreeP") = Ret dtP /\
    load_le 4 m (BOOT_ARGS_ADDR + kba "deviceTreeLength") = Ret dtLen /\
    load_bytes m dtP (Z.to_nat dtLen) = Ret tree /\ SecureDTInit dtP dtLen = Ret (globals dtP tree) /\
    SecureDTLookupEntry dtP tree (globals dtP tree) buf 0 (kDTPathNameSeparator :: join_path [lit "chosen"; lit "memory-map"]) = Ret (Some a) /\
    SecureDTGetProperty dtP tree (globals dtP tree) a (lit "RAMDisk" ++ [0]) = Ret (Some (p, 16)) /\
    sub_bytes tree (p - dtP) 16 = Some v /\
    ramAddr = le_combine (take 8 v) /\ ramLen = le_combine (drop 8 v) /\
    load_bytes m ramAddr (Z.to_nat ramLen) = Ret (img ++ padding).
Proof.
  intros Himg Hm Hb Hbuf.
  assert (u64 (VM_KERNEL_LINK_ADDRESS - u64 (base - 0x80000000)) = VM_KERNEL_LINK_ADDRESS - (base - 0x80000000)) as Ev.
  { unfold VM_KERNEL_LINK_ADDRESS. change (2 ^ 40) with 1099511627776 in Hb. rewrite (u64_small (base - _)) by cint.
    apply u64_small. cint. }
  destruct (expected_prop_read ADT_BASE_ADDR (flat xzs_tree) buf [lit "chosen"; lit "memory-map"] (lit "RAMDisk")
    (le_split 8 0x81700000 ++ le_split 8 0x12000) tree_placed Hbuf ltac:(member)) as (a & p & Ha & Hp & Hv).
  exists (VM_KERNEL_LINK_ADDRESS - (base - 0x80000000)), ADT_BASE_ADDR, 7368, (flat xzs_tree), shim_command_line, a, p,
    (le_split 8 0x81700000 ++ le_split 8 0x12000), 0x81700000, 0x12000.
  assert (forall name w v, name ∈ boot_args_names -> (w, ba name, v) ∈ boot_args_fields base 7368 ->
    0 <= v < 256 ^ Z.of_nat w -> load_le w m (BOOT_ARGS_ADDR + kba name) = Ret v) as Hf by (intros; by eapply kernel_reads_field).
  split; [rewrite <- Ev; apply Hf; [member | do 2 apply list_elem_of_further; apply list_elem_of_here | apply u64_range] |].
  split; [apply (Hf "physBase"%string 8%nat 0x80000000); [member | do 3 apply list_elem_of_further; apply list_elem_of_here | clear; by vm_compute] |].
  split; [apply (Hf "memSize"%string 8%nat 0x78000000); [member | do 4 apply list_elem_of_further; apply list_elem_of_here | clear; by vm_compute] |].
  split; [clear; unfold DRAM_BASE; lia |].
  split; [rewrite kba_ba by member; apply load_cstr_spec; [exact command_line_no_nul | by destruct Hm | by apply Nat.ltb_lt; vm_compute] |].
  split; [eexists; split; vm_compute; reflexivity |].
  split; [apply (Hf "deviceTreeP"%string 8%nat ADT_BASE_ADDR); [member | do 7 apply list_elem_of_further; apply list_elem_of_here | clear; by vm_compute] |].
  split; [apply (Hf "deviceTreeLength"%string 4%nat 7368); [member | do 8 apply list_elem_of_further; apply list_elem_of_here | clear; by vm_compute] |].
  split; [by eapply kernel_reads_tree |].
  split; [rewrite <- zlen_xzs_tree at 1; by eapply placed_init, tree_placed |].
  split; [exact Ha |]. split; [exact Hp |]. split; [exact Hv |]. split; [reflexivity |]. split; [reflexivity |].
  replace (Z.to_nat 0x12000) with (length (img ++ padding)) by (pose proof (zlen_ramdisk img Himg) as Hz; unfold zlen, RAMDISK_SIZE in Hz; lia).
  apply load_bytes_spec. by destruct Hm.
Qed.

(** Booting the sample kernel from [at_]. *)
Lemma sample_handoff at_ : DRAM_BASE <= at_ -> at_ + 312 <= DRAM_BASE + DRAM_SIZE ->
  exists m, handoff_memory sample_image at_ (sample_ram at_) m.
Proof.
  intros H1 H2. destruct (uart_init_ok blank_log blank_log_sized) as (l & _ & Hl).
  destruct (boot_kernel_spec sample_image zlen_sample_image ltac:(by apply Forall_replicate) (sample_ram at_) at_ sample_commands
    (sample_ram_dram at_) (sample_macho at_ H1 H2) ltac:(unfold DRAM_BASE in H1; lia) (ShimState (sample_ram at_) l))
    as (r & s' & _ & _ & _ & Hm); [by eexists | done |]. by exists (sm_mem s').
Qed.

Lemma kernel_view_of_handoff_witness : exists m virtBase line,
  handoff_memory sample_image 0x82200000 (sample_ram 0x82200000) m /\
  load_le 8 m (BOOT_ARGS_ADDR + kba "virtBase") = Ret virtBase /\ virtBase + 0x2200000 = VM_KERNEL_LINK_ADDRESS /\
  load_cstr 1024 m (BOOT_ARGS_ADDR + kba "CommandLine") = Ret line.
Proof.
  destruct (sample_handoff 0x82200000) as (m & Hm); [by vm_compute.. |].
  destruct (kernel_view_of_handoff sample_image 0x82200000 (sample_ram 0x82200000) m (replicate 64 0) zlen_sample_image Hm)
    as (vb & dtP & dtLen & tree & line & a & p & v & ra & rl & H1 & _ & _ & H2 & H3 & _); [by vm_compute.. |].
  exists m, vb, line. split; [exact Hm |]. split; [exact H1 |]. split; [exact H2 | exact H3].
Defined.

(** One of the addresses probed for a kernel, 0x81800000, is where the boot arguments go: a
    kernel found there has its header overwritten before the jump. *)
Lemma candidate_overlaps_boot_args img m0 m : handoff_memory img 0x81800000 m0 m -> 0x81800000 ∈ candidates /\ is_macho m 0x81800000 = false.
Proof.
  intros Hm. split; [unfold candidates; do 5 apply list_elem_of_further; apply list_elem_of_here |].
  destruct Hm as [_ _ _ Ha _]. unfold fields_hold in Ha. rewrite Forall_forall in Ha.
  pose proof (Ha (2%nat, ba "Revision", 2) ltac:(apply list_elem_of_here)) as Hr.
  pose proof (Ha (2%nat, ba "Version", 2) ltac:(apply list_elem_of_further, list_elem_of_here)) as Hv.
  assert (stored m 0x81800000 [2; 0; 2; 0]) as Hs by (apply (stored_app m 0x81800000 [2; 0] [2; 0]); split; [exact Hr | exact Hv]).
  unfold is_macho, load_le. change 4%nat with (length [2; 0; 2; 0]). by rewrite (load_bytes_spec [2; 0; 2; 0] m 0x81800000 Hs).
Qed.
