(* ===== verification/CodeSign.v ===== *)
(** * Code signatures

    Models the code signing routines of bsd/kern/ubc_subr.c on the structures of
    osfmk/kern/cs_blobs.h: validation of a signature, finding blobs and hash slots in it, the
    wrapper the kernel keeps per signature, entitlements, and the check of a page against its
    hash.  A signature is read from memory by address; hash functions and the page size are
    parameters, and so is whether assertions are compiled in.  Messages (cs_debug) have no
    counterpart. *)

From stdpp Require Import base list strings gmap.
From Stdlib Require Import ZArith Lia.
From S2P Require Import Prelude XzsfsCore Memory.

(** ** Constants *)

Definition EBADEXEC : Z := 85.

Definition CSMAGIC_CODEDIRECTORY : Z := 0xfade0c02.
Definition CSMAGIC_EMBEDDED_SIGNATURE : Z := 0xfade0cc0.
Definition CSMAGIC_EMBEDDED_ENTITLEMENTS : Z := 0xfade7171.
Definition CSMAGIC_EMBEDDED_DER_ENTITLEMENTS : Z := 0xfade7172.
Definition CSMAGIC_EMBEDDED_LAUNCH_CONSTRAINT : Z := 0xfade8181.

Definition CS_SUPPORTSSCATTER : Z := 0x20100.
Definition CS_SUPPORTSTEAMID : Z := 0x20200.
Definition CS_SUPPORTSLINKAGE : Z := 0x20600.

Definition CSSLOT_CODEDIRECTORY : Z := 0.
Definition CSSLOT_ENTITLEMENTS : Z := 5.
Definition CSSLOT_DER_ENTITLEMENTS : Z := 7.
Definition CSSLOT_LAUNCH_CONSTRAINT_SELF : Z := 8.
Definition CSSLOT_LAUNCH_CONSTRAINT_PARENT : Z := 9.
Definition CSSLOT_LAUNCH_CONSTRAINT_RESPONSIBLE : Z := 10.
Definition CSSLOT_LIBRARY_CONSTRAINT : Z := 11.
Definition CSSLOT_ALTERNATE_CODEDIRECTORIES : Z := 0x1000.
Definition CSSLOT_ALTERNATE_CODEDIRECTORY_LIMIT : Z := 0x1005.

Definition CS_HASHTYPE_SHA1 : Z := 1.
Definition CS_HASHTYPE_SHA256 : Z := 2.
Definition CS_HASHTYPE_SHA256_TRUNCATED : Z := 3.
Definition CS_HASHTYPE_SHA384 : Z := 4.
Definition CS_HASH_MAX_SIZE : Z := 48.
Definition CS_CDHASH_LEN : Z := 20.

Definition CS_SIGNER_TYPE_UNKNOWN : Z := 0.

Definition CS_VALID : Z := 0x00000001.
Definition CS_ADHOC : Z := 0x00000002.
Definition CS_HARD : Z := 0x00000100.
Definition CS_KILL : Z := 0x00000200.
Definition CS_CHECK_EXPIRATION : Z := 0x00000400.
Definition CS_RESTRICT : Z := 0x00000800.
Definition CS_ENFORCEMENT : Z := 0x00001000.
Definition CS_REQUIRE_LV : Z := 0x00002000.
Definition CS_RUNTIME : Z := 0x00010000.
Definition CS_LINKER_SIGNED : Z := 0x00020000.
Definition CS_ALLOWED_MACHO : Z :=
  foldr Z.lor 0 [CS_ADHOC; CS_HARD; CS_KILL; CS_CHECK_EXPIRATION; CS_RESTRICT; CS_ENFORCEMENT;
                 CS_REQUIRE_LV; CS_RUNTIME; CS_LINKER_SIGNED].

(** ** Structures *)

Definition CS_CodeDirectory : c_struct :=
  [("magic"%string, 4, 4); ("length"%string, 4, 4); ("version"%string, 4, 4); ("flags"%string, 4, 4);
   ("hashOffset"%string, 4, 4); ("identOffset"%string, 4, 4); ("nSpecialSlots"%string, 4, 4);
   ("nCodeSlots"%string, 4, 4); ("codeLimit"%string, 4, 4); ("hashSize"%string, 1, 1);
   ("hashType"%string, 1, 1); ("platform"%string, 1, 1); ("pageSize"%string, 1, 1);
   ("spare2"%string, 4, 4); ("scatterOffset"%string, 4, 4); ("teamOffset"%string, 4, 4);
   ("spare3"%string, 4, 4); ("codeLimit64"%string, 8, 8); ("execSegBase"%string, 8, 8);
   ("execSegLimit"%string, 8, 8); ("execSegFlags"%string, 8, 8); ("runtime"%string, 4, 4);
   ("preEncryptOffset"%string, 4, 4); ("linkageHashType"%string, 1, 1);
   ("linkageApplicationType"%string, 1, 1); ("linkageApplicationSubType"%string, 2, 2);
   ("linkageOffset"%string, 4, 4); ("linkageSize"%string, 4, 4)].
Definition CS_GenericBlob : c_struct := [("magic"%string, 4, 4); ("length"%string, 4, 4)].
Definition CS_BlobIndex : c_struct := [("type"%string, 4, 4); ("offset"%string, 4, 4)].
Definition CS_SuperBlob : c_struct := [("magic"%string, 4, 4); ("length"%string, 4, 4); ("count"%string, 4, 4)].
Definition SC_Scatter : c_struct :=
  [("count"%string, 4, 4); ("base"%string, 4, 4); ("targetOffset"%string, 8, 8); ("spare"%string, 8, 8)].

(** [ntohl(p->field)] and a byte field. *)
Definition be_field (st : c_struct) (m : mem) (p : Z) (f : string) : outcome Z := load_be32 m (p + field_offset st f 0).
Definition cd32 : mem -> Z -> string -> outcome Z := be_field CS_CodeDirectory.
Definition cd8 (m : mem) (cd : Z) (f : string) : outcome Z := load8 m (cd + field_offset CS_CodeDirectory f 0).
Definition blob32 : mem -> Z -> string -> outcome Z := be_field CS_GenericBlob.

(** [&sb->index[n]]. *)
Definition blob_index (sb n : Z) : Z := sb + sizeof CS_SuperBlob + n * sizeof CS_BlobIndex.

(** ** Hash types *)

(** [cs_digest] is [cs_final] after one [cs_update] with the bytes. *)
Record cs_hash := CsHash {
  cs_type : Z;
  cs_size : Z;
  cs_digest_size : Z;
  cs_digest : bytes -> bytes;
}.

Definition cs_valid_range (start end_ lower_bound upper_bound : Z) : bool :=
  negb ((upper_bound <? lower_bound) || (end_ <? start)) && negb ((start <? lower_bound) || (upper_bound <? end_)).

Definition hashPriorities : list Z :=
  [CS_HASHTYPE_SHA1; CS_HASHTYPE_SHA256_TRUNCATED; CS_HASHTYPE_SHA256; CS_HASHTYPE_SHA384].

(** [n + 1] for the first entry [n] that is the type, 0 when there is none. *)
Fixpoint rank_from (n : Z) (types : list Z) (type : Z) : Z :=
  match types with
  | [] => 0
  | t :: types => if t =? type then n + 1 else rank_from (n + 1) types type
  end.
Definition hash_rank (m : mem) (cd : Z) : outcome Z := type ← cd8 m cd "hashType"; Ret (rank_from 0 hashPriorities type).

(** A string of at most [n] bytes is terminated: [memchr(p, 0, n) != NULL]. *)
Fixpoint memchr0 (m : mem) (p : Z) (n : nat) : outcome bool :=
  match n with
  | O => Ret false
  | S n => c ← load8 m p; if c =? 0 then Ret true else memchr0 m (p + 1) n
  end.

(** Turns enough for a walk over scatter entries inside [length] bytes. *)
Definition scatter_fuel (length : Z) : nat := Z.to_nat (length / sizeof SC_Scatter + 2).

(** [memcmp(a, b, n) == 0] of memory at [a] and the bytes of [b]. *)
Definition mem_is (m : mem) (a : Z) (b : bytes) (n : Z) : outcome bool :=
  l ← load_bytes m a (Z.to_nat n); r ← of_option (sub_bytes b 0 n); Ret (bool_decide (l = r)).

Section code_signing.
(** The page size of the kernel, whether [assert] is compiled in, and the hash functions. *)
Context (PAGE_SHIFT : Z) (MACH_ASSERT : bool) (sha1 sha256 sha384 : bytes -> bytes).

Definition kassert (b : bool) : outcome unit := if MACH_ASSERT && negb b then Panic else Ret tt.

Definition cs_hash_sha1 : cs_hash := CsHash CS_HASHTYPE_SHA1 20 20 sha1.
Definition cs_hash_sha256 : cs_hash := CsHash CS_HASHTYPE_SHA256 32 32 sha256.
Definition cs_hash_sha256_truncate : cs_hash := CsHash CS_HASHTYPE_SHA256_TRUNCATED 20 32 sha256.
Definition cs_hash_sha384 : cs_hash := CsHash CS_HASHTYPE_SHA384 48 48 sha384.

Definition cs_find_md (type : Z) : option cs_hash :=
  if type =? CS_HASHTYPE_SHA1 then Some cs_hash_sha1
  else if type =? CS_HASHTYPE_SHA256 then Some cs_hash_sha256
  else if type =? CS_HASHTYPE_SHA256_TRUNCATED then Some cs_hash_sha256_truncate
  else if type =? CS_HASHTYPE_SHA384 then Some cs_hash_sha384
  else None.

(** ** Locating a page hash *)

(** One scatter entry; the state is its address, the hashes before it and the previous base,
    the result the first hash it covers and its first page. *)
Definition scatter_step (m : mem) (cd page hash_len lower_bound upper_bound nCodeSlots : Z) (st : Z * Z * Z)
    : outcome (ctl (Z * Z * Z) (option (Z * Z))) :=
  let '(scatter, hashindex, sbase) := st in
  length ← cd32 m cd "length";
  if cd + length <? scatter then Ret (Exit None)
  else
    scount ← be_field SC_Scatter m scatter "count";
    new_base ← be_field SC_Scatter m scatter "base";
    if scount =? 0 then Ret (Exit None)
    else if (0 <? hashindex) && (new_base <=? sbase) then Ret (Exit None)
    else
      let sbase := new_base in
      if page <? sbase then Ret (Exit None)
      else if page <=? u32 (sbase + scount) then
        hashOffset ← cd32 m cd "hashOffset";
        let base := u64 (cd + hashOffset + hashindex * hash_len) in
        let top := u64 (base + scount * hash_len) in
        if negb (cs_valid_range base top lower_bound upper_bound) || (nCodeSlots <? hashindex)
        then Ret (Exit None) else Ret (Exit (Some (base, sbase)))
      else Ret (Next (scatter + sizeof SC_Scatter, u32 (hashindex + scount), sbase)).

(** Does the directory have a scatter vector, and where? *)
Definition scatter_offset (m : mem) (cd : Z) : outcome Z :=
  version ← cd32 m cd "version";
  if CS_SUPPORTSSCATTER <=? version then cd32 m cd "scatterOffset" else Ret 0.

Definition hashes (m : mem) (cd page hash_len lower_bound upper_bound : Z) : outcome (option Z) :=
  nCodeSlots ← cd32 m cd "nCodeSlots";
  _ ← kassert (cs_valid_range cd (cd + sizeof CS_CodeDirectory) lower_bound upper_bound);
  scatterOffset ← scatter_offset m cd;
  hash ← (if negb (scatterOffset =? 0) then
      length ← cd32 m cd "length";
      r ← loop_ret (scatter_fuel length) (scatter_step m cd page hash_len lower_bound upper_bound nCodeSlots)
            (cd + scatterOffset, 0, 0);
      Ret (match r with
           | Some (base, sbase) => Some (u64 (base + u32 (page - sbase) * hash_len))
           | None => None
           end)
    else
      hashOffset ← cd32 m cd "hashOffset";
      let base := u64 (cd + hashOffset) in
      let top := u64 (base + nCodeSlots * hash_len) in
      if negb (cs_valid_range base top lower_bound upper_bound) || (nCodeSlots <? page) then Ret None
      else _ ← kassert (page <? nCodeSlots); Ret (Some (u64 (base + page * hash_len))));
  match hash with
  | Some hash =>
      Ret (if negb (cs_valid_range hash (u64 (hash + hash_len)) lower_bound upper_bound) then None else Some hash)
  | None => Ret None
  end.

(** ** Validation *)

(** One entry of the scatter vector: address and pages so far. *)
Definition scatter_check (m : mem) (cd length : Z) (st : Z * Z) : outcome (ctl (Z * Z) Z) :=
  let '(scatter, nPages) := st in
  if cd + length <? scatter + sizeof SC_Scatter then Ret (Exit EBADEXEC)
  else
    scount ← be_field SC_Scatter m scatter "count";
    if scount =? 0 then Ret (Exit 0)
    else if u32 (nPages + scount) <? nPages then Ret (Exit EBADEXEC)
    else Ret (Next (scatter + sizeof SC_Scatter, u32 (nPages + scount))).

(** The scatter vector, when the directory has one. *)
Definition validate_scatter (m : mem) (cd length : Z) : outcome Z :=
  scatterOffset ← scatter_offset m cd;
  if negb (scatterOffset =? 0) then
    if length <? scatterOffset then Ret EBADEXEC
    else loop_ret (scatter_fuel length) (scatter_check m cd length) (cd + scatterOffset, 0)
  else Ret 0.

(** A terminated string at an offset of the directory; 0 means there is none. *)
Definition validate_string (m : mem) (cd length offset : Z) : outcome Z :=
  if length <? offset then Ret EBADEXEC
  else if offset =? 0 then Ret 0
  else
    found ← memchr0 m (cd + offset) (Z.to_nat (length - offset));
    Ret (if (found : bool) then 0 else EBADEXEC).

Definition validate_team (m : mem) (cd length : Z) : outcome Z :=
  version ← cd32 m cd "version";
  if CS_SUPPORTSTEAMID <=? version then
    teamOffset ← cd32 m cd "teamOffset";
    if teamOffset =? 0 then Ret 0 else validate_string m cd length teamOffset
  else Ret 0.

Definition validate_linkage (m : mem) (cd length : Z) : outcome Z :=
  version ← cd32 m cd "version";
  if CS_SUPPORTSLINKAGE <=? version then
    linkageHashType ← cd8 m cd "linkageHashType";
    if linkageHashType =? 0 then Ret 0
    else
      linkageOffset ← cd32 m cd "linkageOffset";
      linkageSize ← cd32 m cd "linkageSize";
      let ptr := u64 (cd + linkageOffset) in
      let ptr_end := u64 (ptr + linkageSize) in
      Ret (if (ptr_end <? ptr) || (ptr <? cd) || (u64 (cd + length) <? ptr_end) then EBADEXEC else 0)
  else Ret 0.

Definition cs_validate_codedirectory (m : mem) (cd length : Z) : outcome Z :=
  if length <? sizeof CS_CodeDirectory then Ret EBADEXEC
  else
    magic ← cd32 m cd "magic";
    if negb (magic =? CSMAGIC_CODEDIRECTORY) then Ret EBADEXEC
    else
      pageSize ← cd8 m cd "pageSize";
      if negb (pageSize =? 12) && negb (pageSize =? PAGE_SHIFT) then Ret EBADEXEC
      else
        type ← cd8 m cd "hashType";
        match cs_find_md type with
        | None => Ret EBADEXEC
        | Some hashtype =>
            hashSize ← cd8 m cd "hashSize";
            hashOffset ← cd32 m cd "hashOffset";
            nSpecialSlots ← cd32 m cd "nSpecialSlots";
            nCodeSlots ← cd32 m cd "nCodeSlots";
            if negb (hashSize =? cs_size hashtype) then Ret EBADEXEC
            else if length <? hashOffset then Ret EBADEXEC
            else if hashOffset / cs_size hashtype <? nSpecialSlots then Ret EBADEXEC
            else if (length - hashOffset) / cs_size hashtype <? nCodeSlots then Ret EBADEXEC
            else
              e ← validate_scatter m cd length;
              if negb (e =? 0) then Ret e
              else
                identOffset ← cd32 m cd "identOffset";
                e ← validate_string m cd length identOffset;
                if negb (e =? 0) then Ret e
                else
                  e ← validate_team m cd length;
                  if negb (e =? 0) then Ret e else validate_linkage m cd length
        end.

Definition cs_validate_blob (m : mem) (blob length : Z) : outcome Z :=
  if length <? sizeof CS_GenericBlob then Ret EBADEXEC
  else blob_length ← blob32 m blob "length"; Ret (if length <? blob_length then EBADEXEC else 0).

(** The slots that may appear once, with the magic of their blobs. *)
Definition unique_slots : list (Z * Z) :=
  [ (CSSLOT_ENTITLEMENTS, CSMAGIC_EMBEDDED_ENTITLEMENTS);
    (CSSLOT_DER_ENTITLEMENTS, CSMAGIC_EMBEDDED_DER_ENTITLEMENTS);
    (CSSLOT_LAUNCH_CONSTRAINT_SELF, CSMAGIC_EMBEDDED_LAUNCH_CONSTRAINT);
    (CSSLOT_LAUNCH_CONSTRAINT_PARENT, CSMAGIC_EMBEDDED_LAUNCH_CONSTRAINT);
    (CSSLOT_LAUNCH_CONSTRAINT_RESPONSIBLE, CSMAGIC_EMBEDDED_LAUNCH_CONSTRAINT);
    (CSSLOT_LIBRARY_CONSTRAINT, CSMAGIC_EMBEDDED_LAUNCH_CONSTRAINT) ].
Definition slot_magic (type : Z) : option Z := snd <$> List.find (fun x => x.1 =? type) unique_slots.

(** What the scan of a superblob has found: the best code directory (0 for none) with its
    rank, and the blobs of the unique slots ([*rentitlements], [*rder_entitlements] and the
    four constraints). *)
Record csblob_scan := Scan {
  sc_best_cd : Z;
  sc_best_rank : Z;
  sc_slots : gmap Z Z;
}.
Definition scan_start : csblob_scan := Scan 0 0 ∅.

(** A blob that is no code directory. *)
Definition check_slot (type magic subBlob : Z) (s : csblob_scan) : ctl csblob_scan (Z * csblob_scan) :=
  match slot_magic type with
  | None => Next s
  | Some want =>
      if negb (magic =? want) then Exit (EBADEXEC, s)
      else match sc_slots s !! type with
           | Some _ => Exit (EBADEXEC, s)
           | None => Next (Scan (sc_best_cd s) (sc_best_rank s) (<[type := subBlob]> (sc_slots s)))
           end
  end.

Definition is_cd_slot (type : Z) : bool :=
  (type =? CSSLOT_CODEDIRECTORY) ||
  ((CSSLOT_ALTERNATE_CODEDIRECTORIES <=? type) && (type <? CSSLOT_ALTERNATE_CODEDIRECTORY_LIMIT)).

(** One entry of the superblob's index. *)
Definition csblob_index_step (m : mem) (addr length : Z) (n : Z) (s : csblob_scan)
    : outcome (ctl csblob_scan (Z * csblob_scan)) :=
  type ← be_field CS_BlobIndex m (blob_index addr n) "type";
  offset ← be_field CS_BlobIndex m (blob_index addr n) "offset";
  if length <? offset then Ret (Exit (EBADEXEC, s))
  else
    let subBlob := addr + offset in
    error ← cs_validate_blob m subBlob (length - offset);
    if negb (error =? 0) then Ret (Exit (error, s))
    else
      subLength ← blob32 m subBlob "length";
      if is_cd_slot type then
        error ← cs_validate_codedirectory m subBlob subLength;
        if negb (error =? 0) then Ret (Exit (error, s))
        else
          rank ← hash_rank m subBlob;
          Ret (if (sc_best_cd s =? 0) || (sc_best_rank s <? rank) then Next (Scan subBlob rank (sc_slots s))
               else if rank =? sc_best_rank s then Exit (EBADEXEC, s)
               else Next s)
      else
        magic ← blob32 m subBlob "magic";
        Ret (check_slot type magic subBlob s).

(** The error and what was stored through [rcd], [rentitlements] and [rder_entitlements]. *)
Definition cs_validate_csblob (m : mem) (addr blob_size : Z) : outcome (Z * (Z * Z * Z)) :=
  let found s := (sc_best_cd s, default 0 (sc_slots s !! CSSLOT_ENTITLEMENTS), default 0 (sc_slots s !! CSSLOT_DER_ENTITLEMENTS)) in
  error ← cs_validate_blob m addr blob_size;
  if negb (error =? 0) then Ret (error, (0, 0, 0))
  else
    length ← blob32 m addr "length";
    magic ← blob32 m addr "magic";
    if magic =? CSMAGIC_EMBEDDED_SIGNATURE then
      if length <? sizeof CS_SuperBlob then Ret (EBADEXEC, (0, 0, 0))
      else
        count ← be_field CS_SuperBlob m addr "count";
        if (length - sizeof CS_SuperBlob) / sizeof CS_BlobIndex <? count then Ret (EBADEXEC, (0, 0, 0))
        else
          r ← for_ret (Z.to_nat count) 0 (csblob_index_step m addr length) scan_start;
          Ret (match r with
               | Exit (error, s) => (error, found s)
               | Next s => (if sc_best_cd s =? 0 then EBADEXEC else 0, found s)
               end)
    else if magic =? CSMAGIC_CODEDIRECTORY then
      error ← cs_validate_codedirectory m addr length;
      Ret (if negb (error =? 0) then (error, (0, 0, 0)) else (0, (addr, 0, 0)))
    else Ret (EBADEXEC, (0, 0, 0)).

(** ** Finding blobs *)

Definition find_blob_step (m : mem) (addr length type magic : Z) (n : Z) (_ : unit) : outcome (ctl unit (option Z)) :=
  t ← be_field CS_BlobIndex m (blob_index addr n) "type";
  if negb (t =? type) then Ret (Next tt)
  else
    offset ← be_field CS_BlobIndex m (blob_index addr n) "offset";
    if u64 (length - sizeof CS_GenericBlob) <? offset then Ret (Exit None)
    else
      let blob := addr + offset in
      mg ← blob32 m blob "magic";
      if negb (mg =? magic) then Ret (Next tt)
      else
        len ← blob32 m blob "length";
        if u64 (blob + len) <? blob then Panic
        else Ret (if u64 (addr + length) <? u64 (blob + len) then Next tt else Exit (Some blob)).

Definition csblob_find_blob_bytes (m : mem) (addr length type magic : Z) : outcome (option Z) :=
  if u64 (addr + length) <? addr then Panic
  else
    mg ← blob32 m addr "magic";
    if mg =? CSMAGIC_EMBEDDED_SIGNATURE then
      count ← be_field CS_SuperBlob m addr "count";
      r ← for_ret (Z.to_nat count) 0 (find_blob_step m addr length type magic) tt;
      Ret (match r with Exit b => b | Next _ => None end)
    else if (type =? CSSLOT_CODEDIRECTORY) && (mg =? CSMAGIC_CODEDIRECTORY) && (magic =? CSMAGIC_CODEDIRECTORY) then
      len ← blob32 m addr "length";
      if u64 (addr + len) <? addr then Panic
      else Ret (if u64 (addr + length) <? u64 (addr + len) then None else Some addr)
    else Ret None.

Definition find_special_slot (m : mem) (cd slotsize slot : Z) : outcome (option Z) :=
  nSpecialSlots ← cd32 m cd "nSpecialSlots";
  if (nSpecialSlots <? slot) || (slot =? 0) then Ret None
  else hashOffset ← cd32 m cd "hashOffset"; Ret (Some (cd + hashOffset - slotsize * slot)).

(** ** The kernel's signature object *)

(** The fields these routines use.  Pointers are addresses, 0 for [NULL].  [csb_ro] says that the object is the read-only
    copy ([csb_ro_addr] points to itself). *)
Record cs_blob := CsBlob {
  csb_ro : bool;
  csb_cpu_type : Z;
  csb_cpu_subtype : Z;
  csb_flags : Z;
  csb_base_offset : Z;
  csb_start_offset : Z;
  csb_end_offset : Z;
  csb_mem_size : Z;
  csb_mem_offset : Z;
  csb_mem_kaddr : Z;
  csb_cdhash : bytes;
  csb_hashtype : option cs_hash;
  csb_hash_pageshift : Z;
  csb_hash_firstlevel_pageshift : Z;
  csb_cd : Z;
  csb_teamid : Z;
  csb_entitlements_blob : Z;
  csb_der_entitlements_blob : Z;
  csb_entitlements : Z;
  csb_platform_binary : bool;
  csb_platform_path : bool;
  csb_signer_type : Z;
  csb_reconstituted : bool;
  csb_vnode : Z;
}.

(** The first and the page of the last byte a signature covers. *)
Definition coverage (m : mem) (cd pageshift : Z) : outcome (Z * Z) :=
  let hash_pagemask := u32 (Z.shiftl 1 pageshift) - 1 in
  codeLimit ← cd32 m cd "codeLimit";
  let end_offset := Z.land (codeLimit + hash_pagemask) (u64 (Z.lnot hash_pagemask)) in
  scatterOffset ← scatter_offset m cd;
  start_offset ← (if negb (scatterOffset =? 0)
                  then base ← be_field SC_Scatter m (cd + scatterOffset) "base"; Ret (base * u32 (Z.shiftl 1 pageshift))
                  else Ret 0);
  Ret (start_offset, end_offset).

(** The result: error, object, chosen code directory, and whether the memory of the signature
    has been given back. *)
Definition cs_blob_init_validated (m : mem) (addr size : Z) : outcome (Z * option cs_blob * Z * bool) :=
  '(error, (cd, entitlements, der_entitlements)) ← cs_validate_csblob m addr size;
  if negb (error =? 0) then Ret (error, None, 0, negb (addr =? 0))
  else
    type ← cd8 m cd "hashType";
    match cs_find_md type with
    | None => Panic
    | Some hashtype =>
        if CS_HASH_MAX_SIZE <? cs_digest_size hashtype then Panic
        else
          pageSize ← cd8 m cd "pageSize";
          flags ← cd32 m cd "flags";
          '(start_offset, end_offset) ← coverage m cd pageSize;
          md_size ← cd32 m cd "length";
          md ← load_bytes m cd (Z.to_nat (u64 (s32 md_size)));
          cdhash ← of_option (sub_bytes (cs_digest hashtype md) 0 CS_CDHASH_LEN);
          Ret (0, Some (CsBlob false 0 0 (Z.lor (Z.land flags CS_ALLOWED_MACHO) CS_VALID) 0 start_offset end_offset
                          size 0 addr cdhash (Some hashtype) pageSize 0 cd 0 entitlements der_entitlements 0 false
                          false CS_SIGNER_TYPE_UNKNOWN false 0),
               cd, false)
    end.

Definition csblob_find_blob (m : mem) (csblob : cs_blob) (type magic : Z) : outcome (option Z) :=
  if Z.land (csb_flags csblob) CS_VALID =? 0 then Ret None
  else csblob_find_blob_bytes m (csb_mem_kaddr csblob) (csb_mem_size csblob) type magic.

Definition csblob_parse_teamid (m : mem) (csblob : cs_blob) : outcome Z :=
  let cd := csb_cd csblob in
  version ← cd32 m cd "version";
  if version <? CS_SUPPORTSTEAMID then Ret 0
  else teamOffset ← cd32 m cd "teamOffset"; Ret (if teamOffset =? 0 then 0 else cd + teamOffset).

(** ** Entitlements *)

Definition cshash_zero : bytes := replicate (Z.to_nat CS_HASH_MAX_SIZE) 0.

(** A blob checked against the special slot that holds its hash: error, blob and length.
    [blob] is 0 when the signature has none of this type. *)
Definition check_special (m : mem) (csblob : cs_blob) (hashtype : cs_hash) (slot blob : Z) : outcome (Z * Z * Z) :=
  embedded ← find_special_slot m (csb_cd csblob) (cs_size hashtype) slot;
  match embedded with
  | None => Ret (if negb (blob =? 0) then EBADEXEC else 0, 0, 0)
  | Some embedded_hash =>
      if blob =? 0 then
        zero ← mem_is m embedded_hash cshash_zero (cs_size hashtype);
        Ret (if (zero : bool) then 0 else EBADEXEC, 0, 0)
      else
        len ← blob32 m blob "length";
        data ← load_bytes m blob (Z.to_nat len);
        same ← mem_is m embedded_hash (cs_digest hashtype data) (cs_size hashtype);
        Ret (if (same : bool) then (0, blob, len) else (EBADEXEC, 0, 0))
  end.

(** Every user of the special slots begins with the hash type. *)
Definition with_hashtype (csblob : cs_blob) (k : cs_hash -> outcome (Z * Z * Z)) : outcome (Z * Z * Z) :=
  match csb_hashtype csblob with
  | Some hashtype => if CS_HASH_MAX_SIZE <? cs_digest_size hashtype then Ret (EBADEXEC, 0, 0) else k hashtype
  | None => Ret (EBADEXEC, 0, 0)
  end.

Definition csblob_find_special_slot_blob (m : mem) (csblob : cs_blob) (slot magic : Z) : outcome (Z * Z * Z) :=
  with_hashtype csblob (fun hashtype =>
    blob ← csblob_find_blob_bytes m (csb_mem_kaddr csblob) (csb_mem_size csblob) slot magic;
    check_special m csblob hashtype slot (default 0 blob)).

Definition csblob_get_entitlements (m : mem) (csblob : cs_blob) : outcome (Z * Z * Z) :=
  with_hashtype csblob (fun hashtype =>
    check_special m csblob hashtype CSSLOT_ENTITLEMENTS
      (if Z.land (csb_flags csblob) CS_VALID =? 0 then 0 else csb_entitlements_blob csblob)).

Definition csblob_get_der_entitlements_unsafe (csblob : cs_blob) : Z :=
  if Z.land (csb_flags csblob) CS_VALID =? 0 then 0 else csb_der_entitlements_blob csblob.

Definition csblob_get_der_entitlements (m : mem) (csblob : cs_blob) : outcome (Z * Z * Z) :=
  with_hashtype csblob (fun hashtype =>
    check_special m csblob hashtype CSSLOT_DER_ENTITLEMENTS (csblob_get_der_entitlements_unsafe csblob)).

(** ** Pages *)

(** Is the file offset inside what the signature covers? *)
Definition covers (blob : cs_blob) (offset : Z) : bool :=
  (csb_start_offset blob <=? offset) && (offset <? csb_end_offset blob).

(** The hash a signature has for the page at an offset from its base. *)
Definition expected_hash (m : mem) (blob : cs_blob) (offset : Z) : outcome (option (cs_hash * bytes)) :=
  let lower_bound := csb_mem_kaddr blob + csb_mem_offset blob in
  let upper_bound := lower_bound + csb_mem_size blob in
  match csb_hashtype blob with
  | None => Panic
  | Some hashtype =>
      if CS_HASH_MAX_SIZE <? cs_digest_size hashtype then Panic
      else if negb (Z.land offset (u32 (Z.shiftl 1 (csb_hash_pageshift blob)) - 1) =? 0) then Panic
      else
        hash ← hashes m (csb_cd blob) (u32 (Z.shiftr offset (csb_hash_pageshift blob))) (cs_size hashtype)
                 lower_bound upper_bound;
        match hash with
        | None => Ret None
        | Some hash => h ← load_bytes m hash (Z.to_nat (cs_size hashtype)); Ret (Some (hashtype, h))
        end
  end.

(** The first signature with a code directory that covers the page, and its hash. *)
Fixpoint find_page_hash (m : mem) (blobs : list cs_blob) (page_offset : Z)
    : outcome (option (cs_blob * Z * cs_hash * bytes)) :=
  match blobs with
  | [] => Ret None
  | blob :: blobs =>
      let offset := s64 (u64 (page_offset - csb_base_offset blob)) in
      if negb (covers blob offset) || (csb_mem_kaddr blob =? 0) || (csb_cd blob =? 0)
      then find_page_hash m blobs page_offset
      else
        e ← expected_hash m blob offset;
        Ret (match e with Some (hashtype, h) => Some (blob, offset, hashtype, h) | None => None end)
  end.

(** The digests of the pieces of [1 << level] bytes, one after the other. *)
Fixpoint partial_digests (fuel : nat) (hashtype : cs_hash) (level : Z) (data : bytes) : outcome bytes :=
  match fuel with
  | O => NoFuel
  | S fuel =>
      if zlen data =? 0 then Ret []
      else
        let partial_size := Z.min (zlen data) (u32 (Z.shiftl 1 level)) in
        digest ← of_option (sub_bytes (cs_digest hashtype (take (Z.to_nat partial_size) data)) 0 (cs_size hashtype));
        rest ← partial_digests fuel hashtype level (drop (Z.to_nat partial_size) data);
        Ret (digest ++ rest)
  end.

Definition page_digest (hashtype : cs_hash) (level : Z) (data : bytes) : outcome bytes :=
  if negb (level =? 0) then
    d ← partial_digests (S (length data)) hashtype level data; Ret (cs_digest hashtype d)
  else Ret (cs_digest hashtype data).

Definition CS_VALIDATE_TAINTED : Z := 1.
Definition CS_VALIDATE_NX : Z := 2.

(** Result, bytes processed and taint, and the statistics the call adds to. *)
Record hash_result := HashResult {
  hr_validated : bool;
  hr_processed : Z;
  hr_tainted : Z;
  hr_no_hash : Z;
  hr_bad_hash : Z;
}.

Definition cs_validate_hash (m : mem) (blobs : list cs_blob) (page_offset : Z) (data : bytes) : outcome hash_result :=
  found ← find_page_hash m blobs page_offset;
  match found with
  | None => Ret (HashResult false 0 0 1 0)
  | Some (blob, offset, hashtype, expected) =>
      codeLimit ← cd32 m (csb_cd blob) "codeLimit";
      let size := u32 (Z.shiftl 1 (csb_hash_pageshift blob)) in
      let partial := codeLimit <? offset + size in
      _ ← (if partial then kassert (offset <? codeLimit) else Ret tt);
      let hashed := if partial then Z.land codeLimit (size - 1) else size in
      page ← of_option (sub_bytes data 0 hashed);
      actual ← page_digest hashtype (csb_hash_firstlevel_pageshift blob) page;
      actual ← of_option (sub_bytes actual 0 (cs_size hashtype));
      let bad := negb (bool_decide (expected = actual)) in
      Ret (HashResult true size
             (Z.lor (if partial then CS_VALIDATE_NX else 0) (if bad then CS_VALIDATE_TAINTED else 0))
             0 (if bad then 1 else 0))
  end.

(** State: offset in the range, all validated so far, taint. *)
Definition validate_range_step (m : mem) (blobs : list cs_blob) (page_offset : Z) (data : bytes) (dsize : Z)
    (st : Z * bool * Z) : outcome (ctl (Z * bool * Z) (bool * Z)) :=
  let '(offset_in_range, all, tainted) := st in
  if offset_in_range <? dsize then
    r ← cs_validate_hash m blobs (u64 (page_offset + offset_in_range)) (drop (Z.to_nat offset_in_range) data);
    let tainted := Z.lor tainted (hr_tainted r) in
    Ret (if hr_processed r =? 0 then Exit (false, tainted)
         else Next (offset_in_range + hr_processed r, all && hr_validated r, tainted))
  else Ret (Exit (all, tainted)).

Definition cs_validate_range (fuel : nat) (m : mem) (blobs : list cs_blob) (page_offset : Z) (data : bytes) (dsize : Z)
    : outcome (bool * Z) :=
  loop_ret fuel (validate_range_step m blobs page_offset data dsize) (0, true, 0).

Definition VMP_CS_ALL_FALSE : Z := 0x0.
Definition VMP_CS_ALL_TRUE : Z := 0xF.
Definition FOURK_PAGE_SIZE : Z := 4096.
Definition FOURK_PAGE_SHIFT : Z := 12.
Definition PAGE_SIZE : Z := 2 ^ PAGE_SHIFT.

(** Validated, tainted and no-execute, a bit per 4K piece. *)
Record page_bits := PageBits { pb_validated : Z; pb_tainted : Z; pb_nx : Z }.

Definition add_bits (bit : Z) (r : hash_result) (b : page_bits) : page_bits :=
  PageBits (if hr_validated r then Z.lor (pb_validated b) bit else pb_validated b)
    (if negb (Z.land (hr_tainted r) CS_VALIDATE_TAINTED =? 0) then Z.lor (pb_tainted b) bit else pb_tainted b)
    (if negb (Z.land (hr_tainted r) CS_VALIDATE_NX =? 0) then Z.lor (pb_nx b) bit else pb_nx b).

Definition validate_page_step (m : mem) (blobs : list cs_blob) (page_offset : Z) (data : bytes)
    (st : Z * page_bits) : outcome (ctl (Z * page_bits) page_bits) :=
  let '(offset_in_page, b) := st in
  if offset_in_page <? PAGE_SIZE then
    r ← cs_validate_hash m blobs (u64 (page_offset + offset_in_page)) (drop (Z.to_nat offset_in_page) data);
    if hr_processed r =? 0 then Ret (Next (offset_in_page + FOURK_PAGE_SIZE, b))
    else if (offset_in_page =? 0) && (PAGE_SIZE - FOURK_PAGE_SIZE <? hr_processed r) then
      Ret (Exit (add_bits VMP_CS_ALL_TRUE r b))
    else
      _ ← kassert (hr_processed r <=? FOURK_PAGE_SIZE);
      Ret (Next (offset_in_page + FOURK_PAGE_SIZE, add_bits (Z.shiftl 1 (Z.shiftr offset_in_page FOURK_PAGE_SHIFT)) r b))
  else Ret (Exit b).

Definition cs_validate_page (m : mem) (blobs : list cs_blob) (page_offset : Z) (data : bytes) : outcome page_bits :=
  loop_ret (Z.to_nat (PAGE_SIZE / FOURK_PAGE_SIZE + 2)) (validate_page_step m blobs page_offset data)
    (0, PageBits VMP_CS_ALL_FALSE VMP_CS_ALL_FALSE VMP_CS_ALL_FALSE).

(** ** The signatures of a file *)

Definition CPU_SUBTYPE_MASK : Z := 0xff000000.

Definition ubc_cs_blob_get (blobs : list cs_blob) (cputype cpusubtype offset : Z) : option cs_blob :=
  List.find (fun blob =>
    (negb (cputype =? -1) && (csb_cpu_type blob =? cputype) &&
     ((cpusubtype =? -1) || (csb_cpu_subtype blob =? Z.land cpusubtype (Z.lnot CPU_SUBTYPE_MASK)))) ||
    (negb (offset =? -1) && covers blob (offset - csb_base_offset blob))) blobs.

(** cdhash and hash type of the signature that covers an offset. *)
Definition ubc_cs_getcdhash (m : mem) (blobs : list cs_blob) (offset : Z) : outcome (Z * option (bytes * Z)) :=
  match List.find (fun blob => covers blob (offset - csb_base_offset blob)) blobs with
  | None => Ret (EBADEXEC, None)
  | Some blob => type ← cd8 m (csb_cd blob) "hashType"; Ret (0, Some (csb_cdhash blob, type))
  end.

Definition ubc_cs_is_range_codesigned (blobs : list cs_blob) (start size : Z) : bool :=
  if size =? 0 then false
  else if u64 (start + size) <? start then false
  else
    match ubc_cs_blob_get blobs (-1) (-1) (s64 start) with
    | None => false
    | Some csblob =>
        let blob_start := u64 (csb_base_offset csblob + csb_start_offset csblob) in
        let blob_end := u64 (csb_base_offset csblob + csb_end_offset csblob) in
        negb ((start <? blob_start) || (blob_end <? start + size))
    end.

(** One scatter entry of the multilevel check. *)
Definition multilevel_scatter (m : mem) (mask : Z) (scatter : Z) : outcome (ctl Z bool) :=
  sbase ← be_field SC_Scatter m scatter "base";
  scount ← be_field SC_Scatter m scatter "count";
  Ret (if scount =? 0 then Exit true
       else if negb (Z.land sbase mask =? 0) then Exit false
       else if negb (Z.land scount mask =? 0) then Exit false
       else Next (scatter + sizeof SC_Scatter)).

Definition ubc_cs_supports_multilevel_hash (fuel : nat) (m : mem) (blob : cs_blob) : outcome bool :=
  let mask := Z.shiftr (PAGE_SIZE - 1) (csb_hash_pageshift blob) in
  let cd := csb_cd blob in
  if negb (csb_platform_binary blob) || negb (csb_teamid blob =? 0) then Ret false
  else if PAGE_SHIFT <=? csb_hash_pageshift blob then Ret false
  else
    nCodeSlots ← cd32 m cd "nCodeSlots";
    if negb (Z.land nCodeSlots mask =? 0) then Ret false
    else
      scatterOffset ← scatter_offset m cd;
      aligned ← (if negb (scatterOffset =? 0)
                 then loop_ret fuel (multilevel_scatter m mask) (cd + scatterOffset) else Ret true);
      if negb (aligned : bool) then Ret false
      else codeLimit ← cd32 m cd "codeLimit"; Ret (Z.land codeLimit (PAGE_SIZE - 1) =? 0).
End code_signing.
