(* ===== verification/CodeSignProofs.v ===== *)
(** * Code signatures: validation

    The validator is memory safe and total on arbitrary bytes, and decides a declarative
    well-formedness of signatures. *)

From stdpp Require Import base list strings gmap.
From Stdlib Require Import ZArith Lia.
From S2P Require Import Prelude XzsfsCore Memory CodeSign.

(** ** Fields *)

Definition cdv (m : mem) (cd : Z) (f : string) : Z := be m (cd + field_offset CS_CodeDirectory f 0).
Definition cdb (m : mem) (cd : Z) (f : string) : Z := byte m (cd + field_offset CS_CodeDirectory f 0).

(** Sizes of the structures, for arithmetic. *)
Lemma sizeof_cd : sizeof CS_CodeDirectory = 112.
Proof. reflexivity. Qed.
Lemma sizeof_generic : sizeof CS_GenericBlob = 8.
Proof. reflexivity. Qed.
Lemma sizeof_super : sizeof CS_SuperBlob = 12.
Proof. reflexivity. Qed.
Lemma sizeof_index : sizeof CS_BlobIndex = 8.
Proof. reflexivity. Qed.
Lemma sizeof_scatter : sizeof SC_Scatter = 24.
Proof. reflexivity. Qed.
#[export] Hint Rewrite sizeof_cd sizeof_generic sizeof_super sizeof_index sizeof_scatter : sizes.

(** Does the field lie inside the structure? *)
Definition in_struct (size : Z) (st : c_struct) (w : Z) (f : string) : bool :=
  (0 <=? field_offset st f 0) && (field_offset st f 0 + w <=? size).

(** ** Verdicts *)

(** The check returns 0 when the property holds and EBADEXEC when it does not. *)
Definition verdict (o : outcome Z) (P : Prop) : Prop := (o = Ret 0 /\ P) \/ (o = Ret EBADEXEC /\ ~ P).

Lemma cs_verdict_iff o P Q : (P <-> Q) -> verdict o P -> verdict o Q.
Proof. unfold verdict. tauto. Qed.

Lemma verdict_pass P : P -> verdict (Ret 0) P.
Proof. by left. Qed.

Lemma verdict_seq o P k Q : verdict o P -> (P -> verdict k Q) -> verdict (e ← o; if negb (e =? 0) then Ret e else k) (P /\ Q).
Proof.
  intros [[-> HP] | [-> HP]] Hk; cbn [mbind outcome_bind Z.eqb negb EBADEXEC].
  - apply (cs_verdict_iff _ Q); [tauto | by apply Hk].
  - right. split; [done | tauto].
Qed.

(** A guard that rejects. *)
Lemma cs_verdict_guard (b : bool) P k Q : (if b then ~ P else P) -> (P -> verdict k Q) ->
  verdict (if b then Ret EBADEXEC else k) (P /\ Q).
Proof.
  intros Hb Hk. destruct b; [right; split; [done | tauto] |]. apply (cs_verdict_iff _ Q); [tauto | by apply Hk].
Qed.

Lemma verdict_last (b : bool) P : (if b then ~ P else P) -> verdict (Ret (if b then EBADEXEC else 0)) P.
Proof. destruct b; [by right | by left]. Qed.

Section validation.
Context (PAGE_SHIFT : Z) (sha1 sha256 sha384 : bytes -> bytes).
Context (m : mem) (Hbytes : byte_mem m).

Lemma be_field_ok st size a n p f : mapped m a n -> in_struct size st 4 f = true -> a <= p -> p + size <= a + n ->
  be_field st m p f = Ret (be m (p + field_offset st f 0)).
Proof.
  intros Hm Hf H1 H2. unfold in_struct in Hf. apply andb_true_iff in Hf as [Hf1%Z.leb_le Hf2%Z.leb_le].
  unfold be_field. apply (load_be32_mapped m a n); [done | done | lia | lia].
Qed.

Lemma cd32_ok a n cd f : mapped m a n -> in_struct 112 CS_CodeDirectory 4 f = true -> a <= cd -> cd + 112 <= a + n ->
  cd32 m cd f = Ret (cdv m cd f).
Proof. intros. by apply (be_field_ok _ 112 a n). Qed.

Lemma cd8_ok a n cd f : mapped m a n -> in_struct 112 CS_CodeDirectory 1 f = true -> a <= cd -> cd + 112 <= a + n ->
  cd8 m cd f = Ret (cdb m cd f).
Proof.
  intros Hm Hf H1 H2. unfold in_struct in Hf. apply andb_true_iff in Hf as [Hf1%Z.leb_le Hf2%Z.leb_le].
  unfold cd8. apply (load8_mapped m a n); [done | lia].
Qed.

(** ** Code directories *)

(** Entries with page counts from [p] on, closed by one with count 0, inside the limit and with
    fewer than 2^32 pages. *)
Inductive scatter_vec (limit : Z) : Z -> Z -> Prop :=
  | sv_end p pages : p + 24 <= limit -> be m p = 0 -> scatter_vec limit p pages
  | sv_more p pages : p + 24 <= limit -> be m p <> 0 -> pages + be m p < 2 ^ 32 ->
      scatter_vec limit (p + 24) (pages + be m p) -> scatter_vec limit p pages.

Definition has_nul (p n : Z) : Prop := exists i, p <= i < p + n /\ byte m i = 0.

Lemma memchr0_verdict n : forall p, mapped m p (Z.of_nat n) ->
  (memchr0 m p n = Ret true /\ has_nul p (Z.of_nat n)) \/ (memchr0 m p n = Ret false /\ ~ has_nul p (Z.of_nat n)).
Proof.
  induction n as [|n IH]; intros p Hm; cbn [memchr0].
  { right. split; [done |]. intros (i & Hi & _). lia. }
  rewrite (load8_mapped m p _ p Hm) by lia. cbn [mbind outcome_bind]. destruct (Z.eqb_spec (byte m p) 0) as [E | E].
  { left. split; [done |]. exists p. lia. }
  destruct (IH (p + 1)) as [[-> (i & Hi & Ei)] | [-> Hno]]; [apply (mapped_sub m p _ _ _ Hm); lia | |].
  - left. split; [done |]. exists i. lia.
  - right. split; [done |]. intros (i & Hi & Ei). destruct (decide (i = p)) as [-> | Hne]; [done |]. apply Hno. exists i. lia.
Qed.

Section directory.
Context (cd length : Z) (Hmap : mapped m cd length) (Hlen : 0 <= length) (Hend : cd + length < 2 ^ 64) (Hcd : 0 < cd).

Lemma scatter_check_verdict fuel : forall p pages, cd <= p <= cd + length -> is_u32 pages ->
  (cd + length - p) / 24 + 2 <= Z.of_nat fuel ->
  verdict (loop_ret fuel (scatter_check m cd length) (p, pages)) (scatter_vec (cd + length) p pages).
Proof.
  induction fuel as [|fuel IH]; intros p pages Hp Hpages Hf.
  { pose proof (Z.div_pos (cd + length - p) 24). lia. }
  cbn [loop_ret]. unfold scatter_check at 2. rewrite sizeof_scatter. destruct (Z.ltb_spec (cd + length) (p + 24)) as [Hout | Hin].
  { right. split; [done |]. inversion 1; lia. }
  rewrite (be_field_ok SC_Scatter 24 cd length) by (done || lia). change (field_offset SC_Scatter "count" 0) with 0.
  rewrite Z.add_0_r. cbn [mbind outcome_bind]. pose proof (be_u32 m p Hbytes) as Hc.
  destruct (Z.eqb_spec (be m p) 0) as [E | E]; cbn [mbind outcome_bind].
  { left. split; [done | by apply sv_end]. }
  destruct (Z.lt_ge_cases (pages + be m p) (2 ^ 32)) as [Hs | Hs].
  - rewrite (u32_small (pages + be m p)) by (cint_unfold; lia). rewrite (proj2 (Z.ltb_ge _ _)) by (cint_unfold; lia).
    cbn [mbind outcome_bind]. apply (cs_verdict_iff _ (scatter_vec (cd + length) (p + 24) (pages + be m p))).
    { split; [by apply sv_more | by inversion 1]. }
    apply IH; [lia | cint_unfold; lia |].
    replace (cd + length - (p + 24)) with (cd + length - p + (-1) * 24) by lia. rewrite Z.div_add by lia. lia.
  - assert (u32 (pages + be m p) = pages + be m p - 2 ^ 32) as ->
      by (symmetry; apply (Z.mod_unique _ _ 1); cint_unfold; lia).
    rewrite (proj2 (Z.ltb_lt _ _)) by (cint_unfold; lia).
    right. split; [done |]. inversion 1; [done | lia].
Qed.

(** Where the scatter vector is, 0 for none. *)
Definition cd_scatter : Z := if CS_SUPPORTSSCATTER <=? cdv m cd "version" then cdv m cd "scatterOffset" else 0.
Definition cd_team : Z := if CS_SUPPORTSTEAMID <=? cdv m cd "version" then cdv m cd "teamOffset" else 0.

Definition string_ok (off : Z) : Prop := off <= length /\ (off <> 0 -> has_nul (cd + off) (length - off)).

Record cd_ok : Prop := {
  cdo_size : 112 <= length;
  cdo_magic : cdv m cd "magic" = CSMAGIC_CODEDIRECTORY;
  cdo_page : cdb m cd "pageSize" = 12 \/ cdb m cd "pageSize" = PAGE_SHIFT;
  cdo_hash : exists h, cs_find_md sha1 sha256 sha384 (cdb m cd "hashType") = Some h /\ cdb m cd "hashSize" = cs_size h /\
    cdv m cd "nSpecialSlots" * cs_size h <= cdv m cd "hashOffset" /\
    cdv m cd "hashOffset" + cdv m cd "nCodeSlots" * cs_size h <= length;
  cdo_scatter : cd_scatter <> 0 -> scatter_vec (cd + length) (cd + cd_scatter) 0;
  cdo_ident : string_ok (cdv m cd "identOffset");
  cdo_team : string_ok cd_team;
  cdo_linkage : CS_SUPPORTSLINKAGE <= cdv m cd "version" -> cdb m cd "linkageHashType" <> 0 ->
    cdv m cd "linkageOffset" + cdv m cd "linkageSize" <= length;
}.

Context (Hsize : 112 <= length).

(** Reads of fields, in any goal. *)
Ltac fields :=
  repeat match goal with
  | |- context [cd32 m cd ?f] => rewrite (cd32_ok cd length cd f) by (done || lia)
  | |- context [cd8 m cd ?f] => rewrite (cd8_ok cd length cd f) by (done || lia)
  end; cbn [mbind outcome_bind].

Lemma scatter_offset_ok : scatter_offset m cd = Ret cd_scatter.
Proof. unfold scatter_offset, cd_scatter. fields. destruct (_ <=? _); by fields. Qed.

Lemma string_verdict off : 0 <= off -> verdict (validate_string m cd length off) (string_ok off).
Proof.
  intros Ho. unfold validate_string. apply (cs_verdict_guard _ (off <= length)); [destruct (Z.ltb_spec length off); lia |].
  intros Hl. destruct (Z.eqb_spec off 0) as [-> | Hne]; [by apply verdict_pass |].
  destruct (memchr0_verdict (Z.to_nat (length - off)) (cd + off)) as [[-> H] | [-> H]];
    [apply (mapped_sub m cd length); [done | lia | lia] | |]; cbn [mbind outcome_bind]; rewrite Z2Nat.id in H by lia.
  - by apply verdict_pass.
  - right. split; [done |]. intros Hn. by apply H, Hn.
Qed.

Lemma scatter_verdict : verdict (validate_scatter m cd length) (cd_scatter <> 0 -> scatter_vec (cd + length) (cd + cd_scatter) 0).
Proof.
  unfold validate_scatter. rewrite scatter_offset_ok. cbn [mbind outcome_bind].
  destruct (Z.eqb_spec cd_scatter 0) as [E | E]; cbn [negb]; [by apply verdict_pass |].
  assert (is_u32 cd_scatter) as Hu by (unfold cd_scatter; destruct (_ <=? _); [by apply be_u32 | by cint_unfold]).
  apply (cs_verdict_iff _ (scatter_vec (cd + length) (cd + cd_scatter) 0)); [tauto |].
  destruct (Z.ltb_spec length cd_scatter).
  - right. split; [done |]. inversion 1; lia.
  - apply scatter_check_verdict; [cint_unfold; lia | by cint_unfold |]. unfold scatter_fuel. rewrite sizeof_scatter.
    pose proof (Z.div_pos length 24). rewrite Z2Nat.id by lia.
    pose proof (Z.div_le_mono (cd + length - (cd + cd_scatter)) length 24). cint_unfold. lia.
Qed.

Lemma team_verdict : verdict (validate_team m cd length) (string_ok cd_team).
Proof.
  unfold validate_team, cd_team. fields. destruct (_ <=? _) eqn:Ev.
  - fields. destruct (Z.eqb_spec (cdv m cd "teamOffset") 0) as [-> | Hne]; [apply verdict_pass; split; [lia | done] |].
    apply string_verdict. pose proof (be_u32 m (cd + field_offset CS_CodeDirectory "teamOffset" 0) Hbytes) as H. cint_unfold.
    unfold cdv. lia.
  - apply verdict_pass. split; [lia | done].
Qed.

Lemma linkage_verdict : verdict (validate_linkage m cd length)
  (CS_SUPPORTSLINKAGE <= cdv m cd "version" -> cdb m cd "linkageHashType" <> 0 ->
   cdv m cd "linkageOffset" + cdv m cd "linkageSize" <= length).
Proof.
  unfold validate_linkage. fields. destruct (Z.leb_spec CS_SUPPORTSLINKAGE (cdv m cd "version")) as [Hv | Hv];
    [| apply verdict_pass; lia].
  fields. destruct (Z.eqb_spec (cdb m cd "linkageHashType") 0) as [E | E]; [by apply verdict_pass |].
  fields. apply (cs_verdict_iff _ (cdv m cd "linkageOffset" + cdv m cd "linkageSize" <= length)); [tauto |].
  assert (is_u32 (cdv m cd "linkageOffset") /\ is_u32 (cdv m cd "linkageSize")) as [Ho Hs] by (split; by apply be_u32).
  set (off := cdv m cd "linkageOffset") in *. set (sz := cdv m cd "linkageSize") in *. clearbody off sz. cint_unfold.
  apply verdict_last. rewrite (u64_small (cd + length)) by (cint_unfold; lia).
  destruct (Z.lt_ge_cases (cd + off) (2 ^ 64)) as [H1 | H1].
  - rewrite (u64_small (cd + off)) by (cint_unfold; lia). destruct (Z.lt_ge_cases (cd + off + sz) (2 ^ 64)) as [H2 | H2].
    + rewrite (u64_small (cd + off + sz)) by (cint_unfold; lia).
      destruct (Z.ltb_spec (cd + off + sz) (cd + off)), (Z.ltb_spec (cd + off) cd), (Z.ltb_spec (cd + length) (cd + off + sz)); cbn; lia.
    + assert (u64 (cd + off + sz) = cd + off + sz - 2 ^ 64) as -> by (symmetry; apply (Z.mod_unique _ _ 1); lia).
      rewrite (proj2 (Z.ltb_lt _ _)) by lia. cbn. lia.
  - assert (u64 (cd + off) = cd + off - 2 ^ 64) as -> by (symmetry; apply (Z.mod_unique _ _ 1); lia).
    rewrite (proj2 (Z.ltb_lt _ cd)) by lia. rewrite orb_true_r. cbn. lia.
Qed.
End directory.

Lemma find_md_sizes type h : cs_find_md sha1 sha256 sha384 type = Some h ->
  cs_type h = type /\ 20 <= cs_size h <= 48 /\ cs_size h <= cs_digest_size h <= CS_HASH_MAX_SIZE.
Proof.
  unfold cs_find_md.
  repeat match goal with |- context [type =? ?c] => destruct (Z.eqb_spec type c) as [-> | _] end;
    (intros [= <-]; cbn; unfold CS_HASH_MAX_SIZE; split_and!; (done || lia)).
Qed.

Lemma div_lt_iff a b n : 0 < b -> (a / b <? n) = (a <? n * b).
Proof.
  intros Hb. destruct (Z.ltb_spec a (n * b)) as [H | H].
  - apply Z.ltb_lt, Z.div_lt_upper_bound; lia.
  - apply Z.ltb_ge, Z.div_le_lower_bound; lia.
Qed.

Lemma cd_ok_parts cd length : 112 <= length -> cd_ok cd length <->
  cdv m cd "magic" = CSMAGIC_CODEDIRECTORY /\ (cdb m cd "pageSize" = 12 \/ cdb m cd "pageSize" = PAGE_SHIFT) /\
  (exists h, cs_find_md sha1 sha256 sha384 (cdb m cd "hashType") = Some h /\ cdb m cd "hashSize" = cs_size h /\
    cdv m cd "nSpecialSlots" * cs_size h <= cdv m cd "hashOffset" /\
    cdv m cd "hashOffset" + cdv m cd "nCodeSlots" * cs_size h <= length) /\
  (cd_scatter cd <> 0 -> scatter_vec (cd + length) (cd + cd_scatter cd) 0) /\
  string_ok cd length (cdv m cd "identOffset") /\ string_ok cd length (cd_team cd) /\
  (CS_SUPPORTSLINKAGE <= cdv m cd "version" -> cdb m cd "linkageHashType" <> 0 ->
   cdv m cd "linkageOffset" + cdv m cd "linkageSize" <= length).
Proof. split; [intros []; by split_and! | intros (? & ? & ? & ? & ? & ? & ?); by constructor]. Qed.

(** The check of a code directory decides [cd_ok]. *)
Lemma codedirectory_verdict cd length : mapped m cd length -> 0 <= length -> cd + length < 2 ^ 64 -> 0 < cd ->
  verdict (cs_validate_codedirectory PAGE_SHIFT sha1 sha256 sha384 m cd length) (cd_ok cd length).
Proof.
  intros Hmap Hlen Hend Hcd. unfold cs_validate_codedirectory. rewrite sizeof_cd.
  destruct (Z.ltb_spec length 112) as [Hs | Hs]; [right; split; [done |]; intros []; lia |].
  assert (forall f, in_struct 112 CS_CodeDirectory 4 f = true -> cd32 m cd f = Ret (cdv m cd f)) as R4
    by (intros; apply (cd32_ok cd length); (done || lia)).
  assert (forall f, in_struct 112 CS_CodeDirectory 1 f = true -> cd8 m cd f = Ret (cdb m cd f)) as R1
    by (intros; apply (cd8_ok cd length); (done || lia)).
  do 8 rewrite ?R4, ?R1 by done. cbn [mbind outcome_bind].
  pose proof (cd_ok_parts cd length Hs) as Hiff. eapply cs_verdict_iff; [symmetry; exact Hiff |].
  apply cs_verdict_guard; [by destruct (Z.eqb_spec (cdv m cd "magic") CSMAGIC_CODEDIRECTORY) | intros _].
  cbn [mbind outcome_bind]. apply cs_verdict_guard; [| intros _].
  { destruct (Z.eqb_spec (cdb m cd "pageSize") 12), (Z.eqb_spec (cdb m cd "pageSize") PAGE_SHIFT); cbn; tauto. }
  cbn [mbind outcome_bind].
  destruct (cs_find_md sha1 sha256 sha384 (cdb m cd "hashType")) as [h |] eqn:Eh;
    [| right; split; [done |]; by intros ((h & ? & _) & _)].
  cbn [mbind outcome_bind].
  destruct (find_md_sizes _ _ Eh) as (_ & Hsz & _).
  apply (cs_verdict_iff _ (cdb m cd "hashSize" = cs_size h /\ cdv m cd "hashOffset" <= length /\
    cdv m cd "nSpecialSlots" * cs_size h <= cdv m cd "hashOffset" /\
    cdv m cd "nCodeSlots" * cs_size h <= length - cdv m cd "hashOffset" /\
    (cd_scatter cd <> 0 -> scatter_vec (cd + length) (cd + cd_scatter cd) 0) /\
    string_ok cd length (cdv m cd "identOffset") /\ string_ok cd length (cd_team cd) /\
    (CS_SUPPORTSLINKAGE <= cdv m cd "version" -> cdb m cd "linkageHashType" <> 0 ->
     cdv m cd "linkageOffset" + cdv m cd "linkageSize" <= length))).
  { assert (is_u32 (cdv m cd "nCodeSlots")) as Hn by (by apply be_u32). cint_unfold. split.
    - intros (H1 & H2 & H3 & H4 & H5). split; [| done]. exists h. split_and!; [done | done | done | lia].
    - intros ((h' & [= <-] & H1 & H2 & H3) & H4). split; [done |]. split; [nia |]. split; [done |]. split; [lia | done]. }
  rewrite !div_lt_iff by lia.
  apply cs_verdict_guard; [by destruct (Z.eqb_spec (cdb m cd "hashSize") (cs_size h)) | intros _].
  do 3 (apply cs_verdict_guard; [match goal with |- if ?a <? ?b then _ else _ => destruct (Z.ltb_spec a b); lia end | intros _]).
  apply verdict_seq; [by apply scatter_verdict | intros _].
  cbn [mbind outcome_bind].
  apply verdict_seq; [apply string_verdict; [done.. |]; by apply be_u32 | intros _].
  apply verdict_seq; [by apply team_verdict | intros _]. by apply linkage_verdict.
Qed.

(** ** Superblobs *)

Definition blen (b : Z) : Z := be m (b + 4).
Definition bmagic (b : Z) : Z := be m b.
Definition rank (cd : Z) : Z := rank_from 0 hashPriorities (cdb m cd "hashType").

Lemma rank_known cd h : cs_find_md sha1 sha256 sha384 (cdb m cd "hashType") = Some h -> 0 < rank cd.
Proof.
  unfold rank, cs_find_md. generalize (cdb m cd "hashType") as type. intros type.
  repeat match goal with |- context [type =? ?c] => destruct (Z.eqb_spec type c) as [-> | _] end; by intros [= <-].
Qed.

Lemma rank_nonneg cd : 0 <= rank cd.
Proof. unfold rank. cbn. repeat case_match; lia. Qed.

(** Index entries as slot type and address of the blob. *)
Definition max_rank (es : list (Z * Z)) : Z := foldr (fun e r => if is_cd_slot e.1 then Z.max (rank e.2) r else r) 0 es.
Definition slot_blob (slot : Z) (es : list (Z * Z)) : option Z := snd <$> List.find (fun e => e.1 =? slot) es.

(** The code directory of the best hash, 0 when there is none. *)
Definition is_best (es : list (Z * Z)) (b : Z) : Prop :=
  (exists t, (t, b) ∈ es /\ is_cd_slot t = true /\ rank b = max_rank es) \/
  (b = 0 /\ Forall (fun e => is_cd_slot e.1 = false) es).

Section superblob.
Context (addr length : Z) (Hmap : mapped m addr length) (Haddr : 0 < addr) (Hend : addr + length < 2 ^ 64).
Context (Hlen : 12 <= length).

Definition entry (n : Z) : Z * Z := (be m (blob_index addr n), addr + be m (blob_index addr n + 4)).
Definition entries (count : nat) : list (Z * Z) := (fun n => entry (Z.of_nat n)) <$> seq 0 count.

(** What is asked of an entry, given the ones before it. *)
Record entry_ok (pre : list (Z * Z)) (e : Z * Z) : Prop := {
  eo_header : e.2 + 8 <= addr + length;
  eo_inside : e.2 + blen e.2 <= addr + length;
  eo_cd : is_cd_slot e.1 = true -> cd_ok e.2 (blen e.2) /\ rank e.2 <> max_rank pre;
  eo_slot : forall want, slot_magic e.1 = Some want -> bmagic e.2 = want /\ e.1 ∉ pre.*1;
}.

Definition summary (es : list (Z * Z)) (s : csblob_scan) : Prop :=
  is_best es (sc_best_cd s) /\ sc_best_rank s = max_rank es /\
  forall slot, is_Some (slot_magic slot) -> sc_slots s !! slot = slot_blob slot es.

Lemma max_rank_snoc es e : max_rank (es ++ [e]) = if is_cd_slot e.1 then Z.max (max_rank es) (rank e.2) else max_rank es.
Proof.
  pose proof (rank_nonneg e.2). unfold max_rank. induction es as [|x es IH]; cbn [foldr app].
  - destruct (is_cd_slot e.1); lia.
  - rewrite IH. destruct (is_cd_slot x.1), (is_cd_slot e.1); lia.
Qed.

Lemma slot_blob_snoc slot es e :
  slot_blob slot (es ++ [e]) = match slot_blob slot es with Some b => Some b | None => if e.1 =? slot then Some e.2 else None end.
Proof.
  unfold slot_blob. induction es as [|x es IH]; cbn; [by destruct (e.1 =? slot) |]. by destruct (x.1 =? slot).
Qed.

Lemma slot_blob_none slot es : slot_blob slot es = None <-> slot ∉ es.*1.
Proof.
  unfold slot_blob. induction es as [|x es IH]; cbn; [split; [intros _; apply not_elem_of_nil | done] |].
  rewrite not_elem_of_cons. destruct (Z.eqb_spec x.1 slot) as [<- | Hne]; cbn; [split; [done | tauto] |].
  rewrite IH. split; [intros; split; [congruence | done] | tauto].
Qed.

Lemma blob_verdict b k : addr <= b -> b + k <= addr + length -> verdict (cs_validate_blob m b k) (8 <= k /\ blen b <= k).
Proof.
  intros H1 H2. unfold cs_validate_blob. rewrite sizeof_generic.
  apply cs_verdict_guard; [destruct (Z.ltb_spec k 8); lia | intros Hk].
  unfold blob32. rewrite (be_field_ok CS_GenericBlob 8 addr length) by (done || lia). cbn [mbind outcome_bind].
  change (field_offset CS_GenericBlob "length" 0) with 4. fold (blen b). apply verdict_last. destruct (Z.ltb_spec k (blen b)); lia.
Qed.

(** Outside the code directory slots, [check_slot] does what [entry_ok] and [summary] say. *)
Lemma check_slot_spec pre s t b : summary pre s -> is_cd_slot t = false ->
  match check_slot t (bmagic b) b s with
  | Next s' => (forall want, slot_magic t = Some want -> bmagic b = want /\ t ∉ pre.*1) /\ summary (pre ++ [(t, b)]) s'
  | Exit (e, _) => e = EBADEXEC /\ ~ (forall want, slot_magic t = Some want -> bmagic b = want /\ t ∉ pre.*1)
  end.
Proof.
  intros (Hbest & Hrank & Hslots) Ht.
  assert (is_best (pre ++ [(t, b)]) (sc_best_cd s)) as Hbest'.
  { destruct Hbest as [(t0 & Hin & Ht0 & Hr) | [-> Hno]].
    - left. exists t0. split; [apply elem_of_app; by left |]. split; [done |]. rewrite max_rank_snoc. cbn. by rewrite Ht.
    - right. split; [done |]. apply Forall_app. split; [done |]. by apply Forall_singleton. }
  assert (sc_best_rank s = max_rank (pre ++ [(t, b)])) as Hrank' by (rewrite max_rank_snoc; cbn; by rewrite Ht).
  unfold check_slot. destruct (slot_magic t) as [want |] eqn:Ew.
  - destruct (Z.eqb_spec (bmagic b) want) as [Em | Em]; cbn [negb]; [| split; [done |]; naive_solver].
    rewrite Hslots by done. destruct (slot_blob t pre) as [b0 |] eqn:Eb.
    + split; [done |]. intros Hall. destruct (Hall want eq_refl) as [_ Hno]. apply slot_blob_none in Hno. congruence.
    + split; [intros ? [= <-]; split; [done | by apply slot_blob_none] |]. split_and!; [done | done |].
      intros slot Hs. cbn [sc_slots]. rewrite slot_blob_snoc. cbn [fst snd].
      destruct (decide (t = slot)) as [<- | Hne].
      * by rewrite lookup_insert_eq, Eb, Z.eqb_refl.
      * rewrite lookup_insert_ne, Hslots by done. rewrite (proj2 (Z.eqb_neq t slot)) by done. by destruct (slot_blob slot pre).
  - split; [done |]. split_and!; [done | done |]. intros slot Hs. rewrite slot_blob_snoc, Hslots by done. cbn [fst snd].
    destruct (Z.eqb_spec t slot) as [<- | _]; [rewrite Ew in Hs; by destruct Hs |]. by destruct (slot_blob slot pre).
Qed.

Lemma cd_slot_plain t : is_cd_slot t = true -> slot_magic t = None.
Proof.
  intros Ht. unfold slot_magic, unique_slots. cbn [List.find fst].
  repeat match goal with |- context [?c =? t] => destruct (Z.eqb_spec c t) as [<- | _]; [by vm_compute in Ht |] end. done.
Qed.

Lemma is_best_snoc pre s t b : Forall (fun x => x.2 <> 0) pre -> summary pre s -> is_cd_slot t = true -> 0 < rank b ->
  if (sc_best_cd s =? 0) || (sc_best_rank s <? rank b)
  then summary (pre ++ [(t, b)]) (Scan b (rank b) (sc_slots s)) /\ rank b <> max_rank pre
  else if rank b =? sc_best_rank s then rank b = max_rank pre
  else summary (pre ++ [(t, b)]) s /\ rank b <> max_rank pre.
Proof.
  intros Hpre (Hbest & Hrank & Hslots) Ht Hr.
  assert (forall slot, is_Some (slot_magic slot) -> sc_slots s !! slot = slot_blob slot (pre ++ [(t, b)])) as Hslots'.
  { intros slot Hs. rewrite slot_blob_snoc, Hslots by done. cbn [fst snd].
    destruct (Z.eqb_spec t slot) as [<- | _]; [| by destruct (slot_blob slot pre)].
    destruct Hs as [w Hw]. by rewrite cd_slot_plain in Hw. }
  assert (max_rank (pre ++ [(t, b)]) = Z.max (max_rank pre) (rank b)) as Hmax by (rewrite max_rank_snoc; cbn; by rewrite Ht).
  assert (sc_best_cd s = 0 -> max_rank pre = 0) as Hzero.
  { intros E. destruct Hbest as [(t0 & Hin & _) | [_ Hno]].
    - rewrite E in Hin. rewrite Forall_forall in Hpre. by destruct (Hpre _ Hin).
    - clear -Hno. induction Hno as [|x es Hx Hno IH]; [done |]. cbn. by rewrite Hx. }
  assert (rank b <> max_rank pre -> max_rank pre < rank b -> summary (pre ++ [(t, b)]) (Scan b (rank b) (sc_slots s))) as Htake.
  { intros _ Hlt. split_and!; [| cbn [sc_best_rank]; lia | done]. left. exists t. cbn [sc_best_cd].
    split_and!; [apply elem_of_app; right; by apply list_elem_of_singleton | done | lia]. }
  destruct (Z.eqb_spec (sc_best_cd s) 0) as [E0 | E0]; cbn [orb].
  { specialize (Hzero E0). split; [apply Htake; lia | lia]. }
  destruct (Z.ltb_spec (sc_best_rank s) (rank b)) as [Hlt | Hge].
  { split; [apply Htake; lia | lia]. }
  destruct (Z.eqb_spec (rank b) (sc_best_rank s)); [lia |]. split; [| lia]. split_and!; [| lia | done].
  destruct Hbest as [(t0 & Hin & Ht0 & Hr0) | [? _]]; [| done]. left. exists t0. split_and!; [apply elem_of_app; by left | done | lia].
Qed.

Lemma index_step_spec pre s n : 0 <= n -> 12 + 8 * (n + 1) <= length -> Forall (fun x => x.2 <> 0) pre -> summary pre s ->
  exists r, csblob_index_step PAGE_SHIFT sha1 sha256 sha384 m addr length n s = Ret r /\
    match r with
    | Next s' => entry_ok pre (entry n) /\ summary (pre ++ [entry n]) s'
    | Exit (e, _) => e = EBADEXEC /\ ~ entry_ok pre (entry n)
    end.
Proof.
  intros Hn Hin Hpre Hs. unfold csblob_index_step.
  assert (blob_index addr n = addr + 12 + 8 * n) as Ei by (unfold blob_index; rewrite sizeof_super, sizeof_index; lia).
  rewrite !(be_field_ok CS_BlobIndex 8 addr length) by (done || lia).
  change (field_offset CS_BlobIndex "type" 0) with 0. change (field_offset CS_BlobIndex "offset" 0) with 4.
  rewrite Z.add_0_r. cbn [mbind outcome_bind].
  pose proof (be_u32 m (blob_index addr n + 4) Hbytes) as Hoff. unfold entry.
  set (t := be m (blob_index addr n)) in *. set (off := be m (blob_index addr n + 4)) in *. clearbody t off. cint_unfold.
  destruct (Z.ltb_spec length off) as [Hbig | Hoff'].
  { eexists. split; [done |]. split; [done |]. intros [H1 _ _ _]. cbn in H1. lia. }
  destruct (blob_verdict (addr + off) (length - off)) as [[Hv [H8 Hbl]] | [Hv Hbl]]; [lia | lia | |];
    rewrite Hv; cbn [mbind outcome_bind].
  2:{ change (EBADEXEC =? 0) with false. cbn [negb]. eexists. split; [done |]. split; [done |]. intros [H1 H2 _ _]. cbn [snd] in H1, H2. apply Hbl. lia. }
  cbn [Z.eqb negb]. unfold blob32.
  rewrite !(be_field_ok CS_GenericBlob 8 addr length) by (done || lia). cbn [mbind outcome_bind].
  change (field_offset CS_GenericBlob "length" 0) with 4. change (field_offset CS_GenericBlob "magic" 0) with 0.
  rewrite Z.add_0_r. fold (blen (addr + off)). fold (bmagic (addr + off)).
  assert (0 <= blen (addr + off)) as Hb0 by (apply be_u32; done).
  destruct (is_cd_slot t) eqn:Ecd.
  - destruct (codedirectory_verdict (addr + off) (blen (addr + off))) as [[Hc Hok] | [Hc Hno]]; try lia.
    { apply (mapped_sub m addr length); [done | lia | lia]. }
    + rewrite Hc. cbn [mbind outcome_bind Z.eqb negb].
      assert (112 <= blen (addr + off)) as H112 by apply Hok.
      unfold hash_rank. rewrite (cd8_ok addr length) by (done || lia). cbn [mbind outcome_bind].
      fold (rank (addr + off)).
      destruct (cdo_hash _ _ Hok) as (h & Hh & _).
      pose proof (is_best_snoc pre s t (addr + off) Hpre Hs Ecd (rank_known _ _ Hh)) as Hstep.
      assert (rank (addr + off) <> max_rank pre -> entry_ok pre (t, addr + off)) as Hentry.
      { intros Hne. constructor; cbn [fst snd]; [lia | lia | done |]. intros want Hw. by rewrite cd_slot_plain in Hw. }
      eexists. split; [done |]. destruct (_ || _); [destruct Hstep; split; [by apply Hentry | done] |].
      destruct (rank (addr + off) =? sc_best_rank s).
      * split; [done |]. intros [_ _ H3 _]. by destruct (H3 Ecd) as [_ ?].
      * destruct Hstep. split; [by apply Hentry | done].
    + rewrite Hc. cbn [mbind outcome_bind]. change (EBADEXEC =? 0) with false. cbn [negb].
      eexists. split; [done |]. split; [done |]. intros [_ _ H3 _]. by apply Hno, H3.
  - cbn [mbind outcome_bind]. eexists. split; [done |].
    pose proof (check_slot_spec pre s t (addr + off) Hs Ecd) as Hstep.
    destruct (check_slot t (bmagic (addr + off)) (addr + off) s) as [s' | [e s']].
    + destruct Hstep as [H1 H2]. split; [| done]. constructor; cbn [fst snd]; [lia | lia | congruence | done].
    + destruct Hstep as [-> H1]. split; [done |]. intros [_ _ _ H4]. by apply H1.
Qed.

Lemma entries_S n : entries (S n) = entries n ++ [entry (Z.of_nat n)].
Proof. unfold entries. by rewrite seq_S, fmap_app. Qed.

Lemma entries_nonzero n : Forall (fun x => x.2 <> 0) (entries n).
Proof.
  apply Forall_fmap, Forall_true. intros i. change (addr + be m (blob_index addr (Z.of_nat i) + 4) <> 0).
  pose proof (be_u32 m (blob_index addr (Z.of_nat i) + 4) Hbytes). cint_unfold. lia.
Qed.

Lemma scan_spec k : forall n s, 12 + 8 * Z.of_nat (n + k) <= length -> summary (entries n) s ->
  exists r, for_ret k (Z.of_nat n) (csblob_index_step PAGE_SHIFT sha1 sha256 sha384 m addr length) s = Ret r /\
    match r with
    | Next s' => (forall i, (n <= i < n + k)%nat -> entry_ok (entries i) (entry (Z.of_nat i))) /\ summary (entries (n + k)) s'
    | Exit (e, _) => e = EBADEXEC /\ exists i, (n <= i < n + k)%nat /\ ~ entry_ok (entries i) (entry (Z.of_nat i))
    end.
Proof.
  induction k as [|k IH]; intros n s Hl Hs; cbn [for_ret].
  { eexists. split; [done |]. split; [lia |]. by rewrite Nat.add_0_r. }
  destruct (index_step_spec (entries n) s (Z.of_nat n)) as (r & Hr & Hcase); [lia | lia | apply entries_nonzero | done |].
  rewrite Hr. cbn [mbind outcome_bind]. destruct r as [s' | [e s']].
  - destruct Hcase as [Hok Hs']. rewrite <- entries_S in Hs'.
    destruct (IH (S n) s') as (r & Hr' & Hcase'); [lia | done |]. replace (Z.of_nat n + 1) with (Z.of_nat (S n)) by lia.
    exists r. split; [done |]. destruct r as [s'' | [e s'']].
    + destruct Hcase' as [Hall Hs'']. replace (n + S k)%nat with (S n + k)%nat by lia. split; [| done].
      intros i Hi. destruct (decide (i = n)) as [-> | Hne]; [done | apply Hall; lia].
    + destruct Hcase' as (-> & i & Hi & Hno). split; [done |]. exists i. split; [lia | done].
  - destruct Hcase as [-> Hno]. eexists. split; [done |]. split; [done |]. exists n. split; [lia | done].
Qed.

Lemma summary_start : summary (entries 0) scan_start.
Proof. split_and!; [right; split; [done | constructor] | done | done]. Qed.
End superblob.

(** A signature and what is taken from it: the code directory with the best hash, and the
    entitlements in both forms (0 for none). *)
Inductive signature (addr size : Z) : Z -> Z -> Z -> Prop :=
  | sig_super cd : let es := entries addr (Z.to_nat (be m (addr + 8))) in
      8 <= size -> blen addr <= size -> bmagic addr = CSMAGIC_EMBEDDED_SIGNATURE ->
      12 + 8 * be m (addr + 8) <= blen addr ->
      (forall i, Z.of_nat i < be m (addr + 8) -> entry_ok addr (blen addr) (entries addr i) (entry addr (Z.of_nat i))) ->
      is_best es cd -> cd <> 0 ->
      signature addr size cd (default 0 (slot_blob CSSLOT_ENTITLEMENTS es)) (default 0 (slot_blob CSSLOT_DER_ENTITLEMENTS es))
  | sig_raw : 8 <= size -> blen addr <= size -> bmagic addr = CSMAGIC_CODEDIRECTORY -> cd_ok addr (blen addr) ->
      signature addr size addr 0 0.

Lemma validate_csblob_spec addr size : mapped m addr size -> 0 <= size -> 0 < addr -> addr + size < 2 ^ 64 ->
  exists e cd ent der, cs_validate_csblob PAGE_SHIFT sha1 sha256 sha384 m addr size = Ret (e, (cd, ent, der)) /\
    ((e = 0 /\ signature addr size cd ent der) \/
     (e = EBADEXEC /\ forall cd ent der, ~ signature addr size cd ent der)).
Proof.
  intros Hmap Hsize Haddr Hend. assert (CSMAGIC_EMBEDDED_SIGNATURE <> CSMAGIC_CODEDIRECTORY) as Hmagics by done.
  unfold cs_validate_csblob.
  destruct (blob_verdict addr size Hmap addr size) as [[Hv [H8 Hbl]] | [Hv Hno]]; [lia | lia | |];
    rewrite Hv; cbn [mbind outcome_bind].
  2:{ change (EBADEXEC =? 0) with false. eexists _, _, _, _. split; [reflexivity |]. right. split; [done |].
      intros cd ent der Hs. apply Hno. by destruct Hs. }
  cbn [Z.eqb negb]. unfold blob32. rewrite !(be_field_ok CS_GenericBlob 8 addr size) by (done || lia). cbn [mbind outcome_bind].
  change (field_offset CS_GenericBlob "length" 0) with 4. change (field_offset CS_GenericBlob "magic" 0) with 0.
  rewrite Z.add_0_r. fold (blen addr). fold (bmagic addr).
  assert (0 <= blen addr) as Hb0 by (by apply be_u32).
  assert (mapped m addr (blen addr)) as Hmap' by (apply (mapped_sub m addr size); [done | lia | lia]).
  destruct (Z.eqb_spec (bmagic addr) CSMAGIC_EMBEDDED_SIGNATURE) as [Em | Em].
  - rewrite sizeof_super, sizeof_index. destruct (Z.ltb_spec (blen addr) 12) as [H12 | H12].
    { eexists _, _, _, _. split; [reflexivity |]. right. split; [done |]. intros cd ent der Hs.
      pose proof (be_u32 m (addr + 8) Hbytes) as Hc. cint_unfold. destruct Hs; [lia | congruence]. }
    rewrite (be_field_ok CS_SuperBlob 12 addr (blen addr)) by (done || lia). cbn [mbind outcome_bind].
    change (field_offset CS_SuperBlob "count" 0) with 8. rewrite div_lt_iff by lia.
    pose proof (be_u32 m (addr + 8) Hbytes) as Hc. cint_unfold.
    destruct (Z.ltb_spec (blen addr - 12) (be m (addr + 8) * 8)) as [Hfit | Hfit].
    { eexists _, _, _, _. split; [reflexivity |]. right. split; [done |]. intros cd ent der Hs. destruct Hs; [lia | congruence]. }
    destruct (scan_spec addr (blen addr) Hmap' Haddr ltac:(lia) (Z.to_nat (be m (addr + 8))) 0 scan_start)
      as (r & Hr & Hcase); [lia | apply summary_start |]. change (Z.of_nat 0) with 0 in Hr. rewrite Hr.
    cbn [mbind outcome_bind]. rewrite Nat.add_0_l in Hcase. destruct r as [s | [e s]].
    + destruct Hcase as [Hall (Hbest & Hrank & Hslots)]. eexists _, _, _, _. split; [reflexivity |].
      destruct (Z.eqb_spec (sc_best_cd s) 0) as [E0 | E0].
      * right. split; [done |]. intros cd ent der Hs. destruct Hs as [cd es _ _ _ _ _ Hb Hne | ? ? ? ?]; [| congruence].
        destruct Hbest as [(t & Hin & _) | [_ Hnone]].
        { rewrite E0 in Hin. pose proof (entries_nonzero addr Haddr (Z.to_nat (be m (addr + 8)))) as Hnz.
          rewrite Forall_forall in Hnz. by destruct (Hnz _ Hin). }
        destruct Hb as [(t & Hin & Ht & _) | [? _]]; [| done]. rewrite Forall_forall in Hnone.
        specialize (Hnone _ Hin). cbn in Hnone. congruence.
      * left. split; [done |]. rewrite !Hslots by (by eexists). apply sig_super; try done; [lia |].
        intros i Hi. apply Hall. lia.
    + destruct Hcase as (-> & i & Hi & Hno). eexists _, _, _, _. split; [reflexivity |]. right. split; [done |].
      intros cd ent der Hs. destruct Hs as [cd es _ _ _ _ Hall _ _ | ? ? ? ?]; [| congruence]. apply Hno, Hall. lia.
  - destruct (Z.eqb_spec (bmagic addr) CSMAGIC_CODEDIRECTORY) as [Ec | Ec].
    + destruct (codedirectory_verdict addr (blen addr)) as [[Hcd Hok] | [Hcd Hno]]; [done | done | lia | done | |];
        rewrite Hcd; cbn [mbind outcome_bind]; eexists _, _, _, _; (split; [reflexivity |]).
      * left. split; [done | by apply sig_raw].
      * right. split; [done |]. intros cd ent der Hs. by destruct Hs.
    + eexists _, _, _, _. split; [reflexivity |]. right. split; [done |]. intros cd ent der Hs. by destruct Hs.
Qed.

(** ** What a signature gives *)

Definition blob_in (addr size b : Z) : Prop := addr <= b /\ b + 8 <= addr + size /\ b + blen b <= addr + size.

Lemma entries_in addr n t b : (t, b) ∈ entries addr n -> exists i, (i < n)%nat /\ entry addr (Z.of_nat i) = (t, b).
Proof. intros (i & E & Hi)%list_elem_of_fmap. apply elem_of_seq in Hi. exists i. split; [lia | done]. Qed.

Lemma slot_blob_in slot es b : slot_blob slot es = Some b -> (slot, b) ∈ es.
Proof.
  unfold slot_blob. intros (e & He & ->)%fmap_Some. apply find_some in He as [Hin E%Z.eqb_eq].
  destruct e as [t b']. cbn in *. subst. by apply list_elem_of_In.
Qed.

Lemma signature_cd addr size cd ent der : signature addr size cd ent der ->
  addr <= cd /\ cd + blen cd <= addr + size /\ cd_ok cd (blen cd).
Proof.
  intros [cd0 es H8 Hl Hm Hc Hall Hb Hne | H8 Hl Hm Hok]; [| split_and!; [lia | lia | done]].
  destruct Hb as [(t & Hin & Ht & _) | [? _]]; [| done]. apply entries_in in Hin as (i & Hi & E).
  destruct (Hall i) as [H1 H2 H3 _]; [lia |]. rewrite E in H1, H2, H3. cbn [fst snd] in H1, H2, H3.
  destruct (H3 Ht) as [Hok _]. split; [| split; [lia | done]].
  injection E as _ <-. pose proof (be_u32 m (blob_index addr (Z.of_nat i) + 4) Hbytes). cint_unfold. lia.
Qed.

Lemma signature_slot addr size cd ent der : signature addr size cd ent der ->
  (ent = 0 \/ (blob_in addr size ent /\ bmagic ent = CSMAGIC_EMBEDDED_ENTITLEMENTS)) /\
  (der = 0 \/ (blob_in addr size der /\ bmagic der = CSMAGIC_EMBEDDED_DER_ENTITLEMENTS)).
Proof.
  intros [cd0 es H8 Hl Hm Hc Hall Hb Hne | H8 Hl Hm Hok]; [| by split; left].
  assert (forall slot want, slot_magic slot = Some want ->
    default 0 (slot_blob slot es) = 0 \/
    (blob_in addr size (default 0 (slot_blob slot es)) /\ bmagic (default 0 (slot_blob slot es)) = want)) as H.
  { intros slot want Hw. destruct (slot_blob slot es) as [b |] eqn:Eb; [right | by left]. change (default 0 (Some b)) with b.
    apply slot_blob_in, entries_in in Eb as (i & Hi & E). destruct (Hall i) as [H1 H2 _ H4]; [lia |].
    rewrite E in H1, H2, H4. cbn [fst snd] in H1, H2, H4. split; [| by apply H4]. split; [| lia].
    injection E as _ <-. pose proof (be_u32 m (blob_index addr (Z.of_nat i) + 4) Hbytes). cint_unfold. lia. }
  split; by apply H.
Qed.
End validation.

(** C13. Signature validation is memory safe, total and exact: on any bytes it returns without
    touching memory outside the buffer, with 0 exactly when the buffer holds a well-formed
    signature - every indexed blob inside, every code directory with its slots, scatter vector,
    strings and linkage inside it, single-use slots used once with their magic - and then the
    code directory with the best hash and the entitlement blobs; with EBADEXEC otherwise. *)
Theorem csblob_validation_decides (PAGE_SHIFT : Z) (sha1 sha256 sha384 : bytes -> bytes) (m : mem) (addr size : Z)
    (Hbytes : byte_mem m) (Hmap : mapped m addr size) (Hsize : 0 <= size) (Haddr : 0 < addr) (Hend : addr + size < 2 ^ 64) :
  exists e cd ent der, cs_validate_csblob PAGE_SHIFT sha1 sha256 sha384 m addr size = Ret (e, (cd, ent, der)) /\
    ((e = 0 /\ signature PAGE_SHIFT sha1 sha256 sha384 m addr size cd ent der) \/
     (e = EBADEXEC /\ forall cd ent der, ~ signature PAGE_SHIFT sha1 sha256 sha384 m addr size cd ent der)).
Proof. by apply validate_csblob_spec. Qed.

(** ** A signature *)

(** Checksums in place of the hash functions. *)
Definition toy_hash (n : nat) (b : bytes) : bytes := replicate n (u8 (foldr Z.add 0 b)).

Definition sample_ent : bytes := be_split CSMAGIC_EMBEDDED_ENTITLEMENTS ++ be_split 13 ++ lit "<xml>".
Definition sample_page : bytes := replicate (Z.to_nat 4096) 7.

(** Five special slots, the fifth the hash of the entitlements, and one page. *)
Definition sample_cd : bytes :=
  be_split CSMAGIC_CODEDIRECTORY ++ be_split 236 ++ be_split 0x20001 ++ be_split CS_ADHOC ++ be_split 216 ++ be_split 112 ++
  be_split 5 ++ be_split 1 ++ be_split 4096 ++ [20; CS_HASHTYPE_SHA1; 0; 12] ++ replicate 72 0 ++ lit "app" ++ [0] ++
  toy_hash 20 sample_ent ++ replicate 80 0 ++ toy_hash 20 sample_page.
Definition sample_sig : bytes :=
  be_split CSMAGIC_EMBEDDED_SIGNATURE ++ be_split 277 ++ be_split 2 ++
  be_split CSSLOT_CODEDIRECTORY ++ be_split 28 ++ be_split CSSLOT_ENTITLEMENTS ++ be_split 264 ++ sample_cd ++ sample_ent.
Definition sample_sig_mem : mem := mem_of 4096 sample_sig.

Lemma mem_of_mapped A l : mapped (mem_of A l) A (zlen l).
Proof.
  apply stored_mapped. pose proof (mem_of_stored A [] l []) as H. cbn [app] in H. rewrite app_nil_r in H.
  change (zlen (@nil Z)) with 0 in H. by rewrite Z.add_0_r in H.
Qed.

Lemma mem_of_bytes A l : Forall is_u8 l -> byte_mem (mem_of A l).
Proof.
  intros Hl x b. unfold mem_of. destruct (_ && _); [| done]. intros Hb. rewrite Forall_forall in Hl.
  apply Hl. by eapply list_elem_of_lookup_2.
Qed.

Lemma sample_sig_bytes : byte_mem sample_sig_mem.
Proof. apply mem_of_bytes, (bool_decide_unpack _). by vm_compute. Qed.
Lemma sample_sig_mapped : mapped sample_sig_mem 4096 277.
Proof. exact (mem_of_mapped 4096 sample_sig). Qed.

Lemma csblob_validation_decides_witness :
  cs_validate_csblob 14 (toy_hash 20) (toy_hash 32) (toy_hash 48) sample_sig_mem 4096 277 = Ret (0, (4124, 4360, 0)) /\
  signature 14 (toy_hash 20) (toy_hash 32) (toy_hash 48) sample_sig_mem 4096 277 4124 4360 0.
Proof.
  assert (cs_validate_csblob 14 (toy_hash 20) (toy_hash 32) (toy_hash 48) sample_sig_mem 4096 277 = Ret (0, (4124, 4360, 0))) as E
    by (vm_compute; reflexivity).
  split; [exact E |].
  destruct (csblob_validation_decides 14 (toy_hash 20) (toy_hash 32) (toy_hash 48) sample_sig_mem 4096 277
    sample_sig_bytes sample_sig_mapped ltac:(done) ltac:(done) ltac:(done)) as (e & cd & ent & der & H & [[He Hs] | [He _]]);
    rewrite E in H; injection H as <- <- <- <-; [exact Hs | done].
Defined.

(** A hash type that is not the best may be repeated: three code directories, SHA-256 and twice
    SHA-1, are accepted, although a repeated hash type is meant to be rejected. *)
Definition cd_of (type size : Z) (n : nat) : bytes :=
  be_split CSMAGIC_CODEDIRECTORY ++ be_split (116 + Z.of_nat n) ++ be_split 0x20001 ++ be_split 0 ++ be_split 116 ++ be_split 112 ++
  be_split 0 ++ be_split 1 ++ be_split 4096 ++ [size; type; 0; 12] ++ replicate 72 0 ++ lit "app" ++ [0] ++ replicate n 0.
Definition repeated_sig : bytes :=
  be_split CSMAGIC_EMBEDDED_SIGNATURE ++ be_split 456 ++ be_split 3 ++
  be_split CSSLOT_CODEDIRECTORY ++ be_split 36 ++
  be_split CSSLOT_ALTERNATE_CODEDIRECTORIES ++ be_split 184 ++
  be_split (CSSLOT_ALTERNATE_CODEDIRECTORIES + 1) ++ be_split 320 ++
  cd_of CS_HASHTYPE_SHA256 32 32 ++ cd_of CS_HASHTYPE_SHA1 20 20 ++ cd_of CS_HASHTYPE_SHA1 20 20.

Lemma repeated_hash_accepted :
  cs_validate_csblob 14 (toy_hash 20) (toy_hash 32) (toy_hash 48) (mem_of 4096 repeated_sig) 4096 456 = Ret (0, (4132, 0, 0)).
Proof. vm_compute. reflexivity. Qed.
