(* ===== verification/CodeSignPage.v ===== *)
(** * Code signatures: hashes of pages and blobs

    On a validated signature the hash slots are found inside it; a page is accepted untainted
    exactly when its digest is the one in its slot, and entitlements are returned exactly when
    their digest is the one in the special slot. *)

From stdpp Require Import base list strings gmap.
From Stdlib Require Import ZArith Lia.
From S2P Require Import Prelude XzsfsCore Memory CodeSign CodeSignProofs.

(** Digests are bytes, of these lengths. *)
Class Digests (sha1 sha256 sha384 : bytes -> bytes) : Prop := {
  sha1_length : forall b, zlen (sha1 b) = 20;
  sha256_length : forall b, zlen (sha256 b) = 32;
  sha384_length : forall b, zlen (sha384 b) = 48;
  sha_bytes : forall b, Forall is_u8 (sha1 b) /\ Forall is_u8 (sha256 b) /\ Forall is_u8 (sha384 b);
}.

Section signed.
Context (PAGE_SHIFT : Z) (MACH_ASSERT : bool) (sha1 sha256 sha384 : bytes -> bytes).
Context (m : mem) (Hbytes : byte_mem m).
Context (addr size : Z) (Hmap : mapped m addr size) (Hsize : 0 <= size) (Haddr : 0 < addr) (Hend : addr + size < 2 ^ 64).
Context (cd ent der : Z) (Hsig : signature PAGE_SHIFT sha1 sha256 sha384 m addr size cd ent der).

Lemma cd_inside : addr <= cd /\ cd + blen m cd <= addr + size /\ 112 <= blen m cd.
Proof.
  destruct (signature_cd _ _ _ _ m Hbytes _ _ _ _ _ Hsig) as (H1 & H2 & Hok). split_and!; [done | done | apply Hok].
Qed.

Lemma cd_wf : cd_ok PAGE_SHIFT sha1 sha256 sha384 m cd (blen m cd).
Proof. by destruct (signature_cd _ _ _ _ m Hbytes _ _ _ _ _ Hsig) as (_ & _ & Hok). Qed.

Lemma sig_cd32 f : in_struct 112 CS_CodeDirectory 4 f = true -> cd32 m cd f = Ret (cdv m cd f).
Proof. intros Hf. pose proof cd_inside. apply (cd32_ok m Hbytes addr size); [done | done | lia | lia]. Qed.

Lemma sig_cd8 f : in_struct 112 CS_CodeDirectory 1 f = true -> cd8 m cd f = Ret (cdb m cd f).
Proof. intros Hf. pose proof cd_inside. apply (cd8_ok m addr size); [done | done | lia | lia]. Qed.

Lemma sig_scatter_offset : scatter_offset m cd = Ret (cd_scatter m cd).
Proof.
  unfold scatter_offset, cd_scatter. rewrite ?sig_cd32 by done. cbn [mbind outcome_bind].
  destruct (_ <=? _); [by rewrite ?sig_cd32 by done | done].
Qed.

Lemma cdv_u32 f : is_u32 (cdv m cd f).
Proof. by apply be_u32. Qed.

(** ** Slots *)

Lemma valid_range_iff s e l u : cs_valid_range s e l u = true <-> l <= u /\ s <= e /\ l <= s /\ e <= u.
Proof.
  unfold cs_valid_range. destruct (Z.ltb_spec u l), (Z.ltb_spec e s), (Z.ltb_spec s l), (Z.ltb_spec u e); cbn; split; (done || lia).
Qed.

(** The walk over a validated scatter vector stays inside it. *)
Lemma scatter_walk page hl fuel : forall p idx sb, scatter_vec m (cd + blen m cd) p idx -> cd <= p -> 0 <= idx ->
  (cd + blen m cd - p) / 24 + 1 <= Z.of_nat fuel ->
  exists r, loop_ret fuel (scatter_step m cd page hl addr (addr + size) (cdv m cd "nCodeSlots")) (p, idx, sb) = Ret r.
Proof.
  pose proof cd_inside as (Hc1 & Hc2 & Hc3).
  induction fuel as [|fuel IH]; intros p idx sb Hv Hp Hidx Hf.
  { assert (p <= cd + blen m cd) by (inversion Hv; lia). pose proof (Z.div_pos (cd + blen m cd - p) 24). lia. }
  assert (p + 24 <= cd + blen m cd) as Hin by (inversion Hv; lia).
  cbn [loop_ret]. unfold scatter_step at 2. rewrite ?sig_cd32 by done. cbn [mbind outcome_bind].
  change (cdv m cd "length") with (blen m cd). rewrite (proj2 (Z.ltb_ge _ _)) by lia.
  rewrite !(be_field_ok m Hbytes SC_Scatter 24 addr size) by (done || lia). cbn [mbind outcome_bind].
  change (field_offset SC_Scatter "count" 0) with 0. rewrite Z.add_0_r.
  destruct (Z.eqb_spec (be m p) 0) as [E | E]; [by eexists |].
  destruct (_ && _); [by eexists |]. destruct (page <? _); [by eexists |]. destruct (page <=? _).
  - rewrite ?sig_cd32 by done. cbn [mbind outcome_bind]. destruct (_ || _); by eexists.
  - rewrite sizeof_scatter. inversion Hv as [? ? _ E0 | ? ? _ _ Hs Hv']; [done |]; subst.
    pose proof (be_u32 m p Hbytes) as Hb. rewrite (u32_small (idx + be m p)) by (cint_unfold; lia).
    apply IH; [done | lia | cint_unfold; lia |].
    replace (cd + blen m cd - (p + 24)) with (cd + blen m cd - p + (-1) * 24) by lia. rewrite Z.div_add by lia. lia.
Qed.

(** In a validated signature, looking for a page's hash returns, and a hash it finds lies in
    the signature. *)
Lemma hashes_safe page hl : 0 < hl <= 48 -> MACH_ASSERT = false \/ page <> cdv m cd "nCodeSlots" \/ cd_scatter m cd <> 0 ->
  exists r, hashes MACH_ASSERT m cd page hl addr (addr + size) = Ret r /\
    forall h, r = Some h -> addr <= h /\ h + hl <= addr + size.
Proof.
  intros Hhl Hassert. pose proof cd_inside as (Hc1 & Hc2 & Hc3). unfold hashes. rewrite ?sig_cd32 by done. cbn [mbind outcome_bind].
  unfold kassert. rewrite (proj2 (valid_range_iff cd (cd + sizeof CS_CodeDirectory) addr (addr + size)))
    by (rewrite sizeof_cd; lia). cbn [negb]. rewrite andb_false_r. cbn [mbind outcome_bind].
  rewrite sig_scatter_offset. cbn [mbind outcome_bind].
  assert (forall o : option Z, exists r, (match o with
    | Some hash => Ret (if negb (cs_valid_range hash (u64 (hash + hl)) addr (addr + size)) then None else Some hash)
    | None => Ret None end) = Ret r /\ ((forall h, o = Some h -> is_u64 h) -> forall h, r = Some h -> addr <= h /\ h + hl <= addr + size)) as Hfin.
  { intros [h0 |]; [| by eexists]. eexists. split; [reflexivity |]. intros Hu h.
    destruct (cs_valid_range h0 (u64 (h0 + hl)) addr (addr + size)) eqn:Ev; cbn [negb]; [| done]. intros [= <-].
    apply valid_range_iff in Ev as (_ & H1 & H2 & H3). specialize (Hu h0 eq_refl). cint_unfold. split; [done |].
    destruct (Z.lt_ge_cases (h0 + hl) (2 ^ 64)) as [Hw | Hw]; [by rewrite u64_small in H3 by (cint_unfold; lia) |].
    assert (u64 (h0 + hl) = h0 + hl - 2 ^ 64) as E by (symmetry; apply (Z.mod_unique _ _ 1); lia). lia. }
  destruct (Z.eqb_spec (cd_scatter m cd) 0) as [E | E]; cbn [negb].
  - rewrite ?sig_cd32 by done. cbn [mbind outcome_bind].
    destruct (_ || _) eqn:Eo; [by eexists |]. cbn [mbind outcome_bind].
    assert (page <= cdv m cd "nCodeSlots") as Hle.
    { apply orb_false_iff in Eo as [_ Eo]. by apply Z.ltb_ge in Eo. }
    assert (MACH_ASSERT && negb (page <? cdv m cd "nCodeSlots") = false) as ->.
    { destruct Hassert as [-> | [Hne | Hne]]; [done | | done]. rewrite (proj2 (Z.ltb_lt _ _)) by lia. apply andb_false_r. }
    cbn [mbind outcome_bind]. destruct (Hfin (Some (u64 (u64 (cd + cdv m cd "hashOffset") + page * hl)))) as (r & Hr & Hb).
    rewrite Hr. exists r. split; [done |]. apply Hb. intros h [= <-]. apply u64_range.
  - rewrite ?sig_cd32 by done. cbn [mbind outcome_bind]. change (cdv m cd "length") with (blen m cd).
    pose proof (cdo_scatter _ _ _ _ _ _ _ cd_wf E) as Hv.
    assert (0 <= cd_scatter m cd) as Hs0 by (unfold cd_scatter; destruct (_ <=? _); [apply cdv_u32 | done]).
    destruct (scatter_walk page hl (scatter_fuel (blen m cd)) (cd + cd_scatter m cd) 0 0 Hv) as [r Hr]; [lia | done | |].
    { unfold scatter_fuel. rewrite sizeof_scatter. pose proof (Z.div_pos (blen m cd) 24). rewrite Z2Nat.id by lia.
      pose proof (Z.div_le_mono (cd + blen m cd - (cd + cd_scatter m cd)) (blen m cd) 24). lia. }
    rewrite Hr. cbn [mbind outcome_bind].
    destruct (Hfin (match r with Some (base, sbase) => Some (u64 (base + u32 (page - sbase) * hl)) | None => None end)) as (r' & Hr' & Hb).
    rewrite Hr'. exists r'. split; [done |]. apply Hb. intros h. destruct r as [[base sbase] |]; [| done]. intros [= <-]. apply u64_range.
Qed.

(** It can panic, behind the last slot, but not fault. *)
Lemma hashes_nofault page hl : 0 < hl <= 48 -> hashes MACH_ASSERT m cd page hl addr (addr + size) <> Fault /\
  forall h, hashes MACH_ASSERT m cd page hl addr (addr + size) = Ret (Some h) -> addr <= h /\ h + hl <= addr + size.
Proof.
  intros Hhl. destruct (decide (MACH_ASSERT = false \/ page <> cdv m cd "nCodeSlots" \/ cd_scatter m cd <> 0)) as [Hs | Hn].
  { destruct (hashes_safe page hl Hhl Hs) as (r & -> & Hr). split; [done |]. intros h [= ->]. by apply Hr. }
  assert (MACH_ASSERT = true /\ page = cdv m cd "nCodeSlots" /\ cd_scatter m cd = 0) as (EA & -> & Esc).
  { destruct MACH_ASSERT; [| tauto]. split; [done |]. split; apply dec_stable; tauto. }
  unfold hashes, kassert. rewrite EA, ?sig_cd32 by done. cbn [mbind outcome_bind]. pose proof cd_inside as (Hc1 & Hc2 & Hc3).
  rewrite (proj2 (valid_range_iff cd (cd + sizeof CS_CodeDirectory) addr (addr + size))) by (rewrite sizeof_cd; lia). cbn [negb andb].
  cbn [mbind outcome_bind]. rewrite sig_scatter_offset, Esc. cbn [mbind outcome_bind Z.eqb negb]. rewrite ?sig_cd32 by done.
  cbn [mbind outcome_bind]. rewrite Z.ltb_irrefl. destruct (_ || _); cbn [negb andb mbind outcome_bind]; by split.
Qed.

(** Without a scatter vector, page [page] has the code slot of its number. *)
Lemma hashes_exact page hashtype : cd_scatter m cd = 0 -> cs_find_md sha1 sha256 sha384 (cdb m cd "hashType") = Some hashtype ->
  0 <= page < cdv m cd "nCodeSlots" ->
  hashes MACH_ASSERT m cd page (cs_size hashtype) addr (addr + size) =
    Ret (Some (cd + cdv m cd "hashOffset" + page * cs_size hashtype)) /\
  addr <= cd + cdv m cd "hashOffset" + page * cs_size hashtype /\
  cd + cdv m cd "hashOffset" + page * cs_size hashtype + cs_size hashtype <= addr + size.
Proof.
  intros E Eh Hpage. pose proof cd_inside as (Hc1 & Hc2 & Hc3).
  destruct (cdo_hash _ _ _ _ _ _ _ cd_wf) as (h & Eh' & _ & _ & Hfit). rewrite Eh in Eh'. injection Eh' as <-.
  destruct (find_md_sizes _ _ _ _ _ Eh) as (_ & Hsz & _). pose proof (cdv_u32 "hashOffset") as Ho. cint_unfold.
  set (ho := cdv m cd "hashOffset") in *. set (n := cdv m cd "nCodeSlots") in *. set (hl := cs_size hashtype) in *.
  assert (page * hl + hl <= n * hl) as Hmul by nia. assert (0 <= page * hl) as Hpos by nia.
  split; [| lia]. unfold hashes. rewrite ?sig_cd32 by done. cbn [mbind outcome_bind]. fold n.
  unfold kassert. rewrite (proj2 (valid_range_iff cd (cd + sizeof CS_CodeDirectory) addr (addr + size)))
    by (rewrite sizeof_cd; lia). cbn [negb]. rewrite andb_false_r. cbn [mbind outcome_bind].
  rewrite sig_scatter_offset. cbn [mbind outcome_bind]. rewrite E. cbn [Z.eqb negb].
  rewrite ?sig_cd32 by done. cbn [mbind outcome_bind]. fold ho.
  rewrite (u64_small (cd + ho)) by (cint_unfold; lia). rewrite (u64_small (cd + ho + n * hl)) by (cint_unfold; lia).
  rewrite (proj2 (valid_range_iff (cd + ho) (cd + ho + n * hl) addr (addr + size))) by lia. cbn [negb orb].
  rewrite (proj2 (Z.ltb_ge n page)), (proj2 (Z.ltb_lt page n)) by lia. cbn [negb]. rewrite andb_false_r. cbn [mbind outcome_bind].
  rewrite (u64_small (cd + ho + page * hl)) by (cint_unfold; lia).
  rewrite (u64_small (cd + ho + page * hl + hl)) by (cint_unfold; lia).
  by rewrite (proj2 (valid_range_iff (cd + ho + page * hl) (cd + ho + page * hl + hl) addr (addr + size))) by lia.
Qed.

(** ** The kernel's object *)

Context (Hshift : 12 <= PAGE_SHIFT <= 16) (Hsmall : size < 2 ^ 31).
Context (Hdigests : Digests sha1 sha256 sha384).
Context (h : cs_hash) (Hh : cs_find_md sha1 sha256 sha384 (cdb m cd "hashType") = Some h).

Lemma digest_length b : zlen (cs_digest h b) = cs_digest_size h.
Proof.
  destruct Hdigests as [H1 H2 H3 _]. unfold cs_find_md in Hh.
  repeat match goal with H : context [if ?c then _ else _] |- _ => destruct c end; by simplify_eq.
Qed.

Lemma digest_u8 b : Forall is_u8 (cs_digest h b).
Proof.
  destruct Hdigests as [_ _ _ H4]. destruct (H4 b) as (? & ? & ?). unfold cs_find_md in Hh.
  repeat match goal with H : context [if ?c then _ else _] |- _ => destruct c end; by simplify_eq.
Qed.

Lemma hash_sizes : 20 <= cs_size h <= 48 /\ cs_size h <= cs_digest_size h <= CS_HASH_MAX_SIZE.
Proof. by destruct (find_md_sizes _ _ _ _ _ Hh) as (_ & ? & ?). Qed.

Lemma digest_prefix n b : 0 <= n <= cs_digest_size h -> sub_bytes (cs_digest h b) 0 n = Some (take (Z.to_nat n) (cs_digest h b)).
Proof. intros Hn. rewrite sub_bytes_in; [done | lia | lia |]. rewrite digest_length. lia. Qed.

Definition pageshift : Z := cdb m cd "pageSize".
Definition pagesize : Z := 2 ^ pageshift.

Lemma pageshift_range : 12 <= pageshift <= 16.
Proof. unfold pageshift. destruct (cdo_page _ _ _ _ _ _ _ cd_wf) as [-> | ->]; lia. Qed.

Lemma pagesize_range : 2 ^ 12 <= pagesize <= 2 ^ 16.
Proof. pose proof pageshift_range. unfold pagesize. split; apply Z.pow_le_mono_r; lia. Qed.

Lemma shift_page : u32 (Z.shiftl 1 pageshift) = pagesize.
Proof.
  pose proof pageshift_range. pose proof pagesize_range. rewrite Z.shiftl_1_l. fold pagesize. apply u32_small. cint_unfold.
  change (2 ^ 16) with 65536 in *. lia.
Qed.

(** What the signature covers: up to its code limit, rounded up to a page, from the first
    scattered page if there is a scatter vector. *)
Definition cover_end : Z := (cdv m cd "codeLimit" + pagesize - 1) / pagesize * pagesize.
Definition cover_start : Z := if cd_scatter m cd =? 0 then 0 else be m (cd + cd_scatter m cd + 4) * pagesize.

Lemma coverage_spec : coverage m cd pageshift = Ret (cover_start, cover_end).
Proof.
  pose proof pagesize_range as Hp. pose proof pageshift_range as Hs. pose proof cd_inside as (Hc1 & Hc2 & Hc3).
  unfold coverage. rewrite shift_page, ?sig_cd32, sig_scatter_offset by done. cbn [mbind outcome_bind].
  assert (Z.land (cdv m cd "codeLimit" + (pagesize - 1)) (u64 (Z.lnot (pagesize - 1))) = cover_end) as ->.
  { pose proof (cdv_u32 "codeLimit") as Hl. cint_unfold. change (2 ^ 16) with 65536 in *.
    unfold u64. rewrite land_mod_pow2_r by lia. unfold pagesize, cover_end. rewrite land_lnot_ones by lia. fold pagesize.
    rewrite Z.mul_comm. by replace (cdv m cd "codeLimit" + (pagesize - 1)) with (cdv m cd "codeLimit" + pagesize - 1) by lia. }
  unfold cover_start. destruct (Z.eqb_spec (cd_scatter m cd) 0) as [E | E]; cbn [negb mbind outcome_bind]; [done |].
  pose proof (cdo_scatter _ _ _ _ _ _ _ cd_wf E) as Hv.
  assert (0 <= cd_scatter m cd) by (unfold cd_scatter; destruct (_ <=? _); [apply cdv_u32 | done]).
  assert (cd + cd_scatter m cd + 24 <= cd + blen m cd) by (inversion Hv; lia).
  rewrite (be_field_ok m Hbytes SC_Scatter 24 addr size) by (done || lia). done.
Qed.

(** The object made for a signature. *)
Definition signed_blob : cs_blob :=
  CsBlob false 0 0 (Z.lor (Z.land (cdv m cd "flags") CS_ALLOWED_MACHO) CS_VALID) 0 cover_start cover_end
    size 0 addr (take 20 (cs_digest h (span m cd (blen m cd)))) (Some h) pageshift 0 cd 0 ent der 0 false
    false CS_SIGNER_TYPE_UNKNOWN false 0.

Lemma init_validated_spec : cs_validate_csblob PAGE_SHIFT sha1 sha256 sha384 m addr size = Ret (0, (cd, ent, der)) ->
  cs_blob_init_validated PAGE_SHIFT sha1 sha256 sha384 m addr size = Ret (0, Some signed_blob, cd, false).
Proof.
  intros Hval. pose proof cd_inside as (Hc1 & Hc2 & Hc3). pose proof hash_sizes as (Hz1 & Hz2).
  unfold cs_blob_init_validated. rewrite Hval. cbn [mbind outcome_bind Z.eqb negb].
  rewrite ?sig_cd8 by done. cbn [mbind outcome_bind]. rewrite Hh. rewrite (proj2 (Z.ltb_ge _ _)) by lia.
  rewrite ?sig_cd8, ?sig_cd32 by done. cbn [mbind outcome_bind]. fold pageshift. rewrite coverage_spec. cbn [mbind outcome_bind].
  change (cdv m cd "length") with (blen m cd).
  assert (u64 (s32 (blen m cd)) = blen m cd) as ->.
  { rewrite s32_small by lia. rewrite u64_small; [lia | cint_unfold; lia]. }
  rewrite (load_bytes_span m addr size) by (done || lia). cbn [mbind outcome_bind].
  rewrite digest_prefix by (unfold CS_CDHASH_LEN; lia). done.
Qed.

(** ** Special slots *)

(** The hash of special slot [slot], counted down from the code slots. *)
Definition special_slot (slot : Z) : option bytes :=
  if (cdv m cd "nSpecialSlots" <? slot) || (slot =? 0) then None
  else Some (span m (cd + cdv m cd "hashOffset" - cs_size h * slot) (cs_size h)).

(** What the directory says about the blob of a slot (0 for none): its hash, or the zero hash
    or no slot at all when there is no blob. *)
Definition authentic (slot b : Z) : Prop :=
  match special_slot slot with
  | None => b = 0
  | Some hash => hash = (if b =? 0 then replicate (Z.to_nat (cs_size h)) 0
                         else take (Z.to_nat (cs_size h)) (cs_digest h (span m b (blen m b))))
  end.

Lemma mem_is_spec a b n : addr <= a -> a + n <= addr + size -> 0 <= n <= zlen b ->
  mem_is m a b n = Ret (bool_decide (span m a n = take (Z.to_nat n) b)).
Proof.
  intros H1 H2 Hn. unfold mem_is. rewrite (load_bytes_span m addr size) by (done || lia). cbn [mbind outcome_bind].
  by rewrite sub_bytes_in by lia.
Qed.

Lemma check_special_spec o slot b : csb_cd o = cd -> 0 <= slot -> b = 0 \/ blob_in m addr size b ->
  exists e b' len, check_special m o h slot b = Ret (e, b', len) /\
    ((e = 0 /\ b' = b /\ len = (if b =? 0 then 0 else blen m b) /\ authentic slot b) \/
     (e = EBADEXEC /\ b' = 0 /\ len = 0 /\ ~ authentic slot b)).
Proof.
  intros Ho Hslot Hb. pose proof cd_inside as (Hc1 & Hc2 & Hc3). pose proof hash_sizes as (Hz1 & Hz2).
  destruct (cdo_hash _ _ _ _ _ _ _ cd_wf) as (h' & Eh & _ & Hfit & Hfit2). rewrite Hh in Eh. injection Eh as <-.
  pose proof (cdv_u32 "nSpecialSlots") as Hn1. pose proof (cdv_u32 "nCodeSlots") as Hn2. cint_unfold.
  unfold check_special, find_special_slot, authentic, special_slot. rewrite Ho, ?sig_cd32 by done. cbn [mbind outcome_bind].
  destruct ((cdv m cd "nSpecialSlots" <? slot) || (slot =? 0)) eqn:Es; cbn [mbind outcome_bind].
  { destruct (Z.eqb_spec b 0) as [-> | Hne]; cbn [negb]; (eexists _, _, _; split; [reflexivity |]); [by left | by right]. }
  apply orb_false_iff in Es as [Es%Z.ltb_ge E0%Z.eqb_neq].
  assert (slot * cs_size h <= cdv m cd "nSpecialSlots" * cs_size h) by (apply Z.mul_le_mono_nonneg_r; lia).
  assert (1 * cs_size h <= slot * cs_size h) by (apply Z.mul_le_mono_nonneg_r; lia).
  assert (0 <= cdv m cd "nCodeSlots" * cs_size h) by (apply Z.mul_nonneg_nonneg; lia).
  rewrite (Z.mul_comm (cs_size h) slot).
  rewrite ?sig_cd32 by done. cbn [mbind outcome_bind]. set (a := cd + cdv m cd "hashOffset" - slot * cs_size h).
  destruct (Z.eqb_spec b 0) as [-> | Hne].
  - rewrite mem_is_spec; [| lia | lia | unfold cshash_zero; rewrite zlen_replicate; unfold CS_HASH_MAX_SIZE in *; lia]. cbn [mbind outcome_bind].
    unfold cshash_zero. rewrite take_replicate, Nat.min_l by (unfold CS_HASH_MAX_SIZE in *; lia).
    case_bool_decide; (eexists _, _, _; split; [reflexivity |]); [by left | by right].
  - destruct Hb as [? | (Hb1 & Hb2 & Hb3)]; [done |]. pose proof (be_u32 m (b + 4) Hbytes) as Hl. fold (blen m b) in Hl. cint_unfold.
    unfold blob32. rewrite (be_field_ok m Hbytes CS_GenericBlob 8 addr size) by (done || lia). cbn [mbind outcome_bind].
    change (field_offset CS_GenericBlob "length" 0) with 4. fold (blen m b).
    rewrite (load_bytes_span m addr size) by (done || lia). cbn [mbind outcome_bind].
    rewrite mem_is_spec; [| lia | lia | rewrite digest_length; lia]. cbn [mbind outcome_bind].
    case_bool_decide; (eexists _, _, _; split; [reflexivity |]); [by left | by right].
Qed.

Lemma valid_flag x : (Z.land (Z.lor x CS_VALID) CS_VALID =? 0) = false.
Proof.
  apply Z.eqb_neq. intros H. apply (f_equal (fun v => Z.testbit v 0)) in H.
  rewrite Z.land_spec, Z.lor_spec in H. change (Z.testbit CS_VALID 0) with true in H. by rewrite orb_true_r in H.
Qed.

Lemma with_hashtype_signed o k : csb_hashtype o = Some h -> with_hashtype o k = k h.
Proof. intros Ho. unfold with_hashtype. rewrite Ho. pose proof hash_sizes. by rewrite (proj2 (Z.ltb_ge _ _)) by lia. Qed.

(** An object of the kernel that stands for this signature, whatever its other fields are. *)
Record describes (b : cs_blob) : Prop := {
  ds_valid : (Z.land (csb_flags b) CS_VALID =? 0) = false;
  ds_kaddr : csb_mem_kaddr b = addr;
  ds_size : csb_mem_size b = size;
  ds_cd : csb_cd b = cd;
  ds_hashtype : csb_hashtype b = Some h;
  ds_ent : csb_entitlements_blob b = ent;
  ds_der : csb_der_entitlements_blob b = der;
}.

Lemma describes_signed : describes signed_blob.
Proof. split; try done. apply valid_flag. Qed.

Lemma entitlements_spec b : describes b -> exists e x len, csblob_get_entitlements m b = Ret (e, x, len) /\
    ((e = 0 /\ x = ent /\ len = (if ent =? 0 then 0 else blen m ent) /\ authentic CSSLOT_ENTITLEMENTS ent) \/
     (e = EBADEXEC /\ x = 0 /\ len = 0 /\ ~ authentic CSSLOT_ENTITLEMENTS ent)).
Proof.
  intros [Hv _ _ Hc Ht He _]. unfold csblob_get_entitlements. rewrite with_hashtype_signed, Hv, He by done.
  apply check_special_spec; [done | done |]. destruct (signature_slot _ _ _ _ m Hbytes _ _ _ _ _ Hsig) as [[-> | [? _]] _]; tauto.
Qed.

Lemma der_entitlements_spec b : describes b -> exists e x len, csblob_get_der_entitlements m b = Ret (e, x, len) /\
    ((e = 0 /\ x = der /\ len = (if der =? 0 then 0 else blen m der) /\ authentic CSSLOT_DER_ENTITLEMENTS der) \/
     (e = EBADEXEC /\ x = 0 /\ len = 0 /\ ~ authentic CSSLOT_DER_ENTITLEMENTS der)).
Proof.
  intros [Hv _ _ Hc Ht _ Hd]. unfold csblob_get_der_entitlements, csblob_get_der_entitlements_unsafe.
  rewrite with_hashtype_signed, Hv, Hd by done.
  apply check_special_spec; [done | done |]. destruct (signature_slot _ _ _ _ m Hbytes _ _ _ _ _ Hsig) as [_ [-> | [? _]]]; tauto.
Qed.

(** ** Pages *)

(** The object once it is attached to a file, its code at offset [base]. *)
Definition at_base (b : cs_blob) (base : Z) : cs_blob :=
  CsBlob (csb_ro b) (csb_cpu_type b) (csb_cpu_subtype b) (csb_flags b) base (csb_start_offset b) (csb_end_offset b)
    (csb_mem_size b) (csb_mem_offset b) (csb_mem_kaddr b) (csb_cdhash b) (csb_hashtype b) (csb_hash_pageshift b)
    (csb_hash_firstlevel_pageshift b) (csb_cd b) (csb_teamid b) (csb_entitlements_blob b) (csb_der_entitlements_blob b)
    (csb_entitlements b) (csb_platform_binary b) (csb_platform_path b) (csb_signer_type b) (csb_reconstituted b) (csb_vnode b).

(** An object through which the pages of the code at offset [base] of a file are checked. *)
Record pages_of (o : cs_blob) (base : Z) : Prop := {
  pg_base : csb_base_offset o = base;
  pg_start : csb_start_offset o = cover_start;
  pg_end : csb_end_offset o = cover_end;
  pg_kaddr : csb_mem_kaddr o = addr;
  pg_size : csb_mem_size o = size;
  pg_offset : csb_mem_offset o = 0;
  pg_hashtype : csb_hashtype o = Some h;
  pg_shift : csb_hash_pageshift o = pageshift;
  pg_cd : csb_cd o = cd;
}.

Lemma pages_of_signed base : pages_of (at_base signed_blob base) base.
Proof. by split. Qed.

(** The bytes of page [p] that are signed, and the hash in its slot. *)
Definition signed_bytes (p : Z) : Z := Z.min pagesize (cdv m cd "codeLimit" - p * pagesize).
Definition code_slot (p : Z) : bytes := span m (cd + cdv m cd "hashOffset" + p * cs_size h) (cs_size h).

(** Does the page's content have the hash of its slot? *)
Definition page_good (p : Z) (data : bytes) : bool :=
  bool_decide (code_slot p = take (Z.to_nat (cs_size h)) (cs_digest h (take (Z.to_nat (signed_bytes p)) data))).

Lemma cover_end_limit x : x * pagesize < cdv m cd "codeLimit" -> x * pagesize < cover_end.
Proof. intros Hx. pose proof pagesize_range. unfold cover_end. zdm. Qed.

Lemma find_page_hash_spec o base p blobs : pages_of o base -> cd_scatter m cd = 0 -> 0 <= p < cdv m cd "nCodeSlots" ->
  p * pagesize < cdv m cd "codeLimit" -> 0 <= base < 2 ^ 62 ->
  find_page_hash MACH_ASSERT m (o :: blobs) (base + p * pagesize) = Ret (Some (o, p * pagesize, h, code_slot p)).
Proof.
  intros [O1 O2 O3 O4 O5 O6 O7 O8 O9] Hsc Hp Hlim Hbase. pose proof cd_inside as (Hc1 & Hc2 & Hc3). pose proof hash_sizes as (Hz1 & Hz2).
  pose proof pagesize_range as Hps. pose proof pageshift_range as Hs. pose proof (cdv_u32 "codeLimit") as Hl.
  pose proof (cdv_u32 "nCodeSlots") as Hn. pose proof (cover_end_limit p Hlim) as Hce. cint_unfold.
  assert (0 <= p * pagesize) as Hoff by (apply Z.mul_nonneg_nonneg; lia).
  cbn [find_page_hash]. rewrite O1.
  assert (s64 (u64 (base + p * pagesize - base)) = p * pagesize) as ->.
  { rewrite u64_small by (cint_unfold; lia). rewrite s64_small; lia. }
  unfold covers. rewrite O2, O3, O4, O9. unfold cover_start. rewrite Hsc. cbn [Z.eqb].
  rewrite (proj2 (Z.leb_le 0 _)), (proj2 (Z.ltb_lt _ cover_end)), !(proj2 (Z.eqb_neq _ 0)) by lia. cbn [andb negb orb].
  unfold expected_hash. rewrite O4, O5, O6, O7, O8, O9.
  rewrite (proj2 (Z.ltb_ge _ _)) by lia. rewrite shift_page, Z.add_0_r.
  assert (Z.land (p * pagesize) (pagesize - 1) = 0) as ->.
  { unfold pagesize at 2. rewrite land_ones_mod by lia. fold pagesize. apply Z.mod_mul. lia. }
  cbn [Z.eqb negb]. rewrite Z.shiftr_div_pow2 by lia. fold pagesize. rewrite Z.div_mul by lia. rewrite u32_small by (cint_unfold; lia).
  destruct (hashes_exact p h Hsc Hh Hp) as (-> & Ha1 & Ha2). cbn [mbind outcome_bind].
  rewrite (load_bytes_span m addr size) by (done || lia). done.
Qed.

Lemma validate_hash_spec o base p blobs data : pages_of o base -> csb_hash_firstlevel_pageshift o = 0 -> cd_scatter m cd = 0 -> 0 <= p < cdv m cd "nCodeSlots" ->
  p * pagesize < cdv m cd "codeLimit" -> 0 <= base < 2 ^ 62 -> pagesize <= zlen data ->
  cs_validate_hash MACH_ASSERT m (o :: blobs) (base + p * pagesize) data =
    Ret (HashResult true pagesize
           (Z.lor (if signed_bytes p <? pagesize then CS_VALIDATE_NX else 0)
                  (if page_good p data then 0 else CS_VALIDATE_TAINTED))
           0 (if page_good p data then 0 else 1)).
Proof.
  intros Ho Hlevel Hsc Hp Hlim Hbase Hdata. pose proof cd_inside as (Hc1 & Hc2 & Hc3). pose proof hash_sizes as (Hz1 & Hz2).
  pose proof pagesize_range as Hps. pose proof pageshift_range as Hs. pose proof (cdv_u32 "codeLimit") as Hl. cint_unfold.
  unfold cs_validate_hash. rewrite (find_page_hash_spec o) by done. cbn [mbind outcome_bind].
  rewrite (pg_cd _ _ Ho), (pg_shift _ _ Ho), Hlevel, shift_page.
  rewrite ?sig_cd32 by done. cbn [mbind outcome_bind]. set (limit := cdv m cd "codeLimit") in *.
  assert ((if limit <? p * pagesize + pagesize then Z.land limit (pagesize - 1) else pagesize) = signed_bytes p) as ->.
  { unfold signed_bytes. fold limit. unfold pagesize at 3. rewrite land_ones_mod by lia. fold pagesize.
    destruct (Z.ltb_spec limit (p * pagesize + pagesize)); [| lia]. rewrite Z.min_r by lia. symmetry.
    apply (Z.mod_unique _ _ p); lia. }
  assert ((limit <? p * pagesize + pagesize) = (signed_bytes p <? pagesize)) as ->.
  { unfold signed_bytes. fold limit. destruct (Z.ltb_spec limit (p * pagesize + pagesize)), (Z.ltb_spec (Z.min pagesize (limit - p * pagesize)) pagesize); lia. }
  assert ((if signed_bytes p <? pagesize then kassert MACH_ASSERT (p * pagesize <? limit) else Ret tt) = Ret tt) as ->.
  { destruct (_ <? pagesize); [| done]. unfold kassert. rewrite (proj2 (Z.ltb_lt _ _)) by lia. by rewrite andb_false_r. }
  cbn [mbind outcome_bind]. assert (0 <= signed_bytes p <= pagesize) by (unfold signed_bytes; fold limit; lia).
  rewrite sub_bytes_in by lia. change (drop (Z.to_nat 0) data) with data. cbn [of_option mbind outcome_bind page_digest Z.eqb negb].
  rewrite digest_prefix by lia. cbn [of_option mbind outcome_bind].
  fold (page_good p data). by destruct (page_good p data), (signed_bytes p <? pagesize).
Qed.

(** ** Pages of the kernel *)

(** Page [P] of the code under a signature without scatter vector that has a slot for every
    page up to its limit. *)
Context (Hsc : cd_scatter m cd = 0) (Hslots : cdv m cd "codeLimit" <= cdv m cd "nCodeSlots" * pagesize).
Context (base P : Z) (data : bytes) (Hbase : 0 <= base < 2 ^ 61) (HP : 0 <= P < 2 ^ 32).
Context (HPS : PAGE_SHIFT <= 14) (Hdata : zlen data = PAGE_SIZE PAGE_SHIFT).
Context (o : cs_blob) (Hpages : pages_of o base) (Hlevel : csb_hash_firstlevel_pageshift o = 0).
Local Notation blobs := [o].
Local Notation page_offset := (base + P * PAGE_SIZE PAGE_SHIFT).

Lemma PAGE_SIZE_range : 4096 <= PAGE_SIZE PAGE_SHIFT <= 16384.
Proof. unfold PAGE_SIZE. change 4096 with (2 ^ 12). change 16384 with (2 ^ 14). split; apply Z.pow_le_mono_r; lia. Qed.

(** Piece [i] of 4K: the signed page it is in, and the verdict. *)
Definition piece_page (i : Z) : Z := (P * PAGE_SIZE PAGE_SHIFT + i * 4096) / pagesize.
Definition piece_covered (i : Z) : bool := piece_page i * pagesize <? cdv m cd "codeLimit".
Definition piece_good (i : Z) : bool :=
  page_good (piece_page i) (drop (Z.to_nat (piece_page i * pagesize - P * PAGE_SIZE PAGE_SHIFT)) data).
Definition piece_short (i : Z) : bool := signed_bytes (piece_page i) <? pagesize.

Lemma hash_covered off : 0 <= off < PAGE_SIZE PAGE_SHIFT -> off + pagesize <= PAGE_SIZE PAGE_SHIFT ->
  (P * PAGE_SIZE PAGE_SHIFT + off) mod pagesize = 0 ->
  let p := (P * PAGE_SIZE PAGE_SHIFT + off) / pagesize in p * pagesize < cdv m cd "codeLimit" ->
  let good := page_good p (drop (Z.to_nat off) data) in
  cs_validate_hash MACH_ASSERT m blobs (u64 (page_offset + off)) (drop (Z.to_nat off) data) =
    Ret (HashResult true pagesize
           (Z.lor (if signed_bytes p <? pagesize then CS_VALIDATE_NX else 0) (if good then 0 else CS_VALIDATE_TAINTED))
           0 (if good then 0 else 1)).
Proof.
  intros Ho Hfit Hmod p Hp good. pose proof pagesize_range as Hps. pose proof PAGE_SIZE_range as HS.
  assert (P * PAGE_SIZE PAGE_SHIFT <= 2 ^ 32 * 16384) by (apply Z.mul_le_mono_nonneg; lia).
  assert (0 <= P * PAGE_SIZE PAGE_SHIFT) by (apply Z.mul_nonneg_nonneg; lia).
  assert (P * PAGE_SIZE PAGE_SHIFT + off = p * pagesize) as E
    by (unfold p; rewrite (Z.div_mod (P * PAGE_SIZE PAGE_SHIFT + off) pagesize) at 1 by lia; lia).
  rewrite u64_small by (cint_unfold; lia). rewrite <- Z.add_assoc, E.
  apply validate_hash_spec; [done | done | done | | done | lia |].
  - split; [apply Z.div_pos; lia |]. apply (Z.mul_lt_mono_pos_r pagesize); lia.
  - rewrite zlen_drop by lia. lia.
Qed.

Lemma hash_uncovered off d : 0 <= off < PAGE_SIZE PAGE_SHIFT -> cover_end <= P * PAGE_SIZE PAGE_SHIFT + off ->
  cs_validate_hash MACH_ASSERT m blobs (u64 (page_offset + off)) d = Ret (HashResult false 0 0 1 0).
Proof.
  intros Ho Hend'. pose proof PAGE_SIZE_range as HS.
  assert (P * PAGE_SIZE PAGE_SHIFT <= 2 ^ 32 * 16384) by (apply Z.mul_le_mono_nonneg; lia).
  assert (0 <= P * PAGE_SIZE PAGE_SHIFT) by (apply Z.mul_nonneg_nonneg; lia).
  unfold cs_validate_hash. cbn [find_page_hash]. rewrite (pg_base _ _ Hpages), (u64_small (page_offset + off)) by (cint_unfold; lia).
  assert (s64 (u64 (page_offset + off - base)) = P * PAGE_SIZE PAGE_SHIFT + off) as ->.
  { rewrite u64_small by (cint_unfold; lia). rewrite s64_small; lia. }
  unfold covers. rewrite (pg_end _ _ Hpages), (proj2 (Z.ltb_ge _ cover_end)) by lia.
  by rewrite andb_false_r.
Qed.

Definition piece_result (i : Z) : hash_result :=
  if piece_covered i
  then HashResult true pagesize
         (Z.lor (if piece_short i then CS_VALIDATE_NX else 0) (if piece_good i then 0 else CS_VALIDATE_TAINTED))
         0 (if piece_good i then 0 else 1)
  else HashResult false 0 0 1 0.

(** The three bits of piece [i]. *)
Definition bits_at (b : page_bits) (i : Z) : bool * bool * bool :=
  (Z.testbit (pb_validated b) i, Z.testbit (pb_tainted b) i, Z.testbit (pb_nx b) i).
Definition piece_bits (i : Z) : bool * bool * bool :=
  (piece_covered i, piece_covered i && negb (piece_good i), piece_covered i && piece_short i).

Lemma add_bits_piece bit b i j :
  bits_at (add_bits bit (piece_result j) b) i =
    (Z.testbit (pb_validated b) i || (Z.testbit bit i && (piece_bits j).1.1),
     Z.testbit (pb_tainted b) i || (Z.testbit bit i && (piece_bits j).1.2),
     Z.testbit (pb_nx b) i || (Z.testbit bit i && (piece_bits j).2)).
Proof.
  unfold piece_result, piece_bits, bits_at, add_bits.
  destruct (piece_covered j), (piece_short j), (piece_good j); cbn [hr_tainted hr_validated pb_validated pb_tainted pb_nx fst snd andb negb];
    repeat match goal with |- context [Z.eqb ?x 0] => let v := eval vm_compute in (Z.eqb x 0) in change (Z.eqb x 0) with v end;
    cbn [negb]; rewrite ?Z.lor_spec, ?andb_true_r, ?andb_false_r, ?orb_false_r; reflexivity.
Qed.

Local Notation step := (validate_page_step PAGE_SHIFT MACH_ASSERT m blobs page_offset data).

Lemma pieces_loop n : (forall i b, 0 <= i < n ->
    step (i * 4096, b) = Ret (Next (i * 4096 + 4096, add_bits (Z.shiftl 1 i) (piece_result i) b))) ->
  PAGE_SIZE PAGE_SHIFT = n * 4096 -> forall fuel k b, 0 <= k <= n -> n - k < Z.of_nat fuel ->
  exists r, loop_ret fuel step (k * 4096, b) = Ret r /\ forall i, 0 <= i < n ->
    bits_at r i = (Z.testbit (pb_validated b) i || ((k <=? i) && (piece_bits i).1.1),
                   Z.testbit (pb_tainted b) i || ((k <=? i) && (piece_bits i).1.2),
                   Z.testbit (pb_nx b) i || ((k <=? i) && (piece_bits i).2)).
Proof.
  intros Hstep HS fuel. induction fuel as [|fuel IH]; intros k b Hk Hf; [lia |].
  cbn [loop_ret]. destruct (decide (k = n)) as [-> | Hne].
  - exists b. split; [unfold validate_page_step at 2; by rewrite HS, (proj2 (Z.ltb_ge _ _)) by lia |].
    intros i Hi. rewrite (proj2 (Z.leb_gt n i)) by lia. cbn [andb]. by rewrite !orb_false_r.
  - rewrite Hstep by lia. cbn [mbind outcome_bind].
    destruct (IH (k + 1) (add_bits (Z.shiftl 1 k) (piece_result k) b)) as (r & Hr & Hbits); [lia | lia |].
    exists r. split; [replace (k * 4096 + 4096) with ((k + 1) * 4096) by lia; exact Hr |].
    intros i Hi. rewrite Hbits by done. pose proof (add_bits_piece (Z.shiftl 1 k) b i k) as Hadd. unfold bits_at in Hadd.
    pose proof (f_equal (fun x => x.1.1) Hadd) as E1. pose proof (f_equal (fun x => x.1.2) Hadd) as E2.
    pose proof (f_equal snd Hadd) as E3. cbn [fst snd] in E1, E2, E3. rewrite E1, E2, E3, Z.shiftl_1_l, Z.pow2_bits_eqb by lia.
    destruct (Z.eqb_spec k i) as [-> | Hki].
    + rewrite (proj2 (Z.leb_gt (i + 1) i)), (proj2 (Z.leb_le i i)) by lia. cbn [andb]. by rewrite !orb_false_r.
    + cbn [andb]. rewrite !orb_false_r. by replace (k + 1 <=? i) with (k <=? i) by (destruct (Z.leb_spec k i), (Z.leb_spec (k + 1) i); lia).
Qed.

Lemma piece_uncovered i : piece_covered i = false -> 0 <= i -> cover_end <= P * PAGE_SIZE PAGE_SHIFT + i * 4096.
Proof.
  unfold piece_covered, piece_page, cover_end. intros H%Z.ltb_ge Hi. pose proof pagesize_range as Hps.
  set (x := P * PAGE_SIZE PAGE_SHIFT + i * 4096) in *. set (limit := cdv m cd "codeLimit") in *.
  transitivity (x / pagesize * pagesize); [| pose proof (Z.mul_div_le x pagesize); lia].
  apply Z.mul_le_mono_nonneg_r; [lia |].
  apply Z.lt_succ_r, Z.div_lt_upper_bound; lia.
Qed.

Lemma step_uncovered i b : 0 <= i -> i * 4096 < PAGE_SIZE PAGE_SHIFT -> piece_covered i = false ->
  step (i * 4096, b) = Ret (Next (i * 4096 + 4096, add_bits (Z.shiftl 1 i) (piece_result i) b)).
Proof.
  intros Hi Hlt Hu. unfold validate_page_step. rewrite (proj2 (Z.ltb_lt _ _)) by lia.
  rewrite hash_uncovered by (try apply piece_uncovered; (done || lia)). cbn [mbind outcome_bind hr_processed Z.eqb].
  unfold piece_result. rewrite Hu. unfold add_bits, FOURK_PAGE_SIZE. cbn. by destruct b.
Qed.

(** Signed pages of 4K in a larger page. *)
Lemma step_small i b : pagesize = 4096 -> 8192 <= PAGE_SIZE PAGE_SHIFT -> 0 <= i -> i * 4096 < PAGE_SIZE PAGE_SHIFT ->
  PAGE_SIZE PAGE_SHIFT mod 4096 = 0 ->
  step (i * 4096, b) = Ret (Next (i * 4096 + 4096, add_bits (Z.shiftl 1 i) (piece_result i) b)).
Proof.
  intros Hps H2 Hi Hlt Hdiv. destruct (piece_covered i) eqn:Hc; [| by apply step_uncovered].
  unfold validate_page_step. rewrite (proj2 (Z.ltb_lt _ _)) by lia.
  assert (P * PAGE_SIZE PAGE_SHIFT mod 4096 = 0) as HPm by (by rewrite <- Zmult_mod_idemp_r, Hdiv, Z.mul_0_r).
  assert (i * 4096 + 4096 <= PAGE_SIZE PAGE_SHIFT) as Hfit by zdm.
  assert ((P * PAGE_SIZE PAGE_SHIFT + i * 4096) mod pagesize = 0) as Hm by (rewrite Hps, Z.mod_add; lia).
  assert (piece_page i * pagesize = P * PAGE_SIZE PAGE_SHIFT + i * 4096) as Epage
    by (unfold piece_page; rewrite (Z.div_mod (P * PAGE_SIZE PAGE_SHIFT + i * 4096) pagesize) at 2 by lia; lia).
  unfold piece_covered in Hc. apply Z.ltb_lt in Hc.
  rewrite (hash_covered (i * 4096)) by (done || lia). fold (piece_page i). fold (piece_short i). cbn [mbind outcome_bind hr_processed].
  rewrite (proj2 (Z.eqb_neq pagesize 0)), (proj2 (Z.ltb_ge _ pagesize)) by (unfold FOURK_PAGE_SIZE; lia).
  rewrite andb_false_r. unfold kassert. rewrite (proj2 (Z.leb_le _ _)) by (unfold FOURK_PAGE_SIZE; lia). cbn [negb].
  rewrite andb_false_r. cbn [mbind outcome_bind]. unfold FOURK_PAGE_SHIFT, FOURK_PAGE_SIZE.
  rewrite Z.shiftr_div_pow2 by lia. change (2 ^ 12) with 4096. rewrite Z.div_mul by lia. do 3 f_equal.
  unfold piece_result. unfold piece_covered. rewrite (proj2 (Z.ltb_lt _ _)) by done. unfold piece_good. rewrite Epage.
  by replace (P * PAGE_SIZE PAGE_SHIFT + i * 4096 - P * PAGE_SIZE PAGE_SHIFT) with (i * 4096) by lia.
Qed.

Lemma pieces_of_page n : PAGE_SIZE PAGE_SHIFT = n * 4096 -> 0 <= n ->
  (forall i b, 0 <= i < n -> step (i * 4096, b) = Ret (Next (i * 4096 + 4096, add_bits (Z.shiftl 1 i) (piece_result i) b))) ->
  exists r, cs_validate_page PAGE_SHIFT MACH_ASSERT m blobs page_offset data = Ret r /\
    forall i, 0 <= i < n -> bits_at r i = piece_bits i.
Proof.
  intros HS Hn Hstep. unfold cs_validate_page, FOURK_PAGE_SIZE.
  destruct (pieces_loop n Hstep HS (Z.to_nat (PAGE_SIZE PAGE_SHIFT / 4096 + 2)) 0
    (PageBits VMP_CS_ALL_FALSE VMP_CS_ALL_FALSE VMP_CS_ALL_FALSE)) as (r & Hr & Hbits); [lia | |].
  { rewrite HS, Z.div_mul by lia. lia. }
  exists r. split; [exact Hr |]. intros i Hi. rewrite Hbits by done. cbn [pb_validated pb_tainted pb_nx].
  unfold VMP_CS_ALL_FALSE. rewrite Z.bits_0, (proj2 (Z.leb_le 0 i)) by lia. by unfold piece_bits.
Qed.

(** One signed page is the whole page. *)
Lemma page_whole : pagesize = PAGE_SIZE PAGE_SHIFT -> piece_covered 0 = true ->
  exists r, cs_validate_page PAGE_SHIFT MACH_ASSERT m blobs page_offset data = Ret r /\
    forall i, 0 <= i < 4 -> bits_at r i = piece_bits 0.
Proof.
  intros Hps Hc. pose proof PAGE_SIZE_range as HS.
  assert (piece_page 0 = P) as Epage by (unfold piece_page; rewrite Z.mul_0_l, Z.add_0_r, Hps; apply Z.div_mul; lia).
  assert (P * pagesize < cdv m cd "codeLimit") as Hlim by (unfold piece_covered in Hc; rewrite Epage in Hc; by apply Z.ltb_lt).
  unfold cs_validate_page, FOURK_PAGE_SIZE.
  destruct (Z.to_nat (PAGE_SIZE PAGE_SHIFT / 4096 + 2)) as [|fuel] eqn:Ef;
    [pose proof (Z.div_pos (PAGE_SIZE PAGE_SHIFT) 4096); lia |].
  cbn [loop_ret]. unfold validate_page_step at 2. rewrite (proj2 (Z.ltb_lt 0 _)) by lia.
  assert ((P * PAGE_SIZE PAGE_SHIFT + 0) / pagesize = P) as Ediv by (rewrite Z.add_0_r, Hps; apply Z.div_mul; lia).
  rewrite (hash_covered 0); [| lia | lia | rewrite Z.add_0_r, Hps; apply Z.mod_mul; lia | by rewrite Ediv].
  rewrite Ediv. cbn [mbind outcome_bind hr_processed].
  rewrite (proj2 (Z.eqb_neq pagesize 0)), (proj2 (Z.ltb_lt _ pagesize)) by (unfold FOURK_PAGE_SIZE; lia). cbn [Z.eqb andb].
  eexists. split; [reflexivity |]. intros i Hi.
  replace (HashResult true pagesize _ 0 _) with (piece_result 0)
    by (unfold piece_result, piece_short, piece_good; rewrite Hc, Epage, <- Hps, Z.sub_diag; reflexivity).
  rewrite add_bits_piece. assert (Z.testbit VMP_CS_ALL_TRUE i = true) as ->.
  { assert (i = 0 \/ i = 1 \/ i = 2 \/ i = 3) as [-> | [-> | [-> | ->]]] by lia; reflexivity. }
  cbn [pb_validated pb_tainted pb_nx]. unfold VMP_CS_ALL_FALSE. by rewrite Z.bits_0.
Qed.

Lemma validate_page_spec : exists r, cs_validate_page PAGE_SHIFT MACH_ASSERT m blobs page_offset data = Ret r /\
  forall i, 0 <= i < PAGE_SIZE PAGE_SHIFT / 4096 -> bits_at r i = piece_bits i.
Proof.
  pose proof PAGE_SIZE_range as HS. pose proof pageshift_range as Hs.
  assert (PAGE_SIZE PAGE_SHIFT = 2 ^ (PAGE_SHIFT - 12) * 4096) as En.
  { unfold PAGE_SIZE. change 4096 with (2 ^ 12). rewrite <- Z.pow_add_r by lia. f_equal. lia. }
  set (n := 2 ^ (PAGE_SHIFT - 12)) in *. assert (PAGE_SIZE PAGE_SHIFT / 4096 = n) as -> by (rewrite En; apply Z.div_mul; lia).
  assert (pagesize = PAGE_SIZE PAGE_SHIFT \/ (pagesize = 4096 /\ 8192 <= PAGE_SIZE PAGE_SHIFT)) as Hcase.
  { unfold pagesize, pageshift. destruct (cdo_page _ _ _ _ _ _ _ cd_wf) as [-> | ->]; [| by left].
    destruct (decide (PAGE_SHIFT = 12)) as [-> | Hne]; [by left | right]. split; [done |].
    unfold PAGE_SIZE. change 8192 with (2 ^ 13). apply Z.pow_le_mono_r; lia. }
  destruct Hcase as [Hps | [Hps H2]].
  - assert (forall i, 0 <= i < n -> piece_page i = piece_page 0) as Hsame.
    { intros i Hi. unfold piece_page. rewrite Hps, !(Z.add_comm (P * _)), !Z.div_add by lia. rewrite !Z.div_small by lia. done. }
    assert (forall i, 0 <= i < n -> piece_covered i = piece_covered 0) as Hcov
      by (intros i Hi; unfold piece_covered; by rewrite Hsame).
    destruct (piece_covered 0) eqn:Hc.
    + destruct (page_whole Hps Hc) as (r & Hr & Hbits). exists r. split; [done |]. intros i Hi. rewrite Hbits by lia.
      unfold piece_bits, piece_good, piece_short. by rewrite (Hsame i), (Hcov i), Hc by done.
    + apply pieces_of_page; [done | lia |]. intros i b Hi. apply step_uncovered; [lia | lia |]. by apply Hcov.
  - apply pieces_of_page; [done | lia |]. intros i b Hi. apply step_small; [done | done | lia | lia |].
    rewrite En. apply Z.mod_mul. lia.
Qed.
End signed.
