(* ===== verification/CodeSignAuth.v ===== *)
(** * Code signatures: authenticity

    What a validated signature vouches for: the blobs found in it, the entitlements and the
    pages of the code. *)

From stdpp Require Import base list strings gmap.
From Stdlib Require Import ZArith Lia.
From S2P Require Import Prelude XzsfsCore Memory CodeSign CodeSignProofs CodeSignPage.

(** A signature in memory that the kernel has accepted, with its best code directory, the
    hash type of that directory and the entitlement blobs. *)
Record valid_signature (PAGE_SHIFT : Z) (sha1 sha256 sha384 : bytes -> bytes) (m : mem) (addr size cd ent der : Z)
    (h : cs_hash) : Prop := {
  vs_digests : Digests sha1 sha256 sha384;
  vs_shift : 12 <= PAGE_SHIFT <= 14;
  vs_bytes : byte_mem m;
  vs_mapped : mapped m addr size;
  vs_size : 0 <= size < 2 ^ 31;
  vs_addr : 0 < addr;
  vs_end : addr + size < 2 ^ 64;
  vs_valid : cs_validate_csblob PAGE_SHIFT sha1 sha256 sha384 m addr size = Ret (0, (cd, ent, der));
  vs_hash : cs_find_md sha1 sha256 sha384 (cdb m cd "hashType") = Some h;
}.

Section valid.
Context {PAGE_SHIFT : Z} {sha1 sha256 sha384 : bytes -> bytes} {m : mem} {addr size cd ent der : Z} {h : cs_hash}.
Context (V : valid_signature PAGE_SHIFT sha1 sha256 sha384 m addr size cd ent der h).

Lemma valid_wf : signature PAGE_SHIFT sha1 sha256 sha384 m addr size cd ent der.
Proof.
  destruct V as [_ _ Hb Hm Hs Ha He Hv _].
  destruct (validate_csblob_spec PAGE_SHIFT sha1 sha256 sha384 m Hb addr size Hm ltac:(lia) Ha He)
    as (e & cd' & ent' & der' & E & [[_ Hsig] | [-> _]]); rewrite Hv in E; by simplify_eq.
Qed.

(** ** Finding a blob *)

(** The blobs of a signature with the slots they are indexed under. *)
Definition indexed : list (Z * Z) :=
  if bmagic m addr =? CSMAGIC_EMBEDDED_SIGNATURE then entries m addr (Z.to_nat (be m (addr + 8)))
  else [(CSSLOT_CODEDIRECTORY, addr)].

Definition wanted (type magic : Z) (e : Z * Z) : bool := (e.1 =? type) && (bmagic m e.2 =? magic).

Lemma indexed_in e : e ∈ indexed -> blob_in m addr size e.2.
Proof.
  unfold indexed. destruct valid_wf as [cd0 es H8 Hl -> Hc Hall _ _ | H8 Hl -> Hok].
  - rewrite Z.eqb_refl. destruct e as [t b]. intros (i & Hi & E)%entries_in.
    destruct (Hall i) as [H1 H2 _ _]; [lia |]. rewrite E in H1, H2. cbn [fst snd] in *. split; [| lia].
    injection E as _ <-. pose proof (be_u32 m (blob_index addr (Z.of_nat i) + 4) (vs_bytes _ _ _ _ _ _ _ _ _ _ _ V)). cint_unfold. lia.
  - cbn [Z.eqb]. intros ->%list_elem_of_singleton. split; cbn [snd]; lia.
Qed.

Lemma blob32_in b f : blob_in m addr size b -> f = "magic"%string \/ f = "length"%string ->
  blob32 m b f = Ret (be m (b + field_offset CS_GenericBlob f 0)).
Proof.
  intros (H1 & H2 & _) Hf. destruct V as [_ _ Hb Hm _ _ _ _ _]. apply (be_field_ok m Hb CS_GenericBlob 8 addr size); [done | | lia | lia].
  by destruct Hf as [-> | ->].
Qed.

(** Found or not, the search goes on from entry [n]. *)
Lemma find_loop type magic k : forall n, (n + k <= Z.to_nat (be m (addr + 8)))%nat -> bmagic m addr = CSMAGIC_EMBEDDED_SIGNATURE ->
  for_ret k (Z.of_nat n) (find_blob_step m addr size type magic) tt =
    Ret (match List.find (wanted type magic) ((fun i => entry m addr (Z.of_nat i)) <$> seq n k) with
         | Some e => Exit (Some e.2) | None => Next tt end).
Proof.
  induction k as [|k IH]; intros n Hn Em; [done |].
  pose proof indexed_in as Hin. pose proof blob32_in as Hread.
  destruct valid_wf as [cd0 es H8 Hl _ Hc Hall _ _ | ? ? E ?]; [| by rewrite E in Em].
  pose proof V as [_ _ Hb Hm Hs Ha He _ _].
  assert (blob_in m addr size (entry m addr (Z.of_nat n)).2) as Hblob.
  { apply Hin. unfold indexed. rewrite Em, Z.eqb_refl. apply list_elem_of_fmap. exists n. split; [done |]. apply elem_of_seq. lia. }
  cbn [for_ret]. unfold find_blob_step at 2.
  assert (blob_index addr (Z.of_nat n) = addr + 12 + 8 * Z.of_nat n) as Ei by (unfold blob_index; rewrite sizeof_super, sizeof_index; lia).
  rewrite !(be_field_ok m Hb CS_BlobIndex 8 addr size) by (done || lia). cbn [mbind outcome_bind].
  change (field_offset CS_BlobIndex "type" 0) with 0. change (field_offset CS_BlobIndex "offset" 0) with 4. rewrite Z.add_0_r.
  cbn [seq fmap list_fmap List.find]. unfold wanted at 1. unfold entry at 1 2 3. cbn [fst snd].
  change (be m (blob_index addr (Z.of_nat n))) with (entry m addr (Z.of_nat n)).1.
  destruct ((entry m addr (Z.of_nat n)).1 =? type); cbn [negb andb].
  2:{ replace (Z.of_nat n + 1) with (Z.of_nat (S n)) by lia. by apply IH; [lia |]. }
  set (b := (entry m addr (Z.of_nat n)).2) in *. pose proof Hblob as (Hb1 & Hb2 & Hb3).
  pose proof (be_u32 m (b + 4) Hb) as Hbl. fold (blen m b) in Hbl. cint_unfold.
  change (addr + be m (blob_index addr (Z.of_nat n) + 4)) with b.
  replace (be m (blob_index addr (Z.of_nat n) + 4)) with (b - addr) by (unfold b, entry; cbn [snd]; lia).
  rewrite sizeof_generic, (u64_small (size - 8)) by (cint_unfold; lia). rewrite (proj2 (Z.ltb_ge _ _)) by lia.
  rewrite !(Hread b) by tauto. cbn [mbind outcome_bind].
  change (field_offset CS_GenericBlob "magic" 0) with 0. change (field_offset CS_GenericBlob "length" 0) with 4.
  rewrite Z.add_0_r. fold (bmagic m b). fold (blen m b). destruct (bmagic m b =? magic); cbn [negb].
  2:{ replace (Z.of_nat n + 1) with (Z.of_nat (S n)) by lia. by apply IH; [lia |]. }
  cbn [mbind outcome_bind]. rewrite (u64_small (b + blen m b)), (u64_small (addr + size)) by (cint_unfold; lia).
  rewrite !(proj2 (Z.ltb_ge _ _)) by lia. done.
Qed.

Lemma find_blob_spec type magic : csblob_find_blob_bytes m addr size type magic =
  Ret (snd <$> List.find (wanted type magic) indexed).
Proof.
  pose proof find_loop as Hloop. pose proof indexed_in as Hin. pose proof V as [_ _ Hb Hm Hs Ha He _ _].
  assert (blob_in m addr size addr) as Hself.
  { destruct valid_wf; (split; [lia |]); split; [lia | lia | lia | lia]. }
  unfold csblob_find_blob_bytes. rewrite (u64_small (addr + size)), (proj2 (Z.ltb_ge _ _)) by (cint_unfold; lia).
  rewrite !(blob32_in addr) by tauto. cbn [mbind outcome_bind]. change (field_offset CS_GenericBlob "magic" 0) with 0.
  change (field_offset CS_GenericBlob "length" 0) with 4. rewrite Z.add_0_r. fold (bmagic m addr). fold (blen m addr).
  unfold indexed. destruct (Z.eqb_spec (bmagic m addr) CSMAGIC_EMBEDDED_SIGNATURE) as [Em | Em].
  - assert (12 <= size) by (destruct valid_wf as [? ? ? ? ? Hc ? ? ? | ? ? E ?]; [| by rewrite E in Em];
      pose proof (be_u32 m (addr + 8) Hb); cint_unfold; lia).
    rewrite (be_field_ok m Hb CS_SuperBlob 12 addr size) by (done || lia). cbn [mbind outcome_bind].
    change (field_offset CS_SuperBlob "count" 0) with 8. change 0 with (Z.of_nat 0) at 1. rewrite Hloop by (done || lia).
    cbn [mbind outcome_bind]. unfold entries. by destruct (List.find _ _).
  - destruct valid_wf as [| H8 Hl Em' Hok]; [done |]. cbn [List.find]. unfold wanted. cbn [fst snd]. rewrite Em', Z.eqb_refl, andb_true_r.
    rewrite (Z.eqb_sym CSSLOT_CODEDIRECTORY type), (Z.eqb_sym CSMAGIC_CODEDIRECTORY magic).
    destruct (_ && _); [| done]. cbn [mbind outcome_bind]. destruct Hself as (_ & _ & Hself).
    assert (0 <= blen m addr) by (by apply be_u32). rewrite (u64_small (addr + blen m addr)) by (cint_unfold; lia).
    by rewrite !(proj2 (Z.ltb_ge _ _)) by lia.
Qed.
End valid.
Arguments indexed : clear implicits.
Arguments wanted : clear implicits.

(** ** The object of the signature *)

(** The facts of the signature, for the lemmas that ask for them one by one. *)
Ltac by_valid := match goal with
  | V : valid_signature _ _ _ _ _ _ _ _ _ _ _ |- _ =>
      pose proof (valid_wf V); pose proof V as [? ? ? ? ? ? ? ? ?]; (eassumption || lia)
  end.

Section object.
Context {PAGE_SHIFT : Z} {sha1 sha256 sha384 : bytes -> bytes} {m : mem} {addr size cd ent der : Z} {h : cs_hash}.
Context (V : valid_signature PAGE_SHIFT sha1 sha256 sha384 m addr size cd ent der h).

Lemma init_valid : cs_blob_init_validated PAGE_SHIFT sha1 sha256 sha384 m addr size =
  Ret (0, Some (signed_blob m addr size cd ent der h), cd, false).
Proof. eapply init_validated_spec; by_valid. Qed.

(** A verdict on the blob of a slot: it is handed out exactly when it is authentic. *)
Definition vouched (slot blob : Z) (o : outcome (Z * Z * Z)) : Prop :=
  exists e b len, o = Ret (e, b, len) /\
    ((e = 0 /\ b = blob /\ len = (if blob =? 0 then 0 else blen m blob) /\ authentic m cd h slot blob) \/
     (e = EBADEXEC /\ b = 0 /\ len = 0 /\ ~ authentic m cd h slot blob)).

Lemma signed_describes : describes addr size cd ent der h (signed_blob m addr size cd ent der h).
Proof. apply describes_signed. Qed.
Lemma based_describes base : describes addr size cd ent der h (at_base (signed_blob m addr size cd ent der h) base).
Proof. by destruct signed_describes. Qed.

Lemma slot_blob_vouched b slot magic : csb_mem_kaddr b = addr -> csb_mem_size b = size -> csb_cd b = cd ->
  csb_hashtype b = Some h -> 0 <= slot ->
  vouched slot (default 0 (snd <$> List.find (wanted m slot magic) (indexed m addr)))
    (csblob_find_special_slot_blob m b slot magic).
Proof.
  intros Ha Hs Hc Ht Hslot. pose proof (indexed_in V) as Hin. unfold csblob_find_special_slot_blob.
  erewrite with_hashtype_signed by (by_valid || done). rewrite Ha, Hs, (find_blob_spec V). cbn [mbind outcome_bind].
  eapply check_special_spec; try by_valid.
  destruct (List.find _ _) as [e |] eqn:E; [right | by left]. apply find_some in E as [E _]. apply Hin. by apply list_elem_of_In.
Qed.

Lemma entitlements_vouched b : describes addr size cd ent der h b -> vouched CSSLOT_ENTITLEMENTS ent (csblob_get_entitlements m b).
Proof. intros. eapply entitlements_spec; by_valid. Qed.
End object.
Arguments vouched : clear implicits.

(** C24. Once the kernel has accepted a signature, its object is made without a fault, and the
    entitlements in either form, or the blob of any special slot, are handed out with error 0
    exactly when their digest is the one the best code directory has in that slot (no blob: a
    zero hash or no slot); otherwise the call fails with EBADEXEC and hands out nothing. *)
Theorem special_slots_authentic (PAGE_SHIFT : Z) (sha1 sha256 sha384 : bytes -> bytes) (m : mem) (addr size cd ent der : Z)
    (h : cs_hash) (V : valid_signature PAGE_SHIFT sha1 sha256 sha384 m addr size cd ent der h) :
  exists b, cs_blob_init_validated PAGE_SHIFT sha1 sha256 sha384 m addr size = Ret (0, Some b, cd, false) /\
    vouched m cd h CSSLOT_ENTITLEMENTS ent (csblob_get_entitlements m b) /\
    vouched m cd h CSSLOT_DER_ENTITLEMENTS der (csblob_get_der_entitlements m b) /\
    forall slot magic, 0 <= slot ->
      vouched m cd h slot (default 0 (snd <$> List.find (wanted m slot magic) (indexed m addr)))
        (csblob_find_special_slot_blob m b slot magic).
Proof.
  eexists. split; [exact (init_valid V) |]. split; [| split].
  - apply (entitlements_vouched V), signed_describes.
  - eapply der_entitlements_spec; [by_valid .. | apply signed_describes].
  - intros slot magic Hslot. by apply (slot_blob_vouched V).
Qed.


(** ** A signed program *)

Lemma toy_digests : Digests (toy_hash 20) (toy_hash 32) (toy_hash 48).
Proof.
  split; intros b; unfold toy_hash; rewrite ?zlen_replicate; [done | done | done |].
  split_and!; apply Forall_replicate, u8_range.
Qed.

Definition sample_hash : cs_hash := cs_hash_sha1 (toy_hash 20).
Lemma sample_valid : valid_signature 14 (toy_hash 20) (toy_hash 32) (toy_hash 48) sample_sig_mem 4096 277 4124 4360 0 sample_hash.
Proof.
  split; [exact toy_digests | lia | exact sample_sig_bytes | exact sample_sig_mapped | lia | lia | lia | |];
    by vm_compute.
Qed.

Lemma special_slots_authentic_witness : exists b,
  cs_blob_init_validated 14 (toy_hash 20) (toy_hash 32) (toy_hash 48) sample_sig_mem 4096 277 = Ret (0, Some b, 4124, false) /\
  csblob_get_entitlements sample_sig_mem b = Ret (0, 4360, 13).
Proof.
  destruct (special_slots_authentic 14 (toy_hash 20) (toy_hash 32) (toy_hash 48) sample_sig_mem 4096 277 4124 4360 0 sample_hash
    sample_valid) as (b & Hb & (e & b' & len & He & Hcase) & _).
  exists b. split; [exact Hb |]. rewrite He. destruct Hcase as [(-> & -> & -> & _) | (_ & _ & _ & Hn)]; [reflexivity |].
  exfalso. apply Hn. vm_compute. reflexivity.
Defined.

(** The signed page is validated and untainted, the rest of the page of 16K not validated. *)
Definition sample_page_data : bytes := sample_page ++ replicate (Z.to_nat 12288) 1.

(** The bound on the page lets the number of slots itself through: without assertions, page 1 of
    a directory with one slot is given the 32 bytes behind the directory, which no hash covers. *)
Lemma slot_past_end :
  cdv (mem_of 4096 repeated_sig) 4132 "nCodeSlots" = 1 /\ blen (mem_of 4096 repeated_sig) 4132 = 148 /\
  hashes false (mem_of 4096 repeated_sig) 4132 1 32 4096 (4096 + 456) = Ret (Some (4132 + 148)) /\
  hashes true (mem_of 4096 repeated_sig) 4132 1 32 4096 (4096 + 456) = Panic.
Proof. vm_compute. by split_and!. Qed.
