(* ===== verification/CodeSignFrame.v ===== *)
(** * Code signatures: more memory changes nothing

    What the validator and the page check return without a fault does not depend on the memory
    they do not touch: it is the same in any memory that extends the one they ran in.  So
    signatures of other files, added or freed, do not change a verdict. *)

From stdpp Require Import base list strings gmap.
From Stdlib Require Import ZArith Lia.
From S2P Require Import Prelude XzsfsCore Memory CodeSign.

(** [m'] has everything [m] has. *)
Definition mem_le (m m' : mem) : Prop := forall x b, m x = Some b -> m' x = Some b.

(** The two agree unless the first faults. *)
Definition refines {A} (o o' : outcome A) : Prop := o <> Fault -> o' = o.

Lemma refines_ret {A} (o o' : outcome A) a : refines o o' -> o = Ret a -> o' = Ret a.
Proof. intros H ->. by apply H. Qed.
Lemma refines_refl {A} (o : outcome A) : refines o o.
Proof. by intros _. Qed.
Lemma refines_bind {A B} (o o' : outcome A) (f f' : A -> outcome B) :
  refines o o' -> (forall a, refines (f a) (f' a)) -> refines (o ≫= f) (o' ≫= f').
Proof. intros Ho Hf Hn. destruct o as [a | | |]; cbn in *; try done; rewrite Ho by done; cbn; [by apply Hf | done | done]. Qed.
Lemma refines_for {S R} n : forall k (body body' : Z -> S -> outcome (ctl S R)) s, (forall k s, refines (body k s) (body' k s)) ->
  refines (for_ret n k body s) (for_ret n k body' s).
Proof.
  induction n as [|n IH]; intros k body body' s Hb; cbn [for_ret]; [apply refines_refl |].
  apply refines_bind; [apply Hb |]. intros [s' | r]; [by apply IH | apply refines_refl].
Qed.
Lemma refines_loop {S R} n : forall (body body' : S -> outcome (ctl S R)) s, (forall s, refines (body s) (body' s)) ->
  refines (loop_ret n body s) (loop_ret n body' s).
Proof.
  induction n as [|n IH]; intros body body' s Hb; cbn [loop_ret]; [apply refines_refl |].
  apply refines_bind; [apply Hb |]. intros [s' | r]; [by apply IH | apply refines_refl].
Qed.

Create HintDb frame discriminated.
#[export] Hint Resolve refines_refl : frame.

(** [frame] goes through a computation. *)
Ltac frame := repeat first
  [ solve [eauto 2 with frame]
  | apply refines_bind; [| intros ?]
  | apply refines_for; intros ? ?
  | apply refines_loop; intros ?
  | match goal with |- refines (if ?b then _ else _) _ => destruct b end
  | match goal with |- refines (match ?x with _ => _ end) _ => destruct x end ].

Section frame.
Context (m m' : mem) (Hm : mem_le m m').

Lemma frame_load8 a : refines (load8 m a) (load8 m' a).
Proof. unfold load8. destruct (m a) as [c |] eqn:E; intros Hn; [| by destruct Hn]. by rewrite (Hm _ _ E). Qed.
#[local] Hint Resolve frame_load8 : frame.
Lemma frame_be32 a : refines (load_be32 m a) (load_be32 m' a).
Proof. unfold load_be32. frame. Qed.
#[local] Hint Resolve frame_be32 : frame.
Lemma frame_bytes n : forall a, refines (load_bytes m a n) (load_bytes m' a n).
Proof. induction n as [|n IH]; intros a; cbn [load_bytes]; frame. Qed.
Lemma frame_cstr fuel : forall a, refines (load_cstr fuel m a) (load_cstr fuel m' a).
Proof. induction fuel as [|fuel IH]; intros a; cbn [load_cstr]; frame. Qed.
#[local] Hint Resolve frame_bytes frame_cstr : frame.

Lemma frame_field st p f : refines (be_field st m p f) (be_field st m' p f).
Proof. unfold be_field. frame. Qed.
#[local] Hint Resolve frame_field : frame.
Lemma frame_cd32 cd f : refines (cd32 m cd f) (cd32 m' cd f).
Proof. apply frame_field. Qed.
Lemma frame_blob32 b f : refines (blob32 m b f) (blob32 m' b f).
Proof. apply frame_field. Qed.
Lemma frame_cd8 cd f : refines (cd8 m cd f) (cd8 m' cd f).
Proof. apply frame_load8. Qed.
#[local] Hint Resolve frame_cd32 frame_blob32 frame_cd8 : frame.

Lemma frame_memchr n : forall p, refines (memchr0 m p n) (memchr0 m' p n).
Proof. induction n as [|n IH]; intros p; cbn [memchr0]; frame. Qed.
Lemma frame_mem_is a b n : refines (mem_is m a b n) (mem_is m' a b n).
Proof. unfold mem_is. frame. Qed.
Lemma frame_rank cd : refines (hash_rank m cd) (hash_rank m' cd).
Proof. unfold hash_rank. frame. Qed.
Lemma frame_scatter cd : refines (scatter_offset m cd) (scatter_offset m' cd).
Proof. unfold scatter_offset. frame. Qed.
#[local] Hint Resolve frame_memchr frame_mem_is frame_rank frame_scatter : frame.

Context (PAGE_SHIFT : Z) (MACH_ASSERT : bool) (sha1 sha256 sha384 : bytes -> bytes).

(** ** The validator *)

Lemma frame_validate_scatter cd length : refines (validate_scatter m cd length) (validate_scatter m' cd length).
Proof. unfold validate_scatter, scatter_check. frame. Qed.
Lemma frame_validate_string cd length off : refines (validate_string m cd length off) (validate_string m' cd length off).
Proof. unfold validate_string. frame. Qed.
#[local] Hint Resolve frame_validate_scatter frame_validate_string : frame.
Lemma frame_codedirectory cd length : refines (cs_validate_codedirectory PAGE_SHIFT sha1 sha256 sha384 m cd length)
  (cs_validate_codedirectory PAGE_SHIFT sha1 sha256 sha384 m' cd length).
Proof. unfold cs_validate_codedirectory, validate_team, validate_linkage. frame. Qed.
Lemma frame_blob b k : refines (cs_validate_blob m b k) (cs_validate_blob m' b k).
Proof. unfold cs_validate_blob. frame. Qed.
#[local] Hint Resolve frame_codedirectory frame_blob : frame.

Lemma frame_csblob addr size : refines (cs_validate_csblob PAGE_SHIFT sha1 sha256 sha384 m addr size)
  (cs_validate_csblob PAGE_SHIFT sha1 sha256 sha384 m' addr size).
Proof. unfold cs_validate_csblob, csblob_index_step. frame. Qed.

(** ** Pages *)

Lemma frame_hashes cd page hl lo hi : refines (hashes MACH_ASSERT m cd page hl lo hi) (hashes MACH_ASSERT m' cd page hl lo hi).
Proof. unfold hashes, scatter_step. frame. Qed.
#[local] Hint Resolve frame_hashes : frame.
Lemma frame_expected b off : refines (expected_hash MACH_ASSERT m b off) (expected_hash MACH_ASSERT m' b off).
Proof. unfold expected_hash. frame. Qed.
#[local] Hint Resolve frame_expected : frame.
Lemma frame_find_page bs : forall off, refines (find_page_hash MACH_ASSERT m bs off) (find_page_hash MACH_ASSERT m' bs off).
Proof. induction bs as [|b bs IH]; intros off; cbn [find_page_hash]; frame. Qed.
#[local] Hint Resolve frame_find_page : frame.
Lemma frame_validate_hash bs off data : refines (cs_validate_hash MACH_ASSERT m bs off data) (cs_validate_hash MACH_ASSERT m' bs off data).
Proof. unfold cs_validate_hash. frame. Qed.
#[local] Hint Resolve frame_validate_hash : frame.

Lemma frame_validate_page bs off data :
  refines (cs_validate_page PAGE_SHIFT MACH_ASSERT m bs off data) (cs_validate_page PAGE_SHIFT MACH_ASSERT m' bs off data).
Proof. unfold cs_validate_page, validate_page_step. frame. Qed.
End frame.
