(* ===== verification/Amfi.v ===== *)
(** * Entitlements and the AMFI policy

    Models bsd/kern/xzs_amfi.c up to its policy system call, the entitlement objects of
    iokit/Kernel/arm/XZSEntitlements.cpp it keeps, and the accessors of bsd/kern/kern_cs.c they
    go through.  The XML parser ([OSUnserializeXML]) is a parameter.  Objects and buffers live
    in an explicit heap with reference counts, and an allocation can fail. *)

From stdpp Require Import base list strings gmap.
From Stdlib Require Import ZArith Lia.
From S2P Require Import Prelude XzsfsCore Kernel Memory CodeSign.

(** ** Constants *)

Definition KERN_NOT_SUPPORTED : Z := 46.
Definition KERN_DENIED : Z := 53.
Definition KERN_NOT_FOUND : Z := 56.
Definition ENOPOLICY : Z := 103.

Definition CS_FORCED_LV : Z := 0x00000010.
Definition CS_PLATFORM_BINARY : Z := 0x04000000.
Definition CS_SIGNED : Z := 0x20000000.
Definition MNT_ROOTFS : Z := 0x00004000.

Definition AMFI_SYSCALL_CHECK_DYLD_POLICY : Z := 0x5a.
Definition AMFI_DYLD_OUTPUT_ALLOW_ALL : Z := 0xff.
Definition AMFI_SYSCALL_QUERY_BOOTARG_STATE : Z := 0x60.
Definition AMFI_BOOTARG_STATE_NOT_ENFORCING : Z := 0x86.

(** ** Objects *)

(** What a property list is made of. *)
Inductive os_object :=
  | OSBoolean (b : bool)
  | OSString (s : bytes)
  | OSArray (l : list os_object)
  | OSDictionary (d : list (bytes * os_object))
  | OSOther.

(** [se_xml] is the address of the copy of the blob. *)
Record SweetEntitlements := Ent {
  se_dict : list (bytes * os_object);
  se_xml : Z;
  se_xml_len : Z;
}.

Inductive amfi_msg :=
  | MsgMismatch (ident : Z)
  | MsgUnreadable (ident len : Z)
  | MsgAttached (ident count : Z) (b s a : bool).

(** Live entitlement objects with their reference counts, allocated buffers, how many
    references to property list objects are held outside other objects, the next free address,
    the outcomes of the next allocations (all further ones succeed), and the messages. *)
Record kworld := KWorld {
  kw_ents : gmap Z (SweetEntitlements * Z);
  kw_bufs : gmap Z bytes;
  kw_held : Z;
  kw_next : Z;
  kw_allocs : list bool;
  kw_log : list amfi_msg;
}.
Definition set_ents (f : gmap Z (SweetEntitlements * Z) -> gmap Z (SweetEntitlements * Z)) (w : kworld) : kworld :=
  KWorld (f (kw_ents w)) (kw_bufs w) (kw_held w) (kw_next w) (kw_allocs w) (kw_log w).
Definition set_bufs (f : gmap Z bytes -> gmap Z bytes) (w : kworld) : kworld :=
  KWorld (kw_ents w) (f (kw_bufs w)) (kw_held w) (kw_next w) (kw_allocs w) (kw_log w).
Definition hold (n : Z) (w : kworld) : kworld :=
  KWorld (kw_ents w) (kw_bufs w) (kw_held w + n) (kw_next w) (kw_allocs w) (kw_log w).
Definition say (msg : amfi_msg) (w : kworld) : kworld :=
  KWorld (kw_ents w) (kw_bufs w) (kw_held w) (kw_next w) (kw_allocs w) (kw_log w ++ [msg]).

(** The next allocation: its address, or 0. *)
Definition alloc (w : kworld) : Z * kworld :=
  let '(ok, rest) := match kw_allocs w with [] => (true, []) | ok :: rest => (ok, rest) end in
  if (ok : bool) then (kw_next w, KWorld (kw_ents w) (kw_bufs w) (kw_held w) (kw_next w + 1) rest (kw_log w))
  else (0, KWorld (kw_ents w) (kw_bufs w) (kw_held w) (kw_next w) rest (kw_log w)).

(** A buffer of [n] bytes, and [memcpy] into all of it. *)
Definition kalloc_data (n : Z) : prog kworld Z := fun w =>
  let '(p, w) := alloc w in Ret (p, if p =? 0 then w else set_bufs <[p := replicate (Z.to_nat n) 0]> w).
Definition fill (p : Z) (content : bytes) : prog kworld unit := fun w =>
  match kw_bufs w !! p with
  | Some b => if zlen b =? zlen content then Ret (tt, set_bufs <[p := content]> w) else Fault
  | None => Fault
  end.
Definition kfree_data (p : Z) : prog kworld unit := fun w =>
  match kw_bufs w !! p with Some _ => Ret (tt, set_bufs (delete p) w) | None => Fault end.

(** A reference more, a reference less; the last one frees the object, its dictionary and
    its copy of the blob. *)
Definition ent_retain (p : Z) : prog kworld unit := fun w =>
  match kw_ents w !! p with
  | Some (e, n) => Ret (tt, set_ents <[p := (e, n + 1)]> w)
  | None => Fault
  end.
Definition ent_release (p : Z) : prog kworld unit := fun w =>
  match kw_ents w !! p with
  | Some (e, n) =>
      if n =? 1 then
        let w := set_ents (delete p) w in
        if negb (se_xml e =? 0) then kfree_data (se_xml e) w else Ret (tt, w)
      else Ret (tt, set_ents <[p := (e, n - 1)]> w)
  | None => Fault
  end.

(** [OSDynamicCast(SweetEntitlements, obj)]. *)
Definition sweet_ent (w : kworld) (obj : Z) : option SweetEntitlements := fst <$> kw_ents w !! obj.

Definition getObject (d : list (bytes * os_object)) (name : bytes) : option os_object :=
  snd <$> List.find (fun e => bool_decide (e.1 = name)) d.

(** The object for a parsed dictionary, whose reference moves into it. *)
Definition build_entitlements (m : mem) (blob blob_len : Z) (dict : list (bytes * os_object)) : prog kworld Z :=
  ent ← call alloc;
  xml ← kalloc_data blob_len;
  if (ent =? 0) || (xml =? 0) then
    _ ← (if negb (xml =? 0) then kfree_data xml else mret tt);
    _ ← act (hold (-1));
    mret 0
  else
    all ← attempt (load_bytes m blob (Z.to_nat blob_len));
    _ ← fill xml all;
    _ ← act (set_ents <[ent := (Ent dict xml blob_len, 1)]>);
    _ ← act (hold (-1));
    mret ent.

Section amfi.
Context (MACH_ASSERT : bool) (OSUnserializeXML : bytes -> option os_object).

(** ** Entitlement objects *)

Definition sweet_entitlements_create (m : mem) (blob blob_len : Z) : prog kworld Z :=
  if (blob =? 0) || (blob_len <=? sizeof CS_GenericBlob) then mret 0
  else
    magic ← attempt (blob32 m blob "magic");
    if negb (magic =? CSMAGIC_EMBEDDED_ENTITLEMENTS) then mret 0
    else
      length ← attempt (blob32 m blob "length");
      if negb (length =? blob_len) then mret 0
      else
        let text_len := blob_len - sizeof CS_GenericBlob in
        text ← kalloc_data (text_len + 1);
        if text =? 0 then mret 0
        else
          data ← attempt (load_bytes m (blob + sizeof CS_GenericBlob) (Z.to_nat text_len));
          _ ← fill text (data ++ [0]);
          let parsed := OSUnserializeXML (data ++ [0]) in
          _ ← act (hold (match parsed with Some _ => 1 | None => 0 end));
          _ ← kfree_data text;
          match parsed with
          | Some (OSDictionary dict) => build_entitlements m blob blob_len dict
          | Some _ => _ ← act (hold (-1)); mret 0
          | None => mret 0
          end.

(** The dictionary, with a reference. *)
Definition sweet_entitlements_copy_dict (obj : Z) : prog kworld (option (list (bytes * os_object))) := fun w =>
  match sweet_ent w obj with
  | None => Ret (None, w)
  | Some e => Ret (Some (se_dict e), hold 1 w)
  end.

(** [true] and the address of a copy of the blob. *)
Definition sweet_entitlements_copy_xml (obj : Z) : prog kworld (option Z) := fun w =>
  match sweet_ent w obj with
  | None => Ret (None, w)
  | Some e =>
      match kw_bufs w !! se_xml e with
      | None => Fault
      | Some content => (copy ← kalloc_data (se_xml_len e);
                         if copy =? 0 then mret None else _ ← fill copy content; mret (Some copy)) w
      end
  end.

Definition sweet_entitlements_bool (w : kworld) (obj : Z) (name : bytes) : bool :=
  match sweet_ent w obj with
  | None => false
  | Some e => match getObject (se_dict e) name with Some (OSBoolean true) => true | _ => false end
  end.

Definition is_string (value : bytes) (o : os_object) : bool :=
  match o with OSString s => bool_decide (s = value) | _ => false end.

Definition sweet_entitlements_string (w : kworld) (obj : Z) (name value : bytes) : bool :=
  match sweet_ent w obj with
  | None => false
  | Some e =>
      match getObject (se_dict e) name with
      | Some (OSString s) => bool_decide (s = value)
      | Some (OSArray l) => existsb (is_string value) l
      | _ => false
      end
  end.

Definition sweet_entitlements_count (w : kworld) (obj : Z) : Z :=
  match sweet_ent w obj with Some e => zlen (se_dict e) | None => 0 end.

(** The value, with a reference. *)
Definition sweet_entitlements_copy_object (obj : Z) (name : bytes) : prog kworld (option os_object) := fun w =>
  let v := match sweet_ent w obj with Some e => getObject (se_dict e) name | None => None end in
  Ret (v, match v with Some _ => hold 1 w | None => w end).

(** ** The signature object's entitlements *)

Definition with_entitlements (b : cs_blob) (p : Z) : cs_blob :=
  CsBlob (csb_ro b) (csb_cpu_type b) (csb_cpu_subtype b) (csb_flags b) (csb_base_offset b) (csb_start_offset b)
    (csb_end_offset b) (csb_mem_size b) (csb_mem_offset b) (csb_mem_kaddr b) (csb_cdhash b) (csb_hashtype b)
    (csb_hash_pageshift b) (csb_hash_firstlevel_pageshift b) (csb_cd b) (csb_teamid b) (csb_entitlements_blob b)
    (csb_der_entitlements_blob b) p (csb_platform_binary b) (csb_platform_path b) (csb_signer_type b) (csb_reconstituted b) (csb_vnode b).

Definition csblob_os_entitlements_set (csblob : cs_blob) (entitlements : Z) : prog kworld cs_blob :=
  _ ← attempt (kassert MACH_ASSERT (csb_entitlements csblob =? 0));
  _ ← (if negb (entitlements =? 0) then ent_retain entitlements else mret tt);
  mret (with_entitlements csblob entitlements).

Definition csblob_os_entitlements_get (csblob : cs_blob) : Z := csb_entitlements csblob.

(** The address of the identifier, 0 for none. *)
Definition csblob_get_identity (m : mem) (csblob : cs_blob) : outcome Z :=
  cd ← csblob_find_blob m csblob CSSLOT_CODEDIRECTORY CSMAGIC_CODEDIRECTORY;
  match cd with
  | None => Ret 0
  | Some cd => identOffset ← cd32 m cd "identOffset"; Ret (if identOffset =? 0 then 0 else cd + identOffset)
  end.

(** A process: the signatures of its program (no program: none), its code signing flags, and
    where its program starts in the file. *)
Record proc := Proc {
  p_textvp : option (list cs_blob);
  p_csflags : Z;
  p_textoff : Z;
}.

Definition csproc_get_blob (p : option proc) : option cs_blob :=
  match p with
  | None => None
  | Some p =>
      match p_textvp p with
      | None => None
      | Some blobs =>
          if Z.land (p_csflags p) CS_SIGNED =? 0 then None else ubc_cs_blob_get blobs (-1) (-1) (p_textoff p)
      end
  end.

Definition sweet_proc_entitlements (proc : option proc) : Z :=
  match csproc_get_blob proc with Some blob => csblob_os_entitlements_get blob | None => 0 end.

(** ** The interface *)

Definition sweet_amfi_entitlements_as_dict : Z -> prog kworld (option (list (bytes * os_object))) := sweet_entitlements_copy_dict.
Definition sweet_amfi_entitlements_get_xml : Z -> prog kworld (option Z) := sweet_entitlements_copy_xml.

Definition sweet_amfi_query_boolean (w : kworld) (os_entitlements : Z) (name : bytes) : Z :=
  if sweet_entitlements_bool w os_entitlements name then KERN_SUCCESS else KERN_DENIED.
Definition sweet_amfi_query_boolean_with_proc (w : kworld) (proc : option proc) (name : bytes) : Z :=
  sweet_amfi_query_boolean w (sweet_proc_entitlements proc) name.

Definition sweet_amfi_query_string (w : kworld) (os_entitlements : Z) (name value : bytes) : Z :=
  if sweet_entitlements_string w os_entitlements name value then KERN_SUCCESS else KERN_DENIED.
Definition sweet_amfi_query_string_with_proc (w : kworld) (proc : option proc) (name value : bytes) : Z :=
  sweet_amfi_query_string w (sweet_proc_entitlements proc) name value.

(** [want] says whether the caller passed somewhere to put the object, which it then holds. *)
Definition sweet_amfi_copy_object (os_entitlements : Z) (name : bytes) (want : bool) : prog kworld (Z * option os_object) :=
  obj ← sweet_entitlements_copy_object os_entitlements name;
  _ ← (if want then mret tt else match obj with Some _ => act (hold (-1)) | None => mret tt end);
  mret (match obj with Some _ => KERN_SUCCESS | None => KERN_NOT_FOUND end, if want then obj else None).
Definition sweet_amfi_copy_object_with_proc (proc : option proc) (name : bytes) (want : bool) : prog kworld (Z * option os_object) :=
  sweet_amfi_copy_object (sweet_proc_entitlements proc) name want.

Definition test_bool : bytes := lit "com.apple.private.sweet.test-bool".
Definition test_string : bytes := lit "com.apple.private.sweet.test-string".
Definition test_array : bytes := lit "com.apple.private.sweet.test-array".

Definition sweet_amfi_attach_entitlements (sweet_amfi_debug : bool) (m : mem) (blob : cs_blob) : prog kworld cs_blob :=
  '(error, xml, xml_len) ← attempt (csblob_get_entitlements m blob);
  if negb (error =? 0) then
    ident ← attempt (csblob_get_identity m blob); _ ← act (say (MsgMismatch ident)); mret blob
  else if xml =? 0 then mret blob
  else
    ent ← sweet_entitlements_create m xml xml_len;
    if ent =? 0 then
      ident ← attempt (csblob_get_identity m blob); _ ← act (say (MsgUnreadable ident xml_len)); mret blob
    else
      _ ← (if sweet_amfi_debug then
             ident ← attempt (csblob_get_identity m blob);
             act (fun w => say (MsgAttached ident (sweet_entitlements_count w ent)
                                  (sweet_entitlements_bool w ent test_bool)
                                  (sweet_entitlements_string w ent test_string (lit "hello"))
                                  (sweet_entitlements_string w ent test_array (lit "two"))) w)
           else mret tt);
      blob ← csblob_os_entitlements_set blob ent;
      _ ← ent_release ent;
      mret blob.

(** [mnt] are the flags of the file's mount, if it has one; the result is 0, the new flags and
    the object. *)
Definition sweet_amfi_vnode_check_signature (sweet_amfi_debug : bool) (m : mem) (mnt : option Z) (cs_blob : option cs_blob)
    (cs_flags : Z) : prog kworld (Z * Z * option CodeSign.cs_blob) :=
  let cs_flags := Z.lor cs_flags CS_SIGNED in
  let cs_flags := Z.land cs_flags (u32 (Z.lnot (Z.lor (Z.lor CS_RESTRICT CS_REQUIRE_LV) CS_FORCED_LV))) in
  let cs_flags := match mnt with
                  | Some f => if negb (Z.land f MNT_ROOTFS =? 0) then Z.lor cs_flags CS_PLATFORM_BINARY else cs_flags
                  | None => cs_flags
                  end in
  match cs_blob with
  | Some b =>
      if negb (csb_ro b) && (csb_entitlements b =? 0)
      then b ← sweet_amfi_attach_entitlements sweet_amfi_debug m b; mret (0, cs_flags, Some b)
      else mret (0, cs_flags, Some b)
  | None => mret (0, cs_flags, None)
  end.
End amfi.

(** ** System call *)

(** Copies between the kernel and a process: error and bytes read, error of a write. *)
Record user_space := UserSpace {
  us_copyin : Z -> Z -> Z * bytes;
  us_copyout : Z -> bytes -> Z;
}.

(** The result, and what was handed to [copyout]. *)
Definition sweet_amfi_policy_syscall (u : user_space) (c arg : Z) : Z * list (Z * bytes) :=
  let state := le_split 8 AMFI_BOOTARG_STATE_NOT_ENFORCING in
  let flags := le_split 8 AMFI_DYLD_OUTPUT_ALLOW_ALL in
  if c =? AMFI_SYSCALL_QUERY_BOOTARG_STATE then (us_copyout u arg state, [(arg, state)])
  else if negb (c =? AMFI_SYSCALL_CHECK_DYLD_POLICY) then (ENOPOLICY, [])
  else
    let '(error, args) := us_copyin u arg 16 in
    if error =? 0 then
      let output_flags := le_combine (take 8 (drop 8 args)) in
      (us_copyout u output_flags flags, [(output_flags, flags)])
    else (error, []).
