(* ===== verification/AmfiProofs.v ===== *)
(** * Entitlements and the AMFI policy: proofs

    Entitlement objects are neither leaked nor freed early; a signature gets exactly the
    entitlements its code directory vouches for. *)

From stdpp Require Import base list strings gmap.
From Stdlib Require Import ZArith Lia.
From S2P Require Import Prelude XzsfsCore Kernel Memory CodeSign CodeSignProofs CodeSignPage CodeSignAuth Amfi.

(** ** The heap *)

(** Every object and buffer is below the next address, and every object has references and a
    buffer of its own with its blob. *)
Record kw_ok (w : kworld) : Prop := {
  ko_next : 0 < kw_next w;
  ko_ents : forall p, is_Some (kw_ents w !! p) -> 0 < p < kw_next w;
  ko_bufs : forall p, is_Some (kw_bufs w !! p) -> 0 < p < kw_next w;
  ko_refs : forall p e n, kw_ents w !! p = Some (e, n) -> 1 <= n;
  ko_xml : forall p e n, kw_ents w !! p = Some (e, n) ->
    exists c, kw_bufs w !! se_xml e = Some c /\ zlen c = se_xml_len e;
  ko_own : forall p q e e' n n', kw_ents w !! p = Some (e, n) -> kw_ents w !! q = Some (e', n') ->
    se_xml e = se_xml e' -> p = q;
}.

(** Nothing but the free addresses and the messages differ. *)
Definition same_heap (w w' : kworld) : Prop :=
  kw_ents w' = kw_ents w /\ kw_bufs w' = kw_bufs w /\ kw_held w' = kw_held w.

Lemma ok_same w w' : kw_ok w -> kw_ents w' = kw_ents w -> kw_bufs w' = kw_bufs w -> kw_next w <= kw_next w' -> kw_ok w'.
Proof.
  intros [H1 H2 H3 H4 H5 H6] E1 E2 Hn.
  split; rewrite ?E1, ?E2; try done; [lia | intros p Hp; specialize (H2 p Hp); lia | intros p Hp; specialize (H3 p Hp); lia].
Qed.

Lemma alloc_spec w : kw_ok w -> exists p w', alloc w = (p, w') /\ same_heap w w' /\ kw_log w' = kw_log w /\
  ((p = 0 /\ kw_next w' = kw_next w) \/ (p = kw_next w /\ p <> 0 /\ kw_next w' = kw_next w + 1)) /\
  (kw_allocs w = [] -> p <> 0 /\ kw_allocs w' = []).
Proof.
  intros Hok. pose proof (ko_next w Hok) as Hn. unfold alloc. destruct (kw_allocs w) as [|[] rest]; (eexists _, _; split; [reflexivity |]);
    unfold same_heap; cbn; split_and!; naive_solver lia.
Qed.

Lemma fresh_ents w : kw_ok w -> kw_ents w !! kw_next w = None.
Proof. intros Hok. apply eq_None_not_Some. intros Hs. pose proof (ko_ents w Hok _ Hs). lia. Qed.
Lemma fresh_bufs w : kw_ok w -> kw_bufs w !! kw_next w = None.
Proof. intros Hok. apply eq_None_not_Some. intros Hs. pose proof (ko_bufs w Hok _ Hs). lia. Qed.

(** A new object with a new buffer. *)
Lemma ok_new w p x e c w' : kw_ok w -> kw_ents w !! p = None -> kw_bufs w !! x = None -> 0 < p < kw_next w' -> 0 < x < kw_next w' ->
  kw_next w <= kw_next w' -> se_xml e = x -> zlen c = se_xml_len e ->
  kw_ents w' = <[p := (e, 1)]> (kw_ents w) -> kw_bufs w' = <[x := c]> (kw_bufs w) -> kw_ok w'.
Proof.
  intros [H1 H2 H3 H4 H5 H6] Hp Hx Hpn Hxn Hn Ex Hc E1 E2. split; rewrite ?E1, ?E2.
  - lia.
  - intros q [v Hq]. apply lookup_insert_Some in Hq as [[<- _] | [_ Hq]]; [done |]. pose proof (H2 q ltac:(by eexists)). lia.
  - intros q [v Hq]. apply lookup_insert_Some in Hq as [[<- _] | [_ Hq]]; [done |]. pose proof (H3 q ltac:(by eexists)). lia.
  - intros q e' n Hq. apply lookup_insert_Some in Hq as [[_ [= <- <-]] | [_ Hq]]; [lia | by eapply H4].
  - intros q e' n Hq. apply lookup_insert_Some in Hq as [[_ [= <- <-]] | [_ Hq]].
    + exists c. by rewrite Ex, lookup_insert_eq.
    + destruct (H5 _ _ _ Hq) as (c' & Hc' & Hl). exists c'. rewrite lookup_insert_ne; [done |]. intros ->. by rewrite Hc' in Hx.
  - intros q q' e1 e2 n1 n2 Hq Hq' Ee.
    apply lookup_insert_Some in Hq as [[<- [= <- <-]] | [_ Hq]]; apply lookup_insert_Some in Hq' as [[<- [= <- <-]] | [_ Hq']]; try done.
    + destruct (H5 _ _ _ Hq') as (c' & Hc' & _). rewrite <- Ee, Ex, Hx in Hc'. done.
    + destruct (H5 _ _ _ Hq) as (c' & Hc' & _). rewrite Ee, Ex, Hx in Hc'. done.
    + by eapply H6.
Qed.

(** References come and go; the last one takes object and buffer with it. *)
Lemma ok_count w p e n n' : kw_ok w -> kw_ents w !! p = Some (e, n) -> 1 <= n' -> kw_ok (set_ents <[p := (e, n')]> w).
Proof.
  intros [H1 H2 H3 H4 H5 H6] Hp Hn'. split; cbn; try done.
  - intros q Hq. rewrite lookup_insert_is_Some in Hq. destruct Hq as [<- | [_ Hq]]; [apply H2; by eexists | by apply H2].
  - intros q e' n1 Hq. apply lookup_insert_Some in Hq as [[_ [= <- <-]] | [_ Hq]]; [lia | by eapply H4].
  - intros q e' n1 Hq. apply lookup_insert_Some in Hq as [[_ [= <- <-]] | [_ Hq]]; by eapply H5.
  - intros q q' e1 e2 n1 n2 Hq Hq' Ee.
    apply lookup_insert_Some in Hq as [[<- [= <- <-]] | [_ Hq]]; apply lookup_insert_Some in Hq' as [[<- [= <- <-]] | [_ Hq']];
      (done || by eapply H6).
Qed.

Lemma ok_drop w p e n : kw_ok w -> kw_ents w !! p = Some (e, n) -> kw_ok (set_bufs (delete (se_xml e)) (set_ents (delete p) w)).
Proof.
  intros [H1 H2 H3 H4 H5 H6] Hp. split; cbn; try done.
  - intros q [v Hq]. apply lookup_delete_Some in Hq as [_ Hq]. apply H2. by eexists.
  - intros q [v Hq]. apply lookup_delete_Some in Hq as [_ Hq]. apply H3. by eexists.
  - intros q e' n' Hq. apply lookup_delete_Some in Hq as [_ Hq]. by eapply H4.
  - intros q e' n' Hq. apply lookup_delete_Some in Hq as [Hqp Hq]. destruct (H5 _ _ _ Hq) as (c' & Hc' & Hl). exists c'.
    rewrite lookup_delete_ne; [done |]. intros Ex. destruct Hqp. by eapply H6.
  - intros q q' e1 e2 n1 n2 Hq Hq'. apply lookup_delete_Some in Hq as [_ Hq], Hq' as [_ Hq']. by eapply H6.
Qed.

Lemma retain_spec w p e n : kw_ok w -> kw_ents w !! p = Some (e, n) ->
  ent_retain p w = Ret (tt, set_ents <[p := (e, n + 1)]> w) /\ kw_ok (set_ents <[p := (e, n + 1)]> w).
Proof.
  intros Hok Hp. unfold ent_retain. rewrite Hp. split; [done |]. apply (ok_count w p e n); [done | done |].
  pose proof (ko_refs w Hok _ _ _ Hp). lia.
Qed.

Lemma release_spec w p e n : kw_ok w -> kw_ents w !! p = Some (e, n) ->
  let w' := if n =? 1 then set_bufs (delete (se_xml e)) (set_ents (delete p) w) else set_ents <[p := (e, n - 1)]> w in
  ent_release p w = Ret (tt, w') /\ kw_ok w'.
Proof.
  intros Hok Hp w'. unfold ent_release, w'. rewrite Hp. pose proof (ko_refs w Hok _ _ _ Hp) as Hn.
  destruct (ko_xml w Hok _ _ _ Hp) as (c & Hc & _). destruct (Z.eqb_spec n 1) as [-> | Hne].
  - assert (se_xml e <> 0) as Hx by (pose proof (ko_bufs w Hok (se_xml e) ltac:(by eexists)); lia).
    rewrite (proj2 (Z.eqb_neq _ _)) by done. unfold kfree_data. cbn [kw_bufs set_ents negb]. rewrite Hc. split; [done |].
    by eapply ok_drop.
  - split; [done |]. apply (ok_count w p e n); [done | done | lia].
Qed.

(** ** Creating an object *)

Section create.
Context (OSUnserializeXML : bytes -> option os_object).
Context (m : mem) (Hbytes : byte_mem m) (b len : Z) (Hmap : mapped m b len) (Hlen : 0 <= len) (Hb : b <> 0).

(** The blob holds a dictionary. *)
Definition readable (dict : list (bytes * os_object)) : Prop :=
  8 < len /\ bmagic m b = CSMAGIC_EMBEDDED_ENTITLEMENTS /\ blen m b = len /\
  OSUnserializeXML (span m (b + 8) (len - 8) ++ [0]) = Some (OSDictionary dict).

(** What a call leaves behind: nothing, or one object with one reference and its buffer. *)
Definition created (w w' : kworld) (p : Z) : Prop :=
  (p = 0 /\ same_heap w w') \/
  (exists x dict, p <> 0 /\ kw_ents w !! p = None /\ kw_bufs w !! x = None /\ readable dict /\
    kw_ents w' = <[p := (Ent dict x len, 1)]> (kw_ents w) /\ kw_bufs w' = <[x := span m b len]> (kw_bufs w) /\
    kw_held w' = kw_held w).

Lemma not_created w : kw_ok w -> (forall dict, ~ readable dict) -> created w w 0 /\ kw_ok w /\ kw_log w = kw_log w /\
  (kw_allocs w = [] -> (exists dict, readable dict) -> 0 <> 0).
Proof. intros Hok Hno. split_and!; [left; by split | done | done |]. intros _ [d Hd]. by destruct (Hno d). Qed.

Lemma kalloc_spec n w : kw_ok w -> exists p w', kalloc_data n w = Ret (p, w') /\ kw_ents w' = kw_ents w /\ kw_held w' = kw_held w /\
  kw_log w' = kw_log w /\ (kw_allocs w = [] -> p <> 0 /\ kw_allocs w' = []) /\
  ((p = 0 /\ kw_bufs w' = kw_bufs w /\ kw_next w' = kw_next w) \/
   (p = kw_next w /\ p <> 0 /\ kw_bufs w' = <[p := replicate (Z.to_nat n) 0]> (kw_bufs w) /\ kw_next w' = kw_next w + 1)).
Proof.
  intros Hok. destruct (alloc_spec w Hok) as (p & w1 & Ha & (E1 & E2 & E3) & El & Hcase & Hal). unfold kalloc_data. rewrite Ha.
  destruct Hcase as [[-> Hn] | (-> & Hp & Hn)].
  - eexists _, _. split; [done |]. cbn [Z.eqb]. split_and!; try done. by left.
  - eexists _, _. split; [done |]. rewrite (proj2 (Z.eqb_neq _ _)) by done. split_and!; try done. right. cbn. by rewrite E2.
Qed.

(** Allocating the text, filling and freeing it changes nothing but the next address. *)
Lemma fill_free w p n c : kw_ok w -> kw_bufs w !! p = None -> p <> 0 -> forall w1, kw_bufs w1 = <[p := replicate (Z.to_nat n) 0]> (kw_bufs w) ->
  zlen c = n -> 0 <= n ->
  fill p c w1 = Ret (tt, set_bufs <[p := c]> w1) /\
  forall k, kfree_data p (hold k (set_bufs <[p := c]> w1)) = Ret (tt, set_bufs (delete p) (hold k (set_bufs <[p := c]> w1))) /\
    kw_bufs (set_bufs (delete p) (hold k (set_bufs <[p := c]> w1))) = kw_bufs w.
Proof.
  intros Hok Hp Hp0 w1 Hb1 Hc Hn. unfold fill, kfree_data. rewrite Hb1, lookup_insert_eq, zlen_replicate.
  rewrite (proj2 (Z.eqb_eq _ _)) by lia. split; [done |]. intros k. cbn. rewrite Hb1, insert_insert_eq, lookup_insert_eq. split; [done |].
  by rewrite delete_insert_id.
Qed.

Lemma build_spec w dict : kw_ok w -> exists p w', build_entitlements m b len dict w = Ret (p, w') /\ kw_ok w' /\
  kw_held w' = kw_held w - 1 /\ kw_log w' = kw_log w /\ (kw_allocs w = [] -> p <> 0) /\
  ((p = 0 /\ kw_ents w' = kw_ents w /\ kw_bufs w' = kw_bufs w) \/
   (exists x, p <> 0 /\ kw_ents w !! p = None /\ kw_bufs w !! x = None /\
     kw_ents w' = <[p := (Ent dict x len, 1)]> (kw_ents w) /\ kw_bufs w' = <[x := span m b len]> (kw_bufs w))).
Proof.
  intros Hok. destruct (alloc_spec w Hok) as (ent & w1 & Ha & (E1 & E2 & E3) & El & Hcase & Hal).
  assert (kw_ok w1) as Hok1 by (apply (ok_same w); [done | done | done | destruct Hcase as [[_ ->] | (_ & _ & ->)]; lia]).
  destruct (kalloc_spec len w1 Hok1) as (xml & w2 & Ha2 & E4 & E5 & E6 & Hal2 & Hcase2).
  unfold build_entitlements. rewrite (run_bind _ _ _ ent w1) by (unfold call; by rewrite Ha). rewrite (run_bind _ _ _ _ _ Ha2).
  pose proof (fresh_bufs w1 Hok1) as Hfb. pose proof (ko_next w Hok) as Hnext.
  assert (kw_allocs w = [] -> ent <> 0 /\ xml <> 0) as Hboth by (intros Hn; destruct (Hal Hn) as [? Hn1]; by destruct (Hal2 Hn1)).
  destruct Hcase2 as [(-> & E7 & E8) | (-> & Hx0 & E7 & E8)].
  { rewrite orb_true_r. cbn [Z.eqb negb]. eexists _, _. split; [reflexivity |]. cbn. rewrite E4, E5, E6, E7, E1, E2, E3.
    split_and!; try done; [| intros Hn; by destruct (Hboth Hn) | by left].
    apply (ok_same w1); cbn; [done | by rewrite E4 | by rewrite E7 | lia]. }
  rewrite (proj2 (Z.eqb_neq (kw_next w1) 0)) by done. cbn [orb negb]. destruct Hcase as [[-> En] | (-> & Hp & En)].
  - cbn [Z.eqb orb]. rewrite (run_bind _ _ _ tt (set_bufs (delete (kw_next w1)) w2))
      by (unfold kfree_data; by rewrite E7, lookup_insert_eq).
    eexists _, _. split; [reflexivity |]. cbn. rewrite E4, E5, E6, E7, E1, E3, El, delete_insert_id, E2 by done.
    split_and!; try done; [| intros Hn; by destruct (Hboth Hn) | by left].
    apply (ok_same w1); cbn; [done | done | by rewrite E7, delete_insert_id | lia].
  - rewrite (proj2 (Z.eqb_neq _ 0)) by done. cbn [orb].
    rewrite (run_attempt _ _ _ _ (load_bytes_span m b len b len Hmap ltac:(lia) ltac:(lia) ltac:(lia))).
    rewrite (run_bind _ _ _ tt (set_bufs <[kw_next w1 := span m b len]> w2)).
    2:{ unfold fill. rewrite E7, lookup_insert_eq, zlen_replicate, zlen_span by lia. by rewrite (proj2 (Z.eqb_eq _ _)) by lia. }
    eexists _, _. split; [reflexivity |]. cbn. rewrite E4, E5, E6, E7, E1, E3, El, insert_insert_eq, E2.
    split_and!; try done.
    + eapply (ok_new w (kw_next w) (kw_next w1) (Ent dict (kw_next w1) len) (span m b len)); cbn; try done; try lia.
      * by apply fresh_ents.
      * by rewrite <- E2.
      * by rewrite zlen_span by lia.
      * by rewrite E4, E1.
      * by rewrite E7, insert_insert_eq, E2.
    + right. exists (kw_next w1). split_and!; [done | by apply fresh_ents | by rewrite <- E2 | done | done].
Qed.

Lemma create_spec w : kw_ok w -> exists p w', sweet_entitlements_create OSUnserializeXML m b len w = Ret (p, w') /\
  created w w' p /\ kw_ok w' /\ kw_log w' = kw_log w /\ (kw_allocs w = [] -> (exists dict, readable dict) -> p <> 0).
Proof.
  intros Hok. unfold sweet_entitlements_create. rewrite (proj2 (Z.eqb_neq b 0)) by done. rewrite sizeof_generic. cbn [orb].
  destruct (Z.leb_spec len 8) as [Hl | Hl].
  { eexists _, _. split; [done |]. apply not_created; [done |]. intros d (? & _). lia. }
  assert (blob32 m b "magic" = Ret (bmagic m b)) as Hm.
  { unfold blob32. rewrite (be_field_ok m Hbytes CS_GenericBlob 8 b len) by (done || lia). unfold bmagic. by rewrite Z.add_0_r. }
  assert (blob32 m b "length" = Ret (blen m b)) as Hblen by (apply (be_field_ok m Hbytes CS_GenericBlob 8 b len); (done || lia)).
  rewrite (run_attempt _ _ _ _ Hm). destruct (Z.eqb_spec (bmagic m b) CSMAGIC_EMBEDDED_ENTITLEMENTS) as [Em | Em]; cbn [negb].
  2:{ eexists _, _. split; [done |]. apply not_created; [done |]. by intros d (_ & ? & _). }
  rewrite (run_attempt _ _ _ _ Hblen). destruct (Z.eqb_spec (blen m b) len) as [El | El]; cbn [negb].
  2:{ eexists _, _. split; [done |]. apply not_created; [done |]. by intros d (_ & _ & ? & _). }
  destruct (kalloc_spec (len - 8 + 1) w Hok) as (text & w1 & Ha & E1 & E2 & E3 & Hal & Hcase). rewrite (run_bind _ _ _ _ _ Ha).
  destruct Hcase as [(-> & E4 & E5) | (-> & Hp0 & E4 & E5)]; cbn [Z.eqb].
  { eexists _, _. split; [done |]. split_and!; [left; by split_and! | | done |].
    - apply (ok_same w); [done | done | done | lia].
    - intros Hn. by destruct (Hal Hn). }
  rewrite (proj2 (Z.eqb_neq _ 0)) by done.
  rewrite (run_attempt _ _ _ _ (load_bytes_span m b len (b + 8) (len - 8) Hmap ltac:(lia) ltac:(lia) ltac:(lia))).
  set (text := span m (b + 8) (len - 8)).
  destruct (fill_free w (kw_next w) (len - 8 + 1) (text ++ [0]) Hok (fresh_bufs w Hok) Hp0 w1 E4) as [Hfill Hfree].
  { unfold text. rewrite zlen_app, zlen_span by lia. done. }
  { lia. }
  rewrite (run_bind _ _ _ _ _ Hfill), run_act.
  destruct (Hfree (match OSUnserializeXML (text ++ [0]) with Some _ => 1 | None => 0 end)) as [Hf Hbufs].
  rewrite (run_bind _ _ _ _ _ Hf). clear Hf Hfree Hfill.
  set (k := match OSUnserializeXML (text ++ [0]) with Some _ => 1 | None => 0 end) in *.
  set (w2 := set_bufs (delete (kw_next w)) (hold k (set_bufs <[kw_next w := text ++ [0]]> w1))) in *.
  assert (kw_ents w2 = kw_ents w) as F1 by (cbn; done). assert (kw_held w2 = kw_held w + k) as F2 by (cbn; lia).
  assert (kw_log w2 = kw_log w) as F3 by (cbn; done).
  assert (kw_ok w2) as Hok2 by (apply (ok_same w); [done | done | done | cbn; lia]).
  assert (kw_allocs w = [] -> kw_allocs w2 = []) as F4 by (intros Hn; cbn; by apply Hal).
  assert (forall d, readable d -> OSUnserializeXML (text ++ [0]) = Some (OSDictionary d)) as Hread by (by intros d (_ & _ & _ & ?)).
  assert (forall d, OSUnserializeXML (text ++ [0]) = Some (OSDictionary d) -> readable d) as Hparse
    by (intros d Hd; unfold readable; by split_and!).
  assert (forall o, OSUnserializeXML (text ++ [0]) = Some o -> (forall d, o <> OSDictionary d) ->
    exists p w', Ret (0, hold (-1) w2) = Ret (p, w') /\ created w w' p /\ kw_ok w' /\ kw_log w' = kw_log w /\
      (kw_allocs w = [] -> (exists dict, readable dict) -> p <> 0)) as Hother.
  { intros o Eo Ho. assert (k = 1) as Ek by (unfold k; by rewrite Eo). eexists _, _. split; [reflexivity |]. split_and!.
    - left. split; [done |]. split_and!; [done | done | cbn; cbn in F2; lia].
    - apply (ok_same w2); [done | done | done | cbn; lia].
    - done.
    - intros _ [d Hd]. apply Hread in Hd. rewrite Eo in Hd. injection Hd as ->. by destruct (Ho d). }
  destruct (OSUnserializeXML (text ++ [0])) as [[| | | d |] |] eqn:Ep; try (by eapply Hother; done).
  - destruct (build_spec w2 d Hok2) as (p & w3 & Hr & Hok3 & G1 & G2 & G3 & Hc). exists p, w3. split; [exact Hr |].
    split_and!; [| done | by rewrite G2 | by intros Hn _; apply G3, F4].
    rewrite F1, Hbufs in Hc. assert (kw_held w3 = kw_held w) as G4 by (rewrite G1, F2; unfold k; lia).
    destruct Hc as [(-> & C1 & C2) | (x & C0 & C1 & C2 & C3 & C4)]; [by left | right]. exists x, d. by split_and!.
  - eexists _, _. split; [reflexivity |]. split_and!; [left | done | done |].
    + split; [done |]. split_and!; [done | done |]. rewrite F2. unfold k. lia.
    + intros _ [d Hd]. by apply Hread in Hd.
Qed.
End create.

(** ** The identifier *)

Section attach.
Context {PAGE_SHIFT : Z} {sha1 sha256 sha384 : bytes -> bytes} {m : mem} {addr size cd ent der : Z} {h : cs_hash}.
Context (V : valid_signature PAGE_SHIFT sha1 sha256 sha384 m addr size cd ent der h).
Context (MACH_ASSERT : bool) (OSUnserializeXML : bytes -> option os_object).

Lemma indexed_cd t b : (t, b) ∈ indexed m addr -> is_cd_slot t = true -> 112 <= blen m b.
Proof.
  unfold indexed. destruct (valid_wf V) as [cd0 es H8 Hl -> Hc Hall _ _ | H8 Hl -> Hok]; cbn [Z.eqb].
  - rewrite Z.eqb_refl. intros (i & Hi & E)%entries_in Ht. destruct (Hall i) as [_ _ H3 _]; [lia |]. rewrite E in H3.
    destruct (H3 Ht) as [Hok _]. exact (cdo_size _ _ _ _ _ _ _ Hok).
  - intros [= -> ->]%list_elem_of_singleton _. exact (cdo_size _ _ _ _ _ _ _ Hok).
Qed.

Lemma identity_safe o : describes addr size cd ent der h o -> exists i, csblob_get_identity m o = Ret i.
Proof.
  intros [Hv Ha Hs _ _ _ _]. unfold csblob_get_identity, csblob_find_blob. rewrite Hv, Ha, Hs, (find_blob_spec V). cbn [mbind outcome_bind].
  destruct (List.find _ _) as [[t b] |] eqn:E; cbn [fmap option_fmap option_map snd]; [| by eexists].
  apply find_some in E as [Hin Hw]. apply list_elem_of_In in Hin. unfold wanted in Hw. cbn [fst snd] in Hw.
  apply andb_true_iff in Hw as [Ht%Z.eqb_eq _]. pose proof (indexed_cd t b Hin ltac:(by subst)) as H112.
  destruct (indexed_in V _ Hin) as (H1 & H2 & H3). destruct V as [_ _ Hb Hm _ _ _ _ _].
  rewrite (cd32_ok m Hb addr size) by (done || (cbn [snd] in *; lia)). cbn [mbind outcome_bind]. by eexists.
Qed.

(** ** Attaching entitlements *)

(** The entitlements a signature grants: the parsed dictionary of its authentic XML blob. *)
Definition granted (dict : list (bytes * os_object)) : Prop :=
  ent <> 0 /\ authentic m cd h CSSLOT_ENTITLEMENTS ent /\ readable OSUnserializeXML m ent (blen m ent) dict.

Definition attached (w w' : kworld) (b b' : cs_blob) : Prop :=
  (b' = b /\ same_heap w w') \/
  (exists p x dict, b' = with_entitlements b p /\ p <> 0 /\ kw_ents w !! p = None /\ kw_bufs w !! x = None /\ granted dict /\
    kw_ents w' = <[p := (Ent dict x (blen m ent), 1)]> (kw_ents w) /\ kw_bufs w' = <[x := span m ent (blen m ent)]> (kw_bufs w) /\
    kw_held w' = kw_held w).

Lemma set_release b p e w : kw_ok w -> csb_entitlements b = 0 -> p <> 0 -> kw_ents w !! p = Some (e, 1) ->
  exists w', (b' ← csblob_os_entitlements_set MACH_ASSERT b p; _ ← ent_release p; mret b') w = Ret (with_entitlements b p, w') /\
    kw_ok w' /\ same_heap w w'.
Proof.
  intros Hok Hb Hp He. unfold csblob_os_entitlements_set. rewrite Hb. unfold kassert. rewrite andb_false_r.
  destruct (retain_spec w p e 1 Hok He) as [Hr Hok1].
  destruct (release_spec (set_ents <[p := (e, 1 + 1)]> w) p e 2 Hok1) as [Hf Hok2]; [cbn; by rewrite lookup_insert_eq |].
  exists (set_ents <[p := (e, 1)]> (set_ents <[p := (e, 1 + 1)]> w)). split_and!; [| exact Hok2 |].
  - unfold mbind at 1, prog_bind at 1. rewrite (run_attempt _ _ _ tt) by done. rewrite (proj2 (Z.eqb_neq p 0)) by done. cbn [negb].
    rewrite (run_bind _ _ _ _ _ Hr). cbn [mret prog_ret]. by rewrite (run_bind _ _ _ _ _ Hf).
  - unfold same_heap. cbn. by rewrite insert_insert_eq, insert_id.
Qed.

Lemma attach_spec debug w b : kw_ok w -> describes addr size cd ent der h b -> csb_entitlements b = 0 ->
  exists b' w', sweet_amfi_attach_entitlements MACH_ASSERT OSUnserializeXML debug m b w = Ret (b', w') /\ kw_ok w' /\
    attached w w' b b' /\ (kw_allocs w = [] -> forall dict, granted dict -> csb_entitlements b' <> 0).
Proof.
  intros Hok Hds Hno. destruct (identity_safe b Hds) as [i Hi].
  destruct (entitlements_vouched V b Hds) as (e & x & len & He & Hcase).
  unfold sweet_amfi_attach_entitlements. rewrite (run_attempt _ _ _ _ He).
  destruct Hcase as [(-> & -> & -> & Ha) | (-> & -> & -> & Hna)].
  2:{ cbn [Z.eqb negb EBADEXEC]. rewrite (run_attempt _ _ _ _ Hi), run_act. eexists _, _. split; [reflexivity |].
      split_and!; [by apply (ok_same w) | by left | by intros _ d (_ & ? & _)]. }
  cbn [Z.eqb negb]. destruct (Z.eqb_spec ent 0) as [E0 | E0].
  { eexists _, _. split; [reflexivity |]. split_and!; [done | by left | by intros _ d (? & _)]. }
  destruct (signature_slot _ _ _ _ m (vs_bytes _ _ _ _ _ _ _ _ _ _ _ V) _ _ _ _ _ (valid_wf V)) as [[? | [Hin _]] _]; [done |].
  assert (0 <= blen m ent) as Hl0 by (apply be_u32, V). destruct Hin as (Hin1 & Hin2 & Hin3).
  destruct (create_spec OSUnserializeXML m ltac:(by destruct V) ent (blen m ent)
    ltac:(apply (mapped_sub m addr size); [by destruct V | done | done]) Hl0 E0 w Hok) as (p & w1 & Hc & Hcr & Hok1 & Hlog & Hal).
  rewrite (run_bind _ _ _ _ _ Hc). destruct Hcr as [[-> Hsame] | (x & dict & Hp & F1 & F2 & Hr & F3 & F4 & F5)].
  { cbn [Z.eqb]. rewrite (run_attempt _ _ _ _ Hi), run_act. eexists _, _. split; [reflexivity |].
    split_and!; [by apply (ok_same w1) | by left |]. intros Hn d (_ & _ & Hd). by destruct (Hal Hn); [exists d |]. }
  rewrite (proj2 (Z.eqb_neq p 0)) by done.
  assert (exists w2, (if debug
    then ident ← attempt (csblob_get_identity m b);
         act (fun w => say (MsgAttached ident (sweet_entitlements_count w p) (sweet_entitlements_bool w p test_bool)
           (sweet_entitlements_string w p test_string (lit "hello")) (sweet_entitlements_string w p test_array (lit "two"))) w)
    else mret tt : prog kworld unit) w1 = Ret (tt, w2) /\ kw_ok w2 /\ same_heap w1 w2) as (w2 & Hd & Hok2 & G1 & G2 & G3).
  { destruct debug; [| by eexists]. rewrite (run_attempt _ _ _ _ Hi). eexists. split; [reflexivity |]. by split; [apply (ok_same w1) |]. }
  rewrite (run_bind _ _ _ _ _ Hd).
  destruct (set_release b p (Ent dict x (blen m ent)) w2 Hok2 Hno Hp) as (w3 & Hs & Hok3 & G4 & G5 & G6).
  { by rewrite G1, F3, lookup_insert_eq. }
  eexists _, _. split; [exact Hs |]. split_and!; [done | right | done].
  exists p, x, dict. rewrite G4, G5, G6, G1, G2, G3, F3, F4, F5. by split_and!.
Qed.
End attach.
Arguments granted : clear implicits.
Arguments attached : clear implicits.

(** ** Flags and queries *)

(** The flags the policy adds and takes away. *)
Definition checked_flags (mnt : option Z) (flags i : Z) : bool :=
  Z.testbit CS_SIGNED i ||
  (match mnt with Some f => negb (Z.land f MNT_ROOTFS =? 0) | None => false end && Z.testbit CS_PLATFORM_BINARY i) ||
  (Z.testbit flags i && negb (Z.testbit CS_RESTRICT i || Z.testbit CS_REQUIRE_LV i || Z.testbit CS_FORCED_LV i)).

Lemma flags_spec mnt flags i : 0 <= i < 32 ->
  let f := Z.land (Z.lor flags CS_SIGNED) (u32 (Z.lnot (Z.lor (Z.lor CS_RESTRICT CS_REQUIRE_LV) CS_FORCED_LV))) in
  Z.testbit (match mnt with
             | Some x => if negb (Z.land x MNT_ROOTFS =? 0) then Z.lor f CS_PLATFORM_BINARY else f
             | None => f
             end) i = checked_flags mnt flags i.
Proof.
  intros Hi f. assert (Z.testbit f i = Z.testbit CS_SIGNED i ||
    (Z.testbit flags i && negb (Z.testbit CS_RESTRICT i || Z.testbit CS_REQUIRE_LV i || Z.testbit CS_FORCED_LV i))) as Hf.
  { unfold f, u32. rewrite Z.land_spec, Z.lor_spec, Z.mod_pow2_bits_low, Z.lnot_spec, !Z.lor_spec by lia.
    assert (Z.land CS_SIGNED (Z.lor (Z.lor CS_RESTRICT CS_REQUIRE_LV) CS_FORCED_LV) = 0) as Hd by reflexivity.
    apply (f_equal (fun v => Z.testbit v i)) in Hd. rewrite Z.land_spec, !Z.lor_spec, Z.bits_0 in Hd.
    destruct (Z.testbit flags i), (Z.testbit CS_SIGNED i), (Z.testbit CS_RESTRICT i), (Z.testbit CS_REQUIRE_LV i), (Z.testbit CS_FORCED_LV i); done. }
  unfold checked_flags. destruct mnt as [x |]; [| by rewrite Hf, orb_false_r].
  destruct (negb (Z.land x MNT_ROOTFS =? 0)); cbn [andb]; [| by rewrite Hf, orb_false_r]. rewrite Z.lor_spec, Hf. cbn [andb]. destruct (Z.testbit CS_SIGNED i), (Z.testbit CS_PLATFORM_BINARY i); cbn; by rewrite ?orb_true_r, ?orb_false_r.
Qed.

Lemma query_true w p name : sweet_amfi_query_boolean w p name = KERN_SUCCESS ->
  exists e n, kw_ents w !! p = Some (e, n) /\ getObject (se_dict e) name = Some (OSBoolean true).
Proof.
  unfold sweet_amfi_query_boolean, sweet_entitlements_bool, sweet_ent. destruct (kw_ents w !! p) as [[e n] |]; cbn; [| done].
  intros H. exists e, n. split; [done |]. by destruct (getObject (se_dict e) name) as [[[] | | | |] |].
Qed.

Lemma check_spec {PAGE_SHIFT : Z} {sha1 sha256 sha384 : bytes -> bytes} {m : mem} {addr size cd ent der : Z} {h : cs_hash}
    (V : valid_signature PAGE_SHIFT sha1 sha256 sha384 m addr size cd ent der h) MACH_ASSERT debug parse mnt b flags w : kw_ok w ->
  describes addr size cd ent der h b -> csb_entitlements b = 0 -> csb_ro b = false ->
  exists f b' w',
    sweet_amfi_vnode_check_signature MACH_ASSERT parse debug m mnt (Some b) flags w = Ret (0, f, Some b', w') /\
    (forall i, 0 <= i < 32 -> Z.testbit f i = checked_flags mnt flags i) /\
    kw_ok w' /\ attached m cd ent h parse w w' b b' /\
    (kw_allocs w = [] -> forall dict, granted m cd ent h parse dict -> csb_entitlements b' <> 0) /\
    (forall name, sweet_amfi_query_boolean w' (csb_entitlements b') name = KERN_SUCCESS ->
      exists dict, granted m cd ent h parse dict /\ getObject dict name = Some (OSBoolean true)).
Proof.
  intros Hok Hds Hno Hro. destruct (attach_spec V MACH_ASSERT parse debug w b Hok Hds Hno) as (b' & w' & Hr & Hok' & Hat & Hall).
  eexists _, b', w'. split; [| split_and!; [| exact Hok' | exact Hat | exact Hall |]].
  - unfold sweet_amfi_vnode_check_signature. rewrite Hro, Hno. cbn [negb andb Z.eqb].
    rewrite (run_bind _ _ _ _ _ Hr). reflexivity.
  - intros i Hi. by apply flags_spec.
  - intros name (e & n & He & Hg)%query_true. destruct Hat as [[-> _] | (p & x & dict & -> & Hp & _ & _ & Hgr & E1 & _ & _)].
    + rewrite Hno in He. pose proof (ko_ents w' Hok' 0 ltac:(by eexists)). lia.
    + cbn [csb_entitlements with_entitlements] in He. rewrite E1, lookup_insert_eq in He. injection He as <- <-. by exists dict.
Qed.

(** C29. When the kernel asks the policy about a signature it has just accepted, the policy always
    agrees; it marks the program signed, a platform binary exactly on the root file system, and
    clears the three restrictions, leaving every other flag.  The signature object gets an
    entitlement object, of which it holds the only reference, only for an XML blob whose hash is
    in the code directory and that parses to a dictionary - always when memory suffices - and
    otherwise nothing is allocated; so an entitlement that reads true comes from such a blob. *)
Theorem check_signature_grants (PAGE_SHIFT : Z) (sha1 sha256 sha384 : bytes -> bytes) (m : mem) (addr size cd ent der : Z)
    (h : cs_hash) (MACH_ASSERT debug : bool) (parse : bytes -> option os_object) (mnt : option Z) (base flags : Z) (w : kworld)
    (V : valid_signature PAGE_SHIFT sha1 sha256 sha384 m addr size cd ent der h) (Hok : kw_ok w) :
  exists b b' f w', cs_blob_init_validated PAGE_SHIFT sha1 sha256 sha384 m addr size = Ret (0, Some b, cd, false) /\
    sweet_amfi_vnode_check_signature MACH_ASSERT parse debug m mnt (Some (at_base b base)) flags w = Ret (0, f, Some b', w') /\
    (forall i, 0 <= i < 32 -> Z.testbit f i = checked_flags mnt flags i) /\
    kw_ok w' /\ attached m cd ent h parse w w' (at_base b base) b' /\
    (kw_allocs w = [] -> forall dict, granted m cd ent h parse dict -> csb_entitlements b' <> 0) /\
    (forall name, sweet_amfi_query_boolean w' (csb_entitlements b') name = KERN_SUCCESS ->
      exists dict, granted m cd ent h parse dict /\ getObject dict name = Some (OSBoolean true)).
Proof.
  destruct (check_spec V MACH_ASSERT debug parse mnt (at_base (signed_blob m addr size cd ent der h) base) flags w Hok)
    as (f & b' & w' & H); [apply based_describes | done | done |].
  eexists _, b', f, w'. split; [exact (init_valid V) | exact H].
Qed.

(** An entitlement object owns what it was made of: making one from any readable memory
    returns; if none is made the heap is as before; if one is made, releasing its reference
    puts back the heap as it was, copy of the blob and dictionary included. *)
Theorem entitlements_released (parse : bytes -> option os_object) (m : mem) (b len : Z) (w : kworld)
    (Hbytes : byte_mem m) (Hmap : mapped m b len) (Hlen : 0 <= len) (Hb : b <> 0) (Hok : kw_ok w) :
  exists p w', sweet_entitlements_create parse m b len w = Ret (p, w') /\ kw_ok w' /\
    (p = 0 -> same_heap w w') /\
    (p <> 0 -> exists w2, ent_release p w' = Ret (tt, w2) /\ same_heap w w2 /\ kw_ok w2).
Proof.
  destruct (create_spec parse m Hbytes b len Hmap Hlen Hb w Hok) as (p & w' & Hc & Hcr & Hok' & _ & _).
  exists p, w'. split; [done |]. split; [done |]. destruct Hcr as [[-> Hs] | (x & dict & Hp & F1 & F2 & _ & F3 & F4 & F5)]; [done |].
  split; [done |]. intros _. destruct (release_spec w' p (Ent dict x len) 1 Hok') as [Hr Hok2]; [by rewrite F3, lookup_insert_eq |].
  eexists. split; [exact Hr |]. split; [| exact Hok2]. unfold same_heap. cbn [Z.eqb set_bufs set_ents kw_ents kw_bufs kw_held se_xml Pos.eqb].
  rewrite F3, F4, !delete_insert_id by done. done.
Qed.

(** ** A program with entitlements *)

Definition sample_parse (text : bytes) : option os_object :=
  if bool_decide (text = lit "<xml>" ++ [0]) then Some (OSDictionary [(lit "com.apple.private.memorystatus", OSBoolean true)]) else None.
Definition sample_kworld : kworld := KWorld ∅ ∅ 0 1 [] [].
Lemma sample_kworld_ok : kw_ok sample_kworld.
Proof.
  split; cbn; [lia | intros p [? H] | intros p [? H] | intros p e n H | intros p e n H | intros p q e e' n n' H];
    by rewrite lookup_empty in H.
Qed.

Lemma check_signature_grants_witness : exists b b' f w',
  cs_blob_init_validated 14 (toy_hash 20) (toy_hash 32) (toy_hash 48) sample_sig_mem 4096 277 = Ret (0, Some b, 4124, false) /\
  sweet_amfi_vnode_check_signature true sample_parse true sample_sig_mem (Some MNT_ROOTFS) (Some (at_base b 0)) 0x2803 sample_kworld =
    Ret (0, f, Some b', w') /\
  Z.testbit f 26 = true /\ Z.testbit f 11 = false /\ csb_entitlements b' <> 0.
Proof.
  destruct (check_signature_grants 14 (toy_hash 20) (toy_hash 32) (toy_hash 48) sample_sig_mem 4096 277 4124 4360 0 sample_hash
    true true sample_parse (Some MNT_ROOTFS) 0 0x2803 sample_kworld sample_valid sample_kworld_ok)
    as (b & b' & f & w' & Hb & Hc & Hf & _ & _ & Hg & _).
  exists b, b', f, w'. split; [exact Hb |]. split; [exact Hc |]. split; [rewrite Hf by lia; vm_compute; reflexivity |].
  split; [rewrite Hf by lia; vm_compute; reflexivity |].
  apply (Hg eq_refl [(lit "com.apple.private.memorystatus", OSBoolean true)]). split; [discriminate |].
  split; [vm_compute; reflexivity |]. split; [vm_compute; reflexivity |]. split; [vm_compute; reflexivity |].
  split; vm_compute; reflexivity.
Defined.

Lemma entitlements_released_witness : exists p w' w2,
  sweet_entitlements_create sample_parse sample_sig_mem 4360 13 sample_kworld = Ret (p, w') /\ p <> 0 /\
  ent_release p w' = Ret (tt, w2) /\ same_heap sample_kworld w2.
Proof.
  assert (mapped sample_sig_mem 4360 13) as Hm by (apply (mapped_sub sample_sig_mem 4096 277); [exact sample_sig_mapped | lia | lia]).
  destruct (entitlements_released sample_parse sample_sig_mem 4360 13 sample_kworld sample_sig_bytes Hm ltac:(lia) ltac:(lia)
    sample_kworld_ok) as (p & w' & Hc & _ & _ & Hrel).
  assert (p = 2) as -> by (vm_compute in Hc; by injection Hc as <- _).
  destruct Hrel as (w2 & H1 & H2 & _); [done |]. exists 2, w', w2. by split_and!.
Defined.
