(* ===== verification/CodeSignBlob.v ===== *)
(** * Attaching signatures to files

    Models the part of bsd/kern/ubc_subr.c that keeps the signatures of a file: rewriting a
    signature with a second level of page hashes, [ubc_cs_blob_add] with everything it checks,
    the list of signature objects, their release, revalidation and generation count; and
    [load_code_signature] of bsd/kern/mach_loader.c, which calls them when a program is loaded.

    The code signing monitor, reconstitution and supplemental signatures are not configured, so
    the branches for them are absent and [reconstitute_code_signature] and its second stage
    return 0.  Pointer authentication, locks and messages have no counterpart.  The two
    allocators are an interface ([SigAlloc]); the policy is the one of Amfi. *)

From stdpp Require Import base list strings gmap.
From Stdlib Require Import ZArith Lia.
From S2P Require Import Prelude XzsfsCore Memory Kernel CodeSign Amfi.

(** ** Constants *)

Definition EAGAIN : Z := 35.
Definition EALREADY : Z := 37.
Definition ENEEDAUTH : Z := 81.

Definition CSMAGIC_BLOBWRAPPER : Z := 0xfade0b01.
Definition CSSLOT_SIGNATURESLOT : Z := 0x10000.
Definition CSSLOT_ALTERNATE_CODEDIRECTORY_MAX : Z := 5.
Definition CS_SUPPORTSEXECSEG : Z := 0x20400.
Definition CS_EXECSEG_MAIN_BINARY : Z := 0x1.
Definition CS_PLATFORM_PATH : Z := 0x08000000.
Definition CS_BLOB_ADD_ALLOW_MAIN_BINARY : Z := 1.
Definition MAC_VNODE_CHECK_DYLD_SIM : Z := 0x1.
Definition CPU_TYPE_ANY : Z := -1.
Definition UI_CSBLOBINVALID : Z := 0x00000100.

(** ** The allocators *)

(** Where [kalloc_data_tag] puts a number of bytes (0: nowhere), and where [zalloc_ro] puts a
    signature object. *)
Class SigAlloc := {
  kalloc_data_tag : mem -> Z -> Z;
  zalloc_ro : gmap Z cs_blob -> Z;
}.

Section memory.
Context (MACH_ASSERT : bool) `{SigAlloc}.

Definition ubc_cs_blob_allocate (m : mem) (size : Z) : outcome (Z * mem) :=
  let p := kalloc_data_tag m size in
  _ ← kassert MACH_ASSERT (negb (p =? 0));
  Ret (p, if p =? 0 then m else fun x => if (p <=? x) && (x <? p + size) then Some 0 else m x).

Definition ubc_cs_blob_deallocate (m : mem) (addr size : Z) : outcome mem :=
  _ ← load_bytes m addr (Z.to_nat size);
  Ret (fun x => if (addr <=? x) && (x <? addr + size) then None else m x).
End memory.

(** ** Writing a signature anew *)

(** [*p = htonl(v)]. *)
Definition put32 (m : mem) (p v : Z) : outcome mem := store_bytes m p (be_split (u32 v)).

(** [superblob->index[k]]. *)
Definition put_index (m : mem) (sb k offset type : Z) : outcome mem :=
  m ← put32 m (blob_index sb k + field_offset CS_BlobIndex "offset" 0) offset;
  put32 m (blob_index sb k + field_offset CS_BlobIndex "type" 0) type.

(** [memcpy] of [n] bytes. *)
Definition copy_mem (m : mem) (dst src n : Z) : outcome mem :=
  l ← load_bytes m src (Z.to_nat n); store_bytes m dst l.

(** A blob that is there, with its slot. *)
Definition present (slot b : Z) : list (Z * Z) := if b =? 0 then [] else [(slot, b)].

(** The space of blobs with their index entries. *)
Fixpoint parts_size (m : mem) (parts : list (Z * Z)) : outcome Z :=
  match parts with
  | [] => Ret 0
  | (_, b) :: parts =>
      len ← blob32 m b "length"; rest ← parts_size m parts; Ret (sizeof CS_BlobIndex + len + rest)
  end.

(** The blobs copied one behind the other, each with its index entry. *)
Fixpoint copy_parts (m : mem) (sb blob_index blob_offset : Z) (parts : list (Z * Z)) : outcome mem :=
  match parts with
  | [] => Ret m
  | (slot, b) :: parts =>
      m ← put_index m sb blob_index blob_offset slot;
      len ← blob32 m b "length";
      m ← copy_mem m (sb + blob_offset) b len;
      copy_parts m sb (blob_index + 1) (u32 (blob_offset + len)) parts
  end.

Section signatures.
Context (PAGE_SHIFT : Z) (MACH_ASSERT : bool) (sha1 sha256 sha384 : bytes -> bytes) `{SigAlloc}.

(** The blobs that are kept behind the code directory, in their order, or EINVAL. *)
Definition kept_parts (m : mem) (blob : cs_blob) : outcome (option (list (Z * Z))) :=
  let find slot magic := b ← csblob_find_blob_bytes m (csb_mem_kaddr blob) (csb_mem_size blob) slot magic; Ret (default 0 b) in
  self ← find CSSLOT_LAUNCH_CONSTRAINT_SELF CSMAGIC_EMBEDDED_LAUNCH_CONSTRAINT;
  parent ← find CSSLOT_LAUNCH_CONSTRAINT_PARENT CSMAGIC_EMBEDDED_LAUNCH_CONSTRAINT;
  responsible ← find CSSLOT_LAUNCH_CONSTRAINT_RESPONSIBLE CSMAGIC_EMBEDDED_LAUNCH_CONSTRAINT;
  library ← find CSSLOT_LIBRARY_CONSTRAINT CSMAGIC_EMBEDDED_LAUNCH_CONSTRAINT;
  cms ← find CSSLOT_SIGNATURESLOT CSMAGIC_BLOBWRAPPER;
  first ← (if negb (cms =? 0) then find CSSLOT_CODEDIRECTORY CSMAGIC_CODEDIRECTORY else Ret (csb_cd blob));
  Ret (if first =? 0 then None
       else Some (present CSSLOT_DER_ENTITLEMENTS (csb_der_entitlements_blob blob) ++
                  present CSSLOT_LAUNCH_CONSTRAINT_SELF self ++ present CSSLOT_LAUNCH_CONSTRAINT_PARENT parent ++
                  present CSSLOT_LAUNCH_CONSTRAINT_RESPONSIBLE responsible ++ present CSSLOT_LIBRARY_CONSTRAINT library ++
                  present CSSLOT_ENTITLEMENTS (csb_entitlements_blob blob) ++ present CSSLOT_SIGNATURESLOT cms ++
                  (if first =? csb_cd blob then [] else [(CSSLOT_CODEDIRECTORY, first)]))).

(** Is the first code directory kept beside the best one? *)
Definition keeps_first (parts : list (Z * Z)) : bool := existsb (fun e => e.1 =? CSSLOT_CODEDIRECTORY) parts.

(** The result: error, the new signature and its size, and its code directory. *)
Definition ubc_cs_reconstitute_code_signature (m : mem) (blob : cs_blob) (code_directory_size : Z)
    : outcome (Z * Z * Z * Z * mem) :=
  let best := csb_cd blob in
  if best =? 0 then Panic
  else
    best_len ← blob32 m best "length";
    let cd_size := if code_directory_size =? 0 then best_len else code_directory_size in
    kept ← kept_parts m blob;
    match kept with
    | None => Ret (EINVAL, 0, 0, 0, m)
    | Some parts =>
        rest ← parts_size m parts;
        let new_blob_size := sizeof CS_SuperBlob + (sizeof CS_BlobIndex + cd_size) + rest in
        let num_blobs := 1 + zlen parts in
        '(sb, m) ← ubc_cs_blob_allocate MACH_ASSERT m new_blob_size;
        m ← put32 m (sb + field_offset CS_SuperBlob "magic" 0) CSMAGIC_EMBEDDED_SIGNATURE;
        m ← put32 m (sb + field_offset CS_SuperBlob "length" 0) new_blob_size;
        m ← put32 m (sb + field_offset CS_SuperBlob "count" 0) num_blobs;
        let blob_offset := u32 (sizeof CS_SuperBlob + num_blobs * sizeof CS_BlobIndex) in
        m ← put_index m sb 0 blob_offset
              (if keeps_first parts then CSSLOT_ALTERNATE_CODEDIRECTORIES else CSSLOT_CODEDIRECTORY);
        m ← (if 0 <? code_directory_size then store_bytes m (sb + blob_offset) (replicate (Z.to_nat cd_size) 0)
             else copy_mem m (sb + blob_offset) best cd_size);
        m ← copy_parts m sb 1 (u32 (blob_offset + cd_size)) parts;
        if code_directory_size =? 0 then
          '(error, _) ← cs_validate_csblob PAGE_SHIFT sha1 sha256 sha384 m sb new_blob_size;
          if negb (error =? 0) then m ← ubc_cs_blob_deallocate m sb new_blob_size; Ret (EINVAL, 0, 0, 0, m)
          else Ret (0, sb, new_blob_size, sb + blob_offset, m)
        else Ret (0, sb, new_blob_size, sb + blob_offset, m)
    end.

(** ** A second level of hashes *)

(** One scatter entry, scaled. *)
Definition scale_scatter (shift : Z) (st : mem * Z) : outcome (ctl (mem * Z) mem) :=
  let '(m, scatter) := st in
  scount ← be_field SC_Scatter m scatter "count";
  sbase ← be_field SC_Scatter m scatter "base";
  if scount =? 0 then Ret (Exit m)
  else
    m ← put32 m (scatter + field_offset SC_Scatter "count" 0) (Z.shiftr scount shift);
    m ← put32 m (scatter + field_offset SC_Scatter "base" 0) (Z.shiftr sbase shift);
    Ret (Next (m, scatter + sizeof SC_Scatter)).

(** One hash of hashes. *)
Definition combine_hashes (hashtype : cs_hash) (hashSize source_hash_len src_base dst_base : Z) (hash_index : Z) (m : mem)
    : outcome (ctl mem Empty_set) :=
  src ← load_bytes m (src_base + u32 (hash_index * source_hash_len)) (Z.to_nat source_hash_len);
  m ← store_bytes m (dst_base + u32 (hash_index * hashSize)) (cs_digest hashtype src);
  Ret (Next m).

(** The object once its signature is replaced. *)
Definition with_signature (b : cs_blob) (addr size cd der start_offset end_offset : Z) : cs_blob :=
  CsBlob (csb_ro b) (csb_cpu_type b) (csb_cpu_subtype b) (csb_flags b) (csb_base_offset b) start_offset end_offset
    size (csb_mem_offset b) addr (csb_cdhash b) (csb_hashtype b) PAGE_SHIFT (csb_hash_pageshift b) cd (csb_teamid b)
    0 der (csb_entitlements b) (csb_platform_binary b) (csb_platform_path b) (csb_signer_type b) true (csb_vnode b).

(** The new directory up to its code slots, its fields, then the hashes of hashes. *)
Definition fill_directory (fuel : nat) (m : mem) (hashtype : cs_hash) (old_cd new_cd new_cdsize shift : Z) : outcome mem :=
  hashOffset ← cd32 m old_cd "hashOffset";
  m ← copy_mem m new_cd old_cd hashOffset;
  m ← put32 m (new_cd + field_offset CS_CodeDirectory "length" 0) new_cdsize;
  slots ← cd32 m new_cd "nCodeSlots";
  let nCodeSlots := Z.shiftr slots shift in
  m ← put32 m (new_cd + field_offset CS_CodeDirectory "nCodeSlots" 0) nCodeSlots;
  m ← store_bytes m (new_cd + field_offset CS_CodeDirectory "pageSize" 0) [PAGE_SHIFT];
  scatterOffset ← scatter_offset m new_cd;
  m ← (if negb (scatterOffset =? 0) then loop_ret fuel (scale_scatter shift) (m, new_cd + scatterOffset) else Ret m);
  oldOffset ← cd32 m old_cd "hashOffset";
  newOffset ← cd32 m new_cd "hashOffset";
  oldSize ← cd8 m old_cd "hashSize";
  newSize ← cd8 m new_cd "hashSize";
  r ← for_ret (Z.to_nat nCodeSlots) 0
        (combine_hashes hashtype newSize (u32 (Z.shiftl oldSize shift)) (old_cd + oldOffset) (new_cd + newOffset)) m;
  match r with Next m => Ret m | Exit e => match (e : Empty_set) with end end.

Definition ubc_cs_convert_to_multilevel_hash (m : mem) (blob : cs_blob) : outcome (Z * cs_blob * mem) :=
  let shift := u32 (PAGE_SHIFT - csb_hash_pageshift blob) in
  let old_cd := csb_cd blob in
  hashOffset ← cd32 m old_cd "hashOffset";
  slots ← cd32 m old_cd "nCodeSlots";
  hashSize ← cd8 m old_cd "hashSize";
  let new_cdsize := hashOffset + u32 (Z.shiftr slots shift * hashSize) in
  '(error, addr, size, new_cd, m) ← ubc_cs_reconstitute_code_signature m blob new_cdsize;
  if negb (error =? 0) then Ret (error, blob, m)
  else
    _ ← csblob_find_blob_bytes m addr size CSSLOT_ENTITLEMENTS CSMAGIC_EMBEDDED_ENTITLEMENTS;
    _ ← csblob_find_blob_bytes m addr size CSSLOT_DER_ENTITLEMENTS CSMAGIC_EMBEDDED_DER_ENTITLEMENTS;
    match csb_hashtype blob with
    | None => Fault
    | Some hashtype =>
        m ← fill_directory (Z.to_nat size) m hashtype old_cd new_cd new_cdsize shift;
        '(error, (cd, _, der)) ← cs_validate_csblob PAGE_SHIFT sha1 sha256 sha384 m addr size;
        if negb (error =? 0) then m ← ubc_cs_blob_deallocate m addr size; Ret (error, blob, m)
        else
          m ← ubc_cs_blob_deallocate m (csb_mem_kaddr blob) (csb_mem_size blob);
          codeLimit ← cd32 m cd "codeLimit";
          scatterOffset ← scatter_offset m cd;
          start_offset ← (if negb (scatterOffset =? 0)
                          then base ← be_field SC_Scatter m (cd + scatterOffset) "base"; Ret (base * PAGE_SIZE PAGE_SHIFT)
                          else Ret 0);
          Ret (0, with_signature blob addr size cd der start_offset codeLimit, m)
    end.

Definition setup_multilevel_hashing (m : mem) (blob : cs_blob) : outcome (Z * cs_blob * mem) :=
  supported ← ubc_cs_supports_multilevel_hash PAGE_SHIFT (Z.to_nat (csb_mem_size blob)) m blob;
  if negb (supported : bool) then Ret (0, blob, m) else ubc_cs_convert_to_multilevel_hash m blob.

(** ** Checks of a signature *)

(** [ntohll]. *)
Definition load_be64 (m : mem) (p : Z) : outcome Z :=
  hi ← load_be32 m p; lo ← load_be32 m (p + 4); Ret (hi * 2 ^ 32 + lo).

(** The executable segment flags of a code directory, if it is there and has them. *)
Definition exec_seg_flags (m : mem) (cd : option Z) : outcome Z :=
  match cd with
  | None => Ret 0
  | Some cd =>
      version ← cd32 m cd "version";
      if CS_SUPPORTSEXECSEG <=? version then load_be64 m (cd + field_offset CS_CodeDirectory "execSegFlags" 0) else Ret 0
  end.

Definition alternate_flags (m : mem) (csblob : cs_blob) (i : Z) (flags : Z) : outcome (ctl Z Empty_set) :=
  alt_cd ← csblob_find_blob m csblob (CSSLOT_ALTERNATE_CODEDIRECTORIES + i) CSMAGIC_CODEDIRECTORY;
  f ← exec_seg_flags m alt_cd;
  Ret (Next (Z.lor flags f)).

Definition validate_main_binary_check (m : mem) (csblob : cs_blob) (csblob_add_flags : Z) : outcome Z :=
  if negb (Z.land csblob_add_flags CS_BLOB_ADD_ALLOW_MAIN_BINARY =? 0) then Ret 0
  else
    first_cd ← csblob_find_blob m csblob CSSLOT_CODEDIRECTORY CSMAGIC_CODEDIRECTORY;
    f ← exec_seg_flags m first_cd;
    r ← for_ret (Z.to_nat CSSLOT_ALTERNATE_CODEDIRECTORY_MAX) 0 (alternate_flags m csblob) f;
    match r with
    | Next flags => Ret (if negb (Z.land flags CS_EXECSEG_MAIN_BINARY =? 0) then EBADEXEC else 0)
    | Exit e => match (e : Empty_set) with end
    end.

Definition identifiers : list (Z * Z) :=
  [ (CSSLOT_LAUNCH_CONSTRAINT_SELF, CSMAGIC_EMBEDDED_LAUNCH_CONSTRAINT);
    (CSSLOT_LAUNCH_CONSTRAINT_PARENT, CSMAGIC_EMBEDDED_LAUNCH_CONSTRAINT);
    (CSSLOT_LAUNCH_CONSTRAINT_RESPONSIBLE, CSMAGIC_EMBEDDED_LAUNCH_CONSTRAINT);
    (CSSLOT_LIBRARY_CONSTRAINT, CSMAGIC_EMBEDDED_LAUNCH_CONSTRAINT) ].

Fixpoint validate_slots (m : mem) (cs_blob : cs_blob) (ids : list (Z * Z)) : outcome Z :=
  match ids with
  | [] => Ret 0
  | (slot, magic) :: ids =>
      '(err, _, _) ← csblob_find_special_slot_blob m cs_blob slot magic;
      if negb (err =? 0) then Ret EPERM else validate_slots m cs_blob ids
  end.
Definition validate_auxiliary_signed_blobs (m : mem) (cs_blob : cs_blob) : outcome Z := validate_slots m cs_blob identifiers.

(** The policy has nothing to adjust. *)
Definition sweet_amfi_adjust_without_monitor : Z := KERN_SUCCESS.
Definition accelerate_entitlement_queries : Z :=
  if negb (sweet_amfi_adjust_without_monitor =? KERN_SUCCESS) then EPERM else 0.

(** ** The signatures of a file *)

(** [cs_blobs] is the list by the addresses of the objects, the newest first; [csb_next] is the
    next element. *)
Record ubc_info := UbcInfo {
  ui_flags : Z;
  cs_add_gen : Z;
  cs_mtime : Z * Z;
  cs_blobs : list Z;
}.

Record cs_statistics := CsStatistics {
  cs_blob_count : Z;
  cs_blob_count_peak : Z;
  cs_blob_size : Z;
  cs_blob_size_peak : Z;
  cs_blob_size_max : Z;
}.

(** Kernel memory, the heap of the policy, the signature objects, the file's [ubc_info] (none
    when it is no regular file), the statistics and the generation count. *)
Record csworld := CsWorld {
  cw_mem : mem;
  cw_kw : kworld;
  cw_zone : gmap Z cs_blob;
  cw_ubc : option ubc_info;
  cw_stats : cs_statistics;
  cs_blob_generation_count : Z;
}.

Definition in_mem {A} (f : mem -> outcome (A * mem)) : prog csworld A := fun w =>
  '(a, m) ← f (cw_mem w);
  Ret (a, CsWorld m (cw_kw w) (cw_zone w) (cw_ubc w) (cw_stats w) (cs_blob_generation_count w)).
Definition reads {A} (f : mem -> outcome A) : prog csworld A := fun w => a ← f (cw_mem w); Ret (a, w).
Definition in_policy {A} (f : mem -> prog kworld A) : prog csworld A := fun w =>
  '(a, kw) ← f (cw_mem w) (cw_kw w);
  Ret (a, CsWorld (cw_mem w) kw (cw_zone w) (cw_ubc w) (cw_stats w) (cs_blob_generation_count w)).
Definition on_zone (f : gmap Z cs_blob -> gmap Z cs_blob) : prog csworld unit :=
  act (fun w => CsWorld (cw_mem w) (cw_kw w) (f (cw_zone w)) (cw_ubc w) (cw_stats w) (cs_blob_generation_count w)).
Definition on_ubc (f : ubc_info -> ubc_info) : prog csworld unit :=
  act (fun w => CsWorld (cw_mem w) (cw_kw w) (cw_zone w) (f <$> cw_ubc w) (cw_stats w) (cs_blob_generation_count w)).
Definition on_stats (f : cs_statistics -> cs_statistics) : prog csworld unit :=
  act (fun w => CsWorld (cw_mem w) (cw_kw w) (cw_zone w) (cw_ubc w) (f (cw_stats w)) (cs_blob_generation_count w)).
Definition panics {A} : prog csworld A := fun _ => Panic.
Definition faults {A} : prog csworld A := fun _ => Fault.
Definition asks {A} (f : csworld -> A) : prog csworld A := fun w => Ret (f w, w).

(** An object by its address. *)
Definition object (p : Z) : prog csworld cs_blob := fun w => b ← of_option (cw_zone w !! p); Ret (b, w).

Definition set_blobs (l : list Z) (u : ubc_info) : ubc_info := UbcInfo (ui_flags u) (cs_add_gen u) (cs_mtime u) l.
Definition set_gen (g : Z) (u : ubc_info) : ubc_info := UbcInfo (ui_flags u) g (cs_mtime u) (cs_blobs u).
Definition set_mtime (t : Z * Z) (u : ubc_info) : ubc_info := UbcInfo (ui_flags u) (cs_add_gen u) t (cs_blobs u).
Definition set_uiflags (f : Z) (u : ubc_info) : ubc_info := UbcInfo f (cs_add_gen u) (cs_mtime u) (cs_blobs u).

(** ** Fields of an object *)

Definition with_cpu (b : cs_blob) (cputype cpusubtype : Z) : cs_blob :=
  CsBlob (csb_ro b) cputype cpusubtype (csb_flags b) (csb_base_offset b) (csb_start_offset b) (csb_end_offset b)
    (csb_mem_size b) (csb_mem_offset b) (csb_mem_kaddr b) (csb_cdhash b) (csb_hashtype b) (csb_hash_pageshift b)
    (csb_hash_firstlevel_pageshift b) (csb_cd b) (csb_teamid b) (csb_entitlements_blob b) (csb_der_entitlements_blob b)
    (csb_entitlements b) (csb_platform_binary b) (csb_platform_path b) (csb_signer_type b) (csb_reconstituted b) (csb_vnode b).
Definition with_place (b : cs_blob) (base_offset vnode : Z) : cs_blob :=
  CsBlob (csb_ro b) (csb_cpu_type b) (csb_cpu_subtype b) (csb_flags b) base_offset (csb_start_offset b) (csb_end_offset b)
    (csb_mem_size b) (csb_mem_offset b) (csb_mem_kaddr b) (csb_cdhash b) (csb_hashtype b) (csb_hash_pageshift b)
    (csb_hash_firstlevel_pageshift b) (csb_cd b) (csb_teamid b) (csb_entitlements_blob b) (csb_der_entitlements_blob b)
    (csb_entitlements b) (csb_platform_binary b) (csb_platform_path b) (csb_signer_type b) (csb_reconstituted b) vnode.
Definition with_signer (b : cs_blob) (flags signer_type : Z) (platform path : bool) (teamid : Z) : cs_blob :=
  CsBlob (csb_ro b) (csb_cpu_type b) (csb_cpu_subtype b) flags (csb_base_offset b) (csb_start_offset b) (csb_end_offset b)
    (csb_mem_size b) (csb_mem_offset b) (csb_mem_kaddr b) (csb_cdhash b) (csb_hashtype b) (csb_hash_pageshift b)
    (csb_hash_firstlevel_pageshift b) (csb_cd b) teamid (csb_entitlements_blob b) (csb_der_entitlements_blob b)
    (csb_entitlements b) platform path signer_type (csb_reconstituted b) (csb_vnode b).
(** The copy in read-only memory. *)
Definition read_only (b : cs_blob) : cs_blob :=
  CsBlob true (csb_cpu_type b) (csb_cpu_subtype b) (csb_flags b) (csb_base_offset b) (csb_start_offset b) (csb_end_offset b)
    (csb_mem_size b) (csb_mem_offset b) (csb_mem_kaddr b) (csb_cdhash b) (csb_hashtype b) (csb_hash_pageshift b)
    (csb_hash_firstlevel_pageshift b) (csb_cd b) (csb_teamid b) (csb_entitlements_blob b) (csb_der_entitlements_blob b)
    (csb_entitlements b) (csb_platform_binary b) (csb_platform_path b) (csb_signer_type b) (csb_reconstituted b) (csb_vnode b).

(** ** Release *)

Definition cs_blob_cleanup (blob : cs_blob) : prog csworld unit :=
  _ ← (if negb (csb_entitlements blob =? 0) then in_policy (fun _ => ent_release (csb_entitlements blob)) else mret tt);
  if negb (csb_mem_kaddr blob =? 0)
  then in_mem (fun m => m ← ubc_cs_blob_deallocate m (csb_mem_kaddr blob) (csb_mem_size blob); Ret (tt, m))
  else mret tt.

Definition cs_blob_ro_free (p : Z) : prog csworld unit :=
  if p =? 0 then mret tt
  else blob ← object p; _ ← cs_blob_cleanup blob; on_zone (delete p).
Definition cs_blob_free : Z -> prog csworld unit := cs_blob_ro_free.

(** The loop over a list of objects that is no longer attached. *)
Fixpoint free_blobs (ps : list Z) : prog csworld unit :=
  match ps with
  | [] => mret tt
  | p :: ps =>
      blob ← object p;
      _ ← on_stats (fun s => CsStatistics (u32 (cs_blob_count s - 1)) (cs_blob_count_peak s)
                               (u64 (cs_blob_size s - csb_mem_size blob)) (cs_blob_size_peak s) (cs_blob_size_max s));
      _ ← cs_blob_ro_free p;
      free_blobs ps
  end.

Definition ubc_cs_free : prog csworld unit :=
  u ← asks cw_ubc;
  match u with
  | None => mret tt
  | Some u => _ ← free_blobs (cs_blobs u); on_ubc (set_blobs [])
  end.

Definition ubc_cs_free_and_vnode_unlock : prog csworld unit :=
  u ← asks cw_ubc;
  match u with
  | None => faults
  | Some u =>
      if Z.land (ui_flags u) UI_CSBLOBINVALID =? 0 then mret tt
      else
        _ ← on_ubc (set_uiflags (Z.land (ui_flags u) (u32 (Z.lnot UI_CSBLOBINVALID))));
        _ ← on_ubc (set_blobs []);
        free_blobs (cs_blobs u)
  end.

(** The result: error, object (0 for none) and code directory. *)
Definition cs_blob_create_validated (addr size : Z) (want : bool) : prog csworld (Z * Z * Z) :=
  '(error, blob, cd, freed) ← reads (fun m => cs_blob_init_validated PAGE_SHIFT sha1 sha256 sha384 m addr size);
  match blob with
  | None =>
      _ ← (if (freed : bool) then in_mem (fun m => m ← ubc_cs_blob_deallocate m addr size; Ret (tt, m)) else mret tt);
      mret (error, 0, cd)
  | Some blob =>
      if want then p ← asks (fun w => zalloc_ro (cw_zone w)); _ ← on_zone <[p := read_only blob]>; mret (error, p, cd)
      else mret (error, 0, cd)
  end.

(** ** Adding a signature *)

Definition ubc_cs_blob_adjust_statistics (blob : cs_blob) (s : cs_statistics) : cs_statistics :=
  let count := u32 (cs_blob_count s + 1) in
  let size := u64 (cs_blob_size s + csb_mem_size blob) in
  CsStatistics count (Z.max count (cs_blob_count_peak s)) size (Z.max size (cs_blob_size_peak s))
    (Z.max (csb_mem_size blob) (cs_blob_size_max s)).

(** The list, checked to belong to the file. *)
Definition ubc_get_cs_blobs (vp : Z) : prog csworld (list Z) :=
  u ← asks cw_ubc;
  match u with
  | None => mret []
  | Some u =>
      match cs_blobs u with
      | [] => mret []
      | p :: ps => b ← object p; if negb (csb_vnode b =? vp) then panics else mret (p :: ps)
      end
  end.

(** [strcmp(a, b) == 0] of two team identifiers. *)
Definition same_team (m : mem) (fuel : nat) (a b : Z) : outcome bool :=
  x ← load_cstr fuel m a; y ← load_cstr fuel m b; Ret (bool_decide (x = y)).

(** Same signer, and both platform binaries, or of the same team, or of none. *)
Definition same_signer (m : mem) (blob oblob : cs_blob) : outcome bool :=
  if negb (csb_signer_type blob =? csb_signer_type oblob) then Ret false
  else if csb_platform_binary blob then Ret (csb_platform_binary oblob)
  else if negb (csb_teamid blob =? 0) then
    if csb_platform_binary oblob || (csb_teamid oblob =? 0) then Ret false
    else same_team m (Z.to_nat (csb_mem_size blob + csb_mem_size oblob)) (csb_teamid oblob) (csb_teamid blob)
  else Ret (negb (csb_platform_binary oblob || negb (csb_teamid oblob =? 0))).

(** Where the code a signature covers starts and ends in the file. *)
Definition file_start (b : cs_blob) : Z := s64 (csb_base_offset b + csb_start_offset b).
Definition file_end (b : cs_blob) : Z := s64 (csb_base_offset b + csb_end_offset b).

(** The same signature of the same code. *)
Definition same_blob (blob oblob : cs_blob) : bool :=
  (file_start blob =? file_start oblob) && (file_end blob =? file_end oblob) &&
  (csb_mem_size blob =? csb_mem_size oblob) && (csb_flags blob =? csb_flags oblob) &&
  ((csb_cpu_type blob =? CPU_TYPE_ANY) || (csb_cpu_type oblob =? CPU_TYPE_ANY) || (csb_cpu_type blob =? csb_cpu_type oblob)) &&
  bool_decide (csb_cdhash blob = csb_cdhash oblob).

(** Against the signatures the file has: nothing in the way, or the error and the object. *)
Fixpoint check_overlap (blob : cs_blob) (ps : list Z) : prog csworld (option (Z * Z)) :=
  match ps with
  | [] => mret None
  | p :: ps =>
      oblob ← object p;
      ok ← reads (fun m => same_signer m blob oblob);
      if negb ok then mret (Some (EALREADY, 0))
      else if (file_end oblob <=? file_start blob) || (file_end blob <=? file_start oblob) then check_overlap blob ps
      else if same_blob blob oblob then mret (Some (EAGAIN, p))
      else mret (Some (EALREADY, 0))
  end.

Definition cs_blob_set_cpu_type (p cputype : Z) : prog csworld unit :=
  on_zone (alter (fun b => with_cpu b cputype (csb_cpu_subtype b)) p).

(** What the rest of the kernel answers: the flags of the file's mount, [memory_object_signed],
    and the time of the file's last change. *)
Record surroundings := Surroundings {
  env_mount : option Z;
  env_memory_object_signed : Z;
  env_mtime : Z * Z;
}.

(** Into the list of the file; 0 and the object, or the error. *)
Definition attach_blob (env : surroundings) (vp : Z) (blob : cs_blob) (cputype blob_ro : Z) : prog csworld (Z * Z) :=
  u ← asks cw_ubc;
  match u with
  | None => mret (ENOENT, 0)
  | Some u =>
      ps ← ubc_get_cs_blobs vp;
      r ← check_overlap blob ps;
      gen ← asks cs_blob_generation_count;
      match r with
      | Some (error, p) =>
          if error =? EAGAIN then
            oblob ← object p;
            _ ← (if csb_cpu_type oblob =? CPU_TYPE_ANY then cs_blob_set_cpu_type p cputype else mret tt);
            _ ← on_ubc (set_gen gen);
            mret (EAGAIN, p)
          else mret (error, 0)
      | None =>
          if negb (env_memory_object_signed env =? KERN_SUCCESS) then mret (ENOENT, 0)
          else
            _ ← on_ubc (set_gen gen);
            _ ← on_stats (ubc_cs_blob_adjust_statistics blob);
            _ ← on_zone <[blob_ro := read_only blob]>;
            _ ← on_ubc (set_blobs (blob_ro :: cs_blobs u));
            _ ← (match cs_blobs u with [] => on_ubc (set_mtime (env_mtime env)) | _ => mret tt end);
            mret (0, blob_ro)
      end
  end.

Context (OSUnserializeXML : bytes -> option os_object) (sweet_amfi_debug : bool).

(** What the policy says is put into the object. *)
Definition apply_policy (blob : cs_blob) (cs_flags signer_type : Z) : cs_blob :=
  if negb (Z.land cs_flags CS_PLATFORM_BINARY =? 0)
  then with_signer blob cs_flags signer_type true (negb (Z.land cs_flags CS_PLATFORM_PATH =? 0)) 0
  else with_signer blob cs_flags signer_type false false (csb_teamid blob).

(** [mac_vnode_check_signature]: the policy of Amfi is the only one with this hook.  The
    result: error, flags and the object. *)
Definition mac_vnode_check_signature (env : surroundings) (blob : cs_blob) (cs_flags : Z) : prog csworld (Z * Z * cs_blob) :=
  '(error, cs_flags, b) ← in_policy (fun m =>
    sweet_amfi_vnode_check_signature MACH_ASSERT OSUnserializeXML sweet_amfi_debug m (env_mount env) (Some blob) cs_flags);
  match b with Some b => mret (error, cs_flags, b) | None => faults end.

(** The checks behind the policy: hashes of hashes, the constraints, the team and the coverage. *)
Definition settle_blob (blob : cs_blob) : prog csworld (Z * cs_blob) :=
  '(error, blob) ← in_mem (fun m => '(e, b, m) ← setup_multilevel_hashing m blob; Ret (e, b, m));
  if negb (error =? 0) then mret (error, blob)
  else
    error ← reads (fun m => validate_auxiliary_signed_blobs m blob);
    if negb (error =? 0) then mret (error, blob)
    else if negb (accelerate_entitlement_queries =? 0) then mret (accelerate_entitlement_queries, blob)
    else
      team ← (if Z.land (csb_flags blob) CS_PLATFORM_BINARY =? 0
              then reads (fun m => csblob_parse_teamid m blob) else mret (csb_teamid blob));
      let blob := with_signer blob (csb_flags blob) (csb_signer_type blob) (csb_platform_binary blob) (csb_platform_path blob) team in
      if file_end blob <=? file_start blob then mret (EINVAL, blob)
      else if (file_start blob <? 0) || (file_end blob <=? 0) then mret (EINVAL, blob)
      else mret (0, blob).

Definition check_blob (env : surroundings) (blob : cs_blob) (flags csblob_add_flags : Z) : prog csworld (Z * cs_blob) :=
  error ← reads (fun m => validate_main_binary_check m blob csblob_add_flags);
  if negb (error =? 0) then mret (error, blob)
  else
    let signer_type := csb_signer_type blob in
    '(error, cs_flags, blob) ← mac_vnode_check_signature env blob (csb_flags blob);
    if negb (error =? 0) then mret (error, blob)
    else
      let blob := apply_policy blob cs_flags signer_type in
      if negb (Z.land flags MAC_VNODE_CHECK_DYLD_SIM =? 0) && negb (csb_platform_binary blob) then mret (EPERM, blob)
      else settle_blob blob.

(** The result: error and the object attached to the file, 0 for none. *)
Definition ubc_cs_blob_add (env : surroundings) (vp cputype cpusubtype base_offset addr size flags csblob_add_flags : Z)
    : prog csworld (Z * Z) :=
  '(error, blob, _, freed) ← reads (fun m => cs_blob_init_validated PAGE_SHIFT sha1 sha256 sha384 m addr size);
  match blob with
  | None =>
      _ ← (if (freed : bool) then in_mem (fun m => m ← ubc_cs_blob_deallocate m addr size; Ret (tt, m)) else mret tt);
      mret (error, 0)
  | Some blob =>
      let blob := with_place (with_cpu blob cputype (Z.land cpusubtype (Z.lnot CPU_SUBTYPE_MASK))) base_offset vp in
      blob_ro ← asks (fun w => zalloc_ro (cw_zone w));
      _ ← on_zone <[blob_ro := read_only blob]>;
      '(error, blob) ← check_blob env blob flags csblob_add_flags;
      '(error, ret_blob) ← (if negb (error =? 0) then mret (error, 0) else attach_blob env vp blob cputype blob_ro);
      _ ← (if negb (error =? 0) then _ ← cs_blob_cleanup blob; on_zone (delete blob_ro) else mret tt);
      mret (if error =? EAGAIN then 0 else error, ret_blob)
  end.

(** ** Revalidation *)

Definition ubc_cs_generation_check (w : csworld) : Z :=
  match cw_ubc w with
  | Some u => if cs_add_gen u =? cs_blob_generation_count w then 0 else ENEEDAUTH
  | None => ENEEDAUTH
  end.

Definition cs_blob_reset_cache : prog csworld unit :=
  act (fun w => CsWorld (cw_mem w) (cw_kw w) (cw_zone w) (cw_ubc w) (cw_stats w) (u32 (cs_blob_generation_count w + 2))).

Definition ubc_get_cs_mtime (w : csworld) : Z * Z := match cw_ubc w with Some u => cs_mtime u | None => (0, 0) end.

Definition ubc_cs_blob_revalidate (env : surroundings) (p : Z) : prog csworld Z :=
  blob ← object p;
  if Z.land (csb_flags blob) CS_VALID =? 0 then mret EPERM
  else
    '(error, (cd, _, _)) ← reads (fun m => cs_validate_csblob PAGE_SHIFT sha1 sha256 sha384 m (csb_mem_kaddr blob) (csb_mem_size blob));
    if negb (error =? 0) then mret error
    else
      flags ← reads (fun m => cd32 m cd "flags");
      let cs_flags := Z.lor (Z.land flags CS_ALLOWED_MACHO) CS_VALID in
      if csb_reconstituted blob then mret EAGAIN
      else
        '(error, cs_flags, _) ← mac_vnode_check_signature env blob cs_flags;
        _ ← on_zone (alter (fun b => with_signer b cs_flags CS_SIGNER_TYPE_UNKNOWN (csb_platform_binary b) (csb_platform_path b) (csb_teamid b)) p);
        gen ← asks cs_blob_generation_count;
        _ ← on_ubc (set_gen (if error =? 0 then gen else 0));
        mret error.

(** ** Loading a program *)

Definition LOAD_BADMACHO : Z := 2.
Definition LOAD_FAILURE : Z := 4.
Definition LOAD_IOERROR : Z := 9.
Definition LOAD_SUCCESS : Z := 0.
Definition sizeof_linkedit_data_command : Z := 16.

(** The command that says where in the file the signature is. *)
Record linkedit_data_command := LinkeditDataCommand {
  cmdsize : Z;
  dataoff : Z;
  datasize : Z;
}.

(** The objects of the list, as [ubc_cs_blob_get] walks them. *)
Fixpoint objects (ps : list Z) : prog csworld (list (Z * cs_blob)) :=
  match ps with
  | [] => mret []
  | p :: ps => b ← object p; rest ← objects ps; mret ((p, b) :: rest)
  end.

Definition find_attached (vp cputype cpusubtype offset : Z) : prog csworld (option (Z * cs_blob)) :=
  ps ← ubc_get_cs_blobs vp;
  l ← objects ps;
  mret (List.find (fun e => match ubc_cs_blob_get [e.2] cputype cpusubtype offset with Some _ => true | None => false end) l).

(** Reading [n] bytes of the file at an offset: error, bytes not read, and the content. *)
Definition file_reader : Type := Z -> Z -> Z * Z * bytes.

(** The signature is read from the file and added. *)
Definition read_and_add (env : surroundings) (vn_rdwr : file_reader) (vp cputype cpusubtype macho_offset macho_size : Z)
    (lcp : linkedit_data_command) : prog csworld (Z * Z) :=
  if negb (cmdsize lcp =? sizeof_linkedit_data_command) then mret (LOAD_BADMACHO, 0)
  else if (2 ^ 32 <=? dataoff lcp + datasize lcp) || (macho_size <? dataoff lcp + datasize lcp) then mret (LOAD_BADMACHO, 0)
  else
    addr ← in_mem (fun m => ubc_cs_blob_allocate MACH_ASSERT m (datasize lcp));
    let '(error, resid, content) := vn_rdwr (macho_offset + dataoff lcp) (datasize lcp) in
    _ ← in_mem (fun m => m ← store_bytes m addr content; Ret (tt, m));
    if negb (error =? 0) || negb (resid =? 0) then
      _ ← (if negb (addr =? 0) then in_mem (fun m => m ← ubc_cs_blob_deallocate m addr (datasize lcp); Ret (tt, m)) else mret tt);
      mret (LOAD_IOERROR, 0)
    else
      '(error, blob) ← ubc_cs_blob_add env vp cputype cpusubtype macho_offset addr (datasize lcp) 0 CS_BLOB_ADD_ALLOW_MAIN_BINARY;
      if negb (error =? 0) then mret (LOAD_FAILURE, 0)
      else if blob =? 0 then panics else mret (LOAD_SUCCESS, blob).

Definition load_code_signature (env : surroundings) (vn_rdwr : file_reader) (vp cputype cpusubtype macho_offset macho_size : Z)
    (lcp : linkedit_data_command) : prog csworld (Z * Z) :=
  let cpusubtype := Z.land cpusubtype (Z.lnot CPU_SUBTYPE_MASK) in
  found ← find_attached vp cputype cpusubtype macho_offset;
  match found with
  | None => read_and_add env vn_rdwr vp cputype cpusubtype macho_offset macho_size lcp
  | Some (p, blob) =>
      let anyCPU := csb_cpu_type blob =? -1 in
      if (negb (csb_cpu_type blob =? cputype) && negb (csb_cpu_subtype blob =? cpusubtype) && negb anyCPU) ||
         negb (csb_base_offset blob =? macho_offset) || (Z.land (csb_flags blob) CS_VALID =? 0)
      then mret (LOAD_BADMACHO, 0)
      else
        current ← asks (fun w => ubc_cs_generation_check w =? 0);
        if negb anyCPU && current then mret (LOAD_SUCCESS, p)
        else
          error ← ubc_cs_blob_revalidate env p;
          if error =? 0 then
            _ ← (if anyCPU then on_zone (alter (fun b => with_cpu b cputype cpusubtype) p) else mret tt);
            mret (LOAD_SUCCESS, p)
          else if negb (error =? EAGAIN) then mret (LOAD_FAILURE, 0)
          else read_and_add env vn_rdwr vp cputype cpusubtype macho_offset macho_size lcp
  end.
End signatures.
