(* ===== verification/CodeSignMulti.v ===== *)
(** * Code signatures: hashes of hashes

    Converting a signature with 4K page hashes to the kernel's page size: the new signature is
    built in memory of its own, with the hashes of the groups of old hashes in its slots, and the
    old one is given back.  What this means for pages is in CodeSignLevels. *)

From stdpp Require Import base list strings gmap.
From Stdlib Require Import ZArith Lia.
From S2P Require Import Prelude XzsfsCore Memory Kernel CodeSign CodeSignProofs CodeSignPage CodeSignAuth CodeSignFrame Amfi AmfiProofs CodeSignBlob.

Definition VM_MAX_KERNEL_ADDRESS : Z := 0xfffffffbffffffff.

(** What the allocators promise: memory that was not there, or none; an object that was not there. *)
Class SigAllocLaws {A : SigAlloc} : Prop := {
  kalloc_fresh m n : 0 < n -> let p := kalloc_data_tag m n in
    p = 0 \/ (0 < p /\ p + n <= VM_MAX_KERNEL_ADDRESS /\ forall x, p <= x < p + n -> m x = None);
  zalloc_fresh z : zalloc_ro z <> 0 /\ z !! zalloc_ro z = None;
}.

(** ** The best code directory is the only one of its rank *)

Lemma max_rank_elem m es t b : (t, b) ∈ es -> is_cd_slot t = true -> rank m b <= max_rank m es.
Proof.
  intros Hin Ht. induction es as [|e es IH]; [by apply elem_of_nil in Hin |]. unfold max_rank in *. cbn [foldr].
  apply elem_of_cons in Hin as [<- | Hin]; cbn [fst snd]; [rewrite Ht; lia |]. specialize (IH Hin). destruct (is_cd_slot e.1); lia.
Qed.

Lemma max_rank_mono m es es' : max_rank m es <= max_rank m (es ++ es').
Proof.
  unfold max_rank. induction es as [|e es IH]; cbn [foldr app]; [| destruct (is_cd_slot e.1); lia].
  induction es' as [|e es' IH']; cbn [foldr]; [lia |]. destruct (is_cd_slot e.1); lia.
Qed.

Lemma entries_app m addr i n : (i <= n)%nat -> exists rest, entries m addr n = entries m addr i ++ rest.
Proof.
  intros Hi. unfold entries. exists ((fun k => entry m addr (Z.of_nat k)) <$> seq i (n - i)).
  rewrite <- fmap_app, <- seq_app. do 2 f_equal. lia.
Qed.

Section valid.
Context {PAGE_SHIFT : Z} {sha1 sha256 sha384 : bytes -> bytes} {m : mem} {addr size cd ent der : Z} {h : cs_hash}.
Context (V : valid_signature PAGE_SHIFT sha1 sha256 sha384 m addr size cd ent der h).

Lemma best_unique t b : (t, b) ∈ indexed m addr -> is_cd_slot t = true -> b = cd \/ rank m b < rank m cd.
Proof.
  unfold indexed. destruct (valid_wf V) as [cd0 es H8 Hl -> Hc Hall Hb Hne | H8 Hl -> Hok]; cbn [Z.eqb].
  2:{ intros [= -> ->]%list_elem_of_singleton _. by left. }
  rewrite Z.eqb_refl. intros Hin Ht. destruct Hb as [(t0 & Hin0 & Ht0 & Hr0) | [? _]]; [| done].
  pose proof (max_rank_elem m _ _ _ Hin Ht) as Hle. destruct (decide (rank m b = rank m cd0)) as [E | E]; [left | right; fold es in Hle; lia].
  unfold es in *. apply entries_in in Hin as (i & Hi & Ei). apply entries_in in Hin0 as (j & Hj & Ej).
  assert (forall i j, (i < j < Z.to_nat (be m (addr + 8)))%nat -> forall x y, entry m addr (Z.of_nat i) = x -> entry m addr (Z.of_nat j) = y ->
    is_cd_slot x.1 = true -> is_cd_slot y.1 = true -> rank m x.2 = rank m y.2 ->
    rank m y.2 = max_rank m (entries m addr (Z.to_nat (be m (addr + 8)))) -> False) as Hno.
  { intros i' j' Hij x y Ex Ey Hx Hy Hxy Hmax. destruct (Hall j') as [_ _ H3 _]; [lia |]. rewrite Ey in H3. destruct (H3 Hy) as [_ H3'].
    apply H3'. assert (x ∈ entries m addr j') as Hxin by (rewrite <- Ex; apply list_elem_of_fmap; exists i'; split; [done |]; apply elem_of_seq; lia).
    destruct x as [tx bx]. pose proof (max_rank_elem m _ _ _ Hxin Hx) as H1. cbn [snd fst] in *.
    destruct (entries_app m addr j' (Z.to_nat (be m (addr + 8)))) as [rest Er]; [lia |].
    pose proof (max_rank_mono m (entries m addr j') rest) as H2. rewrite <- Er in H2. lia. }
  destruct (decide (i = j)) as [-> | Hij]; [rewrite Ei in Ej; by injection Ej |]. exfalso.
  destruct (decide (i < j)%nat).
  - eapply (Hno i j); [lia | exact Ei | exact Ej | done | done | cbn [snd]; lia | cbn [snd]; lia].
  - eapply (Hno j i); [lia | exact Ej | exact Ei | done | done | cbn [snd]; lia | cbn [snd]; lia].
Qed.

(** ** The blobs that are kept *)

Definition found (slot magic : Z) : Z := default 0 (snd <$> List.find (wanted m slot magic) (indexed m addr)).

Lemma found_in slot magic : found slot magic <> 0 ->
  (slot, found slot magic) ∈ indexed m addr /\ blob_in m addr size (found slot magic).
Proof.
  unfold found. destruct (List.find _ _) as [[t b] |] eqn:E; cbn; [| done]. intros Hb. apply find_some in E as [Hin Hw].
  apply list_elem_of_In in Hin. apply andb_true_iff in Hw as [Ht%Z.eqb_eq _]. cbn in Ht. subst t. split; [done |].
  exact (indexed_in V _ Hin).
Qed.

(** A blob that is copied: it is there, and if it is a code directory it is not the best one. *)
Record part_ok (e : Z * Z) : Prop := {
  po_slot : is_u32 e.1;
  po_in : blob_in m addr size e.2;
  po_cd : is_cd_slot e.1 = true -> 112 <= blen m e.2 /\ rank m e.2 < rank m cd;
}.

Lemma present_ok slot b : (b <> 0 -> blob_in m addr size b) -> is_cd_slot slot = false -> is_u32 slot -> Forall part_ok (present slot b).
Proof.
  intros Hb Hs Hu. unfold present. destruct (Z.eqb_spec b 0); [constructor |]. apply Forall_singleton. split; cbn; [done | by apply Hb |].
  by rewrite Hs.
Qed.

Lemma kept_parts_spec b : describes addr size cd ent der h b -> cd <> 0 -> exists o, kept_parts m b = Ret o /\
  forall parts, o = Some parts -> Forall part_ok parts /\ (length parts <= 8)%nat.
Proof.
  intros [_ Ha Hs Hc _ He Hd] Hcd. unfold kept_parts. rewrite Ha, Hs, Hc, He, Hd.
  assert (forall slot magic, (x ← csblob_find_blob_bytes m addr size slot magic; Ret (default 0 x)) = Ret (found slot magic)) as Hf.
  { intros slot magic. by rewrite (find_blob_spec V). }
  cbv zeta. rewrite !Hf. cbn [mbind outcome_bind].
  assert (exists first, (if negb (found CSSLOT_SIGNATURESLOT CSMAGIC_BLOBWRAPPER =? 0)
      then Ret (found CSSLOT_CODEDIRECTORY CSMAGIC_CODEDIRECTORY) else Ret cd) = Ret first /\
    (first = cd \/ first = found CSSLOT_CODEDIRECTORY CSMAGIC_CODEDIRECTORY)) as (first & -> & Hfirst).
  { destruct (negb _); eexists; split; [done | by right | done | by left]. }
  cbn [mbind outcome_bind]. eexists. split; [reflexivity |]. intros parts.
  destruct (Z.eqb_spec first 0) as [| Hnz]; [done |]. intros [= <-].
  destruct (signature_slot _ _ _ _ m (vs_bytes _ _ _ _ _ _ _ _ _ _ _ V) _ _ _ _ _ (valid_wf V)) as [Hent Hder]. split.
  - repeat (apply Forall_app; split); try (apply present_ok; [| done | done]); try (intros Hx; by apply found_in in Hx as [_ ?]); try tauto.
    destruct (Z.eqb_spec first cd) as [| Hne]; [constructor |]. destruct Hfirst as [? | Hfirst]; [done |]. apply Forall_singleton.
    rewrite Hfirst in Hnz. apply found_in in Hnz as [Hin Hbi]. rewrite <- Hfirst in *. split; [done | done |]. intros _. split.
    + by eapply (indexed_cd V).
    + destruct (best_unique _ _ Hin eq_refl); done.
  - rewrite !length_app. unfold present. repeat case_match; cbn; lia.
Qed.
End valid.

(** ** Writing the new signature *)

Lemma put32_spec m a v : mapped m a 4 -> exists m', put32 m a v = Ret m' /\ be m' a = u32 v /\ within m m' a 4.
Proof.
  intros Hm. destruct (store_spec (be_split (u32 v)) m a) as (m' & E & Hs & Hw); [done | apply be_split_u8 |].
  exists m'. split; [exact E |]. split; [| exact Hw]. apply (be_stored m' a (u32 v) []); [by rewrite app_nil_r | apply u32_range].
Qed.

Lemma copy_mem_spec m dst src n : mapped m dst n -> mapped m src n -> byte_mem m -> 0 <= n ->
  exists m', copy_mem m dst src n = Ret m' /\ within m m' dst n /\ forall i, 0 <= i < n -> m' (dst + i) = m (src + i).
Proof.
  intros Hd Hs Hb Hn. unfold copy_mem. rewrite (load_bytes_span m src n) by (done || lia). cbn [mbind outcome_bind].
  destruct (store_spec (span m src n) m dst) as (m' & E & Hst & Hw); [by rewrite zlen_span | by apply span_u8 |].
  rewrite zlen_span in Hw by done. exists m'. split; [exact E |]. split; [exact Hw |]. intros i Hi.
  destruct (Hs (src + i)) as [b Eb]; [lia |]. rewrite Eb. replace (dst + i) with (dst + Z.of_nat (Z.to_nat i)) by lia. apply Hst.
  pose proof (span_stored m src n Hs (Z.to_nat i)) as Hss. destruct (lookup_lt_is_Some_2 (span m src n) (Z.to_nat i)) as [c Hc];
    [pose proof (zlen_span m src n Hn); unfold zlen in *; lia |]. rewrite Hc. specialize (Hss _ Hc).
  replace (src + Z.of_nat (Z.to_nat i)) with (src + i) in Hss by lia. congruence.
Qed.

Lemma put_index_spec m sb k off type : mapped m (blob_index sb k) 8 -> is_u32 off -> is_u32 type ->
  exists m', put_index m sb k off type = Ret m' /\ entry m' sb k = (type, sb + off) /\ within m m' (blob_index sb k) 8.
Proof.
  intros Hm Ho Ht. unfold put_index. change (field_offset CS_BlobIndex "offset" 0) with 4. change (field_offset CS_BlobIndex "type" 0) with 0.
  rewrite Z.add_0_r. set (a := blob_index sb k) in *.
  destruct (put32_spec m (a + 4) off) as (m1 & -> & E1 & W1); [apply (mapped_sub m a 8); [done | lia | lia] |]. cbn [mbind outcome_bind].
  destruct (put32_spec m1 a type) as (m2 & -> & E2 & W2); [apply W1, (mapped_sub m a 8); [done | lia | lia] |].
  exists m2. split; [done |]. split.
  - unfold entry. fold a. rewrite E2, (be_eq m1 m2 (a + 4) (a + 4)) by (intros i Hi; apply W2; lia).
    by rewrite E1, !u32_small.
  - eapply within_steps; (eapply within_weaken; [eassumption | lia | lia]).
Qed.

Lemma blob_index_at sb k : blob_index sb k = sb + 12 + 8 * k.
Proof. unfold blob_index. rewrite sizeof_super, sizeof_index. lia. Qed.

Section rebuild.
Context {PAGE_SHIFT : Z} {sha1 sha256 sha384 : bytes -> bytes} {m : mem} {addr size cd ent der : Z} {h : cs_hash}.
Context (V : valid_signature PAGE_SHIFT sha1 sha256 sha384 m addr size cd ent der h).
Context (sb total : Z) (Hsb : 0 < sb) (Hfree : forall x, sb <= x < sb + total -> m x = None) (Htotal : total < 2 ^ 32).

Lemma src_apart x : addr <= x < addr + size -> ~ (sb <= x < sb + total).
Proof. intros Hx Hin. destruct (vs_mapped _ _ _ _ _ _ _ _ _ _ _ V x Hx) as [b Hb]. by rewrite Hfree in Hb. Qed.

(** Memory while the new signature is written: as before outside of it. *)
Record building (mc : mem) : Prop := {
  bu_mapped : mapped mc sb total;
  bu_bytes : byte_mem mc;
  bu_out : forall x, ~ (sb <= x < sb + total) -> mc x = m x;
}.

Lemma building_within mc mc' a n : building mc -> within mc mc' a n -> sb <= a -> a + n <= sb + total -> building mc'.
Proof.
  intros [B1 B2 B3] [W1 W2 W3] H1 H2. split; [auto | auto |]. intros x Hx. rewrite W1 by lia. by apply B3.
Qed.

Lemma building_src mc a n : building mc -> addr <= a -> a + n <= addr + size -> mapped mc a n /\ forall i, 0 <= i < n -> mc (a + i) = m (a + i).
Proof.
  intros [B1 B2 B3] H1 H2. split; [| intros i Hi; apply B3, src_apart; lia].
  intros x Hx. rewrite B3 by (apply src_apart; lia). apply (vs_mapped _ _ _ _ _ _ _ _ _ _ _ V). lia.
Qed.

Lemma building_blob mc b : building mc -> blob_in m addr size b -> blob32 mc b "length" = Ret (blen m b).
Proof.
  intros HB (H1 & H2 & H3). destruct (building_src mc b 8 HB H1 H2) as [Hm He]. unfold blob32.
  rewrite (be_field_ok mc (bu_bytes _ HB) CS_GenericBlob 8 b 8) by (done || lia). change (field_offset CS_GenericBlob "length" 0) with 4.
  unfold blen. f_equal. apply be_eq. intros i Hi. replace (b + 4 + i) with (b + (4 + i)) by lia. apply He. lia.
Qed.

Definition parts_len (parts : list (Z * Z)) : Z := foldr (fun e n => blen m e.2 + n) 0 parts.

Lemma blen_nonneg b : 0 <= blen m b.
Proof. apply be_u32, V. Qed.

Lemma parts_len_nonneg parts : 0 <= parts_len parts.
Proof. unfold parts_len. induction parts as [|e l IH]; cbn [foldr]; [done |]. pose proof (blen_nonneg e.2). lia. Qed.

Lemma parts_size_spec parts : Forall (part_ok (m := m) (addr := addr) (size := size) (cd := cd)) parts ->
  parts_size m parts = Ret (8 * zlen parts + parts_len parts).
Proof.
  induction 1 as [|[slot b] parts [_ Hin _] _ IH]; cbn [parts_size]; [done |]. cbn [snd] in Hin.
  rewrite (blob32_in V b) by tauto. cbn [mbind outcome_bind]. rewrite IH, sizeof_index. cbn [mbind outcome_bind].
  rewrite zlen_cons. cbn [parts_len foldr snd]. fold (parts_len parts). change (field_offset CS_GenericBlob "length" 0) with 4.
  fold (blen m b). f_equal. lia.
Qed.

(** Where the blobs of a list are, from entry [k] and offset [off] on. *)
Definition laid (m' : mem) (k off : Z) (parts : list (Z * Z)) : Prop :=
  forall j e, parts !! j = Some e -> exists o, off <= o /\ o + blen m e.2 <= total /\
    entry m' sb (k + Z.of_nat j) = (e.1, sb + o) /\ forall i, 0 <= i < blen m e.2 -> m' (sb + o + i) = m (e.2 + i).

Lemma copy_parts_spec parts : forall k off mc, Forall (part_ok (m := m) (addr := addr) (size := size) (cd := cd)) parts -> 0 <= k ->
  12 + 8 * (k + zlen parts) <= off -> off + parts_len parts <= total -> building mc ->
  exists m', copy_parts mc sb k off parts = Ret m' /\ building m' /\ laid m' k off parts /\
    forall x, x < sb + off -> ~ (blob_index sb k <= x < blob_index sb (k + zlen parts)) -> m' x = mc x.
Proof.
  induction parts as [|[slot b] parts IH]; intros k off mc Hp Hk Ho Ht HB; cbn [copy_parts].
  { exists mc. split_and!; [done | done | intros j e; by rewrite lookup_nil | done]. }
  apply Forall_cons in Hp as [[Hslot Hin _] Hp]. rewrite zlen_cons in Ho. cbn [parts_len foldr fst snd] in *. fold (parts_len parts) in Ht.
  pose proof (zlen_nonneg parts) as Hz. pose proof (blen_nonneg b) as Hb0. pose proof Hin as (Hi1 & Hi2 & Hi3).
  pose proof (parts_len_nonneg parts) as Hpl.
  destruct (put_index_spec mc sb k off slot) as (m1 & -> & E1 & W1); [| cint_unfold; lia | done |].
  { apply (mapped_sub mc sb total); [apply HB | rewrite blob_index_at; lia | rewrite blob_index_at; lia]. }
  cbn [mbind outcome_bind]. assert (building m1) as HB1 by (eapply building_within; [exact HB | exact W1 | rewrite blob_index_at; lia | rewrite blob_index_at; lia]).
  rewrite (building_blob m1 b HB1 Hin). cbn [mbind outcome_bind].
  destruct (building_src m1 b (blen m b) HB1 Hi1 Hi3) as [Hsrc Hse].
  destruct (copy_mem_spec m1 (sb + off) b (blen m b)) as (m2 & -> & W2 & C2); [| done | apply HB1 | done |].
  { apply (mapped_sub m1 sb total); [apply HB1 | lia | lia]. }
  cbn [mbind outcome_bind]. assert (building m2) as HB2 by (eapply building_within; [exact HB1 | exact W2 | lia | lia]).
  rewrite (u32_small (off + blen m b)) by (cint_unfold; lia).
  destruct (IH (k + 1) (off + blen m b) m2 Hp) as (m' & Hr & HB' & Hl & Hu); [lia | lia | lia | done |]. exists m'.
  split; [exact Hr |]. split; [done |]. rewrite !blob_index_at in *. split.
  - intros [|j] e; cbn [lookup list_lookup].
    + intros [= <-]. exists off. cbn [fst snd]. rewrite Z.add_0_r. split_and!; [lia | lia | |].
      * rewrite <- E1. unfold entry. rewrite !blob_index_at.
        rewrite (be_eq m1 m' (sb + 12 + 8 * k)), (be_eq m1 m' (sb + 12 + 8 * k + 4)) by (intros i Hi; rewrite Hu by lia; apply W2; lia). done.
      * intros i Hi. rewrite Hu by lia. rewrite <- Hse by lia. by apply C2.
    + intros He. destruct (Hl j e He) as (o & H1 & H2 & H3 & H4). exists o. split_and!; [lia | done | | done].
      rewrite <- H3. f_equal. lia.
  - intros x Hx Hn. rewrite zlen_cons in Hn. rewrite Hu by lia. rewrite (wi_out _ _ _ _ W2), (wi_out _ _ _ _ W1); [done | lia | lia].
Qed.

Lemma within_be mc mc' a n x : within mc mc' a n -> x + 4 <= a \/ a + n <= x -> be mc' x = be mc x.
Proof. intros W Hd. apply be_eq. intros i Hi. apply W. lia. Qed.

Lemma within_entry mc mc' a n k : within mc mc' a n -> blob_index sb k + 8 <= a \/ a + n <= blob_index sb k -> entry mc' sb k = entry mc sb k.
Proof. intros W Hd. unfold entry. by rewrite !(within_be mc mc' a n) by (done || lia). Qed.
End rebuild.

Section reconstitute.
Context {PAGE_SHIFT : Z} {sha1 sha256 sha384 : bytes -> bytes} {m : mem} {addr size cd ent der : Z} {h : cs_hash}.
Context (V : valid_signature PAGE_SHIFT sha1 sha256 sha384 m addr size cd ent der h) (MACH_ASSERT : bool) `{SigAllocLaws}.
Context (b : cs_blob) (Hb : describes addr size cd ent der h b) (Hcd : cd <> 0).
Context (parts : list (Z * Z)) (Hkept : kept_parts m b = Ret (Some parts)).
Context (n : Z) (Hn : 0 < n).

Definition new_size : Z := 20 + n + (8 * zlen parts + parts_len (m := m) parts).
Definition cd_at : Z := 12 + 8 * (1 + zlen parts).
Definition new_sb : Z := kalloc_data_tag m new_size.
Context (Hsmall : new_size < 2 ^ 32) (Hroom : new_sb <> 0).

Lemma kept_ok : Forall (part_ok (m := m) (addr := addr) (size := size) (cd := cd)) parts.
Proof. destruct (kept_parts_spec V b Hb Hcd) as (o & E & Ho). rewrite Hkept in E. injection E as <-. by apply Ho. Qed.

Lemma new_size_bounds : cd_at + n + parts_len (m := m) parts = new_size /\ 20 <= cd_at /\ 0 <= parts_len (m := m) parts.
Proof. pose proof (zlen_nonneg parts). pose proof (parts_len_nonneg V parts). unfold new_size, cd_at. lia. Qed.

Lemma new_fresh : 0 < new_sb /\ new_sb + new_size + 2 ^ 32 < 2 ^ 64 /\ forall x, new_sb <= x < new_sb + new_size -> m x = None.
Proof.
  pose proof new_size_bounds. destruct (kalloc_fresh m new_size) as [? | (? & ? & ?)]; [lia | done |].
  split_and!; [done | unfold VM_MAX_KERNEL_ADDRESS in *; fold new_sb in *; lia | done].
Qed.

(** The new signature with a zeroed code directory. *)
Record rebuilt (m1 : mem) : Prop := {
  rb_building : building (m := m) new_sb new_size m1;
  rb_magic : bmagic m1 new_sb = CSMAGIC_EMBEDDED_SIGNATURE;
  rb_length : blen m1 new_sb = new_size;
  rb_count : be m1 (new_sb + 8) = 1 + zlen parts;
  rb_cd : exists t, entry m1 new_sb 0 = (t, new_sb + cd_at) /\ is_cd_slot t = true;
  rb_parts : laid (m := m) new_sb new_size m1 1 (cd_at + n) parts;
}.

Lemma reconstitute_spec : exists m1,
  ubc_cs_reconstitute_code_signature PAGE_SHIFT MACH_ASSERT sha1 sha256 sha384 m b n = Ret (0, new_sb, new_size, new_sb + cd_at, m1) /\ rebuilt m1.
Proof.
  pose proof new_fresh as (Hf1 & Hf2 & Hf3). pose proof new_size_bounds as (Hs1 & Hs2 & Hs3). pose proof kept_ok as Hparts.
  pose proof (zlen_nonneg parts) as Hz. unfold ubc_cs_reconstitute_code_signature. pose proof Hb as [_ Ha Hsz Hc _ He Hd]. rewrite Hc.
  rewrite (proj2 (Z.eqb_neq cd 0)) by done.
  assert (blob_in m addr size cd) as Hcdin.
  { destruct (signature_cd _ _ _ _ m (vs_bytes _ _ _ _ _ _ _ _ _ _ _ V) _ _ _ _ _ (valid_wf V)) as (H1 & H2 & Hok).
    pose proof (cdo_size _ _ _ _ _ _ _ Hok). split; [done | split; lia]. }
  rewrite (blob32_in V cd) by tauto. cbn [mbind outcome_bind]. rewrite Hkept. cbn [mbind outcome_bind].
  rewrite (parts_size_spec V parts Hparts). cbn [mbind outcome_bind]. rewrite (proj2 (Z.eqb_neq n 0)), (proj2 (Z.ltb_lt 0 n)) by lia.
  rewrite sizeof_super, sizeof_index. replace (12 + (8 + n) + (8 * zlen parts + parts_len parts)) with new_size by (unfold new_size; lia).
  unfold ubc_cs_blob_allocate at 1. fold new_sb. unfold kassert. rewrite (proj2 (Z.eqb_neq new_sb 0)) by done. cbn [negb].
  rewrite andb_false_r. cbn [mbind outcome_bind]. set (m0 := fun x => if (new_sb <=? x) && (x <? new_sb + new_size) then Some 0 else m x).
  assert (building (m := m) new_sb new_size m0) as B0.
  { split.
    - intros x Hx. unfold m0. rewrite (proj2 (Z.leb_le _ _)), (proj2 (Z.ltb_lt _ _)) by lia. by eexists.
    - intros x v. unfold m0. destruct (_ && _); [intros [= <-]; by cint_unfold | apply V].
    - intros x Hx. unfold m0. destruct (Z.leb_spec new_sb x), (Z.ltb_spec x (new_sb + new_size)); cbn; (lia || done). }
  change (field_offset CS_SuperBlob "magic" 0) with 0. change (field_offset CS_SuperBlob "length" 0) with 4. change (field_offset CS_SuperBlob "count" 0) with 8.
  rewrite Z.add_0_r. replace (12 + (1 + zlen parts) * 8) with cd_at by (unfold cd_at; lia). rewrite (u32_small cd_at) by (cint_unfold; lia).
  rewrite (u32_small (cd_at + n)) by (cint_unfold; lia).
  assert (forall mc a k, building (m := m) new_sb new_size mc -> new_sb <= a -> a + k <= new_sb + new_size -> mapped mc a k) as Hsub
    by (intros mc a k HB H1 H2; apply (mapped_sub mc new_sb new_size); [apply HB | done | done]).
  destruct (put32_spec m0 new_sb CSMAGIC_EMBEDDED_SIGNATURE) as (m1 & -> & E1 & W1); [by apply Hsub; [| lia | lia] |]. cbn [mbind outcome_bind].
  assert (building (m := m) new_sb new_size m1) as B1 by (eapply building_within; [exact B0 | exact W1 | lia | lia]).
  destruct (put32_spec m1 (new_sb + 4) new_size) as (m2 & -> & E2 & W2); [by apply Hsub; [| lia | lia] |]. cbn [mbind outcome_bind].
  assert (building (m := m) new_sb new_size m2) as B2 by (eapply building_within; [exact B1 | exact W2 | lia | lia]).
  destruct (put32_spec m2 (new_sb + 8) (1 + zlen parts)) as (m3 & -> & E3 & W3); [by apply Hsub; [| lia | lia] |]. cbn [mbind outcome_bind].
  assert (building (m := m) new_sb new_size m3) as B3 by (eapply building_within; [exact B2 | exact W3 | lia | lia]).
  set (t := if keeps_first parts then CSSLOT_ALTERNATE_CODEDIRECTORIES else CSSLOT_CODEDIRECTORY).
  assert (is_u32 t /\ is_cd_slot t = true) as [Ht Htcd] by (unfold t; by destruct (keeps_first parts)).
  destruct (put_index_spec m3 new_sb 0 cd_at t) as (m4 & -> & E4 & W4);
    [apply Hsub; [done | rewrite blob_index_at; lia | rewrite blob_index_at; lia] | cint_unfold; lia | done |]. cbn [mbind outcome_bind].
  rewrite blob_index_at in W4.
  assert (building (m := m) new_sb new_size m4) as B4 by (eapply building_within; [exact B3 | exact W4 | lia | lia]).
  destruct (store_spec (replicate (Z.to_nat n) 0) m4 (new_sb + cd_at)) as (m5 & -> & _ & W5).
  { rewrite zlen_replicate. apply Hsub; [done | lia | lia]. }
  { apply Forall_replicate. by cint_unfold. }
  cbn [mbind outcome_bind]. rewrite zlen_replicate, Z2Nat.id in W5 by lia.
  assert (building (m := m) new_sb new_size m5) as B5 by (eapply building_within; [exact B4 | exact W5 | lia | lia]).
  destruct (copy_parts_spec V new_sb new_size Hf3 Hsmall parts 1 (cd_at + n) m5 Hparts) as (m6 & -> & B6 & L6 & U6);
    [lia | unfold cd_at; lia | lia | done |]. cbn [mbind outcome_bind].
  exists m6. split; [done |]. rewrite !blob_index_at in U6.
  assert (forall x, new_sb <= x -> x + 4 <= new_sb + 20 -> be m6 x = be m4 x) as Hkeep.
  { intros x H1 H2. apply be_eq. intros i Hi. rewrite U6 by lia. apply W5. lia. }
  split; try done.
  - unfold bmagic. rewrite Hkeep by lia. rewrite (within_be m3 m4 _ _ _ W4), (within_be m2 m3 _ _ _ W3), (within_be m1 m2 _ _ _ W2), E1 by lia. done.
  - unfold blen. rewrite Hkeep by lia. rewrite (within_be m3 m4 _ _ _ W4), (within_be m2 m3 _ _ _ W3), E2 by lia.
    apply u32_small. cint_unfold. lia.
  - rewrite Hkeep by lia. rewrite (within_be m3 m4 _ _ _ W4), E3 by lia. apply u32_small. cint_unfold. unfold cd_at in *. lia.
  - exists t. split; [| done]. rewrite <- E4. unfold entry. rewrite !blob_index_at, !Hkeep by lia. done.
Qed.
End reconstitute.

(** ** The new code directory *)

Section fill.
Context {PAGE_SHIFT : Z} {sha1 sha256 sha384 : bytes -> bytes} {m : mem} {addr size cd ent der : Z} {h : cs_hash}.
Context (V : valid_signature PAGE_SHIFT sha1 sha256 sha384 m addr size cd ent der h).
Context (sb total : Z) (Hsb : 0 < sb) (Hfree : forall x, sb <= x < sb + total -> m x = None) (Htotal : total < 2 ^ 32).
Context (new_cd shift : Z).

Abbreviation ho := (cdv m cd "hashOffset").
Abbreviation hs := (cs_size h).
Abbreviation slots := (cdv m cd "nCodeSlots").
Definition new_slots : Z := slots / 2 ^ shift.
Definition group : Z := hs * 2 ^ shift.
Definition dir_size : Z := ho + new_slots * hs.

(** The directory lies in the new signature; its header comes before its hashes; one digest
    fills one slot. *)
Context (Hin : sb <= new_cd /\ new_cd + dir_size <= sb + total) (Hshift : 0 < shift <= 2).
Context (Hheader : 112 <= ho) (Hplain : cd_scatter m cd = 0) (Hfull : cs_digest_size h = hs).

Lemma hash_facts : 20 <= hs <= 48 /\ cdb m cd "hashSize" = hs /\ ho + slots * hs <= blen m cd /\ addr <= cd /\
  cd + blen m cd <= addr + size /\ 112 <= blen m cd.
Proof.
  pose proof V as [Hd ? Hby ? ? ? ? _ Hh]. destruct (cd_inside _ _ _ _ m Hby addr size cd ent der (valid_wf V)) as (H1 & H2 & H3).
  destruct (cdo_hash _ _ _ _ _ _ _ (cd_wf _ _ _ _ m Hby addr size cd ent der (valid_wf V))) as (h' & Eh & Hs & _ & Hfit).
  rewrite Hh in Eh. injection Eh as <-. destruct (find_md_sizes _ _ _ _ _ Hh) as (_ & Hz & _).
  pose proof (hash_sizes _ _ _ _ cd h Hh). split_and!; (done || lia).
Qed.

Lemma slot_facts : 0 <= slots /\ 0 <= new_slots /\ new_slots * group <= slots * hs /\ group = hs * 2 ^ shift /\ 2 <= 2 ^ shift /\ size < 2 ^ 31.
Proof.
  pose proof hash_facts. pose proof V as [_ _ Hby _ Hsz _ _ _ _]. pose proof (be_u32 m (cd + field_offset CS_CodeDirectory "nCodeSlots" 0) Hby) as Hn.
  fold (cdv m cd "nCodeSlots") in Hn. cint_unfold.
  assert (2 ^ 1 <= 2 ^ shift) by (apply Z.pow_le_mono_r; lia). unfold new_slots, group.
  pose proof (Z.mul_div_le slots (2 ^ shift)). assert (0 <= slots / 2 ^ shift) by (apply Z.div_pos; lia). split_and!; try lia.
  replace (slots / 2 ^ shift * (hs * 2 ^ shift)) with (2 ^ shift * (slots / 2 ^ shift) * hs) by ring. apply Z.mul_le_mono_nonneg_r; lia.
Qed.

Lemma combine_spec mc q : building (m := m) sb total mc -> 0 <= q < new_slots ->
  exists m', combine_hashes h hs group (cd + ho) (new_cd + ho) q mc = Ret (Next m') /\
    within mc m' (new_cd + ho + q * hs) hs /\
    span m' (new_cd + ho + q * hs) hs = cs_digest h (span m (cd + ho + q * group) group).
Proof.
  intros HB Hq. pose proof hash_facts as (Hz & _ & Hfit & H1 & H2 & H3). pose proof slot_facts as (Hs0 & Hn0 & Hmul & Hg & Hp & Hsz).
  pose proof (cdv_u32 m (vs_bytes _ _ _ _ _ _ _ _ _ _ _ V) cd "hashOffset") as Hu. cint_unfold.
  assert (0 <= q * group /\ q * group + group <= new_slots * group) as [Hq0 Hq1] by (unfold group in *; nia).
  assert (0 <= q * hs /\ q * hs + hs <= new_slots * hs) as [Hq2 Hq3] by nia. unfold dir_size in Hin.
  unfold combine_hashes. rewrite (u32_small (q * group)) by (cint_unfold; lia). rewrite (u32_small (q * hs)) by (cint_unfold; unfold group in *; nia).
  destruct (building_src V sb total Hfree mc (cd + ho + q * group) group HB) as [Hsrc Hse]; [lia | lia |].
  assert (0 <= group) by (unfold group; nia).
  rewrite (load_bytes_span mc (cd + ho + q * group) group) by (done || lia). cbn [mbind outcome_bind].
  rewrite (span_eq m mc (cd + ho + q * group) (cd + ho + q * group) group) by done.
  set (d := cs_digest h (span m (cd + ho + q * group) group)).
  assert (zlen d = hs) as Hd by (unfold d; erewrite digest_length; by_valid).
  destruct (store_spec d mc (new_cd + ho + q * hs)) as (m' & E & Hst & W).
  { rewrite Hd. apply (mapped_sub mc sb total); [apply HB | lia | lia]. }
  { unfold d. eapply digest_u8; by_valid. }
  rewrite E. cbn [mbind outcome_bind]. exists m'. split; [done |]. rewrite Hd in W. split; [exact W |]. pose proof (span_of_stored _ _ _ Hst) as Es. by rewrite Hd in Es.
Qed.

Lemma combine_loop k : forall j mc, building (m := m) sb total mc -> 0 <= j -> j + Z.of_nat k <= new_slots ->
  exists m', for_ret k j (combine_hashes h hs group (cd + ho) (new_cd + ho)) mc = Ret (Next m') /\ building (m := m) sb total m' /\
    within mc m' (new_cd + ho + j * hs) (Z.of_nat k * hs) /\
    forall q, j <= q < j + Z.of_nat k -> span m' (new_cd + ho + q * hs) hs = cs_digest h (span m (cd + ho + q * group) group).
Proof.
  pose proof hash_facts as (Hz & _ & Hfit & H1 & H2 & H3).
  induction k as [|k IH]; intros j mc HB Hj Hk; cbn [for_ret].
  { exists mc. split_and!; [done | done | apply unchanged_within | lia]. }
  destruct (combine_spec mc j HB ltac:(lia)) as (m1 & -> & W1 & E1). cbn [mbind outcome_bind].
  assert (j * hs + hs <= new_slots * hs /\ 0 <= j * hs) as [Hj1 Hj2] by nia. unfold dir_size in Hin.
  assert (building (m := m) sb total m1) as HB1 by (eapply building_within; [exact HB | exact W1 | lia | lia]).
  destruct (IH (j + 1) m1 HB1) as (m' & Hr & HB' & W & E); [lia | lia |]. exists m'. split; [exact Hr |]. split; [done |].
  replace ((j + 1) * hs) with (j * hs + hs) in W by ring. replace (Z.of_nat (S k) * hs) with (hs + Z.of_nat k * hs) by lia. split.
  - eapply within_steps; (eapply within_weaken; [eassumption | lia | nia]).
  - intros q Hq. destruct (decide (q = j)) as [-> | Hne]; [| apply E; lia]. rewrite <- E1. apply span_eq. intros i Hi. apply W. lia.
Qed.

(** The new directory: its header with three fields changed, and a hash per group of hashes. *)
Record filled (m1 m2 : mem) : Prop := {
  fi_building : building (m := m) sb total m2;
  fi_within : within m1 m2 new_cd dir_size;
  fi_header : forall i, 0 <= i < ho -> ~ (4 <= i < 8) -> ~ (28 <= i < 32) -> i <> 39 -> m2 (new_cd + i) = m (cd + i);
  fi_length : be m2 (new_cd + 4) = dir_size;
  fi_slots : be m2 (new_cd + 28) = new_slots;
  fi_page : byte m2 (new_cd + 39) = PAGE_SHIFT;
  fi_hash : forall q, 0 <= q < new_slots -> span m2 (new_cd + ho + q * hs) hs = cs_digest h (span m (cd + ho + q * group) group);
}.

(** Fields of the two directories while the new one is written. *)
Lemma old_field mc f : building (m := m) sb total mc -> in_struct 112 CS_CodeDirectory 4 f = true -> cd32 mc cd f = Ret (cdv m cd f).
Proof.
  pose proof hash_facts as (_ & _ & _ & H1 & H2 & H3). intros HBc Hf. destruct (building_src V sb total Hfree mc cd 112 HBc) as [Hm He]; [lia | lia |].
  rewrite (cd32_ok mc (bu_bytes _ _ _ HBc) cd 112) by (done || lia). f_equal. apply be_eq. intros i Hi.
  unfold in_struct in Hf. rewrite <- Z.add_assoc. apply He. lia.
Qed.

Lemma dir_size_bounds : ho <= dir_size /\ 0 <= dir_size - ho /\ 0 <= ho < 2 ^ 32 /\ dir_size < 2 ^ 31.
Proof.
  pose proof hash_facts as (Hz & _ & Hfit & H1 & H2 & H3). pose proof slot_facts as (Hs0 & Hn0 & Hmul & Hg & Hp & Hsz).
  pose proof (cdv_u32 m (vs_bytes _ _ _ _ _ _ _ _ _ _ _ V) cd "hashOffset") as Hu. cint_unfold. unfold dir_size.
  pose proof (vs_end _ _ _ _ _ _ _ _ _ _ _ V). unfold group in *. nia.
Qed.

Lemma in_dir mc a k : building (m := m) sb total mc -> new_cd <= a -> a + k <= new_cd + dir_size -> mapped mc a k.
Proof. intros HBc Ha Hk. apply (mapped_sub mc sb total); [apply HBc | lia | lia]. Qed.

Lemma dir_step mc mc' a k : building (m := m) sb total mc -> within mc mc' a k -> new_cd <= a -> a + k <= new_cd + dir_size ->
  building (m := m) sb total mc' /\ within mc mc' new_cd dir_size.
Proof.
  intros HBc W Ha Hk. split; [eapply building_within; [exact HBc | exact W | lia | lia] | eapply within_weaken; [exact W | lia | lia]].
Qed.

Lemma new_field mc f : building (m := m) sb total mc -> in_struct 112 CS_CodeDirectory 4 f = true -> cd32 mc new_cd f = Ret (cdv mc new_cd f).
Proof.
  intros HBc Hf. pose proof dir_size_bounds. apply (cd32_ok mc (bu_bytes _ _ _ HBc) new_cd 112); [apply in_dir; [done | lia | lia] | done | lia | lia].
Qed.

Lemma fill_spec fuel m1 : building (m := m) sb total m1 -> exists m2,
  fill_directory PAGE_SHIFT fuel m1 h cd new_cd dir_size shift = Ret m2 /\ filled m1 m2.
Proof.
  intros HB. pose proof hash_facts as (Hz & Hhs & Hfit & H1 & H2 & H3). pose proof slot_facts as (Hs0 & Hn0 & Hmul & Hg & Hp & Hsz).
  pose proof (vs_shift _ _ _ _ _ _ _ _ _ _ _ V) as HPS. pose proof dir_size_bounds as (Hdir & Hdir' & Hu & Hd31).
  unfold fill_directory. rewrite (old_field m1) by done. cbn [mbind outcome_bind].
  destruct (building_src V sb total Hfree m1 cd ho HB) as [Hsrc Hse]; [lia | lia |].
  destruct (copy_mem_spec m1 new_cd cd ho) as (c1 & -> & W1 & C1); [apply in_dir; [done | lia | lia] | done | apply HB | lia |]. cbn [mbind outcome_bind].
  destruct (dir_step _ _ _ _ HB W1) as [B1 X1]; [lia | lia |].
  change (field_offset CS_CodeDirectory "length" 0) with 4. change (field_offset CS_CodeDirectory "nCodeSlots" 0) with 28.
  change (field_offset CS_CodeDirectory "pageSize" 0) with 39.
  destruct (put32_spec c1 (new_cd + 4) dir_size) as (c2 & -> & E2 & W2); [apply in_dir; [done | lia | lia] |]. cbn [mbind outcome_bind].
  destruct (dir_step _ _ _ _ B1 W2) as [B2 X2]; [lia | lia |].
  rewrite (new_field c2) by done. cbn [mbind outcome_bind].
  assert (cdv c2 new_cd "nCodeSlots" = slots) as ->.
  { apply be_eq. intros i Hi. change (field_offset CS_CodeDirectory "nCodeSlots" 0) with 28. rewrite (wi_out _ _ _ _ W2) by lia.
    rewrite <- !Z.add_assoc, C1, Hse by lia. done. }
  rewrite Z.shiftr_div_pow2 by lia. fold new_slots.
  destruct (put32_spec c2 (new_cd + 28) new_slots) as (c3 & -> & E3 & W3); [apply in_dir; [done | lia | lia] |]. cbn [mbind outcome_bind].
  destruct (dir_step _ _ _ _ B2 W3) as [B3 X3]; [lia | lia |].
  destruct (store_spec [PAGE_SHIFT] c3 (new_cd + 39)) as (c4 & -> & S4 & W4); [apply in_dir; [done | lia | change (zlen [PAGE_SHIFT]) with 1; lia] | |].
  { constructor; [cint_unfold; lia | constructor]. }
  cbn [mbind outcome_bind]. change (zlen [PAGE_SHIFT]) with 1 in W4.
  destruct (dir_step _ _ _ _ B3 W4) as [B4 X4]; [lia | lia |].
  assert (forall i, 0 <= i < ho -> ~ (4 <= i < 8) -> ~ (28 <= i < 32) -> i <> 39 -> c4 (new_cd + i) = m (cd + i)) as Hcopy.
  { intros i Hi N1 N2 N3. rewrite (wi_out _ _ _ _ W4), (wi_out _ _ _ _ W3), (wi_out _ _ _ _ W2), C1 by lia. apply Hse. lia. }
  assert (forall f, in_struct 112 CS_CodeDirectory 4 f = true -> let o := field_offset CS_CodeDirectory f 0 in
    (o + 4 <= 4 \/ 8 <= o) /\ (o + 4 <= 28 \/ 32 <= o) /\ (o + 4 <= 39 \/ 40 <= o) -> cdv c4 new_cd f = cdv m cd f) as Hfield.
  { intros f Hf o Ho. unfold in_struct in Hf. apply be_eq. intros i Hi. rewrite <- !Z.add_assoc. apply Hcopy; fold o in Hf |- *; lia. }
  assert (scatter_offset c4 new_cd = Ret 0) as ->.
  { unfold scatter_offset. rewrite !(new_field c4) by done. cbn [mbind outcome_bind]. rewrite !Hfield by (vm_compute; intuition congruence).
    unfold cd_scatter in Hplain. by destruct (_ <=? _); rewrite ?Hplain. }
  cbn [mbind outcome_bind Z.eqb negb]. rewrite (old_field c4), (new_field c4) by done. cbn [mbind outcome_bind].
  rewrite (Hfield "hashOffset"%string) by (vm_compute; intuition congruence).
  assert (cd8 c4 cd "hashSize" = Ret hs) as ->.
  { destruct (building_src V sb total Hfree c4 cd 112 B4) as [Hm He]; [lia | lia |]. rewrite (cd8_ok c4 cd 112) by (done || lia).
    rewrite <- Hhs. unfold cdb. f_equal. apply byte_eq, He.
    change (field_offset CS_CodeDirectory "hashSize" 0) with 36. lia. }
  assert (cd8 c4 new_cd "hashSize" = Ret hs) as ->.
  { rewrite (cd8_ok c4 new_cd 112); [| apply in_dir; [done | lia | lia] | done | lia | lia]. rewrite <- Hhs. unfold cdb. f_equal. apply byte_eq, Hcopy;
    change (field_offset CS_CodeDirectory "hashSize" 0) with 36; lia. }
  cbn [mbind outcome_bind]. rewrite Z.shiftl_mul_pow2 by lia. fold group.
  assert (u32 group = group) as ->.
  { apply u32_small. cint_unfold. unfold group. assert (2 ^ shift <= 2 ^ 2) by (apply Z.pow_le_mono_r; lia). nia. }
  destruct (combine_loop (Z.to_nat new_slots) 0 c4 B4) as (c5 & -> & B5 & W5 & E5); [lia | lia |]. cbn [mbind outcome_bind].
  rewrite Z2Nat.id in * by lia. rewrite Z.add_0_r in W5. exists c5. split; [done |]. split; [done | | | | | |].
  - repeat (eapply within_steps; [eassumption |]). eapply within_weaken; [exact W5 | lia | unfold dir_size; lia].
  - intros i Hi N1 N2 N3. rewrite (wi_out _ _ _ _ W5) by lia. by apply Hcopy.
  - rewrite (within_be c4 c5 _ _ _ W5), (within_be c3 c4 _ _ _ W4), (within_be c2 c3 _ _ _ W3), E2 by lia. apply u32_small. cint_unfold. lia.
  - rewrite (within_be c4 c5 _ _ _ W5), (within_be c3 c4 _ _ _ W4), E3 by lia. apply u32_small. cint_unfold. nia.
  - rewrite (byte_eq c4 c5 (new_cd + 39)) by (apply W5; lia). apply stored_cons in S4 as [S4 _]. unfold byte. by rewrite S4.
  - intros q Hq. by apply E5.
Qed.
End fill.

(** Searching any superblob whose index is inside it is safe, whatever the entries are. *)
Section search.
Context (m : mem) (sb total : Z) (Hbytes : byte_mem m) (Hmap : mapped m sb total).
Context (Hmagic : bmagic m sb = CSMAGIC_EMBEDDED_SIGNATURE) (Hcount : 12 + 8 * be m (sb + 8) <= total).
Context (Hsb : 0 < sb) (Hend : sb + total + 2 ^ 32 < 2 ^ 64).

Lemma find_step_safe type magic n : 0 <= n < be m (sb + 8) -> exists c, find_blob_step m sb total type magic n tt = Ret c.
Proof.
  intros Hn. unfold find_blob_step. rewrite !(be_field_ok m Hbytes CS_BlobIndex 8 sb total) by (done || (rewrite blob_index_at; lia)).
  cbn [mbind outcome_bind]. destruct (negb _); [by eexists |]. change (field_offset CS_BlobIndex "offset" 0) with 4.
  rewrite sizeof_generic. rewrite (u64_small (total - 8)) by (cint_unfold; lia).
  pose proof (be_u32 m (blob_index sb n + 4) Hbytes) as Ho. set (o := be m (blob_index sb n + 4)) in *.
  destruct (Z.ltb_spec (total - 8) o) as [| Hle]; [by eexists |]. cint_unfold.
  unfold blob32. rewrite !(be_field_ok m Hbytes CS_GenericBlob 8 sb total) by (done || lia). cbn [mbind outcome_bind].
  destruct (negb _); [by eexists |]. change (field_offset CS_GenericBlob "length" 0) with 4.
  pose proof (be_u32 m (sb + o + 4) Hbytes) as Hl. cint_unfold.
  rewrite (u64_small (sb + o + be m (sb + o + 4))) by (cint_unfold; lia). rewrite (proj2 (Z.ltb_ge _ (sb + o))) by lia. by eexists.
Qed.

Lemma find_blob_safe type magic : exists r, csblob_find_blob_bytes m sb total type magic = Ret r.
Proof.
  pose proof (be_u32 m (sb + 8) Hbytes) as Hc. cint_unfold. unfold csblob_find_blob_bytes.
  rewrite (u64_small (sb + total)), (proj2 (Z.ltb_ge _ sb)) by (cint_unfold; lia).
  assert (blob32 m sb "magic" = Ret CSMAGIC_EMBEDDED_SIGNATURE) as ->.
  { unfold blob32. rewrite (be_field_ok m Hbytes CS_GenericBlob 8 sb total) by (done || lia). rewrite <- Hmagic. unfold bmagic.
    by rewrite Z.add_0_r. }
  cbn [mbind outcome_bind]. rewrite Z.eqb_refl.
  rewrite (be_field_ok m Hbytes CS_SuperBlob 12 sb total) by (done || lia). cbn [mbind outcome_bind].
  change (field_offset CS_SuperBlob "count" 0) with 8.
  assert (forall k n, 0 <= n -> n + Z.of_nat k <= be m (sb + 8) -> exists c, for_ret k n (find_blob_step m sb total type magic) tt = Ret c) as Hloop.
  { induction k as [|k IH]; intros n H0 Hn; cbn [for_ret]; [by eexists |].
    destruct (find_step_safe type magic n) as [c ->]; [lia |]. cbn [mbind outcome_bind]. destruct c as [[] | r]; [apply IH; lia | by eexists]. }
  destruct (Hloop (Z.to_nat (be m (sb + 8))) 0) as [c ->]; [lia | lia |]. by eexists.
Qed.
End search.

(** ** The conversion *)

Section convert.
Context {PAGE_SHIFT : Z} {sha1 sha256 sha384 : bytes -> bytes} {m : mem} {addr size cd ent der : Z} {h : cs_hash}.
Context (V : valid_signature PAGE_SHIFT sha1 sha256 sha384 m addr size cd ent der h) (MACH_ASSERT : bool) `{SigAllocLaws}.
Context (b : cs_blob) (Hb : describes addr size cd ent der h b) (Hbshift : csb_hash_pageshift b = 12).
Context (Hshift : 12 < PAGE_SHIFT) (Hsmall : size < 2 ^ 27) (Hroom : forall k, 0 < k < 2 ^ 31 -> kalloc_data_tag m k <> 0).

(** The layouts the conversion is made for: the hashes behind the header, no scatter vector,
    digests that fill their slots. *)
Record convertible : Prop := {
  cv_header : 112 <= cdv m cd "hashOffset";
  cv_plain : cd_scatter m cd = 0;
  cv_full : cs_digest_size h = cs_size h;
}.
Context (Hcv : convertible).

Definition conv_shift : Z := PAGE_SHIFT - 12.

Lemma conv_shift_range : 0 < conv_shift <= 2.
Proof. pose proof (vs_shift _ _ _ _ _ _ _ _ _ _ _ V). unfold conv_shift. lia. Qed.

(** The signature after the conversion, at its new place. *)
Record converted (sb total new_cd ent' der' : Z) (m' : mem) : Prop := {
  co_valid : valid_signature PAGE_SHIFT sha1 sha256 sha384 m' sb total new_cd ent' der' h;
  co_old : forall x, addr <= x < addr + size -> m' x = None;
  co_out : forall x, ~ (addr <= x < addr + size) -> ~ (sb <= x < sb + total) -> m' x = m x;
  co_fresh : forall x, sb <= x < sb + total -> m x = None;
  co_fields : forall f, f ∈ ["version"; "hashOffset"; "codeLimit"; "scatterOffset"]%string -> cdv m' new_cd f = cdv m cd f;
  co_slots : cdv m' new_cd "nCodeSlots" = new_slots (m := m) (cd := cd) conv_shift;
  co_page : pageshift m' new_cd = PAGE_SHIFT;
  co_hash : forall q, 0 <= q < new_slots (m := m) (cd := cd) conv_shift -> code_slot m' new_cd h q =
    cs_digest h (span m (cd + cdv m cd "hashOffset" + q * group (h := h) conv_shift) (group (h := h) conv_shift));
}.

Section rebuilt.
Context (parts : list (Z * Z)) (Hkept : kept_parts m b = Ret (Some parts)) (Hparts : (length parts <= 8)%nat).
Abbreviation n := (dir_size (m := m) (cd := cd) (h := h) conv_shift).
Abbreviation sb := (new_sb (m := m) parts n).
Abbreviation total := (new_size (m := m) parts n).
Abbreviation new_cd := (sb + cd_at parts).

Lemma conv_room : 112 <= n < 2 ^ 31 /\ total < 2 ^ 31 /\ sb <> 0 /\ cd <> 0 /\ 0 < sb /\ sb + total + 2 ^ 32 < 2 ^ 64 /\
  (forall x, sb <= x < sb + total -> m x = None) /\ cd_at parts + n <= total /\ 20 <= cd_at parts.
Proof.
  destruct Hcv as [C1 C2 C3]. pose proof conv_shift_range as Hs. pose proof (dir_size_bounds V conv_shift Hs C1) as (D1 & D2 & D3 & D4).
  pose proof (hash_facts V) as (_ & _ & Hfit & Hcd & Hcd2 & Hcd3). pose proof (vs_addr _ _ _ _ _ _ _ _ _ _ _ V) as Ha.
  pose proof (slot_facts V conv_shift Hs) as (S1 & S2 & S3 & S4 & S5 & _).
  assert (n < 2 ^ 27) as Hn by (unfold dir_size, group in *; nia).
  assert (total < 2 ^ 31) as Ht.
  { assert (Forall (part_ok (m := m) (addr := addr) (size := size) (cd := cd)) parts) as Hok
      by (apply (kept_ok V b Hb ltac:(lia) parts Hkept)).
    assert (parts_len (m := m) parts <= zlen parts * size).
    { clear Hkept Hparts. unfold parts_len. induction Hok as [|e l [_ (P1 & P2 & P3) _] _ IH]; cbn [foldr]; [done |].
      rewrite zlen_cons. lia. }
    unfold new_size. unfold zlen in *. nia. }
  assert (sb <> 0) as Hsb0 by (apply Hroom; unfold new_size in *; pose proof (zlen_nonneg parts); pose proof (parts_len_nonneg V parts); lia).
  destruct (new_fresh V parts n ltac:(lia) Hsb0) as (F1 & F2 & F3). pose proof (new_size_bounds V parts n) as (N1 & N2 & N3).
  split_and!; (done || lia).
Qed.

Context (m1 m2 : mem) (R : rebuilt (m := m) parts n m1) (F : filled (PAGE_SHIFT := PAGE_SHIFT) (m := m) (cd := cd) (h := h) sb total new_cd conv_shift m1 m2).

Lemma conv_building : building (m := m) sb total m2.
Proof. apply F. Qed.

(** What was there before the directory was filled is still there. *)
Lemma conv_index : bmagic m2 sb = CSMAGIC_EMBEDDED_SIGNATURE /\ be m2 (sb + 8) = 1 + zlen parts /\
  (exists t, entry m2 sb 0 = (t, new_cd) /\ is_cd_slot t = true) /\ laid (m := m) sb total m2 1 (cd_at parts + n) parts.
Proof.
  pose proof conv_room as (_ & _ & _ & _ & _ & _ & _ & _ & Hc20). destruct R as [_ R1 R2 R3 R4 R5]. pose proof (fi_within _ _ _ _ _ _ F) as W.
  pose proof (zlen_nonneg parts) as Hz. assert (cd_at parts = 12 + 8 * (1 + zlen parts)) as Hat by reflexivity. split_and!.
  - unfold bmagic. rewrite (within_be m1 m2 _ _ _ W) by lia. exact R1.
  - rewrite (within_be m1 m2 _ _ _ W) by lia. exact R3.
  - destruct R4 as (t & E & Ht). exists t. split; [| done]. rewrite <- E. apply (within_entry sb m1 m2 _ _ 0 W). rewrite blob_index_at. lia.
  - intros j e He. destruct (R5 j e He) as (o & O1 & O2 & O3 & O4). exists o. pose proof (lookup_lt_Some _ _ _ He).
    split_and!; [done | done | |].
    + rewrite <- O3. apply (within_entry sb m1 m2 _ _ _ W). rewrite blob_index_at. unfold zlen in *. lia.
    + intros i Hi. rewrite (wi_out _ _ _ _ W) by lia. by apply O4.
Qed.

Lemma conv_rank : rank m2 new_cd = rank m cd.
Proof.
  destruct Hcv as [C1 _ _]. unfold rank, cdb. change (field_offset CS_CodeDirectory "hashType" 0) with 37. f_equal. apply byte_eq.
  apply (fi_header _ _ _ _ _ _ F); lia.
Qed.

(** Validation chooses the new directory. *)
Lemma conv_best cd' ent' der' : signature PAGE_SHIFT sha1 sha256 sha384 m2 sb total cd' ent' der' -> cd' = new_cd.
Proof.
  destruct conv_index as (X1 & X2 & (t & X3 & Ht) & X4). pose proof conv_rank as Hrank. pose proof (zlen_nonneg parts) as Hz.
  intros [cd0 es _ _ _ _ _ Hbest Hne | _ _ Em _]; [| by rewrite Em in X1]. unfold es in *. clear es. rewrite X2 in Hbest.
  destruct Hbest as [(t' & Hin & Ht' & Hmax) | [? _]]; [| done]. apply entries_in in Hin as (i & Hi & Ei).
  destruct i as [|j]; [change (Z.of_nat 0) with 0 in Ei; rewrite X3 in Ei; congruence |]. exfalso.
  destruct (lookup_lt_is_Some_2 parts j) as [e He]; [unfold zlen in *; lia |].
  destruct (X4 j e He) as (o & O1 & O2 & O3 & O4). replace (Z.of_nat (S j)) with (1 + Z.of_nat j) in Ei by lia. rewrite O3 in Ei.
  injection Ei as <- <-. pose proof (kept_ok V b Hb ltac:(by pose proof conv_room as (_ & _ & _ & ? & _)) parts Hkept) as Hok.
  rewrite Forall_forall in Hok. destruct (Hok e (list_elem_of_lookup_2 _ _ _ He)) as [_ _ Hpcd]. destruct (Hpcd Ht') as [P1 P2].
  assert (rank m2 (sb + o) = rank m e.2) as Er.
  { unfold rank, cdb. change (field_offset CS_CodeDirectory "hashType" 0) with 37. f_equal. apply byte_eq, O4. lia. }
  assert ((t, new_cd) ∈ entries m2 sb (Z.to_nat (1 + zlen parts))) as Hin0.
  { rewrite <- X3. apply list_elem_of_fmap. exists 0%nat. split; [done |]. apply elem_of_seq. lia. }
  pose proof (max_rank_elem m2 _ _ _ Hin0 Ht). lia.
Qed.

Lemma conv_field f : f ∈ ["version"; "hashOffset"; "codeLimit"; "scatterOffset"]%string -> cdv m2 new_cd f = cdv m cd f.
Proof.
  intros Hf. destruct Hcv as [C1 _ _]. apply be_eq. intros i Hi.
  assert (exists o, field_offset CS_CodeDirectory f 0 = o /\ (o = 8 \/ o = 16 \/ o = 32 \/ o = 44)) as (o & -> & Ho).
  { repeat (apply elem_of_cons in Hf as [-> | Hf]; [vm_compute; eauto 6 |]). by apply elem_of_nil in Hf. }
  rewrite <- (Z.add_assoc new_cd), <- (Z.add_assoc cd). apply (fi_header _ _ _ _ _ _ F); lia.
Qed.

(** Once validated, and the old signature given back. *)
Lemma conv_converted ent' der' m3 : cs_validate_csblob PAGE_SHIFT sha1 sha256 sha384 m2 sb total = Ret (0, (new_cd, ent', der')) ->
  (forall x, m3 x = if (addr <=? x) && (x <? addr + size) then None else m2 x) ->
  converted sb total new_cd ent' der' m3.
Proof.
  intros Hval E3. pose proof conv_room as (N1 & N2 & N3 & N4 & N5 & N6 & N7 & N8 & N9). pose proof conv_building as [B1 B2 B3].
  destruct Hcv as [C1 C2 C3]. pose proof V as [Hd Hs _ _ _ _ _ _ Hh].
  assert (forall x, sb <= x < sb + total -> m3 x = m2 x) as Hin.
  { intros x Hx. rewrite E3. destruct (Z.leb_spec addr x), (Z.ltb_spec x (addr + size)); cbn [andb]; try done.
    exfalso. by apply (src_apart V sb total N7 x). }
  assert (mapped m3 sb total) as Hm3 by (intros x Hx; rewrite Hin by done; by apply B1).
  assert (byte_mem m3) as Hb3 by (intros x v; rewrite E3; destruct (_ && _); [done | apply B2]).
  assert (mem_le m3 m2) as Hle by (intros x v; rewrite E3; by destruct (_ && _)).
  assert (forall f, in_struct 112 CS_CodeDirectory 4 f = true -> cdv m3 new_cd f = cdv m2 new_cd f) as Hfield.
  { intros f Hf. unfold in_struct in Hf. apply be_eq. intros i Hi. apply Hin. lia. }
  split.
  - split; [done | done | done | done | lia | done | lia | |].
    + destruct (validate_csblob_spec PAGE_SHIFT sha1 sha256 sha384 m3 Hb3 sb total Hm3) as (e & c & x & y & Hr & _); [lia | done | lia |].
      rewrite Hr. apply (refines_ret _ _ _ (frame_csblob m3 m2 Hle _ _ _ _ _ _)) in Hr. rewrite Hval in Hr. by injection Hr as <- <- <- <-.
    + rewrite <- Hh. f_equal. unfold cdb. change (field_offset CS_CodeDirectory "hashType" 0) with 37. apply byte_eq.
      rewrite Hin by lia. apply (fi_header _ _ _ _ _ _ F); lia.
  - intros x Hx. rewrite E3, (proj2 (Z.leb_le _ _)), (proj2 (Z.ltb_lt _ _)) by lia. done.
  - intros x Hx1 Hx2. rewrite E3. destruct (Z.leb_spec addr x), (Z.ltb_spec x (addr + size)); cbn [andb]; (lia || by apply B3).
  - done.
  - intros f Hf. rewrite Hfield; [by apply conv_field |].
    repeat (apply elem_of_cons in Hf as [-> | Hf]; [done |]). by apply elem_of_nil in Hf.
  - rewrite Hfield by done. apply F.
  - unfold pageshift, cdb. change (field_offset CS_CodeDirectory "pageSize" 0) with 39. rewrite (byte_eq m2 m3 (new_cd + 39)) by (apply Hin; lia). apply F.
  - intros q Hq. unfold code_slot. rewrite Hfield by done. rewrite conv_field by (rewrite !elem_of_cons; tauto).
    rewrite <- (fi_hash _ _ _ _ _ _ F q Hq). apply span_eq. intros i Hi. apply Hin.
    pose proof (hash_facts V) as (Hz & _). unfold dir_size in *. nia.
Qed.
End rebuilt.

Lemma deallocate_spec mc a k : mapped mc a k -> 0 <= k ->
  ubc_cs_blob_deallocate mc a k = Ret (fun x => if (a <=? x) && (x <? a + k) then None else mc x).
Proof. intros Hm Hk. unfold ubc_cs_blob_deallocate. by rewrite (load_bytes_span mc a k) by (done || lia). Qed.

Lemma convert_none : kept_parts m b = Ret None -> cd <> 0 -> forall k,
  ubc_cs_reconstitute_code_signature PAGE_SHIFT MACH_ASSERT sha1 sha256 sha384 m b k = Ret (EINVAL, 0, 0, 0, m).
Proof.
  intros Hk Hcd k. unfold ubc_cs_reconstitute_code_signature. rewrite (ds_cd _ _ _ _ _ _ _ Hb), (proj2 (Z.eqb_neq cd 0)) by done.
  pose proof (hash_facts V) as (_ & _ & _ & H1 & H2 & H3).
  rewrite (blob32_in V cd) by (tauto || (split; [lia | split; lia])). cbn [mbind outcome_bind]. by rewrite Hk.
Qed.

(** The conversion returns; it fails and changes nothing, or the signature is replaced. *)
Lemma convert_spec : exists e b' m', ubc_cs_convert_to_multilevel_hash PAGE_SHIFT MACH_ASSERT sha1 sha256 sha384 m b = Ret (e, b', m') /\
  (((e = EINVAL /\ kept_parts m b = Ret None \/ e = EBADEXEC) /\ b' = b /\ forall x, m' x = m x) \/
   (e = 0 /\ exists sb total new_cd ent' der', b' = with_signature PAGE_SHIFT b sb total new_cd der' 0 (cdv m cd "codeLimit") /\
      converted sb total new_cd ent' der' m')).
Proof.
  pose proof (vs_shift _ _ _ _ _ _ _ _ _ _ _ V) as HPS. pose proof conv_shift_range as Hs. pose proof V as [_ _ Hby Hmap Hsz Ha Hend _ Hh].
  pose proof (hash_facts V) as (Hz & Hhs & Hfit & H1 & H2 & H3). pose proof (slot_facts V conv_shift Hs) as (S1 & S2 & S3 & S4 & S5 & _).
  pose proof (valid_wf V) as Hsig. pose proof Hcv as [C1 C2 C3]. pose proof (dir_size_bounds V conv_shift Hs C1) as (D1 & D2 & D3 & D4).
  unfold ubc_cs_convert_to_multilevel_hash. rewrite Hbshift, (ds_cd _ _ _ _ _ _ _ Hb), (ds_hashtype _ _ _ _ _ _ _ Hb).
  rewrite (u32_small (PAGE_SHIFT - 12)) by (cint_unfold; lia). fold conv_shift.
  rewrite !(sig_cd32 PAGE_SHIFT sha1 sha256 sha384 m Hby addr size Hmap cd ent der Hsig) by done. cbn [mbind outcome_bind].
  rewrite (sig_cd8 PAGE_SHIFT sha1 sha256 sha384 m Hby addr size Hmap cd ent der Hsig) by done. cbn [mbind outcome_bind].
  rewrite Hhs, Z.shiftr_div_pow2 by lia. fold (new_slots (m := m) (cd := cd) conv_shift).
  rewrite (u32_small (new_slots conv_shift * cs_size h)) by (cint_unfold; unfold dir_size in *; nia). fold (dir_size (m := m) (cd := cd) (h := h) conv_shift).
  destruct (kept_parts_spec V b Hb ltac:(lia)) as (o & Hk & Hparts). destruct o as [parts |].
  2:{ rewrite convert_none by (done || lia). cbn [mbind outcome_bind]. eexists _, _, _. split; [reflexivity |]. left. split; [by left | done]. }
  destruct (Hparts parts eq_refl) as [_ Hlen]. clear Hparts.
  pose proof (conv_room parts Hk Hlen) as (N1 & N2 & N3 & N4 & N5 & N6 & N7 & N8 & N9).
  destruct (reconstitute_spec V MACH_ASSERT b Hb N4 parts Hk (dir_size (m := m) (cd := cd) (h := h) conv_shift) ltac:(lia) ltac:(lia) N3) as (m1 & -> & R). cbn [mbind outcome_bind Z.eqb negb].
  set (sb := new_sb parts (dir_size conv_shift)) in *. set (total := new_size parts (dir_size conv_shift)) in *.
  pose proof R as [R0 R1 R2 R3 R4 R5]. fold sb total in R0, R1, R3. pose proof (zlen_nonneg parts) as Hzp.
  assert (forall type magic, exists r, csblob_find_blob_bytes m1 sb total type magic = Ret r) as Hfind.
  { intros type magic. apply find_blob_safe; [apply R0 | apply R0 | done | rewrite R3; unfold total, new_size; pose proof (parts_len_nonneg V parts); lia | done | lia]. }
  destruct (Hfind CSSLOT_ENTITLEMENTS CSMAGIC_EMBEDDED_ENTITLEMENTS) as [r1 ->]. cbn [mbind outcome_bind].
  destruct (Hfind CSSLOT_DER_ENTITLEMENTS CSMAGIC_EMBEDDED_DER_ENTITLEMENTS) as [r2 ->]. cbn [mbind outcome_bind].
  destruct (fill_spec V sb total N7 (sb + cd_at parts) conv_shift ltac:(lia) Hs C1 C2 C3 (Z.to_nat total) m1 R0) as (m2 & -> & F).
  cbn [mbind outcome_bind]. pose proof (fi_building _ _ _ _ _ _ F) as [B1 B2 B3].
  destruct (validate_csblob_spec PAGE_SHIFT sha1 sha256 sha384 m2 B2 sb total B1) as (e & cd' & ent' & der' & Hval & Hcase); [lia | done | lia |].
  rewrite Hval. cbn [mbind outcome_bind]. destruct Hcase as [[-> Hsig'] | [-> _]].
  - rewrite (conv_best parts Hk Hlen m1 m2 R F _ _ _ Hsig') in Hval |- *. fold sb in Hval |- *. cbn [Z.eqb negb].
    rewrite (ds_kaddr _ _ _ _ _ _ _ Hb), (ds_size _ _ _ _ _ _ _ Hb).
    assert (mapped m2 addr size) as Hold by (apply (building_src V sb total N7 m2 addr size (fi_building _ _ _ _ _ _ F)); lia).
    rewrite deallocate_spec by (done || lia). cbn [mbind outcome_bind].
    set (m3 := fun x => if (addr <=? x) && (x <? addr + size) then None else m2 x).
    pose proof (conv_converted parts Hk Hlen m1 m2 F ent' der' m3 Hval ltac:(done)) as Hco. fold sb total in Hco.
    pose proof Hco as [V' _ _ _ Hf _ _ _]. pose proof V' as [_ _ Hby' Hmap' _ _ _ _ _]. pose proof (valid_wf V') as Hs'.
    rewrite (sig_cd32 PAGE_SHIFT sha1 sha256 sha384 m3 Hby' sb total Hmap' _ _ _ Hs') by done. cbn [mbind outcome_bind].
    rewrite (sig_scatter_offset PAGE_SHIFT sha1 sha256 sha384 m3 Hby' sb total Hmap' _ _ _ Hs'). cbn [mbind outcome_bind].
    assert (cd_scatter m3 (sb + cd_at parts) = 0) as ->.
    { unfold cd_scatter. rewrite !Hf by (rewrite !elem_of_cons; tauto). exact C2. }
    cbn [Z.eqb negb mbind outcome_bind]. rewrite Hf by (rewrite !elem_of_cons; tauto).
    eexists _, _, _. split; [reflexivity |]. right. split; [done |]. by eexists _, _, _, _, _.
  - cbn [Z.eqb negb EBADEXEC]. rewrite deallocate_spec by (done || lia). cbn [mbind outcome_bind]. eexists _, _, _. split; [reflexivity |].
    left. split; [by right |]. split; [done |]. intros x. destruct (Z.leb_spec sb x), (Z.ltb_spec x (sb + total)); cbn [andb]; try (apply B3; lia).
    symmetry. apply N7. lia.
Qed.
End convert.
Arguments convertible : clear implicits.
Arguments converted : clear implicits.
