(* ===== verification/CodeSignLevels.v ===== *)
(** * Code signatures: pages under hashes of hashes

    What the page check says under a converted signature, and that it is what it said before
    the conversion. *)

From stdpp Require Import base list strings gmap.
From Stdlib Require Import ZArith Lia.
From S2P Require Import Prelude XzsfsCore Memory Kernel CodeSign CodeSignProofs CodeSignPage CodeSignAuth CodeSignFrame Amfi AmfiProofs CodeSignBlob CodeSignMulti.

(** The pieces of [2 ^ level] bytes of a page, and their hashes one after the other. *)
Fixpoint digests_of (h : cs_hash) (k : nat) (data : bytes) : bytes :=
  match k with
  | O => []
  | S k => take (Z.to_nat (cs_size h)) (cs_digest h (take 4096 data)) ++ digests_of h k (drop 4096 data)
  end.

Section levels.
Context {PAGE_SHIFT : Z} {sha1 sha256 sha384 : bytes -> bytes} {m : mem} {addr size cd ent der : Z} {h : cs_hash}.
Context (V : valid_signature PAGE_SHIFT sha1 sha256 sha384 m addr size cd ent der h) (MACH_ASSERT : bool).

(** The number of 4K pieces in a page. *)
Definition pieces : nat := Z.to_nat (2 ^ (PAGE_SHIFT - 12)).

Lemma pieces_size : Z.of_nat pieces * 4096 = PAGE_SIZE PAGE_SHIFT /\ (1 <= pieces <= 4)%nat.
Proof.
  pose proof (vs_shift _ _ _ _ _ _ _ _ _ _ _ V) as Hs. unfold pieces, PAGE_SIZE.
  assert (PAGE_SHIFT = 12 \/ PAGE_SHIFT = 13 \/ PAGE_SHIFT = 14) as [-> | [-> | ->]] by lia; vm_compute; intuition (congruence || lia).
Qed.

Lemma digest_take x : sub_bytes (cs_digest h x) 0 (cs_size h) = Some (take (Z.to_nat (cs_size h)) (cs_digest h x)).
Proof.
  pose proof V as [Hdg _ _ _ _ _ _ _ Hh]. pose proof (hash_sizes sha1 sha256 sha384 m cd h Hh).
  apply (digest_prefix sha1 sha256 sha384 m cd Hdg h Hh). lia.
Qed.

Lemma partial_digests_spec k : forall fuel data, zlen data = Z.of_nat k * 4096 -> (k < fuel)%nat ->
  partial_digests fuel h 12 data = Ret (digests_of h k data).
Proof.
  induction k as [|k IH]; intros fuel data Hd Hf; (destruct fuel as [|fuel]; [lia |]); cbn [partial_digests digests_of].
  { by rewrite (proj2 (Z.eqb_eq _ _)) by lia. }
  rewrite (proj2 (Z.eqb_neq _ _)) by lia. change (u32 (Z.shiftl 1 12)) with 4096. rewrite Z.min_r by lia. change (Z.to_nat 4096) with 4096%nat.
  rewrite digest_take. cbn [of_option mbind outcome_bind]. rewrite IH; [done | | lia]. unfold zlen in *. rewrite length_drop. lia.
Qed.

(** ** Pages of the new size *)

Context (Hplain : cd_scatter m cd = 0) (Hwhole : pageshift m cd = PAGE_SHIFT) (Hslots : cdv m cd "codeLimit" <= cdv m cd "nCodeSlots" * PAGE_SIZE PAGE_SHIFT).
Context (o : cs_blob) (base P : Z) (data : bytes) (Hpages : pages_of m addr size cd h o base) (Hlevel : csb_hash_firstlevel_pageshift o = 12).
Context (Hbase : 0 <= base < 2 ^ 61) (HP : 0 <= P < 2 ^ 32) (Hdata : zlen data = PAGE_SIZE PAGE_SHIFT).
Context (Hcovered : (P + 1) * PAGE_SIZE PAGE_SHIFT <= cdv m cd "codeLimit").

(** Does the page have the hash of hashes in its slot? *)
Definition level_good : bool :=
  bool_decide (code_slot m cd h P = take (Z.to_nat (cs_size h)) (cs_digest h (digests_of h pieces data))).

Lemma level_hash bs : cs_validate_hash MACH_ASSERT m (o :: bs) (base + P * PAGE_SIZE PAGE_SHIFT) data =
  Ret (HashResult true (PAGE_SIZE PAGE_SHIFT) (if level_good then 0 else CS_VALIDATE_TAINTED) 0 (if level_good then 0 else 1)).
Proof.
  pose proof pieces_size as [Hk Hk4]. pose proof V as [Hdg Hs Hby Hmap Hsz Ha Hend _ Hh]. pose proof (valid_wf V) as Hsig.
  assert (pagesize m cd = PAGE_SIZE PAGE_SHIFT) as Eps by (unfold pagesize, PAGE_SIZE; by rewrite Hwhole).
  pose proof (cdv_u32 m Hby cd "codeLimit") as Hl. cint_unfold. unfold cs_validate_hash. rewrite <- Eps at 1.
  rewrite (find_page_hash_spec PAGE_SHIFT MACH_ASSERT sha1 sha256 sha384 m Hby addr size Hmap ltac:(lia) Ha Hend cd ent der Hsig ltac:(lia) h Hh o base P bs Hpages Hplain).
  2:{ split; [lia |]. nia. }
  2:{ rewrite Eps. lia. }
  2:{ lia. }
  cbn [mbind outcome_bind]. rewrite (pg_cd _ _ _ _ _ _ _ Hpages), (pg_shift _ _ _ _ _ _ _ Hpages), Hlevel.
  rewrite (sig_cd32 PAGE_SHIFT sha1 sha256 sha384 m Hby addr size Hmap cd ent der Hsig) by done. cbn [mbind outcome_bind].
  rewrite Hwhole. assert (u32 (Z.shiftl 1 PAGE_SHIFT) = PAGE_SIZE PAGE_SHIFT) as ->.
  { rewrite Z.shiftl_1_l. apply u32_small. cint_unfold. fold (PAGE_SIZE PAGE_SHIFT). lia. }
  rewrite Eps, (proj2 (Z.ltb_ge _ _)) by lia. cbn [mbind outcome_bind]. rewrite <- Hdata at 1. rewrite sub_bytes_all. cbn [of_option mbind outcome_bind].
  unfold page_digest. cbn [Z.eqb negb Pos.eqb]. rewrite (partial_digests_spec pieces) by (unfold zlen in *; lia). cbn [mbind outcome_bind].
  rewrite digest_take. cbn [of_option mbind outcome_bind]. unfold level_good. by case_bool_decide.
Qed.

Lemma level_page : cs_validate_page PAGE_SHIFT MACH_ASSERT m [o] (base + P * PAGE_SIZE PAGE_SHIFT) data =
  Ret (PageBits VMP_CS_ALL_TRUE (if level_good then 0 else VMP_CS_ALL_TRUE) 0).
Proof.
  pose proof pieces_size as [Hk Hk4]. unfold cs_validate_page.
  destruct (Z.to_nat (PAGE_SIZE PAGE_SHIFT / FOURK_PAGE_SIZE + 2)) as [|fuel] eqn:Ef;
    [pose proof (Z.div_pos (PAGE_SIZE PAGE_SHIFT) FOURK_PAGE_SIZE); unfold FOURK_PAGE_SIZE in *; lia |].
  cbn [loop_ret]. unfold validate_page_step at 2. rewrite (proj2 (Z.ltb_lt 0 _)) by lia. rewrite Z.add_0_r.
  rewrite (u64_small (base + _)) by (cint_unfold; unfold PAGE_SIZE in *; nia). rewrite level_hash. cbn [mbind outcome_bind hr_processed].
  rewrite (proj2 (Z.eqb_neq _ 0)), (proj2 (Z.ltb_lt _ _)) by (unfold FOURK_PAGE_SIZE; lia). cbn [Z.eqb andb].
  by destruct level_good.
Qed.
End levels.
Arguments pieces : clear implicits.
Arguments level_good : clear implicits.

(** ** Before and after *)

(** Is page [P] of the code validated as a whole, and untainted? *)
Definition clean (PAGE_SHIFT : Z) (MACH_ASSERT : bool) (m : mem) (o : cs_blob) (P : Z) (data : bytes) : Prop :=
  exists r, cs_validate_page PAGE_SHIFT MACH_ASSERT m [o] (csb_base_offset o + P * PAGE_SIZE PAGE_SHIFT) data = Ret r /\
    forall i, 0 <= i < PAGE_SIZE PAGE_SHIFT / 4096 -> bits_at r i = (true, false, false).

Lemma all_true_bit i : 0 <= i < 4 -> Z.testbit VMP_CS_ALL_TRUE i = true.
Proof. intros Hi. assert (i = 0 \/ i = 1 \/ i = 2 \/ i = 3) as [-> | [-> | [-> | ->]]] by lia; reflexivity. Qed.

Lemma span_split m a n k : 0 <= n -> 0 <= k -> span m a (n + k) = span m a n ++ span m (a + n) k.
Proof.
  intros Hn Hk. unfold span. rewrite Z2Nat.inj_add, seq_app, fmap_app by lia. f_equal.
  rewrite Nat.add_0_l. replace (seq (Z.to_nat n) (Z.to_nat k)) with (seq (Z.to_nat n + 0) (Z.to_nat k)) by (f_equal; lia).
  rewrite <- fmap_add_seq, <- list_fmap_compose. apply list_fmap_ext. intros i x Hi. cbn. f_equal. lia.
Qed.

(** Two lists of [k] hashes, compared hash by hash. *)
Lemma digests_match (h : cs_hash) m a k : forall data, 0 <= cs_size h -> (forall x, zlen (cs_digest h x) = cs_size h) ->
  (span m a (Z.of_nat k * cs_size h) = digests_of h k data <->
   forall i, 0 <= i < Z.of_nat k -> span m (a + i * cs_size h) (cs_size h) =
     take (Z.to_nat (cs_size h)) (cs_digest h (take 4096 (drop (Z.to_nat (i * 4096)) data)))).
Proof.
  revert a. induction k as [|k IH]; intros a data Hs Hlen.
  { split; [intros _ i Hi; lia |]. done. }
  cbn [digests_of]. replace (Z.of_nat (S k) * cs_size h) with (cs_size h + Z.of_nat k * cs_size h) by lia.
  rewrite span_split by lia. split.
  - intros E. apply app_inj_1 in E as [E1 E2].
    2:{ pose proof (zlen_span m a (cs_size h) Hs). specialize (Hlen (take 4096 data)). unfold zlen in *. rewrite length_take. lia. }
    pose proof (proj1 (IH _ _ Hs Hlen) E2) as E3.
    intros i Hi. destruct (decide (i = 0)) as [-> | Hne]; [by rewrite Z.mul_0_l, Z.add_0_r |].
    replace (a + i * cs_size h) with (a + cs_size h + (i - 1) * cs_size h) by lia. rewrite (E3 (i - 1)) by lia. rewrite drop_drop.
    do 4 f_equal. lia.
  - intros E. f_equal.
    + specialize (E 0 ltac:(lia)). by rewrite Z.mul_0_l, Z.add_0_r in E.
    + apply IH; [done | done |]. intros i Hi. replace (a + cs_size h + i * cs_size h) with (a + (i + 1) * cs_size h) by lia.
      rewrite (E (i + 1)) by lia. rewrite drop_drop. do 4 f_equal. lia.
Qed.

Section verdicts.
Context {PAGE_SHIFT : Z} {sha1 sha256 sha384 : bytes -> bytes} {m : mem} {addr size cd ent der : Z} {h : cs_hash}.
Context (V : valid_signature PAGE_SHIFT sha1 sha256 sha384 m addr size cd ent der h) (MACH_ASSERT : bool).
Context (Hplain : cd_scatter m cd = 0) (Haligned : cdv m cd "codeLimit" mod PAGE_SIZE PAGE_SHIFT = 0).
Context (o : cs_blob) (base P : Z) (data : bytes) (Hpages : pages_of m addr size cd h o base).
Context (Hbase : 0 <= base < 2 ^ 61) (HP : 0 <= P < 2 ^ 32) (Hdata : zlen data = PAGE_SIZE PAGE_SHIFT).
Local Notation covered := ((P + 1) * PAGE_SIZE PAGE_SHIFT <= cdv m cd "codeLimit").

Lemma beyond_limit : ~ covered -> cdv m cd "codeLimit" <= P * PAGE_SIZE PAGE_SHIFT.
Proof.
  intros Hn. pose proof (pieces_size V) as [Hk Hk4]. pose proof (Z.div_mod (cdv m cd "codeLimit") (PAGE_SIZE PAGE_SHIFT) ltac:(lia)) as E.
  rewrite Haligned, Z.add_0_r in E. set (q := cdv m cd "codeLimit" / PAGE_SIZE PAGE_SHIFT) in *.
  destruct (Z.le_gt_cases q P) as [Hq | Hq]; [| exfalso; apply Hn]; rewrite E, (Z.mul_comm (PAGE_SIZE _));
    apply Z.mul_le_mono_nonneg_r; lia.
Qed.

(** A page the signature does not cover is not validated. *)
Lemma uncovered_not_clean : pageshift m cd = PAGE_SHIFT -> ~ covered -> ~ clean PAGE_SHIFT MACH_ASSERT m o P data.
Proof.
  intros Hw Hn (r & Hr & Hbits). rewrite (pg_base _ _ _ _ _ _ _ Hpages) in Hr. pose proof (pieces_size V) as [Hk Hk4].
  pose proof V as [Hdg Hs Hby Hmap Hsz Ha Hend _ Hh]. pose proof (valid_wf V) as Hsig.
  assert (forall i, 0 <= i < Z.of_nat (pieces PAGE_SHIFT) -> piece_covered PAGE_SHIFT m cd P i = false) as Hun.
  { intros i Hi. unfold piece_covered, piece_page, pagesize. rewrite Hw. fold (PAGE_SIZE PAGE_SHIFT). apply Z.ltb_ge.
    rewrite Z.add_comm, Z.div_add, Z.div_small by lia. pose proof (beyond_limit Hn). lia. }
  destruct (pieces_of_page PAGE_SHIFT MACH_ASSERT m cd h base P data o (Z.of_nat (pieces PAGE_SHIFT))) as (r2 & Hr2 & Hbits2); [lia | lia | |].
  { intros i b Hi. eapply step_uncovered; try by_valid; try done; try lia. by apply Hun. }
  rewrite Hr in Hr2. injection Hr2 as <-. specialize (Hbits 0). rewrite Hbits2 in Hbits by lia. unfold piece_bits in Hbits.
  rewrite Hun in Hbits by lia. assert (0 <= 0 < PAGE_SIZE PAGE_SHIFT / 4096) as H0 by (rewrite <- Hk, Z.div_mul; lia). by specialize (Hbits H0).
Qed.

(** With hashes of 4K pages: the hashes of the pieces are those in the slots. *)
Lemma small_clean : pageshift m cd = 12 -> csb_hash_firstlevel_pageshift o = 0 -> cs_digest_size h = cs_size h ->
  cdv m cd "codeLimit" <= cdv m cd "nCodeSlots" * 4096 ->
  (clean PAGE_SHIFT MACH_ASSERT m o P data <-> covered /\ span m (cd + cdv m cd "hashOffset" + P * (Z.of_nat (pieces PAGE_SHIFT) * cs_size h))
       (Z.of_nat (pieces PAGE_SHIFT) * cs_size h) = digests_of h (pieces PAGE_SHIFT) data).
Proof.
  intros Hsh Hlevel Hfull Hslots. pose proof (pieces_size V) as [Hk Hk4]. pose proof V as [Hdg Hs Hby Hmap Hsz Ha Hend _ Hh].
  pose proof (valid_wf V) as Hsig. pose proof (hash_sizes sha1 sha256 sha384 m cd h Hh) as [Hz _].
  set (k := pieces PAGE_SHIFT) in *.
  assert (pagesize m cd = 4096) as Eps by (unfold pagesize; by rewrite Hsh).
  assert (forall i, piece_page PAGE_SHIFT m cd P i = P * Z.of_nat k + i) as Epage.
  { intros i. unfold piece_page. rewrite Eps, <- Hk. replace (P * (Z.of_nat k * 4096) + i * 4096) with ((P * Z.of_nat k + i) * 4096) by lia.
    apply Z.div_mul. lia. }
  rewrite digests_match; [| lia | intros x; rewrite <- Hfull; apply (digest_length sha1 sha256 sha384 m cd Hdg h Hh)].
  destruct (validate_page_spec PAGE_SHIFT MACH_ASSERT sha1 sha256 sha384 m Hby addr size Hmap ltac:(lia) Ha Hend cd ent der Hsig
    ltac:(lia) Hdg h Hh Hplain ltac:(by rewrite Eps) base P data Hbase HP ltac:(lia) Hdata o Hpages Hlevel) as (r & Hr & Hbits).
  unfold clean. rewrite (pg_base _ _ _ _ _ _ _ Hpages).
  assert (covered -> forall i, 0 <= i < Z.of_nat k -> piece_bits PAGE_SHIFT m cd h P data i = (true, negb (piece_good PAGE_SHIFT m cd h P data i), false) /\
    (piece_good PAGE_SHIFT m cd h P data i = true <-> span m (cd + cdv m cd "hashOffset" + P * (Z.of_nat k * cs_size h) + i * cs_size h) (cs_size h) =
       take (Z.to_nat (cs_size h)) (cs_digest h (take 4096 (drop (Z.to_nat (i * 4096)) data))))) as Hpiece.
  { intros Hc i Hi. unfold piece_bits, piece_covered, piece_short, piece_good, page_good, code_slot. rewrite Epage.
    unfold signed_bytes. rewrite Eps.
    rewrite (proj2 (Z.ltb_lt _ _)) by nia. rewrite Z.min_l by nia. rewrite (proj2 (Z.ltb_ge _ _)) by lia. cbn [andb]. split; [done |].
    rewrite bool_decide_eq_true. replace ((P * Z.of_nat k + i) * 4096 - P * PAGE_SIZE PAGE_SHIFT) with (i * 4096) by lia.
    replace (cd + cdv m cd "hashOffset" + (P * Z.of_nat k + i) * cs_size h) with
      (cd + cdv m cd "hashOffset" + P * (Z.of_nat k * cs_size h) + i * cs_size h) by lia. done. }
  assert (PAGE_SIZE PAGE_SHIFT / 4096 = Z.of_nat k) as Ek by (rewrite <- Hk; by apply Z.div_mul).
  rewrite Ek in *. split.
  - intros (r' & Hr' & Hb'). rewrite Hr in Hr'. injection Hr' as <-.
    assert (covered) as Hc.
    { destruct (decide covered) as [| Hn]; [done |]. exfalso. specialize (Hb' 0 ltac:(lia)). rewrite Hbits in Hb' by lia.
      unfold piece_bits, piece_covered in Hb'. rewrite Epage, Eps in Hb'. pose proof (beyond_limit Hn).
      rewrite (proj2 (Z.ltb_ge _ _)) in Hb' by lia. done. }
    split; [done |]. intros i Hi. apply Hpiece; [done | done |]. specialize (Hb' i Hi). rewrite Hbits, (proj1 (Hpiece Hc i Hi)) in Hb' by lia.
    by destruct (piece_good _ _ _ _ _ _ _).
  - intros [Hc Hall]. exists r. split; [done |]. intros i Hi. rewrite Hbits, (proj1 (Hpiece Hc i Hi)) by lia.
    by rewrite (proj2 (proj2 (Hpiece Hc i Hi)) (Hall i Hi)).
Qed.

(** With hashes of hashes: the hash of the hashes of the pieces is that in the slot. *)
Lemma level_clean : pageshift m cd = PAGE_SHIFT -> csb_hash_firstlevel_pageshift o = 12 ->
  cdv m cd "codeLimit" <= cdv m cd "nCodeSlots" * PAGE_SIZE PAGE_SHIFT ->
  (clean PAGE_SHIFT MACH_ASSERT m o P data <-> covered /\
     code_slot m cd h P = take (Z.to_nat (cs_size h)) (cs_digest h (digests_of h (pieces PAGE_SHIFT) data))).
Proof.
  intros Hw Hlevel Hslots. pose proof (pieces_size V) as [Hk Hk4]. pose proof uncovered_not_clean as Hun.
  destruct (decide covered) as [Hc | Hn]; [| tauto].
  pose proof (level_page V MACH_ASSERT Hplain Hw Hslots o base P data Hpages Hlevel Hbase HP Hdata Hc) as Hr. unfold level_good in Hr.
  unfold clean. rewrite (pg_base _ _ _ _ _ _ _ Hpages), Hr.
  assert (PAGE_SIZE PAGE_SHIFT / 4096 = Z.of_nat (pieces PAGE_SHIFT)) as -> by (rewrite <- Hk; by apply Z.div_mul).
  case_bool_decide as E; split.
  - done.
  - intros _. eexists. split; [reflexivity |]. intros i Hi. unfold bits_at. cbn [pb_validated pb_tainted pb_nx].
    by rewrite all_true_bit, Z.bits_0 by lia.
  - intros (r & [= <-] & Hb). specialize (Hb 0 ltac:(lia)). unfold bits_at in Hb. cbn [pb_validated pb_tainted pb_nx] in Hb.
    by rewrite all_true_bit in Hb by lia.
  - by intros [_ ?].
Qed.
End verdicts.

(** ** The conversion *)

Section setup.
Context {PAGE_SHIFT : Z} {sha1 sha256 sha384 : bytes -> bytes} {m : mem} {addr size cd ent der : Z} {h : cs_hash}.
Context (V : valid_signature PAGE_SHIFT sha1 sha256 sha384 m addr size cd ent der h) (MACH_ASSERT : bool) `{SigAllocLaws}.
Context (b : cs_blob) (base : Z) (Hb : describes addr size cd ent der h b) (Hpages : pages_of m addr size cd h b base).
Context (Hlevel : csb_hash_firstlevel_pageshift b = 0) (Hcv : pageshift m cd = PAGE_SHIFT \/ convertible m cd h).

(** The signatures that are converted: those of platform binaries for smaller pages, when slots
    and limit are whole numbers of kernel pages. *)
Record eligible : Prop := {
  el_platform : csb_platform_binary b = true;
  el_team : csb_teamid b = 0;
  el_small : pageshift m cd = 12 /\ 12 < PAGE_SHIFT;
  el_slots : cdv m cd "nCodeSlots" mod Z.of_nat (pieces PAGE_SHIFT) = 0;
  el_limit : cdv m cd "codeLimit" mod PAGE_SIZE PAGE_SHIFT = 0;
}.

Lemma supports_spec fuel : exists s, ubc_cs_supports_multilevel_hash PAGE_SHIFT fuel m b = Ret s /\ (s = true <-> eligible).
Proof.
  pose proof V as [Hdg Hs Hby Hmap Hsz Ha Hend _ Hh]. pose proof (valid_wf V) as Hsig. pose proof (pieces_size V) as [Hk Hk4].
  unfold ubc_cs_supports_multilevel_hash. rewrite (pg_cd _ _ _ _ _ _ _ Hpages), (pg_shift _ _ _ _ _ _ _ Hpages).
  destruct (csb_platform_binary b) eqn:Ep; cbn [negb orb]; [| eexists; split; [done |]; split; [done | intros []; congruence]].
  destruct (Z.eqb_spec (csb_teamid b) 0) as [Et | Et]; cbn [negb]; [| eexists; split; [done |]; split; [done | by intros []]].
  destruct (Z.leb_spec PAGE_SHIFT (pageshift m cd)) as [| Hlt]; [eexists; split; [done |]; split; [done | intros []; lia] |].
  assert (pageshift m cd = 12) as E12.
  { destruct (cdo_page _ _ _ _ _ _ _ (cd_wf PAGE_SHIFT sha1 sha256 sha384 m Hby addr size cd ent der Hsig)) as [E | E]; [done |].
    unfold pageshift in Hlt. lia. }
  destruct Hcv as [? | Hcv']; [lia |].
  rewrite !(sig_cd32 PAGE_SHIFT sha1 sha256 sha384 m Hby addr size Hmap cd ent der Hsig) by done. cbn [mbind outcome_bind].
  rewrite (sig_scatter_offset PAGE_SHIFT sha1 sha256 sha384 m Hby addr size Hmap cd ent der Hsig), (cv_plain Hcv'). cbn [mbind outcome_bind].
  rewrite E12 in *. unfold pieces in *.
  assert (Z.shiftr (PAGE_SIZE PAGE_SHIFT - 1) 12 = 2 ^ (PAGE_SHIFT - 12) - 1) as ->
    by (assert (PAGE_SHIFT = 13 \/ PAGE_SHIFT = 14) as [-> | ->] by lia; reflexivity).
  unfold PAGE_SIZE in *. rewrite !land_ones_mod by lia.
  destruct (Z.eqb_spec (cdv m cd "nCodeSlots" mod 2 ^ (PAGE_SHIFT - 12)) 0) as [E0 | E0]; cbn [negb mbind outcome_bind Z.eqb];
    (eexists; split; [reflexivity |]); split; try done.
  - intros E%Z.eqb_eq. by split; [..| unfold pieces; rewrite Z2Nat.id by (apply Z.pow_nonneg; lia) |].
  - intros [_ _ _ _ E]. by apply Z.eqb_eq.
  - intros [_ _ _ E _]. unfold pieces in E. by rewrite Z2Nat.id in E by (apply Z.pow_nonneg; lia).
Qed.

(** The hashes in the slots of page [P], and those of its content. *)
Definition stored_hashes (P : Z) : bytes :=
  span m (cd + cdv m cd "hashOffset" + P * (Z.of_nat (pieces PAGE_SHIFT) * cs_size h))
    (Z.of_nat (pieces PAGE_SHIFT) * cs_size h).

Context (Hsmall : size < 2 ^ 27) (Hroom : forall k, 0 < k < 2 ^ 31 -> kalloc_data_tag m k <> 0).

(** Why nothing changes: the signature is not of this kind, it has a CMS blob but no first code
    directory, or the new signature does not pass validation. *)
Definition unconverted (e : Z) : Prop :=
  (e = 0 /\ ~ eligible) \/ (eligible /\ (e = EINVAL /\ kept_parts m b = Ret None \/ e = EBADEXEC)).

(** Nothing changes, or the signature is converted. *)
Lemma setup_spec : exists e b' m', setup_multilevel_hashing PAGE_SHIFT MACH_ASSERT sha1 sha256 sha384 m b = Ret (e, b', m') /\
  ((b' = b /\ (forall x, m' x = m x) /\ unconverted e) \/
   (e = 0 /\ eligible /\
    exists sb total new_cd ent' der', b' = with_signature PAGE_SHIFT b sb total new_cd der' 0 (cdv m cd "codeLimit") /\
      converted PAGE_SHIFT sha1 sha256 sha384 m addr size cd h sb total new_cd ent' der' m')).
Proof.
  unfold setup_multilevel_hashing. destruct (supports_spec (Z.to_nat (csb_mem_size b))) as (s & -> & Hs). cbn [mbind outcome_bind].
  destruct s; cbn [negb].
  2:{ eexists _, _, _. split; [reflexivity |]. left. split_and!; [done | done |]. left. split; [done |]. by intros ?%Hs. }
  pose proof (proj1 Hs eq_refl) as Hel. pose proof Hel as [_ _ [E12 Hlt] _ _]. destruct Hcv as [? | Hcv']; [lia |].
  destruct (convert_spec V MACH_ASSERT b Hb ltac:(by rewrite (pg_shift _ _ _ _ _ _ _ Hpages)) Hlt Hsmall Hroom Hcv')
    as (e & b' & m' & -> & [(He & -> & Hm) | (-> & Hco)]); (eexists _, _, _; split; [reflexivity |]);
    [left; split_and!; [done | done | by right] | right; by split_and!].
Qed.

Context (Hslots : cdv m cd "codeLimit" <= cdv m cd "nCodeSlots" * pagesize m cd) (Hbase : 0 <= base < 2 ^ 61).

(** The object of a converted signature checks the pages of the same code. *)
Lemma converted_pages sb total new_cd ent' der' m' : 12 < PAGE_SHIFT -> pageshift m cd = 12 ->
  cdv m cd "codeLimit" mod PAGE_SIZE PAGE_SHIFT = 0 ->
  converted PAGE_SHIFT sha1 sha256 sha384 m addr size cd h
    sb total new_cd ent' der' m' ->
  pages_of m' sb total new_cd h (with_signature PAGE_SHIFT b sb total new_cd der' 0 (cdv m cd "codeLimit")) base /\ cd_scatter m' new_cd = 0 /\
  cdv m' new_cd "codeLimit" = cdv m cd "codeLimit".
Proof.
  intros Hlt E12 Hal [V' _ _ _ Hf Hns Hps Hh']. pose proof (pieces_size V) as [Hk Hk4]. destruct Hcv as [? | Hcv']; [lia |].
  assert (cd_scatter m' new_cd = 0) as Hsc.
  { unfold cd_scatter. rewrite !Hf by (rewrite !elem_of_cons; tauto). exact (cv_plain Hcv'). }
  assert (cdv m' new_cd "codeLimit" = cdv m cd "codeLimit") as El by (rewrite !Hf by (rewrite !elem_of_cons; tauto); done).
  split_and!; [| done | done]. destruct Hpages as [P1 P2 P3 P4 P5 P6 P7 P8 P9]. split; cbn [with_signature csb_start_offset csb_end_offset csb_base_offset csb_mem_offset csb_hash_pageshift csb_hashtype]; try done.
  - unfold cover_start. by rewrite Hsc.
  - unfold cover_end, pagesize. rewrite El, Hps. fold (PAGE_SIZE PAGE_SHIFT).
    set (L := cdv m cd "codeLimit") in *. pose proof (Z.div_mod L (PAGE_SIZE PAGE_SHIFT) ltac:(lia)) as E. rewrite Hal, Z.add_0_r in E.
    replace (L + PAGE_SIZE PAGE_SHIFT - 1) with
      (PAGE_SIZE PAGE_SHIFT - 1 + L / PAGE_SIZE PAGE_SHIFT * PAGE_SIZE PAGE_SHIFT) by lia.
    rewrite Z.div_add, Z.div_small by lia. lia.
Qed.

Lemma converted_verdict sb total new_cd ent' der' m' P data : 12 < PAGE_SHIFT -> pageshift m cd = 12 ->
  cdv m cd "nCodeSlots" mod Z.of_nat (pieces PAGE_SHIFT) = 0 -> cdv m cd "codeLimit" mod PAGE_SIZE PAGE_SHIFT = 0 ->
  converted PAGE_SHIFT sha1 sha256 sha384 m addr size cd h
    sb total new_cd ent' der' m' ->
  0 <= P < 2 ^ 32 -> zlen data = PAGE_SIZE PAGE_SHIFT ->
  let computed := digests_of h (pieces PAGE_SHIFT) data in
  let covered := (P + 1) * PAGE_SIZE PAGE_SHIFT <= cdv m cd "codeLimit" in
  (clean PAGE_SHIFT MACH_ASSERT m b P data <-> covered /\ stored_hashes P = computed) /\
  (clean PAGE_SHIFT MACH_ASSERT m' (with_signature PAGE_SHIFT b sb total new_cd der' 0 (cdv m cd "codeLimit")) P data <->
     covered /\ cs_digest h (stored_hashes P) = cs_digest h computed).
Proof.
  intros Hlt E12 Hsl Hal Hco HP Hdata computed covered. pose proof (pieces_size V) as [Hk Hk4].
  destruct Hcv as [? | [_ Hplain Hfull]]; [lia |].
  destruct (converted_pages _ _ _ _ _ _ Hlt E12 Hal Hco) as (Hpg & Hsc & El). pose proof Hco as [V' _ _ _ Hf Hns Hps Hch].
  assert (pagesize m cd = 4096) as Eps by (unfold pagesize; by rewrite E12). rewrite Eps in Hslots.
  assert (2 ^ conv_shift (PAGE_SHIFT := PAGE_SHIFT) = Z.of_nat (pieces PAGE_SHIFT)) as E2.
  { unfold pieces, conv_shift. rewrite Z2Nat.id; [done |]. apply Z.pow_nonneg. lia. }
  pose proof V as [Hdg _ _ _ _ _ _ _ Hh].
  assert (cdv m' new_cd "nCodeSlots" * Z.of_nat (pieces PAGE_SHIFT) = cdv m cd "nCodeSlots") as En.
  { rewrite Hns. unfold new_slots. rewrite E2. pose proof (Z.div_mod (cdv m cd "nCodeSlots") (Z.of_nat (pieces PAGE_SHIFT)) ltac:(lia)). lia. }
  split; [apply (small_clean V MACH_ASSERT Hplain Hal b base P data Hpages Hbase HP Hdata E12 Hlevel Hfull Hslots) |].
  rewrite (level_clean V' MACH_ASSERT Hsc ltac:(by rewrite El) _ base P data Hpg Hbase HP Hdata Hps).
  2:{ cbn [with_signature csb_hash_firstlevel_pageshift]. by rewrite (pg_shift _ _ _ _ _ _ _ Hpages). }
  2:{ rewrite El, <- Hk. lia. }
  rewrite El. fold covered. assert (covered -> code_slot m' new_cd h P = cs_digest h (stored_hashes P)) as Ecs.
  { intros Hc. rewrite Hch; [unfold stored_hashes, group; by rewrite E2, (Z.mul_comm (cs_size h)) |]. rewrite <- Hns.
    split; [lia |]. unfold covered in Hc. apply Z.le_succ_l, (Z.mul_le_mono_pos_r _ _ (PAGE_SIZE PAGE_SHIFT)); lia. }
  assert (take (Z.to_nat (cs_size h)) (cs_digest h computed) = cs_digest h computed) as Et.
  { apply take_ge. pose proof (digest_length sha1 sha256 sha384 m cd Hdg h Hh computed). unfold zlen in *. lia. }
  fold computed. rewrite Et. split; intros [Hc E]; (split; [done |]); rewrite Ecs in * by done; done.
Qed.
End setup.
Arguments stored_hashes : clear implicits.
Arguments eligible : clear implicits.
Arguments unconverted : clear implicits.

(** ** A signature with 4K hashes *)

(** Four pages of code of 16K in all. *)
Definition page4_code : bytes :=
  replicate (Z.to_nat 4096) 7 ++ replicate (Z.to_nat 4096) 8 ++ replicate (Z.to_nat 4096) 9 ++ replicate (Z.to_nat 4096) 10.
Definition page4_cd : bytes :=
  be_split CSMAGIC_CODEDIRECTORY ++ be_split 208 ++ be_split 0x20000 ++ be_split 0 ++ be_split 128 ++ be_split 112 ++
  be_split 0 ++ be_split 4 ++ be_split 16384 ++ [20; CS_HASHTYPE_SHA1; 0; 12] ++ replicate 72 0 ++ lit "ls" ++ replicate 14 0 ++
  digests_of sample_hash 4 page4_code.
Definition page4_sig : bytes :=
  be_split CSMAGIC_EMBEDDED_SIGNATURE ++ be_split 228 ++ be_split 1 ++ be_split CSSLOT_CODEDIRECTORY ++ be_split 20 ++ page4_cd.
Definition page4_mem : mem := mem_of 4096 page4_sig.

Lemma page4_valid : valid_signature 14 (toy_hash 20) (toy_hash 32) (toy_hash 48) page4_mem 4096 228 4116 0 0 sample_hash.
Proof.
  split; [exact toy_digests | lia | apply mem_of_bytes, (bool_decide_unpack _); by vm_compute | exact (mem_of_mapped 4096 page4_sig) | lia | lia | lia | |];
    by vm_compute.
Qed.

(** Its object, taken for a platform binary. *)
Definition page4_blob : cs_blob :=
  with_signer (at_base (signed_blob page4_mem 4096 228 4116 0 0 sample_hash) 32768) (Z.lor CS_VALID CS_PLATFORM_BINARY) 0 true false 0.

(** Memory from 65536 on, while it is free; objects behind the last one. *)
Definition bump : SigAlloc := {|
  kalloc_data_tag m n := if (n <? 2 ^ 40) && forallb (fun i => bool_decide (m (65536 + i) = None)) (seqZ 0 n) then 65536 else 0;
  zalloc_ro z := foldr Z.max 0 (map_to_list z).*1 + 8;
|}.
#[local] Existing Instance bump.

Lemma max_nonneg l : 0 <= foldr Z.max 0 l.
Proof. induction l; cbn; lia. Qed.
Lemma max_elem k l : k ∈ l -> k <= foldr Z.max 0 l.
Proof. induction 1; cbn; lia. Qed.

Lemma bump_laws : SigAllocLaws.
Proof.
  split.
  - intros m n Hn. cbn. destruct (Z.ltb_spec n (2 ^ 40)); cbn [andb]; [| by left]. destruct (forallb _ _) eqn:E; [right | by left].
    split; [lia |]. split; [unfold VM_MAX_KERNEL_ADDRESS; lia |]. intros x Hx. rewrite forallb_forall in E.
    specialize (E (x - 65536)). rewrite bool_decide_eq_true in E. replace x with (65536 + (x - 65536)) by lia. apply E.
    apply list_elem_of_In, elem_of_seqZ. lia.
  - intros z. cbn. pose proof (max_nonneg (map_to_list z).*1) as H0. split; [lia |]. destruct (z !! _) as [b |] eqn:E; [| done].
    apply elem_of_map_to_list in E. apply (list_elem_of_fmap_2 fst) in E. cbn [fst] in E. apply max_elem in E. lia.
Qed.

Lemma bump_room l k : zlen l < 60000 -> 0 < k < 2 ^ 31 -> kalloc_data_tag (mem_of 4096 l) k <> 0.
Proof.
  intros Hl Hk. cbn. rewrite (proj2 (Z.ltb_lt _ _)) by lia. cbn [andb].
  assert (forallb (fun i => bool_decide (mem_of 4096 l (65536 + i) = None)) (seqZ 0 k) = true) as ->; [| done].
  apply forallb_forall. intros i Hi%list_elem_of_In%elem_of_seqZ. apply bool_decide_eq_true. unfold mem_of. unfold zlen in *.
  rewrite (proj2 (Z.ltb_ge _ _)) by lia. by rewrite andb_false_r.
Qed.



(** ** Layouts the conversion is not made for *)

(** The directory with the hashes at another place or of another type. *)
Definition odd_cd (offset type : Z) (hashes : bytes) : bytes :=
  be_split CSMAGIC_CODEDIRECTORY ++ be_split 208 ++ be_split 0x20000 ++ be_split 0 ++ be_split offset ++ be_split 112 ++
  be_split 0 ++ be_split 4 ++ be_split 16384 ++ [20; type; 0; 12] ++ replicate 72 0 ++ lit "ls" ++ replicate 14 0 ++ hashes.
Definition odd_mem (offset type : Z) : mem :=
  mem_of 4096 (be_split CSMAGIC_EMBEDDED_SIGNATURE ++ be_split 228 ++ be_split 1 ++ be_split CSSLOT_CODEDIRECTORY ++ be_split 20 ++
    odd_cd offset type (replicate 80 0)).
Definition odd_blob (offset type : Z) (h : cs_hash) : cs_blob :=
  with_signer (at_base (signed_blob (odd_mem offset type) 4096 228 4116 0 0 h) 32768) (Z.lor CS_VALID CS_PLATFORM_BINARY) 0 true false 0.

(** Code slots that start inside the header of the directory pass validation; the new directory
    then has no room for the header, and writing its fields leaves the allocation. *)
Lemma conversion_overflows_header :
  cs_validate_csblob 14 (toy_hash 20) (toy_hash 32) (toy_hash 48) (odd_mem 0 CS_HASHTYPE_SHA1) 4096 228 = Ret (0, (4116, 0, 0)) /\
  setup_multilevel_hashing 14 true (toy_hash 20) (toy_hash 32) (toy_hash 48) (odd_mem 0 CS_HASHTYPE_SHA1) (odd_blob 0 CS_HASHTYPE_SHA1 sample_hash) = Fault.
Proof. vm_compute. by split. Qed.

(** Truncated SHA-256 has slots of 20 bytes, but the digest written into the last one is 32
    bytes long. *)
Lemma conversion_overflows_digest :
  cs_validate_csblob 14 (toy_hash 20) (toy_hash 32) (toy_hash 48) (odd_mem 128 CS_HASHTYPE_SHA256_TRUNCATED) 4096 228 = Ret (0, (4116, 0, 0)) /\
  setup_multilevel_hashing 14 true (toy_hash 20) (toy_hash 32) (toy_hash 48) (odd_mem 128 CS_HASHTYPE_SHA256_TRUNCATED)
    (odd_blob 128 CS_HASHTYPE_SHA256_TRUNCATED (cs_hash_sha256_truncate (toy_hash 32))) = Fault.
Proof. vm_compute. by split. Qed.
