(* ===== verification/CodeSignLocal.v ===== *)
(** * Code signatures: memory that matters

    A signature object that is backed by a valid signature depends on the memory of that
    signature only: whatever else is written or freed, it stays backed and the page check
    says the same. *)

From stdpp Require Import base list strings gmap.
From Stdlib Require Import ZArith Lia.
From S2P Require Import Prelude XzsfsCore Memory CodeSign CodeSignProofs CodeSignPage CodeSignAuth CodeSignFrame CodeSignBlob.

(** The memory of one allocation. *)
Definition restrict (m : mem) (a n : Z) : mem := fun x => if (a <=? x) && (x <? a + n) then m x else None.

Lemma restrict_le m m' a n : (forall x, a <= x < a + n -> m' x = m x) -> mem_le (restrict m a n) m'.
Proof.
  intros H x v. unfold restrict. destruct (Z.leb_spec a x), (Z.ltb_spec x (a + n)); cbn [andb]; try done. by rewrite H by lia.
Qed.
Lemma restrict_bytes m a n : byte_mem m -> byte_mem (restrict m a n).
Proof. intros Hb x v. unfold restrict. destruct (_ && _); [apply Hb | done]. Qed.
Lemma restrict_in m a n x : a <= x < a + n -> restrict m a n x = m x.
Proof. intros Hx. unfold restrict. by rewrite (proj2 (Z.leb_le _ _)), (proj2 (Z.ltb_lt _ _)) by lia. Qed.

Section local.
Context (PAGE_SHIFT : Z) (MACH_ASSERT : bool) (sha1 sha256 sha384 : bytes -> bytes).
Abbreviation valid := (valid_signature PAGE_SHIFT sha1 sha256 sha384).

(** A signature stays valid while its memory is not touched. *)
Lemma valid_agree m m' addr size cd ent der h : valid m addr size cd ent der h -> byte_mem m' ->
  (forall x, addr <= x < addr + size -> m' x = m x) -> valid m' addr size cd ent der h.
Proof.
  intros V Hb' Heq. pose proof V as [Hd Hs Hb Hm Hsz Ha He Hv Hh].
  assert (mapped (restrict m addr size) addr size) as Hmr by (intros x Hx; rewrite restrict_in by done; by apply Hm).
  destruct (validate_csblob_spec PAGE_SHIFT sha1 sha256 sha384 (restrict m addr size) (restrict_bytes _ _ _ Hb) addr size Hmr)
    as (e & cd' & ent' & der' & Hr & _); [lia | done | done |].
  assert (cs_validate_csblob PAGE_SHIFT sha1 sha256 sha384 m addr size = Ret (e, (cd', ent', der'))) as E
    by (eapply refines_ret; [apply frame_csblob, restrict_le; done | exact Hr]).
  rewrite Hv in E. injection E as <- <- <- <-. pose proof (valid_wf V) as Hsig.
  pose proof (cd_inside PAGE_SHIFT sha1 sha256 sha384 m Hb addr size cd ent der Hsig) as (H1 & H2 & H3).
  split; try done.
  - intros x Hx. rewrite Heq by done. by apply Hm.
  - eapply refines_ret; [by apply frame_csblob, restrict_le | exact Hr].
  - rewrite <- Hh. f_equal. unfold cdb. apply byte_eq. rewrite Heq; [done |]. change (field_offset CS_CodeDirectory "hashType" 0) with 37. lia.
Qed.

(** An object with the signature it stands for. *)
Record backed (m : mem) (b : cs_blob) : Prop := {
  bk_signature : exists cd ent der h, valid m (csb_mem_kaddr b) (csb_mem_size b) cd ent der h /\
    csb_cd b = cd /\ csb_hashtype b = Some h;
  bk_offset : csb_mem_offset b = 0;
  bk_flags : (Z.land (csb_flags b) CS_VALID =? 0) = false;
}.

Lemma backed_agree m m' b : backed m b -> byte_mem m' ->
  (forall x, csb_mem_kaddr b <= x < csb_mem_kaddr b + csb_mem_size b -> m' x = m x) -> backed m' b.
Proof.
  intros [(cd & ent & der & h & V & Hc & Hh) Ho Hf] Hb Heq. split; [| done | done].
  exists cd, ent, der, h. split; [by eapply valid_agree | done].
Qed.

(** ** The page check *)

Lemma expected_nofault m b off : backed m b -> expected_hash MACH_ASSERT m b off <> Fault.
Proof.
  intros [(cd & ent & der & h & V & Hc & Hh) Ho Hf]. pose proof V as [_ _ Hb Hm Hsz Ha He _ Hmd].
  pose proof (hash_sizes _ _ _ _ _ _ Hmd) as [Hz _].
  destruct (hashes_nofault PAGE_SHIFT MACH_ASSERT sha1 sha256 sha384 m Hb (csb_mem_kaddr b) (csb_mem_size b) Hm ltac:(lia) Ha He cd ent der (valid_wf V)
    (u32 (Z.shiftr off (csb_hash_pageshift b))) (cs_size h) ltac:(lia)) as [Hn Hin].
  unfold expected_hash. rewrite Hh, Ho, Z.add_0_r, Hc. destruct (_ <? _); [done |]. destruct (negb _); [done |].
  destruct (hashes _ _ _ _ _ _ _) as [[p |] | | |]; cbn [mbind outcome_bind]; try done.
  rewrite (load_bytes_span m _ _ p (cs_size h) Hm) by (specialize (Hin p eq_refl); lia). done.
Qed.

Lemma find_page_nofault m bs : Forall (backed m) bs -> forall off, find_page_hash MACH_ASSERT m bs off <> Fault.
Proof.
  induction 1 as [|b bs Hb _ IH]; intros off; cbn [find_page_hash]; [done |].
  destruct (_ || _); [apply IH |]. pose proof (expected_nofault m b (s64 (u64 (off - csb_base_offset b))) Hb).
  by destruct (expected_hash _ _ _ _).
Qed.

Lemma find_page_in m bs off b o h x : find_page_hash MACH_ASSERT m bs off = Ret (Some (b, o, h, x)) -> b ∈ bs.
Proof.
  induction bs as [|c bs IH]; cbn [find_page_hash]; [done |]. destruct (_ || _); [intros; right; auto |].
  destruct (expected_hash _ _ _ _) as [[[] |] | | |]; cbn [mbind outcome_bind]; try done. intros [= <- <- <- <-]. left.
Qed.

(** The memory of a list of signatures. *)
Definition regions (bs : list cs_blob) (x : Z) : bool :=
  existsb (fun b => (csb_mem_kaddr b <=? x) && (x <? csb_mem_kaddr b + csb_mem_size b)) bs.

Lemma regions_in bs b x : b ∈ bs -> csb_mem_kaddr b <= x < csb_mem_kaddr b + csb_mem_size b -> regions bs x = true.
Proof.
  intros Hb Hx. apply existsb_exists. exists b. split; [by apply list_elem_of_In |]. by rewrite (proj2 (Z.leb_le _ _)), (proj2 (Z.ltb_lt _ _)) by lia.
Qed.

Definition of_regions (m : mem) (bs : list cs_blob) : mem := fun x => if regions bs x then m x else None.

Lemma validate_hash_local m m' bs off data : byte_mem m -> Forall (backed m) bs -> (forall x, regions bs x = true -> m' x = m x) ->
  cs_validate_hash MACH_ASSERT m' bs off data = cs_validate_hash MACH_ASSERT m bs off data.
Proof.
  intros Hb Hbs Heq. set (mr := of_regions m bs).
  assert (byte_mem mr) as Hbr by (intros x v; unfold mr, of_regions; destruct (regions bs x); [apply Hb | done]).
  assert (mem_le mr m) as L1 by (intros x v; unfold mr, of_regions; by destruct (regions bs x)).
  assert (mem_le mr m') as L2 by (intros x v; unfold mr, of_regions; destruct (regions bs x) eqn:E; [by rewrite Heq | done]).
  assert (Forall (backed mr) bs) as Hr.
  { rewrite Forall_forall in Hbs |- *. intros b Hin. apply (backed_agree m); [by apply Hbs | done |]. intros x Hx. unfold mr, of_regions.
    by rewrite (regions_in bs b x). }
  unfold cs_validate_hash. pose proof (find_page_nofault mr bs Hr off) as Hn.
  rewrite (frame_find_page mr m L1 MACH_ASSERT bs off Hn), (frame_find_page mr m' L2 MACH_ASSERT bs off Hn).
  destruct (find_page_hash MACH_ASSERT mr bs off) as [[[[[b o] h] x] |] | | |] eqn:E; cbn [mbind outcome_bind]; try done.
  apply find_page_in in E. rewrite Forall_forall in Hr. destruct (Hr b E) as [(cd & ent & der & h' & V & Hc & Hh) Ho Hf]. rewrite Hc.
  pose proof V as [_ _ _ Hm _ _ _ _ _].
  pose proof (sig_cd32 PAGE_SHIFT sha1 sha256 sha384 mr Hbr _ _ Hm cd ent der (valid_wf V) "codeLimit" eq_refl) as El.
  by rewrite (refines_ret _ _ _ (frame_cd32 mr m L1 cd "codeLimit") El), (refines_ret _ _ _ (frame_cd32 mr m' L2 cd "codeLimit") El).
Qed.

Lemma loop_ext {S R} (P : S -> Prop) (f g : S -> outcome (ctl S R)) :
  (forall s, P s -> f s = g s /\ forall s', g s = Ret (Next s') -> P s') -> forall n s, P s -> loop_ret n f s = loop_ret n g s.
Proof.
  intros H n. induction n as [|n IH]; intros s Hs; cbn [loop_ret]; [done |]. destruct (H s Hs) as [-> Hn].
  destruct (g s) as [[s' | r] | | |]; cbn; try done. by apply IH, Hn.
Qed.

Lemma validate_page_local m m' bs off data : byte_mem m -> Forall (backed m) bs -> (forall x, regions bs x = true -> m' x = m x) ->
  cs_validate_page PAGE_SHIFT MACH_ASSERT m' bs off data = cs_validate_page PAGE_SHIFT MACH_ASSERT m bs off data.
Proof.
  intros Hb Hbs Heq. unfold cs_validate_page. apply (loop_ext (fun _ => True)); [| done]. intros [o b] _. split; [| done].
  unfold validate_page_step. by rewrite (validate_hash_local m m').
Qed.

(** ** Where a signature is in the file *)

(** The code is inside the offsets a file can have. *)
Record placed (b : cs_blob) : Prop := {
  pl_base : - 2 ^ 63 <= csb_base_offset b < 2 ^ 63;
  pl_start : 0 <= csb_start_offset b < 2 ^ 49;
  pl_end : 0 <= csb_end_offset b < 2 ^ 49;
  pl_order : 0 <= file_start b < file_end b;
}.

Lemma s64_nonneg x : - 2 ^ 63 <= x < 2 ^ 64 -> 0 <= s64 x -> s64 x = x.
Proof.
  intros Hx H. destruct (Z.lt_ge_cases x (2 ^ 63)) as [Hlt | Hge]; [apply s64_small; lia |]. exfalso.
  unfold s64, swrap in H. change (64 - 1) with 63 in H.
  assert ((x + 2 ^ 63) mod 2 ^ 64 = x + 2 ^ 63 - 2 ^ 64) as E by (symmetry; apply (Z.mod_unique _ _ 1); lia). lia.
Qed.

Lemma file_exact b : placed b -> file_start b = csb_base_offset b + csb_start_offset b /\ file_end b = csb_base_offset b + csb_end_offset b.
Proof. intros [B S E O]. unfold file_start, file_end in *. split; apply s64_nonneg; lia. Qed.

Lemma covers_file b off : placed b -> 0 <= off < 2 ^ 63 ->
  covers b (s64 (u64 (off - csb_base_offset b))) = (file_start b <=? off) && (off <? file_end b).
Proof.
  intros Hp Ho. destruct (file_exact b Hp) as [-> ->]. pose proof (file_exact b Hp) as [E1 E2]. destruct Hp as [B S E O].
  rewrite s64_u64. unfold covers. assert (s64 (off - csb_base_offset b) = off - csb_base_offset b \/
    (s64 (off - csb_base_offset b) < 0 /\ off - csb_base_offset b >= 2 ^ 63)) as [Es | [Es Hbig]].
  { destruct (Z.lt_ge_cases (off - csb_base_offset b) (2 ^ 63)); [left; apply s64_small; lia |]. right. split; [| lia].
    destruct (Z.lt_ge_cases (s64 (off - csb_base_offset b)) 0); [done |]. pose proof (s64_nonneg (off - csb_base_offset b) ltac:(lia) ltac:(done)).
    pose proof (Z.mod_pos_bound (off - csb_base_offset b + 2 ^ 63) (2 ^ 64) ltac:(lia)). unfold s64, swrap in *. change (64 - 1) with 63 in *. lia. }
  - rewrite Es. destruct (Z.leb_spec (csb_start_offset b) (off - csb_base_offset b)), (Z.ltb_spec (off - csb_base_offset b) (csb_end_offset b)),
      (Z.leb_spec (csb_base_offset b + csb_start_offset b) off), (Z.ltb_spec off (csb_base_offset b + csb_end_offset b)); cbn; (done || lia).
  - rewrite (proj2 (Z.leb_gt _ (s64 _))), (proj2 (Z.ltb_ge off _)) by lia. by rewrite andb_false_r.
Qed.

(** A page outside the range of the first signature is checked against the others. *)
Lemma validate_page_skip m b bs off data : placed b -> 0 <= off -> off + PAGE_SIZE PAGE_SHIFT <= 2 ^ 63 ->
  off + PAGE_SIZE PAGE_SHIFT <= file_start b \/ file_end b <= off ->
  cs_validate_page PAGE_SHIFT MACH_ASSERT m (b :: bs) off data = cs_validate_page PAGE_SHIFT MACH_ASSERT m bs off data.
Proof.
  intros Hp Ho Hend Hout. unfold cs_validate_page. apply (loop_ext (fun s => 0 <= s.1)); [| done]. intros [o r] H0. cbn [fst] in H0.
  unfold validate_page_step. destruct (Z.ltb_spec o (PAGE_SIZE PAGE_SHIFT)) as [Hlt | _]; [| done]. split.
  - unfold cs_validate_hash. cbn [find_page_hash]. rewrite (u64_small (off + o)) by (cint_unfold; lia). rewrite covers_file by (done || lia).
    assert ((file_start b <=? off + o) && (off + o <? file_end b) = false) as ->; [| done].
    destruct (Z.leb_spec (file_start b) (off + o)), (Z.ltb_spec (off + o) (file_end b)); cbn; (done || lia).
  - intros s'. destruct (cs_validate_hash _ _ _ _ _) as [h | | |]; cbn [mbind outcome_bind]; try done.
    destruct (_ =? 0); [intros [= <-]; cbn [fst]; unfold FOURK_PAGE_SIZE; lia |]. destruct (_ && _); [done |]. unfold kassert.
    destruct (_ && _); cbn [mbind outcome_bind]; [done |]. intros [= <-]. cbn [fst]. unfold FOURK_PAGE_SIZE. lia.
Qed.
End local.
