(* ===== verification/CodeSignSettle.v ===== *)
(** * Code signatures: from a validated signature to an attachable object

    The checks [ubc_cs_blob_add] makes on one object, in their order: main binary, policy,
    hashes of hashes, constraint blobs, team, coverage.  They return on every validated
    signature; the object they end with stands for the same code, in memory of its own. *)

From stdpp Require Import base list strings gmap.
From Stdlib Require Import ZArith Lia.
From S2P Require Import Prelude XzsfsCore Memory Kernel CodeSign CodeSignProofs CodeSignPage CodeSignAuth CodeSignFrame Amfi AmfiProofs CodeSignBlob CodeSignMulti CodeSignLevels CodeSignLocal.

(** A test of one bit. *)
Lemma land_bit f k : 0 <= k -> (Z.land f (2 ^ k) =? 0) = negb (Z.testbit f k).
Proof.
  intros Hk. destruct (Z.testbit f k) eqn:E.
  - apply Z.eqb_neq. intros H. apply (f_equal (fun v => Z.testbit v k)) in H. by rewrite Z.land_spec, E, Z.pow2_bits_true, Z.bits_0 in H by lia.
  - apply Z.eqb_eq, Z.bits_inj'. intros n Hn. rewrite Z.land_spec, Z.bits_0, Z.pow2_bits_eqb by lia.
    destruct (Z.eqb_spec k n) as [<- |]; [by rewrite E | apply andb_false_r].
Qed.

(** ** Checks of one object *)

Section checks.
Context (PAGE_SHIFT : Z) (sha1 sha256 sha384 : bytes -> bytes) (m : mem) (b : cs_blob).
Context (Hb : backed PAGE_SHIFT sha1 sha256 sha384 m b).

(** A code directory, if there is one, that says the code is a main binary. *)
Definition main_segment (r : option Z) : Prop :=
  exists c, r = Some c /\ CS_SUPPORTSEXECSEG <= cdv m c "version" /\ Z.testbit (be m (c + 84)) 0 = true.

(** The blob found in a slot. *)
Definition slot_blob (m : mem) (addr slot magic : Z) : option Z := snd <$> List.find (wanted m slot magic) (indexed m addr).

(** One of the code directories says so. *)
Definition main_binary : Prop :=
  exists slot, is_cd_slot slot = true /\ main_segment (slot_blob m (csb_mem_kaddr b) slot CSMAGIC_CODEDIRECTORY).

Lemma backed_find type magic : csblob_find_blob m b type magic = Ret (slot_blob m (csb_mem_kaddr b) type magic).
Proof. destruct Hb as [(cd & ent & der & h & V & Hc & Hh) Ho Hf]. unfold csblob_find_blob. by rewrite Hf, (find_blob_spec V). Qed.

Lemma seg_flags_spec type : is_cd_slot type = true -> let r := slot_blob m (csb_mem_kaddr b) type CSMAGIC_CODEDIRECTORY in
  exists f, exec_seg_flags m r = Ret f /\ (Z.testbit f 0 = true <-> main_segment r).
Proof.
  destruct Hb as [(cd & ent & der & h & V & Hc & Hh) _ _]. pose proof V as [_ _ Hby Hm _ _ _ _ _]. intros Ht r. unfold main_segment.
  destruct r as [c |] eqn:Er; cbn [exec_seg_flags]; [| eexists; split; [done |]; split; [done | naive_solver]].
  assert (112 <= blen m c /\ csb_mem_kaddr b <= c /\ c + blen m c <= csb_mem_kaddr b + csb_mem_size b) as (H1 & H2 & H3).
  { unfold r, slot_blob in Er. destruct (List.find _ _) as [[t x] |] eqn:E in Er; [| done]. injection Er as ->.
    apply find_some in E as [Hin Hw]. apply list_elem_of_In in Hin. apply andb_true_iff in Hw as [Et%Z.eqb_eq _]. cbn in Et. subst t.
    destruct (indexed_in V _ Hin) as (G1 & G2 & G3). split; [by eapply (indexed_cd V) | cbn in *; lia]. }
  rewrite (cd32_ok m Hby (csb_mem_kaddr b) (csb_mem_size b)) by (done || lia). cbn [mbind outcome_bind].
  fold (cdv m c "version"). destruct (Z.leb_spec CS_SUPPORTSEXECSEG (cdv m c "version")) as [Hv | Hv].
  2:{ eexists. split; [done |]. split; [done | intros (c' & [= <-] & ? & _); lia]. }
  unfold load_be64. change (field_offset CS_CodeDirectory "execSegFlags" 0) with 80.
  rewrite !(load_be32_mapped m (csb_mem_kaddr b) (csb_mem_size b)) by (done || lia). cbn [mbind outcome_bind]. eexists. split; [reflexivity |].
  replace (c + 80 + 4) with (c + 84) by lia.
  rewrite !Z.bit0_odd. rewrite Z.odd_add, Z.odd_mul. cbn [Z.odd Z.pow]. change (Z.odd (2 ^ 32)) with false. rewrite andb_false_r, xorb_false_l.
  split; [intros H; exists c; rewrite Z.bit0_odd; by split_and! | intros (c' & [= <-] & _ & H); by rewrite Z.bit0_odd in H].
Qed.

Lemma alternates_spec n : forall k f, 0 <= k -> k + Z.of_nat n <= 5 -> exists f', for_ret n k (alternate_flags m b) f = Ret (Next f') /\
  (Z.testbit f' 0 = true <-> Z.testbit f 0 = true \/ exists i, k <= i < k + Z.of_nat n /\
     main_segment (slot_blob m (csb_mem_kaddr b) (CSSLOT_ALTERNATE_CODEDIRECTORIES + i) CSMAGIC_CODEDIRECTORY)).
Proof.
  induction n as [|n IH]; intros k f Hk Hn; cbn [for_ret]; [eexists; split; [done |]; split; [by left | intros [? | (i & ? & _)]; [done | lia]] |].
  unfold alternate_flags at 2. rewrite backed_find. cbn [mbind outcome_bind].
  destruct (seg_flags_spec (CSSLOT_ALTERNATE_CODEDIRECTORIES + k)) as (g & -> & Hg).
  { unfold is_cd_slot, CSSLOT_ALTERNATE_CODEDIRECTORIES, CSSLOT_CODEDIRECTORY, CSSLOT_ALTERNATE_CODEDIRECTORY_LIMIT in *.
    rewrite (proj2 (Z.leb_le _ _)), (proj2 (Z.ltb_lt _ _)) by lia. apply orb_true_r. }
  cbn [mbind outcome_bind]. destruct (IH (k + 1) (Z.lor f g)) as (f' & Hr & Hf'); [lia | lia |]. exists f'. split; [exact Hr |].
  rewrite Hf', Z.lor_spec, orb_true_iff, Hg. split.
  - intros [[? | Hs] | (i & Hi & Hs)]; [by left | right; exists k; split; [lia | done] | right; exists i; split; [lia | done]].
  - intros [? | (i & Hi & Hs)]; [by do 2 left |]. destruct (decide (i = k)) as [-> | Hne]; [left; by right | right; exists i; split; [lia | done]].
Qed.

(** Main binaries are refused unless the caller allows them. *)
Lemma main_binary_spec flags : exists e, validate_main_binary_check m b flags = Ret e /\
  let allowed := Z.land flags CS_BLOB_ADD_ALLOW_MAIN_BINARY <> 0 in
  ((e = 0 /\ (allowed \/ ~ main_binary)) \/ (e = EBADEXEC /\ ~ allowed /\ main_binary)).
Proof.
  unfold validate_main_binary_check. destruct (Z.eqb_spec (Z.land flags CS_BLOB_ADD_ALLOW_MAIN_BINARY) 0) as [E | E]; cbn [negb];
    [| eexists; split; [done | left; split; [done | by left]]].
  rewrite backed_find. cbn [mbind outcome_bind]. destruct (seg_flags_spec CSSLOT_CODEDIRECTORY eq_refl) as (f & -> & Hf). cbn [mbind outcome_bind].
  destruct (alternates_spec (Z.to_nat CSSLOT_ALTERNATE_CODEDIRECTORY_MAX) 0 f) as (f' & -> & Hf'); [lia | done |]. cbn [mbind outcome_bind].
  assert (Z.testbit f' 0 = true <-> main_binary) as Hmain.
  { rewrite Hf', Hf. unfold main_binary. split.
    - intros [Hs | (i & Hi & Hs)]; [by exists CSSLOT_CODEDIRECTORY |]. exists (CSSLOT_ALTERNATE_CODEDIRECTORIES + i). split; [| done].
      change (Z.of_nat (Z.to_nat CSSLOT_ALTERNATE_CODEDIRECTORY_MAX)) with 5 in Hi.
      unfold is_cd_slot, CSSLOT_ALTERNATE_CODEDIRECTORIES, CSSLOT_CODEDIRECTORY, CSSLOT_ALTERNATE_CODEDIRECTORY_LIMIT in *.
      rewrite (proj2 (Z.leb_le _ _)), (proj2 (Z.ltb_lt _ _)) by lia. apply orb_true_r.
    - intros (slot & Hsl & Hs). apply orb_true_iff in Hsl as [->%Z.eqb_eq | [H1%Z.leb_le H2%Z.ltb_lt]%andb_true_iff]; [by left | right].
      exists (slot - CSSLOT_ALTERNATE_CODEDIRECTORIES). change (Z.of_nat (Z.to_nat CSSLOT_ALTERNATE_CODEDIRECTORY_MAX)) with 5.
      rewrite Zplus_minus. split; [| done]. unfold CSSLOT_ALTERNATE_CODEDIRECTORY_LIMIT, CSSLOT_ALTERNATE_CODEDIRECTORIES in *. lia. }
  eexists. split; [reflexivity |]. change CS_EXECSEG_MAIN_BINARY with (2 ^ 0). rewrite land_bit, negb_involutive by lia. cbv zeta.
  destruct (Z.testbit f' 0); [right; split_and!; [done | by intros [] | by apply Hmain] | left; split; [done | right; by intros ?%Hmain]].
Qed.

(** The constraint blobs are the ones the code directory has hashes of, or there is none and no
    hash. *)
Definition constraints_authentic : Prop :=
  exists cd ent der h, valid_signature PAGE_SHIFT sha1 sha256 sha384 m (csb_mem_kaddr b) (csb_mem_size b) cd ent der h /\ csb_cd b = cd /\
    Forall (fun id => authentic m cd h id.1 (default 0 (slot_blob m (csb_mem_kaddr b) id.1 id.2))) identifiers.

Lemma auxiliary_spec : exists e, validate_auxiliary_signed_blobs m b = Ret e /\
  ((e = 0 /\ constraints_authentic) \/ (e = EPERM /\ ~ constraints_authentic)).
Proof.
  destruct Hb as [(cd & ent & der & h & V & Hc & Hh) _ _]. unfold validate_auxiliary_signed_blobs.
  set (good := fun id : Z * Z => authentic m cd h id.1 (default 0 (slot_blob m (csb_mem_kaddr b) id.1 id.2))).
  assert (constraints_authentic <-> Forall good identifiers) as Hco.
  { split; [| intros Hg; exists cd, ent, der, h; by split_and!]. intros (cd' & ent' & der' & h' & V' & Hc' & Hg).
    pose proof (vs_valid _ _ _ _ _ _ _ _ _ _ _ V) as E1. rewrite (vs_valid _ _ _ _ _ _ _ _ _ _ _ V') in E1. injection E1 as -> -> ->.
    pose proof (vs_hash _ _ _ _ _ _ _ _ _ _ _ V) as E2. rewrite (vs_hash _ _ _ _ _ _ _ _ _ _ _ V') in E2. by injection E2 as ->. }
  setoid_rewrite Hco. clear Hco.
  assert (Forall (fun e => 0 <= e.1) identifiers) as Hid by (unfold identifiers; rewrite !Forall_cons; by split_and!).
  induction Hid as [|[slot magic] ids Hs _ IH]; cbn [validate_slots]; [eexists; split; [done | left; by split] |]. setoid_rewrite Forall_cons.
  destruct (slot_blob_vouched V b slot magic) as (e & x & len & -> & Hcase); [done | done | done | done | done |]. cbn [mbind outcome_bind].
  destruct Hcase as [(-> & _ & _ & Ha) | (-> & _ & _ & Ha)]; cbn [Z.eqb negb EBADEXEC].
  - destruct IH as (e & -> & He). exists e. split; [done |]. assert (good (slot, magic)) as Hgood by exact Ha. tauto.
  - eexists. split; [done |]. right. split; [done |]. intros [Hx _]. by apply Ha.
Qed.

(** ** Team identifiers *)

(** The identifier as far as it is in the signature. *)
Definition team_text (m : mem) (b : cs_blob) : outcome (option bytes) :=
  if csb_teamid b =? 0 then Ret None
  else s ← load_cstr (Z.to_nat (csb_mem_size b)) (restrict m (csb_mem_kaddr b) (csb_mem_size b)) (csb_teamid b); Ret (Some s).
End checks.

Lemma load_cstr_nul m k : forall fuel a, mapped m a (Z.of_nat k + 1) -> byte m (a + Z.of_nat k) = 0 -> (k < fuel)%nat ->
  exists s, load_cstr fuel m a = Ret s.
Proof.
  induction k as [|k IH]; intros fuel a Hm Hz Hf; (destruct fuel as [|fuel]; [lia |]); cbn [load_cstr];
    rewrite (load8_mapped m a _ a Hm) by lia; cbn [mbind outcome_bind].
  { rewrite Z.add_0_r in Hz. rewrite Hz. by eexists. }
  destruct (_ =? 0); [by eexists |]. destruct (IH fuel (a + 1)) as [s ->]; [| | lia | by eexists].
  - apply (mapped_sub m a _ _ _ Hm); lia.
  - rewrite <- Hz. f_equal. lia.
Qed.

Lemma load_cstr_fuel m f f' : forall a s, load_cstr f m a = Ret s -> (f <= f')%nat -> load_cstr f' m a = Ret s.
Proof.
  revert f'. induction f as [|f IH]; intros f' a s; cbn [load_cstr]; [done |]. destruct f' as [|f']; [lia |]. intros H Hf. cbn [load_cstr].
  destruct (load8 m a) as [c | | |]; cbn [mbind outcome_bind] in *; try done. destruct (c =? 0); [done |].
  destruct (load_cstr f m (a + 1)) as [s' | | |] eqn:E; try done. by rewrite (IH f' _ _ E) by lia.
Qed.

Lemma load_cstr_ext m m' f : (forall x, m' x = m x) -> forall a, load_cstr f m' a = load_cstr f m a.
Proof. intros H. induction f as [|f IH]; intros a; cbn [load_cstr]; [done |]. unfold load8. rewrite H. destruct (of_option (m a)); cbn; try done. by rewrite IH. Qed.

Lemma team_agree m m' b : (forall x, csb_mem_kaddr b <= x < csb_mem_kaddr b + csb_mem_size b -> m' x = m x) -> team_text m' b = team_text m b.
Proof.
  intros H. unfold team_text. destruct (_ =? 0); [done |]. f_equal. apply load_cstr_ext. intros x. unfold restrict.
  destruct (Z.leb_spec (csb_mem_kaddr b) x), (Z.ltb_spec x (csb_mem_kaddr b + csb_mem_size b)); cbn; try done. by rewrite H by lia.
Qed.

Lemma teamid_spec (PAGE_SHIFT : Z) (sha1 sha256 sha384 : bytes -> bytes) (m : mem) (b : cs_blob) : backed PAGE_SHIFT sha1 sha256 sha384 m b ->
  exists t, csblob_parse_teamid m b = Ret t /\ forall c, csb_mem_kaddr c = csb_mem_kaddr b -> csb_mem_size c = csb_mem_size b ->
    csb_teamid c = t -> exists s, team_text m c = Ret s.
Proof.
  intros [(cd & ent & der & h & V & Hc & Hh) _ _]. pose proof V as [_ _ Hby Hm Hsz Ha He _ _]. pose proof (valid_wf V) as Hsig.
  pose proof (cd_inside PAGE_SHIFT sha1 sha256 sha384 m Hby _ _ cd ent der Hsig) as (H1 & H2 & H3).
  pose proof (cdo_team _ _ _ _ _ _ _ (cd_wf PAGE_SHIFT sha1 sha256 sha384 m Hby _ _ cd ent der Hsig)) as [Ht1 Ht2]. unfold cd_team in *.
  unfold csblob_parse_teamid. rewrite Hc, !(sig_cd32 PAGE_SHIFT sha1 sha256 sha384 m Hby _ _ Hm cd ent der Hsig) by done. cbn [mbind outcome_bind].
  assert (forall c, csb_teamid c = 0 -> exists s, team_text m c = Ret s) as Hzero by (intros c Ec; unfold team_text; rewrite Ec; by eexists).
  destruct (Z.ltb_spec (cdv m cd "version") CS_SUPPORTSTEAMID) as [Hlt | Hge]; [eexists; split; [done |]; intros; by apply Hzero |].
  rewrite (proj2 (Z.leb_le _ _)) in Ht1, Ht2 by lia. eexists. split; [reflexivity |]. intros c Ek Es Et.
  destruct (Z.eqb_spec (cdv m cd "teamOffset") 0) as [E0 | E0]; [by apply Hzero |].
  destruct (Ht2 E0) as (i & Hi & Hz). pose proof (be_u32 m (cd + field_offset CS_CodeDirectory "teamOffset" 0) Hby) as Hu.
  fold (cdv m cd "teamOffset") in Hu. cint_unfold. unfold team_text. rewrite Et, Ek, Es, (proj2 (Z.eqb_neq _ 0)) by lia.
  set (a := cd + cdv m cd "teamOffset") in *.
  destruct (load_cstr_nul (restrict m (csb_mem_kaddr b) (csb_mem_size b)) (Z.to_nat (i - a)) (Z.to_nat (csb_mem_size b)) a) as [s ->];
    [| | lia | by eexists].
  - intros x Hx. rewrite restrict_in by lia. apply Hm. lia.
  - replace (a + Z.of_nat (Z.to_nat (i - a))) with i by lia. unfold byte. by rewrite restrict_in by lia.
Qed.

(** Two signatures by one signer. *)
Definition kin (m : mem) (b c : cs_blob) : Prop :=
  csb_signer_type b = csb_signer_type c /\ csb_platform_binary b = csb_platform_binary c /\ team_text m b = team_text m c.

Lemma team_load m b s f : team_text m b = Ret (Some s) -> (Z.to_nat (csb_mem_size b) <= f)%nat ->
  csb_teamid b <> 0 /\ load_cstr f m (csb_teamid b) = Ret s.
Proof.
  unfold team_text. destruct (Z.eqb_spec (csb_teamid b) 0) as [| Hne]; [done |]. intros H Hf. split; [done |].
  destruct (load_cstr _ _ _) as [s' | | |] eqn:E in H; try done. injection H as <-. eapply load_cstr_fuel; [| exact Hf].
  eapply refines_ret; [apply frame_cstr, restrict_le; done | exact E].
Qed.

Lemma team_none m b : team_text m b = Ret None -> csb_teamid b = 0.
Proof. unfold team_text. destruct (Z.eqb_spec (csb_teamid b) 0); [done |]. by destruct (load_cstr _ _ _). Qed.

Lemma same_signer_spec m b c : (exists s, team_text m b = Ret s) -> (exists s, team_text m c = Ret s) ->
  0 <= csb_mem_size b -> 0 <= csb_mem_size c ->
  (csb_platform_binary b = true -> csb_teamid b = 0) -> (csb_platform_binary c = true -> csb_teamid c = 0) ->
  exists r, same_signer m b c = Ret r /\ (r = true <-> kin m b c).
Proof.
  intros [s Hs] [t Ht] Hb Hc Pb Pc. unfold same_signer, kin.
  destruct (Z.eqb_spec (csb_signer_type b) (csb_signer_type c)) as [E | E]; cbn [negb]; [| eexists; split; [done | naive_solver]].
  rewrite Hs, Ht. destruct (csb_platform_binary b) eqn:Epb.
  { eexists. split; [done |]. destruct (csb_platform_binary c) eqn:Epc; [| naive_solver].
    unfold team_text in Hs, Ht. rewrite Pb in Hs by done. rewrite Pc in Ht by done. cbn in Hs, Ht. naive_solver. }
  destruct s as [s |].
  - destruct (team_load m b s (Z.to_nat (csb_mem_size b + csb_mem_size c)) Hs ltac:(lia)) as [Hne Hl]. rewrite (proj2 (Z.eqb_neq _ 0)) by done. cbn [negb].
    destruct (csb_platform_binary c) eqn:Epc; cbn [orb]; [eexists; split; [done | naive_solver] |]. destruct t as [t |].
    + destruct (team_load m c t (Z.to_nat (csb_mem_size b + csb_mem_size c)) Ht ltac:(lia)) as [Hne' Hl']. rewrite (proj2 (Z.eqb_neq _ 0)) by done.
      unfold same_team. rewrite Hl', Hl. cbn [mbind outcome_bind]. eexists. split; [done |]. rewrite bool_decide_eq_true. naive_solver.
    + rewrite (team_none m c Ht). cbn [Z.eqb]. eexists. split; [done | naive_solver].
  - rewrite (team_none m b Hs). cbn [Z.eqb negb]. eexists. split; [done |]. destruct (csb_platform_binary c) eqn:Epc; cbn [orb negb]; [naive_solver |].
    destruct t as [t |].
    + destruct (team_load m c t (Z.to_nat (csb_mem_size c)) Ht ltac:(lia)) as [Hne' _]. rewrite (proj2 (Z.eqb_neq _ 0)) by done. naive_solver.
    + rewrite (team_none m c Ht). naive_solver.
Qed.

(** ** From the validated object to the one that is attached *)

Definition in_blob (b : cs_blob) (x : Z) : Prop := csb_mem_kaddr b <= x < csb_mem_kaddr b + csb_mem_size b.

(** The signature of [b] in [m] is now that of [b'] in [m'], perhaps in other memory. *)
Record moved (m m' : mem) (b b' : cs_blob) : Prop := {
  mv_out : forall x, ~ in_blob b x -> ~ in_blob b' x -> m' x = m x;
  mv_new : forall x, in_blob b' x -> ~ in_blob b x -> m x = None;
  mv_old : forall x, in_blob b x -> ~ in_blob b' x -> m' x = None;
}.

(** What the checks leave alone. *)
Record kept (b b' : cs_blob) : Prop := {
  kp_ro : csb_ro b' = csb_ro b;
  kp_cpu : csb_cpu_type b' = csb_cpu_type b /\ csb_cpu_subtype b' = csb_cpu_subtype b;
  kp_base : csb_base_offset b' = csb_base_offset b;
  kp_vnode : csb_vnode b' = csb_vnode b;
  kp_cdhash : csb_cdhash b' = csb_cdhash b;
  kp_signer : csb_signer_type b' = csb_signer_type b;
}.

Section settle.
Context {PAGE_SHIFT : Z} {sha1 sha256 sha384 : bytes -> bytes} {m : mem} {addr size cd ent der : Z} {h : cs_hash}.
Context (V : valid_signature PAGE_SHIFT sha1 sha256 sha384 m addr size cd ent der h) (MACH_ASSERT : bool) `{SigAllocLaws}.
Context (Hcv : pageshift m cd = PAGE_SHIFT \/ convertible m cd h) (Hsmall : size < 2 ^ 27).
Context (Hroom : forall k, 0 < k < 2 ^ 31 -> kalloc_data_tag m k <> 0) (base : Z) (Hbase : - 2 ^ 63 <= base < 2 ^ 63).

(** Every piece of the page is signed, and has the hash of its slot. *)
Definition signed_page (P : Z) (data : bytes) : Prop :=
  forall i, 0 <= i < PAGE_SIZE PAGE_SHIFT / 4096 -> piece_bits PAGE_SHIFT m cd h P data i = (true, false, false).

(** The page check says so, up to a collision of the hash. *)
Definition faithful (m' : mem) (b' : cs_blob) : Prop :=
  cd_scatter m cd = 0 -> cdv m cd "codeLimit" <= cdv m cd "nCodeSlots" * pagesize m cd -> 0 <= base < 2 ^ 61 ->
  forall P data, 0 <= P < 2 ^ 32 -> zlen data = PAGE_SIZE PAGE_SHIFT ->
    (signed_page P data -> clean PAGE_SHIFT MACH_ASSERT m' b' P data) /\
    (clean PAGE_SHIFT MACH_ASSERT m' b' P data -> signed_page P data \/
      (stored_hashes PAGE_SHIFT m cd h P <> digests_of h (pieces PAGE_SHIFT) data /\
       cs_digest h (stored_hashes PAGE_SHIFT m cd h P) = cs_digest h (digests_of h (pieces PAGE_SHIFT) data))).

Lemma clean_signed o P data : pages_of m addr size cd h o base -> csb_hash_firstlevel_pageshift o = 0 ->
  cd_scatter m cd = 0 -> cdv m cd "codeLimit" <= cdv m cd "nCodeSlots" * pagesize m cd -> 0 <= base < 2 ^ 61 ->
  0 <= P < 2 ^ 32 -> zlen data = PAGE_SIZE PAGE_SHIFT -> (clean PAGE_SHIFT MACH_ASSERT m o P data <-> signed_page P data).
Proof.
  intros Ho Hlo Hsc Hslots Hb HP Hdata. pose proof V as [Hdg Hs Hby Hmap Hsz Ha Hend _ Hh]. pose proof (valid_wf V) as Hsig.
  destruct (validate_page_spec PAGE_SHIFT MACH_ASSERT sha1 sha256 sha384 m Hby addr size Hmap ltac:(lia) Ha Hend cd ent der Hsig
    ltac:(lia) Hdg h Hh Hsc Hslots base P data Hb HP ltac:(lia) Hdata o Ho Hlo) as (r & Hr & Hbits).
  unfold clean, signed_page. rewrite (pg_base _ _ _ _ _ _ _ Ho), Hr. split.
  - intros (r' & [= <-] & H') i Hi. by rewrite <- Hbits, H'.
  - intros H'. exists r. split; [done |]. intros i Hi. by rewrite Hbits, H'.
Qed.

Lemma faithful_pages b' m' : pages_of m addr size cd h b' base -> csb_hash_firstlevel_pageshift b' = 0 -> (forall x, m' x = m x) ->
  backed PAGE_SHIFT sha1 sha256 sha384 m b' -> faithful m' b'.
Proof.
  intros Hp Hl Hm Hbk Hsc Hslots Hb P data HP Hdata.
  assert (clean PAGE_SHIFT MACH_ASSERT m' b' P data <-> clean PAGE_SHIFT MACH_ASSERT m b' P data) as ->.
  { unfold clean. rewrite (validate_page_local PAGE_SHIFT MACH_ASSERT sha1 sha256 sha384 m m' [b'] _ data); [done | apply V | by apply Forall_singleton | done]. }
  rewrite (clean_signed b') by done. tauto.
Qed.

(** The object after the policy: what it stands for, and that a platform binary has no team. *)
Record subject (b : cs_blob) : Prop := {
  su_describes : describes addr size cd ent der h b;
  su_pages : pages_of m addr size cd h b base;
  su_level : csb_hash_firstlevel_pageshift b = 0;
  su_platform : csb_platform_binary b = negb (Z.land (csb_flags b) CS_PLATFORM_BINARY =? 0);
  su_team : csb_platform_binary b = true -> csb_teamid b = 0;
}.

Lemma subject_backed b : describes addr size cd ent der h b -> csb_mem_offset b = 0 -> backed PAGE_SHIFT sha1 sha256 sha384 m b.
Proof. intros [F K S C T _ _] Ho. split; [| done | done]. exists cd, ent, der, h. by rewrite K, S. Qed.

(** The signature the object stands for after [setup_multilevel_hashing]. *)
Record ready (b : cs_blob) (m' : mem) (b' : cs_blob) : Prop := {
  rd_bytes : byte_mem m';
  rd_backed : backed PAGE_SHIFT sha1 sha256 sha384 m' b';
  rd_moved : moved m m' b b';
  rd_kept : kept b b';
  rd_ents : csb_entitlements b' = csb_entitlements b;
  rd_flags : csb_flags b' = csb_flags b;
  rd_platform : csb_platform_binary b' = csb_platform_binary b;
  rd_signer : csb_signer_type b' = csb_signer_type b;
  rd_verdict : faithful m' b';
  rd_offsets : 0 <= csb_start_offset b' < 2 ^ 49 /\ 0 <= csb_end_offset b' < 2 ^ 49;
}.

Lemma cover_bounds : 0 <= cover_start m cd < 2 ^ 49 /\ 0 <= cover_end m cd < 2 ^ 49.
Proof.
  pose proof V as [_ Hs Hby Hmap Hsz Ha Hend _ Hh]. pose proof (valid_wf V) as Hsig.
  pose proof (pagesize_range PAGE_SHIFT sha1 sha256 sha384 m Hby addr size cd ent der Hsig ltac:(lia)) as Hp.
  pose proof (cdv_u32 m Hby cd "codeLimit") as Hl. pose proof (be_u32 m (cd + cd_scatter m cd + 4) Hby) as Hb. cint_unfold.
  change (2 ^ 12) with 4096 in Hp. change (2 ^ 16) with 65536 in Hp. split.
  - unfold cover_start. destruct (_ =? 0); [lia |]. nia.
  - unfold cover_end. set (L := cdv m cd "codeLimit") in *. set (p := pagesize m cd) in *.
    pose proof (Z.mul_div_le (L + p - 1) p ltac:(lia)). pose proof (Z.div_pos (L + p - 1) p ltac:(lia) ltac:(lia)). nia.
Qed.

(** The object under another team identifier. *)
Definition with_team (b : cs_blob) (team : Z) : cs_blob :=
  with_signer b (csb_flags b) (csb_signer_type b) (csb_platform_binary b) (csb_platform_path b) team.
Lemma with_team_same b : with_team b (csb_teamid b) = b.
Proof. by destruct b. Qed.

Lemma unchanged_ready b m' team : subject b -> (forall x, m' x = m x) -> ready b m' (with_team b team).
Proof.
  intros Hsu Hm. pose proof Hsu as [Hd Hp Hl _ _]. pose proof (vs_bytes _ _ _ _ _ _ _ _ _ _ _ V) as Hby.
  assert (byte_mem m') as Hby' by (intros x v; rewrite Hm; apply Hby).
  assert (backed PAGE_SHIFT sha1 sha256 sha384 m (with_team b team)) as Hbk.
  { apply subject_backed; [by destruct Hd | exact (pg_offset _ _ _ _ _ _ _ Hp)]. }
  split; try done.
  - apply (backed_agree _ _ _ _ m); [done | done | intros; apply Hm].
  - apply faithful_pages; try done. by destruct Hp.
  - cbn. rewrite (pg_start _ _ _ _ _ _ _ Hp), (pg_end _ _ _ _ _ _ _ Hp). exact cover_bounds.
Qed.

Lemma converted_ready b sb total new_cd ent' der' m' : subject b -> 12 < PAGE_SHIFT -> pageshift m cd = 12 ->
  cdv m cd "nCodeSlots" mod Z.of_nat (pieces PAGE_SHIFT) = 0 -> cdv m cd "codeLimit" mod PAGE_SIZE PAGE_SHIFT = 0 ->
  converted PAGE_SHIFT sha1 sha256 sha384 m addr size cd h sb total new_cd ent' der' m' ->
  ready b m' (with_signature PAGE_SHIFT b sb total new_cd der' 0 (cdv m cd "codeLimit")).
Proof.
  intros [Hd Hp Hl _ _] Hlt E12 Hsl Hal Hco. pose proof Hco as [V' Ho1 Ho2 Ho3 _ _ _ _]. pose proof Hd as [F K S C T _ _].
  assert (forall x, in_blob b x <-> addr <= x < addr + size) as Hin by (intros x; unfold in_blob; by rewrite K, S).
  split; try done.
  - apply V'.
  - split; [| exact (pg_offset _ _ _ _ _ _ _ Hp) | done]. by exists new_cd, ent', der', h.
  - split; intros x; rewrite Hin; unfold in_blob; cbn; auto.
  - intros Hsc Hslots Hb P data HP Hdata. rewrite <- (clean_signed b) by done.
    destruct (converted_verdict V MACH_ASSERT b base Hp Hl Hcv Hslots Hb _ _ _ _ _ _ P data Hlt E12 Hsl Hal Hco HP Hdata) as [-> ->].
    split; [by intros [? ->] |]. intros [Hc E]. destruct (decide (stored_hashes PAGE_SHIFT m cd h P = digests_of h (pieces PAGE_SHIFT) data)); tauto.
  - pose proof (cdv_u32 m (vs_bytes _ _ _ _ _ _ _ _ _ _ _ V) cd "codeLimit") as Hlim. cint_unfold. cbn [with_signature csb_start_offset csb_end_offset]. lia.
Qed.

Lemma setup_ready b : subject b -> exists e b1 m1, setup_multilevel_hashing PAGE_SHIFT MACH_ASSERT sha1 sha256 sha384 m b = Ret (e, b1, m1) /\
  (e <> 0 -> unconverted PAGE_SHIFT m cd b e) /\
  csb_platform_binary b1 = csb_platform_binary b /\ csb_teamid b1 = csb_teamid b /\ csb_flags b1 = csb_flags b /\
  forall team, (csb_platform_binary b1 = true -> team = csb_teamid b1) -> ready b m1 (with_team b1 team).
Proof.
  intros Hsu. pose proof Hsu as [Hd Hp Hl Hpf _].
  destruct (setup_spec V MACH_ASSERT b base Hd Hp Hcv Hsmall Hroom)
    as (e & b1 & m1 & Hr & [(-> & Hm & Hun) | (-> & [Hpl _ [E12 Hlt] Hsl Hal] & sb & total & new_cd & ent' & der' & -> & Hco)]);
    (eexists _, _, _; split; [exact Hr |]; split_and!; [done | done | done | done |]; intros team Hteam).
  - by apply unchanged_ready.
  - rewrite (Hteam Hpl), with_team_same. by eapply converted_ready.
Qed.

(** ** The whole check *)

Definition set_mem (m' : mem) (w : csworld) : csworld :=
  CsWorld m' (cw_kw w) (cw_zone w) (cw_ubc w) (cw_stats w) (cs_blob_generation_count w).

(** The object can be attached: its place in the file and its team are known. *)
Record attachable (m' : mem) (b' : cs_blob) : Prop := {
  at_placed : placed b';
  at_text : exists s, team_text m' b' = Ret s;
  at_team : csb_platform_binary b' = true -> csb_teamid b' = 0;
}.

(** The object is in its final memory: the verdict on it, with the error it is reported by. *)
Inductive settled (b : cs_blob) (m' : mem) (b' : cs_blob) : Z -> Prop :=
  | st_unconverted e : e <> 0 -> unconverted PAGE_SHIFT m cd b e -> settled b m' b' e
  | st_constraints : ~ constraints_authentic PAGE_SHIFT sha1 sha256 sha384 m' b' -> settled b m' b' EPERM
  | st_place : constraints_authentic PAGE_SHIFT sha1 sha256 sha384 m' b' -> ~ (0 <= file_start b' < file_end b') -> settled b m' b' EINVAL
  | st_ready : constraints_authentic PAGE_SHIFT sha1 sha256 sha384 m' b' -> 0 <= file_start b' < file_end b' -> attachable m' b' -> settled b m' b' 0.

Lemma settle_spec b w : cw_mem w = m -> subject b -> exists e b' m',
  settle_blob PAGE_SHIFT MACH_ASSERT sha1 sha256 sha384 b w = Ret (e, b', set_mem m' w) /\ ready b m' b' /\ settled b m' b' e.
Proof.
  intros Hw Hsu. destruct (setup_ready b Hsu) as (e & b1 & m1 & Hr & Hun & Hpf & Htm & Hfl & Hready).
  assert (ready b m1 b1) as R1 by (rewrite <- (with_team_same b1); by apply Hready).
  unfold settle_blob, in_mem, reads. unfold mbind at 1, prog_bind at 1. rewrite Hw, Hr. cbn [mbind outcome_bind].
  fold (set_mem m1 w). destruct (Z.eqb_spec e 0) as [-> | He]; cbn [negb]; [| eexists _, _, _; split; [done |]; split; [done | by apply st_unconverted; [| apply Hun]]].
  clear Hun. unfold mbind at 1, prog_bind at 1. cbn [cw_mem set_mem].
  destruct (auxiliary_spec PAGE_SHIFT sha1 sha256 sha384 m1 b1 (rd_backed _ _ _ R1)) as (e2 & -> & [[-> Hco] | [-> Hco]]); cbn [mbind outcome_bind Z.eqb negb EPERM];
    [| eexists _, _, _; split; [done |]; split; [done | by apply st_constraints]].
  change (accelerate_entitlement_queries =? 0) with true. cbn [negb].
  destruct (teamid_spec _ _ _ _ m1 b1 (rd_backed _ _ _ R1)) as (t & Ht & Htext).
  unfold mbind at 1, prog_bind at 1.
  assert (exists team, (if Z.land (csb_flags b1) CS_PLATFORM_BINARY =? 0 then fun w0 : csworld => a ← csblob_parse_teamid (cw_mem w0) b1; Ret (a, w0)
     else mret (csb_teamid b1)) (set_mem m1 w) = Ret (team, set_mem m1 w) /\
    (csb_platform_binary b1 = true -> team = csb_teamid b1) /\ (exists s, team_text m1 (with_team b1 team) = Ret s)) as (team & -> & Hteam & Hs).
  { pose proof Hsu as [_ _ _ Hplat Hnone]. rewrite Hfl. rewrite Hpf. destruct (Z.land (csb_flags b) CS_PLATFORM_BINARY =? 0); cbn [negb] in Hplat.
    - exists t. cbn [cw_mem set_mem]. rewrite Ht. split; [done |]. split; [by rewrite Hplat | by apply Htext].
    - exists (csb_teamid b1). split; [done |]. split; [done |]. unfold team_text. cbn. rewrite Htm, (Hnone Hplat). by eexists. }
  cbn [mbind outcome_bind]. fold (with_team b1 team). pose proof (Hready team Hteam) as R2.
  assert (constraints_authentic PAGE_SHIFT sha1 sha256 sha384 m1 (with_team b1 team)) as Hco2 by exact Hco.
  destruct (Z.leb_spec (file_end (with_team b1 team)) (file_start (with_team b1 team))) as [Hle | Hlt];
    [eexists _, _, _; split; [done |]; split; [done | apply st_place; [done | lia]] |].
  destruct (Z.ltb_spec (file_start (with_team b1 team)) 0) as [Hneg | Hpos]; cbn [orb];
    [eexists _, _, _; split; [done |]; split; [done | apply st_place; [done | lia]] |].
  rewrite (proj2 (Z.leb_gt _ _)) by lia. eexists _, _, _. split; [done |]. split; [done |]. apply st_ready; [done | lia |]. split; [| done |].
  - destruct (rd_offsets _ _ _ R2). split; [| done | done | lia]. rewrite (kp_base _ _ (rd_kept _ _ _ R2)).
    rewrite (pg_base _ _ _ _ _ _ _ (su_pages _ Hsu)). done.
  - intros Hp. cbn. change (csb_platform_binary (with_team b1 team)) with (csb_platform_binary b1) in Hp.
    rewrite (Hteam Hp), Htm. apply (su_team _ Hsu). by rewrite <- Hpf.
Qed.

(** ** The policy *)

(** The heap after the policy: as before, or with one more entitlement object, which [p] owns. *)
Definition owns (kw kw' : kworld) (p : Z) : Prop :=
  (p = 0 /\ same_heap kw kw') \/
  (p <> 0 /\ kw_ents kw !! p = None /\ exists e c, kw_bufs kw !! se_xml e = None /\
    kw_ents kw' = <[p := (e, 1)]> (kw_ents kw) /\ kw_bufs kw' = <[se_xml e := c]> (kw_bufs kw) /\ kw_held kw' = kw_held kw).

Definition set_kw (kw : kworld) (w : csworld) : csworld :=
  CsWorld (cw_mem w) kw (cw_zone w) (cw_ubc w) (cw_stats w) (cs_blob_generation_count w).

Lemma valid_bit f : Z.testbit f 0 = true -> (Z.land f CS_VALID =? 0) = false.
Proof. change CS_VALID with (2 ^ 0). rewrite land_bit by lia. by intros ->. Qed.
Lemma valid_bit_inv f : (Z.land f CS_VALID =? 0) = false -> Z.testbit f 0 = true.
Proof. change CS_VALID with (2 ^ 0). rewrite land_bit by lia. by intros ?%negb_false_iff. Qed.

Context (OSUnserializeXML : bytes -> option os_object) (debug : bool).

(** A new object of this signature, before the checks. *)
Record candidate (b : cs_blob) : Prop := {
  cn_describes : describes addr size cd ent der h b;
  cn_pages : pages_of m addr size cd h b base;
  cn_level : csb_hash_firstlevel_pageshift b = 0;
  cn_ents : csb_entitlements b = 0;
  cn_ro : csb_ro b = false;
}.

Lemma policy_spec env b w : cw_mem w = m -> kw_ok (cw_kw w) -> candidate b -> exists f b1 kw',
  mac_vnode_check_signature MACH_ASSERT OSUnserializeXML debug env b (csb_flags b) w = Ret (0, f, b1, set_kw kw' w) /\
  kw_ok kw' /\ attached m cd ent h OSUnserializeXML (cw_kw w) kw' b b1 /\ owns (cw_kw w) kw' (csb_entitlements b1) /\ Z.testbit f 0 = true /\
  (forall i, 0 <= i < 32 -> Z.testbit f i = checked_flags (env_mount env) (csb_flags b) i).
Proof.
  intros Hw Hok [Hd Hp Hl He Hro].
  destruct (check_spec V MACH_ASSERT debug OSUnserializeXML (env_mount env) b (csb_flags b) (cw_kw w) Hok Hd He Hro)
    as (f & b1 & kw' & Hr & Hf & Hok' & Hat & _ & _).
  exists f, b1, kw'. split; [| split_and!; [done | done | | | done]].
  - unfold mac_vnode_check_signature, in_policy. unfold mbind at 1, prog_bind at 1. rewrite Hw, Hr. cbn [mbind outcome_bind]. unfold set_kw. by rewrite Hw.
  - destruct Hat as [[-> Hs] | (p & x & dict & -> & Hp0 & F1 & F2 & _ & F3 & F4 & F5)]; [left; by rewrite He | right].
    cbn [csb_entitlements with_entitlements]. split_and!; [done | done |]. exists (Ent dict x (blen m ent)), (span m ent (blen m ent)). by split_and!.
  - rewrite Hf by lia. unfold checked_flags. rewrite (valid_bit_inv _ (ds_valid _ _ _ _ _ _ _ Hd)). cbn. by rewrite orb_true_r.
Qed.

Lemma policy_subject kw kw' b b1 f signer : candidate b -> signer = csb_signer_type b -> attached m cd ent h OSUnserializeXML kw kw' b b1 -> Z.testbit f 0 = true ->
  subject (apply_policy b1 f signer) /\ kept b (apply_policy b1 f signer) /\
  csb_entitlements (apply_policy b1 f signer) = csb_entitlements b1 /\ csb_flags (apply_policy b1 f signer) = f.
Proof.
  intros [Hd Hp Hl He Hro] -> Hat Hf. apply valid_bit in Hf.
  assert (describes addr size cd ent der h b1 /\ pages_of m addr size cd h b1 base /\ csb_hash_firstlevel_pageshift b1 = 0 /\ kept b b1) as (Hd1 & Hp1 & Hl1 & Hk1).
  { destruct Hat as [[-> _] | (p & x & dict & -> & _)]; [by split_and! |]. destruct Hd, Hp. by split_and!. }
  unfold apply_policy. destruct (Z.land f CS_PLATFORM_BINARY =? 0) eqn:E; cbn [negb]; destruct Hd1, Hp1, Hk1;
    (split_and!; [split; try done; cbn; by rewrite E | done | done | done]).
Qed.

(** Is the code a platform binary, by the policy? *)
Definition platform (env : surroundings) (b : cs_blob) : bool := checked_flags (env_mount env) (csb_flags b) 26.

(** The verdict of all checks, with the error it is reported by; [b2] is the object after the
    policy. *)
Inductive checked (env : surroundings) (flags add_flags : Z) (b : cs_blob) (m' : mem) (b' : cs_blob) : Z -> Prop :=
  | ck_main : Z.land add_flags CS_BLOB_ADD_ALLOW_MAIN_BINARY = 0 -> main_binary m b -> checked env flags add_flags b m' b' EBADEXEC
  | ck_simulator : Z.land add_flags CS_BLOB_ADD_ALLOW_MAIN_BINARY <> 0 \/ ~ main_binary m b -> Z.land flags MAC_VNODE_CHECK_DYLD_SIM <> 0 ->
      platform env b = false -> checked env flags add_flags b m' b' EPERM
  | ck_settled e b2 : Z.land add_flags CS_BLOB_ADD_ALLOW_MAIN_BINARY <> 0 \/ ~ main_binary m b ->
      Z.land flags MAC_VNODE_CHECK_DYLD_SIM = 0 \/ platform env b = true -> kept b b2 -> csb_platform_binary b2 = platform env b ->
      settled b2 m' b' e -> checked env flags add_flags b m' b' e.

Lemma checked_not_again env flags add_flags b m' b' e : checked env flags add_flags b m' b' e -> e <> EAGAIN.
Proof.
  destruct 1 as [| | e b2 _ _ _ _ [e' He [[-> _] | [_ [[-> _] | ->]]] | | |]]; done.
Qed.

Lemma checked_attachable env flags add_flags b m' b' : checked env flags add_flags b m' b' 0 -> attachable m' b'.
Proof. inversion 1 as [| | ? b2 _ _ _ _ Hs]; subst; inversion Hs; subst; done. Qed.

(** The checks return; they end with an object for the same code, which owns what it has been
    given, and which can be attached when there was no error. *)
Lemma check_blob_spec env b flags add_flags w : cw_mem w = m -> kw_ok (cw_kw w) -> candidate b -> exists e b' m' kw',
  check_blob PAGE_SHIFT MACH_ASSERT sha1 sha256 sha384 OSUnserializeXML debug env b flags add_flags w = Ret (e, b', set_mem m' (set_kw kw' w)) /\
  checked env flags add_flags b m' b' e /\ kw_ok kw' /\ owns (cw_kw w) kw' (csb_entitlements b') /\ byte_mem m' /\
  backed PAGE_SHIFT sha1 sha256 sha384 m' b' /\ moved m m' b b' /\ kept b b' /\ (e = 0 -> faithful m' b' /\
    forall i, 0 <= i < 32 -> Z.testbit (csb_flags b') i = checked_flags (env_mount env) (csb_flags b) i).
Proof.
  intros Hw Hok Hcn. pose proof Hcn as [Hd Hp Hl He Hro]. pose proof (vs_bytes _ _ _ _ _ _ _ _ _ _ _ V) as Hby.
  assert (backed PAGE_SHIFT sha1 sha256 sha384 m b) as Hbk by (apply subject_backed; [done | exact (pg_offset _ _ _ _ _ _ _ Hp)]).
  assert (set_mem m (set_kw (cw_kw w) w) = w) as Hid by (destruct w; cbn in *; by subst).
  unfold check_blob, reads. unfold mbind at 1, prog_bind at 1. rewrite Hw.
  destruct (main_binary_spec PAGE_SHIFT sha1 sha256 sha384 m b Hbk add_flags) as (e & -> & [[-> Hmain] | (-> & Hnot & Hmain)]); cbn [mbind outcome_bind Z.eqb negb EBADEXEC].
  2:{ eexists _, _, m, (cw_kw w). rewrite Hid. split; [done |]. rewrite He. split_and!; try done; [apply ck_main; [by apply dec_stable | done] | by left]. }
  destruct (policy_spec env b w Hw Hok Hcn) as (f & b1 & kw' & Hpol & Hok' & Hat & Hown & Hbit & Hchk). rewrite (run_bind _ _ _ _ _ Hpol).
  cbn [Z.eqb negb]. destruct (policy_subject _ _ b b1 f (csb_signer_type b) Hcn eq_refl Hat Hbit) as (Hsu & Hk & Hent & Hfl).
  set (b2 := apply_policy b1 f (csb_signer_type b)) in *. pose proof Hsu as [Hd2 Hp2 _ Hpf _].
  assert (csb_platform_binary b2 = platform env b) as Hplat.
  { rewrite Hpf, Hfl. change CS_PLATFORM_BINARY with (2 ^ 26). rewrite land_bit, negb_involutive by lia. apply Hchk. lia. }
  assert (forall m' b', ready b2 m' b' ->
    kw_ok kw' /\ owns (cw_kw w) kw' (csb_entitlements b') /\ byte_mem m' /\ backed PAGE_SHIFT sha1 sha256 sha384 m' b' /\
    moved m m' b b' /\ kept b b' /\ faithful m' b' /\
      forall i, 0 <= i < 32 -> Z.testbit (csb_flags b') i = checked_flags (env_mount env) (csb_flags b) i) as Hfin.
  { intros m' b' [R1 R2 R3 R4 R5 R6 _ _ R9 _]. split_and!; try done.
    - by rewrite R5, Hent.
    - destruct Hd as [_ K S _ _ _ _], Hd2 as [_ K2 S2 _ _ _ _]. destruct R3 as [M1 M2 M3]. unfold in_blob in *. rewrite K2, S2 in *.
      split; unfold in_blob; rewrite K, S; done.
    - destruct Hk, R4. split; (congruence || (split; intuition congruence)).
    - intros i Hi. rewrite R6, Hfl. by apply Hchk. }
  destruct (_ && _) eqn:Esim.
  - apply andb_true_iff in Esim as [Es%negb_true_iff%Z.eqb_neq Ep%negb_true_iff].
    eexists _, b2, m, kw'. split; [unfold set_mem, set_kw; cbn; by rewrite <- Hw |]. split; [by apply ck_simulator; [| | rewrite <- Hplat] |].
    pose proof (unchanged_ready b2 m (csb_teamid b2) Hsu ltac:(done)) as R. rewrite with_team_same in R. apply Hfin in R. tauto.
  - destruct (settle_spec b2 (set_kw kw' w) ltac:(done) Hsu) as (e & b' & m' & Hr & Hready & Hst). rewrite Hr.
    eexists _, _, _, _. split; [done |]. apply Hfin in Hready. split; [| tauto]. eapply ck_settled; [done | | done | done | exact Hst].
    apply andb_false_iff in Esim as [Es%negb_false_iff%Z.eqb_eq | Ep%negb_false_iff]; [by left | right; by rewrite <- Hplat].
Qed.
End settle.
Arguments signed_page : clear implicits.
Arguments faithful : clear implicits.
Arguments candidate : clear implicits.
Arguments checked : clear implicits.
Arguments settled : clear implicits.
