(* ===== verification/CodeSignAdd.v ===== *)
(** * Signatures of a file: adding and releasing them

    [ubc_cs_blob_add] on any memory that holds something called a signature: it returns, and
    either the signature is attached in front of the ones the file has, or one that is there
    already is returned, or the call fails; in the last two cases everything is given back.  The
    signatures of a file never overlap, in the file or in memory, and have one signer. *)

From stdpp Require Import base list strings gmap.
From Stdlib Require Import ZArith Lia.
From S2P Require Import Prelude XzsfsCore Memory Kernel CodeSign CodeSignProofs CodeSignPage CodeSignAuth CodeSignFrame Amfi AmfiProofs CodeSignBlob CodeSignMulti CodeSignLevels CodeSignLocal CodeSignSettle.

(** Steps of programs. *)
Lemma run_asks {A B} (f : csworld -> A) (g : A -> prog csworld B) w : (asks f ≫= g) w = g (f w) w.
Proof. done. Qed.
Lemma run_reads {A B} (f : mem -> outcome A) (g : A -> prog csworld B) w a : f (cw_mem w) = Ret a -> (reads f ≫= g) w = g a w.
Proof. intros H. apply run_bind. unfold reads. by rewrite H. Qed.
Lemma run_object {B} p (g : cs_blob -> prog csworld B) w b : cw_zone w !! p = Some b -> (object p ≫= g) w = g b w.
Proof. intros H. apply run_bind. unfold object. by rewrite H. Qed.

(** ** The invariant of a file *)

Definition blob_list (w : csworld) : list Z := match cw_ubc w with Some u => cs_blobs u | None => [] end.

Section file.
Context (PAGE_SHIFT : Z) (sha1 sha256 sha384 : bytes -> bytes) (vp : Z).

(** An object in the list of the file. *)
Record attached_ok (m : mem) (kw : kworld) (b : cs_blob) : Prop := {
  ao_backed : backed PAGE_SHIFT sha1 sha256 sha384 m b;
  ao_attachable : attachable m b;
  ao_vnode : csb_vnode b = vp;
  ao_signer : csb_signer_type b = CS_SIGNER_TYPE_UNKNOWN;
  ao_ro : csb_ro b = true;
  ao_ents : csb_entitlements b <> 0 -> is_Some (kw_ents kw !! csb_entitlements b);
}.

(** Two of them: memory, code and entitlements of their own, and one signer. *)
Record apart (m : mem) (b c : cs_blob) : Prop := {
  ap_memory : forall x, in_blob b x -> ~ in_blob c x;
  ap_code : file_end b <= file_start c \/ file_end c <= file_start b;
  ap_ents : csb_entitlements b = 0 \/ csb_entitlements b <> csb_entitlements c;
  ap_kin : kin m b c;
}.

(** The file has the signatures [bs], given with the addresses of their objects. *)
Record file_ok (w : csworld) (bs : list (Z * cs_blob)) : Prop := {
  fo_bytes : byte_mem (cw_mem w);
  fo_heap : kw_ok (cw_kw w);
  fo_list : blob_list w = bs.*1;
  fo_nodup : NoDup bs.*1;
  fo_zone : Forall (fun e => cw_zone w !! e.1 = Some e.2) bs;
  fo_each : Forall (fun e => attached_ok (cw_mem w) (cw_kw w) e.2) bs;
  fo_apart : ForallOrdPairs (fun e f => apart (cw_mem w) e.2 f.2) bs;
  fo_null : 0 ∉ bs.*1;
}.

Lemma attachable_agree m m' b : attachable m b -> (forall x, in_blob b x -> m' x = m x) -> attachable m' b.
Proof. intros [P [s T] Q] H. split; [done | | done]. exists s. by rewrite (team_agree m m' b H). Qed.

Lemma attached_agree m m' kw kw' b : attached_ok m kw b -> byte_mem m' -> (forall x, in_blob b x -> m' x = m x) ->
  (csb_entitlements b <> 0 -> is_Some (kw_ents kw' !! csb_entitlements b)) -> attached_ok m' kw' b.
Proof. intros [B A V S O E] Hm H Hk. split; [by apply (backed_agree _ _ _ _ m) | by apply (attachable_agree m) | done | done | done | done]. Qed.

Lemma apart_agree m m' b c : apart m b c -> (forall x, in_blob b x -> m' x = m x) -> (forall x, in_blob c x -> m' x = m x) -> apart m' b c.
Proof.
  intros [M C E (K1 & K2 & K3)] Hb Hc. split; [done | done | done |]. split_and!; [done | done |].
  by rewrite (team_agree m m' b Hb), (team_agree m m' c Hc).
Qed.

(** The invariant does not depend on other memory, objects and entitlements. *)
Lemma file_agree w w' bs : file_ok w bs -> byte_mem (cw_mem w') -> kw_ok (cw_kw w') -> blob_list w' = blob_list w ->
  Forall (fun e => cw_zone w' !! e.1 = Some e.2 /\ (forall x, in_blob e.2 x -> cw_mem w' x = cw_mem w x) /\
    (csb_entitlements e.2 <> 0 -> is_Some (kw_ents (cw_kw w') !! csb_entitlements e.2))) bs -> file_ok w' bs.
Proof.
  intros [F1 F2 F3 F4 F5 F6 F7 F8] Hm Hk Hl H. rewrite Forall_forall in H.
  split; [done | done | by rewrite Hl | done | | | | done].
  - apply Forall_forall. intros e He. by apply H.
  - rewrite Forall_forall in F6 |- *. intros e He. destruct (H e He) as (_ & H2 & H3). by apply (attached_agree (cw_mem w) _ (cw_kw w)); [apply F6 | ..].
  - clear F3 F4 F5 F6 F8. induction F7 as [|e l Ha Hl' IH]; constructor.
    + rewrite Forall_forall in Ha |- *. intros f Hf. apply (apart_agree (cw_mem w)); [by apply Ha | apply H; by left | apply H; by right].
    + apply IH. intros f Hf. apply H. by right.
Qed.

(** ** Looking for what is in the way *)

(** A signature by another signer, or of code that is also covered by the new one. *)
Definition in_the_way (m : mem) (b c : cs_blob) : Prop :=
  ~ kin m b c \/ (file_start b < file_end c /\ file_start c < file_end b /\ same_blob b c = false).

(** The verdict on a new object: nothing in the way, the same signature, or another one. *)
Definition overlap_verdict (m : mem) (b : cs_blob) (bs : list (Z * cs_blob)) (r : option (Z * Z)) : Prop :=
  match r with
  | None => Forall (fun e => (file_end b <= file_start e.2 \/ file_end e.2 <= file_start b) /\ kin m b e.2) bs
  | Some (e, p) => (e = EALREADY /\ p = 0 /\ Exists (fun e => in_the_way m b e.2) bs) \/ (e = EAGAIN /\ exists o, (p, o) ∈ bs /\ same_blob b o = true /\ kin m b o)
  end.

Lemma backed_size m b : backed PAGE_SHIFT sha1 sha256 sha384 m b -> 0 <= csb_mem_size b.
Proof. intros [(cd & ent & der & h & V & _) _ _]. apply V. Qed.

Lemma check_overlap_spec w b bs : 0 <= csb_mem_size b -> attachable (cw_mem w) b ->
  Forall (fun e => cw_zone w !! e.1 = Some e.2) bs -> Forall (fun e => attached_ok (cw_mem w) (cw_kw w) e.2) bs ->
  exists r, check_overlap b bs.*1 w = Ret (r, w) /\ overlap_verdict (cw_mem w) b bs r.
Proof.
  intros Hsz [Hpl Htx Htm]. induction bs as [|[p o] bs IH]; cbn [fmap list_fmap fst check_overlap]; intros Hz He.
  { exists None. split; [done | constructor]. }
  apply Forall_cons in Hz as [Hz0 Hz], He as [He0 He]. cbn [fst snd] in *. destruct (IH Hz He) as (r & Hr & Hv).
  pose proof He0 as [Hbk [_ Htx' Htm'] _ _ _ _].
  destruct (same_signer_spec (cw_mem w) b o Htx Htx' Hsz (backed_size _ _ Hbk) Htm Htm') as (k & Hk & Hkin).
  rewrite (run_object _ _ _ _ Hz0), (run_reads _ _ _ _ Hk).
  destruct k; cbn [negb].
  2:{ exists (Some (EALREADY, 0)). split; [done |]. left. split_and!; [done | done |]. apply Exists_cons_hd. left. by intros ?%Hkin. }
  destruct (Z.leb_spec (file_end o) (file_start b)), (Z.leb_spec (file_end b) (file_start o)); cbn [orb];
    try (exists r; split; [exact Hr |]; destruct r as [[e q] |];
         [destruct Hv as [(-> & -> & Hv) | (-> & o' & Hin & Hs)]; [left; split_and!; [done | done | by apply Exists_cons_tl] | right; split; [done |]; exists o'; split; [by right | done]]
         | constructor; [split; [cbn; lia | by apply Hkin] | done]]).
  destruct (same_blob b o) eqn:Es.
  2:{ exists (Some (EALREADY, 0)). split; [done |]. left. split_and!; [done | done |]. apply Exists_cons_hd. right. by split_and!. }
  exists (Some (EAGAIN, p)). split; [done |]. right. split; [done |]. exists o. split; [by left |]. split; [done | by apply Hkin].
Qed.

(** ** Giving everything back *)

Lemma release_owned kw kw' p : owns kw kw' p -> kw_ok kw' -> p <> 0 ->
  exists kw2, ent_release p kw' = Ret (tt, kw2) /\ same_heap kw kw2 /\ kw_ok kw2.
Proof.
  intros [[? _] | (Hp & F1 & e & c & F2 & F3 & F4 & F5)] Hok Hne; [done |].
  destruct (release_spec kw' p e 1 Hok) as [Hr Hok2]; [by rewrite F3, lookup_insert_eq |]. eexists. split; [exact Hr |]. split; [| exact Hok2].
  unfold same_heap. cbn [Z.eqb set_bufs set_ents kw_ents kw_bufs kw_held Pos.eqb]. by rewrite F3, F4, !delete_insert_id.
Qed.

(** Memory without that of an object. *)
Definition without (m : mem) (b : cs_blob) : mem :=
  fun x => if (csb_mem_kaddr b <=? x) && (x <? csb_mem_kaddr b + csb_mem_size b) then None else m x.

Lemma cleanup_step w b kw2 : backed PAGE_SHIFT sha1 sha256 sha384 (cw_mem w) b ->
  (csb_entitlements b <> 0 -> ent_release (csb_entitlements b) (cw_kw w) = Ret (tt, kw2)) -> (csb_entitlements b = 0 -> kw2 = cw_kw w) ->
  cs_blob_cleanup b w = Ret (tt, set_mem (without (cw_mem w) b) (set_kw kw2 w)).
Proof.
  intros Hbk H1 H2. destruct Hbk as [(cd & ent & der & h & V & _) _ _]. pose proof V as [_ _ _ Hm Hsz Ha _ _ _].
  unfold cs_blob_cleanup. rewrite (run_bind _ _ _ tt (set_kw kw2 w)).
  2:{ destruct (Z.eqb_spec (csb_entitlements b) 0) as [E | E]; cbn [negb]; [rewrite (H2 E); by destruct w |]. unfold in_policy. by rewrite (H1 E). }
  rewrite (proj2 (Z.eqb_neq _ 0)) by lia. cbn [negb]. unfold in_mem. cbn [cw_mem set_kw]. by rewrite deallocate_spec by (done || lia).
Qed.

Lemma cleanup_spec w b' : backed PAGE_SHIFT sha1 sha256 sha384 (cw_mem w) b' -> forall kw, owns kw (cw_kw w) (csb_entitlements b') -> kw_ok (cw_kw w) ->
  exists kw2, cs_blob_cleanup b' w = Ret (tt, set_mem (without (cw_mem w) b') (set_kw kw2 w)) /\ same_heap kw kw2 /\ kw_ok kw2.
Proof.
  intros Hbk kw Hown Hok. destruct (Z.eqb_spec (csb_entitlements b') 0) as [E | E].
  - exists (cw_kw w). split; [by apply cleanup_step |]. split; [| done]. by destruct Hown as [[_ ?] | [? _]].
  - destruct (release_owned kw (cw_kw w) _ Hown Hok E) as (kw2 & Hr & Hs & Hk). exists kw2. split; [by apply cleanup_step | done].
Qed.

(** Releasing an object that others may hold too. *)
Lemma cleanup_held w b : backed PAGE_SHIFT sha1 sha256 sha384 (cw_mem w) b -> kw_ok (cw_kw w) ->
  (csb_entitlements b <> 0 -> is_Some (kw_ents (cw_kw w) !! csb_entitlements b)) ->
  exists kw2, cs_blob_cleanup b w = Ret (tt, set_mem (without (cw_mem w) b) (set_kw kw2 w)) /\ kw_ok kw2 /\
    forall p, p <> csb_entitlements b -> kw_ents kw2 !! p = kw_ents (cw_kw w) !! p.
Proof.
  intros Hbk Hok He. destruct (Z.eqb_spec (csb_entitlements b) 0) as [E | E].
  - exists (cw_kw w). split; [by apply cleanup_step | done].
  - destruct (He E) as [[e n] Hn]. destruct (release_spec (cw_kw w) _ e n Hok Hn) as [Hr Hok2]. eexists. split; [by apply cleanup_step |].
    split; [exact Hok2 |]. intros p Hp. destruct (n =? 1); cbn; [by rewrite lookup_delete_ne | by rewrite lookup_insert_ne].
Qed.

(** After a move, the memory of the old signature or the new one is all there is to give back. *)
Lemma moved_freed m m' b b' : moved m m' b b' -> forall x, without m' b' x = without m b x.
Proof.
  intros [M1 M2 M3] x. unfold without, in_blob in *. specialize (M1 x). specialize (M2 x). specialize (M3 x).
  destruct (Z.leb_spec (csb_mem_kaddr b') x), (Z.ltb_spec x (csb_mem_kaddr b' + csb_mem_size b')),
    (Z.leb_spec (csb_mem_kaddr b) x), (Z.ltb_spec x (csb_mem_kaddr b + csb_mem_size b)); cbn [andb]; try done;
    first [apply M1; lia | symmetry; apply M2; lia | apply M3; lia].
Qed.

(** ** Attaching *)

(** The file with one more signature. *)
Definition with_signature_of (env : surroundings) (u : ubc_info) (q : Z) (b : cs_blob) (w : csworld) : csworld :=
  CsWorld (cw_mem w) (cw_kw w) (<[q := read_only b]> (cw_zone w))
    (Some (UbcInfo (ui_flags u) (cs_blob_generation_count w) (match cs_blobs u with [] => env_mtime env | _ => cs_mtime u end) (q :: cs_blobs u)))
    (ubc_cs_blob_adjust_statistics b (cw_stats w)) (cs_blob_generation_count w).

(** The file whose signature is found again. *)
Definition seen_again (p cputype : Z) (o : cs_blob) (w : csworld) : csworld :=
  CsWorld (cw_mem w) (cw_kw w)
    (if csb_cpu_type o =? CPU_TYPE_ANY then alter (fun b => with_cpu b cputype (csb_cpu_subtype b)) p (cw_zone w) else cw_zone w)
    (set_gen (cs_blob_generation_count w) <$> cw_ubc w) (cw_stats w) (cs_blob_generation_count w).

Lemma get_blobs_spec w bs : file_ok w bs -> ubc_get_cs_blobs vp w = Ret (blob_list w, w).
Proof.
  intros [_ _ Hl _ Hz He _ _]. unfold ubc_get_cs_blobs, asks, blob_list in *. unfold mbind at 1, prog_bind at 1. cbn [mbind outcome_bind].
  destruct (cw_ubc w) as [u |]; [| done]. destruct (cs_blobs u) as [|p ps]; [done |]. destruct bs as [|[q o] bs]; [done |]. injection Hl as -> ->.
  apply Forall_cons in Hz as [Hz _], He as [He _]. unfold object. unfold mbind at 1, prog_bind at 1. cbn [fst snd] in *. rewrite Hz. cbn [of_option mbind outcome_bind].
  rewrite (ao_vnode _ _ _ He), Z.eqb_refl. done.
Qed.

Inductive attach_result (env : surroundings) (b : cs_blob) (cputype q : Z) (w : csworld) (bs : list (Z * cs_blob)) : Z -> Z -> csworld -> Prop :=
  | ar_gone : cw_ubc w = None \/ env_memory_object_signed env <> KERN_SUCCESS -> attach_result env b cputype q w bs ENOENT 0 w
  | ar_taken : Exists (fun e => in_the_way (cw_mem w) b e.2) bs -> attach_result env b cputype q w bs EALREADY 0 w
  | ar_again p o : (p, o) ∈ bs -> same_blob b o = true -> kin (cw_mem w) b o ->
      attach_result env b cputype q w bs EAGAIN p (seen_again p cputype o w)
  | ar_added u : cw_ubc w = Some u -> overlap_verdict (cw_mem w) b bs None -> env_memory_object_signed env = KERN_SUCCESS ->
      attach_result env b cputype q w bs 0 q (with_signature_of env u q b w).

Lemma attach_blob_spec env b cputype q w bs : file_ok w bs -> 0 <= csb_mem_size b -> attachable (cw_mem w) b ->
  exists e p w', attach_blob env vp b cputype q w = Ret (e, p, w') /\ attach_result env b cputype q w bs e p w'.
Proof.
  intros Hf Hsz Hat. pose proof (get_blobs_spec w bs Hf) as Hg. pose proof Hf as [_ _ Hl _ Hz He _ _].
  destruct (check_overlap_spec w b bs Hsz Hat Hz He) as (r & Hr & Hv).
  unfold attach_blob. rewrite run_asks.
  destruct (cw_ubc w) as [u |] eqn:Eu; [| eexists _, _, _; split; [reflexivity | apply ar_gone; by left]].
  rewrite (run_bind _ _ _ _ _ Hg), Hl, (run_bind _ _ _ _ _ Hr), run_asks.
  destruct r as [[e p] |].
  - destruct Hv as [(-> & -> & Hv) | (-> & o & Hin & Hs & Hk)]; [eexists _, _, _; split; [reflexivity | by apply ar_taken] |].
    rewrite Z.eqb_refl. rewrite Forall_forall in Hz. rewrite (run_object _ _ _ _ (Hz _ Hin)). eexists _, _, _. split; [| by eapply ar_again].
    cbn [snd]. unfold seen_again, on_ubc, cs_blob_set_cpu_type, on_zone. destruct (csb_cpu_type o =? CPU_TYPE_ANY); rewrite ?run_ret, !run_act; cbn; by rewrite Eu.
  - destruct (Z.eqb_spec (env_memory_object_signed env) KERN_SUCCESS) as [Es | Es]; cbn [negb];
      [| eexists _, _, _; split; [reflexivity | apply ar_gone; by right]].
    eexists _, _, _. split; [| by eapply ar_added]. unfold with_signature_of, on_ubc, on_stats, on_zone. destruct (cs_blobs u) eqn:Eb; rewrite !run_act, ?run_act, ?run_ret; unfold act; cbn [cw_ubc cw_mem cw_kw cw_zone cw_stats cs_blob_generation_count]; rewrite Eu; reflexivity.
Qed.

(** ** The invariant is kept *)

(** One object of the list is changed. *)
Definition at_object (p : Z) (g : cs_blob -> cs_blob) (e : Z * cs_blob) : Z * cs_blob := if e.1 =? p then (e.1, g e.2) else e.

Lemma at_object_keys p g bs : (at_object p g <$> bs).*1 = bs.*1.
Proof. rewrite <- list_fmap_compose. apply list_fmap_ext. intros i e _. cbn. unfold at_object. by destruct (_ =? _). Qed.

Lemma file_altered w w' bs p g : file_ok w bs ->
  (forall b, attached_ok (cw_mem w) (cw_kw w) b -> attached_ok (cw_mem w) (cw_kw w) (g b)) ->
  (forall b c, attached_ok (cw_mem w) (cw_kw w) b -> attached_ok (cw_mem w) (cw_kw w) c -> apart (cw_mem w) b c ->
     apart (cw_mem w) (g b) c /\ apart (cw_mem w) b (g c) /\ apart (cw_mem w) (g b) (g c)) ->
  cw_mem w' = cw_mem w -> cw_kw w' = cw_kw w -> blob_list w' = blob_list w -> cw_zone w' = alter g p (cw_zone w) ->
  file_ok w' (at_object p g <$> bs).
Proof.
  intros [F1 F2 F3 F4 F5 F6 F7 F8] Hg1 Hg2 Em Ek El Ez. split; rewrite ?Em, ?Ek, ?El, ?at_object_keys; try done.
  - rewrite Forall_fmap. eapply Forall_impl; [exact F5 |]. intros e He. cbn in *. rewrite Ez. unfold at_object.
    destruct (Z.eqb_spec e.1 p) as [<- | Hne]; cbn; [by rewrite lookup_alter_eq, He | by rewrite lookup_alter_ne].
  - rewrite Forall_fmap. eapply Forall_impl; [exact F6 |]. intros e He. cbn in *. unfold at_object. destruct (_ =? _); [by apply Hg1 | done].
  - clear F3 F4 F5 F8. induction F7 as [|e l Ha Hl IH]; cbn; apply Forall_cons in F6 || idtac; constructor.
    + destruct F6 as [He F6]. rewrite Forall_fmap. rewrite Forall_forall in F6, Ha |- *. intros f Hf.
      destruct (Hg2 e.2 f.2 He (F6 f Hf) (Ha f Hf)) as (H1 & H2 & H3). pose proof (Ha f Hf). cbn. unfold at_object. by destruct (_ =? _), (_ =? _).
    + apply IH. by destruct F6.
Qed.

(** The processor type of an object plays no part in the invariant. *)
Lemma attached_cpu m kw b t u : attached_ok m kw b -> attached_ok m kw (with_cpu b t u).
Proof. intros [[B1 B2 B3] [[P1 P2 P3 P4] T1 T2] V S O E]. split; [by split | split; [by split | done | done] | done | done | done | done]. Qed.

Lemma file_retyped w w' bs p g : file_ok w bs -> (forall b, exists t u, g b = with_cpu b t u) ->
  cw_mem w' = cw_mem w -> cw_kw w' = cw_kw w -> blob_list w' = blob_list w -> cw_zone w' = alter g p (cw_zone w) ->
  file_ok w' (at_object p g <$> bs).
Proof.
  intros Hf Hg Em Ek El Ez. apply (file_altered w); try done.
  - intros b Hb. destruct (Hg b) as (t & u & ->). by apply attached_cpu.
  - intros b c _ _ [M C E K]. destruct (Hg b) as (t & u & ->), (Hg c) as (t' & u' & ->). by split_and!.
Qed.

Definition as_type (cputype : Z) (b : cs_blob) : cs_blob := with_cpu b cputype (csb_cpu_subtype b).

(** What a call that attaches nothing gives back. *)
Record given_back (addr size : Z) (w w' : csworld) : Prop := {
  gb_memory : forall x, cw_mem w' x = if (addr <=? x) && (x <? addr + size) then None else cw_mem w x;
  gb_heap : same_heap (cw_kw w) (cw_kw w');
  gb_ok : kw_ok (cw_kw w');
  gb_stats : cw_stats w' = cw_stats w;
  gb_generation : cs_blob_generation_count w' = cs_blob_generation_count w;
}.

Definition beside (addr size : Z) (bs : list (Z * cs_blob)) : Prop :=
  Forall (fun e => forall x, in_blob e.2 x -> ~ (addr <= x < addr + size)) bs.

Lemma file_given_back addr size w w' bs : file_ok w bs -> beside addr size bs -> given_back addr size w w' ->
  cw_zone w' = cw_zone w -> blob_list w' = blob_list w -> file_ok w' bs.
Proof.
  intros Hf Hbs [G1 (G2 & _) G4 _ _] Ez El. pose proof Hf as [F1 F2 F3 F4 F5 F6 F7 F8].
  apply (file_agree w); [done | | done | done |].
  - intros x v. rewrite G1. destruct (_ && _); [done | apply F1].
  - unfold beside in Hbs. rewrite Forall_forall in F5, F6, Hbs |- *. intros e He. split_and!.
    + rewrite Ez. by apply F5.
    + intros x Hx. rewrite G1. specialize (Hbs e He x Hx). destruct (Z.leb_spec addr x), (Z.ltb_spec x (addr + size)); cbn; (done || lia).
    + rewrite G2. apply (ao_ents _ _ _ (F6 e He)).
Qed.

(** ** The object that is added *)

Lemma read_only_hash (MACH_ASSERT : bool) m b bs off data :
  cs_validate_hash MACH_ASSERT m (read_only b :: bs) off data = cs_validate_hash MACH_ASSERT m (b :: bs) off data.
Proof.
  unfold cs_validate_hash. cbn [find_page_hash]. change (covers (read_only b)) with (covers b). change (expected_hash MACH_ASSERT m (read_only b)) with (expected_hash MACH_ASSERT m b).
  cbn [read_only csb_base_offset csb_mem_kaddr csb_cd]. destruct (_ || _); [done |].
  destruct (expected_hash _ _ _ _) as [[[] |] | | |]; cbn [mbind outcome_bind]; done.
Qed.

Lemma read_only_page (MACH_ASSERT : bool) m b bs off data :
  cs_validate_page PAGE_SHIFT MACH_ASSERT m (read_only b :: bs) off data = cs_validate_page PAGE_SHIFT MACH_ASSERT m (b :: bs) off data.
Proof.
  unfold cs_validate_page. apply (loop_ext (fun _ => True)); [| done]. intros [o r] _. split; [| done].
  unfold validate_page_step. by rewrite read_only_hash.
Qed.

(** The object with its new neighbours. *)
Lemma read_only_attached m kw b : backed PAGE_SHIFT sha1 sha256 sha384 m b -> attachable m b -> csb_vnode b = vp ->
  csb_signer_type b = CS_SIGNER_TYPE_UNKNOWN ->
  (csb_entitlements b <> 0 -> is_Some (kw_ents kw !! csb_entitlements b)) -> attached_ok m kw (read_only b).
Proof. intros [B1 B2 B3] [[P1 P2 P3 P4] T1 T2] V S E. split; [by split | split; [by split | done | done] | done | done | done | done]. Qed.

Lemma file_added env u q b w bs : file_ok w bs -> cw_ubc w = Some u -> q ∉ bs.*1 -> q <> 0 -> csb_signer_type b = CS_SIGNER_TYPE_UNKNOWN -> backed PAGE_SHIFT sha1 sha256 sha384 (cw_mem w) b ->
  attachable (cw_mem w) b -> csb_vnode b = vp -> (csb_entitlements b <> 0 -> is_Some (kw_ents (cw_kw w) !! csb_entitlements b)) ->
  overlap_verdict (cw_mem w) b bs None ->
  Forall (fun e => (forall x, in_blob b x -> ~ in_blob e.2 x) /\ (csb_entitlements b = 0 \/ csb_entitlements b <> csb_entitlements e.2)) bs ->
  file_ok (with_signature_of env u q b w) ((q, read_only b) :: bs).
Proof.
  intros [F1 F2 F3 F4 F5 F6 F7 F8] Eu Hq Hq0 Hsg Hb Ha Hv He Ho Hn. unfold blob_list in F3. rewrite Eu in F3.
  split; cbn [cw_mem cw_kw cw_zone with_signature_of fmap list_fmap fst snd]; [done | done | | | | | |].
  - unfold blob_list. cbn. by rewrite F3.
  - by constructor.
  - constructor; [apply lookup_insert_eq |]. rewrite Forall_forall in F5 |- *. intros e Hin. rewrite lookup_insert_ne; [by apply F5 |].
    intros ->. apply Hq. by apply list_elem_of_fmap_2.
  - constructor; [by apply read_only_attached | done].
  - constructor; [| done]. cbn in Ho. rewrite Forall_forall in Ho, Hn |- *. intros e Hin. destruct (Ho e Hin), (Hn e Hin). by split.
  - rewrite not_elem_of_cons. split; [congruence | done].
Qed.
End file.

(** ** Adding a signature *)

Section add.
Context (PAGE_SHIFT : Z) (MACH_ASSERT : bool) (sha1 sha256 sha384 : bytes -> bytes) `{SigAllocLaws}.
Context (OSUnserializeXML : bytes -> option os_object) (debug : bool) (env : surroundings) (vp cputype cpusubtype base addr size flags add_flags : Z).
Abbreviation ok := (file_ok PAGE_SHIFT sha1 sha256 sha384 vp).
Abbreviation valid := (valid_signature PAGE_SHIFT sha1 sha256 sha384).

(** Memory that is handed over, not part of any signature of the file; the layouts the
    conversion is made for, and memory to convert. *)
Record add_request (w : csworld) (bs : list (Z * cs_blob)) : Prop := {
  rq_file : ok w bs;
  rq_digests : Digests sha1 sha256 sha384;
  rq_shift : 12 <= PAGE_SHIFT <= 14;
  rq_mapped : mapped (cw_mem w) addr size;
  rq_size : 0 <= size < 2 ^ 27;
  rq_addr : 0 < addr;
  rq_end : addr + size < 2 ^ 64;
  rq_beside : beside addr size bs;
  rq_base : - 2 ^ 63 <= base < 2 ^ 63;
  rq_layout : forall cd ent der h, valid (cw_mem w) addr size cd ent der h -> pageshift (cw_mem w) cd = PAGE_SHIFT \/ convertible (cw_mem w) cd h;
  rq_room : forall k, 0 < k < 2 ^ 31 -> kalloc_data_tag (cw_mem w) k <> 0;
}.

(** The object of a signature before it is checked. *)
Definition new_object (m : mem) (cd ent der : Z) (h : cs_hash) : cs_blob :=
  with_place (with_cpu (signed_blob m addr size cd ent der h) cputype (Z.land cpusubtype (Z.lnot CPU_SUBTYPE_MASK))) base vp.

(** The signature is valid, and [b'] in [m'] is its object with the verdict [e] on it. *)
Definition examined (m m' : mem) (b' : cs_blob) (e : Z) : Prop :=
  exists cd ent der h, valid m addr size cd ent der h /\ kept (new_object m cd ent der h) b' /\
    checked PAGE_SHIFT sha1 sha256 sha384 m cd env flags add_flags (new_object m cd ent der h) m' b' e.

(** Why nothing is attached, with the error that says so. *)
Inductive refusal (w : csworld) (bs : list (Z * cs_blob)) : Z -> Prop :=
  | rf_invalid : (forall cd ent der h, ~ valid (cw_mem w) addr size cd ent der h) -> refusal w bs EBADEXEC
  | rf_checked m' b' e : e <> 0 -> examined (cw_mem w) m' b' e -> refusal w bs e
  | rf_gone m' b' : examined (cw_mem w) m' b' 0 -> cw_ubc w = None \/ env_memory_object_signed env <> KERN_SUCCESS -> refusal w bs ENOENT
  | rf_taken m' b' : examined (cw_mem w) m' b' 0 -> Exists (fun e => in_the_way m' b' e.2) bs -> refusal w bs EALREADY.

(** The object that was attached for a valid signature. *)
Record attached_object (w w' : csworld) (bs : list (Z * cs_blob)) (p : Z) (b : cs_blob) : Prop := {
  ab_file : ok w' ((p, b) :: bs);
  ab_zone : cw_zone w' = <[p := b]> (cw_zone w) /\ cw_zone w !! p = None;
  ab_stats : cw_stats w' = ubc_cs_blob_adjust_statistics b (cw_stats w) /\ cs_blob_generation_count w' = cs_blob_generation_count w;
  ab_mtime : ubc_get_cs_mtime w' = match bs with [] => env_mtime env | _ => ubc_get_cs_mtime w end;
  ab_checked : exists b', b = read_only b' /\ examined (cw_mem w) (cw_mem w') b' 0;
  ab_current : ubc_cs_generation_check w' = 0;
  ab_memory : forall o, csb_mem_kaddr o = addr -> csb_mem_size o = size -> moved (cw_mem w) (cw_mem w') o b;
  ab_owns : owns (cw_kw w) (cw_kw w') (csb_entitlements b);
  ab_place : csb_base_offset b = base /\ csb_vnode b = vp /\ csb_cpu_type b = cputype;
  ab_signed : exists cd ent der h, valid (cw_mem w) addr size cd ent der h /\
    csb_cdhash b = take 20 (cs_digest h (span (cw_mem w) cd (blen (cw_mem w) cd))) /\
    (forall i, 0 <= i < 32 -> Z.testbit (csb_flags b) i =
       checked_flags (env_mount env) (Z.lor (Z.land (cdv (cw_mem w) cd "flags") CS_ALLOWED_MACHO) CS_VALID) i) /\
    faithful PAGE_SHIFT (cw_mem w) cd h MACH_ASSERT base (cw_mem w') b;
  ab_others : forall off data, 0 <= off -> off + PAGE_SIZE PAGE_SHIFT <= 2 ^ 63 ->
    off + PAGE_SIZE PAGE_SHIFT <= file_start b \/ file_end b <= off ->
    cs_validate_page PAGE_SHIFT MACH_ASSERT (cw_mem w') (b :: bs.*2) off data = cs_validate_page PAGE_SHIFT MACH_ASSERT (cw_mem w) bs.*2 off data;
}.

Inductive add_result (w : csworld) (bs : list (Z * cs_blob)) : Z -> Z -> csworld -> Prop :=
  | add_refused e w' : e <> 0 -> refusal w bs e -> given_back addr size w w' -> cw_zone w' = cw_zone w -> cw_ubc w' = cw_ubc w -> ok w' bs ->
      add_result w bs e 0 w'
  | add_again p o m' b' w' : (p, o) ∈ bs -> examined (cw_mem w) m' b' 0 -> same_blob b' o = true -> given_back addr size w w' -> ok w' (if csb_cpu_type o =? CPU_TYPE_ANY then at_object p (as_type cputype) <$> bs else bs) ->
      ubc_cs_generation_check w' = 0 -> add_result w bs 0 p w'
  | add_done p b w' : attached_object w w' bs p b -> add_result w bs 0 p w'.

(** ** Between the checks and the list *)

Definition set_zone (z : gmap Z cs_blob) (w : csworld) : csworld :=
  CsWorld (cw_mem w) (cw_kw w) z (cw_ubc w) (cw_stats w) (cs_blob_generation_count w).

Section checked.
Context (w : csworld) (bs : list (Z * cs_blob)) (R : add_request w bs).
Context (b b' c : cs_blob) (Eb : csb_mem_kaddr b = addr /\ csb_mem_size b = size) (m' : mem) (kw' : kworld) (q : Z) (Hq : cw_zone w !! q = None) (Hq0 : q <> 0).
Context (Hm' : byte_mem m') (Hmv : moved (cw_mem w) m' b b') (Hk' : kw_ok kw') (Hown : owns (cw_kw w) kw' (csb_entitlements b')).
Abbreviation w1 := (set_mem m' (set_kw kw' (set_zone (<[q := c]> (cw_zone w)) w))).

Lemma q_new : q ∉ bs.*1.
Proof.
  intros Hin. apply list_elem_of_fmap in Hin as (e & -> & He). pose proof (fo_zone _ _ _ _ _ _ _ (rq_file _ _ R)) as Hz.
  rewrite Forall_forall in Hz. by rewrite (Hz e He) in Hq.
Qed.

Lemma beside_each e : e ∈ bs -> (forall x, in_blob e.2 x -> m' x = cw_mem w x) /\ (forall x, in_blob b' x -> ~ in_blob e.2 x) /\
  (csb_entitlements b' = 0 \/ csb_entitlements b' <> csb_entitlements e.2).
Proof.
  intros He. pose proof (rq_beside _ _ R) as Hbs. unfold beside in Hbs. rewrite Forall_forall in Hbs. specialize (Hbs e He).
  pose proof (fo_each _ _ _ _ _ _ _ (rq_file _ _ R)) as Hea. rewrite Forall_forall in Hea. destruct (Hea e He) as [[(cd & ent & der & h & V & _) _ _] _ _ _ _ Hen].
  pose proof (vs_mapped _ _ _ _ _ _ _ _ _ _ _ V) as Hmap. destruct Eb as [E1 E2]. destruct Hmv as [M1 M2 M3].
  assert (forall x, in_blob b' x -> ~ in_blob e.2 x) as Hno.
  { intros x H1 H2. specialize (Hbs x H2). assert (~ in_blob b x) as Hnb by (unfold in_blob; rewrite E1, E2; done).
    destruct (Hmap x H2) as [v Hv]. by rewrite M2 in Hv. }
  split_and!; [| done |].
  - intros x Hx. apply M1; [unfold in_blob; rewrite E1, E2; by apply Hbs |]. intros Hb'. by apply (Hno x).
  - destruct Hown as [[-> _] | (Hp & F1 & _)]; [by left | right]. intros E. destruct (Hen ltac:(congruence)) as [v Hv]. by rewrite <- E, F1 in Hv.
Qed.

Lemma checked_file : ok w1 bs.
Proof.
  pose proof (rq_file _ _ R) as Hf. apply (file_agree _ _ _ _ _ w); [done | done | done | done |].
  pose proof Hf as [_ _ _ _ Hz He _ _]. rewrite Forall_forall in Hz, He |- *. intros e Hin.
  destruct (beside_each e Hin) as (B1 & _ & _). split_and!; [| exact B1 |].
  - cbn. rewrite lookup_insert_ne; [by apply Hz |]. intros Eq. apply q_new. rewrite Eq. by apply list_elem_of_fmap_2.
  - intros Hne. pose proof (ao_ents _ _ _ _ _ _ _ _ (He e Hin) Hne) as [v Hv]. cbn. destruct Hown as [[_ [-> _]] | (_ & F1 & x & y & _ & -> & _)]; [by exists v |].
    rewrite lookup_insert_ne; [by exists v |]. intros E. by rewrite <- E, F1 in Hv.
Qed.

(** The new object goes, and with it all that was allocated. *)
Lemma discard_spec w2 : cw_mem w2 = m' -> cw_kw w2 = kw' -> cw_stats w2 = cw_stats w -> cs_blob_generation_count w2 = cs_blob_generation_count w ->
  backed PAGE_SHIFT sha1 sha256 sha384 m' b' ->
  exists w3, (_ ← cs_blob_cleanup b'; on_zone (delete q)) w2 = Ret (tt, w3) /\ given_back addr size w w3 /\
    cw_zone w3 = delete q (cw_zone w2) /\ cw_ubc w3 = cw_ubc w2.
Proof.
  intros E1 E2 E3 E4 Hbk. destruct (cleanup_spec PAGE_SHIFT sha1 sha256 sha384 w2 b' ltac:(by rewrite E1) (cw_kw w) ltac:(by rewrite E2) ltac:(by rewrite E2))
    as (kw2 & Hr & Hs & Hok).
  rewrite (run_bind _ _ _ _ _ Hr). eexists. split; [reflexivity |]. split; [| done]. destruct Eb as [K S]. split; cbn; try done.
  intros x. rewrite E1, (moved_freed (cw_mem w) m' b b' Hmv). unfold without. by rewrite K, S.
Qed.

(** The signature is refused after all, or was there already. *)
Lemma discarded_refused e : e <> 0 -> refusal w bs e -> backed PAGE_SHIFT sha1 sha256 sha384 m' b' ->
  exists w3, (_ ← cs_blob_cleanup b'; on_zone (delete q)) w1 = Ret (tt, w3) /\ add_result w bs e 0 w3.
Proof.
  intros He Hrf Hbk. destruct (discard_spec w1) as (w3 & Hr & Hg & Ez & Eu); [done | done | done | done | done |]. exists w3. split; [exact Hr |].
  assert (cw_zone w3 = cw_zone w) as Ez' by (rewrite Ez; cbn; by apply delete_insert_id).
  apply add_refused; [done | done | done | done | done |]. apply (file_given_back _ _ _ _ _ addr size w); [apply R | apply R | done | done |].
  unfold blob_list. by rewrite Eu.
Qed.

Lemma discarded_again p o : (p, o) ∈ bs -> examined (cw_mem w) m' b' 0 -> same_blob b' o = true -> backed PAGE_SHIFT sha1 sha256 sha384 m' b' ->
  exists w3, (_ ← cs_blob_cleanup b'; on_zone (delete q)) (seen_again p cputype o w1) = Ret (tt, w3) /\ add_result w bs 0 p w3.
Proof.
  intros Hin Hex Hsb Hbk. destruct (discard_spec (seen_again p cputype o w1)) as (w3 & Hr & Hg & Ez & Eu); [done | done | done | done | done |].
  exists w3. split; [exact Hr |]. cbn [cw_zone cw_ubc seen_again set_mem set_kw set_zone] in Ez, Eu.
  pose proof (rq_file _ _ R) as Hf. pose proof q_new as Hqn.
  assert (p <> q) as Hpq by (intros ->; apply Hqn; change q with (q, o).1; by apply list_elem_of_fmap_2).
  assert (blob_list w3 = blob_list w) as El by (unfold blob_list; rewrite Eu; by destruct (cw_ubc w)).
  assert (ubc_cs_generation_check w3 = 0) as Hgen.
  { unfold ubc_cs_generation_check. rewrite Eu, (gb_generation _ _ _ _ Hg). destruct (cw_ubc w) as [u |] eqn:E; cbn; [by rewrite Z.eqb_refl |].
    exfalso. pose proof (fo_list _ _ _ _ _ _ _ Hf) as Hl. unfold blob_list in Hl. rewrite E in Hl. destruct bs; [by apply elem_of_nil in Hin | done]. }
  apply (add_again w bs p o m' b'); [done | done | done | done | | done].
  pose proof (file_given_back PAGE_SHIFT sha1 sha256 sha384 vp addr size w (set_zone (cw_zone w) w3) bs Hf (rq_beside _ _ R)) as Hback.
  assert (ok (set_zone (cw_zone w) w3) bs) as Hok3 by (apply Hback; [destruct Hg; by split | done | exact El]).
  destruct (csb_cpu_type o =? CPU_TYPE_ANY).
  - apply (file_retyped _ _ _ _ _ (set_zone (cw_zone w) w3)); [done | | done | done | done |]; [intros b0; by eexists _, _ |]. rewrite Ez. cbn.
    apply map_eq. intros i. destruct (decide (i = q)) as [-> | Hi]; [by rewrite lookup_delete_eq, lookup_alter_ne, Hq by done |].
    rewrite lookup_delete_ne by done. destruct (decide (i = p)) as [-> | Hp]; [by rewrite !lookup_alter_eq, lookup_insert_ne |].
    by rewrite !lookup_alter_ne, lookup_insert_ne.
  - rewrite delete_insert_id in Ez by done. apply (file_given_back _ _ _ _ _ addr size w); [done | apply R | done | done | done].
Qed.

(** It is attached. *)
Lemma attached_done u cd ent der h : cw_ubc w = Some u -> valid (cw_mem w) addr size cd ent der h ->
  backed PAGE_SHIFT sha1 sha256 sha384 m' b' -> attachable m' b' -> overlap_verdict m' b' bs None ->
  csb_base_offset b' = base -> csb_vnode b' = vp -> csb_cpu_type b' = cputype -> csb_signer_type b' = CS_SIGNER_TYPE_UNKNOWN ->
  examined (cw_mem w) m' b' 0 -> csb_cdhash b' = take 20 (cs_digest h (span (cw_mem w) cd (blen (cw_mem w) cd))) ->
  (forall i, 0 <= i < 32 -> Z.testbit (csb_flags b') i =
     checked_flags (env_mount env) (Z.lor (Z.land (cdv (cw_mem w) cd "flags") CS_ALLOWED_MACHO) CS_VALID) i) ->
  faithful PAGE_SHIFT (cw_mem w) cd h MACH_ASSERT base m' b' ->
  add_result w bs 0 q (with_signature_of env u q b' w1).
Proof.
  intros Eu V Hbk Hat Ho E1 E2 E3 Esg Hex E4 Efl Hfa. apply (add_done w bs q (read_only b')). pose proof (rq_file _ _ R) as Hf.
  split; [| | done | | by exists b' | | | done | done | |].
  - apply file_added; [exact checked_file | done | exact q_new | done | done | done | done | done | | done |].
    + intros Hne. cbn. destruct Hown as [[? _] | (_ & _ & x & y & _ & -> & _)]; [done |]. rewrite lookup_insert_eq. by eexists.
    + apply Forall_forall. intros e He. by destruct (beside_each e He) as (_ & ? & ?).
  - split; [| done]. cbn. by rewrite insert_insert_eq.
  - pose proof (fo_list _ _ _ _ _ _ _ Hf) as Hl. unfold blob_list, ubc_get_cs_mtime in *. cbn. rewrite Eu in Hl |- *. rewrite Hl. by destruct bs as [|[]].
  - cbn. by rewrite Z.eqb_refl.
  - intros o Ko So. destruct Eb as [Kb Sb], Hmv as [M1 M2 M3]. unfold in_blob in *. split; unfold in_blob; rewrite ?Ko, ?So; rewrite ?Kb, ?Sb in *; done.
  - exists cd, ent, der, h. split; [done |]. split; [done |]. split; [exact Efl |]. intros Hsc Hsl Hb P data HP Hd. unfold clean. rewrite read_only_page. by apply Hfa.
  - intros off data H0 H1 H2. rewrite read_only_page. rewrite validate_page_skip; [| apply Hat | done | done | done]. cbn [cw_mem with_signature_of set_mem].
    apply (validate_page_local PAGE_SHIFT MACH_ASSERT sha1 sha256 sha384); [apply Hf | |].
    + rewrite Forall_fmap. eapply Forall_impl; [exact (fo_each _ _ _ _ _ _ _ Hf) |]. by intros e [].
    + intros x Hx. unfold regions in Hx. apply existsb_exists in Hx as (c0 & Hin & Hx). apply list_elem_of_In, list_elem_of_fmap in Hin as (e & -> & He).
      apply andb_true_iff in Hx as [Hx1%Z.leb_le Hx2%Z.ltb_lt]. by apply (proj1 (beside_each e He)).
Qed.
End checked.

Lemma init_cases w bs : add_request w bs ->
  ((forall cd ent der h, ~ valid (cw_mem w) addr size cd ent der h) /\
    cs_blob_init_validated PAGE_SHIFT sha1 sha256 sha384 (cw_mem w) addr size = Ret (EBADEXEC, None, 0, true)) \/
  (exists cd ent der h, valid (cw_mem w) addr size cd ent der h /\
    cs_blob_init_validated PAGE_SHIFT sha1 sha256 sha384 (cw_mem w) addr size = Ret (0, Some (signed_blob (cw_mem w) addr size cd ent der h), cd, false)).
Proof.
  intros [Hf Hd Hs Hm Hsz Ha He _ _ _ _]. pose proof (fo_bytes _ _ _ _ _ _ _ Hf) as Hb.
  destruct (validate_csblob_spec PAGE_SHIFT sha1 sha256 sha384 (cw_mem w) Hb addr size Hm ltac:(lia) Ha He) as (e & cd & ent & der & Hv & [[-> Hsig] | [-> _]]).
  - right. destruct (cdo_hash _ _ _ _ _ _ _ (cd_wf PAGE_SHIFT sha1 sha256 sha384 _ Hb addr size cd ent der Hsig)) as (h & Hh & _).
    assert (valid (cw_mem w) addr size cd ent der h) as V by (split; (done || lia)). exists cd, ent, der, h. split; [done | exact (init_valid V)].
  - left. split; [intros ? ? ? ? V; by rewrite (vs_valid _ _ _ _ _ _ _ _ _ _ _ V) in Hv |]. unfold cs_blob_init_validated. rewrite Hv. cbn [mbind outcome_bind Z.eqb negb EBADEXEC].
    by rewrite (proj2 (Z.eqb_neq addr 0)) by lia.
Qed.

Lemma candidate_new m cd ent der h : candidate m addr size cd ent der h base (new_object m cd ent der h).
Proof. split; [destruct (signed_describes (m := m) (addr := addr) (size := size) (cd := cd) (ent := ent) (der := der) (h := h)); by split | by split | done | done | done]. Qed.

Lemma run_on_zone {B} f (g : unit -> prog csworld B) w : (on_zone f ≫= g) w = g tt (set_zone (f (cw_zone w)) w).
Proof. done. Qed.

Lemma add_spec w bs : add_request w bs -> exists e p w',
  ubc_cs_blob_add PAGE_SHIFT MACH_ASSERT sha1 sha256 sha384 OSUnserializeXML debug env vp cputype cpusubtype base addr size flags add_flags w = Ret (e, p, w') /\
  add_result w bs e p w'.
Proof.
  intros R. pose proof R as [Hf Hd Hs Hm Hsz Ha He Hbs Hba Hla Hro]. unfold ubc_cs_blob_add.
  destruct (init_cases w bs R) as [(Hinv & Hi) | (cd & ent & der & h & V & Hi)]; rewrite (run_reads _ _ _ _ Hi).
  - rewrite (run_bind _ _ _ tt (set_mem (fun x => if (addr <=? x) && (x <? addr + size) then None else cw_mem w x) w)).
    2:{ unfold in_mem. rewrite deallocate_spec by (done || lia). done. }
    eexists _, _, _. split; [reflexivity |]. assert (given_back addr size w (set_mem (fun x => if (addr <=? x) && (x <? addr + size) then None else cw_mem w x) w)) as Hg
      by (split; try done; apply Hf).
    apply add_refused; [done | by apply rf_invalid | done | done | done |]. by apply (file_given_back _ _ _ _ _ addr size w).
  - fold (new_object (cw_mem w) cd ent der h). set (b := new_object _ _ _ _ _). pose proof (candidate_new (cw_mem w) cd ent der h) as Hcn. fold b in Hcn.
    rewrite run_asks, run_on_zone. set (q := zalloc_ro (cw_zone w)). destruct (zalloc_fresh (cw_zone w)) as [Hq0 Hq]. fold q in Hq0, Hq.
    set (w0 := set_zone (<[q := read_only b]> (cw_zone w)) w).
    destruct (check_blob_spec V MACH_ASSERT (Hla _ _ _ _ V) ltac:(lia) Hro base Hba OSUnserializeXML debug env b flags add_flags w0 ltac:(done)
      ltac:(apply Hf) Hcn) as (e & b' & m' & kw' & Hc & Hck & Hk & Hown & Hby & Hbk & Hmv & Hkp & Hok).
    assert (examined (cw_mem w) m' b' e) as Hex by (exists cd, ent, der, h; by split_and!).
    rewrite (run_bind _ _ _ _ _ Hc). pose proof (checked_file w bs R b b' (read_only b) ltac:(done) m' kw' q Hq Hq0 Hby Hmv Hk Hown) as Hf1.
    pose proof (discarded_refused w bs R b b' (read_only b) ltac:(done) m' kw' q Hq Hmv Hk Hown) as Hdrop.
    destruct (Z.eqb_spec e 0) as [-> | Hne]; cbn [negb].
    + destruct (Hok eq_refl) as (Hfa & Hfl). assert (attachable m' b') as Hat by by eapply checked_attachable.
      destruct (attach_blob_spec PAGE_SHIFT sha1 sha256 sha384 vp env b' cputype q (set_mem m' (set_kw kw' w0)) bs Hf1 (backed_size _ _ _ _ _ _ Hbk) Hat)
        as (e & p & w2 & Hr & Hres).
      rewrite (run_bind _ _ _ _ _ Hr). destruct Hres as [Hgone | Htaken | p o Hin Hsb Hkin | u Eu Hov Hsg]; cbn [Z.eqb negb ENOENT EALREADY EAGAIN Pos.eqb].
      * destruct (Hdrop ENOENT ltac:(done) ltac:(by eapply rf_gone) Hbk) as (w3 & Hr3 & Hres).
        rewrite (run_bind _ _ _ _ _ Hr3). by eexists _, _, _.
      * destruct (Hdrop EALREADY ltac:(done) ltac:(by eapply rf_taken) Hbk) as (w3 & Hr3 & Hres).
        rewrite (run_bind _ _ _ _ _ Hr3). by eexists _, _, _.
      * destruct (discarded_again w bs R b b' (read_only b) ltac:(done) m' kw' q Hq Hq0 Hmv Hk Hown p o Hin Hex Hsb Hbk) as (w3 & Hr3 & Hres).
        rewrite (run_bind _ _ _ _ _ Hr3). by eexists _, _, _.
      * eexists _, _, _. split; [reflexivity |]. destruct Hkp as [_ [K1 _] K2 K3 K4 K5].
        eapply (attached_done w bs R b b' (read_only b)); try done.
    + rewrite run_ret, (proj2 (Z.eqb_neq e 0)) by done. cbn [negb].
      destruct (Hdrop e Hne ltac:(by eapply rf_checked) Hbk) as (w3 & Hr3 & Hres).
      rewrite (run_bind _ _ _ _ _ Hr3), (proj2 (Z.eqb_neq e EAGAIN)) by by eapply checked_not_again. by eexists _, _, _.
Qed.
End add.


(** ** Files with a signature *)

Definition empty_file (m : mem) : csworld := CsWorld m sample_kworld ∅ (Some (UbcInfo 0 0 (0, 0) [])) (CsStatistics 0 0 0 0 0) 1.
Definition root_env : surroundings := Surroundings (Some MNT_ROOTFS) KERN_SUCCESS (7, 8).

Lemma empty_file_ok PAGE_SHIFT sha1 sha256 sha384 vp m : byte_mem m -> file_ok PAGE_SHIFT sha1 sha256 sha384 vp (empty_file m) [].
Proof. intros Hm. split; cbn; first [done | exact sample_kworld_ok | constructor | apply not_elem_of_nil]. Qed.

(** New memory at one of two places, while it is free. *)
Definition free_at (m : mem) (a n : Z) : bool := (n <? 2 ^ 39) && forallb (fun i => bool_decide (m (a + i) = None)) (seqZ 0 n).
Definition bump2 : SigAlloc := {|
  kalloc_data_tag m n := if free_at m 65536 n then 65536 else if free_at m (2 ^ 40) n then 2 ^ 40 else 0;
  zalloc_ro z := foldr Z.max 0 (map_to_list z).*1 + 8;
|}.
#[local] Existing Instance bump2.

Lemma free_at_spec m a n : free_at m a n = true <-> n < 2 ^ 39 /\ forall x, a <= x < a + n -> m x = None.
Proof.
  unfold free_at. rewrite andb_true_iff, Z.ltb_lt, forallb_forall. split; intros [Hn H]; (split; [done |]).
  - intros x Hx. specialize (H (x - a)). rewrite bool_decide_eq_true in H. replace x with (a + (x - a)) by lia. apply H.
    apply list_elem_of_In, elem_of_seqZ. lia.
  - intros i Hi%list_elem_of_In%elem_of_seqZ. apply bool_decide_eq_true, H. lia.
Qed.

Lemma bump2_laws : SigAllocLaws.
Proof.
  split; [| exact (@zalloc_fresh bump bump_laws)]. intros m n Hn. cbn. destruct (free_at m 65536 n) eqn:E1.
  { apply free_at_spec in E1 as [? E]. right. unfold VM_MAX_KERNEL_ADDRESS. split; [lia |]. split; [lia | exact E]. }
  destruct (free_at m (2 ^ 40) n) eqn:E2; [| by left]. apply free_at_spec in E2 as [? E]. right. unfold VM_MAX_KERNEL_ADDRESS. split; [lia |]. split; [lia | exact E].
Qed.

Lemma bump2_room m k : (forall x, 2 ^ 40 <= x -> m x = None) -> 0 < k < 2 ^ 31 -> kalloc_data_tag m k <> 0.
Proof.
  intros Hm Hk. cbn. destruct (free_at m 65536 k); [done |]. rewrite (proj2 (free_at_spec m (2 ^ 40) k)); [done |]. split; [lia |].
  intros x Hx. apply Hm. lia.
Qed.

Lemma low_memory l x : zlen l < 60000 -> 2 ^ 40 <= x -> mem_of 4096 l x = None.
Proof. intros Hl Hx. unfold mem_of, zlen in *. rewrite (proj2 (Z.ltb_ge _ _)) by lia. by rewrite andb_false_r. Qed.

(** The platform binary of CodeSignLevels, and the program of CodeSignAuth, in memory. *)
Lemma page4_request : add_request 14 (toy_hash 20) (toy_hash 32) (toy_hash 48) 77 32768 4096 228 (empty_file page4_mem) [].
Proof.
  pose proof page4_valid as [Hd Hs Hb Hm Hsz Ha He _ _]. split; try done; try lia.
  - by apply empty_file_ok.
  - apply Forall_nil_2.
  - cbn [cw_mem empty_file]. intros cd ent der h V. right. pose proof (vs_valid _ _ _ _ _ _ _ _ _ _ _ V) as E. pose proof (vs_hash _ _ _ _ _ _ _ _ _ _ _ V) as Eh.
    rewrite (vs_valid _ _ _ _ _ _ _ _ _ _ _ page4_valid) in E. injection E as <- <- <-.
    rewrite (vs_hash _ _ _ _ _ _ _ _ _ _ _ page4_valid) in Eh. injection Eh as <-. split; vm_compute; (discriminate || reflexivity).
  - intros k Hk. apply bump2_room; [| done]. intros x Hx. by apply low_memory.
Qed.

Lemma signed_request : add_request 12 (toy_hash 20) (toy_hash 32) (toy_hash 48) 77 0 4096 277 (empty_file sample_sig_mem) [].
Proof.
  split; try done; try lia.
  - apply empty_file_ok, sample_sig_bytes.
  - exact toy_digests.
  - exact sample_sig_mapped.
  - apply Forall_nil_2.
  - cbn [cw_mem empty_file]. intros cd ent der h V. left. pose proof (valid_wf V) as Hsig. pose proof V as [_ _ Hb _ _ _ _ _ _].
    by destruct (cdo_page _ _ _ _ _ _ _ (cd_wf _ _ _ _ _ Hb _ _ _ _ _ Hsig)).
  - intros k Hk. apply bump2_room; [| done]. intros x Hx. by apply low_memory.
Qed.

Lemma added_first PAGE_SHIFT MACH_ASSERT sha1 sha256 sha384 env vp cputype cpusubtype base addr size flags add_flags w p w' :
  add_result PAGE_SHIFT MACH_ASSERT sha1 sha256 sha384 env vp cputype cpusubtype base addr size flags add_flags w [] 0 p w' ->
  exists b, attached_object PAGE_SHIFT MACH_ASSERT sha1 sha256 sha384 env vp cputype cpusubtype base addr size flags add_flags w w' [] p b.
Proof. inversion 1 as [? ? He | ? o ? ? ? Hin | ? b ? Hb]; subst; [by destruct He | by apply elem_of_nil in Hin | by exists b]. Qed.

(** Both programs, added. *)
Lemma page4_adds : match ubc_cs_blob_add 14 true (toy_hash 20) (toy_hash 32) (toy_hash 48) sample_parse false root_env 77 1 2 32768 4096 228 0 1
    (empty_file page4_mem) with
  | Ret (e, p, w') => Some (e, p, blob_list w', cw_mem w' 4096) | _ => None end = Some (0, 8, [8], None).
Proof. vm_compute. reflexivity. Qed.
Lemma sample_adds : match ubc_cs_blob_add 12 true (toy_hash 20) (toy_hash 32) (toy_hash 48) sample_parse false root_env 77 1 2 0 4096 277 0 1
    (empty_file sample_sig_mem) with
  | Ret (e, p, w') => Some (e, p, csb_reconstituted <$> cw_zone w' !! p, cs_blob_generation_count w') | _ => None end = Some (0, 8, Some false, 1).
Proof. vm_compute. reflexivity. Qed.

