(* ===== verification/CodeSignFile.v ===== *)
(** * Signatures of a file: their life

    Adding signatures, releasing all of them, checking them again when the policy changes, and
    loading a program, which does all of this. *)

From stdpp Require Import base list strings gmap.
From Stdlib Require Import ZArith Lia.
From S2P Require Import Prelude XzsfsCore Memory Kernel CodeSign CodeSignProofs CodeSignPage CodeSignAuth CodeSignFrame Amfi AmfiProofs CodeSignBlob CodeSignMulti CodeSignLevels CodeSignLocal CodeSignSettle CodeSignAdd.

(** ** Release *)

Section release.
Context (PAGE_SHIFT : Z) (sha1 sha256 sha384 : bytes -> bytes) (vp : Z).
Abbreviation ok := (file_ok PAGE_SHIFT sha1 sha256 sha384 vp).

Definition set_ubc (u : option ubc_info) (w : csworld) : csworld :=
  CsWorld (cw_mem w) (cw_kw w) (cw_zone w) u (cw_stats w) (cs_blob_generation_count w).
Definition set_stats (s : cs_statistics) (w : csworld) : csworld :=
  CsWorld (cw_mem w) (cw_kw w) (cw_zone w) (cw_ubc w) s (cs_blob_generation_count w).

(** The objects of a list, wherever the list is kept. *)
Definition objects_ok (w : csworld) (bs : list (Z * cs_blob)) : Prop := ok (set_ubc (Some (UbcInfo 0 0 (0, 0) bs.*1)) w) bs.

Lemma objects_of_file w bs : ok w bs -> objects_ok w bs.
Proof. by intros [F1 F2 F3 F4 F5 F6 F7 F8]. Qed.

(** The counts without the objects [bs], modulo their widths; the peaks stay. *)
Record uncounted (s s' : cs_statistics) (bs : list (Z * cs_blob)) : Prop := {
  uc_count : u32 (cs_blob_count s') = u32 (cs_blob_count s - zlen bs);
  uc_size : u64 (cs_blob_size s') = u64 (cs_blob_size s - foldr (fun e n => csb_mem_size e.2 + n) 0 bs);
  uc_peaks : cs_blob_count_peak s' = cs_blob_count_peak s /\ cs_blob_size_peak s' = cs_blob_size_peak s /\ cs_blob_size_max s' = cs_blob_size_max s;
}.

(** What is left when the objects [bs] are gone. *)
Record released (w w' : csworld) (bs : list (Z * cs_blob)) : Prop := {
  rl_stats : uncounted (cw_stats w) (cw_stats w') bs;
  rl_memory : forall x, cw_mem w' x = if regions bs.*2 x then None else cw_mem w x;
  rl_zone : forall p, cw_zone w' !! p = if decide (p ∈ bs.*1) then None else cw_zone w !! p;
  rl_heap : kw_ok (cw_kw w');
  rl_ents : forall p, p ∉ csb_entitlements <$> bs.*2 -> kw_ents (cw_kw w') !! p = kw_ents (cw_kw w) !! p;
  rl_ubc : cw_ubc w' = cw_ubc w;
  rl_generation : cs_blob_generation_count w' = cs_blob_generation_count w;
}.

Lemma free_first w p b bs s kw2 : objects_ok w ((p, b) :: bs) -> kw_ok kw2 ->
  (forall q, q <> csb_entitlements b -> kw_ents kw2 !! q = kw_ents (cw_kw w) !! q) ->
  objects_ok (set_zone (delete p (cw_zone w)) (set_mem (without (cw_mem w) b) (set_kw kw2 (set_stats s w)))) bs.
Proof.
  intros [F1 F2 F3 F4 F5 F6 F7 F8] Hk He. cbn [fmap list_fmap fst snd] in *.
  apply NoDup_cons in F4 as [Hp F4]. apply Forall_cons in F5 as [_ F5], F6 as [_ F6]. inversion F7 as [|? ? Ha Hr]; subst.
  apply not_elem_of_cons in F8 as [_ F8]. cbn [cw_mem cw_kw cw_zone set_ubc snd] in *.
  assert (ok (set_ubc (Some (UbcInfo 0 0 (0, 0) bs.*1)) w) bs) as Hok by by split.
  apply (file_agree _ _ _ _ _ _ _ _ Hok); [| done | done |].
  - intros x v. cbn. unfold without. destruct (_ && _); [done | apply F1].
  - rewrite Forall_forall in F5, F6, Ha |- *. intros e Hin. destruct (Ha e Hin) as [A1 _ A3 _]. cbn. split_and!.
    + rewrite lookup_delete_ne; [by apply F5 |]. intros ->. apply Hp. by apply list_elem_of_fmap_2.
    + intros x Hx. unfold without. destruct (Z.leb_spec (csb_mem_kaddr b) x), (Z.ltb_spec x (csb_mem_kaddr b + csb_mem_size b)); cbn [andb]; try done.
      exfalso. by apply (A1 x).
    + intros Hne. rewrite He; [by apply (ao_ents _ _ _ _ _ _ _ _ (F6 e Hin)) |]. destruct A3; congruence.
Qed.

Lemma free_blobs_spec bs : forall w, objects_ok w bs -> exists w', free_blobs bs.*1 w = Ret (tt, w') /\ released w w' bs.
Proof.
  induction bs as [|[p b] bs IH]; intros w Hok; cbn [fmap list_fmap fst snd free_blobs].
  { exists w. split; [done |]. split; try done; [| by destruct Hok]. split; [..| done]; [by rewrite zlen_nil, Z.sub_0_r | cbn; by rewrite Z.sub_0_r]. }
  pose proof Hok as [F1 F2 F3 F4 F5 F6 F7 F8]. apply Forall_cons in F5 as [Hz _], F6 as [Hb _]. cbn [fst snd cw_zone cw_mem cw_kw set_ubc] in *.
  assert (p <> 0) as Hp0 by (intros ->; apply F8; cbn; by left).
  rewrite (run_object _ _ _ _ Hz). unfold on_stats. rewrite run_act. set (s := CsStatistics _ _ _ _ _).
  destruct (cleanup_held PAGE_SHIFT sha1 sha256 sha384 (set_stats s w) b (ao_backed _ _ _ _ _ _ _ _ Hb) F2 (ao_ents _ _ _ _ _ _ _ _ Hb)) as (kw2 & Hc & Hk & He).
  destruct (IH _ (free_first w p b bs s kw2 Hok Hk He)) as (w' & Hr & [R0 R1 R2 R3 R4 R5 R6]).
  exists w'. split.
  - etransitivity; [| exact Hr]. refine (run_bind _ _ _ tt _ _). unfold cs_blob_ro_free. rewrite (proj2 (Z.eqb_neq p 0)) by done.
    rewrite (run_object _ _ _ b) by exact Hz. exact (run_bind _ _ _ _ _ Hc).
  - cbn [cw_mem cw_zone cw_kw cw_ubc set_zone set_mem set_kw set_stats cs_blob_generation_count] in *. split; try done.
    + destruct R0 as [U1 U2 U3]. split; [| | exact U3]; rewrite ?U1, ?U2; subst s; cbn [cw_stats set_zone set_mem set_kw set_stats cs_blob_count cs_blob_size foldr snd]; rewrite ?zlen_cons; unfold u32, u64; rewrite Zminus_mod_idemp_l; f_equal; lia.
    + intros x. rewrite R1. unfold without. cbn [fmap list_fmap regions existsb snd]. fold (regions bs.*2 x).
      destruct (regions bs.*2 x), (_ && _); done.
    + intros q. rewrite R2. cbn [fmap list_fmap fst]. destruct (decide (q ∈ bs.*1)) as [Hin | Hin].
      * rewrite decide_True; [done |]. by right.
      * destruct (decide (q = p)) as [-> | Hne]; [rewrite decide_True by left; by rewrite lookup_delete_eq |].
        rewrite decide_False; [by rewrite lookup_delete_ne |]. intros [->%eq_sym | ?]%elem_of_cons; done.
    + intros q Hq. cbn [fmap list_fmap snd] in Hq. apply not_elem_of_cons in Hq as [Hq1 Hq2]. rewrite R4 by done. by apply He.
Qed.

(** All signatures of the file go. *)
Lemma free_spec w bs : ok w bs -> exists w', ubc_cs_free w = Ret (tt, w') /\ released w (set_ubc (cw_ubc w) w') bs /\ blob_list w' = [].
Proof.
  intros Hok. pose proof (objects_of_file w bs Hok) as Hob. unfold ubc_cs_free. rewrite run_asks. pose proof (fo_list _ _ _ _ _ _ _ Hok) as Hl. unfold blob_list in Hl.
  destruct (free_blobs_spec bs w Hob) as (w' & Hr & Hrel). destruct (cw_ubc w) as [u |] eqn:Eu.
  - rewrite Hl, (run_bind _ _ _ _ _ Hr). eexists. split; [reflexivity |]. destruct Hrel as [R0 R1 R2 R3 R4 R5 R6]. rewrite Eu in R5.
    split; [by split |]. unfold blob_list. cbn. by rewrite R5.
  - destruct bs; [| done]. eexists. split; [reflexivity |]. split; [| unfold blob_list; by rewrite Eu]. cbn in Hr. injection Hr as <-.
    by destruct Hrel.
Qed.

(** Signatures that were marked invalid go, once. *)
Lemma free_invalid_spec w u bs : ok w bs -> cw_ubc w = Some u ->
  if Z.land (ui_flags u) UI_CSBLOBINVALID =? 0 then ubc_cs_free_and_vnode_unlock w = Ret (tt, w)
  else exists w', ubc_cs_free_and_vnode_unlock w = Ret (tt, w') /\ released w (set_ubc (cw_ubc w) w') bs /\
    cw_ubc w' = Some (UbcInfo (Z.land (ui_flags u) (u32 (Z.lnot UI_CSBLOBINVALID))) (cs_add_gen u) (cs_mtime u) []).
Proof.
  intros Hok Eu. unfold ubc_cs_free_and_vnode_unlock. rewrite run_asks, Eu. destruct (_ =? 0); [done |].
  unfold on_ubc. rewrite !run_act. cbn [cw_ubc cw_mem cw_kw cw_zone cw_stats cs_blob_generation_count]. rewrite Eu. cbn.
  pose proof (objects_of_file w bs Hok) as Hob. pose proof (fo_list _ _ _ _ _ _ _ Hok) as Hl. unfold blob_list in Hl. rewrite Eu in Hl. rewrite Hl.
  set (w1 := CsWorld _ _ _ (Some _) _ _). destruct (free_blobs_spec bs w1 Hob) as (w' & Hr & [R0 R1 R2 R3 R4 R5 R6]).
  exists w'. split; [exact Hr |]. split; [by split | exact R5].
Qed.

Lemma free_none w : blob_list w = [] -> exists u, ubc_cs_free w = Ret (tt, set_ubc u w) /\ blob_list (set_ubc u w) = [].
Proof.
  unfold blob_list, ubc_cs_free. rewrite run_asks. destruct (cw_ubc w) as [u |] eqn:Eu; intros El.
  - rewrite El. exists (Some (set_blobs [] u)). split; [| done]. unfold set_ubc. cbn [free_blobs]. rewrite run_ret. unfold on_ubc, act. by rewrite Eu.
  - exists None. split; [destruct w; cbn in *; by subst | done].
Qed.

(** The only signature of a file, which owns its entitlements. *)
Lemma free_one w p b kw : ok w [(p, b)] -> owns kw (cw_kw w) (csb_entitlements b) -> exists u s kw2,
  ubc_cs_free w = Ret (tt, set_ubc u (set_zone (delete p (cw_zone w)) (set_mem (without (cw_mem w) b) (set_kw kw2 (set_stats s w))))) /\
  cs_blob_count s = u32 (cs_blob_count (cw_stats w) - 1) /\ cs_blob_size s = u64 (cs_blob_size (cw_stats w) - csb_mem_size b) /\
  same_heap kw kw2 /\ match u with Some u => cs_blobs u | None => [] end = [].
Proof.
  intros Hok Hown. pose proof Hok as [F1 F2 F3 F4 F5 F6 F7 F8]. apply Forall_cons in F5 as [Hz _], F6 as [Hb _]. cbn [fst snd] in *.
  assert (p <> 0) as Hp0 by (intros ->; apply F8; cbn; by left).
  unfold ubc_cs_free, blob_list in *. rewrite run_asks. destruct (cw_ubc w) as [u |] eqn:Eu; [| done]. rewrite F3. cbn [fmap list_fmap fst free_blobs].
  set (s := CsStatistics (u32 (cs_blob_count (cw_stats w) - 1)) (cs_blob_count_peak (cw_stats w)) (u64 (cs_blob_size (cw_stats w) - csb_mem_size b))
    (cs_blob_size_peak (cw_stats w)) (cs_blob_size_max (cw_stats w))).
  destruct (cleanup_spec PAGE_SHIFT sha1 sha256 sha384 (set_stats s w) b (ao_backed _ _ _ _ _ _ _ _ Hb) kw Hown F2) as (kw2 & Hc & Hs & Hk).
  set (w1 := set_zone (delete p (cw_zone w)) (set_mem (without (cw_mem w) b) (set_kw kw2 (set_stats s w)))).
  exists (Some (set_blobs [] u)), s, kw2. split; [| done]. rewrite (run_bind _ _ _ tt w1).
  - unfold on_ubc, act. cbn. by rewrite Eu.
  - rewrite (run_object _ _ _ _ Hz). unfold on_stats. rewrite run_act. refine (run_bind _ _ _ tt _ _). unfold cs_blob_ro_free.
    rewrite (proj2 (Z.eqb_neq p 0)) by done. rewrite (run_object _ _ _ b) by exact Hz. exact (run_bind _ _ _ _ _ Hc).
Qed.

(** ** Checking again *)

(** An object under new flags. *)
Definition reflagged (f : Z) (b : cs_blob) : cs_blob :=
  with_signer b f CS_SIGNER_TYPE_UNKNOWN (csb_platform_binary b) (csb_platform_path b) (csb_teamid b).

Lemma attached_reflagged m kw b f : attached_ok PAGE_SHIFT sha1 sha256 sha384 vp m kw b -> Z.testbit f 0 = true ->
  attached_ok PAGE_SHIFT sha1 sha256 sha384 vp m kw (reflagged f b).
Proof.
  intros [[B1 B2 B3] [[P1 P2 P3 P4] T1 T2] V S O E] Hf. split; [| split; [by split | done | done] | done | done | done | done].
  split; [done | done | by apply valid_bit].
Qed.

Lemma file_reflagged w w' bs p f : ok w bs -> Z.testbit f 0 = true -> cw_mem w' = cw_mem w -> cw_kw w' = cw_kw w -> blob_list w' = blob_list w ->
  cw_zone w' = alter (reflagged f) p (cw_zone w) -> ok w' (at_object p (reflagged f) <$> bs).
Proof.
  intros Hok Hf Em Ek El Ez. apply (file_altered _ _ _ _ _ w); try done; [intros b Hb; by apply attached_reflagged |].
  intros b c Hb Hc [M C E (K1 & K2 & K3)]. pose proof (ao_signer _ _ _ _ _ _ _ _ Hb) as Sb. pose proof (ao_signer _ _ _ _ _ _ _ _ Hc) as Sc.
  split_and!; (split; [exact M | exact C | exact E |]); (split_and!; [cbn; congruence | exact K2 | exact K3]).
Qed.

Section revalidate.
Context (MACH_ASSERT : bool) (OSUnserializeXML : bytes -> option os_object) (debug : bool) (env : surroundings).

Lemma policy_read_only m b f kw : csb_ro b = true -> exists f',
  sweet_amfi_vnode_check_signature MACH_ASSERT OSUnserializeXML debug m (env_mount env) (Some b) f kw = Ret (0, f', Some b, kw) /\
  forall i, 0 <= i < 32 -> Z.testbit f' i = checked_flags (env_mount env) f i.
Proof.
  intros Hro. eexists. split; [unfold sweet_amfi_vnode_check_signature; rewrite Hro; reflexivity |]. intros i Hi. by apply flags_spec.
Qed.

(** The result of checking the object [b] at [p] again. *)
Inductive revalidated (w : csworld) (bs : list (Z * cs_blob)) (p : Z) (b : cs_blob) : Z -> csworld -> Prop :=
  | rv_converted : csb_reconstituted b = true -> revalidated w bs p b EAGAIN w
  | rv_checked f cd w' : csb_reconstituted b = false -> csb_cd b = cd ->
      (forall i, 0 <= i < 32 -> Z.testbit f i = checked_flags (env_mount env) (Z.lor (Z.land (cdv (cw_mem w) cd "flags") CS_ALLOWED_MACHO) CS_VALID) i) ->
      cw_mem w' = cw_mem w -> cw_kw w' = cw_kw w -> cw_zone w' = <[p := reflagged f b]> (cw_zone w) -> cw_stats w' = cw_stats w ->
      ok w' (at_object p (reflagged f) <$> bs) -> ubc_cs_generation_check w' = 0 -> revalidated w bs p b 0 w'.

Lemma revalidate_spec w bs p b : ok w bs -> (p, b) ∈ bs -> exists e w',
  ubc_cs_blob_revalidate PAGE_SHIFT MACH_ASSERT sha1 sha256 sha384 OSUnserializeXML debug env p w = Ret (e, w') /\ revalidated w bs p b e w'.
Proof.
  intros Hok Hin. pose proof Hok as [F1 F2 F3 F4 F5 F6 F7 F8]. rewrite Forall_forall in F5, F6. pose proof (F5 _ Hin) as Hz. cbn [fst snd] in Hz.
  destruct (F6 _ Hin) as [[(cd & ent & der & h & V & Hc & Hh) _ Hv] _ _ _ Hro _]. cbn [snd] in *.
  pose proof V as [_ _ _ Hm _ _ _ Hval _]. unfold ubc_cs_blob_revalidate.
  rewrite (run_object _ _ _ _ Hz), Hv, (run_reads _ _ _ _ Hval). cbn [Z.eqb negb].
  rewrite (run_reads _ _ _ _ (sig_cd32 PAGE_SHIFT sha1 sha256 sha384 _ F1 _ _ Hm cd ent der (valid_wf V) "flags" eq_refl)).
  destruct (csb_reconstituted b) eqn:Erc; [eexists _, _; split; [reflexivity | by apply rv_converted] |].
  destruct (policy_read_only (cw_mem w) b (Z.lor (Z.land (cdv (cw_mem w) cd "flags") CS_ALLOWED_MACHO) CS_VALID) (cw_kw w) Hro) as (f & Hp & Hf).
  rewrite (run_bind _ _ _ (0, f, b) w).
  2:{ unfold mac_vnode_check_signature. rewrite (run_bind _ _ _ (0, f, Some b) w); [done |]. unfold in_policy. rewrite Hp. by destruct w. }
  rewrite run_on_zone, run_asks. cbn [Z.eqb]. unfold on_ubc. rewrite run_act. eexists _, _. split; [reflexivity |].
  assert (Z.testbit f 0 = true) as Hf0.
  { rewrite Hf by lia. unfold checked_flags. rewrite Z.lor_spec. cbn. by rewrite !orb_true_r. }
  assert (alter (reflagged f) p (cw_zone w) = <[p := reflagged f b]> (cw_zone w)) as Ez.
  { apply map_eq. intros i. destruct (decide (i = p)) as [-> | Hne]; [by rewrite lookup_alter_eq, Hz, lookup_insert_eq | by rewrite lookup_alter_ne, lookup_insert_ne]. }
  apply (rv_checked _ _ _ _ f cd); try done.
  - apply (file_reflagged w); [done | done | done | done | | done]. unfold blob_list. cbn. by destruct (cw_ubc w).
  - cbn. destruct (cw_ubc w) as [u |] eqn:Eu; cbn; [by rewrite Z.eqb_refl |]. exfalso. unfold blob_list in F3. rewrite Eu in F3.
    destruct bs; [by apply elem_of_nil in Hin | done].
Qed.
End revalidate.
End release.

(** ** Loading a program *)

Lemma allocate_spec `{SigAlloc} (MACH_ASSERT : bool) m n : kalloc_data_tag m n <> 0 ->
  ubc_cs_blob_allocate MACH_ASSERT m n = Ret (kalloc_data_tag m n,
    fun x => if (kalloc_data_tag m n <=? x) && (x <? kalloc_data_tag m n + n) then Some 0 else m x).
Proof.
  intros Hp. unfold ubc_cs_blob_allocate, kassert. rewrite (proj2 (Z.eqb_neq _ 0)) by done. cbn [negb]. by rewrite andb_false_r.
Qed.

Section load.
Context (PAGE_SHIFT : Z) (MACH_ASSERT : bool) (sha1 sha256 sha384 : bytes -> bytes) `{SigAllocLaws}.
Context (OSUnserializeXML : bytes -> option os_object) (debug : bool) (env : surroundings) (vn_rdwr : file_reader).
Context (vp cputype macho_offset macho_size : Z) (lcp : linkedit_data_command).
Abbreviation ok := (file_ok PAGE_SHIFT sha1 sha256 sha384 vp).
Abbreviation valid := (valid_signature PAGE_SHIFT sha1 sha256 sha384).
Abbreviation content := ((vn_rdwr (macho_offset + dataoff lcp) (datasize lcp)).2).
Abbreviation n := (datasize lcp).

(** Memory once the signature has been read into new memory. *)
Definition read_in (m m2 : mem) : Prop :=
  let p := kalloc_data_tag m n in
  (forall x, ~ (p <= x < p + n) -> m2 x = m x) /\ stored m2 p content /\
  (forall x, p + zlen content <= x < p + n -> m2 x = Some 0).

(** The signature has a size that is not extreme and the layout the conversion is made for,
    there is memory, and reading gives bytes, not more than asked for. *)
Record loadable (w : csworld) (bs : list (Z * cs_blob)) : Prop := {
  lo_file : ok w bs;
  lo_digests : Digests sha1 sha256 sha384;
  lo_shift : 12 <= PAGE_SHIFT <= 14;
  lo_size : 0 < n < 2 ^ 27;
  lo_content : Forall is_u8 content /\ zlen content <= n;
  lo_base : - 2 ^ 63 <= macho_offset < 2 ^ 63;
  lo_memory : kalloc_data_tag (cw_mem w) n <> 0;
  lo_room : forall m2, read_in (cw_mem w) m2 -> forall k, 0 < k < 2 ^ 31 -> kalloc_data_tag m2 k <> 0;
  lo_layout : forall m2, read_in (cw_mem w) m2 -> forall cd ent der h, valid m2 (kalloc_data_tag (cw_mem w) n) n cd ent der h ->
    pageshift m2 cd = PAGE_SHIFT \/ convertible m2 cd h;
}.

(** Nothing has changed, as far as anybody can see. *)
Record untouched (w w' : csworld) : Prop := {
  un_memory : forall x, cw_mem w' x = cw_mem w x;
  un_heap : same_heap (cw_kw w) (cw_kw w');
  un_zone : cw_zone w' = cw_zone w;
  un_ubc : cw_ubc w' = cw_ubc w;
  un_stats : cw_stats w' = cw_stats w;
}.

(** An object that can stand for the program. *)
Definition fits (sub : Z) (b : cs_blob) : Prop :=
  csb_base_offset b = macho_offset /\ (csb_cpu_type b = cputype \/ csb_cpu_subtype b = sub \/ csb_cpu_type b = CPU_TYPE_ANY).

(** Why there is none: an attached signature is of another program, the load command is malformed,
    the file cannot be read, or the signature in it is refused. *)
Inductive load_refusal (sub : Z) (w : csworld) (bs : list (Z * cs_blob)) : Z -> Prop :=
  | lf_attached p b : (p, b) ∈ bs -> ~ fits sub b -> load_refusal sub w bs LOAD_BADMACHO
  | lf_command : cmdsize lcp <> sizeof_linkedit_data_command \/ 2 ^ 32 <= dataoff lcp + n \/ macho_size < dataoff lcp + n ->
      load_refusal sub w bs LOAD_BADMACHO
  | lf_read error resid : (vn_rdwr (macho_offset + dataoff lcp) n).1 = (error, resid) -> error <> 0 \/ resid <> 0 -> load_refusal sub w bs LOAD_IOERROR
  | lf_refused m2 e : read_in (cw_mem w) m2 ->
      refusal PAGE_SHIFT sha1 sha256 sha384 env vp cputype sub macho_offset (kalloc_data_tag (cw_mem w) n) n 0 CS_BLOB_ADD_ALLOW_MAIN_BINARY (set_mem m2 w) bs e ->
      load_refusal sub w bs LOAD_FAILURE.

(** The outcome: nothing, with the reason; an attached signature, checked under the current policy;
    the signature in the file, found to be attached; or the same, attached now. *)
Inductive load_result (sub : Z) (w : csworld) (bs : list (Z * cs_blob)) : Z -> Z -> csworld -> Prop :=
  | ld_failed r w' : r <> LOAD_SUCCESS -> load_refusal sub w bs r -> untouched w w' -> ok w' bs -> load_result sub w bs r 0 w'
  | ld_kept p b b' w' bs' : (p, b) ∈ bs -> fits sub b -> ok w' bs' -> (p, b') ∈ bs' -> cw_mem w' = cw_mem w -> csb_mem_kaddr b' = csb_mem_kaddr b ->
      csb_cdhash b' = csb_cdhash b -> ubc_cs_generation_check w' = 0 -> load_result sub w bs LOAD_SUCCESS p w'
  | ld_again m2 p o w' : read_in (cw_mem w) m2 -> (p, o) ∈ bs ->
      add_result PAGE_SHIFT MACH_ASSERT sha1 sha256 sha384 env vp cputype sub macho_offset (kalloc_data_tag (cw_mem w) n) n 0 CS_BLOB_ADD_ALLOW_MAIN_BINARY
        (set_mem m2 w) bs 0 p w' -> ubc_cs_generation_check w' = 0 -> load_result sub w bs LOAD_SUCCESS p w'
  | ld_read m2 p b w' : read_in (cw_mem w) m2 ->
      attached_object PAGE_SHIFT MACH_ASSERT sha1 sha256 sha384 env vp cputype sub macho_offset (kalloc_data_tag (cw_mem w) n) n 0 CS_BLOB_ADD_ALLOW_MAIN_BINARY
        (set_mem m2 w) w' bs p b -> load_result sub w bs LOAD_SUCCESS p w'.

Section read.
Context (w : csworld) (bs : list (Z * cs_blob)) (L : loadable w bs).
Abbreviation addr := (kalloc_data_tag (cw_mem w) n).
Abbreviation m1 := (fun x => if (addr <=? x) && (x <? addr + n) then Some 0 else cw_mem w x).

Lemma addr_fresh : 0 < addr /\ addr + n < 2 ^ 64 /\ forall x, addr <= x < addr + n -> cw_mem w x = None.
Proof.
  pose proof (lo_size _ _ L) as Hn. destruct (kalloc_fresh (cw_mem w) n ltac:(lia)) as [E | (H1 & H2 & H3)]; [by destruct (lo_memory _ _ L) |].
  unfold VM_MAX_KERNEL_ADDRESS in H2. split_and!; [done | lia | done].
Qed.

Lemma read_spec : exists m2, store_bytes m1 addr content = Ret m2 /\ read_in (cw_mem w) m2 /\ mapped m2 addr n /\ byte_mem m2.
Proof.
  destruct (lo_content _ _ L) as [Hc Hl]. pose proof (zlen_nonneg content) as Hz. pose proof (lo_size _ _ L) as Hn. pose proof (fo_bytes _ _ _ _ _ _ _ (lo_file _ _ L)) as Hb.
  assert (forall x, addr <= x < addr + n -> m1 x = Some 0) as Hin by (intros x Hx; by rewrite (proj2 (Z.leb_le _ _)), (proj2 (Z.ltb_lt _ _)) by lia).
  assert (byte_mem m1) as Hb1 by (intros x v; destruct (_ && _); [intros [= <-]; by cint_unfold | apply Hb]).
  destruct (store_spec content m1 addr) as (m2 & Hs & Hst & [W1 W2 W3]); [intros x Hx; rewrite Hin by lia; by eexists | done |].
  exists m2. split; [exact Hs |]. split; [| split; [apply W2; intros x Hx; rewrite Hin by lia; by eexists | by apply W3]].
  unfold read_in. split_and!; [| exact Hst |].
  - intros x Hx. rewrite W1 by lia. destruct (Z.leb_spec addr x), (Z.ltb_spec x (addr + n)); cbn; (done || lia).
  - intros x Hx. rewrite W1 by lia. apply Hin. lia.
Qed.

(** The file with the signature read, before it is added. *)
Lemma read_request m2 : read_in (cw_mem w) m2 -> mapped m2 addr n -> byte_mem m2 ->
  add_request PAGE_SHIFT sha1 sha256 sha384 vp macho_offset addr n (set_mem m2 w) bs.
Proof.
  intros Hr Hm Hb. destruct addr_fresh as (A1 & A2 & A3). pose proof L as [Hf Hd Hs Hn _ Hba _ Hro Hla].
  assert (forall e x, e ∈ bs -> in_blob e.2 x -> ~ (addr <= x < addr + n)) as Hbs.
  { intros e x He Hx Hin. pose proof (fo_each _ _ _ _ _ _ _ Hf) as Hea. rewrite Forall_forall in Hea.
    destruct (Hea e He) as [[(cd & ent & der & h & V & _) _ _] _ _ _ _ _]. destruct (vs_mapped _ _ _ _ _ _ _ _ _ _ _ V x Hx) as [v Hv]. by rewrite A3 in Hv. }
  split; try done; [| lia | | by apply Hla | by apply Hro].
  - pose proof Hf as [F1 F2 F3 F4 F5 F6 F7 F8]. apply (file_agree _ _ _ _ _ w); [done | done | done | done |].
    rewrite Forall_forall in F5, F6 |- *. intros e He. split_and!; [by apply F5 | | by apply (ao_ents _ _ _ _ _ _ _ _ (F6 e He))].
    intros x Hx. apply (proj1 Hr). by eapply Hbs.
  - apply Forall_forall. intros e He x Hx. by eapply Hbs.
Qed.

Lemma back_untouched m2 w' : read_in (cw_mem w) m2 -> given_back addr n (set_mem m2 w) w' -> cw_zone w' = cw_zone w -> cw_ubc w' = cw_ubc w -> untouched w w'.
Proof.
  intros Hr [G1 G2 _ G4 _] Ez Eu. split; try done. intros x. rewrite G1. cbn. destruct addr_fresh as (_ & _ & A3).
  destruct (Z.leb_spec addr x), (Z.ltb_spec x (addr + n)); cbn [andb]; [symmetry; apply A3; lia | ..]; (apply (proj1 Hr); lia).
Qed.

Lemma read_and_add_spec sub : exists r p w',
  read_and_add PAGE_SHIFT MACH_ASSERT sha1 sha256 sha384 OSUnserializeXML debug env vn_rdwr vp cputype sub macho_offset macho_size lcp w = Ret (r, p, w') /\
  load_result sub w bs r p w'.
Proof.
  pose proof (lo_file _ _ L) as Hf. unfold read_and_add.
  destruct (Z.eqb_spec (cmdsize lcp) sizeof_linkedit_data_command) as [Ecmd | Ecmd]; cbn [negb];
    [| eexists _, _, _; split; [reflexivity | apply ld_failed; [done | apply lf_command; by left | done | done]]].
  destruct (_ || _) eqn:Eo.
  { eexists _, _, _. split; [reflexivity |]. apply ld_failed; [done | | done | done]. apply lf_command. right.
    apply orb_true_iff in Eo as [?%Z.leb_le | ?%Z.ltb_lt]; [by left | by right]. }
  destruct addr_fresh as (A1 & A2 & A3). pose proof (lo_size _ _ L) as Hn.
  rewrite (run_bind _ _ _ addr (set_mem m1 w)) by (unfold in_mem; by rewrite allocate_spec by apply L).
  destruct read_spec as (m2 & Hs & Hr & Hm & Hb). pose proof (read_request m2 Hr Hm Hb) as Hreq.
  pose proof (lf_read sub w bs) as Hio.
  destruct (vn_rdwr (macho_offset + dataoff lcp) n) as [[error resid] c] eqn:Erd. cbn [fst snd] in *.
  rewrite (run_bind _ _ _ tt (set_mem m2 w)) by (unfold in_mem; cbn [cw_mem set_mem]; by rewrite Hs).
  destruct (negb (error =? 0) || negb (resid =? 0)) eqn:Eio.
  - rewrite (proj2 (Z.eqb_neq addr 0)) by lia. cbn [negb].
    rewrite (run_bind _ _ _ tt (set_mem (fun x => if (addr <=? x) && (x <? addr + n) then None else m2 x) w))
      by (unfold in_mem; cbn [cw_mem set_mem]; by rewrite deallocate_spec by (done || lia)).
    eexists _, _, _. split; [reflexivity |]. set (w' := set_mem _ w).
    assert (given_back addr n (set_mem m2 w) w') as Hg by (split; try done; apply Hf).
    apply ld_failed; [done | | by apply (back_untouched m2) |].
    + apply (Hio error resid eq_refl). apply orb_true_iff in Eio as [?%negb_true_iff%Z.eqb_neq | ?%negb_true_iff%Z.eqb_neq]; [by left | by right].
    + by apply (file_given_back _ _ _ _ _ addr n (set_mem m2 w)); [apply Hreq | apply Hreq | ..].
  - clear Hio. destruct (add_spec PAGE_SHIFT MACH_ASSERT sha1 sha256 sha384 OSUnserializeXML debug env vp cputype sub macho_offset addr n 0 CS_BLOB_ADD_ALLOW_MAIN_BINARY
      (set_mem m2 w) bs Hreq) as (e & p & w' & Ha & Hres).
    rewrite (run_bind _ _ _ _ _ Ha). assert (0 ∉ bs.*1) as H0 by apply Hf. pose proof Hres as Hres0.
    destruct Hres as [e w' He Hrf Hg Ez Eu Hok | p o m' b' w' Hin _ _ Hg Hok Hgen | p b w' Hab].
    + rewrite (proj2 (Z.eqb_neq e 0)) by done. cbn [negb]. eexists _, _, _. split; [reflexivity |].
      apply ld_failed; [done | by eapply lf_refused | by apply (back_untouched m2) | done].
    + cbn [Z.eqb negb]. rewrite (proj2 (Z.eqb_neq p 0)) by (intros ->; apply H0; change 0 with (0, o).1; by apply list_elem_of_fmap_2).
      eexists _, _, _. split; [reflexivity |]. by eapply ld_again.
    + cbn [Z.eqb negb]. pose proof (fo_null _ _ _ _ _ _ _ (ab_file _ _ _ _ _ _ _ _ _ _ _ _ _ _ _ _ _ _ _ Hab)) as Hnn. cbn in Hnn. apply not_elem_of_cons in Hnn as [Hnn _].
      rewrite (proj2 (Z.eqb_neq p 0)) by done. eexists _, _, _. split; [reflexivity |]. by eapply ld_read.
Qed.

Lemma objects_spec l : Forall (fun e => cw_zone w !! e.1 = Some e.2) l -> objects l.*1 w = Ret (l, w).
Proof.
  induction 1 as [|[p b] l Hp _ IH]; cbn [fmap list_fmap fst objects]; [done |]. cbn [fst snd] in Hp.
  rewrite (run_object _ _ _ _ Hp). by rewrite (run_bind _ _ _ _ _ IH).
Qed.

Lemma found_spec sub : exists r, find_attached vp cputype sub macho_offset w = Ret (r, w) /\ forall e, r = Some e -> e ∈ bs.
Proof.
  pose proof (lo_file _ _ L) as Hf. unfold find_attached. rewrite (run_bind _ _ _ _ _ (get_blobs_spec PAGE_SHIFT sha1 sha256 sha384 vp w bs Hf)).
  rewrite (fo_list _ _ _ _ _ _ _ Hf), (run_bind _ _ _ _ _ (objects_spec bs (fo_zone _ _ _ _ _ _ _ Hf))).
  eexists. split; [reflexivity |]. intros e He%find_some. apply list_elem_of_In. by destruct He.
Qed.
End read.

Lemma load_signature_spec cpusubtype w bs : loadable w bs -> exists r p w',
  load_code_signature PAGE_SHIFT MACH_ASSERT sha1 sha256 sha384 OSUnserializeXML debug env vn_rdwr vp cputype cpusubtype macho_offset macho_size lcp w = Ret (r, p, w') /\
  load_result (Z.land cpusubtype (Z.lnot CPU_SUBTYPE_MASK)) w bs r p w'.
Proof.
  intros L. pose proof (lo_file _ _ L) as Hf. unfold load_code_signature. set (sub := Z.land _ _).
  destruct (found_spec w bs L sub) as (r & Hr & Hin). rewrite (run_bind _ _ _ _ _ Hr).
  destruct r as [[p b] |]; [| apply (read_and_add_spec w bs L)]. specialize (Hin _ eq_refl).
  pose proof (fo_each _ _ _ _ _ _ _ Hf) as He. rewrite Forall_forall in He. destruct (He _ Hin) as [[_ _ Hv] _ _ _ _ _]. cbn [snd] in Hv. rewrite Hv, orb_false_r.
  destruct (_ || _) eqn:Em.
  { eexists _, _, _. split; [reflexivity |]. apply ld_failed; [done | | done | done]. apply (lf_attached sub w bs p b Hin). intros (F1 & F2).
    unfold CPU_TYPE_ANY in F2. apply orb_true_iff in Em as [[[E1 E2]%andb_true_iff E3]%andb_true_iff | E]; rewrite negb_true_iff, Z.eqb_neq in *; [tauto | done]. }
  assert (fits sub b) as Hfit.
  { apply orb_false_iff in Em as [Em E%negb_false_iff%Z.eqb_eq]. split; [done |]. apply andb_false_iff in Em as [[E1 | E1]%andb_false_iff | E1]; apply negb_false_iff, Z.eqb_eq in E1; auto. }
  rewrite run_asks. destruct (negb (csb_cpu_type b =? -1) && (ubc_cs_generation_check w =? 0)) eqn:Ec.
  { apply andb_true_iff in Ec as [_ Eg%Z.eqb_eq]. eexists _, _, _. split; [reflexivity |]. by apply (ld_kept sub w bs p b b w bs). }
  destruct (revalidate_spec PAGE_SHIFT sha1 sha256 sha384 vp MACH_ASSERT OSUnserializeXML debug env w bs p b Hf Hin) as (e & w' & Hv' & Hres).
  rewrite (run_bind _ _ _ _ _ Hv'). destruct Hres as [Hrc | f cd w' Hrc Hcd Hfl Emem Ek Ez Es Hok Hg].
  - cbn [Z.eqb negb EAGAIN Pos.eqb]. apply (read_and_add_spec w bs L).
  - cbn [Z.eqb]. assert ((p, reflagged f b) ∈ (at_object p (reflagged f) <$> bs)) as Hin'.
    { apply list_elem_of_fmap. exists (p, b). split; [| done]. unfold at_object. cbn. by rewrite Z.eqb_refl. }
    destruct (csb_cpu_type b =? -1).
    + rewrite run_on_zone. eexists _, _, _. split; [reflexivity |].
      eapply (ld_kept sub w bs p b (with_cpu (reflagged f b) cputype sub)); [done | done | | | exact Emem | done | done | exact Hg].
      * eapply (file_retyped PAGE_SHIFT sha1 sha256 sha384 vp w' _ _ p (fun b => with_cpu b cputype sub)); [exact Hok | | done | done | done | done].
        intros b0. by eexists _, _.
      * apply list_elem_of_fmap. exists (p, reflagged f b). split; [| done]. unfold at_object. cbn. by rewrite Z.eqb_refl.
    + rewrite run_ret. eexists _, _, _. split; [reflexivity |]. by eapply (ld_kept sub w bs p b (reflagged f b)).
Qed.
End load.

(** ** The life of a signature *)

#[local] Existing Instance bump2.

(** As it was, but for the memory that was handed over. *)
Record restored (addr size : Z) (w w' : csworld) : Prop := {
  rs_list : blob_list w' = [];
  rs_zone : cw_zone w' = cw_zone w;
  rs_heap : same_heap (cw_kw w) (cw_kw w');
  rs_stats : u32 (cs_blob_count (cw_stats w')) = u32 (cs_blob_count (cw_stats w)) /\ u64 (cs_blob_size (cw_stats w')) = u64 (cs_blob_size (cw_stats w));
  rs_memory : forall x, cw_mem w' x = if (addr <=? x) && (x <? addr + size) then None else cw_mem w x;
}.


(** Releasing the signatures of a file, when it goes away or after they were marked invalid,
    returns; the file has none left and the mark is gone, each of their objects and exactly their
    memory is free, they are subtracted from the counts, no other object and no entitlement they do
    not hold is touched, and the heap is in order. *)
Theorem signatures_released (PAGE_SHIFT : Z) (sha1 sha256 sha384 : bytes -> bytes) (vp : Z) (w : csworld) (bs : list (Z * cs_blob))
    (Hok : file_ok PAGE_SHIFT sha1 sha256 sha384 vp w bs) :
  (exists w', ubc_cs_free w = Ret (tt, w') /\ released w (set_ubc (cw_ubc w) w') bs /\ blob_list w' = []) /\
  forall u, cw_ubc w = Some u ->
    if Z.land (ui_flags u) UI_CSBLOBINVALID =? 0 then ubc_cs_free_and_vnode_unlock w = Ret (tt, w)
    else exists w', ubc_cs_free_and_vnode_unlock w = Ret (tt, w') /\ released w (set_ubc (cw_ubc w) w') bs /\
      cw_ubc w' = Some (UbcInfo (Z.land (ui_flags u) (u32 (Z.lnot UI_CSBLOBINVALID))) (cs_add_gen u) (cs_mtime u) []).
Proof. split; [exact (free_spec PAGE_SHIFT sha1 sha256 sha384 vp w bs Hok) | intros u; by apply (free_invalid_spec PAGE_SHIFT sha1 sha256 sha384 vp)]. Qed.

(** When the policy changes ([cs_blob_reset_cache]), a file that was checked under the old one
    no longer counts as checked.  Checking one of its signatures again returns: a converted
    signature is not checked but has to be read again (EAGAIN), and the file still does not count
    as checked; any other keeps its signature, memory and neighbours, gets the flags the policy
    gives it now, and the file counts as checked. *)
Theorem reset_then_revalidate (PAGE_SHIFT : Z) (MACH_ASSERT : bool) (sha1 sha256 sha384 : bytes -> bytes) (vp : Z)
    (OSUnserializeXML : bytes -> option os_object) (debug : bool) (env : surroundings) (w : csworld) (bs : list (Z * cs_blob)) (p : Z) (b : cs_blob)
    (Hok : file_ok PAGE_SHIFT sha1 sha256 sha384 vp w bs) (Hin : (p, b) ∈ bs) (Hgen : is_u32 (cs_blob_generation_count w))
    (Hcurrent : ubc_cs_generation_check w = 0) :
  exists w1 e w2, cs_blob_reset_cache w = Ret (tt, w1) /\ ubc_cs_generation_check w1 = ENEEDAUTH /\
    ubc_cs_blob_revalidate PAGE_SHIFT MACH_ASSERT sha1 sha256 sha384 OSUnserializeXML debug env p w1 = Ret (e, w2) /\
    revalidated PAGE_SHIFT sha1 sha256 sha384 vp env w1 bs p b e w2 /\
    ubc_cs_generation_check w2 = (if csb_reconstituted b then ENEEDAUTH else 0).
Proof.
  set (w1 := CsWorld (cw_mem w) (cw_kw w) (cw_zone w) (cw_ubc w) (cw_stats w) (u32 (cs_blob_generation_count w + 2))).
  assert (file_ok PAGE_SHIFT sha1 sha256 sha384 vp w1 bs) as Hok1 by by destruct Hok.
  assert (ubc_cs_generation_check w1 = ENEEDAUTH) as Hn.
  { unfold ubc_cs_generation_check in *. cbn. destruct (cw_ubc w) as [u |]; [| done].
    destruct (Z.eqb_spec (cs_add_gen u) (cs_blob_generation_count w)) as [E | E]; [| done]. rewrite E. cint_unfold.
    rewrite (proj2 (Z.eqb_neq _ _)); [done |]. unfold u32. destruct (Z.lt_ge_cases (cs_blob_generation_count w + 2) (2 ^ 32));
      [rewrite Z.mod_small by lia; lia |].
    assert ((cs_blob_generation_count w + 2) mod 2 ^ 32 = cs_blob_generation_count w + 2 - 2 ^ 32) as -> by (symmetry; apply (Z.mod_unique _ _ 1); lia). lia. }
  destruct (revalidate_spec PAGE_SHIFT sha1 sha256 sha384 vp MACH_ASSERT OSUnserializeXML debug env w1 bs p b Hok1 Hin) as (e & w2 & Hr & Hres).
  exists w1, e, w2. split_and!; [done | done | done | done |]. by destruct Hres as [-> | f cd w2 -> _ _ _ _ _ _ _ Hg].
Qed.


(** ** A signature checked again *)

Lemma checked_again PAGE_SHIFT sha1 sha256 sha384 vp env w bs p b e w' :
  revalidated PAGE_SHIFT sha1 sha256 sha384 vp env w bs p b e w' -> csb_reconstituted b = false -> e = 0.
Proof. destruct 1 as [Hx | f cd w' Hx]; [by rewrite Hx | done]. Qed.
Lemma loaded_current PAGE_SHIFT MACH_ASSERT sha1 sha256 sha384 A env vn_rdwr vp cputype macho_offset macho_size lcp sub w bs p w' :
  @load_result PAGE_SHIFT MACH_ASSERT sha1 sha256 sha384 A env vn_rdwr vp cputype macho_offset macho_size lcp sub w bs LOAD_SUCCESS p w' ->
  ubc_cs_generation_check w' = 0.
Proof. inversion 1 as [? ? Hx | | | ? ? ? ? _ Hab]; subst; [by destruct Hx | done | done | apply Hab]. Qed.


(** The program as the only signature of its file. *)
Lemma sample_attached : exists w b, file_ok 12 (toy_hash 20) (toy_hash 32) (toy_hash 48) 77 w [(8, b)] /\ csb_reconstituted b = false /\
  cs_blob_generation_count w = 1 /\ ubc_cs_generation_check w = 0.
Proof.
  pose proof bump2_laws as HA.
  destruct (add_spec 12 true (toy_hash 20) (toy_hash 32) (toy_hash 48) sample_parse false root_env 77 1 2 0 4096 277 0 1
    (empty_file sample_sig_mem) [] signed_request) as (e & p & w & Ha & Hres).
  pose proof sample_adds as E. rewrite Ha in E. injection E as -> -> Er Eg. destruct (added_first _ _ _ _ _ _ _ _ _ _ _ _ _ _ _ _ _ Hres) as [b Hb]. exists w, b.
  destruct Hb as [Hok [Ez _] _ _ _ Hc _ _ _ _ _]. rewrite Ez, lookup_insert_eq in Er. injection Er as Er. by split_and!.
Qed.
Lemma signatures_released_witness : exists w b w', file_ok 12 (toy_hash 20) (toy_hash 32) (toy_hash 48) 77 w [(8, b)] /\
  ubc_cs_free w = Ret (tt, w') /\ cw_zone w' !! 8 = None.
Proof.
  destruct sample_attached as (w & b & Hok & _). destruct (signatures_released 12 (toy_hash 20) (toy_hash 32) (toy_hash 48) 77 w [(8, b)] Hok) as [(w' & Hf & Hr & _) _].
  exists w, b, w'. split_and!; [exact Hok | exact Hf |]. pose proof (rl_zone _ _ _ Hr 8) as E. cbn [cw_zone set_ubc fmap list_fmap fst] in E. rewrite decide_True in E by left. exact E.
Defined.

Lemma reset_then_revalidate_witness : exists w b w1 w2, file_ok 12 (toy_hash 20) (toy_hash 32) (toy_hash 48) 77 w [(8, b)] /\
  cs_blob_reset_cache w = Ret (tt, w1) /\ ubc_cs_generation_check w1 = ENEEDAUTH /\
  ubc_cs_blob_revalidate 12 true (toy_hash 20) (toy_hash 32) (toy_hash 48) sample_parse false root_env 8 w1 = Ret (0, w2) /\ ubc_cs_generation_check w2 = 0.
Proof.
  destruct sample_attached as (w & b & Hok & Hrc & Hg & Hc).
  destruct (reset_then_revalidate 12 true (toy_hash 20) (toy_hash 32) (toy_hash 48) 77 sample_parse false root_env w [(8, b)] 8 b Hok
    ltac:(by left) ltac:(rewrite Hg; by cint_unfold) Hc) as (w1 & e & w2 & H1 & H2 & H3 & Hres & H5).
  rewrite Hrc in H5. rewrite (checked_again _ _ _ _ _ _ _ _ _ _ _ _ Hres Hrc) in H3. exists w, b, w1, w2. by split_and!.
Defined.

(** ** A program that is loaded *)

Definition sample_reader : file_reader := fun _ _ => (0, 0, sample_sig).
Definition sample_lcp : linkedit_data_command := LinkeditDataCommand 16 4096 277.

Lemma sample_loadable : loadable 12 (toy_hash 20) (toy_hash 32) (toy_hash 48) sample_reader 77 0 sample_lcp (empty_file (fun _ => None)) [].
Proof.
  split; try done; try (cbn; lia).
  - by apply empty_file_ok.
  - exact toy_digests.
  - split; [apply (bool_decide_unpack _); by vm_compute | done].
  - intros m2 [Hout _] k Hk. apply bump2_room; [| done]. intros x Hx. apply Hout.
    change (kalloc_data_tag (cw_mem (empty_file (fun _ => None))) (datasize sample_lcp)) with 65536. cbn. lia.
  - intros m2 _ cd ent der h V. left. pose proof (valid_wf V) as Hsig. pose proof V as [_ _ Hb _ _ _ _ _ _].
    by destruct (cdo_page _ _ _ _ _ _ _ (cd_wf _ _ _ _ _ Hb _ _ _ _ _ Hsig)).
Qed.

