(* ===== verification/Sandbox.v ===== *)
(** * The Sandbox policy

    Models the rest of bsd/kern/xzs_amfi.c: the stand-in for the sandbox, with its container
    path lookup in the arguments of another process, its log of system calls, and the grant of
    privileges by entitlement with its log of denials. *)

From stdpp Require Import base list strings gmap.
From Stdlib Require Import ZArith Lia.
From S2P Require Import Prelude XzsfsCore Kernel Memory CodeSign Amfi.

Definition ESRCH : Z := 3.
Definition ENAMETOOLONG : Z := 63.

(** ** Privileges *)

Definition PRIV_PROC_UUID_POLICY : Z := 1001.
Definition PRIV_GLOBAL_PROC_INFO : Z := 1002.
Definition PRIV_SYSTEM_OVERRIDE : Z := 1003.
Definition PRIV_HW_DEBUG_DATA : Z := 1004.
Definition PRIV_SELECTIVE_FORCED_IDLE : Z := 1005.
Definition PRIV_DARKBOOT : Z := 1007.
Definition PRIV_WORK_INTERVAL : Z := 1008.
Definition PRIV_AUDIO_LATENCY : Z := 1010.
Definition PRIV_KTRACE_BACKGROUND : Z := 1011.
Definition PRIV_SETPRIORITY_DARWIN_ROLE : Z := 1012.
Definition PRIV_PACKAGE_EXTENSIONS : Z := 1013.
Definition PRIV_TRIM_ACTIVE_FILE : Z := 1014.
Definition PRIV_PROC_CPUMON_OVERRIDE : Z := 1015.
Definition PRIV_VM_PRESSURE : Z := 6000.
Definition PRIV_VM_JETSAM : Z := 6001.
Definition PRIV_VM_FOOTPRINT_LIMIT : Z := 6002.
Definition PRIV_NET_PRIVILEGED_TRAFFIC_CLASS : Z := 10000.
Definition PRIV_NET_PRIVILEGED_SOCKET_DELEGATE : Z := 10001.
Definition PRIV_NET_INTERFACE_CONTROL : Z := 10002.
Definition PRIV_NET_PRIVILEGED_NETWORK_STATISTICS : Z := 10003.
Definition PRIV_NET_PRIVILEGED_NECP_POLICIES : Z := 10004.
Definition PRIV_NET_RESTRICTED_AWDL : Z := 10005.
Definition PRIV_NET_QOSMARKING_POLICY_OVERRIDE : Z := 10007.
Definition PRIV_NET_RESTRICTED_MULTIPATH_EXTENDED : Z := 10010.
Definition PRIV_NET_RESTRICTED_ROUTE_NC_READ : Z := 10011.
Definition PRIV_NET_VALIDATED_RESOLVER : Z := 10014.
Definition PRIV_NET_CUSTOM_PROTOCOL : Z := 10015.
Definition PRIV_NET_PRIVILEGED_NECP_DROP_ALL_BYPASS : Z := 10016.
Definition PRIV_NET_PRIVILEGED_IPSEC_WAKE_PACKET : Z := 10017.
Definition PRIV_NETINET_RESERVEDPORT : Z := 11000.
Definition PRIV_NETINET_TCP_KA_OFFLOAD : Z := 11001.
Definition PRIV_SKYWALK_REGISTER_USER_PIPE : Z := 12000.
Definition PRIV_SKYWALK_REGISTER_KERNEL_PIPE : Z := 12001.
Definition PRIV_SKYWALK_REGISTER_NET_IF : Z := 12002.
Definition PRIV_SKYWALK_REGISTER_FLOW_SWITCH : Z := 12003.
Definition PRIV_SKYWALK_OBSERVE_ALL : Z := 12010.
Definition PRIV_SKYWALK_OBSERVE_STATS : Z := 12011.
Definition PRIV_VFS_OPEN_BY_ID : Z := 14000.
Definition PRIV_VFS_MOVE_DATA_EXTENTS : Z := 14001.
Definition PRIV_VFS_SNAPSHOT : Z := 14002.
Definition PRIV_VFS_DATALESS_RESOLVER : Z := 14004.
Definition PRIV_VFS_SETSIZE : Z := 14006.

Definition sweet_sandbox_privileges : list (Z * bytes) :=
  [ (PRIV_PROC_UUID_POLICY, lit "com.apple.private.kernel.uuid-policy");
    (PRIV_GLOBAL_PROC_INFO, lit "com.apple.private.kernel.global-proc-info");
    (PRIV_SYSTEM_OVERRIDE, lit "com.apple.private.kernel.system-override");
    (PRIV_HW_DEBUG_DATA, lit "com.apple.private.kernel.hw-debug-data");
    (PRIV_SELECTIVE_FORCED_IDLE, lit "com.apple.private.kernel.selective-forced-idle");
    (PRIV_DARKBOOT, lit "com.apple.private.kernel.darkboot");
    (PRIV_AUDIO_LATENCY, lit "com.apple.private.kernel.audio_latency");
    (PRIV_KTRACE_BACKGROUND, lit "com.apple.private.kernel.ktrace-background");
    (PRIV_SETPRIORITY_DARWIN_ROLE, lit "com.apple.private.kernel.setpriority-darwin-role");
    (PRIV_PACKAGE_EXTENSIONS, lit "com.apple.private.kernel.set-package-extensions");
    (PRIV_TRIM_ACTIVE_FILE, lit "com.apple.private.apfs.trim-active-file");
    (PRIV_PROC_CPUMON_OVERRIDE, lit "com.apple.private.kernel.override-cpumon");
    (PRIV_VM_PRESSURE, lit "vm-pressure-level");
    (PRIV_VM_JETSAM, lit "com.apple.private.kernel.jetsam");
    (PRIV_VM_FOOTPRINT_LIMIT, lit "com.apple.private.memorystatus");
    (PRIV_NET_PRIVILEGED_TRAFFIC_CLASS, lit "com.apple.private.network.privileged-traffic-class");
    (PRIV_NET_PRIVILEGED_SOCKET_DELEGATE, lit "com.apple.private.network.socket-delegate");
    (PRIV_NET_INTERFACE_CONTROL, lit "com.apple.private.network.interface-control");
    (PRIV_NET_PRIVILEGED_NETWORK_STATISTICS, lit "com.apple.private.network.statistics");
    (PRIV_NET_PRIVILEGED_NECP_POLICIES, lit "com.apple.private.necp.policies");
    (PRIV_NET_RESTRICTED_AWDL, lit "com.apple.private.network.awdl.restricted");
    (PRIV_NET_QOSMARKING_POLICY_OVERRIDE, lit "com.apple.private.network.qos-marking-policy-override");
    (PRIV_NET_RESTRICTED_MULTIPATH_EXTENDED, lit "com.apple.developer.networking.multipath_extended");
    (PRIV_NET_RESTRICTED_ROUTE_NC_READ, lit "com.apple.developer.networking.route_nc_read");
    (PRIV_NET_VALIDATED_RESOLVER, lit "com.apple.private.validated-resolver");
    (PRIV_NET_CUSTOM_PROTOCOL, lit "com.apple.developer.networking.custom-protocol");
    (PRIV_NET_PRIVILEGED_NECP_DROP_ALL_BYPASS, lit "com.apple.private.necp.drop_all_bypass");
    (PRIV_NET_PRIVILEGED_IPSEC_WAKE_PACKET, lit "com.apple.private.network.ipsec-wake-packet");
    (PRIV_NETINET_RESERVEDPORT, lit "com.apple.private.network.reserved-port");
    (PRIV_NETINET_TCP_KA_OFFLOAD, lit "com.apple.developer.networking.tcp_ka_offload");
    (PRIV_SKYWALK_REGISTER_USER_PIPE, lit "com.apple.private.skywalk.register-user-pipe");
    (PRIV_SKYWALK_REGISTER_KERNEL_PIPE, lit "com.apple.private.skywalk.register-kernel-pipe");
    (PRIV_SKYWALK_REGISTER_NET_IF, lit "com.apple.private.skywalk.register-net-if");
    (PRIV_SKYWALK_REGISTER_FLOW_SWITCH, lit "com.apple.private.skywalk.register-flow-switch");
    (PRIV_SKYWALK_OBSERVE_ALL, lit "com.apple.private.skywalk.observe-all");
    (PRIV_SKYWALK_OBSERVE_STATS, lit "com.apple.private.skywalk.observe-stats");
    (PRIV_VFS_OPEN_BY_ID, lit "com.apple.private.vfs.open-by-id");
    (PRIV_VFS_MOVE_DATA_EXTENTS, lit "com.apple.private.vfs.move-data-extents");
    (PRIV_VFS_SNAPSHOT, lit "com.apple.private.vfs.snapshot");
    (PRIV_VFS_DATALESS_RESOLVER, lit "com.apple.private.vfs.dataless-resolver");
    (PRIV_VFS_SETSIZE, lit "com.apple.private.vfs.setsize") ].

Definition SWEET_PRIV_LOG_MAX : Z := 64.

(** The denials logged so far, privilege and process name, oldest first; the messages are the
    entries as they are added. *)
Record priv_log := PrivLog { pl_logged : list (Z * bytes); pl_printed : list (Z * bytes) }.

(** A [char name[20]] filled by [strlcpy]: at most 19 characters, up to the first NUL. *)
Fixpoint cut_string (n : nat) (s : bytes) : bytes :=
  match n, s with
  | S n, c :: s => if c =? 0 then [] else c :: cut_string n s
  | _, _ => []
  end.

(** [name] is the name of the current process, if there is one; [same_cred] says whether the
    credential is the current one. *)
Definition sweet_sandbox_priv_grant (kw : kworld) (current : option proc) (name : bytes) (same_cred : bool) (priv : Z)
    (log : priv_log) : Z * priv_log :=
  if (priv =? PRIV_WORK_INTERVAL) || (priv =? PRIV_VM_FOOTPRINT_LIMIT) || (priv =? PRIV_DARKBOOT) ||
     (priv =? PRIV_SETPRIORITY_DARWIN_ROLE)
  then (0, log)
  else
    let entitled :=
      match current with
      | Some _ =>
          same_cred &&
          match List.find (fun e => e.1 =? priv) sweet_sandbox_privileges with
          | Some e => sweet_amfi_query_boolean_with_proc kw current e.2 =? KERN_SUCCESS
          | None => false
          end
      | None => false
      end in
    if (entitled : bool) then (0, log)
    else
      let name := match current with Some _ => cut_string 19 name | None => [] end in
      if existsb (fun e => (e.1 =? priv) && bool_decide (e.2 = name)) (pl_logged log) then (EPERM, log)
      else if zlen (pl_logged log) <? SWEET_PRIV_LOG_MAX
      then (EPERM, PrivLog (pl_logged log ++ [(priv, name)]) (pl_printed log ++ [(priv, name)]))
      else (EPERM, log).

(** ** Container paths *)

Definition SANDBOX_SYSCALL_CONTAINER_PATH : Z := 4.
Definition SANDBOX_CONTAINER_VARIABLE : bytes := lit "CFFIXED_USER_HOME=".

(** The process looked at: its version, stack, length of its arguments, and its task, if any. *)
Record target := Target {
  t_pidversion : Z;
  t_user_stack : Z;
  t_argslen : Z;
  t_task : option Z;
}.

(** The rest of the kernel: processes by number, the map of a task (none when it is not
    active), the page mask of a map, reading a range of a map, and whether memory can be
    allocated and a copy be overwritten. *)
Record kernel := KernelOps {
  k_user : user_space;
  k_proc_find : Z -> option target;
  k_task_map : Z -> option Z;
  k_page_mask : Z -> Z;
  k_copyin : Z -> Z -> Z -> option bytes;
  k_alloc_ok : Z -> bool;
  k_overwrite_ok : bool;
}.

(** References and buffers held, and what was copied out. *)
Record held := Held {
  h_procs : Z;
  h_tasks : Z;
  h_maps : Z;
  h_copies : Z;
  h_buffers : Z;
  h_out : list (Z * bytes);
}.
Definition take_proc (n : Z) (h : held) : held := Held (h_procs h + n) (h_tasks h) (h_maps h) (h_copies h) (h_buffers h) (h_out h).
Definition take_task (n : Z) (h : held) : held := Held (h_procs h) (h_tasks h + n) (h_maps h) (h_copies h) (h_buffers h) (h_out h).
Definition take_map (n : Z) (h : held) : held := Held (h_procs h) (h_tasks h) (h_maps h + n) (h_copies h) (h_buffers h) (h_out h).
Definition take_copy (n : Z) (h : held) : held := Held (h_procs h) (h_tasks h) (h_maps h) (h_copies h + n) (h_buffers h) (h_out h).
Definition take_buffer (n : Z) (h : held) : held := Held (h_procs h) (h_tasks h) (h_maps h) (h_copies h) (h_buffers h + n) (h_out h).
Definition put_out (a : Z) (b : bytes) (h : held) : held :=
  Held (h_procs h) (h_tasks h) (h_maps h) (h_copies h) (h_buffers h) (h_out h ++ [(a, b)]).

(** [vm_map_round_page(x, mask)]. *)
Definition vm_map_round_page (x mask : Z) : Z := Z.land (u64 (x + mask)) (u64 (Z.lnot mask)).

(** [strnlen(s, end - s)]. *)
Fixpoint strnlen (s : bytes) : Z :=
  match s with
  | [] => 0
  | c :: s => if c =? 0 then 0 else 1 + strnlen s
  end.

(** The search: [s] are the bytes from the position to the end; the string after the prefix. *)
Fixpoint find_container (fuel : nat) (s : bytes) : outcome (option bytes) :=
  match fuel with
  | O => NoFuel
  | S fuel =>
      match s with
      | [] => Ret None
      | _ =>
          let len := strnlen s in
          let prefix_len := zlen SANDBOX_CONTAINER_VARIABLE in
          if (prefix_len <? len) && (len <? zlen s) && bool_decide (take (Z.to_nat prefix_len) s = SANDBOX_CONTAINER_VARIABLE)
          then Ret (Some (take (Z.to_nat (len - prefix_len)) (drop (Z.to_nat prefix_len) s)))
          else find_container fuel (drop (Z.to_nat (len + 1)) s)
      end
  end.

Definition sweet_sandbox_container_path (k : kernel) (arg : Z) : prog held Z :=
  let '(error, args) := us_copyin (k_user k) arg 40 in
  if negb (error =? 0) then mret error
  else
    let field i := le_combine (take 8 (drop (8 * i) args)) in
    let pid := s32 (field 0%nat) in
    match k_proc_find k pid with
    | None => mret ESRCH
    | Some p =>
        _ ← act (take_proc 1);
        if negb (field 4%nat =? 0) && negb (u64 (t_pidversion p) =? field 1%nat) then _ ← act (take_proc (-1)); mret ESRCH
        else
          let user_stack := t_user_stack p in
          let argslen := t_argslen p in
          match t_task p with
          | None => _ ← act (take_proc (-1)); mret ENOENT
          | Some task =>
              if (user_stack =? 0) || (argslen =? 0) then _ ← act (take_proc (-1)); mret ENOENT
              else
                _ ← act (take_task 1);
                _ ← act (take_proc (-1));
                _ ← act (take_map (match k_task_map k task with Some _ => 1 | None => 0 end));
                _ ← act (take_task (-1));
                match k_task_map k task with
                | None => mret ENOENT
                | Some map =>
                    let strings_size := vm_map_round_page argslen (k_page_mask k map) in
                    if negb (k_alloc_ok k strings_size) then _ ← act (take_map (-1)); mret ENOMEM
                    else
                      _ ← act (take_buffer 1);
                      let copy := k_copyin k map (u64 (user_stack - strings_size)) strings_size in
                      _ ← act (take_copy (match copy with Some _ => 1 | None => 0 end));
                      _ ← act (take_map (-1));
                      match copy with
                      | None => _ ← act (take_buffer (-1)); mret ENOENT
                      | Some strings =>
                          _ ← act (take_copy (-1));
                          if negb (k_overwrite_ok k) then _ ← act (take_buffer (-1)); mret ENOENT
                          else
                            area ← plift (sub_bytes strings (strings_size - argslen) argslen);
                            found ← attempt (find_container (S (length area)) area);
                            error ← match found with
                                    | None => mret 0
                                    | Some s =>
                                        if zlen s <? field 3%nat then
                                          _ ← act (put_out (field 2%nat) (s ++ [0])); mret (us_copyout (k_user k) (field 2%nat) (s ++ [0]))
                                        else mret ENAMETOOLONG
                                    end;
                            _ ← act (take_buffer (-1));
                            mret error
                      end
                end
          end
    end.

(** ** System call *)

(** [seen] is the set of operations logged, a bit for each; the second list has the messages. *)
Record sandbox_state := SandboxState { ss_seen : Z; ss_printed : list (Z * bytes); ss_held : held }.

(** [name] is the command of the calling process, of which 16 characters are kept. *)
Definition sweet_sandbox_syscall (k : kernel) (name : bytes) (c arg : Z) : prog sandbox_state Z := fun st =>
  let st := if (0 <=? c) && (c <? 64) && (Z.land (ss_seen st) (u64 (Z.shiftl 1 c)) =? 0)
            then SandboxState (Z.lor (ss_seen st) (u64 (Z.shiftl 1 c))) (ss_printed st ++ [(c, cut_string 16 name)]) (ss_held st)
            else st in
  if c =? SANDBOX_SYSCALL_CONTAINER_PATH then
    '(error, h) ← sweet_sandbox_container_path k arg (ss_held st);
    Ret (error, SandboxState (ss_seen st) (ss_printed st) h)
  else Ret (0, st).
