(* ===== verification/SandboxProofs.v ===== *)
(** * The Sandbox policy: proofs

    Privileges are granted exactly by entitlement and denials logged once; the container path is
    looked up exactly and everything taken on the way is given back. *)

From stdpp Require Import base list strings gmap.
From Stdlib Require Import ZArith Lia.
From S2P Require Import Prelude XzsfsCore Kernel Memory CodeSign CodeSignProofs CodeSignPage CodeSignAuth Amfi AmfiProofs Sandbox.

(** ** Privileges *)

Lemma privileges_once : NoDup (sweet_sandbox_privileges.*1).
Proof. apply (bool_decide_unpack _). by vm_compute. Qed.

Lemma find_first {A} (l : list (Z * A)) k v : NoDup (l.*1) -> List.find (fun e => e.1 =? k) l = Some (k, v) <-> (k, v) ∈ l.
Proof.
  induction l as [|[k' v'] l IH]; cbn [List.find fmap list_fmap fst]; intros Hn.
  - split; [done | by intros ?%elem_of_nil].
  - apply NoDup_cons in Hn as [Hk Hn]. rewrite elem_of_cons. destruct (Z.eqb_spec k' k) as [-> | Hne].
    + split; [intros [= ->]; by left |]. intros [[= ->] | Hin]; [done |]. destruct Hk. apply list_elem_of_fmap. by exists (k, v).
    + rewrite IH by done. split; [by right |]. intros [[= ? ?] | ?]; [congruence | done].
Qed.

(** Who may have a privilege: anybody for four of them, else a process whose own credential it
    is, with the entitlement of the table. *)
Definition permitted (kw : kworld) (current : option proc) (same_cred : bool) (priv : Z) : Prop :=
  priv ∈ [PRIV_WORK_INTERVAL; PRIV_VM_FOOTPRINT_LIMIT; PRIV_DARKBOOT; PRIV_SETPRIORITY_DARWIN_ROLE] \/
  (same_cred = true /\ is_Some current /\
   exists ent, (priv, ent) ∈ sweet_sandbox_privileges /\ sweet_amfi_query_boolean_with_proc kw current ent = KERN_SUCCESS).

(** At most 64 denials, each once, and each printed once. *)
Record log_ok (log : priv_log) : Prop := {
  lo_max : zlen (pl_logged log) <= SWEET_PRIV_LOG_MAX;
  lo_once : NoDup (pl_logged log);
  lo_printed : pl_printed log = pl_logged log;
}.

(** What becomes of the log when a denial is recorded. *)
Definition recorded (entry : Z * bytes) (log log' : priv_log) : Prop :=
  (log' = log /\ (entry ∈ pl_logged log \/ zlen (pl_logged log) = SWEET_PRIV_LOG_MAX)) \/
  (pl_logged log' = pl_logged log ++ [entry] /\ entry ∉ pl_logged log).

Lemma record_spec priv name log : log_ok log ->
  let log' := if existsb (fun e => (e.1 =? priv) && bool_decide (e.2 = name)) (pl_logged log) then log
              else if zlen (pl_logged log) <? SWEET_PRIV_LOG_MAX
              then PrivLog (pl_logged log ++ [(priv, name)]) (pl_printed log ++ [(priv, name)]) else log in
  log_ok log' /\ recorded (priv, name) log log'.
Proof.
  intros [H1 H2 H3] log'. unfold log'. destruct (existsb _ _) eqn:E.
  - split; [done |]. left. split; [done | left]. apply existsb_exists in E as ([k v] & Hin & Hb). cbn [fst snd] in Hb.
    apply andb_true_iff in Hb as [->%Z.eqb_eq ->%bool_decide_eq_true]. by apply list_elem_of_In.
  - assert ((priv, name) ∉ pl_logged log) as Hno.
    { intros Hin. apply list_elem_of_In in Hin. assert (existsb (fun e => (e.1 =? priv) && bool_decide (e.2 = name)) (pl_logged log) = true) as Ht.
      { apply existsb_exists. exists (priv, name). split; [done |]. cbn. by rewrite Z.eqb_refl, bool_decide_true. }
      congruence. }
    destruct (Z.ltb_spec (zlen (pl_logged log)) SWEET_PRIV_LOG_MAX) as [Hlt | Hge].
    + split; [| by right]. split; cbn.
      * rewrite zlen_app. change (zlen [(priv, name)]) with 1. lia.
      * apply NoDup_app. split_and!; [done | | apply NoDup_singleton]. intros x Hx ->%list_elem_of_singleton. done.
      * by rewrite H3.
    + split; [done |]. left. split; [done | right]. lia.
Qed.

Lemma entitled_spec kw current (same_cred : bool) priv :
  match current with
  | Some _ => same_cred && match List.find (fun e => e.1 =? priv) sweet_sandbox_privileges with
                           | Some e => sweet_amfi_query_boolean_with_proc kw current e.2 =? KERN_SUCCESS
                           | None => false
                           end
  | None => false
  end = true <->
  same_cred = true /\ is_Some current /\
   exists ent, (priv, ent) ∈ sweet_sandbox_privileges /\ sweet_amfi_query_boolean_with_proc kw current ent = KERN_SUCCESS.
Proof.
  destruct current as [p |]; [| split; [done | by intros (_ & [? ?] & _)]]. rewrite andb_true_iff. split.
  - intros [-> H]. split; [done |]. split; [by eexists |]. destruct (List.find _ _) as [[k ent] |] eqn:E; [| done].
    apply Z.eqb_eq in H. exists ent. split; [| done]. pose proof (find_some _ _ E) as [Hin Hk]. apply Z.eqb_eq in Hk. cbn in Hk. subst k.
    by apply list_elem_of_In.
  - intros (-> & _ & ent & Hin & Hq). split; [done |]. apply (find_first _ _ _ privileges_once) in Hin. rewrite Hin. by apply Z.eqb_eq.
Qed.

Lemma priv_grant_spec (kw : kworld) (current : option proc) (name : bytes) (same_cred : bool) (priv : Z) (log : priv_log)
    (Hlog : log_ok log) :
  let '(error, log') := sweet_sandbox_priv_grant kw current name same_cred priv log in
  (error = 0 /\ permitted kw current same_cred priv /\ log' = log) \/
  (error = EPERM /\ ~ permitted kw current same_cred priv /\ log_ok log' /\
   recorded (priv, match current with Some _ => cut_string 19 name | None => [] end) log log').
Proof.
  pose proof (entitled_spec kw current same_cred priv) as Hent. unfold sweet_sandbox_priv_grant, permitted.
  match type of Hent with ?x = true <-> _ => set (entitled := x) in * end.
  destruct ((priv =? PRIV_WORK_INTERVAL) || (priv =? PRIV_VM_FOOTPRINT_LIMIT) || (priv =? PRIV_DARKBOOT) || (priv =? PRIV_SETPRIORITY_DARWIN_ROLE)) eqn:E4.
  { left. split_and!; [done | left | done]. rewrite !orb_true_iff, !Z.eqb_eq in E4. rewrite !elem_of_cons. tauto. }
  assert (priv ∉ [PRIV_WORK_INTERVAL; PRIV_VM_FOOTPRINT_LIMIT; PRIV_DARKBOOT; PRIV_SETPRIORITY_DARWIN_ROLE]) as Hno.
  { rewrite !orb_false_iff, !Z.eqb_neq in E4. rewrite !not_elem_of_cons. pose proof (not_elem_of_nil priv). tauto. }
  destruct entitled eqn:Ee; [left; split_and!; [done | right; by apply Hent | done] |].
  destruct (record_spec priv (match current with Some _ => cut_string 19 name | None => [] end) log Hlog) as [Hok Hrec].
  assert (~ permitted kw current same_cred priv) as Hnot by (intros [? | Hp]; [done | by apply Hent in Hp]).
  destruct (existsb _ _); [by right |]. destruct (_ <? _); by right.
Qed.

(** A privilege is granted exactly when the policy permits it: always for four of them, else
    only to the calling process under its own credential when its signature's entitlements have
    the table's entry true; every other request gets EPERM.  A grant leaves the log alone; a
    denial is in the log once, with the process name, unless it already has 64 entries. *)
Theorem priv_grant_exact (kw : kworld) (current : option proc) (name : bytes) (same_cred : bool) (priv : Z) (log : priv_log)
    (Hlog : log_ok log) :
  let '(error, log') := sweet_sandbox_priv_grant kw current name same_cred priv log in
  (error = 0 /\ permitted kw current same_cred priv /\ log' = log) \/
  (error = EPERM /\ ~ permitted kw current same_cred priv /\ log_ok log' /\
   recorded (priv, match current with Some _ => cut_string 19 name | None => [] end) log log').
Proof. by apply priv_grant_spec. Qed.

(** A process whose entitlements let it adjust the memory limits. *)
Definition jetsam_world : kworld := KWorld {[ 5 := (Ent [(lit "com.apple.private.kernel.jetsam", OSBoolean true)] 6 13, 1) ]} ∅ 0 7 [] [].
Definition jetsam_blob : cs_blob := CsBlob true 0 0 CS_VALID 0 0 4096 277 0 4096 [] None 12 0 4124 0 4360 0 5 false false 0 false 0.
Definition jetsam_proc : option proc := Some (Proc (Some [jetsam_blob]) CS_SIGNED 0).

Lemma priv_grant_exact_witness :
  sweet_sandbox_priv_grant jetsam_world jetsam_proc (lit "memd") true PRIV_VM_JETSAM (PrivLog [] []) = (0, PrivLog [] []) /\
  (sweet_sandbox_priv_grant jetsam_world jetsam_proc (lit "memd") true PRIV_VFS_SNAPSHOT (PrivLog [] [])).1 = EPERM.
Proof.
  assert (log_ok (PrivLog [] [])) as Hok by (split; [vm_compute; discriminate | constructor | reflexivity]).
  pose proof (priv_grant_exact jetsam_world jetsam_proc (lit "memd") true PRIV_VM_JETSAM (PrivLog [] []) Hok) as H1.
  pose proof (priv_grant_exact jetsam_world jetsam_proc (lit "memd") true PRIV_VFS_SNAPSHOT (PrivLog [] []) Hok) as H2.
  split.
  - destruct (sweet_sandbox_priv_grant _ _ _ _ PRIV_VM_JETSAM _) as [e log']. destruct H1 as [(-> & _ & ->) | (_ & Hn & _)]; [done |].
    destruct Hn. right. split; [done |]. split; [by eexists |]. exists (lit "com.apple.private.kernel.jetsam").
    split; [apply (bool_decide_unpack _); by vm_compute | by vm_compute].
  - destruct (sweet_sandbox_priv_grant _ _ _ _ PRIV_VFS_SNAPSHOT _) as [e log'] eqn:E. destruct H2 as [(-> & _ & ->) | (-> & _)]; [| done].
    vm_compute in E. discriminate.
Defined.

(** ** Container paths *)

(** The pieces between NULs; the last one has none behind it. *)
Fixpoint chunks (s : bytes) : list bytes :=
  match s with
  | [] => [[]]
  | c :: s =>
      if c =? 0 then [] :: chunks s
      else match chunks s with x :: xs => (c :: x) :: xs | [] => [[c]] end
  end.

Definition is_container (s : bytes) : bool :=
  (zlen SANDBOX_CONTAINER_VARIABLE <? zlen s) && bool_decide (take 18 s = SANDBOX_CONTAINER_VARIABLE).
(** The value of the variable in the first terminated string that sets it. *)
Definition container_of (s : bytes) : option bytes := drop 18 <$> List.find is_container (removelast (chunks s)).

Lemma chunks_nonempty s : chunks s <> [].
Proof. destruct s as [|c s]; cbn; [done |]. destruct (c =? 0); [done |]. by destruct (chunks s). Qed.

Lemma chunks_nul u r : no_nul u -> chunks (u ++ 0 :: r) = u :: chunks r.
Proof.
  induction u as [|c u IH]; intros Hn; cbn [app chunks]; [done |]. apply Forall_cons in Hn as [Hc Hn].
  rewrite (proj2 (Z.eqb_neq c 0)) by done. by rewrite IH.
Qed.

Lemma chunks_last u : no_nul u -> chunks u = [u].
Proof.
  induction u as [|c u IH]; intros Hn; cbn [chunks]; [done |]. apply Forall_cons in Hn as [Hc Hn].
  rewrite (proj2 (Z.eqb_neq c 0)) by done. by rewrite IH.
Qed.

Lemma strnlen_split s : exists u, no_nul u /\ strnlen s = zlen u /\ (s = u \/ exists r, s = u ++ 0 :: r).
Proof.
  induction s as [|c s (u & Hu & Hl & Hs)]; cbn [strnlen]; [exists []; split_and!; [constructor | done | by left] |].
  destruct (Z.eqb_spec c 0) as [-> | Hc].
  - exists []. split_and!; [constructor | done | right; by exists s].
  - exists (c :: u). rewrite zlen_cons. split_and!; [by constructor | by rewrite Hl |].
    destruct Hs as [-> | [r ->]]; [by left | right; by exists r].
Qed.

Lemma container_step u r : no_nul u -> container_of (u ++ 0 :: r) = if is_container u then Some (drop 18 u) else container_of r.
Proof.
  intros Hu. unfold container_of. rewrite chunks_nul by done. pose proof (chunks_nonempty r).
  change (removelast (u :: chunks r)) with (match chunks r with [] => [] | _ :: _ => u :: removelast (chunks r) end).
  destruct (chunks r) eqn:E; [done |]. cbn [List.find]. by destruct (is_container u).
Qed.

Lemma drop_nul (u r : bytes) : drop (Z.to_nat (zlen u + 1)) (u ++ 0 :: r) = r.
Proof.
  change (u ++ 0 :: r) with (u ++ [0] ++ r). rewrite app_assoc. apply drop_app_length'. rewrite length_app. unfold zlen. cbn. lia.
Qed.

(** The search ends and finds that value. *)
Lemma find_container_spec fuel : forall s, (length s < fuel)%nat -> find_container fuel s = Ret (container_of s).
Proof.
  induction fuel as [|fuel IH]; intros s Hf; [lia |]. cbn [find_container]. destruct s as [|c0 s0] eqn:Es; [done |]. rewrite <- Es in *.
  assert (s <> []) as Hne by (by subst). clear Es c0 s0. change (zlen SANDBOX_CONTAINER_VARIABLE) with 18.
  change (Z.to_nat 18) with 18%nat.
  destruct (strnlen_split s) as (u & Hu & -> & Hs). destruct Hs as [-> | [r ->]].
  - rewrite (Z.ltb_irrefl (zlen u)), andb_false_r. cbn [andb].
    rewrite drop_ge by (unfold zlen; lia). destruct fuel as [|fuel]; [destruct u; cbn in Hf; (done || lia) |]. cbn [find_container].
    unfold container_of. by rewrite chunks_last.
  - rewrite container_step by done. unfold is_container. change (zlen SANDBOX_CONTAINER_VARIABLE) with 18.
    rewrite zlen_app, zlen_cons. pose proof (zlen_nonneg r). rewrite (proj2 (Z.ltb_lt (zlen u) _)) by lia. rewrite andb_true_r.
    destruct (Z.ltb_spec 18 (zlen u)) as [Hl | Hl]; cbn [andb].
    + rewrite take_app_le by (unfold zlen in *; lia). case_bool_decide.
      * rewrite drop_app_le by (unfold zlen in *; lia). rewrite take_app_le by (rewrite length_drop; unfold zlen in *; lia).
        by rewrite take_ge by (rewrite length_drop; unfold zlen in *; lia).
      * by rewrite drop_nul, IH by (rewrite length_app in Hf; cbn in Hf; lia).
    + by rewrite drop_nul, IH by (rewrite length_app in Hf; cbn in Hf; lia).
Qed.

(** What the lookup relies on: a range read from a map has its length, page masks are those of
    pages of up to 64K, and lengths of arguments are 32-bit numbers. *)
Class KernelLaws (k : kernel) : Prop := {
  kl_copyin : forall map a n s, k_copyin k map a n = Some s -> zlen s = n;
  kl_mask : forall map, exists j, 0 <= j <= 16 /\ k_page_mask k map = 2 ^ j - 1;
  kl_argslen : forall pid t, k_proc_find k pid = Some t -> is_u32 (t_argslen t);
}.

(** The answer, from what the kernel says: the error and what is copied out. *)
Definition container_answer (k : kernel) (arg : Z) : Z * list (Z * bytes) :=
  let '(error, args) := us_copyin (k_user k) arg 40 in
  let field i := le_combine (take 8 (drop (8 * i) args)) in
  if negb (error =? 0) then (error, [])
  else
    match k_proc_find k (s32 (field 0%nat)) with
    | None => (ESRCH, [])
    | Some p =>
        if negb (field 4%nat =? 0) && negb (u64 (t_pidversion p) =? field 1%nat) then (ESRCH, [])
        else
          match (if (t_user_stack p =? 0) || (t_argslen p =? 0) then None else t_task p) ≫= k_task_map k with
          | None => (ENOENT, [])
          | Some map =>
              let size := vm_map_round_page (t_argslen p) (k_page_mask k map) in
              if negb (k_alloc_ok k size) then (ENOMEM, [])
              else
                match k_copyin k map (u64 (t_user_stack p - size)) size with
                | Some strings =>
                    if negb (k_overwrite_ok k) then (ENOENT, [])
                    else
                      match container_of (drop (Z.to_nat (size - t_argslen p)) strings) with
                      | None => (0, [])
                      | Some s =>
                          if zlen s <? field 3%nat
                          then (us_copyout (k_user k) (field 2%nat) (s ++ [0]), [(field 2%nat, s ++ [0])])
                          else (ENAMETOOLONG, [])
                      end
                | None => (ENOENT, [])
                end
          end
    end.

Lemma round_page_spec x j : is_u32 x -> 0 <= j <= 16 -> vm_map_round_page x (2 ^ j - 1) = 2 ^ j * ((x + (2 ^ j - 1)) / 2 ^ j) /\
  x <= vm_map_round_page x (2 ^ j - 1).
Proof.
  intros Hx Hj. assert (0 < 2 ^ j <= 2 ^ 16) as Hp by (split; [apply Z.pow_pos_nonneg | apply Z.pow_le_mono_r]; lia).
  change (2 ^ 16) with 65536 in Hp.
  assert (vm_map_round_page x (2 ^ j - 1) = 2 ^ j * ((x + (2 ^ j - 1)) / 2 ^ j)) as E.
  { unfold vm_map_round_page. cint_unfold. rewrite u64_small by (cint_unfold; lia). unfold u64.
    rewrite land_mod_pow2_r by lia. by rewrite land_lnot_ones by lia. }
  split; [done |]. rewrite E. pose proof (Z.div_mod (x + (2 ^ j - 1)) (2 ^ j)) as Hd.
  pose proof (Z.mod_pos_bound (x + (2 ^ j - 1)) (2 ^ j)). lia.
Qed.

(** Everything is given back. *)
Definition with_out (h : held) (out : list (Z * bytes)) : held :=
  Held (h_procs h) (h_tasks h) (h_maps h) (h_copies h) (h_buffers h) (h_out h ++ out).

Ltac steps := repeat (cbv beta iota; first [rewrite run_assoc | rewrite run_act | rewrite run_ret]); cbv beta iota.
Lemma plift_run {W A} {o : option A} {a} {w : W} : o = Some a -> plift o w = Ret (a, w).
Proof. by intros ->. Qed.

Lemma held_eq h h' : h_procs h = h_procs h' -> h_tasks h = h_tasks h' -> h_maps h = h_maps h' -> h_copies h = h_copies h' ->
  h_buffers h = h_buffers h' -> h_out h = h_out h' -> h = h'.
Proof. destruct h, h'; cbn. by intros -> -> -> -> -> ->. Qed.
Ltac give_back h :=
  steps; unfold mret, prog_ret; cbn [fst snd]; do 2 f_equal; apply held_eq; unfold with_out;
  cbn [h_procs h_tasks h_maps h_copies h_buffers h_out take_proc take_task take_map take_copy take_buffer put_out];
  rewrite ?app_nil_r; (done || lia).

Lemma container_refines k arg h : KernelLaws k ->
  sweet_sandbox_container_path k arg h = Ret (fst (container_answer k arg), with_out h (snd (container_answer k arg))).
Proof.
  intros [Hlen Hmask Hargs]. unfold sweet_sandbox_container_path, container_answer.
  destruct (us_copyin (k_user k) arg 40) as [error args]. cbv beta zeta.
  destruct (negb (error =? 0)); [give_back h |].
  destruct (k_proc_find k _) as [p |] eqn:Ep; [| give_back h].
  specialize (Hargs _ _ Ep). steps.
  destruct (_ && _); [give_back h |].
  destruct (t_task p) as [task |]; [| destruct (_ || _); give_back h].
  destruct (_ || _); [give_back h |]. cbn [mbind option_bind].
  destruct (k_task_map k task) as [map |]; [| give_back h].
  destruct (Hmask map) as (j & Hj & Ej). destruct (round_page_spec (t_argslen p) j Hargs Hj) as [_ Hge]. rewrite <- Ej in Hge.
  set (size := vm_map_round_page (t_argslen p) (k_page_mask k map)) in *. clearbody size.
  steps.
  destruct (negb (k_alloc_ok k size)); [give_back h |].
  destruct (k_copyin k map (u64 (t_user_stack p - size)) size) as [strings |] eqn:Ec; [| give_back h].
  specialize (Hlen _ _ _ _ Ec). steps.
  destruct (negb (k_overwrite_ok k)); [give_back h |].
  assert (sub_bytes strings (size - t_argslen p) (t_argslen p) = Some (drop (Z.to_nat (size - t_argslen p)) strings)) as Hsub.
  { cint_unfold. rewrite sub_bytes_in by lia. f_equal. apply take_ge. rewrite length_drop. unfold zlen in Hlen. lia. }
  set (area := drop (Z.to_nat (size - t_argslen p)) strings) in *.
  match goal with |- context [plift (W := held) _ ≫= ?f] => rewrite (run_bind f _ _ area _ (plift_run Hsub)) end.
  rewrite (run_attempt _ _ _ _ (find_container_spec (S (length area)) area ltac:(lia))).
  destruct (container_of area) as [s |]; [destruct (zlen s <? _) |]; give_back h.
Qed.


(** A kernel with one process, whose arguments end in the variable. *)
Definition sample_env : bytes :=
  lit "/bin/app" ++ [0] ++ lit "CFFIXED_USER_HOME" ++ [0] ++ lit "CFFIXED_USER_HOME=/var/mobile" ++ [0] ++ lit "CFFIXED_USER_HOME=/x".
Definition sample_request (size : Z) : bytes :=
  le_split 8 7 ++ le_split 8 3 ++ le_split 8 0x5000 ++ le_split 8 size ++ le_split 8 1.
Definition sample_kernel (env : bytes) (size : Z) : kernel :=
  KernelOps (UserSpace (fun _ _ => (0, sample_request size)) (fun _ _ => 0))
    (fun pid => if pid =? 7 then Some (Target 3 0x7000000 (zlen env) (Some 1)) else None)
    (fun t => if t =? 1 then Some 2 else None) (fun _ => 4095)
    (fun _ _ n => if n =? 4096 then Some (replicate (Z.to_nat (4096 - zlen env)) 0 ++ env) else None)
    (fun _ => true) true.

Lemma sample_kernel_laws env size : zlen env <= 4096 -> KernelLaws (sample_kernel env size).
Proof.
  intros He. split; cbn.
  - intros _ _ n s. destruct (Z.eqb_spec n 4096) as [-> |]; [| done]. intros [= <-]. rewrite zlen_app, zlen_replicate. lia.
  - intros _. exists 12. split; [lia | done].
  - intros pid t. destruct (pid =? 7); [| done]. intros [= <-]. cbn. pose proof (zlen_nonneg env). cint.
Qed.


(** A process that does not set the variable is reported as a success with nothing copied out. *)
Lemma container_path_missing :
  sweet_sandbox_container_path (sample_kernel (lit "/bin/app" ++ [0]) 1024) 0x4000 (Held 0 0 0 0 0 []) = Ret (0, Held 0 0 0 0 0 []).
Proof. vm_compute. reflexivity. Qed.

(** ** The log of system calls *)

(** The bits are the operations printed, each once. *)
Record seen_ok (st : sandbox_state) : Prop := {
  so_once : NoDup ((ss_printed st).*1);
  so_range : Forall (fun c => 0 <= c < 64) ((ss_printed st).*1);
  so_bits : forall c, 0 <= c < 64 -> Z.testbit (ss_seen st) c = true <-> c ∈ (ss_printed st).*1;
}.

Lemma bit_clear x c : 0 <= c < 64 -> (Z.land x (u64 (Z.shiftl 1 c)) =? 0) = negb (Z.testbit x c).
Proof.
  intros Hc. assert (u64 (Z.shiftl 1 c) = 2 ^ c) as ->.
  { rewrite Z.shiftl_1_l. apply u64_small. split; [apply Z.pow_nonneg; lia | apply Z.pow_lt_mono_r; lia]. }
  destruct (Z.testbit x c) eqn:E; cbn [negb].
  - apply Z.eqb_neq. intros H. apply (f_equal (fun v => Z.testbit v c)) in H.
    by rewrite Z.land_spec, Z.pow2_bits_true, E, Z.bits_0 in H by lia.
  - apply Z.eqb_eq, Z.bits_inj'. intros n Hn. rewrite Z.land_spec, Z.pow2_bits_eqb, Z.bits_0 by lia.
    destruct (Z.eqb_spec c n) as [<- | _]; [by rewrite E | apply andb_false_r].
Qed.

Lemma seen_step st c name h : seen_ok st -> 0 <= c < 64 -> Z.testbit (ss_seen st) c = false ->
  seen_ok (SandboxState (Z.lor (ss_seen st) (u64 (Z.shiftl 1 c))) (ss_printed st ++ [(c, name)]) h).
Proof.
  intros [H1 H2 H3] Hc Hbit. assert (u64 (Z.shiftl 1 c) = 2 ^ c) as E.
  { rewrite Z.shiftl_1_l. apply u64_small. split; [apply Z.pow_nonneg; lia | apply Z.pow_lt_mono_r; lia]. }
  assert (c ∉ (ss_printed st).*1) as Hno by (rewrite <- H3 by done; congruence).
  split; cbn; rewrite fmap_app; cbn.
  - apply NoDup_app. split_and!; [done | | apply NoDup_singleton]. by intros x Hx ->%list_elem_of_singleton.
  - apply Forall_app. split; [done | by constructor].
  - intros n Hn. rewrite E, Z.lor_spec, Z.pow2_bits_eqb, orb_true_iff, H3, elem_of_app, list_elem_of_singleton, Z.eqb_eq by lia.
    by split; (intros [? | ?]; [by left | by right]).
Qed.

(** Each sandbox operation is printed the first time it is used and never again, and only
    operations below 64 are; the call always returns, with 0 for every operation but the
    container path, whose answer it passes on. *)
Theorem sandbox_logged_once (k : kernel) (name : bytes) (c arg : Z) (st : sandbox_state) (Hlaws : KernelLaws k) (Hok : seen_ok st) :
  exists e st', sweet_sandbox_syscall k name c arg st = Ret (e, st') /\ seen_ok st' /\
    (0 <= c < 64 -> c ∈ (ss_printed st').*1) /\
    (ss_printed st' = ss_printed st \/ (ss_printed st' = ss_printed st ++ [(c, cut_string 16 name)] /\ c ∉ (ss_printed st).*1)) /\
    (if c =? SANDBOX_SYSCALL_CONTAINER_PATH
     then e = fst (container_answer k arg) /\ ss_held st' = with_out (ss_held st) (snd (container_answer k arg))
     else e = 0 /\ ss_held st' = ss_held st).
Proof.
  unfold sweet_sandbox_syscall.
  set (st1 := if _ : bool then SandboxState _ _ _ else st).
  assert (seen_ok st1 /\ (0 <= c < 64 -> c ∈ (ss_printed st1).*1) /\ ss_held st1 = ss_held st /\
    (ss_printed st1 = ss_printed st \/ (ss_printed st1 = ss_printed st ++ [(c, cut_string 16 name)] /\ c ∉ (ss_printed st).*1)))
    as (Hok1 & Hin & Hh & Hp).
  { unfold st1. destruct (Z.leb_spec 0 c), (Z.ltb_spec c 64); cbn [andb]; try (split_and!; [done | lia | done | by left]).
    rewrite bit_clear by lia. destruct (Z.testbit (ss_seen st) c) eqn:Eb; cbn [negb].
    - split_and!; [done | | done | by left]. intros _. by apply (so_bits st Hok).
    - split_and!; [by apply seen_step | | done |]; cbn.
      + intros _. rewrite fmap_app. apply elem_of_app. right. by apply list_elem_of_singleton.
      + right. split; [done |]. rewrite <- (so_bits st Hok) by lia. congruence. }
  clearbody st1. destruct (c =? SANDBOX_SYSCALL_CONTAINER_PATH).
  - rewrite container_refines by done. cbn [mbind outcome_bind]. eexists _, _. split; [reflexivity |]. cbn. rewrite Hh.
    split_and!; try done. by destruct Hok1.
  - by exists 0, st1.
Qed.

Lemma sandbox_logged_once_witness : exists st',
  sweet_sandbox_syscall (sample_kernel sample_env 8) (lit "backboardd") 4 0x4000 (SandboxState 0 [] (Held 0 0 0 0 0 [])) = Ret (ENAMETOOLONG, st') /\
  4 ∈ (ss_printed st').*1.
Proof.
  destruct (sandbox_logged_once (sample_kernel sample_env 8) (lit "backboardd") 4 0x4000 (SandboxState 0 [] (Held 0 0 0 0 0 [])))
    as (e & st' & Hr & _ & Hin & _ & He).
  - apply sample_kernel_laws. vm_compute. discriminate.
  - split; cbn; [constructor | constructor |]. intros c _. rewrite Z.bits_0. split; [done |]. by intros ?%elem_of_nil.
  - exists st'. cbn [Z.eqb SANDBOX_SYSCALL_CONTAINER_PATH Pos.eqb] in He. destruct He as [-> _].
    split; [rewrite Hr; vm_compute; reflexivity | apply Hin; lia].
Defined.

(** ** From signature to privilege *)


